(* ===== verification/_CoqProject ===== *)
-Q . S2P
Prelude.v
Bitmap.v
Klist.v
PageAlloc.v
OnePage.v
Sched.v
Slab.v
Alloc.v
Bytes.v
Errno.v
Fat32.v
Font.v
Printk.v
Timer.v
Vfs.v
Sys.v
Keyboard.v
Shell.v
Disk.v
Paging.v
Mm.v
Pool.v
Task.v
TaskDemo.v
Bits.v
Gate.v
Apic.v
Irq.v
Spin.v
Mouse.v
Trap.v
Fault.v
Smp.v
Asm.v
Cstr.v
Ulib.v
Exec.v
Kmap.v
Boot.v
Cmos.v
Drivers.v
Entry.v
Syscall.v
Mount.v
Kheap.v
Kinit.v
Kalloc.v
