(* ===== verification/Prelude.v ===== *)
(** * Verification of the q2os kernel: overview

    q2os is a small x86-64 kernel in C.  This library models the parts of it that carry its
    own logic and proves them correct.  Every definition is a translation of the C code
    named in the file that holds it; nothing is assumed.

    ** The program and the files that model it

    - Memory.  memory.c and memory.h: a physical page allocator over 2 MB pages (a bit map, an
      array of [struct Page], zones), and on top of it the object allocator [kmalloc]/[kfree]
      and the slab caches.  [Bitmap] is the bit-map idiom both use, [PageAlloc] the page
      allocator with [init_memory], [Slab] the object allocator.  [OnePage] describes taking and giving
      back single pages, [Kheap] the invariant of the whole allocator and what [kmalloc] and [kfree] do
      to it, [Kinit] the state after [slab_init], and [Kalloc] shows that the allocator satisfies the
      laws the other parts rely on.
    - Lists.  lib.h: the intrusive circular lists used everywhere.  [Klist] models them over a
      store of nodes, in the order of the C statements, with the abstract view [ring].
    - Scheduling.  schedule.c, semaphore.h, the reschedule interrupt of SMP.c: [Sched] models
      the run queue of a processor, wait queues and semaphores.
    - Time.  main.c and HPET.c: [Timer] models soft interrupts, the kernel timer list and the
      clock interrupt, which also drives the slice of the scheduler.
    - Files.  fat32.c and fat32.h: [Fat32] models the file system on a block device (reading,
      writing, seeking, listing, looking up).  VFS.c: [Vfs] models path resolution and the list of
      file system types.  [Mount] mounts the first partition, which brings the two together.  sys.c: [Sys] models the system calls on files.
      [Bytes] holds buffers and the checked copies to and from user memory of lib.h, [Errno]
      the constants of sys.h.
    - Console.  printk.c, printk.h, font.h: [Printk] models [vsprintf] and [color_printk] with
      the cursor and the frame buffer, [Font] the glyphs.
    - Keyboard and mouse.  keyboard.c, keyboard.h, mouse.c: [Keyboard] models the ring buffer
      between the interrupt handler and its readers, [Mouse] the mouse driver: its interrupt, the
      decoder of packets in the main loop, and how it registers itself.
    - Shell.  user/shell.c, user/keyboard.c, user/init.c: [Shell] models the decoder of scan
      codes, the line editor, the parser of the command line and the command cd.
    - Disk.  disk.c: [Disk] models the queue of requests and the interrupt-driven state machine
      that serves them.
    - Address spaces.  memory.c, sys.c, task.c: [Paging] models page tables in a memory of words,
      [do_brk] and [pagetable_init]; [Mm] models [copy_mm], [exit_mm] and the address space a new
      program gets; [Pool] is a heap with pages, with examples.  printk.c, APIC.c, task.c: [Kmap]
      models the mappings of the devices and how the kernel's half comes to be shared.
    - Tasks.  task.c, sys.c: [Task] models [do_fork], [do_exit] and [sys_wait4] on the list of all
      tasks, the run queue and the address spaces; [TaskDemo] runs them on two processes.  [Boot]
      models [task_init], which makes the first two tasks.
    - Entry and exit.  entry.S, task.h, user/syscall.c: [Entry] models the code through which
      interrupts, exceptions and system calls enter and leave the kernel, and [switch_to],
      instruction by instruction.  syscalls.c, sys.c: [Syscall] models the table of the system
      calls, and which function a program reaches.
    - Programs.  task.c, sys.c: [Exec] models [do_execve] on files, address spaces and user memory.
      user/userlibs.c: [Ulib] models [malloc] over [brk], and [wait].
    - Memory and string functions.  lib.h, user/userlibs.c: they are inline assembly.  [Asm] gives the
      instructions they use a meaning, [Cstr] holds their code and proves it against the functions
      that the other files use.
    - Interrupts.  gate.h, trap.c: [Gate] models the gates, the task state segments and their
      descriptors.  APIC.c, APIC.h: [Apic] models the redirection table of the I/O APIC and the
      local APIC.  interrupt.c: [Irq] models registration and [do_IRQ].  [Fault] models what the
      exception handlers report.  kallsyms.c, backtrace.c: [Trap] models the symbol table, from the
      tool that writes it to the walk along the stack frames.  [Bits] packs and unpacks bit fields.
    - Start.  main.c, HPET.c: [Cmos] models the reading of the clock chip, [Drivers] puts the drivers
      on one machine and models how they are set up, one after the other.
    - Processors.  spinlock.h, task.h: [Spin] models the instructions of the spin lock on several
      processors.  SMP.c: [Smp] models how the other processors are started.

    The parts meet through interfaces.  [Fat32] sees the disk as the class [BlockDevice]
    ([BlockDeviceLaws]: what is written is read back, other sectors keep their contents; the
    instance [ramdisk] satisfies them).  [Vfs] sees a file system as the class [InodeOps]
    (instances [fat32_inode_ops] and a small tree), and the heap as the class [Allocator] with
    [AllocatorLaws] (instances [arena], a set of addresses for small examples, and [kheap], which is
    [kmalloc], [kfree], [alloc_pages] and [free_pages] on the states that satisfy the invariant).  [Sys] sees the operations of a file as the record
    [file_operations], of which [FAT32_file_ops] is one.  [Paging] adds the pages to the heap
    ([Frames], [PagingLaws]), [Task] the alignment of stacks ([TaskLaws]); [kheap] and [pool] satisfy
    both.  The laws promise an object only for the sizes [kmalloc] serves, up to 1 MB, and only while
    there is room; [Kalloc.kernel_heap_start] says how much room the kernel has after the start: three
    free pages of 2 MB for each object, one for each page of a process, which is enough for
    [task_init] on the machines of deploy/ (2 GB).  [Disk] sees the drive as the class [ATA_drive],
    which says how a drive takes commands, when it asks for data and when it delivers them.
    The drivers see the I/O ports as the class [Ports] and the interrupt controllers as [Machine]
    ([MachineLaws]: the redirection table keeps what is written; the instance [chip]).

    ** How the C code is translated

    Integers are [Z] with the wrap-around of their width written out ([u8] ... [u64], [i8] ...
    [i64]).  A pointer is an address, or the index of the object where all objects of a kind
    are in one array; memory is a finite map or a list.  State is passed explicitly, and a
    function returns [option]: [None] is a fault (a NULL or wild pointer, an access outside an
    array, a division by zero), so that a theorem that says [= Some ...] says that the code
    does not fault.  A loop without a structural bound takes fuel; running out is [None] too,
    so the same theorems say that the loop ends, and each names the fuel that is enough.
    Code the model does not contain (interrupt handlers called through pointers, a file system
    behind [InodeOps]) is a parameter of the definitions that call it.

    ** What is proved

    - [PageAlloc]: [alloc_pages] is total and correct on every request and keeps the invariant
      [pmm_wf]; [free_pages] undoes it; [init_zone] builds the bit map, pages and counters.
    - [Slab]: [kmalloc] returns a fresh object of sufficient size inside its slab; [kfree]
      undoes it; the colour map of a new slab.
    - [Kheap], [Kinit], [Kalloc]: every call of [kmalloc] and [kfree], also those that make a slab or give
      one back, keeps the invariant; objects in use never overlap; a request fails only above 1 MB or
      when fewer than three pages are free; [slab_init] establishes the invariant; the laws of the
      heap hold for the allocator.
    - [Sched]: [insert_task_queue] is sorted insertion; [schedule] is total, loses no task and
      picks the least [vrun_time]; semaphores down and up; a slice that became negative stays so.
    - [Timer]: where [add_timer] inserts, which timers [do_timer] runs, that [do_softirq], with
      [do_timer] registered as the kernel does, serves every raised softirq once; Examples of the cases in which they do not work.
    - [Fat32]: table entries read back as written, allocation of clusters, reading and writing
      file contents, seeking; Examples of the writes that corrupt the disk.
    - [Vfs], [Sys]: path resolution refines resolution component by component; the descriptor
      table is consistent under every sequence of calls; opening, reading, closing.  [Mount]: mounting
      establishes what the theorems of [Fat32] and [Vfs] suppose.
    - [Printk]: [vsprintf] returns on every format; field widths; print and parse round trip; the
      cursor stays on the screen and drawing in the frame buffer.
    - [Keyboard], [Mouse]: what readers get, and what is decoded, is what was sent, in order.
    - [Shell]: a line whose scan codes are read one by one arrives in the buffer; an Example of codes that
      are lost, since every read takes up to 16; a line is cut into words; cd with .. returns.
    - [Disk]: every queued request is served by enough interrupts of a drive without errors, and its task
      is woken; a concrete drive shows that [ATA_drive] can be met.
    - [Paging], [Mm]: which addresses translate to what after brk, fork and exit, and that other
      tables and pages are left alone; examples of what is lost.
    - [Task]: [do_fork], [do_exit] and [sys_wait4] keep the invariant [tasks_ok], which ties the list
      of tasks, the run queue and the address spaces together, and what they do to it; an Example in
      [TaskDemo] of a task that [sys_wait4] loses.
    - [Cstr]: [memcpy], [memset] and the string functions do what C says, from their instructions; the
      copies to and from user memory, [strcmp] and [strnlen_user] are the functions [Bytes], [Shell]
      and [Sys] use; an Example of [memcmp] that depends on old flags.
    - [Exec]: a program that is found is started with its contents and arguments in place.  [Ulib]:
      the blocks of [malloc] are mapped and apart; Examples of what it does without memory.
    - [Gate]: the gates and descriptors written are the ones the processor needs.  [Apic], [Irq]: any
      sequence of registrations refines a table of lines.  [Trap]: the backtrace names the functions
      that made the calls, and that of the fault unless it happened at a first instruction.  [Fault]: reports of different errors differ.
    - [Entry]: interrupts and system calls restore the registers they should, and hand a complete
      frame to C; interrupt gates disable interrupts and trap gates do not; a task comes back from a switch as it left.  [Syscall]: what a number leads to, and
      what the third argument, which the entry code overwrites, does to the calls that have one.
    - [Kmap], [Boot], [Drivers], [Cmos]: after the start the kernel's half of every address space is
      shared, the invariant of the tasks holds, every line runs the handler of its driver, and the
      time is right unless the clock advanced in the middle.
    - [Spin]: mutual exclusion and progress for any number of processors; an Example in which
      [spin_trylock] breaks exclusion.  [Smp]: the start-up is safe in every interleaving and ends;
      an Example of a processor that loads the task register of another one.

    ** Fuel

    [scan_zones] and [scan_zone] of the page allocator run over a computed range and need none.
    [FUEL] = 3 bounds the nesting [kmalloc] -> [kmalloc_create] -> [kmalloc]: a large cache takes
    its descriptor and colour map from small caches, whose own slabs hold theirs inside the
    page.  The loops over the run queue take its length plus one, FAT32 loops the number of
    clusters to be read, [vsprintf] the length of the format plus one, [path_walk] the length of
    the path plus one; [do_timer] and [do_softirq] take fuel as an argument, since timers and
    handlers may requeue themselves for ever.
    The searches of [Task] take the number of tasks plus one; [backtrace] has its own bound of ten.
    Machine code takes the number of instructions; 14 more than the bytes copied are enough for
    [memcpy], 2^21 + 14 for a program, and five for each character of an argument.
    The relations of [Spin] and [Smp] need none.

    ** What is not modelled

    The boot loader, the code that enters long mode (kernel_header.S, APU_boot.S), the messages and
    the order of [Start_Kernel], cpuid; 8259A.c, which the default build leaves out; the TLB; of
    [HPET_init] the build for another machine than Bochs.  Interrupt handlers are modelled as
    the functions they are, at the points where the theorems name them, not as preemptions of every
    other function.  Only [Spin] and [Smp] model several processors at the same time; the other
    files treat one, and leave the locks out.  Messages the kernel prints on the way are left out,
    except for the reports of exceptions; of user/ only the shell, the heap and wait.
    Errors of the drive are left out of [Disk].  [Kalloc] keeps, beside the state of the allocator, which
    objects were asked for as page tables and which pages were given to processes, which the code
    does not record.
*)

From stdpp Require Export base tactics numbers list gmap.
From Stdlib Require Export ZArith Lia.

#[global] Open Scope Z_scope.
#[global] Set Default Goal Selector "!".

(** ** Machine integers *)

(** [unsigned char], [unsigned short], [unsigned int] and [unsigned long]
    arithmetic of the x86-64 ABI: truncation to the width of the type. *)
Definition u8 (z : Z) : Z := z `mod` 2 ^ 8.
Definition u16 (z : Z) : Z := z `mod` 2 ^ 16.
Definition u32 (z : Z) : Z := z `mod` 2 ^ 32.
Definition u64 (z : Z) : Z := z `mod` 2 ^ 64.

(** [int] and [long]: two's complement reinterpretation. *)
Definition i8 (z : Z) : Z := (z + 2 ^ 7) `mod` 2 ^ 8 - 2 ^ 7.
Definition i32 (z : Z) : Z := (z + 2 ^ 31) `mod` 2 ^ 32 - 2 ^ 31.
Definition i64 (z : Z) : Z := (z + 2 ^ 63) `mod` 2 ^ 64 - 2 ^ 63.

(** The value [0xffffffffffffffffUL]. *)
Definition all_ones : Z := 2 ^ 64 - 1.

Declare Scope cint_scope.
Delimit Scope cint_scope with cint.
Notation "x .+ y" := (u64 (x + y)) (at level 50, left associativity) : cint_scope.
Notation "x .- y" := (u64 (x - y)) (at level 50, left associativity) : cint_scope.
Notation "x .* y" := (u64 (x * y)) (at level 40, left associativity) : cint_scope.
Notation "x .<< n" := (u64 (Z.shiftl x n)) (at level 40, left associativity) : cint_scope.
Notation "x .>> n" := (Z.shiftr x n) (at level 40, left associativity) : cint_scope.
Notation "x .& y" := (Z.land x y) (at level 45, left associativity) : cint_scope.
Notation "x .^ y" := (Z.lxor x y) (at level 47, left associativity) : cint_scope.
Notation "x .| y" := (Z.lor x y) (at level 48, left associativity) : cint_scope.
(** [~x] on an [unsigned long]. *)
Notation ".~ x" := (u64 (Z.lnot x)) (at level 30, right associativity) : cint_scope.
#[global] Open Scope cint_scope.

Definition word64 (w : Z) : Prop := 0 <= w < 2 ^ 64.

#[global] Instance word64_dec w : Decision (word64 w).
Proof. unfold word64. apply _. Defined.

Create HintDb cint discriminated.

Lemma u64_range z : 0 <= u64 z < 2 ^ 64.
Proof. unfold u64. apply Z.mod_pos_bound. lia. Qed.

Lemma u64_small z : 0 <= z < 2 ^ 64 -> u64 z = z.
Proof. unfold u64. apply Z.mod_small. Qed.

Lemma u32_small z : 0 <= z < 2 ^ 32 -> u32 z = z.
Proof. unfold u32. apply Z.mod_small. Qed.

Lemma u32_range z : 0 <= u32 z < 2 ^ 32.
Proof. unfold u32. apply Z.mod_pos_bound. lia. Qed.

Lemma u8_range z : 0 <= u8 z < 2 ^ 8.
Proof. unfold u8. apply Z.mod_pos_bound. lia. Qed.

Lemma u8_small z : 0 <= z < 2 ^ 8 -> u8 z = z.
Proof. unfold u8. apply Z.mod_small. Qed.

Lemma i64_small z : - 2 ^ 63 <= z < 2 ^ 63 -> i64 z = z.
Proof. intros. unfold i64. rewrite Z.mod_small; lia. Qed.

Lemma i32_small z : - 2 ^ 31 <= z < 2 ^ 31 -> i32 z = z.
Proof. intros. unfold i32. rewrite Z.mod_small; lia. Qed.

Lemma i64_range z : - 2 ^ 63 <= i64 z < 2 ^ 63.
Proof. unfold i64. pose proof (Z.mod_pos_bound (z + 2 ^ 63) (2 ^ 64)). lia. Qed.

Lemma u64_idemp z : u64 (u64 z) = u64 z.
Proof. apply u64_small, u64_range. Qed.

(** Modular arithmetic: truncating an operand first does not change the result. *)
Lemma u64_add_l x y : u64 (u64 x + y) = u64 (x + y).
Proof. unfold u64. apply Z.add_mod_idemp_l. lia. Qed.
Lemma u64_add_r x y : u64 (x + u64 y) = u64 (x + y).
Proof. unfold u64. apply Z.add_mod_idemp_r. lia. Qed.
Lemma u64_sub_l x y : u64 (u64 x - y) = u64 (x - y).
Proof. unfold u64. apply Zminus_mod_idemp_l. Qed.

Create Rewrite HintDb cint.
#[export] Hint Rewrite u64_add_l u64_add_r u64_sub_l u64_idemp : cint.
#[export] Hint Resolve u64_range u32_range u8_range : cint.

(** ** Bits *)

Lemma testbit_u64 z i : 0 <= i -> Z.testbit (u64 z) i = (i <? 64) && Z.testbit z i.
Proof. intros. unfold u64. apply Z.testbit_mod_pow2. lia. Qed.

Lemma testbit_word64_high w i : word64 w -> 64 <= i -> Z.testbit w i = false.
Proof.
  intros [??] ?. apply (proj1 (Z.bounded_iff_bits_nonneg' 64 w ltac:(lia) ltac:(lia))); lia.
Qed.

(** [1UL << i] for a shift count below the width. *)
Lemma u64_bit i : 0 <= i < 64 -> 1 .<< i = 2 ^ i.
Proof.
  intros. rewrite Z.shiftl_1_l. apply u64_small.
  split; [lia | apply Z.pow_lt_mono_r; lia].
Qed.

Lemma testbit_bit i j : 0 <= i < 64 -> Z.testbit (1 .<< i) j = bool_decide (i = j).
Proof.
  intros. rewrite u64_bit by lia. rewrite Z.pow2_bits_eqb by lia.
  case_bool_decide; [by apply Z.eqb_eq | by apply Z.eqb_neq].
Qed.

Lemma word64_of_bits w : 0 <= w -> (forall i, 64 <= i -> Z.testbit w i = false) -> word64 w.
Proof. intros ? H. apply (Z.bounded_iff_bits_nonneg' 64 w); [lia..|]. intros. by apply H. Qed.

Lemma word64_lor x y : word64 x -> word64 y -> word64 (x .| y).
Proof.
  intros Hx Hy. apply word64_of_bits.
  - apply Z.lor_nonneg. unfold word64 in *. lia.
  - intros i Hi. rewrite Z.lor_spec, !testbit_word64_high; auto.
Qed.
Lemma word64_lxor x y : word64 x -> word64 y -> word64 (x .^ y).
Proof.
  intros Hx Hy. apply word64_of_bits.
  - apply Z.lxor_nonneg. unfold word64 in *. lia.
  - intros i Hi. rewrite Z.lxor_spec, !testbit_word64_high; auto.
Qed.
Lemma word64_land x y : word64 x -> 0 <= y -> word64 (x .& y).
Proof.
  intros Hx Hy. apply word64_of_bits.
  - apply Z.land_nonneg. unfold word64 in *. lia.
  - intros i Hi. rewrite Z.land_spec, testbit_word64_high; auto.
Qed.
Lemma word64_u64 z : word64 (u64 z).
Proof. apply u64_range. Qed.
#[export] Hint Resolve word64_lor word64_lxor word64_land word64_u64 : cint.

(** A mask test [(x & (1UL << i)) == 0] reads one bit. *)
Lemma land_bit_eqb x i : 0 <= i < 64 -> ((x .& (1 .<< i)) =? 0) = negb (Z.testbit x i).
Proof.
  intros Hi. destruct (Z.testbit x i) eqn:Hb; simpl.
  - apply Z.eqb_neq. intros H0.
    assert (Z.testbit (x .& (1 .<< i)) i = false) as H1 by (rewrite H0; apply Z.bits_0).
    rewrite Z.land_spec, testbit_bit, Hb in H1 by lia.
    rewrite bool_decide_eq_true_2 in H1 by done. done.
  - apply Z.eqb_eq. apply Z.bits_inj'. intros n Hn.
    rewrite Z.land_spec, testbit_bit, Z.bits_0 by lia.
    case_bool_decide; subst; [by rewrite Hb | by rewrite andb_false_r].
Qed.

(** Setting bits that are clear is adding them. *)
Lemma lor_low p a k : 0 <= k -> p mod 2 ^ k = 0 -> 0 <= a < 2 ^ k -> p .| a = p + a.
Proof.
  intros Hk Hp Ha. rewrite <- Z.add_nocarry_lor; [done|].
  rewrite <- (Z.mod_small a (2 ^ k)), <- Z.land_ones, (Z.land_comm a), Z.land_assoc, Z.land_ones, Hp
    by lia. apply Z.land_0_l.
Qed.

(** ** The fault monad

    Code that may dereference an invalid pointer or divide by zero is modelled
    in [option]: [None] is the machine fault (or the exhaustion of the fuel of a
    loop that has no structural measure), [Some] the normal return.  Stateful
    code threads its state explicitly. *)

Definition guard_fault (b : bool) : option unit := if b then Some tt else None.

(** Case analysis on every [option] bind of the hypotheses. *)
Ltac inv_fault :=
  repeat match goal with
  | H : mbind _ ?o = Some _ |- _ =>
      let x := fresh "x" in let E := fresh "E" in
      apply bind_Some in H; destruct H as (x & E & H)
  | H : guard_fault ?b = Some _ |- _ =>
      let E := fresh "E" in destruct b eqn:E; cbn in H; [clear H | discriminate H]
  | H : Some _ = Some _ |- _ => injection H as H
  | H : None = Some _ |- _ => discriminate H
  | H : Some _ = None |- _ => discriminate H
  | p : (_ * _)%type |- _ => destruct p
  end; simplify_eq.

(** ** Lists and ranges *)

(** [for (k = lo; k < hi; k++)]: the values the counter takes. *)
Definition range (lo hi : Z) : list Z := seqZ lo (hi - lo).

Lemma in_range lo hi k : k ∈ range lo hi <-> lo <= k < hi.
Proof. unfold range. rewrite elem_of_seqZ. lia. Qed.

Lemma range_nil lo hi : hi <= lo -> range lo hi = [].
Proof. intros. unfold range. apply seqZ_nil. lia. Qed.

Lemma range_cons lo hi : lo < hi -> range lo hi = lo :: range (lo + 1) hi.
Proof.
  intros. unfold range. rewrite seqZ_cons by lia. f_equal. f_equal; lia.
Qed.

Lemma range_snoc lo hi : lo <= hi -> range lo (hi + 1) = range lo hi ++ [hi].
Proof.
  intros. unfold range. replace (hi + 1 - lo) with (hi - lo + 1) by lia.
  rewrite seqZ_app by lia. f_equal.
  replace (lo + (hi - lo)) with hi by lia. reflexivity.
Qed.

Lemma range_app lo mid hi : lo <= mid <= hi -> range lo hi = range lo mid ++ range mid hi.
Proof.
  intros. unfold range. replace (hi - lo) with ((mid - lo) + (hi - mid)) by lia.
  rewrite seqZ_app by lia. f_equal. f_equal. lia.
Qed.

Lemma find_app_list {A} (f : A -> bool) l1 l2 :
  List.find f (l1 ++ l2) =
    match List.find f l1 with Some x => Some x | None => List.find f l2 end.
Proof. induction l1 as [|a l1 IH]; simpl; [done|]. by destruct (f a). Qed.

Lemma find_none_iff {A} (f : A -> bool) l :
  List.find f l = None <-> forall x, x ∈ l -> f x = false.
Proof.
  split.
  - intros H x Hx. eapply List.find_none in H; [done|]. by apply list_elem_of_In.
  - induction l as [|a l IH]; intros H; [done|]. simpl.
    rewrite (H a) by set_solver. apply IH. set_solver.
Qed.

(** The first hit of a scan is the least: everything before it misses. *)
Lemma find_range_some f lo hi k :
  List.find f (range lo hi) = Some k ->
  lo <= k < hi /\ f k = true /\ forall j, lo <= j < k -> f j = false.
Proof.
  intros H. destruct (List.find_some _ _ H) as [Hin Hf].
  apply list_elem_of_In, in_range in Hin. split_and!; [lia..|done|].
  intros j Hj.
  rewrite (range_app lo k hi) in H by lia. rewrite find_app_list in H.
  destruct (List.find f (range lo k)) as [x|] eqn:E.
  - simplify_eq. apply List.find_some in E as [E _].
    apply list_elem_of_In, in_range in E. lia.
  - apply (proj1 (find_none_iff f (range lo k)) E). apply in_range. lia.
Qed.

Lemma default_lookup_lt {A} (d : A) (l : list A) i x :
  l !! i = Some x -> default d (l !! i) = x.
Proof. by intros ->. Qed.

(** [for (...) body]: the body over the values of the counter, stopping at a fault. *)
Fixpoint for_each {A S : Type} (f : A -> S -> option S) (l : list A) (s : S) : option S :=
  match l with
  | [] => Some s
  | a :: l' => s' ← f a s; for_each f l' s'
  end.

Lemma for_each_app {A S} (f : A -> S -> option S) l1 l2 s :
  for_each f (l1 ++ l2) s = (s' ← for_each f l1 s; for_each f l2 s').
Proof.
  revert s. induction l1 as [|a l1 IH]; intros s; simpl; [done|].
  destruct (f a s); simpl; [apply IH|done].
Qed.

(** Total-correctness rule for such a loop: an invariant indexed by the values
    already treated. *)
Lemma for_each_total {A S} (f : A -> S -> option S) (P : list A -> S -> Prop) l s :
  P [] s ->
  (forall d a r s, l = d ++ a :: r -> P d s -> exists s', f a s = Some s' /\ P (d ++ [a]) s') ->
  exists s', for_each f l s = Some s' /\ P l s'.
Proof.
  intros H0 Hstep.
  assert (forall d r s, l = d ++ r -> P d s ->
    exists s', for_each f r s = Some s' /\ P l s') as Hgen.
  { intros d r. revert d. induction r as [|a r IH]; intros d s1 -> HP; simpl.
    - rewrite app_nil_r in *. eauto.
    - destruct (Hstep d a r s1 eq_refl HP) as (s2 & -> & HP2). simpl.
      apply (IH (d ++ [a])); [by rewrite <- app_assoc|done]. }
  by apply (Hgen [] l s).
Qed.

(** Partial-correctness rule. *)
Lemma for_each_inv {A S} (f : A -> S -> option S) (P : list A -> S -> Prop) l s s' :
  P [] s ->
  (forall d a r s s', l = d ++ a :: r -> P d s -> f a s = Some s' -> P (d ++ [a]) s') ->
  for_each f l s = Some s' -> P l s'.
Proof.
  intros H0 Hstep.
  assert (forall r d s, l = d ++ r -> P d s -> for_each f r s = Some s' -> P l s') as Hgen.
  { induction r as [|a r IH]; intros d s1 -> HP Hf; simpl in *.
    - inv_fault. by rewrite app_nil_r.
    - apply bind_Some in Hf as (s2 & H1 & H2).
      apply (IH (d ++ [a]) s2); [by rewrite <- app_assoc| |done]. by eapply Hstep. }
  by apply (Hgen l [] s).
Qed.

(** Splitting a prefix off a range. *)
Lemma range_split_inv lo hi d k r : range lo hi = d ++ k :: r ->
  d = range lo k /\ lo <= k < hi.
Proof.
  revert lo. induction d as [|a d IH]; intros lo H.
  - destruct (decide (lo < hi)) as [Hl|Hl].
    + rewrite range_cons in H by lia. simplify_eq/=. rewrite range_nil by lia. split; [done|lia].
    + rewrite range_nil in H by lia. done.
  - destruct (decide (lo < hi)) as [Hl|Hl].
    + rewrite range_cons in H by lia. injection H as <- H.
      destruct (IH _ H) as [-> ?]. split; [|lia]. symmetry. apply range_cons. lia.
    + rewrite range_nil in H by lia. done.
Qed.

(** Altering an element into itself changes nothing. *)
Lemma list_alter_same {A} (f : A -> A) (l : list A) i x :
  l !! i = Some x -> f x = x -> alter f i l = l.
Proof.
  intros Hx Hf. apply list_eq. intros j. destruct (decide (i = j)) as [->|Hj].
  - by rewrite list_lookup_alter_eq, Hx; cbn; rewrite Hf.
  - by rewrite list_lookup_alter_ne.
Qed.

Lemma list_alter_undo {A} (f g : A -> A) (l : list A) i x :
  l !! i = Some x -> f (g x) = x -> alter f i (alter g i l) = l.
Proof.
  intros Hx Hf. apply list_eq. intros j. destruct (decide (i = j)) as [->|Hj].
  - rewrite !list_lookup_alter_eq, Hx. cbn. by rewrite Hf.
  - by rewrite !list_lookup_alter_ne.
Qed.

Lemma lookup_repeat {A} (x : A) n i : (i < n)%nat -> repeat x n !! i = Some x.
Proof.
  revert i. induction n as [|n IH]; intros [|i] Hi; cbn; try lia; [done|]. apply IH. lia.
Qed.

(** A concrete number is not in a concrete list. *)
Ltac not_in := cbn; rewrite ?not_elem_of_cons; split_and?; try lia; apply not_elem_of_nil.
