(* ===== verification/Bitmap.v ===== *)
(** * Bit maps

    The idiom [*(map + (i >> 6)) op= 1UL << (i % 64)] that memory.c uses for the
    page bit map and for the colour map of every slab.  A map is the list of its
    64-bit words; an access outside the list is a fault. *)

From S2P Require Import Prelude.

(** [*(map + (i >> 6)) = f( *(map + (i >> 6)), 1UL << (i % 64))]. *)
Definition bm_upd (f : Z -> Z -> Z) (m : list Z) (i : Z) : option (list Z) :=
  w ← m !! Z.to_nat (i .>> 6);
  Some (<[Z.to_nat (i .>> 6) := f w (1 .<< (i `mod` 64))]> m).

Definition bm_or : list Z -> Z -> option (list Z) := bm_upd (fun w b => w .| b).
Definition bm_xor : list Z -> Z -> option (list Z) := bm_upd (fun w b => w .^ b).
Definition bm_clean : list Z -> Z -> option (list Z) := bm_upd (fun w b => w .& .~ b).

(** The abstract view: bit [i] of the map. *)
Definition bm_get (m : list Z) (i : Z) : bool :=
  Z.testbit (default 0 (m !! Z.to_nat (i / 64))) (i `mod` 64).

(** Number of bits of a range whose value is [b]. *)
Definition bm_count (b : bool) (m : list Z) (lo hi : Z) : Z :=
  Z.of_nat (length (List.filter (fun i => Bool.eqb b (bm_get m i)) (range lo hi))).

Definition bm_ok (m : list Z) : Prop := Forall word64 m.
Definition bm_bits (m : list Z) : Z := 64 * Z.of_nat (length m).

#[global] Instance bm_ok_dec m : Decision (bm_ok m).
Proof. unfold bm_ok. apply _. Defined.

Section updates.
Context (f : Z -> Z -> Z) (g : bool -> bool -> bool).
(** [f] acts on a word bit by bit, as [g], and keeps words in range. *)
Hypothesis f_bits : forall w i j, 0 <= i < 64 -> 0 <= j < 64 ->
  Z.testbit (f w (1 .<< i)) j = g (Z.testbit w j) (bool_decide (i = j)).
Hypothesis g_false : forall b, g b false = b.
Hypothesis f_word : forall w i, word64 w -> 0 <= i < 64 -> word64 (f w (1 .<< i)).

Lemma bm_upd_some m i : 0 <= i < bm_bits m -> exists m', bm_upd f m i = Some m'.
Proof using Type.
  unfold bm_bits, bm_upd. intros Hi.
  rewrite Z.shiftr_div_pow2 by lia. change (2 ^ 6) with 64.
  destruct (lookup_lt_is_Some_2 m (Z.to_nat (i / 64))) as [w Hw].
  { pose proof (Z.div_lt_upper_bound i 64 (Z.of_nat (length m))).
    pose proof (Z.div_pos i 64). lia. }
  rewrite Hw. cbn. eauto.
Qed.

Lemma bm_upd_length m i m' : bm_upd f m i = Some m' -> length m' = length m.
Proof using Type. unfold bm_upd. intros H. inv_fault. by rewrite length_insert. Qed.

Lemma bm_upd_ok m i m' : bm_upd f m i = Some m' -> bm_ok m -> bm_ok m'.
Proof using f_word.
  unfold bm_upd, bm_ok. intros H Hm. inv_fault.
  apply Forall_insert; [done|]. apply f_word; [|apply Z.mod_pos_bound; lia].
  eapply (Forall_lookup_1 _ _ _ _ Hm); eauto.
Qed.

Lemma bm_upd_get m i m' j :
  bm_upd f m i = Some m' -> 0 <= i -> 0 <= j ->
  bm_get m' j = g (bm_get m j) (bool_decide (i = j)).
Proof using f_bits g_false.
  unfold bm_upd, bm_get. intros H Hi Hj. inv_fault.
  rewrite Z.shiftr_div_pow2 in * by lia. change (2 ^ 6) with 64 in *.
  pose proof (Z.mod_pos_bound i 64). pose proof (Z.mod_pos_bound j 64).
  pose proof (Z_div_mod_eq_full i 64). pose proof (Z_div_mod_eq_full j 64).
  pose proof (Z.div_pos i 64). pose proof (Z.div_pos j 64).
  apply lookup_lt_Some in E as Hlt.
  destruct (decide (i / 64 = j / 64)) as [Hq|Hq].
  - rewrite <- Hq, E. rewrite list_lookup_insert_eq by done. cbn.
    rewrite f_bits by lia. f_equal.
    apply bool_decide_ext. lia.
  - rewrite list_lookup_insert_ne by lia.
    rewrite (bool_decide_eq_false_2 (i = j)) by congruence.
    by rewrite g_false.
Qed.
End updates.

(** ** The three updates *)

Lemma testbit_or_bit w i j : 0 <= i < 64 -> 0 <= j < 64 ->
  Z.testbit (w .| (1 .<< i)) j = Z.testbit w j || bool_decide (i = j).
Proof. intros. by rewrite Z.lor_spec, testbit_bit. Qed.

Lemma testbit_xor_bit w i j : 0 <= i < 64 -> 0 <= j < 64 ->
  Z.testbit (w .^ (1 .<< i)) j = xorb (Z.testbit w j) (bool_decide (i = j)).
Proof. intros. by rewrite Z.lxor_spec, testbit_bit. Qed.

Lemma testbit_clean_bit w i j : 0 <= i < 64 -> 0 <= j < 64 ->
  Z.testbit (w .& .~ (1 .<< i)) j = Z.testbit w j && negb (bool_decide (i = j)).
Proof.
  intros. rewrite Z.land_spec, testbit_u64, Z.lnot_spec, testbit_bit by lia.
  by replace (j <? 64) with true by lia.
Qed.

Lemma bm_or_get m i m' j : bm_or m i = Some m' -> 0 <= i -> 0 <= j ->
  bm_get m' j = bm_get m j || bool_decide (i = j).
Proof.
  intros. eapply (bm_upd_get _ orb testbit_or_bit); eauto. by intros [].
Qed.
Lemma bm_xor_get m i m' j : bm_xor m i = Some m' -> 0 <= i -> 0 <= j ->
  bm_get m' j = xorb (bm_get m j) (bool_decide (i = j)).
Proof.
  intros. eapply (bm_upd_get _ xorb testbit_xor_bit); eauto. by intros [].
Qed.
Lemma bm_clean_get m i m' j : bm_clean m i = Some m' -> 0 <= i -> 0 <= j ->
  bm_get m' j = bm_get m j && negb (bool_decide (i = j)).
Proof.
  intros. eapply (bm_upd_get _ (fun a b => a && negb b) testbit_clean_bit); eauto.
  by intros [].
Qed.

Lemma word64_bit i : 0 <= i < 64 -> word64 (1 .<< i).
Proof. intros. apply u64_range. Qed.
#[export] Hint Resolve word64_bit : cint.

Lemma bm_or_ok m i m' : bm_or m i = Some m' -> bm_ok m -> bm_ok m'.
Proof. apply bm_upd_ok. auto with cint. Qed.
Lemma bm_xor_ok m i m' : bm_xor m i = Some m' -> bm_ok m -> bm_ok m'.
Proof. apply bm_upd_ok. auto with cint. Qed.
Lemma bm_clean_ok m i m' : bm_clean m i = Some m' -> bm_ok m -> bm_ok m'.
Proof. apply bm_upd_ok. intros. apply word64_land; [done|]. apply u64_range. Qed.

Lemma bm_or_some m i : 0 <= i < bm_bits m -> exists m', bm_or m i = Some m'.
Proof. apply bm_upd_some. Qed.
Lemma bm_xor_some m i : 0 <= i < bm_bits m -> exists m', bm_xor m i = Some m'.
Proof. apply bm_upd_some. Qed.
Lemma bm_clean_some m i : 0 <= i < bm_bits m -> exists m', bm_clean m i = Some m'.
Proof. apply bm_upd_some. Qed.
Lemma bm_or_length m i m' : bm_or m i = Some m' -> length m' = length m.
Proof. apply bm_upd_length. Qed.
Lemma bm_xor_length m i m' : bm_xor m i = Some m' -> length m' = length m.
Proof. apply bm_upd_length. Qed.
Lemma bm_clean_length m i m' : bm_clean m i = Some m' -> length m' = length m.
Proof. apply bm_upd_length. Qed.

(** ** Counting *)

Lemma bm_count_ext b m m' lo hi :
  (forall j, lo <= j < hi -> bm_get m' j = bm_get m j) ->
  bm_count b m' lo hi = bm_count b m lo hi.
Proof.
  intros H. unfold bm_count. f_equal. f_equal. apply List.filter_ext_in.
  intros j Hj. apply list_elem_of_In, in_range in Hj. by rewrite H.
Qed.

Lemma bm_count_split b m lo mid hi : lo <= mid <= hi ->
  bm_count b m lo hi = bm_count b m lo mid + bm_count b m mid hi.
Proof.
  intros. unfold bm_count. rewrite (range_app lo mid hi) by done.
  rewrite List.filter_app, length_app. lia.
Qed.

Lemma bm_count_one b m i : bm_count b m i (i + 1) = Z.b2z (Bool.eqb b (bm_get m i)).
Proof.
  unfold bm_count. rewrite range_cons, range_nil by lia. simpl.
  by destruct (Bool.eqb b (bm_get m i)).
Qed.

Lemma bm_count_nonneg b m lo hi : 0 <= bm_count b m lo hi.
Proof. unfold bm_count. lia. Qed.

Lemma bm_count_empty b m lo hi : hi <= lo -> bm_count b m lo hi = 0.
Proof. intros. unfold bm_count. by rewrite range_nil. Qed.

Lemma bm_count_all b m lo hi : lo <= hi ->
  (forall j, lo <= j < hi -> bm_get m j = b) -> bm_count b m lo hi = hi - lo.
Proof.
  intros Hle H. unfold bm_count.
  rewrite (List.forallb_filter_id _ (range lo hi)).
  - unfold range. rewrite length_seqZ. lia.
  - apply List.forallb_forall. intros j Hj. apply list_elem_of_In, in_range in Hj.
    rewrite H by done. apply Bool.eqb_reflx.
Qed.

Lemma bm_count_compl b m lo hi : lo <= hi ->
  bm_count b m lo hi + bm_count (negb b) m lo hi = hi - lo.
Proof.
  intros Hle. unfold bm_count.
  assert (length (range lo hi) = Z.to_nat (hi - lo)) as Hl.
  { unfold range. by rewrite length_seqZ. }
  enough (length (List.filter (fun i => Bool.eqb b (bm_get m i)) (range lo hi)) +
    length (List.filter (fun i => Bool.eqb (negb b) (bm_get m i)) (range lo hi)) =
    length (range lo hi))%nat by lia.
  clear. induction (range lo hi) as [|i l IH]; [done|]. simpl.
  destruct b, (bm_get m i); simpl in *; lia.
Qed.

(** Changing one bit of the range from [b] to [negb b]. *)
Lemma bm_count_flip b m m' lo hi i :
  lo <= i < hi -> bm_get m i = b -> bm_get m' i = negb b ->
  (forall j, lo <= j < hi -> j <> i -> bm_get m' j = bm_get m j) ->
  bm_count b m' lo hi = bm_count b m lo hi - 1.
Proof.
  intros Hi Hb Hb' H.
  rewrite !(bm_count_split b _ lo i hi) by lia.
  rewrite !(bm_count_split b _ i (i + 1) hi) by lia.
  rewrite !bm_count_one, Hb, Hb', Bool.eqb_reflx, Bool.eqb_negb2.
  rewrite (bm_count_ext b m m' lo i), (bm_count_ext b m m' (i + 1) hi).
  - simpl. lia.
  - intros. apply H; lia.
  - intros. apply H; lia.
Qed.

(** Two maps of the same size with the same bits are the same. *)
Lemma bm_ext m m' : bm_ok m -> bm_ok m' -> length m = length m' ->
  (forall i, 0 <= i -> bm_get m i = bm_get m' i) -> m = m'.
Proof.
  intros Hm Hm' Hl H. apply list_eq. intros k.
  destruct (m !! k) as [w|] eqn:Hw, (m' !! k) as [w'|] eqn:Hw'.
  - f_equal. apply Z.bits_inj'. intros n Hn. destruct (decide (n < 64)).
    + specialize (H (64 * Z.of_nat k + n) ltac:(lia)). unfold bm_get in H.
      replace (64 * Z.of_nat k + n) with (n + Z.of_nat k * 64) in H by lia.
      rewrite Z_div_plus_full, Z_mod_plus_full, Z.div_small, Z.mod_small in H by lia.
      rewrite Z.add_0_l, Nat2Z.id, Hw, Hw' in H. done.
    + assert (word64 w /\ word64 w') as [??] by (split; [apply (Forall_lookup_1 _ m k w)|apply (Forall_lookup_1 _ m' k w')]; done).
      rewrite !testbit_word64_high by (done || lia). done.
  - apply lookup_lt_Some in Hw. apply lookup_ge_None in Hw'. lia.
  - apply lookup_lt_Some in Hw'. apply lookup_ge_None in Hw. lia.
  - done.
Qed.

(** Flipping a bit that was just set. *)
Lemma bm_or_xor m m' j : bm_ok m -> 0 <= j < bm_bits m -> bm_get m j = false ->
  bm_or m j = Some m' -> bm_xor m' j = Some m.
Proof.
  intros Ho Hj Hbit Hm. pose proof (bm_or_length _ _ _ Hm) as Hl.
  destruct (bm_xor_some m' j) as [m2 Hm2]; [unfold bm_bits in *; rewrite Hl; lia|].
  rewrite Hm2. f_equal. apply bm_ext; [|done|by rewrite (bm_xor_length _ _ _ Hm2)|].
  - eapply bm_xor_ok; [done|]. by eapply bm_or_ok.
  - intros k Hk. rewrite (bm_xor_get _ _ _ k Hm2), (bm_or_get _ _ _ k Hm) by lia.
    destruct (decide (j = k)) as [<-|Hjk]; [by rewrite bool_decide_eq_true_2, Hbit|].
    by rewrite bool_decide_eq_false_2, orb_false_r, xorb_false_r.
Qed.
