(* ===== verification/Klist.v ===== *)
(** * Intrusive doubly linked lists (lib.h)

    [struct List] nodes live in a store from addresses to nodes; the operations
    of lib.h read and write it in the order of the C statements, so that aliasing
    (a node that is its own neighbour) behaves as in the code.  The abstract view
    of a well-formed list is [ring σ h l]: starting from [h] and following [next]
    one meets exactly the nodes [l], then [h] again, and [prev] is the inverse. *)

From S2P Require Import Prelude.

(** [struct List]. *)
Record List := mkList { prev : Z; next : Z }.

Abbreviation lists := (gmap Z List).

Definition store_prev (a v : Z) (σ : lists) : option lists :=
  n ← σ !! a; Some (<[a := mkList v n.(next)]> σ).
Definition store_next (a v : Z) (σ : lists) : option lists :=
  n ← σ !! a; Some (<[a := mkList n.(prev) v]> σ).

Definition list_init (list : Z) (σ : lists) : lists :=
  <[list := mkList list list]> σ.

Definition list_add_to_behind (entry new : Z) (σ : lists) : option lists :=
  e ← σ !! entry;
  σ ← store_next new e.(next) σ;
  σ ← store_prev new entry σ;
  n ← σ !! new;
  σ ← store_prev n.(next) new σ;
  store_next entry new σ.

Definition list_add_to_before (entry new : Z) (σ : lists) : option lists :=
  σ ← store_next new entry σ;
  e ← σ !! entry;
  σ ← store_next e.(prev) new σ;
  e ← σ !! entry;
  σ ← store_prev new e.(prev) σ;
  store_prev entry new σ.

Definition list_del (entry : Z) (σ : lists) : option lists :=
  e ← σ !! entry;
  σ ← store_prev e.(next) e.(prev) σ;
  e ← σ !! entry;
  store_next e.(prev) e.(next) σ.

Definition list_is_empty (entry : Z) (σ : lists) : option Z :=
  e ← σ !! entry;
  Some (if (entry =? e.(next)) && (e.(prev) =? entry) then 1 else 0).

Definition list_prev (entry : Z) (σ : lists) : option Z :=
  e ← σ !! entry; Some (if negb (e.(prev) =? 0) then e.(prev) else 0).

Definition list_next (entry : Z) (σ : lists) : option Z :=
  e ← σ !! entry; Some (if negb (e.(next) =? 0) then e.(next) else 0).

(** ** The abstract view *)

Definition get_next (σ : lists) (a : Z) : option Z := next <$> σ !! a.
Definition get_prev (σ : lists) (a : Z) : option Z := prev <$> σ !! a.

Definition linked (σ : lists) (a b : Z) : Prop :=
  get_next σ a = Some b /\ get_prev σ b = Some a.

Fixpoint chain (σ : lists) (a : Z) (l : list Z) : Prop :=
  match l with
  | [] => True
  | b :: l' => linked σ a b /\ chain σ b l'
  end.

Definition ring (σ : lists) (h : Z) (l : list Z) : Prop :=
  NoDup (h :: l) /\ chain σ h (l ++ [h]).

Lemma store_next_spec a v σ :
  is_Some (σ !! a) ->
  exists σ', store_next a v σ = Some σ' /\
    (forall x, get_next σ' x = if decide (x = a) then Some v else get_next σ x) /\
    (forall x, get_prev σ' x = get_prev σ x) /\
    (forall x, is_Some (σ' !! x) <-> is_Some (σ !! x)) /\
    (forall x, x <> a -> σ' !! x = σ !! x).
Proof.
  intros [n Hn]. unfold store_next. rewrite Hn. cbn. eexists; split; [done|].
  unfold get_next, get_prev. split_and!; intros x.
  - case_decide; subst; by simplify_map_eq.
  - destruct (decide (x = a)); subst; by simplify_map_eq.
  - destruct (decide (x = a)); subst; simplify_map_eq; [|done].
    split; eauto.
  - intros. by simplify_map_eq.
Qed.

Lemma store_prev_spec a v σ :
  is_Some (σ !! a) ->
  exists σ', store_prev a v σ = Some σ' /\
    (forall x, get_prev σ' x = if decide (x = a) then Some v else get_prev σ x) /\
    (forall x, get_next σ' x = get_next σ x) /\
    (forall x, is_Some (σ' !! x) <-> is_Some (σ !! x)) /\
    (forall x, x <> a -> σ' !! x = σ !! x).
Proof.
  intros [n Hn]. unfold store_prev. rewrite Hn. cbn. eexists; split; [done|].
  unfold get_next, get_prev. split_and!; intros x.
  - case_decide; subst; by simplify_map_eq.
  - destruct (decide (x = a)); subst; by simplify_map_eq.
  - destruct (decide (x = a)); subst; simplify_map_eq; [|done].
    split; eauto.
  - intros. by simplify_map_eq.
Qed.

Lemma get_next_node σ a b : get_next σ a = Some b -> exists n, σ !! a = Some n /\ n.(next) = b.
Proof. unfold get_next. destruct (σ !! a) as [n|] eqn:E; intros; simplify_eq/=; eauto. Qed.
Lemma get_prev_node σ a b : get_prev σ a = Some b -> exists n, σ !! a = Some n /\ n.(prev) = b.
Proof. unfold get_prev. destruct (σ !! a) as [n|] eqn:E; intros; simplify_eq/=; eauto. Qed.

(** Symbolic execution of one store: discharges the node's existence. *)
Ltac step_store lem :=
  let σ' := fresh "σ" in let E := fresh "E" in let Hn := fresh "Hn" in
  let Hp := fresh "Hp" in let Hs := fresh "Hs" in let Hf := fresh "Hf" in
  edestruct lem as (σ' & E & Hn & Hp & Hs & Hf); [|rewrite E; cbn].

(** *** The operations, on neighbours *)

Lemma list_add_to_behind_spec entry new n σ :
  get_next σ entry = Some n -> is_Some (σ !! n) -> is_Some (σ !! new) ->
  new <> entry -> new <> n ->
  exists σ', list_add_to_behind entry new σ = Some σ' /\
    (forall x, get_next σ' x =
       if decide (x = entry) then Some new else if decide (x = new) then Some n else get_next σ x) /\
    (forall x, get_prev σ' x =
       if decide (x = n) then Some new else if decide (x = new) then Some entry else get_prev σ x) /\
    (forall x, is_Some (σ' !! x) <-> is_Some (σ !! x)) /\
    (forall x, x <> entry -> x <> new -> x <> n -> σ' !! x = σ !! x).
Proof.
  intros Hen Hn Hnew Hne1 Hne2. unfold list_add_to_behind.
  destruct (get_next_node _ _ _ Hen) as (e & He & Hnx). rewrite He. cbn. rewrite Hnx.
  destruct (store_next_spec new n σ) as (σ1 & -> & N1 & P1 & S1 & F1); [done|]. cbn.
  destruct (store_prev_spec new entry σ1) as (σ2 & -> & P2 & N2 & S2 & F2); [by apply S1|]. cbn.
  assert (get_next σ2 new = Some n) as Hn2 by (rewrite N2, N1; by rewrite decide_True).
  destruct (get_next_node _ _ _ Hn2) as (m & Hm & Hm2). rewrite Hm. cbn. rewrite Hm2.
  destruct (store_prev_spec n new σ2) as (σ3 & -> & P3 & N3 & S3 & F3); [by apply S2, S1|]. cbn.
  destruct (store_next_spec entry new σ3) as (σ4 & -> & N4 & P4 & S4 & F4); [apply S3, S2, S1; eauto|].
  eexists; split; [done|]. split_and!; intros x.
  - rewrite N4, N3, N2, N1. done.
  - rewrite P4, P3, P2, P1. done.
  - rewrite S4, S3, S2, S1. done.
  - intros. rewrite F4, F3, F2, F1 by done. done.
Qed.

Lemma list_add_to_before_spec entry new p σ :
  get_prev σ entry = Some p -> is_Some (σ !! p) -> is_Some (σ !! new) ->
  new <> entry -> new <> p ->
  exists σ', list_add_to_before entry new σ = Some σ' /\
    (forall x, get_next σ' x =
       if decide (x = p) then Some new else if decide (x = new) then Some entry else get_next σ x) /\
    (forall x, get_prev σ' x =
       if decide (x = entry) then Some new else if decide (x = new) then Some p else get_prev σ x) /\
    (forall x, is_Some (σ' !! x) <-> is_Some (σ !! x)) /\
    (forall x, x <> entry -> x <> new -> x <> p -> σ' !! x = σ !! x).
Proof.
  intros Hep Hp Hnew Hne1 Hne2. unfold list_add_to_before.
  destruct (store_next_spec new entry σ) as (σ1 & -> & N1 & P1 & S1 & F1); [done|]. cbn.
  assert (get_prev σ1 entry = Some p) as He1 by (by rewrite P1).
  destruct (get_prev_node _ _ _ He1) as (e & He & Hpe). rewrite He. cbn. rewrite Hpe.
  destruct (store_next_spec p new σ1) as (σ2 & -> & N2 & P2 & S2 & F2); [by apply S1|]. cbn.
  assert (get_prev σ2 entry = Some p) as He2 by (by rewrite P2).
  destruct (get_prev_node _ _ _ He2) as (e' & He' & Hp'). rewrite He'. cbn. rewrite Hp'.
  destruct (store_prev_spec new p σ2) as (σ3 & -> & P3 & N3 & S3 & F3); [by apply S2, S1|]. cbn.
  destruct (store_prev_spec entry new σ3) as (σ4 & -> & P4 & N4 & S4 & F4).
  { apply S3. eauto. }
  eexists; split; [done|]. split_and!; intros x.
  - rewrite N4, N3, N2, N1. done.
  - rewrite P4, P3, P2, P1. done.
  - rewrite S4, S3, S2, S1. done.
  - intros. rewrite F4, F3, F2, F1 by done. done.
Qed.

Lemma list_del_spec entry p n σ :
  get_prev σ entry = Some p -> get_next σ entry = Some n ->
  is_Some (σ !! p) -> is_Some (σ !! n) -> n <> entry ->
  exists σ', list_del entry σ = Some σ' /\
    (forall x, get_next σ' x = if decide (x = p) then Some n else get_next σ x) /\
    (forall x, get_prev σ' x = if decide (x = n) then Some p else get_prev σ x) /\
    (forall x, is_Some (σ' !! x) <-> is_Some (σ !! x)) /\
    (forall x, x <> p -> x <> n -> σ' !! x = σ !! x).
Proof.
  intros Hep Hen Hp Hn Hne. unfold list_del.
  destruct (get_prev_node _ _ _ Hep) as (e & He & Hpe).
  destruct (get_next_node _ _ _ Hen) as (e2 & He2 & Hne2). simplify_eq.
  rewrite He. cbn.
  destruct (store_prev_spec e.(next) e.(prev) σ) as (σ1 & -> & P1 & N1 & S1 & F1); [done|]. cbn.
  rewrite F1, He by done. cbn.
  destruct (store_next_spec e.(prev) e.(next) σ1) as (σ2 & -> & N2 & P2 & S2 & F2); [by apply S1|].
  eexists; split; [done|]. split_and!; intros x.
  - rewrite N2, N1. done.
  - rewrite P2, P1. done.
  - rewrite S2, S1. done.
  - intros. rewrite F2, F1 by done. done.
Qed.

(** *** Chains and rings *)

Lemma chain_app σ a b l1 l2 :
  chain σ a (l1 ++ b :: l2) <-> chain σ a (l1 ++ [b]) /\ chain σ b l2.
Proof.
  revert a. induction l1 as [|x l1 IH]; intros a; simpl; [tauto|].
  rewrite IH. tauto.
Qed.

(** A chain survives a change of the store that keeps the [next] of its sources
    and the [prev] of its targets. *)
Lemma chain_mono σ σ' a b l :
  (forall x, x ∈ a :: l -> get_next σ' x = get_next σ x) ->
  (forall y, y ∈ l ++ [b] -> get_prev σ' y = get_prev σ y) ->
  chain σ a (l ++ [b]) -> chain σ' a (l ++ [b]).
Proof.
  revert a. induction l as [|c l IH]; simpl; intros a Hn Hp.
  - intros [[H1 H2] _]. split; [|done].
    split; [rewrite Hn by set_solver|rewrite Hp by set_solver]; done.
  - intros [[H1 H2] Hc]. split.
    + split; [rewrite Hn by set_solver|rewrite Hp by set_solver]; done.
    + apply IH; [set_solver..|done].
Qed.

Lemma chain_nodes σ a l b : chain σ a (l ++ [b]) ->
  forall x, x ∈ a :: l ++ [b] -> is_Some (σ !! x).
Proof.
  revert a. induction l as [|c l IH]; simpl; intros a [[H1 H2] Hc] x Hx.
  - apply get_next_node in H1 as (n & Hn & _). apply get_prev_node in H2 as (m & Hm & _).
    apply elem_of_cons in Hx as [->|Hx]; [eauto|].
    apply elem_of_cons in Hx as [->|Hx]; [eauto|set_solver].
  - apply elem_of_cons in Hx as [->|Hx].
    + apply get_next_node in H1 as (n & Hn & _). eauto.
    + eapply IH; eauto.
Qed.

Lemma ring_nodes σ h l x : ring σ h l -> x ∈ h :: l -> is_Some (σ !! x).
Proof. intros [_ Hc] Hx. eapply chain_nodes; [done|]. set_solver. Qed.

(** A ring may be entered at any of its nodes. *)
Lemma ring_rotate σ h x l1 l2 :
  ring σ h (l1 ++ x :: l2) <-> ring σ x (l2 ++ h :: l1).
Proof.
  unfold ring.
  assert (h :: l1 ++ x :: l2 ≡ₚ x :: l2 ++ h :: l1) as Hperm by solve_Permutation.
  rewrite <- !app_assoc. simpl.
  rewrite (chain_app σ h x l1 (l2 ++ [h])), (chain_app σ x h l2 (l1 ++ [x])).
  rewrite Hperm. tauto.
Qed.

Lemma ring_frame σ σ' h l :
  (forall x, x ∈ h :: l -> σ' !! x = σ !! x) -> ring σ h l -> ring σ' h l.
Proof.
  intros H [Hd Hc]. split; [done|]. eapply chain_mono; [..|done].
  - intros x Hx. unfold get_next. by rewrite H.
  - intros x Hx. unfold get_prev. rewrite H by set_solver. done.
Qed.

(** The neighbours of the head. *)
Lemma ring_next σ h l : ring σ h l -> get_next σ h = Some (default h (head l)).
Proof. intros [_ Hc]. destruct l; simpl in *; by destruct Hc as [[? ?] ?]. Qed.

Lemma ring_prev σ h l : ring σ h l -> get_prev σ h = Some (default h (last l)).
Proof.
  intros [_ Hc]. destruct l as [|y l' _] using rev_ind; simpl in *.
  - by destruct Hc as [[? ?] ?].
  - rewrite last_snoc. simpl. rewrite <- app_assoc in Hc. simpl in Hc.
    apply chain_app in Hc as [_ [[? ?] _]]. done.
Qed.

Lemma ring_empty_self σ h : ring σ h [] <-> σ !! h = Some (mkList h h).
Proof.
  split.
  - intros [_ [[Hn Hp] _]]. unfold get_next, get_prev in *.
    destruct (σ !! h) as [[]|]; simplify_eq/=. done.
  - intros H. split; [apply NoDup_singleton|]. simpl.
    unfold linked, get_next, get_prev. by rewrite H.
Qed.

(** *** Correctness of the operations on rings *)

Lemma list_init_some h σ : is_Some (list_init h σ !! h).
Proof. unfold list_init. rewrite lookup_insert_eq. by eexists. Qed.

(** [list_init] makes a one-node ring. *)
Lemma list_init_ring h σ : ring (list_init h σ) h [].
Proof. apply ring_empty_self. unfold list_init. by rewrite lookup_insert_eq. Qed.

Lemma list_next_ring σ h l : 0 ∉ h :: l -> ring σ h l ->
  list_next h σ = Some (default h (head l)).
Proof.
  intros H0 Hr. pose proof (ring_next _ _ _ Hr) as Hn.
  apply get_next_node in Hn as (n & Hn & Hnx). unfold list_next. rewrite Hn. cbn. rewrite Hnx.
  destruct (Z.eqb_spec (default h (head l)) 0) as [E|E]; [|done].
  exfalso. apply H0. destruct l; simpl in *; set_solver.
Qed.

Lemma list_is_empty_ring σ h l : ring σ h l ->
  list_is_empty h σ = Some (if decide (l = []) then 1 else 0).
Proof.
  intros Hr. pose proof (ring_next _ _ _ Hr) as Hn. pose proof (ring_prev _ _ _ Hr) as Hp.
  apply get_next_node in Hn as (n & Hn & Hnx). apply get_prev_node in Hp as (m & Hm & Hpx).
  simplify_eq. unfold list_is_empty. rewrite Hn. cbn. rewrite Hnx, Hpx.
  destruct Hr as [Hd _]. destruct l as [|x l]; simpl.
  - by rewrite Z.eqb_refl.
  - apply NoDup_cons_1_1 in Hd. destruct (Z.eqb_spec h x); [set_solver|done].
Qed.

Lemma list_add_to_behind_ring σ entry new l :
  ring σ entry l -> is_Some (σ !! new) -> new ∉ entry :: l ->
  exists σ', list_add_to_behind entry new σ = Some σ' /\
    ring σ' entry (new :: l) /\
    (forall x, x ∉ entry :: new :: l -> σ' !! x = σ !! x) /\
    (forall x, is_Some (σ' !! x) <-> is_Some (σ !! x)).
Proof.
  intros Hr Hnew Hni.
  pose proof (ring_next _ _ _ Hr) as Hn.
  assert (default entry (head l) ∈ entry :: l) as Hin by (destruct l; set_solver).
  destruct (list_add_to_behind_spec entry new _ σ Hn) as (σ' & Hop & N & P & S & F);
    [by eapply ring_nodes|done|set_solver..|].
  exists σ'. split; [done|]. split_and!; [|intros; apply F; set_solver|done].
  destruct Hr as [Hd Hc]. split.
  - apply NoDup_cons in Hd as [??]. repeat (apply NoDup_cons; split; [set_solver|]). done.
  - assert (new <> entry) by set_solver.
    destruct l as [|b l]; simpl in *.
    + unfold linked. rewrite !N, !P. repeat case_decide; naive_solver.
    + destruct Hc as [_ Hc]. assert (new <> b) by set_solver.
      apply NoDup_cons in Hd as [Hd1 Hd2]. apply NoDup_cons in Hd2 as [Hd2 _].
      assert (b <> entry) by set_solver.
      split_and!.
      * split; [rewrite N|rewrite P]; repeat case_decide; congruence.
      * split; [rewrite N|rewrite P]; repeat case_decide; congruence.
      * eapply chain_mono; [..|done].
        -- intros x Hx. rewrite N. rewrite !decide_False by set_solver. done.
        -- intros x Hx. rewrite P. rewrite !decide_False by set_solver. done.
Qed.

Lemma list_add_to_before_ring σ entry new l :
  ring σ entry l -> is_Some (σ !! new) -> new ∉ entry :: l ->
  exists σ', list_add_to_before entry new σ = Some σ' /\
    ring σ' entry (l ++ [new]) /\
    (forall x, x ∉ entry :: new :: l -> σ' !! x = σ !! x) /\
    (forall x, is_Some (σ' !! x) <-> is_Some (σ !! x)).
Proof.
  intros Hr Hnew Hni.
  pose proof (ring_prev _ _ _ Hr) as Hp.
  assert (default entry (last l) ∈ entry :: l) as Hin.
  { destruct l as [|y l _] using rev_ind; [set_solver|]. rewrite last_snoc. set_solver. }
  destruct (list_add_to_before_spec entry new _ σ Hp) as (σ' & Hop & N & P & S & F);
    [by eapply ring_nodes|done|set_solver..|].
  exists σ'. split; [done|]. split_and!; [|intros; apply F; set_solver|done].
  destruct Hr as [Hd Hc]. split.
  - rewrite app_comm_cons. apply NoDup_app. split_and!; [done|set_solver|apply NoDup_singleton].
  - assert (new <> entry) by set_solver.
    destruct l as [|b l _] using rev_ind; simpl in *.
    + unfold linked. rewrite !N, !P. repeat case_decide; naive_solver.
    + rewrite last_snoc in *. simpl in *.
      rewrite <- app_assoc in Hc. simpl in Hc. apply chain_app in Hc as [Hc _].
      rewrite <- !app_assoc. simpl. apply chain_app.
      apply NoDup_cons in Hd as [Hd1 Hd2]. apply NoDup_app in Hd2 as (_ & Hd2 & _).
      assert (b <> entry) by set_solver. assert (new <> b) by set_solver.
      split.
      * eapply chain_mono; [..|done].
        -- intros x Hx. rewrite N. rewrite !decide_False by set_solver. done.
        -- intros x Hx. rewrite P. rewrite !decide_False by set_solver. done.
      * simpl. split_and!; [..|done]; split; [rewrite N|rewrite P|rewrite N|rewrite P];
          repeat case_decide; congruence.
Qed.

(** Deleting any node but the head. *)
Lemma list_del_ring σ h x l1 l2 :
  ring σ h (l1 ++ x :: l2) ->
  exists σ', list_del x σ = Some σ' /\ ring σ' h (l1 ++ l2) /\
    (forall y, y ∉ h :: l1 ++ x :: l2 -> σ' !! y = σ !! y) /\
    (forall y, is_Some (σ' !! y) <-> is_Some (σ !! y)).
Proof.
  intros Hr. assert (ring σ x (l2 ++ h :: l1)) as Hx by by apply ring_rotate.
  pose proof (ring_next _ _ _ Hx) as Hn. pose proof (ring_prev _ _ _ Hx) as Hp.
  destruct Hr as [Hd Hc].
  set (p := default h (last l1)). set (n := default h (head l2)).
  assert (default x (last (l2 ++ h :: l1)) = p) as Ep.
  { unfold p. destruct l1 as [|y l1 _] using rev_ind; [by rewrite last_snoc|].
    rewrite app_comm_cons, app_assoc, !last_snoc. done. }
  assert (default x (head (l2 ++ h :: l1)) = n) as En by (unfold n; by destruct l2).
  rewrite Ep in Hp. rewrite En in Hn.
  assert (n ∈ h :: l2 /\ p ∈ h :: l1) as [Hnin Hpin].
  { split; [unfold n; destruct l2; set_solver|].
    unfold p. destruct l1 as [|y l1 _] using rev_ind; [set_solver|].
    rewrite last_snoc. set_solver. }
  assert (x ∉ h :: l1 ++ l2) as Hxn.
  { apply NoDup_cons in Hd as [Hd1 Hd2]. apply NoDup_app in Hd2 as (_ & Hd2 & Hd3).
    apply NoDup_cons in Hd3 as [Hd3 _]. set_solver. }
  assert (NoDup (h :: l1 ++ l2)) as Hd'.
  { apply (sublist_NoDup _ _ Hd). apply sublist_skip, sublist_app; [done|].
    by apply sublist_cons. }
  destruct (list_del_spec x p n σ Hp Hn) as (σ' & Hop & N & P & S & F).
  { eapply ring_nodes; [exact Hx|]. revert Hpin.
    rewrite !elem_of_cons, elem_of_app, ?elem_of_cons. tauto. }
  { eapply ring_nodes; [exact Hx|]. revert Hnin.
    rewrite !elem_of_cons, elem_of_app, ?elem_of_cons. tauto. }
  { intros E. apply Hxn. rewrite <- E. revert Hnin.
    rewrite !elem_of_cons, elem_of_app. tauto. }
  exists σ'. split; [done|].
  assert (n ∈ h :: l1 ++ x :: l2 /\ p ∈ h :: l1 ++ x :: l2) as [Hn3 Hp3].
  { split; [revert Hnin|revert Hpin]; rewrite !elem_of_cons, elem_of_app, ?elem_of_cons; tauto. }
  split_and!; [|intros y Hy; apply F; intros ->; by apply Hy|done].
  split; [done|].
  rewrite <- app_assoc in Hc. simpl in Hc. apply chain_app in Hc as [Hc1 Hc2].
  apply NoDup_cons in Hd' as [Hh Hd']. apply NoDup_app in Hd' as (Hd1 & Hd12 & Hd2).
  assert (chain σ' n (tail (l2 ++ [h]))) as Hc2'.
  { unfold n. destruct l2 as [|b l2]; simpl in *; [done|]. destruct Hc2 as [_ Hc2].
    apply NoDup_cons in Hd2 as [Hb _].
    eapply chain_mono; [..|exact Hc2].
    - intros y Hy. rewrite N, decide_False; [done|]. intros ->. clear - Hy Hpin Hh Hd12 Hb.
      apply elem_of_cons in Hpin as [->|Hpin]; [set_solver|]. apply (Hd12 p Hpin). set_solver.
    - intros y Hy. rewrite P, decide_False; [done|]. clear - Hy Hh Hb. set_solver. }
  assert (forall l0, n :: tail (l2 ++ [h]) = l0 -> l2 ++ [h] = l0) as Htail.
  { intros ? <-. unfold n. by destruct l2. }
  rewrite <- app_assoc, (Htail _ eq_refl). apply chain_app. split; [|done].
  clear Hc2 Hc2' Htail. unfold p in *. destruct l1 as [|b l1 _] using rev_ind; simpl in *.
  - split; [|done]. split; [rewrite N|rewrite P]; by rewrite decide_True.
  - rewrite last_snoc in *. simpl in *.
    rewrite <- app_assoc in *. simpl in *. apply chain_app in Hc1 as [Hc1 _].
    apply chain_app. split.
    + apply NoDup_app in Hd1 as (_ & Hd1 & _).
      eapply chain_mono; [..|exact Hc1].
      * intros y Hy. rewrite N, decide_False; [done|]. clear - Hy Hh Hd1. set_solver.
      * intros y Hy. rewrite P, decide_False; [done|].
        clear - Hy Hh Hd12. unfold n. destruct l2; simpl; set_solver.
    + simpl. split; [|done]. split; [rewrite N|rewrite P]; by rewrite decide_True.
Qed.

(** Insertion in the middle: before the node that follows [l1]. *)
Lemma list_insert_before_ring σ h l1 l2 new :
  ring σ h (l1 ++ l2) -> is_Some (σ !! new) -> new ∉ h :: l1 ++ l2 ->
  exists σ', list_add_to_before (default h (head l2)) new σ = Some σ' /\
    ring σ' h (l1 ++ new :: l2) /\
    (forall x, x ∉ h :: new :: l1 ++ l2 -> σ' !! x = σ !! x) /\
    (forall x, is_Some (σ' !! x) <-> is_Some (σ !! x)).
Proof.
  intros Hr Hn Hnew. destruct l2 as [|y l2]; cbn.
  - rewrite app_nil_r in *. by apply list_add_to_before_ring.
  - apply ring_rotate in Hr.
    destruct (list_add_to_before_ring σ y new (l2 ++ h :: l1)) as (σ' & E & Hr' & Hf & Hs);
      [done..| |].
    { clear -Hnew. rewrite ?elem_of_cons, ?elem_of_app, ?elem_of_cons in *. tauto. }
    exists σ'. split_and!; [done| | |done].
    + rewrite <- app_assoc in Hr'. apply ring_rotate in Hr'. by rewrite <- app_assoc in Hr'.
    + intros x Hx. apply Hf. clear -Hx.
      rewrite ?elem_of_cons, ?elem_of_app, ?elem_of_cons in *. tauto.
Qed.

(** A node of a ring and its successor. *)
Lemma list_next_in_ring σ h l1 y l2 : 0 ∉ h :: l1 ++ y :: l2 -> ring σ h (l1 ++ y :: l2) ->
  list_next y σ = Some (default h (head l2)).
Proof.
  intros H0 Hr. apply ring_rotate in Hr.
  erewrite list_next_ring; [|..|exact Hr].
  - by destruct l2.
  - clear -H0. rewrite ?elem_of_cons, ?elem_of_app, ?elem_of_cons in *. tauto.
Qed.

(** The nodes of a ring are distinct keys of the store. *)
Lemma ring_size σ h l : ring σ h l -> (length l < size σ)%nat.
Proof.
  intros Hr. rewrite <- size_dom.
  assert (list_to_set (h :: l) ⊆ dom σ) as Hsub.
  { intros x Hx. apply elem_of_list_to_set in Hx. apply elem_of_dom. by eapply ring_nodes. }
  apply subseteq_size in Hsub. rewrite size_list_to_set in Hsub by apply Hr. cbn in Hsub. lia.
Qed.

(** Insertion behind a node in the middle. *)
Lemma list_insert_behind_ring σ h l1 y l2 new :
  ring σ h (l1 ++ y :: l2) -> is_Some (σ !! new) -> new ∉ h :: l1 ++ y :: l2 ->
  exists σ', list_add_to_behind y new σ = Some σ' /\
    ring σ' h (l1 ++ y :: new :: l2) /\
    (forall x, x ∉ h :: new :: l1 ++ y :: l2 -> σ' !! x = σ !! x) /\
    (forall x, is_Some (σ' !! x) <-> is_Some (σ !! x)).
Proof.
  intros Hr Hn Hnew. apply ring_rotate in Hr.
  destruct (list_add_to_behind_ring σ y new (l2 ++ h :: l1)) as (σ' & E & Hr' & Hf & Hs);
    [done..| |].
  { clear -Hnew. rewrite ?elem_of_cons, ?elem_of_app, ?elem_of_cons in *. tauto. }
  exists σ'. split_and!; [done| | |done].
  - rewrite app_comm_cons in Hr'. by apply ring_rotate in Hr'.
  - intros x Hx. apply Hf. clear -Hx.
    rewrite ?elem_of_cons, ?elem_of_app, ?elem_of_cons in *. tauto.
Qed.

(** A concrete store has a concrete ring. *)
Ltac concrete_ring := split; [repeat (constructor; [not_in|]); constructor|repeat split; vm_compute; reflexivity].
