(* ===== verification/PageAlloc.v ===== *)
(** * Physical page allocator (memory.h, memory.c)

    [struct Page], [struct Zone] and the page bit map of
    [struct Global_Memory_Descriptor], with [init_memory], [alloc_pages],
    [free_pages], [page_init] and [page_clean].

    A [struct Page *] is the index of the page in [pages_struct], a
    [struct Zone *] the index of the zone in [zones_struct]; [None] is NULL.
    The word stored after the bit map, which [alloc_pages] reads when it scans the
    last word, is the field [bits_after].  Console output is not part of the state. *)

From S2P Require Import Prelude Bitmap.

Definition PAGE_OFFSET : Z := 0xffff800000000000.
Definition PAGE_2M_SHIFT : Z := 21.
Definition PAGE_4K_SHIFT : Z := 12.
Definition PAGE_2M_SIZE : Z := 1 .<< PAGE_2M_SHIFT.
Definition PAGE_4K_SIZE : Z := 1 .<< PAGE_4K_SHIFT.
Definition PAGE_2M_MASK : Z := .~ (PAGE_2M_SIZE .- 1).
Definition PAGE_4K_MASK : Z := .~ (PAGE_4K_SIZE .- 1).
Definition PAGE_2M_ALIGN (addr : Z) : Z := (addr .+ PAGE_2M_SIZE .- 1) .& PAGE_2M_MASK.
Definition PAGE_4K_ALIGN (addr : Z) : Z := (addr .+ PAGE_4K_SIZE .- 1) .& PAGE_4K_MASK.
Definition Virt_To_Phy (addr : Z) : Z := addr .- PAGE_OFFSET.
Definition Phy_To_Virt (addr : Z) : Z := addr .+ PAGE_OFFSET.

Definition ZONE_DMA : Z := 1.
Definition ZONE_NORMAL : Z := 2.
Definition ZONE_UNMAPED : Z := 4.

Definition PG_PTable_Maped : Z := 1.
Definition PG_Kernel_Init : Z := 2.
Definition PG_Referenced : Z := 4.
Definition PG_Dirty : Z := 8.
Definition PG_Active : Z := 16.
Definition PG_Up_To_Date : Z := 32.
Definition PG_Device : Z := 64.
Definition PG_Kernel : Z := 8.
Definition PG_Shared : Z := 16.

(** [struct E820], one entry of the BIOS memory map. *)
Record E820 := mkE820 { E820_address : Z; E820_length : Z; E820_type : Z }.

Record Page := mkPage {
  zone_struct : option nat;
  PHY_address : Z;
  attribute : Z;
  reference_count : Z;
  age : Z
}.

(** [struct Zone], without the back pointer [GMD_struct] to the only descriptor. *)
Record Zone := mkZone {
  pages_group : Z;
  zone_pages_length : Z;
  zone_start_address : Z;
  zone_end_address : Z;
  zone_length : Z;
  zone_attribute : Z;
  page_using_count : Z;
  page_free_count : Z;
  total_pages_link : Z
}.

(** The part of [memory_management_struct] the allocator works on. *)
Record pmm := mkPmm {
  bits_map : list Z;
  bits_after : Z;
  pages_struct : list Page;
  zones_struct : list Zone;
  ZONE_DMA_INDEX : Z;
  ZONE_NORMAL_INDEX : Z;
  ZONE_UNMAPED_INDEX : Z
}.

Definition with_bits (b : list Z) (s : pmm) : pmm :=
  mkPmm b s.(bits_after) s.(pages_struct) s.(zones_struct)
    s.(ZONE_DMA_INDEX) s.(ZONE_NORMAL_INDEX) s.(ZONE_UNMAPED_INDEX).
Definition with_pages (p : list Page) (s : pmm) : pmm :=
  mkPmm s.(bits_map) s.(bits_after) p s.(zones_struct)
    s.(ZONE_DMA_INDEX) s.(ZONE_NORMAL_INDEX) s.(ZONE_UNMAPED_INDEX).
Definition with_zones (z : list Zone) (s : pmm) : pmm :=
  mkPmm s.(bits_map) s.(bits_after) s.(pages_struct) z
    s.(ZONE_DMA_INDEX) s.(ZONE_NORMAL_INDEX) s.(ZONE_UNMAPED_INDEX).

(** ** Access to pages and zones *)

Definition page_at (s : pmm) (i : Z) : option Page :=
  if i <? 0 then None else s.(pages_struct) !! Z.to_nat i.
Definition set_page (i : Z) (p : Page) (s : pmm) : pmm :=
  with_pages (<[Z.to_nat i := p]> s.(pages_struct)) s.

Definition set_attribute (a : Z) (p : Page) : Page :=
  mkPage p.(zone_struct) p.(PHY_address) a p.(reference_count) p.(age).
Definition set_reference_count (r : Z) (p : Page) : Page :=
  mkPage p.(zone_struct) p.(PHY_address) p.(attribute) r p.(age).

(** [z->page_using_count += du; z->page_free_count += df]. *)
Definition zone_account (du df : Z) (z : Zone) : Zone :=
  mkZone z.(pages_group) z.(zone_pages_length) z.(zone_start_address) z.(zone_end_address)
    z.(zone_length) z.(zone_attribute)
    (z.(page_using_count) .+ du) (z.(page_free_count) .+ df) z.(total_pages_link).
(** [z->total_pages_link += d]. *)
Definition zone_link (d : Z) (z : Zone) : Zone :=
  mkZone z.(pages_group) z.(zone_pages_length) z.(zone_start_address) z.(zone_end_address)
    z.(zone_length) z.(zone_attribute)
    z.(page_using_count) z.(page_free_count) (z.(total_pages_link) .+ d).

Definition upd_zone (k : option nat) (f : Zone -> Zone) (s : pmm) : option pmm :=
  i ← k;
  z ← s.(zones_struct) !! i;
  Some (with_zones (<[i := f z]> s.(zones_struct)) s).

(** The bit of the page bit map that stands for a page. *)
Definition page_bit (p : Page) : Z := p.(PHY_address) .>> PAGE_2M_SHIFT.

(** ** Page attributes *)

Definition page_init (page flags : Z) (s : pmm) : option (Z * pmm) :=
  p ← page_at s page;
  let p := set_attribute (p.(attribute) .| flags) p in
  let s := set_page page p s in
  if (p.(reference_count) =? 0) || negb (p.(attribute) .& PG_Shared =? 0) then
    let s := set_page page (set_reference_count (p.(reference_count) .+ 1) p) s in
    s ← upd_zone p.(zone_struct) (zone_link 1) s;
    Some (1, s)
  else Some (1, s).

Definition page_clean (page : Z) (s : pmm) : option (Z * pmm) :=
  p ← page_at s page;
  let p := set_reference_count (p.(reference_count) .- 1) p in
  let s := set_page page p s in
  s ← upd_zone p.(zone_struct) (zone_link (-1)) s;
  if p.(reference_count) =? 0 then
    Some (1, set_page page (set_attribute (p.(attribute) .& PG_PTable_Maped) p) s)
  else Some (1, s).

Definition get_page_attribute (page : option Z) (s : pmm) : option Z :=
  match page with
  | None => Some 0
  | Some page => p ← page_at s page; Some p.(attribute)
  end.

Definition set_page_attribute (page : option Z) (flags : Z) (s : pmm) : option (Z * pmm) :=
  match page with
  | None => Some (0, s)
  | Some page => p ← page_at s page; Some (1, set_page page (set_attribute flags p) s)
  end.

(** ** alloc_pages *)

(** The word at [bits_map + w]; the word just after the map is [bits_after]. *)
Definition map_word (s : pmm) (w : Z) : option Z :=
  if w =? Z.of_nat (length s.(bits_map)) then Some s.(bits_after)
  else s.(bits_map) !! Z.to_nat w.

(** [k ? (( *p >> k) | ( *(p + 1) << (64 - k))) : *p]. *)
Definition window (p p1 k : Z) : Z :=
  if k =? 0 then p else (p .>> k) .| (p1 .<< (64 - k)).

(** The [k] loop over one word. *)
Definition scan_word (s : pmm) (number j : Z) : option (option Z) :=
  let shift := j `mod` 64 in
  let num := (1 .<< number) .- 1 in
  p ← s.(bits_map) !! Z.to_nat (j .>> 6);
  p1 ← map_word s ((j .>> 6) + 1);
  Some (List.find (fun k => window p p1 k .& num =? 0) (range shift 64)).

(** The [j] loop over the words of a zone: the page found. *)
Fixpoint scan_zone (fuel : nat) (s : pmm) (number tmp stop j : Z) : option (option Z) :=
  match fuel with
  | O => None
  | S fuel =>
      if j <? stop then
        r ← scan_word s number j;
        match r with
        | Some k => Some (Some (j + k - j `mod` 64))
        | None => scan_zone fuel s number tmp stop (j + (if j `mod` 64 =? 0 then 64 else tmp))
        end
      else Some None
  end.

(** The [i] loop over the zones: the zone and the page found. *)
Fixpoint scan_zones (s : pmm) (number : Z) (zs : list Z) : option (option (nat * Z)) :=
  match zs with
  | [] => Some None
  | i :: zs =>
      z ← s.(zones_struct) !! Z.to_nat i;
      if z.(page_free_count) <? number then scan_zones s number zs
      else
        let start := z.(zone_start_address) .>> PAGE_2M_SHIFT in
        let stop := z.(zone_end_address) .>> PAGE_2M_SHIFT in
        let tmp := 64 - start `mod` 64 in
        r ← scan_zone (S (Z.to_nat (stop - start))) s number tmp stop start;
        match r with
        | Some page => Some (Some (Z.to_nat i, page))
        | None => scan_zones s number zs
        end
  end.

(** The body of the [l] loop: mark one page used. *)
Definition take_page (zi : nat) (attr : Z) (i : Z) (s : pmm) : option pmm :=
  p ← page_at s i;
  b ← bm_or s.(bits_map) (page_bit p);
  s ← upd_zone (Some zi) (zone_account 1 (-1)) (with_bits b s);
  Some (set_page i (set_attribute attr p) s).

(** The zones a [zone_select] designates, and the attribute its pages get. *)
Definition select_zones (s : pmm) (zone_select : Z) : option (list Z * Z) :=
  if zone_select =? ZONE_DMA then
    Some (range 0 (s.(ZONE_DMA_INDEX) + 1), PG_PTable_Maped)
  else if zone_select =? ZONE_NORMAL then
    Some (range s.(ZONE_DMA_INDEX) (s.(ZONE_NORMAL_INDEX) + 1), PG_PTable_Maped)
  else if zone_select =? ZONE_UNMAPED then
    Some (range s.(ZONE_UNMAPED_INDEX) (Z.of_nat (length s.(zones_struct)) - 1 + 1), 0)
  else None.

Definition alloc_pages (zone_select number page_flags : Z) (s : pmm)
  : option (option Z * pmm) :=
  if (64 <=? number) || (number <=? 0) then Some (None, s)
  else
    match select_zones s zone_select with
    | None => Some (None, s)
    | Some (zs, attr) =>
        r ← scan_zones s number zs;
        match r with
        | None => Some (None, s)
        | Some (zi, page) =>
            s ← for_each (take_page zi attr) (range page (page + number)) s;
            Some (Some page, s)
        end
    end.

(** ** free_pages *)

Definition release_page (i : Z) (s : pmm) : option pmm :=
  p ← page_at s i;
  b ← bm_clean s.(bits_map) (page_bit p);
  s ← upd_zone p.(zone_struct) (zone_account (-1) 1) (with_bits b s);
  Some (set_page i (set_attribute 0 p) s).

Definition free_pages (page : option Z) (number : Z) (s : pmm) : option pmm :=
  match page with
  | None => Some s
  | Some page =>
      if (64 <=? number) || (number <=? 0) then Some s
      else for_each release_page (range page (page + number)) s
  end.

(** ** init_memory *)

(** The addresses and sizes [init_memory] computes in [memory_management_struct]. *)
Record layout := mkLayout {
  e820 : list E820;
  e820_length : Z;
  bits_map_addr : Z;
  bits_size : Z;
  bits_length : Z;
  pages_struct_addr : Z;
  pages_size : Z;
  pages_length : Z;
  zones_struct_addr : Z;
  zones_size : Z;
  zones_length : Z;
  end_of_struct : Z
}.

Definition sizeof_Page : Z := 40.
Definition sizeof_Zone : Z := 80.

(** The copy loop: [boot] is the array of entries the loader left at 0x7e00. *)
Fixpoint scan_e820 (fuel i : nat) (boot : nat -> E820) : list E820 :=
  match fuel with
  | O => []
  | S fuel =>
      boot i ::
      (let p := boot (S i) in
       if (4 <? p.(E820_type)) || (p.(E820_length) =? 0) || (p.(E820_type) <? 1)
       then [] else scan_e820 fuel (S i) boot)
  end.

Definition zone_start (e : E820) : Z := PAGE_2M_ALIGN e.(E820_address).
Definition zone_end (e : E820) : Z :=
  ((e.(E820_address) .+ e.(E820_length)) .>> PAGE_2M_SHIFT) .<< PAGE_2M_SHIFT.

(** One iteration of the page loop of a zone. *)
Definition init_zone_page (zi : nat) (start j : Z) (s : pmm) : option pmm :=
  let i := (start .>> PAGE_2M_SHIFT) + j in
  _ ← page_at s i;
  let p := mkPage (Some zi) (start .+ (PAGE_2M_SIZE .* j)) 0 0 0 in
  b ← bm_xor s.(bits_map) (page_bit p);
  Some (with_bits b (set_page i p s)).

(** One iteration of the zone loop. *)
Definition init_zone (e : E820) (s : pmm) : option pmm :=
  if negb (e.(E820_type) =? 1) then Some s
  else if zone_end e <=? zone_start e then Some s
  else
    let n := (zone_end e .- zone_start e) .>> PAGE_2M_SHIFT in
    let z := mkZone (zone_start e .>> PAGE_2M_SHIFT) n (zone_start e) (zone_end e)
               (zone_end e .- zone_start e) 0 0 n 0 in
    let zi := length s.(zones_struct) in
    for_each (init_zone_page zi (zone_start e)) (range 0 n)
      (with_zones (s.(zones_struct) ++ [z]) s).

(** [pages_struct] entry 0. *)
Definition init_page0 (s : pmm) : option pmm :=
  _ ← page_at s 0;
  Some (set_page 0 (mkPage (Some 0%nat) 0 (PG_PTable_Maped .| PG_Kernel_Init .| PG_Kernel) 1 0) s).

(** The loop that sets [ZONE_UNMAPED_INDEX]. *)
Fixpoint unmaped_index (zs : list Zone) (i idx : Z) : Z :=
  match zs with
  | [] => idx
  | z :: zs =>
      unmaped_index zs (i + 1)
        (if (0x100000000 <=? z.(zone_start_address)) && (idx =? 0) then i else idx)
  end.

(** The loop over the pages that hold the kernel and the descriptor. *)
Definition reserve_page (j : Z) (s : pmm) : option pmm :=
  r ← page_init j (PG_PTable_Maped .| PG_Kernel_Init .| PG_Kernel) s;
  let s := snd r in
  p ← page_at s j;
  b ← bm_or s.(bits_map) (page_bit p);
  upd_zone p.(zone_struct) (zone_account 1 (-1)) (with_bits b s).

Definition init_memory (boot : nat -> E820) (start_brk after : Z) : option (layout * pmm) :=
  let e := scan_e820 32 0 boot in
  let len := Z.of_nat (length e) - 1 in
  top ← last e;
  let TotalMem := top.(E820_address) .+ top.(E820_length) in
  let npages := TotalMem .>> PAGE_2M_SHIFT in
  let bits := (start_brk .+ PAGE_4K_SIZE .- 1) .& PAGE_4K_MASK in
  let blen := ((npages .+ 64 .- 1) / 8) .& .~ 7 in
  let pages := (bits .+ blen .+ PAGE_4K_SIZE .- 1) .& PAGE_4K_MASK in
  let plen := ((npages .* sizeof_Page) .+ 8 .- 1) .& .~ 7 in
  let zones := (pages .+ plen .+ PAGE_4K_SIZE .- 1) .& PAGE_4K_MASK in
  let s := mkPmm (repeat all_ones (Z.to_nat (blen / 8))) after
             (repeat (mkPage None 0 0 0 0) (Z.to_nat npages)) [] 0 0 0 in
  s ← for_each init_zone e s;
  s ← init_page0 s;
  let nz := Z.of_nat (length s.(zones_struct)) in
  let zlen := ((nz .* sizeof_Zone) .+ 8 .- 1) .& .~ 7 in
  let s := mkPmm s.(bits_map) s.(bits_after) s.(pages_struct) s.(zones_struct) 0 0
             (unmaped_index s.(zones_struct) 0 0) in
  let eos := (zones .+ zlen .+ 256) .& .~ 7 in
  s ← for_each reserve_page (range 1 ((Virt_To_Phy eos .>> PAGE_2M_SHIFT) + 1)) s;
  Some (mkLayout e len bits npages blen pages npages plen zones nz zlen eos, s).

(** ** The bits the allocator sees *)

Definition ebit (s : pmm) (i : Z) : bool :=
  match map_word s (i / 64) with Some w => Z.testbit w (i `mod` 64) | None => true end.

(** Pages [page .. page + number - 1] are free. *)
Definition free_run (s : pmm) (page number : Z) : Prop :=
  forall l, 0 <= l < number -> ebit s (page + l) = false.

Definition words_ok (s : pmm) : Prop := bm_ok s.(bits_map) /\ word64 s.(bits_after).

Lemma testbit_window p p1 k l : word64 p -> word64 p1 -> 0 <= k < 64 -> 0 <= l < 64 ->
  Z.testbit (window p p1 k) l =
    if decide (k + l < 64) then Z.testbit p (k + l) else Z.testbit p1 (k + l - 64).
Proof.
  intros Hp Hp1 Hk Hl. unfold window. destruct (Z.eqb_spec k 0) as [->|Hk0].
  - rewrite decide_True by lia. f_equal; lia.
  - rewrite Z.lor_spec, Z.shiftr_spec, testbit_u64, Z.shiftl_spec by lia.
    replace (l <? 64) with true by lia. simpl.
    replace (l - (64 - k)) with (k + l - 64) by lia. rewrite (Z.add_comm l k).
    case_decide.
    + rewrite (Z.testbit_neg_r p1) by lia. apply orb_false_r.
    + by rewrite (testbit_word64_high p) by (done || lia).
Qed.

Lemma mask_ones n : 0 <= n < 64 -> (1 .<< n) .- 1 = Z.ones n.
Proof.
  intros. rewrite u64_bit by lia. rewrite Z.ones_equiv.
  rewrite u64_small; [lia|].
  assert (2 ^ n < 2 ^ 64) by (apply Z.pow_lt_mono_r; lia). lia.
Qed.

Lemma land_ones_zero x n : 0 <= n -> (x .& Z.ones n =? 0) = true <->
  forall l, 0 <= l < n -> Z.testbit x l = false.
Proof.
  intros Hn. rewrite Z.eqb_eq. split.
  - intros H l Hl. rewrite <- (andb_true_r (Z.testbit x l)).
    rewrite <- (Z.ones_spec_low n l) by lia. rewrite <- Z.land_spec, H. apply Z.bits_0.
  - intros H. apply Z.bits_inj'. intros l Hl. rewrite Z.land_spec, Z.bits_0.
    destruct (decide (l < n)); [rewrite H by lia; done|].
    rewrite Z.ones_spec_high by lia. apply andb_false_r.
Qed.

Lemma ebit_word s i w : map_word s (i / 64) = Some w ->
  ebit s i = Z.testbit w (i `mod` 64).
Proof. unfold ebit. by intros ->. Qed.

Lemma ebit_in_map s i : 0 <= i < bm_bits s.(bits_map) -> ebit s i = bm_get s.(bits_map) i.
Proof.
  unfold bm_bits, ebit, map_word, bm_get. intros Hi.
  assert (i / 64 < Z.of_nat (length (bits_map s))) by (apply Z.div_lt_upper_bound; lia).
  destruct (Z.eqb_spec (i / 64) (Z.of_nat (length (bits_map s)))); [lia|].
  destruct (lookup_lt_is_Some_2 (bits_map s) (Z.to_nat (i / 64))) as [w Hw].
  { pose proof (Z.div_pos i 64). lia. }
  by rewrite Hw.
Qed.

(** When the word after the map reads as all ones, a free bit is in the map. *)
Lemma ebit_false_in_map s i : s.(bits_after) = all_ones -> 0 <= i ->
  ebit s i = false -> i < bm_bits s.(bits_map).
Proof.
  unfold ebit, map_word, bm_bits. intros Ha Hi H.
  destruct (Z.eqb_spec (i / 64) (Z.of_nat (length (bits_map s)))) as [E|E].
  - rewrite Ha in H. change all_ones with (Z.ones 64) in H.
    rewrite Z.ones_spec_low in H by (apply Z.mod_pos_bound; lia). done.
  - destruct (bits_map s !! Z.to_nat (i / 64)) eqn:Hw; [|done].
    apply lookup_lt_Some in Hw. pose proof (Z_div_mod_eq_full i 64).
    pose proof (Z.mod_pos_bound i 64). pose proof (Z.div_pos i 64). lia.
Qed.

Lemma map_word_word64 s w x : words_ok s -> map_word s w = Some x -> word64 x.
Proof.
  intros [Hb Ha]. unfold map_word. destruct (_ =? _); intros; simplify_eq; [done|].
  by eapply Forall_lookup_1.
Qed.

Lemma scan_word_spec s number j :
  words_ok s -> 0 < number < 64 -> 0 <= j < bm_bits s.(bits_map) ->
  exists r, scan_word s number j = Some r /\
    match r with
    | Some k => j `mod` 64 <= k < 64 /\ free_run s (64 * (j / 64) + k) number /\
        forall k', j `mod` 64 <= k' < k -> ~ free_run s (64 * (j / 64) + k') number
    | None => forall k, j `mod` 64 <= k < 64 -> ~ free_run s (64 * (j / 64) + k) number
    end.
Proof.
  intros Hok Hn Hj. unfold scan_word, bm_bits in *.
  rewrite Z.shiftr_div_pow2 by lia. change (2 ^ 6) with 64.
  pose proof (Z.div_pos j 64). pose proof (Z.mod_pos_bound j 64).
  assert (j / 64 < Z.of_nat (length (bits_map s))) as Hlt by (apply Z.div_lt_upper_bound; lia).
  destruct (lookup_lt_is_Some_2 (bits_map s) (Z.to_nat (j / 64))) as [p Hp]; [lia|].
  assert (map_word s (j / 64) = Some p) as Hp'.
  { unfold map_word. destruct (Z.eqb_spec (j / 64) (Z.of_nat (length (bits_map s)))); [lia|done]. }
  assert (is_Some (map_word s (j / 64 + 1))) as [p1 Hp1].
  { unfold map_word. destruct (Z.eqb_spec (j / 64 + 1) (Z.of_nat (length (bits_map s)))); [eauto|].
    apply lookup_lt_is_Some_2. lia. }
  rewrite Hp, Hp1. simpl. eexists; split; [done|].
  assert (forall k, 0 <= k < 64 -> (window p p1 k .& ((1 .<< number) .- 1) =? 0) = true <->
    free_run s (64 * (j / 64) + k) number) as Hw.
  { intros k Hk. rewrite mask_ones, land_ones_zero by lia. unfold free_run.
    assert (forall l, 0 <= l < number ->
      Z.testbit (window p p1 k) l = ebit s (64 * (j / 64) + k + l)) as Heq.
    { intros l Hl. rewrite testbit_window by (eauto using map_word_word64 || lia).
      replace (64 * (j / 64) + k + l) with (k + l + (j / 64) * 64) by lia.
      case_decide as Hd.
      - rewrite (ebit_word _ _ p).
        + rewrite Z_mod_plus_full, (Z.mod_small (k + l)) by lia. done.
        + rewrite Z_div_plus_full, (Z.div_small (k + l)) by lia. by rewrite Z.add_0_l.
      - replace (k + l + (j / 64) * 64) with (k + l - 64 + (j / 64 + 1) * 64) by lia.
        rewrite (ebit_word _ _ p1).
        + rewrite Z_mod_plus_full, (Z.mod_small (k + l - 64)) by lia. done.
        + rewrite Z_div_plus_full, (Z.div_small (k + l - 64)) by lia. by rewrite Z.add_0_l. }
    split; intros Hx l Hl; [rewrite <- Heq by done|rewrite Heq by done]; by apply Hx. }
  destruct (List.find _ _) as [k|] eqn:Hf.
  - apply find_range_some in Hf as (Hk & Hb & Hleast). split; [done|]. split; [apply Hw; [lia|done]|].
    intros k' Hk' Hr. apply Hw in Hr; [|lia]. by rewrite Hleast in Hr by lia.
  - intros k Hk Hr. apply Hw in Hr; [|lia].
    rewrite (proj1 (find_none_iff _ _) Hf k) in Hr; [done|]. by apply in_range.
Qed.

(** The scan of a zone terminates within its fuel; it finds the first free run that starts
    at or after the start of the zone, or there is none that starts in the zone. *)
Lemma scan_zone_spec s number start stop : forall fuel j,
  words_ok s -> 0 < number < 64 -> 0 <= start -> stop <= bm_bits s.(bits_map) ->
  (j = start \/ start <= j /\ j `mod` 64 = 0) -> (Z.to_nat (stop - j) < fuel)%nat ->
  exists r, scan_zone fuel s number (64 - start `mod` 64) stop j = Some r /\
    match r with
    | Some page => start <= page /\ free_run s page number /\
        forall page', j <= page' < page -> ~ free_run s page' number
    | None => forall page, j <= page < stop -> ~ free_run s page number
    end.
Proof.
  induction fuel as [|fuel IH]; intros j Hok Hn Hs Hstop Hj Hfuel; [lia|].
  simpl. destruct (Z.ltb_spec j stop) as [Hlt|Hge]; [|eexists; split; [done|]; simpl; lia].
  destruct (scan_word_spec s number j Hok Hn) as (r & Hr & Hspec); [lia|].
  rewrite Hr. simpl. pose proof (Z_div_mod_eq_full j 64). pose proof (Z.mod_pos_bound j 64).
  destruct r as [k|].
  - destruct Hspec as (Hk & Hrun & Hleast). eexists; split; [done|]. simpl.
    replace (j + k - j `mod` 64) with (64 * (j / 64) + k) by lia. split_and!; [lia|done|].
    intros page Hp. replace page with (64 * (j / 64) + (page - 64 * (j / 64))) by lia. apply Hleast. lia.
  - set (j' := j + (if j `mod` 64 =? 0 then 64 else 64 - start `mod` 64)).
    assert (j' = 64 * (j / 64 + 1)) as Hj'.
    { unfold j'. destruct (Z.eqb_spec (j `mod` 64) 0); [lia|].
      destruct Hj as [->|[_ ?]]; lia. }
    destruct (IH j') as (r & Hr' & Hspec'); [done..| |lia|].
    + right. split; [lia|]. rewrite Hj', Z.mul_comm. apply Z_mod_mult.
    + assert (forall page, j <= page < j' -> ~ free_run s page number) as Hno.
      { intros page Hp. replace page with (64 * (j / 64) + (page - 64 * (j / 64))) by lia. apply Hspec. lia. }
      exists r. split; [done|]. destruct r as [page|].
      * destruct Hspec' as (H1 & H2 & H3). split_and!; [done..|].
        intros page' Hp. destruct (decide (j' <= page')); [apply H3; lia|apply Hno; lia].
      * intros page Hp. destruct (decide (j' <= page)); [apply Hspec'; lia|apply Hno; lia].
Qed.

(** ** The allocator invariant *)

(** What [init_memory] establishes and every operation keeps: the words are 64-bit
    words, the word after the map reads as used, zone counters are [unsigned long]s,
    zones lie within the map, and a free bit is the bit of a page of some zone. *)
Record pmm_wf (s : pmm) : Prop := {
  wf_words : words_ok s;
  wf_after : s.(bits_after) = all_ones;
  wf_zone : forall k z, s.(zones_struct) !! k = Some z ->
    word64 z.(page_using_count) /\ word64 z.(page_free_count) /\
    0 <= z.(zone_start_address) .>> PAGE_2M_SHIFT /\
    z.(zone_end_address) .>> PAGE_2M_SHIFT <= bm_bits s.(bits_map);
  wf_free : forall i, 0 <= i < bm_bits s.(bits_map) -> bm_get s.(bits_map) i = false ->
    exists p k z, page_at s i = Some p /\ page_bit p = i /\ p.(zone_struct) = Some k /\
      s.(zones_struct) !! k = Some z /\
      z.(zone_start_address) .>> PAGE_2M_SHIFT <= i < z.(zone_end_address) .>> PAGE_2M_SHIFT;
  wf_index : 0 <= s.(ZONE_DMA_INDEX) < Z.of_nat (length s.(zones_struct)) /\
    0 <= s.(ZONE_NORMAL_INDEX) < Z.of_nat (length s.(zones_struct)) /\
    0 <= s.(ZONE_UNMAPED_INDEX) < Z.of_nat (length s.(zones_struct))
}.

Lemma zone_account_0 z : word64 z.(page_using_count) -> word64 z.(page_free_count) ->
  zone_account 0 0 z = z.
Proof.
  intros. destruct z; unfold zone_account; simpl in *.
  by rewrite !Z.add_0_r, !u64_small.
Qed.

Lemma zone_account_add a b c d z :
  zone_account a b (zone_account c d z) = zone_account (c + a) (d + b) z.
Proof. unfold zone_account; simpl. by rewrite !u64_add_l, !Z.add_assoc. Qed.

Lemma page_at_lookup s i p : page_at s i = Some p ->
  0 <= i /\ s.(pages_struct) !! Z.to_nat i = Some p.
Proof. unfold page_at. destruct (Z.ltb_spec i 0); [done|]. intros; split; [lia|done]. Qed.

Lemma page_at_set_page s i j p q : page_at s i = Some q ->
  page_at (set_page i p s) j = if decide (i = j) then Some p else page_at s j.
Proof.
  intros Hq. apply page_at_lookup in Hq as [Hi Hq]. unfold page_at, set_page; simpl.
  apply lookup_lt_Some in Hq.
  destruct (Z.ltb_spec j 0); case_decide; subst; try lia; try done.
  - by rewrite list_lookup_insert_eq.
  - rewrite list_lookup_insert_ne by lia. done.
Qed.

(** What marking pages [lo .. hi - 1] as used, or as free, changes: the relation
    between the state [s] before and [t] after.  [b] is the new value of the bits,
    [attr] the new attribute and [k] the zone whose counters move by [du]. *)
Record marked (b : bool) (attr : Z) (k : nat) (du : Z) (lo hi : Z) (s t : pmm) : Prop := {
  mk_len : length t.(bits_map) = length s.(bits_map);
  mk_ok : bm_ok s.(bits_map) -> bm_ok t.(bits_map);
  mk_bits : forall i, 0 <= i ->
    bm_get t.(bits_map) i = if decide (lo <= i < hi) then b else bm_get s.(bits_map) i;
  mk_after : t.(bits_after) = s.(bits_after);
  mk_pages : forall i, page_at t i =
    if decide (lo <= i < hi) then set_attribute attr <$> page_at s i else page_at s i;
  mk_zones : t.(zones_struct) = alter (zone_account (du * (hi - lo)) (- du * (hi - lo))) k s.(zones_struct);
  mk_dma : t.(ZONE_DMA_INDEX) = s.(ZONE_DMA_INDEX);
  mk_normal : t.(ZONE_NORMAL_INDEX) = s.(ZONE_NORMAL_INDEX);
  mk_unmaped : t.(ZONE_UNMAPED_INDEX) = s.(ZONE_UNMAPED_INDEX)
}.

Lemma marked_refl b attr k du lo s z :
  s.(zones_struct) !! k = Some z ->
  word64 z.(page_using_count) -> word64 z.(page_free_count) ->
  marked b attr k du lo lo s s.
Proof.
  intros Hz Hu Hf. constructor; auto.
  - intros. by rewrite decide_False by lia.
  - intros. by rewrite decide_False by lia.
  - rewrite Z.sub_diag, !Z.mul_0_r. symmetry. eapply list_alter_same; [done|].
    by apply zone_account_0.
Qed.

(** One step of [take_page] or [release_page] extends [marked] by a page. *)
Lemma marked_step b attr k du lo hi s t f g z p :
  (forall m i m', f m i = Some m' -> length m' = length m /\ (bm_ok m -> bm_ok m')) ->
  (forall m i m' j, f m i = Some m' -> 0 <= i -> 0 <= j ->
    bm_get m' j = if decide (i = j) then b else bm_get m j) ->
  (forall m i, 0 <= i < bm_bits m -> exists m', f m i = Some m') ->
  g = zone_account du (- du) ->
  lo <= hi -> 0 <= lo ->
  marked b attr k du lo hi s t ->
  page_at s hi = Some p -> page_bit p = hi -> hi < bm_bits s.(bits_map) ->
  s.(zones_struct) !! k = Some z ->
  exists t' m', f t.(bits_map) (page_bit p) = Some m' /\ page_at t hi = Some p /\
    upd_zone (Some k) g (with_bits m' t) = Some t' /\
    marked b attr k du lo (hi + 1) s (set_page hi (set_attribute attr p) t').
Proof.
  intros Hf1 Hf2 Hf3 -> Hle Hlo M Hp Hb Hlt Hz.
  destruct (Hf3 (bits_map t) (page_bit p)) as [m' Hm'].
  { unfold bm_bits in *. rewrite (mk_len _ _ _ _ _ _ _ _ M). lia. }
  destruct (Hf1 _ _ _ Hm') as [Hlen Hok].
  assert (page_at t hi = Some p) as Hpt.
  { rewrite (mk_pages _ _ _ _ _ _ _ _ M), decide_False by lia. done. }
  assert (zones_struct t !! k = Some (zone_account (du * (hi - lo)) (- du * (hi - lo)) z)) as Hzt.
  { rewrite (mk_zones _ _ _ _ _ _ _ _ M), list_lookup_alter_eq, Hz. done. }
  unfold upd_zone. cbn. rewrite Hzt. cbn.
  eexists _, m'. split_and!; [done..|].
  constructor; cbn.
  - by rewrite Hlen, (mk_len _ _ _ _ _ _ _ _ M).
  - intros. apply Hok, M; done.
  - intros i Hi. rewrite (Hf2 _ _ _ i Hm') by lia. rewrite Hb, (mk_bits _ _ _ _ _ _ _ _ M) by done.
    repeat case_decide; try lia; done.
  - apply M.
  - intros i. rewrite (page_at_set_page _ _ _ _ p); [|done].
    change (page_at (with_zones _ _) i) with (page_at t i).
    rewrite (mk_pages _ _ _ _ _ _ _ _ M).
    repeat case_decide; subst; try lia; try done. by rewrite Hp.
  - rewrite (mk_zones _ _ _ _ _ _ _ _ M). apply list_eq. intros j.
    destruct (decide (j = k)) as [->|Hj].
    + rewrite list_lookup_insert_eq, list_lookup_alter_eq, Hz.
      * cbn. rewrite zone_account_add. do 2 f_equal; lia.
      * rewrite length_alter. by eapply lookup_lt_Some.
    + by rewrite list_lookup_insert_ne, !list_lookup_alter_ne.
  - apply M.
  - apply M.
  - apply M.
Qed.

Lemma bm_or_set m i m' j : bm_or m i = Some m' -> 0 <= i -> 0 <= j ->
  bm_get m' j = if decide (i = j) then true else bm_get m j.
Proof.
  intros H Hi Hj. rewrite (bm_or_get _ _ _ _ H Hi Hj).
  destruct (decide (i = j)); [rewrite bool_decide_eq_true_2 by done; apply orb_true_r|].
  rewrite bool_decide_eq_false_2 by done. apply orb_false_r.
Qed.

Lemma bm_clean_reset m i m' j : bm_clean m i = Some m' -> 0 <= i -> 0 <= j ->
  bm_get m' j = if decide (i = j) then false else bm_get m j.
Proof.
  intros H Hi Hj. rewrite (bm_clean_get _ _ _ _ H Hi Hj).
  destruct (decide (i = j)); [rewrite bool_decide_eq_true_2 by done; apply andb_false_r|].
  rewrite bool_decide_eq_false_2 by done. apply andb_true_r.
Qed.

(** The [l] loop of [alloc_pages]. *)
Lemma take_pages_spec s zi z attr page number :
  s.(zones_struct) !! zi = Some z -> 0 <= page -> 0 <= number ->
  word64 z.(page_using_count) -> word64 z.(page_free_count) ->
  page + number <= bm_bits s.(bits_map) ->
  (forall i, page <= i < page + number -> exists p, page_at s i = Some p /\ page_bit p = i) ->
  exists t, for_each (take_page zi attr) (range page (page + number)) s = Some t /\
    marked true attr zi 1 page (page + number) s t.
Proof.
  intros Hz Hpage Hnum Hu Hf Hmax Hpages.
  destruct (for_each_total (take_page zi attr)
    (fun d t => marked true attr zi 1 page (page + Z.of_nat (length d)) s t)
    (range page (page + number)) s) as (t & Ht & HP).
  - simpl. rewrite Z.add_0_r. by eapply marked_refl.
  - intros d i r t Hd M. apply range_split_inv in Hd as [-> Hi].
    unfold range in M |- *. rewrite length_seqZ in M. rewrite length_app, length_seqZ. simpl.
    replace (page + Z.of_nat (Z.to_nat (i - page))) with i in M by lia.
    replace (page + Z.of_nat (Z.to_nat (i - page) + 1)) with (i + 1) by lia.
    destruct (Hpages i Hi) as (p & Hp & Hb).
    destruct (marked_step true attr zi 1 page i s t bm_or (zone_account 1 (-1)) z p)
      as (t' & m' & E1 & E2 & E3 & M'); try done; try lia.
    { intros. split; [by eapply bm_or_length|by eapply bm_or_ok]. }
    { apply bm_or_set. }
    { apply bm_or_some. }
    exists (set_page i (set_attribute attr p) t'). split; [|done].
    unfold take_page. rewrite E2. cbn [mbind option_bind]. rewrite E1. cbn [mbind option_bind]. by rewrite E3.
  - exists t. split; [done|].
    replace (page + number) with (page + Z.of_nat (length (range page (page + number)))); [done|].
    unfold range. rewrite length_seqZ. lia.
Qed.

(** The loop of [free_pages], for pages of one zone. *)
Lemma release_pages_spec s zi z page number :
  s.(zones_struct) !! zi = Some z -> 0 <= page -> 0 <= number ->
  word64 z.(page_using_count) -> word64 z.(page_free_count) ->
  page + number <= bm_bits s.(bits_map) ->
  (forall i, page <= i < page + number -> exists p, page_at s i = Some p /\ page_bit p = i /\
    p.(zone_struct) = Some zi) ->
  exists t, for_each release_page (range page (page + number)) s = Some t /\
    marked false 0 zi (-1) page (page + number) s t.
Proof.
  intros Hz Hpage Hnum Hu Hf Hmax Hpages.
  destruct (for_each_total release_page
    (fun d t => marked false 0 zi (-1) page (page + Z.of_nat (length d)) s t)
    (range page (page + number)) s) as (t & Ht & HP).
  - simpl. rewrite Z.add_0_r. by eapply marked_refl.
  - intros d i r t Hd M. apply range_split_inv in Hd as [-> Hi].
    unfold range in M |- *. rewrite length_seqZ in M. rewrite length_app, length_seqZ. simpl.
    replace (page + Z.of_nat (Z.to_nat (i - page))) with i in M by lia.
    replace (page + Z.of_nat (Z.to_nat (i - page) + 1)) with (i + 1) by lia.
    destruct (Hpages i Hi) as (p & Hp & Hb & Hpz).
    destruct (marked_step false 0 zi (-1) page i s t bm_clean (zone_account (-1) 1) z p)
      as (t' & m' & E1 & E2 & E3 & M'); try done; try lia.
    { intros. split; [by eapply bm_clean_length|by eapply bm_clean_ok]. }
    { apply bm_clean_reset. }
    { apply bm_clean_some. }
    exists (set_page i (set_attribute 0 p) t'). split; [|done].
    unfold release_page. rewrite E2. cbn [mbind option_bind]. rewrite E1. cbn [mbind option_bind]. by rewrite Hpz, E3.
  - exists t. split; [done|].
    replace (page + number) with (page + Z.of_nat (length (range page (page + number)))); [done|].
    unfold range. rewrite length_seqZ. lia.
Qed.

(** Marking pages used keeps the invariant. *)
Lemma marked_wf s t attr k lo hi : marked true attr k 1 lo hi s t -> pmm_wf s -> pmm_wf t.
Proof.
  intros M W. destruct M as [Hlen Hok Hbits Hafter Hpages Hzones Hd Hn Hu].
  assert (bm_bits (bits_map t) = bm_bits (bits_map s)) as Hbb.
  { unfold bm_bits. by rewrite Hlen. }
  assert (forall i z', zones_struct t !! i = Some z' -> exists z, zones_struct s !! i = Some z /\
    z'.(zone_start_address) = z.(zone_start_address) /\
    z'.(zone_end_address) = z.(zone_end_address) /\ (word64 z.(page_using_count) ->
    word64 z.(page_free_count) -> word64 z'.(page_using_count) /\ word64 z'.(page_free_count))) as Hz.
  { intros i z'. rewrite Hzones. destruct (decide (i = k)) as [->|Hi].
    - rewrite list_lookup_alter_eq. intros Ha. destruct (zones_struct s !! k) as [z|]; [|done].
      simplify_eq/=. exists z. split_and!; [done..|]. intros _ _. split; apply word64_u64.
    - rewrite list_lookup_alter_ne by done. intros. exists z'. done. }
  constructor.
  - split; [apply Hok, W|]. rewrite Hafter. apply W.
  - rewrite Hafter. apply W.
  - intros i z' Hz'. destruct (Hz _ _ Hz') as (z & Ez & -> & -> & Hw).
    destruct (wf_zone s W i z Ez) as (? & ? & ? & ?).
    rewrite Hbb. destruct Hw as [??]; done.
  - intros i Hi Hfree. rewrite Hbb in Hi. rewrite Hbits in Hfree by lia.
    destruct (decide (lo <= i < hi)); [done|].
    destruct (wf_free s W i Hi Hfree) as (p & j & z & Hp & Hb & Hj & Hzj & Hr).
    exists p, j. rewrite Hpages, decide_False by done. rewrite Hzones.
    destruct (decide (j = k)) as [->|Hjk].
    + eexists. rewrite list_lookup_alter_eq, Hzj. done.
    + exists z. rewrite list_lookup_alter_ne by done. done.
  - rewrite Hd, Hn, Hu, Hzones, length_alter. apply W.
Qed.

(** The loop over the zones is total; it returns the first zone, with enough free
    pages on its counter, in which a free run starts. *)
Lemma scan_zones_spec s number zs :
  pmm_wf s -> 0 < number < 64 ->
  (forall i, i ∈ zs -> 0 <= i < Z.of_nat (length s.(zones_struct))) ->
  exists r, scan_zones s number zs = Some r /\
    match r with
    | Some (zi, page) => Z.of_nat zi ∈ zs /\ exists z, s.(zones_struct) !! zi = Some z /\
        number <= z.(page_free_count) /\
        z.(zone_start_address) .>> PAGE_2M_SHIFT <= page /\ free_run s page number /\
        forall page', z.(zone_start_address) .>> PAGE_2M_SHIFT <= page' < page -> ~ free_run s page' number
    | None => forall i z, Z.of_nat i ∈ zs -> s.(zones_struct) !! i = Some z ->
        z.(page_free_count) < number \/
        forall page, z.(zone_start_address) .>> PAGE_2M_SHIFT <= page <
          z.(zone_end_address) .>> PAGE_2M_SHIFT -> ~ free_run s page number
    end.
Proof.
  intros W Hn. induction zs as [|i zs IH]; intros Hin; cbn [scan_zones].
  { exists None. split; [done|]. intros i z Hi. by apply elem_of_nil in Hi. }
  destruct IH as (r' & Hr' & IH). { intros j Hj. apply Hin. by apply list_elem_of_further. }
  pose proof (Hin i ltac:(apply list_elem_of_here)) as Hi.
  destruct (lookup_lt_is_Some_2 s.(zones_struct) (Z.to_nat i)) as [z Hz]; [lia|].
  destruct (wf_zone s W _ _ Hz) as (Hu & Hf & Hs & He).
  rewrite Hz. cbn [mbind option_bind]. rewrite Hr'.
  assert (forall P : nat -> Zone -> Prop, (P (Z.to_nat i) z) ->
    (forall j zj, Z.of_nat j ∈ zs -> s.(zones_struct) !! j = Some zj -> P j zj) ->
    forall j zj, Z.of_nat j ∈ i :: zs -> s.(zones_struct) !! j = Some zj -> P j zj) as Hcons.
  { intros P HP Htl j zj Hj Hzj. apply elem_of_cons in Hj as [Hj|Hj]; [|by apply Htl].
    assert (j = Z.to_nat i) as -> by lia. by simplify_eq. }
  assert (forall zi, Z.of_nat zi ∈ zs -> Z.of_nat zi ∈ i :: zs) as Hfur
    by (intros; by apply list_elem_of_further).
  destruct (Z.ltb_spec z.(page_free_count) number).
  - exists r'. split; [done|]. destruct r' as [[zi page]|].
    + destruct IH as [Hzi IH]. split; [auto|done].
    + apply Hcons; [by left|done].
  - destruct (scan_zone_spec s number (z.(zone_start_address) .>> PAGE_2M_SHIFT)
      (z.(zone_end_address) .>> PAGE_2M_SHIFT)
      (S (Z.to_nat (z.(zone_end_address) .>> PAGE_2M_SHIFT - z.(zone_start_address) .>> PAGE_2M_SHIFT)))
      (z.(zone_start_address) .>> PAGE_2M_SHIFT)) as (r & Hr & Hspec);
      [apply W|done|done|done|by left|lia|].
    rewrite Hr. cbn [mbind option_bind]. destruct r as [page|].
    + exists (Some (Z.to_nat i, page)). split; [done|].
      rewrite Z2Nat.id by lia. split; [apply list_elem_of_here|]. by exists z.
    + exists r'. split; [done|]. destruct r' as [[zi page]|].
      * destruct IH as [Hzi IH]. split; [auto|done].
      * apply Hcons; [by right|done].
Qed.

Lemma select_zones_range s sel zs attr : pmm_wf s -> select_zones s sel = Some (zs, attr) ->
  forall i, i ∈ zs -> 0 <= i < Z.of_nat (length s.(zones_struct)).
Proof.
  intros W H i Hi. destruct (wf_index s W) as (H1 & H2 & H3). unfold select_zones in H.
  repeat case_match; simplify_eq; apply in_range in Hi; lia.
Qed.

(** A free run lies in the map, and consists of pages of zones. *)
Lemma free_run_pages s page number : pmm_wf s -> 0 <= page -> 0 < number ->
  free_run s page number ->
  page + number <= bm_bits s.(bits_map) /\
  forall i, page <= i < page + number -> bm_get s.(bits_map) i = false /\
    exists p, page_at s i = Some p /\ page_bit p = i.
Proof.
  intros W Hp Hn Hrun.
  assert (forall i, page <= i < page + number -> i < bm_bits s.(bits_map) /\ ebit s i = false) as Hin.
  { intros i Hi. pose proof (Hrun (i - page) ltac:(lia)) as He.
    replace (page + (i - page)) with i in He by lia. split; [|done].
    apply ebit_false_in_map; [apply W|lia|done]. }
  split; [destruct (Hin (page + number - 1)); lia|].
  intros i Hi. destruct (Hin i Hi) as [Hlt He]. rewrite ebit_in_map in He by lia.
  split; [done|]. destruct (wf_free s W i) as (p & k & z & ? & ? & _); [lia|done|]. eauto.
Qed.

(** ** Properties of the allocator *)

(** An accepted request, with the zones it designates and the attribute they get. *)
Lemma alloc_pages_accept s sel number flags zs attr :
  pmm_wf s -> 0 < number < 64 -> select_zones s sel = Some (zs, attr) ->
  exists r t, alloc_pages sel number flags s = Some (r, t) /\ pmm_wf t /\
    match r with
    | Some page => exists zi z, Z.of_nat zi ∈ zs /\ s.(zones_struct) !! zi = Some z /\
        number <= z.(page_free_count) /\
        z.(zone_start_address) .>> PAGE_2M_SHIFT <= page /\
        page + number <= bm_bits s.(bits_map) /\
        (forall i, page <= i < page + number -> bm_get s.(bits_map) i = false) /\
        (forall page', z.(zone_start_address) .>> PAGE_2M_SHIFT <= page' < page -> ~ free_run s page' number) /\
        marked true attr zi 1 page (page + number) s t
    | None => t = s /\ forall i z, Z.of_nat i ∈ zs -> s.(zones_struct) !! i = Some z ->
        z.(page_free_count) < number \/
        forall page, z.(zone_start_address) .>> PAGE_2M_SHIFT <= page <
          z.(zone_end_address) .>> PAGE_2M_SHIFT -> ~ free_run s page number
    end.
Proof.
  intros W Hn Hsel. unfold alloc_pages.
  destruct (Z.leb_spec 64 number), (Z.leb_spec number 0); try lia. cbn [orb].
  rewrite Hsel.
  destruct (scan_zones_spec s number zs W Hn) as (r & Hr & Hspec).
  { by eapply select_zones_range. }
  rewrite Hr. cbn [mbind option_bind]. destruct r as [[zi page]|]; [|by exists None, s].
  destruct Hspec as (Hzi & z & Hz & Hcnt & Hstart & Hrun & Hleast).
  destruct (wf_zone s W _ _ Hz) as (Hu & Hf & Hs0 & _).
  destruct (free_run_pages s page number W) as [Hmax Hpages]; [lia|lia|done|].
  destruct (take_pages_spec s zi z attr page number) as (t & Ht & M); try done; try lia.
  { intros i Hi. by apply Hpages. }
  rewrite Ht. cbn [mbind option_bind]. eexists _, t. split; [done|].
  split; [by eapply marked_wf|]. exists zi, z. split_and!; try done.
  intros i Hi. by apply Hpages.
Qed.

(** Requests outside the contract: a [number] that is not between 1 and 63, or a
    [zone_select] that is none of the three zones, is answered with NULL, in any
    state whatsoever, and nothing changes. *)
Lemma alloc_pages_refuse s sel number flags :
  ~ (0 < number < 64) \/ select_zones s sel = None ->
  alloc_pages sel number flags s = Some (None, s).
Proof.
  intros H. unfold alloc_pages.
  destruct (Z.leb_spec 64 number), (Z.leb_spec number 0); cbn [orb]; try done.
  destruct H as [H| ->]; [lia|done].
Qed.

Lemma select_zones_none s sel :
  sel <> ZONE_DMA -> sel <> ZONE_NORMAL -> sel <> ZONE_UNMAPED -> select_zones s sel = None.
Proof. intros Ha Hb Hc. unfold select_zones. by rewrite !(proj2 (Z.eqb_neq _ _)). Qed.

(** C1. Total correctness of [alloc_pages] on every request, valid or not.  In a
    well-formed state it does not fault and keeps the invariant.  When it returns a
    page, the request was for 1 to 63 pages of a known kind of zone, the [number]
    pages from there were free and lie in the map, they are the first such run at or
    behind the start of one of the zones [zone_select] designates, which had that many free
    pages on its counter (the run may end behind the zone, in the next one), exactly these bits
    are now set, exactly these pages got the attribute, and the counters of that zone moved
    by [number].  When it returns NULL nothing changed,
    and the request was refused for its arguments, or in every designated zone the
    counter of free pages is too low or no free run of that length starts. *)
Theorem alloc_pages_spec s sel number flags : pmm_wf s ->
  exists r t, alloc_pages sel number flags s = Some (r, t) /\ pmm_wf t /\
    match r with
    | Some page => exists zs attr zi z, 0 < number < 64 /\ select_zones s sel = Some (zs, attr) /\
        Z.of_nat zi ∈ zs /\ s.(zones_struct) !! zi = Some z /\ number <= z.(page_free_count) /\
        z.(zone_start_address) .>> PAGE_2M_SHIFT <= page /\
        page + number <= bm_bits s.(bits_map) /\
        (forall i, page <= i < page + number -> bm_get s.(bits_map) i = false) /\
        (forall page', z.(zone_start_address) .>> PAGE_2M_SHIFT <= page' < page -> ~ free_run s page' number) /\
        marked true attr zi 1 page (page + number) s t
    | None => t = s /\ forall zs attr i z, 0 < number < 64 -> select_zones s sel = Some (zs, attr) ->
        Z.of_nat i ∈ zs -> s.(zones_struct) !! i = Some z ->
        z.(page_free_count) < number \/
        forall page, z.(zone_start_address) .>> PAGE_2M_SHIFT <= page <
          z.(zone_end_address) .>> PAGE_2M_SHIFT -> ~ free_run s page number
    end.
Proof.
  intros W.
  destruct (decide (0 < number < 64)) as [Hn|Hn];
    [|exists None, s; rewrite alloc_pages_refuse by tauto; split_and!; try done; intros; lia].
  destruct (select_zones s sel) as [[zs attr]|] eqn:Hsel;
    [|exists None, s; rewrite alloc_pages_refuse by tauto; split_and!; try done; intros; congruence].
  destruct (alloc_pages_accept s sel number flags zs attr W Hn Hsel) as (r & t & Ha & Wt & Hr).
  exists r, t. split_and!; try done. destruct r as [page|].
  - destruct Hr as (zi & z & Hr). exists zs, attr, zi, z. split_and!; first [done | apply Hr | lia].
  - destruct Hr as [-> Hr]. split; [done|]. intros zs' attr' i z _ [= <- <-]. apply Hr.
Qed.

(** Releasing what was marked restores the bits and the counters. *)
Lemma marked_undo s t u attr k lo hi z :
  marked true attr k 1 lo hi s t -> marked false 0 k (-1) lo hi t u ->
  bm_ok s.(bits_map) -> s.(zones_struct) !! k = Some z ->
  word64 z.(page_using_count) -> word64 z.(page_free_count) ->
  (forall i, lo <= i < hi -> bm_get s.(bits_map) i = false) ->
  u.(bits_map) = s.(bits_map) /\ u.(zones_struct) = s.(zones_struct) /\
  forall i, page_at u i = if decide (lo <= i < hi) then set_attribute 0 <$> page_at s i else page_at s i.
Proof.
  intros M N Hok Hz Hu Hf Hfree. split_and!.
  - apply bm_ext; [by apply N, M|done|by rewrite (mk_len _ _ _ _ _ _ _ _ N), (mk_len _ _ _ _ _ _ _ _ M)|].
    intros i Hi. rewrite (mk_bits _ _ _ _ _ _ _ _ N), (mk_bits _ _ _ _ _ _ _ _ M) by done.
    repeat case_decide; try lia; [symmetry; by apply Hfree|done].
  - rewrite (mk_zones _ _ _ _ _ _ _ _ N), (mk_zones _ _ _ _ _ _ _ _ M).
    eapply list_alter_undo; [done|]. rewrite zone_account_add.
    replace (1 * (hi - lo) + -1 * (hi - lo)) with 0 by lia.
    replace (- (1) * (hi - lo) + - -1 * (hi - lo)) with 0 by lia.
    by apply zone_account_0.
  - intros i. rewrite (mk_pages _ _ _ _ _ _ _ _ N), (mk_pages _ _ _ _ _ _ _ _ M).
    case_decide; [|done]. by destruct (page_at s i).
Qed.

(** C2. [free_pages] undoes [alloc_pages] when one zone is designated and the pages returned
    all belong to it (a run may also end in the next zone, which the conclusion then does not
    cover): freeing them restores the bit map and all zone counters
    exactly; only the attribute of these pages is left at 0. *)
Theorem free_alloc_pages s sel number flags zi attr page t :
  pmm_wf s -> select_zones s sel = Some ([Z.of_nat zi], attr) ->
  alloc_pages sel number flags s = Some (Some page, t) ->
  (forall i, page <= i < page + number -> exists p, page_at s i = Some p /\ p.(zone_struct) = Some zi) ->
  exists u, free_pages (Some page) number t = Some u /\
    u.(bits_map) = s.(bits_map) /\ u.(zones_struct) = s.(zones_struct) /\
    forall i, page_at u i =
      if decide (page <= i < page + number) then set_attribute 0 <$> page_at s i else page_at s i.
Proof.
  intros W Hsel Ha Hzone.
  destruct (decide (0 < number < 64)) as [Hn|Hn]; [|by rewrite alloc_pages_refuse in Ha; auto].
  destruct (alloc_pages_accept s sel number flags _ _ W Hn Hsel) as (r & t' & Ha' & Wt & Hspec).
  simplify_eq. destruct Hspec as (zj & z & Hj & Hz & Hcnt & Hst & Hmax & Hfree & _ & M).
  apply list_elem_of_singleton, Nat2Z.inj in Hj as ->.
  destruct (wf_zone s W _ _ Hz) as (Hu & Hf & Hs0 & _).
  destruct (release_pages_spec t zi (zone_account (1 * number) (- (1) * number) z) page number)
    as (u & Hr & N).
  - rewrite (mk_zones _ _ _ _ _ _ _ _ M), list_lookup_alter_eq, Hz. cbn.
    by replace (page + number - page) with number by lia.
  - lia.
  - lia.
  - apply word64_u64.
  - apply word64_u64.
  - unfold bm_bits. rewrite (mk_len _ _ _ _ _ _ _ _ M). apply Hmax.
  - intros i Hi. destruct (Hzone i Hi) as (p & Hp & Hk).
    exists (set_attribute attr p). rewrite (mk_pages _ _ _ _ _ _ _ _ M), decide_True, Hp by done.
    split_and!; [done| |done].
    destruct (wf_free s W i) as (q & k & zk & Hq & Hb & _); [lia|by apply Hfree|]. by simplify_eq.
  - exists u. unfold free_pages.
    destruct (Z.leb_spec 64 number), (Z.leb_spec number 0); try lia. cbn [orb].
    split; [done|]. by eapply marked_undo; try done; apply W.
Qed.

(** The invariant as a program, for concrete states. *)
Definition pmm_wfb (s : pmm) : bool :=
  let n := Z.of_nat (length s.(zones_struct)) in
  bool_decide (bm_ok s.(bits_map)) && (s.(bits_after) =? all_ones) &&
  forallb (fun z => bool_decide (word64 z.(page_using_count)) &&
    bool_decide (word64 z.(page_free_count)) &&
    (0 <=? z.(zone_start_address) .>> PAGE_2M_SHIFT) &&
    (z.(zone_end_address) .>> PAGE_2M_SHIFT <=? bm_bits s.(bits_map))) s.(zones_struct) &&
  forallb (fun i => bm_get s.(bits_map) i ||
    match page_at s i with
    | Some p => (page_bit p =? i) &&
        match p.(zone_struct) with
        | Some k =>
            match s.(zones_struct) !! k with
            | Some z => (z.(zone_start_address) .>> PAGE_2M_SHIFT <=? i) &&
                (i <? z.(zone_end_address) .>> PAGE_2M_SHIFT)
            | None => false
            end
        | None => false
        end
    | None => false
    end) (range 0 (bm_bits s.(bits_map))) &&
  forallb (fun i => (0 <=? i) && (i <? n))
    [s.(ZONE_DMA_INDEX); s.(ZONE_NORMAL_INDEX); s.(ZONE_UNMAPED_INDEX)].

Lemma pmm_wfb_sound s : pmm_wfb s = true -> pmm_wf s.
Proof.
  unfold pmm_wfb. rewrite !andb_true_iff, !bool_decide_eq_true, Z.eqb_eq.
  rewrite !List.forallb_forall. intros ((((Hm & Ha) & Hz) & Hf) & Hx).
  constructor.
  - split; [done|]. by rewrite Ha.
  - done.
  - intros k z Hk.
    assert (In z (zones_struct s)) as Hin.
    { apply list_elem_of_In. by eapply list_elem_of_lookup_2. }
    specialize (Hz z Hin). rewrite !andb_true_iff, !bool_decide_eq_true, !Z.leb_le in Hz. tauto.
  - intros i Hi Hb.
    assert (In i (range 0 (bm_bits (bits_map s)))) as Hin by by apply list_elem_of_In, in_range.
    specialize (Hf i Hin). rewrite Hb in Hf. cbn [orb] in Hf.
    destruct (page_at s i) as [p|]; [|done]. apply andb_true_iff in Hf as [Hpb Hf].
    destruct (zone_struct p) as [k|] eqn:Hk; [|done].
    destruct (zones_struct s !! k) as [z|] eqn:Hzk; [|done].
    exists p, k, z. split_and!; [done|lia|done|done|lia|lia].
  - assert (forall i, In i [ZONE_DMA_INDEX s; ZONE_NORMAL_INDEX s; ZONE_UNMAPED_INDEX s] ->
      0 <= i < Z.of_nat (length (zones_struct s))) as Hr.
    { intros i Hi. specialize (Hx i Hi). lia. }
    split_and!; apply Hr; cbn; tauto.
Qed.

(** A machine with 16 MB: the entries the loader leaves, and the state
    [init_memory] builds for a kernel that ends at 3 MB. *)
Definition boot_16M (i : nat) : E820 :=
  match i with
  | 0%nat => mkE820 0 0x9f000 1
  | 1%nat => mkE820 0x9f000 0x61000 2
  | 2%nat => mkE820 0x100000 0xf00000 1
  | 3%nat => mkE820 0xfffc0000 0x40000 2
  | _ => mkE820 0 0 0
  end.

Definition pmm_16M : pmm :=
  match init_memory boot_16M (Phy_To_Virt 0x300000) all_ones with
  | Some (_, s) => s
  | None => mkPmm [] 0 [] [] 0 0 0
  end.

Lemma alloc_pages_spec_witness :
  exists r t, alloc_pages ZONE_NORMAL 2 0 pmm_16M = Some (r, t) /\ r = Some 2 /\ pmm_wf t.
Proof.
  destruct (alloc_pages_spec pmm_16M ZONE_NORMAL 2 0) as (r & t & Ht & W & _).
  - apply pmm_wfb_sound. vm_compute. reflexivity.
  - exists r, t. split; [exact Ht|]. split; [|exact W].
    assert (fst <$> alloc_pages ZONE_NORMAL 2 0 pmm_16M = Some (Some 2)) as H
      by (vm_compute; reflexivity).
    rewrite Ht in H. cbn in H. congruence.
Defined.

Lemma free_alloc_pages_witness : exists t u,
  alloc_pages ZONE_NORMAL 6 0 pmm_16M = Some (Some 2, t) /\ free_pages (Some 2) 6 t = Some u /\
  u.(bits_map) = pmm_16M.(bits_map).
Proof.
  destruct (alloc_pages ZONE_NORMAL 6 0 pmm_16M) as [[r t]|] eqn:Ha;
    [|exfalso; vm_compute in Ha; discriminate].
  assert (r = Some 2) as ->.
  { assert (fst <$> alloc_pages ZONE_NORMAL 6 0 pmm_16M = Some (Some 2)) as H
      by (vm_compute; reflexivity). rewrite Ha in H. cbn in H. congruence. }
  destruct (free_alloc_pages pmm_16M ZONE_NORMAL 6 0 0%nat PG_PTable_Maped 2 t) as (u & Hu & Hb & _).
  - apply pmm_wfb_sound. vm_compute. reflexivity.
  - vm_compute. reflexivity.
  - exact Ha.
  - intros i Hi.
    assert (i = 2 \/ i = 3 \/ i = 4 \/ i = 5 \/ i = 6 \/ i = 7) as Hc by lia.
    destruct Hc as [->|[->|[->|[->|[->| ->]]]]]; eexists; split; vm_compute; reflexivity.
  - exists t, u. auto.
Defined.

(** ** Zone set-up *)

(** Clearing the low bits with a mask is rounding down. *)
Lemma mask_round x n : word64 x -> 0 <= n < 64 ->
  x .& .~ ((1 .<< n) .- 1) = 2 ^ n * (x / 2 ^ n).
Proof.
  intros Hx Hn. rewrite mask_ones by lia.
  transitivity (Z.shiftl (Z.shiftr x n) n).
  - apply Z.bits_inj'. intros i Hi.
    rewrite Z.land_spec, testbit_u64, Z.lnot_spec by lia. rewrite Z.shiftl_spec by lia.
    destruct (decide (i < n)).
    + rewrite Z.ones_spec_low, (Z.testbit_neg_r _ (i - n)) by lia. cbn. by rewrite andb_false_r, andb_false_r.
    + rewrite Z.ones_spec_high, Z.shiftr_spec by lia. replace (i - n + n) with i by lia. cbn.
      destruct (Z.ltb_spec i 64); [by rewrite andb_true_r|].
      rewrite (testbit_word64_high x) by (done || lia). done.
  - rewrite Z.shiftl_mul_pow2, Z.shiftr_div_pow2 by lia. lia.
Qed.

(** [PAGE_2M_ALIGN] rounds up to the next 2 MB boundary. *)
Lemma PAGE_2M_ALIGN_spec a : 0 <= a -> a + 2 ^ 21 <= 2 ^ 64 ->
  PAGE_2M_ALIGN a = 2 ^ 21 * ((a + 2 ^ 21 - 1) / 2 ^ 21).
Proof.
  intros. unfold PAGE_2M_ALIGN, PAGE_2M_MASK.
  replace PAGE_2M_SIZE with (2 ^ 21) by reflexivity.
  rewrite u64_sub_l, (u64_small (a + 2 ^ 21 - 1)); [|lia].
  change (2 ^ 21 .- 1) with ((1 .<< 21) .- 1).
  apply mask_round; unfold word64; lia.
Qed.

Lemma zone_start_aligned e : 0 <= e.(E820_address) -> e.(E820_address) + 2 ^ 21 <= 2 ^ 64 ->
  zone_start e = 2 ^ 21 * (zone_start e .>> PAGE_2M_SHIFT) /\ e.(E820_address) <= zone_start e /\
  zone_start e < e.(E820_address) + 2 ^ 21.
Proof.
  intros. unfold zone_start. rewrite PAGE_2M_ALIGN_spec by done.
  rewrite Z.shiftr_div_pow2 by (unfold PAGE_2M_SHIFT; lia). change PAGE_2M_SHIFT with 21.
  rewrite (Z.mul_comm (2 ^ 21)), Z.div_mul by lia.
  pose proof (Z_div_mod_eq_full (E820_address e + 2 ^ 21 - 1) (2 ^ 21)).
  pose proof (Z.mod_pos_bound (E820_address e + 2 ^ 21 - 1) (2 ^ 21)). lia.
Qed.

Lemma zone_end_aligned e : 0 <= e.(E820_address) -> 0 <= e.(E820_length) ->
  e.(E820_address) + e.(E820_length) < 2 ^ 64 ->
  zone_end e = 2 ^ 21 * (zone_end e .>> PAGE_2M_SHIFT) /\
  zone_end e <= e.(E820_address) + e.(E820_length) < zone_end e + 2 ^ 21.
Proof.
  intros. unfold zone_end. set (x := E820_address e + E820_length e) in *.
  rewrite (u64_small x) by lia. change PAGE_2M_SHIFT with 21.
  pose proof (Z_div_mod_eq_full x (2 ^ 21)). pose proof (Z.mod_pos_bound x (2 ^ 21)).
  pose proof (Z.div_pos x (2 ^ 21)).
  rewrite Z.shiftl_mul_pow2, !Z.shiftr_div_pow2 by lia. rewrite (u64_small (x / 2 ^ 21 * 2 ^ 21)) by lia.
  rewrite Z.div_mul by lia. lia.
Qed.

Section InitZone.
Context (e : E820) (s : pmm).
Notation zi := (length s.(zones_struct)).
Notation first := (zone_start e .>> PAGE_2M_SHIFT).
Notation stop := (zone_end e .>> PAGE_2M_SHIFT).

(** After the pages [first .. hi - 1] of the new zone have been set up. *)
Record zone_built (hi : Z) (t : pmm) : Prop := {
  zb_len : length t.(bits_map) = length s.(bits_map);
  zb_bits : forall i, 0 <= i ->
    bm_get t.(bits_map) i = if decide (first <= i < hi) then false else bm_get s.(bits_map) i;
  zb_pages : forall i, page_at t i =
    if decide (first <= i < hi) then Some (mkPage (Some zi) (2 ^ 21 * i) 0 0 0) else page_at s i;
  zb_zones : t.(zones_struct) = s.(zones_struct) ++
    [mkZone first (stop - first) (zone_start e) (zone_end e) (zone_end e - zone_start e) 0 0
       (stop - first) 0]
}.

Hypothesis addr_pos : 0 <= e.(E820_address).
Hypothesis len_pos : 0 <= e.(E820_length).
Hypothesis addr_end : e.(E820_address) + e.(E820_length) + 2 ^ 21 < 2 ^ 64.
Hypothesis nonempty : zone_start e < zone_end e.
Hypothesis in_map : stop <= bm_bits s.(bits_map).
Hypothesis in_pages : stop <= Z.of_nat (length s.(pages_struct)).
Hypothesis all_used : forall i, first <= i < stop -> bm_get s.(bits_map) i = true.

Lemma zone_first_stop : zone_start e = 2 ^ 21 * first /\ zone_end e = 2 ^ 21 * stop /\
  0 <= first < stop /\ zone_end e < 2 ^ 64.
Proof using addr_pos len_pos addr_end nonempty.
  clear all_used in_map in_pages.
  destruct (zone_start_aligned e) as (H1 & H2 & _); [lia|lia|].
  destruct (zone_end_aligned e) as (H3 & H4 & _); lia.
Qed.

Lemma init_zone_page_spec j t : 0 <= j < stop - first -> zone_built (first + j) t ->
  exists t', init_zone_page zi (zone_start e) j t = Some t' /\ zone_built (first + j + 1) t'.
Proof using addr_pos len_pos addr_end nonempty in_map in_pages all_used.
  intros Hj B. destruct zone_first_stop as (Hs & He & Hlt & Hmax).
  destruct B as [Hlen Hbits Hpages Hzones].
  set (i := first + j) in *. unfold init_zone_page.
  destruct (page_at s i) as [p0|] eqn:Hp0.
  2: { unfold page_at in Hp0. destruct (Z.ltb_spec i 0); [lia|].
    apply lookup_ge_None in Hp0. lia. }
  assert (page_at t i = Some p0) as Hpt by (rewrite Hpages, decide_False by lia; done).
  change (first + j) with i. rewrite Hpt. cbn [mbind option_bind].
  assert (zone_start e .+ (PAGE_2M_SIZE .* j) = 2 ^ 21 * i) as Haddr.
  { change PAGE_2M_SIZE with (2 ^ 21). rewrite (u64_small (2 ^ 21 * j)) by lia.
    rewrite u64_small; lia. }
  rewrite Haddr. unfold page_bit. cbn [PHY_address].
  assert ((2 ^ 21 * i) .>> PAGE_2M_SHIFT = i) as ->.
  { change PAGE_2M_SHIFT with 21. rewrite Z.shiftr_div_pow2 by lia.
    rewrite Z.mul_comm, Z.div_mul; lia. }
  assert (bm_bits (bits_map t) = bm_bits (bits_map s)) as Hbb by (unfold bm_bits; by rewrite Hlen).
  destruct (bm_xor_some t.(bits_map) i) as [b Hb]; [lia|].
  cbn [bits_map set_page with_pages]. rewrite Hb. cbn [mbind option_bind].
  eexists; split; [done|]. constructor; cbn [bits_map zones_struct with_bits with_pages set_page].
  - by rewrite (bm_xor_length _ _ _ Hb).
  - intros k Hk. rewrite (bm_xor_get _ _ _ k Hb) by lia. rewrite Hbits by lia.
    destruct (decide (i = k)) as [<-|Hne].
    + rewrite bool_decide_eq_true_2 by done. rewrite decide_False, decide_True by lia.
      by rewrite all_used by lia.
    + rewrite bool_decide_eq_false_2 by done. rewrite xorb_false_r.
      repeat case_decide; try lia; done.
  - intros k. change (page_at (with_bits _ ?x) k) with (page_at x k).
    rewrite (page_at_set_page _ _ _ _ p0) by done. rewrite Hpages.
    repeat case_decide; subst; try lia; done.
  - done.
Qed.

(** Setting up a zone for a usable range of the memory map: the zone is appended
    with all its pages free, exactly the bits of its pages are cleared, each
    of its pages gets its zone and its physical address, and no other page or
    bit changes. *)
Theorem init_zone_spec : e.(E820_type) = 1 ->
  exists t, init_zone e s = Some t /\ zone_built stop t /\
    bm_count false t.(bits_map) first stop = stop - first.
Proof using addr_pos len_pos addr_end nonempty in_map in_pages all_used.
  intros Hty. destruct zone_first_stop as (Hs & He & Hlt & Hmax).
  unfold init_zone. rewrite Hty. cbn [Z.eqb Pos.eqb negb].
  destruct (Z.leb_spec (zone_end e) (zone_start e)); [lia|].
  assert ((zone_end e .- zone_start e) .>> PAGE_2M_SHIFT = stop - first) as Hn.
  { rewrite u64_small by lia. rewrite Hs, He at 1. rewrite <- Z.mul_sub_distr_l.
    change PAGE_2M_SHIFT with 21. rewrite Z.shiftr_div_pow2 by lia. rewrite Z.mul_comm, Z.div_mul; lia. }
  rewrite Hn. set (s0 := with_zones _ s).
  destruct (for_each_total (init_zone_page zi (zone_start e))
    (fun d t => zone_built (first + Z.of_nat (length d)) t) (range 0 (stop - first)) s0)
    as (t & Ht & B).
  - cbn [length]. constructor; cbn; intros.
    + done.
    + rewrite decide_False by lia. done.
    + rewrite decide_False by lia. done.
    + rewrite u64_small by lia. done.
  - intros d j r t Hd B. apply range_split_inv in Hd as [-> Hj].
    unfold range in B |- *. rewrite length_seqZ in B. rewrite length_app, length_seqZ.
    replace (first + Z.of_nat (Z.to_nat (j - 0))) with (first + j) in B by lia.
    replace (first + Z.of_nat (Z.to_nat (j - 0) + length [j])) with (first + j + 1)
      by (cbn [length]; lia).
    by apply init_zone_page_spec.
  - exists t. split; [done|]. unfold range in B. rewrite length_seqZ in B.
    replace (first + Z.of_nat (Z.to_nat (stop - first - 0))) with stop in B by lia.
    split; [done|]. apply bm_count_all; [lia|]. intros i Hi.
    rewrite (zb_bits _ _ B) by lia. by rewrite decide_True.
Qed.
End InitZone.

Lemma init_zone_spec_witness :
  let e := mkE820 0x100000 0x700000 1 in
  let s := mkPmm [all_ones] all_ones (repeat (mkPage None 0 0 0 0) 8) [] 0 0 0 in
  exists t, init_zone e s = Some t /\ bm_count false t.(bits_map) 1 4 = 3.
Proof.
  intros e s. destruct (init_zone_spec e s) as (t & Ht & _ & Hc).
  - cbn. lia.
  - cbn. lia.
  - cbn. lia.
  - vm_compute. reflexivity.
  - vm_compute. discriminate.
  - vm_compute. discriminate.
  - intros i Hi.
    assert (1 <= i < 4) as Hi1 by exact Hi.
    assert (i = 1 \/ i = 2 \/ i = 3) as Hi' by lia.
    destruct Hi' as [->|[->| ->]]; vm_compute; reflexivity.
  - reflexivity.
  - exists t. split; [exact Ht|]. exact Hc.
Defined.
