(* ===== verification/OnePage.v ===== *)
(** * Single pages (memory.c)

    The slab allocator takes and returns one page at a time.  For such requests the counters of the
    zones are exact and [alloc_pages] fails only when no page is free; [pmm_ok] says so, and taking and
    returning a page keep it. *)

From S2P Require Import Prelude Bitmap PageAlloc.

Definition zstart (z : Zone) : Z := z.(zone_start_address) .>> PAGE_2M_SHIFT.
Definition zstop (z : Zone) : Z := z.(zone_end_address) .>> PAGE_2M_SHIFT.
Definition zin (z : Zone) (i : Z) : bool := (zstart z <=? i) && (i <? zstop z).

Lemma zin_spec z i : zin z i = true <-> zstart z <= i < zstop z.
Proof. unfold zin. rewrite andb_true_iff, Z.leb_le, Z.ltb_lt. done. Qed.

(** Page [i] is a page of a zone, with descriptor [d]. *)
Definition paged (s : pmm) (i : Z) (d : Page) : Prop :=
  page_at s i = Some d /\ d.(PHY_address) = 2 ^ 21 * i /\
  exists k z, d.(zone_struct) = Some k /\ s.(zones_struct) !! k = Some z /\ zin z i = true.

Definition free (s : pmm) (i : Z) : Prop :=
  0 <= i < bm_bits s.(bits_map) /\ bm_get s.(bits_map) i = false.
Definition inuse (s : pmm) (i : Z) : Prop :=
  0 <= i < bm_bits s.(bits_map) /\ bm_get s.(bits_map) i = true.
(** [i] is in use and can be given back: its descriptor names its zone. *)
Definition held (s : pmm) (i : Z) : Prop :=
  0 <= i < bm_bits s.(bits_map) /\ bm_get s.(bits_map) i = true /\ exists d, paged s i d.

(** The counters are exact, zones are apart, pages are where their index says, and the machine has at
    most 2^26 pages: the kernel addresses of all of them fit. *)
Record pmm_ok (s : pmm) : Prop := {
  po_wf : pmm_wf s;
  po_count : forall k z, s.(zones_struct) !! k = Some z ->
    z.(page_free_count) = bm_count false s.(bits_map) (zstart z) (zstop z);
  po_apart : forall k k' z z' i, s.(zones_struct) !! k = Some z -> s.(zones_struct) !! k' = Some z' ->
    zin z i = true -> zin z' i = true -> k = k';
  po_page : forall i, free s i -> exists d, paged s i d;
  po_bits : bm_bits s.(bits_map) <= 2 ^ 26 - 1
}.

(** Page [pg] changes its bit to [b], and its zone's counter follows; descriptors keep their place. *)
Record shift (b : bool) (pg : Z) (s t : pmm) : Prop := {
  sh_len : length t.(bits_map) = length s.(bits_map);
  sh_ok : bm_ok s.(bits_map) -> bm_ok t.(bits_map);
  sh_bits : forall i, 0 <= i -> bm_get t.(bits_map) i = if decide (i = pg) then b else bm_get s.(bits_map) i;
  sh_after : t.(bits_after) = s.(bits_after);
  sh_index : t.(ZONE_DMA_INDEX) = s.(ZONE_DMA_INDEX) /\ t.(ZONE_NORMAL_INDEX) = s.(ZONE_NORMAL_INDEX) /\
    t.(ZONE_UNMAPED_INDEX) = s.(ZONE_UNMAPED_INDEX) /\ length t.(zones_struct) = length s.(zones_struct);
  sh_zones : forall k z, s.(zones_struct) !! k = Some z -> exists z', t.(zones_struct) !! k = Some z' /\
    zstart z' = zstart z /\ zstop z' = zstop z /\
    (word64 z.(page_using_count) -> word64 z'.(page_using_count)) /\
    z'.(page_free_count) = if zin z pg then z.(page_free_count) .+ (if b then -1 else 1) else z.(page_free_count);
  sh_pages : forall i d, page_at s i = Some d -> exists d', page_at t i = Some d' /\
    d'.(zone_struct) = d.(zone_struct) /\ d'.(PHY_address) = d.(PHY_address) /\ (i <> pg -> d' = d)
}.

Lemma shift_bits b pg s t : shift b pg s t -> bm_bits t.(bits_map) = bm_bits s.(bits_map).
Proof. intros H. unfold bm_bits. by rewrite (sh_len _ _ _ _ H). Qed.

Lemma shift_zin b pg s t k z' : shift b pg s t -> t.(zones_struct) !! k = Some z' ->
  exists z, s.(zones_struct) !! k = Some z /\ zstart z' = zstart z /\ zstop z' = zstop z /\
    (word64 z.(page_using_count) -> word64 z'.(page_using_count)) /\ (forall i, zin z' i = zin z i) /\
    z'.(page_free_count) = if zin z pg then z.(page_free_count) .+ (if b then -1 else 1) else z.(page_free_count).
Proof.
  intros H Hz'. destruct (lookup_lt_is_Some_2 s.(zones_struct) k) as [z Hz].
  { destruct (sh_index _ _ _ _ H) as (_ & _ & _ & <-). by eapply lookup_lt_Some. }
  destruct (sh_zones _ _ _ _ H k z Hz) as (z'' & E & E1 & E2 & E3 & E4). rewrite Hz' in E. injection E as <-.
  exists z. split_and!; try done. intros i. unfold zin. by rewrite E1, E2.
Qed.

Lemma shift_paged b pg s t i d : shift b pg s t -> paged s i d -> exists d', paged t i d' /\ (i <> pg -> d' = d).
Proof.
  intros H (Hp & Ha & k & z & Hk & Hz & Hin). destruct (sh_pages _ _ _ _ H i d Hp) as (d' & Hp' & Ez & Ea & En).
  destruct (sh_zones _ _ _ _ H k z Hz) as (z' & Hz' & E1 & E2 & _).
  exists d'. split; [|done]. split_and!; [done|by rewrite Ea|]. exists k, z'. split_and!; [by rewrite Ez|done|].
  unfold zin in *. by rewrite E1, E2.
Qed.

Lemma shift_pmm_ok b pg s t : shift b pg s t -> pmm_ok s -> 0 <= pg < bm_bits s.(bits_map) ->
  bm_get s.(bits_map) pg = negb b -> (exists d, paged s pg d) -> pmm_ok t.
Proof.
  intros H [W Hc Ha Hp Hb] Hpg Hbit Hd. pose proof (shift_bits _ _ _ _ H) as Eb.
  assert (forall k z', t.(zones_struct) !! k = Some z' -> z'.(page_free_count) = bm_count false t.(bits_map) (zstart z') (zstop z')) as Hcount.
  { intros k z' Hz'. destruct (shift_zin _ _ _ _ _ _ H Hz') as (z & Hz & E1 & E2 & _ & _ & ->). rewrite E1, E2.
    destruct (wf_zone s W k z Hz) as (_ & Hw & Hs0 & _). rewrite (Hc k z Hz) in *. fold (zstart z) in Hs0.
    destruct (zin z pg) eqn:Hin.
    - apply zin_spec in Hin. destruct b.
      + rewrite (bm_count_flip false s.(bits_map) t.(bits_map) _ _ pg); [|done|done| |].
        * rewrite u64_small; [lia|]. pose proof (bm_count_nonneg false t.(bits_map) (zstart z) (zstop z)) as Hnn.
          rewrite (bm_count_flip false s.(bits_map) t.(bits_map) _ _ pg) in Hnn; [unfold word64 in Hw; lia|done|done| |].
          -- rewrite (sh_bits _ _ _ _ H) by lia. by rewrite decide_True.
          -- intros j Hj Hne. rewrite (sh_bits _ _ _ _ H) by lia. by rewrite decide_False.
        * rewrite (sh_bits _ _ _ _ H) by lia. by rewrite decide_True.
        * intros j Hj Hne. rewrite (sh_bits _ _ _ _ H) by lia. by rewrite decide_False.
      + assert (bm_count false s.(bits_map) (zstart z) (zstop z) = bm_count false t.(bits_map) (zstart z) (zstop z) - 1) as ->.
        { apply (bm_count_flip false t.(bits_map) s.(bits_map) _ _ pg); [done| |done|].
          - rewrite (sh_bits _ _ _ _ H) by lia. by rewrite decide_True.
          - intros j Hj Hne. rewrite (sh_bits _ _ _ _ H) by lia. by rewrite decide_False. }
        rewrite u64_small; [lia|]. pose proof (bm_count_compl false t.(bits_map) (zstart z) (zstop z) ltac:(lia)) as Hcm.
        pose proof (bm_count_nonneg false t.(bits_map) (zstart z) (zstop z)).
        pose proof (bm_count_nonneg true t.(bits_map) (zstart z) (zstop z)). cbn [negb] in Hcm.
        destruct (wf_zone s W k z Hz) as (_ & _ & _ & He). fold (zstop z) in He. lia.
    - symmetry. apply bm_count_ext. intros j Hj. rewrite (sh_bits _ _ _ _ H) by lia.
      rewrite decide_False; [done|]. intros ->. apply zin_spec in Hj. congruence. }
  constructor; [|done| | |].
  - constructor.
    + destruct (wf_words s W) as [W1 W2]. split; [by apply (sh_ok _ _ _ _ H)|]. by rewrite (sh_after _ _ _ _ H).
    + rewrite (sh_after _ _ _ _ H). apply W.
    + intros k z' Hz'. rewrite (Hcount k z' Hz'). destruct (shift_zin _ _ _ _ _ _ H Hz') as (z & Hz & E1 & E2 & E3 & _ & _).
      destruct (wf_zone s W k z Hz) as (Hu & _ & Hs0 & He). fold (zstart z) in Hs0. fold (zstop z) in He.
      fold (zstart z'). fold (zstop z'). rewrite E1, E2, Eb. split_and!; [auto| |done|done].
      pose proof (bm_count_nonneg false t.(bits_map) (zstart z) (zstop z)).
      destruct (decide (zstart z <= zstop z)) as [Hle|Hle]; [|rewrite bm_count_empty by lia; unfold word64; lia].
      pose proof (bm_count_compl false t.(bits_map) (zstart z) (zstop z) Hle) as Hcm. cbn [negb] in Hcm.
      pose proof (bm_count_nonneg true t.(bits_map) (zstart z) (zstop z)). unfold word64. lia.
    + intros i Hi Hf. rewrite Eb in Hi.
      assert (exists d, paged s i d) as [d Hpd].
      { destruct (decide (i = pg)) as [->|Hne]; [done|]. apply Hp. split; [done|].
        rewrite (sh_bits _ _ _ _ H) in Hf by lia. by rewrite decide_False in Hf. }
      destruct (shift_paged _ _ _ _ _ _ H Hpd) as (d' & (P1 & P2 & k & z & P3 & P4 & P5) & _).
      exists d', k, z. split_and!; try done; [|by apply zin_spec..]. unfold page_bit. rewrite P2.
      rewrite Z.shiftr_div_pow2 by (unfold PAGE_2M_SHIFT; lia). unfold PAGE_2M_SHIFT. rewrite Z.mul_comm. apply Z.div_mul. lia.
    + destruct (sh_index _ _ _ _ H) as (-> & -> & -> & ->). apply W.
  - intros k k' z z' i Hz Hz' Hi Hi'. destruct (shift_zin _ _ _ _ _ _ H Hz) as (y & Hy & _ & _ & _ & Ey & _).
    destruct (shift_zin _ _ _ _ _ _ H Hz') as (y' & Hy' & _ & _ & _ & Ey' & _). rewrite Ey in Hi. rewrite Ey' in Hi'.
    by apply (Ha k k' y y' i).
  - intros i [Hi Hf]. rewrite Eb in Hi.
    assert (exists d, paged s i d) as [d Hpd].
    { destruct (decide (i = pg)) as [->|Hne]; [done|]. apply Hp. split; [done|].
      rewrite (sh_bits _ _ _ _ H) in Hf by lia. by rewrite decide_False in Hf. }
    destruct (shift_paged _ _ _ _ _ _ H Hpd) as (d' & Hd' & _). by exists d'.
  - by rewrite Eb.
Qed.

(** ** The zones [ZONE_NORMAL] designates *)

Definition normal (s : pmm) (i : Z) : Prop := exists k z, s.(ZONE_DMA_INDEX) <= Z.of_nat k <= s.(ZONE_NORMAL_INDEX) /\
  s.(zones_struct) !! k = Some z /\ zin z i = true.

(** At least [n] of their pages are free. *)
Definition has_pages (s : pmm) (n : nat) : Prop :=
  exists l, NoDup l /\ length l = n /\ forall i, i ∈ l -> free s i /\ normal s i.

Lemma shift_normal b pg s t i : shift b pg s t -> normal s i -> normal t i.
Proof.
  intros H (k & z & Hk & Hz & Hi). destruct (sh_zones _ _ _ _ H k z Hz) as (z' & Hz' & E1 & E2 & _).
  destruct (sh_index _ _ _ _ H) as (E3 & E4 & _). exists k, z'. rewrite E3, E4. split_and!; try done; try lia.
  unfold zin in *. by rewrite E1, E2.
Qed.

Lemma shift_free b pg s t i : shift b pg s t -> i <> pg -> free t i <-> free s i.
Proof.
  intros H Hne. unfold free. rewrite (shift_bits _ _ _ _ H).
  split; intros [Hi Hb]; (split; [done|]); [rewrite (sh_bits _ _ _ _ H), decide_False in Hb by lia; done|].
  by rewrite (sh_bits _ _ _ _ H), decide_False by lia.
Qed.

Lemma has_pages_take pg s t n : shift true pg s t -> has_pages s (S n) -> has_pages t n.
Proof.
  intros H (l & Hd & Hl & Hf).
  assert (exists l', NoDup l' /\ length l' = n /\ (forall i, i ∈ l' -> i ∈ l /\ i <> pg)) as (l' & Hd' & Hl' & Hin).
  { destruct (decide (pg ∈ l)) as [Hpg|Hpg].
    - apply list_elem_of_split in Hpg as (l1 & l2 & ->). exists (l1 ++ l2).
      rewrite NoDup_app, NoDup_cons in Hd. destruct Hd as (D1 & D2 & D3 & D4). split_and!.
      + apply NoDup_app. split_and!; [done| |done]. intros x Hx. specialize (D2 x Hx). set_solver.
      + rewrite length_app in Hl |- *. cbn in Hl. lia.
      + intros i Hi. rewrite elem_of_app in Hi. split; [set_solver|]. intros ->.
        destruct Hi as [Hi|Hi]; [apply (D2 pg Hi), list_elem_of_here|done].
    - destruct l as [|x l]; [done|]. exists l. apply NoDup_cons in Hd as [_ Hd]. cbn in Hl.
      split_and!; [done|lia|]. intros i Hi. split; [by apply list_elem_of_further|]. intros ->.
      by apply Hpg, list_elem_of_further. }
  exists l'. split_and!; [done|done|]. intros i Hi. destruct (Hin i Hi) as [Hil Hne]. destruct (Hf i Hil) as [F1 F2].
  split; [by apply (shift_free _ _ _ _ _ H)|by eapply shift_normal].
Qed.

Lemma has_pages_give pg s t n : shift false pg s t -> has_pages s n -> has_pages t n.
Proof.
  intros H (l & Hd & Hl & Hf). exists l. split_and!; [done|done|]. intros i Hi. destruct (Hf i Hi) as [F1 F2].
  split; [|by eapply shift_normal]. destruct (decide (i = pg)) as [->|Hne]; [|by apply (shift_free _ _ _ _ _ H)].
  destruct F1 as [F1 _]. split; [by rewrite (shift_bits _ _ _ _ H)|]. rewrite (sh_bits _ _ _ _ H) by lia. by rewrite decide_True.
Qed.

Lemma has_pages_less s n m : (n <= m)%nat -> has_pages s m -> has_pages s n.
Proof.
  intros Hle (l & Hd & Hl & Hf). exists (take n l). split_and!.
  - rewrite <- (take_drop n l) in Hd. by apply NoDup_app in Hd as [Hd _].
  - rewrite length_take. lia.
  - intros i Hi. apply Hf. rewrite <- (take_drop n l), elem_of_app. by left.
Qed.

Lemma free_run_one s i : pmm_wf s -> 0 <= i -> free_run s i 1 <-> free s i.
Proof.
  intros W Hi. unfold free. split.
  - intros Hr. specialize (Hr 0 ltac:(lia)). rewrite Z.add_0_r in Hr.
    pose proof (ebit_false_in_map s i (wf_after s W) Hi Hr) as Hlt. split; [lia|]. by rewrite <- ebit_in_map.
  - intros [Hr Hb] l Hl. replace (i + l) with i by lia. by rewrite ebit_in_map.
Qed.

Lemma paged_kernel s i d : pmm_ok s -> paged s i d -> 0 <= i < bm_bits s.(bits_map) ->
  Phy_To_Virt d.(PHY_address) = PAGE_OFFSET + 2 ^ 21 * i /\ page_bit d = i.
Proof.
  intros K (_ & E & _) Hi. pose proof (po_bits s K). unfold Phy_To_Virt, page_bit, PAGE_OFFSET. rewrite E.
  rewrite u64_small by lia. split; [lia|].
  rewrite Z.shiftr_div_pow2 by (unfold PAGE_2M_SHIFT; lia). unfold PAGE_2M_SHIFT. rewrite Z.mul_comm. apply Z.div_mul. lia.
Qed.

(** ** Taking and returning a page *)

(** Page [pg] changes its attribute and its reference count, a zone the number of its links. *)
Definition same_zone (z z' : Zone) : Prop :=
  z'.(zone_start_address) = z.(zone_start_address) /\ z'.(zone_end_address) = z.(zone_end_address) /\
  z'.(page_using_count) = z.(page_using_count) /\ z'.(page_free_count) = z.(page_free_count).

Record touched (pg : Z) (s t : pmm) : Prop := {
  to_bits : t.(bits_map) = s.(bits_map);
  to_after : t.(bits_after) = s.(bits_after);
  to_index : t.(ZONE_DMA_INDEX) = s.(ZONE_DMA_INDEX) /\ t.(ZONE_NORMAL_INDEX) = s.(ZONE_NORMAL_INDEX) /\
    t.(ZONE_UNMAPED_INDEX) = s.(ZONE_UNMAPED_INDEX) /\ length t.(zones_struct) = length s.(zones_struct);
  to_zones : forall k z, s.(zones_struct) !! k = Some z -> exists z', t.(zones_struct) !! k = Some z' /\ same_zone z z';
  to_pages : forall i d, page_at s i = Some d -> exists d', page_at t i = Some d' /\
    d'.(zone_struct) = d.(zone_struct) /\ d'.(PHY_address) = d.(PHY_address) /\ (i <> pg -> d' = d)
}.

Lemma touched_trans pg s t u : touched pg s t -> touched pg t u -> touched pg s u.
Proof.
  intros [A1 A2 (A3 & A4 & A5 & A6) A7 A8] [B1 B2 (B3 & B4 & B5 & B6) B7 B8]. constructor; [congruence..| | |].
  - split_and!; congruence.
  - intros k z Hz. destruct (A7 k z Hz) as (y & Hy & Y1 & Y2 & Y3 & Y4). destruct (B7 k y Hy) as (x & Hx & X1 & X2 & X3 & X4).
    exists x. split; [done|]. unfold same_zone. split_and!; congruence.
  - intros i d Hd. destruct (A8 i d Hd) as (e & He & E1 & E2 & E3). destruct (B8 i e He) as (f & Hf & F1 & F2 & F3).
    exists f. split_and!; [done|congruence|congruence|]. intros Hne. rewrite F3, E3; done.
Qed.

Lemma touched_page pg d d' s : page_at s pg = Some d -> d'.(zone_struct) = d.(zone_struct) ->
  d'.(PHY_address) = d.(PHY_address) -> touched pg s (set_page pg d' s).
Proof.
  intros Hd E1 E2. constructor; try done.
  - intros k z Hz. exists z. by unfold same_zone.
  - intros i q Hq. rewrite (page_at_set_page _ _ _ _ d) by done. case_decide as E; [|by exists q].
    subst i. simplify_eq. by exists d'.
Qed.

Lemma touched_link pg k z n s : s.(zones_struct) !! k = Some z ->
  exists t, upd_zone (Some k) (zone_link n) s = Some t /\ touched pg s t /\ forall i, page_at t i = page_at s i.
Proof.
  intros Hz. unfold upd_zone. cbn [mbind option_bind]. rewrite Hz. cbn [mbind option_bind].
  eexists. split; [reflexivity|]. split; [|done]. constructor; try done.
  - cbn. rewrite length_insert. done.
  - intros i y Hy. cbn. destruct (decide (k = i)) as [<-|Hne].
    + rewrite list_lookup_insert_eq by (by eapply lookup_lt_Some). simplify_eq. eexists. by split.
    + rewrite list_lookup_insert_ne by done. exists y. by unfold same_zone.
  - intros i q Hq. by exists q.
Qed.

Lemma page_init_touched s pg d k z flags : page_at s pg = Some d -> d.(zone_struct) = Some k ->
  s.(zones_struct) !! k = Some z -> exists t, page_init pg flags s = Some (1, t) /\ touched pg s t.
Proof.
  intros Hd Hk Hz. unfold page_init. rewrite Hd. cbn [mbind option_bind].
  set (d1 := set_attribute _ d). set (s1 := set_page pg d1 s).
  assert (touched pg s s1) as T1 by (by apply (touched_page pg d)).
  assert (page_at s1 pg = Some d1) as Hd1 by (unfold s1; by rewrite (page_at_set_page _ _ _ _ d), decide_True by done).
  destruct (_ || _); [|by exists s1].
  set (d2 := set_reference_count _ d1). set (s2 := set_page pg d2 s1).
  assert (touched pg s1 s2) as T2 by (by apply (touched_page pg d1)).
  change (zone_struct d1) with (zone_struct d). rewrite Hk.
  destruct (touched_link pg k z 1 s2 Hz) as (t & -> & T3 & _). exists t. split; [reflexivity|].
  by eapply touched_trans; [exact T1|eapply touched_trans].
Qed.

Lemma page_clean_touched s pg d k z : page_at s pg = Some d -> d.(zone_struct) = Some k ->
  s.(zones_struct) !! k = Some z -> exists t, page_clean pg s = Some (1, t) /\ touched pg s t.
Proof.
  intros Hd Hk Hz. unfold page_clean. rewrite Hd. cbn [mbind option_bind].
  set (d1 := set_reference_count _ d). set (s1 := set_page pg d1 s).
  assert (touched pg s s1) as T1 by (by apply (touched_page pg d)).
  assert (page_at s1 pg = Some d1) as Hd1 by (unfold s1; by rewrite (page_at_set_page _ _ _ _ d), decide_True by done).
  change (zone_struct d1) with (zone_struct d). rewrite Hk.
  destruct (touched_link pg k z (-1) s1 Hz) as (s2 & -> & T2 & Hp). cbn [mbind option_bind].
  assert (touched pg s s2) as T12 by (by eapply touched_trans).
  case_match; [|by exists s2]. eexists. split; [reflexivity|]. eapply touched_trans; [exact T12|].
  apply (touched_page pg d1); [by rewrite Hp|done|done].
Qed.

Lemma shift_touched b pg s t u : shift b pg s t -> touched pg t u -> shift b pg s u.
Proof.
  intros [A1 A2 A3 A4 (A5 & A6 & A7 & A8) A9 A10] [B1 B2 (B3 & B4 & B5 & B6) B7 B8]. constructor; rewrite ?B1; try done.
  - congruence.
  - split_and!; congruence.
  - intros k z Hz. destruct (A9 k z Hz) as (y & Hy & Y1 & Y2 & Y3 & Y4). destruct (B7 k y Hy) as (x & Hx & X1 & X2 & X3 & X4).
    exists x. unfold zstart, zstop in *. rewrite X1, X2, X3, X4. done.
  - intros i d Hd. destruct (A10 i d Hd) as (e & He & E1 & E2 & E3). destruct (B8 i e He) as (f & Hf & F1 & F2 & F3).
    exists f. split_and!; [done|congruence|congruence|]. intros Hne. rewrite F3, E3; done.
Qed.

Lemma touched_shift b pg s t u : touched pg s t -> shift b pg t u -> shift b pg s u.
Proof.
  intros [B1 B2 (B3 & B4 & B5 & B6) B7 B8] [A1 A2 A3 A4 (A5 & A6 & A7 & A8) A9 A10]. rewrite B1 in *. constructor; try done.
  - congruence.
  - split_and!; congruence.
  - intros k z Hz. destruct (B7 k z Hz) as (y & Hy & Y1 & Y2 & Y3 & Y4). destruct (A9 k y Hy) as (x & Hx & X1 & X2 & X3 & X4).
    exists x. unfold zin, zstart, zstop in *. rewrite Y1, Y2 in *. rewrite Y4 in X4. rewrite Y3 in X3. done.
  - intros i d Hd. destruct (B8 i d Hd) as (e & He & E1 & E2 & E3). destruct (A10 i e He) as (f & Hf & F1 & F2 & F3).
    exists f. split_and!; [done|congruence|congruence|]. intros Hne. rewrite F3, E3; done.
Qed.

(** [alloc_pages(ZONE_NORMAL,1,...)]: it fails only when no page is free. *)
Lemma alloc_page_ok s a : pmm_ok s ->
  alloc_pages ZONE_NORMAL 1 a s = Some (None, s) /\ (forall n, ~ has_pages s (S n)) \/
  exists pg t d, alloc_pages ZONE_NORMAL 1 a s = Some (Some pg, t) /\ free s pg /\ shift true pg s t /\ pmm_ok t /\ paged t pg d.
Proof.
  intros K. pose proof (po_wf s K) as W.
  destruct (alloc_pages_accept s ZONE_NORMAL 1 a _ _ W ltac:(lia) eq_refl) as (r & t & Ea & Wt & Hr).
  destruct r as [pg|].
  - right. destruct Hr as (zi & z & Hzi & Hz & Hcnt & Hst & Hmax & Hfree & Hleast & M). fold (zstart z) in Hst, Hleast.
    destruct (wf_zone s W zi z Hz) as (Hu & Hfw & Hs0 & He). fold (zstart z) in Hs0. fold (zstop z) in He.
    assert (free s pg) as Hpg by (split; [lia|apply Hfree; lia]).
    destruct (po_page s K pg Hpg) as (d & Hd & Hphy & k & zk & Hk & Hzk & Hin).
    assert (zin z pg = true) as Hinz.
    { apply zin_spec. split; [done|]. destruct (decide (pg < zstop z)); [done|exfalso].
      rewrite (po_count s K zi z Hz) in Hcnt.
      assert (bm_count false s.(bits_map) (zstart z) (zstop z) = 0); [|lia].
      assert (zstart z <= zstop z) by (destruct (decide (zstart z <= zstop z)); [done|rewrite bm_count_empty in Hcnt by lia; lia]).
      pose proof (bm_count_compl true s.(bits_map) (zstart z) (zstop z) ltac:(lia)) as Hcm. cbn [negb] in Hcm.
      rewrite (bm_count_all true) in Hcm; [lia|lia|]. intros j Hj.
      destruct (bm_get s.(bits_map) j) eqn:E; [done|exfalso]. apply (Hleast j ltac:(lia)).
      apply free_run_one; [done|lia|]. split; [lia|done]. }
    assert (k = zi) as -> by (by apply (po_apart s K k zi zk z pg)). simplify_eq.
    assert (shift true pg s t) as S0.
    { constructor; try apply M.
      - intros i Hi. rewrite (mk_bits _ _ _ _ _ _ _ _ M) by done. repeat case_decide; try lia; done.
      - rewrite (mk_zones _ _ _ _ _ _ _ _ M), length_alter. split_and!; try apply M. done.
      - intros k y Hy. rewrite (mk_zones _ _ _ _ _ _ _ _ M). destruct (decide (zi = k)) as [<-|Hne].
        + assert (y = z) as -> by congruence. rewrite list_lookup_alter_eq, Hz. eexists. split; [reflexivity|]. rewrite Hinz.
          replace (- (1) * (pg + 1 - pg)) with (-1) by lia. split_and!; try done. intros _. apply word64_u64.
        + exists y. rewrite list_lookup_alter_ne by done. split_and!; try done.
          destruct (zin y pg) eqn:E; [|done]. by destruct (Hne (po_apart s K zi k z y pg Hz Hy Hinz E)).
      - intros i q Hq. rewrite (mk_pages _ _ _ _ _ _ _ _ M). case_decide as E; [|by exists q].
        rewrite Hq. eexists. split_and!; [reflexivity|done|done|]. lia. }
    assert (paged s pg d) as Hpd by (split_and!; [done|done|by exists zi, z]).
    destruct (shift_paged _ _ _ _ _ _ S0 Hpd) as (d'' & Hd'' & _). exists pg, t, d''.
    split_and!; try done. eapply shift_pmm_ok; [exact S0|done|apply Hpg|apply Hpg|by exists d].
  - left. destruct Hr as [-> Hr]. split; [done|]. intros n (l & _ & Hl & Hf). destruct l as [|i l]; [done|].
    destruct (Hf i (list_elem_of_here _ _)) as [F (k & z & Hk & Hz & Hi)].
    destruct (wf_zone s W k z Hz) as (_ & _ & Hs0 & He). fold (zstart z) in Hs0. fold (zstop z) in He.
    destruct (Hr k z) as [Hno|Hno]; [apply in_range; lia|done| |].
    + rewrite (po_count s K k z Hz) in Hno. apply zin_spec in Hi.
      rewrite (bm_count_split false _ _ i) in Hno by lia. rewrite (bm_count_split false _ i (i + 1)) in Hno by lia.
      rewrite bm_count_one in Hno. destruct F as [_ F]. rewrite F in Hno. cbn in Hno.
      pose proof (bm_count_nonneg false s.(bits_map) (zstart z) i).
      pose proof (bm_count_nonneg false s.(bits_map) (i + 1) (zstop z)). lia.
    + apply zin_spec in Hi. apply (Hno i Hi). apply free_run_one; [done|lia|done].
Qed.

(** [alloc_pages(ZONE_NORMAL,1,0)] and [page_init] of the page. *)
Lemma take_page_ok s flags : pmm_ok s ->
  alloc_pages ZONE_NORMAL 1 0 s = Some (None, s) /\ (forall n, ~ has_pages s (S n)) \/
  exists pg t t' d, alloc_pages ZONE_NORMAL 1 0 s = Some (Some pg, t) /\ page_init pg flags t = Some (1, t') /\
    free s pg /\ shift true pg s t' /\ pmm_ok t' /\ paged t' pg d.
Proof.
  intros K. destruct (alloc_page_ok s 0 K) as [H|(pg & t & d & Ea & Hf & S & Kt & Hd)]; [by left|right].
  pose proof Hd as (Hp & _ & k & z & Hk & Hz & _). destruct (page_init_touched t pg d k z flags Hp Hk Hz) as (t' & Ei & T).
  assert (shift true pg s t') as S' by (by eapply shift_touched).
  destruct (po_page s K pg Hf) as (d0 & Hd0). destruct (shift_paged _ _ _ _ _ _ S' Hd0) as (d' & Hd' & _).
  exists pg, t, t', d'. split_and!; try done. eapply shift_pmm_ok; [exact S'|done|apply Hf|apply Hf|by exists d0].
Qed.

(** [free_pages] of a page in use, whose descriptor was perhaps touched before. *)
Lemma free_page_ok s t pg : pmm_ok s -> held s pg -> touched pg s t ->
  exists t', free_pages (Some pg) 1 t = Some t' /\ shift false pg s t' /\ pmm_ok t' /\ free t' pg.
Proof.
  intros K (Hpg & Hbit & d & Hpd) T. pose proof Hpd as (Hd & Hphy & k & z & Hk & Hz & Hin).
  destruct (to_pages _ _ _ T pg d Hd) as (d1 & Hd1 & E1 & E2 & _). destruct (to_zones _ _ _ T k z Hz) as (z1 & Hz1 & Y1 & Y2 & Y3 & Y4).
  destruct (wf_zone s (po_wf s K) k z Hz) as (Hu & Hf & _).
  destruct (release_pages_spec t k z1 pg 1 Hz1) as (t' & Er & M); [lia|lia|by rewrite Y3|by rewrite Y4| | |].
  { rewrite (to_bits _ _ _ T). lia. }
  { intros i Hi. assert (i = pg) as -> by lia. exists d1. split_and!; [done| |congruence].
    unfold page_bit. rewrite E2, Hphy. rewrite Z.shiftr_div_pow2 by (unfold PAGE_2M_SHIFT; lia).
    unfold PAGE_2M_SHIFT. rewrite Z.mul_comm. apply Z.div_mul. lia. }
  assert (shift false pg t t') as S1.
  { constructor; try apply M.
    - intros i Hi. rewrite (mk_bits _ _ _ _ _ _ _ _ M) by done. repeat case_decide; try lia; done.
    - rewrite (mk_zones _ _ _ _ _ _ _ _ M), length_alter. split_and!; try apply M. done.
    - intros j y Hy. rewrite (mk_zones _ _ _ _ _ _ _ _ M). destruct (decide (k = j)) as [<-|Hne].
      + assert (y = z1) as -> by congruence. rewrite list_lookup_alter_eq, Hz1. eexists. split; [reflexivity|].
        assert (zin z1 pg = true) as -> by (unfold zin, zstart, zstop in *; by rewrite Y1, Y2).
        replace (- -1 * (pg + 1 - pg)) with 1 by lia. split_and!; try done. intros _. apply word64_u64.
      + exists y. rewrite list_lookup_alter_ne by done. split_and!; try done.
        destruct (zin y pg) eqn:E; [|done]. exfalso. destruct (lookup_lt_is_Some_2 s.(zones_struct) j) as [y0 Hy0].
        { destruct (to_index _ _ _ T) as (_ & _ & _ & <-). by eapply lookup_lt_Some. }
        destruct (to_zones _ _ _ T j y0 Hy0) as (y' & Hy' & X1 & X2 & _). rewrite Hy in Hy'. injection Hy' as <-.
        apply Hne. apply (po_apart s K k j z y0 pg Hz Hy0 Hin). unfold zin, zstart, zstop in *. by rewrite X1, X2 in E.
    - intros i q Hq. rewrite (mk_pages _ _ _ _ _ _ _ _ M). case_decide as E; [|by exists q].
      rewrite Hq. eexists. split_and!; [reflexivity|done|done|]. lia. }
  assert (shift false pg s t') as S by (by eapply touched_shift).
  exists t'. split_and!; [by unfold free_pages|done| |].
  - eapply shift_pmm_ok; [exact S|done|done|done|by exists d].
  - split; [by rewrite (shift_bits _ _ _ _ S)|]. rewrite (sh_bits _ _ _ _ S) by lia. by rewrite decide_True.
Qed.

Lemma touched_refl pg s : touched pg s s.
Proof. constructor; [done..| |]; [intros k z Hz; exists z; by unfold same_zone|intros i d Hd; by exists d]. Qed.

(** [page_clean] and [free_pages] of a page in use. *)
Lemma drop_page_ok s pg : pmm_ok s -> held s pg ->
  exists t t', page_clean pg s = Some (1, t) /\ free_pages (Some pg) 1 t = Some t' /\ shift false pg s t' /\ pmm_ok t' /\ free t' pg.
Proof.
  intros K Hh. pose proof Hh as (Hpg & Hbit & d & Hpd). pose proof Hpd as (Hd & _ & k & z & Hk & Hz & _).
  destruct (page_clean_touched s pg d k z Hd Hk Hz) as (t & Ec & T).
  destruct (free_page_ok s t pg K Hh T) as (t' & H). by exists t, t'.
Qed.
