(* ===== verification/Sched.v ===== *)
(** * Scheduler, wait queues and semaphores (schedule.c, semaphore.h, SMP.c)

    One processor's run queue: [task_schedule[cpu]] with its circular list, the
    tasks, and [current].  A [struct task_struct *] is the address of its [list]
    member, so [container_of(list_next(...))] is the node itself; [queue] is the
    address of the sentinel [task_schedule[cpu].task_queue], whose [vrun_time] is
    the largest [long].  [switch_to] makes its second argument [current]; what the
    new task does then belongs to the code it resumes.  A wait queue entry and a
    semaphore live in the same memory: a [wait_queue_T] is named by the address of
    its [wait_list], a [semaphore_T] by its own address. *)

From Stdlib Require Import Sorting.Sorted.
From S2P Require Import Prelude Klist.

Definition TASK_RUNNING : Z := 1.
Definition TASK_INTERRUPTIBLE : Z := 2.
Definition TASK_UNINTERRUPTIBLE : Z := 4.
Definition TASK_ZOMBIE : Z := 8.
Definition TASK_STOPPED : Z := 16.
Definition PF_KTHREAD : Z := 1.
Definition NEED_SCHEDULE : Z := 2.
Definition PF_VFORK : Z := 4.
Definition LONG_MAX : Z := 0x7fffffffffffffff.

(** The members of [struct task_struct] the scheduler uses. *)
Record task := mkTask { state : Z; flags : Z; priority : Z; vrun_time : Z }.

(** [struct schedule] of the processor, with the memory it works on: list nodes,
    tasks, the [tsk] member of wait queue entries, the semaphore counters. *)
Record sched := mkSched {
  nodes : lists;
  tasks : gmap Z task;
  wait_tsk : gmap Z Z;
  counters : gmap Z Z;
  running_task_count : Z;
  CPU_exec_task_jiffies : Z;
  current : Z
}.

Definition set_nodes (n : lists) (s : sched) : sched :=
  mkSched n s.(tasks) s.(wait_tsk) s.(counters) s.(running_task_count) s.(CPU_exec_task_jiffies) s.(current).
Definition set_tasks (t : gmap Z task) (s : sched) : sched :=
  mkSched s.(nodes) t s.(wait_tsk) s.(counters) s.(running_task_count) s.(CPU_exec_task_jiffies) s.(current).
Definition set_wait_tsk (w : gmap Z Z) (s : sched) : sched :=
  mkSched s.(nodes) s.(tasks) w s.(counters) s.(running_task_count) s.(CPU_exec_task_jiffies) s.(current).
Definition set_counters (c : gmap Z Z) (s : sched) : sched :=
  mkSched s.(nodes) s.(tasks) s.(wait_tsk) c s.(running_task_count) s.(CPU_exec_task_jiffies) s.(current).
Definition set_count (c : Z) (s : sched) : sched :=
  mkSched s.(nodes) s.(tasks) s.(wait_tsk) s.(counters) c s.(CPU_exec_task_jiffies) s.(current).
Definition set_slice (j : Z) (s : sched) : sched :=
  mkSched s.(nodes) s.(tasks) s.(wait_tsk) s.(counters) s.(running_task_count) j s.(current).
Definition switch_to (tsk : Z) (s : sched) : sched :=
  mkSched s.(nodes) s.(tasks) s.(wait_tsk) s.(counters) s.(running_task_count) s.(CPU_exec_task_jiffies) tsk.

Definition upd_task (a : Z) (f : task -> task) (s : sched) : option sched :=
  t ← s.(tasks) !! a; Some (set_tasks (<[a := f t]> s.(tasks)) s).

Definition set_state (v : Z) (t : task) : task := mkTask v t.(flags) t.(priority) t.(vrun_time).
Definition set_need_schedule (t : task) : task :=
  mkTask t.(state) (t.(flags) .| NEED_SCHEDULE) t.(priority) t.(vrun_time).
Definition clear_need_schedule (t : task) : task :=
  mkTask t.(state) (t.(flags) .& .~ NEED_SCHEDULE) t.(priority) t.(vrun_time).
Definition add_vrun_time (d : Z) (t : task) : task :=
  mkTask t.(state) t.(flags) t.(priority) (i64 (t.(vrun_time) + d)).

Section Cpu.
(** [&task_schedule[cpu].task_queue.list] and [init_task[cpu]]. *)
Context (queue init_task : Z).

(** [schedule_init], for this processor. *)
Definition schedule_init (s : sched) : sched :=
  set_slice 4 (set_count 1
    (set_tasks (<[queue := mkTask 0 0 0 LONG_MAX]> s.(tasks)) (set_nodes (list_init queue s.(nodes)) s))).

Definition get_next_task (s : sched) : option (Z * sched) :=
  e ← list_is_empty queue s.(nodes);
  if negb (e =? 0) then Some (init_task, s)
  else
    tsk ← list_next queue s.(nodes);
    n ← list_del tsk s.(nodes);
    Some (tsk, set_count (i64 (s.(running_task_count) - 1)) (set_nodes n s)).

(** [while(tmp->vrun_time < tsk->vrun_time) tmp = next of tmp]. *)
Fixpoint skip_smaller (fuel : nat) (v : Z) (s : sched) (tmp : Z) : option Z :=
  match fuel with
  | O => None
  | S fuel =>
      t ← s.(tasks) !! tmp;
      if t.(vrun_time) <? v then n ← list_next tmp s.(nodes); skip_smaller fuel v s n
      else Some tmp
  end.

Definition insert_task_queue (tsk : Z) (s : sched) : option sched :=
  if tsk =? init_task then Some s
  else
    tmp ← list_next queue s.(nodes);
    e ← list_is_empty queue s.(nodes);
    t ← s.(tasks) !! tsk;
    tmp ← (if negb (e =? 0) then Some tmp
           else skip_smaller (S (size s.(nodes))) t.(vrun_time) s tmp);
    n ← list_add_to_before tmp tsk s.(nodes);
    Some (set_count (i64 (s.(running_task_count) + 1)) (set_nodes n s)).

(** The refill of the time slice; the division by [running_task_count] faults at 0. *)
Definition refill (prio : Z) (s : sched) : option sched :=
  if s.(CPU_exec_task_jiffies) =? 0 then
    _ ← guard_fault (negb (s.(running_task_count) =? 0));
    let q := Z.quot 4 s.(running_task_count) in
    Some (set_slice (if (prio =? 0) || (prio =? 1) then q else i64 (q * 3)) s)
  else Some s.

Definition schedule (s : sched) : option sched :=
  s ← upd_task s.(current) clear_need_schedule s;
  r ← get_next_task s;
  let '(tsk, s) := r in
  cur ← s.(tasks) !! s.(current);
  nxt ← s.(tasks) !! tsk;
  if (nxt.(vrun_time) <=? cur.(vrun_time)) || negb (cur.(state) =? TASK_RUNNING) then
    s ← (if cur.(state) =? TASK_RUNNING then insert_task_queue s.(current) s else Some s);
    s ← refill nxt.(priority) s;
    Some (switch_to tsk s)
  else
    s ← insert_task_queue tsk s;
    refill nxt.(priority) s.

(** The clock interrupt of the other processors ([IPI_0x200]); HPET_handler has the
    same statements for the processor that takes the HPET interrupt. *)
Definition IPI_0x200 (s : sched) : option sched :=
  cur ← s.(tasks) !! s.(current);
  let d := if (cur.(priority) =? 0) || (cur.(priority) =? 1) then 1 else 2 in
  s ← upd_task s.(current) (add_vrun_time d) (set_slice (i64 (s.(CPU_exec_task_jiffies) - d)) s);
  if s.(CPU_exec_task_jiffies) <=? 0 then upd_task s.(current) set_need_schedule s else Some s.

(** ** semaphore.h *)

Definition wait_queue_init (wait_queue tsk : Z) (s : sched) : sched :=
  set_wait_tsk (<[wait_queue := tsk]> s.(wait_tsk)) (set_nodes (list_init wait_queue s.(nodes)) s).

(** [sleep_on] with its local variable [wait] at the address [wait]. *)
Definition sleep_with (st wait wait_queue_head : Z) (s : sched) : option sched :=
  let s := wait_queue_init wait s.(current) s in
  s ← upd_task s.(current) (set_state st) s;
  n ← list_add_to_before wait_queue_head wait s.(nodes);
  schedule (set_nodes n s).
Definition sleep_on : Z -> Z -> sched -> option sched := sleep_with TASK_UNINTERRUPTIBLE.
Definition interruptible_sleep_on : Z -> Z -> sched -> option sched := sleep_with TASK_INTERRUPTIBLE.

Definition wakeup_process (tsk : Z) (s : sched) : option sched :=
  s ← upd_task tsk (set_state TASK_RUNNING) s;
  s ← insert_task_queue tsk s;
  upd_task s.(current) set_need_schedule s.

Definition wakeup (wait_queue_head st : Z) (s : sched) : option sched :=
  e ← list_is_empty wait_queue_head s.(nodes);
  if negb (e =? 0) then Some s
  else
    wait ← list_next wait_queue_head s.(nodes);
    tsk ← s.(wait_tsk) !! wait;
    t ← s.(tasks) !! tsk;
    if negb (t.(state) .& st =? 0) then
      n ← list_del wait s.(nodes);
      wakeup_process tsk (set_nodes n s)
    else Some s.

(** [&semaphore->wait]: the counter is the first member. *)
Definition sem_wait (semaphore : Z) : Z := semaphore + 8.

Definition semaphore_init (semaphore count : Z) (s : sched) : sched :=
  wait_queue_init (sem_wait semaphore) 0
    (set_counters (<[semaphore := i64 count]> s.(counters)) s).

Definition __up (semaphore : Z) (s : sched) : option sched :=
  wait ← list_next (sem_wait semaphore) s.(nodes);
  n ← list_del wait s.(nodes);
  tsk ← s.(wait_tsk) !! wait;
  wakeup_process tsk (set_nodes n s).

Definition semaphore_up (semaphore : Z) (s : sched) : option sched :=
  e ← list_is_empty (sem_wait semaphore) s.(nodes);
  if negb (e =? 0) then
    c ← s.(counters) !! semaphore;
    Some (set_counters (<[semaphore := i64 (c + 1)]> s.(counters)) s)
  else __up semaphore s.

Definition __down (wait semaphore : Z) : sched -> option sched :=
  sleep_with TASK_UNINTERRUPTIBLE wait (sem_wait semaphore).

Definition semaphore_down (wait semaphore : Z) (s : sched) : option sched :=
  c ← s.(counters) !! semaphore;
  if 0 <? c then Some (set_counters (<[semaphore := i64 (c - 1)]> s.(counters)) s)
  else __down wait semaphore s.

(** ** The run queue, abstractly *)

Definition vrun (s : sched) (a : Z) : Z := from_option vrun_time 0 (s.(tasks) !! a).

(** The reference: insert before the first task that has not run less. *)
Fixpoint insert_by (key : Z -> Z) (x : Z) (l : list Z) : list Z :=
  match l with
  | [] => [x]
  | y :: l' => if key y <? key x then y :: insert_by key x l' else x :: y :: l'
  end.

Definition sorted_by (key : Z -> Z) : list Z -> Prop :=
  Sorted.StronglySorted (fun x y => key x <= key y).

(** The run queue holds exactly the tasks [l], sorted by [vrun_time], and
    [running_task_count] is one more than their number. *)
Record runq (s : sched) (l : list Z) : Prop := {
  rq_ring : ring s.(nodes) queue l;
  rq_null : 0 ∉ queue :: l;
  rq_sentinel : vrun_time <$> s.(tasks) !! queue = Some LONG_MAX;
  rq_init : init_task ∉ l;
  rq_tasks : forall x, x ∈ l -> is_Some (s.(tasks) !! x);
  rq_sorted : sorted_by (vrun s) l;
  rq_count : s.(running_task_count) = 1 + Z.of_nat (length l);
  rq_bound : Z.of_nat (length l) < 2 ^ 62
}.

Lemma insert_by_perm key x l : insert_by key x l ≡ₚ x :: l.
Proof using Type.
  induction l as [|y l IH]; cbn; [done|]. destruct (key y <? key x); [|done].
  rewrite IH. by apply Permutation_swap.
Qed.

Lemma insert_by_sorted key x l : sorted_by key l -> sorted_by key (insert_by key x l).
Proof using Type.
  unfold sorted_by. induction 1 as [|y l Hl IH Hy]; cbn.
  - repeat constructor.
  - destruct (Z.ltb_spec (key y) (key x)).
    + constructor; [done|]. rewrite insert_by_perm. constructor; [lia|done].
    + constructor; [by constructor|]. constructor; [lia|].
      eapply Forall_impl; [done|]. intros z Hz; cbn in Hz. lia.
Qed.

Lemma insert_by_head key x l : Forall (fun y => key x <= key y) l ->
  insert_by key x l = x :: l.
Proof using Type.
  intros H. destruct H as [|y l Hy _]; cbn; [done|].
  destruct (Z.ltb_spec (key y) (key x)); [lia|done].
Qed.

Lemma insert_by_ext key key' x l : key x = key' x -> (forall y, y ∈ l -> key y = key' y) ->
  insert_by key x l = insert_by key' x l.
Proof using Type.
  intros Hx. induction l as [|y l IH]; intros H; cbn; [done|].
  rewrite Hx, (H y) by apply list_elem_of_here. rewrite IH; [done|].
  intros z Hz. apply H. by apply list_elem_of_further.
Qed.

Lemma sorted_by_ext key key' l : (forall y, y ∈ l -> key y = key' y) ->
  sorted_by key l -> sorted_by key' l.
Proof using Type.
  intros H HS. induction HS as [|y l Hl IH Hy]; [constructor|]. constructor.
  - apply IH. intros z Hz. apply H. by apply list_elem_of_further.
  - rewrite Forall_forall in *. intros z Hz.
    rewrite <- !H by (by apply list_elem_of_here || by apply list_elem_of_further). by apply Hy.
Qed.

(** The search loop ends, at the node before which [insert_by] inserts. *)
Lemma skip_smaller_spec s x l2 : forall fuel l1,
  ring s.(nodes) queue (l1 ++ l2) -> 0 ∉ queue :: l1 ++ l2 ->
  vrun_time <$> s.(tasks) !! queue = Some LONG_MAX ->
  (forall y, y ∈ l2 -> is_Some (s.(tasks) !! y)) ->
  vrun s x <= LONG_MAX -> (length l2 < fuel)%nat ->
  exists pre rest, l2 = pre ++ rest /\ insert_by (vrun s) x l2 = pre ++ x :: rest /\
    skip_smaller fuel (vrun s x) s (default queue (head l2)) = Some (default queue (head rest)).
Proof using Type.
  induction l2 as [|y l2 IH]; intros [|fuel] l1 Hr H0 Hq Hl Hx Hf; cbn in Hf; try lia; cbn.
  - destruct (tasks s !! queue) as [t|] eqn:Ht; [|done]. cbn in Hq. simplify_eq.
    exists [], []. cbn. split_and!; [done..|].
    destruct (Z.ltb_spec (vrun_time t) (vrun s x)); [lia|done].
  - destruct (Hl y) as [t Ht]; [apply list_elem_of_here|]. rewrite Ht. cbn.
    assert (vrun s y = vrun_time t) as Hv by (unfold vrun; by rewrite Ht).
    rewrite <- Hv. destruct (Z.ltb_spec (vrun s y) (vrun s x)).
    + rewrite (list_next_in_ring _ queue l1 y l2) by done. cbn.
      destruct (IH fuel (l1 ++ [y])) as (pre & rest & -> & Hi & Hk); try done.
      * by rewrite <- app_assoc.
      * by rewrite <- app_assoc.
      * intros z Hz. apply Hl. by apply list_elem_of_further.
      * lia.
      * exists (y :: pre), rest. split_and!; [done| |done]. by rewrite Hi.
    + exists [], (y :: l2). done.
Qed.

(** What leaves a run queue unchanged. *)
Lemma runq_frame s s' l : runq s l ->
  (forall x, x ∈ queue :: l -> s'.(nodes) !! x = s.(nodes) !! x) ->
  (forall x, x ∈ queue :: l -> vrun_time <$> s'.(tasks) !! x = vrun_time <$> s.(tasks) !! x) ->
  s'.(running_task_count) = s.(running_task_count) -> runq s' l.
Proof using Type.
  intros [R1 R2 R3 R4 R5 R6 R7 R8] Hn Ht Hc. constructor; try done.
  - by eapply ring_frame.
  - rewrite Ht; [done|apply list_elem_of_here].
  - intros x Hx. destruct (R5 x Hx) as [t E]. specialize (Ht x). rewrite E in Ht.
    destruct (tasks s' !! x); [by eexists|].
    by specialize (Ht ltac:(by apply list_elem_of_further)).
  - eapply sorted_by_ext; [|done]. intros y Hy. unfold vrun.
    specialize (Ht y ltac:(by apply list_elem_of_further)).
    destruct (tasks s !! y), (tasks s' !! y); cbn in *; congruence.
  - by rewrite Hc.
Qed.

Lemma runq_vrun_frame s s' l : runq s l -> s'.(nodes) = s.(nodes) ->
  s'.(running_task_count) = s.(running_task_count) ->
  (forall x, vrun_time <$> s'.(tasks) !! x = vrun_time <$> s.(tasks) !! x) -> runq s' l.
Proof using Type. intros R Hn Hc Ht. eapply runq_frame; [done|intros; by rewrite ?Hn..|done]. Qed.

Lemma insert_task_queue_runq s l tsk :
  runq s l -> tsk <> init_task -> tsk ∉ queue :: l -> tsk <> 0 ->
  is_Some (s.(nodes) !! tsk) -> is_Some (s.(tasks) !! tsk) -> vrun s tsk <= LONG_MAX ->
  Z.of_nat (length l) + 1 < 2 ^ 62 ->
  exists n, insert_task_queue tsk s =
      Some (set_count (s.(running_task_count) + 1) (set_nodes n s)) /\
    runq (set_count (s.(running_task_count) + 1) (set_nodes n s)) (insert_by (vrun s) tsk l) /\
    (forall x, x ∉ queue :: tsk :: l -> n !! x = s.(nodes) !! x) /\
    (forall x, is_Some (n !! x) <-> is_Some (s.(nodes) !! x)).
Proof using Type.
  intros R Hni Hin H0 Hn [t Ht] Hv Hlen. pose proof R as [R1 R2 R3 R4 R5 R6 R7 R8].
  unfold insert_task_queue. rewrite (proj2 (Z.eqb_neq _ _) Hni).
  rewrite (list_next_ring _ _ _ R2 R1), (list_is_empty_ring _ _ _ R1), Ht. cbn [mbind option_bind].
  assert (vrun_time t = vrun s tsk) as Hvt by (unfold vrun; by rewrite Ht).
  destruct (skip_smaller_spec s tsk l (S (size (nodes s))) []) as (pre & rest & -> & Hi & Hk);
    try done.
  { pose proof (ring_size _ _ _ R1). lia. }
  assert ((if negb ((if decide (pre ++ rest = []) then 1 else 0) =? 0)
     then Some (default queue (head (pre ++ rest)))
     else skip_smaller (S (size (nodes s))) (vrun_time t) s (default queue (head (pre ++ rest)))) =
     Some (default queue (head rest))) as ->.
  { rewrite Hvt. case_decide as E; cbn; [|done]. by destruct pre, rest. }
  cbn [mbind option_bind].
  destruct (list_insert_before_ring _ _ _ _ tsk R1) as (n & En & Hr & Hf & Hs); [done|done|].
  rewrite En. cbn [mbind option_bind]. exists n. rewrite R7, i64_small by lia.
  split_and!; [done| |done|done]. rewrite Hi.
  assert (sorted_by (vrun s) (pre ++ tsk :: rest)) as Hsort by (rewrite <- Hi; by apply insert_by_sorted).
  assert (pre ++ tsk :: rest ≡ₚ tsk :: pre ++ rest) as Hp by (by rewrite Permutation_middle).
  constructor; cbn.
  - done.
  - rewrite Hp. clear -R2 Hin H0. rewrite !elem_of_cons in *. intuition congruence.
  - done.
  - rewrite Hp. rewrite elem_of_cons. intuition congruence.
  - intros x. rewrite Hp. rewrite elem_of_cons. intros [->|Hx]; [by eexists|by apply R5].
  - done.
  - rewrite Hp. cbn [length]. lia.
  - rewrite Hp. cbn [length]. lia.
Qed.

Lemma get_next_task_cons s x l : runq s (x :: l) ->
  exists n, get_next_task s = Some (x, set_count (s.(running_task_count) - 1) (set_nodes n s)) /\
    runq (set_count (s.(running_task_count) - 1) (set_nodes n s)) l /\
    Forall (fun y => vrun s x <= vrun s y) l /\ x ∉ queue :: l /\
    (forall y, y ∉ queue :: x :: l -> n !! y = s.(nodes) !! y) /\
    (forall y, is_Some (n !! y) <-> is_Some (s.(nodes) !! y)).
Proof using Type.
  intros R. pose proof R as [R1 R2 R3 R4 R5 R6 R7 R8]. unfold get_next_task.
  rewrite (list_is_empty_ring _ _ _ R1). cbn [mbind option_bind]. rewrite decide_False by done. cbn [Z.eqb negb].
  rewrite (list_next_ring _ _ _ R2 R1).
  change (default queue (head (x :: l))) with x. cbn [mbind option_bind].
  destruct (list_del_ring _ _ x [] l R1) as (n & En & Hr & Hf & Hs).
  rewrite En. cbn [mbind option_bind]. exists n. cbn in R7, R8. rewrite i64_small by lia.
  apply Sorted.StronglySorted_inv in R6 as [R6 Hmin]. destruct R1 as [R1 _].
  split_and!; [done| |done| |done|done].
  - constructor; cbn; try done; try lia.
    + clear -R2. rewrite !elem_of_cons in *. tauto.
    + intros Hx. apply R4. by apply list_elem_of_further.
    + intros y Hy. apply R5. by apply list_elem_of_further.
  - clear -R1. rewrite !NoDup_cons, !elem_of_cons in *. intuition congruence.
Qed.

Lemma get_next_task_nil s : runq s [] -> get_next_task s = Some (init_task, s).
Proof using Type.
  intros R. unfold get_next_task. by rewrite (list_is_empty_ring _ _ _ (rq_ring _ _ R)).
Qed.

Lemma refill_ok prio s : 0 < s.(running_task_count) < 2 ^ 63 ->
  exists j, refill prio s = Some (set_slice j s) /\
    (s.(CPU_exec_task_jiffies) <> 0 -> j = s.(CPU_exec_task_jiffies)) /\
    (s.(CPU_exec_task_jiffies) = 0 ->
      j = if (prio =? 0) || (prio =? 1) then 4 / s.(running_task_count)
          else 4 / s.(running_task_count) * 3).
Proof using Type.
  intros H. unfold refill. destruct (Z.eqb_spec s.(CPU_exec_task_jiffies) 0) as [E|E].
  - rewrite (proj2 (Z.eqb_neq s.(running_task_count) 0)) by lia. cbn.
    eexists; split_and!; [done|done|]. intros _. rewrite Z.quot_div_nonneg by lia.
    assert (0 <= 4 / running_task_count s <= 4).
    { split; [apply Z.div_pos; lia|]. apply Z.div_le_upper_bound; lia. }
    rewrite i64_small by lia. done.
  - exists (CPU_exec_task_jiffies s). split_and!; [by destruct s|done|done].
Qed.

(** The state of a processor between two scheduling decisions. *)
Record cpu_ok (s : sched) (l : list Z) : Prop := {
  co_runq : runq s l;
  co_cur : s.(current) ∉ queue :: l;
  co_cur0 : s.(current) <> 0;
  co_cur_node : is_Some (s.(nodes) !! s.(current));
  co_cur_task : is_Some (s.(tasks) !! s.(current));
  co_init : init_task <> queue /\ init_task <> 0;
  co_init_node : is_Some (s.(nodes) !! init_task);
  co_init_task : is_Some (s.(tasks) !! init_task);
  co_vrun : forall x t, s.(tasks) !! x = Some t -> t.(vrun_time) <= LONG_MAX;
  co_bound : Z.of_nat (length l) + 1 < 2 ^ 62
}.

(** The tasks that may get the processor, the idle task aside. *)
Definition runnable (s : sched) (t : task) (l : list Z) : list Z :=
  filter (fun x => x <> init_task)
    ((if t.(state) =? TASK_RUNNING then [s.(current)] else []) ++ l).

(** The two outcomes of [schedule], given the task [tsk] taken from the queue. *)
Definition dispatch (tsk : Z) (cur nxt : task) (s : sched) : option sched :=
  if (nxt.(vrun_time) <=? cur.(vrun_time)) || negb (cur.(state) =? TASK_RUNNING) then
    s ← (if cur.(state) =? TASK_RUNNING then insert_task_queue s.(current) s else Some s);
    s ← refill nxt.(priority) s;
    Some (switch_to tsk s)
  else
    s ← insert_task_queue tsk s;
    refill nxt.(priority) s.

Lemma runq_slice s l j : runq s l -> runq (set_slice j s) l.
Proof using Type. intros R. by eapply runq_vrun_frame. Qed.

Lemma runq_switch s l j : runq s l -> runq (switch_to j s) l.
Proof using Type. intros R. by eapply runq_vrun_frame. Qed.

Lemma vrun_bound s l x : cpu_ok s l -> vrun s x <= LONG_MAX.
Proof using Type.
  intros C. unfold vrun. destruct (tasks s !! x) as [t|] eqn:E; cbn; [|done].
  by eapply (co_vrun _ _ C).
Qed.

Notation others := (filter (fun x => x <> init_task)).

(** [insert_task_queue], the idle task included (which stays out of the queue). *)
Lemma insert_any s l x :
  cpu_ok s l -> x ∉ queue :: l -> x <> 0 ->
  is_Some (s.(nodes) !! x) -> is_Some (s.(tasks) !! x) ->
  exists n c l2, insert_task_queue x s = Some (set_count c (set_nodes n s)) /\
    runq (set_count c (set_nodes n s)) l2 /\ others l2 ≡ₚ others (x :: l) /\
    (length l2 <= S (length l))%nat /\
    (forall y, y ∈ l2 -> (y = x /\ x <> init_task) \/ y ∈ l) /\
    (forall y, y ∉ queue :: x :: l -> n !! y = s.(nodes) !! y) /\
    (forall y, is_Some (n !! y) <-> is_Some (s.(nodes) !! y)).
Proof using Type.
  intros C Hx H0 Hn Ht. destruct (decide (x = init_task)) as [->|Hi].
  - exists s.(nodes), s.(running_task_count), l. unfold insert_task_queue. rewrite Z.eqb_refl.
    split_and!; [by destruct s|by destruct s; apply C| |lia|auto|done|done].
    rewrite filter_cons_False; [done|]. tauto.
  - destruct (insert_task_queue_runq s l x) as (n & E & R & Hf & Hs);
      [apply C|done..|by eapply vrun_bound|apply C|].
    eexists n, _, _. split_and!; [done|done| | | |done|done].
    + by rewrite insert_by_perm.
    + rewrite insert_by_perm. cbn. lia.
    + intros y. rewrite insert_by_perm, elem_of_cons. intros [->|]; auto.
Qed.

(** Assembling the invariant after the queue has been updated. *)
Lemma cpu_ok_build s l n c j a l2 :
  cpu_ok s l -> runq (set_count c (set_nodes n s)) l2 -> (length l2 <= S (length l))%nat ->
  Z.of_nat (length l) + 2 < 2 ^ 62 ->
  (forall y, is_Some (n !! y) <-> is_Some (s.(nodes) !! y)) ->
  a ∉ queue :: l2 -> a <> 0 -> is_Some (s.(nodes) !! a) -> is_Some (s.(tasks) !! a) ->
  cpu_ok (switch_to a (set_slice j (set_count c (set_nodes n s)))) l2.
Proof using Type.
  intros C R Hlen Hb Hs Ha Ha0 Han Hat. destruct C. constructor; cbn; try done.
  - by apply runq_switch, runq_slice.
  - by apply Hs.
  - by apply Hs.
  - lia.
Qed.

Lemma others_cons x l : others (x :: l) = others [x] ++ others l.
Proof using Type. by rewrite <- filter_app. Qed.

(** A task that is not running leaves the processor to [tsk]. *)
Lemma dispatch_blocked s l tsk cur nxt :
  cpu_ok s l -> Forall (fun y => vrun s tsk <= vrun s y) l ->
  Z.of_nat (length l) + 2 < 2 ^ 62 ->
  tsk ∉ queue :: l -> tsk <> 0 -> is_Some (s.(nodes) !! tsk) -> s.(tasks) !! tsk = Some nxt ->
  cur.(state) <> TASK_RUNNING ->
  exists s' l', (s0 ← refill nxt.(priority) s; Some (switch_to tsk s0)) = Some s' /\ cpu_ok s' l' /\
    others (s'.(current) :: l') ≡ₚ others ([] ++ tsk :: l) /\
    Forall (fun y => vrun s s'.(current) <= vrun s y) l' /\
    (cur.(state) <> TASK_RUNNING -> s'.(current) = tsk) /\
    (forall x, x ∉ queue :: s.(current) :: tsk :: l -> s'.(nodes) !! x = s.(nodes) !! x) /\
    (forall x, is_Some (s.(nodes) !! x) -> is_Some (s'.(nodes) !! x)) /\
    s'.(tasks) = s.(tasks) /\ s'.(wait_tsk) = s.(wait_tsk) /\ s'.(counters) = s.(counters).
Proof using Type.
  intros C Hmin Hb Ht Ht0 Htn Hn Hrun.
  destruct (refill_ok nxt.(priority) s) as (j & Ej & _).
  { destruct C as [[_ _ _ _ _ _ Hcnt _] _ _ _ _ _ _ _ _ _]. rewrite Hcnt. lia. }
  rewrite Ej. cbn [mbind option_bind]. eexists _, l. split; [done|]. split.
  - assert (runq (set_count s.(running_task_count) (set_nodes s.(nodes) s)) l) as R
      by (destruct s; apply C).
    eapply (cpu_ok_build s l s.(nodes) s.(running_task_count) j tsk l C R); try done; try lia.
  - cbn. split_and!; done.
Qed.

Lemma dispatch_spec s l tsk cur nxt :
  cpu_ok s l -> Forall (fun y => vrun s tsk <= vrun s y) l ->
  Z.of_nat (length l) + 2 < 2 ^ 62 ->
  tsk ∉ queue :: l -> tsk <> 0 -> is_Some (s.(nodes) !! tsk) ->
  (tsk = s.(current) -> tsk = init_task) ->
  s.(tasks) !! s.(current) = Some cur -> s.(tasks) !! tsk = Some nxt ->
  exists s' l', dispatch tsk cur nxt s = Some s' /\ cpu_ok s' l' /\
    others (s'.(current) :: l') ≡ₚ
      others ((if cur.(state) =? TASK_RUNNING then [s.(current)] else []) ++ tsk :: l) /\
    Forall (fun y => vrun s s'.(current) <= vrun s y) l' /\
    (cur.(state) <> TASK_RUNNING -> s'.(current) = tsk) /\
    (forall x, x ∉ queue :: s.(current) :: tsk :: l -> s'.(nodes) !! x = s.(nodes) !! x) /\
    (forall x, is_Some (s.(nodes) !! x) -> is_Some (s'.(nodes) !! x)) /\
    s'.(tasks) = s.(tasks) /\ s'.(wait_tsk) = s.(wait_tsk) /\ s'.(counters) = s.(counters).
Proof using Type.
  intros C Hmin Hb Ht Ht0 Htn Hne Hc Hn. unfold dispatch.
  assert (vrun s s.(current) = vrun_time cur) as Hvc by (unfold vrun; by rewrite Hc).
  assert (vrun s tsk = vrun_time nxt) as Hvn by (unfold vrun; by rewrite Hn).
  assert (forall x l2, (forall y, y ∈ l2 -> (y = x /\ x <> init_task) \/ y ∈ l) ->
    forall a, a ∉ queue :: l -> (a = x -> x = init_task) -> a ∉ queue :: l2) as Hnotin.
  { clear. intros x l2 H a Ha Hax. rewrite elem_of_cons in *. intros [->|Hy]; [tauto|].
    destruct (H _ Hy) as [[-> ?]|?]; tauto. }
  assert (forall x l2, (forall y, y ∈ l2 -> (y = x /\ x <> init_task) \/ y ∈ l) ->
    forall a, vrun s a <= vrun s x -> vrun s a <= vrun s tsk ->
    Forall (fun y => vrun s a <= vrun s y) l2) as Hmin'.
  { intros x l2 H a Hax Hat. rewrite Forall_forall in *. intros y Hy.
    destruct (H _ Hy) as [[-> ?]|Hyl]; [done|]. specialize (Hmin _ Hyl). cbn in Hmin. lia. }
  destruct (Z.leb_spec nxt.(vrun_time) cur.(vrun_time)) as [Hle|Hlt],
    (Z.eqb_spec cur.(state) TASK_RUNNING) as [Hrun|Hrun]; cbn [orb negb].
  - destruct (insert_any s l s.(current)) as (n & c & l2 & E & R & Hp & Hlen & Hin & Hf & Hs);
      [exact C|exact (co_cur _ _ C)|exact (co_cur0 _ _ C)|exact (co_cur_node _ _ C)|
       exact (co_cur_task _ _ C)|].
    rewrite E. cbn [mbind option_bind].
    destruct (refill_ok nxt.(priority) (set_count c (set_nodes n s))) as (j & Ej & _).
    { destruct R as [_ _ _ _ _ _ Hcnt _]. rewrite Hcnt. lia. }
    rewrite Ej. cbn [mbind option_bind]. eexists _, l2. split; [done|].
    assert (tsk ∉ queue :: l2) as Hnew.
    { eapply Hnotin; [exact Hin|exact Ht|]. intros E'. rewrite <- E'. by apply Hne. }
    split; [by eapply cpu_ok_build|].
    cbn [current nodes tasks wait_tsk counters switch_to set_slice set_count set_nodes app].
    split_and!; try done.
    + rewrite (others_cons tsk l2), Hp, (others_cons s.(current) l),
        (others_cons s.(current) (tsk :: l)), (others_cons tsk l). solve_Permutation.
    + eapply Hmin'; [done|lia|lia].
    + intros x Hx. apply Hf. clear -Hx. rewrite !elem_of_cons in *. tauto.
    + intros x Hx. by apply Hs.
  - eapply dispatch_blocked; try done; lia.
  - destruct (insert_any s l tsk) as (n & c & l2 & E & R & Hp & Hlen & Hin & Hf & Hs);
      [done..|by eexists|].
    rewrite E. cbn [mbind option_bind].
    destruct (refill_ok nxt.(priority) (set_count c (set_nodes n s))) as (j & Ej & _).
    { destruct R as [_ _ _ _ _ _ Hcnt _]. rewrite Hcnt. lia. }
    rewrite Ej. cbn [mbind option_bind]. eexists (set_slice j (set_count c (set_nodes n s))), l2.
    assert (s.(current) ∉ queue :: l2) as Hnew.
    { eapply Hnotin; [exact Hin|exact (co_cur _ _ C)|]. intros E'. by apply Hne. }
    split; [done|]. split.
    { apply (cpu_ok_build s l n c j s.(current) l2); try done; apply C. }
    cbn [current nodes tasks wait_tsk counters switch_to set_slice set_count set_nodes app].
    split_and!; try done.
    + rewrite (others_cons s.(current) l2), Hp, (others_cons s.(current) (tsk :: l)). done.
    + eapply Hmin'; [done|lia|lia].
    + intros x Hx. apply Hf. clear -Hx. rewrite !elem_of_cons in *. tauto.
    + intros x Hx. by apply Hs.
  - eapply dispatch_blocked; try done; lia.
Qed.

Lemma cpu_ok_tasks s l ts : cpu_ok s l ->
  (forall x, vrun_time <$> ts !! x = vrun_time <$> s.(tasks) !! x) -> cpu_ok (set_tasks ts s) l.
Proof using Type.
  intros C H. assert (forall x, is_Some (s.(tasks) !! x) -> is_Some (ts !! x)) as Hs.
  { intros x [t Ht]. specialize (H x). rewrite Ht in H. destruct (ts !! x); [by eexists|done]. }
  destruct C. constructor; cbn; auto.
  - by eapply runq_vrun_frame.
  - intros x t Ht. specialize (H x). rewrite Ht in H.
    destruct (s.(tasks) !! x) as [t'|] eqn:E; cbn in H; [|done]. simplify_eq. rewrite H. eauto.
Qed.

Lemma vrun_tasks s ts x : (forall x, vrun_time <$> ts !! x = vrun_time <$> s.(tasks) !! x) ->
  vrun (set_tasks ts s) x = vrun s x.
Proof using Type.
  intros H. specialize (H x). unfold vrun; cbn.
  destruct (ts !! x), (s.(tasks) !! x); cbn in *; congruence.
Qed.

(** [schedule] is [dispatch] on the task [get_next_task] chose. *)
Lemma schedule_dispatch s l cur : cpu_ok s l -> s.(tasks) !! s.(current) = Some cur ->
  let s1 := set_tasks (<[s.(current) := clear_need_schedule cur]> s.(tasks)) s in
  exists tsk nxt n c l1, schedule s = dispatch tsk (clear_need_schedule cur) nxt (set_count c (set_nodes n s1)) /\
    cpu_ok (set_count c (set_nodes n s1)) l1 /\
    others (tsk :: l1) ≡ₚ others l /\ (length l1 + 1 <= length l \/ l1 = [])%nat /\
    Forall (fun y => vrun s tsk <= vrun s y) l1 /\
    tsk ∉ queue :: l1 /\ tsk <> 0 /\ is_Some (n !! tsk) /\ s1.(tasks) !! tsk = Some nxt /\
    (tsk = s.(current) -> tsk = init_task) /\ (tsk = init_task \/ tsk ∈ l) /\
    (l = [] -> tsk = init_task) /\ (l <> [] -> head l = Some tsk) /\
    (forall x, x ∉ queue :: l -> n !! x = s.(nodes) !! x) /\
    (forall x, is_Some (s.(nodes) !! x) -> is_Some (n !! x)).
Proof using Type.
  intros C Hc s1.
  assert (forall x, vrun_time <$> s1.(tasks) !! x = vrun_time <$> s.(tasks) !! x) as Hv.
  { intros x. subst s1; cbn. destruct (decide (x = current s)) as [->|];
      [by rewrite lookup_insert_eq, Hc|by rewrite lookup_insert_ne]. }
  assert (cpu_ok s1 l) as C1 by by apply cpu_ok_tasks.
  unfold schedule, upd_task. rewrite Hc. cbn [mbind option_bind]. fold s1.
  assert (s1.(tasks) !! s.(current) = Some (clear_need_schedule cur)) as Hc1
    by (subst s1; cbn; by rewrite lookup_insert_eq).
  destruct l as [|x l].
  - rewrite (get_next_task_nil s1) by apply C1. cbn [mbind option_bind].
    change (current s1) with (current s). rewrite Hc1.
    destruct (co_init_task _ _ C1) as [nxt Hn]. rewrite Hn.
    exists init_task, nxt, s1.(nodes), s1.(running_task_count), [].
    replace (set_count _ _) with s1 by done.
    split_and!; try done; try apply C1; auto.
    + rewrite filter_cons_False by tauto. done.
    + rewrite list_elem_of_singleton. apply C.
  - destruct (get_next_task_cons s1 x l) as (n & E & R & Hmin & Hx & Hf & Hs); [apply C1|].
    rewrite E. cbn [mbind option_bind].
    change (current (set_count _ _)) with (current s).
    change (tasks (set_count _ _)) with (tasks s1). rewrite Hc1.
    destruct (rq_tasks _ _ (co_runq _ _ C1) x) as [nxt Hn]; [apply list_elem_of_here|]. rewrite Hn.
    exists x, nxt, n, (s1.(running_task_count) - 1), l.
    pose proof (co_cur _ _ C) as Hcur.
    split_and!; try done; auto.
    + destruct C1. constructor; cbn; try done; try by apply Hs.
      * clear -Hcur. rewrite !elem_of_cons in *. tauto.
      * cbn in *. lia.
    + left. cbn. lia.
    + assert (forall y, vrun s1 y = vrun s y) as Hvr by (intros; by apply vrun_tasks).
      eapply Forall_impl; [done|]. intros y Hy. cbn in Hy. by rewrite !Hvr in Hy.
    + intros ->. pose proof (rq_null _ _ (co_runq _ _ C)). clear -H. rewrite !elem_of_cons in *. tauto.
    + apply Hs. eapply ring_nodes; [apply C1|]. rewrite !elem_of_cons. tauto.
    + intros ->. exfalso. clear -Hcur. rewrite !elem_of_cons in *. tauto.
    + right. apply list_elem_of_here.
    + intros y Hy. by apply Hs.
Qed.

(** [schedule] on a well-formed processor, with everything it leaves alone. *)
Lemma schedule_run s l cur : cpu_ok s l -> s.(tasks) !! s.(current) = Some cur ->
  exists s' l', schedule s = Some s' /\ cpu_ok s' l' /\
    others (s'.(current) :: l') ≡ₚ
      others ((if cur.(state) =? TASK_RUNNING then [s.(current)] else []) ++ l) /\
    Forall (fun y => vrun s s'.(current) <= vrun s y) l' /\
    (cur.(state) <> TASK_RUNNING -> s.(current) <> init_task -> s'.(current) <> s.(current)) /\
    s'.(tasks) = <[s.(current) := clear_need_schedule cur]> s.(tasks) /\
    s'.(wait_tsk) = s.(wait_tsk) /\ s'.(counters) = s.(counters) /\
    (forall x, x ∉ queue :: init_task :: s.(current) :: l -> s'.(nodes) !! x = s.(nodes) !! x) /\
    (forall x, is_Some (s.(nodes) !! x) -> is_Some (s'.(nodes) !! x)).
Proof using Type.
  intros C Hc. destruct (schedule_dispatch s l cur C Hc)
    as (tsk & nxt & n & c & l1 & -> & C1 & Hp & Hlen & Hmin & Ht & Ht0 & Htn & Htt & Hne & Hin & _ & _ & Hf & Hmono).
  set (s1 := set_tasks _ s) in *.
  assert (forall x, vrun (set_count c (set_nodes n s1)) x = vrun s x) as Hv.
  { intros x. apply (vrun_tasks s (tasks s1)). intros y. subst s1; cbn.
    destruct (decide (y = current s)) as [->|];
      [by rewrite lookup_insert_eq, Hc|by rewrite lookup_insert_ne]. }
  destruct (dispatch_spec (set_count c (set_nodes n s1)) l1 tsk (clear_need_schedule cur) nxt)
    as (s' & l' & E & C' & Hp' & Hmin' & Hblk & Hf' & Hmono' & Ets & Ew & Ec); try done.
  - eapply Forall_impl; [done|]. intros y Hy. cbn in Hy. by rewrite !Hv.
  - pose proof (co_bound _ _ C). destruct Hlen as [| ->]; [lia|cbn; lia].
  - cbn. by rewrite lookup_insert_eq.
  - exists s', l'. split_and!; try done.
    + rewrite Hp', !filter_app, Hp. done.
    + eapply Forall_impl; [done|]. intros y Hy. cbn in Hy. by rewrite !Hv in Hy.
    + intros Hst Hni. rewrite Hblk by done. intros E'. by apply Hni; rewrite <- E'; apply Hne.
    + intros x Hx. assert (x ∉ queue :: l) as Hxl.
      { clear -Hx. rewrite !elem_of_cons in *. tauto. }
      assert (forall y, y ∈ l1 -> y = init_task \/ y ∈ l) as Hl1.
      { intros y Hy. destruct (decide (y = init_task)); [by left|right].
        assert (y ∈ others l) as Hyl.
        { rewrite <- Hp. apply list_elem_of_filter. split; [done|by apply list_elem_of_further]. }
        by apply list_elem_of_filter in Hyl as [_ ?]. }
      rewrite Hf'; [by apply Hf|]. cbn.
      rewrite !elem_of_cons in Hx |- *. intros [E1|[E1|[E1|Hy]]]; [tauto|tauto|subst x|].
      * destruct Hin; tauto.
      * apply Hl1 in Hy. tauto.
    + intros x Hx. by apply Hmono', Hmono.
Qed.

(** C7. [schedule] is total on a well-formed processor (in particular it never divides
    by zero and its search loop ends), keeps the invariant, and is fair: no
    runnable task is lost or duplicated, and the task that runs next has the
    least [vrun_time] of all that wait.  A task that went to sleep does not
    continue, unless it is the idle task with nothing else to run.  Memory
    outside the run queue and the current task is not touched. *)
Theorem schedule_spec s l cur : cpu_ok s l -> s.(tasks) !! s.(current) = Some cur ->
  exists s' l', schedule s = Some s' /\ cpu_ok s' l' /\
    others (s'.(current) :: l') ≡ₚ
      others ((if cur.(state) =? TASK_RUNNING then [s.(current)] else []) ++ l) /\
    Forall (fun y => vrun s s'.(current) <= vrun s y) l' /\
    (cur.(state) <> TASK_RUNNING -> s.(current) <> init_task -> s'.(current) <> s.(current)) /\
    s'.(tasks) = <[s.(current) := clear_need_schedule cur]> s.(tasks) /\
    (forall x, x ∉ queue :: init_task :: s.(current) :: l -> s'.(nodes) !! x = s.(nodes) !! x).
Proof using Type.
  intros C Hc. destruct (schedule_run s l cur C Hc) as (s' & l' & H).
  exists s', l'. by split_and!; apply H.
Qed.

(** What the invariant of the processor depends on. *)
Lemma cpu_ok_frame s s' l : cpu_ok s l ->
  (forall x, x ∈ queue :: l -> s'.(nodes) !! x = s.(nodes) !! x) ->
  (forall x, is_Some (s.(nodes) !! x) -> is_Some (s'.(nodes) !! x)) ->
  (forall x, vrun_time <$> s'.(tasks) !! x = vrun_time <$> s.(tasks) !! x) ->
  s'.(running_task_count) = s.(running_task_count) -> s'.(current) = s.(current) -> cpu_ok s' l.
Proof using Type.
  intros C Hn Hs Ht Hc Hcur.
  pose proof (cpu_ok_tasks s l s'.(tasks) C Ht) as D. destruct D. cbn in *.
  constructor; rewrite ?Hcur; auto.
  apply (runq_frame s); [apply C|done|done|done].
Qed.

(** Tasks may appear and disappear that take no part in scheduling. *)
Lemma cpu_ok_part s s' l : cpu_ok s l ->
  (forall x, x ∈ queue :: l -> s'.(nodes) !! x = s.(nodes) !! x) ->
  (forall x, is_Some (s.(nodes) !! x) -> is_Some (s'.(nodes) !! x)) ->
  (forall x, x ∈ queue :: init_task :: s.(current) :: l ->
    vrun_time <$> s'.(tasks) !! x = vrun_time <$> s.(tasks) !! x) ->
  (forall x t, s'.(tasks) !! x = Some t -> t.(vrun_time) <= LONG_MAX) ->
  s'.(running_task_count) = s.(running_task_count) -> s'.(current) = s.(current) -> cpu_ok s' l.
Proof using Type.
  intros C Hn Hm Ht Hv Hc Hcur.
  assert (forall x, x ∈ queue :: init_task :: s.(current) :: l -> is_Some (s.(tasks) !! x) ->
    is_Some (s'.(tasks) !! x)) as Hs.
  { intros x Hx [t E]. specialize (Ht x Hx). rewrite E in Ht. by destruct (s'.(tasks) !! x). }
  assert (runq s' l) as R.
  { apply (runq_frame s); [apply C|done| |done]. intros x Hx. apply Ht.
    rewrite !elem_of_cons in *. tauto. }
  destruct C. constructor; rewrite ?Hcur; auto; apply Hs; rewrite ?elem_of_cons; tauto.
Qed.

(** ** Wait queues and semaphores

    What takes part in scheduling. *)
Definition on_cpu (s : sched) (l : list Z) : list Z := queue :: init_task :: s.(current) :: l.

(** The entry at [w] is that of the task [t], which sleeps in the state [st]. *)
Definition asleep (s : sched) (l : list Z) (st w t : Z) : Prop :=
  s.(wait_tsk) !! w = Some t /\ t <> 0 /\ t ∉ on_cpu s l /\
  is_Some (s.(nodes) !! t) /\ state <$> s.(tasks) !! t = Some st.

(** [ws] are the entries that wait at [head], first come first, each with its task. *)
Record wait_rep (s : sched) (l : list Z) (st head : Z) (ws : list (Z * Z)) : Prop := {
  wr_ring : ring s.(nodes) head (map fst ws);
  wr_null : 0 ∉ head :: map fst ws;
  wr_disj : forall x, x ∈ head :: map fst ws -> x ∉ on_cpu s l;
  wr_tsk : forall w t, (w, t) ∈ ws -> asleep s l st w t /\ t ∉ head :: map fst ws;
  wr_nodup : NoDup (map snd ws)
}.

(** A semaphore whose counter is [c]. *)
Definition sem_rep (s : sched) (l : list Z) (sem c : Z) (ws : list (Z * Z)) : Prop :=
  s.(counters) !! sem = Some c /\ wait_rep s l TASK_UNINTERRUPTIBLE (sem_wait sem) ws.

(** The idle task is never queued. *)
Lemma runq_others s l : runq s l -> others l = l.
Proof using Type.
  intros R. pose proof (rq_init _ _ R) as Hi. clear R. induction l as [|x l IH]; [done|].
  rewrite elem_of_cons in Hi. rewrite filter_cons_True by (intros ->; tauto).
  f_equal. apply IH. tauto.
Qed.

(** Who may run after a scheduling decision. *)
Lemma others_in l l' y : others l' ≡ₚ others l -> y ∈ l' -> y = init_task \/ y ∈ l.
Proof using Type.
  intros Hp Hy. destruct (decide (y = init_task)); [by left|right].
  assert (y ∈ others l) as Hyl by (rewrite <- Hp; by apply list_elem_of_filter).
  by apply list_elem_of_filter in Hyl as [_ ?].
Qed.

Lemma vrun_upd (m : gmap Z task) a t t' x : m !! a = Some t -> t'.(vrun_time) = t.(vrun_time) ->
  vrun_time <$> <[a := t']> m !! x = vrun_time <$> m !! x.
Proof using Type.
  intros Ha Hv. destruct (decide (a = x)) as [->|];
    [rewrite lookup_insert_eq, Ha; cbn; by rewrite Hv|by rewrite lookup_insert_ne].
Qed.

Lemma state_upd (m : gmap Z task) a t' x : x <> a -> <[a := t']> m !! x = m !! x.
Proof using Type. intros. by rewrite lookup_insert_ne. Qed.

(** Falling asleep: the steps before [schedule]. *)
Lemma sleep_enqueue s l st head ws wait cur :
  cpu_ok s l -> wait_rep s l st head ws -> s.(tasks) !! s.(current) = Some cur ->
  wait ∉ on_cpu s l -> wait ∉ head :: map fst ws -> wait <> 0 ->
  exists n,
    let s0 := set_wait_tsk (<[wait := s.(current)]> s.(wait_tsk))
      (set_tasks (<[s.(current) := set_state st cur]> s.(tasks)) (set_nodes n s)) in
    sleep_with st wait head s = schedule s0 /\ cpu_ok s0 l /\
    ring n head (map fst ws ++ [wait]) /\
    (forall x, is_Some (s.(nodes) !! x) -> is_Some (n !! x)) /\
    (forall x, x ∉ wait :: head :: map fst ws -> n !! x = s.(nodes) !! x).
Proof using Type.
  intros C S Hc Hw1 Hw2 Hw0. unfold on_cpu in *.
  destruct (list_add_to_before_ring (list_init wait s.(nodes)) head wait (map fst ws))
    as (n & E & Hr & Hf & Hs).
  { eapply ring_frame; [|apply S]. intros x Hx. unfold list_init.
    rewrite lookup_insert_ne; [done|]. intros ->. done. }
  { unfold list_init. rewrite lookup_insert_eq. by eexists. }
  { done. }
  exists n. cbv zeta.
  assert (forall x, x ∉ wait :: head :: map fst ws -> n !! x = s.(nodes) !! x) as Hkeep.
  { intros x Hx. rewrite Hf; [unfold list_init; rewrite lookup_insert_ne; [done|]|];
      clear -Hx; rewrite !elem_of_cons in *; [intros ->|]; tauto. }
  assert (forall x, is_Some (s.(nodes) !! x) -> is_Some (n !! x)) as Hmono.
  { intros x Hx. apply Hs. unfold list_init. destruct (decide (wait = x)) as [->|];
      [rewrite lookup_insert_eq; by eexists|by rewrite lookup_insert_ne]. }
  split_and!; [| |done..].
  - unfold sleep_with, upd_task, wait_queue_init. cbn. rewrite Hc. cbn. rewrite E. done.
  - apply (cpu_ok_frame s); try done.
    + intros x Hx. cbn. rewrite Hf.
      * unfold list_init. rewrite lookup_insert_ne; [done|]. intros ->.
        clear -Hx Hw1. rewrite !elem_of_cons in *. tauto.
      * rewrite !elem_of_cons. intros Hx'.
        assert (x = wait \/ x ∈ head :: map fst ws) as [->|Hx2]
          by (rewrite !elem_of_cons; tauto).
        { clear -Hx Hw1. rewrite !elem_of_cons in *. tauto. }
        apply (wr_disj _ _ _ _ _ S) in Hx2. unfold on_cpu in Hx2.
        clear -Hx Hx2. rewrite !elem_of_cons in *. tauto.
    + intros x. cbn. by eapply vrun_upd.
Qed.

(** What neither waits nor runs before a scheduling decision does not after it. *)
Lemma on_cpu_others s l s' l' x :
  others (s'.(current) :: l') ≡ₚ others l -> x ∉ on_cpu s l -> x ∉ on_cpu s' l'.
Proof using Type.
  unfold on_cpu. intros Hp Hx Hin. rewrite !elem_of_cons in Hx, Hin.
  assert (x = queue \/ x = init_task \/ x ∈ s'.(current) :: l') as Hin'
    by (rewrite elem_of_cons; tauto).
  destruct Hin' as [?|[?|Hy]]; [tauto|tauto|].
  apply (others_in l) in Hy; [|done]. tauto.
Qed.

(** What a sleeping task and its entry depend on. *)
Lemma asleep_frame s l s' l' st w t : asleep s l st w t -> t ∉ on_cpu s' l' ->
  s'.(wait_tsk) !! w = s.(wait_tsk) !! w -> s'.(tasks) !! t = s.(tasks) !! t ->
  (forall x, is_Some (s.(nodes) !! x) -> is_Some (s'.(nodes) !! x)) -> asleep s' l' st w t.
Proof using Type.
  intros (T1 & T2 & _ & T4 & T5) Ht Hw Hs Hm.
  split_and!; [by rewrite Hw|done|done|by apply Hm|by rewrite Hs].
Qed.

Lemma asleep_current s l st w t : asleep s l st w t -> t <> s.(current).
Proof using Type.
  intros (_ & _ & T3 & _) ->. unfold on_cpu in T3. rewrite !elem_of_cons in T3. tauto.
Qed.

(** What a wait queue depends on. *)
Lemma wait_rep_frame s l s' l' st head ws : wait_rep s l st head ws ->
  (forall x, x ∈ head :: map fst ws -> s'.(nodes) !! x = s.(nodes) !! x) ->
  (forall x, x ∈ head :: map fst ws ++ map snd ws -> x ∉ on_cpu s l -> x ∉ on_cpu s' l') ->
  (forall w t, (w, t) ∈ ws -> s'.(wait_tsk) !! w = s.(wait_tsk) !! w /\
    state <$> s'.(tasks) !! t = state <$> s.(tasks) !! t) ->
  (forall x, is_Some (s.(nodes) !! x) -> is_Some (s'.(nodes) !! x)) -> wait_rep s' l' st head ws.
Proof using Type.
  intros [R1 R2 R3 R4 R5] Hn Hout Hw Hm. constructor; [by eapply ring_frame|done| | |done].
  - intros x Hx. apply Hout; [|by apply R3]. rewrite app_comm_cons. apply elem_of_app. by left.
  - intros w t Hwt. destruct (R4 w t Hwt) as [(T1 & T2 & T3 & T4 & T5) Ht]. split; [|done].
    destruct (Hw w t Hwt) as [Ew Es]. split_and!; [by rewrite Ew|done| |by apply Hm|by rewrite Es].
    apply Hout; [|done]. rewrite app_comm_cons. apply elem_of_app. right.
    apply list_elem_of_fmap. by exists (w, t).
Qed.

(** A further entry at the end. *)
Lemma wait_rep_snoc s l s' l' st head ws w t :
  wait_rep s l st head ws -> ring s'.(nodes) head (map fst ws ++ [w]) ->
  (forall x, x ∉ on_cpu s l -> x ∉ on_cpu s' l') ->
  (forall w' t', (w', t') ∈ ws -> asleep s' l' st w' t') -> asleep s' l' st w t ->
  w ∉ on_cpu s l -> w <> 0 -> t ∉ head :: map fst ws -> t <> w ->
  w ∉ map snd ws -> t ∉ map snd ws -> wait_rep s' l' st head (ws ++ [(w, t)]).
Proof using Type.
  intros [R1 R2 R3 R4 R5] Hr Hout Has Hwt Hw Hw0 Ht2 Htw Hws Hts.
  assert (forall x, x ∈ head :: map fst (ws ++ [(w, t)]) -> x = w \/ x ∈ head :: map fst ws) as Hsplit.
  { intros x. rewrite map_app. cbn. rewrite !elem_of_cons, elem_of_app, list_elem_of_singleton. tauto. }
  constructor.
  - by rewrite map_app.
  - intros H0. destruct (Hsplit _ H0); [by apply Hw0|done].
  - intros x Hx. apply Hout. destruct (Hsplit _ Hx) as [->|]; auto.
  - intros w' t' Hwt'. apply elem_of_app in Hwt' as [Hwt'|Hwt'].
    + split; [by apply Has|]. intros Hx. destruct (Hsplit _ Hx) as [->|Hx'].
      * apply Hws, list_elem_of_fmap. by exists (w', w).
      * by apply (R4 _ _ Hwt').
    + apply list_elem_of_singleton in Hwt'. simplify_eq. split; [done|].
      intros Hx. by destruct (Hsplit _ Hx).
  - rewrite map_app. apply NoDup_app. split_and!; [done| |apply NoDup_singleton].
    intros x Hx Hx'. apply list_elem_of_singleton in Hx' as ->. by apply Hts.
Qed.

(** The first entry is gone, and its task runs. *)
Lemma wait_rep_tail s l s' l' st head ws w t :
  wait_rep s l st head ((w, t) :: ws) -> ring s'.(nodes) head (map fst ws) ->
  (forall x, x ∉ on_cpu s l -> x <> t -> x ∉ on_cpu s' l') ->
  (forall w' t', (w', t') ∈ ws -> t' <> t -> t' ∉ on_cpu s' l' -> asleep s' l' st w' t') ->
  wait_rep s' l' st head ws.
Proof using Type.
  intros [R1 R2 R3 R4 R5] Hr Hout Has. cbn in R5. apply NoDup_cons in R5 as [R5 R6].
  assert (forall x, x ∈ head :: map fst ws -> x ∈ head :: map fst ((w, t) :: ws))
    as Hsub by (intros x; cbn; rewrite !elem_of_cons; tauto).
  constructor; [done| | | |done].
  - intros H0. by apply R2, Hsub.
  - intros x Hx. apply Hout; [by apply R3, Hsub|]. intros ->.
    by apply (proj2 (R4 w t ltac:(apply list_elem_of_here))), Hsub.
  - intros w' t' Hwt. destruct (R4 w' t') as [T Ht]; [by apply list_elem_of_further|].
    assert (t' <> t) as Hne.
    { intros ->. apply R5, list_elem_of_fmap. by exists (w', t). }
    split; [|by intros Hx; apply Ht, Hsub]. apply Has; [done..|]. apply Hout; [apply T|done].
Qed.

(** Falling asleep: the task is appended to the queue, another task runs, and no task but
    this one leaves the processor. *)
Lemma sleep_with_spec s l st head ws wait cur :
  cpu_ok s l -> wait_rep s l st head ws -> s.(tasks) !! s.(current) = Some cur ->
  st <> TASK_RUNNING -> s.(current) <> init_task ->
  wait ∉ on_cpu s l -> wait ∉ head :: map fst ws ->
  wait ∉ map snd ws -> s.(current) ∉ head :: map fst ws -> wait <> 0 ->
  exists s' l', sleep_with st wait head s = Some s' /\ cpu_ok s' l' /\
    wait_rep s' l' st head (ws ++ [(wait, s.(current))]) /\
    others (s'.(current) :: l') ≡ₚ others l /\ s'.(current) <> s.(current) /\
    s'.(counters) = s.(counters) /\
    s'.(tasks) = <[s.(current) := clear_need_schedule (set_state st cur)]> s.(tasks) /\
    s'.(wait_tsk) = <[wait := s.(current)]> s.(wait_tsk) /\
    (forall x, is_Some (s.(nodes) !! x) -> is_Some (s'.(nodes) !! x)) /\
    (forall x, x ∉ on_cpu s l -> x ∉ wait :: head :: map fst ws -> s'.(nodes) !! x = s.(nodes) !! x).
Proof using Type.
  intros C S Hc Hst Hni Hw1 Hw2 Hw3 Hcs Hw0.
  destruct (sleep_enqueue s l st head ws wait cur) as (n & -> & C0 & Hr & Hmono & Hkeep); try done.
  set (s0 := set_wait_tsk _ _) in *.
  destruct (schedule_run s0 l (set_state st cur) C0)
    as (s' & l' & E & C' & Hp & _ & Hne & Ets & Ew & Ec & Hf & Hm).
  { cbn. by rewrite lookup_insert_eq. }
  cbn [state set_state] in Hp, Hne. rewrite (proj2 (Z.eqb_neq _ _) Hst) in Hp. cbn [app] in Hp.
  specialize (Hne Hst Hni). change (current s0) with s.(current) in *.
  assert (forall x, x ∉ on_cpu s l -> x ∉ on_cpu s' l') as Hout by (intros x; by apply on_cpu_others).
  assert (s.(current) ∉ on_cpu s' l') as Hcur.
  { pose proof (co_cur _ _ C) as Hq. unfold on_cpu. rewrite !elem_of_cons in *.
    intros [?|[?|Hy]]; [tauto|tauto|]. rewrite <- elem_of_cons in Hy.
    apply (others_in l) in Hy; [|done]. tauto. }
  exists s', l'. split_and!; try done;
    [|by rewrite Ets; cbn; rewrite insert_insert_eq|by intros x Hx; apply Hm, Hmono
     |by intros x Hx1 Hx2; rewrite Hf; [by apply Hkeep|]; unfold on_cpu in Hx1; rewrite !elem_of_cons in *; tauto].
  apply (wait_rep_snoc s l); try done.
  - eapply ring_frame; [|exact Hr]. intros x Hx. apply Hf. cbn.
    assert (x ∉ on_cpu s l) as Hx'; [|unfold on_cpu in Hx'; clear -Hx'; rewrite !elem_of_cons in *; tauto].
    rewrite elem_of_cons, elem_of_app, list_elem_of_singleton in Hx.
    destruct Hx as [->|[Hx| ->]]; [apply (wr_disj _ _ _ _ _ S)..|done];
      rewrite elem_of_cons; tauto.
  - intros w t Hwt. destruct (wr_tsk _ _ _ _ _ S w t Hwt) as [T _].
    pose proof (asleep_current _ _ _ _ _ T). apply (asleep_frame s l); [done|apply Hout, T| | |].
    + rewrite Ew. cbn. rewrite lookup_insert_ne; [done|]. intros ->. apply Hw2, list_elem_of_further.
      apply list_elem_of_fmap. by exists (w, t).
    + rewrite Ets. cbn. by rewrite !lookup_insert_ne.
    + intros x Hx. by apply Hm, Hmono.
  - split_and!; [rewrite Ew; cbn; by rewrite lookup_insert_eq|apply C|done| |].
    + apply Hm, Hmono, C.
    + rewrite Ets. cbn. by rewrite lookup_insert_eq.
  - intros Heq. apply Hw1. unfold on_cpu. rewrite <- Heq, !elem_of_cons. tauto.
  - intros Ht. apply list_elem_of_fmap in Ht as ([w t] & Ht & Hwt). cbn in Ht. subst t.
    by apply (asleep_current _ _ _ _ _ (proj1 (wr_tsk _ _ _ _ _ S _ _ Hwt))).
Qed.

(** [semaphore_down]: a positive counter is decremented and nothing else happens;
    otherwise the task is appended to the queue of the semaphore, sleeps, and
    another task runs; the counter and the tasks before it in the queue are
    unchanged, and no other task is lost. *)
Theorem semaphore_down_spec s l sem c ws wait cur :
  cpu_ok s l -> sem_rep s l sem c ws -> s.(tasks) !! s.(current) = Some cur ->
  s.(current) <> init_task -> c < 2 ^ 63 ->
  wait ∉ on_cpu s l -> wait ∉ sem_wait sem :: map fst ws ->
  wait ∉ map snd ws -> s.(current) ∉ sem_wait sem :: map fst ws -> wait <> 0 ->
  (0 < c -> semaphore_down wait sem s = Some (set_counters (<[sem := c - 1]> s.(counters)) s)) /\
  (c <= 0 -> exists s' l', semaphore_down wait sem s = Some s' /\ cpu_ok s' l' /\
    sem_rep s' l' sem c (ws ++ [(wait, s.(current))]) /\
    others (s'.(current) :: l') ≡ₚ others l /\ s'.(current) <> s.(current)).
Proof using Type.
  intros C [S1 S2] Hc Hni Hrange Hw1 Hw2 Hw3 Hcs Hw0. unfold semaphore_down.
  rewrite S1. cbn [mbind option_bind].
  split; intros Hpos; [rewrite (proj2 (Z.ltb_lt _ _)), i64_small by lia; done|].
  rewrite (proj2 (Z.ltb_ge _ _)) by lia.
  destruct (sleep_with_spec s l TASK_UNINTERRUPTIBLE (sem_wait sem) ws wait cur)
    as (s' & l' & E & C' & R & Hp & Hne & Ec & _); try done.
  exists s', l'. split_and!; try done. split; [by rewrite Ec|done].
Qed.

(** Waking a task: it enters the run queue, and [current] is asked to yield. *)
Lemma wakeup_process_spec s l t tk cur :
  cpu_ok s l -> Z.of_nat (length l) + 2 < 2 ^ 62 ->
  t ∉ queue :: init_task :: s.(current) :: l -> t <> 0 -> is_Some (s.(nodes) !! t) ->
  s.(tasks) !! t = Some tk -> s.(tasks) !! s.(current) = Some cur ->
  exists s' l', wakeup_process t s = Some s' /\ cpu_ok s' l' /\ others l' ≡ₚ t :: others l /\
    (forall y, y ∈ l' -> y = t \/ y ∈ l) /\
    s'.(current) = s.(current) /\ s'.(counters) = s.(counters) /\ s'.(wait_tsk) = s.(wait_tsk) /\
    s'.(tasks) = <[s.(current) := set_need_schedule cur]> (<[t := set_state TASK_RUNNING tk]> s.(tasks)) /\
    (forall y, y ∉ queue :: t :: l -> s'.(nodes) !! y = s.(nodes) !! y) /\
    (forall y, is_Some (s.(nodes) !! y) -> is_Some (s'.(nodes) !! y)).
Proof using Type.
  intros C Hb Ht Ht0 Htn Htk Hc. unfold wakeup_process.
  set (s1 := set_tasks (<[t := set_state TASK_RUNNING tk]> s.(tasks)) s).
  assert (upd_task t (set_state TASK_RUNNING) s = Some s1) as ->
    by (unfold upd_task; by rewrite Htk).
  cbn [mbind option_bind].
  assert (cpu_ok s1 l) as C1.
  { apply cpu_ok_tasks; [done|]. intros x. by eapply vrun_upd. }
  assert (t ∉ queue :: l /\ t <> init_task /\ t <> s.(current)) as (Ht1 & Hti & Htc).
  { clear -Ht. rewrite !elem_of_cons in *. tauto. }
  destruct (insert_any s1 l t) as (n & c & l2 & E & R & Hp & Hlen & Hin & Hf & Hs); try done.
  { subst s1; cbn. rewrite lookup_insert_eq. by eexists. }
  rewrite E. cbn [mbind option_bind].
  assert (cpu_ok (set_count c (set_nodes n s1)) l2) as C2.
  { apply (cpu_ok_build s1 l n c s1.(CPU_exec_task_jiffies) s1.(current) l2); try done;
      [|exact (co_cur0 _ _ C1)|exact (co_cur_node _ _ C1)|exact (co_cur_task _ _ C1)].
    intros Hx. rewrite elem_of_cons in Hx. pose proof (co_cur _ _ C1) as Hcur.
    rewrite elem_of_cons in Hcur. destruct Hx as [|Hx]; [tauto|].
    destruct (Hin _ Hx) as [[Hxt _]|]; [by apply Htc|tauto]. }
  unfold upd_task. cbn. rewrite lookup_insert_ne, Hc by done. cbn.
  eexists _, l2. split; [done|]. split.
  { apply (cpu_ok_frame (set_count c (set_nodes n s1))); try done.
    intros x. cbn. eapply vrun_upd; [rewrite lookup_insert_ne by done; exact Hc|done]. }
  cbn [nodes tasks wait_tsk counters current set_tasks set_count set_nodes]. split_and!; try done.
  - by rewrite Hp, filter_cons_True.
  - intros y Hy. destruct (Hin _ Hy) as [[-> _]|]; auto.
  - intros y Hy. by apply Hs.
Qed.

(** Waking the first task that waits: its entry leaves the queue, and it is queued to run. *)
Lemma wake_first s l st head ws w t cur :
  cpu_ok s l -> wait_rep s l st head ((w, t) :: ws) -> s.(tasks) !! s.(current) = Some cur ->
  Z.of_nat (length l) + 2 < 2 ^ 62 ->
  exists n s' l', list_del w s.(nodes) = Some n /\ wakeup_process t (set_nodes n s) = Some s' /\
    cpu_ok s' l' /\ others l' ≡ₚ t :: others l /\ wait_rep s' l' st head ws /\
    s'.(counters) = s.(counters) /\ state <$> s'.(tasks) !! t = Some TASK_RUNNING /\
    flags <$> s'.(tasks) !! s.(current) = Some (cur.(flags) .| NEED_SCHEDULE) /\
    s'.(current) = s.(current) /\ s'.(wait_tsk) = s.(wait_tsk) /\
    (exists tk, s.(tasks) !! t = Some tk /\
      s'.(tasks) = <[s.(current) := set_need_schedule cur]> (<[t := set_state TASK_RUNNING tk]> s.(tasks))) /\
    (forall y, y ∈ l' -> y = t \/ y ∈ l) /\
    (forall x, is_Some (s.(nodes) !! x) -> is_Some (s'.(nodes) !! x)) /\
    (forall x, x ∉ queue :: t :: l -> x ∉ head :: map fst ((w, t) :: ws) -> s'.(nodes) !! x = s.(nodes) !! x).
Proof using Type.
  intros C S Hc Hb. destruct (list_del_ring _ _ w [] (map fst ws) (wr_ring _ _ _ _ _ S))
    as (n & En & Hr & Hf & Hs).
  destruct (wr_tsk _ _ _ _ _ S w t ltac:(by apply list_elem_of_here)) as [T T4].
  pose proof T as (T1 & T2 & T3 & T5 & T6). pose proof (asleep_current _ _ _ _ _ T) as Htc.
  destruct (s.(tasks) !! t) as [tk|] eqn:Htk; [|done].
  assert (cpu_ok (set_nodes n s) l) as C1.
  { apply (cpu_ok_frame s); try done; cbn; [|intros x Hx; by apply Hs].
    intros x Hx. apply Hf. intros Hx'. apply (wr_disj _ _ _ _ _ S) in Hx'.
    unfold on_cpu in Hx'. clear -Hx Hx'. rewrite !elem_of_cons in *. tauto. }
  destruct (wakeup_process_spec (set_nodes n s) l t tk cur)
    as (s' & l' & E & C' & Hp & Hin & Ecur & Ec & Ew & Ets & Hf' & Hm); try done.
  { cbn. by apply Hs. }
  cbn in Ec, Ew, Ets, Hf', Ecur.
  assert (forall x, x ∉ on_cpu s l -> x <> t -> x ∉ on_cpu s' l') as Hout.
  { unfold on_cpu. intros x Hx Hxt. rewrite Ecur. rewrite !elem_of_cons in *.
    intros [?|[?|[?|Hy]]]; [tauto..|]. destruct (Hin _ Hy); tauto. }
  exists n, s', l'. split_and!; try done.
  - apply (wait_rep_tail s l _ _ _ _ _ w t S); [|done|].
    + eapply ring_frame; [|exact Hr]. intros x Hx. apply Hf'.
      assert (x ∈ head :: map fst ((w, t) :: ws)) as Hx' by (clear -Hx; cbn; rewrite !elem_of_cons in *; tauto).
      assert (x <> t) by (by intros ->). apply (wr_disj _ _ _ _ _ S) in Hx'.
      unfold on_cpu in Hx'. rewrite !elem_of_cons in *. tauto.
    + intros w' t' Hwt Hne Hcpu.
      destruct (wr_tsk _ _ _ _ _ S w' t' ltac:(by apply list_elem_of_further)) as [T' _].
      pose proof (asleep_current _ _ _ _ _ T').
      apply (asleep_frame s l); [done|done|by rewrite Ew| |].
      * rewrite Ets. by rewrite !lookup_insert_ne.
      * intros x Hx. apply Hm. cbn. by apply Hs.
  - rewrite Ets, lookup_insert_ne, lookup_insert_eq by done. done.
  - rewrite Ets, lookup_insert_eq. done.
  - by exists tk.
  - intros x Hx. by apply Hm, Hs.
  - intros x Hx1 Hx2. rewrite Hf' by done. by apply Hf.
Qed.

(** [semaphore_up]: with nobody waiting the counter is incremented; otherwise
    the counter stays, exactly the first waiting entry leaves the queue of the
    semaphore, and its task becomes runnable and is queued to run. *)
Theorem semaphore_up_spec s l sem c ws cur :
  cpu_ok s l -> sem_rep s l sem c ws -> s.(tasks) !! s.(current) = Some cur ->
  - 2 ^ 63 <= c < 2 ^ 63 - 1 -> Z.of_nat (length l) + 2 < 2 ^ 62 ->
  match ws with
  | [] => semaphore_up sem s = Some (set_counters (<[sem := c + 1]> s.(counters)) s)
  | (w, t) :: ws' => exists s' l', semaphore_up sem s = Some s' /\ cpu_ok s' l' /\
      others l' ≡ₚ t :: others l /\ sem_rep s' l' sem c ws' /\
      state <$> s'.(tasks) !! t = Some TASK_RUNNING /\
      flags <$> s'.(tasks) !! s.(current) = Some (cur.(flags) .| NEED_SCHEDULE)
  end.
Proof using Type.
  intros C [S1 S2] Hc Hrange Hb. pose proof S2 as [R1 R2 _ R4 _].
  destruct ws as [|[w t] ws]; unfold semaphore_up; rewrite (list_is_empty_ring _ _ _ R1).
  { cbn. rewrite S1. cbn. by rewrite i64_small by lia. }
  cbn [mbind option_bind map]. rewrite decide_False by done. cbn [Z.eqb negb].
  unfold __up. rewrite (list_next_ring _ _ _ R2 R1).
  change (default _ (head _)) with w. cbn [mbind option_bind].
  destruct (wake_first _ _ _ _ _ _ _ _ C S2 Hc Hb) as (n & s' & l' & -> & E & C' & Hp & R & Ec & Ht & Hfl & _).
  cbn [mbind option_bind]. change (wait_tsk (set_nodes n s)) with (wait_tsk s).
  destruct (R4 w t ltac:(by apply list_elem_of_here)) as [(-> & _) _]. cbn [mbind option_bind].
  exists s', l'. split_and!; try done. split; [by rewrite Ec|done].
Qed.

(** [wakeup]: the first task in the queue, if its state is among those asked for. *)
Lemma wakeup_spec s l st head ws cur sts : cpu_ok s l -> wait_rep s l st head ws ->
  s.(tasks) !! s.(current) = Some cur -> Z.of_nat (length l) + 2 < 2 ^ 62 -> st .& sts <> 0 ->
  match ws with
  | [] => wakeup head sts s = Some s
  | (w, t) :: ws' => exists s' l', wakeup head sts s = Some s' /\ cpu_ok s' l' /\
      others l' ≡ₚ t :: others l /\ wait_rep s' l' st head ws' /\
      state <$> s'.(tasks) !! t = Some TASK_RUNNING /\
      s'.(current) = s.(current) /\ s'.(wait_tsk) = s.(wait_tsk) /\
      (exists tk, s.(tasks) !! t = Some tk /\
        s'.(tasks) = <[s.(current) := set_need_schedule cur]> (<[t := set_state TASK_RUNNING tk]> s.(tasks))) /\
      (forall y, y ∈ l' -> y = t \/ y ∈ l) /\
      (forall x, is_Some (s.(nodes) !! x) -> is_Some (s'.(nodes) !! x)) /\
      (forall x, x ∉ queue :: t :: l -> x ∉ head :: map fst ((w, t) :: ws') -> s'.(nodes) !! x = s.(nodes) !! x)
  end.
Proof using Type.
  intros C S2 Hc Hb Hst. pose proof S2 as [R1 R2 _ R4 _].
  destruct ws as [|[w t] ws]; unfold wakeup; rewrite (list_is_empty_ring _ _ _ R1); [done|].
  cbn [mbind option_bind map]. rewrite decide_False by done. cbn [Z.eqb negb].
  rewrite (list_next_ring _ _ _ R2 R1). change (default _ (list.head _)) with w. cbn [mbind option_bind].
  destruct (R4 w t ltac:(by apply list_elem_of_here)) as [(-> & _ & _ & _ & Ht) _]. cbn [mbind option_bind].
  assert (exists tk, s.(tasks) !! t = Some tk /\ tk.(state) = st) as (tk & Htk & Htst)
    by (destruct (s.(tasks) !! t); simplify_eq/=; eauto).
  assert (forall A (f : task -> option A), (tk ← s.(tasks) !! t; f tk) = f tk) as -> by (intros; by rewrite Htk).
  rewrite Htst, (proj2 (Z.eqb_neq _ _) Hst). cbn [negb].
  destruct (wake_first _ _ _ _ _ _ _ _ C S2 Hc Hb) as (n & s' & l' & -> & E & C' & Hp & R & _ & Hs & _ & K).
  cbn [mbind option_bind]. exists s', l'. repeat (split; [done|]). exact K.
Qed.

(** [insert_task_queue] implements insertion into a sorted list: the search ends,
    the queue holds the same tasks and the new one, sorted by [vrun_time]
    (behind every task that has run strictly less, before those that have run as much
    or more), the count is kept, and nothing else in memory changes. *)
Theorem insert_task_queue_sorted s l tsk :
  cpu_ok s l -> tsk <> init_task -> tsk ∉ queue :: l -> tsk <> 0 ->
  is_Some (s.(nodes) !! tsk) -> is_Some (s.(tasks) !! tsk) ->
  exists n l', insert_task_queue tsk s = Some (set_count (2 + Z.of_nat (length l)) (set_nodes n s)) /\
    ring n queue l' /\ l' = insert_by (vrun s) tsk l /\ l' ≡ₚ tsk :: l /\ sorted_by (vrun s) l' /\
    (forall x, x ∉ queue :: tsk :: l -> n !! x = s.(nodes) !! x).
Proof using Type.
  intros C Hi Hx H0 Hn Ht.
  destruct (insert_task_queue_runq s l tsk) as (n & E & R & Hf & Hs);
    [apply C|done..|by eapply vrun_bound|apply C|].
  exists n, (insert_by (vrun s) tsk l). rewrite E, (rq_count _ _ (co_runq _ _ C)).
  split_and!; [do 2 f_equal; lia|apply R|done|apply insert_by_perm| |done].
  apply insert_by_sorted, C.
Qed.

(** ** The time slice *)

Lemma upd_task_slice a f s s' : upd_task a f s = Some s' ->
  s'.(CPU_exec_task_jiffies) = s.(CPU_exec_task_jiffies).
Proof using Type. unfold upd_task. intros. by inv_fault. Qed.

Lemma insert_task_queue_slice x s s' : insert_task_queue x s = Some s' ->
  s'.(CPU_exec_task_jiffies) = s.(CPU_exec_task_jiffies).
Proof using Type. unfold insert_task_queue. case_match; intros; by inv_fault. Qed.

Lemma get_next_task_slice s x s' : get_next_task s = Some (x, s') ->
  s'.(CPU_exec_task_jiffies) = s.(CPU_exec_task_jiffies).
Proof using Type. unfold get_next_task. intros H. apply bind_Some in H as (e & _ & H).
  destruct (negb (e =? 0)); by inv_fault. Qed.

Lemma refill_slice p s s' : refill p s = Some s' -> s.(CPU_exec_task_jiffies) <> 0 ->
  s'.(CPU_exec_task_jiffies) = s.(CPU_exec_task_jiffies).
Proof using Type. unfold refill. intros H Hs. rewrite (proj2 (Z.eqb_neq _ _) Hs) in H. by simplify_eq. Qed.

Lemma schedule_slice s s' : schedule s = Some s' -> s.(CPU_exec_task_jiffies) <> 0 ->
  s'.(CPU_exec_task_jiffies) = s.(CPU_exec_task_jiffies).
Proof using Type.
  unfold schedule. intros H Hs. apply bind_Some in H as (s1 & E1 & H).
  apply bind_Some in H as ([x s2] & E2 & H). apply bind_Some in H as (cur & _ & H).
  apply bind_Some in H as (nxt & _ & H).
  apply upd_task_slice in E1. apply get_next_task_slice in E2. rewrite E1 in E2.
  destruct (orb _ _).
  - apply bind_Some in H as (s3 & E3 & H). apply bind_Some in H as (s4 & E4 & H).
    assert (s3.(CPU_exec_task_jiffies) = s2.(CPU_exec_task_jiffies)) as E5.
    { destruct (_ =? TASK_RUNNING); [by eapply insert_task_queue_slice|by simplify_eq]. }
    injection H as <-. cbn. rewrite (refill_slice _ _ _ E4); congruence.
  - apply bind_Some in H as (s3 & E3 & H). apply insert_task_queue_slice in E3.
    rewrite (refill_slice _ _ _ H); congruence.
Qed.

(** The events that use up or refill the slice. *)
Inductive cpu_step (s s' : sched) : Prop :=
  | step_tick : IPI_0x200 s = Some s' -> cpu_step s s'
  | step_schedule : schedule s = Some s' -> cpu_step s s'.

Lemma tick_slice s s' : IPI_0x200 s = Some s' ->
  exists d, 1 <= d <= 2 /\ s'.(CPU_exec_task_jiffies) = i64 (s.(CPU_exec_task_jiffies) - d) /\
  (s'.(CPU_exec_task_jiffies) <= 0 ->
    exists t, s'.(tasks) !! s'.(current) = Some t /\ Z.testbit t.(flags) 1 = true).
Proof using Type.
  unfold IPI_0x200, upd_task. intros H. apply bind_Some in H as (cur & Hc & H). cbn in H. rewrite Hc in H.
  set (d := if (cur.(priority) =? 0) || (cur.(priority) =? 1) then 1 else 2) in H. exists d.
  split; [subst d; case_match; lia|]. cbn in H. rewrite lookup_insert_eq in H. cbn in H.
  destruct (Z.leb_spec (i64 (CPU_exec_task_jiffies s - d)) 0); simplify_eq;
    cbn [CPU_exec_task_jiffies tasks current set_slice set_tasks]; (split; [done|]).
  - intros _. rewrite lookup_insert_eq. eexists; split; [done|]. cbn [flags set_need_schedule].
    rewrite Z.lor_spec. apply orb_true_r.
  - lia.
Qed.

(** The slice is refilled only when it is exactly 0: once it is negative (a task of
    priority 2 takes 2 off an odd slice) it stays negative under every sequence of
    clock interrupts and scheduling decisions, until the counter would wrap
    around after 2^62 of them, and every further clock interrupt
    asks for a reschedule: the round-robin quantum is 1 tick from then on. *)
Theorem slice_stuck_negative n s s' : nsteps cpu_step n s s' ->
  - 2 ^ 63 + 2 * Z.of_nat n + 2 <= s.(CPU_exec_task_jiffies) < 0 ->
  s'.(CPU_exec_task_jiffies) < 0 /\
  forall s'', IPI_0x200 s' = Some s'' ->
    exists t, s''.(tasks) !! s''.(current) = Some t /\ Z.testbit t.(flags) 1 = true.
Proof using Type.
  induction 1 as [s|n s1 s2 s3 H1 H2 IH]; intros Hs.
  - split; [lia|]. intros s'' Ht. apply tick_slice in Ht as (d & Hd & E & Hf).
    apply Hf. rewrite E, i64_small; lia.
  - apply IH. destruct H1 as [H1|H1].
    + apply tick_slice in H1 as (d & Hd & E & _). rewrite E, i64_small; lia.
    + rewrite (schedule_slice _ _ H1); lia.
Qed.

(** [schedule_init] builds an empty run queue. *)
Lemma schedule_init_runq s : queue <> 0 -> runq (schedule_init s) [].
Proof using Type.
  intros Hq. constructor; cbn; try done; try lia.
  - apply list_init_ring.
  - rewrite list_elem_of_singleton. congruence.
  - by rewrite lookup_insert_eq.
  - apply not_elem_of_nil.
  - intros x Hx. by apply not_elem_of_nil in Hx.
  - constructor.
Qed.
End Cpu.

(** ** A concrete processor

    The run queue at 100 holds the task 400; 200 is the idle task, 300 runs, 500 is
    the wait queue of a semaphore at 492 where the task 600 waits with the entry 700. *)
Definition cpu_demo : sched := mkSched
  (list_to_map [(100, mkList 400 400); (400, mkList 100 100); (200, mkList 0 0); (300, mkList 0 0);
    (500, mkList 700 700); (700, mkList 500 500); (600, mkList 0 0); (800, mkList 0 0)])
  (list_to_map [(100, mkTask 0 0 0 LONG_MAX); (400, mkTask TASK_RUNNING 0 2 7);
    (200, mkTask TASK_UNINTERRUPTIBLE PF_KTHREAD 2 0); (300, mkTask TASK_RUNNING 0 2 9);
    (600, mkTask TASK_UNINTERRUPTIBLE 0 2 3)])
  {[ 700 := 600 ]} {[ 492 := 0 ]} 2 4 300.

Ltac not_in ::= unfold sem_wait, on_cpu; cbn; rewrite ?not_elem_of_cons; split_and?; try lia; apply not_elem_of_nil.

Lemma cpu_demo_ok : cpu_ok 100 200 cpu_demo [400].
Proof.
  constructor;
    [|cbn; not_in|cbn; lia|by (vm_compute; eexists)|by (vm_compute; eexists)|split; lia
     |by (vm_compute; eexists)|by (vm_compute; eexists)| |cbn; lia].
  - constructor; [concrete_ring|not_in|reflexivity|not_in| |repeat constructor|reflexivity|cbn; lia].
    intros x Hx. apply list_elem_of_singleton in Hx as ->. vm_compute. by eexists.
  - intros x t Ht. apply elem_of_list_to_map_2 in Ht. cbn in Ht. rewrite !elem_of_cons in Ht.
    destruct Ht as [Ht|[Ht|[Ht|[Ht|[Ht|Ht]]]]]; [simplify_eq; cbn; unfold LONG_MAX; lia..|].
    by apply not_elem_of_nil in Ht.
Qed.

Lemma cpu_demo_sem : sem_rep 100 200 cpu_demo [400] 492 0 [(700, 600)].
Proof.
  split; [reflexivity|]. constructor; [concrete_ring|not_in| | |].
  - intros x Hx. apply elem_of_cons in Hx as [->|Hx]; [not_in|].
    apply list_elem_of_singleton in Hx as ->. not_in.
  - intros w t Hwt. apply list_elem_of_singleton in Hwt. simplify_eq. split; [|not_in].
    split_and!; [reflexivity|lia|not_in|vm_compute; by eexists|reflexivity].
  - repeat constructor. not_in.
Qed.

Lemma insert_task_queue_sorted_witness : exists n,
  insert_task_queue 100 200 300 cpu_demo = Some (set_count 3 (set_nodes n cpu_demo)) /\
  ring n 100 [400; 300].
Proof.
  destruct (insert_task_queue_sorted 100 200 cpu_demo [400] 300) as (n & l' & E & R & Hl & _).
  - exact cpu_demo_ok.
  - lia.
  - not_in.
  - lia.
  - vm_compute. by eexists.
  - vm_compute. by eexists.
  - exists n. split; [exact E|]. vm_compute in Hl. subst l'. exact R.
Defined.

Lemma schedule_spec_witness : exists s' l',
  schedule 100 200 cpu_demo = Some s' /\ cpu_ok 100 200 s' l' /\
  filter (fun x => x <> 200) (s'.(current) :: l') ≡ₚ [300; 400].
Proof.
  destruct (schedule_spec 100 200 cpu_demo [400] (mkTask TASK_RUNNING 0 2 9))
    as (s' & l' & E & C & Hp & _); [exact cpu_demo_ok|reflexivity|].
  exists s', l'. split; [exact E|]. split; [exact C|]. exact Hp.
Defined.

Lemma semaphore_down_spec_witness : exists s' l',
  semaphore_down 100 200 800 492 cpu_demo = Some s' /\
  sem_rep 100 200 s' l' 492 0 [(700, 600); (800, 300)] /\ s'.(current) <> 300.
Proof.
  destruct (semaphore_down_spec 100 200 cpu_demo [400] 492 0 [(700, 600)] 800 (mkTask TASK_RUNNING 0 2 9))
    as (_ & H); [exact cpu_demo_ok|exact cpu_demo_sem|reflexivity|cbn; lia|lia|cbn; not_in..|lia|].
  - destruct (H ltac:(lia)) as (s' & l' & E & _ & S & _ & Hne). exists s', l'. auto.
Defined.

Lemma semaphore_up_spec_witness : exists s' l',
  semaphore_up 100 200 492 cpu_demo = Some s' /\ sem_rep 100 200 s' l' 492 0 [] /\
  filter (fun x => x <> 200) l' ≡ₚ [600; 400].
Proof.
  destruct (semaphore_up_spec 100 200 cpu_demo [400] 492 0 [(700, 600)] (mkTask TASK_RUNNING 0 2 9))
    as (s' & l' & E & _ & Hp & S & _); [exact cpu_demo_ok|exact cpu_demo_sem|reflexivity|lia|cbn; lia|].
  exists s', l'. auto.
Defined.

(** Two clock interrupts on a slice of 3 make it negative. *)
Lemma slice_stuck_negative_witness :
  (s ← IPI_0x200 (set_slice 3 cpu_demo); s ← IPI_0x200 s; Some s.(CPU_exec_task_jiffies)) = Some (-1) /\
  exists s', cpu_step 100 200 (set_slice (-1) cpu_demo) s' /\ s'.(CPU_exec_task_jiffies) < 0.
Proof.
  split; [vm_compute; reflexivity|].
  destruct (IPI_0x200 (set_slice (-1) cpu_demo)) as [s'|] eqn:E; [|exfalso; vm_compute in E; discriminate].
  exists s'. assert (cpu_step 100 200 (set_slice (-1) cpu_demo) s') as Hstep by (apply step_tick; exact E).
  split; [exact Hstep|].
  apply (slice_stuck_negative 100 200 1 (set_slice (-1) cpu_demo) s'); [|cbn; lia].
  eapply nsteps_l; [exact Hstep|constructor].
Defined.
