(* ===== verification/Slab.v ===== *)
(** * Kernel object allocator (memory.h, memory.c)

    [kmalloc], [kfree] and the slab caches built on the page allocator.  A
    [struct Slab *] is its address, the address of its first member [list]; the words
    of a colour map are kept by the address of the map.  Objects handed out are
    addresses: what their owners store in them is not part of the state, and
    [slabs] and [maps] hold the structures that live in such objects.
    A NULL pointer is the address 0, which is not mapped: using it is a fault. *)

From S2P Require Import Prelude Bitmap Klist PageAlloc.

(** [struct Slab], without its [list]. *)
Record Slab := mkSlab {
  page : option Z;
  using_count : Z;
  free_count : Z;
  Vaddress : Z;
  color_length : Z;
  color_count : Z;
  color_map : Z
}.

(** [struct Slab_cache]; [cache_dma_pool] is always NULL. *)
Record Slab_cache := mkCache {
  size : Z;
  total_using : Z;
  total_free : Z;
  cache_pool : Z;
  constructor : option (Z -> Z -> Z);
  destructor : option (Z -> Z -> Z)
}.

Record kmem := mkKmem {
  pm : pmm;
  slabs : gmap Z Slab;
  snodes : lists;
  maps : gmap Z (list Z);
  kmalloc_cache_size : list Slab_cache;
  slab_caches : gmap Z Slab_cache
}.

Definition sizeof_Slab : Z := 72.
Definition sizeof_Slab_cache : Z := 56.

Definition set_pm (p : pmm) (s : kmem) : kmem :=
  mkKmem p s.(slabs) s.(snodes) s.(maps) s.(kmalloc_cache_size) s.(slab_caches).
Definition set_slabs (l : gmap Z Slab) (s : kmem) : kmem :=
  mkKmem s.(pm) l s.(snodes) s.(maps) s.(kmalloc_cache_size) s.(slab_caches).
Definition set_snodes (n : lists) (s : kmem) : kmem :=
  mkKmem s.(pm) s.(slabs) n s.(maps) s.(kmalloc_cache_size) s.(slab_caches).
Definition set_maps (m : gmap Z (list Z)) (s : kmem) : kmem :=
  mkKmem s.(pm) s.(slabs) s.(snodes) m s.(kmalloc_cache_size) s.(slab_caches).
Definition set_kcaches (c : list Slab_cache) (s : kmem) : kmem :=
  mkKmem s.(pm) s.(slabs) s.(snodes) s.(maps) c s.(slab_caches).
Definition set_scaches (c : gmap Z Slab_cache) (s : kmem) : kmem :=
  mkKmem s.(pm) s.(slabs) s.(snodes) s.(maps) s.(kmalloc_cache_size) c.

(** The static initializer of [kmalloc_cache_size]. *)
Definition kmalloc_cache_size_init : list Slab_cache :=
  (fun k => mkCache (2 ^ (5 + k)) 0 0 0 None None) <$> range 0 16.

(** [slab->using_count += d; slab->free_count -= d], and the same for a cache. *)
Definition slab_use (d : Z) (b : Slab) : Slab :=
  mkSlab b.(page) (b.(using_count) .+ d) (b.(free_count) .- d) b.(Vaddress)
    b.(color_length) b.(color_count) b.(color_map).
Definition cache_use (d : Z) (c : Slab_cache) : Slab_cache :=
  mkCache c.(size) (c.(total_using) .+ d) (c.(total_free) .- d) c.(cache_pool)
    c.(constructor) c.(destructor).
Definition cache_grow (d : Z) (c : Slab_cache) : Slab_cache :=
  mkCache c.(size) c.(total_using) (c.(total_free) .+ d) c.(cache_pool)
    c.(constructor) c.(destructor).

Definition upd_slab (a : Z) (f : Slab -> Slab) (s : kmem) : option kmem :=
  b ← s.(slabs) !! a; Some (set_slabs (<[a := f b]> s.(slabs)) s).
Definition upd_kcache (i : nat) (f : Slab_cache -> Slab_cache) (s : kmem) : option kmem :=
  c ← s.(kmalloc_cache_size) !! i;
  Some (set_kcaches (<[i := f c]> s.(kmalloc_cache_size)) s).

(** [((count + 64 - 1) >> 6) << 3]. *)
Definition color_bytes (count : Z) : Z := ((count .+ 63) .>> 6) .<< 3.

(** [memset(map,0xff,length)] and the loop that clears the bits of the objects. *)
Definition fresh_map (count : Z) : option (list Z) :=
  for_each (fun i m => bm_xor m i) (range 0 count)
    (repeat all_ones (Z.to_nat (color_bytes count / 8))).

(** The [j] loop: the first clear bit, skipping full words. *)
Fixpoint find_color (fuel : nat) (m : list Z) (count j : Z) : option (option Z) :=
  match fuel with
  | O => None
  | S fuel =>
      if j <? count then
        w ← m !! Z.to_nat (j .>> 6);
        if w =? all_ones then find_color fuel m count (j + 64)
        else if (w .& (1 .<< (j `mod` 64))) =? 0 then Some (Some j)
        else find_color fuel m count (j + 1)
      else Some None
  end.

(** The [do ... while] loop of [kmalloc] over the slabs of a cache. *)
Fixpoint find_slab (fuel : nat) (s : kmem) (pool slab : Z) : option Z :=
  match fuel with
  | O => None
  | S fuel =>
      b ← s.(slabs) !! slab;
      if b.(free_count) =? 0 then
        n ← list_next slab s.(snodes);
        if n =? pool then Some n else find_slab fuel s pool n
      else Some slab
  end.

(** The first cache whose objects are large enough. *)
Fixpoint cache_index (cs : list Slab_cache) (sz : Z) (i : nat) : option nat :=
  match cs with
  | [] => None
  | c :: cs => if sz <=? c.(size) then Some i else cache_index cs sz (S i)
  end.

Definition small_size (sz : Z) : bool :=
  bool_decide (sz ∈ [32; 64; 128; 256; 512]).
Definition large_size (sz : Z) : bool :=
  bool_decide (sz ∈ [1024; 2048; 4096; 8192; 16384; 32768; 65536; 131072; 262144; 524288; 1048576]).

(** The part of [kmalloc_create] before the [switch]: the page. *)
Definition create_page (s : kmem) : option (option (Z * Z) * kmem) :=
  r ← alloc_pages ZONE_NORMAL 1 0 s.(pm);
  let '(pg, p) := r in
  match pg with
  | None => Some (None, set_pm p s)
  | Some pg =>
      r ← page_init pg PG_Kernel p;
      let p := snd r in
      d ← page_at p pg;
      Some (Some (pg, Phy_To_Virt d.(PHY_address)), set_pm p s)
  end.

(** Taking an object of slab [slab] of cache [i]: the end of [kmalloc]. *)
Definition kmalloc_take (i : nat) (slab : Z) (s : kmem) : option (Z * kmem) :=
  b ← s.(slabs) !! slab;
  m ← s.(maps) !! b.(color_map);
  r ← find_color (S (Z.to_nat b.(color_count))) m b.(color_count) 0;
  match r with
  | None => Some (0, s)
  | Some j =>
      m ← bm_or m j;
      s ← upd_slab slab (slab_use 1) (set_maps (<[b.(color_map) := m]> s.(maps)) s);
      c ← s.(kmalloc_cache_size) !! i;
      s ← upd_kcache i (cache_use 1) s;
      Some (b.(Vaddress) .+ (c.(size) .* j), s)
  end.

(** Writing a [struct Slab] at [slab], with its map, and its [list_init]. *)
Definition put_slab (slab : Z) (b : Slab) (m : list Z) (s : kmem) : kmem :=
  set_maps (<[b.(color_map) := m]> s.(maps))
    (set_snodes (list_init slab s.(snodes)) (set_slabs (<[slab := b]> s.(slabs)) s)).

(** [kmalloc_create], given the [kmalloc] it calls for the larger sizes. *)
Definition kmalloc_create_with (km : Z -> Z -> kmem -> option (Z * kmem)) (sz : Z) (s : kmem)
  : option (Z * kmem) :=
  r ← create_page s;
  let '(pg, s) := r in
  match pg with
  | None => Some (0, s)
  | Some (pg, vaddresss) =>
      if small_size sz then
        let structsize := sizeof_Slab .+ (PAGE_2M_SIZE / sz / 8) in
        let slab := vaddresss .+ PAGE_2M_SIZE .- structsize in
        let count := (PAGE_2M_SIZE .- (PAGE_2M_SIZE / sz / 8) .- sizeof_Slab) / sz in
        m ← fresh_map count;
        Some (slab, put_slab slab
          (mkSlab (Some pg) 0 count vaddresss (color_bytes count) count (slab .+ sizeof_Slab)) m s)
      else if large_size sz then
        r ← km sizeof_Slab 0 s;
        let '(slab, s) := r in
        _ ← guard_fault (negb (slab =? 0));
        let count := PAGE_2M_SIZE / sz in
        r ← km (color_bytes count) 0 s;
        let '(map, s) := r in
        _ ← guard_fault (negb (map =? 0));
        m ← fresh_map count;
        Some (slab, put_slab slab
          (mkSlab (Some pg) 0 count vaddresss (color_bytes count) count map) m s)
      else
        p ← free_pages (Some pg) 1 s.(pm);
        Some (0, set_pm p s)
  end.

(** [kmalloc] and [kmalloc_create] call each other; the fuel counts these calls. *)
Fixpoint kmalloc (fuel : nat) (sz gfp_flages : Z) (s : kmem) : option (Z * kmem) :=
  match fuel with
  | O => None
  | S fuel =>
      if 1048576 <? sz then Some (0, s)
      else
        i ← cache_index s.(kmalloc_cache_size) sz 0;
        c ← s.(kmalloc_cache_size) !! i;
        if negb (c.(total_free) =? 0) then
          slab ← find_slab (S (base.size s.(snodes))) s c.(cache_pool) c.(cache_pool);
          kmalloc_take i slab s
        else
          r ← kmalloc_create_with (kmalloc fuel) c.(size) s;
          let '(slab, s) := r in
          if slab =? 0 then Some (0, s)
          else
            b ← s.(slabs) !! slab;
            s ← upd_kcache i (cache_grow b.(color_count)) s;
            n ← list_add_to_before c.(cache_pool) slab s.(snodes);
            kmalloc_take i slab (set_snodes n s)
  end.

Definition kmalloc_create (fuel : nat) : Z -> kmem -> option (Z * kmem) :=
  kmalloc_create_with (kmalloc fuel).

(** ** kfree *)

(** The [do ... while] loop over the slabs of a cache, with the test of [kfree]. *)
Fixpoint find_owner (fuel : nat) (s : kmem) (pool slab base_address : Z) : option (option Z) :=
  match fuel with
  | O => None
  | S fuel =>
      b ← s.(slabs) !! slab;
      if b.(Vaddress) =? base_address then Some (Some slab)
      else
        n ← list_next slab s.(snodes);
        if n =? pool then Some None else find_owner fuel s pool n base_address
  end.

(** The [i] loop over the caches: the cache and the slab that own the address. *)
Fixpoint find_caches (s : kmem) (cs : list Slab_cache) (i : nat) (base_address : Z)
  : option (option (nat * Z)) :=
  match cs with
  | [] => Some None
  | c :: cs =>
      r ← find_owner (S (base.size s.(snodes))) s c.(cache_pool) c.(cache_pool) base_address;
      match r with
      | Some slab => Some (Some (i, slab))
      | None => find_caches s cs (S i) base_address
      end
  end.

(** Giving the page of a slab back: [page_clean] and [free_pages]. *)
Definition drop_page (pg : option Z) (s : kmem) : option kmem :=
  i ← pg;
  r ← page_clean i s.(pm);
  p ← free_pages pg 1 (snd r);
  Some (set_pm p s).

(** Marking object [index] of slab [slab] of cache [i] free. *)
Definition kfree_mark (i : nat) (slab index : Z) (s : kmem) : option kmem :=
  b ← s.(slabs) !! slab;
  m ← s.(maps) !! b.(color_map);
  m ← bm_xor m index;
  s ← upd_slab slab (slab_use (-1)) (set_maps (<[b.(color_map) := m]> s.(maps)) s);
  upd_kcache i (cache_use (-1)) s.

(** [kfree] calls itself for the structures of a slab it gives back. *)
Fixpoint kfree (fuel : nat) (address : Z) (s : kmem) : option (Z * kmem) :=
  match fuel with
  | O => None
  | S fuel =>
      r ← find_caches s s.(kmalloc_cache_size) 0 (address .& PAGE_2M_MASK);
      match r with
      | None => Some (0, s)
      | Some (i, slab) =>
          b ← s.(slabs) !! slab;
          c ← s.(kmalloc_cache_size) !! i;
          let index := i32 ((address .- b.(Vaddress)) / c.(size)) in
          s ← kfree_mark i slab index s;
          b ← s.(slabs) !! slab;
          c ← s.(kmalloc_cache_size) !! i;
          if (b.(using_count) =? 0) && ((b.(color_count) .* 3) / 2 <=? c.(total_free)) &&
             negb (c.(cache_pool) =? slab) then
            n ← list_del slab s.(snodes);
            s ← upd_kcache i (cache_grow (- b.(color_count))) (set_snodes n s);
            if small_size c.(size) then
              s ← drop_page b.(page) s; Some (1, s)
            else
              r ← kfree fuel b.(color_map) s;
              s ← drop_page b.(page) (snd r);
              r ← kfree fuel slab s;
              Some (1, snd r)
          else Some (1, s)
      end
  end.

(** The nesting of these calls: an object of a large cache needs its descriptor and its
    colour map from small caches, which keep theirs inside the page. *)
Definition FUEL : nat := 3.

(** ** slab_create, slab_destroy, slab_malloc, slab_free *)

Definition SIZEOF_LONG_ALIGN (sz : Z) : Z := (sz .+ 8 .- 1) .& .~ (8 .- 1).

Definition upd_scache (a : Z) (f : Slab_cache -> Slab_cache) (s : kmem) : option kmem :=
  c ← s.(slab_caches) !! a; Some (set_scaches (<[a := f c]> s.(slab_caches)) s).

(** A zeroed map of [count] bits ([memset(map,0,length)]). *)
Definition zero_map (count : Z) : list Z := repeat 0 (Z.to_nat (color_bytes count / 8)).

Definition slab_create (sz : Z) (ctor dtor : option (Z -> Z -> Z)) (arg : Z) (s : kmem)
  : option (Z * kmem) :=
  r ← kmalloc FUEL sizeof_Slab_cache 0 s;
  let '(slab_cache, s) := r in
  if slab_cache =? 0 then Some (0, s)
  else
    let csize := SIZEOF_LONG_ALIGN sz in
    r ← kmalloc FUEL sizeof_Slab 0 s;
    let '(pool, s) := r in
    if pool =? 0 then
      r ← kfree FUEL slab_cache s; Some (0, snd r)
    else
      r ← create_page s;
      let '(pg, s) := r in
      match pg with
      | None =>
          r ← kfree FUEL pool s;
          r ← kfree FUEL slab_cache (snd r);
          Some (0, snd r)
      | Some (pg, vaddr) =>
          _ ← guard_fault (negb (csize =? 0));
          let count := PAGE_2M_SIZE / csize in
          r ← kmalloc FUEL (color_bytes count) 0 s;
          let '(map, s) := r in
          if map =? 0 then
            p ← free_pages (Some pg) 1 s.(pm);
            r ← kfree FUEL pool (set_pm p s);
            r ← kfree FUEL slab_cache (snd r);
            Some (0, snd r)
          else
            let s := put_slab pool
              (mkSlab (Some pg) count count vaddr (color_bytes count) count map) (zero_map count) s in
            Some (slab_cache, set_scaches
              (<[slab_cache := mkCache csize 0 count pool ctor dtor]> s.(slab_caches)) s)
      end.

(** Giving the structures of a slab back. *)
Definition drop_slab (slab : Z) (s : kmem) : option kmem :=
  b ← s.(slabs) !! slab;
  r ← kfree FUEL b.(color_map) s;
  s ← drop_page b.(page) (snd r);
  r ← kfree FUEL slab s;
  Some (snd r).

(** The [while] loop of [slab_destroy]: the slab left last. *)
Fixpoint destroy_loop (fuel : nat) (slab_p : Z) (s : kmem) : option (Z * kmem) :=
  match fuel with
  | O => None
  | S fuel =>
      e ← list_is_empty slab_p s.(snodes);
      if e =? 0 then
        n ← list_next slab_p s.(snodes);
        d ← list_del slab_p s.(snodes);
        s ← drop_slab slab_p (set_snodes d s);
        destroy_loop fuel n s
      else Some (slab_p, s)
  end.

Definition slab_destroy (slab_cache : Z) (s : kmem) : option (Z * kmem) :=
  c ← s.(slab_caches) !! slab_cache;
  if negb (c.(total_using) =? 0) then Some (0, s)
  else
    r ← destroy_loop (S (base.size s.(snodes))) c.(cache_pool) s;
    let '(slab_p, s) := r in
    s ← drop_slab slab_p s;
    r ← kfree FUEL slab_cache s;
    Some (1, snd r).

(** The object [j] of slab [slab_p]: the body of the inner loops of [slab_malloc]. *)
Definition slab_take (slab_cache slab_p j arg : Z) (s : kmem) : option (Z * kmem) :=
  b ← s.(slabs) !! slab_p;
  m ← s.(maps) !! b.(color_map);
  m ← bm_or m j;
  s ← upd_slab slab_p (slab_use 1) (set_maps (<[b.(color_map) := m]> s.(maps)) s);
  c ← s.(slab_caches) !! slab_cache;
  s ← upd_scache slab_cache (cache_use 1) s;
  let obj := b.(Vaddress) .+ (c.(size) .* j) in
  Some (match c.(constructor) with Some f => f obj arg | None => obj end, s).

(** The inner loop over a new slab, which has no test for full words. *)
Fixpoint find_bit (fuel : nat) (m : list Z) (count j : Z) : option (option Z) :=
  match fuel with
  | O => None
  | S fuel =>
      if j <? count then
        w ← m !! Z.to_nat (j .>> 6);
        if (w .& (1 .<< (j `mod` 64))) =? 0 then Some (Some j)
        else find_bit fuel m count (j + 1)
      else Some None
  end.

(** The [do ... while] loop of [slab_malloc]: a slab with a free object, and which one. *)
Fixpoint slab_search (fuel : nat) (s : kmem) (pool slab_p : Z) : option (option (Z * Z)) :=
  match fuel with
  | O => None
  | S fuel =>
      b ← s.(slabs) !! slab_p;
      if b.(free_count) =? 0 then
        n ← list_next slab_p s.(snodes);
        if n =? pool then Some None else slab_search fuel s pool n
      else
        m ← s.(maps) !! b.(color_map);
        r ← find_color (S (Z.to_nat b.(color_count))) m b.(color_count) 0;
        match r with
        | Some j => Some (Some (slab_p, j))
        | None => if slab_p =? pool then Some None else slab_search fuel s pool slab_p
        end
  end.

Definition slab_malloc (slab_cache arg : Z) (s : kmem) : option (Z * kmem) :=
  c ← s.(slab_caches) !! slab_cache;
  if c.(total_free) =? 0 then
    r ← kmalloc FUEL sizeof_Slab 0 s;
    let '(tmp_slab, s) := r in
    if tmp_slab =? 0 then Some (0, s)
    else
      r ← create_page s;
      let '(pg, s) := r in
      match pg with
      | None => r ← kfree FUEL tmp_slab s; Some (0, snd r)
      | Some (pg, vaddr) =>
          _ ← guard_fault (negb (c.(size) =? 0));
          let count := PAGE_2M_SIZE / c.(size) in
          r ← kmalloc FUEL (color_bytes count) 0 s;
          let '(map, s) := r in
          if map =? 0 then
            p ← free_pages (Some pg) 1 s.(pm);
            r ← kfree FUEL tmp_slab (set_pm p s);
            Some (0, snd r)
          else
            let s := put_slab tmp_slab
              (mkSlab (Some pg) 0 count vaddr (color_bytes count) count map) (zero_map count) s in
            n ← list_add_to_behind c.(cache_pool) tmp_slab s.(snodes);
            s ← upd_scache slab_cache (cache_grow count) (set_snodes n s);
            r ← find_bit (S (Z.to_nat count)) (zero_map count) count 0;
            match r with
            | Some j => slab_take slab_cache tmp_slab j arg s
            | None =>
                n ← list_del tmp_slab s.(snodes);
                s ← drop_slab tmp_slab (set_snodes n s);
                Some (0, s)
            end
      end
  else
    r ← slab_search (S (base.size s.(snodes))) s c.(cache_pool) c.(cache_pool);
    match r with
    | Some (slab_p, j) => slab_take slab_cache slab_p j arg s
    | None => Some (0, s)
    end.

(** The [do ... while] loop of [slab_free]: the slab whose page holds the address. *)
Fixpoint slab_owner (fuel : nat) (s : kmem) (pool slab_p address : Z) : option (option Z) :=
  match fuel with
  | O => None
  | S fuel =>
      b ← s.(slabs) !! slab_p;
      if (b.(Vaddress) <=? address) && (address <? b.(Vaddress) .+ PAGE_2M_SIZE) then
        Some (Some slab_p)
      else
        n ← list_next slab_p s.(snodes);
        if n =? pool then Some None else slab_owner fuel s pool n address
  end.

Definition slab_free (slab_cache address arg : Z) (s : kmem) : option (Z * kmem) :=
  c ← s.(slab_caches) !! slab_cache;
  r ← slab_owner (S (base.size s.(snodes))) s c.(cache_pool) c.(cache_pool) address;
  match r with
  | None => Some (0, s)
  | Some slab_p =>
      b ← s.(slabs) !! slab_p;
      _ ← guard_fault (negb (c.(size) =? 0));
      let index := i32 ((address .- b.(Vaddress)) / c.(size)) in
      m ← s.(maps) !! b.(color_map);
      m ← bm_xor m index;
      s ← upd_slab slab_p (slab_use (-1)) (set_maps (<[b.(color_map) := m]> s.(maps)) s);
      s ← upd_scache slab_cache (cache_use (-1)) s;
      b ← s.(slabs) !! slab_p;
      c ← s.(slab_caches) !! slab_cache;
      if (b.(using_count) =? 0) && ((b.(color_count) .* 3) / 2 <=? c.(total_free)) then
        n ← list_del slab_p s.(snodes);
        s ← upd_scache slab_cache (cache_grow (- b.(color_count))) (set_snodes n s);
        s ← drop_slab slab_p s;
        Some (1, s)
      else Some (1, s)
  end.

(** ** slab_init *)

(** One iteration of the first loop: the descriptor and the map of the pool of cache [i]
    are carved from [end_of_struct]; [page] and [Vaddress] are set by the last loop. *)
Definition slab_init_cache (i : Z) (st : kmem * Z) : option (kmem * Z) :=
  let '(s, end_of_struct) := st in
  c ← s.(kmalloc_cache_size) !! Z.to_nat i;
  let pool := end_of_struct in
  let end_of_struct := end_of_struct .+ sizeof_Slab .+ 8 * 10 in
  _ ← guard_fault (negb (c.(size) =? 0));
  let count := PAGE_2M_SIZE / c.(size) in
  let map := end_of_struct in
  let end_of_struct := (end_of_struct .+ color_bytes count .+ 8 * 10) .& .~ (8 .- 1) in
  m ← fresh_map count;
  let s := put_slab pool (mkSlab None 0 count 0 (color_bytes count) count map) m s in
  Some (set_kcaches (<[Z.to_nat i := mkCache c.(size) 0 count pool c.(constructor) c.(destructor)]>
    s.(kmalloc_cache_size)) s, end_of_struct).

(** Marking a page used by the kernel: the body of the two page loops. *)
Definition slab_reserve (j : Z) (s : pmm) : option pmm :=
  p ← page_at s j;
  b ← bm_or s.(bits_map) (page_bit p);
  s ← upd_zone p.(zone_struct) (zone_account 1 (-1)) (with_bits b s);
  r ← page_init j (PG_PTable_Maped .| PG_Kernel_Init .| PG_Kernel) s;
  Some (snd r).

(** One iteration of the last loop: the 2 MB of the pool of cache [i]. *)
Definition slab_init_page (end_of_struct i : Z) (s : kmem) : option kmem :=
  let virtual := (end_of_struct .+ (PAGE_2M_SIZE .* i) .+ PAGE_2M_SIZE .- 1) .& PAGE_2M_MASK in
  let pg := Virt_To_Phy virtual .>> PAGE_2M_SHIFT in
  p ← slab_reserve pg s.(pm);
  c ← s.(kmalloc_cache_size) !! Z.to_nat i;
  upd_slab c.(cache_pool) (fun b => mkSlab (Some pg) b.(using_count) b.(free_count) virtual
    b.(color_length) b.(color_count) b.(color_map)) (set_pm p s).

Definition slab_init (end_of_struct : Z) (s : kmem) : option (kmem * Z) :=
  let tmp_address := end_of_struct in
  r ← for_each slab_init_cache (range 0 16) (s, end_of_struct);
  let '(s, end_of_struct) := r in
  p ← for_each slab_reserve
    (range (PAGE_2M_ALIGN (Virt_To_Phy tmp_address) .>> PAGE_2M_SHIFT)
       ((Virt_To_Phy end_of_struct .>> PAGE_2M_SHIFT) + 1)) s.(pm);
  s ← for_each (slab_init_page end_of_struct) (range 0 16) (set_pm p s);
  Some (s, end_of_struct).

(** ** Colour maps *)

(** The search finds the least free object, or there is none. *)
Lemma find_color_spec m count : bm_ok m -> count <= bm_bits m ->
  forall fuel j, 0 <= j -> (Z.to_nat (count - j) < fuel)%nat ->
    (j `mod` 64 = 0 \/ m !! Z.to_nat (j / 64) <> Some all_ones) ->
    (forall i, 0 <= i < j -> i < count -> bm_get m i = true) ->
    exists r, find_color fuel m count j = Some r /\
      match r with
      | Some k => 0 <= k < count /\ bm_get m k = false /\ forall i, 0 <= i < k -> bm_get m i = true
      | None => forall i, 0 <= i < count -> bm_get m i = true
      end.
Proof.
  intros Hok Hcount. unfold bm_bits in Hcount.
  induction fuel as [|fuel IH]; intros j Hj Hfuel Hal Hlow; [lia|]. cbn [find_color].
  destruct (Z.ltb_spec j count); [|exists None; split; [done|]; intros; apply Hlow; lia].
  rewrite Z.shiftr_div_pow2 by lia. change (2 ^ 6) with 64.
  pose proof (Z_div_mod_eq_full j 64). pose proof (Z.mod_pos_bound j 64). pose proof (Z.div_pos j 64).
  destruct (lookup_lt_is_Some_2 m (Z.to_nat (j / 64))) as [w Hw].
  { assert (j / 64 < Z.of_nat (length m)) by (apply Z.div_lt_upper_bound; lia). lia. }
  rewrite Hw. cbn [mbind option_bind].
  assert (forall i, 0 <= i -> i / 64 = j / 64 -> bm_get m i = Z.testbit w (i `mod` 64)) as Hbit.
  { intros i Hi E. unfold bm_get. rewrite E, Hw. done. }
  destruct (Z.eqb_spec w all_ones) as [->|Hne].
  - assert (j `mod` 64 = 0) as Hj0 by (destruct Hal; congruence).
    apply IH; [lia|lia| |].
    + left. replace (j + 64) with (j + 1 * 64) by lia. by rewrite Z_mod_plus_full.
    + intros i Hi Hic. destruct (decide (i < j)); [apply Hlow; lia|].
      assert (i / 64 = j / 64) as E by (symmetry; apply (Z.div_unique_pos _ _ _ (i - j)); lia).
      rewrite (Hbit i) by lia. change all_ones with (Z.ones 64).
      apply Z.ones_spec_low. apply Z.mod_pos_bound. lia.
  - rewrite land_bit_eqb by lia. destruct (Z.testbit w (j `mod` 64)) eqn:Hb; cbn [negb].
    + apply IH; [lia|lia| |].
      * destruct (decide ((j + 1) `mod` 64 = 0)) as [|Hm]; [by left|right].
        assert ((j + 1) / 64 = j / 64) as ->.
        { symmetry. apply (Z.div_unique_pos _ _ _ (j `mod` 64 + 1)); [|lia].
          destruct (decide (j `mod` 64 = 63)); [|lia].
          exfalso. apply Hm. replace (j + 1) with (0 + (j / 64 + 1) * 64) by lia.
          by rewrite Z_mod_plus_full. }
        rewrite Hw. congruence.
      * intros i Hi Hic. destruct (decide (i = j)) as [->|]; [by rewrite Hbit|apply Hlow; lia].
    + exists (Some j). split; [done|]. split; [lia|]. split; [by rewrite Hbit|].
      intros i Hi. apply Hlow; lia.
Qed.

Lemma color_bytes_spec count : 0 <= count < 2 ^ 60 ->
  color_bytes count = 8 * ((count + 63) / 64) /\ count <= 64 * ((count + 63) / 64) < count + 64.
Proof.
  intros. unfold color_bytes. rewrite (u64_small (count + 63)) by lia.
  rewrite Z.shiftr_div_pow2 by lia. change (2 ^ 6) with 64.
  pose proof (Z_div_mod_eq_full (count + 63) 64). pose proof (Z.mod_pos_bound (count + 63) 64).
  pose proof (Z.div_pos (count + 63) 64).
  rewrite Z.shiftl_mul_pow2 by lia. change (2 ^ 3) with 8. rewrite u64_small by lia. lia.
Qed.

Lemma fresh_words n i : 0 <= i -> bm_get (repeat all_ones n) i = (i <? bm_bits (repeat all_ones n)).
Proof.
  intros Hi. unfold bm_get, bm_bits. rewrite repeat_length.
  pose proof (Z_div_mod_eq_full i 64). pose proof (Z.mod_pos_bound i 64). pose proof (Z.div_pos i 64).
  destruct (Z.ltb_spec i (64 * Z.of_nat n)).
  - assert (repeat all_ones n !! Z.to_nat (i / 64) = Some all_ones) as ->.
    { apply lookup_repeat.
      assert (i / 64 < Z.of_nat n) by (apply Z.div_lt_upper_bound; lia). lia. }
    cbn [default from_option id]. change all_ones with (Z.ones 64). apply Z.ones_spec_low. lia.
  - assert (repeat all_ones n !! Z.to_nat (i / 64) = None) as ->.
    { apply lookup_ge_None. rewrite repeat_length.
      assert (Z.of_nat n <= i / 64) by (apply Z.div_le_lower_bound; lia). lia. }
    apply Z.testbit_0_l.
Qed.

(** The colour map of a new slab: [count] free objects, every bit after them set
    so that a search never returns an object past the end. *)
Theorem fresh_map_spec count : 0 <= count < 2 ^ 60 ->
  exists m, fresh_map count = Some m /\ bm_ok m /\ Z.of_nat (length m) = (count + 63) / 64 /\
    (forall i, 0 <= i -> bm_get m i = (count <=? i) && (i <? bm_bits m)) /\
    bm_count false m 0 count = count.
Proof.
  intros Hc. destruct (color_bytes_spec count Hc) as [Hb Hr].
  set (m0 := repeat all_ones (Z.to_nat (color_bytes count / 8))).
  assert (Z.of_nat (length m0) = (count + 63) / 64) as Hl0.
  { unfold m0. rewrite repeat_length, Hb. rewrite Z.mul_comm, Z.div_mul by lia.
    pose proof (Z.div_pos (count + 63) 64). lia. }
  destruct (for_each_total (fun i m => bm_xor m i)
    (fun d m => length m = length m0 /\ bm_ok m /\
       forall i, 0 <= i -> bm_get m i = (Z.of_nat (length d) <=? i) && (i <? bm_bits m0))
    (range 0 count) m0) as (m & Hm & Hlen & Hok & Hbits).
  - split; [done|]. split.
    + unfold bm_ok, m0. apply Forall_forall.
      intros x Hx. apply list_elem_of_In, repeat_spec in Hx as ->. unfold word64, all_ones. lia.
    + intros i Hi. unfold m0. rewrite fresh_words by done. cbn [length].
      destruct (Z.leb_spec (Z.of_nat 0) i); [done|lia].
  - intros d a r m Hd (Hlen & Hok & Hbits). apply range_split_inv in Hd as [-> Ha].
    unfold range in *. rewrite length_app, !length_seqZ in *. cbn [length] in *.
    destruct (bm_xor_some m a) as [m' Hm']; [unfold bm_bits; rewrite Hlen; lia|].
    exists m'. split; [done|]. split; [by rewrite (bm_xor_length _ _ _ Hm')|].
    split; [by eapply bm_xor_ok|].
    intros i Hi. rewrite (bm_xor_get _ _ _ i Hm') by lia. rewrite Hbits by lia.
    assert (a < bm_bits m0) by (unfold bm_bits; lia).
    replace (Z.of_nat (Z.to_nat (a - 0))) with a by lia.
    replace (Z.of_nat (Z.to_nat (a - 0) + 1)) with (a + 1) by lia.
    destruct (Z.leb_spec a i), (Z.ltb_spec i (bm_bits m0)), (Z.leb_spec (a + 1) i);
      case_bool_decide; cbn; try lia; done.
  - exists m. unfold range in Hbits. rewrite length_seqZ in Hbits.
    assert (bm_bits m = bm_bits m0) as Hbb by (unfold bm_bits; by rewrite Hlen).
    assert (forall i, 0 <= i -> bm_get m i = (count <=? i) && (i <? bm_bits m)) as Hget.
    { intros i Hi. rewrite Hbb, Hbits by done.
      by replace (Z.of_nat (Z.to_nat (count - 0))) with count by lia. }
    split_and!; [done|done|by rewrite Hlen|done|].
    rewrite bm_count_all; [lia|lia|]. intros i Hi. rewrite Hget by lia.
    destruct (Z.leb_spec count i); [lia|done].
Qed.

Lemma fresh_map_spec_witness : exists m, fresh_map 100 = Some m /\ bm_count false m 0 100 = 100.
Proof. destruct (fresh_map_spec 100) as (m & Hm & _ & _ & _ & Hc); [lia|]. exists m. auto. Defined.

(** ** The invariant of a cache *)

(** A slab and its map: the counters are the numbers of set and clear bits. *)
Record slab_inv (s : kmem) (a : Z) (b : Slab) (m : list Z) : Prop := {
  sl_slab : s.(slabs) !! a = Some b;
  sl_map : s.(maps) !! b.(color_map) = Some m;
  sl_ok : bm_ok m;
  sl_size : 0 <= b.(color_count) <= bm_bits m /\ b.(color_count) < 2 ^ 31;
  sl_free : b.(free_count) = bm_count false m 0 b.(color_count);
  sl_using : b.(using_count) = bm_count true m 0 b.(color_count)
}.

Definition free_of (s : kmem) (a : Z) : Z := from_option free_count 0 (s.(slabs) !! a).
Definition sum_free (s : kmem) (l : list Z) : Z := foldr (fun a n => free_of s a + n) 0 l.

(** Cache [i] has the descriptor [c]; its slabs are the pool and, behind it, [l]. *)
Record cache_ok (s : kmem) (i : nat) (c : Slab_cache) (l : list Z) : Prop := {
  ck_cache : s.(kmalloc_cache_size) !! i = Some c;
  ck_ring : ring s.(snodes) c.(cache_pool) l;
  ck_null : 0 ∉ c.(cache_pool) :: l;
  ck_slabs : forall a, a ∈ c.(cache_pool) :: l -> exists b m, slab_inv s a b m /\
    0 < c.(size) /\ c.(size) * b.(color_count) <= 2 ^ 21 /\
    (exists q, b.(Vaddress) = 2 ^ 21 * q) /\ 0 <= b.(Vaddress) /\ b.(Vaddress) + 2 ^ 21 < 2 ^ 64;
  ck_maps : forall a a' b b', a ∈ c.(cache_pool) :: l -> a' ∈ c.(cache_pool) :: l ->
    s.(slabs) !! a = Some b -> s.(slabs) !! a' = Some b' -> b.(color_map) = b'.(color_map) -> a = a';
  ck_free : c.(total_free) = sum_free s (c.(cache_pool) :: l);
  ck_using : 0 <= c.(total_using) /\ c.(total_using) + c.(total_free) < 2 ^ 63
}.

Lemma slab_inv_free s a b m : slab_inv s a b m ->
  0 <= b.(free_count) <= b.(color_count) /\ b.(using_count) = b.(color_count) - b.(free_count).
Proof.
  intros []. pose proof (bm_count_compl false m 0 (color_count b) ltac:(lia)) as Hc.
  pose proof (bm_count_nonneg false m 0 (color_count b)).
  pose proof (bm_count_nonneg true m 0 (color_count b)). cbn [negb] in Hc. lia.
Qed.

Lemma sum_free_nonneg s c l i : cache_ok s i c l -> forall l', (forall a, a ∈ l' -> a ∈ c.(cache_pool) :: l) ->
  0 <= sum_free s l'.
Proof.
  intros C l'. induction l' as [|a l' IH]; intros Hl; [cbn; lia|].
  change (sum_free s (a :: l')) with (free_of s a + sum_free s l').
  destruct (ck_slabs _ _ _ _ C a) as (b & m & Hb & _); [apply Hl, list_elem_of_here|].
  destruct (slab_inv_free _ _ _ _ Hb) as [? _].
  unfold free_of. rewrite (sl_slab _ _ _ _ Hb). cbn [from_option].
  specialize (IH ltac:(intros x Hx; by apply Hl, list_elem_of_further)). lia.
Qed.

Lemma ring_next_list σ h l pre a rest : 0 ∉ h :: l -> ring σ h l -> h :: l = pre ++ a :: rest ->
  list_next a σ = Some (default h (head rest)).
Proof.
  intros H0 Hr E. destruct pre as [|x pre]; cbn in E; simplify_eq.
  - by apply list_next_ring.
  - by eapply list_next_in_ring.
Qed.

(** The loop over the slabs ends at one with a free object, when the cache has one. *)
Lemma find_slab_spec s i c l : cache_ok s i c l -> forall rest fuel pre a,
  c.(cache_pool) :: l = pre ++ a :: rest -> sum_free s (a :: rest) <> 0 ->
  (length rest < fuel)%nat ->
  exists a', find_slab fuel s c.(cache_pool) a = Some a' /\ a' ∈ a :: rest /\ free_of s a' <> 0.
Proof.
  intros C. induction rest as [|y rest IH]; intros [|fuel] pre a E Hs Hf; cbn [length] in Hf; try lia;
    cbn [find_slab]; destruct (ck_slabs _ _ _ _ C a) as (b & m & Hb & _);
    try (rewrite E, elem_of_app, elem_of_cons; tauto);
    rewrite (sl_slab _ _ _ _ Hb); cbn [mbind option_bind];
    assert (free_of s a = b.(free_count)) as Ha by (unfold free_of; by rewrite (sl_slab _ _ _ _ Hb)).
  - destruct (Z.eqb_spec b.(free_count) 0).
    + exfalso. apply Hs. cbn. lia.
    + exists a. split; [done|]. split; [apply list_elem_of_here|lia].
  - destruct (Z.eqb_spec b.(free_count) 0) as [E0|E0].
    + erewrite ring_next_list; [|apply C|apply C|exact E]. cbn [mbind option_bind].
      change (default _ (head (y :: rest))) with y.
      destruct (Z.eqb_spec y c.(cache_pool)) as [->|Hne].
      * exfalso. destruct (ck_ring _ _ _ _ C) as [Hd _]. rewrite E in Hd.
        destruct pre as [|p pre]; cbn in E; simplify_eq.
        -- cbn in Hd. rewrite !NoDup_cons, !elem_of_cons in Hd. tauto.
        -- cbn in Hd. rewrite NoDup_cons, elem_of_app, !elem_of_cons in Hd. tauto.
      * destruct (IH fuel (pre ++ [a]) y) as (a' & Hfs & Hin & Hfree).
        -- rewrite E. by rewrite <- app_assoc.
        -- change (sum_free s (a :: y :: rest)) with (free_of s a + sum_free s (y :: rest)) in Hs. lia.
        -- lia.
        -- exists a'. split; [done|]. split; [by apply list_elem_of_further|done].
    + exists a. split; [done|]. split; [apply list_elem_of_here|lia].
Qed.

(** Using one more object of slab [a]: the state after, and the cache descriptor. *)
Definition used (d : Z) (i : nat) (a : Z) (b : Slab) (m : list Z) (c : Slab_cache) (s : kmem) : kmem :=
  set_kcaches (<[i := cache_use d c]> s.(kmalloc_cache_size))
    (set_slabs (<[a := slab_use d b]> s.(slabs)) (set_maps (<[b.(color_map) := m]> s.(maps)) s)).

Lemma sum_free_update s s' a d l : NoDup l -> a ∈ l ->
  free_of s' a = free_of s a + d -> (forall x, x <> a -> free_of s' x = free_of s x) ->
  sum_free s' l = sum_free s l + d.
Proof.
  intros Hd Ha He Hne. induction l as [|x l IH]; [by apply not_elem_of_nil in Ha|].
  apply NoDup_cons in Hd as [Hx Hd].
  change (sum_free s' (x :: l)) with (free_of s' x + sum_free s' l).
  change (sum_free s (x :: l)) with (free_of s x + sum_free s l).
  destruct (decide (x = a)) as [->|Hxa].
  - assert (sum_free s' l = sum_free s l) as ->; [|lia].
    clear -Hx Hne. induction l as [|y l IH]; [done|].
    change (sum_free s' (y :: l)) with (free_of s' y + sum_free s' l).
    rewrite elem_of_cons in Hx. rewrite Hne, IH by naive_solver. done.
  - apply elem_of_cons in Ha as [->|Ha]; [done|]. rewrite (Hne x) by done.
    rewrite IH by done. lia.
Qed.

(** Taking a free object, or giving a used one back, keeps the invariant of the cache. *)
Lemma used_cache_ok s i c l a b m m' d k :
  cache_ok s i c l -> a ∈ c.(cache_pool) :: l -> slab_inv s a b m ->
  (d = 1 \/ d = -1) -> 0 <= k < b.(color_count) -> bm_get m k = bool_decide (d = -1) ->
  length m' = length m -> bm_ok m' ->
  (forall j, 0 <= j -> bm_get m' j = if decide (k = j) then bool_decide (d = 1) else bm_get m j) ->
  (d = -1 -> 0 < c.(total_using)) ->
  slab_inv (used d i a b m' c s) a (slab_use d b) m' /\ cache_ok (used d i a b m' c s) i (cache_use d c) l.
Proof.
  intros C Ha Hb Hd Hk Hold Hlen Hok Hget Hpos.
  destruct (slab_inv_free _ _ _ _ Hb) as [Hfr Hus]. destruct (ck_using _ _ _ _ C) as [Hu1 Hu2].
  pose proof (sum_free_nonneg _ _ _ _ C _ (fun _ H => H)) as Hsum. rewrite <- (ck_free _ _ _ _ C) in Hsum.
  pose proof Hb as [H1 H2 H3 H4 H5 H6]. pose proof (ck_ring _ _ _ _ C) as [Hnd _].
  assert (bm_count false m' 0 b.(color_count) = b.(free_count) - d /\
          bm_count true m' 0 b.(color_count) = b.(using_count) + d) as [Hc1 Hc2].
  { assert (bm_count (bool_decide (d = -1)) m' 0 (color_count b) =
      bm_count (bool_decide (d = -1)) m 0 (color_count b) - 1) as Hflip.
    { apply (bm_count_flip _ m m' 0 _ k); [lia|done| |].
      - rewrite Hget, decide_True by (done || lia). destruct Hd as [-> | ->]; done.
      - intros j Hj Hjk. rewrite Hget, decide_False by (done || lia). done. }
    pose proof (bm_count_compl false m' 0 (color_count b) ltac:(lia)) as Hcm.
    cbn [negb] in Hcm. destruct Hd as [-> | ->].
    - change (bool_decide (1 = -1)) with false in Hflip. lia.
    - change (bool_decide (-1 = -1)) with true in Hflip. lia. }
  assert (slab_use d b = mkSlab b.(page) (b.(using_count) + d) (b.(free_count) - d) b.(Vaddress)
    b.(color_length) b.(color_count) b.(color_map)) as Hub.
  { pose proof (bm_count_nonneg false m' 0 b.(color_count)).
    pose proof (bm_count_nonneg true m' 0 b.(color_count)).
    unfold slab_use. rewrite !u64_small by lia. done. }
  assert (forall x, x <> a -> free_of (used d i a b m' c s) x = free_of s x) as Hfne.
  { intros x Hx. unfold free_of, used; cbn. by rewrite lookup_insert_ne. }
  assert (free_of (used d i a b m' c s) a = free_of s a + - d) as Hfa.
  { unfold free_of, used; cbn. rewrite lookup_insert_eq, H1, Hub. cbn. lia. }
  assert (0 <= sum_free s (c.(cache_pool) :: l) - d) as Hs2.
  { rewrite <- (ck_free _ _ _ _ C). destruct Hd as [-> | ->]; [|lia].
    assert (forall l', a ∈ l' -> (forall x, x ∈ l' -> x ∈ c.(cache_pool) :: l) ->
      free_of s a <= sum_free s l') as Hle.
    { clear -C. intros l' Hin Hsub. induction l' as [|y l' IH]; [by apply not_elem_of_nil in Hin|].
      change (sum_free s (y :: l')) with (free_of s y + sum_free s l').
      assert (0 <= sum_free s l').
      { eapply sum_free_nonneg; [done|]. intros x Hx. by apply Hsub, list_elem_of_further. }
      apply elem_of_cons in Hin as [->|Hin]; [lia|].
      specialize (IH Hin ltac:(intros x Hx; by apply Hsub, list_elem_of_further)).
      destruct (ck_slabs _ _ _ _ C y) as (by' & my & Hy & _); [apply Hsub, list_elem_of_here|].
      destruct (slab_inv_free _ _ _ _ Hy).
      assert (0 <= free_of s y) by (unfold free_of; rewrite (sl_slab _ _ _ _ Hy); cbn; lia). lia. }
    specialize (Hle _ Ha (fun _ H => H)). rewrite <- (ck_free _ _ _ _ C) in Hle.
    pose proof (bm_count_nonneg false m' 0 b.(color_count)).
    assert (1 <= free_of s a); [|lia]. unfold free_of. rewrite H1. cbn [from_option]. lia. }
  split.
  - rewrite Hub. constructor; cbn.
    + rewrite lookup_insert_eq. by rewrite Hub.
    + by rewrite lookup_insert_eq.
    + done.
    + unfold bm_bits in *. rewrite Hlen. done.
    + lia.
    + lia.
  - assert (total_free (cache_use d c) = c.(total_free) - d /\ total_using (cache_use d c) = c.(total_using) + d)
      as [Hcf Hcu].
    { rewrite <- (ck_free _ _ _ _ C) in Hs2. cbn. rewrite !u64_small; lia. }
    constructor.
    + cbn. rewrite list_lookup_insert_eq; [done|]. eapply lookup_lt_Some, C.
    + apply C.
    + apply C.
    + intros x Hx. destruct (ck_slabs _ _ _ _ C x Hx) as (bx & mx & Hix & Hgeo).
      destruct (decide (x = a)) as [->|Hxa].
      * exists (slab_use d b), m'. destruct Hix. simplify_eq. split; [|by rewrite Hub].
        rewrite Hub. constructor; cbn; [by rewrite lookup_insert_eq, Hub|by rewrite lookup_insert_eq|done| |lia|lia].
        unfold bm_bits in *. rewrite Hlen. done.
      * exists bx, mx. split; [|done]. destruct Hix. constructor; cbn; try done.
        -- by rewrite lookup_insert_ne.
        -- rewrite lookup_insert_ne; [done|]. intros Hcm. apply Hxa.
           by eapply (ck_maps _ _ _ _ C x a bx b).
    + intros x y bx b_y Hx Hy Ebx Eby Hcm. cbn in Ebx, Eby.
      assert (forall z bz, <[a := slab_use d b]> s.(slabs) !! z = Some bz ->
        exists bz', s.(slabs) !! z = Some bz' /\ bz'.(color_map) = bz.(color_map)) as Hsame.
      { intros z bz. destruct (decide (a = z)) as [<-|]; [rewrite lookup_insert_eq|rewrite lookup_insert_ne by done];
          intros; simplify_eq; eauto. }
      apply Hsame in Ebx as (bx' & Ex & Ecx). apply Hsame in Eby as (by' & Ey & Ecy).
      eapply (ck_maps _ _ _ _ C x y); eauto. congruence.
    + rewrite Hcf, (ck_free _ _ _ _ C).
      change (cache_pool (cache_use d c)) with (cache_pool c).
      rewrite (sum_free_update s (used d i a b m' c s) a (- d)); try done; lia.
    + rewrite Hcf, Hcu. destruct Hd as [-> | ->]; lia.
Qed.

Lemma cache_index_spec cs sz i0 i : cache_index cs sz i0 = Some i ->
  (i0 <= i)%nat /\ exists c, cs !! (i - i0)%nat = Some c /\ sz <= c.(size).
Proof.
  revert i0. induction cs as [|c cs IH]; intros i0 H; cbn in H; [done|].
  destruct (Z.leb_spec sz c.(size)).
  - simplify_eq. split; [done|]. exists c. by rewrite Nat.sub_diag.
  - destruct (IH _ H) as (Hle & c' & Hc' & Hs). split; [lia|]. exists c'.
    replace (i - i0)%nat with (S (i - S i0)) by lia. done.
Qed.

(** The end of [kmalloc], on a slab of the cache with a free object. *)
Lemma kmalloc_take_spec s i c l a : cache_ok s i c l -> a ∈ c.(cache_pool) :: l -> free_of s a <> 0 ->
  exists b m m' j, slab_inv s a b m /\ 0 <= j < b.(color_count) /\ bm_get m j = false /\
    (forall k, 0 <= k < j -> bm_get m k = true) /\ bm_or m j = Some m' /\
    kmalloc_take i a s = Some (b.(Vaddress) + c.(size) * j, used 1 i a b m' c s) /\
    slab_inv (used 1 i a b m' c s) a (slab_use 1 b) m' /\
    cache_ok (used 1 i a b m' c s) i (cache_use 1 c) l.
Proof.
  intros C Ha Hf. destruct (ck_slabs _ _ _ _ C a Ha) as (b & m & Hb & Hsz & Hfit & Hv & Hv0 & Hv1).
  pose proof Hb as [H1 H2 H3 H4 H5 H6].
  destruct (find_color_spec m b.(color_count) H3 ltac:(lia) (S (Z.to_nat b.(color_count))) 0)
    as (r & Hr & Hspec); [lia|lia|by left|lia|].
  destruct r as [j|].
  2: { exfalso. apply Hf. unfold free_of. rewrite H1. cbn [from_option].
       pose proof (bm_count_all true m 0 (color_count b) ltac:(lia) Hspec).
       destruct (slab_inv_free _ _ _ _ Hb). lia. }
  destruct Hspec as (Hj & Hbit & Hleast).
  destruct (bm_or_some m j) as [m' Hm']; [lia|].
  assert (slab_inv (used 1 i a b m' c s) a (slab_use 1 b) m' /\
    cache_ok (used 1 i a b m' c s) i (cache_use 1 c) l) as [Hb' C'].
  { eapply (used_cache_ok s i c l a b m m' 1 j); try done; auto.
    - by eapply bm_or_length.
    - by eapply bm_or_ok.
    - intros k Hk. rewrite (bm_or_get _ _ _ k Hm') by lia. destruct (decide (j = k)) as [->|].
      + rewrite bool_decide_eq_true_2 by done. apply orb_true_r.
      + rewrite bool_decide_eq_false_2 by done. apply orb_false_r. }
  exists b, m, m', j. split; [done|]. split; [done|]. split; [done|]. split; [done|].
  split; [done|]. split; [|done].
  unfold kmalloc_take, upd_slab, upd_kcache. rewrite H1. cbn [mbind option_bind]. rewrite H2.
  cbn [mbind option_bind]. rewrite Hr. cbn [mbind option_bind]. rewrite Hm'. cbn [mbind option_bind].
  cbn. rewrite H1. cbn. rewrite (ck_cache _ _ _ _ C). cbn.
  rewrite (u64_small (size c * j)), u64_small by nia. done.
Qed.

(** C3. [kmalloc] when its cache has a free object: it returns, without touching the
    page allocator, an object of the chosen cache that is large enough, lies
    inside the page of its slab, and was free (the first free one of the slab);
    it is now marked used and the invariant of the cache holds again with one
    object more in use. *)
Theorem kmalloc_spec s i c l fuel sz gfp : cache_ok s i c l ->
  cache_index s.(kmalloc_cache_size) sz 0 = Some i -> sz <= 1048576 -> c.(total_free) <> 0 ->
  exists a b m m' j s', kmalloc (S fuel) sz gfp s = Some (b.(Vaddress) + c.(size) * j, s') /\
    a ∈ c.(cache_pool) :: l /\ slab_inv s a b m /\ slab_inv s' a (slab_use 1 b) m' /\
    sz <= c.(size) /\ 0 <= j /\ c.(size) * j + sz <= 2 ^ 21 /\
    bm_get m j = false /\ bm_get m' j = true /\ (forall k, 0 <= k -> k <> j -> bm_get m' k = bm_get m k) /\
    cache_ok s' i (cache_use 1 c) l /\ s'.(pm) = s.(pm).
Proof.
  intros C Hi Hsz Hf. destruct (cache_index_spec _ _ _ _ Hi) as (_ & c' & Hc & Hle).
  rewrite Nat.sub_0_r, (ck_cache _ _ _ _ C) in Hc. simplify_eq.
  destruct (find_slab_spec s i c' l C l (S (base.size s.(snodes))) [] c'.(cache_pool))
    as (a & Hfs & Ha & Hfree); [done|by rewrite <- (ck_free _ _ _ _ C)| |].
  { pose proof (ring_size _ _ _ (ck_ring _ _ _ _ C)). lia. }
  destruct (kmalloc_take_spec s i c' l a C Ha Hfree) as (b & m & m' & j & Hb & Hj & Hbit & _ & Hm & E & Hb' & C').
  destruct (ck_slabs _ _ _ _ C a Ha) as (b0 & m0 & Hb0 & Hgeo).
  assert (b0 = b) as -> by (destruct Hb, Hb0; congruence).
  exists a, b, m, m', j, (used 1 i a b m' c' s). split_and!; try done; try lia.
  - cbn [kmalloc]. rewrite (proj2 (Z.ltb_ge _ _)) by lia. rewrite Hi. cbn [mbind option_bind].
    rewrite (ck_cache _ _ _ _ C). cbn [mbind option_bind].
    rewrite (proj2 (Z.eqb_neq _ _) Hf). cbn [negb]. rewrite Hfs. done.
  - nia.
  - rewrite (bm_or_get _ _ _ j Hm) by lia. rewrite bool_decide_eq_true_2 by done. apply orb_true_r.
  - intros k Hk Hne. rewrite (bm_or_get _ _ _ k Hm) by lia.
    rewrite bool_decide_eq_false_2 by congruence. apply orb_false_r.
Qed.

(** ** kfree undoes kmalloc *)

Definition vaddr (s : kmem) (a : Z) : Z := from_option Vaddress 0 (s.(slabs) !! a).

Section Owner.
Context (s : kmem) (pool : Z) (l : list Z).
Hypothesis owner_ring : ring s.(snodes) pool l.
Hypothesis owner_null : 0 ∉ pool :: l.
Hypothesis owner_slabs : forall x, x ∈ pool :: l -> is_Some (s.(slabs) !! x).

(** The search of [kfree] over one cache finds the slab with that page, if any. *)
Lemma find_owner_spec base : forall rest fuel pre x,
  pool :: l = pre ++ x :: rest -> (length rest < fuel)%nat ->
  find_owner fuel s pool x base =
    Some (List.find (fun y => vaddr s y =? base) (x :: rest)).
Proof using All.
  induction rest as [|y rest IH]; intros [|fuel] pre x E Hf; cbn [length] in Hf; try lia;
    cbn [find_owner List.find];
    (destruct (owner_slabs x) as [b Hb]; [rewrite E, elem_of_app, elem_of_cons; tauto|]);
    (assert (vaddr s x = b.(Vaddress)) as Hv by (unfold vaddr; by rewrite Hb));
    rewrite Hb, Hv; cbn [mbind option_bind]; destruct (Z.eqb_spec b.(Vaddress) base); [done| |done|].
  - erewrite ring_next_list; [|done|done|exact E]. cbn. by rewrite Z.eqb_refl.
  - erewrite ring_next_list; [|done|done|exact E]. cbn [mbind option_bind].
    change (default _ (head (y :: rest))) with y.
    destruct (Z.eqb_spec y pool) as [->|Hne].
    + exfalso. destruct owner_ring as [Hd _]. rewrite E in Hd.
      destruct pre as [|p pre]; cbn in E; simplify_eq;
        cbn in Hd; rewrite !NoDup_cons, ?elem_of_app, !elem_of_cons in Hd; tauto.
    + rewrite (IH fuel (pre ++ [x]) y); [done| |lia]. rewrite E. by rewrite <- app_assoc.
Qed.
End Owner.

(** All caches at once: their slabs are the rings, and no two slabs share a page. *)
Record kmem_ok (s : kmem) (rings : nat -> list Z) : Prop := {
  ko_cache : forall i c, s.(kmalloc_cache_size) !! i = Some c -> cache_ok s i c (rings i);
  ko_unique : forall i i' c c' a a', s.(kmalloc_cache_size) !! i = Some c ->
    s.(kmalloc_cache_size) !! i' = Some c' -> a ∈ c.(cache_pool) :: rings i ->
    a' ∈ c'.(cache_pool) :: rings i' -> vaddr s a = vaddr s a' -> i = i' /\ a = a'
}.

Lemma find_unique {A} (f : A -> bool) l x : x ∈ l -> f x = true ->
  (forall y, y ∈ l -> f y = true -> y = x) -> List.find f l = Some x.
Proof.
  induction l as [|y l IH]; intros Hx Hf Hu; [by apply not_elem_of_nil in Hx|]. cbn.
  destruct (f y) eqn:Hy.
  - rewrite (Hu y); [done|apply list_elem_of_here|done].
  - apply elem_of_cons in Hx as [->|Hx]; [congruence|].
    apply IH; [done|done|]. intros z Hz. apply Hu. by apply list_elem_of_further.
Qed.

(** The search over all caches, in a state [t] whose slabs have the same pages. *)
Lemma find_caches_spec s t rings i c a : kmem_ok s rings ->
  s.(kmalloc_cache_size) !! i = Some c -> a ∈ c.(cache_pool) :: rings i ->
  t.(snodes) = s.(snodes) -> (forall x, is_Some (s.(slabs) !! x) -> is_Some (t.(slabs) !! x)) ->
  (forall x, vaddr t x = vaddr s x) ->
  forall cs k, (forall n c', cs !! n = Some c' -> exists c0, s.(kmalloc_cache_size) !! (k + n)%nat = Some c0 /\
      cache_pool c' = cache_pool c0) ->
    (k <= i < k + length cs)%nat ->
    find_caches t cs k (vaddr s a) = Some (Some (i, a)).
Proof.
  intros K Hc Ha Hn Hs Hv. induction cs as [|c' cs IH]; intros k Hcs Hk; cbn [length] in Hk; [lia|].
  cbn [find_caches]. destruct (Hcs 0%nat c' eq_refl) as (c0 & Hc0 & Hpool).
  rewrite Nat.add_0_r in Hc0. pose proof (ko_cache _ _ K _ _ Hc0) as C0.
  rewrite Hpool. rewrite (find_owner_spec t c0.(cache_pool) (rings k) ltac:(rewrite Hn; apply C0)
    (ck_null _ _ _ _ C0)) with (rest := rings k) (pre := []).
  - cbn [mbind option_bind]. destruct (decide (k = i)) as [->|Hki].
    + simplify_eq. rewrite (find_unique _ _ a); [done|done|by rewrite Hv; apply Z.eqb_refl|].
      intros y Hy Hvy. rewrite Hv in Hvy. apply Z.eqb_eq in Hvy.
      by destruct (ko_unique _ _ K i i c c y a Hc Hc Hy Ha Hvy).
    + rewrite (proj2 (find_none_iff _ _)).
      * apply IH; [|lia]. intros n c1 Hc1. replace (S k + n)%nat with (k + S n)%nat by lia. by apply Hcs.
      * intros y Hy. apply Z.eqb_neq. rewrite Hv. intros Hvy.
        by destruct (ko_unique _ _ K k i c0 c y a Hc0 Hc Hy Ha Hvy).
  - intros x Hx. apply Hs. destruct (ck_slabs _ _ _ _ C0 x Hx) as (b & m & Hb & _).
    rewrite (sl_slab _ _ _ _ Hb). by eexists.
  - done.
  - rewrite Hn. pose proof (ring_size _ _ _ (ck_ring _ _ _ _ C0)). lia.
Qed.

Lemma used_undo s i c a b m m' : s.(kmalloc_cache_size) !! i = Some c ->
  s.(slabs) !! a = Some b -> s.(maps) !! b.(color_map) = Some m ->
  word64 b.(using_count) -> word64 b.(free_count) -> word64 c.(total_using) -> word64 c.(total_free) ->
  used (-1) i a (slab_use 1 b) m (cache_use 1 c) (used 1 i a b m' c s) = s.
Proof.
  intros Hc Hb Hm W1 W2 W3 W4.
  assert (slab_use (-1) (slab_use 1 b) = b) as E1.
  { destruct b. unfold slab_use; cbn in *. rewrite u64_add_l, u64_sub_l. f_equal;
      (rewrite u64_small; [lia|unfold word64 in *; lia]). }
  assert (cache_use (-1) (cache_use 1 c) = c) as E2.
  { destruct c. unfold cache_use; cbn in *. rewrite u64_add_l, u64_sub_l. f_equal;
      (rewrite u64_small; [lia|unfold word64 in *; lia]). }
  unfold used. rewrite E1, E2. destruct s. unfold set_kcaches, set_slabs, set_maps; cbn in *. f_equal.
  - rewrite insert_insert_eq. by apply insert_id.
  - rewrite insert_insert_eq. by apply insert_id.
  - rewrite list_insert_insert_eq. by apply list_insert_id.
Qed.

(** An object lies in the page of its slab. *)
Lemma object_page q v o : v = 2 ^ 21 * q -> 0 <= v -> v + 2 ^ 21 < 2 ^ 64 -> 0 <= o < 2 ^ 21 ->
  (v + o) .& PAGE_2M_MASK = v.
Proof.
  intros -> Hv Hv1 Ho. unfold PAGE_2M_MASK. change PAGE_2M_SIZE with (1 .<< 21).
  rewrite mask_round by (unfold word64; lia).
  replace (2 ^ 21 * q + o) with (o + q * 2 ^ 21) by lia. rewrite Z_div_plus_full by lia.
  rewrite Z.div_small; lia.
Qed.

(** The search of [kfree] after an object was taken from the slab [a]. *)
Lemma find_caches_used s rings i c a b m m' : kmem_ok s rings ->
  s.(kmalloc_cache_size) !! i = Some c -> a ∈ c.(cache_pool) :: rings i -> slab_inv s a b m ->
  let t := used 1 i a b m' c s in
  find_caches t t.(kmalloc_cache_size) 0 (vaddr s a) = Some (Some (i, a)).
Proof.
  intros K Hc Ha Hb t. apply (find_caches_spec s t rings i c a K Hc Ha); [done|..].
  - intros x [bx Hx]. unfold t, used; cbn. destruct (decide (a = x)) as [->|];
      [rewrite lookup_insert_eq|rewrite lookup_insert_ne by done]; by eexists.
  - intros x. unfold vaddr, t, used; cbn. destruct (decide (a = x)) as [->|];
      [rewrite lookup_insert_eq, (sl_slab _ _ _ _ Hb)|rewrite lookup_insert_ne by done]; done.
  - intros n c' Hn. unfold t, used in Hn; cbn in Hn. destruct (decide (i = n)) as [<-|];
      [rewrite list_lookup_insert_eq in Hn by (by eapply lookup_lt_Some)|rewrite list_lookup_insert_ne in Hn by done];
      simplify_eq; eauto.
  - unfold t, used; cbn. rewrite length_insert. apply lookup_lt_Some in Hc. lia.
Qed.

(** Marking the object free again. *)
Lemma kfree_mark_used s i c l a b m m' j : cache_ok s i c l -> a ∈ c.(cache_pool) :: l ->
  slab_inv s a b m -> 0 <= j < b.(color_count) -> bm_get m j = false -> bm_or m j = Some m' ->
  slab_inv (used 1 i a b m' c s) a (slab_use 1 b) m' ->
  cache_ok (used 1 i a b m' c s) i (cache_use 1 c) l ->
  kfree_mark i a j (used 1 i a b m' c s) = Some s.
Proof.
  intros C Ha Hb Hj Hbit Hm Hb' C'. set (t := used 1 i a b m' c s) in *.
  destruct (slab_inv_free _ _ _ _ Hb) as [Hfr Hus]. destruct (sl_size _ _ _ _ Hb) as [Hcb Hcc].
  pose proof (sum_free_nonneg _ _ _ _ C _ (fun _ H => H)) as Hsum. rewrite <- (ck_free _ _ _ _ C) in Hsum.
  destruct (ck_using _ _ _ _ C).
  unfold kfree_mark, upd_slab, upd_kcache. rewrite (sl_slab _ _ _ _ Hb'). cbn [mbind option_bind].
  rewrite (sl_map _ _ _ _ Hb'). cbn [mbind option_bind].
  rewrite (bm_or_xor m m' j) by (apply Hb || lia || done). cbn [mbind option_bind].
  change (slabs (set_maps _ t)) with (slabs t).
  rewrite (sl_slab _ _ _ _ Hb'). cbn [mbind option_bind].
  change (kmalloc_cache_size (set_slabs _ _)) with (kmalloc_cache_size t).
  rewrite (ck_cache _ _ _ _ C'). cbn [mbind option_bind]. f_equal.
  apply (used_undo s i c a b m m'); try done; try apply Hb; try apply C; unfold word64; lia.
Qed.

(** [kfree] of the object [kmalloc] just returned finds its slab among all caches,
    reports success and restores the allocator exactly (the slabs behind the
    pool being in use, so that none is given back). *)
Theorem kfree_kmalloc s rings i c fuel fuel' sz gfp : kmem_ok s rings ->
  s.(kmalloc_cache_size) !! i = Some c -> cache_index s.(kmalloc_cache_size) sz 0 = Some i ->
  sz <= 1048576 -> c.(total_free) <> 0 ->
  (forall a b, a ∈ rings i -> s.(slabs) !! a = Some b -> b.(using_count) <> 0) ->
  exists p s', kmalloc (S fuel) sz gfp s = Some (p, s') /\ kfree (S fuel') p s' = Some (1, s).
Proof.
  intros K Hc Hi Hsz Hf Hbusy. pose proof (ko_cache _ _ K _ _ Hc) as C.
  destruct (find_slab_spec s i c _ C (rings i) (S (base.size s.(snodes))) [] c.(cache_pool))
    as (a & Hfs & Ha & Hfree); [done|by rewrite <- (ck_free _ _ _ _ C)| |].
  { pose proof (ring_size _ _ _ (ck_ring _ _ _ _ C)). lia. }
  destruct (kmalloc_take_spec s i c _ a C Ha Hfree) as (b & m & m' & j & Hb & Hj & Hbit & _ & Hm & E & Hb' & C').
  destruct (ck_slabs _ _ _ _ C a Ha) as (b0 & m0 & Hb0 & Hs0 & Hfit & (q & Hq) & Hv0 & Hv1).
  assert (b0 = b) as -> by (destruct Hb, Hb0; congruence).
  set (t := used 1 i a b m' c s) in *. exists (Vaddress b + size c * j), t. split.
  { cbn [kmalloc]. rewrite (proj2 (Z.ltb_ge _ _)) by lia. rewrite Hi. cbn [mbind option_bind].
    rewrite Hc. cbn [mbind option_bind].
    rewrite (proj2 (Z.eqb_neq _ _) Hf). cbn [negb]. rewrite Hfs. done. }
  assert (0 <= size c * j < 2 ^ 21) as Hoff by nia.
  cbn [kfree]. rewrite (object_page q) by lia.
  replace (Vaddress b) with (vaddr s a) by (unfold vaddr; by rewrite (sl_slab _ _ _ _ Hb)).
  unfold t. rewrite (find_caches_used s rings i c a b m m' K Hc Ha Hb). fold t.
  cbn [mbind option_bind]. rewrite (sl_slab _ _ _ _ Hb'). cbn [mbind option_bind].
  rewrite (ck_cache _ _ _ _ C'). cbn [mbind option_bind].
  replace (vaddr s a) with (Vaddress b) by (unfold vaddr; by rewrite (sl_slab _ _ _ _ Hb)).
  assert (i32 (((Vaddress b + size c * j) .- Vaddress (slab_use 1 b)) / size (cache_use 1 c)) = j) as ->.
  { cbn. replace (Vaddress b + size c * j - Vaddress b) with (size c * j) by lia.
    rewrite u64_small by lia. rewrite Z.mul_comm, Z.div_mul by lia.
    destruct (sl_size _ _ _ _ Hb). apply i32_small. lia. }
  unfold t at 1. rewrite (kfree_mark_used s i c (rings i) a b m m' j) by done.
  cbn [mbind option_bind]. rewrite (sl_slab _ _ _ _ Hb). cbn [mbind option_bind].
  rewrite Hc. cbn [mbind option_bind]. apply elem_of_cons in Ha as [->|Ha].
  - rewrite Z.eqb_refl. cbn [negb]. by rewrite andb_false_r.
  - rewrite (proj2 (Z.eqb_neq b.(using_count) 0)); [done|]. eapply Hbusy; [done|apply Hb].
Qed.

(** A cache of 1 MB objects with one slab of two, the first in use. *)
Definition kmem_demo : kmem := mkKmem
  pmm_16M {[ 4096 := mkSlab (Some 2) 1 1 0x400000 8 2 8192 ]} {[ 4096 := mkList 4096 4096 ]}
  {[ 8192 := [2 ^ 64 - 3] ]} [mkCache 1048576 1 1 4096 None None] ∅.

Lemma kmem_demo_cache : cache_ok kmem_demo 0 (mkCache 1048576 1 1 4096 None None) [].
Proof.
  assert (forall a, a ∈ [4096] -> a = 4096) as Hone by (intros a; apply list_elem_of_singleton).
  constructor; cbn [cache_pool size total_free total_using].
  - reflexivity.
  - apply ring_empty_self. reflexivity.
  - intros H. by apply Hone in H.
  - intros a Ha. apply Hone in Ha as ->.
    exists (mkSlab (Some 2) 1 1 0x400000 8 2 8192), [2 ^ 64 - 3].
    split; [|cbn; split; [lia|]; split; [lia|]; split; [by exists 2|lia]].
    constructor; try reflexivity; [repeat constructor; unfold word64; lia|unfold bm_bits; cbn; lia].
  - intros a a' b b' Ha Ha' _ _ _. apply Hone in Ha, Ha'. congruence.
  - reflexivity.
  - lia.
Qed.

Lemma kmem_demo_ok : kmem_ok kmem_demo (fun _ => []).
Proof.
  constructor.
  - intros [|i] c Hc; cbn in Hc; [|done]. simplify_eq. apply kmem_demo_cache.
  - intros [|i] [|i'] c c' a a' Hc Hc' Ha Ha' _; cbn in Hc, Hc'; try done. simplify_eq.
    apply list_elem_of_singleton in Ha as ->. by apply list_elem_of_singleton in Ha' as ->.
Qed.

Lemma kmalloc_spec_witness : exists s',
  kmalloc 1 1000000 0 kmem_demo = Some (0x500000, s') /\ s'.(pm) = kmem_demo.(pm).
Proof.
  destruct (kmalloc_spec kmem_demo 0 (mkCache 1048576 1 1 4096 None None) [] 0 1000000 0)
    as (a & b & m & m' & j & s' & E & _ & _ & _ & _ & _ & _ & _ & _ & _ & _ & Hp);
    [exact kmem_demo_cache|reflexivity|lia|cbn; lia|].
  exists s'. split; [|exact Hp]. rewrite E.
  assert (fst <$> kmalloc 1 1000000 0 kmem_demo = Some 0x500000) as H by (vm_compute; reflexivity).
  rewrite E in H. cbn [fmap option_fmap option_map fst] in H. congruence.
Defined.

Lemma kfree_kmalloc_witness : exists p s',
  kmalloc 1 1000000 0 kmem_demo = Some (p, s') /\ kfree 1 p s' = Some (1, kmem_demo).
Proof.
  apply (kfree_kmalloc kmem_demo (fun _ => []) 0 (mkCache 1048576 1 1 4096 None None) 0 0 1000000 0);
    [exact kmem_demo_ok|reflexivity|reflexivity|lia|cbn; lia|].
  intros a b Ha. apply not_elem_of_nil in Ha. destruct Ha.
Defined.

(** The first pool of a cache made by [slab_create] starts with [using_count] equal to the
    number of its objects although none is in use, so counting objects out and
    back in never brings it to 0. *)
Example slab_create_using_count :
  let c := mkCache 128 0 8 4096 None None in
  let s := mkKmem pmm_16M {[ 4096 := mkSlab (Some 2) 0 8 0x400000 8 8 8192 ]} {[ 4096 := mkList 4096 4096 ]}
    {[ 8192 := [2 ^ 64 - 256] ]} [c] ∅ in
  (r ← slab_create 524288 None None 0 s; c ← (snd r).(slab_caches) !! fst r;
   b ← (snd r).(slabs) !! c.(cache_pool); Some (c.(total_using), b.(using_count), b.(color_count)))
  = Some (0, 4, 4).
Proof. vm_compute. reflexivity. Qed.
