(* ===== verification/Alloc.v ===== *)
(** * The heap as its users see it (memory.c)

    What [kmalloc] and [kfree] promise to the code that calls them, as a class with its laws;
    [Slab] implements the operations.  [arena], a set of addresses, satisfies the laws. *)

From S2P Require Import Prelude Slab.

(** [kmalloc(size,0)] and [kfree(address)]. *)
Class Allocator (M : Type) := {
  alloc : Z -> M -> option (Z * M);
  release : Z -> M -> option (Z * M)
}.

(** [live] is the set of objects in use.  What is allocated is fresh, or NULL; an
    allocator with room for [k] more objects does not return NULL for a size it serves, which are
    those up to 1 MB. *)
Class AllocatorLaws (M : Type) `{Allocator M} := {
  room : M -> nat -> Prop;
  live : M -> gset Z;
  alloc_live n m a m' : alloc n m = Some (a, m') ->
    a = 0 /\ live m' = live m \/ a <> 0 /\ a ∉ live m /\ live m' = {[ a ]} ∪ live m;
  alloc_room n m k : n <= 1048576 -> room m (S k) -> exists a m', alloc n m = Some (a, m') /\ a <> 0 /\ room m' k;
  release_live a m : a ∈ live m -> exists r m', release a m = Some (r, m') /\
    live m' = live m ∖ {[ a ]} /\ forall k, room m k -> room m' k;
  room_less m k : room m (S k) -> room m k
}.

#[export] Instance kmem_allocator : Allocator kmem := {|
  alloc n s := kmalloc FUEL n 0 s;
  release a s := kfree FUEL a s
|}.

(** ** A simple allocator *)

Definition arena : Type := gset Z.

#[export] Instance arena_allocator : Allocator arena := {|
  alloc n b := let a := fresh ({[ 0 ]} ∪ (b : gset Z)) in Some (a, {[ a ]} ∪ (b : gset Z));
  release a b := Some (1, (b : gset Z) ∖ {[ a ]})
|}.

#[export] Program Instance arena_laws : AllocatorLaws arena := {|
  room _ _ := True;
  live b := b
|}.
Next Obligation.
  intros n b a b' E. injection E as <- <-. right.
  pose proof (is_fresh ({[ 0 ]} ∪ (b : gset Z))) as Hf. set (a := fresh _) in *.
  split_and!; [|set_solver|done]. intros E. apply Hf. rewrite E. set_solver.
Qed.
Next Obligation.
  intros n b k _ _. eexists _, _. split_and!; [reflexivity| |done].
  pose proof (is_fresh ({[ 0 ]} ∪ (b : gset Z))) as Hf. intros E. apply Hf. rewrite E. set_solver.
Qed.
Next Obligation. intros a b _. eexists _, _. by split_and!. Qed.
Next Obligation. done. Qed.
