(* ===== verification/Bytes.v ===== *)
(** * Bytes, structures in buffers, and user memory (lib.h)

    A buffer is the list of its bytes, an access outside it a fault.  The packed
    structures of the disk formats are read and written through their offsets,
    little-endian.  Memory of a user process is a finite map from addresses to
    bytes, with the checked copies of lib.h. *)

From S2P Require Import Prelude.

(** ** Little-endian fields *)

Fixpoint le_bytes (n : nat) (v : Z) : list Z :=
  match n with
  | O => []
  | S n => v `mod` 256 :: le_bytes n (v / 256)
  end.

Fixpoint of_le (bs : list Z) : Z :=
  match bs with
  | [] => 0
  | b :: bs => b + 256 * of_le bs
  end.

(** [n] bytes at offset [off] of a buffer. *)
Definition get_bytes (off : Z) (n : nat) (buf : list Z) : option (list Z) :=
  if (0 <=? off) && (off + Z.of_nat n <=? Z.of_nat (length buf))
  then Some (take n (drop (Z.to_nat off) buf)) else None.
Definition put_bytes (off : Z) (bs buf : list Z) : option (list Z) :=
  if (0 <=? off) && (off + Z.of_nat (length bs) <=? Z.of_nat (length buf))
  then Some (take (Z.to_nat off) buf ++ bs ++ drop (Z.to_nat off + length bs) buf) else None.

Definition get_le (n : nat) (off : Z) (buf : list Z) : option Z :=
  of_le <$> get_bytes off n buf.
Definition put_le (n : nat) (off v : Z) (buf : list Z) : option (list Z) :=
  put_bytes off (le_bytes n v) buf.

Definition byte_list (l : list Z) : Prop := Forall (fun b => 0 <= b < 256) l.

#[global] Instance byte_list_dec l : Decision (byte_list l).
Proof. unfold byte_list. apply _. Defined.

Lemma le_bytes_length n v : length (le_bytes n v) = n.
Proof. revert v. induction n; intros; cbn; [done|]. by rewrite IHn. Qed.

Lemma le_bytes_bytes n v : byte_list (le_bytes n v).
Proof.
  revert v. induction n as [|n IH]; intros v; cbn; constructor.
  - apply Z.mod_pos_bound. lia.
  - apply IH.
Qed.

Lemma of_le_bytes n v : of_le (le_bytes n v) = v `mod` 256 ^ Z.of_nat n.
Proof.
  revert v. induction n as [|n IH]; intros v; cbn [le_bytes of_le].
  - by rewrite Z.mod_1_r.
  - rewrite IH, Nat2Z.inj_succ, Z.pow_succ_r by lia.
    rewrite Z.rem_mul_r by lia. done.
Qed.

Lemma of_le_range bs : byte_list bs -> 0 <= of_le bs < 256 ^ Z.of_nat (length bs).
Proof.
  induction 1 as [|b bs Hb _ IH]; cbn [of_le length]; [cbn; lia|].
  rewrite Nat2Z.inj_succ, Z.pow_succ_r by lia. lia.
Qed.

Lemma le_of_bytes bs : byte_list bs -> le_bytes (length bs) (of_le bs) = bs.
Proof.
  induction 1 as [|b bs Hb _ IH]; cbn [of_le le_bytes length]; [done|]. f_equal.
  - rewrite Z.mul_comm, Z_mod_plus_full. by apply Z.mod_small.
  - rewrite Z.mul_comm, Z_div_plus_full by lia. by rewrite Z.div_small.
Qed.

(** ** Reading what was written *)

Lemma get_bytes_some off n buf : 0 <= off -> off + Z.of_nat n <= Z.of_nat (length buf) ->
  get_bytes off n buf = Some (take n (drop (Z.to_nat off) buf)).
Proof.
  intros. unfold get_bytes. rewrite (proj2 (Z.leb_le 0 off)), (proj2 (Z.leb_le _ _)) by lia. done.
Qed.

Lemma get_bytes_length off n buf bs : get_bytes off n buf = Some bs -> length bs = n.
Proof.
  unfold get_bytes. destruct (_ && _) eqn:E; [|done]. intros; simplify_eq.
  rewrite length_take, length_drop. lia.
Qed.

Lemma put_bytes_some off bs buf : 0 <= off -> off + Z.of_nat (length bs) <= Z.of_nat (length buf) ->
  put_bytes off bs buf = Some (take (Z.to_nat off) buf ++ bs ++ drop (Z.to_nat off + length bs) buf).
Proof.
  intros. unfold put_bytes. rewrite (proj2 (Z.leb_le 0 off)), (proj2 (Z.leb_le _ _)) by lia. done.
Qed.

Lemma put_bytes_inv off bs buf buf' : put_bytes off bs buf = Some buf' ->
  0 <= off /\ off + Z.of_nat (length bs) <= Z.of_nat (length buf) /\
  buf' = take (Z.to_nat off) buf ++ bs ++ drop (Z.to_nat off + length bs) buf.
Proof. unfold put_bytes. destruct (_ && _) eqn:E; [|done]. intros; simplify_eq. split; [lia|split; [lia|done]]. Qed.

Lemma put_bytes_length off bs buf buf' : put_bytes off bs buf = Some buf' -> length buf' = length buf.
Proof.
  intros H. apply put_bytes_inv in H as (? & ? & ->).
  rewrite !length_app, length_take, length_drop. lia.
Qed.

Lemma put_bytes_lookup off bs buf buf' i : put_bytes off bs buf = Some buf' ->
  buf' !! i = if decide (off <= Z.of_nat i < off + Z.of_nat (length bs))
              then bs !! (i - Z.to_nat off)%nat else buf !! i.
Proof.
  intros H. apply put_bytes_inv in H as (? & ? & ->). case_decide.
  - rewrite lookup_app_r; rewrite length_take; [|lia].
    replace (Z.to_nat off `min` length buf)%nat with (Z.to_nat off) by lia.
    rewrite lookup_app_l by lia. done.
  - destruct (decide (i < Z.to_nat off)%nat).
    + rewrite lookup_app_l by (rewrite length_take; lia). by apply lookup_take_lt.
    + rewrite lookup_app_r; rewrite length_take; [|lia].
      replace (Z.to_nat off `min` length buf)%nat with (Z.to_nat off) by lia.
      rewrite lookup_app_r by lia. rewrite lookup_drop. f_equal. lia.
Qed.

Lemma get_bytes_lookup off n buf bs i : get_bytes off n buf = Some bs -> (i < n)%nat ->
  bs !! i = buf !! (Z.to_nat off + i)%nat.
Proof.
  unfold get_bytes. destruct (_ && _); [|done]. intros ? Hi; simplify_eq.
  rewrite lookup_take_lt by done. apply lookup_drop.
Qed.

Lemma get_put_bytes off bs buf buf' : put_bytes off bs buf = Some buf' ->
  get_bytes off (length bs) buf' = Some bs.
Proof.
  intros H. pose proof (put_bytes_length _ _ _ _ H) as Hl.
  pose proof H as (Hoff & Hfit & _)%put_bytes_inv.
  rewrite get_bytes_some by lia. f_equal. apply list_eq. intros i.
  destruct (decide (i < length bs)%nat).
  - rewrite lookup_take_lt by done. rewrite lookup_drop, (put_bytes_lookup _ _ _ _ _ H).
    rewrite decide_True by lia. f_equal. lia.
  - rewrite !lookup_ge_None_2; [done|lia|rewrite length_take; lia].
Qed.

Lemma get_put_bytes_ne off bs buf buf' off' n : put_bytes off bs buf = Some buf' ->
  off' + Z.of_nat n <= off \/ off + Z.of_nat (length bs) <= off' ->
  get_bytes off' n buf' = get_bytes off' n buf.
Proof.
  intros H Hd. pose proof (put_bytes_length _ _ _ _ H) as Hl. unfold get_bytes. rewrite Hl.
  destruct (_ && _) eqn:E; [|done]. f_equal. apply list_eq. intros i.
  destruct (decide (i < n)%nat).
  - rewrite !lookup_take_lt, !lookup_drop by done.
    rewrite (put_bytes_lookup _ _ _ _ _ H), decide_False by lia. done.
  - rewrite !lookup_take_ge by lia. done.
Qed.

Lemma get_put_le n off v buf buf' : put_le n off v buf = Some buf' ->
  get_le n off buf' = Some (v `mod` 256 ^ Z.of_nat n).
Proof.
  intros H. unfold get_le. apply get_put_bytes in H as Hg. rewrite le_bytes_length in Hg.
  rewrite Hg. cbn. by rewrite of_le_bytes.
Qed.

Lemma get_put_le_ne n off v buf buf' n' off' : put_le n off v buf = Some buf' ->
  off' + Z.of_nat n' <= off \/ off + Z.of_nat n <= off' ->
  get_le n' off' buf' = get_le n' off' buf.
Proof.
  intros H Hd. unfold get_le. erewrite get_put_bytes_ne; [done|done|]. by rewrite le_bytes_length.
Qed.

(** ** Memory *)

Abbreviation mem := (gmap Z Z).

Fixpoint mem_write (a : Z) (bs : list Z) (m : mem) : mem :=
  match bs with
  | [] => m
  | b :: bs => <[a := b]> (mem_write (a + 1) bs m)
  end.

Fixpoint mem_read (a : Z) (n : nat) (m : mem) : option (list Z) :=
  match n with
  | O => Some []
  | S n => b ← m !! a; bs ← mem_read (a + 1) n m; Some (b :: bs)
  end.

Definition TASK_SIZE : Z := 0x00007fffffffffff.

Definition verify_area (addr size : Z) : Z := if addr .+ size <=? TASK_SIZE then 1 else 0.

(** The two copies: the value returned is the counter of [rep movsb], which is 0
    when the copy is done. *)
Definition copy_from_user (from size : Z) (m : mem) : option (option (list Z) * Z) :=
  if verify_area from size =? 0 then Some (None, 0)
  else bs ← mem_read from (Z.to_nat size) m; Some (Some bs, 0).
Definition copy_to_user (bs : list Z) (to : Z) (m : mem) : mem * Z :=
  if verify_area to (Z.of_nat (length bs)) =? 0 then (m, 0) else (mem_write to bs m, 0).

(** [memcpy] to or from a kernel address, the copies to a user address. *)
Definition store_to (buf : Z) (bs : list Z) (m : mem) : mem :=
  if buf <? TASK_SIZE then fst (copy_to_user bs buf m) else mem_write buf bs m.
Definition load_from (buf size : Z) (m : mem) : option (option (list Z)) :=
  if buf <? TASK_SIZE then fst <$> copy_from_user buf size m
  else Some <$> mem_read buf (Z.to_nat size) m.

Lemma mem_write_lookup_ne a bs m x : x < a \/ a + Z.of_nat (length bs) <= x ->
  mem_write a bs m !! x = m !! x.
Proof.
  revert a. induction bs as [|b bs IH]; intros a H; cbn [mem_write]; [done|].
  cbn [length] in H. rewrite lookup_insert_ne by lia. apply IH. lia.
Qed.

Lemma mem_write_app a bs1 bs2 m :
  mem_write (a + Z.of_nat (length bs1)) bs2 (mem_write a bs1 m) = mem_write a (bs1 ++ bs2) m.
Proof.
  revert a. induction bs1 as [|b bs1 IH]; intros a; cbn [mem_write app length].
  - f_equal. lia.
  - rewrite <- IH. replace (a + Z.of_nat (S (length bs1))) with (a + 1 + Z.of_nat (length bs1)) by lia.
    generalize (mem_write (a + 1) bs1 m). intros m'.
    assert (forall c, a < c -> mem_write c bs2 (<[a := b]> m') = <[a := b]> (mem_write c bs2 m')) as Hc.
    { clear. induction bs2 as [|x bs2 IH]; intros c Hc; cbn; [done|].
      rewrite IH by lia. apply insert_insert_ne. lia. }
    apply Hc. lia.
Qed.

(** The same bytes, written from the end. *)
Lemma mem_write_cons_app a bs1 bs2 m :
  mem_write a (bs1 ++ bs2) m = mem_write a bs1 (mem_write (a + Z.of_nat (length bs1)) bs2 m).
Proof.
  revert a. induction bs1 as [|b bs1 IH]; intros a; cbn [mem_write app length].
  - f_equal. lia.
  - rewrite IH. do 3 f_equal. lia.
Qed.

Lemma mem_read_write a bs m : mem_read a (length bs) (mem_write a bs m) = Some bs.
Proof.
  assert (forall n c m' b, a < c -> mem_read c n (<[a := b]> m') = mem_read c n m') as Hne.
  { induction n as [|n IH]; intros c m' b Hc; cbn; [done|].
    rewrite lookup_insert_ne, IH by lia. done. }
  revert a Hne. induction bs as [|b bs IH]; intros a Hne; cbn; [done|].
  rewrite lookup_insert_eq. cbn. rewrite Hne by lia. rewrite IH; [done|].
  clear. intros n c m' x Hc. revert c m' Hc. induction n as [|n IHn]; intros c m' Hc; cbn; [done|].
  rewrite lookup_insert_ne, IHn by lia. done.
Qed.

Lemma mem_read_write_eq a n bs m : length bs = n -> mem_read a n (mem_write a bs m) = Some bs.
Proof. intros <-. apply mem_read_write. Qed.

Lemma mem_write_some bs m x : forall a, is_Some (m !! x) -> is_Some (mem_write a bs m !! x).
Proof.
  induction bs as [|b bs IH]; intros a Hx; cbn; [done|].
  destruct (decide (a = x)) as [->|]; [rewrite lookup_insert_eq; by eexists|].
  rewrite lookup_insert_ne by done. by apply IH.
Qed.

Lemma mem_write_inside bs m : forall a i, a <= i < a + Z.of_nat (length bs) ->
  is_Some (mem_write a bs m !! i).
Proof.
  revert m. induction bs as [|b bs IH]; intros m a i Hi; cbn [length] in *; [lia|]. cbn.
  destruct (decide (a = i)) as [->|]; [rewrite lookup_insert_eq; by eexists|].
  rewrite lookup_insert_ne by done. apply IH. lia.
Qed.

Lemma mem_read_length a n m bs : mem_read a n m = Some bs -> length bs = n.
Proof.
  revert a bs. induction n as [|n IH]; intros a bs H; cbn in H; inv_fault; [done|].
  cbn. f_equal. by eapply IH.
Qed.

(** The address check of the user copies accepts exactly the ranges that end in user
    space, as long as the end does not wrap around; a range that wraps is
    accepted although it covers kernel addresses. *)
Theorem verify_area_spec addr size : word64 addr -> word64 size ->
  (addr + size < 2 ^ 64 -> verify_area addr size = 1 <-> addr + size <= TASK_SIZE) /\
  (2 ^ 64 <= addr + size <= 2 ^ 64 + TASK_SIZE -> verify_area addr size = 1).
Proof.
  unfold word64, verify_area. intros Ha Hs. split; intros H.
  - rewrite u64_small by lia. destruct (Z.leb_spec (addr + size) TASK_SIZE); split; (done || lia).
  - assert (addr .+ size = addr + size - 2 ^ 64) as ->.
    { unfold u64. symmetry. apply (Z.mod_unique_pos _ _ 1); unfold TASK_SIZE in *; lia. }
    destruct (Z.leb_spec (addr + size - 2 ^ 64) TASK_SIZE); [done|lia].
Qed.

Lemma verify_area_spec_witness : verify_area 0xffffffffffffff00 0x200 = 1.
Proof.
  apply (verify_area_spec 0xffffffffffffff00 0x200); unfold word64, TASK_SIZE; lia.
Defined.

(** ** Ports

    Bytes out and in, and the blocks of words of [port_outsw] and [port_insw]: what a device
    does with them is up to the instance. *)
Class Ports (P : Type) := {
  io_out8 : Z -> Z -> P -> P;
  io_in8 : Z -> P -> Z * P;
  port_outsw : Z -> list Z -> P -> P;
  port_insw : Z -> nat -> P -> list Z * P
}.
