(* ===== verification/Errno.v ===== *)
(** * Error numbers, open flags and seek origins (sys.h) *)

From S2P Require Import Prelude.

Definition EAGAIN : Z := 6.
Definition EBADF : Z := 8.
Definition ECHILD : Z := 12.
Definition EFAULT : Z := 21.
Definition EINVAL : Z := 28.
Definition EIO : Z := 29.
Definition EISDIR : Z := 31.
Definition EMFILE : Z := 33.
Definition ENAMETOOLONG : Z := 37.
Definition ENOENT : Z := 45.
Definition ENOMEM : Z := 49.
Definition ENOSPC : Z := 52.
Definition ENOSYS : Z := 55.
Definition ENOTDIR : Z := 57.
Definition EOVERFLOW : Z := 65.
Definition EPERM : Z := 67.

Definition O_RDONLY : Z := 0.
Definition O_WRONLY : Z := 1.
Definition O_RDWR : Z := 2.
Definition O_TRUNC : Z := 512.
Definition O_APPEND : Z := 1024.
Definition O_DIRECTORY : Z := 16384.

Definition SEEK_SET : Z := 0.
Definition SEEK_CUR : Z := 1.
Definition SEEK_END : Z := 2.
Definition SEEK_MAX : Z := 3.
