(* ===== verification/Fat32.v ===== *)
(** * The FAT32 file system (fat32.h, fat32.c, the partition table of VFS.h)

    The disk is reached through [IDE_device_operation.transfer] only; what a disk
    promises is the class [BlockDevice], against which everything here is proved.
    [FAT32_read], [FAT32_write], [FAT32_lookup] and the others are functions of the
    descriptors they use ([FAT32_sb_info], [index_node] with its [FAT32_inode_info]),
    of the disk and of memory.  Their scratch buffers are local lists: allocation
    (whose result the code does not test) and release are not part of the model. *)

From S2P Require Import Prelude Bytes Errno.

(** ** The disk

    [dev_read s n d] is [transfer(ATA_READ_CMD,s,n,buffer)]: the bytes that arrive in
    [buffer], or [None] when it returns 0; [dev_write s n bs d] likewise. *)
Class BlockDevice (D : Type) := {
  dev_read : Z -> Z -> D -> option (list Z);
  dev_write : Z -> Z -> list Z -> D -> option D
}.

Class BlockDeviceLaws (D : Type) `{BlockDevice D} : Prop := {
  dev_read_length s n d bs : 0 <= n -> dev_read s n d = Some bs -> Z.of_nat (length bs) = 512 * n;
  dev_read_bytes s n d bs : dev_read s n d = Some bs -> byte_list bs;
  dev_read_write s n bs d d' : 0 <= n -> Z.of_nat (length bs) = 512 * n -> byte_list bs ->
    dev_write s n bs d = Some d' -> dev_read s n d' = Some bs;
  dev_read_write_ne s n bs d d' s' n' : 0 <= n -> 0 <= n' -> Z.of_nat (length bs) = 512 * n ->
    dev_write s n bs d = Some d' ->
    s' + n' <= s \/ s + n <= s' -> dev_read s' n' d' = dev_read s' n' d
}.

(** ** Descriptors *)

Record FAT32_sb_info := mkSbInfo {
  start_sector : Z;
  sector_count : Z;
  sector_per_cluster : Z;
  bytes_per_cluster : Z;
  bytes_per_sector : Z;
  Data_firstsector : Z;
  FAT1_firstsector : Z;
  sector_per_FAT : Z;
  NumFATs : Z;
  fsinfo_sector_infat : Z;
  bootsector_bk_infat : Z;
  fat_fsinfo : list Z
}.

Record FAT32_inode_info := mkInodeInfo {
  first_cluster : Z;
  dentry_location : Z;
  dentry_position : Z;
  create_date : Z;
  create_time : Z;
  write_date : Z;
  write_time : Z
}.

(** [struct index_node], with what [private_index_info] points to. *)
Record index_node := mkInode {
  file_size : Z;
  blocks : Z;
  attribute : Z;
  private_index_info : FAT32_inode_info
}.

Definition FS_ATTR_FILE : Z := 1.
Definition FS_ATTR_DIR : Z := 2.
Definition FS_ATTR_DEVICE : Z := 4.

Definition ATTR_LONG_NAME : Z := 15.
Definition ATTR_DIRECTORY : Z := 16.
Definition LOWERCASE_BASE : Z := 8.
Definition LOWERCASE_EXT : Z := 16.

Section Fat32.
Context {D : Type} `{BlockDevice D}.

(** A zeroed buffer of [size] bytes after a read whose result is not tested. *)
Definition fetch (s n : Z) (size : nat) (d : D) : list Z :=
  default (repeat 0 size) (dev_read s n d).

(** ** The file allocation table *)

Definition DISK1_FAT32_read_FAT_Entry (fsbi : FAT32_sb_info) (fat_entry : Z) (d : D) : option Z :=
  let fat_entry := u32 fat_entry in
  let buf := fetch (fsbi.(FAT1_firstsector) .+ (fat_entry .>> 7)) 1 512 d in
  w ← get_le 4 (4 * (fat_entry .& 0x7f)) buf;
  Some (w .& 0x0fffffff).

Definition DISK1_FAT32_write_FAT_Entry (fsbi : FAT32_sb_info) (fat_entry value : Z) (d : D)
  : option (Z * D) :=
  let fat_entry := u32 fat_entry in
  let buf := fetch (fsbi.(FAT1_firstsector) .+ (fat_entry .>> 7)) 1 512 d in
  w ← get_le 4 (4 * (fat_entry .& 0x7f)) buf;
  buf ← put_le 4 (4 * (fat_entry .& 0x7f))
    ((w .& 0xf0000000) .| (u32 value .& 0x0fffffff)) buf;
  d ← for_each (fun i d => Some (default d
        (dev_write (fsbi.(FAT1_firstsector) .+ (fsbi.(sector_per_FAT) .* i) .+ (fat_entry .>> 7)) 1 buf d)))
      (range 0 fsbi.(NumFATs)) d;
  Some (1, d).

(** The [j] loop over one sector of the table. *)
Definition free_in_sector (buf : list Z) : option Z :=
  List.find (fun j => match get_le 4 (4 * j) buf with
                      | Some w => (w .& 0x0fffffff) =? 0
                      | None => false
                      end) (range 0 128).

(** The [i] loop over the sectors of the table. *)
Fixpoint find_cluster (fsbi : FAT32_sb_info) (d : D) (sectors : list Z) : Z :=
  match sectors with
  | [] => 0
  | i :: sectors =>
      match free_in_sector (fetch (fsbi.(FAT1_firstsector) .+ i) 1 512 d) with
      | Some j => u64 (i32 (Z.shiftl i 7 + j))
      | None => find_cluster fsbi d sectors
      end
  end.

Definition FAT32_find_available_cluster (fsbi : FAT32_sb_info) (d : D) : Z :=
  find_cluster fsbi d (range 0 fsbi.(sector_per_FAT)).

(** [fsbi->Data_firstsector + (cluster - 2) * fsbi->sector_per_cluster]. *)
Definition cluster_sector (fsbi : FAT32_sb_info) (cluster : Z) : Z :=
  fsbi.(Data_firstsector) .+ ((cluster .- 2) .* fsbi.(sector_per_cluster)).

(** [for(i = 0;i < index;i++) cluster = DISK1_FAT32_read_FAT_Entry(fsbi,cluster)]. *)
Definition walk_chain (fsbi : FAT32_sb_info) (index cluster : Z) (d : D) : option Z :=
  for_each (fun _ c => DISK1_FAT32_read_FAT_Entry fsbi c d) (range 0 index) cluster.

(** ** FAT32_read *)

(** The [do ... while] loop: the value of [retval], what is left of [index], the
    position and memory. *)
Fixpoint read_loop (fuel : nat) (fsbi : FAT32_sb_info) (d : D)
    (cluster index offset buf position : Z) (m : mem) : option (Z * Z * Z * mem) :=
  match fuel with
  | O => None
  | S fuel =>
      match dev_read (cluster_sector fsbi cluster) fsbi.(sector_per_cluster) d with
      | None => Some (- EIO, index, position, m)
      | Some buffer =>
          let length := if index <=? fsbi.(bytes_per_cluster) - offset
                        then index else fsbi.(bytes_per_cluster) - offset in
          _ ← guard_fault (0 <=? length);
          bs ← get_bytes offset (Z.to_nat length) buffer;
          let m := store_to buf bs m in
          let index := index - length in
          if index =? 0 then Some (0, index, i64 (position + length), m)
          else
            cluster ← DISK1_FAT32_read_FAT_Entry fsbi cluster d;
            if cluster =? 0 then Some (0, index, i64 (position + length), m)
            else read_loop fuel fsbi d cluster index 0 (buf .+ length) (i64 (position + length)) m
      end
  end.

Definition FAT32_read (fsbi : FAT32_sb_info) (inode : index_node) (buf count position : Z)
    (d : D) (m : mem) : option (Z * Z * mem) :=
  let cluster := inode.(private_index_info).(first_cluster) in
  _ ← guard_fault (negb (fsbi.(bytes_per_cluster) =? 0));
  let index := i32 (Z.quot position fsbi.(bytes_per_cluster)) in
  let offset := Z.rem position fsbi.(bytes_per_cluster) in
  if cluster =? 0 then Some (- EFAULT, position, m)
  else
    cluster ← walk_chain fsbi index cluster d;
    let count := if inode.(file_size) <? u64 (position + count)
                 then u64 (inode.(file_size) - position) else count in
    let index := i32 count in
    r ← read_loop (S (Z.to_nat index)) fsbi d cluster index offset buf position m;
    let '(retval, index, position, m) := r in
    Some (if index =? 0 then i64 count else retval, position, m).

(** ** write_inode *)

Definition fat32_write_inode (fsbi : FAT32_sb_info) (inode : index_node) (d : D) : option D :=
  let finode := inode.(private_index_info) in
  if finode.(dentry_location) =? 0 then Some d
  else
    let sector := cluster_sector fsbi finode.(dentry_location) in
    let buf := fetch sector fsbi.(sector_per_cluster) (Z.to_nat fsbi.(bytes_per_cluster)) d in
    let e := 32 * finode.(dentry_position) in
    buf ← put_le 4 (e + 28) inode.(file_size) buf;
    buf ← put_le 2 (e + 26) (finode.(first_cluster) .& 0xffff) buf;
    hi ← get_le 2 (e + 20) buf;
    buf ← put_le 2 (e + 20) ((hi .& 0xf000) .| (finode.(first_cluster) .>> 16)) buf;
    Some (default d (dev_write sector fsbi.(sector_per_cluster) buf d)).

Definition set_first_cluster (c : Z) (inode : index_node) : index_node :=
  let f := inode.(private_index_info) in
  mkInode inode.(file_size) inode.(blocks) inode.(attribute)
    (mkInodeInfo c f.(dentry_location) f.(dentry_position) f.(create_date) f.(create_time)
       f.(write_date) f.(write_time)).
Definition set_file_size (n : Z) (inode : index_node) : index_node :=
  mkInode n inode.(blocks) inode.(attribute) inode.(private_index_info).

(** ** FAT32_write *)

(** The local variables of the [do ... while] loop, the disk and the position. *)
Record wstate := mkW {
  w_disk : D; w_cluster : Z; w_sector : Z; w_flags : bool; w_index : Z; w_offset : Z;
  w_buf : Z; w_position : Z; w_buffer : list Z
}.

(** How the loop ends: [return -ENOSPC], or leaving it with a [retval]. *)
Inductive wresult :=
  | Wreturn (st : wstate)
  | Wexit (retval : Z) (st : wstate).

(** Copying [length] bytes of the user into the buffer (nothing when the address
    check of the user copy fails). *)
Definition fill_buffer (buf length offset : Z) (buffer : list Z) (m : mem) : option (list Z) :=
  r ← load_from buf length m;
  match r with
  | Some bs => put_bytes offset bs buffer
  | None => Some buffer
  end.

Fixpoint write_loop (fuel : nat) (fsbi : FAT32_sb_info) (m : mem) (st : wstate) : option wresult :=
  match fuel with
  | O => None
  | S fuel =>
      let '(mkW d cluster sector flags index offset buf position buffer) := st in
      let sector := if flags then sector else cluster_sector fsbi cluster in
      match (if flags then Some buffer else dev_read sector fsbi.(sector_per_cluster) d) with
      | None => Some (Wexit (- EIO) st)
      | Some buffer =>
          let length := if index <=? fsbi.(bytes_per_cluster) - offset
                        then index else fsbi.(bytes_per_cluster) - offset in
          _ ← guard_fault (0 <=? length);
          buffer ← fill_buffer buf length offset buffer m;
          match dev_write sector fsbi.(sector_per_cluster) buffer d with
          | None => Some (Wexit (- EIO)
              (mkW d cluster sector flags index offset buf position buffer))
          | Some d =>
              let st := mkW d cluster sector flags (index - length) 0 (buf .+ length)
                          (i64 (position + length)) buffer in
              if index - length =? 0 then Some (Wexit 0 st)
              else
                next_cluster ← DISK1_FAT32_read_FAT_Entry fsbi cluster d;
                if 0x0ffffff8 <=? next_cluster then
                  let next_cluster := FAT32_find_available_cluster fsbi d in
                  if next_cluster =? 0 then Some (Wreturn st)
                  else
                    r ← DISK1_FAT32_write_FAT_Entry fsbi cluster next_cluster d;
                    r ← DISK1_FAT32_write_FAT_Entry fsbi next_cluster 0x0ffffff8 (snd r);
                    write_loop fuel fsbi m
                      (mkW (snd r) next_cluster sector true (index - length) 0 (buf .+ length)
                         (i64 (position + length)) buffer)
                else write_loop fuel fsbi m st
          end
      end
  end.

(** [junk] is what the fresh buffer contains. *)
Definition FAT32_write (fsbi : FAT32_sb_info) (inode : index_node) (buf count position : Z)
    (junk : list Z) (d : D) (m : mem) : option (Z * Z * index_node * D) :=
  let first := inode.(private_index_info).(first_cluster) in
  _ ← guard_fault (negb (fsbi.(bytes_per_cluster) =? 0));
  let index := i32 (Z.quot position fsbi.(bytes_per_cluster)) in
  let offset := Z.rem position fsbi.(bytes_per_cluster) in
  let flags := first =? 0 in
  cluster ← (if flags then Some (FAT32_find_available_cluster fsbi d)
             else walk_chain fsbi index first d);
  if cluster =? 0 then Some (- ENOSPC, position, inode, d)
  else
    r ← (if flags then
           let inode := set_first_cluster cluster inode in
           d ← fat32_write_inode fsbi inode d;
           r ← DISK1_FAT32_write_FAT_Entry fsbi cluster 0x0ffffff8 d;
           Some (inode, snd r)
         else Some (inode, d));
    let '(inode, d) := r in
    let index := i32 count in
    r ← write_loop (S (Z.to_nat index)) fsbi m (mkW d cluster 0 flags index offset buf position junk);
    match r with
    | Wreturn st => Some (- ENOSPC, st.(w_position), inode, st.(w_disk))
    | Wexit retval st =>
        r ← (if inode.(file_size) <? u64 st.(w_position) then
               let inode := set_file_size (u64 st.(w_position)) inode in
               d ← fat32_write_inode fsbi inode st.(w_disk);
               Some (inode, d)
             else Some (inode, st.(w_disk)));
        let '(inode, d) := r in
        Some (if st.(w_index) =? 0 then i64 count else retval, st.(w_position), inode, d)
    end.

(** ** FAT32_lseek, open and close *)

Definition FAT32_open : Z := 1.
Definition FAT32_close : Z := 1.

(** The value returned and the new position. *)
Definition FAT32_lseek (inode : index_node) (position offset origin : Z) : Z * Z :=
  let go pos :=
    if (pos <? 0) || (inode.(file_size) <? u64 pos) then (- EOVERFLOW, position) else (pos, pos) in
  if origin =? SEEK_SET then go offset
  else if origin =? SEEK_CUR then go (i64 (position + offset))
  else if origin =? SEEK_END then go (i64 (inode.(file_size) + offset))
  else (- EINVAL, position).

(** ** Directory entries

    A directory cluster is searched in a buffer whose bytes are preceded by what
    lies before it in memory ([before]): the code looks at the entry before the one
    it examines, also for the first one.  Offsets count from the cluster. *)

Record dirbuf := mkDirbuf { before : list Z; cluster_bytes : list Z }.

Definition rd (n : nat) (off : Z) (b : dirbuf) : option Z :=
  get_le n (Z.of_nat (length b.(before)) + off) (b.(before) ++ b.(cluster_bytes)).

Definition DIR_Name (x e : Z) : dirbuf -> option Z := rd 1 (e + x).
Definition DIR_Attr (e : Z) : dirbuf -> option Z := rd 1 (e + 11).
Definition DIR_NTRes (e : Z) : dirbuf -> option Z := rd 1 (e + 12).
Definition LDIR_Ord (e : Z) : dirbuf -> option Z := rd 1 e.
Definition LDIR_Attr (e : Z) : dirbuf -> option Z := rd 1 (e + 11).

(** The offsets of [LDIR_Name1], [LDIR_Name2] and [LDIR_Name3], in the order of the loops. *)
Definition ldir_name_offsets : list Z :=
  [1; 3; 5; 7; 9; 14; 16; 18; 20; 22; 24; 28; 30].

(** A name being looked up: the bytes of the object it is stored in, and its length. *)
Record qname := mkQname { name : list Z; name_length : Z }.

Definition name_at (q : qname) (j : Z) : option Z :=
  c ← (if j <? 0 then None else q.(name) !! Z.to_nat j); Some (i8 c).

(** The entry is neither a long name nor free: the two [continue]s at the top of the
    loops over a cluster. *)
Definition entry_skipped (e : Z) (b : dirbuf) : option bool :=
  attr ← DIR_Attr e b;
  c ← DIR_Name 0 e b;
  Some ((attr =? ATTR_LONG_NAME) || (c =? 0xe5) || (c =? 0x00) || (c =? 0x05)).

(** ** FAT32_lookup *)

(** The three loops over the characters of one long entry: [None] is the jump to
    [continue_cmp_fail], otherwise the new [j]. *)
Fixpoint cmp_long_chars (q : qname) (e : Z) (b : dirbuf) (offs : list Z) (j : Z) : option (option Z) :=
  match offs with
  | [] => Some (Some j)
  | o :: offs =>
      c ← rd 2 (e + o) b;
      if (q.(name_length) <? j) && (c =? 0xffff) then cmp_long_chars q e b offs j
      else if q.(name_length) <? j then Some None
      else
        n ← name_at q j;
        if c =? u16 n then cmp_long_chars q e b offs (j + 1) else Some None
  end.

(** The [while] loop over the long entries: [Some true] is a match, [Some false] a
    mismatch, [None] the end of the long entries without either. *)
Fixpoint cmp_long (fuel : nat) (q : qname) (e : Z) (b : dirbuf) (j : Z) : option (option bool) :=
  match fuel with
  | O => None
  | S fuel =>
      attr ← LDIR_Attr e b;
      ord ← LDIR_Ord e b;
      if (attr =? ATTR_LONG_NAME) && negb (ord =? 0xe5) then
        r ← cmp_long_chars q e b ldir_name_offsets j;
        match r with
        | None => Some (Some false)
        | Some j => if q.(name_length) <=? j then Some (Some true) else cmp_long fuel q (e - 32) b j
        end
      else Some None
  end.

Definition is_letter (c : Z) : bool :=
  ((65 <=? c) && (c <=? 90)) || ((97 <=? c) && (c <=? 122)).
Definition is_digit (c : Z) : bool := (48 <=? c) && (c <=? 57).

(** One character of the base name: the new [j], or a mismatch. *)
Definition cmp_base_char (q : qname) (isdir lower : bool) (c j : Z) : option (option Z) :=
  let matches (c : Z) :=
    if j <? q.(name_length) then n ← name_at q j; Some (if c =? n then Some (j + 1) else None)
    else Some None in
  if c =? 32 then
    if negb isdir then
      n ← name_at q j;
      Some (if n =? 46 then Some j else if c =? n then Some (j + 1) else None)
    else if j <? q.(name_length) then
      n ← name_at q j;
      Some (if c =? n then Some (j + 1) else None)
    else Some (if j =? q.(name_length) then Some j else None)
  else if is_letter c then matches (if lower then c + 32 else c)
  else if is_digit c then matches c
  else Some (Some (j + 1)).

(** One character of the extension. *)
Definition cmp_ext_char (q : qname) (lower : bool) (c j : Z) : option (option Z) :=
  if is_letter c then
    n ← name_at q j; Some (if (if lower then c + 32 else c) =? n then Some (j + 1) else None)
  else if is_digit c || (c =? 32) then
    n ← name_at q j; Some (if c =? n then Some (j + 1) else None)
  else Some None.

Fixpoint cmp_chars (f : Z -> Z -> option (option Z)) (e : Z) (b : dirbuf) (xs : list Z) (j : Z)
  : option (option Z) :=
  match xs with
  | [] => Some (Some j)
  | x :: xs =>
      c ← DIR_Name x e b;
      r ← f c j;
      match r with
      | Some j => cmp_chars f e b xs j
      | None => Some None
      end
  end.

(** The comparison with the short name. *)
Definition cmp_short (q : qname) (e : Z) (b : dirbuf) : option bool :=
  attr ← DIR_Attr e b;
  ntres ← DIR_NTRes e b;
  let isdir := negb (attr .& ATTR_DIRECTORY =? 0) in
  r ← cmp_chars (cmp_base_char q isdir (negb (ntres .& LOWERCASE_BASE =? 0))) e b (range 0 8) 0;
  match r with
  | None => Some false
  | Some j =>
      if isdir then Some true
      else
        r ← cmp_chars (cmp_ext_char q (negb (ntres .& LOWERCASE_EXT =? 0))) e b (range 8 11) (j + 1);
        Some (match r with Some _ => true | None => false end)
  end.

Definition entry_matches (q : qname) (e : Z) (b : dirbuf) : option bool :=
  skip ← entry_skipped e b;
  if (skip : bool) then Some false
  else
    r ← cmp_long (S (Z.to_nat ((Z.of_nat (length b.(before)) + e) / 32))) q (e - 32) b 0;
    match r with
    | Some res => Some res
    | None => cmp_short q e b
    end.

(** The [i] loop over the entries of one cluster. *)
Fixpoint lookup_entries (q : qname) (b : dirbuf) (es : list Z) : option (option Z) :=
  match es with
  | [] => Some None
  | e :: es =>
      r ← entry_matches q e b;
      if (r : bool) then Some (Some e) else lookup_entries q b es
  end.

Definition entry_offsets (fsbi : FAT32_sb_info) (lo : Z) : list Z :=
  (fun k => lo + 32 * k) <$> range 0 ((fsbi.(bytes_per_cluster) - lo + 31) / 32).

(** The [next_cluster] loop: the cluster and the offset of the entry found. *)
Fixpoint lookup_loop (fuel : nat) (fsbi : FAT32_sb_info) (q : qname) (before : list Z) (d : D) (cluster : Z)
  : option (option (Z * Z * dirbuf)) :=
  match fuel with
  | O => None
  | S fuel =>
      match dev_read (cluster_sector fsbi cluster) fsbi.(sector_per_cluster) d with
      | None => Some None
      | Some bs =>
          let b := mkDirbuf before bs in
          r ← lookup_entries q b (entry_offsets fsbi 0);
          match r with
          | Some e => Some (Some (cluster, e, b))
          | None =>
              cluster ← DISK1_FAT32_read_FAT_Entry fsbi cluster d;
              if cluster <? 0x0ffffff7 then lookup_loop fuel fsbi q before d cluster
              else Some None
          end
      end
  end.

(** The index node built for the entry found. *)
Definition entry_inode (fsbi : FAT32_sb_info) (cluster e : Z) (b : dirbuf) : option index_node :=
  size ← rd 4 (e + 28) b;
  attr ← DIR_Attr e b;
  hi ← rd 2 (e + 20) b;
  lo ← rd 2 (e + 26) b;
  crttime ← rd 2 (e + 14) b;
  crtdate ← rd 2 (e + 16) b;
  wrttime ← rd 2 (e + 22) b;
  wrtdate ← rd 2 (e + 24) b;
  _ ← guard_fault (negb (fsbi.(bytes_per_sector) =? 0));
  let a := if negb (attr .& ATTR_DIRECTORY =? 0) then FS_ATTR_DIR else FS_ATTR_FILE in
  Some (mkInode size ((size .+ fsbi.(bytes_per_cluster) .- 1) / fsbi.(bytes_per_sector))
    (if negb (hi .>> 12 =? 0) && negb (a .& FS_ATTR_FILE =? 0) then a .| FS_ATTR_DEVICE else a)
    (mkInodeInfo ((Z.shiftl hi 16 .| lo) .& 0x0fffffff) cluster (e / 32)
       crttime crtdate wrttime wrtdate)).

Definition FAT32_lookup (fuel : nat) (fsbi : FAT32_sb_info) (parent_inode : index_node) (q : qname)
    (before : list Z) (d : D) : option (option index_node) :=
  r ← lookup_loop fuel fsbi q before d (u32 parent_inode.(private_index_info).(first_cluster));
  match r with
  | None => Some None
  | Some (cluster, e, b) => i ← entry_inode fsbi cluster e b; Some (Some i)
  end.

(** ** FAT32_readdir *)

(** The long entries that precede [e]: their number. *)
Fixpoint count_long (fuel : nat) (e : Z) (b : dirbuf) (j : Z) : option Z :=
  match fuel with
  | O => None
  | S fuel =>
      attr ← LDIR_Attr e b;
      ord ← LDIR_Ord e b;
      if (attr =? ATTR_LONG_NAME) && negb (ord =? 0xe5) && negb (ord =? 0) && negb (ord =? 5) then
        if negb (ord .& 0x40 =? 0) then Some (j + 1) else count_long fuel (e - 32) b (j + 1)
      else Some j
  end.

(** The characters of one long entry. *)
Fixpoint long_chars (e : Z) (b : dirbuf) (offs : list Z) : option (list Z) :=
  match offs with
  | [] => Some []
  | o :: offs =>
      c ← rd 2 (e + o) b;
      cs ← long_chars e b offs;
      Some (if negb (c =? 0xffff) && negb (c =? 0) then u8 c :: cs else cs)
  end.

Fixpoint long_name (e : Z) (b : dirbuf) (n : nat) : option (list Z) :=
  match n with
  | O => Some []
  | S n =>
      cs ← long_chars e b ldir_name_offsets;
      rest ← long_name (e - 32) b n;
      Some (cs ++ rest)
  end.

(** The characters [DIR_Name[x]] up to the first space. *)
Fixpoint short_chars (lower : bool) (e : Z) (b : dirbuf) (xs : list Z) : option (list Z) :=
  match xs with
  | [] => Some []
  | x :: xs =>
      c ← DIR_Name x e b;
      if c =? 32 then Some []
      else cs ← short_chars lower e b xs; Some (u8 (if lower then c + 32 else c) :: cs)
  end.

Definition short_name (e : Z) (b : dirbuf) : option (list Z) :=
  attr ← DIR_Attr e b;
  ntres ← DIR_NTRes e b;
  base ← short_chars (negb (ntres .& LOWERCASE_BASE =? 0)) e b (range 0 8);
  if negb (attr .& ATTR_DIRECTORY =? 0) then Some base
  else
    ext ← short_chars (negb (ntres .& LOWERCASE_EXT =? 0)) e b (range 8 11);
    Some (match ext with [] => base | _ => base ++ 46 :: ext end).

Definition entry_name (e : Z) (b : dirbuf) : option (list Z) :=
  attr ← LDIR_Attr (e - 32) b;
  ord ← LDIR_Ord (e - 32) b;
  if (attr =? ATTR_LONG_NAME) && negb (ord =? 0xe5) && negb (ord =? 0) && negb (ord =? 5) then
    n ← count_long (S (Z.to_nat ((Z.of_nat (length b.(before)) + e) / 32))) (e - 32) b 0;
    long_name (e - 32) b (Z.to_nat n)
  else short_name e b.

(** The [i] loop: the name found, and the position. *)
Fixpoint readdir_entries (b : dirbuf) (es : list Z) (position : Z) : option (option (list Z) * Z) :=
  match es with
  | [] => Some (None, position)
  | e :: es =>
      skip ← entry_skipped e b;
      if (skip : bool) then readdir_entries b es (position + 32)
      else n ← entry_name e b; Some (Some n, position)
  end.

Fixpoint readdir_loop (fuel : nat) (fsbi : FAT32_sb_info) (before : list Z) (d : D)
    (cluster position : Z) : option (option (list Z) * Z) :=
  match fuel with
  | O => None
  | S fuel =>
      match dev_read (cluster_sector fsbi cluster) fsbi.(sector_per_cluster) d with
      | None => Some (None, position)
      | Some bs =>
          r ← readdir_entries (mkDirbuf before bs)
            (entry_offsets fsbi (Z.rem position fsbi.(bytes_per_cluster))) position;
          match r with
          | (Some n, position) => Some (Some n, position + 32)
          | (None, position) =>
              cluster ← DISK1_FAT32_read_FAT_Entry fsbi cluster d;
              if cluster <? 0x0ffffff7 then readdir_loop fuel fsbi before d cluster position
              else Some (None, position)
          end
      end
  end.

(** The clusters before the one [position] lies in; [None] inside is the early return. *)
Fixpoint readdir_seek (fsbi : FAT32_sb_info) (d : D) (n : nat) (cluster : Z) : option (option Z) :=
  match n with
  | O => Some (Some cluster)
  | S n =>
      cluster ← DISK1_FAT32_read_FAT_Entry fsbi cluster d;
      if 0x0ffffff7 <? cluster then Some None else readdir_seek fsbi d n cluster
  end.

(** The value returned by [filler(dirent,name,namelen,0,0)], or 0, and the position;
    [filler] also updates memory. *)
Definition FAT32_readdir {M : Type} (fuel : nat) (fsbi : FAT32_sb_info) (inode : index_node)
    (before : list Z) (filler : list Z -> Z -> M -> Z * M) (position : Z) (d : D) (m : M)
  : option (Z * Z * M) :=
  _ ← guard_fault (negb (fsbi.(bytes_per_cluster) =? 0));
  c ← readdir_seek fsbi d (Z.to_nat (i32 (Z.quot position fsbi.(bytes_per_cluster))))
        (u32 inode.(private_index_info).(first_cluster));
  match c with
  | None => Some (0, position, m)
  | Some cluster =>
      r ← readdir_loop fuel fsbi before d cluster position;
      match r with
      | (Some n, position) => let '(v, m) := filler n (Z.of_nat (length n)) m in Some (v, position, m)
      | (None, position) => Some (0, position, m)
      end
  end.

(** ** Mounting *)

(** [struct Disk_Partition_Table_Entry]. *)
Record Disk_Partition_Table_Entry := mkDPTE {
  DPTE_flags : Z; DPTE_type : Z; start_LBA : Z; sectors_limit : Z
}.

Definition DPTE_at (k : Z) (mbr : list Z) : option Disk_Partition_Table_Entry :=
  let o := 446 + 16 * k in
  f ← get_le 1 o mbr;
  t ← get_le 1 (o + 4) mbr;
  s ← get_le 4 (o + 8) mbr;
  n ← get_le 4 (o + 12) mbr;
  Some (mkDPTE f t s n).

(** [struct super_block] with its [private_sb_info] and the inode of its root. *)
Record super_block := mkSuper { private_sb_info : FAT32_sb_info; root_inode : index_node }.

Definition fat32_read_superblock (DPTE : Disk_Partition_Table_Entry) (buf : list Z) (d : D)
  : option super_block :=
  bps ← get_le 2 11 buf;
  spc ← get_le 1 13 buf;
  rsvd ← get_le 2 14 buf;
  nfats ← get_le 1 16 buf;
  fatsz ← get_le 4 36 buf;
  rootclus ← get_le 4 44 buf;
  fsinfo ← get_le 2 48 buf;
  bkboot ← get_le 2 50 buf;
  let fsbi := mkSbInfo DPTE.(start_LBA) DPTE.(sectors_limit) spc (spc * bps) bps
    (u32 (u32 (DPTE.(start_LBA) + rsvd) + u32 (fatsz * nfats)))
    (u32 (DPTE.(start_LBA) + rsvd)) fatsz nfats fsinfo bkboot
    (fetch (u32 (DPTE.(start_LBA) + fsinfo)) 1 512 d) in
  _ ← guard_fault (negb (bps =? 0));
  Some (mkSuper fsbi (mkInode 0 ((0 .+ fsbi.(bytes_per_cluster) .- 1) / fsbi.(bytes_per_sector))
    FS_ATTR_DIR (mkInodeInfo rootclus 0 0 0 0 0 0))).

(** ** Properties, for a disk that keeps its promises *)

Context {HL : BlockDeviceLaws D}.

(** The geometry of a file allocation table. *)
Record fat_ok (fsbi : FAT32_sb_info) : Prop := {
  fo_start : 0 <= fsbi.(FAT1_firstsector);
  fo_spf : 0 < fsbi.(sector_per_FAT) < 2 ^ 24;
  fo_nfats : 1 <= fsbi.(NumFATs);
  fo_end : fsbi.(FAT1_firstsector) + fsbi.(sector_per_FAT) * fsbi.(NumFATs) < 2 ^ 32
}.

(** The disk accepts transfers to the sectors of the table. *)
Definition fat_present (fsbi : FAT32_sb_info) : Prop := forall s d,
  fsbi.(FAT1_firstsector) <= s < fsbi.(FAT1_firstsector) + fsbi.(sector_per_FAT) * fsbi.(NumFATs) ->
  is_Some (dev_read s 1 d) /\ forall bs, length bs = 512%nat -> is_Some (dev_write s 1 bs d).

Lemma byte_list_repeat n : byte_list (repeat 0 n).
Proof using Type. induction n; cbn; constructor; [lia|done]. Qed.

Lemma fetch_length s n d size : 0 <= n -> Z.of_nat size = 512 * n -> length (fetch s n size d) = size.
Proof using HL.
  intros Hn Hs. unfold fetch. destruct (dev_read s n d) as [bs|] eqn:E; cbn.
  - apply dev_read_length in E; [|done]. lia.
  - apply repeat_length.
Qed.

Lemma fetch_bytes s n d size : byte_list (fetch s n size d).
Proof using HL.
  unfold fetch. destruct (dev_read s n d) as [bs|] eqn:E; cbn;
    [by eapply dev_read_bytes|apply byte_list_repeat].
Qed.

Lemma get_le_some n off buf : 0 <= off -> off + Z.of_nat n <= Z.of_nat (length buf) ->
  byte_list buf -> exists v, get_le n off buf = Some v /\ 0 <= v < 256 ^ Z.of_nat n.
Proof using Type.
  intros. unfold get_le. rewrite get_bytes_some by done. cbn. eexists; split; [done|].
  set (bs := take n (drop (Z.to_nat off) buf)).
  assert (length bs = n) as Hl by (unfold bs; rewrite length_take, length_drop; lia).
  replace (Z.of_nat n) with (Z.of_nat (length bs)) by lia. apply of_le_range. unfold byte_list. by apply Forall_take, Forall_drop.
Qed.

Lemma land_7f e : 0 <= e -> e .& 0x7f = e `mod` 128.
Proof using Type. intros. change 0x7f with (Z.ones 7). by rewrite Z.land_ones by lia. Qed.

Lemma mask28 w : (w .& 0x0fffffff) = w `mod` 2 ^ 28.
Proof using Type. change 0x0fffffff with (Z.ones 28). by rewrite Z.land_ones by lia. Qed.

(** Masking out the four reserved bits and keeping them, on one table word. *)
Lemma fat_word w v : 0 <= w < 2 ^ 32 ->
  0 <= (w .& 0xf0000000) .| (v .& 0x0fffffff) < 2 ^ 32 /\
  ((w .& 0xf0000000) .| (v .& 0x0fffffff)) .& 0x0fffffff = v .& 0x0fffffff.
Proof using Type.
  intros Hw.
  assert (0 <= (w .& 0xf0000000) .| (v .& 0x0fffffff)) as H0.
  { apply Z.lor_nonneg. rewrite mask28. split; [apply Z.land_nonneg; lia|apply Z.mod_pos_bound; lia]. }
  split.
  - split; [done|]. apply (Z.bounded_iff_bits_nonneg' 32); [lia|done|].
    intros i Hi. rewrite Z.lor_spec, !Z.land_spec.
    change 0x0fffffff with (Z.ones 28). rewrite (Z.ones_spec_high 28) by lia.
    rewrite (proj1 (Z.bounded_iff_bits_nonneg' 32 w ltac:(lia) ltac:(lia)) ltac:(lia) i Hi). by rewrite andb_false_r.
  - apply Z.bits_inj'. intros i Hi. rewrite !Z.land_spec, Z.lor_spec, !Z.land_spec.
    change 0x0fffffff with (Z.ones 28). change 0xf0000000 with (Z.shiftl (Z.ones 4) 28).
    destruct (decide (i < 28)).
    + rewrite (Z.ones_spec_low 28) by lia. rewrite Z.shiftl_spec_low by lia.
      by rewrite !andb_false_r, !andb_true_r.
    + rewrite (Z.ones_spec_high 28) by lia. by rewrite !andb_false_r.
Qed.

Section FatEntry.
Context (fsbi : FAT32_sb_info) (Hok : fat_ok fsbi) (Hp : fat_present fsbi).
Notation F1 := fsbi.(FAT1_firstsector).
Notation spf := fsbi.(sector_per_FAT).

(** The sector of copy [i] of the table that holds entry [e]. *)
Definition fat_sector (i e : Z) : Z := F1 + spf * i + e / 128.

Lemma fat_sector_eq i e : 0 <= i < fsbi.(NumFATs) -> 0 <= e < 128 * spf ->
  F1 .+ (spf .* i) .+ (e .>> 7) = fat_sector i e /\
  F1 <= fat_sector i e < F1 + spf * fsbi.(NumFATs) /\
  F1 + spf * i <= fat_sector i e < F1 + spf * (i + 1).
Proof using Hok.
  intros Hi He. destruct Hok. unfold fat_sector. rewrite Z.shiftr_div_pow2 by lia. change (2 ^ 7) with 128.
  pose proof (Z.div_pos e 128). assert (e / 128 < spf) by (apply Z.div_lt_upper_bound; lia).
  assert (0 <= spf * i /\ spf * i + spf <= spf * fsbi.(NumFATs)) by nia.
  rewrite (u64_small (spf * i)), (u64_small (F1 + spf * i)), u64_small by lia. nia.
Qed.

Lemma fat_sector0 e : 0 <= e < 128 * spf -> F1 .+ (e .>> 7) = fat_sector 0 e.
Proof using Hok.
  intros He. destruct (fat_sector_eq 0 e) as (E & Hr & _); [destruct Hok; lia|done|].
  rewrite <- E, Z.mul_0_r. change (u64 0) with 0. by rewrite Z.add_0_r, u64_add_l.
Qed.

Lemma fat_entry_u32 e : 0 <= e < 128 * spf -> u32 e = e.
Proof using Hok. intros. destruct Hok. apply u32_small. lia. Qed.

Lemma fat_off e : 0 <= e -> 0 <= 4 * (e .& 0x7f) /\ 4 * (e .& 0x7f) + 4 <= 512 /\
  4 * (e .& 0x7f) = 4 * (e `mod` 128).
Proof using Type. intros. rewrite land_7f by done. pose proof (Z.mod_pos_bound e 128). lia. Qed.

(** What [DISK1_FAT32_read_FAT_Entry] reads. *)
Lemma read_FAT_Entry_spec e d : 0 <= e < 128 * spf ->
  exists w, get_le 4 (4 * (e `mod` 128)) (fetch (fat_sector 0 e) 1 512 d) = Some w /\
    0 <= w < 2 ^ 32 /\ DISK1_FAT32_read_FAT_Entry fsbi e d = Some (w .& 0x0fffffff).
Proof using All.
  intros He. destruct (fat_off e) as (H0 & H1 & H2); [lia|].
  destruct (get_le_some 4 (4 * (e `mod` 128)) (fetch (fat_sector 0 e) 1 512 d)) as (w & Hw & Hr).
  - lia.
  - rewrite fetch_length by lia. lia.
  - apply fetch_bytes.
  - exists w. split; [done|]. split; [done|]. unfold DISK1_FAT32_read_FAT_Entry.
    by rewrite fat_entry_u32, fat_sector0, H2, Hw by done.
Qed.

(** The loop that writes a sector to all copies of the table. *)
Lemma write_copies e buf d : 0 <= e < 128 * spf -> length buf = 512%nat -> byte_list buf ->
  exists d', for_each (fun i d => Some (default d
      (dev_write (F1 .+ (spf .* i) .+ (e .>> 7)) 1 buf d))) (range 0 fsbi.(NumFATs)) d = Some d' /\
    (forall i, 0 <= i < fsbi.(NumFATs) -> dev_read (fat_sector i e) 1 d' = Some buf) /\
    (forall s n, 0 <= n -> (forall i, 0 <= i < fsbi.(NumFATs) ->
        s + n <= fat_sector i e \/ fat_sector i e + 1 <= s) -> dev_read s n d' = dev_read s n d).
Proof using All.
  intros He Hl Hb.
  destruct (for_each_total (fun i d => Some (default d
      (dev_write (F1 .+ (spf .* i) .+ (e .>> 7)) 1 buf d)))
    (fun done d' => (forall i, i ∈ done -> dev_read (fat_sector i e) 1 d' = Some buf) /\
      (forall s n, 0 <= n -> (forall i, i ∈ done ->
        s + n <= fat_sector i e \/ fat_sector i e + 1 <= s) -> dev_read s n d' = dev_read s n d))
    (range 0 fsbi.(NumFATs)) d) as (d' & Hd & H1 & H2).
  - split; [|done]. intros i Hi. by apply not_elem_of_nil in Hi.
  - intros pre i r d1 Hr [I1 I2]. apply range_split_inv in Hr as [-> Hi].
    destruct (fat_sector_eq i e) as (E & Hin & Hio); [lia|done|].
    destruct (Hp (fat_sector i e) d1) as [_ Hw]; [lia|]. destruct (Hw buf Hl) as [d2 Hd2].
    exists d2. rewrite E, Hd2. split; [done|]. split.
    + intros j Hj. apply elem_of_app in Hj as [Hj|Hj].
      * rewrite (dev_read_write_ne (fat_sector i e) 1 buf d1 d2 (fat_sector j e) 1 ltac:(lia) ltac:(lia) ltac:(lia) Hd2);
          [by apply I1|].
        apply in_range in Hj. destruct (fat_sector_eq j e) as (_ & _ & Hjo); [lia|done|].
        destruct Hok. left. nia.
      * apply list_elem_of_singleton in Hj as ->.
        eapply dev_read_write; [..|exact Hd2]; [lia|lia|done].
    + intros s n Hn Hs.
      rewrite (dev_read_write_ne (fat_sector i e) 1 buf d1 d2 s n ltac:(lia) ltac:(lia) ltac:(lia) Hd2).
      * apply I2; [done|]. intros j Hj. apply Hs. apply elem_of_app. by left.
      * destruct (Hs i); [|by left|right; lia]. apply elem_of_app. right. apply list_elem_of_here.
  - exists d'. split; [done|]. split.
    + intros i Hi. apply H1. by apply in_range.
    + intros s n Hn Hs. apply H2; [done|]. intros i Hi. apply Hs. by apply in_range.
Qed.

(** C31. Writing a table entry and reading it back gives the value, truncated to 28 bits;
    every other entry of the table reads as before, all copies of the table hold
    the same sector, the reserved bits are kept, and nothing outside the
    table changes. *)
Theorem FAT_Entry_write_read e v d : 0 <= e < 128 * spf ->
  exists d', DISK1_FAT32_write_FAT_Entry fsbi e v d = Some (1, d') /\
    DISK1_FAT32_read_FAT_Entry fsbi e d' = Some (u32 v `mod` 2 ^ 28) /\
    (forall e', 0 <= e' < 128 * spf -> e' <> e ->
      DISK1_FAT32_read_FAT_Entry fsbi e' d' = DISK1_FAT32_read_FAT_Entry fsbi e' d) /\
    (forall i, 0 <= i < fsbi.(NumFATs) ->
      dev_read (fat_sector i e) 1 d' = dev_read (fat_sector 0 e) 1 d') /\
    (forall s n, 0 <= n -> s + n <= F1 \/ F1 + spf * fsbi.(NumFATs) <= s ->
      dev_read s n d' = dev_read s n d).
Proof using All.
  intros He. destruct (fat_off e) as (H0 & H1 & H2); [lia|].
  destruct (read_FAT_Entry_spec e d He) as (w & Hw & Hwr & _).
  set (buf := fetch (fat_sector 0 e) 1 512 d) in *.
  assert (length buf = 512%nat) as Hlen by (by apply fetch_length).
  set (x := (w .& 0xf0000000) .| (u32 v .& 0x0fffffff)).
  destruct (fat_word w (u32 v) Hwr) as [Hx Hxm]. fold x in Hx, Hxm.
  destruct (put_le 4 (4 * (e `mod` 128)) x buf) as [buf'|] eqn:Hput.
  2: { unfold put_le in Hput. rewrite put_bytes_some in Hput; [done|lia|].
       rewrite le_bytes_length, Hlen. lia. }
  assert (length buf' = 512%nat) as Hlen' by (unfold put_le in Hput; by rewrite (put_bytes_length _ _ _ _ Hput)).
  assert (byte_list buf') as Hb'.
  { unfold put_le in Hput. apply put_bytes_inv in Hput as (_ & _ & ->). unfold byte_list.
    apply Forall_app; split; [apply Forall_take, fetch_bytes|].
    apply Forall_app; split; [apply le_bytes_bytes|apply Forall_drop, fetch_bytes]. }
  destruct (write_copies e buf' d He Hlen' Hb') as (d' & Hd & Hsame & Hother).
  exists d'. split.
  { unfold DISK1_FAT32_write_FAT_Entry. rewrite fat_entry_u32, fat_sector0, H2 by done.
    fold buf. rewrite Hw. cbn [mbind option_bind]. fold x. rewrite Hput. cbn [mbind option_bind].
    by rewrite Hd. }
  assert (0 <= 0 < fsbi.(NumFATs)) as Hn0 by (destruct Hok; lia).
  split_and!.
  - destruct (read_FAT_Entry_spec e d' He) as (w' & Hw' & _ & ->).
    unfold fetch in Hw'. rewrite (Hsame 0 Hn0) in Hw'. cbn [default from_option id] in Hw'.
    rewrite (get_put_le _ _ _ _ _ Hput), Z.mod_small in Hw' by (cbn; lia).
    injection Hw' as <-. by rewrite Hxm, mask28.
  - intros e' He' Hne.
    destruct (read_FAT_Entry_spec e' d' He') as (w' & Hw' & _ & ->).
    destruct (read_FAT_Entry_spec e' d He') as (w0 & Hw0 & _ & ->). f_equal. f_equal.
    destruct (decide (e' / 128 = e / 128)) as [Hq|Hq].
    + assert (fat_sector 0 e' = fat_sector 0 e) as Hs by (unfold fat_sector; by rewrite Hq).
      unfold fetch in Hw'. rewrite Hs, (Hsame 0 Hn0) in Hw'. rewrite Hs in Hw0. fold buf in Hw0.
      cbn [default from_option id] in Hw'.
      rewrite (get_put_le_ne _ _ _ _ _ 4 _ Hput) in Hw'; [congruence|].
      pose proof (Z_div_mod_eq_full e' 128). pose proof (Z_div_mod_eq_full e 128). lia.
    + unfold fetch in Hw', Hw0. rewrite Hother in Hw'; [congruence|lia|].
      intros i Hi. destruct (fat_sector_eq i e) as (_ & _ & Hio); [done|done|].
      destruct (fat_sector_eq 0 e') as (_ & _ & H0o); [done|done|].
      destruct (decide (i = 0)) as [->|]; [unfold fat_sector in *; lia|].
      left. destruct Hok. nia.
  - intros i Hi. by rewrite !Hsame.
  - intros s n Hn Hs. apply Hother; [done|]. intros i Hi.
    destruct (fat_sector_eq i e) as (_ & Hr & _); [done|done|]. lia.
Qed.

(** The search of one sector, in terms of table entries. *)
Lemma free_in_sector_spec i d : 0 <= i < spf ->
  match free_in_sector (fetch (F1 .+ i) 1 512 d) with
  | Some j => 0 <= j < 128 /\ DISK1_FAT32_read_FAT_Entry fsbi (128 * i + j) d = Some 0 /\
      forall k, 0 <= k < j -> DISK1_FAT32_read_FAT_Entry fsbi (128 * i + k) d <> Some 0
  | None => forall k, 0 <= k < 128 -> DISK1_FAT32_read_FAT_Entry fsbi (128 * i + k) d <> Some 0
  end.
Proof using All.
  intros Hi.
  assert (forall k, 0 <= k < 128 -> exists w, get_le 4 (4 * k) (fetch (F1 .+ i) 1 512 d) = Some w /\
    DISK1_FAT32_read_FAT_Entry fsbi (128 * i + k) d = Some (w .& 0x0fffffff)) as Hread.
  { intros k Hk. destruct (read_FAT_Entry_spec (128 * i + k) d) as (w & Hw & _ & Hr); [lia|].
    exists w. split; [|done]. rewrite <- Hw. f_equal; [|f_equal].
    - f_equal. replace (128 * i + k) with (k + i * 128) by lia. rewrite Z_mod_plus_full. by rewrite Z.mod_small.
    - unfold fat_sector. replace (128 * i + k) with (k + i * 128) by lia.
      rewrite Z_div_plus_full, Z.div_small by lia. destruct Hok.
      rewrite u64_small; [lia|]. nia. }
  unfold free_in_sector. destruct (List.find _ _) as [j|] eqn:E.
  - apply find_range_some in E as (Hj & Hf & Hbefore). split; [done|]. split.
    + destruct (Hread j Hj) as (w & Hw & ->). rewrite Hw in Hf. apply Z.eqb_eq in Hf. by rewrite Hf.
    + intros k Hk. specialize (Hbefore k Hk). destruct (Hread k ltac:(lia)) as (w & Hw & ->).
      rewrite Hw in Hbefore. apply Z.eqb_neq in Hbefore. congruence.
  - intros k Hk. pose proof (proj1 (find_none_iff _ _) E k) as Hf.
    rewrite in_range in Hf. specialize (Hf Hk). destruct (Hread k Hk) as (w & Hw & ->).
    cbn in Hf. rewrite Hw in Hf. apply Z.eqb_neq in Hf. congruence.
Qed.

(** [FAT32_find_available_cluster] returns the least entry of the table that is free,
    or 0 when there is none (or when the reserved entry 0 itself is free). *)
Theorem find_available_cluster_spec d :
  let c := FAT32_find_available_cluster fsbi d in
  (0 <= c < 128 * spf /\ DISK1_FAT32_read_FAT_Entry fsbi c d = Some 0 /\
    forall e, 0 <= e < c -> DISK1_FAT32_read_FAT_Entry fsbi e d <> Some 0) \/
  (c = 0 /\ forall e, 0 <= e < 128 * spf -> DISK1_FAT32_read_FAT_Entry fsbi e d <> Some 0).
Proof using All.
  cbv zeta. unfold FAT32_find_available_cluster.
  assert (forall n i, 0 <= i -> spf - i = Z.of_nat n ->
    (forall e, 0 <= e < 128 * i -> DISK1_FAT32_read_FAT_Entry fsbi e d <> Some 0) ->
    let c := find_cluster fsbi d (range i spf) in
    (0 <= c < 128 * spf /\ DISK1_FAT32_read_FAT_Entry fsbi c d = Some 0 /\
      forall e, 0 <= e < c -> DISK1_FAT32_read_FAT_Entry fsbi e d <> Some 0) \/
    (c = 0 /\ forall e, 0 <= e < 128 * spf -> DISK1_FAT32_read_FAT_Entry fsbi e d <> Some 0)) as Hgen.
  { induction n as [|n IH]; intros i Hi Hn Hlow; cbv zeta.
    - rewrite range_nil by lia. right. split; [done|]. intros e He. apply Hlow. lia.
    - rewrite range_cons by lia. cbn [find_cluster].
      pose proof (free_in_sector_spec i d ltac:(lia)) as Hs.
      destruct (free_in_sector _) as [j|].
      + destruct Hs as (Hj & Hr & Hmin). left. rewrite Z.shiftl_mul_pow2 by lia.
        replace (i * 2 ^ 7 + j) with (128 * i + j) by lia.
        destruct Hok. rewrite i32_small, u64_small by lia. split; [lia|]. split; [done|].
        intros e He. destruct (decide (e < 128 * i)); [apply Hlow; lia|].
        specialize (Hmin (e - 128 * i) ltac:(lia)). by replace (128 * i + (e - 128 * i)) with e in Hmin by lia.
      + apply IH; [lia|lia|]. intros e He. destruct (decide (e < 128 * i)); [apply Hlow; lia|].
        specialize (Hs (e - 128 * i) ltac:(lia)). by replace (128 * i + (e - 128 * i)) with e in Hs by lia. }
  apply (Hgen (Z.to_nat spf) 0); [lia|destruct Hok; lia|lia].
Qed.
End FatEntry.

(** ** Reading a file

    The clusters of a file, in order, and the bytes they hold. *)

Definition cluster_data (fsbi : FAT32_sb_info) (d : D) (c : Z) : option (list Z) :=
  dev_read (cluster_sector fsbi c) fsbi.(sector_per_cluster) d.

Fixpoint file_content (fsbi : FAT32_sb_info) (d : D) (cs : list Z) : option (list Z) :=
  match cs with
  | [] => Some []
  | c :: cs => bs ← cluster_data fsbi d c; rest ← file_content fsbi d cs; Some (bs ++ rest)
  end.

Fixpoint linked_clusters (fsbi : FAT32_sb_info) (d : D) (cs : list Z) : Prop :=
  match cs with
  | c :: ((c' :: _) as cs') =>
      DISK1_FAT32_read_FAT_Entry fsbi c d = Some c' /\ c' <> 0 /\ linked_clusters fsbi d cs'
  | _ => True
  end.

Lemma walk_chain_spec fsbi d cs n c : linked_clusters fsbi d (c :: cs) ->
  0 <= n <= Z.of_nat (length cs) ->
  exists c' cs', walk_chain fsbi n c d = Some c' /\ drop (Z.to_nat n) (c :: cs) = c' :: cs' /\
    linked_clusters fsbi d (c' :: cs').
Proof using Type.
  unfold walk_chain. intros Hl Hn.
  assert (forall k lo c cs, linked_clusters fsbi d (c :: cs) -> (k <= length cs)%nat ->
    exists c' cs', for_each (fun _ c => DISK1_FAT32_read_FAT_Entry fsbi c d) (range lo (lo + Z.of_nat k)) c = Some c' /\
      drop k (c :: cs) = c' :: cs' /\ linked_clusters fsbi d (c' :: cs')) as Hgen.
  { induction k as [|k IH]; intros lo c0 cs0 Hl0 Hk.
    - rewrite range_nil by lia. exists c0, cs0. done.
    - destruct cs0 as [|c1 cs0]; cbn [length] in Hk; [lia|]. destruct Hl0 as (H1 & _ & Hl1).
      rewrite range_cons by lia. cbn [for_each]. rewrite H1. cbn [mbind option_bind].
      destruct (IH (lo + 1) c1 cs0 Hl1 ltac:(lia)) as (c' & cs' & E & Hd & Hl').
      exists c', cs'. replace (lo + Z.of_nat (S k)) with (lo + 1 + Z.of_nat k) by lia.
      rewrite E. done. }
  destruct (Hgen (Z.to_nat n) 0 c cs Hl ltac:(lia)) as (c' & cs' & E & Hd & Hl').
  replace (0 + Z.of_nat (Z.to_nat n)) with n in E by lia. eauto.
Qed.

Lemma file_content_length fsbi d cs data : 0 <= fsbi.(sector_per_cluster) ->
  file_content fsbi d cs = Some data ->
  Z.of_nat (length data) = 512 * fsbi.(sector_per_cluster) * Z.of_nat (length cs).
Proof using HL.
  intros Hs. revert data. induction cs as [|c cs IH]; intros data Hf; cbn in Hf; [simplify_eq; cbn [length]; lia|].
  apply bind_Some in Hf as (bs & Hbs & Hf). apply bind_Some in Hf as (rest & Hr & Hf). simplify_eq.
  rewrite length_app. specialize (IH _ Hr). unfold cluster_data in Hbs.
  apply dev_read_length in Hbs; [|done]. cbn [length]. rewrite Nat2Z.inj_add, Nat2Z.inj_succ. nia.
Qed.

(** A destination the copies accept: all of it user space, or all of it kernel space. *)
Definition buf_ok (buf n : Z) : Prop :=
  0 <= buf /\ (buf + n <= TASK_SIZE \/ TASK_SIZE <= buf /\ buf + n < 2 ^ 64).

Lemma store_to_ok buf bs m n : buf_ok buf n -> Z.of_nat (length bs) <= n ->
  store_to buf bs m = mem_write buf bs m.
Proof using Type.
  intros [H0 Hb] Hl. unfold store_to, copy_to_user, verify_area.
  destruct (Z.ltb_spec buf TASK_SIZE); [|done].
  destruct Hb as [Hb|Hb]; [|lia].
  rewrite u64_small by (unfold TASK_SIZE in *; lia).
  rewrite (proj2 (Z.leb_le _ _)) by lia. done.
Qed.

(** The geometry of clusters of [B] bytes. *)
Record cluster_ok (fsbi : FAT32_sb_info) : Prop := {
  cl_spc : 0 < fsbi.(sector_per_cluster);
  cl_bytes : fsbi.(bytes_per_cluster) = 512 * fsbi.(sector_per_cluster)
}.

Lemma read_loop_spec fsbi d : cluster_ok fsbi ->
  forall cs c data fuel n o buf position m,
    linked_clusters fsbi d (c :: cs) -> file_content fsbi d (c :: cs) = Some data ->
    0 <= n -> 0 <= o < fsbi.(bytes_per_cluster) -> o + n <= Z.of_nat (length data) ->
    buf_ok buf n -> 0 <= position -> position + n < 2 ^ 63 -> (Z.to_nat n < fuel)%nat ->
    read_loop fuel fsbi d c n o buf position m =
      Some (0, 0, position + n, mem_write buf (take (Z.to_nat n) (drop (Z.to_nat o) data)) m).
Proof using HL.
  intros [Hspc Hbpc]. induction cs as [|c1 cs IH];
    intros c data [|fuel] n o buf position m Hlk Hc Hn Ho Hfit Hbuf Hp Hpn Hf; try lia.
  all: cbn [file_content] in Hc; apply bind_Some in Hc as (bs & Hbs & Hc);
    unfold cluster_data in Hbs; pose proof (dev_read_length _ fsbi.(sector_per_cluster) _ _ ltac:(lia) Hbs) as Hl.
  all: cbn [read_loop]; rewrite Hbs.
  - cbn in Hc. simplify_eq. rewrite app_nil_r in *. rewrite (proj2 (Z.leb_le n _)) by lia.
    rewrite (proj2 (Z.leb_le 0 n)) by lia. cbn [guard_fault mbind option_bind].
    rewrite get_bytes_some by lia. cbn [mbind option_bind]. rewrite Z.sub_diag. cbn [Z.eqb].
    rewrite i64_small, (store_to_ok _ _ _ n) by (rewrite ?length_take, ?length_drop; lia || done). done.
  - apply bind_Some in Hc as (rest & Hrest & Hc). injection Hc as <-.
    destruct (Z.leb_spec n (fsbi.(bytes_per_cluster) - o)) as [Hle|Hgt].
    + rewrite (proj2 (Z.leb_le 0 n)) by lia. cbn [guard_fault mbind option_bind].
      rewrite get_bytes_some by lia. cbn [mbind option_bind]. rewrite Z.sub_diag. cbn [Z.eqb].
      rewrite i64_small, (store_to_ok _ _ _ n) by (rewrite ?length_take, ?length_drop; lia || done).
      rewrite drop_app_le, take_app_le by (rewrite ?length_drop; lia). done.
    + set (k := fsbi.(bytes_per_cluster) - o) in *.
      rewrite (proj2 (Z.leb_le 0 k)) by lia. cbn [guard_fault mbind option_bind].
      rewrite get_bytes_some by lia. cbn [mbind option_bind].
      rewrite (proj2 (Z.eqb_neq (n - k) 0)) by lia.
      destruct Hlk as (Hnext & Hnz & Hlk). rewrite Hnext. cbn [mbind option_bind].
      rewrite (proj2 (Z.eqb_neq c1 0)) by done.
      rewrite length_app in Hfit.
      assert (buf .+ k = buf + k) as Hbk by (destruct Hbuf; apply u64_small; unfold TASK_SIZE in *; lia).
      rewrite Hbk, i64_small by lia.
      rewrite (IH c1 rest fuel (n - k) 0 (buf + k) (position + k)); try done; try lia.
      2: { destruct Hbuf as [? [?|?]]; split; [lia|left; lia|lia|right; lia]. }
      f_equal. f_equal; [f_equal; lia|].
      rewrite (store_to_ok _ _ _ n) by (rewrite ?length_take, ?length_drop; lia || done).
      assert (length (take (Z.to_nat k) (drop (Z.to_nat o) bs)) = Z.to_nat k) as Hlen
        by (rewrite length_take, length_drop; lia).
      replace (buf + k) with (buf + Z.of_nat (length (take (Z.to_nat k) (drop (Z.to_nat o) bs)))) by lia.
      rewrite mem_write_app. f_equal.
      rewrite drop_app_le by lia.
      replace (Z.to_nat n) with (Z.to_nat k + Z.to_nat (n - k))%nat by lia.
      rewrite <- (take_drop (Z.to_nat k) (drop (Z.to_nat o) bs)) at 2.
      rewrite drop_drop, (drop_ge bs (_ + _)) by lia. rewrite app_nil_r.
      rewrite take_app_add' by done. done.
Qed.

Lemma file_content_drop fsbi d n : cluster_ok fsbi -> forall cs data,
  file_content fsbi d cs = Some data -> (n <= length cs)%nat ->
  file_content fsbi d (drop n cs) = Some (drop (Z.to_nat fsbi.(bytes_per_cluster) * n) data).
Proof using HL.
  intros [Hs Hb]. induction n as [|n IH]; intros cs data Hl Hle.
  - by rewrite Nat.mul_0_r.
  - destruct cs as [|x cs]; cbn [length] in Hle; [lia|]. cbn [file_content] in Hl.
    apply bind_Some in Hl as (bs & Hbs & Hl). apply bind_Some in Hl as (rest & Hr & Hl). injection Hl as <-.
    cbn [drop]. rewrite (IH cs rest Hr) by lia. f_equal.
    pose proof (dev_read_length _ fsbi.(sector_per_cluster) _ _ ltac:(lia) Hbs) as Hlb.
    replace (Z.to_nat (bytes_per_cluster fsbi) * S n)%nat
      with (length bs + Z.to_nat (bytes_per_cluster fsbi) * n)%nat by lia.
    by rewrite drop_app_add.
Qed.

(** [FAT32_read] refines reading from the contents of the file: for a file whose
    clusters are linked in the table and cover its size, a read at a position
    inside it delivers exactly the bytes from there, as many as asked for or left in
    the file, to the buffer of the caller (user or kernel memory), returns their
    number and advances the position by it. *)
Lemma FAT32_read_correct fsbi inode buf count position d m cs data :
  cluster_ok fsbi -> inode.(private_index_info).(first_cluster) <> 0 ->
  linked_clusters fsbi d (inode.(private_index_info).(first_cluster) :: cs) ->
  file_content fsbi d (inode.(private_index_info).(first_cluster) :: cs) = Some data ->
  0 <= position < inode.(file_size) -> inode.(file_size) <= Z.of_nat (length data) ->
  Z.of_nat (length data) < 2 ^ 31 -> 0 <= count < 2 ^ 31 -> buf_ok buf count ->
  let n := Z.min count (inode.(file_size) - position) in
  FAT32_read fsbi inode buf count position d m =
    Some (n, position + n, mem_write buf (take (Z.to_nat n) (drop (Z.to_nat position) data)) m).
Proof using HL.
  intros Hok Hc0 Hlk Hdata Hpos Hsize Hmax Hcount Hbuf n. set (c := first_cluster _) in *.
  set (B := fsbi.(bytes_per_cluster)).
  assert (0 < B /\ B = 512 * fsbi.(sector_per_cluster)) as [HB HB'] by (destruct Hok; unfold B; lia).
  pose proof (file_content_length fsbi d (c :: cs) data ltac:(destruct Hok; lia) Hdata) as Hlen.
  rewrite <- HB' in Hlen. cbn [length] in Hlen.
  unfold FAT32_read. fold c B. rewrite (proj2 (Z.eqb_neq B 0)) by lia. cbn [negb guard_fault mbind option_bind].
  rewrite (proj2 (Z.eqb_neq c 0)) by done.
  rewrite Z.quot_div_nonneg, Z.rem_mod_nonneg by lia.
  assert (0 <= position / B <= Z.of_nat (length cs)) as Hq.
  { split; [apply Z.div_pos; lia|]. apply Z.lt_succ_r. apply Z.div_lt_upper_bound; lia. }
  assert (position / B < 2 ^ 31) by (apply Z.div_lt_upper_bound; nia).
  rewrite (i32_small (position / B)) by lia.
  destruct (walk_chain_spec fsbi d cs (position / B) c Hlk Hq) as (c' & cs' & Hw & Hdrop & Hlk').
  rewrite Hw. cbn [mbind option_bind].
  assert ((if inode.(file_size) <? u64 (position + count) then u64 (inode.(file_size) - position) else count) = n) as ->.
  { unfold n. rewrite (u64_small (position + count)), (u64_small (_ - _)) by lia.
    destruct (Z.ltb_spec (file_size inode) (position + count)); lia. }
  rewrite i32_small by (unfold n; lia).
  assert (exists data', file_content fsbi d (c' :: cs') = Some data' /\
    data' = drop (Z.to_nat (B * (position / B))) data) as (data' & Hdata' & Hdd).
  { rewrite <- Hdrop.
    replace (Z.to_nat (B * (position / B))) with (Z.to_nat B * Z.to_nat (position / B))%nat
      by (rewrite Z2Nat.inj_mul; lia).
    eexists; split; [|done]. apply file_content_drop; [done|done|cbn; lia]. }
  pose proof (Z_div_mod_eq_full position B). pose proof (Z.mod_pos_bound position B HB).
  rewrite (read_loop_spec fsbi d Hok cs' c' data'); try done; try (unfold n; lia).
  - cbn [mbind option_bind Z.eqb]. rewrite i64_small by (unfold n; lia). do 3 f_equal.
    rewrite Hdd, drop_drop. do 2 f_equal. rewrite <- Z2Nat.inj_add by nia. f_equal. lia.
  - rewrite Hdd, length_drop. unfold n. nia.
  - destruct Hbuf as [? [?|?]]; split; [lia|left; unfold n; lia|lia|right; unfold n; lia].
Qed.

(** [FAT32_write] to a part of a file that exists and does not cross a cluster
    boundary: the cluster that holds the position gets exactly the bytes of the caller
    at the offset of the position, every other sector keeps its contents, and
    the count is returned; size, table and directory are not touched. *)
Theorem FAT32_write_within fsbi inode buf count position junk d m c cs c' cs' old bs :
  cluster_ok fsbi -> inode.(private_index_info).(first_cluster) = c -> c <> 0 ->
  linked_clusters fsbi d (c :: cs) ->
  drop (Z.to_nat (position / fsbi.(bytes_per_cluster))) (c :: cs) = c' :: cs' -> c' <> 0 ->
  0 <= position -> 0 < count < 2 ^ 31 -> position + count <= inode.(file_size) < 2 ^ 31 ->
  position `mod` fsbi.(bytes_per_cluster) + count <= fsbi.(bytes_per_cluster) ->
  buf_ok buf count -> mem_read buf (Z.to_nat count) m = Some bs -> byte_list bs ->
  cluster_data fsbi d c' = Some old ->
  (forall b, Z.of_nat (length b) = fsbi.(bytes_per_cluster) ->
    is_Some (dev_write (cluster_sector fsbi c') fsbi.(sector_per_cluster) b d)) ->
  exists d' new, FAT32_write fsbi inode buf count position junk d m =
      Some (count, position + count, inode, d') /\
    put_bytes (position `mod` fsbi.(bytes_per_cluster)) bs old = Some new /\
    cluster_data fsbi d' c' = Some new /\
    (forall s n, 0 <= n -> s + n <= cluster_sector fsbi c' \/
      cluster_sector fsbi c' + fsbi.(sector_per_cluster) <= s -> dev_read s n d' = dev_read s n d).
Proof using HL.
  intros Hok Hf Hc0 Hlk Hdrop Hc0' Hpos Hcount Hsize Hfit Hbuf Hmem Hbytes Hold Hdev.
  set (B := fsbi.(bytes_per_cluster)) in *.
  assert (0 < B /\ B = 512 * fsbi.(sector_per_cluster)) as [HB HB'] by (destruct Hok; unfold B; lia).
  unfold cluster_data in Hold.
  pose proof (dev_read_length _ fsbi.(sector_per_cluster) _ _ ltac:(destruct Hok; lia) Hold) as Hlo.
  pose proof (mem_read_length _ _ _ _ Hmem) as Hlb.
  pose proof (Z.mod_pos_bound position B HB) as Ho.
  destruct (put_bytes (position `mod` B) bs old) as [new|] eqn:Hput.
  2: { rewrite put_bytes_some in Hput by lia. done. }
  pose proof (put_bytes_length _ _ _ _ Hput) as Hln.
  destruct (Hdev new) as [d' Hd']; [lia|].
  exists d', new. split.
  - unfold FAT32_write. fold B. rewrite Hf, (proj2 (Z.eqb_neq B 0)), (proj2 (Z.eqb_neq c 0)) by (done || lia).
    cbn [negb guard_fault mbind option_bind].
    rewrite Z.quot_div_nonneg, Z.rem_mod_nonneg by lia.
    assert (0 <= position / B <= Z.of_nat (length cs)) as Hq.
    { split; [apply Z.div_pos; lia|].
      assert (length (drop (Z.to_nat (position / B)) (c :: cs)) = S (length cs')) as Hld by (by rewrite Hdrop).
      rewrite length_drop in Hld. cbn [length] in Hld. pose proof (Z.div_pos position B). lia. }
    assert (position / B < 2 ^ 31) by (apply Z.div_lt_upper_bound; nia).
    rewrite (i32_small (position / B)) by lia.
    destruct (walk_chain_spec fsbi d cs (position / B) c Hlk Hq) as (c1 & cs1 & Hw & Hdrop1 & _).
    rewrite Hdrop in Hdrop1. injection Hdrop1 as <- <-.
    rewrite Hw. cbn [mbind option_bind]. rewrite (proj2 (Z.eqb_neq c' 0)) by done.
    rewrite (i32_small count) by lia. cbn [write_loop]. rewrite Hold. fold B.
    rewrite (proj2 (Z.leb_le count _)) by lia. rewrite (proj2 (Z.leb_le 0 count)) by lia.
    cbn [guard_fault mbind option_bind].
    assert (load_from buf count m = Some (Some bs)) as Hload.
    { unfold load_from, copy_from_user, verify_area. destruct Hbuf as [Hb0 Hb]. rewrite Hmem.
      destruct (Z.ltb_spec buf TASK_SIZE); [|done]. destruct Hb as [Hb|Hb]; [|lia].
      rewrite u64_small, (proj2 (Z.leb_le _ _)) by (unfold TASK_SIZE in *; lia). done. }
    unfold fill_buffer. rewrite Hload. cbn [mbind option_bind]. rewrite Hput. cbn [mbind option_bind].
    rewrite Hd'. rewrite Z.sub_diag. cbn [Z.eqb mbind option_bind w_position w_disk w_index].
    rewrite (i64_small (position + count)), (u64_small (position + count)), (i64_small count) by lia.
    destruct (Z.ltb_spec inode.(file_size) (position + count)); [lia|]. cbn [mbind option_bind]. done.
  - assert (byte_list new) as Hbn.
    { apply put_bytes_inv in Hput as (_ & _ & ->). unfold byte_list.
      pose proof (dev_read_bytes _ _ _ _ Hold) as Hbo. unfold byte_list in Hbo.
      apply Forall_app; split; [by apply Forall_take|]. apply Forall_app; split; [done|by apply Forall_drop]. }
    split; [done|]. split.
    + eapply dev_read_write; [..|exact Hd']; [destruct Hok; lia|lia|done].
    + intros s n Hn Hs. eapply dev_read_write_ne; [..|exact Hd'|done]; [destruct Hok; lia|done|lia].
Qed.

(** [FAT32_lseek] never leaves the file: the new position is inside it or the old
    one, and every error leaves the position alone. *)
Theorem FAT32_lseek_spec inode position offset origin v p :
  0 <= inode.(file_size) < 2 ^ 63 -> - 2 ^ 63 <= offset < 2 ^ 63 ->
  FAT32_lseek inode position offset origin = (v, p) ->
  (v = p /\ 0 <= p <= inode.(file_size)) \/ (p = position /\ (v = - EOVERFLOW \/ v = - EINVAL)).
Proof using Type.
  intros Hs Ho. unfold FAT32_lseek.
  assert (forall pos, - 2 ^ 63 <= pos < 2 ^ 63 ->
    (if (pos <? 0) || (file_size inode <? u64 pos) then (- EOVERFLOW, position) else (pos, pos)) = (v, p) ->
    (v = p /\ 0 <= p <= inode.(file_size)) \/ (p = position /\ (v = - EOVERFLOW \/ v = - EINVAL))) as Hgo.
  { intros pos Hr. destruct (Z.ltb_spec pos 0); cbn [orb]; [intros; simplify_eq; auto|].
    rewrite u64_small by lia. destruct (Z.ltb_spec (file_size inode) pos); intros; simplify_eq; [auto|left; lia]. }
  destruct (origin =? SEEK_SET); [by apply Hgo|].
  destruct (origin =? SEEK_CUR); [apply Hgo, i64_range|].
  destruct (origin =? SEEK_END); [apply Hgo, i64_range|]. intros; simplify_eq; auto.
Qed.
End Fat32.

(** ** A disk in memory: the promises can be kept *)

Definition ramdisk : Type := gmap Z Z.

#[global] Instance ramdisk_device : BlockDevice ramdisk := {|
  dev_read s n d := Some ((fun i => u8 (default 0 (d !! i))) <$> range (512 * s) (512 * (s + n)));
  dev_write s n bs d :=
    if Z.of_nat (length bs) =? 512 * n then Some (mem_write (512 * s) bs d) else None
|}.

Lemma mem_write_lookup a bs m i b : bs !! i = Some b -> mem_write a bs m !! (a + Z.of_nat i) = Some b.
Proof.
  revert a i. induction bs as [|x bs IH]; intros a i Hi; [done|]. destruct i as [|i]; cbn in Hi; cbn [mem_write].
  - simplify_eq. replace (a + Z.of_nat 0) with a by lia. by rewrite lookup_insert_eq.
  - rewrite lookup_insert_ne by lia. replace (a + Z.of_nat (S i)) with (a + 1 + Z.of_nat i) by lia. by apply IH.
Qed.

Lemma range_lookup lo hi i : (i < Z.to_nat (hi - lo))%nat -> range lo hi !! i = Some (lo + Z.of_nat i).
Proof. intros. unfold range. apply lookup_seqZ. lia. Qed.

Lemma range_length lo hi : length (range lo hi) = Z.to_nat (hi - lo).
Proof. unfold range. by rewrite length_seqZ. Qed.

#[global] Instance ramdisk_laws : BlockDeviceLaws ramdisk.
Proof.
  constructor; cbn.
  - intros s n d bs Hn E. simplify_eq. rewrite length_fmap, range_length. lia.
  - intros s n d bs E. simplify_eq. apply Forall_fmap, Forall_forall. intros x _. cbn. apply u8_range.
  - intros s n bs d d' Hn Hl Hb E. rewrite (proj2 (Z.eqb_eq _ _) Hl) in E. simplify_eq. f_equal.
    apply list_eq. intros i. rewrite list_lookup_fmap. destruct (decide (i < length bs)%nat) as [Hi|Hi].
    + rewrite range_lookup by lia. cbn. destruct (lookup_lt_is_Some_2 bs i Hi) as [b Hbi].
      rewrite (mem_write_lookup _ _ _ _ _ Hbi), Hbi. cbn. f_equal. apply u8_small.
      exact (Forall_lookup_1 (fun b => 0 <= b < 256) bs i b Hb Hbi).
    + rewrite !lookup_ge_None_2; [done|lia|rewrite range_length; lia].
  - intros s n bs d d' s' n' Hn Hn' Hl E Hd. rewrite (proj2 (Z.eqb_eq _ _) Hl) in E. simplify_eq. f_equal.
    apply list_fmap_ext. intros i x Hx. apply list_elem_of_lookup_2, in_range in Hx.
    rewrite mem_write_lookup_ne by lia. done.
Qed.

(** *** A small volume

    The table is sector 2, its copy sector 3, data starts at sector 4, clusters have one
    sector.  The root directory is cluster 2; a file of 600 bytes has clusters 3 and 4. *)
Definition demo_fsbi : FAT32_sb_info := mkSbInfo 0 100 1 512 512 4 2 1 2 1 6 [].

Definition demo_dirent (nm : list Z) (attr clus sz : Z) : list Z :=
  nm ++ [attr; 0; 0; 0; 0; 0; 0; 0; 0] ++ le_bytes 2 (clus / 65536) ++ [0; 0; 0; 0] ++
  le_bytes 2 clus ++ le_bytes 4 sz.

(** ["B       C  "], a short name with an extension of one letter. *)
Definition demo_name : list Z := [66; 32; 32; 32; 32; 32; 32; 32; 67; 32; 32].

Definition demo_disk : ramdisk :=
  mem_write 1024 (flat_map (le_bytes 4) [0x0ffffff8; 0x0fffffff; 0x0fffffff; 4; 0x0fffffff])
    (mem_write 2048 (demo_dirent demo_name 0x20 3 600)
      (mem_write 2560 (repeat 65 512) (mem_write 3072 (repeat 66 512) ∅))).

Definition demo_inode : index_node := mkInode 600 1 FS_ATTR_FILE (mkInodeInfo 3 2 0 0 0 0 0).
Definition demo_root : index_node := mkInode 0 1 FS_ATTR_DIR (mkInodeInfo 2 0 0 0 0 0 0).
Definition demo_buf : Z := 0xffff800000100000.

Lemma demo_cluster_ok : cluster_ok demo_fsbi.
Proof. constructor; cbn; lia. Qed.

Lemma demo_fat_ok : fat_ok demo_fsbi.
Proof. constructor; cbn; lia. Qed.

Lemma demo_fat_present : fat_present (D := ramdisk) demo_fsbi.
Proof.
  intros s d Hs. split; [by eexists|]. intros bs Hl. cbn. rewrite Hl. by eexists.
Qed.

Lemma FAT_Entry_write_read_witness : exists d',
  DISK1_FAT32_write_FAT_Entry demo_fsbi 5 0x12345678 demo_disk = Some (1, d') /\
  DISK1_FAT32_read_FAT_Entry demo_fsbi 5 d' = Some 0x02345678.
Proof.
  destruct (FAT_Entry_write_read demo_fsbi demo_fat_ok demo_fat_present 5 0x12345678 demo_disk)
    as (d' & Hw & Hr & _); [cbn; lia|].
  exists d'. split; [exact Hw|]. rewrite Hr. reflexivity.
Defined.

Lemma find_available_cluster_spec_witness :
  FAT32_find_available_cluster demo_fsbi demo_disk = 5 /\
  DISK1_FAT32_read_FAT_Entry demo_fsbi 5 demo_disk = Some 0.
Proof.
  assert (FAT32_find_available_cluster demo_fsbi demo_disk = 5) as E by (vm_compute; reflexivity).
  destruct (find_available_cluster_spec demo_fsbi demo_fat_ok demo_fat_present demo_disk)
    as [(_ & H & _)|(H & _)]; rewrite E in H; [auto|discriminate].
Defined.

Lemma FAT32_write_within_witness : exists d',
  FAT32_write demo_fsbi demo_inode demo_buf 2 514 [] demo_disk (mem_write demo_buf [1; 2] ∅) =
    Some (2, 516, demo_inode, d') /\
  (exists new, cluster_data demo_fsbi d' 4 = Some new).
Proof.
  destruct (FAT32_write_within demo_fsbi demo_inode demo_buf 2 514 [] demo_disk
    (mem_write demo_buf [1; 2] ∅) 3 [4] 4 [] (repeat 66 512) [1; 2]) as (d' & new & Hw & _ & Hn & _).
  - exact demo_cluster_ok.
  - reflexivity.
  - lia.
  - split; [vm_compute; reflexivity|]. split; [lia|]. exact I.
  - reflexivity.
  - lia.
  - lia.
  - lia.
  - cbn. lia.
  - vm_compute. discriminate.
  - split; [unfold demo_buf; lia|]. right. unfold demo_buf, TASK_SIZE. lia.
  - vm_compute. reflexivity.
  - repeat constructor; lia.
  - vm_compute. reflexivity.
  - intros b Hb. cbn in Hb |- *. rewrite Hb. by eexists.
  - exists d'. split; [exact Hw|]. exists new. exact Hn.
Defined.

Lemma FAT32_lseek_spec_witness : 0 <= 600 <= demo_inode.(file_size).
Proof.
  destruct (FAT32_lseek_spec demo_inode 10 0 SEEK_END 600 600) as [[_ H]|[H _]];
    [cbn; lia|lia|reflexivity|exact H|discriminate].
Defined.

(** Writing to a file that has no cluster yet puts the data into sector 0 of the disk,
    over the partition table: the sector of the new cluster is never computed.  The
    cluster it allocated is entered in the table and the directory but not written. *)
Example FAT32_write_new_file :
  let inode := mkInode 0 1 FS_ATTR_FILE (mkInodeInfo 0 2 0 0 0 0 0) in
  (r ← FAT32_write demo_fsbi inode demo_buf 2 0 (repeat 0 512) demo_disk (mem_write demo_buf [77; 78] ∅);
   let '(v, p, i, d) := r in
   s0 ← dev_read 0 1 d; c ← cluster_data demo_fsbi d 5; e ← DISK1_FAT32_read_FAT_Entry demo_fsbi 5 d;
   Some (v, i.(private_index_info).(first_cluster), i.(file_size), e, take 2 s0, take 2 c))
  = Some (2, 5, 2, 0x0ffffff8, [77; 78], [0; 0]).
Proof. vm_compute. reflexivity. Qed.

(** Writing across a cluster boundary of an existing chain writes the second part over the
    beginning of the same cluster: the loop does not advance to the next cluster.  The
    call still reports that everything was written. *)
Example FAT32_write_across_clusters :
  (r ← FAT32_write demo_fsbi demo_inode demo_buf 4 510 [] demo_disk (mem_write demo_buf [1; 2; 3; 4] ∅);
   let '(v, p, i, d) := r in
   c3 ← cluster_data demo_fsbi d 3; c4 ← cluster_data demo_fsbi d 4;
   Some (v, p, take 2 c3, drop 510 c3, take 2 c4))
  = Some (4, 514, [3; 4], [1; 2], [66; 66]).
Proof. vm_compute. reflexivity. Qed.

(** A short name whose extension has fewer than three letters is listed by [FAT32_readdir]
    but not found by [FAT32_lookup] under the name it was listed with: the padding of
    the extension is compared with the end of the name. *)
Example readdir_lookup_mismatch :
  (r ← FAT32_readdir 5 demo_fsbi demo_root (repeat 0 32) (fun n len _ => (len, n)) 0 demo_disk [];
   let '(v, p, n) := r in
   f ← FAT32_lookup 5 demo_fsbi demo_root (mkQname (n ++ repeat 0 32) v) (repeat 0 32) demo_disk;
   Some (n, p, f)) = Some ([66; 46; 67], 32, None).
Proof. vm_compute. reflexivity. Qed.
