(* ===== verification/Font.v ===== *)
(** * The console font (font.h)

    [font_ascii]: for every character code the 16 rows of its glyph, one bit per pixel. *)

From S2P Require Import Prelude.

Definition font_ascii_low : list (list Z) := [
  [0; 0; 0; 0; 0; 0; 0; 0; 0; 0; 0; 0; 0; 0; 0; 0];
  [0; 0; 0; 0; 0; 0; 0; 0; 0; 0; 0; 0; 0; 0; 0; 0];
  [0; 0; 0; 0; 0; 0; 0; 0; 0; 0; 0; 0; 0; 0; 0; 0];
  [0; 0; 0; 0; 0; 0; 0; 0; 0; 0; 0; 0; 0; 0; 0; 0];
  [0; 0; 0; 0; 0; 0; 0; 0; 0; 0; 0; 0; 0; 0; 0; 0];
  [0; 0; 0; 0; 0; 0; 0; 0; 0; 0; 0; 0; 0; 0; 0; 0];
  [0; 0; 0; 0; 0; 0; 0; 0; 0; 0; 0; 0; 0; 0; 0; 0];
  [0; 0; 0; 0; 0; 0; 0; 0; 0; 0; 0; 0; 0; 0; 0; 0];
  [0; 0; 0; 0; 0; 0; 0; 0; 0; 0; 0; 0; 0; 0; 0; 0];
  [0; 0; 0; 0; 0; 0; 0; 0; 0; 0; 0; 0; 0; 0; 0; 0];
  [0; 0; 0; 0; 0; 0; 0; 0; 0; 0; 0; 0; 0; 0; 0; 0];
  [0; 0; 0; 0; 0; 0; 0; 0; 0; 0; 0; 0; 0; 0; 0; 0];
  [0; 0; 0; 0; 0; 0; 0; 0; 0; 0; 0; 0; 0; 0; 0; 0];
  [0; 0; 0; 0; 0; 0; 0; 0; 0; 0; 0; 0; 0; 0; 0; 0];
  [0; 0; 0; 0; 0; 0; 0; 0; 0; 0; 0; 0; 0; 0; 0; 0];
  [0; 0; 0; 0; 0; 0; 0; 0; 0; 0; 0; 0; 0; 0; 0; 0];
  [0; 0; 0; 0; 0; 0; 0; 0; 0; 0; 0; 0; 0; 0; 0; 0];
  [0; 0; 0; 0; 0; 0; 0; 0; 0; 0; 0; 0; 0; 0; 0; 0];
  [0; 0; 0; 0; 0; 0; 0; 0; 0; 0; 0; 0; 0; 0; 0; 0];
  [0; 0; 0; 0; 0; 0; 0; 0; 0; 0; 0; 0; 0; 0; 0; 0];
  [0; 0; 0; 0; 0; 0; 0; 0; 0; 0; 0; 0; 0; 0; 0; 0];
  [0; 0; 0; 0; 0; 0; 0; 0; 0; 0; 0; 0; 0; 0; 0; 0];
  [0; 0; 0; 0; 0; 0; 0; 0; 0; 0; 0; 0; 0; 0; 0; 0];
  [0; 0; 0; 0; 0; 0; 0; 0; 0; 0; 0; 0; 0; 0; 0; 0];
  [0; 0; 0; 0; 0; 0; 0; 0; 0; 0; 0; 0; 0; 0; 0; 0];
  [0; 0; 0; 0; 0; 0; 0; 0; 0; 0; 0; 0; 0; 0; 0; 0];
  [0; 0; 0; 0; 0; 0; 0; 0; 0; 0; 0; 0; 0; 0; 0; 0];
  [0; 0; 0; 0; 0; 0; 0; 0; 0; 0; 0; 0; 0; 0; 0; 0];
  [0; 0; 0; 0; 0; 0; 0; 0; 0; 0; 0; 0; 0; 0; 0; 0];
  [0; 0; 0; 0; 0; 0; 0; 0; 0; 0; 0; 0; 0; 0; 0; 0];
  [0; 0; 0; 0; 0; 0; 0; 0; 0; 0; 0; 0; 0; 0; 0; 0];
  [0; 0; 0; 0; 0; 0; 0; 0; 0; 0; 0; 0; 0; 0; 0; 0];
  [0; 0; 0; 0; 0; 0; 0; 0; 0; 0; 0; 0; 0; 0; 0; 0];
  [0; 16; 16; 16; 16; 16; 16; 16; 16; 16; 0; 0; 16; 16; 0; 0];
  [40; 40; 40; 0; 0; 0; 0; 0; 0; 0; 0; 0; 0; 0; 0; 0];
  [0; 68; 68; 68; 254; 68; 68; 68; 68; 68; 254; 68; 68; 68; 0; 0];
  [16; 58; 86; 146; 146; 144; 80; 56; 20; 18; 146; 146; 212; 184; 16; 16];
  [98; 146; 148; 148; 104; 8; 16; 16; 32; 44; 82; 82; 146; 140; 0; 0];
  [0; 112; 136; 136; 136; 144; 96; 71; 162; 146; 138; 132; 70; 57; 0; 0];
  [4; 8; 16; 0; 0; 0; 0; 0; 0; 0; 0; 0; 0; 0; 0; 0];
  [2; 4; 8; 8; 16; 16; 16; 16; 16; 16; 16; 8; 8; 4; 2; 0];
  [128; 64; 32; 32; 16; 16; 16; 16; 16; 16; 16; 32; 32; 64; 128; 0];
  [0; 0; 0; 0; 0; 16; 146; 84; 56; 84; 146; 16; 0; 0; 0; 0];
  [0; 0; 0; 0; 0; 16; 16; 16; 254; 16; 16; 16; 0; 0; 0; 0];
  [0; 0; 0; 0; 0; 0; 0; 0; 0; 0; 0; 24; 24; 8; 8; 16];
  [0; 0; 0; 0; 0; 0; 0; 0; 254; 0; 0; 0; 0; 0; 0; 0];
  [0; 0; 0; 0; 0; 0; 0; 0; 0; 0; 0; 0; 24; 24; 0; 0];
  [2; 2; 4; 4; 8; 8; 8; 16; 16; 32; 32; 64; 64; 64; 128; 128];
  [0; 24; 36; 36; 66; 66; 66; 66; 66; 66; 66; 36; 36; 24; 0; 0];
  [0; 8; 24; 40; 8; 8; 8; 8; 8; 8; 8; 8; 8; 62; 0; 0];
  [0; 24; 36; 66; 66; 2; 4; 8; 16; 32; 32; 64; 64; 126; 0; 0];
  [0; 24; 36; 66; 2; 2; 4; 24; 4; 2; 2; 66; 36; 24; 0; 0];
  [0; 12; 12; 12; 20; 20; 20; 36; 36; 68; 126; 4; 4; 30; 0; 0];
  [0; 124; 64; 64; 64; 88; 100; 2; 2; 2; 2; 66; 36; 24; 0; 0];
  [0; 24; 36; 66; 64; 88; 100; 66; 66; 66; 66; 66; 36; 24; 0; 0];
  [0; 126; 66; 66; 4; 4; 8; 8; 8; 16; 16; 16; 16; 56; 0; 0];
  [0; 24; 36; 66; 66; 66; 36; 24; 36; 66; 66; 66; 36; 24; 0; 0];
  [0; 24; 36; 66; 66; 66; 66; 66; 38; 26; 2; 66; 36; 24; 0; 0];
  [0; 0; 0; 0; 0; 24; 24; 0; 0; 0; 0; 0; 24; 24; 0; 0];
  [0; 0; 0; 0; 0; 24; 24; 0; 0; 0; 0; 24; 24; 8; 8; 16];
  [0; 2; 4; 8; 16; 32; 64; 128; 128; 64; 32; 16; 8; 4; 2; 0];
  [0; 0; 0; 0; 0; 0; 254; 0; 0; 254; 0; 0; 0; 0; 0; 0];
  [0; 128; 64; 32; 16; 8; 4; 2; 2; 4; 8; 16; 32; 64; 128; 0];
  [0; 56; 68; 130; 130; 130; 4; 8; 16; 16; 0; 0; 24; 24; 0; 0];
  [0; 56; 68; 130; 154; 170; 170; 170; 170; 170; 156; 128; 70; 56; 0; 0];
  [0; 24; 24; 24; 24; 36; 36; 36; 36; 126; 66; 66; 66; 231; 0; 0];
  [0; 240; 72; 68; 68; 68; 72; 120; 68; 66; 66; 66; 68; 248; 0; 0];
  [0; 58; 70; 66; 130; 128; 128; 128; 128; 128; 130; 66; 68; 56; 0; 0];
  [0; 248; 68; 68; 66; 66; 66; 66; 66; 66; 66; 68; 68; 248; 0; 0];
  [0; 254; 66; 66; 64; 64; 68; 124; 68; 64; 64; 66; 66; 254; 0; 0];
  [0; 254; 66; 66; 64; 64; 68; 124; 68; 68; 64; 64; 64; 240; 0; 0];
  [0; 58; 70; 66; 130; 128; 128; 158; 130; 130; 130; 66; 70; 56; 0; 0];
  [0; 231; 66; 66; 66; 66; 66; 126; 66; 66; 66; 66; 66; 231; 0; 0];
  [0; 124; 16; 16; 16; 16; 16; 16; 16; 16; 16; 16; 16; 124; 0; 0];
  [0; 31; 4; 4; 4; 4; 4; 4; 4; 4; 4; 4; 132; 72; 48; 0];
  [0; 231; 66; 68; 72; 80; 80; 96; 80; 80; 72; 68; 66; 231; 0; 0];
  [0; 240; 64; 64; 64; 64; 64; 64; 64; 64; 64; 66; 66; 254; 0; 0];
  [0; 195; 66; 102; 102; 102; 90; 90; 90; 66; 66; 66; 66; 231; 0; 0];
  [0; 199; 66; 98; 98; 82; 82; 82; 74; 74; 74; 70; 70; 226; 0; 0];
  [0; 56; 68; 130; 130; 130; 130; 130; 130; 130; 130; 130; 68; 56; 0; 0];
  [0; 248; 68; 66; 66; 66; 68; 120; 64; 64; 64; 64; 64; 240; 0; 0];
  [0; 56; 68; 130; 130; 130; 130; 130; 130; 130; 146; 138; 68; 58; 0; 0];
  [0; 252; 66; 66; 66; 66; 124; 68; 66; 66; 66; 66; 66; 231; 0; 0];
  [0; 58; 70; 130; 130; 128; 64; 56; 4; 2; 130; 130; 196; 184; 0; 0];
  [0; 254; 146; 146; 16; 16; 16; 16; 16; 16; 16; 16; 16; 124; 0; 0];
  [0; 231; 66; 66; 66; 66; 66; 66; 66; 66; 66; 66; 36; 60; 0; 0];
  [0; 231; 66; 66; 66; 66; 36; 36; 36; 36; 24; 24; 24; 24; 0; 0];
  [0; 231; 66; 66; 66; 90; 90; 90; 90; 36; 36; 36; 36; 36; 0; 0];
  [0; 231; 66; 66; 36; 36; 36; 24; 36; 36; 36; 66; 66; 231; 0; 0];
  [0; 238; 68; 68; 68; 40; 40; 40; 16; 16; 16; 16; 16; 124; 0; 0];
  [0; 254; 132; 132; 8; 8; 16; 16; 32; 32; 64; 66; 130; 254; 0; 0];
  [0; 62; 32; 32; 32; 32; 32; 32; 32; 32; 32; 32; 32; 32; 62; 0];
  [128; 128; 64; 64; 32; 32; 32; 16; 16; 8; 8; 4; 4; 4; 2; 2];
  [0; 124; 4; 4; 4; 4; 4; 4; 4; 4; 4; 4; 4; 4; 124; 0];
  [0; 16; 40; 68; 130; 0; 0; 0; 0; 0; 0; 0; 0; 0; 0; 0];
  [0; 0; 0; 0; 0; 0; 0; 0; 0; 0; 0; 0; 0; 0; 254; 0];
  [16; 8; 4; 0; 0; 0; 0; 0; 0; 0; 0; 0; 0; 0; 0; 0];
  [0; 0; 0; 0; 0; 112; 8; 4; 60; 68; 132; 132; 140; 118; 0; 0];
  [192; 64; 64; 64; 64; 88; 100; 66; 66; 66; 66; 66; 100; 88; 0; 0];
  [0; 0; 0; 0; 0; 48; 76; 132; 132; 128; 128; 130; 68; 56; 0; 0];
  [12; 4; 4; 4; 4; 52; 76; 132; 132; 132; 132; 132; 76; 54; 0; 0];
  [0; 0; 0; 0; 0; 56; 68; 130; 130; 252; 128; 130; 66; 60; 0; 0];
  [14; 16; 16; 16; 16; 124; 16; 16; 16; 16; 16; 16; 16; 124; 0; 0];
  [0; 0; 0; 0; 0; 54; 76; 132; 132; 132; 132; 76; 52; 4; 4; 56];
  [192; 64; 64; 64; 64; 88; 100; 66; 66; 66; 66; 66; 66; 227; 0; 0];
  [0; 16; 16; 0; 0; 48; 16; 16; 16; 16; 16; 16; 16; 56; 0; 0];
  [0; 4; 4; 0; 0; 12; 4; 4; 4; 4; 4; 4; 4; 8; 8; 48];
  [192; 64; 64; 64; 64; 78; 68; 72; 80; 96; 80; 72; 68; 230; 0; 0];
  [48; 16; 16; 16; 16; 16; 16; 16; 16; 16; 16; 16; 16; 56; 0; 0];
  [0; 0; 0; 0; 0; 246; 73; 73; 73; 73; 73; 73; 73; 219; 0; 0];
  [0; 0; 0; 0; 0; 216; 100; 66; 66; 66; 66; 66; 66; 227; 0; 0];
  [0; 0; 0; 0; 0; 56; 68; 130; 130; 130; 130; 130; 68; 56; 0; 0];
  [0; 0; 0; 0; 216; 100; 66; 66; 66; 66; 66; 100; 88; 64; 64; 224];
  [0; 0; 0; 0; 52; 76; 132; 132; 132; 132; 132; 76; 52; 4; 4; 14];
  [0; 0; 0; 0; 0; 220; 98; 66; 64; 64; 64; 64; 64; 224; 0; 0];
  [0; 0; 0; 0; 0; 122; 134; 130; 192; 56; 6; 130; 194; 188; 0; 0];
  [0; 0; 16; 16; 16; 124; 16; 16; 16; 16; 16; 16; 16; 14; 0; 0];
  [0; 0; 0; 0; 0; 198; 66; 66; 66; 66; 66; 66; 70; 59; 0; 0];
  [0; 0; 0; 0; 0; 231; 66; 66; 66; 36; 36; 36; 24; 24; 0; 0];
  [0; 0; 0; 0; 0; 231; 66; 66; 90; 90; 90; 36; 36; 36; 0; 0];
  [0; 0; 0; 0; 0; 198; 68; 40; 40; 16; 40; 40; 68; 198; 0; 0];
  [0; 0; 0; 0; 0; 231; 66; 66; 36; 36; 36; 24; 24; 16; 16; 96];
  [0; 0; 0; 0; 0; 254; 130; 132; 8; 16; 32; 66; 130; 254; 0; 0];
  [0; 6; 8; 16; 16; 16; 16; 96; 16; 16; 16; 16; 8; 6; 0; 0];
  [16; 16; 16; 16; 16; 16; 16; 16; 16; 16; 16; 16; 16; 16; 16; 16];
  [0; 96; 16; 8; 8; 8; 8; 6; 8; 8; 8; 8; 16; 96; 0; 0];
  [0; 114; 140; 0; 0; 0; 0; 0; 0; 0; 0; 0; 0; 0; 0; 0];
  [0; 0; 0; 0; 0; 0; 0; 0; 0; 0; 0; 0; 0; 0; 0; 0]].

Definition font_ascii_high : list (list Z) := [
  [0; 0; 0; 0; 0; 0; 0; 0; 0; 0; 0; 0; 0; 0; 0; 0];
  [0; 0; 0; 0; 0; 0; 0; 0; 0; 0; 0; 0; 0; 0; 0; 0];
  [0; 0; 0; 0; 0; 0; 0; 0; 0; 0; 0; 0; 0; 0; 0; 0];
  [0; 0; 0; 0; 0; 0; 0; 0; 0; 0; 0; 0; 0; 0; 0; 0];
  [0; 0; 0; 0; 0; 0; 0; 0; 0; 0; 0; 0; 0; 0; 0; 0];
  [0; 0; 0; 0; 0; 0; 0; 0; 0; 0; 0; 0; 0; 0; 0; 0];
  [0; 0; 0; 0; 0; 0; 0; 0; 0; 0; 0; 0; 0; 0; 0; 0];
  [0; 0; 0; 0; 0; 0; 0; 0; 0; 0; 0; 0; 0; 0; 0; 0];
  [0; 0; 0; 0; 0; 0; 0; 0; 0; 0; 0; 0; 0; 0; 0; 0];
  [0; 0; 0; 0; 0; 0; 0; 0; 0; 0; 0; 0; 0; 0; 0; 0];
  [0; 0; 0; 0; 0; 0; 0; 0; 0; 0; 0; 0; 0; 0; 0; 0];
  [0; 0; 0; 0; 0; 0; 0; 0; 0; 0; 0; 0; 0; 0; 0; 0];
  [0; 0; 0; 0; 0; 0; 0; 0; 0; 0; 0; 0; 0; 0; 0; 0];
  [0; 0; 0; 0; 0; 0; 0; 0; 0; 0; 0; 0; 0; 0; 0; 0];
  [0; 0; 0; 0; 0; 0; 0; 0; 0; 0; 0; 0; 0; 0; 0; 0];
  [0; 0; 0; 0; 0; 0; 0; 0; 0; 0; 0; 0; 0; 0; 0; 0];
  [0; 0; 0; 0; 0; 0; 0; 0; 0; 0; 0; 0; 0; 0; 0; 0];
  [0; 0; 0; 0; 0; 0; 0; 0; 0; 0; 0; 0; 0; 0; 0; 0];
  [0; 0; 0; 0; 0; 0; 0; 0; 0; 0; 0; 0; 0; 0; 0; 0];
  [0; 0; 0; 0; 0; 0; 0; 0; 0; 0; 0; 0; 0; 0; 0; 0];
  [0; 0; 0; 0; 0; 0; 0; 0; 0; 0; 0; 0; 0; 0; 0; 0];
  [0; 0; 0; 0; 0; 0; 0; 0; 0; 0; 0; 0; 0; 0; 0; 0];
  [0; 0; 0; 0; 0; 0; 0; 0; 0; 0; 0; 0; 0; 0; 0; 0];
  [0; 0; 0; 0; 0; 0; 0; 0; 0; 0; 0; 0; 0; 0; 0; 0];
  [0; 0; 0; 0; 0; 0; 0; 0; 0; 0; 0; 0; 0; 0; 0; 0];
  [0; 0; 0; 0; 0; 0; 0; 0; 0; 0; 0; 0; 0; 0; 0; 0];
  [0; 0; 0; 0; 0; 0; 0; 0; 0; 0; 0; 0; 0; 0; 0; 0];
  [0; 0; 0; 0; 0; 0; 0; 0; 0; 0; 0; 0; 0; 0; 0; 0];
  [0; 0; 0; 0; 0; 0; 0; 0; 0; 0; 0; 0; 0; 0; 0; 0];
  [0; 0; 0; 0; 0; 0; 0; 0; 0; 0; 0; 0; 0; 0; 0; 0];
  [0; 0; 0; 0; 0; 0; 0; 0; 0; 0; 0; 0; 0; 0; 0; 0];
  [0; 0; 0; 0; 0; 0; 0; 0; 0; 0; 0; 0; 0; 0; 0; 0];
  [0; 0; 0; 0; 0; 0; 0; 0; 0; 0; 0; 0; 0; 0; 0; 0];
  [0; 0; 0; 0; 0; 0; 0; 0; 0; 0; 0; 0; 0; 0; 0; 0];
  [0; 0; 0; 0; 0; 0; 0; 0; 0; 0; 0; 0; 0; 0; 0; 0];
  [0; 0; 0; 0; 0; 0; 0; 0; 0; 0; 0; 0; 0; 0; 0; 0];
  [0; 0; 0; 0; 0; 0; 0; 0; 0; 0; 0; 0; 0; 0; 0; 0];
  [0; 0; 0; 0; 0; 0; 0; 0; 0; 0; 0; 0; 0; 0; 0; 0];
  [0; 0; 0; 0; 0; 0; 0; 0; 0; 0; 0; 0; 0; 0; 0; 0];
  [0; 0; 0; 0; 0; 0; 0; 0; 0; 0; 0; 0; 0; 0; 0; 0];
  [0; 0; 0; 0; 0; 0; 0; 0; 0; 0; 0; 0; 0; 0; 0; 0];
  [0; 0; 0; 0; 0; 0; 0; 0; 0; 0; 0; 0; 0; 0; 0; 0];
  [0; 0; 0; 0; 0; 0; 0; 0; 0; 0; 0; 0; 0; 0; 0; 0];
  [0; 0; 0; 0; 0; 0; 0; 0; 0; 0; 0; 0; 0; 0; 0; 0];
  [0; 0; 0; 0; 0; 0; 0; 0; 0; 0; 0; 0; 0; 0; 0; 0];
  [0; 0; 0; 0; 0; 0; 0; 0; 0; 0; 0; 0; 0; 0; 0; 0];
  [0; 0; 0; 0; 0; 0; 0; 0; 0; 0; 0; 0; 0; 0; 0; 0];
  [0; 0; 0; 0; 0; 0; 0; 0; 0; 0; 0; 0; 0; 0; 0; 0];
  [0; 0; 0; 0; 0; 0; 0; 0; 0; 0; 0; 0; 0; 0; 0; 0];
  [0; 0; 0; 0; 0; 0; 0; 0; 0; 0; 0; 0; 0; 0; 0; 0];
  [0; 0; 0; 0; 0; 0; 0; 0; 0; 0; 0; 0; 0; 0; 0; 0];
  [0; 0; 0; 0; 0; 0; 0; 0; 0; 0; 0; 0; 0; 0; 0; 0];
  [0; 0; 0; 0; 0; 0; 0; 0; 0; 0; 0; 0; 0; 0; 0; 0];
  [0; 0; 0; 0; 0; 0; 0; 0; 0; 0; 0; 0; 0; 0; 0; 0];
  [0; 0; 0; 0; 0; 0; 0; 0; 0; 0; 0; 0; 0; 0; 0; 0];
  [0; 0; 0; 0; 0; 0; 0; 0; 0; 0; 0; 0; 0; 0; 0; 0];
  [0; 0; 0; 0; 0; 0; 0; 0; 0; 0; 0; 0; 0; 0; 0; 0];
  [0; 0; 0; 0; 0; 0; 0; 0; 0; 0; 0; 0; 0; 0; 0; 0];
  [0; 0; 0; 0; 0; 0; 0; 0; 0; 0; 0; 0; 0; 0; 0; 0];
  [0; 0; 0; 0; 0; 0; 0; 0; 0; 0; 0; 0; 0; 0; 0; 0];
  [0; 0; 0; 0; 0; 0; 0; 0; 0; 0; 0; 0; 0; 0; 0; 0];
  [0; 0; 0; 0; 0; 0; 0; 0; 0; 0; 0; 0; 0; 0; 0; 0];
  [0; 0; 0; 0; 0; 0; 0; 0; 0; 0; 0; 0; 0; 0; 0; 0];
  [0; 0; 0; 0; 0; 0; 0; 0; 0; 0; 0; 0; 0; 0; 0; 0];
  [0; 0; 0; 0; 0; 0; 0; 0; 0; 0; 0; 0; 0; 0; 0; 0];
  [0; 0; 0; 0; 0; 0; 0; 0; 0; 0; 0; 0; 0; 0; 0; 0];
  [0; 0; 0; 0; 0; 0; 0; 0; 0; 0; 0; 0; 0; 0; 0; 0];
  [0; 0; 0; 0; 0; 0; 0; 0; 0; 0; 0; 0; 0; 0; 0; 0];
  [0; 0; 0; 0; 0; 0; 0; 0; 0; 0; 0; 0; 0; 0; 0; 0];
  [0; 0; 0; 0; 0; 0; 0; 0; 0; 0; 0; 0; 0; 0; 0; 0];
  [0; 0; 0; 0; 0; 0; 0; 0; 0; 0; 0; 0; 0; 0; 0; 0];
  [0; 0; 0; 0; 0; 0; 0; 0; 0; 0; 0; 0; 0; 0; 0; 0];
  [0; 0; 0; 0; 0; 0; 0; 0; 0; 0; 0; 0; 0; 0; 0; 0];
  [0; 0; 0; 0; 0; 0; 0; 0; 0; 0; 0; 0; 0; 0; 0; 0];
  [0; 0; 0; 0; 0; 0; 0; 0; 0; 0; 0; 0; 0; 0; 0; 0];
  [0; 0; 0; 0; 0; 0; 0; 0; 0; 0; 0; 0; 0; 0; 0; 0];
  [0; 0; 0; 0; 0; 0; 0; 0; 0; 0; 0; 0; 0; 0; 0; 0];
  [0; 0; 0; 0; 0; 0; 0; 0; 0; 0; 0; 0; 0; 0; 0; 0];
  [0; 0; 0; 0; 0; 0; 0; 0; 0; 0; 0; 0; 0; 0; 0; 0];
  [0; 0; 0; 0; 0; 0; 0; 0; 0; 0; 0; 0; 0; 0; 0; 0];
  [0; 0; 0; 0; 0; 0; 0; 0; 0; 0; 0; 0; 0; 0; 0; 0];
  [0; 0; 0; 0; 0; 0; 0; 0; 0; 0; 0; 0; 0; 0; 0; 0];
  [0; 0; 0; 0; 0; 0; 0; 0; 0; 0; 0; 0; 0; 0; 0; 0];
  [0; 0; 0; 0; 0; 0; 0; 0; 0; 0; 0; 0; 0; 0; 0; 0];
  [0; 0; 0; 0; 0; 0; 0; 0; 0; 0; 0; 0; 0; 0; 0; 0];
  [0; 0; 0; 0; 0; 0; 0; 0; 0; 0; 0; 0; 0; 0; 0; 0];
  [0; 0; 0; 0; 0; 0; 0; 0; 0; 0; 0; 0; 0; 0; 0; 0];
  [0; 0; 0; 0; 0; 0; 0; 0; 0; 0; 0; 0; 0; 0; 0; 0];
  [0; 0; 0; 0; 0; 0; 0; 0; 0; 0; 0; 0; 0; 0; 0; 0];
  [0; 0; 0; 0; 0; 0; 0; 0; 0; 0; 0; 0; 0; 0; 0; 0];
  [0; 0; 0; 0; 0; 0; 0; 0; 0; 0; 0; 0; 0; 0; 0; 0];
  [0; 0; 0; 0; 0; 0; 0; 0; 0; 0; 0; 0; 0; 0; 0; 0];
  [0; 0; 0; 0; 0; 0; 0; 0; 0; 0; 0; 0; 0; 0; 0; 0];
  [0; 0; 0; 0; 0; 0; 0; 0; 0; 0; 0; 0; 0; 0; 0; 0];
  [0; 0; 0; 0; 0; 0; 0; 0; 0; 0; 0; 0; 0; 0; 0; 0];
  [0; 0; 0; 0; 0; 0; 0; 0; 0; 0; 0; 0; 0; 0; 0; 0];
  [0; 0; 0; 0; 0; 0; 0; 0; 0; 0; 0; 0; 0; 0; 0; 0];
  [0; 0; 0; 0; 0; 0; 0; 0; 0; 0; 0; 0; 0; 0; 0; 0];
  [0; 0; 0; 0; 0; 0; 0; 0; 0; 0; 0; 0; 0; 0; 0; 0];
  [0; 0; 0; 0; 0; 0; 0; 0; 0; 0; 0; 0; 0; 0; 0; 0];
  [0; 0; 0; 0; 0; 0; 0; 0; 0; 0; 0; 0; 0; 0; 0; 0];
  [0; 0; 0; 0; 0; 0; 0; 0; 0; 0; 0; 0; 0; 0; 0; 0];
  [0; 0; 0; 0; 0; 0; 0; 0; 0; 0; 0; 0; 0; 0; 0; 0];
  [0; 0; 0; 0; 0; 0; 0; 0; 0; 0; 0; 0; 0; 0; 0; 0];
  [0; 0; 0; 0; 0; 0; 0; 0; 0; 0; 0; 0; 0; 0; 0; 0];
  [0; 0; 0; 0; 0; 0; 0; 0; 0; 0; 0; 0; 0; 0; 0; 0];
  [0; 0; 0; 0; 0; 0; 0; 0; 0; 0; 0; 0; 0; 0; 0; 0];
  [0; 0; 0; 0; 0; 0; 0; 0; 0; 0; 0; 0; 0; 0; 0; 0];
  [0; 0; 0; 0; 0; 0; 0; 0; 0; 0; 0; 0; 0; 0; 0; 0];
  [0; 0; 0; 0; 0; 0; 0; 0; 0; 0; 0; 0; 0; 0; 0; 0];
  [0; 0; 0; 0; 0; 0; 0; 0; 0; 0; 0; 0; 0; 0; 0; 0];
  [0; 0; 0; 0; 0; 0; 0; 0; 0; 0; 0; 0; 0; 0; 0; 0];
  [0; 0; 0; 0; 0; 0; 0; 0; 0; 0; 0; 0; 0; 0; 0; 0];
  [0; 0; 0; 0; 0; 0; 0; 0; 0; 0; 0; 0; 0; 0; 0; 0];
  [0; 0; 0; 0; 0; 0; 0; 0; 0; 0; 0; 0; 0; 0; 0; 0];
  [0; 0; 0; 0; 0; 0; 0; 0; 0; 0; 0; 0; 0; 0; 0; 0];
  [0; 0; 0; 0; 0; 0; 0; 0; 0; 0; 0; 0; 0; 0; 0; 0];
  [0; 0; 0; 0; 0; 0; 0; 0; 0; 0; 0; 0; 0; 0; 0; 0];
  [0; 0; 0; 0; 0; 0; 0; 0; 0; 0; 0; 0; 0; 0; 0; 0];
  [0; 0; 0; 0; 0; 0; 0; 0; 0; 0; 0; 0; 0; 0; 0; 0];
  [0; 0; 0; 0; 0; 0; 0; 0; 0; 0; 0; 0; 0; 0; 0; 0];
  [0; 0; 0; 0; 0; 0; 0; 0; 0; 0; 0; 0; 0; 0; 0; 0];
  [0; 0; 0; 0; 0; 0; 0; 0; 0; 0; 0; 0; 0; 0; 0; 0];
  [0; 0; 0; 0; 0; 0; 0; 0; 0; 0; 0; 0; 0; 0; 0; 0];
  [0; 0; 0; 0; 0; 0; 0; 0; 0; 0; 0; 0; 0; 0; 0; 0];
  [0; 0; 0; 0; 0; 0; 0; 0; 0; 0; 0; 0; 0; 0; 0; 0];
  [0; 0; 0; 0; 0; 0; 0; 0; 0; 0; 0; 0; 0; 0; 0; 0];
  [0; 0; 0; 0; 0; 0; 0; 0; 0; 0; 0; 0; 0; 0; 0; 0]].

Definition font_ascii : list (list Z) := font_ascii_low ++ font_ascii_high.
