(* ===== verification/Printk.v ===== *)
(** * Formatted output and the console (printk.h, printk.c)

    Strings are lists of byte codes without the terminating NUL; what [vsprintf] writes
    is the list of the characters it appends.  [va_list] is the stream of 64-bit slots
    it reads, and [str_at] the C string at an address.  The frame buffer is a finite
    map from pixel indices relative to [Pos.FB_addr] to colours, so that a write
    outside the screen is visible.  The lock of the console is not modelled. *)

From S2P Require Import Prelude Font.

Definition ZEROPAD : Z := 1.
Definition SIGN : Z := 2.
Definition PLUS : Z := 4.
Definition SPACE : Z := 8.
Definition LEFT : Z := 16.
Definition SPECIAL : Z := 32.
Definition SMALL : Z := 64.

Definition is_digit (c : Z) : bool := (48 <=? c) && (c <=? 57).

(** [type & FLAG]. *)
Definition has (type flag : Z) : bool := negb (type .& flag =? 0).

(** The digits consumed, as a number, and the rest of the string. *)
Fixpoint skip_atoi_from (i : Z) (s : list Z) : Z * list Z :=
  match s with
  | c :: s' => if is_digit c then skip_atoi_from (i32 (i * 10 + c - 48)) s' else (i, s)
  | [] => (i, [])
  end.
Definition skip_atoi : list Z -> Z * list Z := skip_atoi_from 0.

(** [digits[d]] for the upper and the lower case table. *)
Definition digit (small : bool) (d : Z) : Z :=
  if d <? 10 then 48 + d else if small then 87 + d else 55 + d.

(** [while (num!=0) tmp[i++]=digits[do_div(num,base)]]: least significant digit first. *)
Fixpoint div_digits (fuel : nat) (num base : Z) : list Z :=
  match fuel with
  | O => []
  | S fuel => if num =? 0 then [] else num `mod` base :: div_digits fuel (num / base) base
  end.

(** The digits of an [unsigned long], of which there are at most 64. *)
Definition tmp_digits (num base : Z) : list Z :=
  if num =? 0 then [0] else div_digits 64 num base.

(** [while(n-- > 0) *str++ = c]. *)
Definition pad (n c : Z) : list Z := repeat c (Z.to_nat n).

(** The characters [number] appends; [None] when it returns 0, to which its caller then
    writes, and when the digits do not fit [tmp]. *)
Definition number (num base size precision type : Z) : option (list Z) :=
  if (base <? 2) || (36 <? base) then None
  else
    let small := has type SMALL in
    let type := if has type LEFT then type .& .~ ZEROPAD else type in
    let c := if has type ZEROPAD then 48 else 32 in
    let neg := has type SIGN && (num <? 0) in
    let num := if neg then i64 (- num) else num in
    let sign := if neg then [45]
                else if has type PLUS then [43] else if has type SPACE then [32] else [] in
    let size := size - Z.of_nat (length sign) in
    let size := if has type SPECIAL then
                  if base =? 16 then size - 2 else if base =? 8 then size - 1 else size
                else size in
    let tmp := tmp_digits (u64 num) base in
    let i := Z.of_nat (length tmp) in
    let precision := if precision <? i then i else precision in
    let size := size - precision in
    let lead := if has type ZEROPAD || has type LEFT then [] else pad size 32 in
    let size := if has type ZEROPAD || has type LEFT then size else 0 in
    let special := if has type SPECIAL then
                     if base =? 8 then [48]
                     else if base =? 16 then [48; if small then 120 else 88] else []
                   else [] in
    let fill := if has type LEFT then [] else pad size c in
    let size := if has type LEFT then size else 0 in
    _ ← guard_fault (i <=? 50);
    Some (lead ++ sign ++ special ++ fill ++ pad (precision - i) 48 ++
          rev (digit small <$> tmp) ++ pad size 32).

Section Vsprintf.
(** The slots [va_arg] reads, and the string at an address. *)
Context (args : nat -> Z) (str_at : Z -> list Z).

(** The characters so far, the number of slots used, and the stores of [%n]. *)
Record vstate := mkV { out : list Z; used : nat; stores : list (Z * Z) }.

Definition next_arg (st : vstate) : Z * vstate :=
  (args st.(used), mkV st.(out) (S st.(used)) st.(stores)).
Definition emit (cs : list Z) (st : vstate) : vstate :=
  mkV (st.(out) ++ cs) st.(used) st.(stores).

(** The flags after ['%']. *)
Fixpoint parse_flags (fmt : list Z) (flags : Z) : Z * list Z :=
  match fmt with
  | c :: fmt' =>
      if c =? 45 then parse_flags fmt' (flags .| LEFT)
      else if c =? 43 then parse_flags fmt' (flags .| PLUS)
      else if c =? 32 then parse_flags fmt' (flags .| SPACE)
      else if c =? 35 then parse_flags fmt' (flags .| SPECIAL)
      else if c =? 48 then parse_flags fmt' (flags .| ZEROPAD)
      else (flags, fmt)
  | [] => (flags, [])
  end.

(** The field width: width, flags, rest, state. *)
Definition parse_width (fmt : list Z) (flags : Z) (st : vstate) : Z * Z * list Z * vstate :=
  match fmt with
  | c :: fmt' =>
      if is_digit c then let '(w, r) := skip_atoi fmt in (w, flags, r, st)
      else if c =? 42 then
        let '(a, st) := next_arg st in
        let w := i32 a in
        if w <? 0 then (i32 (- w), flags .| LEFT, fmt', st) else (w, flags, fmt', st)
      else (-1, flags, fmt, st)
  | [] => (-1, flags, [], st)
  end.

Definition parse_precision (fmt : list Z) (st : vstate) : Z * list Z * vstate :=
  let clamp p := if p <? 0 then 0 else p in
  match fmt with
  | c :: fmt' =>
      if c =? 46 then
        match fmt' with
        | c' :: fmt'' =>
            if is_digit c' then let '(p, r) := skip_atoi fmt' in (clamp p, r, st)
            else if c' =? 42 then let '(a, st) := next_arg st in (clamp (i32 a), fmt'', st)
            else (0, fmt', st)
        | [] => (0, [], st)
        end
      else (-1, fmt, st)
  | [] => (-1, [], st)
  end.

(** ['h'], ['l'], ['L'] or ['Z']; -1 without a qualifier. *)
Definition parse_qualifier (fmt : list Z) : Z * list Z :=
  match fmt with
  | c :: fmt' =>
      if (c =? 104) || (c =? 108) || (c =? 76) || (c =? 90) then (c, fmt') else (-1, fmt)
  | [] => (-1, [])
  end.

Definition conv_number (num base width precision flags : Z) (st : vstate) : option vstate :=
  cs ← number num base width precision flags; Some (emit cs st).

(** An integer argument, read with the type of the conversion. *)
Definition unsigned_arg (q a : Z) : Z := if q =? 108 then i64 a else u32 a.
Definition signed_arg (q a : Z) : Z := if q =? 108 then i64 a else i32 a.

(** The conversion character [c]. *)
Definition convert (c flags width precision q : Z) (st : vstate) : option vstate :=
  if c =? 99 then (* 'c' *)
    let '(a, st) := next_arg st in
    Some (if has flags LEFT then emit (u8 a :: pad (width - 1) 32) st
          else emit (pad (width - 1) 32 ++ [u8 a]) st)
  else if c =? 115 then (* 's' *)
    let '(a, st) := next_arg st in
    _ ← guard_fault (negb (u64 a =? 0));
    let s := str_at a in
    let len := Z.of_nat (length s) in
    let len := if precision <? 0 then len else if precision <? len then precision else len in
    let body := take (Z.to_nat len) s in
    Some (if has flags LEFT then emit (body ++ pad (width - len) 32) st
          else emit (pad (width - len) 32 ++ body) st)
  else if c =? 111 then (* 'o' *)
    let '(a, st) := next_arg st in conv_number (unsigned_arg q a) 8 width precision flags st
  else if c =? 112 then (* 'p' *)
    let '(a, st) := next_arg st in
    if width =? -1 then conv_number (i64 a) 16 16 precision (flags .| ZEROPAD) st
    else conv_number (i64 a) 16 width precision flags st
  else if c =? 120 then (* 'x' *)
    let '(a, st) := next_arg st in conv_number (unsigned_arg q a) 16 width precision (flags .| SMALL) st
  else if c =? 88 then (* 'X' *)
    let '(a, st) := next_arg st in conv_number (unsigned_arg q a) 16 width precision flags st
  else if (c =? 100) || (c =? 105) then (* 'd', 'i' *)
    let '(a, st) := next_arg st in conv_number (signed_arg q a) 10 width precision (flags .| SIGN) st
  else if c =? 117 then (* 'u' *)
    let '(a, st) := next_arg st in conv_number (signed_arg q a) 10 width precision flags st
  else if c =? 110 then (* 'n' *)
    let '(a, st) := next_arg st in
    Some (mkV st.(out) st.(used) (st.(stores) ++ [(a, Z.of_nat (length st.(out)))]))
  else if c =? 37 then Some (emit [37] st)
  else Some (emit [37; c] st).

(** One conversion: the format after the ['%']. *)
Definition vsprintf_spec (fmt : list Z) (st : vstate) : option (list Z * vstate) :=
  let '(flags, fmt) := parse_flags fmt 0 in
  let '(width, flags, fmt, st) := parse_width fmt flags st in
  let '(precision, fmt, st) := parse_precision fmt st in
  let '(q, fmt) := parse_qualifier fmt in
  match fmt with
  | c :: fmt => st ← convert c flags width precision q st; Some (fmt, st)
  | [] => Some ([], emit [37] st)
  end.

Fixpoint vsprintf_loop (fuel : nat) (fmt : list Z) (st : vstate) : option vstate :=
  match fuel with
  | O => None
  | S fuel =>
      match fmt with
      | [] => Some st
      | c :: fmt =>
          if negb (c =? 37) then vsprintf_loop fuel fmt (emit [c] st)
          else r ← vsprintf_spec fmt st; let '(fmt, st) := r in vsprintf_loop fuel fmt st
      end
  end.

(** The text, and the stores of [%n]; every step consumes the format. *)
Definition vsprintf (fmt : list Z) : option (list Z * list (Z * Z)) :=
  st ← vsprintf_loop (S (length fmt)) fmt (mkV [] 0 []);
  Some (st.(out), st.(stores)).
End Vsprintf.

(** ** The console *)

(** [struct position], without the lock; the pixels are those at [FB_addr]. *)
Record position := mkPos {
  XResolution : Z; YResolution : Z;
  XPosition : Z; YPosition : Z;
  XCharSize : Z; YCharSize : Z
}.

Definition set_cursor (x y : Z) (p : position) : position :=
  mkPos p.(XResolution) p.(YResolution) x y p.(XCharSize) p.(YCharSize).

Abbreviation pixels := (gmap Z Z).

(** The pixels of a character at pixel position [(x, y)], with their colours. *)
Definition glyph (Xsize x y FRcolor BKcolor : Z) (rows : list Z) : list (Z * Z) :=
  flat_map (fun i => (fun j =>
      (Xsize * (y + i) + x + j,
       if negb (default 0 (rows !! Z.to_nat i) .& (Z.shiftr 0x100 (j + 1)) =? 0) then FRcolor else BKcolor))
    <$> range 0 8) (range 0 16).

Definition put_pixels (l : list (Z * Z)) (fb : pixels) : pixels :=
  foldl (fun fb p => <[fst p := snd p]> fb) fb l.

Definition putchar (Xsize x y FRcolor BKcolor font : Z) (fb : pixels) : pixels :=
  put_pixels (glyph Xsize x y FRcolor BKcolor (default [] (font_ascii !! Z.to_nat font))) fb.

(** [putchar] at the cursor. *)
Definition draw (FR BK c : Z) (st : position * pixels) : position * pixels :=
  let '(p, fb) := st in
  (p, putchar p.(XResolution) (p.(XPosition) * p.(XCharSize)) (p.(YPosition) * p.(YCharSize)) FR BK c fb).

Definition columns (p : position) : Z := Z.quot p.(XResolution) p.(XCharSize).
Definition lines (p : position) : Z := Z.quot p.(YResolution) p.(YCharSize).

(** The two tests at the end of the loop body. *)
Definition wrap (p : position) : position :=
  let p := if columns p <=? p.(XPosition) then set_cursor 0 (p.(YPosition) + 1) p else p in
  if lines p <=? p.(YPosition) then set_cursor p.(XPosition) 0 p else p.

(** One column of a tabulation, or one character. *)
Definition advance (FR BK c : Z) (st : position * pixels) : position * pixels :=
  let '(p, fb) := draw FR BK c st in
  (wrap (set_cursor (p.(XPosition) + 1) p.(YPosition) p), fb).

Fixpoint advance_n (n : nat) (FR BK c : Z) (st : position * pixels) : position * pixels :=
  match n with O => st | S n => advance_n n FR BK c (advance FR BK c st) end.

(** The body of the loop for the character [c]; a tabulation takes several rounds. *)
Definition print_char (FR BK c : Z) (st : position * pixels) : position * pixels :=
  let '(p, fb) := st in
  if c =? 10 then (wrap (set_cursor 0 (p.(YPosition) + 1) p), fb)
  else if c =? 8 then
    let p := set_cursor (p.(XPosition) - 1) p.(YPosition) p in
    let p :=
      if p.(XPosition) <? 0 then
        let y := p.(YPosition) - 1 in
        set_cursor ((columns p - 1) * p.(XCharSize))
          (if y <? 0 then (lines p - 1) * p.(YCharSize) else y) p
      else p in
    let '(p, fb) := draw FR BK 32 (p, fb) in
    (wrap p, fb)
  else if c =? 9 then
    advance_n (Z.to_nat (8 * ((p.(XPosition) + 8) / 8) - p.(XPosition))) FR BK 32 st
  else advance FR BK (u8 c) st.

Definition print_text (FR BK : Z) (text : list Z) (st : position * pixels) : position * pixels :=
  foldl (fun st c => print_char FR BK c st) st text.

Definition color_printk (args : nat -> Z) (str_at : Z -> list Z) (FR BK : Z) (fmt : list Z)
    (st : position * pixels) : option (Z * (position * pixels)) :=
  r ← vsprintf args str_at fmt;
  let text := fst r in
  _ ← guard_fault (Z.of_nat (length text) <? 4096);
  Some (Z.of_nat (length text), print_text FR BK text st).

(** ** Digits *)

(** The value of digits, least significant first. *)
Fixpoint of_digits (base : Z) (ds : list Z) : Z :=
  match ds with
  | [] => 0
  | d :: ds => d + base * of_digits base ds
  end.

Lemma div_digits_spec base : 2 <= base -> forall fuel num, 0 <= num < base ^ Z.of_nat fuel ->
  of_digits base (div_digits fuel num base) = num /\
  Forall (fun d => 0 <= d < base) (div_digits fuel num base).
Proof.
  intros Hb. induction fuel as [|fuel IH]; intros num Hn; cbn [div_digits].
  - cbn in Hn |- *. split; [lia|constructor].
  - destruct (Z.eqb_spec num 0) as [->|Hnz]; [split; [done|constructor]|].
    rewrite Nat2Z.inj_succ, Z.pow_succ_r in Hn by lia.
    destruct (IH (num / base)) as [Hv Hd].
    { split; [apply Z.div_pos; lia|]. apply Z.div_lt_upper_bound; lia. }
    cbn [of_digits]. rewrite Hv. pose proof (Z_div_mod_eq_full num base).
    pose proof (Z.mod_pos_bound num base). split; [lia|]. constructor; [lia|done].
Qed.

Lemma div_digits_length base : 2 <= base -> forall k fuel num, 0 <= num < base ^ Z.of_nat k ->
  (length (div_digits fuel num base) <= k)%nat.
Proof.
  intros Hb. induction k as [|k IH]; intros [|fuel] num Hn; cbn [div_digits]; try (cbn; lia).
  - cbn in Hn. rewrite (proj2 (Z.eqb_eq num 0)) by lia. cbn. lia.
  - destruct (Z.eqb_spec num 0); [cbn; lia|]. cbn [length].
    rewrite Nat2Z.inj_succ, Z.pow_succ_r in Hn by lia.
    enough (length (div_digits fuel (num / base) base) <= k)%nat by lia. apply IH.
    split; [apply Z.div_pos; lia|]. apply Z.div_lt_upper_bound; lia.
Qed.

Lemma pow_fuel base : 2 <= base -> 2 ^ 64 <= base ^ Z.of_nat 64.
Proof. intros. apply (Z.pow_le_mono_l 2 base 64). lia. Qed.

(** The digits [number] stores in [tmp] are the digits of the number, and for the bases
    [vsprintf] uses they never exceed the 50 bytes of [tmp] (22 suffice). *)
Lemma tmp_digits_spec num base : 8 <= base <= 36 -> word64 num ->
  of_digits base (tmp_digits num base) = num /\
  Forall (fun d => 0 <= d < base) (tmp_digits num base) /\
  (1 <= length (tmp_digits num base) <= 22)%nat.
Proof.
  intros Hb Hn. unfold tmp_digits. destruct (Z.eqb_spec num 0) as [->|Hnz].
  - cbn [of_digits length]. split; [lia|]. split; [repeat constructor; lia|lia].
  - pose proof (pow_fuel base ltac:(lia)). unfold word64 in Hn.
    destruct (div_digits_spec base ltac:(lia) 64 num ltac:(lia)) as [Hv Hd].
    split; [done|]. split; [done|]. split.
    + cbn [div_digits]. rewrite (proj2 (Z.eqb_neq num 0) Hnz). cbn [length]. lia.
    + apply div_digits_length; [lia|]. split; [lia|].
      assert (8 ^ Z.of_nat 22 <= base ^ Z.of_nat 22) by (apply Z.pow_le_mono_l; lia).
      assert (2 ^ 64 <= 8 ^ Z.of_nat 22) by (vm_compute; discriminate). lia.
Qed.

Lemma pad_length n c : Z.of_nat (length (pad n c)) = Z.max 0 n.
Proof. unfold pad. rewrite repeat_length. lia. Qed.

(** Dropping [ZEROPAD] leaves the other flags alone. *)
Lemma has_nopad type flag : (.~ ZEROPAD) .& flag = flag -> has (type .& .~ ZEROPAD) flag = has type flag.
Proof. intros H. unfold has. by rewrite <- Z.land_assoc, H. Qed.

(** [number] fills the field: what it appends is exactly as long as the field width,
    or as the sign, the prefix and the digits need, whichever is more. *)
Theorem number_width num base size precision type cs :
  number num base size precision type = Some cs ->
  let neg := has type SIGN && (num <? 0) in
  let sign := if neg || has type PLUS || has type SPACE then 1 else 0 in
  let prefix := if has type SPECIAL then (if base =? 16 then 2 else if base =? 8 then 1 else 0) else 0 in
  let digits := Z.of_nat (length (tmp_digits (u64 (if neg then i64 (- num) else num)) base)) in
  Z.of_nat (length cs) = Z.max size (sign + prefix + Z.max precision digits).
Proof.
  unfold number. destruct (_ || _); [done|]. cbv zeta.
  set (ty := if has type LEFT then type .& .~ ZEROPAD else type).
  assert (has ty SIGN = has type SIGN /\ has ty PLUS = has type PLUS /\ has ty SPACE = has type SPACE /\
    has ty SPECIAL = has type SPECIAL) as (-> & -> & -> & ->).
  { subst ty. destruct (has type LEFT); [|done]. by rewrite !has_nopad. }
  set (neg := has type SIGN && (num <? 0)).
  set (tmp := tmp_digits _ base).
  destruct (Z.of_nat (length tmp) <=? 50); [cbn [guard_fault mbind option_bind]|done].
  intros H. injection H as <-. rewrite !length_app, !Nat2Z.inj_add, !pad_length.
  rewrite length_rev, length_fmap. clearbody tmp.
  destruct neg, (has type PLUS), (has type SPACE), (has type SPECIAL), (has ty ZEROPAD), (has ty LEFT);
    destruct (base =? 16) eqn:E16; destruct (base =? 8) eqn:E8; try lia; cbn [orb length];
    rewrite ?pad_length; cbn [length]; destruct (Z.ltb_spec precision (Z.of_nat (length tmp))); lia.
Qed.

Lemma number_width_witness : exists cs, number 255 16 10 (-1) (SPECIAL .| ZEROPAD) = Some cs /\
  Z.of_nat (length cs) = 10.
Proof.
  eexists. split; [vm_compute; reflexivity|].
  exact (number_width 255 16 10 (-1) (SPECIAL .| ZEROPAD) _ eq_refl).
Defined.

(** ** Printing and parsing decimal numbers *)

Lemma of_digits_app base ds1 ds2 :
  of_digits base (ds1 ++ ds2) = of_digits base ds1 + base ^ Z.of_nat (length ds1) * of_digits base ds2.
Proof.
  induction ds1 as [|d ds1 IH]; cbn [of_digits app length]; [cbn; lia|].
  rewrite IH, Nat2Z.inj_succ, Z.pow_succ_r by lia. lia.
Qed.

Lemma of_digits_bound base ds : 2 <= base -> Forall (fun d => 0 <= d < base) ds ->
  0 <= of_digits base ds < base ^ Z.of_nat (length ds).
Proof.
  intros Hb. induction 1 as [|d ds Hd _ IH]; cbn [of_digits length]; [cbn; lia|].
  rewrite Nat2Z.inj_succ, Z.pow_succ_r by lia. nia.
Qed.

Lemma skip_atoi_digits ds rest i : Forall (fun d => 0 <= d < 10) ds ->
  0 <= i -> i * 10 ^ Z.of_nat (length ds) + of_digits 10 (rev ds) < 2 ^ 31 ->
  match rest with c :: _ => is_digit c = false | [] => True end ->
  skip_atoi_from i ((digit false <$> ds) ++ rest) =
    (i * 10 ^ Z.of_nat (length ds) + of_digits 10 (rev ds), rest).
Proof.
  intros Hd. revert i. induction Hd as [|d ds Hd Hds IH]; intros i Hi Hb Hr.
  - cbn in *. destruct rest as [|c rest]; cbn; [f_equal; lia|]. rewrite Hr. f_equal. lia.
  - cbn [length rev] in Hb. rewrite of_digits_app, length_rev in Hb. cbn [of_digits] in Hb.
    rewrite Nat2Z.inj_succ, Z.pow_succ_r in Hb by lia.
    pose proof (Z.pow_pos_nonneg 10 (Z.of_nat (length ds)) ltac:(lia) ltac:(lia)).
    assert (0 <= of_digits 10 (rev ds)) as Hpos.
    { apply of_digits_bound; [lia|]. by apply Forall_rev. }
    cbn [fmap list_fmap app skip_atoi_from].
    assert (digit false d = 48 + d) as ->.
    { unfold digit. by rewrite (proj2 (Z.ltb_lt d 10)) by lia. }
    assert (is_digit (48 + d) = true) as -> by (unfold is_digit; lia).
    assert (i * 10 + d < 2 ^ 31) by nia.
    rewrite i32_small by lia. replace (i * 10 + (48 + d) - 48) with (i * 10 + d) by lia.
    rewrite IH; [|lia|nia|done]. cbn [length rev].
    rewrite of_digits_app, length_rev, Nat2Z.inj_succ, Z.pow_succ_r by lia. cbn [of_digits]. f_equal. nia.
Qed.

(** Printing an [int] in decimal and reading it with [skip_atoi] gives the number back,
    and leaves the text that follows. *)
Theorem number_skip_atoi num cs rest : 0 <= num < 2 ^ 31 ->
  match rest with c :: _ => is_digit c = false | [] => True end ->
  number num 10 (-1) (-1) 0 = Some cs -> skip_atoi (cs ++ rest) = (num, rest).
Proof.
  intros Hn Hr H. unfold number in H. cbv zeta in H.
  change ((10 <? 2) || (36 <? 10)) with false in H. change (has 0 LEFT) with false in H. cbv iota in H.
  change (has 0 ZEROPAD) with false in H. change (has 0 SIGN) with false in H.
  change (has 0 PLUS) with false in H. change (has 0 SPACE) with false in H.
  change (has 0 SPECIAL) with false in H. change (has 0 SMALL) with false in H.
  cbn [andb orb length] in H.
  rewrite (u64_small num) in H by lia.
  destruct (tmp_digits_spec num 10 ltac:(lia) ltac:(unfold word64; lia)) as (Hv & Hd & Hl).
  set (tmp := tmp_digits num 10) in *. rewrite (proj2 (Z.ltb_lt (-1) _)) in H by lia.
  assert (pad (-1 - Z.of_nat 0 - Z.of_nat (length tmp)) 32 = []) as E1
    by (unfold pad; by replace (Z.to_nat _) with 0%nat by lia).
  assert (pad (Z.of_nat (length tmp) - Z.of_nat (length tmp)) 48 = []) as E2
    by (unfold pad; by replace (Z.to_nat _) with 0%nat by lia).
  rewrite E1, E2, (proj2 (Z.leb_le _ _) (ltac:(lia) : Z.of_nat (length tmp) <= 50)) in H.
  cbn [guard_fault mbind option_bind] in H. change (pad 0 32) with (@nil Z) in H. rewrite app_nil_r in H. cbn [app] in H.
  injection H as <-. rewrite <- fmap_rev || rewrite <- map_rev.
  unfold skip_atoi. rewrite skip_atoi_digits; [|by apply Forall_rev|lia| |done].
  - rewrite rev_involutive, Hv. done.
  - rewrite rev_involutive, Hv. lia.
Qed.

Lemma number_skip_atoi_witness : exists cs, number 4095 10 (-1) (-1) 0 = Some cs /\
  skip_atoi (cs ++ [46]) = (4095, [46]).
Proof.
  eexists. split; [vm_compute; reflexivity|].
  apply (number_skip_atoi 4095 _ [46]); [lia|reflexivity|vm_compute; reflexivity].
Defined.

(** ** Termination of vsprintf *)

Lemma skip_atoi_length s i : (length (snd (skip_atoi_from i s)) <= length s)%nat.
Proof.
  revert i. induction s as [|c s IH]; intros i; cbn; [lia|]. destruct (is_digit c); cbn; [|lia].
  specialize (IH (i32 (i * 10 + c - 48))). lia.
Qed.

Lemma parse_flags_length fmt flags : (length (snd (parse_flags fmt flags)) <= length fmt)%nat.
Proof.
  revert flags. induction fmt as [|c fmt IH]; intros flags; cbn; [lia|].
  repeat case_match; cbn; try lia;
    match goal with |- context [parse_flags fmt ?f] => specialize (IH f); lia end.
Qed.

Section Total.
Context (args : nat -> Z) (str_at : Z -> list Z).
Hypothesis args_nonnull : forall k, u64 (args k) <> 0.

Lemma number_some num base size precision type : 8 <= base <= 36 ->
  exists cs, number num base size precision type = Some cs.
Proof using Type.
  intros. unfold number.
  rewrite (proj2 (Z.ltb_ge base 2)), (proj2 (Z.ltb_ge 36 base)) by lia. cbn [orb]. cbv zeta.
  match goal with |- context [tmp_digits (u64 ?x) _] => set (n := u64 x) end.
  assert (word64 n) as Hn by (apply Z.mod_pos_bound; lia).
  destruct (tmp_digits_spec n base ltac:(lia) Hn) as (_ & _ & Hl).
  rewrite (proj2 (Z.leb_le _ _) (ltac:(lia) : Z.of_nat (length (tmp_digits n base)) <= 50)).
  cbn [guard_fault mbind option_bind]. eauto.
Qed.

Lemma convert_total c flags w p q st : exists st', convert args str_at c flags w p q st = Some st'.
Proof using args_nonnull.
  unfold convert, conv_number, next_arg. rewrite (proj2 (Z.eqb_neq _ _) (args_nonnull (used st))).
  cbn [negb guard_fault mbind option_bind].
  repeat case_match; eauto;
    match goal with |- context [number ?a ?b ?c ?d ?e] =>
      destruct (number_some a b c d e ltac:(lia)) as [cs ->]; cbn; eauto end.
Qed.

Lemma vsprintf_spec_total fmt st : exists fmt' st',
  vsprintf_spec args str_at fmt st = Some (fmt', st') /\ (length fmt' <= length fmt)%nat.
Proof using args_nonnull.
  unfold vsprintf_spec.
  pose proof (parse_flags_length fmt 0) as H1. destruct (parse_flags fmt 0) as [flags f1]. cbn in H1.
  assert (length (snd (fst (parse_width args f1 flags st))) <= length f1)%nat as H2.
  { unfold parse_width. destruct f1 as [|c f1]; [done|].
    pose proof (skip_atoi_length (c :: f1) 0) as Hs. unfold skip_atoi.
    destruct (skip_atoi_from 0 (c :: f1)). cbn [snd] in Hs.
    repeat case_match; cbn in *; lia. }
  destruct (parse_width args f1 flags st) as [[[w fl] f2] st2]. cbn in H2.
  assert (length (snd (fst (parse_precision args f2 st2))) <= length f2)%nat as H3.
  { unfold parse_precision. destruct f2 as [|c [|c' f2]]; [done|cbn; case_match; cbn; lia|].
    pose proof (skip_atoi_length (c' :: f2) 0) as Hs. unfold skip_atoi.
    destruct (skip_atoi_from 0 (c' :: f2)). cbn [snd] in Hs.
    repeat case_match; cbn in *; lia. }
  destruct (parse_precision args f2 st2) as [[p f3] st3]. cbn in H3.
  assert (length (snd (parse_qualifier f3)) <= length f3)%nat as H4.
  { unfold parse_qualifier. destruct f3 as [|c f3]; [done|]. case_match; cbn; lia. }
  destruct (parse_qualifier f3) as [q f4]. cbn in H4. destruct f4 as [|c f4].
  - eexists _, _. split; [done|cbn; lia].
  - destruct (convert_total c fl w p q st3) as [st' ->]. cbn in H4.
    eexists _, _. split; [done|lia].
Qed.

(** [vsprintf] returns for every format string, however malformed, as long as no string
    argument is NULL; text without conversions is copied unchanged. *)
Theorem vsprintf_total fmt : exists text writes, vsprintf args str_at fmt = Some (text, writes) /\
  (Forall (fun c => c <> 37) fmt -> text = fmt /\ writes = []).
Proof using args_nonnull.
  assert (forall fuel fmt st, (length fmt < fuel)%nat -> exists st',
    vsprintf_loop args str_at fuel fmt st = Some st' /\
    (Forall (fun c => c <> 37) fmt -> out st' = out st ++ fmt /\ stores st' = stores st)) as Hgen.
  { induction fuel as [|fuel IH]; intros fmt0 st Hf; [lia|]. destruct fmt0 as [|c f]; cbn [vsprintf_loop].
    - eexists. split; [done|]. by rewrite app_nil_r.
    - cbn [length] in Hf. destruct (Z.eqb_spec c 37) as [->|Hc]; cbn [negb].
      + destruct (vsprintf_spec_total f st) as (f' & st1 & -> & Hl). cbn [mbind option_bind].
        destruct (IH f' st1 ltac:(lia)) as (st' & E & _). exists st'. split; [done|].
        intros HF. by apply Forall_cons in HF as [? _].
      + destruct (IH f (emit [c] st) ltac:(lia)) as (st' & E & Hp). exists st'. split; [done|].
        intros HF. apply Forall_cons in HF as [_ HF]. destruct (Hp HF) as [-> ->].
        cbn. by rewrite <- app_assoc. }
  destruct (Hgen (S (length fmt)) fmt (mkV [] 0 []) ltac:(lia)) as (st & E & Hp).
  unfold vsprintf. rewrite E. cbn [mbind option_bind]. eexists _, _. split; [done|]. apply Hp.
Qed.
End Total.

Lemma vsprintf_total_witness : exists writes,
  vsprintf (fun _ => 1) (fun _ => []) [104; 105] = Some ([104; 105], writes).
Proof.
  destruct (vsprintf_total (fun _ => 1) (fun _ => []) ltac:(intros; vm_compute; discriminate) [104; 105])
    as (text & writes & E & H).
  exists writes. rewrite E. destruct H as [-> _]; [repeat constructor; lia|reflexivity].
Defined.

(** ["%u"] of an [unsigned int] above the largest [int] prints a 64-bit number: the argument is
    read as an [int] and sign-extended. *)
Example vsprintf_unsigned_int :
  vsprintf (fun _ => 0xffffffff) (fun _ => []) [37; 117] =
  Some ([49; 56; 52; 52; 54; 55; 52; 52; 48; 55; 51; 55; 48; 57; 53; 53; 49; 54; 49; 53], []).
Proof. vm_compute. reflexivity. Qed.

(** ** The cursor and the screen *)

Record pos_ok (p : position) : Prop := {
  po_xc : 8 <= p.(XCharSize);
  po_yc : 16 <= p.(YCharSize);
  po_xr : p.(XCharSize) <= p.(XResolution);
  po_yr : p.(YCharSize) <= p.(YResolution);
  po_x : 0 <= p.(XPosition) < columns p;
  po_y : 0 <= p.(YPosition) < lines p
}.

(** The position of the cursor is only tested against the size of the screen. *)
Lemma wrap_ok p x y : pos_ok p -> 0 <= x -> 0 <= y ->
  pos_ok (wrap (set_cursor x y p)).
Proof.
  intros [] Hx Hy. unfold wrap.
  change (columns (set_cursor x y p)) with (columns p).
  assert (0 < columns p /\ 0 < lines p) by lia.
  destruct (Z.leb_spec (columns p) (XPosition (set_cursor x y p))); cbn in *;
    match goal with |- context [lines ?q <=? ?z] => change (lines q) with (lines p);
      destruct (Z.leb_spec (lines p) z) end;
    constructor; cbn; try done; change (columns (set_cursor _ _ _)) with (columns p);
    change (lines (set_cursor _ _ _)) with (lines p); unfold columns, lines in *; cbn in *; lia.
Qed.

(** The pixels of the screen. *)
Definition on_screen (p : position) (i : Z) : Prop := 0 <= i < p.(XResolution) * p.(YResolution).

(** Two states of one screen, which differ in its pixels only on the screen. *)
Record same_screen (st st' : position * pixels) : Prop := {
  ss_geo : (fst st').(XResolution) = (fst st).(XResolution) /\ (fst st').(YResolution) = (fst st).(YResolution) /\
    (fst st').(XCharSize) = (fst st).(XCharSize) /\ (fst st').(YCharSize) = (fst st).(YCharSize);
  ss_fb : forall i, ~ on_screen (fst st) i -> snd st' !! i = snd st !! i
}.

#[global] Instance same_screen_preorder : PreOrder same_screen.
Proof.
  split.
  - intros st. split; done.
  - intros s1 s2 s3 [G1 F1] [G2 F2]. split; [intuition congruence|].
    intros i Hi. rewrite F2, F1; [done|done|].
    unfold on_screen in *. destruct G1 as (-> & -> & _). done.
Qed.

Lemma put_pixels_ne l fb i : (forall q, q ∈ l -> fst q <> i) -> put_pixels l fb !! i = fb !! i.
Proof.
  unfold put_pixels. revert fb. induction l as [|q l IH]; intros fb Hq; cbn; [done|].
  rewrite IH by (intros; apply Hq; by apply list_elem_of_further).
  rewrite lookup_insert_ne; [done|]. apply Hq, list_elem_of_here.
Qed.

Lemma columns_bound p : pos_ok p -> columns p * p.(XCharSize) <= p.(XResolution).
Proof.
  intros []. unfold columns. rewrite Z.quot_div_nonneg by lia.
  rewrite Z.mul_comm. apply Z.mul_div_le. lia.
Qed.
Lemma lines_bound p : pos_ok p -> lines p * p.(YCharSize) <= p.(YResolution).
Proof.
  intros []. unfold lines. rewrite Z.quot_div_nonneg by lia.
  rewrite Z.mul_comm. apply Z.mul_div_le. lia.
Qed.

(** A character at a cursor inside the screen is drawn inside the screen. *)
Lemma draw_on_screen FR BK c p fb : pos_ok p -> same_screen (p, fb) (draw FR BK c (p, fb)).
Proof.
  intros Hok. pose proof (columns_bound p Hok). pose proof (lines_bound p Hok). destruct Hok.
  split; [done|]. intros i Hi. cbn [draw fst snd] in *. apply put_pixels_ne.
  intros q Hq <-. apply Hi. unfold glyph in Hq.
  apply list_elem_of_In, in_flat_map in Hq as (r & Hr & Hq).
  apply list_elem_of_In, in_range in Hr.
  apply list_elem_of_In, list_elem_of_fmap in Hq as (j & -> & Hj). apply in_range in Hj. cbn [fst].
  unfold on_screen.
  assert (0 <= p.(XPosition) * p.(XCharSize) /\ p.(XPosition) * p.(XCharSize) + j < p.(XResolution)) by nia.
  assert (0 <= p.(YPosition) * p.(YCharSize) /\ p.(YPosition) * p.(YCharSize) + r < p.(YResolution)) by nia.
  nia.
Qed.

Lemma wrap_screen p x y fb fb' : (forall i, ~ on_screen p i -> fb' !! i = fb !! i) ->
  same_screen (p, fb) (wrap (set_cursor x y p), fb').
Proof. intros H. split; [|done]. unfold wrap. cbn. repeat case_match; done. Qed.

Lemma advance_ok FR BK c p fb : pos_ok p ->
  pos_ok (fst (advance FR BK c (p, fb))) /\ same_screen (p, fb) (advance FR BK c (p, fb)).
Proof.
  intros Hok. pose proof (draw_on_screen FR BK c p fb Hok) as [_ Hfb]. cbn in *.
  split; [apply wrap_ok; [done|destruct Hok; lia|destruct Hok; lia]|by apply wrap_screen].
Qed.

Lemma advance_n_ok n FR BK c st : pos_ok (fst st) ->
  pos_ok (fst (advance_n n FR BK c st)) /\ same_screen st (advance_n n FR BK c st).
Proof.
  revert st. induction n as [|n IH]; intros [p fb] Hok; [done|]. cbn [advance_n].
  destruct (advance_ok FR BK c p fb Hok) as [Hok' Hs].
  destruct (IH (advance FR BK c (p, fb)) Hok') as [Hok'' Hs']. split; [done|]. by etransitivity.
Qed.

Lemma print_char_ok FR BK c st : pos_ok (fst st) ->
  pos_ok (fst (print_char FR BK c st)) /\ (c <> 8 -> same_screen st (print_char FR BK c st)).
Proof.
  destruct st as [p fb]. intros Hok. cbn [fst] in Hok. unfold print_char.
  destruct (Z.eqb_spec c 10) as [->|_].
  - split; [apply wrap_ok; [done|lia|destruct Hok; lia]|intros _; by apply wrap_screen].
  - destruct (Z.eqb_spec c 8) as [->|_].
    + split; [|done]. cbv zeta. set (p1 := set_cursor _ _ p).
      destruct (Z.ltb_spec (XPosition p1) 0); cbn [draw fst].
      * change (set_cursor ((columns p1 - 1) * XCharSize p1) ?y p1) with
          (set_cursor ((columns p - 1) * XCharSize p) y p).
        apply wrap_ok; [done|destruct Hok; nia|].
        destruct (Z.ltb_spec (YPosition p1 - 1) 0); [|lia].
        change (lines p1) with (lines p). change (YCharSize p1) with (YCharSize p). destruct Hok; nia.
      * apply wrap_ok; [done|done|destruct Hok; done || lia].
    + destruct (Z.eqb_spec c 9) as [->|_].
      * destruct (advance_n_ok (Z.to_nat (8 * ((XPosition p + 8) / 8) - XPosition p)) FR BK 32 (p, fb) Hok).
        auto.
      * destruct (advance_ok FR BK (u8 c) p fb Hok). auto.
Qed.

(** C39. The console keeps its cursor inside the screen, whatever is printed, and text without
    backspace is drawn inside the frame buffer: no other pixel changes. *)
Theorem print_text_ok FR BK text p fb : pos_ok p ->
  pos_ok (fst (print_text FR BK text (p, fb))) /\
  (8 ∉ text -> forall i, ~ on_screen p i -> snd (print_text FR BK text (p, fb)) !! i = fb !! i).
Proof.
  intros Hok.
  assert (forall text st, pos_ok (fst st) -> pos_ok (fst (print_text FR BK text st)) /\
    (8 ∉ text -> same_screen st (print_text FR BK text st))) as Hgen.
  { clear. induction text as [|c text IH]; intros st Hok; [done|].
    change (print_text FR BK (c :: text) st) with (print_text FR BK text (print_char FR BK c st)).
    destruct (print_char_ok FR BK c st Hok) as [Hok1 Hs1]. destruct (IH _ Hok1) as [Hok2 Hs2].
    split; [done|]. rewrite not_elem_of_cons. intros [Hc Ht]. etransitivity; [by apply Hs1|by apply Hs2]. }
  destruct (Hgen text (p, fb) Hok) as [H1 H2]. split; [done|]. intros H8. apply (H2 H8).
Qed.

Lemma print_text_ok_witness : pos_ok (fst (print_text 1 0 [72; 10; 9; 8] (mkPos 1024 768 127 47 8 16, ∅))).
Proof. apply print_text_ok. constructor; cbn; try lia; split; vm_compute; (discriminate || reflexivity). Defined.

(** A backspace at the left edge draws outside the screen: the column is computed in pixels
    and then scaled again. *)
Example backspace_off_screen :
  (snd (print_text 1 0 [8] (mkPos 1024 768 0 0 8 16, ∅))) !! (1024 * 12032 + 8128) = Some 0 /\
  ~ on_screen (mkPos 1024 768 0 0 8 16) (1024 * 12032 + 8128).
Proof. split; [vm_compute; reflexivity|]. unfold on_screen. cbn. lia. Qed.
