(* ===== verification/Timer.v ===== *)
(** * Soft interrupts and kernel timers (main.c 58-221, HPET.c 34-84)

    The state is the softirq status word with its 64 handlers, the timer list around
    [timer_list_head], and [jiffies].  A [struct timer_list *] is the address of its
    first member [list]; a function pointer is an address, 0 for NULL.  The kernel's
    own handler [do_timer] is modelled; the other functions that timers and soft
    interrupts point to are the parameter [call], which may do anything to the state.
    [do_softirq] and [do_timer] take fuel for their [while] loops. *)

From Stdlib Require Import Sorting.Sorted.
From S2P Require Import Prelude Bitmap Klist Sched.

(** [struct timer_list] without its [list] member, and [struct softirq]. *)
Record timer_list := mkTimer { expect_jiffies : Z; func : Z; data : Z }.
Record softirq := mkSoftirq { action : Z; action_data : Z }.

(** [world] is the rest of the system, for the functions that are called. *)
Record ktime (W : Type) := mkKtime {
  tnodes : lists;
  timers : gmap Z timer_list;
  jiffies : Z;
  softirq_status : Z;
  softirq_vector : list softirq;
  world : W
}.
Arguments mkKtime {W}.
Arguments tnodes {W}.
Arguments timers {W}.
Arguments jiffies {W}.
Arguments softirq_status {W}.
Arguments softirq_vector {W}.
Arguments world {W}.

Definition TIMER_SIRQ : Z := 1.

Section Setters.
Context {W : Type}.
Implicit Type s : ktime W.

Definition set_tnodes (n : lists) s : ktime W :=
  mkKtime n s.(timers) s.(jiffies) s.(softirq_status) s.(softirq_vector) s.(world).
Definition set_timers (t : gmap Z timer_list) s : ktime W :=
  mkKtime s.(tnodes) t s.(jiffies) s.(softirq_status) s.(softirq_vector) s.(world).
Definition set_jiffies (j : Z) s : ktime W :=
  mkKtime s.(tnodes) s.(timers) j s.(softirq_status) s.(softirq_vector) s.(world).
Definition set_status (v : Z) s : ktime W :=
  mkKtime s.(tnodes) s.(timers) s.(jiffies) v s.(softirq_vector) s.(world).
Definition set_vector (v : list softirq) s : ktime W :=
  mkKtime s.(tnodes) s.(timers) s.(jiffies) s.(softirq_status) v s.(world).
Definition set_world (w : W) s : ktime W :=
  mkKtime s.(tnodes) s.(timers) s.(jiffies) s.(softirq_status) s.(softirq_vector) w.
End Setters.

Section Timer.
Context {W : Type}.
(** What calling the function at an address with an argument does, what printing
    the clock does to the rest of the system, and the addresses of
    [timer_list_head], [do_timer] and [test_timer]. *)
Context (call : Z -> Z -> ktime W -> option (ktime W)) (printed : Z -> W -> W).
Context (timer_list_head do_timer_addr test_timer_addr : Z).

(** ** Soft interrupts *)

Definition register_softirq (nr action data : Z) (s : ktime W) : option (ktime W) :=
  _ ← guard_fault ((0 <=? nr) && (nr <? 64));
  Some (set_vector (<[Z.to_nat nr := mkSoftirq action data]> s.(softirq_vector)) s).

Definition unregister_softirq (nr : Z) : ktime W -> option (ktime W) := register_softirq nr 0 0.

Definition set_softirq_status (status : Z) (s : ktime W) : ktime W :=
  set_status (s.(softirq_status) .| status) s.

Definition softirq_init (s : ktime W) : ktime W :=
  set_vector (repeat (mkSoftirq 0 0) 64) (set_status 0 s).

(** ** Timers *)

Definition init_timer (timer func data expect : Z) (s : ktime W) : ktime W :=
  set_timers (<[timer := mkTimer (s.(jiffies) .+ expect) func data]> s.(timers))
    (set_tnodes (list_init timer s.(tnodes)) s).

(** [while(tmp->expect_jiffies < timer->expect_jiffies) tmp = next of tmp]. *)
Fixpoint skip_earlier (fuel : nat) (v : Z) (s : ktime W) (tmp : Z) : option Z :=
  match fuel with
  | O => None
  | S fuel =>
      t ← s.(timers) !! tmp;
      if t.(expect_jiffies) <? v then n ← list_next tmp s.(tnodes); skip_earlier fuel v s n
      else Some tmp
  end.

Definition add_timer (timer : Z) (s : ktime W) : option (ktime W) :=
  tmp ← list_next timer_list_head s.(tnodes);
  e ← list_is_empty timer_list_head s.(tnodes);
  t ← s.(timers) !! timer;
  tmp ← (if negb (e =? 0) then Some tmp
         else skip_earlier (S (size s.(tnodes))) t.(expect_jiffies) s tmp);
  n ← list_add_to_behind tmp timer s.(tnodes);
  Some (set_tnodes n s).

Definition del_timer (timer : Z) (s : ktime W) : option (ktime W) :=
  n ← list_del timer s.(tnodes); Some (set_tnodes n s).

(** The [while] loop of [do_timer]; the next timer is read before the test, and again
    after the function of the timer returned. *)
Fixpoint do_timer_loop (fuel : nat) (s : ktime W) : option (ktime W) :=
  match fuel with
  | O => None
  | S fuel =>
      tmp ← list_next timer_list_head s.(tnodes);
      e ← list_is_empty timer_list_head s.(tnodes);
      t ← s.(timers) !! tmp;
      if (e =? 0) && (t.(expect_jiffies) <=? s.(jiffies)) then
        s ← del_timer tmp s;
        _ ← guard_fault (negb (t.(func) =? 0));
        s ← call t.(func) t.(data) s;
        do_timer_loop fuel s
      else Some s
  end.

Definition do_timer (fuel : nat) (s : ktime W) : option (ktime W) :=
  s ← do_timer_loop fuel s; Some (set_world (printed s.(jiffies) s.(world)) s).

(** The call [softirq_vector[i].action(softirq_vector[i].data)]. *)
Definition run_action (fuel : nat) (a : softirq) (s : ktime W) : option (ktime W) :=
  _ ← guard_fault (negb (a.(action) =? 0));
  if a.(action) =? do_timer_addr then do_timer fuel s else call a.(action) a.(action_data) s.

(** [1 << i], an [int] shift converted to [unsigned long]: the processor takes the
    count modulo 32, and bit 31 is the sign. *)
Definition softirq_mask (i : Z) : Z := u64 (i32 (Z.shiftl 1 (i `mod` 32))).

(** The body of the [for] loop. *)
Definition softirq_step (fuel : nat) (i : Z) (s : ktime W) : option (ktime W) :=
  if negb (s.(softirq_status) .& softirq_mask i =? 0) then
    a ← s.(softirq_vector) !! Z.to_nat i;
    s ← run_action fuel a s;
    Some (set_status (s.(softirq_status) .& .~ softirq_mask i) s)
  else Some s.

(** [do_softirq]; the interrupts it enables are steps of their own. *)
Fixpoint do_softirq (rounds fuel : nat) (s : ktime W) : option (ktime W) :=
  match rounds with
  | O => None
  | S rounds =>
      if s.(softirq_status) =? 0 then Some s
      else s ← for_each (softirq_step fuel) (range 0 64) s; do_softirq rounds fuel s
  end.

(** [tmp] is the address [kmalloc] returns. *)
Definition timer_init (tmp : Z) (s : ktime W) : option (ktime W) :=
  let s := init_timer timer_list_head 0 0 (u64 (-1)) (set_jiffies 0 s) in
  s ← register_softirq 0 do_timer_addr 0 s;
  _ ← guard_fault (negb (tmp =? 0));
  add_timer tmp (init_timer tmp test_timer_addr 0 5 s).

(** The clock part of [HPET_handler]. *)
Definition clock_tick (s : ktime W) : option (ktime W) :=
  let s := set_jiffies (s.(jiffies) .+ 1) s in
  tmp ← list_next timer_list_head s.(tnodes);
  t ← s.(timers) !! tmp;
  Some (if t.(expect_jiffies) <=? s.(jiffies) then set_softirq_status TIMER_SIRQ s else s).

(** [HPET_handler]: the clock, then the accounting of the processor's time slice, the
    same statements as in [IPI_0x200]. *)
Definition HPET_handler (st : ktime W * sched) : option (ktime W * sched) :=
  t ← clock_tick (fst st);
  c ← IPI_0x200 (snd st);
  Some (t, c).
End Timer.

(** ** The timer list, abstractly *)

Section TimerList.
Context {W : Type} (timer_list_head : Z).
Implicit Type s : ktime W.

Definition expiry s (a : Z) : Z := from_option expect_jiffies 0 (s.(timers) !! a).

(** Behind the first timer that does not expire earlier. *)
Fixpoint insert_behind (key : Z -> Z) (x : Z) (l : list Z) : option (list Z) :=
  match l with
  | [] => None
  | y :: l' => if key y <? key x then cons y <$> insert_behind key x l' else Some (y :: x :: l')
  end.

(** The timers at the front of the list that are due. *)
Fixpoint due (s : ktime W) (l : list Z) : list Z :=
  match l with
  | [] => []
  | a :: l' => if expiry s a <=? s.(jiffies) then a :: due s l' else []
  end.

Record timers_ok (s : ktime W) (l : list Z) : Prop := {
  to_ring : ring s.(tnodes) timer_list_head l;
  to_null : 0 ∉ timer_list_head :: l;
  to_head : expect_jiffies <$> s.(timers) !! timer_list_head = Some (2 ^ 64 - 1);
  to_timers : forall a, a ∈ l -> exists t, s.(timers) !! a = Some t /\ 0 <= t.(expect_jiffies) < 2 ^ 64
}.

Lemma skip_earlier_spec s x l2 : forall fuel l1,
  timers_ok s (l1 ++ l2) -> expiry s x <= 2 ^ 64 - 1 -> (length l2 < fuel)%nat ->
  match insert_behind (expiry s) x l2 with
  | Some l' => exists pre y post, l2 = pre ++ y :: post /\ l' = pre ++ y :: x :: post /\
      skip_earlier fuel (expiry s x) s (default timer_list_head (head l2)) = Some y
  | None => skip_earlier fuel (expiry s x) s (default timer_list_head (head l2)) = Some timer_list_head
  end.
Proof using Type.
  induction l2 as [|y l2 IH]; intros [|fuel] l1 T Hx Hf; cbn [length] in Hf; try lia;
    cbn [insert_behind head from_option id skip_earlier]; pose proof T as [R N Hh Ht].
  - destruct (timers s !! timer_list_head) as [t|]; [|done]. cbn in Hh. simplify_eq.
    cbn [mbind option_bind]. by rewrite (proj2 (Z.ltb_ge _ _)) by lia.
  - destruct (Ht y) as (t & Et & _); [set_solver|]. rewrite Et. cbn [mbind option_bind].
    assert (expiry s y = expect_jiffies t) as <- by (unfold expiry; by rewrite Et).
    destruct (Z.ltb_spec (expiry s y) (expiry s x)).
    + rewrite (list_next_in_ring _ timer_list_head l1 y l2) by done. cbn [mbind option_bind].
      specialize (IH fuel (l1 ++ [y])). rewrite <- app_assoc in IH.
      specialize (IH T Hx ltac:(lia)).
      destruct (insert_behind (expiry s) x l2) as [l'|]; cbn [fmap option_fmap option_map].
      * destruct IH as (pre & z & post & -> & -> & E). by exists (y :: pre), z, post.
      * done.
    + exists [], y, l2. done.
Qed.

(** [add_timer] puts the new timer directly behind the first queued timer that does not
    expire earlier, and at the front when there is none; the other timers keep their
    order. *)
Theorem add_timer_spec s l x : timers_ok s l -> x ∉ timer_list_head :: l -> x <> 0 ->
  is_Some (s.(tnodes) !! x) ->
  (exists t, s.(timers) !! x = Some t /\ 0 <= t.(expect_jiffies) < 2 ^ 64) ->
  exists n, add_timer timer_list_head x s = Some (set_tnodes n s) /\
    timers_ok (set_tnodes n s) (default (x :: l) (insert_behind (expiry s) x l)) /\
    (forall a, a ∉ timer_list_head :: x :: l -> n !! a = s.(tnodes) !! a).
Proof using Type.
  intros T Hx H0 Hn (t & Et & Hr). pose proof T as [R N Hh Ht].
  assert (expiry s x = expect_jiffies t) as Ex by (unfold expiry; by rewrite Et).
  assert (forall n l', ring n timer_list_head l' -> l' ≡ₚ x :: l -> timers_ok (set_tnodes n s) l') as Hok.
  { intros n l' R' P. constructor; [done| |done|].
    - rewrite P. set_solver.
    - intros a Ha. rewrite P in Ha. apply elem_of_cons in Ha as [->|Ha]; [by exists t|by apply Ht]. }
  unfold add_timer. rewrite (list_next_ring _ _ _ N R), (list_is_empty_ring _ _ _ R), Et.
  cbn [mbind option_bind].
  pose proof (skip_earlier_spec s x l (S (size (tnodes s))) [] T ltac:(lia)
    ltac:(pose proof (ring_size _ _ _ R); lia)) as Hs.
  rewrite Ex in Hs.
  destruct l as [|b l].
  - cbn [head from_option id]. rewrite decide_True by done. cbn [negb Z.eqb mbind option_bind].
    destruct (list_add_to_behind_ring _ timer_list_head x [] R Hn Hx) as (n & -> & R' & F & _).
    exists n. split_and!; [done|apply Hok; done|done].
  - rewrite decide_False by done. cbn [negb Z.eqb].
    destruct (insert_behind (expiry s) x (b :: l)) as [l'|] eqn:Ei; cbn [from_option id].
    + destruct Hs as (pre & y & post & Hl & -> & ->). cbn [mbind option_bind]. rewrite Hl in *.
      destruct (list_insert_behind_ring _ timer_list_head pre y post x R Hn Hx) as (n & -> & R' & F & _).
      exists n. split_and!; [done|apply Hok; [done|]|done].
      rewrite Permutation_middle. by rewrite (Permutation_swap x y post).
    + rewrite Hs. cbn [mbind option_bind].
      destruct (list_add_to_behind_ring _ timer_list_head x (b :: l) R Hn Hx) as (n & -> & R' & F & _).
      exists n. split_and!; [done|by apply Hok|done].
Qed.

Lemma due_prefix s l : exists rest, l = due s l ++ rest /\
  match rest with a :: _ => s.(jiffies) < expiry s a | [] => True end.
Proof using Type.
  induction l as [|a l (rest & E & H)]; cbn [due]; [by exists []|].
  destruct (Z.leb_spec (expiry s a) (jiffies s)).
  - exists rest. split; [|done]. cbn [app]. by f_equal.
  - exists (a :: l). by split.
Qed.

(** In a sorted list the timers at the front that are due are all the timers due. *)
Lemma due_sorted s l : StronglySorted (fun a b => expiry s a <= expiry s b) l ->
  forall a, a ∈ l -> (expiry s a <= s.(jiffies) <-> a ∈ due s l).
Proof using Type.
  induction 1 as [|b l _ IH Hb]; intros a Ha; [by apply not_elem_of_nil in Ha|]. cbn [due].
  rewrite Forall_forall in Hb.
  destruct (Z.leb_spec (expiry s b) (jiffies s)); apply elem_of_cons in Ha as [->|Ha].
  - split; [intros; apply list_elem_of_here|done].
  - rewrite elem_of_cons, <- IH by done. split; [by right|intros [->|?]; [done|done]].
  - split; [lia|intros Hn; by apply not_elem_of_nil in Hn].
  - specialize (Hb a Ha). split; [lia|intros Hn; by apply not_elem_of_nil in Hn].
Qed.
End TimerList.

(** ** do_timer, when the functions of the timers leave the timers alone *)

Section DoTimer.
Context {W : Type} (call : Z -> Z -> ktime W -> option (ktime W)).
Context (timer_list_head : Z) (effect : Z -> Z -> W -> W).
Implicit Type s : ktime W.

Definition well_behaved s (a : Z) : Prop := forall t, s.(timers) !! a = Some t ->
  t.(func) <> 0 /\
  forall u, call t.(func) t.(data) u = Some (set_world (effect t.(func) t.(data) u.(world)) u).

(** The effect of the timer [a]. *)
Definition fire s (w : W) (a : Z) : W :=
  match s.(timers) !! a with Some t => effect t.(func) t.(data) w | None => w end.

Lemma do_timer_loop_spec l : forall fuel s,
  timers_ok timer_list_head s l -> 0 <= s.(jiffies) < 2 ^ 64 - 1 ->
  Forall (well_behaved s) (due s l) -> (length (due s l) < fuel)%nat ->
  exists n, do_timer_loop call timer_list_head fuel s =
      Some (set_world (foldl (fire s) s.(world) (due s l)) (set_tnodes n s)) /\
    ring n timer_list_head (drop (length (due s l)) l).
Proof using Type.
  induction l as [|a l IH]; intros [|fuel] s T Hj HW Hf; try (cbn in Hf; lia);
    pose proof T as [R N Hh Ht]; cbn [do_timer_loop];
    rewrite (list_next_ring _ _ _ N R), (list_is_empty_ring _ _ _ R); cbn [mbind option_bind head from_option id].
  - destruct (timers s !! timer_list_head) as [t|]; [|done]. cbn in Hh. simplify_eq.
    rewrite decide_True by done. cbn [mbind option_bind Z.eqb andb due foldl length drop].
    exists s.(tnodes). split; [by destruct s|done].
  - rewrite decide_False by done. destruct (Ht a) as (t & Et & Hr); [set_solver|]. rewrite Et.
    cbn [mbind option_bind]. cbn [due] in *.
    assert (expiry s a = expect_jiffies t) as Ea by (unfold expiry; by rewrite Et).
    rewrite Ea in *. change (0 =? 0) with true. cbn [andb].
    destruct (Z.leb_spec (expect_jiffies t) (jiffies s)).
    + apply Forall_cons in HW as [Ha HW]. destruct (Ha t Et) as [Hnz Hc].
      destruct (list_del_ring _ timer_list_head a [] l R) as (n & En & R' & _).
      unfold del_timer. rewrite En. cbn [mbind option_bind].
      rewrite (proj2 (Z.eqb_neq _ _) Hnz). cbn [negb guard_fault mbind option_bind].
      rewrite Hc. cbn [mbind option_bind world set_tnodes].
      set (s' := set_world _ _).
      assert (due s' l = due s l) as Ed.
      { clear. induction l as [|b l IH]; cbn [due]; [done|]. unfold expiry in *. cbn in *. by rewrite IH. }
      destruct (IH fuel s') as (n' & E' & R''); [|done|by rewrite Ed| |].
      { constructor; [done|set_solver|done|]. intros b Hb. apply Ht. by apply list_elem_of_further. }
      { rewrite Ed. cbn [length] in Hf. lia. }
      rewrite Ed in *. rewrite E'. exists n'. split; [|done]. cbn [foldl].
      assert (fire s (world s) a = effect (func t) (data t) (world s)) as -> by (unfold fire; by rewrite Et). done.
    + exists s.(tnodes). split; [by destruct s|done].
Qed.

(** [do_timer] runs exactly the timers at the front of the list that are due, in list
    order, takes them off the list and leaves the others; when the list is sorted by expiry,
    these are all the timers that are due. *)
Theorem do_timer_spec printed s l fuel :
  timers_ok timer_list_head s l -> 0 <= s.(jiffies) < 2 ^ 64 - 1 ->
  Forall (well_behaved s) (due s l) -> (length (due s l) < fuel)%nat ->
  exists n, do_timer call printed timer_list_head fuel s =
      Some (set_world (printed s.(jiffies) (foldl (fire s) s.(world) (due s l))) (set_tnodes n s)) /\
    timers_ok timer_list_head (set_tnodes n s) (drop (length (due s l)) l) /\
    (StronglySorted (fun a b => expiry s a <= expiry s b) l ->
     forall a, a ∈ l -> (expiry s a <= s.(jiffies) <-> a ∈ due s l)).
Proof using Type.
  intros T Hj HW Hf. destruct (do_timer_loop_spec l fuel s T Hj HW Hf) as (n & E & R).
  unfold do_timer. rewrite E. exists n. split; [done|]. split; [|apply due_sorted].
  destruct T as [_ N Hh Ht].
  assert (forall a, a ∈ drop (length (due s l)) l -> a ∈ l) as Hd.
  { intros a Ha. rewrite <- (take_drop (length (due s l)) l), elem_of_app. by right. }
  constructor; [done| |done|].
  - intros Hin. apply N. apply elem_of_cons in Hin as [->|Hin]; [apply list_elem_of_here|].
    apply list_elem_of_further. by apply Hd.
  - intros a Ha. apply Ht. by apply Hd.
Qed.
End DoTimer.

(** ** do_softirq *)

Section DoSoftirq.
Context {W : Type} (call : Z -> Z -> ktime W -> option (ktime W)) (printed : Z -> W -> W).
Context (timer_list_head do_timer_addr : Z) (effect : Z -> Z -> W -> W) (fuel : nat) (vector : list softirq).
Implicit Type s : ktime W.

(** Softirq [i] has a handler other than [do_timer] that returns and leaves the timers and softirqs alone,
    as [well_behaved] says of the function of a timer. *)
Definition quiet_handler (i : Z) : Prop := exists a, vector !! Z.to_nat i = Some a /\
  a.(action) <> 0 /\ a.(action) <> do_timer_addr /\
  forall u, call a.(action) a.(action_data) u = Some (set_world (effect a.(action) a.(action_data) u.(world)) u).
(** Its effect. *)
Definition ran (w : W) (i : Z) : W :=
  match vector !! Z.to_nat i with Some a => effect a.(action) a.(action_data) w | None => w end.
Definition handler (i : Z) s : ktime W := set_world (ran s.(world) i) s.

(** The softirqs below 31 that are raised, lowest first. *)
Definition raised s (lo : Z) : list Z := List.filter (Z.testbit s.(softirq_status)) (range lo 31).

(** Running a handler and clearing its bit. *)
Definition handled (u : ktime W) (i : Z) : ktime W :=
  set_status (u.(softirq_status) .& .~ (1 .<< i)) (handler i u).

Lemma softirq_mask_low i : 0 <= i < 31 -> softirq_mask i = 1 .<< i.
Proof using Type.
  intros. unfold softirq_mask. rewrite Z.mod_small by lia. f_equal.
  rewrite Z.shiftl_1_l. apply i32_small.
  assert (2 ^ i < 2 ^ 31) by (apply Z.pow_lt_mono_r; lia). lia.
Qed.

Lemma softirq_step_low i s : 0 <= i < 31 ->
  softirq_step call printed timer_list_head do_timer_addr fuel i s =
  if Z.testbit s.(softirq_status) i then
    a ← s.(softirq_vector) !! Z.to_nat i;
    s ← run_action call printed timer_list_head do_timer_addr fuel a s;
    Some (set_status (s.(softirq_status) .& .~ (1 .<< i)) s)
  else Some s.
Proof using Type.
  intros. unfold softirq_step. by rewrite softirq_mask_low, land_bit_eqb, negb_involutive by lia.
Qed.

Lemma softirq_steps_low n : forall s lo, lo = 31 - Z.of_nat n -> 0 <= lo ->
  word64 s.(softirq_status) -> s.(softirq_vector) = vector ->
  (forall j, 0 <= j < 64 -> j < lo \/ 31 <= j -> Z.testbit s.(softirq_status) j = false) ->
  Forall quiet_handler (raised s lo) ->
  for_each (softirq_step call printed timer_list_head do_timer_addr fuel) (range lo 31) s =
    Some (foldl handled s (raised s lo)) /\
  (foldl handled s (raised s lo)).(softirq_status) = 0.
Proof using Type.
  induction n as [|n IH]; intros s lo Hlo H0 Hw Hv Hb Hq; unfold raised in *.
  - rewrite (range_nil lo 31) by lia. cbn. split; [done|]. apply Z.bits_inj'. intros j Hj.
    rewrite Z.bits_0. destruct (decide (j < 64)); [apply Hb; lia|].
    apply testbit_word64_high; [done|lia].
  - rewrite (range_cons lo 31) in * by lia. cbn [for_each List.filter] in *.
    rewrite softirq_step_low by lia.
    destruct (Z.testbit (softirq_status s) lo) eqn:Elo; cbn [mbind option_bind].
    + apply Forall_cons in Hq as [(a & Ea & Hn & Hd & Ha) Hq].
      assert (run_action call printed timer_list_head do_timer_addr fuel a s = Some (handler lo s)) as Er.
      { unfold run_action, handler, ran. rewrite Ea, (proj2 (Z.eqb_neq _ _) Hn), (proj2 (Z.eqb_neq _ _) Hd). apply Ha. }
      rewrite Hv, Ea. cbn [mbind option_bind]. rewrite Er. cbn [mbind option_bind].
      change (softirq_status (handler lo s)) with (softirq_status s). cbn [foldl]. change (set_status _ (handler lo s)) with (handled s lo).
      assert (forall j, 0 <= j < 64 -> Z.testbit (softirq_status (handled s lo)) j =
        Z.testbit (softirq_status s) j && negb (bool_decide (lo = j))) as Hbit.
      { intros j Hj. unfold handled. cbn [softirq_status set_status]. apply testbit_clean_bit; lia. }
      assert (List.filter (Z.testbit (softirq_status (handled s lo))) (range (lo + 1) 31) =
        List.filter (Z.testbit (softirq_status s)) (range (lo + 1) 31)) as Ef.
      { apply List.filter_ext_in. intros j Hj. apply list_elem_of_In, in_range in Hj.
        rewrite Hbit by lia. rewrite bool_decide_eq_false_2 by lia. by rewrite andb_true_r. }
      destruct (IH (handled s lo) (lo + 1)) as [E E0]; [lia|lia| |done| |by rewrite Ef|].
      * unfold handled. cbn [softirq_status set_status]. apply word64_land; [done|apply u64_range].
      * intros j Hj Hc. rewrite Hbit by lia. destruct (decide (lo = j)) as [->|Hne].
        -- by rewrite bool_decide_eq_true_2, andb_false_r by done.
        -- rewrite Hb by lia. done.
      * rewrite Ef in E, E0. by split.
    + apply IH; [lia|lia|done|done| |done]. intros j Hj Hc. destruct (decide (j = lo)) as [->|]; [done|].
      apply Hb; lia.
Qed.

Lemma softirq_steps_zero l s : s.(softirq_status) = 0 ->
  for_each (softirq_step call printed timer_list_head do_timer_addr fuel) l s = Some s.
Proof using Type.
  intros H. induction l as [|i l IH]; cbn [for_each]; [done|].
  assert (softirq_step call printed timer_list_head do_timer_addr fuel i s = Some s) as ->; [|done].
  unfold softirq_step. by rewrite H, Z.land_0_l.
Qed.

Lemma handled_all l : forall s, foldl handled s l =
  set_status (foldl handled s l).(softirq_status) (set_world (foldl ran s.(world) l) s).
Proof using Type. induction l as [|i l IH]; intros s; cbn [foldl]; [by destruct s|]. rewrite IH. done. Qed.

(** The timer softirq, whose bit is the first. *)
Definition after_timer s (l : list Z) : W :=
  if Z.testbit s.(softirq_status) 0 then printed s.(jiffies) (foldl (fire effect s) s.(world) (due s l)) else s.(world).

Lemma timer_softirq_spec s l : word64 s.(softirq_status) -> timers_ok timer_list_head s l -> 0 <= s.(jiffies) < 2 ^ 64 - 1 ->
  Forall (well_behaved call effect s) (due s l) -> (length (due s l) < fuel)%nat ->
  do_timer_addr <> 0 -> s.(softirq_vector) !! 0%nat = Some (mkSoftirq do_timer_addr 0) ->
  exists n, softirq_step call printed timer_list_head do_timer_addr fuel 0 s =
      Some (set_status (s.(softirq_status) .& .~ (1 .<< 0)) (set_world (after_timer s l) (set_tnodes n s))) /\
    timers_ok timer_list_head (set_tnodes n s) (if Z.testbit s.(softirq_status) 0 then drop (length (due s l)) l else l).
Proof using Type.
  intros Hw T Hj HW Hf Ha Hv. rewrite softirq_step_low by lia. unfold after_timer. destruct (Z.testbit (softirq_status s) 0) eqn:E0.
  - change (Z.to_nat 0) with 0%nat. rewrite Hv. cbn [mbind option_bind]. destruct (do_timer_spec call timer_list_head effect printed s l fuel T Hj HW Hf) as (n & E & T' & _).
    exists n. split; [|done]. unfold run_action. cbn [action]. by rewrite (proj2 (Z.eqb_neq _ _) Ha), Z.eqb_refl, E.
  - exists s.(tnodes). split; [|by destruct s]. f_equal.
    assert (s.(softirq_status) .& .~ (1 .<< 0) = s.(softirq_status)) as ->; [|by destruct s].
    apply Z.bits_inj'. intros j Hj'. destruct (decide (j < 64)) as [Hl|Hl].
    + rewrite testbit_clean_bit by lia. destruct (decide (0 = j)) as [<-|Hne]; [by rewrite E0|].
      by rewrite bool_decide_eq_false_2, andb_true_r by done.
    + rewrite !testbit_word64_high; [done|done|lia|apply word64_land; [done|apply u64_range]|lia].
Qed.

(** C32. Soft interrupts.  The kernel's state after [timer_init] and any later one in which the timer list
    is well formed: when softirqs below 31 are raised, of which number 0 is [do_timer] and the others have
    handlers that leave timers and softirqs alone, [do_softirq] returns after one pass: it runs the timers
    at the front of the list that are due and prints the clock if 0 is raised, then the handler of each
    other raised softirq exactly once, lowest number first, and leaves no softirq raised; the timers that
    ran are off the list, the others stay on it. *)
Theorem do_softirq_spec s l : timers_ok timer_list_head s l -> 0 <= s.(jiffies) < 2 ^ 64 - 1 ->
  Forall (well_behaved call effect s) (due s l) -> (length (due s l) < fuel)%nat ->
  0 <= s.(softirq_status) < 2 ^ 31 -> s.(softirq_vector) = vector ->
  do_timer_addr <> 0 -> vector !! 0%nat = Some (mkSoftirq do_timer_addr 0) -> Forall quiet_handler (raised s 1) ->
  exists n, do_softirq call printed timer_list_head do_timer_addr 2 fuel s =
      Some (set_status 0 (set_world (foldl ran (after_timer s l) (raised s 1)) (set_tnodes n s))) /\
    timers_ok timer_list_head (set_tnodes n s) (if Z.testbit s.(softirq_status) 0 then drop (length (due s l)) l else l).
Proof using Type.
  intros T Hj HW Hf Hs Hv Ha Hv0 Hq. rewrite <- Hv in Hv0.
  assert (word64 s.(softirq_status)) as Hw by (unfold word64; lia).
  destruct (timer_softirq_spec s l Hw T Hj HW Hf Ha Hv0) as (n & E1 & T1).
  exists n. split; [|done]. set (s1 := set_status _ _) in E1.
  assert (forall j, 0 <= j < 64 -> Z.testbit s1.(softirq_status) j = Z.testbit s.(softirq_status) j && negb (bool_decide (0 = j))) as Hbit.
  { intros j Hj'. subst s1. cbn [softirq_status set_status]. apply testbit_clean_bit; lia. }
  assert (forall j, 31 <= j -> Z.testbit (softirq_status s) j = false) as Hhigh.
  { intros j Hj'. apply (proj1 (Z.bounded_iff_bits_nonneg' 31 (softirq_status s) ltac:(lia) ltac:(lia))); lia. }
  assert (raised s1 1 = raised s 1) as Er.
  { unfold raised. apply List.filter_ext_in. intros j Hj'. apply list_elem_of_In, in_range in Hj'.
    rewrite Hbit by lia. rewrite bool_decide_eq_false_2 by lia. by rewrite andb_true_r. }
  destruct (softirq_steps_low 30 s1 1) as [E E0]; [done|lia| |done| |by rewrite Er|].
  { subst s1. cbn [softirq_status set_status]. apply word64_land; [done|apply u64_range]. }
  { intros j Hj' Hc. rewrite Hbit by lia. destruct Hc as [Hc|Hc].
    - assert (j = 0) as -> by lia. by rewrite bool_decide_eq_true_2, andb_false_r.
    - by rewrite Hhigh. }
  rewrite Er in E, E0. rewrite (handled_all (raised s 1) s1), E0 in E.
  cbn [do_softirq]. destruct (Z.eqb_spec (softirq_status s) 0) as [H0|H0].
  - assert (s1 = set_tnodes n s) as E2.
    { unfold s1, after_timer. rewrite H0. by destruct s; cbn in H0; subst. }
    assert (raised s 1 = []) as -> by (unfold raised; rewrite H0; reflexivity).
    unfold softirq_step in E1. rewrite H0, Z.land_0_l in E1. cbn [Z.eqb negb] in E1.
    injection E1 as E1. cbn [foldl]. unfold after_timer. rewrite H0. cbn [Z.testbit].
    rewrite E1 at 1. rewrite E2. destruct s; cbn in *; by subst.
  - rewrite (range_cons 0 64) by lia. change (0 + 1) with 1. rewrite (range_app 1 31 64) by lia. cbn [for_each]. rewrite E1. cbn [mbind option_bind].
    rewrite for_each_app, E. cbn [mbind option_bind]. rewrite softirq_steps_zero by done. cbn [mbind option_bind].
    reflexivity.
Qed.
End DoSoftirq.

(** ** The kernel's own timers

    The list head is at 100, [do_timer] at 11 and [test_timer] at 12.  The rest of the
    system is a log of the functions called, with [(0, j)] for the clock printed at [j]. *)

Definition log_call (f d : Z) (s : ktime (list (Z * Z))) : option (ktime (list (Z * Z))) :=
  Some (set_world (s.(world) ++ [(f, d)]) s).
Definition log_clock (j : Z) (w : list (Z * Z)) : list (Z * Z) := w ++ [(0, j)].

Definition ktime0 : ktime (list (Z * Z)) :=
  mkKtime ∅ ∅ 0 0 (repeat (mkSoftirq 0 0) 64) [].

(** One HPET interrupt and the soft interrupts handled on the way out of it. *)
Definition tick (s : ktime (list (Z * Z))) : option (ktime (list (Z * Z))) :=
  s ← clock_tick 100 s; do_softirq log_call log_clock 100 11 2 10 s.

(** The timer [timer_init] queues runs on the fifth clock interrupt after the boot: not on
    the fourth, and not again on the sixth. *)
Example boot_timer_runs :
  (s ← timer_init 100 11 12 200 ktime0; s ← for_each (fun _ => tick) (range 0 4) s; Some s.(world))
    = Some [] /\
  (s ← timer_init 100 11 12 200 ktime0; s ← for_each (fun _ => tick) (range 0 6) s; Some s.(world))
    = Some [(12, 0); (0, 5)].
Proof. split; vm_compute; reflexivity. Qed.

(** The timer list is not sorted by expiry: after a timer that expires at 5, one that
    expires at 3 goes behind it, and at 3 the clock raises no softirq; a timer that expires
    later than all the others goes to the front and delays them all. *)
Example add_timer_unsorted :
  let s := init_timer 100 0 0 (2 ^ 64 - 1) ktime0 in
  (s ← add_timer 100 200 (init_timer 200 12 0 5 s);
   s ← add_timer 100 300 (init_timer 300 12 0 3 s);
   s ← add_timer 100 400 (init_timer 400 12 0 10 s);
   a ← list_next 100 s.(tnodes); b ← list_next a s.(tnodes); c ← list_next b s.(tnodes);
   t ← clock_tick 100 (set_jiffies 5 s);
   Some ([a; b; c], t.(softirq_status))) = Some ([400; 200; 300], 0).
Proof. vm_compute. reflexivity. Qed.

(** [1 << i] is an [int] shift, so that iteration [i + 32] of the [for] loop tests bit [i]
    again: a softirq raised after its turn (here 0, by the handler of 5) is dispatched
    through the unused entry [i + 32] of the vector, a call of NULL. *)
Example do_softirq_late_raise :
  let call f (d : Z) (s : ktime unit) := Some (if f =? 701 then set_softirq_status 1 s else s) in
  let s := mkKtime ∅ ∅ 0 0 (repeat (mkSoftirq 0 0) 64) tt in
  (s ← register_softirq 0 700 0 s; s ← register_softirq 5 701 0 s;
   do_softirq call (fun _ w => w) 100 11 2 10 (set_softirq_status 32 s)) = None /\
  (s ← register_softirq 0 700 0 s; s ← register_softirq 5 700 0 s;
   s ← do_softirq call (fun _ w => w) 100 11 2 10 (set_softirq_status 32 s);
   Some s.(softirq_status)) = Some 0.
Proof. split; vm_compute; reflexivity. Qed.

(** Three timers, expiring at 3, 7 and 5, at time 4. *)
Definition ktime_demo : ktime (list (Z * Z)) := mkKtime
  (list_to_map [(100, mkList 400 200); (200, mkList 100 300); (300, mkList 200 400);
    (400, mkList 300 100); (500, mkList 500 500)])
  (list_to_map [(100, mkTimer (2 ^ 64 - 1) 0 0); (200, mkTimer 3 12 1); (300, mkTimer 7 12 2);
    (400, mkTimer 5 12 3); (500, mkTimer 4 12 4)]) 4 0
  (repeat (mkSoftirq 0 0) 64) [].

Lemma ktime_demo_ok : timers_ok 100 ktime_demo [200; 300; 400].
Proof.
  constructor; [concrete_ring|not_in|reflexivity|]. intros a Ha. rewrite !elem_of_cons in Ha.
  destruct Ha as [->|[->|[->|Ha]]]; [..|by apply not_elem_of_nil in Ha];
    eexists; (split; [vm_compute; reflexivity|cbn; lia]).
Qed.

Lemma add_timer_spec_witness : exists n,
  add_timer 100 500 ktime_demo = Some (set_tnodes n ktime_demo) /\
  ring n 100 [200; 300; 500; 400].
Proof.
  destruct (add_timer_spec 100 ktime_demo [200; 300; 400] 500) as (n & E & T & _).
  - exact ktime_demo_ok.
  - not_in.
  - lia.
  - vm_compute. by eexists.
  - eexists. split; [vm_compute; reflexivity|cbn; lia].
  - exists n. split; [exact E|]. exact (to_ring _ _ _ T).
Defined.

Lemma do_timer_spec_witness : exists n,
  do_timer log_call log_clock 100 5 ktime_demo =
    Some (set_world [(12, 1); (0, 4)] (set_tnodes n ktime_demo)) /\
  ring n 100 [300; 400].
Proof.
  destruct (do_timer_spec log_call 100 (fun f d w => w ++ [(f, d)]) log_clock ktime_demo
    [200; 300; 400] 5) as (n & E & T & _).
  - exact ktime_demo_ok.
  - cbn. lia.
  - change (due ktime_demo [200; 300; 400]) with [200]. constructor; [|constructor].
    intros t Ht. vm_compute in Ht. injection Ht as <-. split; [cbn; lia|]. intros u. reflexivity.
  - vm_compute. lia.
  - exists n. split; [exact E|]. exact (to_ring _ _ _ T).
Defined.

(** The clock's softirq with [do_timer] as the kernel registers it, and a second softirq. *)
Lemma do_softirq_spec_witness : exists n,
  let s := set_status 5 (set_vector (mkSoftirq 11 0 :: mkSoftirq 0 0 :: mkSoftirq 13 7 :: repeat (mkSoftirq 0 0) 61) ktime_demo) in
  do_softirq log_call log_clock 100 11 2 5 s = Some (set_status 0 (set_world [(12, 1); (0, 4); (13, 7)] (set_tnodes n s))) /\
  ring n 100 [300; 400].
Proof.
  cbv zeta. set (v := mkSoftirq 11 0 :: _). set (s := set_status 5 (set_vector v ktime_demo)).
  destruct (do_softirq_spec log_call log_clock 100 11 (fun f d w => w ++ [(f, d)]) 5 v s [200; 300; 400]) as (n & E & T).
  - destruct ktime_demo_ok as [T1 T2 T3 T4]. by constructor.
  - cbn. lia.
  - change (due s [200; 300; 400]) with [200]. constructor; [|constructor].
    intros t Ht. vm_compute in Ht. injection Ht as <-. split; [cbn; lia|]. intros u. reflexivity.
  - vm_compute. lia.
  - cbn. lia.
  - reflexivity.
  - lia.
  - reflexivity.
  - change (raised s 1) with [2]. constructor; [|constructor]. exists (mkSoftirq 13 7). split_and!; [reflexivity|cbn; lia|cbn; lia|].
    intros u. reflexivity.
  - exists n. split; [exact E|]. exact (to_ring _ _ _ T).
Defined.
