(* ===== verification/Vfs.v ===== *)
(** * The virtual file system layer (VFS.c, VFS.h)

    Path resolution over directory entries ([struct dir_entry]), the list of file
    system types, and [fill_dentry].  What a file system provides ([lookup]) and the
    heap are interfaces: [InodeOps], instantiated by [FAT32_lookup], and [Allocator] of
    [Alloc].  A [struct dir_entry *] is an address in the store [dentries]; its list members
    are nodes at their offsets from it. *)

From S2P Require Import Prelude Klist Slab Bytes Errno Fat32 Alloc.

(** ** Interfaces *)

(** [inode->inode_ops->lookup(inode,dentry)] for a dentry with the given name bytes and
    name length: the index node it stores in the dentry, or NULL. *)
Class InodeOps (I : Type) := {
  lookup_inode : I -> list Z -> Z -> option (option I)
}.

(** The FAT32 file system on a disk. *)
Definition fat32_inode_ops {D} `{BlockDevice D} (fuel : nat) (fsbi : FAT32_sb_info)
    (before : list Z) (d : D) : InodeOps index_node := {|
  lookup_inode i nm len := FAT32_lookup fuel fsbi i (mkQname nm len) before d
|}.

(** ** Directory entries *)

(** [struct dir_entry]: the address of the name and its bytes, [dir_inode] (with what
    it points to) and [parent]. *)
Record dir_entry (I : Type) := mkDentry {
  name_addr : Z;
  d_name : list Z;
  d_name_length : Z;
  dir_inode : option I;
  parent : Z
}.
Arguments mkDentry {I}.
Arguments name_addr {I}.
Arguments d_name {I}.
Arguments d_name_length {I}.
Arguments dir_inode {I}.
Arguments parent {I}.

Record vfs (I M : Type) := mkVfs { dentries : gmap Z (dir_entry I); vnodes : lists; heap : M }.
Arguments mkVfs {I M}.
Arguments dentries {I M}.
Arguments vnodes {I M}.
Arguments heap {I M}.

Definition sizeof_dir_entry : Z := 72.
(** [&path->child_node] and [&path->subdirs_list]. *)
Definition child_node (a : Z) : Z := a + 16.
Definition subdirs_list (a : Z) : Z := a + 32.

(** [while( *name == '/') name++]. *)
Fixpoint strip_slashes (name : list Z) : list Z :=
  match name with
  | c :: name' => if c =? 47 then strip_slashes name' else name
  | [] => []
  end.

(** [while( *name && ( *name != '/')) name++]: the component and what follows. *)
Fixpoint component (name : list Z) : list Z * list Z :=
  match name with
  | c :: name' => if c =? 47 then ([], name) else let '(n, r) := component name' in (c :: n, r)
  | [] => ([], [])
  end.

Section PathWalk.
Context {I M : Type} `{InodeOps I} `{Allocator M}.
Implicit Type s : vfs I M.

(** The [for(;;)] loop. *)
Fixpoint walk_loop (fuel : nat) (name : list Z) (flags parent : Z) s : option (Z * vfs I M) :=
  match fuel with
  | O => None
  | S fuel =>
      let '(tmpname, name) := component name in
      let tmpnamelen := Z.of_nat (length tmpname) in
      r ← alloc sizeof_dir_entry s.(heap);
      let '(path, h) := r in
      _ ← guard_fault (negb (path =? 0));
      r ← alloc (tmpnamelen + 1) h;
      let '(path_name, h) := r in
      _ ← guard_fault (negb (path_name =? 0));
      p ← s.(dentries) !! parent;
      i ← p.(dir_inode);
      r ← lookup_inode i (tmpname ++ [0]) tmpnamelen;
      match r with
      | None =>
          r ← release path_name h;
          r ← release path (snd r);
          Some (0, mkVfs s.(dentries) s.(vnodes) (snd r))
      | Some i =>
          n ← list_add_to_behind (subdirs_list parent) (child_node path)
                (list_init (subdirs_list path) (list_init (child_node path) s.(vnodes)));
          let s := mkVfs (<[path := mkDentry path_name tmpname tmpnamelen (Some i) parent]> s.(dentries)) n h in
          match strip_slashes name with
          | [] => Some (if negb (flags .& 1 =? 0) then parent else path, s)
          | name => walk_loop fuel name flags path s
          end
      end
  end.

(** [root] is [root_sb->root]; every round of the loop consumes a character. *)
Definition path_walk (root : Z) (name : list Z) (flags : Z) s : option (Z * vfs I M) :=
  match strip_slashes name with
  | [] => Some (root, s)
  | name => walk_loop (S (length name)) name flags root s
  end.
End PathWalk.

(** [fill_dentry], on the memory a [struct dirent] is written to.  [sizeof(struct dirent)]
    is 24: the name follows three [long]s. *)
Definition fill_dentry (buf : Z) (name : list Z) (type offset : Z) (m : mem) : Z * mem :=
  let namelen := Z.of_nat (length name) in
  if (buf <? TASK_SIZE) && (verify_area buf (24 + namelen) =? 0) then (- EFAULT, m)
  else
    let m := mem_write (buf .+ 24) name m in
    let m := mem_write (buf .+ 16) (le_bytes 8 namelen) m in
    let m := mem_write (buf .+ 8) (le_bytes 8 (u64 type)) m in
    let m := mem_write buf (le_bytes 8 (u64 offset)) m in
    (i32 (24 + namelen), m).

(** ** File system types *)

(** [struct file_system_type]: its name, the function [read_superblock] (an address, 0
    for NULL) and [next]. *)
Record file_system_type := mkFs { fs_name : list Z; read_superblock : Z; fs_next : Z }.

Section FsTypes.
(** [&filesystem]. *)
Context (filesystem : Z).

(** [for(p = &filesystem;p;p = p->next) if(!strcmp(p->name,name))]. *)
Fixpoint find_fs (fuel : nat) (name : list Z) (p : Z) (σ : gmap Z file_system_type)
  : option (option Z) :=
  match fuel with
  | O => None
  | S fuel =>
      if p =? 0 then Some None
      else
        f ← σ !! p;
        if bool_decide (f.(fs_name) = name) then Some (Some p) else find_fs fuel name f.(fs_next) σ
  end.

(** The file system whose [read_superblock] is called (with [DPTE] and [buf]), and the
    function: [None] when 0 is returned. *)
Definition mount_fs (name : list Z) (σ : gmap Z file_system_type) : option (option Z) :=
  r ← find_fs (S (S (base.size σ))) name filesystem σ;
  match r with
  | None => Some None
  | Some p =>
      f ← σ !! p;
      _ ← guard_fault (negb (f.(read_superblock) =? 0));
      Some (Some f.(read_superblock))
  end.

Definition set_next (a v : Z) (σ : gmap Z file_system_type) : option (gmap Z file_system_type) :=
  f ← σ !! a; Some (<[a := mkFs f.(fs_name) f.(read_superblock) v]> σ).

Definition register_filesystem (fs : Z) (σ : gmap Z file_system_type)
  : option (Z * gmap Z file_system_type) :=
  f ← σ !! fs;
  r ← find_fs (S (S (base.size σ))) f.(fs_name) filesystem σ;
  match r with
  | Some _ => Some (0, σ)
  | None =>
      h ← σ !! filesystem;
      σ ← set_next fs h.(fs_next) σ;
      σ ← set_next filesystem fs σ;
      Some (1, σ)
  end.

(** The [while(p->next)] loop. *)
Fixpoint unregister_loop (fuel : nat) (fs p : Z) (σ : gmap Z file_system_type)
  : option (Z * gmap Z file_system_type) :=
  match fuel with
  | O => None
  | S fuel =>
      f ← σ !! p;
      if f.(fs_next) =? 0 then Some (0, σ)
      else if f.(fs_next) =? fs then
        g ← σ !! f.(fs_next);
        σ ← set_next p g.(fs_next) σ;
        σ ← set_next fs 0 σ;
        Some (1, σ)
      else unregister_loop fuel fs f.(fs_next) σ
  end.

Definition unregister_filesystem (fs : Z) (σ : gmap Z file_system_type)
  : option (Z * gmap Z file_system_type) :=
  unregister_loop (S (S (base.size σ))) fs filesystem σ.
End FsTypes.

(** ** Path resolution, abstractly *)

(** The components of a path: what lies between its slashes. *)
Fixpoint split_path (acc name : list Z) : list (list Z) :=
  match name with
  | [] => match acc with [] => [] | _ => [rev acc] end
  | c :: name =>
      if c =? 47 then match acc with [] => split_path [] name | _ => rev acc :: split_path [] name end
      else split_path (c :: acc) name
  end.
Definition components : list Z -> list (list Z) := split_path [].

(** The index node a sequence of names leads to: [None] inside is "not found". *)
Fixpoint resolve {I} `{InodeOps I} (i : I) (names : list (list Z)) : option (option I) :=
  match names with
  | [] => Some (Some i)
  | n :: names =>
      r ← lookup_inode i (n ++ [0]) (Z.of_nat (length n));
      match r with
      | None => Some None
      | Some i => resolve i names
      end
  end.

(** Going up from [a] by [parent] spells [names], innermost first, and ends at [root]. *)
Fixpoint chain_up {I M} (s : vfs I M) (root a : Z) (names : list (list Z)) : Prop :=
  match names with
  | [] => a = root
  | n :: names => exists e, s.(dentries) !! a = Some e /\ e.(d_name) = n /\
      e.(d_name_length) = Z.of_nat (length n) /\ chain_up s root e.(parent) names
  end.

Lemma component_split name : forall acc, split_path acc name =
  match component name with
  | (n, r) => match rev acc ++ n with [] => split_path [] r | c => c :: split_path [] r end
  end.
Proof.
  induction name as [|c name IH]; intros acc; cbn [split_path component].
  - rewrite app_nil_r. destruct acc as [|a acc]; [done|].
    destruct (rev (a :: acc)) eqn:E; [|done]. by apply (f_equal length) in E; rewrite length_rev in E.
  - destruct (c =? 47) eqn:Ec.
    + rewrite app_nil_r. cbn [split_path]. rewrite Ec. destruct acc as [|a acc]; [done|].
      destruct (rev (a :: acc)) eqn:E; [|done]. by apply (f_equal length) in E; rewrite length_rev in E.
    + rewrite IH. destruct (component name) as [n r]. cbn [rev]. by rewrite <- app_assoc.
Qed.

Lemma strip_components name : components (strip_slashes name) = components name.
Proof.
  unfold components. induction name as [|c name IH]; cbn [strip_slashes split_path]; [done|].
  destruct (c =? 47) eqn:Ec; [done|]. cbn [split_path]. by rewrite Ec.
Qed.

Lemma strip_head name c r : strip_slashes name = c :: r -> c <> 47.
Proof.
  induction name as [|d name IH]; cbn [strip_slashes]; [done|].
  destruct (Z.eqb_spec d 47); [exact IH|]. by intros [= <- <-].
Qed.

Lemma strip_length name : (length (strip_slashes name) <= length name)%nat.
Proof. induction name as [|c name IH]; cbn; [lia|]. destruct (c =? 47); cbn; lia. Qed.

Lemma components_cons c name : c <> 47 -> exists n r,
  component (c :: name) = (c :: n, r) /\ components (c :: name) = (c :: n) :: components r /\
  (length n <= length name)%nat /\ (length r <= length name)%nat.
Proof.
  intros Hc. unfold components. rewrite component_split. cbn [component].
  rewrite (proj2 (Z.eqb_neq _ _) Hc). destruct (component name) as [n r] eqn:E.
  exists n, r. split; [done|]. split; [done|]. clear Hc.
  revert n r E. induction name as [|d name IH]; intros n r E; cbn [component] in E; [by simplify_eq|].
  destruct (d =? 47); [simplify_eq; cbn; lia|]. destruct (component name) as [n' r'].
  injection E as <- <-. cbn. specialize (IH n' r' eq_refl). lia.
Qed.

(** ** Lists that stay inside the store *)

Definition closed (σ : lists) : Prop := forall a n, σ !! a = Some n -> is_Some (σ !! n.(next)).

Lemma closed_init σ a : closed σ -> closed (list_init a σ).
Proof.
  intros H x n Hx. unfold list_init in *. destruct (decide (x = a)) as [->|Hne].
  - rewrite lookup_insert_eq in Hx. simplify_eq. cbn. rewrite lookup_insert_eq. eauto.
  - rewrite lookup_insert_ne in Hx by done. apply H in Hx.
    destruct (decide (n.(next) = a)) as [->|]; [rewrite lookup_insert_eq; eauto|].
    by rewrite lookup_insert_ne.
Qed.

Lemma list_init_keeps σ a x : is_Some (σ !! x) -> is_Some (list_init a σ !! x).
Proof.
  intros H. unfold list_init. destruct (decide (x = a)) as [->|].
  - rewrite lookup_insert_eq. eauto.
  - by rewrite lookup_insert_ne.
Qed.

Lemma list_add_to_behind_closed σ entry new :
  closed σ -> is_Some (σ !! entry) -> is_Some (σ !! new) ->
  exists σ', list_add_to_behind entry new σ = Some σ' /\ closed σ' /\
    forall x, is_Some (σ' !! x) <-> is_Some (σ !! x).
Proof.
  intros Hc [e He] Hn. unfold list_add_to_behind. rewrite He. cbn [mbind option_bind].
  destruct (store_next_spec new e.(next) σ Hn) as (σ1 & -> & N1 & _ & S1 & _). cbn [mbind option_bind].
  destruct (store_prev_spec new entry σ1) as (σ2 & -> & _ & N2 & S2 & _); [by apply S1|].
  cbn [mbind option_bind].
  assert (get_next σ2 new = Some e.(next)) as Hn2 by (rewrite N2, N1; by rewrite decide_True).
  destruct (get_next_node _ _ _ Hn2) as (m & -> & Em). cbn [mbind option_bind]. rewrite Em.
  destruct (store_prev_spec e.(next) new σ2) as (σ3 & -> & _ & N3 & S3 & _).
  { apply S2, S1. by eapply Hc. }
  cbn [mbind option_bind].
  destruct (store_next_spec entry new σ3) as (σ4 & -> & N4 & _ & S4 & _).
  { apply S3, S2, S1. by exists e. }
  assert (forall x, is_Some (σ4 !! x) <-> is_Some (σ !! x)) as HS by (intros x; by rewrite S4, S3, S2, S1).
  exists σ4. split; [done|]. split; [|done]. intros a n Ha. apply HS.
  assert (get_next σ4 a = Some n.(next)) as E by (unfold get_next; by rewrite Ha).
  rewrite N4 in E. case_decide; [by injection E as <-|]. rewrite N3, N2, N1 in E.
  case_decide; [injection E as <-; by eapply Hc|].
  destruct (get_next_node _ _ _ E) as (m' & Em' & <-). by eapply Hc.
Qed.

Section PathWalkSpec.
Context {I M : Type} `{InodeOps I} `{AllocatorLaws M}.
Implicit Type s : vfs I M.

(** The store before and after: dentries are at allocated addresses, and lists stay
    inside the store. *)
Record vfs_ok s : Prop := {
  vo_closed : closed s.(vnodes);
  vo_live : forall a, is_Some (s.(dentries) !! a) -> a ∈ live s.(heap) /\
    is_Some (s.(vnodes) !! subdirs_list a);
  vo_null : s.(dentries) !! 0 = None
}.

Lemma chain_up_mono s s' root a names : s.(dentries) ⊆ s'.(dentries) ->
  chain_up s root a names -> chain_up s' root a names.
Proof using Type.
  intros Hs. revert a. induction names as [|n names IH]; intros a Hc; cbn [chain_up] in *; [done|].
  destruct Hc as (e & He & Hn & Hl & Hc). exists e. split_and!; [|done|done|by apply IH].
  by eapply lookup_weaken.
Qed.

Lemma chain_up_snoc s root a names p n : chain_up s p a names ->
  (exists e, s.(dentries) !! p = Some e /\ e.(d_name) = n /\
    e.(d_name_length) = Z.of_nat (length n) /\ e.(parent) = root) ->
  chain_up s root a (names ++ [n]).
Proof using Type.
  revert a. induction names as [|m names IH]; intros a Hc He; cbn [chain_up app] in *.
  - subst a. destruct He as (e & ? & ? & ? & <-). exists e. done.
  - destruct Hc as (e & ? & ? & ? & Hc). exists e. split_and!; [done..|]. by apply IH.
Qed.

(** The dentry a walk that found everything returns. *)
Definition result_names (flags : Z) (names : list (list Z)) : list (list Z) :=
  if negb (flags .& 1 =? 0) then removelast names else names.

(** What a walk may do: add dentries, and allocate. *)
Record vfs_grows s s' : Prop := {
  vg_ok : vfs_ok s';
  vg_dentries : s.(dentries) ⊆ s'.(dentries);
  vg_live : live s.(heap) ⊆ live s'.(heap);
  vg_new a : s.(dentries) !! a = None -> is_Some (s'.(dentries) !! a) -> a ∉ live s.(heap)
}.

Lemma vfs_grows_trans s1 s2 s3 : vfs_grows s1 s2 -> vfs_grows s2 s3 -> vfs_grows s1 s3.
Proof using Type.
  intros [A1 A2 A3 A4] [B1 B2 B3 B4]. constructor; [done|by etrans|by etrans|].
  intros a Hn Hs. destruct (s2.(dentries) !! a) eqn:E; [apply A4; eauto|].
  intros Hl. by apply (B4 a E Hs), A3.
Qed.

(** One round of the loop, when the lookup succeeds. *)
Lemma walk_add s a h1 h2 path pname e :
  vfs_ok s -> is_Some (s.(dentries) !! a) -> path <> 0 ->
  path ∉ live s.(heap) -> live h1 = {[ path ]} ∪ live s.(heap) -> live h2 = {[ pname ]} ∪ live h1 ->
  exists n, list_add_to_behind (subdirs_list a) (child_node path)
      (list_init (subdirs_list path) (list_init (child_node path) s.(vnodes))) = Some n /\
    vfs_grows s (mkVfs (<[path := e]> s.(dentries)) n h2).
Proof using Type.
  intros [V1 V2 V3] Ha Hp0 Hp L1 L2. destruct (V2 a Ha) as [Hla Hna].
  destruct (list_add_to_behind_closed
    (list_init (subdirs_list path) (list_init (child_node path) s.(vnodes)))
    (subdirs_list a) (child_node path)) as (n & En & Hc & Hs).
  { by apply closed_init, closed_init. }
  { by apply list_init_keeps, list_init_keeps. }
  { apply list_init_keeps. unfold list_init. rewrite lookup_insert_eq. eauto. }
  exists n. split; [done|].
  assert (s.(dentries) !! path = None) as Hnew.
  { destruct (s.(dentries) !! path) eqn:E; [|done]. destruct (V2 path); [eauto|done]. }
  constructor; [|by apply insert_subseteq|cbn; set_solver|].
  - constructor; [done| |]; cbn [vnodes dentries heap].
    + intros b Hb. rewrite L2, L1. destruct (decide (b = path)) as [->|Hne].
      * split; [set_solver|]. apply Hs. unfold list_init. rewrite lookup_insert_eq. eauto.
      * rewrite lookup_insert_ne in Hb by done. destruct (V2 b Hb) as [Hl Hn].
        split; [set_solver|]. by apply Hs, list_init_keeps, list_init_keeps.
    + by rewrite lookup_insert_ne.
  - intros b Hb Hb'. cbn in Hb'. destruct (decide (b = path)) as [->|Hne]; [done|].
    rewrite lookup_insert_ne, Hb in Hb' by done. by destruct Hb'.
Qed.

(** Giving back what a round allocated, when the lookup fails. *)
Lemma walk_fail s h1 h2 path pname : vfs_ok s -> path ∉ live s.(heap) ->
  live h1 = {[ path ]} ∪ live s.(heap) -> pname ∉ live h1 -> live h2 = {[ pname ]} ∪ live h1 ->
  exists r3 h3 r4 h4, release pname h2 = Some (r3, h3) /\ release path h3 = Some (r4, h4) /\
    vfs_grows s (mkVfs s.(dentries) s.(vnodes) h4) /\ forall k, room h2 k -> room h4 k.
Proof using Type.
  intros V Hp L1 Hn L2. destruct (release_live pname h2) as (r3 & h3 & E3 & L3 & R3); [set_solver|].
  destruct (release_live path h3) as (r4 & h4 & E4 & L4 & R4).
  { rewrite L3, L2, L1. assert (path <> pname) by (intros ->; apply Hn; rewrite L1; set_solver). set_solver. }
  exists r3, h3, r4, h4. split_and!; [done|done| |auto].
  assert (live s.(heap) ⊆ live h4) as Hl.
  { rewrite L4, L3, L2, L1. assert (pname ∉ live s.(heap)) by set_solver. set_solver. }
  destruct V as [V1 V2 V3]. constructor; [|done|done|].
  - constructor; [done| |done]. intros a Ha. destruct (V2 a Ha). split; [by apply Hl|done].
  - intros a Hnone Ha. cbn in Ha. rewrite Hnone in Ha. by destruct Ha.
Qed.

(** The dentry a lookup starts from. *)
Definition has_inode s (a : Z) : Prop := exists d i, s.(dentries) !! a = Some d /\ d.(dir_inode) = Some i.

Lemma walk_loop_inv flags : forall fuel name a s b s',
  vfs_ok s -> has_inode s a -> walk_loop fuel name flags a s = Some (b, s') ->
  vfs_grows s s' /\ (b <> 0 -> has_inode s' b).
Proof using Type.
  induction fuel as [|fuel IH]; intros name a s b s' V (d & i & Ed & Ei) E; cbn [walk_loop] in E; [done|].
  destruct (component name) as [nm rest].
  apply bind_Some in E as ([path h1] & E1 & E). apply bind_Some in E as ([] & G1 & E).
  apply bind_Some in E as ([pname h2] & E2 & E). apply bind_Some in E as ([] & G2 & E).
  rewrite Ed in E. cbn [mbind option_bind] in E. rewrite Ei in E. cbn [mbind option_bind] in E.
  apply bind_Some in E as (r & El & E).
  assert (path <> 0 /\ pname <> 0) as [Hp0 Hn0] by (split; intros ->; done).
  destruct (alloc_live _ _ _ _ E1) as [[? _]|(_ & Hp & L1)]; [done|].
  destruct (alloc_live _ _ _ _ E2) as [[? _]|(_ & Hn & L2)]; [done|]. destruct r as [j|].
  - set (e := mkDentry pname nm (Z.of_nat (length nm)) (Some j) a) in *.
    destruct (walk_add s a h1 h2 path pname e V ltac:(eauto) Hp0 Hp L1 L2) as (n & En & G).
    rewrite En in E. cbn [mbind option_bind] in E.
    set (s1 := mkVfs _ n h2) in *.
    assert (has_inode s1 path) as Hpath by (exists e, j; unfold s1; cbn; by rewrite lookup_insert_eq).
    destruct (strip_slashes rest) as [|c rest'].
    + assert (has_inode s1 a) as Ha.
      { exists d, i. split; [|done]. eapply lookup_weaken; [exact Ed|apply G]. }
      injection E as Eb Es. rewrite <- Eb, <- Es. split; [exact G|]. intros _.
      destruct (negb (flags .& 1 =? 0)); [exact Ha|exact Hpath].
    + destruct (IH (c :: rest') path s1 b s' (vg_ok _ _ G) Hpath E) as [G' Hb].
      split; [by eapply vfs_grows_trans|done].
  - destruct (walk_fail s h1 h2 path pname V Hp L1 Hn L2) as (r3 & h3 & r4 & h4 & E3 & E4 & G & _).
    rewrite E3 in E. cbn [mbind option_bind snd] in E. rewrite E4 in E. cbn [mbind option_bind snd] in E.
    by simplify_eq.
Qed.

Lemma strip_idem name : strip_slashes (strip_slashes name) = strip_slashes name.
Proof using Type.
  induction name as [|x name IH]; cbn [strip_slashes]; [done|].
  destruct (x =? 47) eqn:E; [done|]. cbn [strip_slashes]. by rewrite E.
Qed.

Lemma result_names_cons flags n names : names <> [] ->
  result_names flags (n :: names) = n :: result_names flags names.
Proof using Type. unfold result_names. destruct (negb _); [|done]. by destruct names. Qed.

Lemma walk_loop_spec flags k : forall fuel name a i s r,
  vfs_ok s -> (exists d, s.(dentries) !! a = Some d /\ d.(dir_inode) = Some i) ->
  strip_slashes name = name -> name <> [] -> (length name < fuel)%nat -> Z.of_nat (length name) < 1048576 ->
  resolve i (components name) = Some r -> room s.(heap) (2 * length (components name) + k) ->
  exists b s', walk_loop fuel name flags a s = Some (b, s') /\ vfs_grows s s' /\ room s'.(heap) k /\
    match r with
    | None => b = 0
    | Some _ => exists e, s'.(dentries) !! b = Some e /\
        resolve i (result_names flags (components name)) = Some e.(dir_inode) /\
        chain_up s' a b (rev (result_names flags (components name)))
    end.
Proof using Type.
  induction fuel as [|fuel IH]; intros name a i s r V (d & Ed & Ei) Hst Hne Hf Hlen Hr Hroom; [lia|].
  destruct name as [|c name]; [done|].
  destruct (components_cons c name (strip_head _ _ _ Hst)) as (n & rest & Ec & Ecs & Hcn & Hcl).
  rewrite Ecs in *. cbn [walk_loop]. rewrite Ec. set (nm := c :: n) in *. cbn [length] in Hf, Hlen, Hroom.
  set (left := (2 * length (components rest) + k)%nat).
  destruct (alloc_room sizeof_dir_entry (heap s) (S left)) as (path & h1 & E1 & Hp0 & R1); [done|..].
  { replace (S (S left)) with (2 * S (length (components rest)) + k)%nat by (unfold left; lia). done. }
  destruct (alloc_room (Z.of_nat (length nm) + 1) h1 left ltac:(unfold nm; cbn [length]; lia) R1) as (pname & h2 & E2 & Hn0 & R2).
  destruct (alloc_live _ _ _ _ E1) as [[? _]|(_ & Hp & L1)]; [done|].
  destruct (alloc_live _ _ _ _ E2) as [[? _]|(_ & Hn & L2)]; [done|].
  rewrite E1. cbn [mbind option_bind]. rewrite (proj2 (Z.eqb_neq _ _) Hp0). cbn [negb guard_fault mbind option_bind].
  rewrite E2. cbn [mbind option_bind]. rewrite (proj2 (Z.eqb_neq _ _) Hn0). cbn [negb guard_fault mbind option_bind].
  rewrite Ed. cbn [mbind option_bind]. rewrite Ei. cbn [mbind option_bind].
  cbn [resolve] in Hr. destruct (lookup_inode i (nm ++ [0]) (Z.of_nat (length nm))) as [[j|]|] eqn:El;
    cbn [mbind option_bind] in *; [| |done].
  - set (e := mkDentry pname nm (Z.of_nat (length nm)) (Some j) a).
    destruct (walk_add s a h1 h2 path pname e V ltac:(eauto) Hp0 Hp L1 L2) as (nn & -> & G).
    cbn [mbind option_bind]. set (s1 := mkVfs _ nn h2) in *.
    assert (s1.(dentries) !! path = Some e) as Epath by (unfold s1; cbn; by rewrite lookup_insert_eq).
    destruct (strip_slashes rest) as [|c' rest'] eqn:Es.
    + assert (components rest = []) as E0 by (by rewrite <- strip_components, Es).
      unfold left in R2. rewrite E0 in *. cbn [resolve] in Hr. injection Hr as <-.
      unfold result_names. destruct (negb (flags .& 1 =? 0)).
      * exists a, s1. split_and!; [done..|]. exists d. cbn. rewrite Ei. split_and!; [|done|done].
        by eapply lookup_weaken; [|apply G].
      * exists path, s1. split_and!; [done..|]. exists e. cbn [resolve]. rewrite El. split_and!; [done|done|].
        cbn [rev app chain_up]. by exists e.
    + unfold left in R2. rewrite <- strip_components, Es in *.
      destruct (IH (c' :: rest') path j s1 r) as (b & s2 & Ew & G2 & Rk & Hb); [apply G|by exists e| |done| | |done|done|].
      { by rewrite <- Es, strip_idem. }
      { pose proof (strip_length rest) as Hs. rewrite Es in Hs. lia. }
      { pose proof (strip_length rest) as Hs. rewrite Es in Hs. lia. }
      exists b, s2. split_and!; [done|by eapply vfs_grows_trans|done|]. destruct r as [jr|]; [|done].
      destruct Hb as (e2 & He2 & Hr2 & Hc2). exists e2. split; [done|].
      rewrite result_names_cons.
      2: { destruct (components_cons c' rest') as (? & ? & _ & -> & _); [by eapply strip_head|done]. }
      cbn [resolve rev]. rewrite El. split; [done|].
      eapply chain_up_snoc; [exact Hc2|]. exists e. split_and!; [|done..].
      by eapply lookup_weaken; [|apply G2].
  - injection Hr as <-.
    destruct (walk_fail s h1 h2 path pname V Hp L1 Hn L2) as (r3 & h3 & r4 & h4 & E3 & E4 & G & HR).
    rewrite E3. cbn [mbind option_bind snd]. rewrite E4. cbn [mbind option_bind snd].
    eexists 0, _. split_and!; [done|done| |done]. cbn [heap]. apply HR.
    clear -R2 H1. unfold left in R2. induction (2 * length (components rest))%nat as [|m IH]; [done|].
    apply IH. by apply room_less.
Qed.

(** [path_walk], with everything its callers need. *)
Lemma path_walk_run root name flags s i r k :
  vfs_ok s -> Z.of_nat (length name) < 1048576 -> (exists d, s.(dentries) !! root = Some d /\ d.(dir_inode) = Some i) ->
  resolve i (components name) = Some r -> room s.(heap) (2 * length (components name) + k) ->
  exists a s', path_walk root name flags s = Some (a, s') /\ vfs_grows s s' /\ room s'.(heap) k /\
    match r with
    | None => a = 0
    | Some _ => exists e, s'.(dentries) !! a = Some e /\
        resolve i (result_names flags (components name)) = Some e.(dir_inode) /\
        chain_up s' root a (rev (result_names flags (components name)))
    end.
Proof using Type.
  intros V Hlen Hd Hr Hroom. unfold path_walk. pose proof (strip_length name) as Hsl. rewrite <- strip_components in *.
  destruct (strip_slashes name) as [|c rest] eqn:Es.
  - cbn in Hr, Hroom. injection Hr as <-. exists root, s. split_and!; [done| |done|].
    + constructor; [done..|]. intros a Hn Ha. rewrite Hn in Ha. by destruct Ha.
    + destruct Hd as (d & Ed & Ei). exists d. unfold result_names. rewrite Ei. by destruct (negb _).
  - apply (walk_loop_spec flags k); [done|done| |done|lia|lia|done|done]. by rewrite <- Es, strip_idem.
Qed.

Lemma path_walk_inv root name flags s b s' :
  vfs_ok s -> has_inode s root -> path_walk root name flags s = Some (b, s') ->
  vfs_grows s s' /\ (b <> 0 -> has_inode s' b).
Proof using Type.
  intros V Hr. unfold path_walk. destruct (strip_slashes name).
  - intros [= <- <-]. split; [|done]. constructor; [done..|]. intros a Hn Ha. rewrite Hn in Ha. by destruct Ha.
  - by apply walk_loop_inv.
Qed.
End PathWalkSpec.

(** C29. [path_walk] resolves a path component by component from the root: when the file
    system finds every component it returns a dentry that holds the index node reached
    (that of the parent directory when bit 0 of [flags] is set) and whose [parent] links
    spell the components back to the root; when it does not it returns NULL.  Dentries
    that existed before are unchanged. *)
Theorem path_walk_spec {I M} `{InodeOps I} `{AllocatorLaws M} root name flags (s : vfs I M) i r d :
  vfs_ok s -> Z.of_nat (length name) < 1048576 -> s.(dentries) !! root = Some d -> d.(dir_inode) = Some i ->
  resolve i (components name) = Some r -> room s.(heap) (2 * length (components name)) ->
  exists a s', path_walk root name flags s = Some (a, s') /\ s.(dentries) ⊆ s'.(dentries) /\
    match r with
    | None => a = 0
    | Some _ => exists e, s'.(dentries) !! a = Some e /\
        resolve i (result_names flags (components name)) = Some e.(dir_inode) /\
        chain_up s' root a (rev (result_names flags (components name)))
    end.
Proof.
  intros V Hlen Ed Ei Hr Hroom.
  destruct (path_walk_run root name flags s i r 0 V Hlen ltac:(by exists d) Hr) as (a & s' & E & G & _ & Ha).
  { by rewrite Nat.add_0_r. }
  exists a, s'. split_and!; [done|apply G|done].
Qed.

(** ** fill_dentry *)

(** The bytes of a [struct dirent] with its name. *)
Definition dirent_bytes (name : list Z) (type offset : Z) : list Z :=
  le_bytes 8 (u64 offset) ++ le_bytes 8 (u64 type) ++ le_bytes 8 (Z.of_nat (length name)) ++ name.

(** [fill_dentry] writes exactly the [struct dirent] of the entry, with its name behind it,
    and returns its size; an entry that would reach beyond user space is refused, and memory
    is then unchanged. *)
Theorem fill_dentry_spec buf name type offset m :
  0 <= buf -> Z.of_nat (length name) < 2 ^ 31 - 24 -> buf + 24 + Z.of_nat (length name) < 2 ^ 64 ->
  let size := 24 + Z.of_nat (length name) in
  fill_dentry buf name type offset m =
    (if (buf <? TASK_SIZE) && (TASK_SIZE <? buf + size) then (- EFAULT, m)
     else (size, mem_write buf (dirent_bytes name type offset) m)) /\
  mem_read buf (24 + length name) (mem_write buf (dirent_bytes name type offset) m) =
    Some (dirent_bytes name type offset).
Proof.
  intros Hb Hl Hend. cbv zeta. unfold fill_dentry, verify_area. split.
  - rewrite (u64_small (buf + (24 + _))) by lia.
    rewrite (u64_small (buf + 24)) by lia. rewrite (u64_small (buf + 16)) by lia.
    rewrite (u64_small (buf + 8)) by lia. rewrite (i32_small (24 + _)) by lia.
    assert (forall x, (x <=? TASK_SIZE) = negb (TASK_SIZE <? x)) as Hneg by (intros; lia).
    rewrite Hneg. destruct (TASK_SIZE <? _), (buf <? TASK_SIZE); cbn [andb negb Z.eqb]; try done.
    all: f_equal; unfold dirent_bytes; rewrite !mem_write_cons_app, !le_bytes_length;
      change (Z.of_nat 8) with 8; by rewrite <- !Z.add_assoc.
  - replace (24 + length name)%nat with (length (dirent_bytes name type offset)); [apply mem_read_write|].
    unfold dirent_bytes. rewrite !length_app, !le_bytes_length. lia.
Qed.

(** ** The list of file system types *)

Section FsList.
Context (filesystem : Z).
Implicit Type σ : gmap Z file_system_type.

(** Following [next] from [p] passes through [l] and ends at NULL. *)
Fixpoint fs_list σ (p : Z) (l : list Z) : Prop :=
  match l with
  | [] => p = 0
  | a :: l => p = a /\ a <> 0 /\ exists f, σ !! a = Some f /\ fs_list σ f.(fs_next) l
  end.

Definition has_name σ (name : list Z) (a : Z) : bool :=
  match σ !! a with Some f => bool_decide (f.(fs_name) = name) | None => false end.

Lemma find_fs_spec σ name l : forall fuel p, fs_list σ p l -> (length l < fuel)%nat ->
  find_fs fuel name p σ = Some (List.find (has_name σ name) l).
Proof using Type.
  induction l as [|a l IH]; intros [|fuel] p Hl Hf; cbn [length] in Hf; try lia; cbn [find_fs fs_list List.find] in *.
  - subst p. done.
  - destruct Hl as (-> & Ha & f & Ef & Hl). rewrite (proj2 (Z.eqb_neq _ _) Ha), Ef.
    unfold has_name at 1. rewrite Ef. cbn [mbind option_bind].
    case_bool_decide; [done|]. apply IH; [done|lia].
Qed.

Lemma fs_list_dom σ p l : fs_list σ p l -> Forall (fun a => a ∈ dom σ) l.
Proof using Type.
  revert p. induction l as [|a l IH]; intros p Hl; [constructor|].
  destruct Hl as (-> & _ & f & Ef & Hl). constructor; [|by eapply IH]. apply elem_of_dom. eauto.
Qed.

Lemma fs_list_fuel σ p l : fs_list σ p l -> NoDup l -> (length l < S (S (base.size σ)))%nat.
Proof using Type.
  intros Hl Hd. rewrite <- size_dom.
  assert (list_to_set l ⊆ dom σ) as Hsub.
  { intros x Hx. apply elem_of_list_to_set in Hx.
    pose proof (fs_list_dom _ _ _ Hl) as HF. rewrite Forall_forall in HF. by apply HF. }
  apply subseteq_size in Hsub. rewrite size_list_to_set in Hsub by done. lia.
Qed.

Lemma fs_list_frame σ σ' p l : (forall a, a ∈ l -> σ' !! a = σ !! a) -> fs_list σ p l -> fs_list σ' p l.
Proof using Type.
  revert p. induction l as [|a l IH]; intros p Hf Hl; cbn in *; [done|].
  destruct Hl as (-> & Ha & f & Ef & Hl). split_and!; [done|done|]. exists f.
  rewrite Hf by set_solver. split; [done|]. apply IH; [|done]. intros b Hb. apply Hf. set_solver.
Qed.

(** Registering a file system type: a name that is already registered is refused and
    nothing changes; a new type goes to the front of the list, the others stay, and
    mounting its name then calls its [read_superblock]. *)
Theorem register_filesystem_spec σ l fs f :
  fs_list σ filesystem (filesystem :: l) -> NoDup (filesystem :: l) ->
  σ !! fs = Some f -> fs <> 0 -> fs ∉ filesystem :: l -> f.(read_superblock) <> 0 ->
  match List.find (has_name σ f.(fs_name)) (filesystem :: l) with
  | Some _ => register_filesystem filesystem fs σ = Some (0, σ)
  | None => exists σ', register_filesystem filesystem fs σ = Some (1, σ') /\
      fs_list σ' filesystem (filesystem :: fs :: l) /\
      mount_fs filesystem f.(fs_name) σ' = Some (Some f.(read_superblock)) /\
      (forall a, a <> filesystem -> a <> fs -> σ' !! a = σ !! a)
  end.
Proof using Type.
  intros Hl Hd Ef H0 Hni Hrs. unfold register_filesystem. rewrite Ef. cbn [mbind option_bind].
  rewrite (find_fs_spec σ _ _ _ _ Hl (fs_list_fuel _ _ _ Hl Hd)). cbn [mbind option_bind].
  destruct (List.find _ _) as [a|] eqn:Efind; [done|].
  pose proof Hl as (_ & Hf0 & h & Eh & Hrest). rewrite Eh. cbn [mbind option_bind].
  assert (fs <> filesystem /\ fs ∉ l) as [Hne Hnl] by set_solver.
  apply NoDup_cons in Hd as [Hfl Hd].
  unfold set_next. rewrite Ef. cbn [mbind option_bind].
  rewrite lookup_insert_ne, Eh by done. cbn [mbind option_bind].
  set (σ' := <[filesystem := _]> _). exists σ'.
  assert (σ' !! filesystem = Some (mkFs h.(fs_name) h.(read_superblock) fs)) as E1
    by (unfold σ'; by rewrite lookup_insert_eq).
  assert (σ' !! fs = Some (mkFs f.(fs_name) f.(read_superblock) h.(fs_next))) as E2
    by (unfold σ'; rewrite lookup_insert_ne by done; by rewrite lookup_insert_eq).
  assert (forall a, a <> filesystem -> a <> fs -> σ' !! a = σ !! a) as Hfr
    by (intros; unfold σ'; by rewrite !lookup_insert_ne).
  assert (fs_list σ' filesystem (filesystem :: fs :: l)) as Hl'.
  { cbn. split_and!; [done|done|]. eexists. split; [exact E1|]. cbn. split_and!; [done|done|].
    eexists. split; [exact E2|]. cbn. eapply fs_list_frame; [|done].
    intros a Ha. apply Hfr; intros ->; done. }
  split_and!; [done|done| |done]. unfold mount_fs.
  rewrite (find_fs_spec σ' _ _ _ _ Hl') by (apply (fs_list_fuel _ _ _ Hl'); repeat (constructor; [set_solver|]); done).
  cbn [mbind option_bind List.find] in *.
  assert (has_name σ' (fs_name f) filesystem = false) as ->.
  { unfold has_name in *. rewrite E1. cbn. rewrite Eh in Efind. by destruct (bool_decide _). }
  unfold has_name at 1. rewrite E2. cbn [fs_name]. rewrite bool_decide_eq_true_2 by done.
  cbn [mbind option_bind]. rewrite E2. cbn [mbind option_bind read_superblock].
  by rewrite (proj2 (Z.eqb_neq _ _) Hrs).
Qed.

Lemma unregister_loop_spec fs l : forall fuel p σ,
  fs_list σ p (p :: l) -> NoDup (p :: l) -> p <> fs -> (length l < fuel)%nat ->
  if decide (fs ∈ l) then exists l1 l2 σ', l = l1 ++ fs :: l2 /\
    unregister_loop fuel fs p σ = Some (1, σ') /\ fs_list σ' p (p :: l1 ++ l2) /\
    (forall a, a ∉ p :: l -> σ' !! a = σ !! a)
  else unregister_loop fuel fs p σ = Some (0, σ).
Proof using Type.
  induction l as [|a l IH]; intros [|fuel] p σ Hl Hd Hp Hf; cbn [length] in Hf; try lia;
    pose proof Hl as (_ & Hp0 & f0 & E0 & Hl0); cbn [unregister_loop]; rewrite E0; cbn [mbind option_bind].
  - cbn in Hl0. rewrite Hl0. case_decide as Hin; [by apply not_elem_of_nil in Hin|done].
  - pose proof Hl0 as (Ea & Ha & f & Ef & Hla). rewrite Ea.
    rewrite (proj2 (Z.eqb_neq _ _) Ha). apply NoDup_cons in Hd as [Hpl Hd].
    assert (p <> a) as Hpa by set_solver.
    destruct (Z.eqb_spec a fs) as [->|Hne].
    + rewrite decide_True by apply list_elem_of_here. exists [], l.
      rewrite Ef. cbn [mbind option_bind]. unfold set_next. rewrite E0. cbn [mbind option_bind].
      rewrite lookup_insert_ne, Ef by done. cbn [mbind option_bind]. eexists. split; [done|]. split; [done|].
      apply NoDup_cons in Hd as [Hal Hd].
      assert (forall b (x y : file_system_type), b <> p -> b <> fs -> <[fs := x]> (<[p := y]> σ) !! b = σ !! b) as Hfr
        by (intros; by rewrite !lookup_insert_ne).
      split; [|intros b Hb; apply Hfr; intros ->; set_solver].
      cbn. split_and!; [done|done|]. eexists. rewrite lookup_insert_ne, lookup_insert_eq by done.
      split; [done|]. cbn. eapply fs_list_frame; [|exact Hla]. intros b Hb. apply Hfr; intros ->; set_solver.
    + specialize (IH fuel a σ ltac:(by rewrite <- Ea at 1) Hd Hne ltac:(lia)).
      destruct (decide (fs ∈ a :: l)) as [Hin|Hin].
      * apply elem_of_cons in Hin as [->|Hin]; [done|]. rewrite decide_True in IH by done.
        destruct IH as (l1 & l2 & σ' & -> & E & Hl' & Hfr). exists (a :: l1), l2, σ'.
        split_and!; [done|done| |intros b Hb; apply Hfr; set_solver].
        cbn [app]. cbn [fs_list]. split_and!; [done|done|]. exists f0.
        rewrite Hfr by done. split; [done|]. rewrite Ea. exact Hl'.
      * rewrite decide_False in IH by set_solver. done.
Qed.

(** Unregistering takes exactly the given file system type off the list; one that is
    not on the list is refused and nothing changes. *)
Theorem unregister_filesystem_spec σ l fs :
  fs_list σ filesystem (filesystem :: l) -> NoDup (filesystem :: l) -> fs <> filesystem ->
  if decide (fs ∈ l) then exists σ' l', unregister_filesystem filesystem fs σ = Some (1, σ') /\
    fs_list σ' filesystem (filesystem :: l') /\ fs :: l' ≡ₚ l /\
    (forall a, a ∉ filesystem :: l -> σ' !! a = σ !! a)
  else unregister_filesystem filesystem fs σ = Some (0, σ).
Proof using Type.
  intros Hl Hd Hne. pose proof (unregister_loop_spec fs l (S (S (base.size σ))) filesystem σ Hl Hd
    ltac:(done)) as Hs.
  pose proof (fs_list_fuel _ _ _ Hl Hd) as Hf. cbn [length] in Hf. specialize (Hs ltac:(lia)).
  unfold unregister_filesystem. case_decide; [|done].
  destruct Hs as (l1 & l2 & σ' & -> & E & Hl' & Hfr). exists σ', (l1 ++ l2).
  split_and!; [done|done| |done]. by rewrite Permutation_middle.
Qed.
End FsList.

(** ** A small system

    The disk of [Fat32] with a directory ["D"] in the root, which holds the file ["ABC.TXT"];
    the allocator is [arena]. *)

Definition tree_disk : ramdisk :=
  mem_write 1044 (le_bytes 4 0x0fffffff)
    (mem_write 2080 (demo_dirent [68; 32; 32; 32; 32; 32; 32; 32; 32; 32; 32] 0x10 5 0)
      (mem_write 3584 (demo_dirent [65; 66; 67; 32; 32; 32; 32; 32; 84; 88; 84] 0x20 3 600) demo_disk)).

#[local] Instance tree_ops : InodeOps index_node := fat32_inode_ops 5 demo_fsbi (repeat 0 32) tree_disk.

Definition vfs_demo : vfs index_node arena :=
  mkVfs {[ 1000 := mkDentry 1100 [47] 1 (Some demo_root) 1000 ]}
    (list_to_map [(1016, mkList 1016 1016); (1032, mkList 1032 1032)]) {[ 1000 ]}.

Lemma vfs_demo_ok : vfs_ok vfs_demo.
Proof.
  constructor.
  - intros a n H. apply elem_of_list_to_map_2 in H. rewrite !elem_of_cons in H.
    destruct H as [H|[H|H]]; [..|by apply not_elem_of_nil in H]; simplify_eq; vm_compute; eauto.
  - intros a [d H]. cbn [dentries vfs_demo] in H. apply lookup_singleton_Some in H as [<- _]. split; [cbn; set_solver|].
    vm_compute. eauto.
  - reflexivity.
Qed.

(** ["/D/ABC.TXT"]. *)
Definition demo_path : list Z := [47; 68; 47; 65; 66; 67; 46; 84; 88; 84].

Lemma path_walk_spec_witness : exists a s' e,
  path_walk 1000 demo_path 0 vfs_demo = Some (a, s') /\ s'.(dentries) !! a = Some e /\
  (fun i => i.(file_size)) <$> e.(dir_inode) = Some 600 /\
  chain_up s' 1000 a [[65; 66; 67; 46; 84; 88; 84]; [68]].
Proof.
  destruct (path_walk_spec 1000 demo_path 0 vfs_demo demo_root
    (Some (mkInode 600 2 FS_ATTR_FILE (mkInodeInfo 3 5 0 0 0 0 0)))
    (mkDentry 1100 [47] 1 (Some demo_root) 1000)) as (a & s' & E & _ & e & Ee & Er & Ec).
  - exact vfs_demo_ok.
  - cbn. lia.
  - reflexivity.
  - reflexivity.
  - vm_compute. reflexivity.
  - exact Logic.I.
  - exists a, s', e. split; [exact E|]. split; [exact Ee|]. split; [|exact Ec].
    assert (resolve demo_root (result_names 0 (components demo_path)) =
      Some (Some (mkInode 600 2 FS_ATTR_FILE (mkInodeInfo 3 5 0 0 0 0 0)))) as Hr
      by (vm_compute; reflexivity).
    rewrite Hr in Er. injection Er as <-. reflexivity.
Defined.

Lemma fill_dentry_spec_witness : fill_dentry 0x7ffffffffff0 [65] 0 0 ∅ = (- EFAULT, ∅).
Proof.
  destruct (fill_dentry_spec 0x7ffffffffff0 [65] 0 0 ∅) as [H _]; [lia|cbn; lia|cbn; lia|].
  exact H.
Defined.

(** The static [filesystem] with FAT32 registered behind it, and a third type. *)
Definition fs_demo : gmap Z file_system_type := list_to_map [
  (10, mkFs [113; 50] 0 20); (20, mkFs [70; 65; 84] 77 0); (30, mkFs [69; 88; 84] 78 0)].

Lemma fs_demo_list : fs_list fs_demo 10 [10; 20].
Proof.
  cbn. split_and!; [done|lia|]. eexists. split; [reflexivity|]. cbn.
  split_and!; [done|lia|]. eexists. split; reflexivity.
Qed.

Lemma register_filesystem_spec_witness : exists σ',
  register_filesystem 10 30 fs_demo = Some (1, σ') /\ fs_list σ' 10 [10; 30; 20].
Proof.
  pose proof (register_filesystem_spec 10 fs_demo [20] 30 (mkFs [69; 88; 84] 78 0)) as H.
  destruct H as (σ' & E & Hl & _).
  - exact fs_demo_list.
  - repeat (constructor; [not_in|]); constructor.
  - reflexivity.
  - lia.
  - not_in.
  - cbn. lia.
  - exists σ'. split; [exact E|exact Hl].
Defined.

Lemma unregister_filesystem_spec_witness : exists σ',
  unregister_filesystem 10 20 fs_demo = Some (1, σ') /\ fs_list σ' 10 [10].
Proof.
  pose proof (unregister_filesystem_spec 10 fs_demo [20] 20) as H.
  rewrite decide_True in H by apply list_elem_of_here.
  destruct H as (σ' & l' & E & Hl & Hp & _).
  - exact fs_demo_list.
  - repeat (constructor; [not_in|]); constructor.
  - lia.
  - exists σ'. split; [exact E|]. apply Permutation_length in Hp. destruct l'; [exact Hl|discriminate].
Defined.
