(* ===== verification/Sys.v ===== *)
(** * The file system calls (sys.c 68-250, 384-435)

    [sys_open], [sys_close], [sys_read], [sys_write], [sys_lseek], [sys_getdents] and
    [sys_chdir] over the descriptor table [g_file_struct], the open files, the dentries
    of [Vfs], and the rest of the system ([X]: memory and the disk).  A [struct file *] is
    an address, 0 for NULL.  The two [struct file_operations] a file can have, that of its
    inode and [keyboard_fops], are parameters; [FAT32_file_ops] is the first. *)

From S2P Require Import Prelude Klist PageAlloc Slab Bytes Errno Fat32 Vfs Alloc.

Definition TASK_FILE_MAX : Z := 10.
Definition sizeof_file : Z := 40.

(** [struct file_operations]; [None] is a NULL member.  An operation gets the inode and
    the position of the file, and returns its value and the new position. *)
Record file_operations (X : Type) := mkFops {
  fop_open : option (index_node -> X -> option (Z * X));
  fop_close : option (index_node -> X -> option (Z * X));
  fop_read : option (index_node -> Z -> Z -> Z -> X -> option (Z * Z * X));
  fop_write : option (index_node -> Z -> Z -> Z -> X -> option (Z * Z * index_node * X));
  fop_lseek : option (index_node -> Z -> Z -> Z -> X -> option (Z * Z * X));
  fop_readdir : option (index_node -> Z -> Z -> X -> option (Z * Z * X))
}.
Arguments mkFops {X}.
Arguments fop_open {X}.
Arguments fop_close {X}.
Arguments fop_read {X}.
Arguments fop_write {X}.
Arguments fop_lseek {X}.
Arguments fop_readdir {X}.

(** [struct file]; [f_keyboard] tells which of the two operation tables [f_ops] points to. *)
Record file := mkFile { position : Z; mode : Z; f_dentry : Z; f_keyboard : bool }.

Record sysstate (X M : Type) := mkSys {
  tree : vfs index_node M;
  files : gmap Z file;
  g_file_struct : list Z;
  system : X
}.
Arguments mkSys {X M}.
Arguments tree {X M}.
Arguments files {X M}.
Arguments g_file_struct {X M}.
Arguments system {X M}.

Section Sys.
Context {X M : Type} `{InodeOps index_node} `{Allocator M}.
(** [root_sb->root], the two operation tables, and the string at a user address. *)
Context (root : Z) (inode_fops keyboard_fops : file_operations X).
Context (read_string : Z -> X -> option (list Z)).
Implicit Type s : sysstate X M.

Definition set_tree (t : vfs index_node M) s : sysstate X M :=
  mkSys t s.(files) s.(g_file_struct) s.(system).
Definition set_files (f : gmap Z file) s : sysstate X M :=
  mkSys s.(tree) f s.(g_file_struct) s.(system).
Definition set_table (g : list Z) s : sysstate X M :=
  mkSys s.(tree) s.(files) g s.(system).
Definition set_system (x : X) s : sysstate X M :=
  mkSys s.(tree) s.(files) s.(g_file_struct) x.

Definition sys_alloc (n : Z) s : option (Z * sysstate X M) :=
  r ← alloc n s.(tree).(heap);
  Some (fst r, set_tree (mkVfs s.(tree).(dentries) s.(tree).(vnodes) (snd r)) s).
Definition sys_release (a : Z) s : option (sysstate X M) :=
  r ← release a s.(tree).(heap);
  Some (set_tree (mkVfs s.(tree).(dentries) s.(tree).(vnodes) (snd r)) s).

(** [dentry->dir_inode], and storing into it. *)
Definition inode_of (dentry : Z) s : option index_node :=
  e ← s.(tree).(dentries) !! dentry; e.(dir_inode).
Definition set_inode (dentry : Z) (i : index_node) s : option (sysstate X M) :=
  e ← s.(tree).(dentries) !! dentry;
  Some (set_tree (mkVfs
    (<[dentry := mkDentry e.(name_addr) e.(d_name) e.(d_name_length) (Some i) e.(parent)]>
      s.(tree).(dentries)) s.(tree).(vnodes) s.(tree).(heap)) s).

Definition f_ops (f : file) : file_operations X :=
  if f.(f_keyboard) then keyboard_fops else inode_fops.

(** [strnlen_user]. *)
Definition strnlen_user (src : Z) (str : list Z) (maxlen : Z) : Z :=
  let size := Z.of_nat (length str) in
  if verify_area src size =? 0 then 0 else if size <=? maxlen then size else maxlen.

(** The beginning of [sys_open] and [sys_chdir]: the path, copied into a page, or the
    error. *)
Definition get_path (filename : Z) s : option ((Z + (Z * list Z)) * sysstate X M) :=
  r ← sys_alloc PAGE_4K_SIZE s;
  let '(path, s) := r in
  if path =? 0 then Some (inl (u64 (- ENOMEM)), s)
  else
    str ← read_string filename s.(system);
    let pathlen := strnlen_user filename str PAGE_4K_SIZE in
    if pathlen <=? 0 then s ← sys_release path s; Some (inl (u64 (- EFAULT)), s)
    else if PAGE_4K_SIZE <=? pathlen then s ← sys_release path s; Some (inl (u64 (- ENAMETOOLONG)), s)
    else Some (inr (path, take (Z.to_nat pathlen) str), s).

Definition walk (name : list Z) s : option (Z * sysstate X M) :=
  r ← path_walk root name 0 s.(tree); Some (fst r, set_tree (snd r) s).

(** The first free descriptor. *)
Definition free_fd (g : list Z) : option Z :=
  List.find (fun i => default 0 (g !! Z.to_nat i) =? 0) (range 0 TASK_FILE_MAX).

(** The end of [sys_open], for the new [struct file] at [filp]. *)
Definition install (filp flags dentry : Z) (keyboard : bool) s : option (Z * sysstate X M) :=
  i ← inode_of dentry s;
  s ← (if negb (u64 flags .& O_TRUNC =? 0) then set_inode dentry (set_file_size 0 i) s else Some s);
  i ← inode_of dentry s;
  let pos := if negb (u64 flags .& O_APPEND =? 0) then i64 i.(file_size) else 0 in
  match free_fd s.(g_file_struct) with
  | None => s ← sys_release filp s; Some (u64 (- EMFILE), s)
  | Some fd =>
      Some (fd, set_table (<[Z.to_nat fd := filp]> s.(g_file_struct))
        (set_files (<[filp := mkFile pos (u64 flags) dentry keyboard]> s.(files)) s))
  end.

Definition sys_open (filename flags : Z) s : option (Z * sysstate X M) :=
  r ← get_path filename s;
  match r with
  | (inl e, s) => Some (e, s)
  | (inr (path, name), s) =>
      r ← walk name s;
      let '(dentry, s) := r in
      if dentry =? 0 then Some (u64 (- ENOENT), s)
      else
        i ← inode_of dentry s;
        let want_dir := negb (flags .& O_DIRECTORY =? 0) in
        let is_dir := i.(attribute) =? FS_ATTR_DIR in
        if want_dir && negb is_dir then Some (u64 (- ENOTDIR), s)
        else if negb want_dir && is_dir then Some (u64 (- EISDIR), s)
        else
          s ← sys_release path s;
          r ← sys_alloc sizeof_file s;
          let '(filp, s) := r in
          _ ← guard_fault (negb (filp =? 0));
          let keyboard := negb (i.(attribute) .& FS_ATTR_DEVICE =? 0) in
          r ← (match fop_open (f_ops (mkFile 0 flags dentry keyboard)) with
               | Some op => op i s.(system)
               | None => Some (0, s.(system))
               end);
          let '(error, x) := r in
          let s := set_system x s in
          if negb (error =? 1) then s ← sys_release filp s; Some (u64 (- EFAULT), s)
          else install filp flags dentry keyboard s
  end.

Definition bad_fd (fd : Z) : bool := (fd <? 0) || (TASK_FILE_MAX <=? fd).

(** [g_file_struct[fd]] and the file it points to. *)
Definition file_of (fd : Z) s : option (Z * file) :=
  filp ← s.(g_file_struct) !! Z.to_nat fd;
  f ← s.(files) !! filp;
  Some (filp, f).

Definition set_position (filp p : Z) (f : file) s : sysstate X M :=
  set_files (<[filp := mkFile p f.(mode) f.(f_dentry) f.(f_keyboard)]> s.(files)) s.

Definition sys_close (fd : Z) s : option (Z * sysstate X M) :=
  if bad_fd fd then Some (u64 (- EBADF), s)
  else
    r ← file_of fd s;
    let '(filp, f) := r in
    s ← (match fop_close (f_ops f) with
         | Some op => i ← inode_of f.(f_dentry) s; r ← op i s.(system); Some (set_system (snd r) s)
         | None => Some s
         end);
    s ← sys_release filp s;
    Some (0, set_table (<[Z.to_nat fd := 0]> s.(g_file_struct)) (set_files (delete filp s.(files)) s)).

Definition sys_read (fd buf count : Z) s : option (Z * sysstate X M) :=
  if bad_fd fd then Some (u64 (- EBADF), s)
  else if count <? 0 then Some (u64 (- EINVAL), s)
  else
    filp ← s.(g_file_struct) !! Z.to_nat fd;
    if filp =? 0 then Some (u64 (-1), s)
    else
      f ← s.(files) !! filp;
      match fop_read (f_ops f) with
      | None => Some (0, s)
      | Some op =>
          i ← inode_of f.(f_dentry) s;
          r ← op i buf count f.(position) s.(system);
          let '(v, p, x) := r in
          Some (u64 v, set_position filp p f (set_system x s))
      end.

Definition sys_write (fd buf count : Z) s : option (Z * sysstate X M) :=
  if bad_fd fd then Some (u64 (- EBADF), s)
  else if count <? 0 then Some (u64 (- EINVAL), s)
  else
    r ← file_of fd s;
    let '(filp, f) := r in
    match fop_write (f_ops f) with
    | None => Some (0, s)
    | Some op =>
        i ← inode_of f.(f_dentry) s;
        r ← op i buf count f.(position) s.(system);
        let '(v, p, i, x) := r in
        s ← set_inode f.(f_dentry) i (set_system x s);
        Some (u64 v, set_position filp p f s)
    end.

Definition sys_lseek (filds offset whence : Z) s : option (Z * sysstate X M) :=
  if bad_fd filds then Some (u64 (- EBADF), s)
  else if (whence <? 0) || (SEEK_MAX <=? whence) then Some (u64 (- EINVAL), s)
  else
    r ← file_of filds s;
    let '(filp, f) := r in
    match fop_lseek (f_ops f) with
    | None => Some (0, s)
    | Some op =>
        i ← inode_of f.(f_dentry) s;
        r ← op i f.(position) offset whence s.(system);
        let '(v, p, x) := r in
        Some (u64 v, set_position filp p f (set_system x s))
    end.

(** The bound of the descriptor is [fd > TASK_FILE_MAX] here. *)
Definition sys_getdents (fd dirent count : Z) s : option (Z * sysstate X M) :=
  if (fd <? 0) || (TASK_FILE_MAX <? fd) then Some (u64 (- EBADF), s)
  else if count <? 0 then Some (u64 (- EINVAL), s)
  else
    r ← file_of fd s;
    let '(filp, f) := r in
    match fop_readdir (f_ops f) with
    | None => Some (0, s)
    | Some op =>
        i ← inode_of f.(f_dentry) s;
        r ← op i dirent f.(position) s.(system);
        let '(v, p, x) := r in
        Some (u64 v, set_position filp p f (set_system x s))
    end.

Definition sys_chdir (filename : Z) s : option (Z * sysstate X M) :=
  r ← get_path filename s;
  match r with
  | (inl e, s) => Some (e, s)
  | (inr (path, name), s) =>
      r ← walk name s;
      let '(dentry, s) := r in
      s ← sys_release path s;
      if dentry =? 0 then Some (u64 (- ENOENT), s)
      else
        i ← inode_of dentry s;
        Some (if negb (i.(attribute) =? FS_ATTR_DIR) then u64 (- ENOTDIR) else 0, s)
  end.
End Sys.

(** [FAT32_file_ops]: the operations of [Fat32] on a volume, a disk and memory.  [junk] is
    what a fresh buffer of [FAT32_write] contains, [before] what precedes a directory buffer. *)
Definition FAT32_file_ops {D} `{BlockDevice D} (fuel : nat) (fsbi : FAT32_sb_info)
    (junk before : list Z) : file_operations (D * mem) := {|
  fop_open := Some (fun _ x => Some (FAT32_open, x));
  fop_close := Some (fun _ x => Some (FAT32_close, x));
  fop_read := Some (fun i buf count pos x =>
    r ← FAT32_read fsbi i buf count pos (fst x) (snd x);
    let '(v, p, m) := r in Some (v, p, (fst x, m)));
  fop_write := Some (fun i buf count pos x =>
    r ← FAT32_write fsbi i buf count pos junk (fst x) (snd x);
    let '(v, p, i, d) := r in Some (v, p, i, (d, snd x)));
  fop_lseek := Some (fun i pos offset origin x =>
    let '(v, p) := FAT32_lseek i pos offset origin in Some (v, p, x));
  fop_readdir := Some (fun i dirent pos x =>
    r ← FAT32_readdir fuel fsbi i before (fun n _ m => fill_dentry dirent n 0 0 m) pos (fst x) (snd x);
    let '(v, p, m) := r in Some (v, p, (fst x, m)))
|}.

(** ** The invariant of the descriptor table *)

Section SysSpec.
Context {X M : Type} `{InodeOps index_node} `{AllocatorLaws M}.
Context (root : Z).
Implicit Type s : sysstate X M.

(** Every descriptor is free or names an open file of its own, every open file has a
    descriptor, is in use, and leads to an index node. *)
Record sys_ok s : Prop := {
  so_vfs : vfs_ok s.(tree);
  so_root : has_inode s.(tree) root;
  so_len : length s.(g_file_struct) = 10%nat;
  so_table k a : s.(g_file_struct) !! k = Some a -> a <> 0 -> is_Some (s.(files) !! a);
  so_distinct k l a : s.(g_file_struct) !! k = Some a -> s.(g_file_struct) !! l = Some a -> a <> 0 -> k = l;
  so_files a f : s.(files) !! a = Some f -> a <> 0 /\ a ∈ live s.(tree).(heap) /\
    s.(tree).(dentries) !! a = None /\ has_inode s.(tree) f.(f_dentry);
  so_used a f : s.(files) !! a = Some f -> exists k, s.(g_file_struct) !! k = Some a
}.

(** An address that no open file and no dentry has. *)
Definition spare s (a : Z) : Prop :=
  a ∈ live s.(tree).(heap) /\ s.(files) !! a = None /\ s.(tree).(dentries) !! a = None.

Lemma sys_ok_retree s t : sys_ok s -> vfs_ok t ->
  (forall d, has_inode s.(tree) d -> has_inode t d) ->
  (forall a f, s.(files) !! a = Some f -> a ∈ live t.(heap) /\ t.(dentries) !! a = None) ->
  sys_ok (set_tree t s).
Proof using Type.
  intros [S1 S2 S3 S4 S5 S6 S7] Ht Hi Hf. constructor; cbn; try done.
  - by apply Hi.
  - intros a f Ha. destruct (S6 a f Ha) as (? & _ & _ & ?), (Hf a f Ha). auto.
Qed.

Lemma sys_ok_system s x : sys_ok s -> sys_ok (set_system x s).
Proof using Type. by intros [S1 S2 S3 S4 S5 S6 S7]. Qed.

Lemma vfs_ok_heap (t : vfs index_node M) h : vfs_ok t ->
  (forall a, is_Some (t.(dentries) !! a) -> a ∈ live h) ->
  vfs_ok (mkVfs t.(dentries) t.(vnodes) h).
Proof using Type.
  intros [V1 V2 V3] Hh. constructor; [done| |done]. intros a Ha. split; [by apply Hh|by apply V2].
Qed.

Lemma sys_alloc_ok n s a s' : sys_ok s -> sys_alloc n s = Some (a, s') -> sys_ok s' /\
  s'.(files) = s.(files) /\ s'.(g_file_struct) = s.(g_file_struct) /\ s'.(system) = s.(system) /\
  s'.(tree).(dentries) = s.(tree).(dentries) /\ (a <> 0 -> spare s' a).
Proof using Type.
  intros S E. unfold sys_alloc in E. apply bind_Some in E as ([b h] & Ea & E).
  cbn [fst snd] in E. injection E as -> <-. pose proof S as [S1 S2 S3 S4 S5 S6 S7].
  assert (live s.(tree).(heap) ⊆ live h) as Hl
    by (destruct (alloc_live _ _ _ _ Ea) as [[_ ->]|(_ & _ & ->)]; set_solver).
  split.
  - apply sys_ok_retree; [done| |done|].
    + apply vfs_ok_heap; [done|]. intros b Hb. by apply Hl, S1.
    + intros b f Hb. destruct (S6 b f Hb) as (_ & ? & ? & _). split; [by apply Hl|done].
  - split_and!; try done. intros Ha.
    destruct (alloc_live _ _ _ _ Ea) as [[? _]|(_ & Hnl & Hlh)]; [done|]. unfold spare; cbn. split_and!.
    + rewrite Hlh. set_solver.
    + destruct (s.(files) !! a) eqn:E; [|done]. by destruct (S6 a _ E) as (_ & ? & _).
    + destruct (s.(tree).(dentries) !! a) eqn:E; [|done].
      by destruct (vo_live _ S1 a (ltac:(eauto))) as [? _].
Qed.

Lemma sys_release_ok a s : sys_ok s -> spare s a -> exists s', sys_release a s = Some s' /\ sys_ok s' /\
  s'.(files) = s.(files) /\ s'.(g_file_struct) = s.(g_file_struct) /\ s'.(system) = s.(system) /\
  s'.(tree).(dentries) = s.(tree).(dentries) /\
  forall k, room s.(tree).(heap) k -> room s'.(tree).(heap) k.
Proof using Type.
  intros S (Hl & Hf & Hd). unfold sys_release. pose proof S as [S1 S2 S3 S4 S5 S6 S7].
  destruct (release_live a _ Hl) as (r & h & -> & Hh & Hk). cbn [mbind option_bind snd].
  eexists. split; [done|]. split; [|by split_and!]. apply sys_ok_retree; [done| |done|].
  - apply vfs_ok_heap; [done|]. intros b Hb. rewrite Hh.
    assert (b <> a) by (intros ->; rewrite Hd in Hb; by destruct Hb).
    pose proof (vo_live _ S1 b Hb) as [? _]. set_solver.
  - intros b f Hb. destruct (S6 b f Hb) as (_ & ? & ? & _). cbn. split; [|done]. rewrite Hh.
    assert (b <> a) by (intros ->; by rewrite Hf in Hb). set_solver.
Qed.

Lemma walk_ok name s d s' : sys_ok s -> walk root name s = Some (d, s') -> sys_ok s' /\
  s'.(files) = s.(files) /\ s'.(g_file_struct) = s.(g_file_struct) /\ s'.(system) = s.(system) /\
  (d <> 0 -> has_inode s'.(tree) d) /\ forall a, spare s a -> spare s' a.
Proof using Type.
  intros S E. unfold walk in E. apply bind_Some in E as ([b t] & Ew & E).
  cbn [fst snd] in E. injection E as -> <-. pose proof S as [S1 S2 S3 S4 S5 S6 S7].
  destruct (path_walk_inv root name 0 _ _ _ S1 S2 Ew) as [[G1 G2 G3 G4] Hd].
  assert (forall a, a ∈ live s.(tree).(heap) -> s.(tree).(dentries) !! a = None -> t.(dentries) !! a = None) as Hn.
  { intros a Ha Hn. destruct (t.(dentries) !! a) eqn:E; [|done]. by destruct (G4 a Hn (ltac:(eauto))). }
  split_and!; try done.
  - apply sys_ok_retree; [done|done| |].
    + intros e (de & i & Ee & Ei). exists de, i. split; [by eapply lookup_weaken|done].
    + intros a f Ha. destruct (S6 a f Ha) as (_ & ? & ? & _). split; [by apply G3|by apply Hn].
  - intros a (? & ? & ?). split_and!; [by apply G3|done|by apply Hn].
Qed.

Lemma get_path_ok read_string filename s r s' : sys_ok s -> get_path read_string filename s = Some (r, s') -> sys_ok s' /\
  s'.(files) = s.(files) /\ s'.(g_file_struct) = s.(g_file_struct) /\
  match r with inr (path, _) => spare s' path | inl _ => True end.
Proof using Type.
  intros S E. unfold get_path in E. apply bind_Some in E as ([path s1] & Ea & E).
  destruct (sys_alloc_ok _ _ _ _ S Ea) as (S1 & F1 & G1 & _ & _ & Hp).
  destruct (Z.eqb_spec path 0); [by injection E as <- <-|].
  apply bind_Some in E as (str & _ & E).
  destruct (sys_release_ok path s1 S1 (Hp n)) as (s2 & E2 & S2 & F2 & G2 & _).
  destruct (_ <=? 0).
  { rewrite E2 in E. cbn [mbind option_bind] in E. injection E as <- <-. split_and!; [done|by etrans..|done]. }
  destruct (PAGE_4K_SIZE <=? _).
  { rewrite E2 in E. cbn [mbind option_bind] in E. injection E as <- <-. split_and!; [done|by etrans..|done]. }
  injection E as <- <-. split_and!; try done. by apply Hp.
Qed.

Lemma set_inode_ok d i s s' : sys_ok s -> set_inode d i s = Some s' -> sys_ok s' /\
  s'.(files) = s.(files) /\ s'.(g_file_struct) = s.(g_file_struct) /\
  has_inode s'.(tree) d /\ forall a, spare s a -> spare s' a.
Proof using Type.
  intros S E. unfold set_inode in E. apply bind_Some in E as (e & Ee & E). injection E as <-.
  pose proof S as [S1 S2 S3 S4 S5 S6 S7]. set (t := mkVfs _ _ _).
  assert (forall a, t.(dentries) !! a = None <-> s.(tree).(dentries) !! a = None) as Hn.
  { intros a. unfold t; cbn. rewrite lookup_insert_None. split; [tauto|]. intros Ha. split; [done|congruence]. }
  assert (has_inode t d) as Hd by (eexists _, i; split; [unfold t; cbn; by rewrite lookup_insert_eq|done]).
  split_and!; try done.
  - apply sys_ok_retree; [done| | |].
    + destruct S1 as [V1 V2 V3]. constructor; [done| |by apply Hn].
      intros a Ha. apply V2. destruct (s.(tree).(dentries) !! a) eqn:E; [by eexists|].
      apply Hn in E. rewrite E in Ha. by destruct Ha.
    + intros b (eb & j & Eb & Ej). destruct (decide (b = d)) as [->|Hne]; [done|].
      exists eb, j. unfold t; cbn. by rewrite lookup_insert_ne.
    + intros a f Ha. destruct (S6 a f Ha) as (_ & ? & ? & _). split; [done|by apply Hn].
  - intros a (? & ? & ?). split_and!; [done|done|by apply Hn].
Qed.

Lemma set_position_ok filp p f s : sys_ok s -> s.(files) !! filp = Some f ->
  sys_ok (set_position filp p f s).
Proof using Type.
  intros [S1 S2 S3 S4 S5 S6 S7] Hf. constructor; cbn; try done.
  - intros k a Ha Hz. destruct (decide (a = filp)) as [->|]; [rewrite lookup_insert_eq; eauto|].
    rewrite lookup_insert_ne by done. by eapply S4.
  - intros a g Ha. destruct (decide (a = filp)) as [->|].
    + rewrite lookup_insert_eq in Ha. injection Ha as <-. by apply (S6 filp f).
    + rewrite lookup_insert_ne in Ha by done. by apply S6.
  - intros a g Ha. destruct (decide (a = filp)) as [->|]; [by eapply S7|].
    rewrite lookup_insert_ne in Ha by done. by eapply S7.
Qed.

Lemma free_fd_spec g : length g = 10%nat ->
  match free_fd g with
  | Some fd => 0 <= fd < 10 /\ g !! Z.to_nat fd = Some 0 /\
      forall j, 0 <= j < fd -> g !! Z.to_nat j <> Some 0
  | None => forall j, 0 <= j < 10 -> g !! Z.to_nat j <> Some 0
  end.
Proof using Type.
  intros Hl. unfold free_fd, TASK_FILE_MAX.
  destruct (List.find _ _) as [fd|] eqn:E.
  - apply find_range_some in E as (Hr & Hf & Hlow). apply Z.eqb_eq in Hf. split; [done|]. split.
    + destruct (g !! Z.to_nat fd) eqn:Eg; cbn in Hf; [by subst|]. apply lookup_ge_None in Eg. lia.
    + intros j Hj Hz. specialize (Hlow j Hj). by rewrite Hz in Hlow.
  - intros j Hj Hz. apply (proj1 (find_none_iff _ _)) with (x := j) in E; [by rewrite Hz in E|].
    by apply in_range.
Qed.

(** A new file in a free slot. *)
Lemma sys_ok_install fd filp f s : sys_ok s -> spare s filp -> filp <> 0 ->
  has_inode s.(tree) f.(f_dentry) -> 0 <= fd < 10 -> s.(g_file_struct) !! Z.to_nat fd = Some 0 ->
  sys_ok (set_table (<[Z.to_nat fd := filp]> s.(g_file_struct)) (set_files (<[filp := f]> s.(files)) s)).
Proof using Type.
  intros [S1 S2 S3 S4 S5 S6 S7] (Hl & Hfn & Hd) Hz Hi Hfd Hg.
  assert (forall k, s.(g_file_struct) !! k <> Some filp) as Hnew.
  { intros k Hk. destruct (S4 k filp Hk Hz) as [x Hx]. congruence. }
  constructor; cbn; try done.
  - by rewrite length_insert.
  - intros k a Ha Haz. destruct (decide (a = filp)) as [->|Hne]; [rewrite lookup_insert_eq; eauto|].
    rewrite lookup_insert_ne by done. destruct (decide (k = Z.to_nat fd)) as [->|].
    + rewrite list_lookup_insert_eq in Ha by lia. congruence.
    + rewrite list_lookup_insert_ne in Ha by done. by eapply S4.
  - intros k l a Hk Hla Ha.
    destruct (decide (k = Z.to_nat fd)) as [->|Hk'], (decide (l = Z.to_nat fd)) as [->|Hl']; [done|..];
      rewrite ?list_lookup_insert_eq in Hk by lia; rewrite ?list_lookup_insert_eq in Hla by lia;
      rewrite ?list_lookup_insert_ne in Hk by done; rewrite ?list_lookup_insert_ne in Hla by done.
    + injection Hk as <-. by destruct (Hnew l).
    + injection Hla as <-. by destruct (Hnew k).
    + by apply (S5 k l a).
  - intros a g Ha. destruct (decide (a = filp)) as [->|].
    + rewrite lookup_insert_eq in Ha. by injection Ha as <-.
    + rewrite lookup_insert_ne in Ha by done. by apply S6.
  - intros a g Ha. destruct (decide (a = filp)) as [->|].
    + exists (Z.to_nat fd). by rewrite list_lookup_insert_eq by lia.
    + rewrite lookup_insert_ne in Ha by done. destruct (S7 a g Ha) as [k Hk].
      destruct (S6 a g Ha) as [Haz _]. exists k. rewrite list_lookup_insert_ne; [done|].
      intros <-. rewrite Hg in Hk. by injection Hk as <-.
Qed.

(** The file of a descriptor goes, with its slot. *)
Lemma sys_ok_remove fd filp s s' : sys_ok s -> s.(g_file_struct) !! fd = Some filp ->
  is_Some (s.(files) !! filp) -> sys_release filp s = Some s' ->
  sys_ok (set_table (<[fd := 0]> s'.(g_file_struct)) (set_files (delete filp s'.(files)) s')).
Proof using Type.
  intros S Hg [f Hf] E. pose proof S as [S1 S2 S3 S4 S5 S6 S7].
  destruct (S6 filp f Hf) as (Hz & Hl & Hd & Hi).
  unfold sys_release in E. apply bind_Some in E as ([r h] & Er & E). cbn [snd] in E. injection E as <-.
  destruct (release_live filp _ Hl) as (r' & h' & Er' & Hh & _). rewrite Er in Er'. simplify_eq.
  constructor; cbn; try done.
  - apply vfs_ok_heap; [done|]. intros b Hb. rewrite Hh.
    assert (b <> filp) by (intros ->; rewrite Hd in Hb; by destruct Hb).
    pose proof (vo_live _ S1 b Hb) as [? _]. set_solver.
  - by rewrite length_insert.
  - intros k a Ha Haz. destruct (decide (k = fd)) as [->|Hk].
    + rewrite list_lookup_insert_eq in Ha by (by eapply lookup_lt_Some). congruence.
    + rewrite list_lookup_insert_ne in Ha by done.
      rewrite lookup_delete_ne; [by eapply S4|]. intros ->. by apply Hk, (S5 k fd a).
  - intros k l a Hk Hla Ha.
    destruct (decide (k = fd)) as [->|Hk'].
    { rewrite list_lookup_insert_eq in Hk by (by eapply lookup_lt_Some). congruence. }
    destruct (decide (l = fd)) as [->|Hl'].
    { rewrite list_lookup_insert_eq in Hla by (by eapply lookup_lt_Some). congruence. }
    rewrite list_lookup_insert_ne in Hk by done. rewrite list_lookup_insert_ne in Hla by done.
    by apply (S5 k l a).
  - intros a g Ha. apply lookup_delete_Some in Ha as [Hne Ha].
    destruct (S6 a g Ha) as (? & ? & ? & ?). split_and!; try done. rewrite Hh. set_solver.
  - intros a g Ha. apply lookup_delete_Some in Ha as [Hne Ha]. destruct (S7 a g Ha) as [k Hk].
    exists k. rewrite list_lookup_insert_ne; [done|]. intros ->. congruence.
Qed.

Lemma install_ok filp flags dentry kb s v s' : sys_ok s -> spare s filp -> filp <> 0 ->
  install filp flags dentry kb s = Some (v, s') -> sys_ok s'.
Proof using Type.
  intros S Hsp Hz E. unfold install in E. apply bind_Some in E as (i & Ei & E).
  assert (has_inode s.(tree) dentry) as Hi.
  { unfold inode_of in Ei. apply bind_Some in Ei as (e & ? & ?). by exists e, i. }
  apply bind_Some in E as (s1 & E1 & E). apply bind_Some in E as (i1 & Ei1 & E).
  assert (sys_ok s1 /\ spare s1 filp /\ has_inode s1.(tree) dentry) as (S1 & Hsp1 & Hi1).
  { destruct (negb (u64 flags .& O_TRUNC =? 0)); [|by simplify_eq].
    destruct (set_inode_ok _ _ _ _ S E1) as (? & _ & _ & ? & Hs). auto. }
  pose proof (free_fd_spec s1.(g_file_struct) (so_len _ S1)) as Hfd.
  destruct (free_fd s1.(g_file_struct)) as [fd|].
  - injection E as <- <-. destruct Hfd as (? & ? & _). by apply sys_ok_install.
  - destruct (sys_release_ok filp s1 S1 Hsp1) as (s2 & E2 & S2 & _). rewrite E2 in E.
    cbn [mbind option_bind] in E. by injection E as <- <-.
Qed.
End SysSpec.

(** ** The calls *)

Section Calls.
Context {X M : Type} `{InodeOps index_node} `{AllocatorLaws M}.
Context (root : Z) (inode_fops keyboard_fops : file_operations X).
Context (read_string : Z -> X -> option (list Z)).
Implicit Type s : sysstate X M.

(** One system call, with any arguments. *)
Inductive sys_step s s' : Prop :=
  | step_open filename flags v :
      sys_open root inode_fops keyboard_fops read_string filename flags s = Some (v, s') -> sys_step s s'
  | step_close fd v : sys_close inode_fops keyboard_fops fd s = Some (v, s') -> sys_step s s'
  | step_read fd buf n v : sys_read inode_fops keyboard_fops fd buf n s = Some (v, s') -> sys_step s s'
  | step_write fd buf n v : sys_write inode_fops keyboard_fops fd buf n s = Some (v, s') -> sys_step s s'
  | step_lseek fd off wh v : sys_lseek inode_fops keyboard_fops fd off wh s = Some (v, s') -> sys_step s s'
  | step_getdents fd buf n v : sys_getdents inode_fops keyboard_fops fd buf n s = Some (v, s') -> sys_step s s'
  | step_chdir filename v : sys_chdir root read_string filename s = Some (v, s') -> sys_step s s'.

Lemma sys_open_ok filename flags s v s' : sys_ok root s ->
  sys_open root inode_fops keyboard_fops read_string filename flags s = Some (v, s') -> sys_ok root s'.
Proof using Type.
  intros S E. unfold sys_open in E. apply bind_Some in E as ([r s1] & E1 & E).
  destruct (get_path_ok root _ _ _ _ _ S E1) as (S1 & _ & _ & Hp).
  destruct r as [e|[path name]]; [by injection E as <- <-|].
  apply bind_Some in E as ([d s2] & E2 & E).
  destruct (walk_ok root _ _ _ _ S1 E2) as (S2 & _ & _ & _ & Hd & Hsp).
  destruct (Z.eqb_spec d 0); [by injection E as <- <-|].
  apply bind_Some in E as (i & Ei & E).
  destruct (_ && _); [by injection E as <- <-|]. destruct (_ && _); [by injection E as <- <-|].
  apply bind_Some in E as (s3 & E3 & E).
  destruct (sys_release_ok root path s2 S2 (Hsp _ Hp)) as (s3' & E3' & S3 & _ & _ & _ & D3).
  rewrite E3 in E3'. injection E3' as <-.
  apply bind_Some in E as ([filp s4] & E4 & E).
  destruct (sys_alloc_ok root _ _ _ _ S3 E4) as (S4 & _ & _ & _ & D4 & Hf).
  apply bind_Some in E as ([] & G & E). assert (filp <> 0) as Hz by (by intros ->).
  apply bind_Some in E as ([error x] & _ & E).
  pose proof (sys_ok_system root s4 x S4) as S5.
  assert (spare (set_system x s4) filp) as Hsp5 by exact (Hf Hz).
  destruct (error =? 1); cbn [negb] in E.
  - by eapply install_ok.
  - destruct (sys_release_ok root filp _ S5 Hsp5) as (s6 & E6 & S6 & _). rewrite E6 in E.
    cbn [mbind option_bind] in E. by injection E as <- <-.
Qed.

Lemma file_of_some fd s filp f : file_of fd s = Some (filp, f) ->
  s.(g_file_struct) !! Z.to_nat fd = Some filp /\ s.(files) !! filp = Some f.
Proof using Type. unfold file_of. intros E. inv_fault. done. Qed.

Lemma sys_close_ok fd s v s' : sys_ok root s ->
  sys_close inode_fops keyboard_fops fd s = Some (v, s') -> sys_ok root s'.
Proof using Type.
  intros S E. unfold sys_close in E. destruct (bad_fd fd); [by injection E as <- <-|].
  apply bind_Some in E as ([filp f] & Ef & E). apply file_of_some in Ef as [Eg Ef].
  apply bind_Some in E as (s1 & E1 & E). apply bind_Some in E as (s2 & E2 & E). injection E as <- <-.
  assert (exists x, s1 = set_system x s) as [x ->].
  { destruct (fop_close _) as [op|]; [|exists s.(system); injection E1 as <-; by destruct s].
    apply bind_Some in E1 as (i & _ & E1). apply bind_Some in E1 as (r & _ & E1).
    injection E1 as <-. by eexists. }
  eapply (sys_ok_remove root _ filp (set_system x s)); [by apply sys_ok_system|done|by exists f|done].
Qed.

(** The calls that only move the position, and call an operation. *)
Lemma sys_move_ok s filp f p x : sys_ok root s -> s.(files) !! filp = Some f ->
  sys_ok root (set_position filp p f (set_system x s)).
Proof using Type. intros S Hf. apply set_position_ok; [by apply sys_ok_system|done]. Qed.

Ltac moves := repeat match goal with
  | E : mbind _ _ = Some _ |- _ => let x := fresh "x" in apply bind_Some in E as (x & ? & E)
  | E : (if ?b then _ else _) = Some _ |- _ => destruct b; [by injection E as <- <-|]
  | E : file_of _ _ = Some ?r |- _ => destruct r; apply file_of_some in E as [? ?]
  | E : match fop_read ?o with _ => _ end = _ |- _ => destruct (fop_read o); [|by injection E as <- <-]
  | E : match fop_lseek ?o with _ => _ end = _ |- _ => destruct (fop_lseek o); [|by injection E as <- <-]
  | E : match fop_readdir ?o with _ => _ end = _ |- _ => destruct (fop_readdir o); [|by injection E as <- <-]
  | E : (let '(_, _) := ?r in _) = Some _ |- _ => destruct r
  end.

Lemma sys_write_ok fd buf n s v s' : sys_ok root s ->
  sys_write inode_fops keyboard_fops fd buf n s = Some (v, s') -> sys_ok root s'.
Proof using Type.
  intros S E. unfold sys_write in E. moves.
  destruct (fop_write _); [|by injection E as <- <-]. moves. injection E as <- <-.
  match goal with Hx : set_inode _ _ (set_system ?x s) = Some _ |- _ =>
    destruct (set_inode_ok root _ _ _ _ (sys_ok_system root s x S) Hx) as (S' & F' & _) end.
  apply set_position_ok; [done|]. rewrite F'. done.
Qed.

(** C26. Every system call keeps the descriptor table consistent: whatever calls a program
    makes, with whatever arguments, every descriptor is free or names an open file that
    no other descriptor names, and every open file is allocated, reachable through a
    descriptor and leads to an index node. *)
Theorem sys_calls_invariant s s' : sys_ok root s -> rtc sys_step s s' -> sys_ok root s'.
Proof using Type.
  intros S Hrtc. induction Hrtc as [s|s s1 s2 Hstep _ IH]; [done|]. apply IH. clear IH.
  destruct Hstep as [fn fl v E|fd v E|fd buf n v E|fd buf n v E|fd off wh v E|fd buf n v E|fn v E].
  - by eapply sys_open_ok.
  - by eapply sys_close_ok.
  - unfold sys_read in E. moves. injection E as <- <-. by apply sys_move_ok.
  - by eapply sys_write_ok.
  - unfold sys_lseek in E. moves. injection E as <- <-. by apply sys_move_ok.
  - unfold sys_getdents in E. moves. injection E as <- <-. by apply sys_move_ok.
  - unfold sys_chdir in E. apply bind_Some in E as ([r s3] & E1 & E).
    destruct (get_path_ok root _ _ _ _ _ S E1) as (S1 & _ & _ & Hp).
    destruct r as [e|[path name]]; [by injection E as <- <-|].
    apply bind_Some in E as ([d s4] & E2 & E).
    destruct (walk_ok root _ _ _ _ S1 E2) as (S2 & _ & _ & _ & _ & Hsp).
    destruct (sys_release_ok root path s4 S2 (Hsp _ Hp)) as (s5 & E5 & S3 & _). rewrite E5 in E.
    cbn [mbind option_bind] in E. destruct (d =? 0); [by injection E as <- <-|].
    apply bind_Some in E as (i & _ & E). by injection E as <- <-.
Qed.

(** The calls refuse a descriptor outside the table and change nothing, except that
    [sys_getdents] lets the descriptor [TASK_FILE_MAX] through, which then indexes past
    the end of the table. *)
Theorem bad_descriptor s fd x y : sys_ok root s -> fd < 0 \/ 10 <= fd -> 0 <= y ->
  sys_close inode_fops keyboard_fops fd s = Some (u64 (- EBADF), s) /\
  sys_read inode_fops keyboard_fops fd x y s = Some (u64 (- EBADF), s) /\
  sys_write inode_fops keyboard_fops fd x y s = Some (u64 (- EBADF), s) /\
  sys_lseek inode_fops keyboard_fops fd x y s = Some (u64 (- EBADF), s) /\
  sys_getdents inode_fops keyboard_fops fd x y s =
    if fd =? 10 then None else Some (u64 (- EBADF), s).
Proof using Type.
  intros S Hfd Hy. unfold sys_close, sys_read, sys_write, sys_lseek, sys_getdents.
  assert (bad_fd fd = true) as -> by (unfold bad_fd, TASK_FILE_MAX; lia). split_and!; try done.
  unfold TASK_FILE_MAX. destruct (Z.eqb_spec fd 10) as [->|Hne].
  - cbn. rewrite (proj2 (Z.ltb_ge y 0)) by lia. unfold file_of.
    rewrite lookup_ge_None_2 by (rewrite (so_len _ _ S); lia). done.
  - assert ((fd <? 0) || (10 <? fd) = true) as -> by lia. done.
Qed.

(** ** sys_open *)

Lemma sys_alloc_run n s k : n <= 1048576 -> room s.(tree).(heap) (S k) -> exists a s',
  sys_alloc n s = Some (a, s') /\ a <> 0 /\ room s'.(tree).(heap) k.
Proof using Type.
  intros Hn Hr. destruct (alloc_room n _ k Hn Hr) as (a & h & E & Ha & Hk). unfold sys_alloc. rewrite E.
  cbn [mbind option_bind]. by eexists _, _.
Qed.

Lemma get_path_run s filename str k : sys_ok root s -> read_string filename s.(system) = Some str ->
  0 < Z.of_nat (length str) < PAGE_4K_SIZE -> verify_area filename (Z.of_nat (length str)) = 1 ->
  room s.(tree).(heap) (S k) -> exists path s1,
    get_path read_string filename s = Some (inr (path, str), s1) /\ room s1.(tree).(heap) k /\
    s1.(tree).(dentries) = s.(tree).(dentries) /\ s1.(system) = s.(system).
Proof using Type.
  intros S Hstr Hlen Hv Hroom. destruct (sys_alloc_run PAGE_4K_SIZE s k ltac:(done) Hroom) as (path & s1 & E1 & Hp & R1).
  destruct (sys_alloc_ok root _ _ _ _ S E1) as (_ & _ & _ & X1 & D1 & _).
  unfold get_path. rewrite E1. cbn [mbind option_bind]. rewrite (proj2 (Z.eqb_neq _ _) Hp).
  rewrite X1, Hstr. cbn [mbind option_bind].
  assert (strnlen_user filename str PAGE_4K_SIZE = Z.of_nat (length str)) as ->.
  { unfold strnlen_user. rewrite Hv. cbn [Z.eqb]. by rewrite (proj2 (Z.leb_le _ _)) by lia. }
  rewrite (proj2 (Z.leb_gt _ 0)), (proj2 (Z.leb_gt PAGE_4K_SIZE _)) by lia.
  exists path, s1. rewrite take_ge by lia. done.
Qed.

Lemma install_run filp flags dentry kb s i : sys_ok root s -> spare s filp -> filp <> 0 ->
  0 <= flags < 2 ^ 31 -> inode_of dentry s = Some i -> 0 <= i.(file_size) < 2 ^ 63 ->
  exists s', match free_fd s.(g_file_struct) with
  | None => install filp flags dentry kb s = Some (u64 (- EMFILE), s') /\
      s'.(g_file_struct) = s.(g_file_struct) /\ s'.(files) = s.(files)
  | Some fd =>
      let i' := if negb (flags .& O_TRUNC =? 0) then set_file_size 0 i else i in
      let pos := if negb (flags .& O_APPEND =? 0) then i'.(file_size) else 0 in
      install filp flags dentry kb s = Some (fd, s') /\ inode_of dentry s' = Some i' /\
      s'.(g_file_struct) = <[Z.to_nat fd := filp]> s.(g_file_struct) /\
      s'.(files) = <[filp := mkFile pos flags dentry kb]> s.(files)
  end.
Proof using Type.
  intros S Hsp Hz Hfl Hi Hsize. unfold install. rewrite Hi, (u64_small flags) by lia. cbn [mbind option_bind].
  set (i' := if negb (flags .& O_TRUNC =? 0) then set_file_size 0 i else i).
  assert (exists s1, (if negb (flags .& O_TRUNC =? 0) then set_inode dentry (set_file_size 0 i) s else Some s) = Some s1 /\
    inode_of dentry s1 = Some i' /\ s1.(g_file_struct) = s.(g_file_struct) /\ s1.(files) = s.(files) /\
    sys_ok root s1 /\ spare s1 filp) as (s1 & -> & Hi1 & G1 & F1 & S1 & Hsp1).
  { unfold i'. destruct (negb (flags .& O_TRUNC =? 0)); [|by exists s].
    pose proof Hi as Hi'. unfold inode_of in Hi'. apply bind_Some in Hi' as (e & Ee & _).
    destruct (set_inode dentry (set_file_size 0 i) s) as [s1|] eqn:E1.
    2: { unfold set_inode in E1. by rewrite Ee in E1. }
    destruct (set_inode_ok root _ _ _ _ S E1) as (S1 & F1 & G1 & _ & Hsp1). exists s1.
    split_and!; try done; [|by apply Hsp1].
    unfold set_inode in E1. rewrite Ee in E1. injection E1 as <-. unfold inode_of. cbn.
    by rewrite lookup_insert_eq. }
  cbn [mbind option_bind]. rewrite Hi1. cbn [mbind option_bind].
  assert (0 <= i'.(file_size) < 2 ^ 63) by (unfold i'; destruct (negb _); cbn; lia).
  rewrite G1. destruct (free_fd s.(g_file_struct)) as [fd|].
  - eexists. cbv zeta. split; [reflexivity|]. cbn. rewrite F1, i64_small by lia. done.
  - destruct (sys_release_ok root filp s1 S1 Hsp1) as (s2 & -> & _ & F2 & G2 & _). exists s2.
    cbn [mbind option_bind]. by rewrite F2, G2.
Qed.

(** The open operation of a table succeeds. *)
Definition opens (ops : file_operations X) : Prop :=
  exists op, fop_open ops = Some op /\ forall i x, exists x', op i x = Some (1, x').

(** C27. [sys_open], on every path a program can take: a path that does not resolve gives
    ENOENT, a directory opened as a file EISDIR, a file opened as a directory ENOTDIR, a
    full table EMFILE, all leaving the table and the open files alone; otherwise the
    lowest free descriptor now names a new file on the index node the path leads to, at
    position 0, or at the end of the file with O_APPEND, after O_TRUNC emptied it. *)
Theorem sys_open_spec s filename str flags i0 r :
  sys_ok root s -> opens inode_fops -> opens keyboard_fops ->
  read_string filename s.(system) = Some str -> 0 < Z.of_nat (length str) < PAGE_4K_SIZE ->
  verify_area filename (Z.of_nat (length str)) = 1 -> 0 <= flags < 2 ^ 31 ->
  inode_of root s = Some i0 -> resolve i0 (components str) = Some r ->
  (forall i, r = Some i -> 0 <= i.(file_size) < 2 ^ 63) ->
  room s.(tree).(heap) (2 * length (components str) + 2) ->
  let want_dir := negb (flags .& O_DIRECTORY =? 0) in
  let is_dir i := i.(attribute) =? FS_ATTR_DIR in
  exists v s', sys_open root inode_fops keyboard_fops read_string filename flags s = Some (v, s') /\
    let fails e := v = u64 (- e) /\ s'.(g_file_struct) = s.(g_file_struct) /\ s'.(files) = s.(files) in
    match r with
    | None => fails ENOENT
    | Some i =>
        if want_dir && negb (is_dir i) then fails ENOTDIR
        else if negb want_dir && is_dir i then fails EISDIR
        else match free_fd s.(g_file_struct) with
        | None => fails EMFILE
        | Some fd =>
            let i' := if negb (flags .& O_TRUNC =? 0) then set_file_size 0 i else i in
            let pos := if negb (flags .& O_APPEND =? 0) then i'.(file_size) else 0 in
            v = fd /\ exists filp dentry, s.(files) !! filp = None /\ inode_of dentry s' = Some i' /\
              s'.(g_file_struct) = <[Z.to_nat fd := filp]> s.(g_file_struct) /\
              s'.(files) = <[filp := mkFile pos flags dentry
                (negb (i.(attribute) .& FS_ATTR_DEVICE =? 0))]> s.(files)
        end
    end.
Proof using Type.
  intros S Hop Hkb Hstr Hlen Hv Hfl Hi0 Hr Hsize Hroom want_dir is_dir.
  destruct (get_path_run s filename str (2 * length (components str) + 1) S Hstr Hlen Hv)
    as (path & s1 & E1 & R1 & D1 & X1); [by rewrite Nat.add_succ_r in Hroom|].
  destruct (get_path_ok root _ _ _ _ _ S E1) as (S1 & F1 & G1 & Hsp1).
  unfold inode_of in Hi0. apply bind_Some in Hi0 as (d0 & Ed0 & Ei0).
  assert (Z.of_nat (length str) < 1048576) as Hshort by (change PAGE_4K_SIZE with 4096 in Hlen; lia).
  destruct (path_walk_run root str 0 s1.(tree) i0 r 1 (so_vfs _ _ S1) Hshort) as (d & t & Ew & _ & Rt & Hd);
    [exists d0; by rewrite D1|done|done|].
  assert (walk root str s1 = Some (d, set_tree t s1)) as E2 by (unfold walk; by rewrite Ew).
  destruct (walk_ok root _ _ _ _ S1 E2) as (S2 & _ & _ & _ & Hd2 & Hsp2).
  set (s2 := set_tree t s1) in *.
  unfold sys_open. rewrite E1. cbn [mbind option_bind]. rewrite E2. cbn [mbind option_bind].
  destruct r as [i|].
  2: { subst d. cbn [Z.eqb]. eexists _, _. split; [done|]. cbn. by rewrite F1, G1. }
  destruct Hd as (e & Ee & Er & Hc).
  assert (d <> 0) as Hd0.
  { intros ->. pose proof (vo_null _ (so_vfs _ _ S2)) as Hnull. cbn in Hnull. congruence. }
  rewrite (proj2 (Z.eqb_neq _ _) Hd0).
  assert (e.(dir_inode) = Some i) as Ei.
  { change (result_names 0 (components str)) with (components str) in Er. rewrite Hr in Er. by injection Er. }
  assert (inode_of d s2 = Some i) as Hi2 by (unfold inode_of; cbn; by rewrite Ee).
  rewrite Hi2. cbn [mbind option_bind]. fold want_dir. fold (is_dir i).
  destruct (want_dir && negb (is_dir i)).
  { eexists _, _. split; [done|]. cbn. by rewrite F1, G1. }
  destruct (negb want_dir && is_dir i).
  { eexists _, _. split; [done|]. cbn. by rewrite F1, G1. }
  destruct (sys_release_ok root path s2 S2 (Hsp2 _ Hsp1)) as (s3 & E3 & S3 & F3 & G3 & _ & D3 & R3).
  rewrite E3. cbn [mbind option_bind].
  destruct (sys_alloc_run sizeof_file s3 0 ltac:(done) (R3 1%nat Rt)) as (filp & s4 & E4 & Hz & _).
  destruct (sys_alloc_ok root _ _ _ _ S3 E4) as (S4 & F4 & G4 & _ & D4 & Hsp4). rewrite E4.
  cbn [mbind option_bind]. rewrite (proj2 (Z.eqb_neq _ _) Hz). cbn [negb guard_fault mbind option_bind].
  set (kb := negb (i.(attribute) .& FS_ATTR_DEVICE =? 0)).
  assert (opens (f_ops inode_fops keyboard_fops (mkFile 0 flags d kb))) as (op & -> & Hrun)
    by (unfold f_ops; cbn [f_keyboard]; by destruct kb).
  destruct (Hrun i s4.(system)) as [x ->]. cbn [mbind option_bind Z.eqb negb].
  change (negb (1 =? 1)) with false. cbv iota.
  assert (inode_of d (set_system x s4) = Some i) as Hi4 by (unfold inode_of in *; cbn [tree set_system]; by rewrite D4, D3).
  destruct (install_run filp flags d kb (set_system x s4) i (sys_ok_system root s4 x S4) (Hsp4 Hz) Hz
    Hfl Hi4 (Hsize _ eq_refl)) as (s5 & H5).
  assert (s4.(g_file_struct) = s.(g_file_struct) /\ s4.(files) = s.(files)) as [G F].
  { by rewrite G4, G3, F4, F3. }
  cbn [set_system g_file_struct files] in H5. rewrite G, F in H5.
  destruct (free_fd s.(g_file_struct)) as [fd|].
  - destruct H5 as (-> & Hi5 & G5 & F5). eexists _, _. split; [done|]. split; [done|].
    exists filp, d. split_and!; try done. rewrite <- F. apply (Hsp4 Hz).
  - destruct H5 as (-> & G5 & F5). eexists _, _. by split.
Qed.

(** ** Closing what was opened *)

Lemma install_inv filp flags dentry kb s v s' : sys_ok root s -> spare s filp -> filp <> 0 ->
  install filp flags dentry kb s = Some (v, s') -> 0 <= v < 10 ->
  s.(g_file_struct) !! Z.to_nat v = Some 0 /\ s'.(g_file_struct) = <[Z.to_nat v := filp]> s.(g_file_struct) /\
  exists f, s'.(files) = <[filp := f]> s.(files).
Proof using Type.
  intros S Hsp Hz E Hv. unfold install in E. apply bind_Some in E as (i & Ei & E).
  apply bind_Some in E as (s1 & E1 & E). apply bind_Some in E as (i1 & _ & E).
  assert (sys_ok root s1 /\ s1.(g_file_struct) = s.(g_file_struct) /\ s1.(files) = s.(files)) as (S1 & G1 & F1).
  { destruct (negb (u64 flags .& O_TRUNC =? 0)); [|by simplify_eq].
    destruct (set_inode_ok root _ _ _ _ S E1) as (? & ? & ? & _). auto. }
  pose proof (free_fd_spec s1.(g_file_struct) (so_len _ _ S1)) as Hfd.
  destruct (free_fd s1.(g_file_struct)) as [fd|].
  - injection E as <- <-. destruct Hfd as (_ & Hg & _). cbn. rewrite <- G1, <- F1. eauto.
  - apply bind_Some in E as (s2 & _ & E). injection E as <- _. exfalso.
    destruct Hv as [_ Hv]. vm_compute in Hv. discriminate.
Qed.

Ltac errno := match goal with H : forall e, _ -> ?v <> u64 (- e) |- _ =>
  exfalso; eapply H; [|reflexivity]; repeat (first [reflexivity | left; reflexivity | right]) end.

Lemma sys_open_inv filename flags s v s' : sys_ok root s ->
  sys_open root inode_fops keyboard_fops read_string filename flags s = Some (v, s') -> 0 <= v < 10 ->
  s.(g_file_struct) !! Z.to_nat v = Some 0 /\ exists filp f, s.(files) !! filp = None /\
  s'.(g_file_struct) = <[Z.to_nat v := filp]> s.(g_file_struct) /\ s'.(files) = <[filp := f]> s.(files).
Proof using Type.
  intros S E Hv. unfold sys_open in E. apply bind_Some in E as ([r s1] & E1 & E).
  destruct (get_path_ok root _ _ _ _ _ S E1) as (S1 & F1 & G1 & Hp).
  assert (forall e, e = ENOENT \/ e = ENOTDIR \/ e = EISDIR \/ e = EFAULT \/ e = ENOMEM \/ e = ENAMETOOLONG ->
    v <> u64 (- e)) as Herr.
  { intros e He ->. destruct Hv as [_ Hv].
    destruct He as [->|[->|[->|[->|[->| ->]]]]]; vm_compute in Hv; discriminate. }
  destruct r as [e|[path name]].
  { injection E as -> <-. unfold get_path in E1. apply bind_Some in E1 as ([a s2] & _ & E1).
    destruct (a =? 0); [injection E1 as <- _; errno|].
    apply bind_Some in E1 as (str & _ & E1).
    destruct (_ <=? 0); [apply bind_Some in E1 as (s3 & _ & E1); injection E1 as <- _; errno|].
    destruct (PAGE_4K_SIZE <=? _); [|done].
    apply bind_Some in E1 as (s3 & _ & E1). injection E1 as <- _. errno. }
  apply bind_Some in E as ([d s2] & E2 & E).
  destruct (walk_ok root _ _ _ _ S1 E2) as (S2 & F2 & G2 & _ & _ & Hsp).
  destruct (d =? 0); [injection E as <- _; errno|].
  apply bind_Some in E as (i & _ & E).
  destruct (_ && _); [injection E as <- _; errno|].
  destruct (_ && _); [injection E as <- _; errno|].
  destruct (sys_release_ok root path s2 S2 (Hsp _ Hp)) as (s3 & E3 & S3 & F3 & G3 & _).
  rewrite E3 in E. cbn [mbind option_bind] in E. apply bind_Some in E as ([filp s4] & E4 & E).
  destruct (sys_alloc_ok root _ _ _ _ S3 E4) as (S4 & F4 & G4 & _ & _ & Hf).
  apply bind_Some in E as ([] & Gd & E). assert (filp <> 0) as Hz by (by intros ->).
  apply bind_Some in E as ([error x] & _ & E). destruct (error =? 1); cbn [negb] in E.
  - destruct (install_inv _ _ _ _ _ _ _ (sys_ok_system root s4 x S4) (Hf Hz) Hz E Hv) as (Hg & Hg' & f & Hf').
    cbn [g_file_struct files set_system] in *. rewrite G4, G3, G2, G1 in Hg, Hg'. rewrite F4, F3, F2, F1 in Hf'.
    split; [done|]. exists filp, f. split_and!; [|done|done].
    rewrite <- F1, <- F2, <- F3, <- F4. apply (Hf Hz).
  - apply bind_Some in E as (s6 & _ & E). injection E as <- _. errno.
Qed.

(** The close operation of a table returns. *)
Definition closes (ops : file_operations X) : Prop :=
  match fop_close ops with Some op => forall i x, exists r, op i x = Some r | None => True end.

(** Closing the descriptor that [sys_open] returned succeeds, and the descriptor table and
    the open files are then exactly what they were before the open. *)
Theorem sys_open_close filename flags s v s' :
  sys_ok root s -> closes inode_fops -> closes keyboard_fops ->
  sys_open root inode_fops keyboard_fops read_string filename flags s = Some (v, s') -> 0 <= v < 10 ->
  exists s'', sys_close inode_fops keyboard_fops v s' = Some (0, s'') /\
    s''.(g_file_struct) = s.(g_file_struct) /\ s''.(files) = s.(files).
Proof using Type.
  intros S Hci Hck E Hv. pose proof (sys_open_ok _ _ _ _ _ S E) as S'.
  destruct (sys_open_inv _ _ _ _ _ S E Hv) as (Hg & filp & f & Hn & Hg' & Hf').
  pose proof (so_len _ _ S) as Hlen.
  unfold sys_close. assert (bad_fd v = false) as -> by (unfold bad_fd, TASK_FILE_MAX; lia).
  assert (file_of v s' = Some (filp, f)) as ->.
  { unfold file_of. rewrite Hg', list_lookup_insert_eq by lia. cbn [mbind option_bind].
    rewrite Hf', lookup_insert_eq. done. }
  cbn [mbind option_bind].
  destruct (so_files _ _ S' filp f) as (_ & Hl & _ & (d & i & Ed & Ei)); [rewrite Hf'; apply lookup_insert_eq|].
  assert (exists x, match fop_close (f_ops inode_fops keyboard_fops f) with
    | Some op => i ← inode_of (f_dentry f) s'; r ← op i s'.(system); Some (set_system (snd r) s')
    | None => Some s' end = Some (set_system x s')) as [x ->].
  { assert (closes (f_ops inode_fops keyboard_fops f)) as Hc by (unfold f_ops; by destruct (f_keyboard f)).
    unfold closes in Hc. destruct (fop_close _) as [op|]; [|exists s'.(system); by destruct s'].
    unfold inode_of. rewrite Ed. cbn [mbind option_bind]. rewrite Ei. cbn [mbind option_bind].
    destruct (Hc i s'.(system)) as [r ->]. by eexists. }
  cbn [mbind option_bind]. unfold sys_release. cbn [tree set_system].
  destruct (release_live filp _ Hl) as (r & h & -> & _). cbn [mbind option_bind].
  eexists. split; [reflexivity|]. cbn. rewrite Hg', Hf'. split.
  - rewrite list_insert_insert_eq. by apply list_insert_id.
  - by rewrite delete_insert_eq, delete_id.
Qed.
End Calls.

(** ** Reading an open file of a FAT32 volume *)

(** The string at an address: the bytes before the first zero ([strlen]). *)
Fixpoint cstring (fuel : nat) (a : Z) (m : mem) : option (list Z) :=
  match fuel with
  | O => None
  | S fuel => c ← m !! a; if c =? 0 then Some [] else cs ← cstring fuel (a + 1) m; Some (c :: cs)
  end.

Definition user_string {D} (a : Z) (x : D * mem) : option (list Z) :=
  cstring (S (base.size (snd x))) a (snd x).

(** C28. [sys_read] of a descriptor open on a FAT32 file refines reading from the contents of the
    file: when its clusters are linked in the allocation table and cover its size, the call
    delivers exactly the bytes from the position on, as many as asked for or left in the file,
    to the caller's buffer, returns their number, and the next read continues behind them;
    nothing else changes. *)
Theorem sys_read_file {D M} `{BlockDeviceLaws D} (s : sysstate (D * mem) M) kbd fuel fsbi junk before
    fd filp f i buf count cs data :
  0 <= fd < 10 -> s.(g_file_struct) !! Z.to_nat fd = Some filp -> filp <> 0 ->
  s.(files) !! filp = Some f -> f.(f_keyboard) = false -> inode_of f.(f_dentry) s = Some i ->
  let d := fst s.(system) in let c := i.(private_index_info).(first_cluster) in
  cluster_ok fsbi -> c <> 0 -> linked_clusters fsbi d (c :: cs) -> file_content fsbi d (c :: cs) = Some data ->
  0 <= f.(position) < i.(file_size) -> i.(file_size) <= Z.of_nat (length data) < 2 ^ 31 ->
  0 <= count < 2 ^ 31 -> buf_ok buf count ->
  let n := Z.min count (i.(file_size) - f.(position)) in
  let bytes := take (Z.to_nat n) (drop (Z.to_nat f.(position)) data) in
  sys_read (FAT32_file_ops fuel fsbi junk before) kbd fd buf count s =
    Some (n, mkSys s.(tree)
      (<[filp := mkFile (f.(position) + n) f.(mode) f.(f_dentry) f.(f_keyboard)]> s.(files))
      s.(g_file_struct) (d, mem_write buf bytes (snd s.(system)))).
Proof.
  intros Hfd Hg Hz Hf Hk Hi d c Hok Hc Hlk Hdata Hpos Hsize Hcount Hbuf n bytes.
  unfold sys_read. assert (bad_fd fd = false) as -> by (unfold bad_fd, TASK_FILE_MAX; lia).
  rewrite (proj2 (Z.ltb_ge count 0)), Hg by lia. cbn [mbind option_bind].
  rewrite (proj2 (Z.eqb_neq _ _) Hz), Hf. cbn [mbind option_bind].
  unfold f_ops. rewrite Hk. cbn [fop_read FAT32_file_ops]. rewrite Hi. cbn [mbind option_bind].
  rewrite (FAT32_read_correct fsbi i buf count f.(position) _ _ cs data) by (done || lia).
  cbn [mbind option_bind]. fold n. unfold set_position. rewrite Hk, u64_small by (unfold n; lia). done.
Qed.

(** ** A small system: the volume of [Vfs], no file open, the path at a user address *)

#[local] Existing Instance tree_ops.

Definition demo_fops : file_operations (ramdisk * mem) := FAT32_file_ops 5 demo_fsbi [] (repeat 0 32).

Definition demo_string : Z := 0x600000.
Definition sys_demo : sysstate (ramdisk * mem) arena :=
  mkSys vfs_demo ∅ (repeat 0 10) (tree_disk, mem_write demo_string (demo_path ++ [0]) ∅).

Lemma sys_demo_ok : sys_ok 1000 sys_demo.
Proof.
  constructor.
  - exact vfs_demo_ok.
  - eexists _, _. split; reflexivity.
  - reflexivity.
  - intros k a Hk Ha. apply list_elem_of_lookup_2 in Hk. apply list_elem_of_In in Hk.
    apply repeat_spec in Hk. by destruct Ha.
  - intros k l a Hk _ Ha. apply list_elem_of_lookup_2 in Hk. apply list_elem_of_In in Hk.
    apply repeat_spec in Hk. by destruct Ha.
  - intros a f Hf. cbn [files sys_demo] in Hf. by rewrite lookup_empty in Hf.
  - intros a f Hf. cbn [files sys_demo] in Hf. by rewrite lookup_empty in Hf.
Qed.

Lemma demo_opens : opens demo_fops.
Proof. eexists. split; [reflexivity|]. intros i x. by exists x. Qed.

Lemma sys_open_spec_witness : exists s',
  sys_open 1000 demo_fops demo_fops user_string demo_string O_RDWR sys_demo = Some (0, s') /\
  exists filp, s'.(g_file_struct) !! 0%nat = Some filp.
Proof.
  destruct (sys_open_spec 1000 demo_fops demo_fops user_string sys_demo demo_string demo_path O_RDWR
    demo_root (Some (mkInode 600 2 FS_ATTR_FILE (mkInodeInfo 3 5 0 0 0 0 0))))
    as (v & s' & E & -> & filp & dentry & _ & _ & Hg & _).
  - exact sys_demo_ok.
  - exact demo_opens.
  - exact demo_opens.
  - vm_compute. reflexivity.
  - vm_compute. split; reflexivity.
  - reflexivity.
  - vm_compute. split; [discriminate|reflexivity].
  - reflexivity.
  - vm_compute. reflexivity.
  - intros i Hi. injection Hi as <-. cbn. lia.
  - exact Logic.I.
  - exists s'. split; [exact E|]. exists filp. rewrite Hg. reflexivity.
Defined.

(** The open of [demo_path], whose result is 0. *)
Definition demo_open : option (Z * sysstate (ramdisk * mem) arena) :=
  sys_open 1000 demo_fops demo_fops user_string demo_string O_RDWR sys_demo.

Lemma demo_open_some : exists s', demo_open = Some (0, s').
Proof.
  assert (fst <$> demo_open = Some 0) as E0 by (vm_compute; reflexivity).
  destruct demo_open as [[v s']|]; [|discriminate]. injection E0 as ->. by exists s'.
Qed.

Lemma sys_open_close_witness : exists s' s'', demo_open = Some (0, s') /\
  sys_close demo_fops demo_fops 0 s' = Some (0, s'') /\ s''.(files) = ∅.
Proof.
  destruct demo_open_some as [s' E].
  destruct (sys_open_close 1000 demo_fops demo_fops user_string demo_string O_RDWR sys_demo 0 s')
    as (s'' & Ec & _ & Hf).
  - exact sys_demo_ok.
  - intros i x. by eexists.
  - intros i x. by eexists.
  - exact E.
  - lia.
  - exists s', s''. split; [exact E|]. split; [exact Ec|exact Hf].
Defined.

Lemma sys_calls_invariant_witness : exists s', demo_open = Some (0, s') /\ sys_ok 1000 s'.
Proof.
  destruct demo_open_some as [s' E]. exists s'. split; [exact E|].
  apply (sys_calls_invariant 1000 demo_fops demo_fops user_string sys_demo s' sys_demo_ok).
  eapply rtc_once, step_open. exact E.
Defined.

Lemma bad_descriptor_witness : sys_getdents demo_fops demo_fops 10 0 100 sys_demo = None /\
  sys_close demo_fops demo_fops 10 sys_demo = Some (u64 (- EBADF), sys_demo).
Proof.
  destruct (bad_descriptor 1000 demo_fops demo_fops sys_demo 10 0 100 sys_demo_ok) as (Hc & _ & _ & _ & Hd);
    [lia|lia|]. split; [exact Hd|exact Hc].
Defined.

(** The file of [demo_inode], open at position 510. *)
Definition sys_reading : sysstate (ramdisk * mem) arena :=
  mkSys (mkVfs {[ 2000 := mkDentry 0 [66] 1 (Some demo_inode) 1000 ]} ∅ ∅)
    {[ 3000 := mkFile 510 0 2000 false ]} (<[3%nat := 3000]> (repeat 0 10)) (demo_disk, ∅).

Lemma sys_read_file_witness : exists s',
  sys_read demo_fops demo_fops 3 demo_buf 4 sys_reading = Some (4, s') /\
  mem_read demo_buf 4 (snd s'.(system)) = Some [65; 65; 66; 66].
Proof.
  eexists. split.
  - apply (sys_read_file sys_reading demo_fops 5 demo_fsbi [] (repeat 0 32) 3 3000
      (mkFile 510 0 2000 false) demo_inode demo_buf 4 [4] (repeat 65 512 ++ repeat 66 512)).
    + lia.
    + reflexivity.
    + lia.
    + reflexivity.
    + reflexivity.
    + reflexivity.
    + exact demo_cluster_ok.
    + cbn. lia.
    + split; [vm_compute; reflexivity|]. split; [lia|]. exact Logic.I.
    + vm_compute. reflexivity.
    + cbn. lia.
    + rewrite length_app, !repeat_length. cbn. lia.
    + lia.
    + split; [unfold demo_buf; lia|]. right. unfold demo_buf, TASK_SIZE. lia.
  - vm_compute. reflexivity.
Defined.
