(* ===== verification/Keyboard.v ===== *)
(** * The keyboard driver (keyboard.h, keyboard.c)

    [keyboard_handler] puts the scan codes it takes from the controller into the ring buffer
    [p_kb]; [keyboard_read] copies them to user memory and sleeps while there are none.  The
    two pointers of [struct keyboard_inputbuffer] are offsets into [buf]; the position behind
    its end, [KB_BUF_SIZE], is one they take.  What the rest of the machine does while a
    reader sleeps is the parameter [resume]. *)

From S2P Require Import Prelude Klist Sched Bytes.

Local Open Scope cint_scope.

Definition KB_BUF_SIZE : Z := 100.
Definition KEY_CMD_RESET_BUFFER : Z := 0.

Record keyboard_inputbuffer := mkKb { p_head : Z; p_tail : Z; count : Z; buf : list Z }.

(** The machine as the driver sees it: the buffer, the processor with the wait queue, and
    the memory of the reader. *)
Record kbd := mkKbd { p_kb : keyboard_inputbuffer; kcpu : sched; umem : mem }.

Definition set_kb (b : keyboard_inputbuffer) (k : kbd) : kbd := mkKbd b k.(kcpu) k.(umem).
Definition set_kcpu (s : sched) (k : kbd) : kbd := mkKbd k.(p_kb) s k.(umem).
Definition set_umem (m : mem) (k : kbd) : kbd := mkKbd k.(p_kb) k.(kcpu) m.

(** The statements [keyboard_open], [keyboard_close], [keyboard_ioctl] and [keyboard_init] share. *)
Definition reset_buffer : keyboard_inputbuffer := mkKb 0 0 0 (repeat 0 (Z.to_nat KB_BUF_SIZE)).

Definition keyboard_open (k : kbd) : Z * kbd := (1, set_kb reset_buffer k).
Definition keyboard_close (k : kbd) : Z * kbd := (1, set_kb reset_buffer k).
Definition keyboard_ioctl (cmd : Z) (k : kbd) : Z * kbd :=
  (0, if cmd =? KEY_CMD_RESET_BUFFER then set_kb reset_buffer k else k).

(** Storing a scan code, and taking [n] of them with their two copies to the address [a]. *)
Definition kb_put (x : Z) (b : keyboard_inputbuffer) : option keyboard_inputbuffer :=
  let head := if b.(p_head) =? KB_BUF_SIZE then 0 else b.(p_head) in
  bytes ← put_bytes head [x] b.(buf);
  Some (mkKb (head + 1) b.(p_tail) (i32 (b.(count) + 1)) bytes).

(** [p_kb->count >= count ? count : p_kb->count], where [count] is an [unsigned long]. *)
Definition kb_counter (n : Z) (b : keyboard_inputbuffer) : Z :=
  if n <=? u64 b.(count) then i64 n else b.(count).

Definition kb_take (a n : Z) (b : keyboard_inputbuffer) (m : mem)
  : option (Z * keyboard_inputbuffer * mem) :=
  let counter := kb_counter n b in
  let room := KB_BUF_SIZE - b.(p_tail) in
  r ← (if counter <=? room then
         bs ← get_bytes b.(p_tail) (Z.to_nat counter) b.(buf);
         Some (b.(p_tail) + counter, fst (copy_to_user bs a m))
       else
         bs ← get_bytes b.(p_tail) (Z.to_nat room) b.(buf);
         bs' ← get_bytes b.(p_head) (Z.to_nat (counter - room)) b.(buf);
         Some (b.(p_head) + (counter - room),
               fst (copy_to_user bs' a (fst (copy_to_user bs a m)))));
  let '(tail, m) := r in
  Some (counter, mkKb b.(p_head) tail (i32 (b.(count) - counter)) b.(buf), m).

Section Keyboard.
(** The run queue and the idle task of the processor, the wait queue of the driver, the
    address of the local variable of [sleep_on], and what happens until the sleeper
    runs again. *)
Context (queue init_task keyboard_wait_queue wait : Z) (resume : kbd -> option kbd).

Definition keyboard_handler (x : Z) (k : kbd) : option kbd :=
  b ← kb_put x k.(p_kb);
  s ← wakeup queue init_task keyboard_wait_queue TASK_UNINTERRUPTIBLE k.(kcpu);
  Some (set_kcpu s (set_kb b k)).

Definition keyboard_read (a n : Z) (k : kbd) : option (Z * kbd) :=
  k ← (if k.(p_kb).(count) =? 0 then
         s ← sleep_on queue init_task wait keyboard_wait_queue k.(kcpu);
         resume (set_kcpu s k)
       else Some k);
  r ← kb_take a n k.(p_kb) k.(umem);
  let '(counter, b, m) := r in
  Some (counter, set_umem m (set_kb b k)).

Definition keyboard_write (a n : Z) (k : kbd) : Z * kbd := (0, k).

(** [keyboard_init], without the registration of the interrupt; [None] is a NULL [kmalloc]. *)
Definition keyboard_init (p : option kbd) : option kbd :=
  k ← p;
  Some (set_kcpu (wait_queue_init keyboard_wait_queue 0 k.(kcpu)) (set_kb reset_buffer k)).
End Keyboard.

(** ** The buffer as a queue

    [l] are the scan codes not read yet, oldest first: they lie behind [p_tail], cyclically,
    and [p_head] is behind the last of them. *)
Record kb_rep (b : keyboard_inputbuffer) (l : list Z) : Prop := {
  kr_len : length b.(buf) = Z.to_nat KB_BUF_SIZE;
  kr_count : b.(count) = Z.of_nat (length l);
  kr_full : Z.of_nat (length l) <= KB_BUF_SIZE;
  kr_tail : 0 <= b.(p_tail) <= KB_BUF_SIZE;
  kr_head : 0 <= b.(p_head) <= KB_BUF_SIZE;
  kr_next : (b.(p_tail) + Z.of_nat (length l)) `mod` KB_BUF_SIZE = b.(p_head) `mod` KB_BUF_SIZE;
  kr_data : forall i x, l !! i = Some x ->
    b.(buf) !! Z.to_nat ((b.(p_tail) + Z.of_nat i) `mod` KB_BUF_SIZE) = Some x
}.

Lemma reset_rep : kb_rep reset_buffer [].
Proof. constructor; cbn; unfold KB_BUF_SIZE; try done; try lia. Qed.

(** A scan code that finds room is appended. *)
Lemma kb_put_spec b l x : kb_rep b l -> Z.of_nat (length l) < KB_BUF_SIZE ->
  exists b', kb_put x b = Some b' /\ kb_rep b' (l ++ [x]) /\ b'.(p_tail) = b.(p_tail).
Proof.
  intros R Hl. destruct R as [R1 R2 R3 R4 R5 R6 R7]. unfold kb_put.
  set (h := if p_head b =? KB_BUF_SIZE then 0 else p_head b).
  assert (0 <= h < KB_BUF_SIZE /\ h = (p_tail b + Z.of_nat (length l)) `mod` KB_BUF_SIZE) as [Hh Eh].
  { subst h. rewrite R6. unfold KB_BUF_SIZE in *. destruct (Z.eqb_spec (p_head b) 100) as [->|].
    - done.
    - rewrite Z.mod_small; lia. }
  destruct (put_bytes h [x] (buf b)) as [bs|] eqn:E;
    [|rewrite put_bytes_some in E; [done|cbn; unfold KB_BUF_SIZE in *; lia..]].
  cbn [mbind option_bind]. eexists. split; [done|]. split; [|done].
  assert (forall i, bs !! i = if decide (i = Z.to_nat h) then Some x else buf b !! i) as Hlk.
  { intros i. rewrite (put_bytes_lookup _ _ _ _ i E). cbn [length].
    repeat case_decide; try lia; [|done]. subst i. by rewrite Nat.sub_diag. }
  assert (length bs = Z.to_nat KB_BUF_SIZE) as Hlen by (by rewrite (put_bytes_length _ _ _ _ E)).
  constructor; cbn; rewrite ?length_app; cbn; try done; try (unfold KB_BUF_SIZE in *; lia).
  - rewrite R2, i32_small by (unfold KB_BUF_SIZE in *; lia). lia.
  - replace (p_tail b + Z.of_nat (length l + 1)) with (p_tail b + Z.of_nat (length l) + 1) by lia.
    rewrite <- Zplus_mod_idemp_l, <- Eh. done.
  - intros i y Hi. rewrite Hlk. apply lookup_app_Some in Hi as [Hi|[Hge Hi]].
    + pose proof (lookup_lt_Some _ _ _ Hi). rewrite decide_False; [by apply R7|].
      intros Hc. apply Z2Nat.inj in Hc; [|apply Z.mod_pos_bound; done|lia].
      rewrite Eh in Hc. unfold KB_BUF_SIZE in *. Z.to_euclidean_division_equations. lia.
    + apply list_lookup_singleton_Some in Hi as [Hi ->].
      rewrite decide_True; [done|]. by replace (Z.of_nat i) with (Z.of_nat (length l)) by lia; rewrite Eh.
Qed.

(** Taking scan codes that do not reach the end of the buffer delivers the oldest ones, as
    many as asked for or there are. *)
Lemma kb_take_spec b l a n m : kb_rep b l -> 0 <= n < 2 ^ 63 ->
  let c := Z.min n (Z.of_nat (length l)) in
  b.(p_tail) + c <= KB_BUF_SIZE -> 0 <= a -> a + c <= TASK_SIZE ->
  exists b', kb_take a n b m = Some (c, b', mem_write a (take (Z.to_nat c) l) m) /\
    kb_rep b' (drop (Z.to_nat c) l) /\ b'.(p_tail) = b.(p_tail) + c.
Proof.
  intros R Hn c Hc Ha Hac. destruct R as [R1 R2 R3 R4 R5 R6 R7]. unfold kb_take.
  assert (kb_counter n b = c) as ->.
  { unfold kb_counter. rewrite R2, u64_small by (unfold KB_BUF_SIZE in *; lia).
    subst c. destruct (Z.leb_spec n (Z.of_nat (length l))); [rewrite i64_small by lia|]; lia. }
  rewrite (proj2 (Z.leb_le _ _)) by lia.
  rewrite get_bytes_some by (rewrite ?R1; unfold KB_BUF_SIZE in *; lia).
  assert (take (Z.to_nat c) (drop (Z.to_nat (p_tail b)) (buf b)) = take (Z.to_nat c) l) as ->.
  { apply list_eq. intros i. destruct (decide (i < Z.to_nat c)%nat) as [Hi|]; [|by rewrite !lookup_take_ge by lia].
    rewrite !lookup_take_lt, lookup_drop by done.
    destruct (lookup_lt_is_Some_2 l i) as [x Hx]; [lia|]. rewrite Hx, <- (R7 i x Hx). f_equal.
    unfold KB_BUF_SIZE in *. rewrite Z.mod_small; lia. }
  cbn [mbind option_bind]. unfold copy_to_user, verify_area.
  rewrite length_take_le by lia. rewrite u64_small by (unfold TASK_SIZE in *; lia).
  rewrite (proj2 (Z.leb_le _ _)) by lia. eexists. split; [done|]. split; [|done].
  constructor; cbn; rewrite ?length_drop; try done; try (unfold KB_BUF_SIZE in *; lia).
  - rewrite R2, i32_small by (unfold KB_BUF_SIZE in *; lia). lia.
  - rewrite <- R6. f_equal. lia.
  - intros i x Hx. rewrite lookup_drop in Hx. apply R7 in Hx.
    by replace (p_tail b + c + Z.of_nat i) with (p_tail b + Z.of_nat (Z.to_nat c + i)) by lia.
Qed.

(** The interrupt handler, when the buffer has room: the scan code is appended, and the first
    reader that sleeps, if any, leaves the wait queue and is queued to run; memory is not
    touched. *)
Theorem keyboard_handler_spec queue init_task head k codes l ws cur x :
  kb_rep k.(p_kb) codes -> Z.of_nat (length codes) < KB_BUF_SIZE ->
  cpu_ok queue init_task k.(kcpu) l ->
  wait_rep queue init_task k.(kcpu) l TASK_UNINTERRUPTIBLE head ws ->
  k.(kcpu).(tasks) !! k.(kcpu).(current) = Some cur -> Z.of_nat (length l) + 2 < 2 ^ 62 ->
  exists k', keyboard_handler queue init_task head x k = Some k' /\
    kb_rep k'.(p_kb) (codes ++ [x]) /\ k'.(umem) = k.(umem) /\
    match ws with
    | [] => k'.(kcpu) = k.(kcpu)
    | (w, t) :: ws' => exists l', cpu_ok queue init_task k'.(kcpu) l' /\
        filter (fun y => y <> init_task) l' ≡ₚ t :: filter (fun y => y <> init_task) l /\
        wait_rep queue init_task k'.(kcpu) l' TASK_UNINTERRUPTIBLE head ws' /\
        state <$> k'.(kcpu).(tasks) !! t = Some TASK_RUNNING
    end.
Proof.
  intros R Hroom C S Hc Hb. unfold keyboard_handler.
  destruct (kb_put_spec _ _ x R Hroom) as (b & -> & R' & _). cbn [mbind option_bind].
  pose proof (wakeup_spec _ _ _ _ _ _ _ _ TASK_UNINTERRUPTIBLE C S Hc Hb ltac:(done)) as Hw.
  destruct ws as [|[w t] ws]; [rewrite Hw; by eexists|].
  destruct Hw as (s' & l' & -> & C' & Hp & S' & Hs & _). cbn [mbind option_bind].
  eexists. split_and!; [done|done|done|]. by exists l'.
Qed.

(** ** A session

    From an open of the device on: the scan codes the interrupts bring, and what the reads
    that do not sleep deliver. *)
Inductive kb_run : keyboard_inputbuffer * mem -> list Z -> list Z -> keyboard_inputbuffer * mem -> Prop :=
  | run_open m : kb_run (reset_buffer, m) [] [] (reset_buffer, m)
  | run_key st ins outs b b' m x : kb_run st ins outs (b, m) -> kb_put x b = Some b' ->
      kb_run st (ins ++ [x]) outs (b', m)
  | run_read st ins outs b b' m m' a n c bs : kb_run st ins outs (b, m) -> b.(count) <> 0 ->
      0 <= n < 2 ^ 63 -> 0 <= a -> a + n <= TASK_SIZE ->
      kb_take a n b m = Some (c, b', m') -> mem_read a (Z.to_nat c) m' = Some bs ->
      kb_run st ins (outs ++ bs) (b', m').

Lemma kb_run_rep st ins outs b m : kb_run st ins outs (b, m) ->
  Z.of_nat (length ins) <= KB_BUF_SIZE ->
  exists l, ins = outs ++ l /\ kb_rep b l /\ b.(p_tail) = Z.of_nat (length outs).
Proof.
  remember (b, m) as st' eqn:E. intros R. revert b m E.
  induction R as [m0|st ins outs b b1 m x R IH Hput|st ins outs b b1 m m1 a n c bs R IH H0 Hn Ha Hac Ht Hr];
    intros b' m' [= <- <-] Hlen.
  - exists []. split_and!; [done|apply reset_rep|done].
  - rewrite length_app in Hlen. cbn in Hlen.
    destruct (IH b m eq_refl ltac:(lia)) as (l & -> & Rl & Htail). rewrite length_app in Hlen.
    destruct (kb_put_spec b l x Rl) as (b2 & E & R2 & E2); [lia|]. simplify_eq.
    exists (l ++ [x]). split_and!; [by rewrite app_assoc|done|lia].
  - destruct (IH b m eq_refl Hlen) as (l & -> & Rl & Htail). rewrite length_app in Hlen.
    destruct (kb_take_spec b l a n m Rl Hn) as (b2 & E & R2 & E2); [lia..|]. simplify_eq.
    rewrite mem_read_write_eq in Hr by (rewrite length_take_le; lia).
    injection Hr as <-. exists (drop (Z.to_nat (Z.min n (Z.of_nat (length l)))) l). split_and!.
    + by rewrite <- app_assoc, take_drop.
    + done.
    + rewrite length_app, length_take_le by lia. lia.
Qed.

(** C36. What the reads deliver after an open is what was typed, in the order it was typed, as
    long as no more than [KB_BUF_SIZE] scan codes came since: nothing is lost, the rest is still
    in the buffer, there is room for a further scan code up to that number, and a further
    read delivers as many as it asks for or there are. *)
Theorem keyboard_session m ins outs b m' : kb_run (reset_buffer, m) ins outs (b, m') ->
  Z.of_nat (length ins) <= KB_BUF_SIZE ->
  exists rest, ins = outs ++ rest /\ b.(count) = Z.of_nat (length rest) /\
    (Z.of_nat (length ins) < KB_BUF_SIZE -> forall x, exists b', kb_put x b = Some b' /\
      b'.(count) = b.(count) + 1) /\
    (forall a n, 0 <= n < 2 ^ 63 -> 0 <= a -> a + n <= TASK_SIZE ->
      exists b', let c := Z.min n b.(count) in
        kb_take a n b m' = Some (c, b', mem_write a (take (Z.to_nat c) rest) m')).
Proof.
  intros R Hlen. destruct (kb_run_rep _ _ _ _ _ R Hlen) as (l & -> & Rl & Ht).
  rewrite length_app in *. exists l. split_and!; [done|apply Rl| |].
  - intros Hlt x. destruct (kb_put_spec b l x Rl) as (b' & E & R' & _); [lia|].
    exists b'. split; [done|]. rewrite (kr_count _ _ R'), (kr_count _ _ Rl), length_app. cbn. lia.
  - intros a n Hn Ha Hac. rewrite (kr_count _ _ Rl).
    destruct (kb_take_spec b l a n m' Rl Hn) as (b' & E & _); [lia..|]. by exists b'.
Qed.

(** Without an open in between the driver stops working after [KB_BUF_SIZE] scan codes: of the
    codes 0, 1, ..., 99 that were typed and read, then 100, the next read delivers 1. *)
Definition type_codes (l : list Z) (b : keyboard_inputbuffer) : option keyboard_inputbuffer :=
  for_each kb_put l b.

Example keyboard_wraps_wrong :
  (b ← type_codes (range 0 100) reset_buffer;
   r ← kb_take 0 100 b ∅;
   let '(_, b, m) := r in
   b ← type_codes [100] b;
   r ← kb_take 0 1 b m;
   let '(c, _, m) := r in
   bs ← mem_read 0 1 m; Some (c, bs)) = Some (1, [1]).
Proof. vm_compute. reflexivity. Qed.

Lemma keyboard_session_witness : exists b m,
  kb_run (reset_buffer, ∅) [30; 48; 46] [30; 48] (b, m) /\ b.(count) = 1.
Proof.
  eassert (kb_run (reset_buffer, ∅) [30] [] _) as R1.
  { eapply (run_key _ [] [] reset_buffer _ _ 30); [apply run_open|vm_compute; reflexivity]. }
  eassert (kb_run (reset_buffer, ∅) [30; 48] [] _) as R2.
  { eapply (run_key _ [30] [] _ _ _ 48); [exact R1|vm_compute; reflexivity]. }
  eassert (kb_run (reset_buffer, ∅) [30; 48] [30; 48] _) as R3.
  { eapply (run_read _ [30; 48] [] _ _ _ _ 4096 2 2 [30; 48]);
      [exact R2|discriminate|lia|lia|vm_compute; discriminate|vm_compute; reflexivity|vm_compute; reflexivity]. }
  eassert (kb_run (reset_buffer, ∅) [30; 48; 46] [30; 48] _) as R.
  { eapply (run_key _ [30; 48] [30; 48] _ _ _ 46); [exact R3|vm_compute; reflexivity]. }
  eexists _, _. split; [exact R|].
  destruct (keyboard_session ∅ [30; 48; 46] [30; 48] _ _ R ltac:(vm_compute; discriminate))
    as (rest & H & Hc & _).
  injection H as <-. exact Hc.
Defined.

(** The reader 600 sleeps on the queue at 500. *)
Lemma keyboard_handler_spec_witness : exists k',
  keyboard_handler 100 200 500 30 (mkKbd reset_buffer cpu_demo ∅) = Some k' /\
  kb_rep k'.(p_kb) [30] /\ state <$> k'.(kcpu).(tasks) !! 600 = Some TASK_RUNNING.
Proof.
  destruct (keyboard_handler_spec 100 200 500 (mkKbd reset_buffer cpu_demo ∅) [] [400]
    [(700, 600)] (mkTask TASK_RUNNING 0 2 9) 30) as (k' & E & R & _ & l' & _ & _ & _ & Hs).
  - exact reset_rep.
  - reflexivity.
  - exact cpu_demo_ok.
  - exact (proj2 cpu_demo_sem).
  - reflexivity.
  - reflexivity.
  - exists k'. split; [exact E|]. split; [exact R|exact Hs].
Defined.
