(* ===== verification/Shell.v ===== *)
(** * The user shell (user/shell.c, user/keyboard.c, user/userlibs.c, user/init.c)

    The decoding of scan codes, the line editor of the shell, the splitting of a command line
    into arguments, and the [cd] command.  The keyboard is a list of what the next calls of
    [read] deliver; a blocked read is [None].  Strings are lists of bytes without their
    NUL, buffers are lists of bytes with it. *)

From S2P Require Import Prelude Bytes.

Local Open Scope cint_scope.

(** ** Scan codes (user/keyboard.c) *)

Definition PAUSEBREAK : Z := 1.
Definition PRINTSCREEN : Z := 2.
Definition OTHERKEY : Z := 4.
Definition FLAG_BREAK : Z := 0x80.
Definition MAP_COLS : Z := 2.

Definition pausebreak_scode : list Z := [0xE1; 0x1D; 0x45; 0xE1; 0x9D; 0xC5].

(** A row of the table is the unshifted and the shifted character. *)
Definition keycode_map_normal : list Z := [
  0; 0; 0; 0; 49; 33; 50; 64; 51; 35; 52; 36; 53; 37; 54; 94;
  55; 38; 56; 42; 57; 40; 48; 41; 45; 95; 61; 43; 8; 0; 9; 0;
  113; 81; 119; 87; 101; 69; 114; 82; 116; 84; 121; 89; 117; 85; 105; 73;
  111; 79; 112; 80; 91; 123; 93; 125; 10; 0; 29; 29; 97; 65; 115; 83;
  100; 68; 102; 70; 103; 71; 104; 72; 106; 74; 107; 75; 108; 76; 59; 58;
  39; 34; 96; 126; 42; 42; 92; 124; 122; 90; 120; 88; 99; 67; 118; 86;
  98; 66; 110; 78; 109; 77; 44; 60; 46; 62; 47; 63; 54; 54; 42; 42;
  56; 56; 32; 32; 0; 0; 0; 0; 0; 0; 0; 0; 0; 0; 0; 0;
  0; 0; 0; 0; 0; 0; 0; 0; 0; 0; 0; 0; 0; 0; 55; 0;
  56; 0; 57; 0; 45; 0; 52; 0; 53; 0; 54; 0; 43; 0; 49; 0;
  50; 0; 51; 0; 48; 0; 46; 0; 0; 0; 0; 0; 0; 0; 0; 0;
  0; 0; 0; 0; 0; 0; 0; 0; 0; 0; 0; 0; 0; 0; 0; 0;
  0; 0; 0; 0; 0; 0; 0; 0; 0; 0; 0; 0; 0; 0; 0; 0;
  0; 0; 0; 0; 0; 0; 0; 0; 0; 0; 0; 0; 0; 0; 0; 0;
  0; 0; 0; 0; 0; 0; 0; 0; 0; 0; 0; 0; 0; 0; 0; 0;
  0; 0; 0; 0; 0; 0; 0; 0; 0; 0; 0; 0; 0; 0; 0; 0
].

(** The global state of the decoder. *)
Record modifiers := mkMods {
  shift_l : Z; shift_r : Z; ctrl_l : Z; ctrl_r : Z; alt_l : Z; alt_r : Z
}.

Definition set_shift_l (v : Z) (s : modifiers) : modifiers :=
  mkMods v s.(shift_r) s.(ctrl_l) s.(ctrl_r) s.(alt_l) s.(alt_r).
Definition set_shift_r (v : Z) (s : modifiers) : modifiers :=
  mkMods s.(shift_l) v s.(ctrl_l) s.(ctrl_r) s.(alt_l) s.(alt_r).
Definition set_ctrl_l (v : Z) (s : modifiers) : modifiers :=
  mkMods s.(shift_l) s.(shift_r) v s.(ctrl_r) s.(alt_l) s.(alt_r).
Definition set_ctrl_r (v : Z) (s : modifiers) : modifiers :=
  mkMods s.(shift_l) s.(shift_r) s.(ctrl_l) v s.(alt_l) s.(alt_r).
Definition set_alt_l (v : Z) (s : modifiers) : modifiers :=
  mkMods s.(shift_l) s.(shift_r) s.(ctrl_l) s.(ctrl_r) v s.(alt_r).
Definition set_alt_r (v : Z) (s : modifiers) : modifiers :=
  mkMods s.(shift_l) s.(shift_r) s.(ctrl_l) s.(ctrl_r) s.(alt_l) v.

(** [read(fd,&ret,1)], where the kernel takes the count to be 0x10 (entry.S loads [rdx]): each of [codes]
    is what one call copies to [&ret], which is one byte.  Two codes or more run over the frame of the
    function, its saved [rbp] and return address, which is [None] like a call that blocks for ever. *)
Definition read_count : nat := 16.
Definition get_scancode (codes : list (list Z)) : option (Z * list (list Z)) :=
  match codes with
  | [] => None
  | [] :: codes => Some (0, codes)
  | [x] :: codes => Some (x, codes)
  | _ => None
  end.

(** What the calls of [read] deliver when [pending] codes are in the keyboard's buffer and [arrivals] come
    before each of the calls. *)
Fixpoint reads (pending : list Z) (arrivals : list (list Z)) : list (list Z) :=
  match arrivals with
  | [] => []
  | a :: arrivals => take read_count (pending ++ a) :: reads (drop read_count (pending ++ a)) arrivals
  end.

(** The scan codes that follow must be [expected]; the first that is not ends the test. *)
Fixpoint expect_codes (expected : list Z) (codes : list (list Z)) : option (bool * list (list Z)) :=
  match expected with
  | [] => Some (true, codes)
  | e :: expected =>
      r ← get_scancode codes;
      let '(x, codes) := r in
      if x =? e then expect_codes expected codes else Some (false, codes)
  end.

(** After [0xE0]: [key], the state, and the scan code [x] that was read. *)
Definition extended_key (x : Z) (s : modifiers) (codes : list (list Z))
  : option (Z * modifiers * list (list Z)) :=
  if x =? 0x2A then
    r ← expect_codes [0xE0; 0x37] codes;
    let '(ok, codes) := r in Some (if (ok : bool) then PRINTSCREEN else 0, s, codes)
  else if x =? 0xB7 then
    r ← expect_codes [0xE0; 0xAA] codes;
    let '(ok, codes) := r in Some (if (ok : bool) then PRINTSCREEN else 0, s, codes)
  else if x =? 0x1d then Some (OTHERKEY, set_ctrl_r 1 s, codes)
  else if x =? 0x9d then Some (OTHERKEY, set_ctrl_r 0 s, codes)
  else if x =? 0x38 then Some (OTHERKEY, set_alt_r 1 s, codes)
  else if x =? 0xb8 then Some (OTHERKEY, set_alt_r 0 s, codes)
  else Some (OTHERKEY, s, codes).

(** The last part: [key == 0]. *)
Definition normal_key (x : Z) (s : modifiers) : option (Z * modifiers) :=
  let make := if negb (x .& FLAG_BREAK =? 0) then 0 else 1 in
  let column := if negb (s.(shift_l) =? 0) || negb (s.(shift_r) =? 0) then 1 else 0 in
  key ← keycode_map_normal !! Z.to_nat ((x .& 0x7F) * MAP_COLS + column);
  let k := x .& 0x7F in
  if k =? 0x2a then Some (0, set_shift_l make s)
  else if k =? 0x36 then Some (0, set_shift_r make s)
  else if k =? 0x1d then Some (0, set_ctrl_l make s)
  else if k =? 0x38 then Some (0, set_alt_l make s)
  else Some (if make =? 0 then 0 else key, s).

Definition analysis_keycode (s : modifiers) (codes : list (list Z)) : option (Z * modifiers * list (list Z)) :=
  r ← get_scancode codes;
  let '(x, codes) := r in
  r ← (if x =? 0xE1 then
         r ← expect_codes (tail pausebreak_scode) codes;
         let '(ok, codes) := r in Some (x, if (ok : bool) then PAUSEBREAK else 0, s, codes)
       else if x =? 0xE0 then
         r ← get_scancode codes;
         let '(x, codes) := r in
         r ← extended_key x s codes;
         let '(key, s, codes) := r in Some (x, key, s, codes)
       else Some (x, 0, s, codes));
  let '(x, key, s, codes) := r in
  if key =? 0 then r ← normal_key x s; let '(key, s) := r in Some (key, s, codes)
  else Some (0, s, codes).

(** ** The line editor (user/init.c) *)

Definition BUF_SIZE : Z := 256.

(** The inner loop of [main]; every round reads at least one scan code. *)
Fixpoint read_line (fuel : nat) (buf : list Z) (count : Z) (s : modifiers) (codes : list (list Z))
  : option (list Z * Z * modifiers * list (list Z)) :=
  match fuel with
  | O => None
  | S fuel =>
      r ← analysis_keycode s codes;
      let '(key, s, codes) := r in
      if key =? 10 then Some (buf, count, s, codes)
      else if negb (key =? 0) then
        buf ← put_bytes count [u8 key] buf; read_line fuel buf (count + 1) s codes
      else read_line fuel buf count s codes
  end.

(** ** Strings (user/userlibs.c) *)

(** The C string that starts at an offset of a buffer. *)
Fixpoint until_nul (l : list Z) : option (list Z) :=
  match l with
  | [] => None
  | c :: l => if c =? 0 then Some [] else s ← until_nul l; Some (c :: s)
  end.
Definition c_string (o : Z) (buf : list Z) : option (list Z) :=
  if o <? 0 then None else until_nul (drop (Z.to_nat o) buf).

(** [scasb] compares as signed characters. *)
Fixpoint strcmp (FirstPart SecondPart : list Z) : Z :=
  let a := i8 (default 0 (head FirstPart)) in
  let b := i8 (default 0 (head SecondPart)) in
  if negb (b =? a) then if b <? a then 1 else -1
  else match FirstPart, SecondPart with
       | _ :: FirstPart, _ :: SecondPart => strcmp FirstPart SecondPart
       | _, _ => 0
       end.

Definition strcpy (src dest : list Z) : option (list Z) := put_bytes 0 (src ++ [0]) dest.
Definition strcat (src dest : list Z) : option (list Z) :=
  s ← c_string 0 dest; put_bytes (Z.of_nat (length s)) (src ++ [0]) dest.

(** ** Commands (user/shell.c) *)

(** The names in [shell_internal_cmd]. *)
Definition shell_internal_cmd : list (list Z) := [
  [99; 100]; [108; 115]; [112; 119; 100]; [99; 97; 116]; [116; 111; 117; 99; 104]; [114; 109];
  [109; 107; 100; 105; 114]; [114; 109; 100; 105; 114]; [101; 120; 101; 99];
  [114; 101; 98; 111; 111; 116]
].

Definition find_cmd (cmd : list Z) : Z :=
  default (-1) (List.find (fun i => strcmp cmd (default [] (shell_internal_cmd !! Z.to_nat i)) =? 0)
    (range 0 (Z.of_nat (length shell_internal_cmd)))).

Definition char_at (j : Z) (buf : list Z) : option Z :=
  if j <? 0 then None else buf !! Z.to_nat j.

(** [while(buf[j] == ' ') j++], and the loop over the characters of an argument. *)
Fixpoint skip_spaces (fuel : nat) (j : Z) (buf : list Z) : option Z :=
  match fuel with
  | O => None
  | S fuel => c ← char_at j buf; if c =? 32 then skip_spaces fuel (j + 1) buf else Some j
  end.
Fixpoint skip_word (fuel : nat) (j : Z) (buf : list Z) : option Z :=
  match fuel with
  | O => None
  | S fuel =>
      c ← char_at j buf;
      if negb (c =? 0) && negb (c =? 32) then skip_word fuel (j + 1) buf else Some j
  end.

(** The loop that counts the arguments. *)
Fixpoint count_args (n : nat) (i argc : Z) (buf : list Z) : option Z :=
  match n with
  | O => Some argc
  | S n =>
      c ← char_at i buf;
      if c =? 0 then Some argc
      else
        if negb (c =? 32) then
          d ← char_at (i + 1) buf;
          count_args n (i + 1) (if (d =? 32) || (d =? 0) then argc + 1 else argc) buf
        else count_args n (i + 1) argc buf
  end.

(** The loop that cuts the line: the offsets [argv] gets, and the buffer. *)
Fixpoint cut_args (n : nat) (j : Z) (buf : list Z) : option (list Z * list Z) :=
  match n with
  | O => Some ([], buf)
  | S n =>
      if BUF_SIZE <=? j then Some ([], buf)
      else
        e ← skip_word (S (length buf)) j buf;
        buf ← put_bytes e [0] buf;
        k ← skip_spaces (S (length buf)) (e + 1) buf;
        r ← cut_args n k buf;
        Some (j :: fst r, snd r)
  end.

(** [parse_command] with [*argc] 0: its value, [*argc], the offsets in [*argv], the buffer. *)
Definition parse_command (buf : list Z) : option (Z * Z * list Z * list Z) :=
  j ← skip_spaces (S (length buf)) 0 buf;
  argc ← count_args (Z.to_nat (BUF_SIZE - j)) j 0 buf;
  if argc =? 0 then Some (-1, argc, [], buf)
  else
    r ← cut_args (Z.to_nat argc) j buf;
    let '(argv, buf) := r in
    o ← head argv;
    cmd ← c_string o buf;
    Some (find_cmd cmd, argc, argv, buf).

(** The name of a file in the current directory, as [cd], [cat] and [exec] build it. *)
Definition build_path (current_dir arg : list Z) : option (list Z) :=
  let len := Z.of_nat (length current_dir) in
  let i := len + Z.of_nat (length arg) in
  path ← strcpy current_dir (repeat 0 (Z.to_nat (i + 2)));
  path ← (if 1 <? len then put_bytes len [47] path else Some path);
  path ← strcat arg path;
  c_string 0 path.

(** [for(i = len-1;i > 1;i--) if(current_dir[i] == '/') break]. *)
Fixpoint last_slash (n : nat) (i : Z) (current_dir : list Z) : option Z :=
  match n with
  | O => Some i
  | S n =>
      if i <=? 1 then Some i
      else c ← char_at i current_dir; if c =? 47 then Some i else last_slash n (i - 1) current_dir
  end.

(** [cd_command]: the new [current_dir]; [argv1] is [argv[1]], [None] for NULL. *)
Definition cd_command (chdir : list Z -> Z) (argv1 : option (list Z)) (current_dir : list Z)
  : option (list Z) :=
  arg ← argv1;
  if strcmp [46] arg =? 0 then Some current_dir
  else if strcmp [46; 46] arg =? 0 then
    if strcmp [47] current_dir =? 0 then Some current_dir
    else
      i ← last_slash (length current_dir) (Z.of_nat (length current_dir) - 1) current_dir;
      _ ← char_at i current_dir;
      Some (take (Z.to_nat i) current_dir)
  else
    path ← build_path current_dir arg;
    Some (if chdir path =? 0 then path else current_dir).

(** ** Typing *)

(** The rows of the table that are modifiers. *)
Definition is_modifier (x : Z) : bool :=
  (x =? 0x2a) || (x =? 0x36) || (x =? 0x1d) || (x =? 0x38).

(** The scan codes of a character on this keyboard: pressing and releasing its key, with the
    left shift key held down for a character of the second column. *)
Definition stroke (c : Z) : option (list Z) :=
  k ← List.find (fun k => (default 0 (keycode_map_normal !! Z.to_nat k) =? c) &&
                          negb (is_modifier (k / 2))) (range 0 256);
  let x := k / 2 in
  Some (if k `mod` 2 =? 0 then [x; x + 128] else [0x2a; x; x + 128; 0xaa]).

Lemma make_break x : 0 <= x < 128 ->
  x .& FLAG_BREAK = 0 /\ x .& 0x7F = x /\ (x + 128) .& FLAG_BREAK = 128 /\ (x + 128) .& 0x7F = x.
Proof.
  intros Hx.
  assert (forallb (fun x => (x .& FLAG_BREAK =? 0) && (x .& 0x7F =? x) &&
    ((x + 128) .& FLAG_BREAK =? 128) && ((x + 128) .& 0x7F =? x)) (range 0 128) = true) as H
    by (vm_compute; reflexivity).
  rewrite List.forallb_forall in H. specialize (H x).
  rewrite !andb_true_iff, !Z.eqb_eq in H. destruct H as [[[??]?]?]; [|done].
  by apply list_elem_of_In, in_range.
Qed.

Definition column (s : modifiers) : Z :=
  if negb (s.(shift_l) =? 0) || negb (s.(shift_r) =? 0) then 1 else 0.

Lemma column_range s : 0 <= column s <= 1.
Proof. unfold column. destruct (_ || _); lia. Qed.

Lemma table_lookup i : 0 <= i < 256 -> is_Some (keycode_map_normal !! Z.to_nat i).
Proof. intros. apply lookup_lt_is_Some_2. change (length keycode_map_normal) with 256%nat. lia. Qed.

(** Each code is taken by a read of its own. *)
Definition singly (codes : list Z) : list (list Z) := map (fun x => [x]) codes.

Lemma singly_app l l' : singly (l ++ l') = singly l ++ singly l'.
Proof. apply map_app. Qed.

(** Pressing a key that is no modifier gives its character, releasing it nothing. *)
Lemma press x s codes : 0 <= x < 128 -> is_modifier x = false ->
  analysis_keycode s ([x] :: codes) =
    Some (default 0 (keycode_map_normal !! Z.to_nat (2 * x + column s)), s, codes).
Proof.
  intros Hx Hm. unfold analysis_keycode. cbn [get_scancode mbind option_bind].
  rewrite (proj2 (Z.eqb_neq x _)), (proj2 (Z.eqb_neq x _)) by lia. cbn [mbind option_bind Z.eqb].
  unfold normal_key. destruct (make_break x Hx) as (E1 & E2 & _). rewrite E1, E2.
  fold (column s). pose proof (column_range s).
  replace (x * MAP_COLS + column s) with (2 * x + column s) by (unfold MAP_COLS; lia).
  destruct (table_lookup (2 * x + column s)) as [k Hk]; [lia|]. rewrite Hk. cbn [mbind option_bind].
  unfold is_modifier in Hm. rewrite !orb_false_iff in Hm. destruct Hm as [[[-> ->] ->] ->]. done.
Qed.

Lemma release x s codes : 0 <= x < 128 -> x <> 0x60 -> x <> 0x61 -> is_modifier x = false ->
  analysis_keycode s ([x + 128] :: codes) = Some (0, s, codes).
Proof.
  intros Hx H0 H1 Hm. unfold analysis_keycode. cbn [get_scancode mbind option_bind].
  rewrite (proj2 (Z.eqb_neq _ 0xE1)), (proj2 (Z.eqb_neq _ 0xE0)) by lia. cbn [mbind option_bind Z.eqb].
  unfold normal_key. destruct (make_break x Hx) as (_ & _ & E1 & E2). rewrite E1, E2.
  fold (column s). pose proof (column_range s).
  replace (x * MAP_COLS + column s) with (2 * x + column s) by (unfold MAP_COLS; lia).
  destruct (table_lookup (2 * x + column s)) as [k Hk]; [lia|]. rewrite Hk. cbn [mbind option_bind].
  unfold is_modifier in Hm. rewrite !orb_false_iff in Hm. destruct Hm as [[[-> ->] ->] ->]. done.
Qed.

Lemma shift_key v s codes : v = 0 \/ v = 1 ->
  analysis_keycode s ([if v =? 1 then 0x2a else 0xaa] :: codes) = Some (0, set_shift_l v s, codes).
Proof.
  intros Hv. unfold analysis_keycode. cbn [get_scancode mbind option_bind].
  destruct Hv as [-> | ->]; cbn [Z.eqb Pos.eqb mbind option_bind]; unfold normal_key;
    fold (column s); pose proof (column_range s).
  all: match goal with |- context [keycode_map_normal !! ?i] =>
    destruct (keycode_map_normal !! i) as [k|] eqn:Hk end; [done|].
  all: destruct (column s) as [|[]|] eqn:Hc; try (vm_compute in Hk; discriminate); lia.
Qed.

(** What a character and its strokes have to do with each other. *)
Lemma stroke_inv c cs : c <> 0 -> stroke c = Some cs -> exists x col,
  0 <= x < 128 /\ x <> 0x60 /\ x <> 0x61 /\ is_modifier x = false /\ 0 <= c < 256 /\
  default 0 (keycode_map_normal !! Z.to_nat (2 * x + col)) = c /\
  (col = 0 /\ cs = [x; x + 128] \/ col = 1 /\ cs = [0x2a; x; x + 128; 0xaa]).
Proof.
  intros Hc0 H. unfold stroke in H. apply bind_Some in H as (k & Hk & H). injection H as <-.
  apply find_some in Hk as [Hin Hk]. apply list_elem_of_In, in_range in Hin.
  apply andb_true_iff in Hk as [Hk Hm]. apply Z.eqb_eq in Hk. apply negb_true_iff in Hm.
  assert (forallb (fun k => let v := default 0 (keycode_map_normal !! Z.to_nat k) in
    (0 <=? v) && (v <? 256) && ((v =? 0) || negb ((k / 2 =? 0x60) || (k / 2 =? 0x61))))
    (range 0 256) = true) as H by (vm_compute; reflexivity).
  rewrite List.forallb_forall in H. specialize (H k ltac:(by apply list_elem_of_In, in_range)).
  cbn zeta in H. rewrite Hk in H. rewrite !andb_true_iff, orb_true_iff, negb_true_iff, orb_false_iff in H.
  destruct H as [[H1 H2] [H3|H3]]; [lia|].
  exists (k / 2), (k `mod` 2). pose proof (Z.div_mod k 2 ltac:(lia)) as Hdm.
  pose proof (Z.mod_pos_bound k 2 ltac:(lia)).
  split_and!; [Z.to_euclidean_division_equations; lia..|lia|lia|done|lia|lia|by rewrite <- Hdm|].
  destruct (Z.eqb_spec (k `mod` 2) 0); [left|right]; split; try done. lia.
Qed.

Lemma set_shift_undo s : s.(shift_l) = 0 -> set_shift_l 0 (set_shift_l 1 s) = s.
Proof. intros H. destruct s; cbn in *. by rewrite H. Qed.

(** The line editor over the strokes of one character: it is stored. *)
Lemma read_line_stroke c cs fuel buf n s codes :
  c <> 0 -> c <> 10 -> stroke c = Some cs -> s.(shift_l) = 0 -> s.(shift_r) = 0 ->
  read_line (length cs + fuel) buf n s (singly cs ++ codes) =
    (buf ← put_bytes n [c] buf; read_line fuel buf (n + 1) s codes).
Proof.
  intros Hc Hc10 Hs Hl Hr.
  destruct (stroke_inv c cs Hc Hs) as (x & col & Hx & H0 & H1 & Hm & Hb & Ht & Hcs).
  assert (forall s' f buf codes, column s' = col ->
    read_line (S f) buf n s' ([x] :: codes) = (buf ← put_bytes n [c] buf; read_line f buf (n + 1) s' codes))
    as Hpress.
  { intros s' f b cds Hcol. cbn [read_line]. rewrite press by done. cbn [mbind option_bind].
    rewrite Hcol, Ht, (proj2 (Z.eqb_neq c 10)), (proj2 (Z.eqb_neq c 0)) by done. cbn [negb].
    by rewrite u8_small by lia. }
  assert (forall f buf n s' codes, read_line (S f) buf n s' ([x + 128] :: codes) = read_line f buf n s' codes)
    as Hrel.
  { intros f b m s' cds. cbn [read_line]. by rewrite release. }
  assert (forall v f buf n s' codes, v = 0 \/ v = 1 ->
    read_line (S f) buf n s' ([if v =? 1 then 0x2a else 0xaa] :: codes) =
    read_line f buf n (set_shift_l v s') codes) as Hshift.
  { intros v f b m s' cds Hv. cbn [read_line]. by rewrite shift_key. }
  destruct Hcs as [[-> ->]|[-> ->]]; cbn [singly map length app Nat.add].
  - rewrite Hpress by (unfold column; by rewrite Hl, Hr).
    destruct (put_bytes n [c] buf); [cbn [mbind option_bind]|done]. apply Hrel.
  - rewrite (Hshift 1), Hpress by auto.
    destruct (put_bytes n [c] buf); [cbn [mbind option_bind]|done].
    rewrite Hrel, (Hshift 0) by auto. by rewrite set_shift_undo.
Qed.

Definition line_buffer (text : list Z) : list Z :=
  text ++ repeat 0 (Z.to_nat BUF_SIZE - length text).

Lemma read_line_text text css fuel pre s rest :
  mapM stroke text = Some css -> Forall (fun c => c <> 0 /\ c <> 10) text ->
  s.(shift_l) = 0 -> s.(shift_r) = 0 -> (length pre <= Z.to_nat BUF_SIZE)%nat ->
  read_line (length (concat css) + S fuel) (line_buffer pre) (Z.of_nat (length pre)) s
    (singly (concat css) ++ [0x1c] :: rest) =
  if decide (Z.of_nat (length pre) + Z.of_nat (length text) <= BUF_SIZE)
  then Some (line_buffer (pre ++ text), Z.of_nat (length (pre ++ text)), s, rest) else None.
Proof.
  intros Hm Hf Hl Hr. revert css pre Hm.
  induction Hf as [|c text [Hc0 Hc10] _ IH]; intros css pre Hm Hpre.
  - cbn in Hm. injection Hm as <-. cbn [concat singly map app length Nat.add read_line].
    rewrite press by done. cbn [mbind option_bind].
    assert (column s = 0) as -> by (unfold column; by rewrite Hl, Hr).
    change (default 0 _ =? 10) with true. cbn match.
    rewrite app_nil_r, decide_True by (unfold BUF_SIZE in *; lia). done.
  - cbn [mapM] in Hm. apply bind_Some in Hm as (cs & Hcs & Hm).
    apply bind_Some in Hm as (css' & Hm & E). injection E as <-.
    cbn [concat]. rewrite length_app, singly_app, <- app_assoc, <- Nat.add_assoc.
    rewrite (read_line_stroke c) by done.
    destruct (decide (Z.of_nat (length pre) < BUF_SIZE)) as [Hlt|Hge].
    + assert (put_bytes (Z.of_nat (length pre)) [c] (line_buffer pre) = Some (line_buffer (pre ++ [c]))) as ->.
      { rewrite put_bytes_some by (unfold line_buffer, BUF_SIZE in *; rewrite ?length_app, ?repeat_length; cbn [length]; lia).
        unfold line_buffer. f_equal. rewrite Nat2Z.id, take_app_length.
        rewrite <- app_assoc. f_equal. cbn [app]. f_equal.
        rewrite length_app. cbn [length].
        replace (Z.to_nat BUF_SIZE - length pre)%nat with (S (Z.to_nat BUF_SIZE - (length pre + 1))) by (unfold BUF_SIZE in *; lia).
        cbn [repeat]. rewrite cons_middle, app_assoc, drop_app_ge by (rewrite length_app; cbn; lia).
        rewrite length_app. cbn [length]. by rewrite Nat.sub_diag. }
      cbn [mbind option_bind].
      specialize (IH css' (pre ++ [c]) Hm). rewrite length_app in IH. cbn [length] in IH.
      replace (Z.of_nat (length pre + 1)) with (Z.of_nat (length pre) + 1) in IH by lia.
      rewrite IH by (unfold BUF_SIZE in *; lia). rewrite <- app_assoc. cbn [app length].
      repeat case_decide; try lia; done.
    + rewrite decide_False by (cbn [length]; lia).
      unfold put_bytes. rewrite andb_false_intro2; [done|]. apply Z.leb_gt.
      unfold line_buffer, BUF_SIZE in *. rewrite length_app, repeat_length. cbn [length]. lia.
Qed.

(** A code that comes only when the one before it has been taken. *)
Lemma reads_singly l : reads [] (singly l) = singly l.
Proof. induction l as [|x l IH]; [done|]. cbn. by f_equal. Qed.

(** What is typed slowly enough arrives: when each scan code of a line of text and of ENTER comes
    after the shell has taken the one before, the line editor stores exactly the text and returns, with
    the modifiers as they were and nothing read beyond ENTER, as long as the text fits its buffer; a
    longer line is written past the end of the buffer. *)
Theorem read_line_typed text css s rest fuel :
  mapM stroke text = Some css -> Forall (fun c => c <> 0 /\ c <> 10) text ->
  s.(shift_l) = 0 -> s.(shift_r) = 0 -> (length (concat css) < fuel)%nat ->
  read_line fuel (repeat 0 (Z.to_nat BUF_SIZE)) 0 s (reads [] (singly (concat css ++ 0x1c :: rest))) =
    if decide (Z.of_nat (length text) <= BUF_SIZE)
    then Some (line_buffer text, Z.of_nat (length text), s, reads [] (singly rest)) else None.
Proof.
  intros Hm Hf Hl Hr Hfuel.
  pose proof (read_line_text text css (fuel - S (length (concat css))) [] s (singly rest) Hm Hf Hl Hr
    ltac:(cbn; lia)) as H.
  replace (length (concat css) + S (fuel - S (length (concat css))))%nat with fuel in H by lia.
  rewrite !reads_singly, singly_app. exact H.
Qed.

(** ** Cutting a line into words *)

(** The reference: the maximal runs of characters other than the space. *)
Fixpoint words (l : list Z) : list (list Z) :=
  match l with
  | [] => []
  | c :: l' =>
      if c =? 32 then words l'
      else match l' with
           | [] => [[c]]
           | d :: _ => if d =? 32 then [c] :: words l'
                       else match words l' with
                            | w :: ws => (c :: w) :: ws
                            | [] => [[c]]
                            end
           end
  end.

Definition no_nul (l : list Z) : Prop := Forall (fun c => c <> 0) l.
Definition no_space (l : list Z) : Prop := Forall (fun c => c <> 32) l.

Lemma words_spaces n l : words (repeat 32 n ++ l) = words l.
Proof. induction n; cbn; auto. Qed.

(** A word, the spaces behind it, and the rest. *)
Lemma words_word w n l : w <> [] -> no_space w -> (n <> 0%nat \/ l = []) ->
  words (w ++ repeat 32 n ++ l) = w :: words l.
Proof.
  intros Hw Hs Hn. induction Hs as [|c w Hc Hs IH]; [done|]. cbn [app words].
  rewrite (proj2 (Z.eqb_neq _ _) Hc). destruct w as [|d w].
  - cbn [app]. destruct n as [|n].
    + destruct Hn as [| ->]; done.
    + cbn [repeat app Z.eqb Pos.eqb]. f_equal. cbn. apply words_spaces.
  - rewrite IH by done. cbn [app]. inversion Hs; subst. by rewrite (proj2 (Z.eqb_neq _ _)).
Qed.

(** Every line is made of such parts. *)
Lemma line_split l : exists n l', l = repeat 32 n ++ l' /\ words l = words l' /\
  (l' = [] \/ exists w k l'', l' = w ++ repeat 32 k ++ l'' /\ w <> [] /\ no_space w /\
    (k <> 0%nat \/ l'' = []) /\ (forall c, head l'' = Some c -> c <> 32)).
Proof.
  assert (forall l : list Z, exists n l', l = repeat 32 n ++ l' /\ forall c, head l' = Some c -> c <> 32)
    as Hsp.
  { clear l. induction l as [|c l (n & l' & -> & H)]; [by exists 0%nat, []|].
    destruct (decide (c = 32)) as [->|Hc]; [by exists (S n), l'|].
    exists 0%nat, (c :: repeat 32 n ++ l'). split; [done|]. by intros d [= <-]. }
  assert (forall l : list Z, exists w l', l = w ++ l' /\ no_space w /\ (l' = [] \/ head l' = Some 32))
    as Hwd.
  { clear l. induction l as [|c l (w & l' & -> & Hw & H)]; [exists [], []; repeat constructor; by left|].
    destruct (decide (c = 32)) as [->|Hc].
    - exists [], (32 :: w ++ l'). split_and!; [done|constructor|by right].
    - exists (c :: w), l'. split_and!; [done|by constructor|done]. }
  destruct (Hsp l) as (n & l' & -> & Hl'). exists n, l'. split; [done|].
  split; [apply words_spaces|]. destruct (Hwd l') as (w & l1 & -> & Hw & Hl1).
  destruct w as [|c w].
  - left. cbn in *. destruct Hl1 as [|Hl1]; [done|]. by apply Hl' in Hl1.
  - right. destruct (Hsp l1) as (k & l2 & -> & Hl2). exists (c :: w), k, l2.
    split_and!; try done. destruct k; [right|by left]. cbn in Hl1. destruct Hl1 as [|Hl1]; [done|].
    by apply Hl2 in Hl1.
Qed.

(** ** The scanning loops *)

Lemma char_at_app pre l : char_at (Z.of_nat (length pre)) (pre ++ l) = head l.
Proof.
  unfold char_at. rewrite (proj2 (Z.ltb_ge _ _)), Nat2Z.id by lia.
  rewrite lookup_app_r, Nat.sub_diag by lia. by destruct l.
Qed.

Lemma skip_spaces_run n pre l fuel : (n < fuel)%nat -> l <> [] -> head l <> Some 32 ->
  skip_spaces fuel (Z.of_nat (length pre)) (pre ++ repeat 32 n ++ l) =
    Some (Z.of_nat (length pre + n)).
Proof.
  revert pre fuel. induction n as [|n IH]; intros pre [|fuel] Hf Hl Hh; try lia; cbn [skip_spaces].
  - rewrite char_at_app. cbn [repeat app]. destruct l as [|c l]; [done|]. cbn [head mbind option_bind].
    rewrite (proj2 (Z.eqb_neq _ _)) by (intros ->; done). do 2 f_equal. lia.
  - rewrite char_at_app. cbn [repeat app head mbind option_bind Z.eqb Pos.eqb].
    specialize (IH (pre ++ [32]) fuel). rewrite length_app, <- app_assoc in IH. cbn in IH.
    replace (Z.of_nat (length pre) + 1) with (Z.of_nat (length pre + 1)) by lia.
    rewrite IH by (done || lia). do 2 f_equal. lia.
Qed.

Lemma skip_word_run w pre l fuel : (length w < fuel)%nat -> no_nul w -> no_space w ->
  head l = Some 0 \/ head l = Some 32 ->
  skip_word fuel (Z.of_nat (length pre)) (pre ++ w ++ l) = Some (Z.of_nat (length pre + length w)).
Proof.
  revert pre fuel. induction w as [|c w IH]; intros pre [|fuel] Hf Hn Hs Hl; cbn in Hf; try lia;
    cbn [skip_word]; rewrite char_at_app.
  - cbn [app]. destruct Hl as [-> | ->]; cbn; do 2 f_equal; lia.
  - cbn [app head mbind option_bind]. inversion Hn; subst. inversion Hs; subst.
    rewrite !(proj2 (Z.eqb_neq _ _)) by done. cbn [negb andb].
    specialize (IH (pre ++ [c]) fuel). rewrite length_app, <- app_assoc in IH. cbn in IH.
    replace (Z.of_nat (length pre) + 1) with (Z.of_nat (length pre + 1)) by lia.
    rewrite IH by (done || lia). cbn [length]. do 2 f_equal. lia.
Qed.

Lemma count_args_run l pre z n argc : no_nul l -> (length l < n)%nat ->
  count_args n (Z.of_nat (length pre)) argc (pre ++ l ++ 0 :: z) =
    Some (argc + Z.of_nat (length (words l))).
Proof.
  revert pre n argc. induction l as [|c l IH]; intros pre [|n] argc Hn Hlen; cbn in Hlen; try lia;
    cbn [count_args]; rewrite char_at_app.
  - cbn. f_equal. lia.
  - inversion Hn as [|? ? Hc Hn']; subst. cbn [app head mbind option_bind].
    rewrite (proj2 (Z.eqb_neq _ _) Hc).
    specialize (IH (pre ++ [c]) n). rewrite length_app, <- app_assoc in IH. cbn [length app] in IH.
    replace (Z.of_nat (length pre + 1)) with (Z.of_nat (length pre) + 1) in IH by lia.
    cbn [words]. destruct (Z.eqb_spec c 32) as [->|Hs]; cbn [negb]; [by rewrite IH by (done || lia)|].
    assert (char_at (Z.of_nat (length pre) + 1) (pre ++ c :: l ++ 0 :: z) = head (l ++ 0 :: z)) as ->.
    { pose proof (char_at_app (pre ++ [c]) (l ++ 0 :: z)) as Hch.
      rewrite length_app, <- app_assoc in Hch. cbn [length app] in Hch. rewrite <- Hch. f_equal. lia. }
    destruct l as [|d l]; cbn [app head mbind option_bind].
    + cbn [Z.eqb orb]. rewrite IH by (done || lia). cbn. f_equal. lia.
    + inversion Hn'; subst. rewrite (proj2 (Z.eqb_neq d 0)), orb_false_r by done.
      rewrite IH by (done || lia). f_equal. destruct (Z.eqb_spec d 32) as [->|Hd]; [cbn [length]; lia|].
      destruct (words (d :: l)) eqn:Ew; [|cbn [length]; lia].
      exfalso. cbn [words] in Ew. rewrite (proj2 (Z.eqb_neq _ _) Hd) in Ew.
      destruct l as [|e l]; [done|]. destruct (e =? 32); [done|]. by destruct (words (e :: l)).
Qed.

Lemma until_nul_app w r : no_nul w -> until_nul (w ++ 0 :: r) = Some w.
Proof.
  induction 1 as [|c w Hc _ IH]; cbn; [done|]. by rewrite (proj2 (Z.eqb_neq _ _) Hc), IH.
Qed.

Lemma c_string_at pre w r l : no_nul w ->
  c_string (Z.of_nat (length pre)) ((pre ++ w ++ 0 :: r) ++ l) = Some w.
Proof.
  intros Hw. unfold c_string. rewrite (proj2 (Z.ltb_ge _ _)), Nat2Z.id by lia.
  rewrite <- !app_assoc, drop_app_length. cbn [app]. by apply until_nul_app.
Qed.

Lemma put_nul pre c l : put_bytes (Z.of_nat (length pre)) [0] (pre ++ c :: l) = Some (pre ++ 0 :: l).
Proof.
  rewrite put_bytes_some by (rewrite ?length_app; cbn [length]; lia).
  rewrite Nat2Z.id, take_app_length, drop_app_ge by (cbn; lia).
  cbn [length]. by replace (length pre + 1 - length pre)%nat with 1%nat by lia.
Qed.

(** What [cut_args] leaves: the offsets are those of the words, each with its NUL. *)
Definition cut_ok (pre : list Z) (ws : list (list Z)) (len : nat) (r : list Z * list Z) : Prop :=
  take (length pre) (snd r) = pre /\ length (snd r) = len /\
  Forall2 (fun o w => c_string o (snd r) = Some w) (fst r) ws.

(** One word. *)
Lemma cut_args_step n pre w k l ws r len :
  no_nul w -> no_space w -> l <> [] ->
  (k <> 0%nat \/ head l = Some 0) -> Z.of_nat (length pre) < BUF_SIZE ->
  let pre' := pre ++ w ++ 0 :: repeat 32 (k - 1) in
  let l' := if decide (k = 0%nat) then tail l else l in
  l' <> [] -> head l' <> Some 32 ->
  cut_args n (Z.of_nat (length pre')) (pre' ++ l') = Some r -> cut_ok pre' ws len r ->
  exists r', cut_args (S n) (Z.of_nat (length pre)) (pre ++ w ++ repeat 32 k ++ l) = Some r' /\
    cut_ok pre (w :: ws) len r'.
Proof.
  intros Hn Hs Hl0 Hk Hpre pre' l' Hl' Hh' Hcut (Ht & Hlen & Hws). cbn [cut_args].
  rewrite (proj2 (Z.leb_gt _ _)) by lia.
  rewrite skip_word_run; [|rewrite ?length_app; lia|done|done|].
  2: { destruct k; [cbn; destruct Hk; [done|by left]|by right]. }
  cbn [mbind option_bind].
  assert (exists c, repeat 32 k ++ l = c :: repeat 32 (k - 1) ++ l') as [c Hc].
  { subst l'. destruct k as [|k]; [|by exists 32; cbn; rewrite Nat.sub_0_r].
    destruct l as [|c l]; [done|]. by exists c. }
  assert (put_bytes (Z.of_nat (length pre + length w)) [0] (pre ++ w ++ repeat 32 k ++ l) =
    Some ((pre ++ w ++ [0]) ++ repeat 32 (k - 1) ++ l')) as ->.
  { pose proof (put_nul (pre ++ w) c (repeat 32 (k - 1) ++ l')) as Hput.
    rewrite length_app, <- !app_assoc, <- Hc in Hput. rewrite Hput, <- !app_assoc. done. }
  cbn [mbind option_bind].
  replace (Z.of_nat (length pre + length w) + 1) with (Z.of_nat (length (pre ++ w ++ [0])))
    by (rewrite !length_app; cbn [length]; lia).
  rewrite skip_spaces_run; [|rewrite !length_app, !repeat_length; lia|done|done].
  cbn [mbind option_bind].
  assert ((pre ++ w ++ [0]) ++ repeat 32 (k - 1) ++ l' = pre' ++ l') as ->
    by (subst pre'; rewrite <- !app_assoc; done).
  replace (Z.of_nat (length (pre ++ w ++ [0]) + (k - 1))) with (Z.of_nat (length pre'))
    by (subst pre'; rewrite !length_app; cbn [length]; rewrite repeat_length; lia).
  rewrite Hcut. cbn [mbind option_bind]. eexists. split; [done|].
  assert (snd r = pre' ++ drop (length pre') (snd r)) as Hr by (rewrite <- Ht at 1; by rewrite take_drop).
  split_and!; cbn [fst snd]; [|done|constructor; [|done]].
  - rewrite Hr. subst pre'. rewrite <- app_assoc. apply take_app_length.
  - rewrite Hr. subst pre'. by apply c_string_at.
Qed.

(** The whole line, from a first word on; two NULs follow it. *)
Lemma cut_args_run m : forall l pre z, (length l <= m)%nat -> no_nul l -> head l <> Some 32 ->
  Z.of_nat (length pre) + Z.of_nat (length l) + 2 <= BUF_SIZE ->
  exists r, cut_args (length (words l)) (Z.of_nat (length pre)) (pre ++ l ++ 0 :: 0 :: z) = Some r /\
    cut_ok pre (words l) (length (pre ++ l ++ 0 :: 0 :: z)) r.
Proof.
  induction m as [|m IH]; intros l pre z Hm Hn Hh Hlen.
  - destruct l; [|cbn in Hm; lia]. cbn. eexists. split; [done|]. split_and!; cbn; [|done|constructor].
    apply take_app_length.
  - destruct (line_split l) as (k0 & l0 & El & _ & Hl0). destruct k0; [|by subst l].
    cbn in El. subst l0. destruct Hl0 as [-> |(w & k & l2 & -> & Hw & Hws & Hk & Hl2)].
    { cbn. eexists. split; [done|]. split_and!; cbn; [apply take_app_length|done|constructor]. }
    rewrite words_word by done. unfold no_nul in Hn. rewrite !Forall_app in Hn. destruct Hn as (Hn1 & Hn2 & Hn3).
    rewrite !length_app, repeat_length in *.
    assert (length w <> 0%nat) by (by destruct w).
    cbn [length]. rewrite <- !app_assoc. destruct k as [|k].
    + destruct Hk as [| ->]; [done|]. cbn [words length app repeat] in *.
      eapply (cut_args_step 0 pre w 0 (0 :: 0 :: z) [] ([], (pre ++ w ++ [0]) ++ 0 :: z));
        try done; [by right|lia|].
      split_and!; cbn; [apply (take_app_length (pre ++ w ++ [0]))| |constructor].
      rewrite !length_app. cbn. lia.
    + destruct (IH l2 (pre ++ w ++ 0 :: repeat 32 k) z) as (r & Hr & Hok); [lia|done| | |].
      * intros Hc. by apply Hl2 in Hc.
      * rewrite !length_app. cbn [length]. rewrite repeat_length. lia.
      * eapply (cut_args_step _ pre w (S k) (l2 ++ 0 :: 0 :: z) _ r); try done.
        -- by destruct l2.
        -- by left.
        -- lia.
        -- by destruct l2.
        -- rewrite decide_False by done. destruct l2 as [|c l2]; [done|]. cbn.
           intros [= ->]. by apply (Hl2 32).
        -- rewrite decide_False by done. cbn [Nat.sub]. by rewrite Nat.sub_0_r.
        -- destruct Hok as (H1 & H2 & H3). split_and!; cbn [Nat.sub]; rewrite ?Nat.sub_0_r; try done.
           rewrite H2. rewrite !length_app. cbn [length]. rewrite !repeat_length. lia.
Qed.

(** ** Finding the command *)

Lemma i8_inj a b : 0 <= a < 256 -> 0 <= b < 256 -> i8 a = i8 b -> a = b.
Proof. unfold i8. intros. Z.to_euclidean_division_equations. lia. Qed.

(** [strcmp] is 0 exactly on equal strings. *)
Lemma strcmp_zero a b : byte_list a -> byte_list b -> no_nul a -> no_nul b ->
  strcmp a b = 0 <-> a = b.
Proof.
  intros Ha. revert b. induction Ha as [|x a Hx Ha IH]; intros [|y b] Hb Na Nb; cbn.
  - done.
  - inversion Hb; inversion Nb; subst. split; [|done].
    destruct (Z.eqb_spec (i8 y) (i8 0)) as [E|E]; cbn; [apply i8_inj in E; lia|].
    by destruct (_ <? _).
  - inversion Na; subst. split; [|done].
    destruct (Z.eqb_spec (i8 0) (i8 x)) as [E|E]; cbn; [apply i8_inj in E; lia|].
    by destruct (_ <? _).
  - inversion Hb; inversion Na; inversion Nb; subst.
    destruct (Z.eqb_spec (i8 y) (i8 x)) as [E|E]; cbn.
    + apply i8_inj in E; [|lia..]. subst y. rewrite IH by done. split; congruence.
    + split; [by destruct (_ <? _)|]. intros [= -> _]. done.
Qed.

Lemma find_cmd_spec cmd : byte_list cmd -> no_nul cmd ->
  find_cmd cmd = -1 /\ cmd ∉ shell_internal_cmd \/
  0 <= find_cmd cmd /\ shell_internal_cmd !! Z.to_nat (find_cmd cmd) = Some cmd.
Proof.
  intros Hb Hn. unfold find_cmd.
  assert (forall i name, shell_internal_cmd !! i = Some name -> byte_list name /\ no_nul name) as Hok.
  { apply Forall_lookup. vm_compute. repeat constructor; discriminate. }
  destruct (List.find _ _) as [i|] eqn:E; cbn [default from_option].
  - right. apply find_some in E as [Hin Hi]. apply list_elem_of_In, in_range in Hin.
    apply Z.eqb_eq in Hi.
    destruct (lookup_lt_is_Some_2 shell_internal_cmd (Z.to_nat i)) as [name Hname];
      [change (length shell_internal_cmd) with 10%nat in *; lia|].
    rewrite Hname in Hi. cbn in Hi. destruct (Hok _ _ Hname).
    apply strcmp_zero in Hi; [|done..]. subst. unfold id. split; [lia|done].
  - left. split; [done|]. intros Hin. apply list_elem_of_lookup in Hin as [i Hi].
    pose proof (lookup_lt_Some _ _ _ Hi). destruct (Hok _ _ Hi).
    eapply find_none in E; [|apply list_elem_of_In, in_range; split; [|apply inj_lt; eassumption]; lia].
    rewrite Nat2Z.id, Hi in E. cbn in E. apply Z.eqb_neq in E. by apply E, strcmp_zero.
Qed.

Lemma words_forall (P : Z -> Prop) l : Forall P l -> Forall (Forall P) (words l).
Proof.
  induction 1 as [|c l Hc Hl IH]; cbn; [constructor|]. destruct (c =? 32); [done|].
  destruct l as [|d l]; [by repeat constructor|]. destruct (d =? 32); [by repeat constructor|].
  destruct (words (d :: l)); [by repeat constructor|]. inversion IH; subst. by repeat constructor.
Qed.

(** C38. [parse_command] cuts a line into its words: it returns how many there are, [argv]
    points to them in order, each a C string in the buffer, and the value is the index of the
    command the first word names, or -1 when there is no word or no such command.  The
    two bytes behind the text must be inside the buffer. *)
Theorem parse_command_spec text : byte_list text -> no_nul text ->
  Z.of_nat (length text) + 2 <= BUF_SIZE ->
  exists index argv buf',
    parse_command (line_buffer text) = Some (index, Z.of_nat (length (words text)), argv, buf') /\
    length buf' = Z.to_nat BUF_SIZE /\
    Forall2 (fun o w => c_string o buf' = Some w) argv (words text) /\
    match words text with
    | [] => index = -1
    | cmd :: _ => index = -1 /\ cmd ∉ shell_internal_cmd \/
        0 <= index /\ shell_internal_cmd !! Z.to_nat index = Some cmd
    end.
Proof.
  intros Hb Hn Hlen. destruct (line_split text) as (k & l & E & Ew & Hl).
  assert (head l <> Some 32) as Hh.
  { destruct Hl as [-> |(w & ? & ? & -> & Hw & Hs & _)]; [done|]. destruct w; [done|].
    inversion Hs; subst. cbn. congruence. }
  assert (no_nul l /\ byte_list l) as [Hnl Hbl].
  { subst text. unfold no_nul, byte_list in *. rewrite Forall_app in Hn, Hb. tauto. }
  assert (exists z, line_buffer text = repeat 32 k ++ l ++ 0 :: 0 :: z) as [z Hz].
  { unfold line_buffer.
    destruct (Z.to_nat BUF_SIZE - length text)%nat as [|[|n]] eqn:En; [unfold BUF_SIZE in *; lia..|].
    exists (repeat 0 n). by rewrite E, <- app_assoc. }
  assert (length (line_buffer text) = Z.to_nat BUF_SIZE) as Hbuf.
  { unfold line_buffer, BUF_SIZE in *. rewrite length_app, repeat_length. lia. }
  assert (Z.of_nat k + Z.of_nat (length l) + 2 <= BUF_SIZE) as Hkl.
  { subst text. rewrite length_app, repeat_length in Hlen. lia. }
  unfold parse_command. rewrite Hbuf, Hz.
  pose proof (skip_spaces_run k [] (l ++ 0 :: 0 :: z) (S (Z.to_nat BUF_SIZE))) as Hsk.
  change (Z.of_nat (length [])) with 0 in Hsk. cbn [length app] in Hsk.
  rewrite Hsk; [|unfold BUF_SIZE in *; lia|by destruct l|by destruct l].
  cbn [mbind option_bind Nat.add].
  pose proof (count_args_run l (repeat 32 k) (0 :: z) (Z.to_nat (BUF_SIZE - Z.of_nat k)) 0 Hnl) as Hc.
  rewrite repeat_length in Hc. rewrite Hc by lia. cbn [mbind option_bind]. rewrite <- Ew.
  destruct (words text) as [|cmd ws] eqn:Ewt.
  { eexists _, [], _. split; [done|]. rewrite <- Hz. split_and!; [done|constructor|done]. }
  rewrite (proj2 (Z.eqb_neq _ _)) by (cbn [length]; lia).
  destruct (cut_args_run (length l) l (repeat 32 k) z) as ([argv buf'] & Hr & _ & Hlr & Hws);
    [done|done|done|rewrite repeat_length; lia|].
  rewrite <- Ew, repeat_length in Hr. replace (Z.to_nat (0 + Z.of_nat (length (cmd :: ws)))) with (length (cmd :: ws)) by lia.
  rewrite Hr. cbn [mbind option_bind]. cbn [fst snd] in Hlr, Hws. rewrite <- Ew in Hws.
  destruct argv as [|o argv]; [by inversion Hws|]. cbn [head mbind option_bind].
  pose proof Hws as (Hcmd & _)%Forall2_cons. rewrite Hcmd. cbn [mbind option_bind].
  eexists _, _, _. split; [done|]. rewrite Hlr, <- Hz. split_and!; [done|done|].
  pose proof (words_forall _ _ Hb) as Hb'. pose proof (words_forall _ _ Hn) as Hn'. rewrite Ewt in Hb', Hn'.
  inversion Hb'; inversion Hn'; subst. by apply find_cmd_spec.
Qed.

(** ** Changing the directory *)

Lemma put_bytes_app pre old bs post : length old = length bs ->
  put_bytes (Z.of_nat (length pre)) bs (pre ++ old ++ post) = Some (pre ++ bs ++ post).
Proof.
  intros H. rewrite put_bytes_some by (rewrite ?length_app; lia).
  rewrite Nat2Z.id, take_app_length, <- H, <- length_app, (app_assoc pre old), drop_app_length. done.
Qed.

Lemma c_string_0 w r : no_nul w -> c_string 0 (w ++ 0 :: r) = Some w.
Proof. intros. by apply (until_nul_app w). Qed.

(** The path fits the buffer that is allocated for it. *)
Lemma build_path_spec dir arg : no_nul dir -> no_nul arg ->
  build_path dir arg = Some (dir ++ (if 1 <? Z.of_nat (length dir) then [47] else []) ++ arg).
Proof.
  intros Hd Ha. unfold build_path, strcpy, strcat.
  set (n := Z.to_nat (Z.of_nat (length dir) + Z.of_nat (length arg) + 2)).
  assert (repeat 0 n = [] ++ repeat 0 (length (dir ++ [0])) ++ 0 :: repeat 0 (length arg)) as ->.
  { change (0 :: repeat 0 (length arg)) with (repeat 0 (S (length arg))).
    rewrite app_nil_l, <- repeat_app. f_equal. rewrite length_app. cbn. lia. }
  rewrite (put_bytes_app [] _ (dir ++ [0])) by (by rewrite repeat_length).
  cbn [mbind option_bind app]. rewrite <- app_assoc. cbn [app].
  assert (no_nul (dir ++ [47])) as Hd' by (apply Forall_app; split; [done|by repeat constructor]).
  destruct (1 <? Z.of_nat (length dir)).
  - pose proof (put_bytes_app dir [0] [47] (0 :: repeat 0 (length arg)) eq_refl) as H47.
    cbn [app] in H47. rewrite H47. cbn [mbind option_bind app].
    assert (dir ++ 47 :: 0 :: repeat 0 (length arg) = (dir ++ [47]) ++ 0 :: repeat 0 (length arg)) as ->
      by (by rewrite <- app_assoc).
    rewrite c_string_0 by done. cbn [mbind option_bind].
    pose proof (put_bytes_app (dir ++ [47]) (0 :: repeat 0 (length arg)) (arg ++ [0]) []) as Hp.
    rewrite !app_nil_r in Hp. rewrite Hp by (cbn [length]; rewrite length_app, repeat_length; cbn [length]; lia).
    cbn [mbind option_bind]. rewrite app_assoc, c_string_0 by (by apply Forall_app).
    by rewrite <- app_assoc.
  - cbn [mbind option_bind app]. rewrite c_string_0 by done. cbn [mbind option_bind].
    pose proof (put_bytes_app dir (0 :: repeat 0 (length arg)) (arg ++ [0]) [0]) as Hp.
    assert (0 :: 0 :: repeat 0 (length arg) = (0 :: repeat 0 (length arg)) ++ [0]) as ->.
    { change (0 :: 0 :: repeat 0 (length arg)) with (0 :: repeat 0 (S (length arg))).
      rewrite <- Nat.add_1_r, repeat_app. done. }
    rewrite Hp by (cbn [length]; rewrite length_app, repeat_length; cbn [length]; lia).
    cbn [mbind option_bind]. rewrite <- app_assoc, app_assoc. cbn [app].
    by rewrite c_string_0 by (by apply Forall_app).
Qed.

Lemma char_at_lookup l i : char_at (Z.of_nat i) l = l !! i.
Proof. unfold char_at. by rewrite (proj2 (Z.ltb_ge _ _)), Nat2Z.id by lia. Qed.

(** The search stops at the last slash, or at 1. *)
Lemma last_slash_run w z pre n : Forall (fun c => c <> 47) w -> (length w < n)%nat ->
  (pre = [] -> w <> []) -> (length pre <> 1)%nat ->
  last_slash n (Z.of_nat (length pre + length w)) (pre ++ 47 :: w ++ z) =
    Some (if decide (pre = []) then 1 else Z.of_nat (length pre)).
Proof.
  revert z n. induction w as [|c w IH] using rev_ind; intros z [|n] Hw Hn Hp Hp1; try lia; cbn [last_slash].
  - rewrite Nat.add_0_r. destruct pre as [|p pre]; [by destruct Hp|].
    rewrite decide_False by done. cbn [length] in Hp1.
    rewrite (proj2 (Z.leb_gt _ _)) by (cbn [length]; lia).
    by rewrite char_at_lookup, lookup_app_r, Nat.sub_diag by lia.
  - rewrite length_app in *. cbn [length] in *. apply Forall_app in Hw as [Hw Hc].
    inversion Hc; subst.
    destruct (Z.leb_spec (Z.of_nat (length pre + (length w + 1))) 1) as [Hle|Hgt].
    + destruct pre; [|cbn [length] in *; lia]. rewrite decide_True by done.
      f_equal. cbn [length] in *. lia.
    + rewrite char_at_lookup.
      assert ((pre ++ 47 :: (w ++ [c]) ++ z) !! (length pre + (length w + 1))%nat = Some c) as ->.
      { rewrite lookup_app_r by lia.
        replace (length pre + (length w + 1) - length pre)%nat with (S (length w)) by lia.
        change (((w ++ [c]) ++ z) !! length w = Some c). rewrite <- app_assoc. by apply list_lookup_middle. }
      cbn [mbind option_bind]. rewrite (proj2 (Z.eqb_neq _ _)) by done.
      replace (Z.of_nat (length pre + (length w + 1)) - 1) with (Z.of_nat (length pre + length w)) by lia.
      rewrite <- app_assoc. apply IH; [done|lia| |done].
      intros -> ->. cbn in Hgt. lia.
Qed.

(** A directory of the shell is the root, or does not end before its name: ["/"] or a longer
    string. *)
Definition is_dir_path (dir : list Z) : Prop := dir = [47] \/ (2 <= length dir)%nat.

(** [cd name] and then [cd ..] come back to the directory they started from, when the
    kernel accepts the path and [name] is a single component; the path the kernel is asked
    for is the directory, a slash, and the name. *)
Theorem cd_dotdot chdir dir name : byte_list dir -> byte_list name -> no_nul dir -> no_nul name ->
  is_dir_path dir -> name <> [] -> name <> [46] -> name <> [46; 46] ->
  Forall (fun c => c <> 47) name ->
  let path := (if decide (dir = [47]) then [] else dir) ++ 47 :: name in
  chdir path = 0 ->
  cd_command chdir (Some name) dir = Some path /\
  cd_command chdir (Some [46; 46]) path = Some dir.
Proof.
  intros Bd Bn Nd Nn Hdir Hne H1 H2 Hs path Hch.
  assert (forall a b, byte_list a -> byte_list b -> no_nul a -> no_nul b -> a <> b ->
    (strcmp a b =? 0) = false) as Hcmp.
  { intros a b Ba Bb Na Nb Hab. apply Z.eqb_neq. by rewrite strcmp_zero. }
  assert (build_path dir name = Some path) as Hp.
  { rewrite build_path_spec by done. subst path. destruct Hdir as [->|Hdir]; [done|].
    rewrite (proj2 (Z.ltb_lt _ _)), decide_False; [done|intros ->; cbn in Hdir; lia|lia]. }
  split.
  - unfold cd_command. cbn [mbind option_bind].
    rewrite !Hcmp; [|by repeat constructor|done|by repeat constructor|done|done
      |by repeat constructor|done|by repeat constructor|done|done].
    rewrite Hp. cbn [mbind option_bind]. by rewrite Hch.
  - assert (byte_list path /\ no_nul path) as [Bp Np].
    { subst path. unfold byte_list, no_nul. rewrite !Forall_app, !Forall_cons.
      case_decide; split_and!; try done; constructor. }
    unfold cd_command. cbn [mbind option_bind]. change (strcmp [46] [46; 46] =? 0) with false.
    change (strcmp [46; 46] [46; 46] =? 0) with true. cbn match.
    rewrite Hcmp; [|by repeat constructor|done|by repeat constructor|done|].
    2: { subst path. case_decide; [by destruct name|]. destruct dir as [|a dir]; [by destruct name|].
      intros [= <- E]. by destruct dir. }
    set (pre := if decide (dir = [47]) then [] else dir) in *.
    assert (length pre <> 1%nat) as Hl1.
    { subst pre. case_decide; [done|]. destruct Hdir as [|]; [done|lia]. }
    pose proof (last_slash_run name [] pre (length path) Hs) as Hls. rewrite app_nil_r in Hls.
    fold path in Hls.
    replace (Z.of_nat (length path) - 1) with (Z.of_nat (length pre + length name))
      by (subst path; rewrite length_app; cbn [length]; lia).
    rewrite Hls; [|subst path; rewrite length_app; cbn [length]; lia|by intros _|done].
    cbn [mbind option_bind]. subst pre path. case_decide as Hd.
    + rewrite decide_True by done. subst dir. by destruct name.
    + rewrite decide_False by (intros ->; by destruct Hdir as [|Hdir]; [|cbn in Hdir; lia]).
      rewrite char_at_lookup, lookup_app_r, Nat.sub_diag by lia. cbn [lookup list_lookup mbind option_bind].
      by rewrite Nat2Z.id, take_app_length.
Qed.

(** ** Examples *)

Definition mods0 : modifiers := mkMods 0 0 0 0 0 0.

(** ["cd a"], typed. *)
Lemma read_line_typed_witness :
  read_line 20 (repeat 0 (Z.to_nat BUF_SIZE)) 0 mods0
    (reads [] (singly ([46; 174; 32; 160; 57; 185; 30; 158] ++ [0x1c; 0x9c]))) =
  Some (line_buffer [99; 100; 32; 97], 4, mods0, [[0x9c]]).
Proof.
  apply (read_line_typed [99; 100; 32; 97] [[46; 174]; [32; 160]; [57; 185]; [30; 158]] mods0 [0x9c] 20).
  - vm_compute. reflexivity.
  - repeat constructor; discriminate.
  - reflexivity.
  - reflexivity.
  - cbn. lia.
Defined.

(** A key that is released before the shell reads again: the make code of "c" is taken, its break code
    and the make code of "d" come together and run over the variable. *)
Example codes_overrun : read_line 20 (repeat 0 (Z.to_nat BUF_SIZE)) 0 mods0 (reads [] [[46]; [174; 32]; [160; 0x1c]]) = None.
Proof. vm_compute. reflexivity. Qed.

Lemma parse_command_spec_witness : exists index argv buf',
  parse_command (line_buffer [32; 99; 100; 32; 32; 97]) = Some (index, 2, argv, buf') /\ index = 0.
Proof.
  destruct (parse_command_spec [32; 99; 100; 32; 32; 97]) as (index & argv & buf' & E & _).
  - repeat constructor; lia.
  - repeat constructor; discriminate.
  - vm_compute. discriminate.
  - exists index, argv, buf'. split; [exact E|].
    vm_compute in E. congruence.
Defined.

Lemma cd_dotdot_witness :
  cd_command (fun _ => 0) (Some [98]) [47; 97] = Some [47; 97; 47; 98] /\
  cd_command (fun _ => 0) (Some [46; 46]) [47; 97; 47; 98] = Some [47; 97].
Proof.
  apply (cd_dotdot (fun _ => 0) [47; 97] [98]).
  - repeat constructor; lia.
  - repeat constructor; lia.
  - repeat constructor; discriminate.
  - repeat constructor; discriminate.
  - right. cbn. lia.
  - discriminate.
  - discriminate.
  - discriminate.
  - repeat constructor; discriminate.
  - reflexivity.
Defined.

(** Another key that arrives with the shift prefix [0xE0 0x2A], here the left arrow
    [0xE0 0x4B], leaves the left shift key pressed, and its release does not clear it: the
    comparison with PRINTSCREEN fails and [0x2A] is then taken for the shift key. *)
Example fake_shift_sticks :
  (r ← analysis_keycode mods0 (singly [0xE0; 0x2A; 0xE0; 0x4B; 0xE0; 0xCB; 0xE0; 0xAA; 0x1e]);
   let '(_, s, codes) := r in
   r ← analysis_keycode s codes;
   let '(_, s, codes) := r in
   r ← analysis_keycode s codes;
   let '(_, s, codes) := r in
   r ← analysis_keycode s codes;
   let '(key, s, codes) := r in Some (key, s.(shift_l), codes)) = Some (65, 1, []).
Proof. vm_compute. reflexivity. Qed.

(** A line of 255 characters that ends in a word makes [parse_command] read behind its buffer;
    [cd] without an argument uses a NULL pointer. *)
Example parse_command_full_line : parse_command (line_buffer (repeat 97 255)) = None.
Proof. vm_compute. reflexivity. Qed.

Example cd_no_argument : cd_command (fun _ => 0) None [47] = None.
Proof. reflexivity. Qed.
