(* ===== verification/Disk.v ===== *)
(** * The disk driver (disk.h, disk.c)

    The queue of requests [disk_request], the commands sent to the drive, and the interrupt
    handlers that transfer sectors and finish requests.  A [struct block_buffer_node *] is an
    address, 0 for NULL; its [wait_queue] member is at [wait_queue_of] it, an entry of the wait
    queue whose head [dq] is [disk_request.wait_queue_list].  The ports of the drive are the
    class [Ports] of [Bytes]; its busy waiting loops take fuel. *)

From S2P Require Import Prelude Klist Sched Bytes Alloc.

Local Open Scope cint_scope.

(** ** disk.h *)

Definition PORT_DISK1_DATA : Z := 0x170.
Definition PORT_DISK1_ERR_FEATURE : Z := 0x171.
Definition PORT_DISK1_SECTOR_CNT : Z := 0x172.
Definition PORT_DISK1_SECTOR_LOW : Z := 0x173.
Definition PORT_DISK1_SECTOR_MID : Z := 0x174.
Definition PORT_DISK1_SECTOR_HIGH : Z := 0x175.
Definition PORT_DISK1_DEVICE : Z := 0x176.
Definition PORT_DISK1_STATUS_CMD : Z := 0x177.
Definition PORT_DISK1_ALT_STA_CTL : Z := 0x376.

Definition DISK_STATUS_BUSY : Z := Z.shiftl 1 7.
Definition DISK_STATUS_READY : Z := Z.shiftl 1 6.
Definition DISK_STATUS_REQ : Z := Z.shiftl 1 3.
Definition DISK_STATUS_ERROR : Z := Z.shiftl 1 0.

Definition ATA_READ_CMD : Z := 0x24.
Definition ATA_WRITE_CMD : Z := 0x34.
Definition GET_IDENTIFY_DISK_CMD : Z := 0xEC.

(** The three functions [end_handler] can point to. *)
Inductive handler := Read_handler | Write_handler | Other_handler.

Record block_buffer_node := mkNode {
  count : Z; cmd : Z; LBA : Z; buffer : Z; end_handler : handler
}.

Definition sizeof_block_buffer_node : Z := 56.
Definition wait_queue_of (node : Z) : Z := node + 32.

(** The machine as the driver sees it; [in_using] and [block_request_count] are members of
    [disk_request]. *)
Record machine (P M : Type) := mkMachine {
  mcpu : sched;
  requests : gmap Z block_buffer_node;
  in_using : Z;
  block_request_count : Z;
  ports : P;
  memory : mem;
  kheap : M
}.
Arguments mkMachine {P M}.
Arguments mcpu {P M}.
Arguments requests {P M}.
Arguments in_using {P M}.
Arguments block_request_count {P M}.
Arguments ports {P M}.
Arguments memory {P M}.
Arguments kheap {P M}.

(** [(node->count >> 8) & 0xff] and the other registers, high-order bytes first. *)
Definition lba48_writes (node : block_buffer_node) : list (Z * Z) := [
  (PORT_DISK1_DEVICE, 0x40);
  (PORT_DISK1_ERR_FEATURE, 0);
  (PORT_DISK1_SECTOR_CNT, (node.(count) .>> 8) .& 0xff);
  (PORT_DISK1_SECTOR_LOW, (node.(LBA) .>> 24) .& 0xff);
  (PORT_DISK1_SECTOR_MID, (node.(LBA) .>> 32) .& 0xff);
  (PORT_DISK1_SECTOR_HIGH, (node.(LBA) .>> 40) .& 0xff);
  (PORT_DISK1_ERR_FEATURE, 0);
  (PORT_DISK1_SECTOR_CNT, node.(count) .& 0xff);
  (PORT_DISK1_SECTOR_LOW, node.(LBA) .& 0xff);
  (PORT_DISK1_SECTOR_MID, (node.(LBA) .>> 8) .& 0xff);
  (PORT_DISK1_SECTOR_HIGH, (node.(LBA) .>> 16) .& 0xff)
].

Definition identify_writes (node : block_buffer_node) : list (Z * Z) := [
  (PORT_DISK1_DEVICE, 0xe0);
  (PORT_DISK1_ERR_FEATURE, 0);
  (PORT_DISK1_SECTOR_CNT, node.(count) .& 0xff);
  (PORT_DISK1_SECTOR_LOW, node.(LBA) .& 0xff);
  (PORT_DISK1_SECTOR_MID, (node.(LBA) .>> 8) .& 0xff);
  (PORT_DISK1_SECTOR_HIGH, (node.(LBA) .>> 16) .& 0xff)
].

Section Disk.
Context {P M : Type} `{Ports P} `{Allocator M}.
(** The run queue and the idle task, the queue of requests, and the number of times a busy
    waiting loop may read the status. *)
Context (queue init_task dq : Z) (polls : nat).
Implicit Type s : machine P M.

Definition set_mcpu (c : sched) s : machine P M :=
  mkMachine c s.(requests) s.(in_using) s.(block_request_count) s.(ports) s.(memory) s.(kheap).
Definition set_requests (r : gmap Z block_buffer_node) s : machine P M :=
  mkMachine s.(mcpu) r s.(in_using) s.(block_request_count) s.(ports) s.(memory) s.(kheap).
Definition set_in_using (a : Z) s : machine P M :=
  mkMachine s.(mcpu) s.(requests) a s.(block_request_count) s.(ports) s.(memory) s.(kheap).
Definition set_request_count (c : Z) s : machine P M :=
  mkMachine s.(mcpu) s.(requests) s.(in_using) c s.(ports) s.(memory) s.(kheap).
Definition set_ports (p : P) s : machine P M :=
  mkMachine s.(mcpu) s.(requests) s.(in_using) s.(block_request_count) p s.(memory) s.(kheap).
Definition set_memory (m : mem) s : machine P M :=
  mkMachine s.(mcpu) s.(requests) s.(in_using) s.(block_request_count) s.(ports) m s.(kheap).
Definition set_kheap (h : M) s : machine P M :=
  mkMachine s.(mcpu) s.(requests) s.(in_using) s.(block_request_count) s.(ports) s.(memory) h.

(** [while(io_in8(PORT_DISK1_STATUS_CMD) & DISK_STATUS_BUSY) nop()], and waiting for a bit. *)
Fixpoint wait_status (fuel : nat) (bit : Z) (set : bool) (p : P) : option P :=
  match fuel with
  | O => None
  | S fuel =>
      let '(v, p) := io_in8 PORT_DISK1_STATUS_CMD p in
      if Bool.eqb (negb (v .& bit =? 0)) set then Some p else wait_status fuel bit set p
  end.

Definition out_all (l : list (Z * Z)) (p : P) : P :=
  foldl (fun p w => io_out8 (fst w) (snd w) p) p l.

(** The command of a request, up to the first sector of a write. *)
Definition start_command (node : block_buffer_node) s : option (machine P M) :=
  p ← wait_status polls DISK_STATUS_BUSY false s.(ports);
  if node.(cmd) =? ATA_WRITE_CMD then
    p ← wait_status polls DISK_STATUS_READY true (out_all (lba48_writes node) p);
    p ← wait_status polls DISK_STATUS_REQ true (io_out8 PORT_DISK1_STATUS_CMD node.(cmd) p);
    bs ← mem_read node.(buffer) 512 s.(memory);
    Some (set_ports (port_outsw PORT_DISK1_DATA bs p) s)
  else if node.(cmd) =? ATA_READ_CMD then
    p ← wait_status polls DISK_STATUS_READY true (out_all (lba48_writes node) p);
    Some (set_ports (io_out8 PORT_DISK1_STATUS_CMD node.(cmd) p) s)
  else if node.(cmd) =? GET_IDENTIFY_DISK_CMD then
    p ← wait_status polls DISK_STATUS_READY true (out_all (identify_writes node) p);
    Some (set_ports (io_out8 PORT_DISK1_STATUS_CMD node.(cmd) p) s)
  else Some (set_ports p s).

Definition cmd_out s : option (Z * machine P M) :=
  wait_queue_tmp ← list_next dq s.(mcpu).(nodes);
  let s := set_in_using (wait_queue_tmp - 32) s in
  n ← list_del (wait_queue_of s.(in_using)) s.(mcpu).(nodes);
  let s := set_request_count (i64 (s.(block_request_count) - 1)) (set_mcpu (set_nodes n s.(mcpu)) s) in
  node ← s.(requests) !! s.(in_using);
  s ← start_command node s;
  Some (1, s).

Definition end_request (node : Z) s : option (machine P M) :=
  _ ← s.(requests) !! node;
  tsk ← s.(mcpu).(wait_tsk) !! wait_queue_of node;
  c ← wakeup_process queue init_task tsk s.(mcpu);
  r ← release s.(in_using) s.(kheap);
  let s := set_in_using 0 (set_requests (delete s.(in_using) s.(requests))
             (set_kheap (snd r) (set_mcpu c s))) in
  if negb (s.(block_request_count) =? 0) then r ← cmd_out s; Some (snd r) else Some s.

Definition add_request (node : Z) s : option (machine P M) :=
  n ← list_add_to_before dq (wait_queue_of node) s.(mcpu).(nodes);
  Some (set_request_count (i64 (s.(block_request_count) + 1)) (set_mcpu (set_nodes n s.(mcpu)) s)).

(** [node->count--] and, when sectors are left, [node->buffer += 512]. *)
Definition next_sector (node : block_buffer_node) : block_buffer_node :=
  let c := u32 (node.(count) - 1) in
  mkNode c node.(cmd) node.(LBA) (if c =? 0 then node.(buffer) else node.(buffer) .+ 512)
    node.(end_handler).

(** The drive reports an error, or hands over a sector that goes to [node->buffer]. *)
Definition fetch_sector (node : block_buffer_node) s : machine P M :=
  let '(v, p) := io_in8 PORT_DISK1_STATUS_CMD s.(ports) in
  if negb (v .& DISK_STATUS_ERROR =? 0) then set_ports (snd (io_in8 PORT_DISK1_ERR_FEATURE p)) s
  else
    let '(bs, p) := port_insw PORT_DISK1_DATA 512 p in
    set_memory (mem_write node.(buffer) bs s.(memory)) (set_ports p s).

Definition read_handler s : option (machine P M) :=
  let a := s.(in_using) in
  node ← s.(requests) !! a;
  let s := fetch_sector node s in
  let node := next_sector node in
  let s := set_requests (<[a := node]> s.(requests)) s in
  if negb (node.(count) =? 0) then Some s else end_request a s.

Definition write_handler s : option (machine P M) :=
  let a := s.(in_using) in
  node ← s.(requests) !! a;
  let '(v, p) := io_in8 PORT_DISK1_STATUS_CMD s.(ports) in
  let s := set_ports (if negb (v .& DISK_STATUS_ERROR =? 0)
                      then snd (io_in8 PORT_DISK1_ERR_FEATURE p) else p) s in
  let node := next_sector node in
  let s := set_requests (<[a := node]> s.(requests)) s in
  if negb (node.(count) =? 0) then
    p ← wait_status polls DISK_STATUS_REQ true s.(ports);
    bs ← mem_read node.(buffer) 512 s.(memory);
    Some (set_ports (port_outsw PORT_DISK1_DATA bs p) s)
  else end_request a s.

Definition other_handler s : option (machine P M) :=
  let a := s.(in_using) in
  node ← s.(requests) !! a;
  end_request a (fetch_sector node s).

Definition disk_handler s : option (machine P M) :=
  node ← s.(requests) !! s.(in_using);
  match node.(end_handler) with
  | Read_handler => read_handler s
  | Write_handler => write_handler s
  | Other_handler => other_handler s
  end.

Definition make_request (c blocks cnt buf : Z) s : option (Z * machine P M) :=
  r ← alloc sizeof_block_buffer_node s.(kheap);
  let '(a, h) := r in
  _ ← guard_fault (negb (a =? 0));
  let s := set_mcpu (wait_queue_init (wait_queue_of a) s.(mcpu).(current) s.(mcpu)) (set_kheap h s) in
  let node := mkNode (u32 cnt) (u8 c) blocks buf
    (if c =? ATA_READ_CMD then Read_handler else if c =? ATA_WRITE_CMD then Write_handler
     else Other_handler) in
  Some (a, set_requests (<[a := node]> s.(requests)) s).

Definition submit (node : Z) s : option (machine P M) :=
  s ← add_request node s;
  if s.(in_using) =? 0 then r ← cmd_out s; Some (snd r) else Some s.

Definition wait_for_finish s : option (machine P M) :=
  c ← upd_task s.(mcpu).(current) (set_state TASK_UNINTERRUPTIBLE) s.(mcpu);
  c ← schedule queue init_task c;
  Some (set_mcpu c s).

Definition IDE_open s : Z * machine P M := (1, s).
Definition IDE_close s : Z * machine P M := (1, s).

Definition IDE_ioctl (c arg : Z) s : option (Z * machine P M) :=
  if c =? GET_IDENTIFY_DISK_CMD then
    r ← make_request c 0 0 arg s;
    let '(node, s) := r in
    s ← submit node s; s ← wait_for_finish s; Some (1, s)
  else Some (0, s).

(** The state is that at the switch to another task; the value is returned when this one
    runs again. *)
Definition IDE_transfer (c blocks cnt buf : Z) s : option (Z * machine P M) :=
  if (c =? ATA_READ_CMD) || (c =? ATA_WRITE_CMD) then
    r ← make_request c blocks cnt buf s;
    let '(node, s) := r in
    s ← submit node s; s ← wait_for_finish s; Some (1, s)
  else Some (0, s).

(** [disk_init], without the registration of the interrupt. *)
Definition disk_init s : machine P M :=
  let s := set_ports (io_out8 PORT_DISK1_ALT_STA_CTL 0 s.(ports)) s in
  set_request_count 0 (set_in_using 0 (set_mcpu (wait_queue_init dq 0 s.(mcpu)) s)).
End Disk.

(** ** The registers of the drive

    Each register keeps the last two bytes that were written to it; the older one is the
    high-order part (ATA/ATAPI-6, 48-bit addressing). *)
Definition register_file : Type := Z -> Z * Z.

Definition hob_write (r : register_file) (w : Z * Z) : register_file :=
  fun port => if port =? fst w then (snd w, fst (r port)) else r port.

Definition drive_lba (r : register_file) : Z :=
  fst (r PORT_DISK1_SECTOR_LOW) + 2 ^ 8 * fst (r PORT_DISK1_SECTOR_MID)
  + 2 ^ 16 * fst (r PORT_DISK1_SECTOR_HIGH) + 2 ^ 24 * snd (r PORT_DISK1_SECTOR_LOW)
  + 2 ^ 32 * snd (r PORT_DISK1_SECTOR_MID) + 2 ^ 40 * snd (r PORT_DISK1_SECTOR_HIGH).

Definition drive_count (r : register_file) : Z :=
  fst (r PORT_DISK1_SECTOR_CNT) + 2 ^ 8 * snd (r PORT_DISK1_SECTOR_CNT).

Lemma byte_at x k : 0 <= k -> (x .>> k) .& 0xff = x / 2 ^ k mod 2 ^ 8.
Proof. intros Hk. rewrite Z.shiftr_div_pow2 by done. by apply (Z.land_ones _ 8). Qed.

Lemma byte_at_0 x : x .& 0xff = x mod 2 ^ 8.
Proof. by apply (Z.land_ones _ 8). Qed.

(** One more byte. *)
Lemma byte_more x k j : 0 <= k -> j = k + 8 -> x mod 2 ^ j = x mod 2 ^ k + 2 ^ k * (x / 2 ^ k mod 2 ^ 8).
Proof. intros Hk ->. rewrite Z.pow_add_r by lia. apply Z.rem_mul_r; lia. Qed.

Lemma drive_count_written node r : 0 <= node.(count) -> drive_count (foldl hob_write r (lba48_writes node)) = node.(count) mod 2 ^ 16.
Proof.
  intros H. unfold drive_count, lba48_writes. cbn [foldl]. unfold hob_write. cbn [fst snd Z.eqb Pos.eqb PORT_DISK1_SECTOR_LOW
    PORT_DISK1_SECTOR_MID PORT_DISK1_SECTOR_HIGH PORT_DISK1_SECTOR_CNT PORT_DISK1_DEVICE PORT_DISK1_ERR_FEATURE].
  rewrite !byte_at, !byte_at_0 by lia. by rewrite <- (byte_more _ 8 16) by lia.
Qed.

(** Whatever the registers held before, the command block addresses the first 2^48 sectors
    as the request says, and transfers its number of sectors modulo 2^16. *)
Theorem lba48_roundtrip node r : 0 <= node.(LBA) -> 0 <= node.(count) ->
  let r' := foldl hob_write r (lba48_writes node) in
  drive_lba r' = node.(LBA) mod 2 ^ 48 /\ drive_count r' = node.(count) mod 2 ^ 16.
Proof.
  intros H1 H2 r'. subst r'. split; [|by apply drive_count_written]. unfold drive_lba, lba48_writes.
  cbn [foldl]. unfold hob_write. cbn [fst snd Z.eqb Pos.eqb PORT_DISK1_SECTOR_LOW PORT_DISK1_SECTOR_MID
    PORT_DISK1_SECTOR_HIGH PORT_DISK1_SECTOR_CNT PORT_DISK1_DEVICE PORT_DISK1_ERR_FEATURE].
  rewrite !byte_at, !byte_at_0 by lia. generalize (LBA node). clear. intros x.
  by rewrite <- (byte_more x 8 16), <- (byte_more x 16 24), <- (byte_more x 24 32),
    <- (byte_more x 32 40), <- (byte_more x 40 48) by lia.
Qed.

(** ** The drive *)

(** What the command in progress still transfers: [n + 1] sectors in one of the two directions. *)
Inductive phase := idle | data_in (n : nat) | data_out (n : nat).
Definition remaining (dir : nat -> phase) (n : nat) : phase := match n with O => idle | S n => dir n end.

(** A count of 0 stands for 65536. *)
Definition drive_sectors (r : register_file) : nat :=
  Z.to_nat (if drive_count r =? 0 then 65536 else drive_count r).
Definition command_registers : list Z :=
  [PORT_DISK1_ERR_FEATURE; PORT_DISK1_SECTOR_CNT; PORT_DISK1_SECTOR_LOW; PORT_DISK1_SECTOR_MID; PORT_DISK1_SECTOR_HIGH;
   PORT_DISK1_DEVICE].

(** A drive without errors as ATA/ATAPI-6 describes it, which needs fewer than [polls] reads of its status:
    it is not busy for ever; without a command in progress it gets ready and takes the registers; a command
    starts the transfer of the number of sectors in the registers; it asks for data while, and only promised
    while, a write has sectors left; each sector that goes through the data register counts. *)
Class ATA_drive (P : Type) `{Ports P} (polls : nat) := {
  drive : P -> phase;
  command_block : P -> register_file;
  poll_busy p : exists p', wait_status polls DISK_STATUS_BUSY false p = Some p' /\ drive p' = drive p;
  poll_ready p : drive p = idle -> exists p', wait_status polls DISK_STATUS_READY true p = Some p' /\ drive p' = idle /\
    command_block p' = command_block p;
  poll_request p n : drive p = data_out n -> exists p', wait_status polls DISK_STATUS_REQ true p = Some p' /\ drive p' = data_out n;
  read_status p : let r := io_in8 PORT_DISK1_STATUS_CMD p in fst r .& DISK_STATUS_ERROR = 0 /\ drive (snd r) = drive p;
  write_register p port v : port ∈ command_registers -> drive p = idle ->
    drive (io_out8 port v p) = idle /\ command_block (io_out8 port v p) = hob_write (command_block p) (port, v);
  read_command p : drive p = idle ->
    drive (io_out8 PORT_DISK1_STATUS_CMD ATA_READ_CMD p) = remaining data_in (drive_sectors (command_block p));
  write_command p : drive p = idle ->
    drive (io_out8 PORT_DISK1_STATUS_CMD ATA_WRITE_CMD p) = remaining data_out (drive_sectors (command_block p));
  sector_in p n : drive p = data_in n -> drive (snd (port_insw PORT_DISK1_DATA 512 p)) = remaining data_in n;
  sector_out p n bs : drive p = data_out n -> length bs = 512%nat ->
    drive (port_outsw PORT_DISK1_DATA bs p) = remaining data_out n
}.

(** ** Starting a command *)

Lemma mem_read_some m n : forall a, (forall i, a <= i < a + Z.of_nat n -> is_Some (m !! i)) ->
  is_Some (mem_read a n m).
Proof.
  induction n as [|n IH]; intros a Ha; cbn [mem_read]; [by eexists|].
  destruct (Ha a ltac:(lia)) as [b Hb]. rewrite Hb. cbn [mbind option_bind].
  destruct (IH (a + 1)) as [bs Hbs]; [intros i Hi; apply Ha; lia|]. rewrite Hbs. by eexists.
Qed.

(** The request has sectors left, as many as the registers can say, and those of a write are in memory. *)
Definition node_ok (m : mem) (node : block_buffer_node) : Prop :=
  1 <= node.(count) <= 65536 /\ 0 <= node.(buffer) /\
  node.(buffer) + 512 * node.(count) < 2 ^ 64 /\
  (node.(end_handler) = Read_handler /\ node.(cmd) = ATA_READ_CMD \/
   node.(end_handler) = Write_handler /\ node.(cmd) = ATA_WRITE_CMD /\
   forall i, node.(buffer) <= i < node.(buffer) + 512 * node.(count) -> is_Some (m !! i)).

Lemma node_ok_write m m' node : (forall i, is_Some (m !! i) -> is_Some (m' !! i)) ->
  node_ok m node -> node_ok m' node.
Proof.
  unfold node_ok. intros Hm (H1 & H2 & H3 & H4). do 3 (split; [done|]).
  destruct H4 as [H4|(H4 & H5 & H6)]; [by left|right]. by split_and!; auto.
Qed.



Section Queue.
Context {P M : Type} `{HP : Ports P} `{HA : AllocatorLaws M}.
Context (queue init_task dq : Z) (polls : nat) {HR : ATA_drive P polls}.
Implicit Type s : machine P M.

Lemma read_sector m node : node_ok m node -> node.(cmd) = ATA_WRITE_CMD ->
  is_Some (mem_read node.(buffer) 512 m).
Proof.
  intros (H1 & H2 & H3 & [[_ H4]|(_ & _ & H4)]) E; [rewrite H4 in E; done|].
  apply mem_read_some. intros i Hi. apply H4. lia.
Qed.

(** Where the drive is when the handler of the request is called, or when the next sector is awaited:
    the first sector of a write goes with the command. *)
Definition in_progress (node : block_buffer_node) : phase :=
  match node.(end_handler) with
  | Read_handler => remaining data_in (Z.to_nat node.(count))
  | _ => remaining data_out (Z.to_nat (node.(count) - 1))
  end.

Lemma out_all_idle l : forall p, drive p = idle -> (forall w, w ∈ l -> fst w ∈ command_registers) ->
  drive (out_all l p) = idle /\ command_block (out_all l p) = foldl hob_write (command_block p) l.
Proof.
  induction l as [|[r v] l IH]; intros p Hp Hl; [by split|]. cbn [out_all foldl fst snd].
  destruct (write_register p r v) as [H1 H2]; [apply (Hl (r, v)), list_elem_of_here|done|].
  destruct (IH (io_out8 r v p) H1) as [H3 H4]; [intros w Hw; apply Hl; by apply list_elem_of_further|].
  split; [exact H3|]. unfold out_all in H4. by rewrite H4, H2.
Qed.

(** The registers of a request, and the drive ready for the command. *)
Lemma registers_written m node p : node_ok m node -> drive p = idle ->
  exists p', wait_status polls DISK_STATUS_READY true (out_all (lba48_writes node) p) = Some p' /\ drive p' = idle /\
    drive_sectors (command_block p') = Z.to_nat node.(count).
Proof.
  intros (Hc & _) Hp. destruct (out_all_idle (lba48_writes node) p Hp) as [H1 H2].
  { intros w Hw. unfold lba48_writes in Hw. rewrite !elem_of_cons in Hw. unfold command_registers.
    destruct_or! Hw; try (subst w; cbn [fst]; repeat first [apply list_elem_of_here|apply list_elem_of_further]).
    by apply not_elem_of_nil in Hw. }
  destruct (poll_ready _ H1) as (p' & E & H3 & H4). exists p'. split_and!; [done|done|]. rewrite H4, H2. unfold drive_sectors.
  rewrite drive_count_written by lia. destruct (decide (node.(count) = 65536)) as [->|Hne]; [done|].
  rewrite Z.mod_small by lia. by rewrite (proj2 (Z.eqb_neq _ _)) by lia.
Qed.

Lemma start_command_some node s : node_ok s.(memory) node -> drive s.(ports) = idle ->
  exists p, start_command polls node s = Some (set_ports p s) /\ drive p = in_progress node.
Proof.
  intros Hn Hi. unfold start_command, in_progress. destruct (poll_busy s.(ports)) as (p & -> & Hp). cbn [mbind option_bind]. rewrite Hi in Hp.
  destruct (registers_written _ _ _ Hn Hp) as (p' & E & Hp' & Hc).
  pose proof Hn as ((H1 & H2) & _ & _ & [[Eh E']|(Eh & E' & _)]); rewrite Eh, E'.
  - change (ATA_READ_CMD =? ATA_WRITE_CMD) with false. rewrite Z.eqb_refl, E. eexists. split; [reflexivity|]. by rewrite (read_command _ Hp'), Hc.
  - rewrite Z.eqb_refl, E. cbn [mbind option_bind]. pose proof (write_command _ Hp') as Hw. rewrite Hc in Hw.
    assert (Z.to_nat node.(count) = S (Z.to_nat (node.(count) - 1))) as Ec by lia. rewrite Ec in Hw. cbn [remaining] in Hw.
    destruct (poll_request _ _ Hw) as (p'' & Eq & Hp''). rewrite Eq. cbn [mbind option_bind].
    destruct (read_sector _ _ Hn E') as [bs Hbs]. rewrite Hbs. eexists. split; [reflexivity|].
    apply sector_out; [done|]. by eapply mem_read_length.
Qed.

(** ** The queue of requests

    [rq] are the requests that are not finished, oldest first: each with the address [w] of its
    wait queue entry and the task that waits for it.  The first is being served, the others
    are in the list; [ph] is what the drive still transfers. *)
Record disk_inv s (l : list Z) (rq : list (Z * Z)) (queued : list Z) (active : Z) (ph : phase) : Prop := {
  dk_cpu : cpu_ok queue init_task s.(mcpu) l;
  dk_ring : ring s.(mcpu).(nodes) dq queued;
  dk_head : dq <> 0 /\ dq ∉ on_cpu queue init_task s.(mcpu) l;
  dk_entry : forall w t, (w, t) ∈ rq ->
    asleep queue init_task s.(mcpu) l TASK_UNINTERRUPTIBLE w t /\
    t ∉ dq :: map fst rq /\ w ∉ dq :: on_cpu queue init_task s.(mcpu) l /\ w <> 0 /\ w <> 32 /\
    w - 32 ∈ live s.(kheap) /\
    exists node, s.(requests) !! (w - 32) = Some node /\ node_ok s.(memory) node;
  dk_nodup : NoDup (map fst rq) /\ NoDup (map snd rq);
  dk_count : s.(block_request_count) = Z.of_nat (length queued);
  dk_bound : Z.of_nat (length l) + Z.of_nat (length rq) + 2 < 2 ^ 62;
  dk_using : s.(in_using) = active;
  dk_drive : drive s.(ports) = ph
}.

Definition active_of (rq : list (Z * Z)) : Z :=
  match rq with [] => 0 | (w, _) :: _ => w - 32 end.

(** The drive works on the first request, on as many sectors as it has left. *)
Definition serving s (rq : list (Z * Z)) : phase :=
  match rq with
  | [] => idle
  | (w, _) :: _ => from_option in_progress idle (s.(requests) !! (w - 32))
  end.

Definition disk_ok s (l : list Z) (rq : list (Z * Z)) : Prop :=
  disk_inv s l rq (map fst (tail rq)) (active_of rq) (serving s rq).

Lemma wait_queue_of_sub w : wait_queue_of (w - 32) = w.
Proof. unfold wait_queue_of. lia. Qed.

(** Taking the next request off the list and starting it. *)
Lemma cmd_out_spec s w ws node : ring s.(mcpu).(nodes) dq (w :: ws) -> 0 ∉ dq :: w :: ws ->
  s.(requests) !! (w - 32) = Some node -> node_ok s.(memory) node ->
  s.(block_request_count) = 1 + Z.of_nat (length ws) -> Z.of_nat (length ws) < 2 ^ 62 ->
  drive s.(ports) = idle ->
  exists n p, cmd_out dq polls s = Some (1, set_ports p (set_request_count (Z.of_nat (length ws))
      (set_mcpu (set_nodes n s.(mcpu)) (set_in_using (w - 32) s)))) /\
    drive p = in_progress node /\ ring n dq ws /\ (forall y, y ∉ dq :: w :: ws -> n !! y = s.(mcpu).(nodes) !! y) /\
    (forall y, is_Some (n !! y) <-> is_Some (s.(mcpu).(nodes) !! y)).
Proof.
  intros Hr Hz Hreq Hn Hc Hb Hi. unfold cmd_out. rewrite (list_next_ring _ _ _ Hz Hr).
  change (default dq (list.head (w :: ws))) with w. cbn [mbind option_bind].
  change (in_using (set_in_using (w - 32) s)) with (w - 32). rewrite wait_queue_of_sub.
  destruct (list_del_ring _ _ w [] ws Hr) as (n & En & Hr' & Hf & Hs).
  change (mcpu (set_in_using (w - 32) s)) with s.(mcpu). rewrite En. cbn [mbind option_bind].
  cbn [requests in_using block_request_count set_mcpu set_in_using set_request_count].
  rewrite Hreq, Hc, i64_small by lia. cbn [mbind option_bind].
  destruct (start_command_some node (set_request_count (1 + Z.of_nat (length ws) - 1)
    (set_mcpu (set_nodes n s.(mcpu)) (set_in_using (w - 32) s)))) as (p & Hp & Hd); [done|done|].
  rewrite Hp. cbn [mbind option_bind].
  exists n, p. replace (1 + Z.of_nat (length ws) - 1) with (Z.of_nat (length ws)) by lia. done.
Qed.




(** ** Submitting a request *)

(** The request goes to the end of the queue, or to the drive when that is idle. *)
Lemma submit_spec s (rq : list (Z * Z)) a t node : ring s.(mcpu).(nodes) dq (map fst (tail rq)) ->
  a + 32 ∉ dq :: map fst (tail rq) -> 0 ∉ dq :: a + 32 :: map fst (tail rq) ->
  is_Some (s.(mcpu).(nodes) !! (a + 32)) ->
  s.(in_using) = active_of rq -> (rq <> [] -> active_of rq <> 0) ->
  s.(block_request_count) = Z.of_nat (length (tail rq)) -> Z.of_nat (length rq) + 1 < 2 ^ 62 ->
  s.(requests) !! a = Some node -> node_ok s.(memory) node -> (rq = [] -> drive s.(ports) = idle) ->
  exists s' n, submit dq polls a s = Some s' /\ drive s'.(ports) = (match rq with [] => in_progress node | _ => drive s.(ports) end) /\ s'.(mcpu) = set_nodes n s.(mcpu) /\
    s'.(requests) = s.(requests) /\ s'.(memory) = s.(memory) /\ s'.(kheap) = s.(kheap) /\
    s'.(in_using) = active_of (rq ++ [(a + 32, t)]) /\
    s'.(block_request_count) = Z.of_nat (length (tail (rq ++ [(a + 32, t)]))) /\
    ring n dq (map fst (tail (rq ++ [(a + 32, t)]))) /\
    (forall y, y ∉ dq :: a + 32 :: map fst (tail rq) -> n !! y = s.(mcpu).(nodes) !! y) /\
    (forall y, is_Some (n !! y) <-> is_Some (s.(mcpu).(nodes) !! y)).
Proof.
  intros Hr Hw Hz Hs Hu Hact Hc Hb Hreq Hn Hi.
  destruct (list_add_to_before_ring _ dq (a + 32) _ Hr Hs Hw) as (n & E & Hr' & Hf & Hs').
  unfold submit, add_request, wait_queue_of. rewrite E. cbn [mbind option_bind].
  assert (Z.of_nat (length (tail rq)) <= Z.of_nat (length rq)) by (destruct rq; cbn; lia).
  rewrite Hc, i64_small by lia.
  set (s1 := set_request_count _ _). change (in_using s1) with (in_using s). rewrite Hu.
  destruct rq as [|[w1 t1] rq].
  - cbn [active_of Z.eqb tail map length app] in *.
    destruct (cmd_out_spec s1 (a + 32) [] node) as (n2 & p & E2 & Hdp & Hr2 & Hf2 & Hs2); try done.
    { subst s1. cbn. by replace (a + 32 - 32) with a by lia. }
    { by apply Hi. }
    rewrite E2. cbn [mbind option_bind snd]. exists (set_ports p (set_request_count 0
      (set_mcpu (set_nodes n2 s1.(mcpu)) (set_in_using (a + 32 - 32) s1)))), n2.
    split_and!; try done.
    + intros y Hy. by rewrite Hf2, <- Hf by done.
    + intros y. by rewrite Hs2.
  - cbn [active_of] in *. rewrite (proj2 (Z.eqb_neq _ _)) by (by apply Hact). cbn [tail app].
    exists s1, n. cbn [tail] in *. split_and!; try done.
    + subst s1; cbn. rewrite length_app; cbn. lia.
    + by rewrite map_app.
Qed.

(** The current task waits; what it does is [schedule]. *)
Lemma wait_for_finish_spec s l cur : cpu_ok queue init_task s.(mcpu) l ->
  s.(mcpu).(tasks) !! s.(mcpu).(current) = Some cur -> s.(mcpu).(current) <> init_task ->
  exists c l', wait_for_finish queue init_task s = Some (set_mcpu c s) /\
    cpu_ok queue init_task c l' /\ c.(wait_tsk) = s.(mcpu).(wait_tsk) /\
    filter (fun x => x <> init_task) (c.(current) :: l') ≡ₚ filter (fun x => x <> init_task) l /\
    c.(current) <> s.(mcpu).(current) /\
    (forall t, t <> s.(mcpu).(current) -> c.(tasks) !! t = s.(mcpu).(tasks) !! t) /\
    state <$> c.(tasks) !! s.(mcpu).(current) = Some TASK_UNINTERRUPTIBLE /\
    (forall x, x ∉ on_cpu queue init_task s.(mcpu) l -> c.(nodes) !! x = s.(mcpu).(nodes) !! x) /\
    (forall x, is_Some (s.(mcpu).(nodes) !! x) -> is_Some (c.(nodes) !! x)).
Proof.
  intros C Hc Hni. unfold wait_for_finish, upd_task. rewrite Hc. cbn [mbind option_bind].
  set (s0 := set_tasks _ s.(mcpu)).
  assert (cpu_ok queue init_task s0 l) as C0.
  { apply cpu_ok_tasks; [done|]. intros x. by eapply vrun_upd. }
  destruct (schedule_run queue init_task s0 l (set_state TASK_UNINTERRUPTIBLE cur) C0)
    as (c & l' & E & C' & Hp & _ & Hne & Ets & Ew & _ & Hf & Hm); [cbn; by rewrite lookup_insert_eq|].
  rewrite E. cbn [mbind option_bind]. exists c, l'. split_and!; try done.
  - by apply Hne.
  - intros t Ht. rewrite Ets. cbn. by rewrite !lookup_insert_ne.
  - rewrite Ets. cbn. by rewrite lookup_insert_eq.
Qed.

(** ** The interrupt *)




(** The data a request moves does not matter for the queue. *)
Lemma disk_inv_same s s' l rq queued active ph ph' : disk_inv s l rq queued active ph -> s'.(mcpu) = s.(mcpu) ->
  s'.(in_using) = s.(in_using) -> s'.(block_request_count) = s.(block_request_count) ->
  s'.(kheap) = s.(kheap) -> s'.(requests) = s.(requests) ->
  (forall i, is_Some (s.(memory) !! i) -> is_Some (s'.(memory) !! i)) -> drive s'.(ports) = ph' ->
  disk_inv s' l rq queued active ph'.
Proof.
  intros [C R Hd E N Kc Kb Ku Kd] E1 E2 E3 E4 E5 Hm Hdr.
  constructor; rewrite ?E1, ?E2, ?E3, ?E4; try done.
  intros w' t' Hin. destruct (E w' t' Hin) as (? & ? & ? & ? & ? & ? & node' & Hn' & Hok).
  split_and!; try done. exists node'. rewrite E5. split; [done|]. by eapply node_ok_write.
Qed.




(** ** Serving the queue *)





(** A sleeping task's request is added to the requests. *)
Lemma disk_ok_snoc s l rq s' l' a t node : disk_ok s l rq ->
  cpu_ok queue init_task s'.(mcpu) l' -> Z.of_nat (length l') + Z.of_nat (length rq) + 3 < 2 ^ 62 ->
  ring s'.(mcpu).(nodes) dq (map fst (tail (rq ++ [(a + 32, t)]))) ->
  s'.(block_request_count) = Z.of_nat (length (tail (rq ++ [(a + 32, t)]))) ->
  s'.(in_using) = active_of (rq ++ [(a + 32, t)]) ->
  a ∉ live s.(kheap) -> live s'.(kheap) = {[ a ]} ∪ live s.(kheap) ->
  s'.(requests) = <[a := node]> s.(requests) -> s'.(memory) = s.(memory) ->
  node_ok s.(memory) node -> a <> 0 -> a + 32 <> 0 ->
  (forall x, x ∉ on_cpu queue init_task s.(mcpu) l -> x ∉ on_cpu queue init_task s'.(mcpu) l') ->
  a + 32 ∉ dq :: map snd rq -> a + 32 ∉ on_cpu queue init_task s.(mcpu) l ->
  t <> a + 32 -> t ∉ dq :: map fst rq -> t ∉ map snd rq ->
  asleep queue init_task s'.(mcpu) l' TASK_UNINTERRUPTIBLE (a + 32) t ->
  (forall w, w <> a + 32 -> s'.(mcpu).(wait_tsk) !! w = s.(mcpu).(wait_tsk) !! w) ->
  (forall x, x <> t -> s'.(mcpu).(tasks) !! x = s.(mcpu).(tasks) !! x) ->
  (forall x, is_Some (s.(mcpu).(nodes) !! x) -> is_Some (s'.(mcpu).(nodes) !! x)) ->
  drive s'.(ports) = (match rq with [] => in_progress node | _ => drive s.(ports) end) ->
  disk_ok s' l' (rq ++ [(a + 32, t)]).
Proof.
  intros [C R [Hd0 Hd] E [N1 N2] Kc Kb Ku Kd] C' Hb Hr Hc Hu Hfresh Hlive Hreq Hmem Hn Ha0 Hw0 Hout
    Hw1 Hw2 Htw Ht1 Ht2 Has Hwt Hts Hm Hdr. rewrite elem_of_cons in Hw1, Ht1.
  assert (a + 32 ∉ map fst rq) as Hw3.
  { intros Hw. apply list_elem_of_fmap in Hw as ([w t'] & Hw & Hin). cbn in Hw.
    apply E in Hin as (_ & _ & _ & _ & _ & Hl & _). by replace (w - 32) with a in Hl by lia. }
  constructor; try done.
  - split; [done|by apply Hout].
  - intros w t' Hin. rewrite map_app, elem_of_cons, elem_of_app. cbn [map fst].
    rewrite list_elem_of_singleton. apply elem_of_app in Hin as [Hin|Hin].
    + assert (t' ∈ map snd rq) as Ht' by (by apply (list_elem_of_fmap_2 snd) in Hin).
      assert (w ∈ map fst rq) as Hw' by (by apply (list_elem_of_fmap_2 fst) in Hin).
      destruct (E w t' Hin) as (T & Ht3 & Hw4 & Hw5 & Hw6 & Hl & node' & Hn1 & Hn2).
      rewrite elem_of_cons in Ht3. rewrite elem_of_cons in Hw4. split_and!; try done.
      * apply (asleep_frame _ _ s.(mcpu) l); [done|apply Hout, T| | |done];
          [apply Hwt; congruence|apply Hts; congruence].
      * intros [?|[?| ->]]; tauto.
      * rewrite elem_of_cons. intros [?|Hx]; [tauto|]. apply Hout in Hx; tauto.
      * rewrite Hlive. apply elem_of_union. by right.
      * exists node'. rewrite Hreq, Hmem, lookup_insert_ne; [done|]. intros ->.
        apply Hw3. by replace (w - 32 + 32) with w by lia.
    + apply list_elem_of_singleton in Hin. simplify_eq. replace (a + 32 - 32) with a by lia.
      split_and!; try done; [tauto| |lia| |].
      * rewrite elem_of_cons. intros [?|Hx]; [tauto|]. by apply Hout in Hx.
      * rewrite Hlive. apply elem_of_union. left. by apply elem_of_singleton.
      * exists node. by rewrite Hreq, lookup_insert_eq, Hmem.
  - rewrite !map_app. cbn [map fst snd]. split; apply NoDup_app; split_and!; try done;
      try apply NoDup_singleton; intros x Hx Hx'; apply list_elem_of_singleton in Hx' as ->; tauto.
  - by rewrite length_map.
  - rewrite length_app; cbn. lia.
  - rewrite Hdr. destruct rq as [|[w1 t1] rq]; cbn [app serving].
    + rewrite Hreq. replace (a + 32 - 32) with a by lia. by rewrite lookup_insert_eq.
    + rewrite Kd, Hreq. cbn [serving]. rewrite lookup_insert_ne; [done|]. intros ->. apply Hw3.
      replace (w1 - 32 + 32) with w1 by lia. apply list_elem_of_here.
Qed.

Lemma transfer_queued (rq : list (Z * Z)) y : y ∈ map fst (tail rq) -> y ∈ map fst rq.
Proof. intros Hy. destruct rq; [done|]. by apply list_elem_of_further. Qed.

(** A transfer by the current task, whose request gets the memory at [a]. *)
Section Transfer.
Variables (s : machine P M) (l : list Z) (rq : list (Z * Z)) (cur : task) (a : Z) (h : M).
Variables (c blocks cnt buf : Z).
Let t := s.(mcpu).(current).
Let w := a + 32.
Let node := mkNode cnt c blocks buf
  (if c =? ATA_READ_CMD then Read_handler else Write_handler).
Hypothesis (K : disk_ok s l rq) (Hcur : s.(mcpu).(tasks) !! t = Some cur).
Hypothesis (Hidle : t <> init_task) (Ht : t ∉ dq :: map fst rq).
Hypothesis (Hb : Z.of_nat (length l) + Z.of_nat (length rq) + 3 < 2 ^ 62).
Hypothesis (Ha : alloc sizeof_block_buffer_node s.(kheap) = Some (a, h)) (Ha0 : a <> 0) (Hw0 : w <> 0).
Hypothesis (Hws : w ∉ dq :: map snd rq) (Hwc : w ∉ on_cpu queue init_task s.(mcpu) l).
Hypothesis (Hcmd : c = ATA_READ_CMD \/ c = ATA_WRITE_CMD) (Hn : node_ok s.(memory) node).

Lemma transfer_fresh : a ∉ live s.(kheap) /\ live h = {[ a ]} ∪ live s.(kheap).
Proof. by destruct (alloc_live _ _ _ _ Ha) as [[? _]|(_ & ? & ?)]. Qed.

(** The entries of the other requests. *)
Lemma transfer_entry y : y ∈ map fst rq ->
  y <> w /\ y ∉ on_cpu queue init_task s.(mcpu) l /\ y <> 0 /\ y <> 32.
Proof using All.
  intros Hy. apply list_elem_of_fmap in Hy as ([w' t'] & -> & Hy).
  apply (dk_entry _ _ _ _ _ _ K) in Hy as (_ & _ & Hy & ? & ? & Hl & _).
  rewrite elem_of_cons in Hy. cbn [fst]. split_and!; [|tauto|done|done]. intros ->.
  replace (w - 32) with a in Hl by (unfold w; lia). by apply transfer_fresh.
Qed.

(** The request is made and submitted. *)
Lemma transfer_submit : exists s1 s2 n,
  make_request c blocks cnt buf s = Some (a, s1) /\ submit dq polls a s1 = Some s2 /\
  s2.(mcpu) = set_nodes n (wait_queue_init w t s.(mcpu)) /\
  s2.(requests) = <[a := node]> s.(requests) /\ s2.(memory) = s.(memory) /\ s2.(kheap) = h /\
  s2.(in_using) = active_of (rq ++ [(w, t)]) /\
  s2.(block_request_count) = Z.of_nat (length (tail (rq ++ [(w, t)]))) /\
  drive s2.(ports) = (match rq with [] => in_progress node | _ => drive s.(ports) end) /\
  ring n dq (map fst (tail (rq ++ [(w, t)]))) /\
  (forall y, y ∈ on_cpu queue init_task s.(mcpu) l -> n !! y = s.(mcpu).(nodes) !! y) /\
  (forall y, is_Some (s.(mcpu).(nodes) !! y) -> is_Some (n !! y)) /\ is_Some (n !! w).
Proof using All.
  pose proof K as [C R [Hd0 Hd] E [N1 N2] Kc Kb Ku Kd]. pose proof Hws as Hws1. rewrite elem_of_cons in Hws1.
  set (s1 := set_requests (<[a := node]> s.(requests))
    (set_mcpu (wait_queue_init w t s.(mcpu)) (set_kheap h s))).
  assert (make_request c blocks cnt buf s = Some (a, s1)) as ->.
  { unfold make_request. rewrite Ha. cbn [mbind option_bind].
    unfold guard_fault. rewrite (proj2 (Z.eqb_neq _ _) Ha0). cbn [negb mbind option_bind].
    rewrite u32_small by (destruct Hn as (? & _); cbn in *; lia).
    subst s1 node. by destruct Hcmd as [-> | ->]. }
  assert (forall y, y <> w -> s1.(mcpu).(nodes) !! y = s.(mcpu).(nodes) !! y) as H1.
  { intros y Hy. subst s1; cbn. unfold list_init. by rewrite lookup_insert_ne. }
  destruct (submit_spec s1 rq a t node) as (s2 & n & Es & Edr & Em & Er & Ememo & Ek & Eu & Ec & Hr & Hf & Hs).
  - eapply ring_frame; [|exact R]. intros y Hy. apply H1. apply elem_of_cons in Hy as [->|Hy];
      [intros ->; tauto|by apply transfer_entry, transfer_queued].
  - rewrite elem_of_cons. intros [?|Hy]; [tauto|]. by apply transfer_queued, transfer_entry in Hy as [].
  - rewrite !elem_of_cons. intros [?|[?|Hy]]; [done..|].
    by apply transfer_queued, transfer_entry in Hy as (_ & _ & [] & _).
  - apply list_init_some.
  - done.
  - intros Hne Hx. assert (exists w1 t1 rq1, rq = (w1, t1) :: rq1) as (w1 & t1 & rq1 & Erq)
      by (destruct rq as [|[w1 t1] rq1]; [done|by exists w1, t1, rq1]).
    rewrite Erq in Hx. destruct (transfer_entry w1) as (_ & _ & _ & ?);
      [rewrite Erq; apply list_elem_of_here|cbn in Hx; lia].
  - change (s.(block_request_count) = Z.of_nat (length (tail rq))). by rewrite Kc, length_map.
  - lia.
  - apply lookup_insert_eq.
  - done.
  - intros Hnil. change (drive s.(ports) = idle). by rewrite Kd, Hnil.
  - exists s1, s2, n. split_and!; try done; [| |apply Hs, list_init_some].
    + intros y Hy. rewrite Hf; [apply H1; by intros ->|]. rewrite !elem_of_cons.
      intros [->|[->|Hin]]; [done..|]. by apply transfer_queued, transfer_entry in Hin as (_ & [] & _).
    + intros y Hy. apply Hs. destruct (decide (y = w)) as [->|Hne];
        [apply list_init_some|by rewrite H1].
Qed.

(** A transfer that gets memory for its request waits behind the requests before it: the
    request is the last of the queue, given to the drive at once when there is no other; the
    task that asked for it sleeps until its end and another runs; no other task leaves the
    processor, and the other requests and the memory are as they were. *)
Theorem IDE_transfer_spec :
  exists s' l', IDE_transfer queue init_task dq polls c blocks cnt buf s = Some (1, s') /\
    disk_ok s' l' (rq ++ [(w, t)]) /\
    filter (fun x => x <> init_task) (s'.(mcpu).(current) :: l') ≡ₚ
      filter (fun x => x <> init_task) l /\ s'.(mcpu).(current) <> t /\
    s'.(requests) = <[a := node]> s.(requests) /\ s'.(memory) = s.(memory).
Proof using All.
  destruct transfer_submit
    as (s1 & s2 & n & Emk & Es & Em & Er & Ememo & Ek & Eu & Ec & Edr & Hr & Hf & Hm & Hnw).
  pose proof (dk_cpu _ _ _ _ _ _ K) as C.
  assert (cpu_ok queue init_task s2.(mcpu) l) as C2.
  { rewrite Em. apply (cpu_ok_frame _ _ s.(mcpu)); try done.
    intros y Hy. apply Hf. unfold on_cpu. rewrite !elem_of_cons in *. tauto. }
  destruct (wait_for_finish_spec s2 l cur C2)
    as (c2 & l' & Ef & C' & Ew & Hp & Hne & Hts & Hst & Hcn & Hcm); [by rewrite Em..|].
  exists (set_mcpu c2 s2), l'. split.
  { unfold IDE_transfer. replace ((c =? ATA_READ_CMD) || (c =? ATA_WRITE_CMD)) with true
      by (by destruct Hcmd as [-> | ->]).
    rewrite Emk. cbn [mbind option_bind]. rewrite Es. cbn [mbind option_bind]. by rewrite Ef. }
  rewrite Em in *.
  assert (forall x, x ∉ on_cpu queue init_task s.(mcpu) l -> x ∉ on_cpu queue init_task c2 l') as Hout
    by (intros x; by apply on_cpu_others).
  split; [|by split_and!]. destruct transfer_fresh as [Hfresh Hlive].
  assert (t ∉ on_cpu queue init_task c2 l') as Hto.
  { pose proof (co_cur _ _ _ _ C) as Hq. unfold on_cpu. rewrite !elem_of_cons in *.
    intros [?|[?|Hy]]; [tauto..|]. rewrite <- elem_of_cons in Hy.
    apply (others_in init_task l) in Hy; [|done]. tauto. }
  assert (length l' <= length l)%nat as Hlen.
  { rewrite <- (runq_others _ _ _ _ (co_runq _ _ _ _ C)), <- (runq_others _ _ _ _ (co_runq _ _ _ _ C')).
    rewrite <- Hp, filter_cons. destruct (decide _); cbn; lia. }
  apply (disk_ok_snoc s l _ _ _ _ _ node); try done; cbn [mcpu set_mcpu].
  - lia.
  - eapply ring_frame; [|exact Hr]. intros x Hx. apply Hcn.
    apply elem_of_cons in Hx as [->|Hx]; [apply K|]. apply transfer_queued in Hx.
    rewrite map_app, elem_of_app in Hx; cbn in Hx; rewrite list_elem_of_singleton in Hx.
    destruct Hx as [Hx| ->]; [by apply transfer_entry in Hx as (_ & ? & _)|done].
  - cbn. by rewrite Ek.
  - intros Htw. apply Hwc. change (a + 32) with w in Htw. rewrite <- Htw. unfold on_cpu, t.
    rewrite !elem_of_cons. tauto.
  - intros Hin. apply list_elem_of_fmap in Hin as ([w' t'] & Et & Hin). cbn in Et.
    apply (dk_entry _ _ _ _ _ _ K) in Hin as [T _]. by apply asleep_current in T.
  - split_and!; [rewrite Ew; apply lookup_insert_eq|apply C|done| |done].
    apply Hcm, Hm, C.
  - intros w' Hw'. rewrite Ew. by apply lookup_insert_ne.
  - intros x Hx. by apply Hcm, Hm.
Qed.
End Transfer.
End Queue.

(** ** A concrete drive

    It is busy for one read of its status after a command and after each sector, then ready; it asks for
    data while a transfer is in progress; it reads zeros. *)
Record ata := mkAta { at_phase : phase; at_regs : register_file; at_busy : bool }.

Definition at_command (v : Z) (p : ata) : phase :=
  if v =? ATA_READ_CMD then remaining data_in (drive_sectors p.(at_regs))
  else if v =? ATA_WRITE_CMD then remaining data_out (drive_sectors p.(at_regs)) else p.(at_phase).
Definition at_status (p : ata) : Z :=
  match p.(at_phase) with idle => DISK_STATUS_READY | _ => DISK_STATUS_READY .| DISK_STATUS_REQ end.

#[export] Instance ata_ports : Ports ata := {|
  io_out8 port v p :=
    match p.(at_phase) with
    | idle => if port =? PORT_DISK1_STATUS_CMD then mkAta (at_command v p) p.(at_regs) true
              else mkAta idle (hob_write p.(at_regs) (port, v)) p.(at_busy)
    | _ => p
    end;
  io_in8 port p :=
    if port =? PORT_DISK1_STATUS_CMD then
      (if p.(at_busy) then DISK_STATUS_BUSY else at_status p, mkAta p.(at_phase) p.(at_regs) false)
    else (0, p);
  port_outsw port bs p := match p.(at_phase) with data_out n => mkAta (remaining data_out n) p.(at_regs) true | _ => p end;
  port_insw port n p := (replicate n 0, match p.(at_phase) with data_in n => mkAta (remaining data_in n) p.(at_regs) true | _ => p end)
|}.

#[export] Program Instance ata_drive : ATA_drive ata 2 := {| drive := at_phase; command_block := at_regs |}.
Next Obligation. intros [[] r []]; eexists; (split; [reflexivity|done]). Qed.
Next Obligation. intros [ph r []] E; cbn in E; subst ph; eexists; (split; [reflexivity|done]). Qed.
Next Obligation. intros [ph r []] n E; cbn in E; subst ph; eexists; (split; [reflexivity|done]). Qed.
Next Obligation. intros [[] r []]; done. Qed.
Next Obligation.
  intros [ph r b] port v Hp E. cbn in E. subst ph. cbn [io_out8 ata_ports at_phase]. destruct (Z.eqb_spec port PORT_DISK1_STATUS_CMD) as [->|_]; [|done].
  unfold command_registers in Hp. repeat (apply elem_of_cons in Hp as [Hp|Hp]; [discriminate Hp|]). by apply not_elem_of_nil in Hp.
Qed.
Next Obligation. intros [ph r b] E. cbn in E. by subst ph. Qed.
Next Obligation. intros [ph r b] E. cbn in E. by subst ph. Qed.
Next Obligation. intros [ph r b] n E. cbn in E. by subst ph. Qed.
Next Obligation. intros [ph r b] n bs E _. cbn in E. by subst ph. Qed.

Definition idle_drive : ata := mkAta idle (fun _ => (0, 0)) false.

(** The task 600 reads two sectors at block 7 to the address 8192, the drive is at work on
    them; the task 900 is next and wants block 5. *)
Definition disk_demo : machine ata arena := mkMachine
  (mkSched
    (list_to_map [(100, mkList 400 400); (400, mkList 100 100); (200, mkList 0 0); (300, mkList 0 0);
      (500, mkList 1000 1000); (1000, mkList 500 500); (600, mkList 0 0); (700, mkList 0 0);
      (900, mkList 0 0); (800, mkList 0 0)])
    (list_to_map [(100, mkTask 0 0 0 LONG_MAX); (400, mkTask TASK_RUNNING 0 2 7);
      (200, mkTask TASK_UNINTERRUPTIBLE PF_KTHREAD 2 0); (300, mkTask TASK_RUNNING 0 2 9);
      (600, mkTask TASK_UNINTERRUPTIBLE 0 2 3); (900, mkTask TASK_UNINTERRUPTIBLE 0 2 1)])
    (list_to_map [(700, 600); (1000, 900)]) ∅ 2 4 300)
  (list_to_map [(668, mkNode 2 ATA_READ_CMD 7 8192 Read_handler);
    (968, mkNode 1 ATA_READ_CMD 5 4096 Read_handler)])
  668 1 (mkAta (data_in 1) (fun _ => (0, 0)) false) ∅ (list_to_set [668; 968]).

Lemma disk_demo_cpu : cpu_ok 100 200 disk_demo.(mcpu) [400].
Proof.
  constructor;
    [|cbn; not_in|cbn; lia|by (vm_compute; eexists)|by (vm_compute; eexists)|split; lia
     |by (vm_compute; eexists)|by (vm_compute; eexists)| |cbn; lia].
  - constructor; [concrete_ring|not_in|reflexivity|not_in| |repeat constructor|reflexivity|cbn; lia].
    intros x Hx. apply list_elem_of_singleton in Hx as ->. vm_compute. by eexists.
  - intros x t Ht. apply elem_of_list_to_map_2 in Ht. cbn in Ht. rewrite !elem_of_cons in Ht.
    destruct_or! Ht; [simplify_eq; cbn; unfold LONG_MAX; lia..|].
    by apply not_elem_of_nil in Ht.
Qed.

Lemma disk_demo_ok : disk_ok 100 200 500 2 disk_demo [400] [(700, 600); (1000, 900)].
Proof.
  constructor; [exact disk_demo_cpu|concrete_ring|split; [lia|not_in]| |..|reflexivity|cbn; lia|reflexivity|reflexivity].
  - intros w t Hwt. rewrite !elem_of_cons in Hwt.
    destruct Hwt as [Hwt|[Hwt|Hwt]]; [..|by apply not_elem_of_nil in Hwt]; simplify_eq; (split; [|split_and!]).
    all: try not_in; try lia.
    all: try (split_and!; [reflexivity|lia|not_in|vm_compute; by eexists|reflexivity]).
    all: try (cbn; set_solver).
    all: eexists; (split; [reflexivity|]); split_and!; cbn; try lia; left; done.
  - split; repeat constructor; not_in.
Qed.


(** The running task 300 writes one sector of memory at 0 to block 9. *)
Definition disk_demo_sector : machine ata arena :=
  set_memory (mem_write 0 (replicate 512 0) ∅) disk_demo.

Lemma disk_demo_sector_ok : disk_ok 100 200 500 2 disk_demo_sector [400] [(700, 600); (1000, 900)].
Proof.
  eapply (disk_inv_same _ _ _ _ disk_demo); [exact disk_demo_ok|reflexivity..| |reflexivity].
  intros i [b Hb]. discriminate Hb.
Qed.

Lemma IDE_transfer_spec_witness : exists s' l',
  IDE_transfer 100 200 500 2 ATA_WRITE_CMD 9 1 0 disk_demo_sector = Some (1, s') /\
  disk_ok 100 200 500 2 s' l' [(700, 600); (1000, 900); (1001, 300)] /\ s'.(mcpu).(current) <> 300.
Proof.
  destruct (alloc sizeof_block_buffer_node disk_demo_sector.(kheap)) as [[a h]|] eqn:Ha; [|discriminate].
  assert (a = 969) as -> by (vm_compute in Ha; congruence).
  destruct (IDE_transfer_spec 100 200 500 2 disk_demo_sector [400] [(700, 600); (1000, 900)]
    (mkTask TASK_RUNNING 0 2 9) 969 h ATA_WRITE_CMD 9 1 0) as (s' & l' & E & K & _ & Hne & _);
    [exact disk_demo_sector_ok|reflexivity|discriminate|cbn; not_in|cbn; lia|exact Ha|lia|lia
    |cbn; not_in|cbn; not_in|by right| |].
  - split_and!; [cbn; lia..|]. right. split; [reflexivity|]. split; [reflexivity|].
    intros i Hi. apply mem_write_inside. cbn in *. lia.
  - exists s', l'. split; [exact E|]. split; [exact K|exact Hne].
Defined.

Lemma lba48_roundtrip_witness :
  let r := foldl hob_write (fun _ => (0xaa, 0xbb))
    (lba48_writes (mkNode 300 ATA_READ_CMD 0x123456789abc 0 Read_handler)) in
  drive_lba r = 0x123456789abc /\ drive_count r = 300.
Proof. apply lba48_roundtrip; cbn; lia. Defined.

(** ** The interrupt before the wait

    When the drive is faster than the way from [submit] to [wait_for_finish], the task is put
    into the run queue before it goes to sleep: it runs again in the state
    [TASK_UNINTERRUPTIBLE], and the next scheduling decision drops it although its request is
    done. *)
Definition disk_idle_demo : machine ata arena := mkMachine
  (set_nodes (list_init 500 cpu_demo.(nodes)) cpu_demo) ∅ 0 0 idle_drive ∅ ∅.

Definition finish_before_wait : option (machine ata arena) :=
  r ← make_request ATA_READ_CMD 7 1 4096 disk_idle_demo;
  s ← submit 500 2 (fst r) (snd r);
  s ← disk_handler 100 200 500 2 s;
  s ← wait_for_finish 100 200 s;
  wait_for_finish 100 200 s.

Definition observe (s : machine ata arena) : Z * option Z * Z :=
  (s.(mcpu).(current), state <$> s.(mcpu).(tasks) !! 300, s.(in_using)).

Example finish_before_wait_lost :
  observe <$> finish_before_wait = Some (300, Some TASK_UNINTERRUPTIBLE, 0) /\
  (s ← finish_before_wait; c ← schedule 100 200 s.(mcpu); Some (observe (set_mcpu c s))) =
    Some (200, Some TASK_UNINTERRUPTIBLE, 0).
Proof. by vm_compute. Qed.
