(* ===== verification/Paging.v ===== *)
(** * Page tables and the heap of a process (memory.h, memory.c, sys.c)

    The page tables built by [do_brk] and [pagetable_init], and [sys_brk].  The memory that the
    kernel reaches through its direct map is [words], 64-bit words by virtual address; a page
    table entry is such a word.  Physical pages and kernel objects come from the class
    [Frames], which [PageAlloc] and [Slab] implement; descriptors of address spaces
    ([struct mm_struct]) live in a store of their own. *)

From S2P Require Import Prelude PageAlloc Slab Alloc Errno.

Local Open Scope cint_scope.

(** ** memory.h, task.h *)

Definition PAGE_GDT_SHIFT : Z := 39.
Definition PAGE_1G_SHIFT : Z := 30.

Definition PAGE_PS : Z := 0x80.
Definition PAGE_U_S : Z := 0x4.
Definition PAGE_R_W : Z := 0x2.
Definition PAGE_Present : Z := 0x1.

Definition PAGE_KERNEL_GDT : Z := PAGE_R_W .| PAGE_Present.
Definition PAGE_KERNEL_Dir : Z := PAGE_R_W .| PAGE_Present.
Definition PAGE_KERNEL_Page : Z := PAGE_PS .| PAGE_R_W .| PAGE_Present.
Definition PAGE_USER_GDT : Z := PAGE_U_S .| PAGE_R_W .| PAGE_Present.
Definition PAGE_USER_Dir : Z := PAGE_U_S .| PAGE_R_W .| PAGE_Present.
Definition PAGE_USER_Page : Z := PAGE_PS .| PAGE_U_S .| PAGE_R_W .| PAGE_Present.

Definition mk_mpl4t (addr attr : Z) : Z := addr .| attr.
Definition mk_pdpt (addr attr : Z) : Z := addr .| attr.
Definition mk_pdt (addr attr : Z) : Z := addr .| attr.

Record mm_struct := mkMm {
  pgd : Z;
  start_code : Z; end_code : Z;
  start_data : Z; end_data : Z;
  start_rodata : Z; end_rodata : Z;
  start_bss : Z; end_bss : Z;
  start_brk : Z; end_brk : Z;
  start_stack : Z
}.

Definition set_end_brk (b : Z) (m : mm_struct) : mm_struct :=
  mkMm m.(pgd) m.(start_code) m.(end_code) m.(start_data) m.(end_data) m.(start_rodata)
    m.(end_rodata) m.(start_bss) m.(end_bss) m.(start_brk) b m.(start_stack).

(** [alloc_pages(ZONE_NORMAL,1,PG_PTable_Maped)], of which [PHY_address] is used, and
    [free_pages(Phy_to_2M_Page(e),1)] for a page table entry [e]. *)
Class Frames (M : Type) `{Allocator M} := {
  take_frame : M -> option (option Z * M);
  give_frame : Z -> M -> option M
}.

#[export] Instance kmem_frames : Frames kmem := {|
  take_frame s :=
    r ← alloc_pages ZONE_NORMAL 1 PG_PTable_Maped s.(pm);
    match fst r with
    | None => Some (None, set_pm (snd r) s)
    | Some i => p ← page_at (snd r) i; Some (Some p.(PHY_address), set_pm (snd r) s)
    end;
  give_frame e s :=
    p ← free_pages (Some (e .>> PAGE_2M_SHIFT)) 1 s.(pm); Some (set_pm p s)
|}.

Definition memory_words : Type := Z -> Z.

Definition store (a v : Z) (w : memory_words) : memory_words :=
  fun x => if x =? a then v else w x.

(** [memset(a,0,n)] and [memcpy(src,dst,n)] on whole words. *)
Definition memset0 (a n : Z) (w : memory_words) : memory_words :=
  fun x => if (a <=? x) && (x <? a + n) then 0 else w x.
Definition memcpy (src dst n : Z) (w : memory_words) : memory_words :=
  fun x => if (dst <=? x) && (x <? dst + n) then w (src + (x - dst)) else w x.

(** [cmm] is [current->mm]. *)
Record vm (M : Type) := mkVm {
  words : memory_words;
  mms : gmap Z mm_struct;
  cmm : Z;
  vheap : M
}.
Arguments mkVm {M}.
Arguments words {M}.
Arguments mms {M}.
Arguments cmm {M}.
Arguments vheap {M}.

(** [Phy_To_Virt((unsigned long * )(e & ~0xfff) + ((va >> shift) & 0x1ff))]: the entry for [va]
    in the table that the entry [e] of the level above points to. *)
Definition entry (e shift va : Z) : Z :=
  Phy_To_Virt ((e .& .~ 0xfff) .+ 8 * ((va .>> shift) .& 0x1ff)).

Section Paging.
Context {M : Type} `{Frames M}.
Implicit Type s : vm M.

Definition set_words (w : memory_words) s : vm M := mkVm w s.(mms) s.(cmm) s.(vheap).
Definition set_mms (m : gmap Z mm_struct) s : vm M := mkVm s.(words) m s.(cmm) s.(vheap).
Definition set_cmm (a : Z) s : vm M := mkVm s.(words) s.(mms) a s.(vheap).
Definition set_vheap (h : M) s : vm M := mkVm s.(words) s.(mms) s.(cmm) h.

(** A cleared page for a table; [kmalloc] is not tested for NULL. *)
Definition new_table s : option (Z * vm M) :=
  r ← alloc PAGE_4K_SIZE s.(vheap);
  let '(virtual, h) := r in
  _ ← guard_fault (negb (virtual =? 0));
  Some (virtual, set_words (memset0 virtual PAGE_4K_SIZE s.(words)) (set_vheap h s)).

(** [virtual = kmalloc ... memset ... set_pdpt(tmp, ...)], and this only if [*tmp == NULL]. *)
Definition add_table (attr tmp : Z) s : option (vm M) :=
  r ← new_table s;
  let '(virtual, s) := r in
  Some (set_words (store tmp (mk_pdpt (Virt_To_Phy virtual) attr) s.(words)) s).

Definition ensure_table (attr tmp : Z) s : option (vm M) :=
  if s.(words) tmp =? 0 then add_table attr tmp s else Some s.

(** The body of the loop of [do_brk]; [false] is [return -ENOMEM]. *)
Definition brk_page (i : Z) s : option (bool * vm M) :=
  mm ← s.(mms) !! s.(cmm);
  let tmp := entry mm.(pgd) PAGE_GDT_SHIFT i in
  s ← ensure_table PAGE_USER_GDT tmp s;
  let tmp := entry (s.(words) tmp) PAGE_1G_SHIFT i in
  s ← ensure_table PAGE_USER_Dir tmp s;
  let tmp := entry (s.(words) tmp) PAGE_2M_SHIFT i in
  if s.(words) tmp =? 0 then
    r ← take_frame s.(vheap);
    match r with
    | (None, h) => Some (false, set_vheap h s)
    | (Some p, h) =>
        Some (true, set_words (store tmp (mk_pdt p PAGE_USER_Page) s.(words)) (set_vheap h s))
    end
  else Some (true, s).

(** [for(i = addr;i < addr + len;i += PAGE_2M_SIZE)]; no [i] when the body gives up. *)
Fixpoint brk_loop (fuel : nat) (i limit : Z) s : option (option Z * vm M) :=
  match fuel with
  | O => None
  | S fuel =>
      if i <? limit then
        r ← brk_page i s;
        let '(ok, s) := r in
        if ok : bool then brk_loop fuel (i .+ PAGE_2M_SIZE) limit s else Some (None, s)
      else Some (Some i, s)
  end.

Definition put_end_brk (b : Z) s : option (vm M) :=
  mm ← s.(mms) !! s.(cmm);
  Some (set_mms (<[s.(cmm) := set_end_brk b mm]> s.(mms)) s).

Definition do_brk (fuel : nat) (addr len : Z) s : option (Z * vm M) :=
  r ← brk_loop fuel addr (addr .+ len) s;
  match r with
  | (None, s) => Some (u64 (- ENOMEM), s)
  | (Some i, s) => s ← put_end_brk i s; Some (i, s)
  end.

Definition sys_brk (fuel : nat) (brk : Z) s : option (Z * vm M) :=
  let new_brk := PAGE_2M_ALIGN brk in
  mm ← s.(mms) !! s.(cmm);
  if new_brk =? 0 then Some (mm.(start_brk), s)
  else if new_brk <? mm.(end_brk) then Some (0, s)
  else
    r ← do_brk fuel mm.(end_brk) (new_brk .- mm.(end_brk)) s;
    let '(new_brk, s) := r in
    s ← put_end_brk new_brk s; Some (new_brk, s).

(** The body of the loops of [pagetable_init] for a page at [phys], with the tables at [gdt]. *)
Definition map_phys (gdt phys : Z) s : option (vm M) :=
  let va := Phy_To_Virt phys in
  let tmp := entry gdt PAGE_GDT_SHIFT va in
  s ← ensure_table PAGE_KERNEL_GDT tmp s;
  let tmp := entry (s.(words) tmp) PAGE_1G_SHIFT va in
  s ← ensure_table PAGE_KERNEL_Dir tmp s;
  let tmp := entry (s.(words) tmp) PAGE_2M_SHIFT va in
  Some (set_words (store tmp (mk_pdt phys PAGE_KERNEL_Page) s.(words)) s).

(** The pages of the zones before [ZONE_UNMAPED_INDEX], 0 for none. *)
Definition zone_phys (p : pmm) (z : Zone) : option (list Z) :=
  mapM (fun j => pg ← page_at p (z.(pages_group) + j); Some pg.(PHY_address))
    (range 0 z.(zone_pages_length)).

Definition mapped_phys (p : pmm) : option (list Z) :=
  let n := Z.of_nat (length p.(zones_struct)) in
  let n := if negb (p.(ZONE_UNMAPED_INDEX) =? 0) then Z.min n p.(ZONE_UNMAPED_INDEX) else n in
  ls ← mapM (zone_phys p) (take (Z.to_nat n) p.(zones_struct));
  Some (concat ls).

(** The page descriptors do not change meanwhile. *)
Definition pagetable_init (gdt : Z) (p : pmm) s : option (vm M) :=
  l ← mapped_phys p; for_each (map_phys gdt) l s.
End Paging.

(** ** The processor's view

    The walk through the three levels that the kernel uses, as the processor does it: 0, or the
    entry of the page; and the translation of an address. *)
Definition present (e : Z) : bool := negb (e .& PAGE_Present =? 0).

Definition walk (w : memory_words) (gdt va : Z) : Z :=
  let e4 := w (entry gdt PAGE_GDT_SHIFT va) in
  if present e4 then
    let e3 := w (entry e4 PAGE_1G_SHIFT va) in
    if present e3 then w (entry e3 PAGE_2M_SHIFT va) else 0
  else 0.

Definition translate (w : memory_words) (gdt va : Z) : option Z :=
  let e := walk w gdt va in
  if present e then Some (2 ^ 21 * (e / 2 ^ 21) + va mod 2 ^ 21) else None.

(** ** What the allocators promise *)

Definition valid_table (t : Z) : Prop :=
  PAGE_OFFSET < t /\ t + 2 ^ 12 <= 2 ^ 64 /\ t mod 2 ^ 12 = 0.
Definition valid_frame (f : Z) : Prop := 0 <= f /\ f + 2 ^ 21 <= 2 ^ 47 /\ f mod 2 ^ 21 = 0.

(** [tables] are the objects of 4096 bytes in use, by virtual address, and [frames] the pages
    in use, by physical address; they do not overlap.  [capacity m j k] says that there is memory
    for [j] more objects of at most 1 MB, with the pages their slabs take, and for [k] more pages. *)
Class PagingLaws (M : Type) `{Frames M} `{!AllocatorLaws M} := {
  tables : M -> gset Z;
  frames : M -> gset Z;
  capacity : M -> nat -> nat -> Prop;
  frame_valid m f : f ∈ frames m -> valid_frame f;
  tables_live m : tables m ⊆ live m;
  apart m t f : t ∈ tables m -> f ∈ frames m -> t + 2 ^ 12 <= Phy_To_Virt f \/ Phy_To_Virt f + 2 ^ 21 <= t;
  alloc_table m a m' : alloc PAGE_4K_SIZE m = Some (a, m') -> a <> 0 ->
    valid_table a /\ tables m' = {[ a ]} ∪ tables m;
  alloc_other n m a m' : alloc n m = Some (a, m') -> n <> PAGE_4K_SIZE -> tables m' = tables m;
  alloc_frames n m a m' : alloc n m = Some (a, m') -> frames m' = frames m;
  alloc_capacity n m j k : n <= 1048576 -> capacity m (S j) k ->
    exists a m', alloc n m = Some (a, m') /\ a <> 0 /\ capacity m' j k;
  take_frame_total m : is_Some (take_frame m);
  take_frame_spec m p m' : take_frame m = Some (p, m') ->
    tables m' = tables m /\ live m' = live m /\
    match p with
    | None => frames m' = frames m
    | Some f => f ∉ frames m /\ frames m' = {[ f ]} ∪ frames m
    end;
  capacity_object m j k : capacity m (S j) k -> capacity m j k;
  capacity_frame m j k : capacity m j (S k) -> capacity m j k;
  take_frame_capacity m j k : capacity m j (S k) ->
    exists f m', take_frame m = Some (Some f, m') /\ capacity m' j k;
  give_frame_spec m f a : f ∈ frames m -> 0 <= a < 2 ^ 21 ->
    exists m', give_frame (f + a) m = Some m' /\ frames m' = frames m ∖ {[ f ]} /\
      tables m' = tables m /\ live m' = live m;
  release_table m t a : t ∈ tables m -> 0 <= a < 2 ^ 12 ->
    exists r m', release (t + a) m = Some (r, m') /\ live m' = live m ∖ {[ t ]} /\
      tables m' = tables m ∖ {[ t ]} /\ frames m' = frames m;
  release_other m a r m' : release a m = Some (r, m') -> a ∈ live m ∖ tables m ->
    tables m' = tables m /\ frames m' = frames m
}.

(** ** Entries *)

Definition index (shift va : Z) : Z := va / 2 ^ shift mod 512.
Definition table_of (e : Z) : Z := Phy_To_Virt (e .& .~ 0xfff).

(** What a slot of a table holds when it leads to the table [t]. *)
Definition leads_to (e t : Z) : Prop := exists a, e = Virt_To_Phy t + a /\ (a = 3 \/ a = 7).

Lemma virt_phy t : valid_table t -> Virt_To_Phy t = t - PAGE_OFFSET /\
  0 <= t - PAGE_OFFSET < 2 ^ 47 /\ (t - PAGE_OFFSET) mod 2 ^ 12 = 0.
Proof.
  unfold valid_table, Virt_To_Phy, PAGE_OFFSET. intros (H1 & H2 & H3). rewrite u64_small by lia.
  split_and!; [done|lia..|]. rewrite Zminus_mod, H3. done.
Qed.

Lemma leads_to_mk t attr : valid_table t -> attr = 3 \/ attr = 7 ->
  leads_to (mk_pdpt (Virt_To_Phy t) attr) t.
Proof.
  intros Ht Ha. destruct (virt_phy t Ht) as (E & Hr & Hm). exists attr. split; [|done].
  unfold mk_pdpt. rewrite E. apply (lor_low _ _ 12); lia.
Qed.

Lemma round_low p a : 0 <= p < 2 ^ 64 -> p mod 2 ^ 12 = 0 -> 0 <= a < 2 ^ 12 -> p + a < 2 ^ 64 ->
  (p + a) .& .~ 0xfff = p.
Proof.
  intros Hp Hm Ha Hb. change 0xfff with ((1 .<< 12) .- 1). rewrite mask_round by (unfold word64; lia).
  pose proof (Z.div_mod p (2 ^ 12) ltac:(lia)).
  replace (p + a) with (a + p / 2 ^ 12 * 2 ^ 12) by lia.
  rewrite Z_div_plus_full, (Z.div_small a) by lia. lia.
Qed.

Lemma leads_to_table e t : valid_table t -> leads_to e t -> table_of e = t /\ present e = true /\ e <> 0.
Proof.
  intros Ht (a & -> & Ha). destruct (virt_phy t Ht) as (-> & Hr & Hm). split_and!.
  - unfold table_of. rewrite round_low by lia. unfold Phy_To_Virt.
    replace (t - PAGE_OFFSET + PAGE_OFFSET) with t by lia. apply u64_small.
    unfold valid_table, PAGE_OFFSET in Ht. lia.
  - unfold present, PAGE_Present. change 1 with (Z.ones 1). rewrite Z.land_ones by lia.
    rewrite (Z.div_mod (t - PAGE_OFFSET) (2 ^ 12)), Hm by lia.
    replace (2 ^ 12 * ((t - PAGE_OFFSET) / 2 ^ 12) + 0 + a)
      with (a + (2 ^ 11 * ((t - PAGE_OFFSET) / 2 ^ 12)) * 2 ^ 1) by lia.
    rewrite Z_mod_plus_full. by destruct Ha as [-> | ->].
  - lia.
Qed.

Lemma index_range shift va : 0 <= index shift va < 512.
Proof. apply Z.mod_pos_bound. lia. Qed.

(** The address of the slot for [va]. *)
Lemma entry_slot e shift va : 0 <= shift -> valid_table (table_of e) ->
  entry e shift va = table_of e + 8 * index shift va.
Proof.
  intros Hs (H1 & H2 & H3). unfold entry, Phy_To_Virt. rewrite u64_add_l.
  change 0x1ff with (Z.ones 9). rewrite Z.land_ones, Z.shiftr_div_pow2 by lia.
  change (2 ^ 9) with 512. fold (index shift va). pose proof (index_range shift va).
  unfold table_of, Phy_To_Virt in *.
  replace ((e .& .~ 4095) + 8 * index shift va + PAGE_OFFSET)
    with ((e .& .~ 4095) + PAGE_OFFSET + 8 * index shift va) by lia.
  rewrite <- u64_add_l. apply u64_small. unfold PAGE_OFFSET in *. lia.
Qed.

(** ** Well-formed tables

    [L] names the tables by the indices that lead to them, innermost first; the root is [[]].
    The slots of the root from [lo] to [hi] are ours (user space or the kernel's half). *)
Definition slot (lo hi : Z) (k : list Z) (i : Z) : Prop :=
  match k with [] => lo <= i < hi | _ => 0 <= i < 512 end.

Record pt_ok (w : memory_words) (T : gset Z) (root lo hi : Z) (L : gmap (list Z) Z) : Prop := {
  pk_root : L !! [] = Some root;
  pk_range : 0 <= lo /\ hi <= 512;
  pk_table k t : L !! k = Some t -> valid_table t /\ t ∈ T;
  pk_inj k k' t : L !! k = Some t -> L !! k' = Some t -> k = k';
  pk_path i k t : L !! (i :: k) = Some t -> is_Some (L !! k) /\ (length k < 2)%nat /\ slot lo hi k i;
  pk_link k t i : L !! k = Some t -> (length k < 2)%nat -> slot lo hi k i ->
    match L !! (i :: k) with
    | Some t' => leads_to (w (t + 8 * i)) t'
    | None => w (t + 8 * i) = 0
    end
}.

(** The entries of pages. *)
Definition leaf (w : memory_words) (L : gmap (list Z) Z) (i4 i3 i2 : Z) : Z :=
  match L !! [i3; i4] with Some t => w (t + 8 * i2) | None => 0 end.
Definition leaf_at (w : memory_words) (L : gmap (list Z) Z) (va : Z) : Z :=
  leaf w L (index PAGE_GDT_SHIFT va) (index PAGE_1G_SHIFT va) (index PAGE_2M_SHIFT va).

(** Different slots are different words. *)
Lemma slots_apart t t' i i' : valid_table t -> valid_table t' -> 0 <= i < 512 -> 0 <= i' < 512 ->
  t + 8 * i = t' + 8 * i' -> t = t' /\ i = i'.
Proof.
  intros (_ & _ & H1) (_ & _ & H2) Hi Hi' E.
  pose proof (Z.div_mod t (2 ^ 12) ltac:(lia)). pose proof (Z.div_mod t' (2 ^ 12) ltac:(lia)). lia.
Qed.

Lemma slot_range lo hi k i : 0 <= lo -> hi <= 512 -> slot lo hi k i -> 0 <= i < 512.
Proof. destruct k; cbn; lia. Qed.

(** The tables do not notice words outside of them. *)
Lemma pt_ok_frame w w' T T' root lo hi L : pt_ok w T root lo hi L -> T ⊆ T' ->
  (forall k t i, L !! k = Some t -> (length k < 2)%nat -> slot lo hi k i -> w' (t + 8 * i) = w (t + 8 * i)) ->
  pt_ok w' T' root lo hi L.
Proof.
  intros [P1 P2 P3 P4 P5 P6] HT Hw. constructor; try done.
  - intros k t Hk. destruct (P3 k t Hk). split; [done|]. by apply HT.
  - intros k t i Hk Hl Hi. rewrite (Hw k) by done. by apply P6.
Qed.

Lemma store_ne a v w x : x <> a -> store a v w x = w x.
Proof. intros. unfold store. by rewrite (proj2 (Z.eqb_neq x a)). Qed.
Lemma store_eq a v w : store a v w a = v.
Proof. unfold store. by rewrite Z.eqb_refl. Qed.
Lemma memset0_out a n w x : ~ a <= x < a + n -> memset0 a n w x = w x.
Proof. intros. unfold memset0. destruct (Z.leb_spec a x), (Z.ltb_spec x (a + n)); done || lia. Qed.
Lemma memset0_in a n w x : a <= x < a + n -> memset0 a n w x = 0.
Proof. intros. unfold memset0. rewrite (proj2 (Z.leb_le _ _)), (proj2 (Z.ltb_lt _ _)); done || lia. Qed.

(** A new cleared table [v] behind the slot [i] of the table [k]. *)
Definition grow (t i v attr : Z) (w : memory_words) : memory_words :=
  store (t + 8 * i) (mk_pdpt (Virt_To_Phy v) attr) (memset0 v PAGE_4K_SIZE w).

Section Grow.
Context (w : memory_words) (T : gset Z) (root lo hi : Z) (L : gmap (list Z) Z).
Context (k : list Z) (t i v attr : Z).
Hypothesis (K : pt_ok w T root lo hi L) (Hk : L !! k = Some t) (Hlen : (length k < 2)%nat).
Hypothesis (Hi : slot lo hi k i) (Hnew : L !! (i :: k) = None).
Hypothesis (Hv : valid_table v) (HvT : v ∉ T) (Ha : attr = 3 \/ attr = 7).

Lemma grow_tables x : x ∈ T -> x <> v.
Proof using HvT. by intros Hx ->. Qed.

Lemma grow_fresh k' : L !! k' <> Some v.
Proof using K HvT. intros E. by apply (pk_table _ _ _ _ _ _ K) in E as [_ ?]. Qed.

(** The words of the other tables. *)
Lemma grow_far t' i' : valid_table t' -> t' ∈ T -> 0 <= i' < 512 -> (t' = t -> i' <> i) ->
  grow t i v attr w (t' + 8 * i') = w (t' + 8 * i').
Proof using All.
  intros Ht' Ht'T Hi' Hne. pose proof (pk_range _ _ _ _ _ _ K) as [R1 R2].
  destruct (pk_table _ _ _ _ _ _ K _ _ Hk) as [Ht HtT]. unfold grow. rewrite store_ne, memset0_out; [done|..].
  - change PAGE_4K_SIZE with (2 ^ 12). intros Hx. apply (grow_tables t' Ht'T).
    destruct Ht' as (_ & _ & M1). destruct Hv as (_ & _ & M2).
    pose proof (Z.div_mod t' (2 ^ 12) ltac:(lia)). pose proof (Z.div_mod v (2 ^ 12) ltac:(lia)). lia.
  - intros E. apply slots_apart in E as [-> ->]; try done; [|by eapply slot_range]. by apply Hne.
Qed.

Lemma grow_other k' t' i' : L !! k' = Some t' -> 0 <= i' < 512 -> (k' = k -> i' <> i) ->
  grow t i v attr w (t' + 8 * i') = w (t' + 8 * i').
Proof using All.
  intros Hk' Hi' Hne. destruct (pk_table _ _ _ _ _ _ K _ _ Hk') as [Ht' Ht'T].
  apply grow_far; [done..|]. intros ->. by apply Hne, (pk_inj _ _ _ _ _ _ K _ _ t).
Qed.

Lemma grow_slot : grow t i v attr w (t + 8 * i) = mk_pdpt (Virt_To_Phy v) attr.
Proof using Type. apply store_eq. Qed.

(** The new table is empty. *)
Lemma grow_zero j : 0 <= j < 512 -> grow t i v attr w (v + 8 * j) = 0.
Proof using All.
  intros Hj. pose proof (pk_range _ _ _ _ _ _ K) as [R1 R2].
  destruct (pk_table _ _ _ _ _ _ K _ _ Hk) as [Ht HtT]. unfold grow.
  rewrite store_ne; [apply memset0_in; change PAGE_4K_SIZE with (2 ^ 12); lia|].
  intros E. apply slots_apart in E as [E _]; try done; [|by eapply slot_range].
  by apply (grow_tables t HtT).
Qed.

Lemma grow_ok : pt_ok (grow t i v attr w) ({[ v ]} ∪ T) root lo hi (<[i :: k := v]> L).
Proof using All.
  pose proof K as [P1 [R1 R2] P3 P4 P5 P6]. constructor; try done.
  - by rewrite lookup_insert_ne.
  - intros k' t' E. apply lookup_insert_Some in E as [[<- <-]|[_ E]]; [set_solver|].
    destruct (P3 _ _ E). set_solver.
  - intros k1 k2 t' E1 E2. apply lookup_insert_Some in E1 as [[<- <-]|[N1 E1]],
      E2 as [[<- E2]|[N2 E2]]; try done; [by apply grow_fresh in E2|rewrite <- E2 in E1; by apply grow_fresh in E1|].
    by apply (P4 _ _ t').
  - intros j k' t' E. apply lookup_insert_Some in E as [[[= <- <-] <-]|[_ E]].
    + rewrite lookup_insert_ne by (intros E; apply (f_equal length) in E; cbn in E; lia).
      split_and!; [by eexists|done|done].
    + destruct (P5 _ _ _ E) as ([t1 E1] & H2 & H3). split_and!; try done.
      destruct (decide (i :: k = k')) as [<-|]; [rewrite lookup_insert_eq|rewrite lookup_insert_ne by done];
        by eexists.
  - intros k' t' j E Hl Hj. apply lookup_insert_Some in E as [[<- <-]|[N E]].
    + rewrite lookup_insert_ne by (intros [= _ E%(f_equal length)]; cbn in E; lia).
      destruct (L !! (j :: i :: k)) as [t2|] eqn:E2.
      * apply P5 in E2 as [[? E2] _]. congruence.
      * apply grow_zero. cbn in Hj. lia.
    + destruct (decide (i :: k = j :: k')) as [[= <- <-]|Hne].
      * assert (t' = t) as -> by congruence. rewrite lookup_insert_eq, grow_slot.
        by apply leads_to_mk.
      * rewrite lookup_insert_ne by done. rewrite (grow_other k') by (done || by eapply slot_range || congruence).
        by apply P6.
Qed.

Lemma grow_leaf i4 i3 i2 : 0 <= i2 < 512 ->
  leaf (grow t i v attr w) (<[i :: k := v]> L) i4 i3 i2 = leaf w L i4 i3 i2.
Proof using All.
  intros H2. unfold leaf. destruct (decide (i :: k = [i3; i4])) as [E|Hne].
  - rewrite <- E, lookup_insert_eq, Hnew. by apply grow_zero.
  - rewrite lookup_insert_ne by done. destruct (L !! [i3; i4]) as [t'|] eqn:E; [|done].
    apply (grow_other [i3; i4]); [done|done|]. intros <-. cbn in Hlen. lia.
Qed.
End Grow.

(** ** Walking down *)

(** What making tables leaves alone: the pages, and every word that is not in a table. *)
Record grown {M} `{PagingLaws M} (s : vm M) (L : gmap (list Z) Z) (s' : vm M) (L' : gmap (list Z) Z)
    : Prop := {
  gr_leaf i4 i3 i2 : 0 <= i2 < 512 -> leaf s'.(words) L' i4 i3 i2 = leaf s.(words) L i4 i3 i2;
  gr_mms : s'.(mms) = s.(mms) /\ s'.(cmm) = s.(cmm);
  gr_frames : frames s'.(vheap) = frames s.(vheap);
  gr_tables : tables s.(vheap) ⊆ tables s'.(vheap);
  gr_out x : (forall t, t ∈ tables s'.(vheap) -> ~ t <= x < t + 2 ^ 12) -> s'.(words) x = s.(words) x;
  gr_new k t : L' !! k = Some t -> t ∈ tables s.(vheap) -> L !! k = Some t;
  gr_sub : L ⊆ L';
  gr_other t i : t ∈ tables s.(vheap) -> valid_table t -> 0 <= i < 512 ->
    (forall k, L !! k = Some t -> L' !! (i :: k) = L !! (i :: k)) ->
    s'.(words) (t + 8 * i) = s.(words) (t + 8 * i)
}.

Section Tables.
Context {M : Type} `{HF : Frames M} `{HL : !AllocatorLaws M} `{HP : !PagingLaws M}.
Implicit Type s : vm M.
Implicit Type L : gmap (list Z) Z.
Context (gdt lo hi : Z).
Let root := table_of gdt.
Notation tables_ok s L := (pt_ok s.(words) (tables s.(vheap)) root lo hi L).

Lemma grown_refl s L : grown s L s L.
Proof using Type. by constructor. Qed.

Lemma grown_trans s L s1 L1 s2 L2 : grown s L s1 L1 -> grown s1 L1 s2 L2 -> grown s L s2 L2.
Proof using Type.
  intros [A1 [A2 A2'] A3 A5 A6 A7 A8 A9] [B1 [B2 B2'] B3 B5 B6 B7 B8 B9]. constructor.
  - intros. by rewrite B1, A1.
  - split; congruence.
  - congruence.
  - set_solver.
  - intros x Hx. rewrite B6, A6; [done| |done]. intros t Ht. apply Hx. set_solver.
  - auto.
  - by etrans.
  - intros t i Ht Hv Hi Hn.
    assert (forall k, L !! k = Some t -> L1 !! (i :: k) = L !! (i :: k)) as Hn1.
    { intros k Hk. specialize (Hn k Hk). destruct (L !! (i :: k)) as [x|] eqn:E.
      - by apply (lookup_weaken _ _ _ _ E).
      - by apply (lookup_weaken_None _ _ _ Hn). }
    rewrite B9, A9; auto. intros k Hk. apply A7 in Hk; [|done]. by rewrite Hn1, Hn.
Qed.

Lemma ensure_table_spec s L k t e shift va attr n c : tables_ok s L -> L !! k = Some t ->
  (length k < 2)%nat -> table_of e = t -> 0 <= shift -> slot lo hi k (index shift va) ->
  attr = 3 \/ attr = 7 -> capacity s.(vheap) (S n) c ->
  exists s' L' t', ensure_table attr (entry e shift va) s = Some s' /\ tables_ok s' L' /\
    L' !! (index shift va :: k) = Some t' /\ table_of (s'.(words) (entry e shift va)) = t' /\
    grown s L s' L' /\ capacity s'.(vheap) n c /\ L' = <[index shift va :: k := t']> L /\
    (L !! (index shift va :: k) = None -> t' ∉ live s.(vheap) /\
      tables s'.(vheap) = {[ t' ]} ∪ tables s.(vheap) /\ live s'.(vheap) = {[ t' ]} ∪ live s.(vheap)).
Proof using Type.
  intros K Hk Hlen He Hsh Hi Ha Hr. destruct (pk_table _ _ _ _ _ _ K _ _ Hk) as [Ht HtT].
  pose proof (pk_link _ _ _ _ _ _ K _ _ _ Hk Hlen Hi) as Hlink.
  unfold ensure_table. rewrite entry_slot; [|done|by rewrite He]. rewrite He.
  set (i := index shift va) in *. destruct (L !! (i :: k)) as [t'|] eqn:Hik.
  - destruct (pk_table _ _ _ _ _ _ K _ _ Hik) as [Ht' _].
    destruct (leads_to_table _ _ Ht' Hlink) as (E & _ & Hne). rewrite (proj2 (Z.eqb_neq _ _) Hne).
    exists s, L, t'. split_and!; try done; solve [apply grown_refl|by apply capacity_object|by rewrite insert_id|by rewrite Hik].
  - rewrite Hlink, Z.eqb_refl. unfold add_table, new_table.
    destruct (alloc_capacity PAGE_4K_SIZE _ _ _ ltac:(done) Hr) as (v & h & Ev & Hv0 & Hrn). rewrite Ev. cbn [mbind option_bind].
    unfold guard_fault. rewrite (proj2 (Z.eqb_neq _ _) Hv0). cbn [negb mbind option_bind].
    destruct (alloc_table _ _ _ Ev Hv0) as [Hv HT]. pose proof (alloc_frames _ _ _ _ Ev) as Hf.
    assert (v ∉ tables s.(vheap)) as HvT.
    { destruct (alloc_live _ _ _ _ Ev) as [[? _]|(_ & Hlv & _)]; [done|]. intros Hx. by apply Hlv, tables_live. }
    eexists _, (<[i :: k := v]> L), v. split; [done|]. cbn [words vheap mms cmm set_words set_vheap].
    rewrite HT. change (store _ _ _) with (grow t i v attr s.(words)).
    split_and!; [by eapply grow_ok|by rewrite lookup_insert_eq| | |done|done|].
    + rewrite grow_slot. by apply leads_to_table, leads_to_mk.
    + constructor; cbn [words vheap mms cmm set_words set_vheap]; try done.
      * intros. by eapply grow_leaf.
      * rewrite HT. set_solver.
      * rewrite HT. intros x Hx. unfold grow. rewrite store_ne, memset0_out; [done| |].
        -- apply Hx. set_solver.
        -- intros ->. apply (Hx t); [set_solver|]. pose proof (pk_range _ _ _ _ _ _ K) as [R1 R2].
           apply (slot_range _ _ _ _ R1 R2) in Hi. lia.
      * intros k' t' Hk' Ht'. apply lookup_insert_Some in Hk' as [[_ <-]|[_ ?]]; done.
      * by apply insert_subseteq.
      * intros t' j Ht' Hv' Hj Hn. apply (grow_far _ (tables s.(vheap)) root lo hi L k); try done.
        intros -> ->. apply Hn in Hk. by rewrite lookup_insert_eq, Hik in Hk.
    + intros _. by destruct (alloc_live _ _ _ _ Ev) as [[? _]|(_ & ? & ?)].
Qed.

(** The two levels of tables above a page entry. *)
Lemma two_levels s L va a1 a2 n c : tables_ok s L -> slot lo hi [] (index PAGE_GDT_SHIFT va) ->
  a1 = 3 \/ a1 = 7 -> a2 = 3 \/ a2 = 7 -> capacity s.(vheap) (S (S n)) c ->
  exists s1 s2 L' t, let tmp := entry gdt PAGE_GDT_SHIFT va in
    let tmp2 := entry (s1.(words) tmp) PAGE_1G_SHIFT va in
    ensure_table a1 tmp s = Some s1 /\ ensure_table a2 tmp2 s1 = Some s2 /\
    L' !! [index PAGE_1G_SHIFT va; index PAGE_GDT_SHIFT va] = Some t /\
    entry (s2.(words) tmp2) PAGE_2M_SHIFT va = t + 8 * index PAGE_2M_SHIFT va /\
    tables_ok s2 L' /\ grown s L s2 L' /\ capacity s2.(vheap) n c.
Proof using Type.
  intros K Hi A1 A2 Hr.
  destruct (ensure_table_spec s L [] root gdt PAGE_GDT_SHIFT va a1 (S n) c)
    as (s1 & L1 & t1 & E1 & K1 & Ht1 & Et1 & G1 & R1 & _); try done; [apply K|cbn; lia|].
  destruct (ensure_table_spec s1 L1 [index PAGE_GDT_SHIFT va] t1
    (s1.(words) (entry gdt PAGE_GDT_SHIFT va)) PAGE_1G_SHIFT va a2 n c K1 Ht1)
    as (s2 & L2 & t2 & E2 & K2 & Ht2 & Et2 & G2 & R2 & _); try done; [cbn; lia|apply index_range|].
  exists s1, s2, L2, t2. split_and!; try done; [|by eapply grown_trans].
  rewrite entry_slot; [by rewrite Et2|done|]. rewrite Et2. by apply (pk_table _ _ _ _ _ _ K2 _ _ Ht2).
Qed.

(** The processor finds the entry. *)
Lemma walk_leaf w T L va : pt_ok w T root lo hi L -> slot lo hi [] (index PAGE_GDT_SHIFT va) ->
  walk w gdt va = leaf_at w L va.
Proof using Type.
  intros K Hi. unfold walk, leaf_at, leaf.
  pose proof (pk_table _ _ _ _ _ _ K _ _ (pk_root _ _ _ _ _ _ K)) as [Hroot _].
  rewrite (entry_slot gdt) by done. fold root.
  pose proof (pk_link _ _ _ _ _ _ K [] root _ (pk_root _ _ _ _ _ _ K) ltac:(cbn; lia) Hi) as L1.
  destruct (L !! [index PAGE_GDT_SHIFT va]) as [t1|] eqn:E1.
  - destruct (pk_table _ _ _ _ _ _ K _ _ E1) as [V1 _].
    destruct (leads_to_table _ _ V1 L1) as (Et1 & -> & _).
    rewrite entry_slot, Et1 by (done || by rewrite Et1).
    pose proof (pk_link _ _ _ _ _ _ K [_] t1 _ E1 ltac:(cbn; lia) (index_range PAGE_1G_SHIFT va)) as L2.
    destruct (L !! [_; _]) as [t2|] eqn:E2; [|by rewrite L2].
    destruct (pk_table _ _ _ _ _ _ K _ _ E2) as [V2 _].
    destruct (leads_to_table _ _ V2 L2) as (Et2 & -> & _).
    by rewrite entry_slot, Et2 by (done || by rewrite Et2).
  - rewrite L1. destruct (L !! [_; _]) as [t2|] eqn:E2; [|done].
    apply (pk_path _ _ _ _ _ _ K) in E2 as ([t1 E2] & _). congruence.
Qed.

(** Setting the entry of a page. *)
Lemma set_leaf w T L (i4 i3 i2 t e : Z) : pt_ok w T root lo hi L -> L !! [i3; i4] = Some t -> 0 <= i2 < 512 ->
  pt_ok (store (t + 8 * i2) e w) T root lo hi L /\
  (forall j4 j3 j2, 0 <= j2 < 512 -> leaf (store (t + 8 * i2) e w) L j4 j3 j2 =
    if decide ((j4, j3, j2) = (i4, i3, i2)) then e else leaf w L j4 j3 j2).
Proof using Type.
  intros K Ht Hi. pose proof (pk_range _ _ _ _ _ _ K) as [R1 R2].
  destruct (pk_table _ _ _ _ _ _ K _ _ Ht) as [Hv _]. split.
  - apply (pt_ok_frame w _ T); [done|done|]. intros k t' i Hk Hl Hs. apply store_ne.
    destruct (pk_table _ _ _ _ _ _ K _ _ Hk) as [Hv' _]. intros E.
    apply slots_apart in E as [-> _]; try done; [|by eapply slot_range].
    rewrite (pk_inj _ _ _ _ _ _ K _ _ _ Hk Ht) in Hl. cbn in Hl. lia.
  - intros j4 j3 j2 Hj. unfold leaf. destruct (decide _) as [[= -> -> ->]|Hne];
      [by rewrite Ht, store_eq|].
    destruct (L !! [j3; j4]) as [t'|] eqn:Et'; [|done]. apply store_ne. intros E.
    destruct (pk_table _ _ _ _ _ _ K _ _ Et') as [Hv' _].
    apply slots_apart in E as [-> ->]; try done.
    pose proof (pk_inj _ _ _ _ _ _ K _ _ _ Et' Ht). congruence.
Qed.
End Tables.

(** ** The address space of a process *)

Definition user (va : Z) : Prop := 0 <= va < 2 ^ 47.

Section User.
Context {M : Type} `{HF : Frames M} `{HL : !AllocatorLaws M} `{HP : !PagingLaws M}.
Implicit Type s : vm M.
Implicit Type L : gmap (list Z) Z.

Record user_ok s (mm : mm_struct) L : Prop := {
  uo_mm : s.(mms) !! s.(cmm) = Some mm;
  uo_tables : pt_ok s.(words) (tables s.(vheap)) (table_of mm.(pgd)) 0 256 L;
  uo_pages va : user va -> walk s.(words) mm.(pgd) va = 0 \/
    exists f, f ∈ frames s.(vheap) /\ walk s.(words) mm.(pgd) va = f + PAGE_USER_Page;
  uo_inj va va' : user va -> user va' -> walk s.(words) mm.(pgd) va <> 0 ->
    walk s.(words) mm.(pgd) va = walk s.(words) mm.(pgd) va' -> va / 2 ^ 21 = va' / 2 ^ 21
}.

(** From [s] to [s'] the pages whose number is in [ps] have been mapped. *)
Record mapped (mm : mm_struct) s s' (ps : list Z) : Prop := {
  md_keep va : user va -> walk s.(words) mm.(pgd) va <> 0 \/ va / 2 ^ 21 ∉ ps ->
    walk s'.(words) mm.(pgd) va = walk s.(words) mm.(pgd) va;
  md_new va : user va -> va / 2 ^ 21 ∈ ps -> exists f, f ∈ frames s'.(vheap) /\
    walk s'.(words) mm.(pgd) va = f + PAGE_USER_Page /\
    (walk s.(words) mm.(pgd) va = 0 -> f ∉ frames s.(vheap));
  md_frames : frames s.(vheap) ⊆ frames s'.(vheap);
  md_tables : tables s.(vheap) ⊆ tables s'.(vheap);
  md_mms : s'.(mms) = s.(mms) /\ s'.(cmm) = s.(cmm);
  md_out x : (forall t, t ∈ tables s'.(vheap) -> ~ t <= x < t + 2 ^ 12) -> s'.(words) x = s.(words) x
}.

Lemma same_page va va' : user va -> user va' ->
  (index PAGE_GDT_SHIFT va, index PAGE_1G_SHIFT va, index PAGE_2M_SHIFT va) =
  (index PAGE_GDT_SHIFT va', index PAGE_1G_SHIFT va', index PAGE_2M_SHIFT va') <->
  va / 2 ^ 21 = va' / 2 ^ 21.
Proof using Type.
  unfold user, index, PAGE_GDT_SHIFT, PAGE_1G_SHIFT, PAGE_2M_SHIFT. intros Hu Hu'.
  change (2 ^ 39) with (2 ^ 21 * 2 ^ 18). change (2 ^ 30) with (2 ^ 21 * 2 ^ 9).
  rewrite <- !Z.div_div by lia.
  assert (0 <= va / 2 ^ 21 < 2 ^ 26) as B by (split; [apply Z.div_pos|apply Z.div_lt_upper_bound]; lia).
  assert (0 <= va' / 2 ^ 21 < 2 ^ 26) as B' by (split; [apply Z.div_pos|apply Z.div_lt_upper_bound]; lia).
  generalize dependent (va / 2 ^ 21). generalize dependent (va' / 2 ^ 21). intros q Hq p Hp.
  split; [|by intros ->]. intros [= E4 E3 E2].
  pose proof (Z.div_mod p 512). pose proof (Z.div_mod q 512).
  pose proof (Z.div_mod (p / 512) 512). pose proof (Z.div_mod (q / 512) 512).
  change (2 ^ 18) with (512 * 512) in E4. rewrite <- !Z.div_div in E4 by lia.
  change (2 ^ 9) with 512 in E3.
  rewrite (Z.mod_small (p / 512 / 512)), (Z.mod_small (q / 512 / 512)) in E4;
    [lia|split; [repeat apply Z.div_pos; lia|repeat (apply Z.div_lt_upper_bound; [lia|]); lia]..].
Qed.

Lemma user_slot va : user va -> slot 0 256 [] (index PAGE_GDT_SHIFT va).
Proof using Type.
  unfold user, index, PAGE_GDT_SHIFT. intros Hu. cbn.
  rewrite Z.mod_small by (split; [apply Z.div_pos|apply Z.div_lt_upper_bound]; lia).
  split; [apply Z.div_pos|apply Z.div_lt_upper_bound]; lia.
Qed.

(** A root without entries. *)
Lemma empty_tables w T root lo hi : valid_table root -> root ∈ T -> 0 <= lo -> hi <= 512 ->
  (forall i, lo <= i < hi -> w (root + 8 * i) = 0) -> pt_ok w T root lo hi {[ [] := root ]}.
Proof using Type.
  intros Hr HT Hlo Hhi Hw. constructor.
  - apply lookup_singleton_eq.
  - done.
  - intros k t Hk. by apply lookup_singleton_Some in Hk as [<- <-].
  - intros k k' t Hk Hk'. apply lookup_singleton_Some in Hk as [<- _].
    by apply lookup_singleton_Some in Hk' as [<- _].
  - intros i k t Hk. by apply lookup_singleton_Some in Hk as [? _].
  - intros k t i Hk _ Hi. apply lookup_singleton_Some in Hk as [<- <-].
    rewrite lookup_singleton_ne by done. by apply Hw.
Qed.

Lemma empty_user s mm : s.(mms) !! s.(cmm) = Some mm -> valid_table (table_of mm.(pgd)) ->
  table_of mm.(pgd) ∈ tables s.(vheap) ->
  (forall i, 0 <= i < 256 -> s.(words) (table_of mm.(pgd) + 8 * i) = 0) ->
  user_ok s mm {[ [] := table_of mm.(pgd) ]} /\ forall va, user va -> walk s.(words) mm.(pgd) va = 0.
Proof using Type.
  intros Hmm Hv HT Hw.
  assert (pt_ok s.(words) (tables s.(vheap)) (table_of mm.(pgd)) 0 256 {[ [] := table_of mm.(pgd) ]}) as K
    by (by apply empty_tables).
  assert (forall va, user va -> walk s.(words) mm.(pgd) va = 0) as H0.
  { intros va Hva. apply user_slot in Hva. erewrite walk_leaf by done. unfold leaf_at, leaf.
    by rewrite lookup_singleton_ne. }
  split; [|done]. constructor; try done.
  - intros va Hva. left. by apply H0.
  - intros va va' Hva _ Hne. by rewrite H0 in Hne.
Qed.

(** Making tables maps nothing. *)
Lemma grown_user s L s' L' mm : user_ok s mm L -> grown s L s' L' ->
  pt_ok s'.(words) (tables s'.(vheap)) (table_of mm.(pgd)) 0 256 L' ->
  user_ok s' mm L' /\ mapped mm s s' [].
Proof using Type.
  intros [U1 U2 U3 U4] [G1 [G2 G2'] G3 G4 G5 G6] K'.
  assert (forall va, user va -> walk s'.(words) mm.(pgd) va = walk s.(words) mm.(pgd) va) as Hw.
  { intros va Hva. apply user_slot in Hva. erewrite !walk_leaf by done. apply G1, index_range. }
  split; constructor; try done.
  - by rewrite G2, G2'.
  - intros va Hva. rewrite Hw, G3 by done. by apply U3.
  - intros va va' Hva Hva'. rewrite !Hw by done. by apply U4.
  - intros va Hva _. by apply Hw.
  - intros va Hva Hin. by apply not_elem_of_nil in Hin.
  - by rewrite G3.
Qed.

Lemma mapped_refl mm s : mapped mm s s [].
Proof using Type.
  constructor; try done. intros va Hva Hin. by apply not_elem_of_nil in Hin.
Qed.

(** A mapped page is not the page 0. *)
Lemma frame_entry s f : f ∈ frames s.(vheap) -> f + PAGE_USER_Page <> 0.
Proof using Type. intros Hf. apply frame_valid in Hf as [? _]. change PAGE_USER_Page with 0x87. lia. Qed.

Lemma mapped_trans mm s s1 s2 ps qs : mapped mm s s1 ps -> mapped mm s1 s2 qs ->
  mapped mm s s2 (ps ++ qs).
Proof using Type.
  intros [A1 A2 A3 A4 [A5 A5'] A6] [B1 B2 B3 B4 [B5 B5'] B6]. constructor.
  - intros va Hva Hc. rewrite elem_of_app in Hc.
    assert (walk s1.(words) mm.(pgd) va = walk s.(words) mm.(pgd) va) as E by (apply A1; tauto).
    rewrite B1; [done|done|]. rewrite E. tauto.
  - intros va Hva Hc. apply elem_of_app in Hc. destruct (decide (va / 2 ^ 21 ∈ ps)) as [Hp|Hp].
    + destruct (A2 va Hva Hp) as (f & Hf & Ef & Hn). exists f.
      rewrite B1; [|done|left; rewrite Ef; by apply (frame_entry s1)]. by split; [apply B3|].
    + destruct Hc as [?|Hq]; [done|]. destruct (B2 va Hva Hq) as (f & Hf & Ef & Hn).
      exists f. split_and!; [done..|]. intros E Hx. apply Hn; [|by apply A3]. rewrite A1; tauto.
  - by etrans.
  - by etrans.
  - split; congruence.
  - intros x Hx. rewrite B6, A6; [done| |done]. intros t Ht. by apply Hx, B4.
Qed.

Lemma walk_same_page w T gdt L va va' : pt_ok w T (table_of gdt) 0 256 L -> user va -> user va' ->
  va / 2 ^ 21 = va' / 2 ^ 21 -> walk w gdt va = walk w gdt va'.
Proof using Type.
  intros K Hva Hva' E. erewrite !walk_leaf by (done || by apply user_slot). unfold leaf_at.
  by apply same_page in E as [= -> -> ->].
Qed.

(** A page that was there counts as mapped. *)
Lemma mapped_there s s' L mm va : user_ok s' mm L -> mapped mm s s' [] -> user va ->
  walk s'.(words) mm.(pgd) va <> 0 -> mapped mm s s' [va / 2 ^ 21].
Proof using Type.
  intros U D Hva Hw. pose proof D as [D1 D2 D3 D4 D5 D6].
  assert (forall va', user va' -> walk s'.(words) mm.(pgd) va' = walk s.(words) mm.(pgd) va') as Hkeep.
  { intros va' Hva'. apply D1; [done|right]. apply not_elem_of_nil. }
  constructor; try done; intros va' Hva' Hin; [by apply Hkeep|].
  apply list_elem_of_singleton in Hin.
  rewrite (walk_same_page _ _ _ L va va' (uo_tables _ _ _ U)) in Hw by done.
  destruct (uo_pages _ _ _ U va' Hva') as [?|(f & Hf & E)]; [done|]. exists f. split_and!; try done.
  rewrite <- Hkeep by done. by intros ?.
Qed.

(** The heap may change elsewhere. *)
Lemma user_heap s L mm h : user_ok s mm L -> tables h = tables s.(vheap) ->
  frames h = frames s.(vheap) -> user_ok (set_vheap h s) mm L /\ mapped mm s (set_vheap h s) [].
Proof using Type.
  intros [U1 U2 U3 U4] HT HF'. split; constructor; change (vheap (set_vheap h s)) with h;
    rewrite ?HT, ?HF'; try done.
  intros va Hva Hin. by apply not_elem_of_nil in Hin.
Qed.

(** The entry of one page is set. *)
Lemma map_page s L mm va t f h : user_ok s mm L -> user va -> walk s.(words) mm.(pgd) va = 0 ->
  L !! [index PAGE_1G_SHIFT va; index PAGE_GDT_SHIFT va] = Some t ->
  take_frame s.(vheap) = Some (Some f, h) ->
  let s' := set_words (store (t + 8 * index PAGE_2M_SHIFT va) (mk_pdt f PAGE_USER_Page) s.(words))
              (set_vheap h s) in
  user_ok s' mm L /\ mapped mm s s' [va / 2 ^ 21].
Proof using Type.
  intros [U1 U2 U3 U4] Hva Hw Ht Hf s'. destruct (take_frame_spec _ _ _ Hf) as (HT & _ & Hfn & Hfs).
  assert (mk_pdt f PAGE_USER_Page = f + PAGE_USER_Page) as He.
  { destruct (frame_valid h f) as (? & ? & ?); [rewrite Hfs; set_solver|].
    unfold mk_pdt. change PAGE_USER_Page with 0x87. apply (lor_low _ _ 21); lia. }
  destruct (set_leaf mm.(pgd) 0 256 s.(words) _ L _ _ (index PAGE_2M_SHIFT va) t (f + PAGE_USER_Page)
    U2 Ht (index_range _ _)) as [K Hleaf].
  assert (forall va', user va' -> walk s'.(words) mm.(pgd) va' =
    if decide (va' / 2 ^ 21 = va / 2 ^ 21) then f + PAGE_USER_Page else walk s.(words) mm.(pgd) va') as Hw'.
  { intros va' Hva'. pose proof (user_slot _ Hva') as Hs. subst s'. cbn [words set_words]. rewrite He.
    erewrite !walk_leaf by done. unfold leaf_at. rewrite Hleaf by apply index_range.
    destruct (decide (_ = (_, _, _))) as [E|E], (decide (va' / _ = _)) as [E'|E']; try done;
      by rewrite <- same_page in E'. }
  assert (f + PAGE_USER_Page <> 0) as Hne.
  { destruct (frame_valid h f) as (? & _); [rewrite Hfs; set_solver|]. change PAGE_USER_Page with 0x87. lia. }
  assert (forall va', user va' -> walk s.(words) mm.(pgd) va' <> f + PAGE_USER_Page) as Hnew.
  { intros va' Hva' E. destruct (U3 va' Hva') as [E'|(f' & Hf' & E')]; [congruence|].
    assert (f' = f) by lia. congruence. }
  split; constructor; change (vheap s') with h; try done.
  - rewrite HT. subst s'; cbn [words set_words]. by rewrite He.
  - intros va' Hva'. rewrite Hw' by done. destruct (decide _); [right; exists f; set_solver|].
    destruct (U3 va' Hva') as [?|(f' & ? & ?)]; [by left|right; exists f'; set_solver].
  - intros va1 va2 H1 H2. rewrite !Hw' by done.
    destruct (decide _) as [E1|E1], (decide _) as [E2|E2]; intros Hn E;
      [congruence|by apply eq_sym, Hnew in E|by apply Hnew in E|by apply U4].
  - intros va' Hva' Hc. rewrite Hw' by done. destruct (decide _) as [E|]; [|done].
    rewrite E, list_elem_of_singleton in Hc. destruct Hc as [Hc|?]; [|done]. exfalso. apply Hc.
    rewrite <- Hw. by apply (walk_same_page _ _ _ L va' va U2).
  - intros va' Hva' Hin. apply list_elem_of_singleton in Hin. exists f.
    rewrite Hw', decide_True by done. set_solver.
  - rewrite Hfs. set_solver.
  - by rewrite HT.
  - intros x Hx. subst s'; cbn [words set_words]. apply store_ne. intros ->.
    destruct (pk_table _ _ _ _ _ _ U2 _ _ Ht) as [_ HtT]. apply (Hx t); [by rewrite HT|].
    pose proof (index_range PAGE_2M_SHIFT va). lia.
Qed.

(** One round of the loop of [do_brk]. *)
Lemma brk_page_spec s L mm va n c : user_ok s mm L -> user va -> capacity s.(vheap) (S (S n)) c ->
  exists ok s' L', brk_page va s = Some (ok, s') /\ user_ok s' mm L' /\
    mapped mm s s' (if ok then [va / 2 ^ 21] else []) /\
    (forall k, c = S k -> ok = true /\ capacity s'.(vheap) n k).
Proof using Type.
  intros U Hva Hr. pose proof (user_slot _ Hva) as Hs.
  destruct (two_levels mm.(pgd) 0 256 s L va PAGE_USER_GDT PAGE_USER_Dir n c)
    as (s1 & s2 & L2 & t & E1 & E2 & Ht & Et & K2 & G & R); try done; [apply U|by right..|].
  destruct (grown_user _ _ _ _ _ U G K2) as [U2 D2].
  unfold brk_page. rewrite (uo_mm _ _ _ U). cbn [mbind option_bind]. rewrite E1. cbn [mbind option_bind].
  rewrite E2. cbn [mbind option_bind]. rewrite Et.
  assert (walk s2.(words) mm.(pgd) va = s2.(words) (t + 8 * index PAGE_2M_SHIFT va)) as Ew.
  { erewrite walk_leaf by done. unfold leaf_at, leaf. by rewrite Ht. }
  rewrite <- Ew. destruct (Z.eqb_spec (walk s2.(words) mm.(pgd) va) 0) as [Hz|Hz].
  - destruct (take_frame_total s2.(vheap)) as [[p h] Ef].
    destruct (take_frame_spec _ _ _ Ef) as (HT & _ & Hp). rewrite Ef. cbn [mbind option_bind].
    assert (forall k, c = S k -> (p <> None) /\ capacity h n k) as Hfr.
    { intros k ->. destruct (take_frame_capacity _ _ _ R) as (f & h' & E & Hk').
      rewrite E in Ef. by injection Ef as <- <-. }
    destruct p as [f|].
    + destruct (map_page s2 L2 mm va t f h U2 Hva Hz Ht Ef) as [U3 D3].
      eexists true, _, L2. split; [done|]. split_and!; [done| |].
      * apply (mapped_trans _ _ _ _ _ _ D2 D3).
      * intros k Hk. by apply Hfr in Hk as [_ ?].
    + destruct (user_heap s2 L2 mm h U2 HT Hp) as [U3 D3].
      eexists false, _, L2. split; [done|]. split_and!; [done| |].
      * apply (mapped_trans _ _ _ _ _ _ D2 D3).
      * intros k Hk. by apply Hfr in Hk as [[] _].
  - exists true, s2, L2. split_and!; try done; [by apply (mapped_there s s2 L2)|].
    intros k ->. split; [done|]. by apply capacity_frame.
Qed.

(** The loop of [do_brk] over [n] pages. *)
Lemma brk_loop_spec mm limit n : forall fuel i s L, user_ok s mm L -> (n < fuel)%nat -> 0 <= i ->
  i + 2 ^ 21 * Z.of_nat n <= 2 ^ 47 -> limit <= i + 2 ^ 21 * Z.of_nat n ->
  (n <> 0%nat -> i + 2 ^ 21 * (Z.of_nat n - 1) < limit) ->
  capacity s.(vheap) (2 * n) n ->
  exists s' L', brk_loop fuel i limit s = Some (Some (i + 2 ^ 21 * Z.of_nat n), s') /\
    user_ok s' mm L' /\
    mapped mm s s' (range (i / 2 ^ 21) (i / 2 ^ 21 + Z.of_nat n)).
Proof using Type.
  induction n as [|n IH]; intros [|fuel] i s L U Hfuel Hi Hb Hlim Hlim' Hr; try lia; cbn [brk_loop].
  - rewrite (proj2 (Z.ltb_ge _ _)) by lia. exists s, L. rewrite range_nil by lia.
    replace (i + 2 ^ 21 * Z.of_nat 0) with i by lia. split_and!; try done. apply mapped_refl.
  - assert (i < limit) as Hlt by lia. rewrite (proj2 (Z.ltb_lt _ _) Hlt).
    destruct (brk_page_spec s L mm i (2 * n) (S n) U) as (ok & s1 & L1 & E1 & U1 & D1 & F1);
      [unfold user; lia|by replace (S (S (2 * n))) with (2 * S n)%nat by lia|].
    destruct (F1 n eq_refl) as [-> Hr1]. rewrite E1. cbn [mbind option_bind].
    change PAGE_2M_SIZE with (2 ^ 21). rewrite u64_small by lia.
    destruct (IH fuel (i + 2 ^ 21) s1 L1) as (s' & L' & E & U' & D'); try done; try lia.
    exists s', L'. rewrite E. split_and!; try done; [do 3 f_equal; lia|].
    rewrite range_cons by lia. change (i / 2 ^ 21 :: ?l) with ([i / 2 ^ 21] ++ l).
    apply (mapped_trans _ _ s1); [done|].
    replace ((i + 2 ^ 21) / 2 ^ 21) with (i / 2 ^ 21 + 1) in D' by (rewrite <- Z.div_add by lia; f_equal; lia).
    by replace (i / 2 ^ 21 + Z.of_nat (S n)) with (i / 2 ^ 21 + 1 + Z.of_nat n) by lia.
Qed.

Lemma put_end_brk_ok s mm L b : user_ok s mm L -> exists s', put_end_brk b s = Some s' /\
  user_ok s' (set_end_brk b mm) L /\ s'.(words) = s.(words) /\ s'.(vheap) = s.(vheap) /\ s'.(cmm) = s.(cmm) /\
  s'.(mms) = <[s.(cmm) := set_end_brk b mm]> s.(mms).
Proof using Type.
  intros [U1 U2 U3 U4]. unfold put_end_brk. rewrite U1. eexists. split; [done|].
  split; [|done]. constructor; try done. apply lookup_insert_eq.
Qed.

Lemma translate_frame w gdt va f attr : valid_frame f -> attr = PAGE_USER_Page \/ attr = PAGE_KERNEL_Page ->
  walk w gdt va = f + attr -> translate w gdt va = Some (f + va mod 2 ^ 21).
Proof using Type.
  intros (F1 & F2 & F3) Ha E. unfold translate. rewrite E.
  assert (attr = 135 \/ attr = 131) as Ha' by done. clear Ha E.
  assert (f = 2 ^ 21 * (f / 2 ^ 21)) as Hf by (pose proof (Z.div_mod f (2 ^ 21)); lia).
  assert (present (f + attr) = true) as ->.
  { unfold present. change PAGE_Present with (Z.ones 1). rewrite Z.land_ones, Hf by lia.
    replace (2 ^ 21 * (f / 2 ^ 21) + attr) with (attr + (2 ^ 20 * (f / 2 ^ 21)) * 2 ^ 1) by lia.
    rewrite Z_mod_plus_full. by destruct Ha' as [-> | ->]. }
  replace (f + attr) with (attr + f / 2 ^ 21 * 2 ^ 21) by lia.
  rewrite Z_div_plus_full, Z.div_small by lia. do 2 f_equal. lia.
Qed.

(** Growing the heap of a process: all of it is mapped afterwards, page by page, what was mapped
    keeps its pages, and the new pages were free. *)
Lemma do_brk_spec s mm L fuel addr n : user_ok s mm L -> 0 <= addr -> addr mod 2 ^ 21 = 0 ->
  addr + 2 ^ 21 * Z.of_nat n <= 2 ^ 47 -> (n < fuel)%nat ->
  capacity s.(vheap) (2 * n) n -> let new := addr + 2 ^ 21 * Z.of_nat n in
  exists s1 s' L', do_brk fuel addr (2 ^ 21 * Z.of_nat n) s = Some (new, s') /\
    user_ok s' (set_end_brk new mm) L' /\
    mapped mm s s1 (range (addr / 2 ^ 21) (new / 2 ^ 21)) /\
    s'.(words) = s1.(words) /\ s'.(vheap) = s1.(vheap) /\ s'.(cmm) = s.(cmm) /\
    s'.(mms) = <[s.(cmm) := set_end_brk new mm]> s.(mms).
Proof using Type.
  intros U Ha Hm Hb Hfuel Hr new. unfold do_brk. rewrite (u64_small (addr + _)) by lia.
  destruct (brk_loop_spec mm new n fuel addr s L) as (s1 & L1 & E1 & U1 & D1); try done; [lia..|].
  destruct (put_end_brk_ok s1 mm L1 new U1) as (s' & E' & U' & Ew & Eh & Ec & Em).
  destruct (md_mms _ _ _ _ D1) as [Emm Ecm].
  exists s1, s', L1. fold new. rewrite E1. cbn [mbind option_bind]. fold new; rewrite E'.
  split_and!; try done; [|congruence..].
  unfold new. rewrite (Z.mul_comm (2 ^ 21)), Z.div_add by lia. done.
Qed.

Lemma page_between va a b n : a mod 2 ^ 21 = 0 -> b = a + 2 ^ 21 * n ->
  va / 2 ^ 21 ∈ range (a / 2 ^ 21) (b / 2 ^ 21) <-> a <= va < b.
Proof using Type.
  intros Ha ->. rewrite (Z.mul_comm (2 ^ 21)), Z.div_add by lia.
  unfold range; rewrite elem_of_seqZ. pose proof (Z.div_mod a (2 ^ 21) ltac:(lia)).
  pose proof (Z.div_mod va (2 ^ 21) ltac:(lia)). pose proof (Z.mod_pos_bound va (2 ^ 21) ltac:(lia)). lia.
Qed.

(** [sys_brk] that grows the heap: what is mapped, with the record [mapped] of [do_brk]. *)
Lemma sys_brk_grows s mm L fuel brk : user_ok s mm L -> 0 < brk -> brk + 2 ^ 21 <= 2 ^ 47 ->
  0 <= mm.(end_brk) -> mm.(end_brk) mod 2 ^ 21 = 0 ->
  let new := 2 ^ 21 * ((brk + 2 ^ 21 - 1) / 2 ^ 21) in
  let n := Z.to_nat ((new - mm.(end_brk)) / 2 ^ 21) in
  mm.(end_brk) <= new -> (n < fuel)%nat -> capacity s.(vheap) (2 * n) n ->
  exists s1 s' L', sys_brk fuel brk s = Some (new, s') /\ user_ok s' (set_end_brk new mm) L' /\
    mapped mm s s1 (range (mm.(end_brk) / 2 ^ 21) (new / 2 ^ 21)) /\ s'.(words) = s1.(words) /\ s'.(vheap) = s1.(vheap) /\
    new = mm.(end_brk) + 2 ^ 21 * Z.of_nat n.
Proof using Type.
  intros U Hpos Hb' He Hem new n Hge Hfuel Hr.
  assert (PAGE_2M_ALIGN brk = new) as Hal by (apply PAGE_2M_ALIGN_spec; lia).
  pose proof (Z.div_mod (brk + 2 ^ 21 - 1) (2 ^ 21) ltac:(lia)).
  pose proof (Z.mod_pos_bound (brk + 2 ^ 21 - 1) (2 ^ 21) ltac:(lia)).
  unfold sys_brk. rewrite Hal, (uo_mm _ _ _ U). cbn [mbind option_bind].
  rewrite (proj2 (Z.eqb_neq _ _)), (proj2 (Z.ltb_ge _ _)) by lia.
  assert (new = mm.(end_brk) + 2 ^ 21 * Z.of_nat n) as Hnew.
  { subst n. pose proof (Z.div_mod mm.(end_brk) (2 ^ 21) ltac:(lia)).
    assert (new - mm.(end_brk) = ((brk + 2 ^ 21 - 1) / 2 ^ 21 - mm.(end_brk) / 2 ^ 21) * 2 ^ 21) as E by lia.
    rewrite E, Z.div_mul by lia. lia. }
  rewrite (u64_small (new - _)) by lia. replace (new - mm.(end_brk)) with (2 ^ 21 * Z.of_nat n) by lia.
  destruct (do_brk_spec s mm L fuel mm.(end_brk) n U) as (s1 & s2 & L2 & E2 & U2 & D & Ew & Eh & Ec & Em);
    try done; [lia|]. rewrite <- Hnew in *. rewrite E2. cbn [mbind option_bind].
  destruct (put_end_brk_ok s2 _ L2 new U2) as (s' & E' & U' & Ew' & Eh' & _). rewrite E'.
  exists s1, s', L2. rewrite Ew', Ew, Eh', Eh. done.
Qed.

(** C33. [sys_brk]: 0 asks for the start of the heap, shrinking is refused, and growing maps every
    page up to the new end, which is rounded up to a page: each new address translates to a page
    that was free, what was mapped before stays where it was, nothing else is mapped, and no word
    outside of the page tables changes. *)
Theorem sys_brk_spec s mm L fuel brk : user_ok s mm L -> 0 <= brk -> brk + 2 ^ 21 <= 2 ^ 47 ->
  0 <= mm.(end_brk) -> mm.(end_brk) mod 2 ^ 21 = 0 ->
  let new := 2 ^ 21 * ((brk + 2 ^ 21 - 1) / 2 ^ 21) in
  let n := Z.to_nat ((new - mm.(end_brk)) / 2 ^ 21) in
  (brk = 0 -> sys_brk fuel brk s = Some (mm.(start_brk), s)) /\
  (0 < brk -> new < mm.(end_brk) -> sys_brk fuel brk s = Some (0, s)) /\
  (0 < brk -> mm.(end_brk) <= new -> (n < fuel)%nat -> capacity s.(vheap) (2 * n) n ->
    exists s' L', sys_brk fuel brk s = Some (new, s') /\ user_ok s' (set_end_brk new mm) L' /\
      (forall va, mm.(end_brk) <= va < new -> exists f, f ∈ frames s'.(vheap) /\
        translate s'.(words) mm.(pgd) va = Some (f + va mod 2 ^ 21) /\
        (walk s.(words) mm.(pgd) va = 0 -> f ∉ frames s.(vheap))) /\
      (forall va, user va -> ~ mm.(end_brk) <= va < new \/ walk s.(words) mm.(pgd) va <> 0 ->
        walk s'.(words) mm.(pgd) va = walk s.(words) mm.(pgd) va) /\
      (forall x, (forall t, t ∈ tables s'.(vheap) -> ~ t <= x < t + 2 ^ 12) ->
        s'.(words) x = s.(words) x)).
Proof using Type.
  intros U Hb Hb' He Hem new n.
  assert (PAGE_2M_ALIGN brk = new) as Hal by (apply PAGE_2M_ALIGN_spec; lia).
  pose proof (Z.div_mod (brk + 2 ^ 21 - 1) (2 ^ 21) ltac:(lia)).
  pose proof (Z.mod_pos_bound (brk + 2 ^ 21 - 1) (2 ^ 21) ltac:(lia)). split_and!.
  - intros ->. unfold sys_brk. rewrite Hal, (uo_mm _ _ _ U). by rewrite (proj2 (Z.eqb_eq _ _)) by (subst new; reflexivity).
  - intros Hpos Hlt. unfold sys_brk. rewrite Hal, (uo_mm _ _ _ U). cbn [mbind option_bind].
    by rewrite (proj2 (Z.eqb_neq _ _)), (proj2 (Z.ltb_lt _ _)) by lia.
  - intros Hpos Hge Hfuel Hr.
    destruct (sys_brk_grows s mm L fuel brk U Hpos Hb' He Hem Hge Hfuel Hr) as (s1 & s' & L' & E & U' & D & Ew & Eh & Hnew).
    exists s', L'. fold new in E, D, Hnew. fold n in Hnew. rewrite Ew, Eh. split_and!; [done|done| | |apply D].
    + intros va Hva. destruct (md_new _ _ _ _ D va) as (f & Hf & Efw & Hfn);
        [unfold user; lia|by eapply page_between|].
      exists f. split_and!; [done|apply (translate_frame _ _ _ _ PAGE_USER_Page); [by eapply frame_valid|by left|done]|done].
    + intros va Hva Hout. apply D; [done|]. rewrite page_between; [|done..]. tauto.
Qed.
End User.

(** ** The direct map of the kernel *)

Section Kernel.
Context {M : Type} `{HF : Frames M} `{HL : !AllocatorLaws M} `{HP : !PagingLaws M}.
Implicit Type s : vm M.
Implicit Type L : gmap (list Z) Z.
Context (gdt : Z).
Notation kernel_ok s L := (pt_ok s.(words) (tables s.(vheap)) (table_of gdt) 256 512 L).

(** The indices of an address of the direct map. *)
Lemma direct_index p : 0 <= p < 2 ^ 47 -> Phy_To_Virt p = PAGE_OFFSET + p /\
  index PAGE_GDT_SHIFT (Phy_To_Virt p) = 256 + index PAGE_GDT_SHIFT p /\
  index PAGE_1G_SHIFT (Phy_To_Virt p) = index PAGE_1G_SHIFT p /\
  index PAGE_2M_SHIFT (Phy_To_Virt p) = index PAGE_2M_SHIFT p.
Proof using Type.
  intros Hp. assert (Phy_To_Virt p = PAGE_OFFSET + p) as ->.
  { unfold Phy_To_Virt, PAGE_OFFSET. rewrite u64_small; lia. }
  split; [done|]. unfold index, PAGE_GDT_SHIFT, PAGE_1G_SHIFT, PAGE_2M_SHIFT.
  pose proof (user_slot p Hp) as Hs. unfold index, PAGE_GDT_SHIFT in Hs. cbn in Hs.
  change PAGE_OFFSET with (33554176 * 2 ^ 39) at 1. rewrite Z.div_add_l by lia.
  change PAGE_OFFSET with (33554176 * 512 * 2 ^ 30) at 1. rewrite Z.div_add_l by lia.
  change PAGE_OFFSET with (33554176 * 512 * 512 * 2 ^ 21). rewrite Z.div_add_l by lia.
  split_and!.
  - rewrite <- Z.add_mod_idemp_r by lia. replace (33554176 + p / 2 ^ 39 mod 512)
      with (256 + p / 2 ^ 39 mod 512 + 65535 * 512) by lia.
    rewrite Z_mod_plus_full. apply Z.mod_small. lia.
  - rewrite Z.add_comm. apply Z_mod_plus_full.
  - rewrite Z.add_comm. apply Z_mod_plus_full.
Qed.

Lemma direct_slot p : 0 <= p < 2 ^ 47 -> slot 256 512 [] (index PAGE_GDT_SHIFT (Phy_To_Virt p)).
Proof using Type.
  intros Hp. destruct (direct_index p Hp) as (_ & -> & _). pose proof (user_slot p Hp) as Hs.
  cbn in *. lia.
Qed.

Lemma map_phys_spec s L f n : kernel_ok s L -> valid_frame f -> capacity s.(vheap) (S (S n)) 0 ->
  exists s' L', map_phys gdt f s = Some s' /\ kernel_ok s' L' /\ capacity s'.(vheap) n 0 /\
    (forall p, 0 <= p < 2 ^ 47 -> walk s'.(words) gdt (Phy_To_Virt p) =
      if decide (p / 2 ^ 21 = f / 2 ^ 21) then f + PAGE_KERNEL_Page
      else walk s.(words) gdt (Phy_To_Virt p)) /\
    tables s.(vheap) ⊆ tables s'.(vheap) /\
    (forall x, (forall t, t ∈ tables s'.(vheap) -> ~ t <= x < t + 2 ^ 12) -> s'.(words) x = s.(words) x).
Proof using Type.
  intros K Hf Hr. pose proof Hf as (F1 & F2 & F3).
  destruct (two_levels gdt 256 512 s L (Phy_To_Virt f) PAGE_KERNEL_GDT PAGE_KERNEL_Dir n 0)
    as (s1 & s2 & L2 & t & E1 & E2 & Ht & Et & K2 & G & R); try done;
    [apply direct_slot; lia|by left..|].
  unfold map_phys. rewrite E1. cbn [mbind option_bind]. rewrite E2. cbn [mbind option_bind]. rewrite Et.
  assert (mk_pdt f PAGE_KERNEL_Page = f + PAGE_KERNEL_Page) as ->.
  { unfold mk_pdt. change PAGE_KERNEL_Page with 0x83. apply (lor_low _ _ 21); lia. }
  destruct (set_leaf gdt 256 512 s2.(words) _ L2 _ _ (index PAGE_2M_SHIFT (Phy_To_Virt f)) t
    (f + PAGE_KERNEL_Page) K2 Ht (index_range _ _)) as [K3 Hleaf].
  eexists _, L2. split; [done|]. cbn [words vheap set_words]. split_and!; [done|done| |apply G|].
  - intros p Hp. pose proof (direct_slot p Hp) as Hs. erewrite !walk_leaf by done. unfold leaf_at.
    rewrite Hleaf by apply index_range. destruct (direct_index p Hp) as (_ & I1 & I2 & I3).
    destruct (direct_index f ltac:(lia)) as (_ & J1 & J2 & J3).
    rewrite J1, J2, J3, I1, I2, I3. pose proof (same_page p f Hp ltac:(unfold user; lia)) as Hsame.
    destruct (decide (p / _ = _)) as [E|E].
    + apply Hsame in E as [= -> -> ->]. by rewrite decide_True.
    + rewrite decide_False; [apply G, index_range|]. intros [= H1 H2 H3]. apply E, Hsame.
      f_equal; [f_equal|]; lia.
  - intros x Hx. rewrite store_ne; [by apply G|]. intros ->.
    apply (Hx t); [apply (pk_table _ _ _ _ _ _ K2 _ _ Ht)|].
    pose proof (index_range PAGE_2M_SHIFT (Phy_To_Virt f)). lia.
Qed.

Lemma map_all_spec l : forall s L, kernel_ok s L -> Forall valid_frame l -> capacity s.(vheap) (2 * length l) 0 ->
  exists s' L', for_each (map_phys gdt) l s = Some s' /\ kernel_ok s' L' /\
    (forall p, 0 <= p < 2 ^ 47 ->
      (forall f, f ∈ l -> f / 2 ^ 21 = p / 2 ^ 21 ->
        walk s'.(words) gdt (Phy_To_Virt p) = f + PAGE_KERNEL_Page) /\
      ((forall f, f ∈ l -> f / 2 ^ 21 <> p / 2 ^ 21) ->
        walk s'.(words) gdt (Phy_To_Virt p) = walk s.(words) gdt (Phy_To_Virt p))) /\
    tables s.(vheap) ⊆ tables s'.(vheap) /\
    (forall x, (forall t, t ∈ tables s'.(vheap) -> ~ t <= x < t + 2 ^ 12) -> s'.(words) x = s.(words) x).
Proof using Type.
  induction l as [|f l IH]; intros s L K Hl Hr; cbn [for_each].
  - exists s, L. split_and!; try done. intros p Hp. split; [|done]. intros f Hf. by apply not_elem_of_nil in Hf.
  - apply Forall_cons in Hl as [Hf Hl].
    destruct (map_phys_spec s L f (2 * length l) K Hf) as (s1 & L1 & E1 & K1 & R1 & W1 & T1 & O1).
    { cbn [length] in Hr. by replace (S (S (2 * length l))) with (2 * S (length l))%nat by lia. }
    destruct (IH s1 L1 K1 Hl R1) as (s' & L' & E & K' & W & T & O).
    exists s', L'. rewrite E1. split_and!; try done.
    + intros p Hp. destruct (W p Hp) as [Wa Wb]. specialize (W1 p Hp).
      destruct (decide (Exists (fun g => g / 2 ^ 21 = p / 2 ^ 21) l)) as [Hex|Hex].
      * apply Exists_exists in Hex as (g & Hg & Eg). split.
        -- intros f' Hf' Ef'. rewrite (Wa g) by done. f_equal.
           assert (valid_frame f') as (_ & _ & M1) by (apply elem_of_cons in Hf' as [->|Hf']; [done|by eapply Forall_forall in Hl]).
           assert (valid_frame g) as (_ & _ & M2) by (by eapply Forall_forall in Hl).
           pose proof (Z.div_mod f' (2 ^ 21)). pose proof (Z.div_mod g (2 ^ 21)). lia.
        -- intros Hno. exfalso. apply (Hno g); [by apply list_elem_of_further|done].
      * assert (forall g, g ∈ l -> g / 2 ^ 21 <> p / 2 ^ 21) as Hno.
        { intros g Hg Eg. apply Hex, Exists_exists. by exists g. }
        rewrite Wb, W1 by done. split.
        -- intros f' Hf' Ef'. apply elem_of_cons in Hf' as [->|Hf']; [by rewrite decide_True|].
           by apply Hno in Ef'.
        -- intros Hno'. rewrite decide_False; [done|]. intros Ef. by apply (Hno' f); [apply list_elem_of_here|].
    + by etrans.
    + intros x Hx. rewrite O, O1; [done| |done]. intros t Ht. by apply Hx, T.
Qed.

(** [pagetable_init] builds the direct map: every byte of every page of the zones it covers
    is reached at its address plus [PAGE_OFFSET], other addresses of the direct map translate as
    before, and no word outside of the page tables changes. *)
Theorem pagetable_init_spec p s L l : mapped_phys p = Some l -> Forall valid_frame l ->
  kernel_ok s L -> capacity s.(vheap) (2 * length l) 0 ->
  exists s' L', pagetable_init gdt p s = Some s' /\ kernel_ok s' L' /\
    (forall f o, f ∈ l -> 0 <= o < 2 ^ 21 ->
      translate s'.(words) gdt (Phy_To_Virt (f + o)) = Some (f + o)) /\
    (forall q, 0 <= q < 2 ^ 47 -> (forall f, f ∈ l -> ~ f <= q < f + 2 ^ 21) ->
      walk s'.(words) gdt (Phy_To_Virt q) = walk s.(words) gdt (Phy_To_Virt q)) /\
    (forall x, (forall t, t ∈ tables s'.(vheap) -> ~ t <= x < t + 2 ^ 12) -> s'.(words) x = s.(words) x).
Proof using Type.
  intros El Hl K Hr. destruct (map_all_spec l s L K Hl Hr) as (s' & L' & E & K' & W & _ & O).
  assert (forall f, f ∈ l -> valid_frame f) as Hv by (by apply Forall_forall).
  exists s', L'. unfold pagetable_init. rewrite El. split_and!; try done.
  - intros f o Hf Ho. pose proof (Hv f Hf) as (F1 & F2 & F3). destruct (W (f + o) ltac:(lia)) as [Wa _].
    assert (f = f / 2 ^ 21 * 2 ^ 21) as Ef by (pose proof (Z.div_mod f (2 ^ 21)); lia).
    assert (f / 2 ^ 21 = (f + o) / 2 ^ 21) as Ep
      by (rewrite Ef at 2; rewrite Z.div_add_l, (Z.div_small o) by lia; lia).
    rewrite (translate_frame _ _ _ f PAGE_KERNEL_Page); [|done|by right|by apply Wa].
    f_equal. f_equal. destruct (direct_index (f + o) ltac:(lia)) as (-> & _).
    replace (PAGE_OFFSET + (f + o)) with (o + (f / 2 ^ 21 + 33554176 * 512 * 512) * 2 ^ 21)
      by (unfold PAGE_OFFSET; lia).
    rewrite Z_mod_plus_full. by apply Z.mod_small.
  - intros q Hq Hno. apply W; [done|]. intros f Hf Eq. apply (Hno f Hf).
    pose proof (Hv f Hf) as (F1 & F2 & F3).
    pose proof (Z.div_mod f (2 ^ 21)). pose proof (Z.div_mod q (2 ^ 21)).
    pose proof (Z.mod_pos_bound q (2 ^ 21)). lia.
Qed.
End Kernel.
