(* ===== verification/Mm.v ===== *)
(** * The address space of a new and of a finished process (task.c)

    [copy_mm] for [fork], [exit_mm] for a task that is waited for, and the address space that
    [do_execve] prepares, over the page tables of [Paging]. *)

From S2P Require Import Prelude PageAlloc Sched Alloc Paging.

Local Open Scope cint_scope.

Definition CLONE_VM : Z := 1 .<< 0.
Definition CLONE_FS : Z := 1 .<< 1.
Definition CLONE_SIGNAL : Z := 1 .<< 2.

Definition code_start_addr : Z := 0x800000.
Definition stack_start_addr : Z := 0xa00000.
Definition brk_start_addr : Z := 0xc00000.

Definition sizeof_mm_struct : Z := 96.

Definition set_pgd (p : Z) (m : mm_struct) : mm_struct :=
  mkMm p m.(start_code) m.(end_code) m.(start_data) m.(end_data) m.(start_rodata)
    m.(end_rodata) m.(start_bss) m.(end_bss) m.(start_brk) m.(end_brk) m.(start_stack).

(** The fields [do_execve] sets for a file of [file_size] bytes. *)
Definition exec_fields (file_size : Z) (m : mm_struct) : mm_struct :=
  mkMm m.(pgd) code_start_addr 0 0 0 0 0 (code_start_addr .+ file_size) stack_start_addr
    brk_start_addr brk_start_addr stack_start_addr.

Section Mm.
Context {M : Type} `{Frames M}.
(** [init_task[SMP_cpu_id()]->mm->pgd] *)
Context (init_pgd : Z).
Implicit Type s : vm M.

(** The entries for [va] in the three levels of the table [pgd]: [tmp4], [tmp3] and [tmp2]. *)
Definition slot4 (pgd va : Z) : Z := entry pgd PAGE_GDT_SHIFT va.
Definition slot3 (pgd va : Z) s : Z := entry (s.(words) (slot4 pgd va)) PAGE_1G_SHIFT va.
Definition slot2 (pgd va : Z) s : Z := entry (s.(words) (slot3 pgd va s)) PAGE_2M_SHIFT va.

(** The page table of a new address space: the kernel's half is copied, the user's half empty. *)
Definition new_pgd s : option (Z * vm M) :=
  r ← alloc PAGE_4K_SIZE s.(vheap);
  let '(a, h) := r in
  _ ← guard_fault (negb (a =? 0));
  let w := memcpy (Phy_To_Virt init_pgd .+ 8 * 256) (a .+ 8 * 256) (PAGE_4K_SIZE / 2) s.(words) in
  Some (Virt_To_Phy a, set_words (memset0 a (PAGE_4K_SIZE / 2) w) (set_vheap h s)).

(** A descriptor with the fields of [mm] and a page table of its own; the value is its address
    and the table. *)
Definition new_mm (mm : mm_struct) s : option (Z * Z * vm M) :=
  r ← alloc sizeof_mm_struct s.(vheap);
  let '(newmm, h) := r in
  _ ← guard_fault (negb (newmm =? 0));
  r ← new_pgd (set_vheap h s);
  let '(pgd, s) := r in
  Some (newmm, pgd, set_mms (<[newmm := set_pgd pgd mm]> s.(mms)) s).

(** A page at [tmp], with a copy of the page at [va] of the current address space. *)
Definition copy_page (va tmp : Z) s : option (vm M) :=
  mm ← s.(mms) !! s.(cmm);
  r ← take_frame s.(vheap);
  let '(p, h) := r in
  p ← p;
  let s := set_words (store tmp (mk_pdt p PAGE_USER_Page) s.(words)) (set_vheap h s) in
  src ← translate s.(words) mm.(pgd) va;
  Some (set_words (memcpy (Phy_To_Virt src) (Phy_To_Virt p) PAGE_2M_SIZE s.(words)) s).

(** The value is [tsk->mm]. *)
Definition copy_mm (clone_flags : Z) s : option (Z * vm M) :=
  if negb (clone_flags .& CLONE_VM =? 0) then Some (s.(cmm), s)
  else
    mm ← s.(mms) !! s.(cmm);
    r ← new_mm mm s;
    let '(newmm, pgd, s) := r in
    let tmp := entry pgd PAGE_GDT_SHIFT code_start_addr in
    s ← add_table PAGE_USER_GDT tmp s;
    let tmp := entry (s.(words) tmp) PAGE_1G_SHIFT code_start_addr in
    s ← add_table PAGE_USER_Dir tmp s;
    let tmp := entry (s.(words) tmp) PAGE_2M_SHIFT code_start_addr in
    s ← copy_page code_start_addr tmp s;
    if negb (mm.(end_brk) .- mm.(start_brk) =? 0) then
      s ← copy_page brk_start_addr (slot2 pgd brk_start_addr s) s;
      Some (newmm, s)
    else Some (newmm, s).

(** The task has the address space at [amm] and the flags [flags]. *)
Definition exit_mm (amm flags : Z) s : option (vm M) :=
  if negb (flags .& PF_VFORK =? 0) then Some s
  else
    mm ← s.(mms) !! amm;
    h ← (if negb (mm.(pgd) =? 0) then
           let e4 := s.(words) (slot4 mm.(pgd) code_start_addr) in
           let e3 := s.(words) (slot3 mm.(pgd) code_start_addr s) in
           let e2 := s.(words) (slot2 mm.(pgd) code_start_addr s) in
           h ← give_frame e2 s.(vheap);
           r ← release (Phy_To_Virt e3) h;
           r ← release (Phy_To_Virt e4) (snd r);
           r ← release (Phy_To_Virt mm.(pgd)) (snd r);
           Some (snd r)
         else Some s.(vheap));
    r ← release amm h;
    Some (set_mms (delete amm s.(mms)) (set_vheap (snd r) s)).

(** [do_execve] up to the switch to the new page table: after [vfork] an address space of its
    own, and a page for the code.  The value is [current->mm]. *)
Definition exec_mm (flags : Z) s : option (vm M) :=
  s ← (if negb (flags .& PF_VFORK =? 0) then
         r ← new_mm (mkMm 0 0 0 0 0 0 0 0 0 0 0 0) s;
         let '(newmm, _, s) := r in
         Some (set_cmm newmm s)
       else Some s);
  mm ← s.(mms) !! s.(cmm);
  let tmp := entry mm.(pgd) PAGE_GDT_SHIFT code_start_addr in
  s ← ensure_table PAGE_USER_GDT tmp s;
  let tmp := entry (s.(words) tmp) PAGE_1G_SHIFT code_start_addr in
  s ← ensure_table PAGE_USER_Dir tmp s;
  let tmp := entry (s.(words) tmp) PAGE_2M_SHIFT code_start_addr in
  if s.(words) tmp =? 0 then
    r ← take_frame s.(vheap);
    let '(p, h) := r in
    p ← p;
    Some (set_words (store tmp (mk_pdt p PAGE_USER_Page) s.(words)) (set_vheap h s))
  else Some s.

(** Once the file is open. *)
Definition exec_layout (file_size : Z) s : option (vm M) :=
  mm ← s.(mms) !! s.(cmm);
  Some (set_mms (<[s.(cmm) := exec_fields file_size mm]> s.(mms)) s).
End Mm.

(** ** What another address space keeps *)

(** The words of the tables [L] and of the pages in use, and the descriptors. *)
Record spared {M} `{PagingLaws M} (L : gmap (list Z) Z) (s s' : vm M) : Prop := {
  sp_slot k t i : L !! k = Some t -> 0 <= i < 512 -> s'.(words) (t + 8 * i) = s.(words) (t + 8 * i);
  sp_page f x : f ∈ frames s.(vheap) -> Phy_To_Virt f <= x < Phy_To_Virt f + 2 ^ 21 ->
    s'.(words) x = s.(words) x;
  sp_tables : tables s.(vheap) ⊆ tables s'.(vheap);
  sp_frames : frames s.(vheap) ⊆ frames s'.(vheap);
  sp_mms a m : s.(mms) !! a = Some m -> s'.(mms) !! a = Some m
}.

Section Spared.
Context {M : Type} `{HF : Frames M} `{HL : !AllocatorLaws M} `{HP : !PagingLaws M}.
Implicit Type s : vm M.
Implicit Type L : gmap (list Z) Z.

Lemma spared_refl L s : spared L s s.
Proof using Type. by constructor. Qed.

Lemma spared_trans L s s1 s2 : spared L s s1 -> spared L s1 s2 -> spared L s s2.
Proof using Type.
  intros [A1 A2 A3 A4 A5] [B1 B2 B3 B4 B5]. constructor; [| |by etrans|by etrans|auto].
  - intros k t i Hk Hi. rewrite (B1 k) by done. by apply (A1 k).
  - intros f x Hf Hx. rewrite (B2 f) by auto. by apply (A2 f).
Qed.

(** The addresses a page consists of are not in a table. *)
Lemma page_no_table s f x t : f ∈ frames s.(vheap) -> Phy_To_Virt f <= x < Phy_To_Virt f + 2 ^ 21 ->
  t ∈ tables s.(vheap) -> ~ t <= x < t + 2 ^ 12.
Proof using Type. intros Hf Hx Ht. destruct (apart _ _ _ Ht Hf); lia. Qed.

(** An address space whose tables are not touched. *)
Lemma slots_user L s s' mm : user_ok s mm L ->
  (forall k t i, L !! k = Some t -> 0 <= i < 512 -> s'.(words) (t + 8 * i) = s.(words) (t + 8 * i)) ->
  tables s.(vheap) ⊆ tables s'.(vheap) -> frames s.(vheap) ⊆ frames s'.(vheap) ->
  s'.(mms) !! s'.(cmm) = Some mm ->
  user_ok s' mm L /\ forall va, user va -> walk s'.(words) mm.(pgd) va = walk s.(words) mm.(pgd) va.
Proof using Type.
  intros [U1 U2 U3 U4] S1 S3 S4 Hc. pose proof (pk_range _ _ _ _ _ _ U2) as [R1 R2].
  assert (pt_ok s'.(words) (tables s'.(vheap)) (table_of mm.(pgd)) 0 256 L) as K.
  { apply (pt_ok_frame s.(words) _ (tables s.(vheap))); [done|done|].
    intros k t i Hk _ Hi. apply (S1 k); [done|]. by eapply slot_range. }
  assert (forall va, user va -> walk s'.(words) mm.(pgd) va = walk s.(words) mm.(pgd) va) as Hw.
  { intros va Hva. apply user_slot in Hva. erewrite !walk_leaf by done. unfold leaf_at, leaf.
    destruct (L !! [_; _]) as [t|] eqn:E; [|done]. by apply (S1 _ _ _ E), index_range. }
  split; [|done]. constructor; try done.
  - intros va Hva. rewrite Hw by done. destruct (U3 va Hva) as [?|(f & Hf & E)]; [by left|right].
    exists f. split; [by apply S4|done].
  - intros va va' Hva Hva'. rewrite !Hw by done. by apply U4.
Qed.

Lemma spared_user L s s' mm : user_ok s mm L -> spared L s s' -> s'.(cmm) = s.(cmm) ->
  user_ok s' mm L /\ forall va, user va -> walk s'.(words) mm.(pgd) va = walk s.(words) mm.(pgd) va.
Proof using Type.
  intros U [S1 S2 S3 S4 S5] Hc. apply slots_user; try done. rewrite Hc. apply S5, U.
Qed.

(** Tables that are made for another root. *)
Lemma grown_spared L s s' L1 L2 : grown s L1 s' L2 ->
  (forall k t, L !! k = Some t -> valid_table t /\ t ∈ tables s.(vheap)) ->
  (forall k k' t, L !! k = Some t -> L1 !! k' <> Some t) -> spared L s s'.
Proof using Type.
  intros G K Hd. constructor.
  - intros k t i Hk Hi. destruct (K _ _ Hk) as [Hv Ht].
    apply (gr_other _ _ _ _ G); [done|done|done|]. intros k' Hk'. by apply (Hd k) in Hk'.
  - intros f x Hf Hx. apply G. intros t Ht.
    apply (page_no_table s' f x t); [by rewrite (gr_frames _ _ _ _ G)|done|done].
  - apply G.
  - by rewrite (gr_frames _ _ _ _ G).
  - intros a m Hm. by rewrite (proj1 (gr_mms _ _ _ _ G)).
Qed.
End Spared.

Lemma memcpy_in src dst n w x : dst <= x < dst + n -> memcpy src dst n w x = w (src + (x - dst)).
Proof. intros. unfold memcpy. rewrite (proj2 (Z.leb_le _ _)), (proj2 (Z.ltb_lt _ _)); done || lia. Qed.
Lemma memcpy_out src dst n w x : ~ dst <= x < dst + n -> memcpy src dst n w x = w x.
Proof. intros. unfold memcpy. destruct (Z.leb_spec dst x), (Z.ltb_spec x (dst + n)); done || lia. Qed.

(** Different pages do not overlap. *)
Lemma frames_apart f g x : valid_frame f -> valid_frame g -> f <> g ->
  Phy_To_Virt f <= x < Phy_To_Virt f + 2 ^ 21 -> ~ Phy_To_Virt g <= x < Phy_To_Virt g + 2 ^ 21.
Proof.
  unfold Phy_To_Virt, PAGE_OFFSET. intros (F1 & F2 & F3) (G1 & G2 & G3) Hne.
  rewrite !u64_small by lia. pose proof (Z.div_mod f (2 ^ 21) ltac:(lia)).
  pose proof (Z.div_mod g (2 ^ 21) ltac:(lia)). lia.
Qed.

Section Copy.
Context {M : Type} `{HF : Frames M} `{HL : !AllocatorLaws M} `{HP : !PagingLaws M}.
Implicit Type s : vm M.
Implicit Type L : gmap (list Z) Z.
Context (init_pgd : Z).

(** What a new page table holds; nothing else changes. *)
Record pgd_made (a : Z) s s' : Prop := {
  pm_valid : valid_table a;
  pm_fresh : a ∉ live s.(vheap);
  pm_heap : tables s'.(vheap) = {[ a ]} ∪ tables s.(vheap) /\ live s'.(vheap) = {[ a ]} ∪ live s.(vheap) /\
    frames s'.(vheap) = frames s.(vheap);
  pm_mms : s'.(mms) = s.(mms) /\ s'.(cmm) = s.(cmm);
  pm_user i : 0 <= i < 256 -> s'.(words) (a + 8 * i) = 0;
  pm_kernel i : 256 <= i < 512 -> s'.(words) (a + 8 * i) = s.(words) (Phy_To_Virt init_pgd + 8 * i);
  pm_out x : ~ a <= x < a + 2 ^ 12 -> s'.(words) x = s.(words) x
}.

Lemma new_pgd_spec s n c : capacity s.(vheap) (S n) c -> valid_table (Phy_To_Virt init_pgd) ->
  exists a s', new_pgd init_pgd s = Some (Virt_To_Phy a, s') /\ pgd_made a s s' /\ capacity s'.(vheap) n c.
Proof using Type.
  intros Hr Hi. destruct (alloc_capacity PAGE_4K_SIZE _ _ _ ltac:(done) Hr) as (a & h & E & Ha0 & Hrn).
  destruct (alloc_table _ _ _ E Ha0) as [Hv HT]. pose proof (alloc_frames _ _ _ _ E) as Hf.
  destruct (alloc_live _ _ _ _ E) as [[? _]|(_ & Hfresh & Hl)]; [done|].
  unfold new_pgd. rewrite E. cbn [mbind option_bind]. unfold guard_fault.
  rewrite (proj2 (Z.eqb_neq _ _) Ha0). cbn [negb mbind option_bind].
  change (PAGE_4K_SIZE / 2) with 2048. pose proof Hv as (V1 & V2 & _). pose proof Hi as (I1 & I2 & _).
  unfold PAGE_OFFSET in V1, I1. rewrite !(u64_small (_ + 8 * 256)) by lia.
  eexists a, _. split; [done|]. split; [|done].
  constructor; try done; cbn [words set_words]; intros i Hx.
  - apply memset0_in. lia.
  - rewrite memset0_out, memcpy_in by lia. f_equal. lia.
  - rewrite memset0_out, memcpy_out by lia. done.
Qed.

(** A word is set in a table of another address space, and a page taken. *)
Lemma stored_spared L s h t i e root lo hi : pt_ok s.(words) (tables s.(vheap)) root lo hi L ->
  t ∈ tables s.(vheap) -> valid_table t -> 0 <= i < 512 -> (forall k, L !! k <> Some t) ->
  tables h = tables s.(vheap) -> frames s.(vheap) ⊆ frames h ->
  spared L s (set_words (store (t + 8 * i) e s.(words)) (set_vheap h s)).
Proof using Type.
  intros K HtT Hvt Hi Hd HT HF'. constructor; cbn [words vheap set_words set_vheap]; try done.
  - intros k t' j Hk Hj. apply store_ne. intros E. destruct (pk_table _ _ _ _ _ _ K _ _ Hk) as [Hv' _].
    apply slots_apart in E as [-> _]; try done. by apply Hd in Hk.
  - intros f x Hf Hx. apply store_ne. intros ->.
    apply (page_no_table s f _ t Hf Hx HtT). lia.
  - by rewrite HT.
Qed.

(** A page of the parent [mm] is copied for the child [mmc] at [newmm]. *)
Lemma copy_page_spec s mm L newmm mmc Lc va t f0 j k : user_ok s mm L ->
  user_ok (set_cmm newmm s) mmc Lc -> (forall k k' t, L !! k = Some t -> Lc !! k' <> Some t) ->
  user va -> va mod 2 ^ 21 = 0 -> f0 ∈ frames s.(vheap) -> walk s.(words) mm.(pgd) va = f0 + PAGE_USER_Page ->
  walk s.(words) mmc.(pgd) va = 0 ->
  Lc !! [index PAGE_1G_SHIFT va; index PAGE_GDT_SHIFT va] = Some t ->
  capacity s.(vheap) j (S k) ->
  exists s' f, copy_page va (t + 8 * index PAGE_2M_SHIFT va) s = Some s' /\
    user_ok (set_cmm newmm s') mmc Lc /\
    (forall va', user va' -> va' / 2 ^ 21 <> va / 2 ^ 21 ->
      walk s'.(words) mmc.(pgd) va' = walk s.(words) mmc.(pgd) va') /\
    walk s'.(words) mmc.(pgd) va = f + PAGE_USER_Page /\ f ∉ frames s.(vheap) /\
    frames s'.(vheap) = {[ f ]} ∪ frames s.(vheap) /\ spared L s s' /\
    (forall o, 0 <= o < 2 ^ 21 -> s'.(words) (Phy_To_Virt f + o) = s.(words) (Phy_To_Virt f0 + o)) /\
    (forall t' i, t' ∈ tables s.(vheap) -> valid_table t' -> t' <> t -> 0 <= i < 512 ->
      s'.(words) (t' + 8 * i) = s.(words) (t' + 8 * i)) /\
    tables s'.(vheap) = tables s.(vheap) /\ live s'.(vheap) = live s.(vheap) /\
    capacity s'.(vheap) j k /\ s'.(mms) = s.(mms) /\ s'.(cmm) = s.(cmm).
Proof using Type.
  intros U Uc Hd Hva Hmod Hf0 Hw0 Hwc Ht Hfr.
  destruct (take_frame_capacity _ _ _ Hfr) as (f & h & Ef & Hk).
  destruct (take_frame_spec _ _ _ Ef) as (HT & HLv & Hfn & Hfs).
  destruct (map_page (set_cmm newmm s) Lc mmc va t f h Uc Hva Hwc Ht Ef) as [U1 D1].
  set (s1 := set_words (store (t + 8 * index PAGE_2M_SHIFT va) (mk_pdt f PAGE_USER_Page) s.(words))
    (set_vheap h s)).
  change (user_ok (set_cmm newmm s1) mmc Lc) in U1.
  change (mapped mmc (set_cmm newmm s) (set_cmm newmm s1) [va / 2 ^ 21]) in D1.
  destruct (pk_table _ _ _ _ _ _ (uo_tables _ _ _ Uc) _ _ Ht) as [Hvt HtT].
  pose proof (index_range PAGE_2M_SHIFT va) as Hidx.
  assert (f ∈ frames h) as Hf by (rewrite Hfs; set_solver).
  pose proof (frame_valid _ _ Hf) as Vf. pose proof (frame_valid _ _ Hf0) as Vf0.
  assert (spared L s s1) as S1.
  { eapply stored_spared; [apply U|done|done|done| |done|rewrite Hfs; set_solver].
    intros k' Hk'. by apply (Hd _ _ _ Hk' Ht). }
  destruct (spared_user _ _ _ _ U S1 eq_refl) as [U' Hw1].
  set (s2 := set_words (memcpy (Phy_To_Virt f0) (Phy_To_Virt f) PAGE_2M_SIZE s1.(words)) s1).
  assert (forall x, ~ Phy_To_Virt f <= x < Phy_To_Virt f + 2 ^ 21 -> s2.(words) x = s1.(words) x) as Hout
    by (intros x Hx; by apply memcpy_out).
  assert (forall t' i, t' ∈ tables h -> 0 <= i < 512 -> s2.(words) (t' + 8 * i) = s1.(words) (t' + 8 * i)) as Hslot.
  { intros t' i Ht' Hi. apply Hout. intros Hx. apply (page_no_table s1 f _ t' Hf Hx Ht'). lia. }
  destruct (slots_user Lc (set_cmm newmm s1) (set_cmm newmm s2) mmc U1) as [U2 Hw2]; [|done|done|apply U1|].
  { intros k' t' i Hk' Hi. apply Hslot; [|done]. apply (pk_table _ _ _ _ _ _ (uo_tables _ _ _ U1) _ _ Hk'). }
  exists s2, f. split_and!; try done.
  - unfold copy_page. rewrite (uo_mm _ _ _ U). cbn [mbind option_bind]. rewrite Ef. cbn [mbind option_bind].
    fold s1. rewrite (translate_frame _ _ _ f0 PAGE_USER_Page); [|done|by left|by rewrite Hw1].
    by rewrite Hmod, Z.add_0_r.
  - intros va' Hva' Hne. etrans; [by apply Hw2|]. apply (md_keep _ _ _ _ D1); [done|right].
    by rewrite list_elem_of_singleton.
  - etrans; [by apply Hw2|]. destruct (md_new _ _ _ _ D1 va Hva) as (f' & Hf' & E & Hn'); [apply list_elem_of_here|].
    change (f' ∈ frames h) in Hf'. rewrite Hfs in Hf'. apply elem_of_union in Hf' as [Hf'|Hf'].
    + apply elem_of_singleton in Hf' as ->. exact E.
    + by apply Hn' in Hf'.
  - destruct S1 as [A1 A2 A3 A4 A5]. constructor; try done.
    + intros k' t' i Hk' Hi. etrans; [|by apply (A1 k')]. apply Hslot; [|done].
      apply A3, (pk_table _ _ _ _ _ _ (uo_tables _ _ _ U) _ _ Hk').
    + intros g x Hg Hx. etrans; [|by apply (A2 g)]. apply Hout.
      apply (frames_apart g f); [by eapply frame_valid|done|congruence|done].
  - intros o Ho. change (s2.(words) (Phy_To_Virt f + o)) with
      (memcpy (Phy_To_Virt f0) (Phy_To_Virt f) PAGE_2M_SIZE s1.(words) (Phy_To_Virt f + o)).
    rewrite memcpy_in by (change PAGE_2M_SIZE with (2 ^ 21); lia).
    replace (Phy_To_Virt f0 + (Phy_To_Virt f + o - Phy_To_Virt f)) with (Phy_To_Virt f0 + o) by lia.
    apply (sp_page _ _ _ S1 f0); [done|lia].
  - intros t' i Ht' Hv' Hne Hi. rewrite Hslot; [|by rewrite HT|done]. apply store_ne. intros E.
    by apply slots_apart in E as [-> _].
Qed.
(** The way down to the entries of a mapped page. *)
Lemma slots_chain s T gdt L va t1 t2 : pt_ok s.(words) T (table_of gdt) 0 256 L -> user va ->
  L !! [index PAGE_GDT_SHIFT va] = Some t1 ->
  L !! [index PAGE_1G_SHIFT va; index PAGE_GDT_SHIFT va] = Some t2 ->
  leads_to (s.(words) (slot4 gdt va)) t1 /\ leads_to (s.(words) (slot3 gdt va s)) t2 /\
  slot2 gdt va s = t2 + 8 * index PAGE_2M_SHIFT va.
Proof using Type.
  intros K Hva H1 H2. apply user_slot in Hva.
  destruct (pk_table _ _ _ _ _ _ K _ _ (pk_root _ _ _ _ _ _ K)) as [Hroot _].
  destruct (pk_table _ _ _ _ _ _ K _ _ H1) as [V1 _]. destruct (pk_table _ _ _ _ _ _ K _ _ H2) as [V2 _].
  pose proof (pk_link _ _ _ _ _ _ K [] _ _ (pk_root _ _ _ _ _ _ K) ltac:(cbn; lia) Hva) as L1.
  rewrite H1 in L1. rewrite <- (entry_slot gdt) in L1 by done.
  destruct (leads_to_table _ _ V1 L1) as (E1 & _).
  pose proof (pk_link _ _ _ _ _ _ K [_] t1 _ H1 ltac:(cbn; lia) (index_range PAGE_1G_SHIFT va)) as L2.
  rewrite H2 in L2. rewrite <- E1, <- (entry_slot _ PAGE_1G_SHIFT) in L2 by (done || by rewrite E1).
  destruct (leads_to_table _ _ V2 L2) as (E2 & _).
  split_and!; [done|done|]. unfold slot2, slot3, slot4. rewrite entry_slot, E2; [done|done|by rewrite E2].
Qed.

Lemma grown_cmm s L s' L' a : grown s L s' L' -> grown (set_cmm a s) L (set_cmm a s') L'.
Proof using Type. intros [A1 [A2 A2'] A3 A5 A6 A7 A8 A9]. by constructor. Qed.

Lemma ensure_add attr tmp s : s.(words) tmp = 0 -> ensure_table attr tmp s = add_table attr tmp s.
Proof using Type. unfold ensure_table. intros ->. by rewrite Z.eqb_refl. Qed.

Lemma empty_slot w T root lo hi L k t e shift va : pt_ok w T root lo hi L -> L !! k = Some t ->
  (length k < 2)%nat -> slot lo hi k (index shift va) -> table_of e = t -> 0 <= shift ->
  L !! (index shift va :: k) = None -> w (entry e shift va) = 0.
Proof using Type.
  intros K Hk Hl Hi He Hs Hn. destruct (pk_table _ _ _ _ _ _ K _ _ Hk) as [V _].
  rewrite entry_slot, He; [|done|by rewrite He].
  pose proof (pk_link _ _ _ _ _ _ K _ _ _ Hk Hl Hi) as E. by rewrite Hn in E.
Qed.

(** The empty tables of a child whose root has no entries yet. *)
Lemma child_tables s newmm mmc n c : user_ok (set_cmm newmm s) mmc {[ [] := table_of mmc.(pgd) ]} ->
  capacity s.(vheap) (S (S n)) c ->
  exists s1 s2 t1 t2, let tmp := entry mmc.(pgd) PAGE_GDT_SHIFT code_start_addr in
    let tmp2 := entry (s1.(words) tmp) PAGE_1G_SHIFT code_start_addr in
    let Lc := <[ [0; 0] := t2 ]> (<[ [0] := t1 ]> {[ [] := table_of mmc.(pgd) ]}) in
    add_table PAGE_USER_GDT tmp s = Some s1 /\ add_table PAGE_USER_Dir tmp2 s1 = Some s2 /\
    entry (s2.(words) tmp2) PAGE_2M_SHIFT code_start_addr = t2 + 8 * index PAGE_2M_SHIFT code_start_addr /\
    user_ok (set_cmm newmm s2) mmc Lc /\ grown s {[ [] := table_of mmc.(pgd) ]} s2 Lc /\
    capacity s2.(vheap) n c /\ t1 ∉ live s.(vheap) /\ t2 ∉ {[ t1 ]} ∪ live s.(vheap) /\
    tables s2.(vheap) = {[ t2 ]} ∪ ({[ t1 ]} ∪ tables s.(vheap)) /\
    live s2.(vheap) = {[ t2 ]} ∪ ({[ t1 ]} ∪ live s.(vheap)).
Proof using Type.
  intros U Hr. pose proof (uo_tables _ _ _ U) as K. cbn [words vheap set_cmm] in K.
  destruct (ensure_table_spec mmc.(pgd) 0 256 s _ [] _ mmc.(pgd) PAGE_GDT_SHIFT code_start_addr
    PAGE_USER_GDT (S n) c K (pk_root _ _ _ _ _ _ K)) as (s1 & L1 & t1 & E1 & K1 & Ht1 & Et1 & G1 & R1 & EL1 & N1);
    try done; [cbn; lia|by right|].
  destruct N1 as (N1 & T1 & V1); [done|].
  destruct (ensure_table_spec mmc.(pgd) 0 256 s1 L1 [0] t1 _ PAGE_1G_SHIFT code_start_addr
    PAGE_USER_Dir n c K1 Ht1 ltac:(cbn; lia) Et1) as (s2 & L2 & t2 & E2 & K2 & Ht2 & Et2 & G2 & R2 & EL2 & N2);
    try done; [by right|].
  destruct N2 as (N2 & T2 & V2); [by rewrite EL1, lookup_insert_ne|].
  exists s1, s2, t1, t2. change (index PAGE_1G_SHIFT code_start_addr) with 0 in EL2.
  change (index PAGE_GDT_SHIFT code_start_addr) with 0 in EL1. subst L1 L2.
  pose proof (grown_trans _ _ _ _ _ _ G1 G2) as G.
  rewrite <- T1, <- V1. split_and!; try done.
  - rewrite <- ensure_add; [done|]. eapply empty_slot; [exact K|apply K|cbn; lia|done|done|done|done].
  - rewrite <- ensure_add; [done|]. eapply empty_slot; [exact K1|exact Ht1|cbn; lia|done|exact Et1|done|].
    by rewrite lookup_insert_ne.
  - rewrite entry_slot, Et2; [done|done|]. rewrite Et2. apply (pk_table _ _ _ _ _ _ K2 _ _ Ht2).
  - by apply (grown_user (set_cmm newmm s) _ (set_cmm newmm s2) _ mmc U (grown_cmm _ _ _ _ _ G)).
Qed.
Lemma table_of_phys t : valid_table t -> table_of (Virt_To_Phy t) = t.
Proof using Type.
  intros Ht. destruct (virt_phy t Ht) as (-> & Hr & Hm). unfold table_of.
  rewrite <- (Z.add_0_r (t - PAGE_OFFSET)), round_low by lia. unfold Phy_To_Virt.
  replace (t - PAGE_OFFSET + PAGE_OFFSET) with t by lia. apply u64_small.
  unfold valid_table, PAGE_OFFSET in Ht. lia.
Qed.

Lemma pgd_spared a s s' L gdt lo hi : pgd_made a s s' ->
  pt_ok s.(words) (tables s.(vheap)) gdt lo hi L -> spared L s s'.
Proof using Type.
  intros [V F (HT & Hl & Hf) [Em Ec] _ _ O] K. constructor.
  - intros k t i Hk Hi. destruct (pk_table _ _ _ _ _ _ K _ _ Hk) as [Vt Ht]. apply O. intros Hx.
    apply F, tables_live. replace a with t; [done|].
    destruct V as (_ & _ & M1), Vt as (_ & _ & M2).
    pose proof (Z.div_mod t (2 ^ 12) ltac:(lia)). pose proof (Z.div_mod a (2 ^ 12) ltac:(lia)). lia.
  - intros f x Hx Hr. apply O. apply (page_no_table s' f x a); [by rewrite Hf|done|rewrite HT; set_solver].
  - rewrite HT. set_solver.
  - by rewrite Hf.
  - by rewrite Em.
Qed.

(** A new descriptor: its user half is empty, its other half the kernel's. *)
Record mm_made (mm : mm_struct) L (newmm root : Z) s s' : Prop := {
  mk_user : user_ok (set_cmm newmm s') (set_pgd (Virt_To_Phy root) mm) {[ [] := root ]};
  mk_empty va : user va -> walk s'.(words) (Virt_To_Phy root) va = 0;
  mk_spared : spared L s s';
  mk_mms : s'.(mms) = <[newmm := set_pgd (Virt_To_Phy root) mm]> s.(mms) /\ s'.(cmm) = s.(cmm);
  mk_fresh : newmm ∉ live s.(vheap) /\ root ∉ {[ newmm ]} ∪ live s.(vheap) /\ valid_table root;
  mk_live : live s'.(vheap) = {[ root ]} ∪ ({[ newmm ]} ∪ live s.(vheap));
  mk_tables : tables s'.(vheap) = {[ root ]} ∪ tables s.(vheap);
  mk_frames : frames s'.(vheap) = frames s.(vheap);
  mk_kernel i : 256 <= i < 512 -> s'.(words) (root + 8 * i) = s.(words) (Phy_To_Virt init_pgd + 8 * i)
}.

Lemma new_mm_spec s mm L lo hi gdt n c : pt_ok s.(words) (tables s.(vheap)) gdt lo hi L ->
  valid_table (Phy_To_Virt init_pgd) -> (forall a, is_Some (s.(mms) !! a) -> a ∈ live s.(vheap)) ->
  capacity s.(vheap) (S (S n)) c ->
  exists newmm root s', new_mm init_pgd mm s = Some (newmm, Virt_To_Phy root, s') /\
    mm_made mm L newmm root s s' /\ capacity s'.(vheap) n c.
Proof using Type.
  intros K Hi Hmms Hr.
  destruct (alloc_capacity sizeof_mm_struct _ _ _ ltac:(done) Hr) as (newmm & h & Ea & Hn0 & Hr1).
  destruct (alloc_live _ _ _ _ Ea) as [[? _]|(_ & Hnl & Hlh)]; [done|].
  pose proof (alloc_other _ _ _ _ Ea ltac:(done)) as HTh. pose proof (alloc_frames _ _ _ _ Ea) as Hfh.
  destruct (new_pgd_spec (set_vheap h s) n c Hr1 Hi) as (root & sB & Ep & Mk & Hr2).
  pose proof Mk as [Vr Fr (HTB & HlB & HfB) [EmB EcB] Zr Kr Or].
  cbn [vheap mms cmm words set_vheap] in *.
  set (mm' := set_pgd (Virt_To_Phy root) mm). set (sC := set_mms (<[newmm := mm']> sB.(mms)) sB).
  assert (table_of mm'.(pgd) = root) as Hpgd by (by apply table_of_phys).
  destruct (empty_user (set_cmm newmm sC) mm') as [Uc Zc]; [apply lookup_insert_eq|by rewrite Hpgd| |by rewrite Hpgd|].
  { change (table_of mm'.(pgd) ∈ tables sB.(vheap)). rewrite Hpgd, HTB. set_solver. }
  rewrite Hpgd in Uc. exists newmm, root, sC. split.
  { unfold new_mm. rewrite Ea. cbn [mbind option_bind]. unfold guard_fault.
    rewrite (proj2 (Z.eqb_neq _ _) Hn0). cbn [negb mbind option_bind]. by rewrite Ep. }
  split; [|done]. constructor; try done; cbn [words vheap mms cmm sC set_mms].
  - apply (spared_trans _ _ (set_vheap h s)).
    { constructor; cbn [vheap set_vheap]; try done; by rewrite ?HTh, ?Hfh. }
    assert (spared L (set_vheap h s) sB) as [B1 B2 B3 B4 B5].
    { eapply pgd_spared; [exact Mk|]. cbn [words vheap set_vheap]. rewrite HTh. apply K. }
    constructor; try done. intros b m Hm. cbn [mms sC set_mms].
    rewrite lookup_insert_ne; [by apply B5|]. intros <-. apply Hnl, Hmms. by eexists.
  - by rewrite EmB.
  - by rewrite <- Hlh.
  - by rewrite HlB, Hlh.
  - by rewrite HTB, HTh.
  - by rewrite HfB, Hfh.
Qed.
(** The tables of a child before its first page. *)
Definition child_L (root t1 t2 : Z) : gmap (list Z) Z :=
  <[ [0; 0] := t2 ]> (<[ [0] := t1 ]> {[ [] := root ]}).

Record fork_made (mm : mm_struct) L (newmm root t1 t2 : Z) s s' : Prop := {
  fk_user : user_ok (set_cmm newmm s') (set_pgd (Virt_To_Phy root) mm) (child_L root t1 t2);
  fk_empty va : user va -> walk s'.(words) (Virt_To_Phy root) va = 0;
  fk_spared : spared L s s';
  fk_mms : s'.(mms) = <[newmm := set_pgd (Virt_To_Phy root) mm]> s.(mms) /\ s'.(cmm) = s.(cmm);
  fk_nodup : NoDup [t2; t1; root; newmm];
  fk_fresh a : a ∈ [t2; t1; root; newmm] -> a ∉ live s.(vheap);
  fk_live : live s'.(vheap) = {[ t2; t1; root; newmm ]} ∪ live s.(vheap);
  fk_tables : tables s'.(vheap) = {[ t2; t1; root ]} ∪ tables s.(vheap);
  fk_frames : frames s'.(vheap) = frames s.(vheap);
  fk_kernel i : 256 <= i < 512 -> s'.(words) (root + 8 * i) = s.(words) (Phy_To_Virt init_pgd + 8 * i)
}.

Lemma fork_tables s mm L flags n c : user_ok s mm L -> valid_table (Phy_To_Virt init_pgd) ->
  flags .& CLONE_VM = 0 -> (forall a, is_Some (s.(mms) !! a) -> a ∈ live s.(vheap)) ->
  capacity s.(vheap) (S (S (S (S n)))) c ->
  exists newmm root t1 t2 s', copy_mm init_pgd flags s =
      (s ← copy_page code_start_addr (t2 + 8 * index PAGE_2M_SHIFT code_start_addr) s';
       if negb (mm.(end_brk) .- mm.(start_brk) =? 0) then
         s ← copy_page brk_start_addr (slot2 (Virt_To_Phy root) brk_start_addr s) s; Some (newmm, s)
       else Some (newmm, s)) /\
    fork_made mm L newmm root t1 t2 s s' /\ capacity s'.(vheap) n c.
Proof using Type.
  intros U Hi Hcl Hmms Hr.
  destruct (new_mm_spec s mm L _ _ _ (S (S n)) c (uo_tables _ _ _ U) Hi Hmms Hr)
    as (newmm & root & sC & EC & [Uc Zc SC [MC CC] (F1 & F2 & Vr) LC TC FC KC] & RC).
  assert (table_of (Virt_To_Phy root) = root) as Hpgd by (by apply table_of_phys).
  rewrite <- Hpgd in Uc at 2.
  destruct (child_tables sC newmm (set_pgd (Virt_To_Phy root) mm) n c Uc RC)
    as (s1 & s2 & t1 & t2 & E1 & E2 & E3 & U2 & G & R2 & N1 & N2 & HT2 & HL2).
  cbn [pgd set_pgd] in *. rewrite Hpgd in *. rewrite LC in *. rewrite TC in *.
  exists newmm, root, t1, t2, s2. split.
  { unfold copy_mm. rewrite Hcl, (uo_mm _ _ _ U). cbn [Z.eqb negb mbind option_bind].
    rewrite EC. cbn [mbind option_bind]. rewrite E1. cbn [mbind option_bind].
    rewrite E2. cbn [mbind option_bind]. by rewrite E3. }
  destruct (gr_mms _ _ _ _ G) as [G1 G2]. split; [|done]. constructor; try done.
  - intros va Hva. destruct (grown_user _ _ _ _ _ Uc (grown_cmm _ _ _ _ newmm G)) as [_ D];
      [apply (uo_tables _ _ _ U2)|].
    etrans; [|by apply Zc]. apply (md_keep _ _ _ _ D); [done|right; apply not_elem_of_nil].
  - apply (spared_trans _ _ _ _ SC). apply (grown_spared _ _ _ _ _ G).
    + intros k t Hk. destruct (pk_table _ _ _ _ _ _ (uo_tables _ _ _ U) _ _ Hk). rewrite TC. set_solver.
    + intros k k' t Hk Hk'. apply lookup_singleton_Some in Hk' as [_ <-].
      destruct (pk_table _ _ _ _ _ _ (uo_tables _ _ _ U) _ _ Hk) as [_ Ht%tables_live]. set_solver.
  - by rewrite G1, G2.
  - repeat constructor; set_solver.
  - set_solver.
  - rewrite HL2. set_solver.
  - rewrite HT2. set_solver.
  - by rewrite (gr_frames _ _ _ _ G).
  - intros i Hi'. rewrite <- KC by done. apply (gr_other _ _ _ _ G); [rewrite TC; set_solver|done|lia|].
    intros k Hk. apply lookup_singleton_Some in Hk as [<- _].
    by rewrite !lookup_insert_ne by (intros [= ?]; lia).
Qed.
(** The page of the parent at [va] and its copy. *)
Definition copied (mm mm' : mm_struct) s s' (va : Z) : Prop := exists f f0,
  walk s.(words) mm.(pgd) va = f0 + PAGE_USER_Page /\ f0 ∈ frames s.(vheap) /\
  walk s'.(words) mm'.(pgd) va = f + PAGE_USER_Page /\ f ∈ frames s'.(vheap) /\ f ∉ frames s.(vheap) /\
  forall o, 0 <= o < 2 ^ 21 -> s'.(words) (Phy_To_Virt f + o) = s.(words) (Phy_To_Virt f0 + o).

(** A child whose pages at the addresses [vas] have been copied. *)
Record forked (mm : mm_struct) L (newmm root t1 t2 : Z) (vas : list Z) s s' : Prop := {
  fo_user : user_ok (set_cmm newmm s') (set_pgd (Virt_To_Phy root) mm) (child_L root t1 t2);
  fo_copied va : va ∈ vas -> copied mm (set_pgd (Virt_To_Phy root) mm) s s' va;
  fo_empty va : user va -> Forall (fun x => va / 2 ^ 21 <> x / 2 ^ 21) vas ->
    walk s'.(words) (Virt_To_Phy root) va = 0;
  fo_spared : spared L s s';
  fo_mms : s'.(mms) = <[newmm := set_pgd (Virt_To_Phy root) mm]> s.(mms) /\ s'.(cmm) = s.(cmm);
  fo_nodup : NoDup [t2; t1; root; newmm];
  fo_fresh a : a ∈ [t2; t1; root; newmm] -> a ∉ live s.(vheap);
  fo_live : live s'.(vheap) = {[ t2; t1; root; newmm ]} ∪ live s.(vheap);
  fo_tables : tables s'.(vheap) = {[ t2; t1; root ]} ∪ tables s.(vheap);
  fo_frames f : f ∈ frames s'.(vheap) -> f ∈ frames s.(vheap) \/
    exists va, va ∈ vas /\ walk s'.(words) (Virt_To_Phy root) va = f + PAGE_USER_Page;
  fo_kernel i : 256 <= i < 512 -> s'.(words) (root + 8 * i) = s.(words) (Phy_To_Virt init_pgd + 8 * i)
}.

Lemma fork_made_forked mm L newmm root t1 t2 s s' : fork_made mm L newmm root t1 t2 s s' ->
  forked mm L newmm root t1 t2 [] s s'.
Proof using Type.
  intros [A1 A2 A3 A4 A5 A6 A7 A8 A9 A10]. constructor; try done.
  - intros va Hva. by apply not_elem_of_nil in Hva.
  - intros va Hva _. by apply A2.
  - intros f Hf. left. by rewrite <- A9.
Qed.

(** One more page. *)
Lemma forked_page s s1 mm L newmm root t1 t2 vas va f0 j k : user_ok s mm L ->
  forked mm L newmm root t1 t2 vas s s1 -> user va -> va mod 2 ^ 21 = 0 ->
  index PAGE_1G_SHIFT va = 0 -> index PAGE_GDT_SHIFT va = 0 ->
  Forall user vas -> Forall (fun x => va / 2 ^ 21 <> x / 2 ^ 21) vas ->
  walk s.(words) mm.(pgd) va = f0 + PAGE_USER_Page -> f0 ∈ frames s.(vheap) ->
  capacity s1.(vheap) j (S k) ->
  exists s2, copy_page va (t2 + 8 * index PAGE_2M_SHIFT va) s1 = Some s2 /\
    forked mm L newmm root t1 t2 (va :: vas) s s2 /\ capacity s2.(vheap) j k.
Proof using Type.
  intros U [B1 B2 B3 B4 [B5 B5'] B6 B7 B8 B9 B10 B11] Hva Hmod I1 I2 Hus Hdist Hw Hf0 Hfr.
  destruct (spared_user _ _ _ _ U B4 B5') as [U1 Hw1].
  assert (forall k k' t, L !! k = Some t -> child_L root t1 t2 !! k' <> Some t) as Hd.
  { intros k1 k2 t Hk Hk'. destruct (pk_table _ _ _ _ _ _ (uo_tables _ _ _ U) _ _ Hk) as [_ Ht%tables_live].
    assert (t ∈ [t2; t1; root; newmm]) as Hin.
    { unfold child_L in Hk'. rewrite !lookup_insert_Some, lookup_singleton_Some in Hk'. set_solver. }
    by apply B7 in Hin. }
  destruct (copy_page_spec s1 mm L newmm (set_pgd (Virt_To_Phy root) mm) (child_L root t1 t2) va t2 f0 j k)
    as (s2 & f & E & U2 & Hkeep & Hnew & Hfn & Hfs & S2 & Hc & Hslots & HT & HLv & Hk & Em & Ec); try done.
  { by apply B4. }
  { by rewrite Hw1. }
  { by apply B3. }
  { rewrite I1, I2. apply lookup_insert_eq. }
  rewrite Forall_forall in Hus. rewrite Forall_forall in Hdist.
  exists s2. split_and!; [done| |done]. constructor; try done.
  - intros v Hv. apply elem_of_cons in Hv as [->|Hv].
    + exists f, f0. split_and!; try done; [rewrite Hfs; set_solver|intros Hx; by apply Hfn, B4|].
      intros o Ho. rewrite Hc by done. apply (sp_page _ _ _ B4 f0); [done|lia].
    + destruct (B2 v Hv) as (g & g0 & G1 & G2 & G3 & G4 & G5 & G6). exists g, g0.
      split_and!; try done; [|rewrite Hfs; set_solver|].
      * rewrite (Hkeep v); [done|by apply Hus|]. intros E'. by apply (Hdist v Hv).
      * intros o Ho. rewrite (sp_page _ _ _ S2 g) by (done || lia). by apply G6.
  - intros v Hv Hall. apply Forall_cons in Hall as [Hne Hall]. etrans; [by apply Hkeep|by apply B3].
  - by apply (spared_trans _ _ s1).
  - by rewrite Em, Ec.
  - by rewrite HLv.
  - by rewrite HT.
  - intros g Hg. rewrite Hfs in Hg. apply elem_of_union in Hg as [Hg|Hg].
    + apply elem_of_singleton in Hg as ->. right. exists va. split; [apply list_elem_of_here|done].
    + apply B10 in Hg as [?|(v & Hv & Ev)]; [by left|right]. exists v. split; [by apply list_elem_of_further|].
      etrans; [|exact Ev]. apply Hkeep; [by apply Hus|]. intros E'. by apply (Hdist v Hv).
  - intros i Hi. rewrite <- B11 by done.
    destruct (pk_table _ _ _ _ _ _ (uo_tables _ _ _ B1) _ _ (pk_root _ _ _ _ _ _ (uo_tables _ _ _ B1))) as [Vr Hr].
    cbn [pgd set_pgd] in Vr, Hr. assert (table_of (Virt_To_Phy root) = root) as Hroot.
    { pose proof (pk_root _ _ _ _ _ _ (uo_tables _ _ _ B1)) as E'. unfold child_L in E'.
      rewrite !lookup_insert_ne, lookup_singleton_eq in E' by done. by injection E'. }
    rewrite Hroot in *. apply Hslots; [done|done| |lia].
    intros ->. rewrite !NoDup_cons in B6. set_solver.
Qed.
(** The pages [copy_mm] copies. *)
Definition fork_pages (mm : mm_struct) : list Z :=
  if mm.(end_brk) .- mm.(start_brk) =? 0 then [code_start_addr] else [brk_start_addr; code_start_addr].

Lemma copy_mm_forked s mm L flags : user_ok s mm L -> valid_table (Phy_To_Virt init_pgd) ->
  (forall a, is_Some (s.(mms) !! a) -> a ∈ live s.(vheap)) -> capacity s.(vheap) 4 2 ->
  (forall va, va ∈ fork_pages mm -> walk s.(words) mm.(pgd) va <> 0) -> flags .& CLONE_VM = 0 ->
  exists newmm root t1 t2 s', copy_mm init_pgd flags s = Some (newmm, s') /\
    forked mm L newmm root t1 t2 (fork_pages mm) s s'.
Proof using Type.
  intros U Hi Hmms Hr Hp Hcl.
  destruct (fork_tables s mm L flags 0 2 U Hi Hcl Hmms Hr) as (newmm & root & t1 & t2 & s1 & -> & K & Hfr1).
  apply fork_made_forked in K.
  assert (forall va, va ∈ fork_pages mm -> user va -> exists f, f ∈ frames s.(vheap) /\
    walk s.(words) mm.(pgd) va = f + PAGE_USER_Page) as Hf.
  { intros va Hva Hu. destruct (uo_pages _ _ _ U va Hu) as [E|?]; [by apply Hp in E|done]. }
  unfold fork_pages in *.
  destruct (Hf code_start_addr) as (f0 & Hf0 & Hw0); [destruct (_ =? _); set_solver|unfold user, code_start_addr; lia|].
  destruct (forked_page s s1 mm L newmm root t1 t2 [] code_start_addr f0 0 1 U K)
    as (s2 & E2 & K2 & Hfr2); try done.
  exists newmm, root, t1, t2. rewrite E2. cbn [mbind option_bind].
  destruct (_ =? _); cbn [negb]; [by exists s2|].
  destruct (Hf brk_start_addr) as (fb & Hfb & Hwb); [set_solver|unfold user, brk_start_addr; lia|].
  destruct (forked_page s s2 mm L newmm root t1 t2 [code_start_addr] brk_start_addr fb 0 0 U K2)
    as (s3 & E3 & K3 & _); try done.
  { by repeat constructor. }
  { repeat constructor. discriminate. }
  exists s3. destruct (slots_chain (set_cmm newmm s2) _ (Virt_To_Phy root) _ brk_start_addr t1 t2
    (uo_tables _ _ _ (fo_user _ _ _ _ _ _ _ _ _ K2))) as (_ & _ & Es);
    [unfold user, brk_start_addr; lia|done|done|].
  change (slot2 _ _ (set_cmm newmm s2)) with (slot2 (Virt_To_Phy root) brk_start_addr s2) in Es.
  by rewrite Es, E3.
Qed.

(** C34. [copy_mm]: with [CLONE_VM] the address space is shared; otherwise the child gets one of
    its own, in which the page of the code and stack, and the first page of the heap when there
    is one, are fresh pages with the parent's contents, and nothing else is mapped; the kernel's
    half is that of the kernel, and the parent's tables and pages are as they were. *)
Theorem copy_mm_spec s mm L flags : user_ok s mm L -> valid_table (Phy_To_Virt init_pgd) ->
  (forall a, is_Some (s.(mms) !! a) -> a ∈ live s.(vheap)) -> capacity s.(vheap) 4 2 ->
  (forall va, va ∈ fork_pages mm -> walk s.(words) mm.(pgd) va <> 0) ->
  (flags .& CLONE_VM <> 0 -> copy_mm init_pgd flags s = Some (s.(cmm), s)) /\
  (flags .& CLONE_VM = 0 -> exists newmm root t1 t2 s', copy_mm init_pgd flags s = Some (newmm, s') /\
    forked mm L newmm root t1 t2 (fork_pages mm) s s').
Proof using Type.
  intros U Hi Hmms Hr Hp. split.
  - intros Hf. unfold copy_mm. by rewrite (proj2 (Z.eqb_neq _ _) Hf).
  - by apply copy_mm_forked.
Qed.

Lemma phy_virt t a : valid_table t -> 0 <= a < 2 ^ 12 -> Phy_To_Virt (Virt_To_Phy t + a) = t + a.
Proof using Type.
  intros Ht Ha. destruct (virt_phy t Ht) as (-> & _). destruct Ht as (H1 & H2 & _).
  unfold Phy_To_Virt, PAGE_OFFSET in *. rewrite u64_small; lia.
Qed.

(** [exit_mm] of an address space with the tables of a child. *)
Lemma exit_mm_tables s amm mm root t1 t2 f : user_ok (set_cmm amm s) mm (child_L root t1 t2) ->
  mm.(pgd) = Virt_To_Phy root -> NoDup [t2; t1; root; amm] -> amm ∈ live s.(vheap) ->
  amm ∉ tables s.(vheap) -> walk s.(words) mm.(pgd) code_start_addr = f + PAGE_USER_Page ->
  f ∈ frames s.(vheap) ->
  exists s', exit_mm amm 0 s = Some s' /\ s'.(words) = s.(words) /\ s'.(mms) = delete amm s.(mms) /\
    live s'.(vheap) = live s.(vheap) ∖ {[ t2; t1; root; amm ]} /\
    tables s'.(vheap) = tables s.(vheap) ∖ {[ t2; t1; root ]} /\
    frames s'.(vheap) = frames s.(vheap) ∖ {[ f ]}.
Proof using Type.
  intros [U1 U2 _ _] Hpgd Hnd Hl Hnt Hw Hf. cbn [mms cmm words vheap set_cmm] in *.
  destruct (slots_chain s _ _ _ code_start_addr t1 t2 U2) as (L1 & L2 & E2); [done..|].
  assert (forall k t, child_L root t1 t2 !! k = Some t -> valid_table t /\ t ∈ tables s.(vheap)) as Hk
    by apply U2.
  destruct (Hk [] root) as [Vr Hr]; [done|]. destruct (Hk [0] t1) as [V1 H1]; [done|].
  destruct (Hk [0; 0] t2) as [V2 H2]; [done|].
  rewrite !NoDup_cons in Hnd. destruct Hnd as (N1 & N2 & N3 & _ & _).
  assert (Virt_To_Phy root <> 0) as Hne.
  { destruct (virt_phy root Vr) as (-> & _). unfold valid_table in Vr. lia. }
  assert (s.(words) (slot2 mm.(pgd) code_start_addr s) = f + 135) as E.
  { rewrite E2. change 135 with PAGE_USER_Page. rewrite <- Hw. symmetry.
    erewrite walk_leaf by (done || by apply user_slot). done. }
  destruct (give_frame_spec _ f 135 Hf ltac:(lia)) as (h1 & G1 & F1 & T1 & Li1).
  destruct L2 as (a2 & Ea2 & Ha2). destruct L1 as (a1 & Ea1 & Ha1).
  destruct (release_table h1 t2 a2) as (r2 & h2 & G2 & Li2 & T2 & F2); [by rewrite T1|lia|].
  destruct (release_table h2 t1 a1) as (r3 & h3 & G3 & Li3 & T3 & F3); [rewrite T2, T1; set_solver|lia|].
  destruct (release_table h3 root 0) as (r4 & h4 & G4 & Li4 & T4 & F4); [rewrite T3, T2, T1; set_solver|lia|].
  destruct (release_live amm h4) as (r5 & h5 & G5 & Li5 & _); [rewrite Li4, Li3, Li2, Li1; set_solver|].
  destruct (release_other _ _ _ _ G5) as [T5 F5].
  { rewrite T4, T3, T2, T1, Li4, Li3, Li2, Li1. set_solver. }
  unfold exit_mm. cbn [Z.land Z.eqb negb]. rewrite U1. cbn [mbind option_bind]. rewrite E, Ea1, Ea2, Hpgd.
  rewrite (proj2 (Z.eqb_neq _ _) Hne). cbn [negb]. rewrite G1. cbn [mbind option_bind].
  rewrite !phy_virt by (done || lia). rewrite <- (Z.add_0_r (Virt_To_Phy root)), phy_virt by (done || lia).
  rewrite G2. cbn [mbind option_bind snd]. rewrite G3. cbn [mbind option_bind snd].
  rewrite G4. cbn [mbind option_bind snd]. rewrite G5. cbn [mbind option_bind snd].
  eexists. split; [done|]. cbn [words mms vheap set_mms set_vheap].
  rewrite Li5, Li4, Li3, Li2, Li1, T5, T4, T3, T2, T1, F5, F4, F3, F2, F1.
  split_and!; [done..|set_solver|set_solver|done].
Qed.

(** When a forked child is waited for, [exit_mm] gives back its tables, its descriptor and
    the page of its code; a copied page of the heap is not given back. *)
Theorem exit_mm_copy_mm s s' mm L newmm root t1 t2 : user_ok s mm L ->
  forked mm L newmm root t1 t2 (fork_pages mm) s s' ->
  (forall a, is_Some (s.(mms) !! a) -> a ∈ live s.(vheap)) ->
  exists s'', exit_mm newmm 0 s' = Some s'' /\ live s''.(vheap) = live s.(vheap) /\
    tables s''.(vheap) = tables s.(vheap) /\ s''.(mms) = s.(mms) /\ s''.(words) = s'.(words) /\
    (mm.(end_brk) .- mm.(start_brk) = 0 -> frames s''.(vheap) = frames s.(vheap)) /\
    (mm.(end_brk) .- mm.(start_brk) <> 0 -> exists f, f ∉ frames s.(vheap) /\
      frames s''.(vheap) = {[ f ]} ∪ frames s.(vheap) /\
      walk s'.(words) (Virt_To_Phy root) brk_start_addr = f + PAGE_USER_Page).
Proof using Type.
  intros U [B1 B2 B3 B4 [B5 B5'] B6 B7 B8 B9 B10 _] Hmms.
  assert (code_start_addr ∈ fork_pages mm) as Hcode by (unfold fork_pages; destruct (_ =? _); set_solver).
  destruct (B2 _ Hcode) as (f & f0 & _ & _ & Ef & Hf & Hfn & _). cbn [pgd set_pgd] in Ef.
  destruct (exit_mm_tables s' newmm (set_pgd (Virt_To_Phy root) mm) root t1 t2 f)
    as (s'' & E & Ew & Em & El & Et & Efr); try done.
  { rewrite B8. set_solver. }
  { rewrite B9. intros Hx. assert (newmm ∉ live s.(vheap)) as Hn by (apply B7; set_solver).
    rewrite !NoDup_cons in B6. apply elem_of_union in Hx as [Hx|Hx%tables_live]; set_solver. }
  assert (forall t, t ∈ tables s.(vheap) -> t ∈ live s.(vheap)) as Htl by apply tables_live.
  exists s''. split_and!; [done|rewrite El, B8; set_solver|rewrite Et, B9; set_solver| |done|..].
  - rewrite Em, B5. apply delete_insert_id. destruct (s.(mms) !! newmm) eqn:En; [|done].
    exfalso. apply (B7 newmm); [set_solver|]. apply Hmms. by eexists.
  - intros Hh. rewrite Efr. unfold fork_pages in B10. rewrite Hh in B10. cbn [Z.eqb] in B10.
    apply set_eq. intros g. rewrite elem_of_difference, elem_of_singleton. split.
    + intros [Hg Hne]. apply B10 in Hg as [?|(va & Hva & Ev)]; [done|]. apply list_elem_of_singleton in Hva as ->.
      rewrite Ef in Ev. lia.
    + intros Hg. split; [by apply B4|]. by intros ->.
  - intros Hh. unfold fork_pages in B2, B10. rewrite (proj2 (Z.eqb_neq _ _) Hh) in B2, B10.
    destruct (B2 brk_start_addr) as (fb & fb0 & _ & _ & Eb & Hfb & Hfbn & _); [apply list_elem_of_here|].
    assert (fb <> f) as Hne.
    { intros ->. assert (code_start_addr / 2 ^ 21 = brk_start_addr / 2 ^ 21) as Hp; [|done].
      apply (uo_inj _ _ _ B1); [done|done| |by etrans]. change (walk s'.(words) (Virt_To_Phy root) code_start_addr <> 0).
      rewrite Ef. by apply (frame_entry s'). }
    exists fb. split_and!; [done| |done]. rewrite Efr. apply set_eq. intros g.
    rewrite elem_of_difference, elem_of_union, !elem_of_singleton. split.
    + intros [Hg Hg']. apply B10 in Hg as [?|(va & Hva & Ev)]; [by right|left].
      cbn [pgd set_pgd] in Eb. apply elem_of_cons in Hva as [->|Hva]; [rewrite Eb in Ev; lia|].
      apply list_elem_of_singleton in Hva as ->. rewrite Ef in Ev. lia.
    + intros [->|Hg]; [done|]. split; [by apply B4|]. by intros ->.
Qed.
End Copy.
