(* ===== verification/Pool.v ===== *)
(** * A heap that satisfies the laws of the allocators

    Objects take slots of 32768 bytes above 1 GB, pages lie below; the next free number is the
    largest in use plus one.  It shows that the classes of [Alloc] and [Paging] can be
    instantiated; the concrete examples of [Paging] and [Mm] run on it. *)

From S2P Require Import Prelude PageAlloc Alloc Paging Mm.

Record pool := mkPool { objects : gset N; pages_4K : gset N; pages_2M : gset N }.

Definition top (X : gset N) : N := foldr N.max 0%N (elements X).

Definition object_at (i : N) : Z := PAGE_OFFSET + 2 ^ 30 + 2 ^ 15 * Z.of_N i.
Definition object_of (a : Z) : N := Z.to_N ((a - (PAGE_OFFSET + 2 ^ 30)) / 2 ^ 15).
Definition frame_at (i : N) : Z := 2 ^ 21 * Z.of_N i.
Definition frame_of (e : Z) : N := Z.to_N (e / 2 ^ 21).

#[export] Instance pool_allocator : Allocator pool := {|
  alloc n m :=
    let i := (top m.(objects) + 1)%N in
    if (i <? 65536)%N then
      Some (object_at i, mkPool ({[ i ]} ∪ m.(objects))
        (if n =? PAGE_4K_SIZE then {[ i ]} ∪ m.(pages_4K) else m.(pages_4K) ∖ {[ i ]}) m.(pages_2M))
    else Some (0, m);
  release a m :=
    let i := object_of a in
    Some (1, mkPool (m.(objects) ∖ {[ i ]}) (m.(pages_4K) ∖ {[ i ]}) m.(pages_2M))
|}.

#[export] Instance pool_frames : Frames pool := {|
  take_frame m :=
    let i := (top m.(pages_2M) + 1)%N in
    if (i <? 512)%N then Some (Some (frame_at i), mkPool m.(objects) m.(pages_4K) ({[ i ]} ∪ m.(pages_2M)))
    else Some (None, m);
  give_frame e m := Some (mkPool m.(objects) m.(pages_4K) (m.(pages_2M) ∖ {[ frame_of e ]}))
|}.

(** ** The largest element *)

Lemma top_ge X i : i ∈ X -> (i <= top X)%N.
Proof.
  intros Hi. unfold top. apply elem_of_elements in Hi. induction (elements X) as [|x l IH];
    [by apply not_elem_of_nil in Hi|]. apply elem_of_cons in Hi as [->|Hi]; cbn; [lia|].
  specialize (IH Hi). lia.
Qed.

Lemma top_le X b : (forall i, i ∈ X -> (i <= b)%N) -> (top X <= b)%N.
Proof.
  intros Hb. unfold top. assert (forall i, i ∈ elements X -> (i <= b)%N) as H
    by (intros i Hi; apply Hb; by apply elem_of_elements).
  induction (elements X) as [|x l IH]; cbn; [lia|]. apply N.max_lub.
  - apply H, list_elem_of_here.
  - apply IH. intros i Hi. by apply H, list_elem_of_further.
Qed.

Lemma top_fresh X : (top X + 1)%N ∉ X.
Proof. intros H. apply top_ge in H. lia. Qed.

Lemma top_next X : (top ({[ top X + 1 ]} ∪ X) = top X + 1)%N.
Proof.
  apply N.le_antisymm.
  - apply top_le. intros i Hi. apply elem_of_union in Hi as [Hi|Hi];
      [apply elem_of_singleton in Hi; lia|apply top_ge in Hi; lia].
  - apply top_ge. set_solver.
Qed.

Lemma top_less X Y : X ⊆ Y -> (top X <= top Y)%N.
Proof. intros HXY. apply top_le. intros i Hi. by apply top_ge, HXY. Qed.

#[export] Instance object_at_inj : Inj (=) (=) object_at.
Proof. intros i j. unfold object_at. lia. Qed.
#[export] Instance frame_at_inj : Inj (=) (=) frame_at.
Proof. intros i j. unfold frame_at. lia. Qed.

Lemma object_of_at i a : 0 <= a < 2 ^ 15 -> object_of (object_at i + a) = i.
Proof.
  intros Ha. unfold object_of, object_at.
  replace (PAGE_OFFSET + 2 ^ 30 + 2 ^ 15 * Z.of_N i + a - (PAGE_OFFSET + 2 ^ 30))
    with (Z.of_N i * 2 ^ 15 + a) by lia.
  rewrite Z.div_add_l, Z.div_small by lia. lia.
Qed.

Lemma frame_of_at i a : 0 <= a < 2 ^ 21 -> frame_of (frame_at i + a) = i.
Proof.
  intros Ha. unfold frame_of, frame_at. replace (2 ^ 21 * Z.of_N i + a) with (Z.of_N i * 2 ^ 21 + a) by lia.
  rewrite Z.div_add_l, Z.div_small by lia. lia.
Qed.

Lemma object_at_table i : (i < 65536)%N -> valid_table (object_at i).
Proof.
  intros Hi. unfold valid_table, object_at, PAGE_OFFSET. split_and!; [lia..|].
  replace (0xffff800000000000 + 2 ^ 30 + 2 ^ 15 * Z.of_N i)
    with (0 + (0xffff800000000 + 2 ^ 18 + 8 * Z.of_N i) * 2 ^ 12) by lia. apply Z_mod_plus_full.
Qed.

(** ** Images *)

Section Images.
Context (f : N -> Z) `{!Inj (=) (=) f}.
Implicit Types (X : gset N) (i : N).

Lemma image_in X i : f i ∈ set_map (D := gset Z) f X <-> i ∈ X.
Proof using All.
  rewrite elem_of_map. split; [|by exists i]. intros (j & E & Hj). by apply (inj f) in E as ->.
Qed.

Lemma image_add X i : set_map (D := gset Z) f ({[ i ]} ∪ X) = {[ f i ]} ∪ set_map f X.
Proof using Type. by rewrite set_map_union_L, set_map_singleton_L. Qed.

Lemma image_del X i : set_map (D := gset Z) f (X ∖ {[ i ]}) = set_map f X ∖ {[ f i ]}.
Proof using All.
  apply set_eq. intros z. rewrite elem_of_difference, !elem_of_map, elem_of_singleton. split.
  - intros (j & -> & Hj). split; [exists j; set_solver|]. intros E%(inj f). set_solver.
  - intros [(j & -> & Hj) Hne]. exists j. split; [done|]. set_solver.
Qed.
End Images.

(** ** The laws *)

#[export] Program Instance pool_laws : AllocatorLaws pool := {|
  room m k := (top m.(objects) + N.of_nat k < 65536)%N;
  live m := set_map object_at m.(objects)
|}.
Next Obligation.
  cbn. intros n m a m' E. destruct (N.ltb_spec (top m.(objects) + 1) 65536); simplify_eq; [right|by left].
  split_and!; cbn; [unfold object_at, PAGE_OFFSET; lia| |apply image_add; apply _].
  rewrite image_in by apply _. apply top_fresh.
Qed.
Next Obligation.
  cbn. intros n m k _ Hr. rewrite (proj2 (N.ltb_lt _ _)) by lia. eexists _, _. split; [done|]. cbn.
  rewrite top_next. split; [unfold object_at, PAGE_OFFSET; lia|lia].
Qed.
Next Obligation.
  cbn. intros a m Ha. apply elem_of_map in Ha as (i & -> & Hi). eexists _, _. split; [done|]. cbn.
  replace (object_of (object_at i)) with i by (rewrite <- (object_of_at i 0) at 1; [by rewrite Z.add_0_r|lia]).
  split; [apply image_del; apply _|]. intros k Hk.
  assert (top (m.(objects) ∖ {[ i ]}) <= top m.(objects))%N by (by apply top_less; set_solver). lia.
Qed.
Next Obligation. cbn. intros m k Hk. lia. Qed.

#[export] Program Instance pool_paging : PagingLaws pool := {|
  tables m := set_map object_at (m.(pages_4K) ∩ m.(objects));
  frames m := set_map frame_at (filter (fun i => i < 512)%N m.(pages_2M));
  capacity m j k := (top m.(objects) + N.of_nat j < 65536)%N /\ (top m.(pages_2M) + N.of_nat k < 512)%N
|}.
Next Obligation.
  cbn. intros m f Hf. apply elem_of_map in Hf as (i & -> & Hi). apply elem_of_filter in Hi as [Hi _].
  unfold valid_frame, frame_at. split_and!; [lia..|]. rewrite Z.mul_comm. apply Z_mod_mult.
Qed.
Next Obligation. cbn. intros m. set_solver. Qed.
Next Obligation.
  cbn. intros m t f Ht Hf. apply elem_of_map in Ht as (i & -> & _). apply elem_of_map in Hf as (j & -> & Hj).
  apply elem_of_filter in Hj as [Hj _]. right. unfold Phy_To_Virt, frame_at, object_at, PAGE_OFFSET.
  rewrite u64_small; lia.
Qed.
Next Obligation.
  cbn. intros m a m' E Ha. destruct (N.ltb_spec (top m.(objects) + 1) 65536); simplify_eq.
  split; [by apply object_at_table|]. cbn. rewrite <- image_add. f_equal. set_solver.
Qed.
Next Obligation.
  cbn. intros n m a m' E Hn. rewrite (proj2 (Z.eqb_neq _ _) Hn) in E.
  destruct (N.ltb_spec (top m.(objects) + 1) 65536); simplify_eq; [|done]. cbn. f_equal.
  pose proof (top_fresh m.(objects)). set_solver.
Qed.
Next Obligation.
  cbn. intros n m a m' E. destruct (N.ltb_spec (top m.(objects) + 1) 65536); by simplify_eq.
Qed.
Next Obligation.
  cbn. intros n m j k _ [Hr Hf]. rewrite (proj2 (N.ltb_lt _ _)) by lia. eexists _, _. split; [done|]. cbn.
  rewrite top_next. split; [unfold object_at, PAGE_OFFSET; lia|]. split; lia.
Qed.
Next Obligation. cbn. intros m. destruct (_ <? _)%N; by eexists. Qed.
Next Obligation.
  cbn. intros m p m' E. destruct (N.ltb_spec (top m.(pages_2M) + 1) 512); simplify_eq; [|done]. cbn.
  split_and!; [done..| |].
  - rewrite image_in by apply _. rewrite elem_of_filter. intros [_ Hf]. by apply top_fresh in Hf.
  - rewrite <- image_add. f_equal. set_solver.
Qed.
Next Obligation. cbn. intros m j k Hk. lia. Qed.
Next Obligation. cbn. intros m j k Hk. lia. Qed.
Next Obligation.
  cbn. intros m j k [Hr Hf]. rewrite (proj2 (N.ltb_lt _ _)) by lia. eexists _, _. split; [done|]. cbn.
  rewrite top_next. lia.
Qed.
Next Obligation.
  cbn. intros m f a Hf Ha. apply elem_of_map in Hf as (i & -> & Hi). eexists. split; [done|]. cbn.
  rewrite frame_of_at by done. split_and!; [|done..]. rewrite <- image_del by apply _. f_equal. set_solver.
Qed.
Next Obligation.
  cbn. intros m t a Ht Ha. apply elem_of_map in Ht as (i & -> & Hi). eexists _, _. split; [done|]. cbn.
  rewrite object_of_at by lia. rewrite <- !image_del by apply _. split_and!; [done|f_equal; set_solver|done].
Qed.
Next Obligation.
  cbn. intros m a r m' E Ha. simplify_eq. cbn. split; [|done].
  apply elem_of_difference in Ha as [Ha Hn]. apply elem_of_map in Ha as (i & -> & Hi).
  replace (object_of (object_at i)) with i by (rewrite <- (object_of_at i 0) at 1; [by rewrite Z.add_0_r|lia]).
  rewrite image_in in Hn by apply _. f_equal. set_solver.
Qed.

(** ** Concrete address spaces *)

(** A process whose root table is the object 1, whose descriptor is the object 2 and whose heap
    is empty and starts at 0xc00000. *)
Definition mm_demo : mm_struct :=
  mkMm (Virt_To_Phy (object_at 1)) 0 0 0 0 0 0 0 0 0xc00000 0xc00000 0xa00000.
Definition vm_demo (frames : gset N) : vm pool :=
  mkVm (fun _ => 0) {[ object_at 2 := mm_demo ]} (object_at 2) (mkPool {[ 1%N; 2%N ]} {[ 1%N ]} frames).

Lemma vm_demo_ok X : user_ok (vm_demo X) mm_demo {[ [] := object_at 1 ]}.
Proof.
  assert (table_of mm_demo.(pgd) = object_at 1) as E by (by vm_compute). rewrite <- E.
  apply (empty_user (vm_demo X) mm_demo); [done|rewrite E; by apply object_at_table| |done].
  rewrite E. cbn [tables pool_paging vheap vm_demo pages_4K objects].
  rewrite (image_in object_at). set_solver.
Qed.

Lemma sys_brk_spec_witness : exists s',
  sys_brk 2 0xc00001 (vm_demo ∅) = Some (0xe00000, s') /\
  is_Some (translate s'.(words) mm_demo.(pgd) 0xdfffff).
Proof.
  destruct (sys_brk_spec (vm_demo ∅) mm_demo _ 2 0xc00001 (vm_demo_ok ∅)) as (_ & _ & H);
    [lia|lia|cbn; lia|reflexivity|].
  destruct H as (s' & L' & E & _ & Ht & _).
  - lia.
  - vm_compute. discriminate.
  - vm_compute. lia.
  - split; vm_compute; reflexivity.
  - exists s'. split; [exact E|]. destruct (Ht 0xdfffff) as (f & _ & -> & _).
    + vm_compute. split; congruence.
    + eexists. reflexivity.
Defined.

(** The pages of a kernel whose zones hold three pages, the third not covered. *)
Lemma pagetable_init_spec_witness : exists s',
  pagetable_init (Virt_To_Phy (object_at 1)) pmm_16M (vm_demo ∅) = Some s' /\
  translate s'.(words) (Virt_To_Phy (object_at 1)) (Phy_To_Virt 0x400123) = Some 0x400123.
Proof.
  destruct (mapped_phys pmm_16M) as [l|] eqn:El; [|vm_compute in El; discriminate].
  destruct (pagetable_init_spec (Virt_To_Phy (object_at 1)) pmm_16M (vm_demo ∅) {[ [] := object_at 1 ]} l El)
    as (s' & L' & E & _ & Ht & _).
  - vm_compute in El. injection El as <-. repeat constructor; unfold valid_frame; try lia; reflexivity.
  - replace (table_of _) with (object_at 1) by (by vm_compute).
    apply empty_tables; [by apply object_at_table| |lia|lia|done].
    cbn [tables pool_paging vheap vm_demo pages_4K objects]. rewrite (image_in object_at). set_solver.
  - vm_compute in El. injection El as <-. split; vm_compute; reflexivity.
  - exists s'. split; [exact E|]. apply (Ht 0x400000 0x123); [|lia].
    vm_compute in El. injection El as <-. by apply (bool_decide_unpack _), I.
Defined.

(** Without memory [sys_brk] records the error code as the end of the heap. *)
Example sys_brk_no_memory :
  (r ← sys_brk 2 0xc00001 (vm_demo {[ 511%N ]}); Some (fst r, end_brk <$> (snd r).(mms) !! object_at 2)) =
  Some (u64 (- Errno.ENOMEM), Some (u64 (- Errno.ENOMEM))).
Proof. vm_compute. reflexivity. Qed.

(** The same process with pages for its code at 0x800000 and for a heap at 0xc00000. *)
Definition vm_run : vm pool := from_option snd (vm_demo ∅) (do_brk 4 0x800000 0x600000 (vm_demo ∅)).
Definition mm_run : mm_struct := set_end_brk 0xe00000 mm_demo.

Lemma vm_run_ok : exists L, user_ok vm_run mm_run L /\
  (forall va, 0x800000 <= va < 0xe00000 -> walk vm_run.(words) mm_run.(pgd) va <> 0) /\
  vm_run.(mms) = {[ object_at 2 := mm_run ]}.
Proof.
  destruct (do_brk_spec (vm_demo ∅) mm_demo _ 4 0x800000 3 (vm_demo_ok ∅))
    as (s1 & s' & L' & E & U & D & Ew & Eh & Ec & Em);
    [lia|reflexivity|lia|lia|split; vm_compute; reflexivity|].
  change (2 ^ 21 * Z.of_nat 3) with 0x600000 in *.
  assert (vm_run = s') as -> by (unfold vm_run; by rewrite E).
  exists L'. split_and!; [done| |].
  - intros va Hva. rewrite Ew. change (pgd mm_run) with (pgd mm_demo). destruct (md_new _ _ _ _ D va) as (f & Hf & -> & _).
    + unfold user. lia.
    + by apply (page_between va _ _ 3).
    + by apply (frame_entry s1).
  - rewrite Em. apply insert_singleton_eq.
Qed.

Lemma vm_run_mms a : is_Some (vm_run.(mms) !! a) -> a ∈ live vm_run.(vheap).
Proof.
  destruct vm_run_ok as (L & _ & _ & ->). intros [m Hm]. apply lookup_singleton_Some in Hm as [<- _].
  apply (bool_decide_unpack _). by vm_compute.
Qed.

Lemma copy_mm_spec_witness : exists L newmm root t1 t2 s',
  copy_mm (Virt_To_Phy (object_at 1)) 0 vm_run = Some (newmm, s') /\
  forked (Virt_To_Phy (object_at 1)) mm_run L newmm root t1 t2 [brk_start_addr; code_start_addr] vm_run s'.
Proof.
  destruct vm_run_ok as (L & U & Hw & _).
  destruct (copy_mm_spec (Virt_To_Phy (object_at 1)) vm_run mm_run L 0 U) as [_ H].
  - replace (Phy_To_Virt _) with (object_at 1) by (by vm_compute). by apply object_at_table.
  - exact vm_run_mms.
  - split; vm_compute; reflexivity.
  - intros va Hva. apply Hw. change (fork_pages mm_run) with [brk_start_addr; code_start_addr] in Hva.
    rewrite !elem_of_cons in Hva. unfold brk_start_addr, code_start_addr in Hva.
    destruct Hva as [->|[->|Hva]]; [lia..|by apply not_elem_of_nil in Hva].
  - destruct (H eq_refl) as (newmm & root & t1 & t2 & s' & E & K).
    exists L, newmm, root, t1, t2, s'. split; [exact E|exact K].
Defined.

(** Forking a process with a heap and waiting for the child loses a page. *)
Lemma exit_mm_copy_mm_witness : exists newmm s' s'' f,
  copy_mm (Virt_To_Phy (object_at 1)) 0 vm_run = Some (newmm, s') /\ exit_mm newmm 0 s' = Some s'' /\
  f ∉ frames vm_run.(vheap) /\ frames s''.(vheap) = {[ f ]} ∪ frames vm_run.(vheap).
Proof.
  destruct vm_run_ok as (L & U & Hw & _).
  destruct (copy_mm_forked (Virt_To_Phy (object_at 1)) vm_run mm_run L 0 U) as (newmm & root & t1 & t2 & s' & E & K).
  - replace (Phy_To_Virt _) with (object_at 1) by (by vm_compute). by apply object_at_table.
  - exact vm_run_mms.
  - split; vm_compute; reflexivity.
  - intros va Hva. apply Hw. change (fork_pages mm_run) with [brk_start_addr; code_start_addr] in Hva.
    rewrite !elem_of_cons in Hva. unfold brk_start_addr, code_start_addr in Hva.
    destruct Hva as [->|[->|Hva]]; [lia..|by apply not_elem_of_nil in Hva].
  - reflexivity.
  - destruct (exit_mm_copy_mm (Virt_To_Phy (object_at 1)) vm_run s' mm_run L newmm root t1 t2 U K vm_run_mms)
      as (s'' & E' & _ & _ & _ & _ & _ & Hf).
    destruct Hf as (f & Hf1 & Hf2 & _); [vm_compute; discriminate|].
    exists newmm, s', s'', f. split; [exact E|]. split; [exact E'|]. split; [exact Hf1|exact Hf2].
Defined.
