(* ===== verification/Task.v ===== *)
(** * Creation, exit and waiting of tasks (task.c, sys.c)

    [do_fork], [do_exit], [sys_wait4] and what they call, on one processor, over the scheduler
    of [Sched] and the address spaces of [Mm].  A [struct task_struct *] is its address; its
    [list] member, by which [Sched] names the task, lies at offset 56, and its wait queue
    [wait_childexit] at offset 192.  The members the scheduler uses are in [tasks], the others
    in [procs]. *)

From S2P Require Import Prelude Klist PageAlloc Sched Alloc Bytes Errno Paging Mm.

Local Open Scope cint_scope.

Definition STACK_SIZE : Z := 32768.
Definition KERNEL_CS : Z := 0x08.
Definition KERNEL_DS : Z := 0x10.

(** Offsets in [struct task_struct], and the sizes of it and of [struct pt_regs]. *)
Definition list_at (tsk : Z) : Z := tsk .+ 56.
Definition task_at (list : Z) : Z := list .- 56.
Definition wait_childexit (tsk : Z) : Z := tsk .+ 192.
Definition sizeof_task_struct : Z := 232.
Definition sizeof_pt_regs : Z := 192.

Record pt_regs := mkRegs {
  r15 : Z; r14 : Z; r13 : Z; r12 : Z; r11 : Z; r10 : Z; r9 : Z; r8 : Z;
  rbx : Z; rcx : Z; rdx : Z; rsi : Z; rdi : Z; rbp : Z; ds : Z; es : Z; rax : Z;
  func : Z; errcode : Z; rip : Z; cs : Z; rflags : Z; rsp : Z; ss : Z
}.

Definition child_regs (stack_start : Z) (r : pt_regs) : pt_regs :=
  mkRegs r.(r15) r.(r14) r.(r13) r.(r12) r.(r11) r.(r10) r.(r9) r.(r8) r.(rbx) r.(rcx) r.(rdx)
    r.(rsi) r.(rdi) r.(rbp) r.(ds) r.(es) 0 r.(func) r.(errcode) r.(rip) r.(cs) r.(rflags)
    stack_start r.(ss).

Record thread_struct := mkThread {
  rsp0 : Z; t_rip : Z; t_rsp : Z; fs : Z; gs : Z; cr2 : Z; trap_nr : Z; error_code : Z
}.

(** The members of [struct task_struct] that [Sched.task] leaves out; [wait_childexit] is in the
    memory of the scheduler. *)
Record proc := mkProc {
  preempt_count : Z; signal : Z; cpu_id : Z;
  mm : Z; thread : Z; addr_limit : Z; pid : Z;
  file_struct : list Z; exit_code : Z; next : Z; parent : Z
}.

Definition set_mm (m : Z) (p : proc) : proc :=
  mkProc p.(preempt_count) p.(signal) p.(cpu_id) m p.(thread) p.(addr_limit) p.(pid)
    p.(file_struct) p.(exit_code) p.(next) p.(parent).
Definition set_thread (t : Z) (p : proc) : proc :=
  mkProc p.(preempt_count) p.(signal) p.(cpu_id) p.(mm) t p.(addr_limit) p.(pid)
    p.(file_struct) p.(exit_code) p.(next) p.(parent).
Definition set_exit_code (e : Z) (p : proc) : proc :=
  mkProc p.(preempt_count) p.(signal) p.(cpu_id) p.(mm) p.(thread) p.(addr_limit) p.(pid)
    p.(file_struct) e p.(next) p.(parent).
Definition set_task_next (n : Z) (p : proc) : proc :=
  mkProc p.(preempt_count) p.(signal) p.(cpu_id) p.(mm) p.(thread) p.(addr_limit) p.(pid)
    p.(file_struct) p.(exit_code) n p.(parent).

(** What [do_fork] changes in the copy of the parent's [task_struct]. *)
Definition child_proc (global_pid cpu next parent : Z) (p : proc) : proc :=
  mkProc 0 p.(signal) cpu p.(mm) p.(thread) p.(addr_limit) global_pid p.(file_struct)
    p.(exit_code) next parent.
Definition child_task (t : task) : task := mkTask TASK_UNINTERRUPTIBLE t.(flags) 2 t.(vrun_time).

Definition set_flags (f : Z) (t : task) : task := mkTask t.(state) f t.(priority) t.(vrun_time).

(** [kstacks] are the register frames on kernel stacks, by address, and [umem] the memory of
    the current process. *)
Record kstate (M : Type) := mkK {
  cpu : sched;
  space : vm M;
  procs : gmap Z proc;
  threads : gmap Z thread_struct;
  kstacks : gmap Z pt_regs;
  umem : gmap Z Z;
  global_pid : Z
}.
Arguments mkK {M}.
Arguments cpu {M}.
Arguments space {M}.
Arguments procs {M}.
Arguments threads {M}.
Arguments kstacks {M}.
Arguments umem {M}.
Arguments global_pid {M}.

Section Task.
Context {M : Type} `{Frames M}.
(** The run queue of the processor, [init_task] and the address of [init_task_union.task], the
    kernel's page table, the number of the processor, and two addresses of code. *)
Context (queue init_task init_union init_pgd SMP_cpu_id ret_system_call kernel_thread_func : Z).
Implicit Type s : kstate M.

Definition set_cpu (c : sched) s : kstate M :=
  mkK c s.(space) s.(procs) s.(threads) s.(kstacks) s.(umem) s.(global_pid).
Definition set_space (v : vm M) s : kstate M :=
  mkK s.(cpu) v s.(procs) s.(threads) s.(kstacks) s.(umem) s.(global_pid).
Definition set_procs (p : gmap Z proc) s : kstate M :=
  mkK s.(cpu) s.(space) p s.(threads) s.(kstacks) s.(umem) s.(global_pid).
Definition set_threads (t : gmap Z thread_struct) s : kstate M :=
  mkK s.(cpu) s.(space) s.(procs) t s.(kstacks) s.(umem) s.(global_pid).
Definition set_kstacks (k : gmap Z pt_regs) s : kstate M :=
  mkK s.(cpu) s.(space) s.(procs) s.(threads) k s.(umem) s.(global_pid).
Definition set_memory (u : gmap Z Z) s : kstate M :=
  mkK s.(cpu) s.(space) s.(procs) s.(threads) s.(kstacks) u s.(global_pid).
Definition set_global_pid (g : Z) s : kstate M :=
  mkK s.(cpu) s.(space) s.(procs) s.(threads) s.(kstacks) s.(umem) g.

(** [current]. *)
Definition cur s : Z := task_at s.(cpu).(current).

Definition upd_proc (tsk : Z) (f : proc -> proc) s : option (kstate M) :=
  p ← s.(procs) !! tsk; Some (set_procs (<[tsk := f p]> s.(procs)) s).
Definition upd_cpu (f : sched -> option sched) s : option (kstate M) :=
  c ← f s.(cpu); Some (set_cpu c s).

(** The address space of the current process. *)
Definition cur_space s : option (vm M) :=
  p ← s.(procs) !! cur s; Some (set_cmm p.(mm) s.(space)).

Fixpoint get_task_loop (fuel : nat) (id tsk : Z) s : option Z :=
  match fuel with
  | O => None
  | S fuel =>
      if tsk =? init_union then Some 0
      else p ← s.(procs) !! tsk; if p.(pid) =? id then Some tsk else get_task_loop fuel id p.(next) s
  end.
Definition get_task (fuel : nat) (id : Z) s : option Z :=
  p ← s.(procs) !! init_union; get_task_loop fuel id p.(next) s.

(** ** task.c: the parts of [do_fork]

    Each returns its error and the state. *)
Definition copy_flags (clone_flags tsk : Z) s : option (Z * kstate M) :=
  if negb (clone_flags .& CLONE_VM =? 0) then
    t ← s.(cpu).(tasks) !! list_at tsk;
    c ← upd_task (list_at tsk) (set_flags (t.(flags) .| PF_VFORK)) s.(cpu);
    Some (0, set_cpu c s)
  else Some (0, s).

Definition copy_files (clone_flags tsk : Z) s : Z * kstate M := (0, s).
Definition exit_files (tsk : Z) s : kstate M := s.
Definition exit_thread (tsk : Z) s : kstate M := s.

Definition copy_task_mm (clone_flags tsk : Z) s : option (Z * kstate M) :=
  v ← cur_space s;
  r ← copy_mm init_pgd clone_flags v;
  let '(newmm, v) := r in
  s ← upd_proc tsk (set_mm newmm) (set_space v s);
  Some (0, s).

Definition exit_task_mm (tsk : Z) s : option (kstate M) :=
  p ← s.(procs) !! tsk;
  t ← s.(cpu).(tasks) !! list_at tsk;
  v ← exit_mm p.(mm) t.(flags) s.(space);
  Some (set_space v s).

Definition copy_thread (clone_flags stack_start stack_size tsk : Z) (regs : pt_regs) s : option (Z * kstate M) :=
  let thd := tsk .+ sizeof_task_struct in
  s ← upd_proc tsk (set_thread thd) s;
  let childregs := tsk .+ STACK_SIZE .- sizeof_pt_regs in
  let s := set_kstacks (<[childregs := child_regs stack_start regs]> s.(kstacks)) s in
  p ← s.(procs) !! cur s;
  t ← s.(threads) !! p.(thread);
  c ← s.(cpu).(tasks) !! list_at tsk;
  let ip := if negb (c.(flags) .& PF_KTHREAD =? 0) then kernel_thread_func else ret_system_call in
  Some (0, set_threads (<[thd := mkThread (tsk .+ STACK_SIZE) ip childregs t.(fs) t.(gs) 0 0 0]> s.(threads)) s).

(** [kfree(tsk)]; what was at this address is gone. *)
Definition free_task (tsk : Z) s : option (kstate M) :=
  r ← release tsk s.(space).(vheap);
  Some (set_procs (delete tsk s.(procs))
    (set_cpu (set_tasks (delete (list_at tsk) s.(cpu).(tasks)) s.(cpu))
      (set_space (set_vheap (snd r) s.(space)) s))).

(** The new [task_struct], linked behind [init_task_union]. *)
Definition new_task (tsk : Z) s : option (kstate M) :=
  p ← s.(procs) !! cur s;
  t ← s.(cpu).(tasks) !! list_at (cur s);
  let c := set_tasks (<[list_at tsk := child_task t]> s.(cpu).(tasks)) s.(cpu) in
  let c := set_nodes (list_init (list_at tsk) c.(nodes)) c in
  h ← s.(procs) !! init_union;
  let child := child_proc s.(global_pid) SMP_cpu_id h.(next) (cur s) p in
  s ← upd_proc init_union (set_task_next tsk) (set_procs (<[tsk := child]> s.(procs)) (set_cpu c s));
  let s := set_global_pid (i64 (s.(global_pid) + 1)) s in
  Some (set_cpu (wait_queue_init (wait_childexit tsk) 0 s.(cpu)) s).

Definition do_fork (regs : pt_regs) (clone_flags stack_start stack_size : Z) s : option (Z * kstate M) :=
  r ← alloc STACK_SIZE s.(space).(vheap);
  let '(tsk, h) := r in
  let s := set_space (set_vheap h s.(space)) s in
  if tsk =? 0 then
    s ← free_task tsk s; Some (u64 (- EAGAIN), s)
  else
    s ← new_task tsk s;
    let retval := u64 (- ENOMEM) in
    r ← copy_flags clone_flags tsk s;
    let '(e, s) := r in
    if negb (e =? 0) then s ← free_task tsk s; Some (retval, s)
    else
    r ← copy_task_mm clone_flags tsk s;
    let '(e, s) := r in
    if negb (e =? 0) then s ← exit_task_mm tsk s; s ← free_task tsk s; Some (retval, s)
    else
    let '(e, s) := copy_files clone_flags tsk s in
    if negb (e =? 0) then
      s ← exit_task_mm tsk (exit_files tsk s); s ← free_task tsk s; Some (retval, s)
    else
    r ← copy_thread clone_flags stack_start stack_size tsk regs s;
    let '(e, s) := r in
    if negb (e =? 0) then
      s ← exit_task_mm tsk (exit_files tsk (exit_thread tsk s)); s ← free_task tsk s; Some (retval, s)
    else
    p ← s.(procs) !! tsk;
    s ← upd_cpu (wakeup_process queue init_task (list_at tsk)) s;
    Some (u64 (i32 p.(pid)), s).

Definition kernel_thread (fn arg fl : Z) s : option (Z * kstate M) :=
  let regs := mkRegs 0 0 0 0 0 0 0 0 fn 0 arg 0 0 0 KERNEL_DS KERNEL_DS 0 0 0 kernel_thread_func
    KERNEL_CS (1 .<< 9) 0 KERNEL_DS in
  do_fork regs (fl .| CLONE_VM) 0 0 s.

(** [(struct pt_regs * )current->thread->rsp0 - 1] *)
Definition user_regs s : option pt_regs :=
  p ← s.(procs) !! cur s; t ← s.(threads) !! p.(thread);
  s.(kstacks) !! (t.(rsp0) .- sizeof_pt_regs).

Definition sys_fork s : option (Z * kstate M) :=
  regs ← user_regs s; do_fork regs 0 regs.(rsp) 0 s.
Definition sys_vfork s : option (Z * kstate M) :=
  regs ← user_regs s; do_fork regs (CLONE_VM .| CLONE_FS .| CLONE_SIGNAL) regs.(rsp) 0 s.

(** ** Exit *)

Definition exit_notify s : option (kstate M) :=
  p ← s.(procs) !! cur s;
  upd_cpu (wakeup queue init_task (wait_childexit p.(parent)) TASK_INTERRUPTIBLE) s.

(** One round of the loop of [do_exit]; after [schedule] another task runs. *)
Definition do_exit (code : Z) s : option (kstate M) :=
  let tsk := cur s in
  s ← upd_cpu (upd_task (list_at tsk) (set_state TASK_ZOMBIE)) s;
  s ← upd_proc tsk (set_exit_code (i64 code)) s;
  s ← exit_notify (exit_files tsk (exit_thread tsk s));
  upd_cpu (schedule queue init_task) s.

Definition sys_exit (code : Z) s : option (kstate M) := do_exit (u64 (i32 code)) s.

(** ** sys.c: [sys_wait4]

    The search: the predecessor [tsk] and the child, NULL when there is none. *)
Fixpoint find_child (fuel : nat) (id tsk : Z) s : option (Z * Z) :=
  match fuel with
  | O => None
  | S fuel =>
      p ← s.(procs) !! tsk;
      if p.(next) =? init_union then Some (tsk, 0)
      else
        c ← s.(procs) !! p.(next);
        if u64 c.(pid) =? id then Some (tsk, p.(next)) else find_child fuel id p.(next) s
  end.

(** From [copy_to_user] to the end; [size] bytes are copied. *)
Definition reap (size : nat) (status tsk child : Z) s : option (Z * kstate M) :=
  c ← s.(procs) !! child;
  let s := set_memory (fst (copy_to_user (le_bytes size c.(exit_code)) status s.(umem))) s in
  s ← upd_proc tsk (set_task_next c.(next)) s;
  s ← exit_task_mm child s;
  s ← free_task child s;
  Some (0, s).

(** [sys_wait4] returns, or sleeps and goes on with [wait4_resume] when it is woken. *)
Inductive wait4_result := returned (retval : Z) | waiting (tsk child : Z).

Definition sys_wait4 (fuel : nat) (id status options wait : Z) s : option (wait4_result * kstate M) :=
  r ← find_child fuel id init_union s;
  let '(tsk, child) := r in
  if child =? 0 then Some (returned (u64 (- ECHILD)), s)
  else if negb (options =? 0) then Some (returned (u64 (- EINVAL)), s)
  else
    c ← s.(cpu).(tasks) !! list_at child;
    if c.(state) =? TASK_ZOMBIE then
      r ← reap 4 status tsk child s;
      let '(v, s) := r in Some (returned v, s)
    else
      s ← upd_cpu (interruptible_sleep_on queue init_task wait (wait_childexit (cur s))) s;
      Some (waiting tsk child, s).

Definition wait4_resume (status tsk child : Z) s : option (Z * kstate M) := reap 8 status tsk child s.
End Task.

(** ** The list of tasks *)

Section Chain.
Implicit Types (ps : gmap Z proc) (a b x y e : Z) (l : list Z).

(** From [a], the members [next] lead through [l] to [e]. *)
Fixpoint pchain ps a l e : Prop :=
  match l with
  | [] => next <$> ps !! a = Some e
  | b :: l => next <$> ps !! a = Some b /\ pchain ps b l e
  end.

Lemma pchain_move ps ps' a a' l e : pchain ps a l e -> next <$> ps' !! a' = next <$> ps !! a ->
  (forall x, x ∈ l -> next <$> ps' !! x = next <$> ps !! x) -> pchain ps' a' l e.
Proof.
  revert a a'. induction l as [|b l IH]; intros a a' Hc Ha Hl; cbn in *; [congruence|].
  split; [destruct Hc; congruence|]. destruct Hc as [_ Hc].
  apply (IH b b Hc); [apply Hl, list_elem_of_here|]. intros x Hx. by apply Hl, list_elem_of_further.
Qed.

Lemma pchain_app ps a l1 b l2 e : pchain ps a (l1 ++ b :: l2) e <-> pchain ps a l1 b /\ pchain ps b l2 e.
Proof.
  revert a. induction l1 as [|c l1 IH]; intros a; cbn; [done|]. rewrite IH. tauto.
Qed.

Lemma pchain_lookup ps a l e x : pchain ps a l e -> x ∈ a :: l -> is_Some (ps !! x).
Proof.
  revert a. induction l as [|b l IH]; intros a Hc Hx; cbn in Hc.
  - apply list_elem_of_singleton in Hx as ->. by destruct (ps !! a).
  - destruct Hc as [Ha Hc]. apply elem_of_cons in Hx as [->|Hx]; [by destruct (ps !! a)|by apply (IH b)].
Qed.

Lemma last_cons b a l : List.last (b :: l) a = List.last l b.
Proof. revert b. induction l as [|c l IH]; intros b; [done|]. cbn. destruct l; [done|]. apply IH. Qed.

Lemma last_in a l : List.last l a ∈ a :: l.
Proof.
  revert a. induction l as [|b l IH]; intros a; [apply list_elem_of_here|].
  rewrite last_cons. apply list_elem_of_further, IH.
Qed.

(** A change of the last [next]. *)
Lemma pchain_last ps a l e v p : pchain ps a l e -> NoDup (a :: l) -> ps !! List.last l a = Some p ->
  pchain (<[List.last l a := set_task_next v p]> ps) a l v.
Proof.
  revert a. induction l as [|b l IH]; intros a Hc Hn Hp.
  - cbn. by rewrite lookup_insert_eq.
  - destruct Hc as [Ha Hc]. rewrite last_cons in *. apply NoDup_cons in Hn as [Hn Hn']. split.
    + rewrite lookup_insert_ne; [done|]. intros El. apply Hn. rewrite <- El. apply last_in.
    + by apply IH.
Qed.

(** Taking a task out of the list. *)
Lemma pchain_unlink ps a l1 c l2 e p pc : pchain ps a (l1 ++ c :: l2) e -> NoDup (a :: l1 ++ c :: l2) ->
  ps !! List.last l1 a = Some p -> ps !! c = Some pc ->
  pchain (<[List.last l1 a := set_task_next pc.(next) p]> ps) a (l1 ++ l2) e.
Proof.
  intros [H1 H2]%pchain_app Hn Hp Hc.
  pose proof (last_in a l1) as Hlast.
  assert (NoDup (a :: l1) /\ forall x, x ∈ l2 -> x ∉ a :: l1) as [Hn1 Hn2].
  { rewrite app_comm_cons in Hn. apply NoDup_app in Hn as (? & Hd & _). split; [done|].
    intros x Hx Hx'. apply (Hd x Hx'). by apply list_elem_of_further. }
  pose proof (pchain_last _ _ _ _ pc.(next) _ H1 Hn1 Hp) as K.
  destruct l2 as [|d l2]; cbn in H2; rewrite Hc in H2; cbn in H2.
  - rewrite app_nil_r. congruence.
  - destruct H2 as [[= <-] H2]. apply pchain_app. split; [done|].
    assert (forall x, x ∈ pc.(next) :: l2 -> List.last l1 a <> x) as Hne by (intros x Hx <-; by apply (Hn2 _ Hx)).
    apply (pchain_move _ _ _ _ _ _ H2); [|intros x Hx]; rewrite lookup_insert_ne; try done; apply Hne; set_solver.
Qed.
End Chain.

(** ** What the theorems assume

    The objects [kmalloc] returns for a [task_struct] and its stack are aligned to their size,
    as [get_current] needs it. *)
Class TaskLaws (M : Type) `{PagingLaws M} := {
  task_range : Z -> Prop;
  task_aligned a : task_range a -> 0 < a /\ a + STACK_SIZE <= 2 ^ 64 /\ a mod STACK_SIZE = 0;
  alloc_task m a m' : alloc STACK_SIZE m = Some (a, m') -> a <> 0 -> task_range a
}.

Definition in_memory (t : Z) : Prop := 0 < t /\ t + sizeof_task_struct <= 2 ^ 64.

Lemma list_at_memory t : in_memory t -> list_at t = t + 56.
Proof. unfold in_memory, list_at, sizeof_task_struct. intros H. apply u64_small. lia. Qed.

Lemma wait_childexit_memory t : in_memory t -> wait_childexit t = t + 192.
Proof. unfold in_memory, wait_childexit, sizeof_task_struct. intros H. apply u64_small. lia. Qed.

Lemma task_at_list t : in_memory t -> task_at (list_at t) = t.
Proof.
  intros H. rewrite list_at_memory by done. unfold in_memory, task_at, sizeof_task_struct in *.
  rewrite u64_small; lia.
Qed.

Lemma list_at_inj t t' : in_memory t -> in_memory t' -> list_at t = list_at t' -> t = t'.
Proof. intros H H' E. rewrite <- (task_at_list t), <- (task_at_list t') by done. by rewrite E. Qed.

Section Invariant.
Context {M : Type} `{HF : Frames M} `{HL : !AllocatorLaws M} `{HP : !PagingLaws M} `{HT : !TaskLaws M}.
Context (queue init_union : Z).
Notation init_task := (list_at init_union).
Implicit Type s : kstate M.

(** The static objects of the kernel lie outside of the heap. *)
Record boot_ok : Prop := {
  bo_union : in_memory init_union;
  bo_apart a : task_range a -> init_union + sizeof_task_struct <= a \/ a + STACK_SIZE <= init_union;
  bo_queue a : task_range a -> ~ a <= queue < a + STACK_SIZE
}.

(** The processor, and the list of all tasks: [l] are the tasks behind [init_union], each with a
    pid of its own that has been given out, [q] the queued ones, which are runnable. *)
Record tasks_ok s (l q : list Z) : Prop := {
  tk_boot : boot_ok;
  tk_cpu : cpu_ok queue init_task s.(cpu) q;
  tk_chain : pchain s.(procs) init_union l init_union;
  tk_nodup : NoDup (init_union :: l);
  tk_task t : t ∈ init_union :: l -> is_Some (s.(cpu).(tasks) !! list_at t);
  tk_obj t : t ∈ l -> task_range t /\ t ∈ live s.(space).(vheap) /\
    t ∉ tables s.(space).(vheap) /\ s.(space).(mms) !! t = None;
  tk_mms a : is_Some (s.(space).(mms) !! a) ->
    a ∈ live s.(space).(vheap) /\ a ∉ tables s.(space).(vheap);
  tk_pid t p : t ∈ l -> s.(procs) !! t = Some p -> 0 <= p.(pid) < s.(global_pid);
  tk_pids t t' p p' : t ∈ l -> t' ∈ l -> s.(procs) !! t = Some p -> s.(procs) !! t' = Some p' ->
    p.(pid) = p'.(pid) -> t = t';
  tk_cur : exists t, t ∈ init_union :: l /\ s.(cpu).(current) = list_at t;
  tk_queue x : x ∈ q -> exists t, t ∈ l /\ x = list_at t /\
    state <$> s.(cpu).(tasks) !! x = Some TASK_RUNNING
}.

Lemma task_range_memory t : task_range t -> in_memory t.
Proof using Type. intros (H1 & H2 & _)%task_aligned. unfold in_memory, sizeof_task_struct, STACK_SIZE in *. lia. Qed.

Lemma tasks_memory s l q t : tasks_ok s l q -> t ∈ init_union :: l -> in_memory t.
Proof using Type.
  intros K Ht. apply elem_of_cons in Ht as [->|Ht]; [apply (tk_boot _ _ _ K)|].
  apply task_range_memory, (tk_obj _ _ _ K t Ht).
Qed.

Lemma tasks_current s l q : tasks_ok s l q -> cur s ∈ init_union :: l /\ s.(cpu).(current) = list_at (cur s).
Proof using Type.
  intros K. destruct (tk_cur _ _ _ K) as (t & Ht & E). unfold cur. rewrite E.
  rewrite task_at_list by (by eapply tasks_memory). done.
Qed.

(** Different tasks have no address in common. *)
Lemma tasks_apart s l q a t o o' : tasks_ok s l q -> task_range a -> t ∈ init_union :: l -> t <> a ->
  0 <= o < STACK_SIZE -> 0 <= o' < sizeof_task_struct -> t + o' <> a + o.
Proof using Type.
  intros K Ha Ht Hne Ho Ho' E. apply elem_of_cons in Ht as [->|Ht].
  - destruct (bo_apart (tk_boot _ _ _ K) a Ha); lia.
  - destruct (tk_obj _ _ _ K t Ht) as [(_ & _ & M1)%task_aligned _].
    apply task_aligned in Ha as (_ & _ & M2). unfold STACK_SIZE, sizeof_task_struct in *.
    pose proof (Z.div_mod t 32768 ltac:(lia)). pose proof (Z.div_mod a 32768 ltac:(lia)). lia.
Qed.

(** ** Finding a child *)

Lemma find_child_none fuel id s l a : pchain s.(procs) a l init_union -> (length l < fuel)%nat ->
  init_union ∉ l -> (forall c p, c ∈ l -> s.(procs) !! c = Some p -> u64 p.(pid) <> id) ->
  exists prev, find_child init_union fuel id a s = Some (prev, 0).
Proof using Type.
  revert a l. induction fuel as [|fuel IH]; intros a l Hc Hf Hn Hp; [lia|].
  destruct (pchain_lookup _ _ _ _ a Hc ltac:(apply list_elem_of_here)) as [p Ha]. cbn [find_child].
  rewrite Ha. cbn [mbind option_bind]. destruct l as [|b l]; cbn in Hc; rewrite Ha in Hc; cbn in Hc.
  - injection Hc as ->. rewrite Z.eqb_refl. by eexists.
  - destruct Hc as [[= ->] Hc]. rewrite (proj2 (Z.eqb_neq _ _)) by (intros ->; set_solver).
    destruct (pchain_lookup _ _ _ _ b Hc ltac:(apply list_elem_of_here)) as [pb Hb]. rewrite Hb.
    cbn [mbind option_bind]. rewrite (proj2 (Z.eqb_neq _ _)) by (by apply (Hp b), Hb; set_solver).
    apply (IH b l); [done|cbn in Hf; lia|set_solver|]. intros c pc Hcl. apply Hp. set_solver.
Qed.

Lemma find_child_some fuel id s l1 c l2 a : pchain s.(procs) a (l1 ++ c :: l2) init_union ->
  (length l1 < fuel)%nat -> init_union ∉ l1 ++ c :: l2 ->
  (forall x p, x ∈ l1 -> s.(procs) !! x = Some p -> u64 p.(pid) <> id) ->
  (forall p, s.(procs) !! c = Some p -> u64 p.(pid) = id) ->
  find_child init_union fuel id a s = Some (List.last l1 a, c).
Proof using Type.
  revert a l1. induction fuel as [|fuel IH]; intros a l1 Hc Hf Hn Hp Hid; [lia|].
  destruct (pchain_lookup _ _ _ _ a Hc ltac:(apply list_elem_of_here)) as [p Ha]. cbn [find_child].
  rewrite Ha. cbn [mbind option_bind]. destruct l1 as [|b l1]; cbn in Hc; rewrite Ha in Hc; cbn in Hc;
    destruct Hc as [[= ->] Hc]; rewrite (proj2 (Z.eqb_neq _ _)) by (intros ->; set_solver).
  - destruct (pchain_lookup _ _ _ _ c Hc ltac:(apply list_elem_of_here)) as [pc Hpc]. rewrite Hpc.
    cbn [mbind option_bind]. by rewrite (proj2 (Z.eqb_eq _ _)) by (by apply Hid).
  - destruct (pchain_lookup _ _ _ _ b Hc ltac:(apply list_elem_of_here)) as [pb Hb]. rewrite Hb.
    cbn [mbind option_bind]. rewrite (proj2 (Z.eqb_neq _ _)) by (by apply (Hp b), Hb; set_solver).
    rewrite last_cons. apply IH; [done|cbn in Hf; lia|set_solver| |done].
    intros x px Hx. apply Hp. set_solver.
Qed.
End Invariant.

Section Fork.
Context {M : Type} `{HF : Frames M} `{HL : !AllocatorLaws M} `{HP : !PagingLaws M} `{HT : !TaskLaws M}.
Context (queue init_union init_pgd SMP_cpu_id ret_system_call kernel_thread_func : Z).
Notation init_task := (list_at init_union).
Notation tasks_ok := (tasks_ok queue init_union).
Notation others := (filter (fun x => x <> init_task)).
Implicit Type s : kstate M.

(** The scheduler with a new task at [tsk]. *)
Definition cpu_new (tsk : Z) (t : task) (c : sched) : sched :=
  wait_queue_init (wait_childexit tsk) 0
    (set_nodes (list_init (list_at tsk) c.(nodes)) (set_tasks (<[list_at tsk := t]> c.(tasks)) c)).

(** The addresses of a new object are not in use. *)
Lemma new_address s l q tsk o : tasks_ok s l q -> task_range tsk -> tsk ∉ live s.(space).(vheap) ->
  0 <= o < STACK_SIZE -> tsk + o ∉ queue :: init_task :: s.(cpu).(current) :: q.
Proof using Type.
  intros K Hr Hl Ho. assert (forall t, t ∈ init_union :: l -> tsk + o <> list_at t) as Hne.
  { intros t Ht E. rewrite list_at_memory in E by (by eapply tasks_memory).
    apply (tasks_apart queue init_union s l q tsk t o 56 K Hr Ht); [|done|unfold sizeof_task_struct; lia|lia].
    intros ->. apply elem_of_cons in Ht as [->|Ht].
    - pose proof (bo_apart _ _ (tk_boot _ _ _ _ _ K) _ Hr) as Hb. unfold STACK_SIZE, sizeof_task_struct in Hb. lia.
    - by apply Hl, (tk_obj _ _ _ _ _ K tsk Ht). }
  rewrite !elem_of_cons. intros [E|[E|[E|Hq]]].
  - apply (bo_queue _ _ (tk_boot _ _ _ _ _ K) _ Hr). lia.
  - by apply (Hne init_union); [apply list_elem_of_here|].
  - destruct (tk_cur _ _ _ _ _ K) as (t & Ht & Ec). apply (Hne t Ht). congruence.
  - destruct (tk_queue _ _ _ _ _ K _ Hq) as (t & Ht & E & _). apply (Hne t); [set_solver|done].
Qed.

Lemma new_task_address s l q tsk : tasks_ok s l q -> task_range tsk -> tsk ∉ live s.(space).(vheap) ->
  list_at tsk ∉ queue :: init_task :: s.(cpu).(current) :: q /\
  wait_childexit tsk ∉ queue :: init_task :: s.(cpu).(current) :: q /\ list_at tsk <> wait_childexit tsk /\
  0 < list_at tsk /\ 0 < wait_childexit tsk.
Proof using Type.
  intros K Hr Hl. pose proof (task_range_memory _ Hr) as Hm. pose proof (task_aligned _ Hr).
  rewrite list_at_memory, wait_childexit_memory by done.
  split_and!; [by apply (new_address s l q)..|lia|lia|lia].
Qed.

(** Making the new task runnable. *)
Lemma fork_cpu s l q tsk t ct : tasks_ok s l q -> task_range tsk -> tsk ∉ live s.(space).(vheap) ->
  s.(cpu).(tasks) !! s.(cpu).(current) = Some ct -> t.(vrun_time) <= LONG_MAX ->
  Z.of_nat (length q) + 2 < 2 ^ 62 ->
  exists c q', wakeup_process queue init_task (list_at tsk) (cpu_new tsk t s.(cpu)) = Some c /\
    cpu_ok queue init_task c q' /\ others q' ≡ₚ list_at tsk :: others q /\
    (forall y, y ∈ q' -> y = list_at tsk \/ y ∈ q) /\ c.(current) = s.(cpu).(current) /\
    c.(tasks) = <[s.(cpu).(current) := set_need_schedule ct]>
      (<[list_at tsk := set_state TASK_RUNNING t]> s.(cpu).(tasks)) /\
    wait_rep queue init_task c q' TASK_INTERRUPTIBLE (wait_childexit tsk) [] /\
    (forall st head ws, wait_rep queue init_task s.(cpu) q st head ws ->
      (forall x, x ∈ head :: map fst ws ++ map snd ws -> x <> list_at tsk /\ x <> wait_childexit tsk) ->
      wait_rep queue init_task c q' st head ws).
Proof using Type.
  intros K Hr Hl Hct Hv Hb. destruct (new_task_address s l q tsk K Hr Hl) as (N1 & N2 & N3 & N4 & N5).
  pose proof (tk_cpu _ _ _ _ _ K) as C. set (c1 := cpu_new tsk t s.(cpu)).
  assert (forall x, x <> list_at tsk -> x <> wait_childexit tsk -> c1.(nodes) !! x = s.(cpu).(nodes) !! x) as Hn1.
  { intros x H1 H2. cbn. unfold list_init. by rewrite !lookup_insert_ne. }
  assert (forall x, is_Some (s.(cpu).(nodes) !! x) -> is_Some (c1.(nodes) !! x)) as Hm1.
  { intros x Hx. cbn. unfold list_init. rewrite !lookup_insert_is_Some'. auto. }
  assert (cpu_ok queue init_task c1 q) as C1.
  { apply (cpu_ok_part _ _ s.(cpu)); try done.
    - intros x Hx. apply Hn1; intros ->; rewrite !elem_of_cons in *; tauto.
    - intros x Hx. cbn. rewrite lookup_insert_ne; [done|]. by intros <-.
    - intros x t' Ht'. cbn in Ht'. apply lookup_insert_Some in Ht' as [[_ <-]|[_ Ht']]; [done|].
      by apply (co_vrun _ _ _ _ C x). }
  destruct (wakeup_process_spec queue init_task c1 q (list_at tsk) t ct C1 Hb)
    as (c & q' & E & C' & Hp & Hin & Ecur & _ & Ew & Ets & Hf & Hm); try done; [lia|..].
  { cbn. unfold list_init. rewrite !lookup_insert_is_Some'. auto. }
  { cbn. by rewrite lookup_insert_eq. }
  { cbn. rewrite lookup_insert_ne; [done|]. intros Ex. apply N1. rewrite Ex, !elem_of_cons. tauto. }
  cbn in Ecur, Ets, Ew. rewrite insert_insert_eq in Ets. exists c, q'. split_and!; try done.
  - constructor; cbn; try done.
    + apply (ring_frame c1.(nodes)).
      * intros x Hx. apply list_elem_of_singleton in Hx as ->. apply Hf.
        rewrite !elem_of_cons in *. intros [?|[?|?]]; [tauto|congruence|tauto].
      * cbn. apply list_init_ring.
    + rewrite list_elem_of_singleton. lia.
    + intros x Hx. apply list_elem_of_singleton in Hx as ->. unfold on_cpu. rewrite Ecur.
      rewrite !elem_of_cons in *. intros [?|[?|[?|Hy]]]; [tauto..|]. apply Hin in Hy. intuition congruence.
    + intros w t' Hx. by apply not_elem_of_nil in Hx.
    + constructor.
  - intros st head ws R Hne. apply (wait_rep_frame queue init_task _ _ _ _ _ _ _ R).
    + intros x Hx. assert (x ∈ head :: map fst ws ++ map snd ws) as Hx'
        by (rewrite app_comm_cons; apply elem_of_app; by left).
      destruct (Hne x Hx') as [H1 H2]. rewrite Hf; [by apply Hn1|].
      apply (wr_disj _ _ _ _ _ _ _ R) in Hx. unfold on_cpu in Hx. rewrite !elem_of_cons in *. tauto.
    + intros x Hx Hout. destruct (Hne x Hx) as [H1 H2]. unfold on_cpu in *. rewrite Ecur.
      rewrite !elem_of_cons in *. intros [?|[?|[?|Hy]]]; [tauto..|]. apply Hin in Hy. tauto.
    + intros w t' Hwt. assert (w ∈ head :: map fst ws ++ map snd ws /\ t' ∈ head :: map fst ws ++ map snd ws) as [Hw Ht'].
      { rewrite app_comm_cons, !elem_of_app, !elem_of_cons, !list_elem_of_fmap.
        split; [left; right|right]; by exists (w, t'). }
      split.
      * rewrite Ew. rewrite lookup_insert_ne; [done|]. intros <-. by destruct (Hne _ Hw).
      * rewrite Ets, !lookup_insert_ne; [done|intros <-; by destruct (Hne _ Ht')|].
        intros Ex. destruct (wr_tsk _ _ _ _ _ _ _ R w t' Hwt) as [T _]. apply asleep_current in T. congruence.
    + intros x Hx. by apply Hm, Hm1.
Qed.

(** What the child gets. *)
Definition born_task (clone_flags : Z) (t : task) : task :=
  mkTask TASK_UNINTERRUPTIBLE
    (if clone_flags .& CLONE_VM =? 0 then t.(flags) else t.(flags) .| PF_VFORK) 2 t.(vrun_time).
Definition born_proc (tsk newmm first : Z) (p : proc) s : proc :=
  set_thread (tsk .+ sizeof_task_struct)
    (set_mm newmm (child_proc s.(global_pid) SMP_cpu_id first (cur s) p)).
Definition born_thread (tsk fl : Z) (t : thread_struct) : thread_struct :=
  mkThread (tsk .+ STACK_SIZE)
    (if fl .& PF_KTHREAD =? 0 then ret_system_call else kernel_thread_func)
    (tsk .+ STACK_SIZE .- sizeof_pt_regs) t.(fs) t.(gs) 0 0 0.
Definition born (tsk newmm clone_flags stack_start : Z) (regs : pt_regs) (c : sched) (v : vm M)
    (p h : proc) (ct : task) (th : thread_struct) s : kstate M :=
  mkK c v (<[tsk := born_proc tsk newmm h.(next) p s]> (<[init_union := set_task_next tsk h]> s.(procs)))
    (<[tsk .+ sizeof_task_struct := born_thread tsk (born_task clone_flags ct).(flags) th]> s.(threads))
    (<[tsk .+ STACK_SIZE .- sizeof_pt_regs := child_regs stack_start regs]> s.(kstacks))
    s.(umem) (i64 (s.(global_pid) + 1)).

(** The steps of [do_fork] when there is memory. *)
Lemma do_fork_run s regs clone_flags stack_start stack_size tsk hp p h ct th newmm v c :
  alloc STACK_SIZE s.(space).(vheap) = Some (tsk, hp) -> tsk <> 0 -> tsk <> init_union -> tsk <> cur s ->
  s.(procs) !! cur s = Some p -> s.(procs) !! init_union = Some h ->
  list_at (cur s) = s.(cpu).(current) -> s.(cpu).(tasks) !! s.(cpu).(current) = Some ct ->
  s.(threads) !! p.(thread) = Some th ->
  copy_mm init_pgd clone_flags (set_cmm p.(mm) (set_vheap hp s.(space))) = Some (newmm, v) ->
  wakeup_process queue init_task (list_at tsk) (cpu_new tsk (born_task clone_flags ct) s.(cpu)) = Some c ->
  do_fork queue init_task init_union init_pgd SMP_cpu_id ret_system_call kernel_thread_func
    regs clone_flags stack_start stack_size s =
  Some (u64 (i32 s.(global_pid)), born tsk newmm clone_flags stack_start regs c v p h ct th s).
Proof using Type.
  intros Ea H0 Hi Hc Hp Hh Hcur Hct Hth Emm Ew. unfold do_fork. rewrite Ea. cbn [mbind option_bind].
  rewrite (proj2 (Z.eqb_neq _ _) H0).
  unfold new_task. cbn [procs cpu set_space tasks nodes set_tasks set_nodes set_procs set_cpu space
    threads kstacks umem global_pid set_global_pid].
  change (cur (set_space _ s)) with (cur s). rewrite Hp. cbn [mbind option_bind].
  rewrite Hcur, Hct. cbn [mbind option_bind]. rewrite Hh. cbn [mbind option_bind].
  unfold upd_proc at 1. cbn [procs set_procs]. rewrite lookup_insert_ne, Hh by done. cbn [mbind option_bind].
  set (s1 := set_cpu (wait_queue_init _ _ _) _).
  assert (copy_flags clone_flags tsk s1 = Some (0, set_cpu (cpu_new tsk (born_task clone_flags ct) s.(cpu)) s1)) as ->.
  { unfold copy_flags, born_task. destruct (Z.eqb_spec (clone_flags .& CLONE_VM) 0); cbn [negb]; [done|].
    unfold upd_task. cbn. rewrite lookup_insert_eq. cbn.
    do 2 f_equal. unfold set_cpu, cpu_new, wait_queue_init, set_wait_tsk, set_nodes, set_tasks.
    cbn. by rewrite insert_insert_eq. }
  cbn [mbind option_bind Z.eqb negb].
  assert (exists pc, s1.(procs) !! cur s = Some pc /\ pc.(mm) = p.(mm) /\ pc.(thread) = p.(thread)) as (pc & Hpc & Emm' & Eth').
  { cbn [s1 procs set_cpu set_global_pid set_procs]. destruct (decide (init_union = cur s)) as [E|E].
    - rewrite <- E, lookup_insert_eq. eexists. split; [done|]. rewrite <- E in Hp. by simplify_eq.
    - rewrite !lookup_insert_ne by done. eauto. }
  unfold copy_task_mm, cur_space. change (cur (set_cpu _ s1)) with (cur s).
  change (procs (set_cpu _ s1)) with (procs s1). rewrite Hpc. cbn [mbind option_bind]. rewrite Emm'.
  change (space (set_cpu _ s1)) with (set_vheap hp s.(space)). rewrite Emm. cbn [mbind option_bind].
  unfold upd_proc at 1. change (procs (set_space v _)) with (procs s1).
  assert (s1.(procs) !! tsk = Some (child_proc s.(global_pid) SMP_cpu_id h.(next) (cur s) p)) as Ht.
  { cbn [s1 procs set_cpu set_global_pid set_procs]. by rewrite lookup_insert_ne, lookup_insert_eq. }
  rewrite Ht. cbn [mbind option_bind Z.eqb negb copy_files].
  unfold copy_thread, upd_proc. cbn [procs set_procs]. rewrite lookup_insert_eq. cbn [mbind option_bind].
  change (cur (set_kstacks _ _)) with (cur s). cbn [procs set_procs set_kstacks]. rewrite !lookup_insert_ne, Hpc by done.
  cbn [mbind option_bind]. rewrite Eth'. change (threads _) with s.(threads). rewrite Hth.
  cbn [mbind option_bind]. cbn [tasks set_kstacks set_procs set_space set_cpu cpu cpu_new wait_queue_init
    set_wait_tsk set_nodes set_tasks]. rewrite lookup_insert_eq. cbn [mbind option_bind Z.eqb negb].
  cbn [procs set_threads set_kstacks set_procs]. rewrite lookup_insert_eq. cbn [mbind option_bind].
  unfold upd_cpu. cbn [cpu set_threads set_kstacks set_procs set_space set_cpu]. 
  fold (cpu_new tsk (born_task clone_flags ct) s.(cpu)). rewrite Ew. cbn [mbind option_bind].
  unfold born, born_thread, born_task. cbn.
  rewrite !insert_insert_eq, (insert_insert_ne _ init_union tsk), insert_insert_eq by done.
  by destruct (_ .& PF_KTHREAD =? 0).
Qed.

(** What [copy_mm] makes of the parent's address space [v0], whose descriptor is [m]. *)
Definition shares_or_copies (clone_flags : Z) (m : mm_struct) (L : gmap (list Z) Z) (v0 : vm M) (newmm : Z)
    (v : vm M) : Prop :=
  (clone_flags .& CLONE_VM <> 0 -> newmm = v0.(cmm) /\ v = v0) /\
  (clone_flags .& CLONE_VM = 0 -> exists root t1 t2,
    forked init_pgd m L newmm root t1 t2 (fork_pages m) v0 v).

Lemma shares_or_copies_heap fl m L v0 newmm v : shares_or_copies fl m L v0 newmm v ->
  (forall a, is_Some (v0.(mms) !! a) -> a ∈ live v0.(vheap) /\ a ∉ tables v0.(vheap)) ->
  live v0.(vheap) ⊆ live v.(vheap) /\
  (forall a, a ∈ tables v.(vheap) -> a ∈ live v0.(vheap) -> a ∈ tables v0.(vheap)) /\
  (forall a, is_Some (v.(mms) !! a) -> a ∈ live v.(vheap) /\ a ∉ tables v.(vheap)) /\
  (forall a, a ∈ live v0.(vheap) -> v.(mms) !! a = v0.(mms) !! a).
Proof using Type.
  intros [H1 H2] Hm. destruct (decide (fl .& CLONE_VM = 0)) as [E|E].
  - destruct (H2 E) as (root & t1 & t2 & [_ _ _ _ [B5 _] B6 B7 B8 B9 _ _]). rewrite B8, B9, B5. split_and!.
    + set_solver.
    + intros a Ha Hl. apply elem_of_union in Ha as [Ha|]; [|done]. exfalso. apply (B7 a); set_solver.
    + intros a [x Ha]. apply lookup_insert_Some in Ha as [[<- _]|[_ Ha]].
      * split; [set_solver|]. rewrite !NoDup_cons in B6. intros Hx. apply elem_of_union in Hx as [Hx|Hx%tables_live];
          [set_solver|]. apply (B7 newmm); [set_solver|done].
      * destruct (Hm a) as [Hl Ht]; [by eexists|]. split; [set_solver|]. intros Hx.
        apply elem_of_union in Hx as [Hx|Hx]; [|done]. apply (B7 a); [set_solver|done].
    + intros a Ha. apply lookup_insert_ne. intros <-. apply (B7 newmm); set_solver.
  - destruct (H1 E) as [_ ->]. by split_and!.
Qed.

(** What copying the address space of the task [p] needs. *)
Definition copyable s (p : proc) (m : mm_struct) (L : gmap (list Z) Z) : Prop :=
  user_ok (set_cmm p.(mm) s.(space)) m L /\ valid_table (Phy_To_Virt init_pgd) /\
  forall va, va ∈ fork_pages m -> walk s.(space).(words) m.(pgd) va <> 0.

(** The address space of the child, once its [task_struct] has been allocated. *)
Lemma fork_space s l q p m L fl tsk hp : tasks_ok s l q ->
  (fl .& CLONE_VM = 0 -> copyable s p m L) ->
  alloc STACK_SIZE s.(space).(vheap) = Some (tsk, hp) -> tsk <> 0 -> capacity hp 4 2 ->
  let v0 := set_cmm p.(mm) (set_vheap hp s.(space)) in
  exists newmm v, copy_mm init_pgd fl v0 = Some (newmm, v) /\ shares_or_copies fl m L v0 newmm v.
Proof using Type.
  intros K Hcopy Ea H0 Hcap v0.
  destruct (alloc_live _ _ _ _ Ea) as [[? _]|(_ & _ & El)]; [done|].
  destruct (decide (fl .& CLONE_VM = 0)) as [E|E].
  - destruct (Hcopy E) as (U & Hi & Hp). destruct (user_heap (set_cmm p.(mm) s.(space)) L m hp U) as [U0 _].
    { by apply (alloc_other STACK_SIZE _ tsk). }
    { by apply (alloc_frames STACK_SIZE _ tsk). }
    destruct (copy_mm_forked init_pgd v0 m L fl) as (newmm & root & t1 & t2 & v & Ec & Kf); try done.
    { intros a Ha. change (vheap v0) with hp. rewrite El. apply elem_of_union. right. by apply (tk_mms _ _ _ _ _ K a). }
    exists newmm, v. split; [done|]. split; [done|]. intros _. by exists root, t1, t2.
  - exists p.(mm), v0. split; [|by split]. unfold copy_mm. by rewrite (proj2 (Z.eqb_neq _ _) E).
Qed.

Lemma new_task_fresh s l q tsk : tasks_ok s l q -> task_range tsk -> tsk ∉ live s.(space).(vheap) ->
  tsk ∉ init_union :: l.
Proof using Type.
  intros K Hr Hl Ht. apply elem_of_cons in Ht as [->|Ht]; [|by apply Hl, (tk_obj _ _ _ _ _ K)].
  pose proof (bo_apart _ _ (tk_boot _ _ _ _ _ K) _ Hr) as Hx. unfold STACK_SIZE, sizeof_task_struct in Hx. lia.
Qed.

Lemma init_not_listed s l q t : tasks_ok s l q -> t ∈ l -> init_union <> t.
Proof using Type. intros K Ht <-. pose proof (tk_nodup _ _ _ _ _ K) as Hnd. by apply NoDup_cons in Hnd as [? _]. Qed.

(** The records of the tasks after [do_fork]. *)
Lemma born_procs s l q tsk newmm first p h t pt : tasks_ok s l q -> t ∈ tsk :: l ->
  <[tsk := born_proc tsk newmm first p s]> (<[init_union := h]> s.(procs)) !! t = Some pt ->
  t = tsk /\ pt.(pid) = s.(global_pid) \/ t ∈ l /\ s.(procs) !! t = Some pt /\ 0 <= pt.(pid) < s.(global_pid).
Proof using Type.
  intros K Ht Hpt. destruct (decide (tsk = t)) as [<-|Hne].
  - rewrite lookup_insert_eq in Hpt. injection Hpt as <-. by left.
  - rewrite lookup_insert_ne in Hpt by done. apply elem_of_cons in Ht as [->|Ht]; [done|].
    rewrite lookup_insert_ne in Hpt by (by eapply init_not_listed).
    right. split_and!; [done..| |]; by apply (tk_pid _ _ _ _ _ K t).
Qed.

Lemma born_ok s l q tsk newmm fl ss regs c v p h ct th q' t2 : tasks_ok s l q -> task_range tsk ->
  tsk ∉ live s.(space).(vheap) -> s.(procs) !! init_union = Some h -> 0 <= s.(global_pid) < 2 ^ 31 - 1 ->
  {[ tsk ]} ∪ live s.(space).(vheap) ⊆ live v.(vheap) ->
  (forall a, a ∈ tables v.(vheap) -> a ∈ {[ tsk ]} ∪ live s.(space).(vheap) -> a ∈ tables s.(space).(vheap)) ->
  (forall a, is_Some (v.(mms) !! a) -> a ∈ live v.(vheap) /\ a ∉ tables v.(vheap)) ->
  (forall a, a ∈ {[ tsk ]} ∪ live s.(space).(vheap) -> v.(mms) !! a = s.(space).(mms) !! a) ->
  cpu_ok queue init_task c q' -> (forall y, y ∈ q' -> y = list_at tsk \/ y ∈ q) ->
  c.(current) = s.(cpu).(current) ->
  c.(tasks) = <[s.(cpu).(current) := t2]> (<[list_at tsk := set_state TASK_RUNNING (born_task fl ct)]> s.(cpu).(tasks)) ->
  tasks_ok (born tsk newmm fl ss regs c v p h ct th s) (tsk :: l) q'.
Proof using Type.
  intros K Hr Hl Hh Hg V1 V2 V3 V4 C' Hin Ecur Ets.
  pose proof (tasks_current _ _ _ _ _ K) as [Hcl Hcur]. pose proof (new_task_fresh s l q tsk K Hr Hl) as Hnew.
  assert (forall t, t ∈ init_union :: l -> list_at tsk <> list_at t) as Hne.
  { intros t Ht E. apply list_at_inj in E; [|by apply task_range_memory|by eapply tasks_memory]. set_solver. }
  constructor; [apply K|done| | | | |done| | | |]; cbn [cpu space procs global_pid born].
  - cbn. rewrite lookup_insert_ne, lookup_insert_eq by set_solver. split; [done|].
    apply (pchain_move _ _ _ _ _ _ (tk_chain _ _ _ _ _ K)); [by rewrite lookup_insert_eq, Hh|].
    intros x Hx. rewrite !lookup_insert_ne; [done|by eapply init_not_listed|set_solver].
  - pose proof (tk_nodup _ _ _ _ _ K) as Hnd. rewrite !NoDup_cons in *. set_solver.
  - intros t Ht. rewrite Ets, !lookup_insert_is_Some'.
    assert (t = tsk \/ t ∈ init_union :: l) as [->|Ht'] by set_solver; [by right; left|].
    right; right. by apply (tk_task _ _ _ _ _ K).
  - intros t Ht. apply elem_of_cons in Ht as [->|Ht].
    + split_and!; [done|set_solver| |].
      * intros Hx. apply Hl, tables_live, V2; set_solver.
      * rewrite V4 by set_solver. destruct (s.(space).(mms) !! tsk) eqn:E; [|done].
        exfalso. apply Hl, (tk_mms _ _ _ _ _ K tsk). by eexists.
    + destruct (tk_obj _ _ _ _ _ K t Ht) as (O1 & O2 & O3 & O4). split_and!; [done|set_solver| |].
      * intros Hx. apply O3, V2; set_solver.
      * by rewrite V4 by set_solver.
  - intros t pt Ht Hpt. rewrite i64_small by lia.
    destruct (born_procs _ _ _ _ _ _ _ _ _ _ K Ht Hpt) as [[_ ->]|(_ & _ & ?)]; lia.
  - intros t t' pt pt' Ht Ht' Hpt Hpt' E.
    destruct (born_procs _ _ _ _ _ _ _ _ _ _ K Ht Hpt) as [[-> E1]|(T1 & T2 & T3)],
      (born_procs _ _ _ _ _ _ _ _ _ _ K Ht' Hpt') as [[-> E2]|(T1' & T2' & T3')];
      [done|lia|lia|by eapply (tk_pids _ _ _ _ _ K)].
  - exists (cur s). rewrite Ecur. split; [set_solver|done].
  - intros x Hx. apply Hin in Hx as [->|Hx].
    + exists tsk. split_and!; [set_solver|done|].
      rewrite Ets, lookup_insert_ne, lookup_insert_eq; [done|]. rewrite Hcur. by apply not_eq_sym, Hne.
    + destruct (tk_queue _ _ _ _ _ K x Hx) as (t & Ht & -> & Es). exists t. split_and!; [set_solver|done|].
      pose proof (co_cur _ _ _ _ (tk_cpu _ _ _ _ _ K)) as Hcq.
      rewrite Ets, !lookup_insert_ne; [done|apply Hne; set_solver|]. intros E. apply Hcq. rewrite E. set_solver.
Qed.

(** [do_fork] runs: shared by the theorem below and by the start of the first thread. *)
Lemma do_fork_born s l q p ct th m L regs clone_flags stack_start stack_size : tasks_ok s l q ->
  s.(procs) !! cur s = Some p -> s.(cpu).(tasks) !! s.(cpu).(current) = Some ct ->
  s.(threads) !! p.(thread) = Some th -> (clone_flags .& CLONE_VM = 0 -> copyable s p m L) ->
  0 <= s.(global_pid) < 2 ^ 31 - 1 -> Z.of_nat (length q) + 2 < 2 ^ 62 -> capacity s.(space).(vheap) 5 2 ->
  exists tsk hp newmm v c h q', let s' := born tsk newmm clone_flags stack_start regs c v p h ct th s in
    do_fork queue init_task init_union init_pgd SMP_cpu_id ret_system_call kernel_thread_func
      regs clone_flags stack_start stack_size s = Some (s.(global_pid), s') /\
    tasks_ok s' (tsk :: l) q' /\ cur s' = cur s /\ tsk ∉ live s.(space).(vheap) /\
    s.(procs) !! init_union = Some h /\ others q' ≡ₚ list_at tsk :: others q /\
    c.(tasks) = <[s.(cpu).(current) := set_need_schedule ct]>
      (<[list_at tsk := set_state TASK_RUNNING (born_task clone_flags ct)]> s.(cpu).(tasks)) /\
    wait_rep queue init_task c q' TASK_INTERRUPTIBLE (wait_childexit tsk) [] /\
    (forall st head ws, wait_rep queue init_task s.(cpu) q st head ws ->
      (forall x, x ∈ head :: map fst ws ++ map snd ws -> x <> list_at tsk /\ x <> wait_childexit tsk) ->
      wait_rep queue init_task c q' st head ws) /\
    shares_or_copies clone_flags m L (set_cmm p.(mm) (set_vheap hp s.(space))) newmm v.
Proof using Type.
  intros K Hp Hct Hth Hcopy Hg Hb Hcap. pose proof (tasks_current _ _ _ _ _ K) as [Hcl Hcur].
  destruct (alloc_capacity STACK_SIZE _ _ _ ltac:(done) Hcap) as (tsk & hp & Ea & H0 & Hcap').
  pose proof (alloc_task _ _ _ Ea H0) as Hr.
  destruct (alloc_live _ _ _ _ Ea) as [[? _]|(_ & Hl & El)]; [done|].
  pose proof (new_task_fresh s l q tsk K Hr Hl) as Hnew.
  destruct (pchain_lookup _ _ _ _ init_union (tk_chain _ _ _ _ _ K)) as [h Hh]; [apply list_elem_of_here|].
  destruct (fork_space s l q p m L clone_flags tsk hp K Hcopy Ea H0 Hcap') as (newmm & v & Emm & Hsc).
  destruct (shares_or_copies_heap _ _ _ _ _ _ Hsc) as (V1 & V2 & V3 & V4).
  { intros a Ha. cbn [vheap set_cmm set_vheap]. rewrite El, (alloc_other _ _ _ _ Ea) by done.
    destruct (tk_mms _ _ _ _ _ K a Ha). set_solver. }
  cbn [vheap mms set_cmm set_vheap] in V1, V2, V4. rewrite El in V1, V2, V4.
  rewrite (alloc_other _ _ _ _ Ea) in V2 by done.
  destruct (fork_cpu s l q tsk (born_task clone_flags ct) ct K Hr Hl Hct) as
    (c & q' & Ew & C' & Hq & Hin & Ecur & Ets & W1 & W2);
    [by apply (co_vrun _ _ _ _ (tk_cpu _ _ _ _ _ K) s.(cpu).(current) ct)|done|].
  exists tsk, hp, newmm, v, c, h, q'. intros s'.
  rewrite (do_fork_run s regs clone_flags stack_start stack_size tsk hp p h ct th newmm v c) by (done || set_solver).
  rewrite i32_small, u64_small by lia.
  assert (cur s' = cur s) as Ecs by (unfold cur; cbn [cpu s' born]; by rewrite Ecur).
  split_and!; try done. by eapply born_ok.
Qed.

(** C8. [do_fork]: a new task with the next pid is at the front of the list of tasks and runnable,
    nothing else has left or entered the run queue, and the parent goes on.  The child is a copy of
    the parent but for what [born] names: it sleeps in no queue, returns 0 on the given stack with
    the registers of the parent, and shares the address space or has a copy of it. *)
Theorem do_fork_spec s l q p ct th m L regs clone_flags stack_start stack_size : tasks_ok s l q ->
  s.(procs) !! cur s = Some p -> s.(cpu).(tasks) !! s.(cpu).(current) = Some ct ->
  s.(threads) !! p.(thread) = Some th -> (clone_flags .& CLONE_VM = 0 -> copyable s p m L) ->
  0 <= s.(global_pid) < 2 ^ 31 - 1 -> Z.of_nat (length q) + 2 < 2 ^ 62 -> capacity s.(space).(vheap) 5 2 ->
  exists tsk hp newmm v c h q', let s' := born tsk newmm clone_flags stack_start regs c v p h ct th s in
    do_fork queue init_task init_union init_pgd SMP_cpu_id ret_system_call kernel_thread_func
      regs clone_flags stack_start stack_size s = Some (s.(global_pid), s') /\
    tasks_ok s' (tsk :: l) q' /\ cur s' = cur s /\ tsk ∉ live s.(space).(vheap) /\
    s.(procs) !! init_union = Some h /\ others q' ≡ₚ list_at tsk :: others q /\
    c.(tasks) = <[s.(cpu).(current) := set_need_schedule ct]>
      (<[list_at tsk := set_state TASK_RUNNING (born_task clone_flags ct)]> s.(cpu).(tasks)) /\
    wait_rep queue init_task c q' TASK_INTERRUPTIBLE (wait_childexit tsk) [] /\
    (forall st head ws, wait_rep queue init_task s.(cpu) q st head ws ->
      (forall x, x ∈ head :: map fst ws ++ map snd ws -> x <> list_at tsk /\ x <> wait_childexit tsk) ->
      wait_rep queue init_task c q' st head ws) /\
    shares_or_copies clone_flags m L (set_cmm p.(mm) (set_vheap hp s.(space))) newmm v.
Proof using Type. apply do_fork_born. Qed.
End Fork.

Section Exit.
Context {M : Type} `{HF : Frames M} `{HL : !AllocatorLaws M} `{HP : !PagingLaws M} `{HT : !TaskLaws M}.
Context (queue init_union : Z).
Notation init_task := (list_at init_union).
Notation tasks_ok := (tasks_ok queue init_union).
Notation others := (filter (fun x => x <> init_task)).
Implicit Type s : kstate M.

(** The queued tasks of [q] are listed and runnable. *)
Definition queued (l : list Z) (c : sched) (q : list Z) : Prop := forall x, x ∈ q ->
  exists t, t ∈ l /\ x = list_at t /\ state <$> c.(tasks) !! x = Some TASK_RUNNING.

(** What the invariant depends on when no task is created or freed. *)
Lemma tasks_ok_step s s' l q q' : tasks_ok s l q -> cpu_ok queue init_task s'.(cpu) q' ->
  (forall t, t ∈ init_union :: l -> is_Some (s'.(cpu).(tasks) !! list_at t)) ->
  (exists t, t ∈ init_union :: l /\ s'.(cpu).(current) = list_at t) ->
  queued l s'.(cpu) q' ->
  s'.(space) = s.(space) -> s'.(global_pid) = s.(global_pid) ->
  (forall t, (fun p => (next p, pid p)) <$> s'.(procs) !! t = (fun p => (next p, pid p)) <$> s.(procs) !! t) ->
  tasks_ok s' l q'.
Proof using Type.
  intros [K1 K2 K3 K4 K5 K6 K7 K8 K9 K10 K11] C Ht Hc Hq Es Eg Ep.
  assert (forall t p', s'.(procs) !! t = Some p' -> exists p, s.(procs) !! t = Some p /\ p.(pid) = p'.(pid)) as Hp.
  { intros t p' E. specialize (Ep t). rewrite E in Ep. cbn in Ep. destruct (s.(procs) !! t) as [p|]; [|done].
    cbn in Ep. exists p. split; [done|]. congruence. }
  constructor; rewrite ?Es, ?Eg; try done.
  - assert (forall t, next <$> s'.(procs) !! t = next <$> s.(procs) !! t) as En.
    { intros t. specialize (Ep t). destruct (s'.(procs) !! t), (s.(procs) !! t); cbn in *; congruence. }
    apply (pchain_move _ _ _ _ _ _ K3); [apply En|auto].
  - intros t p' Hl E. destruct (Hp t p' E) as (p & E' & <-). by apply (K8 t).
  - intros t t' p p' Hl Hl' E E' Epp. destruct (Hp t p E) as (r & Er & E1), (Hp t' p' E') as (r' & Er' & E2).
    apply (K9 t t' r r'); congruence.
Qed.

(** Who may run after a task has gone to sleep or ended. *)
Lemma scheduled s l q c q2 c' q' : tasks_ok s l q -> cpu_ok queue init_task c q2 -> cpu_ok queue init_task c' q' ->
  queued l c q2 ->
  others (c'.(current) :: q') ≡ₚ others q2 ->
  (forall x, x <> c.(current) -> c'.(tasks) !! x = c.(tasks) !! x) ->
  (exists t, t ∈ init_union :: l /\ c'.(current) = list_at t) /\
  queued l c' q'.
Proof using Type.
  intros K C C' Hq Hp Ht. split.
  - destruct (others_in init_task _ _ c'.(current) Hp) as [E|Hx]; [apply list_elem_of_here| |].
    + exists init_union. split; [apply list_elem_of_here|done].
    + destruct (Hq _ Hx) as (t & Hl & E & _). exists t. split; [by apply list_elem_of_further|done].
  - intros x Hx. destruct (others_in init_task _ _ x Hp) as [->|Hx2]; [by apply list_elem_of_further| |].
    + by apply (rq_init _ _ _ _ (co_runq _ _ _ _ C')) in Hx.
    + destruct (Hq _ Hx2) as (t & Hl & E & Es). exists t. split_and!; [done..|].
      rewrite Ht; [done|]. intros ->. apply (co_cur _ _ _ _ C). by apply list_elem_of_further.
Qed.

(** The current task ends: it wakes the first task that waits at [head]. *)
Lemma exit_wakeup s l q ct head ws : tasks_ok s l q ->
  s.(cpu).(tasks) !! s.(cpu).(current) = Some ct -> Z.of_nat (length q) + 2 < 2 ^ 62 ->
  wait_rep queue init_task s.(cpu) q TASK_INTERRUPTIBLE head ws ->
  Forall (fun wt => exists t, t ∈ l /\ snd wt = list_at t) ws ->
  let z := set_state TASK_ZOMBIE ct in
  let c1 := set_tasks (<[s.(cpu).(current) := z]> s.(cpu).(tasks)) s.(cpu) in
  exists c2 q2 z', wakeup queue init_task head TASK_INTERRUPTIBLE c1 = Some c2 /\
    cpu_ok queue init_task c2 q2 /\ others q2 ≡ₚ map snd (take 1 ws) ++ others q /\
    c2.(current) = s.(cpu).(current) /\ c2.(tasks) !! s.(cpu).(current) = Some z' /\ z'.(state) = TASK_ZOMBIE /\
    wait_rep queue init_task c2 q2 TASK_INTERRUPTIBLE head (tail ws) /\
    (forall t, is_Some (s.(cpu).(tasks) !! t) -> is_Some (c2.(tasks) !! t)) /\ queued l c2 q2.
Proof using Type.
  intros K Hct Hb W Hws z c1. pose proof (tk_cpu _ _ _ _ _ K) as C.
  assert (cpu_ok queue init_task c1 q) as C1.
  { apply cpu_ok_tasks; [done|]. intros x. by eapply vrun_upd. }
  assert (wait_rep queue init_task c1 q TASK_INTERRUPTIBLE head ws) as W1.
  { apply (wait_rep_frame _ _ _ _ _ _ _ _ _ W); try done. intros w t Hwt. split; [done|].
    cbn. rewrite lookup_insert_ne; [done|]. intros <-.
    by destruct (asleep_current _ _ _ _ _ _ _ (proj1 (wr_tsk _ _ _ _ _ _ _ W w _ Hwt))). }
  assert (c1.(tasks) !! c1.(current) = Some z) as Hz by (cbn; apply lookup_insert_eq).
  assert (queued l c1 q) as Q1.
  { intros x Hx. destruct (tk_queue _ _ _ _ _ K x Hx) as (t & Ht & E & Es). exists t. split_and!; [done..|].
    cbn. rewrite lookup_insert_ne; [done|]. intros <-. apply (co_cur _ _ _ _ C). by apply list_elem_of_further. }
  pose proof (wakeup_spec queue init_task c1 q _ head ws z TASK_INTERRUPTIBLE C1 W1 Hz Hb ltac:(done)) as Hw.
  destruct ws as [|[w t] ws].
  - exists c1, q, z. split_and!; try done. intros t Ht. cbn. rewrite lookup_insert_is_Some'. by right.
  - destruct Hw as (c2 & q2 & E2 & C2 & P2 & W2 & St & Ec2 & _ & (tk & Htk & Ets) & Hin & _).
    cbn in Ec2, Ets. assert (t <> s.(cpu).(current)) as Htc.
    { apply (asleep_current queue init_task _ q TASK_INTERRUPTIBLE w). apply (wr_tsk _ _ _ _ _ _ _ W).
      apply list_elem_of_here. }
    exists c2, q2, (set_need_schedule z). split_and!; try done; [by rewrite Ets, lookup_insert_eq| |].
    + intros x Hx. rewrite Ets, !lookup_insert_is_Some'. by right; right; right.
    + intros x Hx. apply Forall_cons in Hws as [(pt & Hpt & Et) _]. cbn in Et.
      apply Hin in Hx as [->|Hx]; [by exists pt|]. destruct (tk_queue _ _ _ _ _ K x Hx) as (tt & Htt & E & Es).
      exists tt. split_and!; [done..|]. rewrite Ets.
      assert (s.(cpu).(current) <> x) by (intros <-; apply (co_cur _ _ _ _ C); by apply list_elem_of_further).
      destruct (decide (x = t)) as [->|Hxt]; [by rewrite lookup_insert_ne, lookup_insert_eq|].
      by rewrite !lookup_insert_ne by congruence.
Qed.

(** The processor on which the current task ends, while the tasks [ws] wait at [head]. *)
Lemma exit_cpu s l q ct head ws : tasks_ok s l q -> cur s <> init_union ->
  s.(cpu).(tasks) !! s.(cpu).(current) = Some ct -> Z.of_nat (length q) + 2 < 2 ^ 62 ->
  wait_rep queue init_task s.(cpu) q TASK_INTERRUPTIBLE head ws ->
  Forall (fun wt => exists t, t ∈ l /\ snd wt = list_at t) ws ->
  let z := set_state TASK_ZOMBIE ct in
  let c1 := set_tasks (<[s.(cpu).(current) := z]> s.(cpu).(tasks)) s.(cpu) in
  exists c2 c' q', wakeup queue init_task head TASK_INTERRUPTIBLE c1 = Some c2 /\
    schedule queue init_task c2 = Some c' /\
    cpu_ok queue init_task c' q' /\ others (c'.(current) :: q') ≡ₚ map snd (take 1 ws) ++ others q /\
    c'.(current) <> s.(cpu).(current) /\ state <$> c'.(tasks) !! s.(cpu).(current) = Some TASK_ZOMBIE /\
    wait_rep queue init_task c' q' TASK_INTERRUPTIBLE head (tail ws) /\
    (forall t, is_Some (s.(cpu).(tasks) !! t) -> is_Some (c'.(tasks) !! t)) /\
    (exists t, t ∈ init_union :: l /\ c'.(current) = list_at t) /\ queued l c' q'.
Proof using Type.
  intros K Hni Hct Hb W Hws z c1. pose proof (tasks_current _ _ _ _ _ K) as [Hcl Hcur].
  destruct (exit_wakeup s l q ct head ws K Hct Hb W Hws)
    as (c2 & q2 & z' & E2 & C2 & P2 & Ec2 & Hz' & Sz' & W2 & T2 & Q2).
  destruct (schedule_run queue init_task c2 q2 z' C2) as (c' & q' & E' & C' & P' & _ & Hne & Ets & Ew & _ & Hf & Hm);
    [by rewrite Ec2|].
  rewrite Sz' in P', Hne. cbn [Z.eqb TASK_ZOMBIE TASK_RUNNING Pos.eqb app] in P'. rewrite Ec2 in *.
  destruct (scheduled s l q c2 q2 c' q') as [Hc' Q']; try done.
  { intros x Hx. rewrite Ets, lookup_insert_ne; [done|]. congruence. }
  exists c2, c', q'. split_and!; try done.
  - by rewrite P'.
  - apply Hne; [done|]. rewrite Hcur. intros E. apply Hni.
    apply list_at_inj in E; [done|by eapply tasks_memory|]. apply (tk_boot _ _ _ _ _ K).
  - rewrite Ets, lookup_insert_eq. cbn. by rewrite Sz'.
  - assert (forall x, x ∉ on_cpu queue init_task c2 q2 -> x ∉ on_cpu queue init_task c' q') as Hout
      by (intros x; by apply on_cpu_others).
    apply (wait_rep_frame _ _ _ _ _ _ _ _ _ W2); [|by intros x _; apply Hout| |done].
    + intros x Hx. apply Hf. apply (wr_disj _ _ _ _ _ _ _ W2) in Hx. unfold on_cpu in Hx. by rewrite Ec2 in Hx.
    + intros w t Hwt. split; [by rewrite Ew|]. rewrite Ets, lookup_insert_ne; [done|]. intros <-.
      apply (asleep_current _ _ _ _ _ _ _ (proj1 (wr_tsk _ _ _ _ _ _ _ W2 w _ Hwt))). by rewrite Ec2.
  - intros t Ht. rewrite Ets, lookup_insert_is_Some'. right. by apply T2.
Qed.

Lemma upd_cpu_some f s c : f s.(cpu) = Some c -> upd_cpu f s = Some (set_cpu c s).
Proof using Type. unfold upd_cpu. by intros ->. Qed.

(** C9. [do_exit] of a task that is not the first one: it becomes a zombie with its exit code, the
    first task that waits for its parent's children gets runnable, another task runs, no other task
    is lost and the list of tasks stays as it is. *)
Theorem do_exit_spec s l q p ct code ws : tasks_ok s l q -> cur s <> init_union ->
  s.(procs) !! cur s = Some p -> s.(cpu).(tasks) !! s.(cpu).(current) = Some ct ->
  Z.of_nat (length q) + 2 < 2 ^ 62 ->
  wait_rep queue init_task s.(cpu) q TASK_INTERRUPTIBLE (wait_childexit p.(parent)) ws ->
  Forall (fun wt => exists t, t ∈ l /\ snd wt = list_at t) ws ->
  exists c' q', let s' := set_cpu c' (set_procs (<[cur s := set_exit_code (i64 code) p]> s.(procs)) s) in
    do_exit queue init_task code s = Some s' /\ tasks_ok s' l q' /\
    state <$> c'.(tasks) !! list_at (cur s) = Some TASK_ZOMBIE /\ cur s' <> cur s /\
    others (c'.(current) :: q') ≡ₚ map snd (take 1 ws) ++ others q /\
    wait_rep queue init_task c' q' TASK_INTERRUPTIBLE (wait_childexit p.(parent)) (tail ws).
Proof using Type.
  intros K Hni Hp Hct Hb W Hws. pose proof (tasks_current _ _ _ _ _ K) as [Hcl Hcur].
  destruct (exit_cpu s l q ct _ ws K Hni Hct Hb W Hws)
    as (c2 & c' & q' & E2 & E' & C' & P & Hne & Hz & W' & T' & Hc' & Q').
  exists c', q'. intros s'. rewrite <- Hcur. split_and!; try done.
  - unfold do_exit. rewrite <- Hcur.
    rewrite (upd_cpu_some _ s (set_tasks (<[s.(cpu).(current) := set_state TASK_ZOMBIE ct]> s.(cpu).(tasks)) s.(cpu)))
      by (unfold upd_task; by rewrite Hct).
    cbn [mbind option_bind]. unfold upd_proc. cbn [procs set_cpu]. rewrite Hp.
    cbn [mbind option_bind]. unfold exit_notify, exit_files, exit_thread. change (cur (set_procs _ _)) with (cur s).
    cbn [procs set_procs]. rewrite lookup_insert_eq. cbn [mbind option_bind parent set_exit_code].
    rewrite (upd_cpu_some _ _ c2) by done. cbn [mbind option_bind]. by rewrite (upd_cpu_some _ _ c').
  - apply (tasks_ok_step s _ l q q' K); try done; cbn [cpu procs s' set_cpu set_procs].
    + intros t Ht. by apply T', (tk_task _ _ _ _ _ K).
    + intros t. destruct (decide (cur s = t)) as [<-|]; [by rewrite lookup_insert_eq, Hp|by rewrite lookup_insert_ne].
  - intros E. apply Hne. destruct Hc' as (t & Ht & Et). rewrite Et, Hcur, <- E. f_equal.
    unfold cur. cbn [cpu s' set_cpu]. rewrite Et. symmetry. apply task_at_list. by eapply tasks_memory.
Qed.
End Exit.

Section Wait.
Context {M : Type} `{HF : Frames M} `{HL : !AllocatorLaws M} `{HP : !PagingLaws M} `{HT : !TaskLaws M}.
Context (queue init_union : Z).
Notation init_task := (list_at init_union).
Notation tasks_ok := (tasks_ok queue init_union).
Notation others := (filter (fun x => x <> init_task)).
Implicit Type s : kstate M.

(** The search of [sys_wait4] finds the task with the pid and its predecessor. *)
Lemma wait_finds fuel s l q c pc : tasks_ok s l q -> c ∈ l -> s.(procs) !! c = Some pc ->
  s.(global_pid) < 2 ^ 63 -> (length l < fuel)%nat ->
  exists l1 l2, l = l1 ++ c :: l2 /\
    find_child init_union fuel pc.(pid) init_union s = Some (List.last l1 init_union, c).
Proof using Type.
  intros K Hc Hpc Hg Hf. destruct (list_elem_of_split _ _ Hc) as (l1 & l2 & ->). exists l1, l2. split; [done|].
  assert (forall x p, x ∈ l1 ++ c :: l2 -> s.(procs) !! x = Some p -> u64 p.(pid) = p.(pid)) as Hu.
  { intros x p Hx Hp. pose proof (tk_pid _ _ _ _ _ K x p Hx Hp). apply u64_small. lia. }
  pose proof (tk_nodup _ _ _ _ _ K) as Hnd. apply NoDup_cons in Hnd as [Hi Hnd].
  apply (find_child_some init_union fuel _ s l1 c l2); [apply K| |done| |].
  - rewrite length_app in Hf. lia.
  - intros x p Hx Hp. rewrite (Hu x) by (done || set_solver). intros E.
    assert (x = c) as -> by (eapply (tk_pids _ _ _ _ _ K); try done; set_solver).
    apply NoDup_app in Hnd as (_ & Hd & _). apply (Hd c Hx), list_elem_of_here.
  - intros p Hp. rewrite (Hu c) by (done || set_solver). congruence.
Qed.

(** The address space of a forked task that has not grown its tables. *)
Definition own_space s (pc : proc) (root t1 t2 f : Z) : Prop := exists m,
  user_ok (set_cmm pc.(mm) s.(space)) m (child_L root t1 t2) /\ m.(pgd) = Virt_To_Phy root /\
  NoDup [t2; t1; root; pc.(mm)] /\ f ∈ frames s.(space).(vheap) /\
  walk s.(space).(words) m.(pgd) code_start_addr = f + PAGE_USER_Page.

(** What [exit_mm] leaves to the tasks [l]. *)
Record mm_left (l : list Z) (v : vm M) : Prop := {
  ml_task t : t ∈ l -> t ∈ live v.(vheap) /\ t ∉ tables v.(vheap) /\ v.(mms) !! t = None;
  ml_mms a : is_Some (v.(mms) !! a) -> a ∈ live v.(vheap) /\ a ∉ tables v.(vheap)
}.

Lemma exit_mm_left s l q pc fl : tasks_ok s l q ->
  (fl .& PF_VFORK = 0 -> exists root t1 t2 f, own_space s pc root t1 t2 f) ->
  exists v, exit_mm pc.(mm) fl s.(space) = Some v /\ mm_left l v /\
    (fl .& PF_VFORK <> 0 -> v = s.(space)) /\
    (forall root t1 t2 f, fl .& PF_VFORK = 0 -> own_space s pc root t1 t2 f ->
      live v.(vheap) = live s.(space).(vheap) ∖ {[ t2; t1; root; pc.(mm) ]} /\
      frames v.(vheap) = frames s.(space).(vheap) ∖ {[ f ]} /\ v.(mms) = delete pc.(mm) s.(space).(mms)).
Proof using Type.
  intros K Hown. destruct (decide (fl .& PF_VFORK = 0)) as [Hf|Hf].
  2: { exists s.(space). unfold exit_mm. rewrite (proj2 (Z.eqb_neq _ _) Hf). split_and!; try done.
       constructor; [|apply K]. intros t Ht. by apply (tk_obj _ _ _ _ _ K). }
  assert (forall v0 : vm M, exit_mm pc.(mm) fl v0 = exit_mm pc.(mm) 0 v0) as E0 by (intros v0; unfold exit_mm; by rewrite Hf).
  assert (forall root t1 t2 f, own_space s pc root t1 t2 f -> exists v, exit_mm pc.(mm) fl s.(space) = Some v /\
    mm_left l v /\ live v.(vheap) = live s.(space).(vheap) ∖ {[ t2; t1; root; pc.(mm) ]} /\
    frames v.(vheap) = frames s.(space).(vheap) ∖ {[ f ]} /\ v.(mms) = delete pc.(mm) s.(space).(mms)) as Hex.
  { intros root t1 t2 f (m & U & Hpgd & Hnd & Hfr & Hw). pose proof (uo_mm _ _ _ U) as Hmm.
    cbn [mms cmm set_cmm] in Hmm. destruct (tk_mms _ _ _ _ _ K pc.(mm)) as [Hl Ht]; [by eexists|].
    destruct (exit_mm_tables s.(space) pc.(mm) m root t1 t2 f U Hpgd Hnd Hl Ht Hw Hfr)
      as (v & E & _ & Em & El & Et & Ef). rewrite <- E0 in E. exists v. split_and!; try done.
    assert (forall t, t ∈ [t2; t1; root] -> t ∈ tables s.(space).(vheap)) as Htab.
    { intros t Hin. pose proof (uo_tables _ _ _ U) as P.
      assert (exists k, child_L root t1 t2 !! k = Some t) as [k Hk];
        [|by apply (pk_table _ _ _ _ _ _ P) in Hk as [_ ?]].
      rewrite !elem_of_cons in Hin. destruct Hin as [->|[->|[->|[]%not_elem_of_nil]]];
        [exists [0; 0]|exists [0]|exists []]; done. }
    rewrite !NoDup_cons in Hnd. constructor.
    - intros t Hin. destruct (tk_obj _ _ _ _ _ K t Hin) as (_ & O2 & O3 & O4). rewrite El, Et, Em.
      assert (t <> pc.(mm)) by congruence. rewrite lookup_delete_ne by done. split_and!; [|set_solver|done].
      apply elem_of_difference. split; [done|]. rewrite !elem_of_union, !elem_of_singleton.
      intros [[[E1|E1]|E1]|E1]; [..|done]; apply O3; rewrite E1; apply Htab; set_solver.
    - rewrite Em, El, Et. intros a [x Ha]. apply lookup_delete_Some in Ha as [Hne Ha].
      destruct (tk_mms _ _ _ _ _ K a) as [A1 A2]; [by eexists|]. split; [|set_solver].
      apply elem_of_difference. split; [done|]. rewrite !elem_of_union, !elem_of_singleton.
      intros [[[E1|E1]|E1]|E1]; [..|done]; apply A2; rewrite E1; apply Htab; set_solver. }
  destruct (Hown Hf) as (root & t1 & t2 & f & Ho). destruct (Hex _ _ _ _ Ho) as (v & E & Hl & _).
  exists v. split_and!; [done|done|done|]. intros root' t1' t2' f' _ Ho'.
  destruct (Hex _ _ _ _ Ho') as (v' & E' & _ & ?). congruence.
Qed.

(** The state after a child has been released. *)
Definition reaped (size : nat) (status prev c : Z) (pc pp : proc) (v : vm M) (h : M) s : kstate M :=
  mkK (set_tasks (delete (list_at c) s.(cpu).(tasks)) s.(cpu)) (set_vheap h v)
    (delete c (<[prev := set_task_next pc.(next) pp]> s.(procs))) s.(threads) s.(kstacks)
    (fst (copy_to_user (le_bytes size pc.(exit_code)) status s.(umem))) s.(global_pid).

Lemma reap_run s size status prev c pc pp tc v r h : prev <> c -> s.(procs) !! c = Some pc ->
  s.(procs) !! prev = Some pp -> s.(cpu).(tasks) !! list_at c = Some tc ->
  exit_mm pc.(mm) tc.(flags) s.(space) = Some v -> release c v.(vheap) = Some (r, h) ->
  reap size status prev c s = Some (0, reaped size status prev c pc pp v h s).
Proof using Type.
  intros Hne Hc Hp Htc Ev Er. unfold reap. rewrite Hc. cbn [mbind option_bind].
  unfold upd_proc. cbn [procs set_memory]. rewrite Hp. cbn [mbind option_bind].
  unfold exit_task_mm. cbn [procs set_procs cpu set_memory space]. rewrite lookup_insert_ne, Hc by done.
  cbn [mbind option_bind]. rewrite Htc. cbn [mbind option_bind]. rewrite Ev. cbn [mbind option_bind].
  unfold free_task. cbn [space set_space]. rewrite Er. cbn [mbind option_bind]. done.
Qed.

Lemma reaped_ok s size status l1 l2 q c pc pp v h : tasks_ok s (l1 ++ c :: l2) q -> cur s <> c ->
  list_at c ∉ q -> s.(procs) !! c = Some pc -> s.(procs) !! List.last l1 init_union = Some pp ->
  mm_left (l1 ++ c :: l2) v -> live h = live v.(vheap) ∖ {[ c ]} -> tables h = tables v.(vheap) ->
  tasks_ok (reaped size status (List.last l1 init_union) c pc pp v h s) (l1 ++ l2) q.
Proof using Type.
  intros K Hcc Hq Hc Hp [V1 V2] Hl Ht. pose proof (tk_nodup _ _ _ _ _ K) as Hnd.
  pose proof (tasks_current _ _ _ _ _ K) as [Hcl Hcur].
  assert (c ∉ l1 ++ l2 /\ c <> init_union /\ NoDup (init_union :: l1 ++ l2)) as (Hc1 & Hc2 & Hnd').
  { rewrite <- Permutation_middle, NoDup_cons, NoDup_cons in Hnd. rewrite NoDup_cons. set_solver. }
  assert (forall t, t ∈ init_union :: l1 ++ l2 -> t <> c /\ t ∈ init_union :: l1 ++ c :: l2 /\ list_at c <> list_at t) as Hin.
  { intros t Hin. assert (t <> c) by set_solver. split_and!; [done|set_solver|]. intros E.
    apply list_at_inj in E; [congruence|eapply tasks_memory; [exact K|set_solver]..]. }
  assert (forall t p, t ∈ l1 ++ l2 -> delete c (<[List.last l1 init_union := set_task_next pc.(next) pp]> s.(procs)) !! t = Some p ->
    exists p', s.(procs) !! t = Some p' /\ p'.(pid) = p.(pid)) as Hpid.
  { intros t p Htl E. rewrite lookup_delete_ne in E by (intros <-; done). apply lookup_insert_Some in E as [[<- <-]|[_ E]];
      [exists pp|exists p]; done. }
  constructor; cbn [cpu space procs global_pid reaped]; [apply K| | |done| | | | | | |].
  - apply (cpu_ok_part _ _ s.(cpu)); [apply K|done|done| | |done|done]; cbn.
    + intros x Hx. rewrite lookup_delete_ne; [done|]. intros <-.
      rewrite !elem_of_cons in Hx. destruct Hx as [E|[E|[E|Hx]]]; [|..|done].
      * destruct (tk_obj _ _ _ _ _ K c ltac:(set_solver)) as [Hr _].
        apply (bo_queue _ _ (tk_boot _ _ _ _ _ K) _ Hr). rewrite <- E, list_at_memory by (by apply task_range_memory).
        unfold STACK_SIZE. lia.
      * by apply (Hin init_union ltac:(apply list_elem_of_here)).
      * rewrite Hcur in E. apply list_at_inj in E; [congruence|eapply tasks_memory; [exact K|set_solver]..].
    + intros x t' Ht'. apply lookup_delete_Some in Ht' as [_ Ht'].
      by apply (co_vrun _ _ _ _ (tk_cpu _ _ _ _ _ K) x).
  - pose proof (pchain_unlink _ _ _ _ _ _ _ _ (tk_chain _ _ _ _ _ K) Hnd Hp Hc) as P.
    apply (pchain_move _ _ _ _ _ _ P); [|intros x Hx]; rewrite lookup_delete_ne; try done; set_solver.
  - intros t Htl. cbn. destruct (Hin t Htl) as (_ & Hin' & Hne). rewrite lookup_delete_ne by done.
    by apply (tk_task _ _ _ _ _ K).
  - intros t Htl. destruct (Hin t ltac:(by apply list_elem_of_further)) as (H1 & H2 & _).
    destruct (tk_obj _ _ _ _ _ K t ltac:(set_solver)) as (O1 & _). destruct (V1 t ltac:(set_solver)) as (O2 & O3 & O4).
    cbn. rewrite Hl, Ht. split_and!; [done|set_solver|done|done].
  - cbn. rewrite Hl, Ht. intros a Ha. destruct (V2 a Ha) as [H1 H2]. split; [|done].
    apply elem_of_difference. split; [done|]. intros ->%elem_of_singleton.
    destruct (V1 c ltac:(set_solver)) as (_ & _ & E). rewrite E in Ha. by destruct Ha.
  - intros t p Htl E. destruct (Hpid t p Htl E) as (p' & E' & <-). apply (tk_pid _ _ _ _ _ K t); [set_solver|done].
  - intros t t' p p' Htl Htl' E E' Epp. destruct (Hpid t p Htl E) as (r & Er & E1), (Hpid t' p' Htl' E') as (r' & Er' & E2).
    apply (tk_pids _ _ _ _ _ K t t' r r'); [set_solver|set_solver|done|done|congruence].
  - exists (cur s). split; [set_solver|done].
  - intros x Hx. destruct (tk_queue _ _ _ _ _ K x Hx) as (t & Htl & -> & Es). exists t.
    assert (t <> c) by (by intros ->). split_and!; [set_solver|done|]. cbn. rewrite lookup_delete_ne; [done|].
    apply Hin. set_solver.
Qed.

(** A child is gone: it is off the list, its exit code has been delivered, and its memory has been
    given back, the address space only when the child had one of its own. *)
Record reap_done s s' (l1 : list Z) (c : Z) (l2 q : list Z) (size : nat) (status : Z) (pc : proc) (tc : task) : Prop := {
  rd_ok : tasks_ok s' (l1 ++ l2) q;
  rd_cpu : cur s' = cur s;
  rd_status : s'.(umem) = fst (copy_to_user (le_bytes size pc.(exit_code)) status s.(umem));
  rd_gone : s'.(procs) !! c = None /\ c ∉ live s'.(space).(vheap);
  rd_vfork : tc.(flags) .& PF_VFORK <> 0 -> live s'.(space).(vheap) = live s.(space).(vheap) ∖ {[ c ]} /\
    frames s'.(space).(vheap) = frames s.(space).(vheap) /\ s'.(space).(mms) = s.(space).(mms);
  rd_own root t1 t2 f : tc.(flags) .& PF_VFORK = 0 -> own_space s pc root t1 t2 f ->
    live s'.(space).(vheap) = live s.(space).(vheap) ∖ {[ t2; t1; root; pc.(mm) ]} ∖ {[ c ]} /\
    frames s'.(space).(vheap) = frames s.(space).(vheap) ∖ {[ f ]} /\
    s'.(space).(mms) = delete pc.(mm) s.(space).(mms)
}.

Lemma reap_spec s l1 c l2 q size status pc tc : tasks_ok s (l1 ++ c :: l2) q -> cur s <> c -> list_at c ∉ q ->
  s.(procs) !! c = Some pc -> s.(cpu).(tasks) !! list_at c = Some tc ->
  (tc.(flags) .& PF_VFORK = 0 -> exists root t1 t2 f, own_space s pc root t1 t2 f) ->
  exists s', reap size status (List.last l1 init_union) c s = Some (0, s') /\
    reap_done s s' l1 c l2 q size status pc tc.
Proof using Type.
  intros K Hcc Hq Hc Htc Hown. set (prev := List.last l1 init_union).
  assert (prev ∈ init_union :: l1) as Hprev by apply last_in.
  pose proof (tk_nodup _ _ _ _ _ K) as Hnd. rewrite app_comm_cons in Hnd. apply NoDup_app in Hnd as (_ & Hd & _).
  assert (prev <> c) as Hne by (intros E; rewrite E in Hprev; apply (Hd c Hprev), list_elem_of_here).
  destruct (pchain_lookup _ _ _ _ prev (tk_chain _ _ _ _ _ K)) as [pp Hp].
  { rewrite app_comm_cons. apply elem_of_app. by left. }
  destruct (exit_mm_left s _ q pc tc.(flags) K Hown) as (v & Ev & V & Hv1 & Hv2).
  destruct (ml_task _ _ V c ltac:(set_solver)) as (L1 & L2 & _).
  destruct (release_live c v.(vheap) L1) as (r & h & Er & El & _).
  destruct (release_other _ _ _ _ Er) as [Et Ef]; [set_solver|].
  eexists. split; [by eapply reap_run|]. constructor; cbn [cpu space procs umem reaped vheap mms set_vheap].
  - by apply reaped_ok.
  - done.
  - done.
  - rewrite lookup_delete_eq, El. set_solver.
  - intros Hf. rewrite El, Ef. by rewrite (Hv1 Hf).
  - intros root t1 t2 f Hf Ho. destruct (Hv2 _ _ _ _ Hf Ho) as (E1 & E2 & E3). by rewrite El, Ef, E1, E2, E3.
Qed.

(** C10. [sys_wait4] on every outcome that returns: no task with the pid, options that are not
    supported, a child that has ended; and its end after it has slept, provided the task it found
    as the predecessor still is the predecessor. *)
Theorem sys_wait4_spec s l q fuel id status options wait : tasks_ok s l q -> (length l < fuel)%nat ->
  s.(global_pid) < 2 ^ 63 ->
  ((forall c p, c ∈ l -> s.(procs) !! c = Some p -> p.(pid) <> id) ->
    sys_wait4 queue init_task init_union fuel id status options wait s = Some (returned (u64 (- ECHILD)), s)) /\
  (forall c pc tc, c ∈ l -> s.(procs) !! c = Some pc -> pc.(pid) = id -> s.(cpu).(tasks) !! list_at c = Some tc ->
    (options <> 0 ->
      sys_wait4 queue init_task init_union fuel id status options wait s = Some (returned (u64 (- EINVAL)), s)) /\
    (options = 0 -> tc.(state) = TASK_ZOMBIE -> cur s <> c ->
      (tc.(flags) .& PF_VFORK = 0 -> exists root t1 t2 f, own_space s pc root t1 t2 f) ->
      exists l1 l2 s', l = l1 ++ c :: l2 /\
        sys_wait4 queue init_task init_union fuel id status options wait s = Some (returned 0, s') /\
        reap_done s s' l1 c l2 q 4 status pc tc) /\
    (forall l1 l2, l = l1 ++ c :: l2 -> cur s <> c -> list_at c ∉ q ->
      (tc.(flags) .& PF_VFORK = 0 -> exists root t1 t2 f, own_space s pc root t1 t2 f) ->
      exists s', wait4_resume status (List.last l1 init_union) c s = Some (0, s') /\
        reap_done s s' l1 c l2 q 8 status pc tc)).
Proof using Type.
  intros K Hf Hg. unfold sys_wait4. split.
  { intros Hno. destruct (find_child_none init_union fuel id s l init_union) as [prev ->]; [apply K|done| | |done].
    - pose proof (tk_nodup _ _ _ _ _ K) as Hnd. by apply NoDup_cons in Hnd as [? _].
    - intros c p Hc Hp. pose proof (tk_pid _ _ _ _ _ K c p Hc Hp). rewrite u64_small by lia. by apply (Hno c). }
  intros c pc tc Hc Hpc <- Htc. destruct (wait_finds fuel s l q c pc K Hc Hpc Hg Hf) as (l1 & l2 & El & ->).
  cbn [mbind option_bind]. destruct (tk_obj _ _ _ _ _ K c Hc) as [(Hc0 & _)%task_aligned _].
  rewrite (proj2 (Z.eqb_neq _ _)) by lia. split_and!.
  - intros Ho. by rewrite (proj2 (Z.eqb_neq _ _) Ho).
  - intros -> Hz Hcc Hown. cbn [Z.eqb negb]. rewrite Htc. cbn [mbind option_bind]. rewrite Hz, Z.eqb_refl.
    subst l. assert (list_at c ∉ q) as Hq.
    { intros Hx. destruct (tk_queue _ _ _ _ _ K _ Hx) as (t & _ & _ & Es). rewrite Htc in Es. cbn in Es.
      rewrite Hz in Es. done. }
    destruct (reap_spec s l1 c l2 q 4 status pc tc) as (s' & E & R); try done.
    exists l1, l2, s'. by rewrite E.
  - intros l1' l2' -> Hcc Hq Hown. by apply reap_spec.
Qed.

(** [sys_wait4] with a child that has not ended: the caller sleeps on its own queue, another
    task runs and no other is lost; what it remembers are the child and its predecessor. *)
Theorem sys_wait4_sleeps s l q fuel id status wait c pc tc ct : tasks_ok s l q -> (length l < fuel)%nat ->
  s.(global_pid) < 2 ^ 63 -> c ∈ l -> s.(procs) !! c = Some pc -> pc.(pid) = id ->
  s.(cpu).(tasks) !! list_at c = Some tc -> tc.(state) <> TASK_ZOMBIE ->
  s.(cpu).(tasks) !! s.(cpu).(current) = Some ct -> cur s <> init_union ->
  wait_rep queue init_task s.(cpu) q TASK_INTERRUPTIBLE (wait_childexit (cur s)) [] ->
  wait ∉ on_cpu queue init_task s.(cpu) q -> wait <> wait_childexit (cur s) -> wait <> 0 ->
  s.(cpu).(current) <> wait_childexit (cur s) ->
  exists l1 l2 c' q', l = l1 ++ c :: l2 /\
    sys_wait4 queue init_task init_union fuel id status 0 wait s =
      Some (waiting (List.last l1 init_union) c, set_cpu c' s) /\
    tasks_ok (set_cpu c' s) l q' /\ cur (set_cpu c' s) <> cur s /\
    state <$> c'.(tasks) !! list_at (cur s) = Some TASK_INTERRUPTIBLE /\
    wait_rep queue init_task c' q' TASK_INTERRUPTIBLE (wait_childexit (cur s)) [(wait, list_at (cur s))] /\
    others (c'.(current) :: q') ≡ₚ others q.
Proof using Type.
  intros K Hf Hg Hc Hpc <- Htc Hz Hct Hni W Hw1 Hw2 Hw0 Hcw. pose proof (tasks_current _ _ _ _ _ K) as [Hcl Hcur].
  destruct (wait_finds fuel s l q c pc K Hc Hpc Hg Hf) as (l1 & l2 & El & Ef).
  destruct (tk_obj _ _ _ _ _ K c Hc) as [(Hc0 & _)%task_aligned _].
  assert (s.(cpu).(current) <> init_task) as Hci.
  { rewrite Hcur. intros E. apply Hni. apply list_at_inj in E; [done|by eapply tasks_memory|apply (tk_boot _ _ _ _ _ K)]. }
  destruct (sleep_with_spec queue init_task s.(cpu) q TASK_INTERRUPTIBLE _ [] wait ct (tk_cpu _ _ _ _ _ K) W Hct)
    as (c' & q' & E & C' & W' & P & Hne & _ & Ets & _ & _ & _); try done;
    [by rewrite list_elem_of_singleton|apply not_elem_of_nil|by rewrite list_elem_of_singleton|].
  destruct (scheduled queue init_union s l q s.(cpu) q c' q' K (tk_cpu _ _ _ _ _ K) C') as [Hc' Q']; try done.
  { intros x Hx. by apply (tk_queue _ _ _ _ _ K). }
  { intros x Hx. by rewrite Ets, lookup_insert_ne. }
  exists l1, l2, c', q'. rewrite <- Hcur. split_and!; try done.
  - unfold sys_wait4. rewrite Ef. cbn [mbind option_bind]. rewrite (proj2 (Z.eqb_neq _ _)) by lia.
    cbn [Z.eqb negb]. rewrite Htc. cbn [mbind option_bind]. rewrite (proj2 (Z.eqb_neq _ _) Hz).
    by rewrite (upd_cpu_some _ s c').
  - apply (tasks_ok_step queue init_union s _ l q q' K); try done. intros t Ht. cbn [cpu set_cpu].
    rewrite Ets, lookup_insert_is_Some'. right. by apply (tk_task _ _ _ _ _ K).
  - intros E'. apply Hne. destruct Hc' as (t & Ht & Et). rewrite Et, Hcur, <- E'. f_equal.
    unfold cur. cbn [cpu set_cpu]. rewrite Et. symmetry. apply task_at_list. by eapply tasks_memory.
  - by rewrite Ets, lookup_insert_eq.
Qed.
End Wait.
