(* ===== verification/TaskDemo.v ===== *)
(** * Concrete tasks

    Two processes, a parent and its child, on the heap of [Pool]: the theorems of [Task] at
    concrete states, and what happens when a task forks while its parent waits for it. *)

From S2P Require Import Prelude Klist PageAlloc Sched Alloc Bytes Errno Paging Mm Pool Task.

#[export] Program Instance pool_tasks : TaskLaws pool := {|
  task_range a := exists i, (i < 65536)%N /\ a = object_at i
|}.
Next Obligation.
  intros a (i & Hi & ->). unfold object_at, PAGE_OFFSET, STACK_SIZE. split_and!; [lia..|].
  replace (0xffff800000000000 + 2 ^ 30 + 2 ^ 15 * Z.of_N i)
    with (0 + (0x1ffff00000000 + 2 ^ 15 + Z.of_N i) * 32768) by lia. apply Z_mod_plus_full.
Qed.
Next Obligation.
  cbn. intros m a m' E Ha. destruct (N.ltb_spec (top m.(objects) + 1) 65536); simplify_eq. by eexists.
Qed.

(** The first task, the parent (pid 1) and the child (pid 2). *)
Definition task0 : Z := 0x1000.
Definition father : Z := object_at 5.
Definition child : Z := object_at 6.
(** The entry with which the parent waits, on its kernel stack. *)
Definition entry_w : Z := father + 32000.

Definition pool_run : vm pool :=
  set_vheap (mkPool ({[ 5%N; 6%N ]} ∪ vm_run.(vheap).(objects)) vm_run.(vheap).(pages_4K) vm_run.(vheap).(pages_2M))
    vm_run.

(** The child has been made with [vfork]. *)
Definition family (c : sched) : kstate pool := mkK c pool_run
  (list_to_map [(task0, mkProc 0 0 0 0 0 0 0 [] 0 child task0);
    (father, mkProc 0 0 0 (object_at 2) (father + 232) TASK_SIZE 1 [] 0 task0 task0);
    (child, mkProc 0 0 0 (object_at 2) (child + 232) TASK_SIZE 2 [] 7 father father)])
  (list_to_map [(father + 232, mkThread (father + 32768) 0 0 48 48 0 0 0);
    (child + 232, mkThread (child + 32768) 0 0 48 48 0 0 0)])
  (list_to_map [(father + 32576, mkRegs 0 0 0 0 0 0 0 0 0 0 0 0 0 0 48 48 5 0 0 0 40 512 0x9ff000 48);
    (child + 32576, mkRegs 0 0 0 0 0 0 0 0 0 0 0 0 0 0 48 48 5 0 0 0 40 512 0x9fe000 48)])
  ∅ 3.

(** The states of the two processes, and the links of the run queue, of the parent's wait queue
    and of the entry. *)
Definition family_cpu (fst cst cur : Z) (links : list (Z * List)) : sched := mkSched
  (list_to_map (links ++ [(100, mkList 100 100); (list_at task0, mkList 0 0); (list_at father, mkList 0 0);
    (list_at child, mkList 0 0); (wait_childexit father, mkList (wait_childexit father) (wait_childexit father))]))
  (list_to_map [(100, mkTask 0 0 0 LONG_MAX); (list_at task0, mkTask TASK_RUNNING PF_KTHREAD 2 0);
    (list_at father, mkTask fst 0 2 5); (list_at child, mkTask cst PF_VFORK 2 7)])
  (list_to_map [(wait_childexit father, 0); (entry_w, list_at father)]) ∅
  (1 + Z.of_nat (length (filter (fun x => x.1 = list_at child) links))) 4 cur.

(** The parent runs and the child is queued; the child runs and the parent waits for it; the
    parent runs and the child has ended. *)
Definition both_run : sched := family_cpu TASK_RUNNING TASK_RUNNING (list_at father)
  [(100, mkList (list_at child) (list_at child)); (list_at child, mkList 100 100)].
Definition child_runs : sched := family_cpu TASK_INTERRUPTIBLE TASK_RUNNING (list_at child)
  [(wait_childexit father, mkList entry_w entry_w); (entry_w, mkList (wait_childexit father) (wait_childexit father))].
Definition child_ended : sched := family_cpu TASK_RUNNING TASK_ZOMBIE (list_at father) [].

Ltac concrete := vm_compute; repeat split; congruence.
(** A decidable fact about a concrete state. *)
Tactic Notation "computed" := apply (bool_decide_unpack _); by vm_compute.
Ltac links := split; [computed|by vm_compute].

Lemma family_cpu_ok fst cst cur links q : let c := family_cpu fst cst cur links in
  ring c.(nodes) 100 q -> cur = list_at father \/ cur = list_at child ->
  is_Some (c.(nodes) !! list_at task0) -> is_Some (c.(nodes) !! cur) ->
  q = [] \/ q = [list_at child] /\ cur <> list_at child -> running_task_count c = 1 + Z.of_nat (length q) ->
  cpu_ok 100 (list_at task0) c q.
Proof.
  intros c Hr Hc Hn Hn' Hq Hcount.
  assert (forall x, x ∈ q -> x = list_at child) as Hin.
  { intros x Hx. destruct Hq as [->|[-> _]]; [by apply not_elem_of_nil in Hx|by apply list_elem_of_singleton in Hx]. }
  assert (cur <> 100 /\ cur <> 0 /\ is_Some (c.(tasks) !! cur)) as (Hc1 & Hc2 & Hct).
  { destruct Hc as [->| ->]; split_and!; try discriminate; by eexists. }
  constructor; try done.
  - constructor; try done.
    + rewrite elem_of_cons. intros [?|Hx]; [done|]. by apply Hin in Hx.
    + intros Hx. by apply Hin in Hx.
    + intros x Hx. apply Hin in Hx as ->. by eexists.
    + destruct Hq as [->|[-> _]]; repeat constructor.
    + destruct Hq as [->|[-> _]]; cbn; lia.
  - rewrite elem_of_cons. intros [?|Hx]; [done|]. destruct Hq as [->|[-> Hne]]; [by apply not_elem_of_nil in Hx|].
    by apply list_elem_of_singleton in Hx.
  - intros x t Ht. apply elem_of_list_to_map_2 in Ht. rewrite !elem_of_cons in Ht.
    destruct Ht as [Ht|[Ht|[Ht|[Ht|Ht]]]]; [simplify_eq; cbn; unfold LONG_MAX; lia..|].
    by apply not_elem_of_nil in Ht.
  - destruct Hq as [->|[-> _]]; cbn; lia.
Qed.

Lemma family_ok fst cst cur links q : let c := family_cpu fst cst cur links in
  cpu_ok 100 (list_at task0) c q -> cur = list_at father \/ cur = list_at child ->
  (forall x, x ∈ q -> x = list_at child /\ cst = TASK_RUNNING) -> tasks_ok 100 task0 (family c) [child; father] q.
Proof.
  intros c C Hc Hq. assert (forall t, t ∈ [child; father] -> t = child \/ t = father) as Hl.
  { intros t Ht. rewrite !elem_of_cons in Ht. destruct Ht as [|[|[]%not_elem_of_nil]]; auto. }
  constructor.
  - constructor; [concrete| |]; intros a (i & Hi & ->); unfold object_at, PAGE_OFFSET, task0, sizeof_task_struct; lia.
  - done.
  - by vm_compute.
  - apply (bool_decide_unpack _). by vm_compute.
  - intros t Ht. apply elem_of_cons in Ht as [->|[->| ->]%Hl]; by eexists.
  - intros t [->| ->]%Hl; (split; [first [by exists 6%N|by exists 5%N]|]); computed.
  - intros a Ha. cbn [family space pool_run set_vheap vheap mms] in *.
    destruct vm_run_ok as (L & _ & _ & Em). rewrite Em in Ha. destruct Ha as [x Ha].
    apply lookup_singleton_Some in Ha as [<- _]. apply (bool_decide_unpack _). by vm_compute.
  - intros t p [->| ->]%Hl Hp; vm_compute in Hp; simplify_eq; cbn; lia.
  - intros t t' p p' [->| ->]%Hl [->| ->]%Hl Hp Hp'; vm_compute in Hp, Hp'; simplify_eq; done.
  - destruct Hc as [->| ->]; [exists father|exists child]; (split; [set_solver|done]).
  - intros x Hx. destruct (Hq x Hx) as [-> ->]. exists child. split_and!; [set_solver|done|done].
Qed.

Lemma both_run_ok : tasks_ok 100 task0 (family both_run) [child; father] [list_at child].
Proof.
  apply family_ok; [|by left|by intros x ->%list_elem_of_singleton].
  apply family_cpu_ok; [links|by left|by eexists|by eexists|by right|by vm_compute].
Qed.

Lemma child_runs_ok : tasks_ok 100 task0 (family child_runs) [child; father] [].
Proof.
  apply family_ok; [|by right|by intros x Hx%not_elem_of_nil].
  apply family_cpu_ok; [links|by right|by eexists|by eexists|by left|by vm_compute].
Qed.

Lemma child_ended_ok : tasks_ok 100 task0 (family child_ended) [child; father] [].
Proof.
  apply family_ok; [|by left|by intros x Hx%not_elem_of_nil].
  apply family_cpu_ok; [links|by left|by eexists|by eexists|by left|by vm_compute].
Qed.

Definition proc_of (t : Z) (s : kstate pool) : proc := default (mkProc 0 0 0 0 0 0 0 [] 0 0 0) (s.(procs) !! t).

Lemma family_copyable c : exists L, copyable (Virt_To_Phy (object_at 1)) (family c) (proc_of father (family c)) mm_run L.
Proof.
  destruct vm_run_ok as (L & U & Hw & _). exists L. split_and!.
  - assert (set_cmm (object_at 2) pool_run = set_vheap pool_run.(vheap) vm_run) as E.
    { unfold set_cmm, set_vheap, pool_run. cbn. f_equal. }
    replace (proc_of father (family c)).(mm) with (object_at 2) by (by vm_compute). change (space (family c)) with pool_run. rewrite E.
    apply user_heap; [done|computed..].
  - replace (Phy_To_Virt _) with (object_at 1) by (by vm_compute). by apply object_at_table.
  - intros va Hva. apply Hw. change (fork_pages mm_run) with [brk_start_addr; code_start_addr] in Hva.
    rewrite !elem_of_cons in Hva. unfold brk_start_addr, code_start_addr in Hva.
    destruct Hva as [->|[->|Hva]]; [lia..|by apply not_elem_of_nil in Hva].
Qed.

Lemma do_fork_spec_witness : exists tsk s' q' m L newmm root t1 t2 v0 v,
  do_fork 100 (list_at task0) task0 (Virt_To_Phy (object_at 1)) 0 111 222 (child_regs 5 (mkRegs 0 0 0 0 0 0 0 0 0 0 0 0 0 0 0 0 0 0 0 0 0 0 0 0))
    0 0x9ff000 0 (family both_run) = Some (3, s') /\
  tasks_ok 100 task0 s' [tsk; child; father] q' /\ forked (Virt_To_Phy (object_at 1)) m L newmm root t1 t2 (fork_pages m) v0 v.
Proof.
  destruct (family_copyable both_run) as (L & Hc).
  destruct (do_fork_spec 100 task0 (Virt_To_Phy (object_at 1)) 0 111 222 (family both_run) [child; father] [list_at child]
    (proc_of father (family both_run)) (mkTask TASK_RUNNING 0 2 5) (mkThread (father + 32768) 0 0 48 48 0 0 0) mm_run L
    (child_regs 5 (mkRegs 0 0 0 0 0 0 0 0 0 0 0 0 0 0 0 0 0 0 0 0 0 0 0 0)) 0 0x9ff000 0 both_run_ok)
    as (tsk & hp & newmm & v & c & h & q' & E & K & _ & _ & _ & _ & _ & _ & _ & _ & Hsc).
  - by vm_compute.
  - by vm_compute.
  - by vm_compute.
  - intros _. exact Hc.
  - cbn. lia.
  - cbn. lia.
  - split; vm_compute; reflexivity.
  - destruct (Hsc eq_refl) as (root & t1 & t2 & F).
    eexists tsk, _, q', mm_run, L, newmm, root, t1, t2, _, v. split; [exact E|]. split; [exact K|exact F].
Defined.

(** The child ends while its parent waits for it: the parent runs again. *)
Lemma do_exit_spec_witness : exists s' q', do_exit 100 (list_at task0) 7 (family child_runs) = Some s' /\
  tasks_ok 100 task0 s' [child; father] q' /\ cur s' <> child.
Proof.
  destruct (do_exit_spec 100 task0 (family child_runs) [child; father] [] (proc_of child (family child_runs))
    (mkTask TASK_RUNNING PF_VFORK 2 7) 7 [(entry_w, list_at father)] child_runs_ok) as (c' & q' & E & K & _ & Hne & _).
  - by vm_compute.
  - by vm_compute.
  - by vm_compute.
  - cbn. lia.
  - constructor; [links|computed| | |].
    + intros x Hx. cbn [map fst] in Hx. rewrite !elem_of_cons in Hx. destruct Hx as [->|[->|[]%not_elem_of_nil]];
        computed.
    + intros w t Hwt. apply list_elem_of_singleton in Hwt. simplify_eq.
      split; [split_and!|]; computed.
    + repeat constructor. by intros []%not_elem_of_nil.
  - repeat constructor. exists father. split; [set_solver|done].
  - eexists _, q'. split; [exact E|]. split; [exact K|]. intros Hx. apply Hne. etransitivity; [exact Hx|]. by vm_compute.
Defined.

Lemma front_split (a b : Z) l1 l2 : a <> b -> [a; b] = l1 ++ a :: l2 -> l1 = [] /\ l2 = [b].
Proof.
  intros Hab E. destruct l1 as [|x l1]; [by injection E as <-|]. injection E as _ E.
  destruct l1 as [|y l1]; [by injection E|by destruct l1].
Qed.

(** The parent collects a child that has ended. *)
Lemma sys_wait4_spec_witness : exists s', 
  sys_wait4 100 (list_at task0) task0 3 2 0x9ff800 0 entry_w (family child_ended) = Some (returned 0, s') /\
  tasks_ok 100 task0 s' [father] [] /\ mem_read 0x9ff800 4 s'.(umem) = Some [7; 0; 0; 0].
Proof.
  destruct (sys_wait4_spec 100 task0 (family child_ended) [child; father] [] 3 2 0x9ff800 0 entry_w child_ended_ok)
    as [_ H]; [cbn; lia|cbn; lia|].
  destruct (H child (proc_of child (family child_ended)) (mkTask TASK_ZOMBIE PF_VFORK 2 7)) as (_ & Hz & _).
  - set_solver.
  - by vm_compute.
  - by vm_compute.
  - by vm_compute.
  - destruct (Hz eq_refl eq_refl) as (l1 & l2 & s' & El & E & R).
    + by vm_compute.
    + intros Hf. exfalso. by vm_compute in Hf.
    + apply front_split in El as [-> ->]; [|by vm_compute].
      exists s'. split; [exact E|]. destruct R as [R1 _ R3 _ _ _]. split; [exact R1|].
      rewrite R3. by vm_compute.
Defined.

(** The parent waits for a child that runs. *)
Lemma sys_wait4_sleeps_witness : exists prev s' q',
  sys_wait4 100 (list_at task0) task0 3 2 0x9ff800 0 entry_w (family both_run) = Some (waiting prev child, s') /\
  tasks_ok 100 task0 s' [child; father] q' /\ cur s' <> father.
Proof.
  destruct (sys_wait4_sleeps 100 task0 (family both_run) [child; father] [list_at child] 3 2 0x9ff800 entry_w child
    (proc_of child (family both_run)) (mkTask TASK_RUNNING PF_VFORK 2 7) (mkTask TASK_RUNNING 0 2 5) both_run_ok)
    as (l1 & l2 & c' & q' & _ & E & K & Hne & _).
  - cbn. lia.
  - cbn. lia.
  - set_solver.
  - by vm_compute.
  - by vm_compute.
  - by vm_compute.
  - by vm_compute.
  - by vm_compute.
  - by vm_compute.
  - replace (cur (family both_run)) with father by (by vm_compute).
    constructor; [links|computed| | |constructor].
    + intros x Hx. apply list_elem_of_singleton in Hx as ->. computed.
    + intros w t []%not_elem_of_nil.
  - computed.
  - by vm_compute.
  - by vm_compute.
  - by vm_compute.
  - eexists _, _, q'. split; [exact E|]. split; [exact K|].
    replace (cur (family both_run)) with father in Hne by (by vm_compute). exact Hne.
Defined.

(** The parent waits for the child, which is the first in the list, so that the predecessor it
    remembers is the first task.  The child forks, and the new task comes before it; then it ends.
    The result: what [sys_wait4] and the rest of it return, the task that runs then, the state of
    the new task, and whether its pid is found. *)
Definition wait_while_forking : option (Z * Z * Z * option Z * Z * wait4_result) :=
  r ← sys_wait4 100 (list_at task0) task0 4 2 0x9ff800 0 entry_w (family both_run);
  let '(w, s) := r in
  '(prev, c) ← match w with waiting prev c => Some (prev, c) | returned _ => None end;
  r ← do_fork 100 (list_at task0) task0 (Virt_To_Phy (object_at 1)) 0 111 222
    (child_regs 5 (mkRegs 0 0 0 0 0 0 0 0 0 0 0 0 0 0 0 0 0 0 0 0 0 0 0 0)) CLONE_VM 0x9ff000 0 s;
  let '(new, s) := r in
  forked ← get_task task0 9 new s;
  s ← do_exit 100 (list_at task0) 7 s;
  let runner := cur s in
  r ← wait4_resume 0x9ff800 prev c s;
  let '(v, s) := r in
  found ← get_task task0 9 new s;
  r ← sys_wait4 100 (list_at task0) task0 9 new 0x9ff800 0 entry_w s;
  Some (new, v, runner, state <$> s.(cpu).(tasks) !! list_at forked, found, fst r).

(** The rest of [sys_wait4] uses the predecessor from before it slept: the forked task, which is
    runnable, is no longer in the list of tasks. *)
Example wait4_loses_forked_task :
  wait_while_forking = Some (3, 0, father, Some TASK_RUNNING, 0, returned (u64 (- ECHILD))).
Proof. vm_compute. reflexivity. Qed.
