(* ===== verification/Bits.v ===== *)
(** * Bit fields

    Hardware registers and descriptors are words made of bit fields.  [pack] puts the fields
    together from the lowest up, each with its width, as the C compiler does with the members of a
    [struct] of bit fields; [unpack] takes a word apart.  [Gate] and [Apic] use them. *)

From S2P Require Import Prelude.

(** Arithmetic with division and remainder by constants. *)
Ltac divmod := Z.to_euclidean_division_equations; lia.

(** A bit field of [w] bits keeps the low bits of what is assigned to it. *)
Fixpoint pack (fields : list (Z * Z)) : Z :=
  match fields with
  | [] => 0
  | (w, v) :: fields => v mod 2 ^ w + 2 ^ w * pack fields
  end.

Fixpoint unpack (widths : list Z) (z : Z) : list Z :=
  match widths with
  | [] => []
  | w :: widths => z mod 2 ^ w :: unpack widths (z / 2 ^ w)
  end.

Definition total (widths : list Z) : Z := foldr Z.add 0 widths.

Lemma total_nonneg widths : Forall (Z.le 0) widths -> 0 <= total widths.
Proof. unfold total. induction 1; cbn; lia. Qed.

Lemma pack_range fields : Forall (Z.le 0) fields.*1 -> 0 <= pack fields < 2 ^ total fields.*1.
Proof.
  induction fields as [|[w v] fields IH]; intros Hw; [cbn; lia|].
  inversion Hw as [|? ? Hw1 Hw2]; subst. specialize (IH Hw2). cbn [fmap list_fmap fst pack total foldr].
  rewrite Z.pow_add_r; [|done|by apply total_nonneg].
  assert (0 < 2 ^ w) as Hp by (apply Z.pow_pos_nonneg; [lia|done]).
  pose proof (Z.mod_pos_bound v (2 ^ w) Hp) as Hv. unfold total in IH. split; [nia|].
  apply (Z.lt_le_trans _ (2 ^ w * (pack fields + 1))); [lia|]. apply Z.mul_le_mono_nonneg_l; lia.
Qed.

(** Reading the fields back gives what was stored, truncated to the width. *)
Lemma unpack_pack fields : Forall (Z.le 0) fields.*1 ->
  unpack fields.*1 (pack fields) = (fun f => f.2 mod 2 ^ f.1) <$> fields.
Proof.
  induction fields as [|[w v] fields IH]; intros Hw; [done|].
  inversion Hw as [|? ? Hw1 Hw2]; subst. cbn [fmap list_fmap fst snd pack unpack].
  assert (0 < 2 ^ w) as Hp by (apply Z.pow_pos_nonneg; [lia|done]). f_equal.
  - rewrite Z.mul_comm, Z_mod_plus_full. apply Z.mod_mod. lia.
  - rewrite <- IH by done. f_equal. rewrite Z.mul_comm, Z.div_add by lia.
    rewrite Z.div_small by (apply Z.mod_pos_bound; lia). done.
Qed.

Lemma unpack_length widths z : length (unpack widths z) = length widths.
Proof. revert z. induction widths as [|w widths IH]; intros z; [done|]. cbn. by rewrite IH. Qed.

(** A word that fits in the fields is their sum. *)
Lemma pack_unpack widths z : Forall (Z.le 0) widths -> 0 <= z < 2 ^ total widths ->
  pack (zip widths (unpack widths z)) = z.
Proof.
  revert z. induction widths as [|w widths IH]; intros z Hw Hz; cbn in *; [lia|].
  inversion Hw as [|? ? Hw1 Hw2]; subst. rewrite Z.pow_add_r in Hz; [|done|by apply total_nonneg].
  assert (0 < 2 ^ w) as Hp by (apply Z.pow_pos_nonneg; [lia|done]).
  rewrite Z.mod_mod by lia. rewrite IH; [|done|].
  - pose proof (Z.div_mod z (2 ^ w) ltac:(lia)). lia.
  - split; [apply Z.div_pos; lia|]. apply Z.div_lt_upper_bound; [done|]. unfold total. lia.
Qed.

(** The words C expressions build from shifts and masks, as sums. *)
Lemma shiftl_mul z k : 0 <= k -> Z.shiftl z k = z * 2 ^ k.
Proof. apply Z.shiftl_mul_pow2. Qed.

Lemma lor_high x y k : 0 <= k -> 0 <= x < 2 ^ k -> x .| (y * 2 ^ k) = x + y * 2 ^ k.
Proof.
  intros Hk Hx. rewrite Z.lor_comm, (lor_low (y * 2 ^ k) x k); [lia|done| |done].
  apply Z_mod_mult.
Qed.

Lemma land_mask x k : 0 <= k -> x .& (2 ^ k - 1) = x mod 2 ^ k.
Proof. intros Hk. rewrite <- Z.land_ones by done. f_equal. rewrite Z.ones_equiv. lia. Qed.

(** The halves of a word. *)
Lemma pack2 w1 w2 v1 v2 : 0 <= w1 -> 0 <= v1 < 2 ^ w1 -> 0 <= v2 < 2 ^ w2 ->
  pack [(w1, v1); (w2, v2)] = v1 + 2 ^ w1 * v2.
Proof. intros. cbn. rewrite !Z.mod_small by lia. lia. Qed.

(** ** Two halves: [a] below bit [k], [b] from there on *)

Lemma testbit_halves a b k i : 0 <= k -> 0 <= a < 2 ^ k -> 0 <= i ->
  Z.testbit (a + 2 ^ k * b) i = if i <? k then Z.testbit a i else Z.testbit b (i - k).
Proof.
  intros Hk Ha Hi. rewrite (Z.mul_comm (2 ^ k)), <- lor_high, <- shiftl_mul, Z.lor_spec, Z.shiftl_spec by done.
  destruct (Z.ltb_spec i k).
  - by rewrite (Z.testbit_neg_r b), orb_false_r by lia.
  - rewrite (proj1 (Z.bounded_iff_bits_nonneg' k a Hk ltac:(lia)) ltac:(lia)) by lia. done.
Qed.

Lemma land_range a c k : 0 <= k -> 0 <= a < 2 ^ k -> 0 <= a .& c < 2 ^ k.
Proof.
  intros Hk Ha. assert (0 <= a .& c) as H0 by (apply Z.land_nonneg; lia).
  apply (Z.bounded_iff_bits_nonneg' k); [lia..|]. intros i Hi. rewrite Z.land_spec.
  by rewrite (proj1 (Z.bounded_iff_bits_nonneg' k a Hk ltac:(lia)) ltac:(lia)) by lia.
Qed.

(** An operation on bits that keeps 0 works on each half. *)
Lemma land_halves a b c e k : 0 <= k -> 0 <= a < 2 ^ k -> 0 <= c < 2 ^ k ->
  (a + 2 ^ k * b) .& (c + 2 ^ k * e) = (a .& c) + 2 ^ k * (b .& e).
Proof.
  intros Hk Ha Hc.
  pose proof (land_range a c k Hk Ha) as Hac.
  apply Z.bits_inj'. intros i Hi. rewrite Z.land_spec, !testbit_halves by done.
  destruct (i <? k); by rewrite Z.land_spec.
Qed.

Lemma lor_halves a b c e k : 0 <= k -> 0 <= a < 2 ^ k -> 0 <= c < 2 ^ k -> 0 <= a .| c < 2 ^ k ->
  (a + 2 ^ k * b) .| (c + 2 ^ k * e) = (a .| c) + 2 ^ k * (b .| e).
Proof.
  intros Hk Ha Hc Hac. apply Z.bits_inj'. intros i Hi. rewrite Z.lor_spec, !testbit_halves by done.
  destruct (i <? k); by rewrite Z.lor_spec.
Qed.

(** Masking twice, when the first mask covers the second. *)
Lemma land_mask_twice x y z m : z .& m = m -> x .& z = y -> x .& m = y .& m.
Proof. intros Hz <-. by rewrite <- Z.land_assoc, Hz. Qed.

Lemma land_mask_eq x y z m : z .& m = m -> x .& z = y .& z -> x .& m = y .& m.
Proof. intros Hz E. rewrite <- Hz, !Z.land_assoc. by rewrite E. Qed.

Lemma lor_land_absorb x m : (x .& m) .| m = m.
Proof. apply Z.bits_inj'. intros i _. rewrite Z.lor_spec, Z.land_spec. by destruct (Z.testbit x i), (Z.testbit m i). Qed.
