(* ===== verification/Gate.v ===== *)
(** * Descriptor tables (gate.h, trap.c)

    The gates of the interrupt descriptor table, the task state segment and its descriptor, and
    the exception vectors [sys_vector_init] installs.  [IDT_Table] is the list of its gates, each
    of two words; [GDT_Table] the list of its words; a task state segment the list of its 26
    [unsigned int]. *)

From S2P Require Import Prelude Bits.

Local Open Scope cint_scope.

(** ** Gates *)

Definition gate_struct : Type := Z * Z.

(** [_set_gate]: the instructions of its [asm], register by register. *)
Definition set_gate (attr ist code_addr : Z) : gate_struct :=
  let rax := 0x8 .<< 16 in
  let rdx := code_addr in
  let rcx := ist in
  let rax := (rax .& .~ 0xffff) .| (rdx .& 0xffff) in
  let rcx := rcx .& 0x7 in
  let rcx := rcx .+ (attr .<< 8) in
  let rcx := rcx .<< 32 in
  let rax := rax .+ rcx in
  let rcx := rdx .& 0xffffffff in
  let rcx := rcx .>> 16 in
  let rcx := rcx .<< 48 in
  let rax := rax .+ rcx in
  let rdx := rdx .>> 32 in
  (rax, rdx).

Definition write_gate (n attr ist addr : Z) (idt : list gate_struct) : option (list gate_struct) :=
  guard_fault (n <? Z.of_nat (length idt));;
  Some (<[Z.to_nat n := set_gate attr ist addr]> idt).

Definition set_intr_gate (n ist addr : Z) := write_gate n 0x8E ist addr.
Definition set_trap_gate (n ist addr : Z) := write_gate n 0x8F ist addr.
Definition set_system_gate (n ist addr : Z) := write_gate n 0xEF ist addr.
Definition set_system_intr_gate (n ist addr : Z) := write_gate n 0xEE ist addr.

(** What the processor reads in a gate: the fields of its 128 bits. *)
Record gate := mkGate {
  offset : Z; selector : Z; gate_ist : Z; gate_type : Z; dpl : Z; present : Z
}.

Definition gate_fields : list Z := [16; 16; 3; 5; 4; 1; 2; 1; 16; 32; 32].

Definition read_gate (g : gate_struct) : gate :=
  match unpack gate_fields (fst g + 2 ^ 64 * snd g) with
  | [o0; sel; ist; _; type; _; dpl; p; o1; o2; _] =>
      mkGate (o0 + 2 ^ 16 * o1 + 2 ^ 32 * o2) sel ist type dpl p
  | _ => mkGate 0 0 0 0 0 0
  end.

Lemma addr_split a : word64 a ->
  a = a mod 2 ^ 16 + 2 ^ 16 * ((a / 2 ^ 16) mod 2 ^ 16) + 2 ^ 32 * (a / 2 ^ 32) /\
  (a mod 2 ^ 32) / 2 ^ 16 = (a / 2 ^ 16) mod 2 ^ 16 /\ 0 <= a / 2 ^ 32 < 2 ^ 32.
Proof. unfold word64. intros H. split_and!; divmod. Qed.

Lemma set_gate_words attr ist a : 0 <= attr < 2 ^ 8 -> 0 <= ist < 2 ^ 8 -> word64 a ->
  set_gate attr ist a = (a mod 2 ^ 16 + 8 * 2 ^ 16 + (ist mod 8 + attr * 2 ^ 8) * 2 ^ 32 +
    ((a / 2 ^ 16) mod 2 ^ 16) * 2 ^ 48, a / 2 ^ 32).
Proof.
  intros Hattr Hist Ha. destruct (addr_split a Ha) as (_ & E & _). unfold set_gate.
  replace (u64 (Z.shiftl 0x8 16) .& .~ 0xffff) with (8 * 2 ^ 16) by done.
  change 0xffff with (2 ^ 16 - 1). change 0x7 with (2 ^ 3 - 1). change 0xffffffff with (2 ^ 32 - 1).
  rewrite !land_mask by lia.
  rewrite (lor_low _ _ 16) by (try done; apply Z.mod_pos_bound; lia).
  rewrite !shiftl_mul, !Z.shiftr_div_pow2 by lia. rewrite E.
  pose proof (Z.mod_pos_bound (a / 2 ^ 16) (2 ^ 16) ltac:(lia)) as H1.
  pose proof (Z.mod_pos_bound a (2 ^ 16) ltac:(lia)) as H0.
  pose proof (Z.mod_pos_bound ist 8 ltac:(lia)) as Hi.
  change (2 ^ 3) with 8.
  rewrite (u64_small (attr * 2 ^ 8)) by lia.
  rewrite (u64_small (ist mod 8 + attr * 2 ^ 8)) by lia.
  rewrite (u64_small ((ist mod 8 + attr * 2 ^ 8) * 2 ^ 32)) by lia.
  rewrite (u64_small (8 * 2 ^ 16 + a mod 2 ^ 16 + _)) by lia.
  rewrite (u64_small ((a / 2 ^ 16) mod 2 ^ 16 * 2 ^ 48)) by lia.
  rewrite u64_small by lia. f_equal. lia.
Qed.

(** The gate the processor reads back: the address, the kernel's code segment, and the attribute
    byte taken apart. *)
Lemma read_set_gate attr ist a : 0 <= attr < 2 ^ 8 -> 0 <= ist < 2 ^ 8 -> word64 a ->
  read_gate (set_gate attr ist a) = mkGate a 8 (ist mod 8) (attr mod 16) (attr / 32 mod 4) (attr / 128).
Proof.
  intros Hattr Hist Ha. rewrite set_gate_words by done. destruct (addr_split a Ha) as (Es & _ & H2).
  set (o1 := (a / 2 ^ 16) mod 2 ^ 16) in *.
  assert (0 <= o1 < 2 ^ 16) as H1 by (apply Z.mod_pos_bound; lia).
  assert (0 <= a mod 2 ^ 16 < 2 ^ 16) as H0 by (apply Z.mod_pos_bound; lia).
  unfold read_gate. cbn [fst snd].
  replace (a mod 2 ^ 16 + 8 * 2 ^ 16 + (ist mod 8 + attr * 2 ^ 8) * 2 ^ 32 + o1 * 2 ^ 48 + 2 ^ 64 * (a / 2 ^ 32))
    with (pack [(16, a mod 2 ^ 16); (16, 8); (3, ist); (5, 0); (4, attr); (1, attr / 16); (2, attr / 32);
      (1, attr / 128); (16, o1); (32, a / 2 ^ 32); (32, 0)]).
  - change gate_fields with ([(16, a mod 2 ^ 16); (16, 8); (3, ist); (5, 0); (4, attr); (1, attr / 16); (2, attr / 32);
      (1, attr / 128); (16, o1); (32, a / 2 ^ 32); (32, 0)].*1).
    rewrite unpack_pack by (cbn; repeat constructor; lia). cbn [fmap list_fmap fst snd].
    rewrite Z.mod_mod by lia. rewrite (Z.mod_small o1), (Z.mod_small (a / 2 ^ 32)) by lia.
    rewrite (Z.mod_small (attr / 128)) by divmod. f_equal; divmod.
  - cbn [pack]. rewrite Z.mod_mod by lia. rewrite (Z.mod_small o1), (Z.mod_small (a / 2 ^ 32)) by lia. divmod.
Qed.

(** ** The exception vectors of trap.c *)

Section Vectors.
Context (divide_error debug nmi int3 overflow bounds undefined_opcode dev_not_available double_fault
  coprocessor_segment_overrun invalid_TSS segment_not_present stack_segment_fault general_protection
  page_fault x87_FPU_error alignment_check machine_check SIMD_exception virtualization_exception : Z).

Definition sys_vector_init (idt : list gate_struct) : option (list gate_struct) :=
  idt ← set_trap_gate 0 0 divide_error idt;
  idt ← set_trap_gate 1 0 debug idt;
  idt ← set_intr_gate 2 0 nmi idt;
  idt ← set_system_gate 3 0 int3 idt;
  idt ← set_system_gate 4 0 overflow idt;
  idt ← set_system_gate 5 0 bounds idt;
  idt ← set_trap_gate 6 0 undefined_opcode idt;
  idt ← set_trap_gate 7 0 dev_not_available idt;
  idt ← set_trap_gate 8 0 double_fault idt;
  idt ← set_trap_gate 9 0 coprocessor_segment_overrun idt;
  idt ← set_trap_gate 10 0 invalid_TSS idt;
  idt ← set_trap_gate 11 0 segment_not_present idt;
  idt ← set_trap_gate 12 0 stack_segment_fault idt;
  idt ← set_trap_gate 13 0 general_protection idt;
  idt ← set_trap_gate 14 0 page_fault idt;
  idt ← set_trap_gate 16 0 x87_FPU_error idt;
  idt ← set_trap_gate 17 0 alignment_check idt;
  idt ← set_trap_gate 18 0 machine_check idt;
  idt ← set_trap_gate 19 0 SIMD_exception idt;
  set_trap_gate 20 0 virtualization_exception idt.

(** The vectors of the architecture: handler, gate type (15 is a trap gate, 14 an interrupt gate)
    and the privilege from which the vector may be raised by an instruction. *)
Definition vectors : list (option (Z * Z * Z)) := [
  Some (divide_error, 15, 0); Some (debug, 15, 0); Some (nmi, 14, 0); Some (int3, 15, 3);
  Some (overflow, 15, 3); Some (bounds, 15, 3); Some (undefined_opcode, 15, 0);
  Some (dev_not_available, 15, 0); Some (double_fault, 15, 0); Some (coprocessor_segment_overrun, 15, 0);
  Some (invalid_TSS, 15, 0); Some (segment_not_present, 15, 0); Some (stack_segment_fault, 15, 0);
  Some (general_protection, 15, 0); Some (page_fault, 15, 0); None; Some (x87_FPU_error, 15, 0);
  Some (alignment_check, 15, 0); Some (machine_check, 15, 0); Some (SIMD_exception, 15, 0);
  Some (virtualization_exception, 15, 0)].

Lemma write_gate_some n attr ist a idt : 0 <= n < Z.of_nat (length idt) ->
  write_gate n attr ist a idt = Some (<[Z.to_nat n := set_gate attr ist a]> idt).
Proof. intros Hn. unfold write_gate. by rewrite (proj2 (Z.ltb_lt _ _)) by lia. Qed.

(** Writing gates one after the other; the table keeps its length. *)
Definition write_gates (l : list (Z * (Z * Z))) (idt : list gate_struct) : list gate_struct :=
  foldl (fun idt w => <[Z.to_nat w.1 := set_gate w.2.1 0 w.2.2]> idt) idt l.

Lemma write_gates_length l idt : length (write_gates l idt) = length idt.
Proof. revert idt. induction l as [|w l IH]; intros idt; [done|].
  etransitivity; [apply IH|apply length_insert].
Qed.

Lemma write_gates_other l idt n : (forall w, w ∈ l -> Z.to_nat w.1 <> n) -> write_gates l idt !! n = idt !! n.
Proof.
  revert idt. induction l as [|w l IH]; intros idt Hn; [done|].
  etransitivity; [apply IH; intros w' Hw'; apply Hn; by right|].
  apply list_lookup_insert_ne, Hn, list_elem_of_here.
Qed.

Lemma write_gates_in l idt (n : nat) attr a : NoDup l.*1 ->
  Forall (fun w => 0 <= w.1 < Z.of_nat (length idt)) l -> (Z.of_nat n, (attr, a)) ∈ l ->
  write_gates l idt !! n = Some (set_gate attr 0 a).
Proof.
  revert idt. induction l as [|w l IH]; intros idt Hn Hk Hin; [by apply not_elem_of_nil in Hin|].
  inversion Hk as [|? ? Hk1 Hk2]; subst. cbn in Hn. apply NoDup_cons in Hn as [Hn1 Hn2].
  apply elem_of_cons in Hin as [<-|Hin].
  - etransitivity; [apply (write_gates_other l (<[Z.to_nat (Z.of_nat n) := set_gate attr 0 a]> idt))|].
    + intros w Hw E. apply Hn1, list_elem_of_fmap. exists w. split; [|done].
      rewrite Forall_forall in Hk2. specialize (Hk2 _ Hw). cbn in *. lia.
    + rewrite Nat2Z.id. apply list_lookup_insert_eq. cbn in Hk1. lia.
  - apply (IH (<[Z.to_nat w.1 := _]> idt)); [done|by rewrite length_insert|done].
Qed.

Definition vector_writes : list (Z * (Z * Z)) := [
  (0, (0x8F, divide_error)); (1, (0x8F, debug)); (2, (0x8E, nmi)); (3, (0xEF, int3)); (4, (0xEF, overflow));
  (5, (0xEF, bounds)); (6, (0x8F, undefined_opcode)); (7, (0x8F, dev_not_available)); (8, (0x8F, double_fault));
  (9, (0x8F, coprocessor_segment_overrun)); (10, (0x8F, invalid_TSS)); (11, (0x8F, segment_not_present));
  (12, (0x8F, stack_segment_fault)); (13, (0x8F, general_protection)); (14, (0x8F, page_fault));
  (16, (0x8F, x87_FPU_error)); (17, (0x8F, alignment_check)); (18, (0x8F, machine_check));
  (19, (0x8F, SIMD_exception)); (20, (0x8F, virtualization_exception))].

Lemma sys_vector_init_writes idt : length idt = 256%nat ->
  sys_vector_init idt = Some (write_gates vector_writes idt).
Proof.
  intros Hl. unfold sys_vector_init, set_trap_gate, set_intr_gate, set_system_gate.
  repeat (rewrite write_gate_some by (rewrite ?length_insert, Hl; lia); cbn [mbind option_bind]).
  reflexivity.
Qed.

(** Membership in, and absence from, the list of writes. *)
Ltac known_write := unfold vector_writes; repeat first [apply list_elem_of_here|apply list_elem_of_further].
Ltac known_write_ne H := unfold vector_writes in H; repeat (apply elem_of_cons in H as [->|H]; [done|]);
  by apply not_elem_of_nil in H.

(** C18. [sys_vector_init] installs the handler of every exception, with the kernel's code segment,
    so that the processor accepts it: int3, overflow and bounds may be raised by user programs, the
    others not, and a non-maskable interrupt keeps interrupts off.  The reserved vector 15 and the
    vectors from 21 on keep their gates. *)
Theorem sys_vector_init_spec idt : length idt = 256%nat -> Forall (fun v => forall h t d, v = Some (h, t, d) -> word64 h) vectors ->
  exists idt', sys_vector_init idt = Some idt' /\ length idt' = 256%nat /\
  forall n : nat, match mjoin (vectors !! n) with
    | Some (h, type, level) => read_gate <$> idt' !! n = Some (mkGate h 8 0 type level 1)
    | None => idt' !! n = idt !! n
    end.
Proof using Type.
  intros Hl Hw. rewrite Forall_lookup in Hw. exists (write_gates vector_writes idt).
  split; [by apply sys_vector_init_writes|]. split; [by rewrite write_gates_length|].
  intros n. specialize (Hw n).
  assert (NoDup vector_writes.*1 /\ Forall (fun w => 0 <= w.1 < Z.of_nat (length idt)) vector_writes) as [Hn Hk].
  { rewrite Hl. split; [apply (bool_decide_unpack _); by vm_compute|repeat constructor; cbn; lia]. }
  do 21 (destruct n as [|n]; [cbn [vectors lookup list_lookup mjoin option_join id] in Hw |- *;
    first [specialize (Hw _ eq_refl _ _ _ eq_refl);
      match goal with |- context [mkGate ?a] => erewrite (write_gates_in _ _ _ _ a Hn Hk) by known_write end;
      cbn [fmap option_fmap option_map]; by rewrite read_set_gate by (done || lia)
    |apply write_gates_other; intros w Hw'; known_write_ne Hw']|]).
  apply write_gates_other. intros w Hw'. known_write_ne Hw'.
Qed.
End Vectors.

(** A table of 256 empty gates. *)
Lemma sys_vector_init_spec_witness : exists idt',
  sys_vector_init 1000 1001 1002 1003 1004 1005 1006 1007 1008 1009 1010 1011 1012 1013 1014 1016 1017 1018 1019 1020
    (replicate 256 (0, 0)) = Some idt' /\ read_gate <$> idt' !! 14%nat = Some (mkGate 1014 8 0 15 0 1).
Proof.
  destruct (sys_vector_init_spec 1000 1001 1002 1003 1004 1005 1006 1007 1008 1009 1010 1011 1012 1013 1014 1016 1017
    1018 1019 1020 (replicate 256 (0, 0))) as (idt' & E & _ & H).
  - reflexivity.
  - apply Forall_forall. intros v Hv h t d ->. unfold vectors in Hv. unfold word64.
    repeat (apply elem_of_cons in Hv as [Hv|Hv]; [simplify_eq; lia|]). by apply not_elem_of_nil in Hv.
  - exists idt'. split; [exact E|exact (H 14%nat)].
Defined.

(** ** Task state segments *)

(** A 64-bit store and load in an array of [unsigned int]. *)
Definition put64 (i : nat) (v : Z) (t : list Z) : option (list Z) :=
  guard_fault (Nat.ltb (i + 1) (length t));; Some (<[S i := v .>> 32]> (<[i := v .& 0xffffffff]> t)).
Definition get64 (i : nat) (t : list Z) : Z :=
  default 0 (t !! i) + 2 ^ 32 * default 0 (t !! S i).

Definition set_tss64 (Table : list Z) (rsp0 rsp1 rsp2 ist1 ist2 ist3 ist4 ist5 ist6 ist7 : Z) : option (list Z) :=
  t ← put64 1 rsp0 Table;
  t ← put64 3 rsp1 t;
  t ← put64 5 rsp2 t;
  t ← put64 9 ist1 t;
  t ← put64 11 ist2 t;
  t ← put64 13 ist3 t;
  t ← put64 15 ist4 t;
  t ← put64 17 ist5 t;
  t ← put64 19 ist6 t;
  put64 21 ist7 t.

(** [struct tss_struct] is packed: its members are found at these [unsigned int]. *)
Record tss_struct := mkTss {
  reserved0 : Z; rsp0 : Z; rsp1 : Z; rsp2 : Z; reserved1 : Z;
  ist1 : Z; ist2 : Z; ist3 : Z; ist4 : Z; ist5 : Z; ist6 : Z; ist7 : Z;
  reserved2 : Z; reserved3 : Z; iomapbaseaddr : Z
}.

Definition tss_of (t : list Z) : tss_struct :=
  mkTss (default 0 (t !! 0%nat)) (get64 1 t) (get64 3 t) (get64 5 t) (get64 7 t)
    (get64 9 t) (get64 11 t) (get64 13 t) (get64 15 t) (get64 17 t) (get64 19 t) (get64 21 t) (get64 23 t)
    (default 0 (t !! 25%nat) mod 2 ^ 16) (default 0 (t !! 25%nat) / 2 ^ 16).

Lemma halves v : word64 v -> (v .& 0xffffffff) + 2 ^ 32 * (v .>> 32) = v.
Proof.
  intros Hv. change 0xffffffff with (2 ^ 32 - 1). rewrite land_mask, Z.shiftr_div_pow2 by lia. divmod.
Qed.

(** The stores of [set_tss64] are where the members of [struct tss_struct] are; the reserved members
    and the base of the I/O map are kept. *)
Lemma set_tss64_spec (t : list Z) r0 r1 r2 i1 i2 i3 i4 i5 i6 i7 : length t = 26%nat ->
  Forall word64 [r0; r1; r2; i1; i2; i3; i4; i5; i6; i7] ->
  exists t', set_tss64 t r0 r1 r2 i1 i2 i3 i4 i5 i6 i7 = Some t' /\ length t' = 26%nat /\
    let s := tss_of t in
    tss_of t' = mkTss s.(reserved0) r0 r1 r2 s.(reserved1) i1 i2 i3 i4 i5 i6 i7
      s.(reserved2) s.(reserved3) s.(iomapbaseaddr).
Proof.
  intros Hl Hw. do 26 (destruct t as [|? t]; [done|]). destruct t as [|? t]; [|done]. clear Hl.
  rewrite !Forall_cons in Hw. destruct Hw as (?&?&?&?&?&?&?&?&?&?&_).
  eexists. split; [reflexivity|]. split; [reflexivity|]. unfold tss_of, get64.
  cbn [lookup list_lookup insert list_insert default from_option id reserved0 reserved1 reserved2 reserved3 iomapbaseaddr].
  by rewrite !halves.
Qed.

(** [set_tss_descriptor]: two words of the table. *)
Definition set_tss_descriptor (n addr : Z) (gdt : list Z) : option (list Z) :=
  let limit := 103 in
  guard_fault (n + 1 <? Z.of_nat (length gdt));;
  let gdt := <[Z.to_nat n := (limit .& 0xffff) .| ((addr .& 0xffff) .<< 16) .| ((addr .>> 16 .& 0xff) .<< 32) .|
    (0x89 .<< 40) .| ((limit .>> 16 .& 0xf) .<< 48) .| ((addr .>> 24 .& 0xff) .<< 56)]> gdt in
  Some (<[Z.to_nat (n + 1) := (addr .>> 32 .& 0xffffffff) .| 0]> gdt).

(** What the processor reads: limit, type 9 (an available 64-bit task state segment), base. *)
Record system_descriptor := mkDescr {
  base : Z; limit : Z; descr_type : Z; descr_dpl : Z; descr_present : Z
}.

Definition descriptor_fields : list Z := [16; 24; 4; 1; 2; 1; 4; 4; 8; 32; 32].

Definition read_descriptor (lo hi : Z) : system_descriptor :=
  match unpack descriptor_fields (lo + 2 ^ 64 * hi) with
  | [l0; b0; type; _; dpl; p; l1; _; b1; b2; _] =>
      mkDescr (b0 + 2 ^ 24 * b1 + 2 ^ 32 * b2) (l0 + 2 ^ 16 * l1) type dpl p
  | _ => mkDescr 0 0 0 0 0
  end.

Lemma tss_descriptor_words n a gdt : 0 <= n -> n + 1 < Z.of_nat (length gdt) -> word64 a ->
  exists lo, set_tss_descriptor n a gdt = Some (<[Z.to_nat (n + 1) := a / 2 ^ 32]> (<[Z.to_nat n := lo]> gdt)) /\
    lo = 103 + a mod 2 ^ 24 * 2 ^ 16 + 0x89 * 2 ^ 40 + (a / 2 ^ 24) mod 2 ^ 8 * 2 ^ 56.
Proof.
  intros Hn Hl Ha. unfold set_tss_descriptor. rewrite (proj2 (Z.ltb_lt _ _)) by done.
  cbn [guard_fault mbind option_bind]. unfold word64 in Ha.
  replace (103 .& 0xffff) with 103 by done. replace (0x89 .<< 40) with (0x89 * 2 ^ 40) by done.
  replace ((103 .>> 16 .& 0xf) .<< 48) with (0 * 2 ^ 48) by done.
  change 0xffff with (2 ^ 16 - 1). change 0xff with (2 ^ 8 - 1). change 0xffffffff with (2 ^ 32 - 1).
  rewrite !land_mask, !Z.shiftr_div_pow2, !shiftl_mul by lia.
  assert (0 <= a mod 2 ^ 16 < 2 ^ 16) as H0 by (apply Z.mod_pos_bound; lia).
  assert (0 <= (a / 2 ^ 16) mod 2 ^ 8 < 2 ^ 8) as H1 by (apply Z.mod_pos_bound; lia).
  assert (0 <= (a / 2 ^ 24) mod 2 ^ 8 < 2 ^ 8) as H2 by (apply Z.mod_pos_bound; lia).
  rewrite (u64_small (a mod 2 ^ 16 * 2 ^ 16)), (u64_small (_ mod 2 ^ 8 * 2 ^ 32)),
    (u64_small (_ mod 2 ^ 8 * 2 ^ 56)) by lia.
  rewrite (lor_high 103 _ 16), (lor_high _ _ 32), (lor_high _ _ 40), (lor_high _ _ 48), (lor_high _ _ 56) by lia.
  rewrite Z.lor_0_r, (Z.mod_small (a / 2 ^ 32)) by divmod.
  eexists. split; [reflexivity|]. clear -Ha. divmod.
Qed.

Lemma tss_descriptor_read a : word64 a ->
  read_descriptor (103 + a mod 2 ^ 24 * 2 ^ 16 + 0x89 * 2 ^ 40 + (a / 2 ^ 24) mod 2 ^ 8 * 2 ^ 56) (a / 2 ^ 32) =
  mkDescr a 103 9 0 1.
Proof.
  intros Ha. unfold read_descriptor, descriptor_fields. unfold word64 in Ha.
  set (lo := 103 + _ + _ + _).
  replace (lo + 2 ^ 64 * (a / 2 ^ 32)) with (pack [(16, 103); (24, a); (4, 9); (1, 0); (2, 0); (1, 1); (4, 0); (4, 0);
    (8, a / 2 ^ 24); (32, a / 2 ^ 32); (32, 0)]) by (subst lo; clear -Ha; cbn [pack]; divmod).
  change [16; 24; 4; 1; 2; 1; 4; 4; 8; 32; 32] with [(16, 103); (24, a); (4, 9); (1, 0); (2, 0); (1, 1); (4, 0);
    (4, 0); (8, a / 2 ^ 24); (32, a / 2 ^ 32); (32, 0)].*1.
  rewrite unpack_pack by (cbn; repeat constructor; lia). cbn [fmap list_fmap fst snd]. f_equal. clear -Ha. divmod.
Qed.

(** [set_tss_descriptor] writes a descriptor the processor accepts for [ltr]: its base is the
    address, its limit covers the 104 bytes of [struct tss_struct], it is present and available, and
    every other entry of the table is kept. *)
Theorem set_tss_descriptor_spec n a gdt : 0 <= n -> n + 1 < Z.of_nat (length gdt) -> word64 a ->
  exists gdt' lo hi, set_tss_descriptor n a gdt = Some gdt' /\ length gdt' = length gdt /\
    gdt' !! Z.to_nat n = Some lo /\ gdt' !! Z.to_nat (n + 1) = Some hi /\
    read_descriptor lo hi = mkDescr a 103 9 0 1 /\
    forall i, i <> Z.to_nat n -> i <> Z.to_nat (n + 1) -> gdt' !! i = gdt !! i.
Proof.
  intros Hn Hl Ha. destruct (tss_descriptor_words n a gdt Hn Hl Ha) as (lo & E & El).
  eexists _, lo, (a / 2 ^ 32). split; [exact E|]. split; [by rewrite !length_insert|]. split.
  { rewrite list_lookup_insert_ne by lia. apply list_lookup_insert_eq. lia. }
  split; [apply list_lookup_insert_eq; rewrite length_insert; lia|]. split.
  - subst lo. by apply tss_descriptor_read.
  - intros i Hi1 Hi2. by rewrite !list_lookup_insert_ne by done.
Qed.

(** The descriptor of processor 1, in a table as long as the one of kernel_header.S. *)
Lemma set_tss_descriptor_spec_witness : exists gdt' lo hi,
  set_tss_descriptor 12 0xffff800000104080 (replicate 110 0) = Some gdt' /\
  gdt' !! 12%nat = Some lo /\ gdt' !! 13%nat = Some hi /\ base (read_descriptor lo hi) = 0xffff800000104080.
Proof.
  destruct (set_tss_descriptor_spec 12 0xffff800000104080 (replicate 110 0)) as (gdt' & lo & hi & E & _ & H1 & H2 & H & _).
  - lia.
  - by vm_compute.
  - unfold word64. lia.
  - exists gdt', lo, hi. split; [exact E|]. split; [exact H1|]. split; [exact H2|]. by rewrite H.
Defined.
