(* ===== verification/Apic.v ===== *)
(** * The interrupt controllers (APIC.c, APIC.h)

    The registers of the I/O APIC and of the local APIC, reached through the class [Machine], the
    redirection table entries as bit fields, and the operations the drivers use through their
    [hw_int_controller]. *)

From S2P Require Import Prelude Bits.

Local Open Scope cint_scope.

(** ** The machine

    [write_index], [read_data] and [write_data] are the accesses through [ioapic_map]: the
    register select, and the window on the selected register; [write_EOI] is its end-of-interrupt
    register.  [rdmsr] and [wrmsr] reach the local APIC.  Both are hardware. *)
Class Machine (D : Type) := {
  write_index : Z -> D -> D;
  read_data : D -> Z;
  write_data : Z -> D -> D;
  write_EOI : Z -> D -> D;
  rdmsr : Z -> D -> Z;
  wrmsr : Z -> Z -> D -> D
}.

(** ** Redirection table entries *)

Record IO_APIC_RET_entry := mkRTE {
  vector : Z; deliver_mode : Z; dest_mode : Z; deliver_status : Z; polarity : Z; irr : Z;
  trigger : Z; mask : Z; reserved : Z; reserved1 : Z; phy_dest : Z; reserved2 : Z
}.

Definition rte_widths : list Z := [8; 3; 1; 1; 1; 1; 1; 1; 15; 24; 4; 4].

(** The word an entry is copied from by [IOAPIC_install], and the entry a word holds. *)
Definition rte_word (e : IO_APIC_RET_entry) : Z :=
  pack (zip rte_widths [e.(vector); e.(deliver_mode); e.(dest_mode); e.(deliver_status); e.(polarity);
    e.(irr); e.(trigger); e.(mask); e.(reserved); e.(reserved1); e.(phy_dest); e.(reserved2)]).

Definition rte_of_word (z : Z) : IO_APIC_RET_entry :=
  match unpack rte_widths z with
  | [v; dm; dst; ds; pol; ir; tr; m; r; r1; pd; r2] => mkRTE v dm dst ds pol ir tr m r r1 pd r2
  | _ => mkRTE 0 0 0 0 0 0 0 0 0 0 0 0
  end.

Definition APIC_ICR_IOAPIC_Fixed : Z := 0.
Definition APIC_ICR_IOAPIC_INIT : Z := 5.
Definition ICR_Start_up : Z := 6.
Definition ICR_IOAPIC_DELV_PHYSICAL : Z := 0.
Definition APIC_ICR_IOAPIC_Idle : Z := 0.
Definition APIC_IOAPIC_POLARITY_HIGH : Z := 0.
Definition APIC_IOAPIC_IRR_RESET : Z := 0.
Definition APIC_ICR_IOAPIC_Edge : Z := 0.
Definition APIC_ICR_IOAPIC_Masked : Z := 1.
Definition ICR_LEVEL_DE_ASSERT : Z := 0.
Definition ICR_No_Shorthand : Z := 0.
Definition ICR_ALL_EXCLUDE_Self : Z := 3.

(** The entry every driver fills in before [register_irq], with its vector. *)
Definition driver_entry (v : Z) : IO_APIC_RET_entry :=
  mkRTE v APIC_ICR_IOAPIC_Fixed ICR_IOAPIC_DELV_PHYSICAL APIC_ICR_IOAPIC_Idle APIC_IOAPIC_POLARITY_HIGH
    APIC_IOAPIC_IRR_RESET APIC_ICR_IOAPIC_Edge APIC_ICR_IOAPIC_Masked 0 0 0 0.

(** The interrupt command register, with an x2APIC destination. *)
Record INT_CMD_REG := mkICR {
  icr_vector : Z; icr_deliver_mode : Z; icr_dest_mode : Z; icr_deliver_status : Z; res_1 : Z;
  level : Z; icr_trigger : Z; res_2 : Z; dest_shorthand : Z; res_3 : Z; x2apic_destination : Z
}.

Definition icr_widths : list Z := [8; 3; 1; 1; 1; 1; 1; 2; 2; 12; 32].

Definition icr_word (r : INT_CMD_REG) : Z :=
  pack (zip icr_widths [r.(icr_vector); r.(icr_deliver_mode); r.(icr_dest_mode); r.(icr_deliver_status);
    r.(res_1); r.(level); r.(icr_trigger); r.(res_2); r.(dest_shorthand); r.(res_3); r.(x2apic_destination)]).

Section Apic.
Context {D : Type} `{Machine D}.
Implicit Type d : D.

(** ** Registers of the I/O APIC

    [index] is an [unsigned char], and so is what is stored in the register select. *)
Definition ioapic_rte_read (index : Z) d : Z * D :=
  let d := write_index (u8 (index + 1)) d in
  let ret := read_data d in
  let ret := ret .<< 32 in
  let d := write_index index d in
  (ret .| read_data d, d).

Definition ioapic_rte_write (index value : Z) d : D :=
  let d := write_index index d in
  let d := write_data (value .& 0xffffffff) d in
  let value := value .>> 32 in
  let d := write_index (u8 (index + 1)) d in
  write_data (value .& 0xffffffff) d.

(** The argument [(irq - 32) * 2 + 0x10], converted to [unsigned char]. *)
Definition rte_index (irq : Z) : Z := u8 ((irq .- 32) .* 2 .+ 0x10).

Definition IOAPIC_enable (irq : Z) d : D :=
  let '(value, d) := ioapic_rte_read (rte_index irq) d in
  let value := value .& .~ 0x10000 in
  ioapic_rte_write (rte_index irq) value d.

Definition IOAPIC_disable (irq : Z) d : D :=
  let '(value, d) := ioapic_rte_read (rte_index irq) d in
  let value := value .| 0x10000 in
  ioapic_rte_write (rte_index irq) value d.

(** [arg] is the word at the address passed. *)
Definition IOAPIC_install (irq arg : Z) d : Z * D := (1, ioapic_rte_write (rte_index irq) arg d).

Definition IOAPIC_uninstall (irq : Z) d : D := ioapic_rte_write (rte_index irq) 0x10000 d.

Definition IOAPIC_level_ack (irq : Z) d : D := write_EOI irq (wrmsr 0x80b 0 d).
Definition IOAPIC_edge_ack (irq : Z) d : D := wrmsr 0x80b 0 d.
Definition Local_APIC_edge_level_ack (nr : Z) d : D := wrmsr 0x80b 0 d.

(** [for(i = 0x10;i < 0x40;i += 2)] *)
Definition IOAPIC_init d : D :=
  let d := write_index 0x00 d in
  let d := write_data 0x0f000000 d in
  let d := write_index 0x01 d in
  foldl (fun d k => let i := 0x10 + 2 * k in ioapic_rte_write (u8 i) (0x10020 + ((i - 0x10) .>> 1)) d) d (range 0 24).

(** ** The local APIC

    The messages, and the CPUID and version checks that only print, are left out.  [bts] sets a
    bit of [rax]; [wrmsr] writes [edx:eax]. *)
Definition set_msr_bits (r bits : Z) d : D := wrmsr r (rdmsr r d .| bits) d.

Definition Local_APIC_init d : D :=
  let d := set_msr_bits 0x1b (2 ^ 10 .| 2 ^ 11) d in
  let d := set_msr_bits 0x80f (2 ^ 8) d in
  foldl (fun d r => wrmsr r 0x10000 d) d [0x832; 0x833; 0x834; 0x835; 0x836; 0x837].
End Apic.

(** ** What is assumed of the hardware

    The I/O APIC keeps, of each register, the bits that can be written ([iowritable]); the others
    report status and are not constrained.  The entries of its redirection table are the registers
    from 0x10 on, two for each of the 24; everything but delivery status (bit 12), remote IRR (bit
    14) and the reserved bits can be written.  Of the model-specific registers, the two enable bits of the APIC
    base, the enable bit of the spurious vector register and the mask bits of the local vector table
    can be. *)
Definition RTE_LOW : Z := 0x1afff.
Definition RTE_HIGH : Z := 0xff000000.

Class MachineLaws (D : Type) `{Machine D} := {
  iowritable : Z -> Z;
  msr_writable : Z -> Z;
  ioconfig : Z -> D -> Z;
  ioselected : D -> Z;
  iowritable_low n : 0 <= n < 24 -> iowritable (0x10 + 2 * n) .& RTE_LOW = RTE_LOW;
  iowritable_high n : 0 <= n < 24 -> iowritable (0x11 + 2 * n) .& RTE_HIGH = RTE_HIGH;
  read_data_range (d : D) : 0 <= read_data d < 2 ^ 32;
  read_data_config (d : D) : read_data d .& iowritable (ioselected d) = ioconfig (ioselected d) d;
  selected_write_index i (d : D) : 0 <= i < 256 -> ioselected (write_index i d) = i;
  config_write_index r i (d : D) : ioconfig r (write_index i d) = ioconfig r d;
  selected_write_data v (d : D) : ioselected (write_data v d) = ioselected d;
  config_write_data v (d : D) : 0 <= v < 2 ^ 32 ->
    ioconfig (ioselected d) (write_data v d) = v .& iowritable (ioselected d);
  config_write_other r v (d : D) : r <> ioselected d -> ioconfig r (write_data v d) = ioconfig r d;
  config_wrmsr r a v (d : D) : ioconfig r (wrmsr a v d) = ioconfig r d;
  config_EOI r v (d : D) : ioconfig r (write_EOI v d) = ioconfig r d;
  msr_base_writable : msr_writable 0x1b .& 0xc00 = 0xc00;
  msr_svr_writable : msr_writable 0x80f .& 0x100 = 0x100;
  msr_lvt_writable a : 0x832 <= a <= 0x837 -> msr_writable a .& 0x10000 = 0x10000;
  rdmsr_wrmsr a v (d : D) : rdmsr a (wrmsr a v d) .& msr_writable a = v .& msr_writable a;
  rdmsr_other a a' v (d : D) : a <> a' -> rdmsr a (wrmsr a' v d) .& msr_writable a = rdmsr a d .& msr_writable a
}.

Definition RTE_MASK : Z := RTE_LOW + 2 ^ 32 * RTE_HIGH.

Section Table.
Context {D : Type} `{HL : MachineLaws D}.
Implicit Type d : D.

(** Entry [n] of the redirection table: the bits that were written. *)
Definition rte (n : Z) d : Z :=
  (ioconfig (0x10 + 2 * n) d .& RTE_LOW) + 2 ^ 32 * (ioconfig (0x11 + 2 * n) d .& RTE_HIGH).

Lemma rte_ext n d d' : ioconfig (0x10 + 2 * n) d' = ioconfig (0x10 + 2 * n) d ->
  ioconfig (0x11 + 2 * n) d' = ioconfig (0x11 + 2 * n) d -> rte n d' = rte n d.
Proof using Type. intros E1 E2. unfold rte. by rewrite E1, E2. Qed.

Lemma word_halves z : word64 z -> exists a b, z = a + 2 ^ 32 * b /\ 0 <= a < 2 ^ 32 /\ 0 <= b < 2 ^ 32 /\
  z .& 0xffffffff = a /\ z .>> 32 .& 0xffffffff = b.
Proof using Type.
  unfold word64. intros Hz. exists (z mod 2 ^ 32), (z / 2 ^ 32). change 0xffffffff with (2 ^ 32 - 1).
  rewrite !land_mask, Z.shiftr_div_pow2 by lia. split_and!; [divmod..|]. apply Z.mod_small. divmod.
Qed.

Lemma rte_write n v d : 0 <= n < 24 -> word64 v ->
  rte n (ioapic_rte_write (0x10 + 2 * n) v d) = v .& RTE_MASK /\
  forall m, 0 <= m < 24 -> m <> n -> rte m (ioapic_rte_write (0x10 + 2 * n) v d) = rte m d.
Proof using HL.
  intros Hn Hv. destruct (word_halves v Hv) as (a & b & -> & Ha & Hb & E1 & E2).
  unfold ioapic_rte_write. rewrite E1, E2. rewrite u8_small by lia.
  set (d1 := write_index (0x10 + 2 * n) d). set (d2 := write_data a d1).
  set (d3 := write_index (0x10 + 2 * n + 1) d2).
  assert (ioselected d1 = 0x10 + 2 * n) as S1 by (apply selected_write_index; lia).
  assert (ioselected d3 = 0x11 + 2 * n) as S3.
  { unfold d3. rewrite selected_write_index by lia. lia. }
  split.
  - unfold rte. rewrite (config_write_other (0x10 + 2 * n)) by lia.
    replace (ioconfig (0x11 + 2 * n) (write_data b d3)) with (b .& iowritable (0x11 + 2 * n))
      by (rewrite <- S3; symmetry; by apply config_write_data).
    replace (ioconfig (0x10 + 2 * n) d3) with (a .& iowritable (0x10 + 2 * n))
      by (rewrite <- S1; unfold d3; rewrite config_write_index; symmetry; by apply config_write_data).
    rewrite <- !Z.land_assoc, iowritable_low, iowritable_high by done.
    symmetry. by apply land_halves.
  - intros m Hm Hne. apply rte_ext.
    + rewrite config_write_other by lia. unfold d3. rewrite config_write_index. unfold d2.
      rewrite config_write_other by lia. apply config_write_index.
    + rewrite config_write_other by lia. unfold d3. rewrite config_write_index. unfold d2.
      rewrite config_write_other by lia. apply config_write_index.
Qed.

Lemma rte_read n d : 0 <= n < 24 -> exists v d', ioapic_rte_read (0x10 + 2 * n) d = (v, d') /\ word64 v /\
  v .& RTE_MASK = rte n d /\ forall m, rte m d' = rte m d.
Proof using HL.
  intros Hn. unfold ioapic_rte_read. rewrite (u8_small (0x10 + 2 * n + 1)) by lia.
  set (d1 := write_index (0x10 + 2 * n + 1) d). set (d2 := write_index (0x10 + 2 * n) d1).
  assert (ioselected d1 = 0x11 + 2 * n) as S1 by (unfold d1; rewrite selected_write_index by lia; lia).
  assert (ioselected d2 = 0x10 + 2 * n) as S2 by (apply selected_write_index; lia).
  pose proof (read_data_range d1) as R1. pose proof (read_data_range d2) as R2.
  eexists _, d2. split; [reflexivity|].
  assert (u64 (Z.shiftl (read_data d1) 32) .| read_data d2 = read_data d2 + 2 ^ 32 * read_data d1) as Ew.
  { rewrite shiftl_mul, u64_small by lia. rewrite Z.lor_comm, lor_high by lia. lia. }
  rewrite Ew. split_and!.
  - unfold word64. lia.
  - unfold RTE_MASK. rewrite land_halves by (unfold RTE_LOW; lia). unfold rte. f_equal; [|f_equal].
    + apply (land_mask_twice _ _ (iowritable (0x10 + 2 * n))); [by apply iowritable_low|].
      rewrite <- S2, read_data_config, S2. unfold d2, d1. by rewrite !config_write_index.
    + apply (land_mask_twice _ _ (iowritable (0x11 + 2 * n))); [by apply iowritable_high|].
      rewrite <- S1, read_data_config, S1. unfold d1. by rewrite !config_write_index.
  - intros m. apply rte_ext; unfold d2, d1; by rewrite !config_write_index.
Qed.

Lemma rte_index_small irq : 32 <= irq < 56 -> rte_index irq = 0x10 + 2 * (irq - 32).
Proof using Type. intros Hi. unfold rte_index. rewrite (u64_small (irq - 32)), (u64_small (_ * 2)), u64_small, u8_small by lia. lia. Qed.

(** ** The operations of the [hw_int_controller]s as updates of a table *)

Inductive ioapic_op :=
  | op_install (irq arg : Z) | op_enable (irq : Z) | op_disable (irq : Z) | op_uninstall (irq : Z)
  | op_level_ack (irq : Z) | op_edge_ack (irq : Z).

Definition run_op (o : ioapic_op) d : D :=
  match o with
  | op_install irq arg => snd (IOAPIC_install irq arg d)
  | op_enable irq => IOAPIC_enable irq d
  | op_disable irq => IOAPIC_disable irq d
  | op_uninstall irq => IOAPIC_uninstall irq d
  | op_level_ack irq => IOAPIC_level_ack irq d
  | op_edge_ack irq => IOAPIC_edge_ack irq d
  end.

(** The table: an entry for each line. *)
Definition set_entry (n v : Z) (t : Z -> Z) : Z -> Z := fun k => if k =? n then v else t k.

Definition spec_op (o : ioapic_op) (t : Z -> Z) : Z -> Z :=
  match o with
  | op_install irq arg => set_entry (irq - 32) (arg .& RTE_MASK) t
  | op_enable irq => set_entry (irq - 32) (t (irq - 32) .& .~ 0x10000) t
  | op_disable irq => set_entry (irq - 32) (t (irq - 32) .| 0x10000) t
  | op_uninstall irq => set_entry (irq - 32) 0x10000 t
  | op_level_ack _ | op_edge_ack _ => t
  end.

Definition op_ok (o : ioapic_op) : Prop :=
  match o with
  | op_install irq arg => 32 <= irq < 56 /\ word64 arg
  | op_enable irq | op_disable irq | op_uninstall irq | op_level_ack irq | op_edge_ack irq => 32 <= irq < 56
  end.

Lemma rte_update irq v d' t : 32 <= irq < 56 -> word64 v -> (forall m, 0 <= m < 24 -> rte m d' = t m) ->
  forall n, 0 <= n < 24 -> rte n (ioapic_rte_write (rte_index irq) v d') = set_entry (irq - 32) (v .& RTE_MASK) t n.
Proof using HL.
  intros Hi Hv Hd n Hn. rewrite rte_index_small by done.
  destruct (rte_write (irq - 32) v d' ltac:(lia) Hv) as [E1 E2]. unfold set_entry.
  destruct (Z.eqb_spec n (irq - 32)) as [->|Hne]; [done|]. rewrite E2 by done. by apply Hd.
Qed.

Lemma rte_index_read irq d t : 32 <= irq < 56 -> (forall m, 0 <= m < 24 -> rte m d = t m) ->
  exists v d', ioapic_rte_read (rte_index irq) d = (v, d') /\ word64 v /\ v .& RTE_MASK = t (irq - 32) /\
  forall m, 0 <= m < 24 -> rte m d' = t m.
Proof using HL.
  intros Hi Hd. rewrite rte_index_small by done. destruct (rte_read (irq - 32) d ltac:(lia)) as (v & d' & E & Hv & Em & Ed).
  exists v, d'. split_and!; [done|done|by rewrite Em, Hd by lia|]. intros m Hm. by rewrite Ed, Hd.
Qed.

Lemma run_op_table o d t : op_ok o -> (forall n, 0 <= n < 24 -> rte n d = t n) ->
  forall n, 0 <= n < 24 -> rte n (run_op o d) = spec_op o t n.
Proof using HL.
  intros Ho Hd n Hn. destruct o as [irq arg|irq|irq|irq|irq|irq]; cbn [op_ok run_op spec_op IOAPIC_install snd] in *.
  - destruct Ho. by apply rte_update.
  - destruct (rte_index_read irq d t Ho Hd) as (v & d' & E & Hv & Em & Hd'). unfold IOAPIC_enable. rewrite E, <- Em.
    rewrite <- (Z.land_assoc v), (Z.land_comm RTE_MASK), Z.land_assoc.
    apply rte_update; [done|by apply word64_land|done|done].
  - destruct (rte_index_read irq d t Ho Hd) as (v & d' & E & Hv & Em & Hd'). unfold IOAPIC_disable. rewrite E, <- Em.
    replace ((v .& RTE_MASK) .| 0x10000) with ((v .| 0x10000) .& RTE_MASK) by (rewrite Z.land_lor_distr_l; f_equal).
    apply rte_update; [done| |done|done]. apply word64_lor; [done|]. unfold word64. lia.
  - unfold IOAPIC_uninstall. change 0x10000 with (0x10000 .& RTE_MASK) at 2.
    apply rte_update; [done| |done|done]. unfold word64. lia.
  - unfold IOAPIC_level_ack, rte. rewrite !config_EOI, !config_wrmsr. by apply Hd.
  - unfold IOAPIC_edge_ack, rte. rewrite !config_wrmsr. by apply Hd.
Qed.

(** The redirection table as the drivers see it: whatever sequence of operations they run on the
    24 lines, the bits that can be written hold what the same updates of a plain table give.  An
    operation touches the entry of its own line only; [enable] and [disable] change the mask bit and
    keep the rest. *)
Theorem ioapic_refines ops d : Forall op_ok ops -> forall n, 0 <= n < 24 ->
  rte n (foldl (fun d o => run_op o d) d ops) = foldl (fun t o => spec_op o t) (fun k => rte k d) ops n.
Proof using HL.
  intros Ho. assert (forall t, (forall n, 0 <= n < 24 -> rte n d = t n) -> forall n, 0 <= n < 24 ->
    rte n (foldl (fun d o => run_op o d) d ops) = foldl (fun t o => spec_op o t) t ops n) as K.
  { revert d. induction Ho as [|o ops Ho1 Ho2 IH]; intros d t Hd; [done|]. cbn. apply IH. by apply run_op_table. }
  by apply K.
Qed.

(** [IOAPIC_init]: line [n] gets the vector [32 + n], masked, and nothing else. *)
Lemma IOAPIC_init_spec d n : 0 <= n < 24 -> rte n (IOAPIC_init d) = 0x10020 + n.
Proof using HL.
  intros Hn. unfold IOAPIC_init. generalize (write_index 1 (write_data 0x0f000000 (write_index 0 d))). intros d0.
  set (f := fun (d : D) k => ioapic_rte_write (u8 (0x10 + 2 * k)) (0x10020 + (0x10 + 2 * k - 0x10) .>> 1) d).
  assert (forall l d, Forall (fun k => 0 <= k < 24) l ->
    rte n (foldl f d l) = if decide (n ∈ l) then 0x10020 + n else rte n d) as K.
  { intros l. induction l as [|k l IH] using rev_ind; intros d1 Hl; [done|]. apply Forall_app in Hl as [Hl Hk].
    apply Forall_cons in Hk as [Hk _]. rewrite foldl_app. cbn [foldl]. unfold f at 1. rewrite u8_small by lia.
    replace ((0x10 + 2 * k - 0x10) .>> 1) with k by (rewrite Z.shiftr_div_pow2 by lia; divmod).
    destruct (rte_write k (0x10020 + k) (foldl f d1 l) Hk) as [E1 E2]; [unfold word64; lia|].
    destruct (decide (n = k)) as [->|Hne].
    - rewrite E1, decide_True by set_solver. assert (Forall (fun k => (0x10020 + k) .& RTE_MASK = 0x10020 + k) (range 0 24)) as F
        by (apply (bool_decide_unpack _); by vm_compute).
      rewrite Forall_forall in F. apply F. by apply in_range.
    - rewrite E2, IH by done. destruct (decide (n ∈ l)); [by rewrite decide_True by set_solver|].
      rewrite decide_False; [done|]. set_solver. }
  rewrite K by (apply Forall_forall; intros k; apply in_range). rewrite decide_True; [done|]. by apply in_range.
Qed.

(** [Local_APIC_init] turns the x2APIC on, enables it, and masks its local interrupts. *)
Lemma Local_APIC_init_spec d : let d' := Local_APIC_init d in
  rdmsr 0x1b d' .& 0xc00 = 0xc00 /\ rdmsr 0x80f d' .& 0x100 = 0x100 /\
  forall a, 0x832 <= a <= 0x837 -> rdmsr a d' .& 0x10000 = 0x10000.
Proof using HL.
  intros d'.
  assert (forall l a d, a ∉ l -> rdmsr a (foldl (fun d r => wrmsr r 0x10000 d) d l) .& msr_writable a =
    rdmsr a d .& msr_writable a) as Hother.
  { intros l a. induction l as [|r l IH] using rev_ind; intros d1 Ha; [done|]. rewrite foldl_app. cbn.
    rewrite rdmsr_other, IH by set_solver. done. }
  assert (0x1b ∉ [0x832; 0x833; 0x834; 0x835; 0x836; 0x837]) as N1 by (apply (bool_decide_unpack _); by vm_compute).
  assert (0x80f ∉ [0x832; 0x833; 0x834; 0x835; 0x836; 0x837]) as N2 by (apply (bool_decide_unpack _); by vm_compute).
  split_and!.
  - unfold d', Local_APIC_init, set_msr_bits. cbv zeta. rewrite (land_mask_eq _ _ _ 0xc00 msr_base_writable (Hother _ _ _ N1)).
    rewrite (land_mask_eq _ _ _ 0xc00 msr_base_writable (rdmsr_other 0x1b 0x80f _ _ ltac:(done))).
    rewrite (land_mask_eq _ _ _ 0xc00 msr_base_writable (rdmsr_wrmsr _ _ _)).
    rewrite Z.land_lor_distr_l. change ((2 ^ 10 .| 2 ^ 11) .& 0xc00) with 0xc00.
    apply lor_land_absorb.
  - unfold d', Local_APIC_init, set_msr_bits. cbv zeta. rewrite (land_mask_eq _ _ _ 0x100 msr_svr_writable (Hother _ _ _ N2)).
    rewrite (land_mask_eq _ _ _ 0x100 msr_svr_writable (rdmsr_wrmsr _ _ _)).
    rewrite Z.land_lor_distr_l. change (2 ^ 8 .& 0x100) with 0x100.
    apply lor_land_absorb.
  - intros a Ha. pose proof (msr_lvt_writable a Ha) as Hw.
    assert (a ∈ [0x832; 0x833; 0x834; 0x835; 0x836; 0x837]) as Hin by (rewrite !elem_of_cons; lia).
    apply list_elem_of_split in Hin as (l1 & l2 & E). unfold d', Local_APIC_init. rewrite E, foldl_app. cbn [foldl].
    assert (a ∉ l2) as Hl2.
    { assert (NoDup [0x832; 0x833; 0x834; 0x835; 0x836; 0x837]) as Hn by (apply (bool_decide_unpack _); by vm_compute).
      rewrite E in Hn. apply NoDup_app in Hn as (_ & _ & Hn). by apply NoDup_cons in Hn as [? _]. }
    rewrite (land_mask_eq _ _ _ 0x10000 Hw (Hother _ _ _ Hl2)).
    by rewrite (land_mask_eq _ _ _ 0x10000 Hw (rdmsr_wrmsr _ _ _)).
Qed.
End Table.

(** ** The words of the structures *)

Definition fits (widths fields : list Z) : Prop := Forall2 (fun w v => 0 <= v < 2 ^ w) widths fields.

Lemma unpack_fits widths fields : Forall (Z.le 0) widths -> fits widths fields ->
  unpack widths (pack (zip widths fields)) = fields.
Proof.
  intros Hw Hf. assert ((zip widths fields).*1 = widths) as E1 by (apply fst_zip; by rewrite (Forall2_length _ _ _ Hf)).
  rewrite <- E1 at 1. rewrite unpack_pack by (by rewrite E1). clear E1 Hw.
  induction Hf as [|w v widths fields Hv Hf IH]; [done|]. cbn. by rewrite IH, Z.mod_small.
Qed.

(** A [struct IO_APIC_RET_entry] and the 64-bit word it is stored as determine each other. *)
Lemma rte_word_of_word z : word64 z -> rte_word (rte_of_word z) = z.
Proof.
  intros Hz. unfold rte_of_word, rte_word.
  change (z mod 2 ^ 8) with (z mod 2 ^ 8). cbn [unpack rte_widths zip zip_with vector deliver_mode dest_mode
    deliver_status polarity irr trigger mask reserved reserved1 phy_dest reserved2].
  apply (pack_unpack rte_widths z); [repeat constructor; lia|exact Hz].
Qed.

Lemma rte_of_word_word e : fits rte_widths [e.(vector); e.(deliver_mode); e.(dest_mode); e.(deliver_status);
    e.(polarity); e.(irr); e.(trigger); e.(mask); e.(reserved); e.(reserved1); e.(phy_dest); e.(reserved2)] ->
  rte_of_word (rte_word e) = e.
Proof.
  intros Hf. unfold rte_of_word, rte_word. rewrite unpack_fits by (done || (repeat constructor; lia)). by destruct e.
Qed.

(** The entry of a driver: fixed delivery to processor 0, edge triggered, masked. *)
Lemma driver_entry_word v : 0 <= v < 256 -> rte_word (driver_entry v) = 0x10000 + v.
Proof.
  intros Hv. change (rte_word (driver_entry v)) with (pack [(8, v); (3, 0); (1, 0); (1, 0); (1, 0); (1, 0); (1, 0);
    (1, 1); (15, 0); (24, 0); (4, 0); (4, 0)]).
  cbn [pack]. rewrite (Z.mod_small v) by lia. divmod.
Qed.

(** ** A machine that satisfies the laws: a file of registers *)

Record chip := mkChip { chip_index : Z; chip_regs : gmap Z Z; chip_msrs : gmap Z Z }.

#[export] Instance chip_machine : Machine chip := {|
  write_index i c := mkChip (i mod 256) c.(chip_regs) c.(chip_msrs);
  read_data c := default 0 (c.(chip_regs) !! c.(chip_index)) .& 0xffffafff;
  write_data v c := mkChip c.(chip_index) (<[c.(chip_index) := v]> c.(chip_regs)) c.(chip_msrs);
  write_EOI _ c := c;
  rdmsr a c := default 0 (c.(chip_msrs) !! a);
  wrmsr a v c := mkChip c.(chip_index) c.(chip_regs) (<[a := v]> c.(chip_msrs))
|}.

#[export] Program Instance chip_laws : MachineLaws chip := {|
  iowritable _ := 0xffffafff;
  msr_writable _ := 0xffffffff;
  ioconfig r c := default 0 (c.(chip_regs) !! r) .& 0xffffafff;
  ioselected c := c.(chip_index)
|}.
Next Obligation. intros n _. reflexivity. Qed.
Next Obligation. intros n _. reflexivity. Qed.
Next Obligation. intros c. cbn. rewrite Z.land_comm. apply land_range; lia. Qed.
Next Obligation. intros c. cbn. by rewrite <- Z.land_assoc. Qed.
Next Obligation. intros i c Hi. by apply Z.mod_small. Qed.
Next Obligation. done. Qed.
Next Obligation. done. Qed.
Next Obligation. intros v c _. cbn. by rewrite lookup_insert_eq. Qed.
Next Obligation. intros r v c Hr. cbn in *. by rewrite lookup_insert_ne by done. Qed.
Next Obligation. done. Qed.
Next Obligation. done. Qed.
Next Obligation. done. Qed.
Next Obligation. done. Qed.
Next Obligation. intros a Ha. reflexivity. Qed.
Next Obligation. intros a v c. cbn. by rewrite lookup_insert_eq. Qed.
Next Obligation. intros a a' v c Ha. cbn. by rewrite lookup_insert_ne by done. Qed.

Definition reset_chip : chip := IOAPIC_init (mkChip 0 ∅ ∅).

(** The clock's line is set up and the keyboard's is set up, used and switched off. *)
Lemma ioapic_refines_witness :
  let c := foldl (fun d o => run_op o d) reset_chip [op_install 34 0x10022; op_enable 34; op_install 33 0x10021;
    op_enable 33; op_edge_ack 33; op_disable 33] in
  rte 2 c = 0x22 /\ rte 1 c = 0x10021 /\ rte 3 c = 0x10023.
Proof.
  intros c. assert (forall n, 0 <= n < 24 -> rte n c = foldl (fun t o => spec_op o t) (fun k => rte k reset_chip)
    [op_install 34 0x10022; op_enable 34; op_install 33 0x10021; op_enable 33; op_edge_ack 33; op_disable 33] n) as E.
  { apply (ioapic_refines [op_install 34 0x10022; op_enable 34; op_install 33 0x10021; op_enable 33; op_edge_ack 33;
      op_disable 33] reset_chip).
    repeat constructor; unfold word64; lia. }
  rewrite !E by lia. vm_compute. auto.
Defined.
