(* ===== verification/Irq.v ===== *)
(** * Interrupt dispatch (interrupt.h, interrupt.c, do_IRQ and APIC_IOAPIC_init of APIC.c)

    The descriptors of the interrupt lines and of the inter-processor interrupts, their
    registration by the drivers, and [do_IRQ], which the entry code of every vector calls.  The
    machine [D] of [Apic] here includes the state of the drivers: a handler is a function on it,
    with the vector, its parameter and the address of the saved registers. *)

From S2P Require Import Prelude Bits Gate Apic.

Local Open Scope cint_scope.

Section Irq.
Context {D : Type} `{Machine D}.

(** Pointers to functions; [None] is NULL.  Only [ack] is tested for NULL before it is called. *)
Definition irq_handler : Type := Z -> Z -> Z -> D -> option D.

Record hw_int_type := mkController {
  enable : Z -> D -> D;
  disable : Z -> D -> D;
  install : Z -> Z -> D -> Z * D;
  uninstall : Z -> D -> D;
  ack : option (Z -> D -> D)
}.

Record irq_desc_T := mkDesc {
  controller : option hw_int_type;
  irq_name : Z;
  parameter : Z;
  handler : option irq_handler;
  desc_flags : Z
}.

Definition no_desc : irq_desc_T := mkDesc None 0 0 None 0.

Definition NR_IRQS : Z := 24.

Record irqs := mkIrqs {
  machine : D;
  interrupt_desc : list irq_desc_T;
  SMP_IPI_desc : list irq_desc_T
}.
Implicit Type s : irqs.

Definition set_machine (d : D) s : irqs := mkIrqs d s.(interrupt_desc) s.(SMP_IPI_desc).
Definition set_irq_descs (l : list irq_desc_T) s : irqs := mkIrqs s.(machine) l s.(SMP_IPI_desc).
Definition set_IPI_descs (l : list irq_desc_T) s : irqs := mkIrqs s.(machine) s.(interrupt_desc) l.

(** [&desc[i]] in an array of descriptors, with an [unsigned long] index. *)
Definition desc_at (i : Z) (l : list irq_desc_T) : option irq_desc_T :=
  guard_fault (i <? Z.of_nat (length l));; l !! Z.to_nat i.
Definition put_desc (i : Z) (p : irq_desc_T) (l : list irq_desc_T) : option (list irq_desc_T) :=
  guard_fault (i <? Z.of_nat (length l));; Some (<[Z.to_nat i := p]> l).

(** The controller every driver uses: [keyboard_int_controller], [mouse_int_controller],
    [disk_int_controller], [HPET_int_controller]. *)
Definition ioapic_controller : hw_int_type :=
  mkController IOAPIC_enable IOAPIC_disable IOAPIC_install IOAPIC_uninstall (Some IOAPIC_edge_ack).

Definition register_irq (irq arg : Z) (h : option irq_handler) (param : Z) (c : option hw_int_type)
    (name : Z) s : option (Z * irqs) :=
  l ← put_desc (irq .- 32) (mkDesc c name param h 0) s.(interrupt_desc);
  let s := set_irq_descs l s in
  c ← c;
  let '(_, d) := c.(install) irq arg s.(machine) in
  let d := c.(enable) irq d in
  Some (1, set_machine d s).

Definition unregister_irq (irq : Z) s : option (Z * irqs) :=
  p ← desc_at (irq .- 32) s.(interrupt_desc);
  c ← p.(controller);
  let d := c.(disable) irq s.(machine) in
  let d := c.(uninstall) irq d in
  l ← put_desc (irq .- 32) no_desc s.(interrupt_desc);
  Some (1, set_irq_descs l (set_machine d s)).

Definition register_IPI (irq arg : Z) (h : option irq_handler) (param : Z) (c : option hw_int_type)
    (name : Z) s : option (Z * irqs) :=
  l ← put_desc (irq .- 200) (mkDesc None name param h 0) s.(SMP_IPI_desc);
  Some (1, set_IPI_descs l s).

Definition unregister_IPI (irq : Z) s : option (Z * irqs) :=
  l ← put_desc (irq .- 200) no_desc s.(SMP_IPI_desc);
  Some (1, set_IPI_descs l s).

Definition run_handler (p : irq_desc_T) (nr regs : Z) (d : D) : option D :=
  match p.(handler) with Some h => h nr p.(parameter) regs d | None => Some d end.

Definition do_IRQ (regs nr : Z) s : option irqs :=
  if nr .& 0x80 =? 0x00 then
    irq ← desc_at (nr .- 32) s.(interrupt_desc);
    d ← run_handler irq nr regs s.(machine);
    let d := match irq.(controller) with
             | Some c => match c.(ack) with Some ack => ack nr d | None => d end
             | None => d
             end in
    Some (set_machine (wrmsr 0x80b 0 d) s)
  else
    let d := Local_APIC_edge_level_ack nr s.(machine) in
    irq ← desc_at (nr .- 200) s.(SMP_IPI_desc);
    d ← run_handler irq nr regs d;
    Some (set_machine d s).

(** [APIC_IOAPIC_init] after [IOAPIC_pagetable_remap]: the gates, the ports of the 8259A and of the
    IMCR, both controllers and the descriptors.  [interrupt] are the addresses of the entry code. *)
Definition APIC_IOAPIC_init (io_out8 : Z -> Z -> D -> D) (interrupt : list Z) (idt : list gate_struct) s
    : option (list gate_struct * irqs) :=
  idt ← for_each (fun i idt => a ← interrupt !! Z.to_nat (i - 32); set_intr_gate i 0 a idt) (range 32 56) idt;
  let d := s.(machine) in
  let d := io_out8 0x21 0xff d in
  let d := io_out8 0xa1 0xff d in
  let d := io_out8 0x22 0x70 d in
  let d := io_out8 0x23 0x01 d in
  let d := Local_APIC_init d in
  let d := IOAPIC_init d in
  Some (idt, mkIrqs d (replicate (Z.to_nat NR_IRQS) no_desc) s.(SMP_IPI_desc)).

(** The part of [SMP_init] that prepares the inter-processor interrupts, before the handler of
    vector 200 is registered. *)
Definition SMP_vector_init (SMP_interrupt : list Z) (idt : list gate_struct) s : option (list gate_struct * irqs) :=
  idt ← for_each (fun i idt => a ← SMP_interrupt !! Z.to_nat (i - 200); set_intr_gate i 0 a idt) (range 200 210) idt;
  Some (idt, set_IPI_descs (replicate 10 no_desc) s).
End Irq.
Arguments irq_handler : clear implicits.
Arguments hw_int_type : clear implicits.
Arguments irq_desc_T : clear implicits.
Arguments irqs : clear implicits.

(** ** Registration as a table of lines *)

Section Dispatch.
Context {D : Type} `{HL : MachineLaws D}.
Implicit Type s : irqs D.

Inductive irq_call :=
  | call_register (irq arg : Z) (h : option (irq_handler D)) (param name : Z)
  | call_unregister (irq : Z)
  | call_register_IPI (irq arg : Z) (h : option (irq_handler D)) (param name : Z)
  | call_unregister_IPI (irq : Z).

Definition run_call (c : irq_call) s : option (irqs D) :=
  match c with
  | call_register irq arg h param name => snd <$> register_irq irq arg h param (Some ioapic_controller) name s
  | call_unregister irq => snd <$> unregister_irq irq s
  | call_register_IPI irq arg h param name => snd <$> register_IPI irq arg h param None name s
  | call_unregister_IPI irq => snd <$> unregister_IPI irq s
  end.

(** What is registered: a handler with its parameter and its name for a vector. *)
Record line := mkLine { line_handler : option (irq_handler D); line_param : Z; line_name : Z }.

Record registry := mkRegistry { lines : gmap Z line; ipis : gmap Z line; table : Z -> Z }.

Definition spec_call (c : irq_call) (r : registry) : registry :=
  match c with
  | call_register irq arg h param name =>
      mkRegistry (<[irq := mkLine h param name]> r.(lines)) r.(ipis)
        (set_entry (irq - 32) (arg .& RTE_MASK .& .~ 0x10000) r.(table))
  | call_unregister irq => mkRegistry (delete irq r.(lines)) r.(ipis) (set_entry (irq - 32) 0x10000 r.(table))
  | call_register_IPI irq arg h param name =>
      mkRegistry r.(lines) (<[irq := mkLine h param name]> r.(ipis)) r.(table)
  | call_unregister_IPI irq => mkRegistry r.(lines) (delete irq r.(ipis)) r.(table)
  end.

(** Only a line that is registered can be unregistered. *)
Definition call_ok (c : irq_call) (r : registry) : Prop :=
  match c with
  | call_register irq arg _ _ _ => 32 <= irq < 56 /\ word64 arg
  | call_unregister irq => is_Some (r.(lines) !! irq)
  | call_register_IPI irq _ _ _ _ | call_unregister_IPI irq => 200 <= irq < 210
  end.

Fixpoint calls_ok (cs : list irq_call) (r : registry) : Prop :=
  match cs with [] => True | c :: cs => call_ok c r /\ calls_ok cs (spec_call c r) end.

Definition line_desc (c : option (hw_int_type D)) (l : option line) : irq_desc_T D :=
  match l with Some l => mkDesc c l.(line_name) l.(line_param) l.(line_handler) 0 | None => no_desc end.

Record irq_rep s (r : registry) : Prop := {
  ir_lines irq : 32 <= irq < 56 ->
    s.(interrupt_desc) !! Z.to_nat (irq - 32) = Some (line_desc (Some ioapic_controller) (r.(lines) !! irq));
  ir_len : length s.(interrupt_desc) = 24%nat;
  ir_ipis irq : 200 <= irq < 210 ->
    s.(SMP_IPI_desc) !! Z.to_nat (irq - 200) = Some (line_desc None (r.(ipis) !! irq));
  ir_ipi_len : length s.(SMP_IPI_desc) = 10%nat;
  ir_dom irq : is_Some (r.(lines) !! irq) -> 32 <= irq < 56;
  ir_table n : 0 <= n < 24 -> rte n s.(machine) = r.(table) n
}.

Lemma desc_at_small i (l : list (irq_desc_T D)) lo : lo <= i < lo + Z.of_nat (length l) -> 0 <= lo < 2 ^ 32 -> length l = 24%nat \/ length l = 10%nat ->
  desc_at (i .- lo) l = l !! Z.to_nat (i - lo).
Proof using Type.
  intros Hi Hlo Hl. unfold desc_at. rewrite u64_small by lia. by rewrite (proj2 (Z.ltb_lt _ _)) by lia.
Qed.

Lemma put_desc_small i p (l : list (irq_desc_T D)) lo : lo <= i < lo + Z.of_nat (length l) -> 0 <= lo < 2 ^ 32 ->
  length l = 24%nat \/ length l = 10%nat -> put_desc (i .- lo) p l = Some (<[Z.to_nat (i - lo) := p]> l).
Proof using Type.
  intros Hi Hlo Hl. unfold put_desc. rewrite u64_small by lia. by rewrite (proj2 (Z.ltb_lt _ _)) by lia.
Qed.

(** The descriptors after a change of one, against the registry after the same change. *)
Lemma descs_insert (l : list (irq_desc_T D)) lo c (m m' : gmap Z line) irq x :
  lo <= irq < lo + Z.of_nat (length l) -> (forall k, k <> irq -> m' !! k = m !! k) -> m' !! irq = x ->
  (forall k, lo <= k < lo + Z.of_nat (length l) -> l !! Z.to_nat (k - lo) = Some (line_desc c (m !! k))) ->
  forall k, lo <= k < lo + Z.of_nat (length l) ->
    <[Z.to_nat (irq - lo) := line_desc c x]> l !! Z.to_nat (k - lo) = Some (line_desc c (m' !! k)).
Proof using Type.
  intros Hi Hm <- Hl k Hk. destruct (decide (k = irq)) as [->|Hne].
  - apply list_lookup_insert_eq. lia.
  - rewrite list_lookup_insert_ne by lia. by rewrite Hm, Hl.
Qed.

Lemma register_table irq arg d t : 32 <= irq < 56 -> word64 arg -> (forall n, 0 <= n < 24 -> rte n d = t n) ->
  forall n, 0 <= n < 24 -> rte n (IOAPIC_enable irq (snd (IOAPIC_install irq arg d))) =
    set_entry (irq - 32) (arg .& RTE_MASK .& .~ 0x10000) t n.
Proof using HL.
  intros Hi Ha Hd n Hn. transitivity (rte n (run_op (op_enable irq) (run_op (op_install irq arg) d))); [done|].
  rewrite (run_op_table (op_enable irq) _ (spec_op (op_install irq arg) t)); [|done| |done].
  - cbn. unfold set_entry. rewrite Z.eqb_refl. by destruct (n =? irq - 32).
  - by apply run_op_table.
Qed.

Lemma unregister_table irq d t : 32 <= irq < 56 -> (forall n, 0 <= n < 24 -> rte n d = t n) ->
  forall n, 0 <= n < 24 -> rte n (IOAPIC_uninstall irq (IOAPIC_disable irq d)) = set_entry (irq - 32) 0x10000 t n.
Proof using HL.
  intros Hi Hd n Hn. transitivity (rte n (run_op (op_uninstall irq) (run_op (op_disable irq) d))); [done|].
  rewrite (run_op_table (op_uninstall irq) _ (spec_op (op_disable irq) t)); [|done| |done].
  - cbn. unfold set_entry. by destruct (n =? irq - 32).
  - by apply run_op_table.
Qed.

Lemma run_call_rep c s r : irq_rep s r -> call_ok c r -> exists s', run_call c s = Some s' /\ irq_rep s' (spec_call c r).
Proof using HL.
  intros R Hc. destruct R as [R1 R2 R3 R4 R5 R6].
  destruct c as [irq arg h param name|irq|irq arg h param name|irq]; cbn [call_ok run_call spec_call] in *.
  - destruct Hc as [Hi Ha]. unfold register_irq. rewrite put_desc_small by (rewrite ?R2; auto; lia).
    cbn [mbind option_bind fmap option_fmap option_map snd ioapic_controller install enable IOAPIC_install].
    eexists. split; [reflexivity|]. constructor; cbn [set_machine set_irq_descs interrupt_desc SMP_IPI_desc machine lines ipis table].
    + intros k Hk. apply (descs_insert s.(interrupt_desc) 32 (Some ioapic_controller) r.(lines) _ irq (Some (mkLine h param name)));
        rewrite ?R2; try (by rewrite lookup_insert_eq); try (by apply R1); try lia.
      intros k' Hk'. by rewrite lookup_insert_ne.
    + by rewrite length_insert.
    + done.
    + done.
    + intros k Hk. apply lookup_insert_is_Some' in Hk as [<-|Hk]; [done|by apply R5].
    + by apply register_table.
  - pose proof (R5 _ Hc) as Hi. unfold unregister_irq. rewrite desc_at_small, R1 by (rewrite ?R2; auto; lia).
    destruct Hc as [l Hl]. rewrite Hl. cbn [mbind option_bind line_desc controller].
    rewrite put_desc_small by (rewrite ?R2; auto; lia).
    cbn [mbind option_bind fmap option_fmap option_map snd ioapic_controller install enable IOAPIC_install].
    eexists. split; [reflexivity|]. constructor; cbn [set_machine set_irq_descs interrupt_desc SMP_IPI_desc machine lines ipis table].
    + intros k Hk. apply (descs_insert s.(interrupt_desc) 32 (Some ioapic_controller) r.(lines) _ irq None);
        rewrite ?R2; try (by rewrite lookup_delete_eq); try (by apply R1); try lia.
      intros k' Hk'. by rewrite lookup_delete_ne.
    + by rewrite length_insert.
    + done.
    + done.
    + intros k Hk. apply lookup_delete_is_Some in Hk as [_ Hk]. by apply R5.
    + by apply unregister_table.
  - unfold register_IPI. rewrite put_desc_small by (rewrite ?R4; auto; lia).
    cbn [mbind option_bind fmap option_fmap option_map snd].
    eexists. split; [reflexivity|]. constructor; cbn [set_IPI_descs interrupt_desc SMP_IPI_desc machine lines ipis table]; try done.
    + intros k Hk. apply (descs_insert s.(SMP_IPI_desc) 200 None r.(ipis) _ irq (Some (mkLine h param name)));
        rewrite ?R4; try (by rewrite lookup_insert_eq); try (by apply R3); try lia.
      intros k' Hk'. by rewrite lookup_insert_ne.
    + by rewrite length_insert.
  - unfold unregister_IPI. rewrite put_desc_small by (rewrite ?R4; auto; lia).
    cbn [mbind option_bind fmap option_fmap option_map snd].
    eexists. split; [reflexivity|]. constructor; cbn [set_IPI_descs interrupt_desc SMP_IPI_desc machine lines ipis table]; try done.
    + intros k Hk. apply (descs_insert s.(SMP_IPI_desc) 200 None r.(ipis) _ irq None);
        rewrite ?R4; try (by rewrite lookup_delete_eq); try (by apply R3); try lia.
      intros k' Hk'. by rewrite lookup_delete_ne.
    + by rewrite length_insert.
Qed.

Lemma irq_rep_start (d : D) :
  irq_rep (mkIrqs d (replicate 24 no_desc) (replicate 10 no_desc)) (mkRegistry ∅ ∅ (fun n => rte n d)).
Proof using Type.
  constructor; cbn; try done.
  - intros irq Hi. rewrite lookup_empty. apply (lookup_replicate_2 24). lia.
  - intros irq Hi. rewrite lookup_empty. apply (lookup_replicate_2 10). lia.
  - intros irq [? Hx]. by rewrite lookup_empty in Hx.
Qed.

Definition run_calls (cs : list irq_call) s : option (irqs D) := for_each run_call cs s.

Lemma run_calls_rep cs s r : irq_rep s r -> calls_ok cs r ->
  exists s', run_calls cs s = Some s' /\ irq_rep s' (foldl (fun r c => spec_call c r) r cs).
Proof using HL.
  revert s r. induction cs as [|c cs IH]; intros s r R Hc; cbn in *; [by eexists|]. destruct Hc as [Hc Hcs].
  destruct (run_call_rep c s r R Hc) as (s1 & E & R1). unfold run_calls. cbn [for_each]. rewrite E. by apply IH.
Qed.

(** The handler of a registered vector, between its acknowledgements. *)
Definition serve (l : option line) (nr regs : Z) (d : D) : option D :=
  match l with
  | Some l => match l.(line_handler) with Some h => h nr l.(line_param) regs d | None => Some d end
  | None => Some d
  end.

Lemma do_IRQ_line s r nr regs : irq_rep s r -> 32 <= nr < 56 -> do_IRQ regs nr s =
  (d ← serve (r.(lines) !! nr) nr regs s.(machine);
   Some (set_machine (wrmsr 0x80b 0 (if r.(lines) !! nr then wrmsr 0x80b 0 d else d)) s)).
Proof using Type.
  intros [R1 R2 _ _ _ _] Hn. unfold do_IRQ.
  assert (Forall (fun nr => (nr .& 0x80 =? 0) = true) (range 32 56)) as F by (apply (bool_decide_unpack _); by vm_compute).
  rewrite Forall_forall in F. rewrite F by (by apply in_range). rewrite desc_at_small, R1 by (rewrite ?R2; auto; lia).
  cbn [mbind option_bind]. by destruct (r.(lines) !! nr) as [l|].
Qed.

Lemma do_IRQ_IPI s r nr regs : irq_rep s r -> 200 <= nr < 210 -> do_IRQ regs nr s =
  (d ← serve (r.(ipis) !! nr) nr regs (wrmsr 0x80b 0 s.(machine)); Some (set_machine d s)).
Proof using Type.
  intros [_ _ R3 R4 _ _] Hn. unfold do_IRQ.
  assert (Forall (fun nr => (nr .& 0x80 =? 0) = false) (range 200 210)) as F by (apply (bool_decide_unpack _); by vm_compute).
  rewrite Forall_forall in F. rewrite F by (by apply in_range). rewrite desc_at_small, R3 by (rewrite ?R4; auto; lia).
  cbn [mbind option_bind]. by destruct (r.(ipis) !! nr) as [l|].
Qed.

(** C17. From descriptors that are all cleared, as [APIC_IOAPIC_init] and [SMP_init] leave them, any
    sequence of registrations and of removals of registered lines succeeds.  Afterwards an
    interrupt runs exactly the handler registered last for its vector, with its parameter, and is
    acknowledged; an unregistered vector runs nothing; and the I/O APIC delivers exactly the
    registered lines, with the vector they were registered with.  (An external interrupt with a
    registered line is acknowledged twice.) *)
Theorem irq_calls_refine cs (d : D) : let r0 := mkRegistry ∅ ∅ (fun n => rte n d) in
  let s0 := mkIrqs d (replicate 24 no_desc) (replicate 10 no_desc) in
  calls_ok cs r0 -> exists s, run_calls cs s0 = Some s /\
  let r := foldl (fun r c => spec_call c r) r0 cs in
  (forall nr regs, 32 <= nr < 56 -> do_IRQ regs nr s =
    (d ← serve (r.(lines) !! nr) nr regs s.(machine);
     Some (set_machine (wrmsr 0x80b 0 (if r.(lines) !! nr then wrmsr 0x80b 0 d else d)) s))) /\
  (forall nr regs, 200 <= nr < 210 -> do_IRQ regs nr s =
    (d ← serve (r.(ipis) !! nr) nr regs (wrmsr 0x80b 0 s.(machine)); Some (set_machine d s))) /\
  forall n, 0 <= n < 24 -> rte n s.(machine) = r.(table) n.
Proof using HL.
  intros r0 s0 Hc. destruct (run_calls_rep cs s0 r0) as (s & E & R); [apply irq_rep_start|done|].
  - exists s. split; [exact E|]. split_and!.
    + intros nr regs Hn. by apply do_IRQ_line.
    + intros nr regs Hn. by apply do_IRQ_IPI.
    + apply R.
Qed.

(** The gates of [APIC_IOAPIC_init] and [SMP_init]: vectors 32 to 55 and 200 to 209 enter the code of
    their line. *)
Lemma intr_gates lo hi tbl (idt : list gate_struct) : 0 <= lo -> hi <= 256 -> length idt = 256%nat ->
  length tbl = Z.to_nat (hi - lo) -> Forall word64 tbl ->
  exists idt', for_each (fun i idt => a ← tbl !! Z.to_nat (i - lo); set_intr_gate i 0 a idt) (range lo hi) idt = Some idt' /\
  length idt' = 256%nat /\ forall n : nat, (lo <= Z.of_nat n < hi -> exists a, tbl !! Z.to_nat (Z.of_nat n - lo) = Some a /\
    read_gate <$> idt' !! n = Some (mkGate a 8 0 14 0 1)) /\ (~ lo <= Z.of_nat n < hi -> idt' !! n = idt !! n).
Proof using Type.
  intros Hlo Hhi Hl Ht Hw.
  destruct (for_each_total (fun i idt => a ← tbl !! Z.to_nat (i - lo); set_intr_gate i 0 a idt)
    (fun done idt' => length idt' = 256%nat /\ forall n : nat, (Z.of_nat n ∈ done -> exists a,
      tbl !! Z.to_nat (Z.of_nat n - lo) = Some a /\ read_gate <$> idt' !! n = Some (mkGate a 8 0 14 0 1)) /\
      (Z.of_nat n ∉ done -> idt' !! n = idt !! n)) (range lo hi) idt) as (idt' & E & El & P).
  - split; [done|]. intros n. split; [|done]. intros []%not_elem_of_nil.
  - intros done i rest t Er [El P]. destruct (range_split_inv _ _ _ _ _ Er) as [-> Hi].
    destruct (lookup_lt_is_Some_2 tbl (Z.to_nat (i - lo))) as [a Ha]; [lia|]. rewrite Ha. cbn [mbind option_bind].
    unfold set_intr_gate. rewrite write_gate_some by lia. eexists. split; [reflexivity|].
    split; [by rewrite length_insert|]. rewrite Forall_forall in Hw.
    intros n. rewrite elem_of_app, list_elem_of_singleton. destruct (P n) as [P1 P2]. split.
    + intros Hn. destruct (decide (Z.of_nat n = i)) as [<-|Hne].
      * exists a. split; [done|]. rewrite Nat2Z.id, list_lookup_insert_eq by lia. cbn [fmap option_fmap option_map].
        rewrite read_set_gate; [done|lia..|]. apply Hw. by apply list_elem_of_lookup_2 in Ha.
      * rewrite list_lookup_insert_ne by lia. apply P1. by destruct Hn.
    + intros Hn. rewrite list_lookup_insert_ne by (intros <-; apply Hn; right; lia). apply P2. tauto.
  - exists idt'. split; [done|]. split; [done|]. intros n. destruct (P n) as [P1 P2]. rewrite in_range in P1, P2. done.
Qed.
End Dispatch.

(** ** A machine with a keyboard and a clock *)

(** The handlers write to registers nobody else uses: the last vector and its parameter. *)
Definition note_handler : irq_handler chip := fun nr param _ c => Some (wrmsr 0x1000 (nr + 256 * param) c).

Definition boot_calls : list (irq_call (D := chip)) := [
  call_register 0x21 (rte_word (driver_entry 0x21)) (Some note_handler) 7 1000;
  call_register 34 (rte_word (driver_entry 34)) (Some note_handler) 0 1001;
  call_register_IPI 200 0 (Some note_handler) 0 1002;
  call_unregister 0x21;
  call_register 0x21 (rte_word (driver_entry 0x21)) (Some note_handler) 9 1000;
  call_unregister 34].

Lemma irq_calls_refine_witness : exists s,
  run_calls boot_calls (mkIrqs reset_chip (replicate 24 no_desc) (replicate 10 no_desc)) = Some s /\
  rdmsr 0x1000 <$> (machine <$> do_IRQ 0 0x21 s) = Some (0x21 + 256 * 9) /\
  rte 1 s.(machine) = 0x21 /\ rte 2 s.(machine) = 0x10000.
Proof.
  destruct (irq_calls_refine boot_calls reset_chip) as (s & E & H1 & H2 & H3).
  - cbn. unfold word64.
    split_and!; try lia; try done; rewrite ?lookup_insert_eq; by eexists.
  - exists s. split; [exact E|]. rewrite !H3 by lia. split; [|split; reflexivity]. rewrite H1 by lia.
    replace (lines _ !! 0x21) with (Some (mkLine (Some note_handler) 9 1000)) by reflexivity.
    cbn. by rewrite !lookup_insert_ne, lookup_insert_eq by done.
Defined.
