(* ===== verification/Spin.v ===== *)
(** * Spin locks (task.h, spinlock.h)

    Processors that lock and unlock one [spinlock_T] in any order.  A step is one access to the
    lock word or to the [preempt_count] of the running task, so that runs are all interleavings
    of the processors.  [lock->lock] is the signed value of the word, as [jns] and [jle] see it. *)

From S2P Require Import Prelude.
From stdpp Require Import relations.

Local Open Scope Z_scope.

(** Where a processor is: not using the lock; at the labels 1 and 2 of [spin_lock]; holding the
    lock; between the store of [spin_unlock] and [preempt_enable]; before the exchange of
    [spin_trylock], and after an exchange that returned 0. *)
Inductive pc := Away | At1 | At2 | Holding | Unlocked | AtXchg | Refused.

#[export] Instance pc_eq_dec : EqDecision pc.
Proof. solve_decision. Defined.

Record processor := mkProcessor { at_pc : pc; preempt_count : Z }.

(** What a processor does next: it calls one of the functions, or goes on with the one it is in. *)
Inductive action := call_lock | call_trylock | call_unlock | go_on.

Definition spin_init : Z := 1.

Definition preempt_disable (k : Z) : Z := i64 (k + 1).
Definition preempt_enable (k : Z) : Z := i64 (k - 1).

(** The next instruction: the lock word and the processor after it. *)
Definition spin_step (a : action) (lock : Z) (p : processor) : option (Z * processor) :=
  let k := p.(preempt_count) in
  match a, p.(at_pc) with
  | call_lock, Away => Some (lock, mkProcessor At1 (preempt_disable k))
  | go_on, At1 =>                                 (* lock decq; jns 3f *)
      let lock := i64 (lock - 1) in
      Some (lock, mkProcessor (if 0 <=? lock then Holding else At2) k)
  | go_on, At2 =>                                 (* cmpq $0; jle 2b; jmp 1b *)
      Some (lock, mkProcessor (if lock <=? 0 then At2 else At1) k)
  | call_unlock, Holding => Some (1, mkProcessor Unlocked k)
  | go_on, Unlocked => Some (lock, mkProcessor Away (preempt_enable k))
  | call_trylock, Away => Some (lock, mkProcessor AtXchg (preempt_disable k))
  | go_on, AtXchg =>                              (* xchgq; if(!tmp_value) *)
      Some (0, mkProcessor (if lock =? 0 then Refused else Holding) k)
  | go_on, Refused => Some (lock, mkProcessor Away (preempt_enable k))
  | _, _ => None
  end.

(** One processor makes a step; [may] says which calls the program makes. *)
Inductive step (may : action -> bool) : Z * list processor -> Z * list processor -> Prop :=
  | step_one a lock lock' ps i p p' : may a = true -> ps !! i = Some p ->
      spin_step a lock p = Some (lock', p') -> step may (lock, ps) (lock', <[i := p']> ps).

(** Programs that use [spin_lock] and [spin_unlock] only. *)
Definition no_trylock (a : action) : bool := match a with call_trylock => false | _ => true end.

Definition start (n : nat) : Z * list processor := (spin_init, replicate n (mkProcessor Away 0)).

(** A run given by its schedule. *)
Fixpoint run (sched : list (nat * action)) (c : Z * list processor) : option (Z * list processor) :=
  match sched with
  | [] => Some c
  | (i, a) :: sched =>
      p ← c.2 !! i; r ← spin_step a c.1 p; run sched (r.1, <[i := r.2]> c.2)
  end.

(** ** Counting *)

Definition is_at (q r : pc) : Z :=
  match q, r with
  | Away, Away | At1, At1 | At2, At2 | Holding, Holding | Unlocked, Unlocked | AtXchg, AtXchg | Refused, Refused => 1
  | _, _ => 0
  end.

Definition count (q : pc) (ps : list processor) : Z := foldr (fun p n => is_at q p.(at_pc) + n) 0 ps.

Lemma count_insert q ps i p p' : ps !! i = Some p ->
  count q (<[i := p']> ps) = count q ps - is_at q p.(at_pc) + is_at q p'.(at_pc).
Proof.
  revert i. induction ps as [|x ps IH]; intros i Hi; [done|]. destruct i as [|i].
  - injection Hi as ->. cbn. lia.
  - specialize (IH i Hi). change (<[S i := p']> (x :: ps)) with (x :: <[i := p']> ps). unfold count in *. cbn [foldr] in *. lia.
Qed.

Lemma count_bound q ps : 0 <= count q ps <= Z.of_nat (length ps).
Proof.
  unfold count. induction ps as [|x ps IH]; cbn [foldr length]; [lia|].
  assert (0 <= is_at q x.(at_pc) <= 1) by (by destruct q, x.(at_pc)). lia.
Qed.

Lemma count_in q ps i p : ps !! i = Some p -> p.(at_pc) = q -> 0 < count q ps.
Proof.
  revert i. induction ps as [|x ps IH]; intros i Hi Hq; [done|]. pose proof (count_bound q ps) as B. destruct i as [|i].
  - injection Hi as ->. unfold count in *. cbn [foldr]. rewrite Hq. assert (is_at q q = 1) by (by destruct q). lia.
  - specialize (IH i Hi Hq). unfold count in *. cbn [foldr]. assert (0 <= is_at q x.(at_pc)) by (by destruct q, x.(at_pc)). lia.
Qed.

Lemma count_two ps i j p q : ps !! i = Some p -> ps !! j = Some q -> i <> j ->
  p.(at_pc) = Holding -> q.(at_pc) = Holding -> 2 <= count Holding ps.
Proof.
  intros Hi Hj Hne Hp Hq. pose proof (count_insert Holding ps i p (mkProcessor Away 0) Hi) as E.
  rewrite Hp in E. cbn [is_at at_pc] in E.
  assert (0 < count Holding (<[i := mkProcessor Away 0]> ps)); [|lia].
  apply (count_in _ _ j q); [by rewrite list_lookup_insert_ne|done].
Qed.

Lemma count_some q ps : 0 < count q ps -> exists i p, ps !! i = Some p /\ p.(at_pc) = q.
Proof.
  induction ps as [|x ps IH]; intros Hc; [done|]. unfold count in *. cbn [foldr] in Hc.
  destruct (decide (x.(at_pc) = q)) as [Hx|Hx]; [by exists 0%nat, x|].
  assert (is_at q x.(at_pc) = 0) by (by destruct q, x.(at_pc)).
  destruct IH as (i & p & Hi & Hp); [lia|]. by exists (S i), p.
Qed.

(** ** Mutual exclusion

    The lock word is 1 while nobody holds the lock.  Otherwise it is at most 0, and every
    processor that took it below 0 waits at label 2. *)
Record spin_ok (n : nat) (c : Z * list processor) : Prop := {
  so_len : length c.2 = n;
  so_free : count Holding c.2 = 0 -> c.1 = 1;
  so_held : count Holding c.2 <> 0 -> count Holding c.2 = 1 /\ - count At2 c.2 <= c.1 <= 0;
  so_pc i p : c.2 !! i = Some p -> p.(preempt_count) = 1 - is_at Away p.(at_pc) /\
    p.(at_pc) <> AtXchg /\ p.(at_pc) <> Refused
}.

Lemma start_ok n : spin_ok n (start n).
Proof.
  assert (count Holding (replicate n (mkProcessor Away 0)) = 0) as E by (by induction n).
  constructor; cbn [start fst snd].
  - apply length_replicate.
  - done.
  - done.
  - intros i p Hp. apply lookup_replicate in Hp as [-> _]. split_and!; done.
Qed.

Lemma step_ok n c c' : Z.of_nat n < 2 ^ 62 -> spin_ok n c -> step no_trylock c c' -> spin_ok n c'.
Proof.
  intros Hn K Hs. destruct Hs as [a lock lock' ps i p p' Ha Hp Hs]. destruct K as [K1 K2 K3 K4].
  cbn [fst snd] in *. destruct (K4 i p Hp) as (Hk & Hx1 & Hx2).
  pose proof (count_insert Holding ps i p p' Hp) as CH. pose proof (count_insert At2 ps i p p' Hp) as C2.
  pose proof (count_bound At2 ps) as B2. pose proof (count_bound Holding ps) as BH.
  assert (- 2 ^ 62 <= lock <= 1) as Hr by lia.
  cut ((count Holding (<[i := p']> ps) = 0 -> lock' = 1) /\
    (count Holding (<[i := p']> ps) <> 0 -> count Holding (<[i := p']> ps) = 1 /\
      - count At2 (<[i := p']> ps) <= lock' <= 0) /\
    p'.(preempt_count) = 1 - is_at Away p'.(at_pc) /\ p'.(at_pc) <> AtXchg /\ p'.(at_pc) <> Refused).
  { intros (J2 & J3 & J4). constructor; cbn [fst snd]; [by rewrite length_insert|done|done|].
    intros j q Hq. apply list_lookup_insert_Some in Hq as [(<- & <- & _)|[_ Hq]]; [done|by apply (K4 j)]. }
  rewrite CH, C2. clear CH C2. pose proof (count_in At2 ps i p Hp) as I2. pose proof (count_in Holding ps i p Hp) as IH.
  destruct p as [q k]. cbn [at_pc Spin.preempt_count] in *. subst k.
  destruct a, q; try done; cbn in Hs; injection Hs as <- <-;
    try specialize (I2 eq_refl); try specialize (IH eq_refl);
    unfold preempt_disable, preempt_enable; rewrite ?(i64_small (lock - 1)) by lia;
    repeat match goal with |- context [?x <=? ?y] => destruct (Z.leb_spec x y) end; cbn [at_pc Spin.preempt_count is_at];
    (split_and!; [lia|lia|done|done|done]).
Qed.

(** C11. Mutual exclusion: whatever the processors that use [spin_lock] and [spin_unlock] do, and in
    whatever order their instructions are executed, at most one holds the lock; the word is 1
    exactly when nobody does, it does not wrap around, and a processor may be preempted
    exactly when it is outside of both functions and does not hold the lock. *)
Theorem spin_lock_exclusion n c : Z.of_nat n < 2 ^ 62 -> rtc (step no_trylock) (start n) c ->
  (forall i j p q, c.2 !! i = Some p -> c.2 !! j = Some q -> p.(at_pc) = Holding -> q.(at_pc) = Holding -> i = j) /\
  (c.1 = 1 <-> forall i p, c.2 !! i = Some p -> p.(at_pc) <> Holding) /\
  - Z.of_nat n <= c.1 <= 1 /\
  forall i p, c.2 !! i = Some p -> (p.(preempt_count) = 0 <-> p.(at_pc) = Away).
Proof.
  intros Hn Hr. assert (spin_ok n c) as [K1 K2 K3 K4].
  { assert (forall c0, rtc (step no_trylock) c0 c -> spin_ok n c0 -> spin_ok n c) as Hinv
      by (induction 1; eauto using step_ok). eapply Hinv; [done|apply start_ok]. }
  pose proof (count_bound At2 c.2) as B2. pose proof (count_bound Holding c.2) as BH. rewrite K1 in B2, BH.
  split_and!.
  - intros i j p q Hi Hj Hp Hq. destruct (decide (i = j)) as [|Hne]; [done|].
    pose proof (count_two c.2 i j p q Hi Hj Hne Hp Hq). lia.
  - split.
    + intros E i p Hi Hp. pose proof (count_in Holding c.2 i p Hi Hp). lia.
    + intros Hno. apply K2. destruct (decide (count Holding c.2 = 0)) as [|H0]; [done|].
      destruct (count_some Holding c.2) as (i & p & Hi & Hp); [lia|]. by destruct (Hno i p).
  - lia.
  - lia.
  - intros i p Hi. destruct (K4 i p Hi) as (E & _). split.
    + intros Hk. rewrite Hk in E. by destruct (at_pc p).
    + intros Ha. by rewrite Ha in E.
Qed.

(** The actions of a schedule are steps. *)
Lemma run_steps may sched c c' : Forall (fun x => may x.2 = true) sched -> run sched c = Some c' -> rtc (step may) c c'.
Proof.
  revert c. induction sched as [|[i a] sched IH]; intros c Hm Hr; cbn in Hr; [by injection Hr as ->|].
  apply Forall_cons in Hm as [Ha Hm]. destruct c as [lock ps]. cbn in Hr.
  destruct (ps !! i) as [p|] eqn:Hp; [|done]. cbn in Hr.
  destruct (spin_step a lock p) as [[lock' p']|] eqn:Hs; [|done]. cbn in Hr.
  eapply rtc_l; [by econstructor|by apply IH].
Qed.

(** A processor that waits gets the lock once it is free and no other processor interferes: from
    every reachable state with the lock free, at most two of its own steps lead into the critical
    section. *)
Theorem spin_lock_progress n c i p : Z.of_nat n < 2 ^ 62 -> rtc (step no_trylock) (start n) c ->
  (forall j q, c.2 !! j = Some q -> q.(at_pc) <> Holding) -> c.2 !! i = Some p -> p.(at_pc) = At1 \/ p.(at_pc) = At2 ->
  exists sched ps, (length sched <= 2)%nat /\ Forall (fun x => x = (i, go_on)) sched /\ run sched c = Some (0, ps) /\
  at_pc <$> ps !! i = Some Holding.
Proof.
  intros Hn Hr Hno Hi Hp. assert (spin_ok n c) as K.
  { assert (forall c0, rtc (step no_trylock) c0 c -> spin_ok n c0 -> spin_ok n c) as Hinv
      by (induction 1; eauto using step_ok). eapply Hinv; [done|apply start_ok]. }
  assert (c.1 = 1) as E.
  { apply (so_free _ _ K). destruct (decide (count Holding c.2 = 0)) as [|H0]; [done|].
    pose proof (count_bound Holding c.2). destruct (count_some Holding c.2) as (j & q & Hj & Hq); [lia|].
    by destruct (Hno j q). }
  destruct c as [lock ps], p as [q k]. cbn in E, Hi, Hp |- *. subst lock.
  pose proof (lookup_lt_Some _ _ _ Hi) as Hl. destruct Hp as [-> | ->].
  - exists [(i, go_on)], (<[i := mkProcessor Holding k]> ps). cbn. rewrite Hi. split_and!; [lia| |done|].
    + by apply Forall_singleton.
    + by rewrite list_lookup_insert_eq.
  - exists [(i, go_on); (i, go_on)], (<[i := mkProcessor Holding k]> (<[i := mkProcessor At1 k]> ps)). cbn. rewrite Hi. cbn.
    rewrite list_lookup_insert_eq by done. split_and!; [lia| |done|].
    + by repeat constructor.
    + by rewrite list_lookup_insert_eq by (by rewrite length_insert).
Qed.

(** ** Runs *)

(** Processor 1 waits while processor 0 holds the lock, and gets it afterwards. *)
Definition contended : list (nat * action) := [(0, call_lock); (1, call_lock); (0, go_on); (1, go_on); (1, go_on)]%nat.
Definition handed_over : list (nat * action) :=
  contended ++ [(0, call_unlock); (1, go_on); (0, go_on); (1, go_on)]%nat.

Definition after_contention : Z * list processor := (1, [mkProcessor Unlocked 1; mkProcessor At2 1; mkProcessor Away 0]).
Definition after_handover : Z * list processor := (0, [mkProcessor Away 0; mkProcessor Holding 1; mkProcessor Away 0]).

Lemma contended_run : run (contended ++ [(0%nat, call_unlock)]) (start 3) = Some after_contention.
Proof. by vm_compute. Qed.
Lemma handed_over_run : run handed_over (start 3) = Some after_handover.
Proof. by vm_compute. Qed.

Lemma spin_lock_exclusion_witness : after_handover.1 = 0 /\
  ~ (forall i p, after_handover.2 !! i = Some p -> p.(at_pc) <> Holding).
Proof.
  split; [reflexivity|].
  destruct (spin_lock_exclusion 3 after_handover) as (_ & H & _).
  - lia.
  - apply (run_steps _ handed_over); [by repeat constructor|exact handed_over_run].
  - intros Hno. assert (0 = 1) as E by (apply H; exact Hno). discriminate E.
Defined.

Lemma spin_lock_progress_witness : exists sched ps, run sched after_contention = Some (0, ps) /\
  at_pc <$> ps !! 1%nat = Some Holding.
Proof.
  destruct (spin_lock_progress 3 after_contention 1 (mkProcessor At2 1)) as (sched & ps & _ & _ & E & H).
  - lia.
  - apply (run_steps _ (contended ++ [(0%nat, call_unlock)])); [by repeat constructor|exact contended_run].
  - intros j q Hq. apply list_elem_of_lookup_2 in Hq. unfold after_contention in Hq. cbn [snd] in Hq.
    repeat (apply elem_of_cons in Hq as [->|Hq]; [discriminate|]). by apply not_elem_of_nil in Hq.
  - reflexivity.
  - by right.
  - exists sched, ps. split; [exact E|exact H].
Defined.

(** [spin_trylock] takes any word but 0 for a free lock: when another processor waits in [spin_lock],
    the word is negative, and [spin_trylock] succeeds although the lock is held. *)
Example spin_trylock_breaks_exclusion :
  (fun c : Z * list processor => at_pc <$> c.2) <$> run (contended ++ [(2, call_trylock); (2, go_on)]%nat) (start 3) =
    Some [Holding; At2; Holding].
Proof. by vm_compute. Qed.
