(* ===== verification/Mouse.v ===== *)
(** * The mouse driver (mouse.h, mouse.c)

    The interrupt handler puts bytes into a ring buffer of the type the keyboard uses; the main
    loop takes them out and puts packets of three bytes together.  The buffer is named by its
    address [p_mouse] and its contents are those of [Keyboard]; the driver is registered with the
    interrupt dispatch of [Irq]. *)

From S2P Require Import Prelude Bits Bytes Alloc Keyboard Apic Irq.

Local Open Scope cint_scope.

(** ** Constants of keyboard.h and mouse.h *)

Definition PORT_KB_DATA : Z := 0x60.
Definition PORT_KB_STATUS : Z := 0x64.
Definition PORT_KB_CMD : Z := 0x64.
Definition KBSTATUS_IBF : Z := 0x02.
Definition KBCMD_WRITE_CMD : Z := 0x60.
Definition KB_INIT_MODE : Z := 0x47.
Definition KBCMD_SENDTO_MOUSE : Z := 0xd4.
Definition MOUSE_ENABLE : Z := 0xf4.
Definition KBCMD_EN_MOUSE_INTFACE : Z := 0xa8.
(** Two pointers, an [int] and [KB_BUF_SIZE] bytes, padded to a multiple of 8. *)
Definition sizeof_keyboard_inputbuffer : Z := 120.

Record mouse_packet := mkPacket { Byte0 : Z; Byte1 : Z; Byte2 : Z }.

(** The driver's variables, with the packets [analysis_mousecode] has reported, oldest first. *)
Record mouse_state := mkMouse {
  p_mouse : Z;
  ring : keyboard_inputbuffer;
  mouse_count : Z;
  mouse : mouse_packet;
  reported : list mouse_packet
}.

Definition set_ring (b : keyboard_inputbuffer) (m : mouse_state) : mouse_state :=
  mkMouse m.(p_mouse) b m.(mouse_count) m.(mouse) m.(reported).

(** The statements of [mouse_handler] after the byte has been read. *)
Definition mouse_put (x : Z) (m : mouse_state) : option mouse_state :=
  b ← kb_put x m.(ring); Some (set_ring b m).

(** [get_mousecode]; on an empty buffer it waits, which is no result. *)
Definition get_mousecode (m : mouse_state) : option (Z * mouse_state) :=
  let b := m.(ring) in
  guard_fault (negb (b.(count) =? 0));;
  let tail := if b.(p_tail) =? KB_BUF_SIZE then 0 else b.(p_tail) in
  ret ← b.(buf) !! Z.to_nat tail;
  Some (ret, set_ring (mkKb b.(p_head) (tail + 1) (i32 (b.(count) - 1)) b.(buf)) m).

(** [(char)x] *)
Definition analysis_mousecode (m : mouse_state) : option mouse_state :=
  r ← get_mousecode m;
  let '(x, m) := r in
  let p := m.(mouse) in
  Some match m.(mouse_count) with
    | 0 => mkMouse m.(p_mouse) m.(ring) 1 p m.(reported)
    | 1 => mkMouse m.(p_mouse) m.(ring) 2 (mkPacket x p.(Byte1) p.(Byte2)) m.(reported)
    | 2 => mkMouse m.(p_mouse) m.(ring) 3 (mkPacket p.(Byte0) (i8 x) p.(Byte2)) m.(reported)
    | 3 => let p := mkPacket p.(Byte0) p.(Byte1) (i8 x) in
           mkMouse m.(p_mouse) m.(ring) 1 p (m.(reported) ++ [p])
    | _ => m
    end.

(** One turn of the loop of [Start_Kernel]. *)
Definition main_loop (m : mouse_state) : option mouse_state :=
  if m.(ring).(count) =? 0 then Some m else analysis_mousecode m.

(** ** The driver on the machine *)

(** [rest]: what the other drivers keep. *)
Record board (C P M X : Type) := mkBoard { chips : C; kports : P; bheap : M; driver : mouse_state; rest : X }.
Arguments mkBoard {C P M X}.
Arguments chips {C P M X}.
Arguments kports {C P M X}.
Arguments bheap {C P M X}.
Arguments driver {C P M X}.
Arguments rest {C P M X}.

#[export] Instance board_machine C P M X `{Machine C} : Machine (board C P M X) := {|
  write_index i b := mkBoard (write_index i b.(chips)) b.(kports) b.(bheap) b.(driver) b.(rest);
  read_data b := read_data b.(chips);
  write_data v b := mkBoard (write_data v b.(chips)) b.(kports) b.(bheap) b.(driver) b.(rest);
  write_EOI v b := mkBoard (write_EOI v b.(chips)) b.(kports) b.(bheap) b.(driver) b.(rest);
  rdmsr a b := rdmsr a b.(chips);
  wrmsr a v b := mkBoard (wrmsr a v b.(chips)) b.(kports) b.(bheap) b.(driver) b.(rest)
|}.

#[export] Program Instance board_laws C P M X `{MachineLaws C} : MachineLaws (board C P M X) := {|
  iowritable := iowritable;
  msr_writable := msr_writable;
  ioconfig r b := ioconfig r b.(chips);
  ioselected b := ioselected b.(chips)
|}.
Solve All Obligations with intros; cbn in *; auto using iowritable_low, iowritable_high, read_data_range,
  read_data_config, selected_write_index, config_write_index, selected_write_data, config_write_data,
  config_write_other, config_wrmsr, config_EOI, msr_base_writable, msr_svr_writable, msr_lvt_writable,
  rdmsr_wrmsr, rdmsr_other.

Section Driver.
Context {C P M X : Type} `{Machine C} `{Ports P} `{Allocator M}.
Implicit Type b : board C P M X.

Definition set_kports (p : P) b : board C P M X := mkBoard b.(chips) p b.(bheap) b.(driver) b.(rest).
Definition set_driver (m : mouse_state) b : board C P M X := mkBoard b.(chips) b.(kports) b.(bheap) m b.(rest).
Definition set_bheap (h : M) b : board C P M X := mkBoard b.(chips) b.(kports) h b.(driver) b.(rest).

Definition mouse_handler : irq_handler (board C P M X) := fun nr parameter regs b =>
  let '(x, p) := io_in8 PORT_KB_DATA b.(kports) in
  m ← mouse_put (u8 x) b.(driver);
  Some (set_driver m (set_kports p b)).

(** [while(io_in8(PORT_KB_STATUS) & KBSTATUS_IBF)], with fuel. *)
Fixpoint wait_KB_write (fuel : nat) (p : P) : option P :=
  match fuel with
  | O => None
  | S fuel =>
      let '(v, p) := io_in8 PORT_KB_STATUS p in
      if v .& KBSTATUS_IBF =? 0 then Some p else wait_KB_write fuel p
  end.

(** [wait_KB_write(); io_out8(port,v)] for each pair. *)
Definition send (fuel : nat) (l : list (Z * Z)) (p : P) : option P :=
  for_each (fun w p => p ← wait_KB_write fuel p; Some (io_out8 w.1 w.2 p)) l p.

Definition mouse_init (polls : nat) (name : Z) (s : irqs (board C P M X)) : option (irqs (board C P M X)) :=
  r ← alloc sizeof_keyboard_inputbuffer s.(machine).(bheap);
  let '(p, h) := r in
  guard_fault (negb (p =? 0));;
  let m := s.(machine).(driver) in
  let m := mkMouse p reset_buffer 0 m.(mouse) m.(reported) in
  let s := set_machine (set_driver m (set_bheap h s.(machine))) s in
  r ← register_irq 0x2c (rte_word (driver_entry 0x2c)) (Some mouse_handler) p (Some ioapic_controller) name s;
  let s := snd r in
  q ← send polls [(PORT_KB_CMD, KBCMD_EN_MOUSE_INTFACE); (PORT_KB_CMD, KBCMD_SENDTO_MOUSE);
    (PORT_KB_DATA, MOUSE_ENABLE); (PORT_KB_CMD, KBCMD_WRITE_CMD); (PORT_KB_DATA, KB_INIT_MODE)]
    s.(machine).(kports);
  Some (set_machine (set_kports q s.(machine)) s).

Definition mouse_exit (s : irqs (board C P M X)) : option (irqs (board C P M X)) :=
  r ← unregister_irq 0x2c s;
  let s := snd r in
  r ← release s.(machine).(driver).(p_mouse) s.(machine).(bheap);
  Some (set_machine (set_bheap (snd r) s.(machine)) s).
End Driver.

(** ** From bytes to packets *)

(** The packets of a sequence of bytes; a rest of one or two bytes is no packet yet. *)
Fixpoint packets (l : list Z) : list mouse_packet :=
  match l with
  | a :: b :: c :: l => mkPacket a (i8 b) (i8 c) :: packets l
  | _ => []
  end.

(** [part] are the bytes of the packet that is being put together. *)
Definition assembled (l : list Z) (m : mouse_state) : Prop :=
  exists full part, l = full ++ part /\ m.(reported) = packets full /\
    (exists k, length full = (3 * k)%nat) /\
    match part with
    | [] => m.(mouse_count) = 1
    | [a] => m.(mouse_count) = 2 /\ m.(mouse).(Byte0) = a
    | [a; b] => m.(mouse_count) = 3 /\ m.(mouse).(Byte0) = a /\ m.(mouse).(Byte1) = i8 b
    | _ => False
    end.

(** What has been taken out so far: the first byte is the acknowledgement of the mouse. *)
Definition decoded (taken : list Z) (m : mouse_state) : Prop :=
  match taken with
  | [] => m.(mouse_count) = 0 /\ m.(reported) = []
  | _ :: l => assembled l m
  end.

Lemma packets_app full l : (exists k, length full = (3 * k)%nat) -> packets (full ++ l) = packets full ++ packets l.
Proof.
  intros [k Hk]. revert full Hk. induction k as [|k IH]; intros full Hk; [by destruct full|].
  destruct full as [|a [|b [|c full]]]; try (cbn in Hk; lia). cbn in *. rewrite IH by lia. done.
Qed.

Lemma decoded_packets taken m : decoded taken m -> m.(reported) = packets (drop 1 taken).
Proof.
  destruct taken as [|x l]; [by intros [_ ->]|]. intros (full & part & -> & -> & Hk & Hp).
  change (drop 1 (x :: full ++ part)) with (full ++ part). rewrite packets_app by done.
  destruct part as [|a [|b [|]]]; [by rewrite app_nil_r..|done].
Qed.

Lemma get_mousecode_spec m x l : kb_rep m.(ring) (x :: l) ->
  exists b, get_mousecode m = Some (x, set_ring b m) /\ kb_rep b l.
Proof.
  intros [R1 R2 R3 R4 R5 R6 R7]. unfold get_mousecode.
  assert ((count m.(ring) =? 0) = false) as -> by (rewrite R2; apply Z.eqb_neq; cbn [length]; lia).
  cbn [negb guard_fault mbind option_bind].
  set (t := if m.(ring).(p_tail) =? KB_BUF_SIZE then 0 else m.(ring).(p_tail)).
  assert (t = m.(ring).(p_tail) mod KB_BUF_SIZE /\ 0 <= t < KB_BUF_SIZE) as [Et Ht].
  { subst t. unfold KB_BUF_SIZE in *. destruct (Z.eqb_spec (p_tail m.(ring)) 100) as [->|]; [done|].
    rewrite Z.mod_small by lia. lia. }
  pose proof (R7 0%nat x eq_refl) as H0. rewrite Z.add_0_r, <- Et in H0. rewrite H0. cbn [mbind option_bind].
  eexists. split; [reflexivity|]. cbn [length] in *. constructor; cbn.
  - done.
  - rewrite i32_small by (unfold KB_BUF_SIZE in *; lia). lia.
  - lia.
  - lia.
  - done.
  - rewrite <- R6, Et. rewrite <- Z.add_assoc, Zplus_mod_idemp_l. f_equal. lia.
  - intros i y Hi. rewrite <- (R7 (S i) y Hi). f_equal. f_equal.
    rewrite Et, <- Z.add_assoc, Zplus_mod_idemp_l. f_equal. lia.
Qed.

Lemma analysis_decoded taken m x b : decoded taken m -> get_mousecode m = Some (x, set_ring b m) ->
  exists m', analysis_mousecode m = Some m' /\ m'.(ring) = b /\ decoded (taken ++ [x]) m'.
Proof.
  intros Hd E. unfold analysis_mousecode. rewrite E. cbn [mbind option_bind]. eexists. split; [reflexivity|].
  unfold set_ring. cbn [p_mouse ring mouse_count mouse reported].
  destruct taken as [|y l].
  { destruct Hd as [Hc Hr]. rewrite Hc. split; [done|]. exists [], []. cbn. by split_and!; [|rewrite Hr|exists 0%nat|]. }
  destruct Hd as (full & part & -> & Hr & [k Hk] & Hp). cbn [app decoded].
  destruct part as [|a [|c [|]]]; [..|done].
  - rewrite Hp. split; [done|]. exists full, [x]. rewrite app_nil_r. by split_and!; [|rewrite Hr|exists k|..].
  - destruct Hp as [Hp Ha]. rewrite Hp. split; [done|]. exists full, [a; x]. cbn. rewrite <- app_assoc.
    by split_and!; [|rewrite Hr|exists k|..].
  - destruct Hp as (Hp & Ha & Hb). rewrite Hp. split; [done|]. exists (full ++ [a; c; x]), []. cbn.
    rewrite app_nil_r, <- app_assoc. split_and!; [done| |exists (S k); rewrite length_app; cbn; lia|done].
    rewrite packets_app by (by exists k). cbn. by rewrite Hr, Ha, Hb.
Qed.

(** ** A session: bytes the mouse sends, and turns of the main loop *)

Inductive mouse_event := sent (x : Z) | turn.

Definition mouse_step (e : mouse_event) (m : mouse_state) : option mouse_state :=
  match e with sent x => mouse_put x m | turn => main_loop m end.

Definition bytes_of (es : list mouse_event) : list Z :=
  omap (fun e => match e with sent x => Some x | turn => None end) es.

(** No more than [KB_BUF_SIZE] bytes wait at any time, [n] of them at the beginning. *)
Fixpoint keeps_up (n : Z) (es : list mouse_event) : Prop :=
  match es with
  | [] => True
  | sent _ :: es => n < KB_BUF_SIZE /\ keeps_up (n + 1) es
  | turn :: es => keeps_up (Z.max 0 (n - 1)) es
  end.

Lemma mouse_run es m taken rest : kb_rep m.(ring) rest -> decoded taken m -> keeps_up (Z.of_nat (length rest)) es ->
  exists m' taken' rest', for_each mouse_step es m = Some m' /\ kb_rep m'.(ring) rest' /\ decoded taken' m' /\
    taken' ++ rest' = taken ++ rest ++ bytes_of es.
Proof.
  revert m taken rest. induction es as [|e es IH]; intros m taken rest R Hd Hk.
  { exists m, taken, rest. cbn. by rewrite app_nil_r. }
  cbn [for_each]. destruct e as [x|]; cbn [mouse_step keeps_up] in *.
  - destruct Hk as [Hn Hk]. unfold mouse_put. destruct (kb_put_spec _ _ x R Hn) as (b & -> & R' & _).
    cbn [mbind option_bind]. destruct (IH (set_ring b m) taken (rest ++ [x])) as (m' & t' & r' & E & R2 & D2 & Eb).
    + done.
    + exact Hd.
    + rewrite length_app. cbn [length]. by rewrite Nat2Z.inj_add.
    + exists m', t', r'. split_and!; [done..|]. rewrite Eb. cbn. by rewrite <- !app_assoc.
  - unfold main_loop. rewrite (kr_count _ _ R). destruct rest as [|x rest]; cbn [length Z.of_nat Z.eqb] in *.
    + cbn [mbind option_bind]. by apply IH.
    + assert ((Z.of_nat (S (length rest)) =? 0) = false) as -> by (apply Z.eqb_neq; lia).
      destruct (get_mousecode_spec m x rest R) as (b & E & Rb).
      destruct (analysis_decoded taken m x b Hd E) as (m1 & -> & Er & Hd1). cbn [mbind option_bind].
      destruct (IH m1 (taken ++ [x]) rest) as (m' & t' & r' & E' & R2 & D2 & Eb).
      * by rewrite Er.
      * done.
      * by replace (Z.of_nat (length rest)) with (Z.max 0 (Z.of_nat (S (length rest)) - 1)) by lia.
      * exists m', t', r'. split_and!; [done..|]. rewrite Eb. cbn. by rewrite <- !app_assoc.
Qed.

(** The driver turns the bytes of the mouse into packets: from [mouse_init] on, whatever the
    order of interrupts and turns of the main loop, as long as no more than [KB_BUF_SIZE] bytes wait,
    the bytes taken out are the first that were sent, the others wait in order, and what has been
    reported are the complete packets of those after the acknowledgement. *)
Theorem mouse_session es m : m.(ring) = reset_buffer -> m.(mouse_count) = 0 -> m.(reported) = [] -> keeps_up 0 es ->
  exists m' taken rest, for_each mouse_step es m = Some m' /\ bytes_of es = taken ++ rest /\
    m'.(reported) = packets (drop 1 taken) /\ m'.(ring).(count) = Z.of_nat (length rest) /\
    forall turns, (length rest <= turns)%nat -> exists m'', for_each mouse_step (replicate turns turn) m' = Some m'' /\
      m''.(reported) = packets (drop 1 (bytes_of es)).
Proof.
  intros Hr Hc Hp Hk.
  destruct (mouse_run es m [] []) as (m' & taken & rest & E & R & Hd & Eb).
  - rewrite Hr. apply reset_rep.
  - done.
  - done.
  - cbn in Eb. exists m', taken, rest. split_and!; [done|done|by apply decoded_packets|apply R|].
    intros turns Ht. rewrite <- Eb. clear E Eb Hk. revert m' taken R Hd turns Ht.
    induction rest as [|x rest IH]; intros m1 taken R Hd turns Ht.
    + exists m1. split; [|by rewrite app_nil_r; apply decoded_packets]. clear Ht.
      induction turns as [|turns IHt]; [done|]. cbn. unfold main_loop. rewrite (kr_count _ _ R). exact IHt.
    + destruct turns as [|turns]; cbn [length] in Ht; [lia|]. cbn [replicate for_each mouse_step]. unfold main_loop.
      rewrite (kr_count _ _ R). cbn [length].
      assert ((Z.of_nat (S (length rest)) =? 0) = false) as -> by (apply Z.eqb_neq; lia).
      destruct (get_mousecode_spec m1 x rest R) as (b & E & Rb).
      destruct (analysis_decoded taken m1 x b Hd E) as (m2 & -> & Er & Hd1). cbn [mbind option_bind].
      destruct (IH m2 (taken ++ [x])) with (turns := turns) as (m3 & E3 & P3); [by rewrite Er|done|lia|].
      exists m3. split; [done|]. by rewrite P3, <- app_assoc.
Qed.

(** The acknowledgement 0xfa and two packets; the mouse is one byte ahead at the end. *)
Lemma mouse_session_witness : let m := mkMouse 4096 reset_buffer 0 (mkPacket 0 0 0) [] in
  let es := [sent 0xfa; sent 8; turn; turn; sent 5; sent 0xfe; turn; turn; turn; sent 9; turn; sent 1; sent 2; turn] in
  exists m'', for_each mouse_step es m ≫= for_each mouse_step [turn] = Some m'' /\
    m''.(reported) = [mkPacket 8 5 (-2); mkPacket 9 1 2].
Proof.
  intros m es. destruct (mouse_session es m) as (m' & taken & rest & E & Eb & _ & Hc & H).
  - reflexivity.
  - reflexivity.
  - reflexivity.
  - cbn. unfold KB_BUF_SIZE. lia.
  - destruct (H 1%nat) as (m'' & E2 & Hr).
    + assert (count (ring m') = 1) as E1.
      { assert (for_each mouse_step es m = for_each mouse_step es m) as E0 by reflexivity.
        rewrite E in E0 at 1. vm_compute in E0. injection E0 as ->. reflexivity. }
      lia.
    + exists m''. rewrite E. split; [exact E2|]. rewrite Hr. reflexivity.
Defined.

Section Init.
Context {C P M X : Type} `{HC : MachineLaws C} `{HPorts : Ports P} `{HM : AllocatorLaws M}.
Implicit Type s : irqs (board C P M X).

(** What [mouse_init] sends to the controller. *)
Definition mouse_commands : list (Z * Z) := [(PORT_KB_CMD, KBCMD_EN_MOUSE_INTFACE);
  (PORT_KB_CMD, KBCMD_SENDTO_MOUSE); (PORT_KB_DATA, MOUSE_ENABLE); (PORT_KB_CMD, KBCMD_WRITE_CMD);
  (PORT_KB_DATA, KB_INIT_MODE)].

Lemma irq_rep_machine s r d : irq_rep s r -> (forall n, rte n d = rte n s.(machine)) -> irq_rep (set_machine d s) r.
Proof using Type.
  intros [R1 R2 R3 R4 R5 R6] Hd. constructor; try done. intros n Hn. cbn. by rewrite Hd, R6.
Qed.

(** The steps of [mouse_init]. *)
Lemma mouse_init_rep polls name s r q : irq_rep s r -> room s.(machine).(bheap) 1 ->
  send polls mouse_commands s.(machine).(kports) = Some q ->
  exists s' a, mouse_init polls name s = Some s' /\ a <> 0 /\ a ∉ live s.(machine).(bheap) /\
  s'.(machine).(driver) = mkMouse a reset_buffer 0 s.(machine).(driver).(mouse) s.(machine).(driver).(reported) /\
  s'.(machine).(kports) = q /\ s'.(machine).(rest) = s.(machine).(rest) /\
  irq_rep s' (spec_call (call_register 0x2c (rte_word (driver_entry 0x2c)) (Some mouse_handler) a name) r).
Proof using Type.
  intros R Hroom Hq. destruct (alloc_room sizeof_keyboard_inputbuffer _ 0 ltac:(done) Hroom) as (a & h & Ea & Ha & _).
  destruct (alloc_live _ _ _ _ Ea) as [[? _]|(_ & Hl & _)]; [done|].
  set (drv := mkMouse a reset_buffer 0 s.(machine).(driver).(mouse) s.(machine).(driver).(reported)).
  set (s1 := set_machine (set_driver drv (set_bheap h s.(machine))) s).
  assert (irq_rep s1 r) as R1 by (by apply irq_rep_machine).
  destruct (run_call_rep (call_register 0x2c (rte_word (driver_entry 0x2c)) (Some mouse_handler) a name) s1 r R1)
    as (s2 & E2 & R2); [rewrite driver_entry_word by lia; split; [lia|unfold word64; lia]|].
  cbn [run_call] in E2. apply fmap_Some in E2 as ([v s2'] & E2 & ->). cbn [snd] in R2.
  assert (s2'.(machine).(driver) = drv /\ s2'.(machine).(kports) = s.(machine).(kports) /\
    s2'.(machine).(rest) = s.(machine).(rest)) as (Ed & Ek & Er).
  { unfold register_irq in E2. rewrite put_desc_small in E2 by (rewrite ?(ir_len _ _ R1); auto; lia).
    cbn [mbind option_bind] in E2. injection E2 as _ <-. split_and!; reflexivity. }
  exists (set_machine (set_kports q s2'.(machine)) s2'), a. split_and!; [|done|done|exact Ed|reflexivity|exact Er|by apply irq_rep_machine].
  unfold mouse_init. rewrite Ea. cbn [mbind option_bind]. rewrite (proj2 (Z.eqb_neq _ _) Ha).
  cbn [negb guard_fault mbind option_bind]. fold drv s1. rewrite E2. cbn [mbind option_bind snd].
  fold mouse_commands. rewrite Ek, Hq. reflexivity.
Qed.

(** [mouse_init] puts the driver to work: with memory for the buffer and a controller that takes the
    five commands, it leaves an empty buffer, and line 12 of the I/O APIC unmasked with vector 0x2c;
    from then on an interrupt with that vector reads a byte from the port of the controller, appends
    it to the buffer and is acknowledged, and the other vectors are served as before. *)
Theorem mouse_init_spec polls name s r q : irq_rep s r -> room s.(machine).(bheap) 1 ->
  send polls mouse_commands s.(machine).(kports) = Some q ->
  exists s' a, mouse_init polls name s = Some s' /\ a <> 0 /\ a ∉ live s.(machine).(bheap) /\
  s'.(machine).(driver) = mkMouse a reset_buffer 0 s.(machine).(driver).(mouse) s.(machine).(driver).(reported) /\
  s'.(machine).(kports) = q /\ rte 12 s'.(machine) = 0x2c /\
  (forall regs, do_IRQ regs 0x2c s' =
    (b ← mouse_handler 0x2c a regs s'.(machine); Some (set_machine (wrmsr 0x80b 0 (wrmsr 0x80b 0 b)) s'))) /\
  forall nr regs, 32 <= nr < 56 -> nr <> 0x2c -> do_IRQ regs nr s' =
    (b ← serve (r.(lines) !! nr) nr regs s'.(machine);
     Some (set_machine (wrmsr 0x80b 0 (if r.(lines) !! nr then wrmsr 0x80b 0 b else b)) s')).
Proof using Type.
  intros R Hroom Hq. destruct (mouse_init_rep polls name s r q R Hroom Hq) as (s' & a & E & Ha & Hl & Ed & Ek & _ & R3).
  exists s', a. split_and!; [done|done|done|done|done| | |].
  - rewrite (ir_table _ _ R3) by lia. rewrite driver_entry_word by lia. reflexivity.
  - intros regs. rewrite (do_IRQ_line s' _ 0x2c regs R3) by lia. cbn [spec_call lines]. rewrite lookup_insert_eq. reflexivity.
  - intros nr regs Hnr Hne. rewrite (do_IRQ_line s' _ nr regs R3 Hnr). cbn [spec_call lines]. by rewrite lookup_insert_ne.
Qed.
End Init.

(** A controller that is always ready and delivers the byte 8; it notes what it is sent. *)
#[export] Instance ready_ports : Ports (list (Z * Z)) := {|
  io_out8 port v p := p ++ [(port, v)];
  io_in8 port p := (if port =? PORT_KB_DATA then 8 else 0, p);
  port_outsw _ _ p := p;
  port_insw _ n p := (replicate n 0, p)
|}.

Definition board0 : board chip (list (Z * Z)) arena unit :=
  mkBoard reset_chip [] {[ 5000 ]} (mkMouse 0 reset_buffer 0 (mkPacket 0 0 0) []) tt.

Lemma mouse_init_spec_witness : exists s',
  mouse_init 3 77 (mkIrqs board0 (replicate 24 no_desc) (replicate 10 no_desc)) = Some s' /\
  kports (machine s') = mouse_commands /\
  (fun b => (driver b).(ring).(count)) <$> (machine <$> do_IRQ 0 0x2c s') = Some 1.
Proof.
  destruct (mouse_init_spec 3 77 (mkIrqs board0 (replicate 24 no_desc) (replicate 10 no_desc)) _ mouse_commands
    (irq_rep_start board0)) as (s' & a & E & _ & _ & Ed & Ek & _ & H & _).
  - exact I.
  - reflexivity.
  - exists s'. split; [exact E|]. split; [exact Ek|]. rewrite H. unfold mouse_handler. rewrite Ek, Ed. reflexivity.
Defined.
