(* ===== verification/Trap.v ===== *)
(** * Exceptions and backtraces (trap.c, backtrace.c, kallsyms.c)

    What the exception handlers print before they halt the processor, the walk over the stack
    frames, and the table of symbols: [kallsyms] writes it when the kernel is built and
    [lookup_kallsyms] searches it.  A message is the format and the arguments of a call of
    [color_printk]; memory is read as 64-bit words. *)

From S2P Require Import Prelude Task.

Local Open Scope cint_scope.

(** ** The table of symbols *)

(** A line of the linker's map: an address and the characters of a name. *)
Record symbol_entry := mkSymbol { address : Z; symbol : list Z }.

Section Kallsyms.
(** [_text] and [_etext] of the map. *)
Context (text etext : Z).

Definition symbol_valid (e : symbol_entry) : bool := negb ((e.(address) <? text) || (etext <? e.(address))).

(** The entries the three loops of [write_src] do not skip. *)
Fixpoint kept (last_addr : Z) (l : list symbol_entry) : list symbol_entry :=
  match l with
  | [] => []
  | e :: l =>
      if negb (symbol_valid e) then kept last_addr l
      else if e.(address) =? last_addr then kept last_addr l
      else e :: kept e.(address) l
  end.

(** [position += table[i].symbol_length], which counts the final 0. *)
Fixpoint positions (position : Z) (l : list symbol_entry) : list Z :=
  match l with
  | [] => []
  | e :: l => position :: positions (position + Z.of_nat (length e.(symbol)) + 1) l
  end.

(** What is assembled: the number of symbols follows their addresses in memory. *)
Record kallsyms := mkKallsyms {
  kallsyms_addresses : list Z;
  kallsyms_syms_num : Z;
  kallsyms_index : list Z;
  kallsyms_names : list Z
}.

Definition write_src (l : list symbol_entry) : kallsyms :=
  let l := kept 0 l in
  mkKallsyms (map address l) (Z.of_nat (length l)) (positions 0 l) (concat (map (fun e => e.(symbol) ++ [0]) l)).
End Kallsyms.

(** [kallsyms_addresses[i]]: behind its end lies [kallsyms_syms_num]. *)
Definition address_word (k : kallsyms) (i : nat) : option Z :=
  (k.(kallsyms_addresses) ++ [k.(kallsyms_syms_num)]) !! i.

(** The string at a position of the names. *)
Fixpoint c_string (l : list Z) : list Z :=
  match l with [] => [] | c :: l => if c =? 0 then [] else c :: c_string l end.

(** A line of the backtrace: the address, its distance to the symbol, the symbol and its address. *)
Record trace_line := mkLine { at_address : Z; distance : Z; function : list Z; start : Z }.

(** The loop of [lookup_kallsyms]: the index at which it ends. *)
Fixpoint search_kallsyms (fuel index : nat) (address : Z) (k : kallsyms) : option nat :=
  match fuel with
  | O => None
  | S fuel =>
      if Z.of_nat index <? k.(kallsyms_syms_num) then
        a ← address_word k index;
        b ← address_word k (S index);
        if (a <? address) && (address <=? b) then Some index else search_kallsyms fuel (S index) address k
      else Some index
  end.

Definition lookup_kallsyms (address : Z) (k : kallsyms) : option (Z * list trace_line) :=
  index ← search_kallsyms (S (Z.to_nat k.(kallsyms_syms_num))) 0 address k;
  if Z.of_nat index <? k.(kallsyms_syms_num) then
    a ← address_word k index;
    pos ← k.(kallsyms_index) !! index;
    Some (0, [mkLine address (address .- a) (c_string (drop (Z.to_nat pos) k.(kallsyms_names))) a])
  else Some (1, []).

(** ** Stack frames *)

Definition words : Type := Z -> option Z.

Fixpoint backtrace_loop (n : nat) (rbp ret_address : Z) (m : words) (k : kallsyms) : option (list trace_line) :=
  match n with
  | O => Some []
  | S n =>
      r ← lookup_kallsyms ret_address k;
      if negb (r.1 =? 0) then Some r.2
      else
        rbp ← m rbp;
        ret_address ← m (rbp .+ 8);
        l ← backtrace_loop n rbp ret_address m k;
        Some (r.2 ++ l)
  end.

Definition backtrace (regs : pt_regs) (m : words) (k : kallsyms) : option (list trace_line) :=
  ret_address ← m (regs.(rbp) .+ 8);
  r ← lookup_kallsyms regs.(rip) k;
  l ← backtrace_loop 10 regs.(rbp) ret_address m k;
  Some (r.2 ++ l).

(** ** The table that [kallsyms] writes is searched correctly *)

(** Addresses rise strictly from [lo] on; the map is sorted. *)
Fixpoint rising (lo : Z) (l : list symbol_entry) : Prop :=
  match l with [] => True | e :: l => lo < e.(address) /\ rising e.(address) l end.

Fixpoint sorted (lo : Z) (l : list symbol_entry) : Prop :=
  match l with [] => True | e :: l => lo <= e.(address) /\ sorted e.(address) l end.

Lemma sorted_weaken lo lo' l : lo <= lo' -> sorted lo' l -> sorted lo l.
Proof. destruct l as [|e l]; [done|]. cbn. intros ? [??]. split; [lia|done]. Qed.

Lemma kept_rising text etext last l : sorted last l -> rising last (kept text etext last l).
Proof.
  revert last. induction l as [|e l IH]; intros last Hs; [done|]. cbn in *. destruct Hs as [Hl Hs].
  destruct (symbol_valid text etext e); cbn [negb].
  - destruct (Z.eqb_spec e.(address) last) as [E|E]; [rewrite <- E in *; by apply IH|].
    cbn. split; [lia|by apply IH].
  - apply IH. by apply (sorted_weaken _ e.(address)).
Qed.

Lemma rising_above lo l i a : rising lo l -> l !! i = Some a -> lo < a.(address).
Proof.
  revert lo i. induction l as [|e l IH]; intros lo i Hr Hi; [done|]. destruct Hr as [Hlo Hr].
  destruct i as [|i]; cbn in Hi; [by injection Hi as <-|]. specialize (IH _ _ Hr Hi). lia.
Qed.

Lemma rising_lookup lo l i j a b : rising lo l -> l !! i = Some a -> l !! j = Some b -> (i < j)%nat ->
  a.(address) < b.(address).
Proof.
  revert lo i j. induction l as [|e l IH]; intros lo i j Hr Hi Hj Hij; [done|]. destruct Hr as [Hlo Hr].
  destruct j as [|j]; [lia|]. destruct i as [|i]; cbn in *.
  - injection Hi as <-. by apply (rising_above _ _ _ _ Hr Hj).
  - apply (IH _ i j Hr Hi Hj). lia.
Qed.

Lemma positions_lookup pos l i e : l !! i = Some e -> positions pos l !! i =
  Some (pos + Z.of_nat (length (concat (map (fun e => e.(symbol) ++ [0]) (take i l))))).
Proof.
  revert pos i. induction l as [|e' l IH]; intros pos i Hi; [done|]. destruct i as [|i]; cbn in *.
  - f_equal. lia.
  - rewrite (IH _ _ Hi). f_equal. rewrite !length_app. cbn. lia.
Qed.

Lemma c_string_app name l : Forall (fun c => c <> 0) name -> c_string (name ++ 0 :: l) = name.
Proof. induction 1 as [|c name Hc Hn IH]; cbn; [done|]. by rewrite (proj2 (Z.eqb_neq _ _) Hc), IH. Qed.

Lemma names_at l i e : l !! i = Some e -> Forall (fun c => c <> 0) e.(symbol) ->
  c_string (drop (length (concat (map (fun e => e.(symbol) ++ [0]) (take i l))))
    (concat (map (fun e => e.(symbol) ++ [0]) l))) = e.(symbol).
Proof.
  intros Hi He. rewrite <- (take_drop_middle l i e Hi) at 2. rewrite map_app, concat_app.
  rewrite drop_app_length. cbn. rewrite <- app_assoc. by apply c_string_app.
Qed.

(** The words of the table; behind the last address comes the number of symbols. *)
Section Table.
Context (text etext : Z) (l : list symbol_entry).
Let k := write_src text etext l.
Let entries := kept text etext 0 l.

Lemma address_entry i e : entries !! i = Some e -> address_word k i = Some e.(address).
Proof using Type.
  intros Hi. unfold address_word. cbn. fold entries. rewrite lookup_app_l.
  - by rewrite list_lookup_fmap, Hi.
  - rewrite length_map. by eapply lookup_lt_Some.
Qed.

Lemma search_finds fuel i n a b x : rising 0 entries -> entries !! n = Some a -> entries !! S n = Some b ->
  a.(address) < x <= b.(address) -> (i <= n)%nat -> (n - i < fuel)%nat -> search_kallsyms fuel i x k = Some n.
Proof using Type.
  intros Hr Ha Hb Hx. revert i. induction fuel as [|fuel IH]; intros i Hi Hf; [lia|]. cbn [search_kallsyms].
  pose proof (lookup_lt_Some _ _ _ Hb) as Hlen. cbn [k write_src kallsyms_syms_num]. fold entries.
  rewrite (proj2 (Z.ltb_lt _ _)) by lia.
  destruct (lookup_lt_is_Some_2 entries i) as [c Hc]; [lia|].
  destruct (lookup_lt_is_Some_2 entries (S i)) as [d Hd]; [lia|]. fold k.
  rewrite (address_entry _ _ Hc), (address_entry _ _ Hd). cbn [mbind option_bind].
  destruct (decide (i = n)) as [->|Hne].
  - simplify_eq. by rewrite (proj2 (Z.ltb_lt _ _)), (proj2 (Z.leb_le _ _)) by lia.
  - assert (d.(address) <= a.(address)) as Hda.
    { destruct (decide (S i = n)) as [<-|]; [by simplify_eq|].
      pose proof (rising_lookup _ _ (S i) n _ _ Hr Hd Ha). lia. }
    rewrite (proj2 (Z.leb_gt x d.(address))) by lia. rewrite andb_false_r. apply IH; lia.
Qed.

Lemma search_misses fuel i x : rising 0 entries -> Z.of_nat (length entries) < x ->
  (forall j a b, entries !! j = Some a -> entries !! S j = Some b -> ~ a.(address) < x <= b.(address)) ->
  (i <= length entries)%nat -> (length entries - i < fuel)%nat -> search_kallsyms fuel i x k = Some (length entries).
Proof using Type.
  intros Hr Hn Hno. revert i. induction fuel as [|fuel IH]; intros i Hi Hf; [lia|]. cbn [search_kallsyms].
  cbn [k write_src kallsyms_syms_num]. fold entries. destruct (decide (i = length entries)) as [->|Hne].
  - by rewrite Z.ltb_irrefl.
  - rewrite (proj2 (Z.ltb_lt _ _)) by lia. fold k.
    destruct (lookup_lt_is_Some_2 entries i) as [c Hc]; [lia|]. rewrite (address_entry _ _ Hc). cbn [mbind option_bind].
    destruct (entries !! S i) as [d|] eqn:Hd.
    + rewrite (address_entry _ _ Hd). cbn [mbind option_bind]. specialize (Hno _ _ _ Hc Hd).
      replace ((c.(address) <? x) && (x <=? d.(address))) with false; [apply IH; lia|].
      symmetry. apply andb_false_iff. rewrite Z.ltb_ge, Z.leb_gt. lia.
    + apply lookup_ge_None in Hd.
      assert (address_word k (S i) = Some (Z.of_nat (length entries))) as ->.
      { unfold address_word. cbn. fold entries. rewrite lookup_app_r by (rewrite length_map; lia).
        rewrite length_map. by replace (S i - length entries)%nat with 0%nat by lia. }
      cbn [mbind option_bind]. rewrite (proj2 (Z.leb_gt x _)) by lia. rewrite andb_false_r. apply IH; lia.
Qed.

Definition line_of (x : Z) (a : symbol_entry) : trace_line := mkLine x (x - a.(address)) a.(symbol) a.(address).

(** The function a byte belongs to: from its address up to that of the next symbol; the last symbol, which
    marks the end, has no bytes. *)
Fixpoint function_at (l : list symbol_entry) (x : Z) : option symbol_entry :=
  match l with
  | a :: l => match l with
              | b :: _ => if (a.(address) <=? x) && (x <? b.(address)) then Some a else function_at l x
              | [] => None
              end
  | [] => None
  end.

Lemma function_at_some l' x a : function_at l' x = Some a -> exists n b, l' !! n = Some a /\ l' !! S n = Some b /\
  a.(address) <= x < b.(address).
Proof using Type.
  induction l' as [|c l' IH]; [done|]. destruct l' as [|b l']; [done|]. cbn [function_at].
  destruct ((c.(address) <=? x) && (x <? b.(address))) eqn:E.
  - intros [= <-]. exists 0%nat, b. apply andb_true_iff in E. rewrite Z.ltb_lt, Z.leb_le in E. split_and!; [done|done|lia..].
  - intros Hc. destruct (IH Hc) as (n & d & H1 & H2 & H3). by exists (S n), d.
Qed.

Lemma function_at_none l' x n a b : function_at l' x = None -> l' !! n = Some a -> l' !! S n = Some b ->
  ~ a.(address) <= x < b.(address).
Proof using Type.
  revert n. induction l' as [|c l' IH]; intros n Hc Ha Hb; [done|]. destruct l' as [|d l']; [by destruct n|].
  cbn [function_at] in Hc. destruct ((c.(address) <=? x) && (x <? d.(address))) eqn:E; [done|].
  destruct n as [|n]; [|by apply (IH n)]. injection Ha as <-. injection Hb as <-.
  apply andb_false_iff in E. rewrite Z.leb_gt, Z.ltb_ge in E. lia.
Qed.

Lemma function_at_in lo l' n x a b : rising lo l' -> l' !! n = Some a -> l' !! S n = Some b ->
  a.(address) <= x < b.(address) -> function_at l' x = Some a.
Proof using Type.
  intros Hr Ha Hb Hx. destruct (function_at l' x) as [c|] eqn:E.
  - destruct (function_at_some _ _ _ E) as (m & d & Hc & Hd & Hcd). destruct (lt_eq_lt_dec m n) as [[Hlt| ->]|Hlt]; [|congruence|].
    + exfalso. destruct (decide (S m = n)) as [<-|Hne]; [rewrite Hd in Ha; injection Ha as ->; lia|].
      pose proof (rising_lookup _ _ (S m) n _ _ Hr Hd Ha ltac:(lia)). lia.
    + exfalso. destruct (decide (S n = m)) as [<-|Hne]; [rewrite Hb in Hc; injection Hc as ->; lia|].
      pose proof (rising_lookup _ _ (S n) m _ _ Hr Hb Hc ltac:(lia)). lia.
  - by destruct (function_at_none _ _ _ _ _ E Ha Hb).
Qed.

(** The byte before belongs to the same function, except at the first byte of one. *)
Lemma function_at_before l' x : (forall a, a ∈ l' -> a.(address) <> x) -> function_at l' (x - 1) = function_at l' x.
Proof using Type.
  induction l' as [|a l' IH]; intros Hn; [done|]. destruct l' as [|b l']; [done|].
  specialize (IH ltac:(intros c Hc; apply Hn; by right)). cbn [function_at] in IH |- *. rewrite IH.
  assert (a.(address) <> x) as H1 by (apply Hn, list_elem_of_here).
  assert (b.(address) <> x) as H2 by (apply Hn; right; apply list_elem_of_here).
  destruct (Z.leb_spec a.(address) (x - 1)), (Z.leb_spec a.(address) x), (Z.ltb_spec (x - 1) b.(address)), (Z.ltb_spec x b.(address));
    done || lia.
Qed.

(** The map is sorted, addresses are words, and names contain no 0. *)
Definition map_ok : Prop := sorted 0 l /\
  forall i a, entries !! i = Some a -> word64 a.(address) /\ Forall (fun c => c <> 0) a.(symbol).

Lemma lookup_kallsyms_function x : map_ok -> word64 x -> Z.of_nat (length entries) < x ->
  lookup_kallsyms x k = Some (match function_at entries (x - 1) with Some a => (0, [line_of x a]) | None => (1, []) end).
Proof using Type.
  intros [Hs He] Hx Hn. unfold lookup_kallsyms. cbn [k write_src kallsyms_syms_num kallsyms_index kallsyms_names].
  fold entries k. rewrite Nat2Z.id. pose proof (kept_rising text etext 0 l Hs) as Hr. fold entries in Hr.
  destruct (function_at entries (x - 1)) as [a|] eqn:Hc.
  - destruct (function_at_some _ _ _ Hc) as (n & b & Ha & Hb & Hab). pose proof (lookup_lt_Some _ _ _ Hb).
    rewrite (search_finds _ 0 n a b x) by (done || lia). cbn [mbind option_bind].
    rewrite (proj2 (Z.ltb_lt _ _)) by lia. rewrite (address_entry _ _ Ha), (positions_lookup _ _ _ _ Ha).
    destruct (He _ _ Ha) as [Hw Hname]. cbn [mbind option_bind]. rewrite Z.add_0_l, Nat2Z.id.
    rewrite (names_at _ _ _ Ha Hname). unfold line_of. unfold word64 in *. by rewrite u64_small by lia.
  - rewrite search_misses; [|done|done| |lia|lia].
    + cbn [mbind option_bind]. by rewrite Z.ltb_irrefl.
    + intros j a b Ha Hb. pose proof (function_at_none _ _ _ _ _ Hc Ha Hb). lia.
Qed.

(** The return addresses on the stack, from the frame at [rbp] outwards. *)
Fixpoint frames (m : words) (rbp : Z) (rets : list Z) : Prop :=
  match rets with
  | [] => True
  | r :: rets => m (rbp .+ 8) = Some r /\
      match rets with [] => True | _ => exists rbp', m rbp = Some rbp' /\ frames m rbp' rets end
  end.

(** The lines for the return addresses before the first that belongs to no symbol: a line names the function
    that holds the byte before the address, which is the last one of the call. *)
Fixpoint traced (rets : list Z) : list trace_line :=
  match rets with
  | [] => []
  | r :: rets => match function_at entries (r - 1) with Some a => line_of r a :: traced rets | None => [] end
  end.

Definition plausible (x : Z) : Prop := word64 x /\ Z.of_nat (length entries) < x.

Lemma backtrace_loop_traced n rbp r rets m : map_ok -> Forall plausible (r :: rets) -> frames m rbp (r :: rets) ->
  (n < length (r :: rets))%nat \/ Exists (fun x => function_at entries (x - 1) = None) (r :: rets) ->
  backtrace_loop n rbp r m k = Some (take n (traced (r :: rets))).
Proof using Type.
  intros Hm. revert rbp r rets. induction n as [|n IH]; intros rbp r rets Hp Hf Hend; [done|].
  apply Forall_cons in Hp as [[Hw Hn] Hp]. cbn [backtrace_loop traced].
  rewrite lookup_kallsyms_function by done. cbn [mbind option_bind].
  destruct (function_at entries (r - 1)) as [a|] eqn:Hc; [|done]. cbn [fst snd Z.eqb negb].
  destruct rets as [|r' rets].
  { exfalso. destruct Hend as [Hend|Hend]; [cbn in Hend; lia|]. apply Exists_cons in Hend as [Hend|Hend]; [congruence|].
    by apply Exists_nil in Hend. }
  destruct Hf as (_ & rbp' & -> & Hf). cbn [mbind option_bind].
  assert (m (rbp' .+ 8) = Some r') as -> by apply Hf. cbn [mbind option_bind].
  rewrite (IH rbp' r' rets) by (done || (destruct Hend as [Hend|[Hend|Hend]%Exists_cons]; [left; cbn in *; lia|congruence|by right])).
  reflexivity.
Qed.

(** C37. The backtrace of a fault, over the table that [kallsyms] wrote for the kernel: a line for [rip], then
    one line for each return address on the stack, inner ones first, up to the first that lies in no
    function, but no more than ten.  Each line names the function that holds the byte before the address,
    and the distance of the address to its start.  For a return address this is the function that made
    the call, also when the call is its last instruction.  For [rip] it is the function of the faulting
    instruction, unless that is the first instruction of a function: then the line names the function
    before it. *)
Theorem backtrace_spec regs m rets : map_ok -> Forall plausible (regs.(rip) :: rets) -> frames m regs.(rbp) rets ->
  (10 < length rets)%nat \/ Exists (fun x => function_at entries (x - 1) = None) rets ->
  backtrace regs m k = Some (match function_at entries (regs.(rip) - 1) with Some a => [line_of regs.(rip) a] | None => [] end ++
    take 10 (traced rets)) /\
  ((forall a, a ∈ entries -> a.(address) <> regs.(rip)) -> function_at entries (regs.(rip) - 1) = function_at entries regs.(rip)) /\
  (forall n a b, entries !! n = Some a -> entries !! S n = Some b -> b.(address) = regs.(rip) ->
    function_at entries (regs.(rip) - 1) = Some a).
Proof using Type.
  intros Hm Hp Hf Hend. apply Forall_cons in Hp as [[Hw Hn] Hp]. split_and!.
  - destruct rets as [|r rets]; [exfalso; destruct Hend as [Hend|Hend]; [cbn in Hend; lia|by apply Exists_nil in Hend]|].
    unfold backtrace. assert (m (regs.(rbp) .+ 8) = Some r) as -> by apply Hf. cbn [mbind option_bind].
    rewrite lookup_kallsyms_function by done. cbn [mbind option_bind].
    rewrite (backtrace_loop_traced 10 _ r rets) by done. cbn [mbind option_bind]. by destruct (function_at entries (rip regs - 1)).
  - apply function_at_before.
  - intros n a b Ha Hb E. pose proof (kept_rising text etext 0 l (proj1 Hm)) as Hr.
    pose proof (rising_lookup _ _ n (S n) _ _ Hr Ha Hb ltac:(lia)). eapply function_at_in; [done..|]. lia.
Qed.
End Table.

(** A kernel with two functions, "f" and "g", and a stack of two frames. *)
Definition map0 : list symbol_entry :=
  [mkSymbol 0x1000 [95]; mkSymbol 0x100000 [102]; mkSymbol 0x100000 [70]; mkSymbol 0x100040 [103];
   mkSymbol 0x100080 [101]; mkSymbol 0x200000 [98]].
Definition stack0 : words := fun a =>
  if a =? 0x7000 then Some 0x7100 else if a =? 0x7008 then Some 0x100050
  else if a =? 0x7100 then Some 0 else if a =? 0x7108 then Some 0x300000 else None.
Definition regs0 : pt_regs :=
  mkRegs 0 0 0 0 0 0 0 0 0 0 0 0 0 0x7000 0 0 0 0 0 0x100010 8 0 0x6ff0 16.

Lemma map0_ok : map_ok 0x100000 0x100080 map0.
Proof.
  split; [cbn; lia|]. intros i a Hi.
  assert (a ∈ kept 0x100000 0x100080 0 map0) as Ha by (by apply list_elem_of_lookup_2 in Hi).
  cbn in Ha. unfold word64. repeat (apply elem_of_cons in Ha as [->|Ha]; [cbn; split; [lia|by repeat constructor]|]).
  by apply not_elem_of_nil in Ha.
Qed.

Lemma backtrace_spec_witness : backtrace regs0 stack0 (write_src 0x100000 0x100080 map0) =
  Some [mkLine 0x100010 0x10 [102] 0x100000; mkLine 0x100050 0x10 [103] 0x100040].
Proof.
  destruct (backtrace_spec 0x100000 0x100080 map0 regs0 stack0 [0x100050; 0x300000] map0_ok) as (E & _).
  - cbn. repeat constructor; unfold word64; cbn; lia.
  - cbn. split; [reflexivity|]. exists 0x7100. split; [reflexivity|]. split; [reflexivity|exact I].
  - right. apply Exists_cons_tl, Exists_cons_hd. reflexivity.
  - exact E.
Defined.

(** A fault at the first instruction of "g": the backtrace says it happened in "f". *)
Example first_instruction_misattributed :
  let k := write_src 0x100000 0x100080 map0 in
  lookup_kallsyms 0x100040 k = Some (0, [mkLine 0x100040 0x40 [102] 0x100000]) /\
  symbol <$> function_at (kept 0x100000 0x100080 0 map0) 0x100040 = Some [103].
Proof. by vm_compute. Qed.
