(* ===== verification/Fault.v ===== *)
(** * Exception reports (trap.c, backtrace.c)

    Every exception handler prints what happened, the registers and a backtrace, and then halts the
    processor for ever; what it has printed by then is its result here.  Formats are written as in the
    C source, with their escapes. *)

From S2P Require Import Prelude Bits Task Trap.
From Stdlib Require Import String.

Local Open Scope string_scope.
Local Open Scope list_scope.
Local Open Scope Z_scope.
Local Open Scope cint_scope.

Inductive output := text (format : string) (args : list Z) | trace (l : trace_line).

Section Fault.
(** The stack, the symbol table, and the number of the processor. *)
Context (m : words) (k : kallsyms) (SMP_cpu_id : Z).
Implicit Types (regs : pt_regs) (error_code : Z).

Definition display_regs regs : option (list output) :=
  lines ← backtrace regs m k;
  Some ([text "====================== Kernel Regs ======================\n" [];
    text "CS:%#010x,SS:%#010x\nDS:%#010x,ES:%#010x\nRFLAGS:%#018lx\n"
      [regs.(cs); regs.(ss); regs.(ds); regs.(es); regs.(rflags)];
    text "RAX:%#018lx,RBX:%#018lx,RCX:%#018lx,RDX:%#018lx\nRSP:%#018lx,RBP:%#018lx,RIP:%#018lx\nRSI:%#018lx,RDI:%#018lx\n"
      [regs.(rax); regs.(rbx); regs.(rcx); regs.(rdx); regs.(rsp); regs.(rbp); regs.(rip); regs.(rsi); regs.(rdi)];
    text "R8 :%#018lx,R9 :%#018lx\nR10:%#018lx,R11:%#018lx\nR12:%#018lx,R13:%#018lx\nR14:%#018lx,R15:%#018lx\n"
      [regs.(r8); regs.(r9); regs.(r10); regs.(r11); regs.(r12); regs.(r13); regs.(r14); regs.(r15)];
    text "====================== Kernel Stack Backtrace ======================\n" []] ++ map trace lines).

(** A report: the first line, what the error code says, the registers. *)
Definition report (format : string) (details : list output) regs error_code : option (list output) :=
  l ← display_regs regs;
  Some (text format [error_code; regs.(rsp); regs.(rip); SMP_cpu_id] :: details ++ l).

Definition do_divide_error := report "do_divide_error(0),ERROR_CODE:%#018lx,RSP:%#018lx,RIP:%#018lx,CPU:%#018lx\n" [].
Definition do_debug := report "do_debug(1),ERROR_CODE:%#018lx,RSP:%#018lx,RIP:%#018lx,CPU:%#018lx\n" [].
Definition do_nmi := report "do_nmi(2),ERROR_CODE:%#018lx,RSP:%#018lx,RIP:%#018lx,CPU:%#018lx\n" [].
Definition do_int3 := report "do_int3(3),ERROR_CODE:%#018lx,RSP:%#018lx,RIP:%#018lx,CPU:%#018lx\n" [].
Definition do_overflow := report "do_overflow(4),ERROR_CODE:%#018lx,RSP:%#018lx,RIP:%#018lx,CPU:%#018lx\n" [].
Definition do_bounds := report "do_bounds(5),ERROR_CODE:%#018lx,RSP:%#018lx,RIP:%#018lx,CPU:%#018lx\n" [].
Definition do_undefined_opcode := report "do_undefined_opcode(6),ERROR_CODE:%#018lx,RSP:%#018lx,RIP:%#018lx,CPU:%#018lx\n" [].
Definition do_dev_not_available := report "do_dev_not_available(7),ERROR_CODE:%#018lx,RSP:%#018lx,RIP:%#018lx,CPU:%#018lx\n" [].
Definition do_double_fault := report "do_double_fault(8),ERROR_CODE:%#018lx,RSP:%#018lx,RIP:%#018lx,CPU:%#018lx\n" [].
Definition do_coprocessor_segment_overrun := report "do_coprocessor_segment_overrun(9),ERROR_CODE:%#018lx,RSP:%#018lx,RIP:%#018lx,CPU:%#018lx\n" [].
Definition do_x87_FPU_error := report "do_x87_FPU_error(16),ERROR_CODE:%#018lx,RSP:%#018lx,RIP:%#018lx,CPU:%#018lx\n" [].
Definition do_alignment_check := report "do_alignment_check(17),ERROR_CODE:%#018lx,RSP:%#018lx,RIP:%#018lx,CPU:%#018lx\n" [].
Definition do_machine_check := report "do_machine_check(18),ERROR_CODE:%#018lx,RSP:%#018lx,RIP:%#018lx,CPU:%#018lx\n" [].
Definition do_SIMD_exception := report "do_SIMD_exception(19),ERROR_CODE:%#018lx,RSP:%#018lx,RIP:%#018lx,CPU:%#018lx\n" [].
Definition do_virtualization_exception := report "do_virtualization_exception(20),ERROR_CODE:%#018lx,RSP:%#018lx,RIP:%#018lx,CPU:%#018lx\n" [].

(** The lines about a selector, which four handlers share. *)
Definition selector_details error_code : list output :=
  (if negb (error_code .& 0x01 =? 0) then
     [text "The exception occurred during delivery of an event external to the program,such as an interrupt or an earlier exception.\n" []]
   else []) ++
  (if negb (error_code .& 0x02 =? 0) then [text "Refers to a gate descriptor in the IDT;\n" []]
   else [text "Refers to a descriptor in the GDT or the current LDT;\n" []]) ++
  (if error_code .& 0x02 =? 0 then
     if negb (error_code .& 0x04 =? 0) then [text "Refers to a segment or gate descriptor in the LDT;\n" []]
     else [text "Refers to a descriptor in the current GDT;\n" []]
   else []) ++
  [text "Segment Selector Index:%#010x\n" [error_code .& 0xfff8]].

Definition do_invalid_TSS regs error_code :=
  report "do_invalid_TSS(10),ERROR_CODE:%#018lx,RSP:%#018lx,RIP:%#018lx,CPU:%#018lx\n" (selector_details error_code) regs error_code.
Definition do_segment_not_present regs error_code :=
  report "do_segment_not_present(11),ERROR_CODE:%#018lx,RSP:%#018lx,RIP:%#018lx,CPU:%#018lx\n" (selector_details error_code) regs error_code.
Definition do_stack_segment_fault regs error_code :=
  report "do_stack_segment_fault(12),ERROR_CODE:%#018lx,RSP:%#018lx,RIP:%#018lx,CPU:%#018lx\n" (selector_details error_code) regs error_code.
Definition do_general_protection regs error_code :=
  report "do_general_protection(13),ERROR_CODE:%#018lx,RSP:%#018lx,RIP:%#018lx,CPU:%#018lx\n" (selector_details error_code) regs error_code.

Definition page_fault_details error_code : list output :=
  (if error_code .& 0x01 =? 0 then [text "Page Not-Present,\t" []] else []) ++
  (if negb (error_code .& 0x02 =? 0) then [text "Write Cause Fault,\t" []] else [text "Read Cause Fault,\t" []]) ++
  (if negb (error_code .& 0x04 =? 0) then [text "Fault in user(3)\t" []]
   else [text "Fault in supervisor(0,1,2)\t" []]) ++
  (if negb (error_code .& 0x08 =? 0) then [text ",Reserved Bit Cause Fault\t" []] else []) ++
  (if negb (error_code .& 0x10 =? 0) then [text ",Instruction fetch Cause Fault" []] else []) ++
  [text "\n" []].

Definition do_page_fault (cr2 : Z) regs error_code :=
  report "do_page_fault(14),ERROR_CODE:%#018lx,RSP:%#018lx,RIP:%#018lx,CPU:%#018lx\n"
    (page_fault_details error_code ++ [text "CR2:%#018lx\n" [cr2]]) regs error_code.

(** ** What a report tells *)

Lemma land_flag z i : 0 <= i < 64 -> (z .& 2 ^ i =? 0) = negb (Z.testbit z i).
Proof using Type. intros Hi. rewrite <- (u64_bit i Hi). by apply land_bit_eqb. Qed.

Lemma flags z : ((z .& 0x01 =? 0) = negb (Z.testbit z 0)) /\ ((z .& 0x02 =? 0) = negb (Z.testbit z 1)) /\
  ((z .& 0x04 =? 0) = negb (Z.testbit z 2)) /\ ((z .& 0x08 =? 0) = negb (Z.testbit z 3)) /\
  ((z .& 0x10 =? 0) = negb (Z.testbit z 4)).
Proof using Type.
  split_and!; [apply (land_flag z 0)|apply (land_flag z 1)|apply (land_flag z 2)|apply (land_flag z 3)|apply (land_flag z 4)]; lia.
Qed.

(** The lines of a page fault determine the five bits of the error code they are about. *)
Lemma page_fault_details_inj e e' : page_fault_details e = page_fault_details e' ->
  forall i, 0 <= i < 5 -> Z.testbit e i = Z.testbit e' i.
Proof using Type.
  unfold page_fault_details. destruct (flags e) as (-> & -> & -> & -> & ->), (flags e') as (-> & -> & -> & -> & ->).
  rewrite !negb_involutive. intros H.
  cut (Z.testbit e 0 = Z.testbit e' 0 /\ Z.testbit e 1 = Z.testbit e' 1 /\ Z.testbit e 2 = Z.testbit e' 2 /\
    Z.testbit e 3 = Z.testbit e' 3 /\ Z.testbit e 4 = Z.testbit e' 4).
  { intros (?&?&?&?&?) i Hi. assert (i = 0 \/ i = 1 \/ i = 2 \/ i = 3 \/ i = 4) as Hc by lia.
    by destruct Hc as [->|[->|[->|[-> | ->]]]]. }
  revert H. generalize (Z.testbit e 0), (Z.testbit e 1), (Z.testbit e 2), (Z.testbit e 3), (Z.testbit e 4),
    (Z.testbit e' 0), (Z.testbit e' 1), (Z.testbit e' 2), (Z.testbit e' 3), (Z.testbit e' 4).
  intros b0 b1 b2 b3 b4 c0 c1 c2 c3 c4 H.
  destruct b1, c1, b0, c0; try discriminate H; destruct b2, c2; try discriminate H; destruct b3, c3, b4, c4;
    first [discriminate H|done].
Qed.

(** The selector lines likewise give the error code but for the bits from 16 on, and the bit of the
    local table when the interrupt table is meant. *)
Lemma selector_details_inj e e' : selector_details e = selector_details e' ->
  e .& 0xfff8 = e' .& 0xfff8 /\ Z.testbit e 0 = Z.testbit e' 0 /\ Z.testbit e 1 = Z.testbit e' 1 /\
  (Z.testbit e 1 = false -> Z.testbit e 2 = Z.testbit e' 2).
Proof using Type.
  unfold selector_details. destruct (flags e) as (-> & -> & -> & _), (flags e') as (-> & -> & -> & _).
  rewrite !negb_involutive. generalize (e .& 0xfff8), (e' .& 0xfff8).
  generalize (Z.testbit e 0), (Z.testbit e 1), (Z.testbit e 2), (Z.testbit e' 0), (Z.testbit e' 1), (Z.testbit e' 2).
  intros [] [] [] [] [] [] z z'; cbn; intros E; first [discriminate E|injection E as ->; by split_and!].
Qed.
End Fault.
