(* ===== verification/Smp.v ===== *)
(** * Start-up of the other processors (SMP.c)

    [SMP_init] on the boot processor starts the processors 1 to 3 one after the other, and hands
    [SMP_lock] over to each, which unlocks it at the end of [Start_SMP].  Both run at the same time:
    a step is one statement that touches what they share, [global_i], [_stack_start], the
    descriptors, and the lock, which here is free or held ([Spin] shows that it behaves so). *)

From S2P Require Import Prelude Bits Alloc Gate Apic Paging Mm Pool Task TaskDemo.
From stdpp Require Import relations.

Local Open Scope Z_scope.
Local Open Scope cint_scope.

(** [icr_entry] for the INIT of all other processors, and as the loop leaves it for a start-up. *)
Definition init_ipi : INT_CMD_REG :=
  mkICR 0x00 APIC_ICR_IOAPIC_INIT ICR_IOAPIC_DELV_PHYSICAL APIC_ICR_IOAPIC_Idle 0 ICR_LEVEL_DE_ASSERT
    APIC_ICR_IOAPIC_Edge 0 ICR_ALL_EXCLUDE_Self 0 0x00.
Definition startup_ipi (global_i : Z) : INT_CMD_REG :=
  mkICR 0x20 ICR_Start_up ICR_IOAPIC_DELV_PHYSICAL APIC_ICR_IOAPIC_Idle 0 ICR_LEVEL_DE_ASSERT
    APIC_ICR_IOAPIC_Edge 0 ICR_No_Shorthand 0 global_i.

(** Where the boot processor is in the loop: at its test, at [spin_lock], behind it, at the two
    writes of the command register, at [global_i++], behind the loop. *)
Inductive bsp_pc := AtTest | AtLock | AtSetup | AtSend | AtSend2 | AtInc | AtEnd.

(** A started processor: not started, started, with its stack in [thread->rsp0], with the task
    register loaded, and behind [spin_unlock]. *)
Inductive ap := Off | Booting | HasStack (rsp0 : Z) | Loaded (rsp0 tr : Z) | Running (rsp0 tr : Z).

(** [init_tss] is the pair of [rsp0] and [ist1]; the other members get the same values.  [sent] are
    the writes to MSR 0x830. *)
Record boot (M : Type) := mkBoot {
  at_bsp : bsp_pc;
  global_i : Z;
  lock_free : bool;
  stack_start : Z;
  init_tss : gmap Z (Z * Z);
  gdt : list Z;
  heap : M;
  aps : gmap Z ap;
  sent : list Z
}.
Arguments mkBoot {M}.
Arguments at_bsp {M}.
Arguments global_i {M}.
Arguments lock_free {M}.
Arguments stack_start {M}.
Arguments init_tss {M}.
Arguments gdt {M}.
Arguments heap {M}.
Arguments aps {M}.
Arguments sent {M}.

Section Smp.
Context {M : Type} `{Allocator M} (tss_address : Z -> Z).
Implicit Type s : boot M.

Definition set_bsp (p : bsp_pc) s : boot M :=
  mkBoot p s.(global_i) s.(lock_free) s.(stack_start) s.(init_tss) s.(gdt) s.(heap) s.(aps) s.(sent).
Definition set_lock (b : bool) s : boot M :=
  mkBoot s.(at_bsp) s.(global_i) b s.(stack_start) s.(init_tss) s.(gdt) s.(heap) s.(aps) s.(sent).
Definition set_global_i (i : Z) s : boot M :=
  mkBoot s.(at_bsp) i s.(lock_free) s.(stack_start) s.(init_tss) s.(gdt) s.(heap) s.(aps) s.(sent).
Definition set_ap (j : Z) (p : ap) s : boot M :=
  mkBoot s.(at_bsp) s.(global_i) s.(lock_free) s.(stack_start) s.(init_tss) s.(gdt) s.(heap) (<[j := p]> s.(aps)) s.(sent).

(** From [kmalloc] to [set_tss_descriptor]; a NULL stack faults at the store of [cpu_id]. *)
Definition setup s : option (boot M) :=
  let i := s.(global_i) in
  r ← alloc STACK_SIZE s.(heap);
  let '(ptr, h) := r in
  guard_fault (negb (ptr =? 0));;
  let stack := ptr .+ STACK_SIZE in
  r ← alloc STACK_SIZE h;
  let '(ptr, h) := r in
  guard_fault (negb (ptr =? 0));;
  g ← set_tss_descriptor (10 + i * 2) (tss_address i) s.(gdt);
  Some (mkBoot s.(at_bsp) i s.(lock_free) stack (<[i := (stack, ptr .+ STACK_SIZE)]> s.(init_tss)) g h s.(aps) s.(sent)).

(** A start-up message: a processor that waits for one begins, the others ignore it. *)
Definition wrmsr_830 (w dest : Z) s : boot M :=
  let s := mkBoot s.(at_bsp) s.(global_i) s.(lock_free) s.(stack_start) s.(init_tss) s.(gdt) s.(heap) s.(aps)
    (s.(sent) ++ [w]) in
  match s.(aps) !! dest with Some Off => set_ap dest Booting s | _ => s end.

Definition bsp_step s : option (boot M) :=
  match s.(at_bsp) with
  | AtTest => Some (set_bsp (if s.(global_i) <? 4 then AtLock else AtEnd) s)
  | AtLock => if s.(lock_free) then Some (set_bsp AtSetup (set_lock false s)) else Some s
  | AtSetup => s ← setup s; Some (set_bsp AtSend s)
  | AtSend => Some (set_bsp AtSend2 (wrmsr_830 (icr_word (startup_ipi s.(global_i))) s.(global_i) s))
  | AtSend2 => Some (set_bsp AtInc (wrmsr_830 (icr_word (startup_ipi s.(global_i))) s.(global_i) s))
  | AtInc => Some (set_bsp AtTest (set_global_i (i32 (s.(global_i) + 1)) s))
  | AtEnd => None
  end.

(** The statements of [Start_SMP] that use what is shared: [thread->rsp0 = _stack_start], [load_TR],
    [spin_unlock]. *)
Definition ap_step (j : Z) s : option (boot M) :=
  p ← s.(aps) !! j;
  match p with
  | Booting => Some (set_ap j (HasStack s.(stack_start)) s)
  | HasStack r => Some (set_ap j (Loaded r (10 + (s.(global_i) - 1) * 2)) s)
  | Loaded r tr => Some (set_lock true (set_ap j (Running r tr) s))
  | Off | Running _ _ => None
  end.

(** The state in which the loop is entered, after the INIT message. *)
Definition boot_start (stack : Z) (tss : gmap Z (Z * Z)) (g : list Z) (h : M) : boot M :=
  mkBoot AtTest 1 true stack tss g h (list_to_map [(1, Off); (2, Off); (3, Off)]) [icr_word init_ipi].


End Smp.

(** ** The hand-over *)


Section Safety.
Context {M : Type} `{HF : Frames M} `{HL : !AllocatorLaws M} `{HP : !PagingLaws M} `{HT : !TaskLaws M}.
Context (tss_address : Z -> Z) (tss_words : forall i, word64 (tss_address i)).
Implicit Type s : boot M.




















(** ** The start-up comes to its end *)













End Safety.

(** ** The start-up runs *)

(** The schedule: [None] is a step of the boot processor, [Some j] one of processor [j]. *)
Fixpoint run_boot {M} `{Allocator M} (tss_address : Z -> Z) (l : list (option Z)) (s : boot M) : option (boot M) :=
  match l with
  | [] => Some s
  | None :: l => s ← bsp_step tss_address s; run_boot tss_address l s
  | Some j :: l => s ← ap_step j s; run_boot tss_address l s
  end.


(** [init_tss] at [0xffff800000104000], 104 bytes each. *)
Definition demo_tss (i : Z) : Z := u64 (0xffff800000104000 + 104 * i).
Definition demo_boot : boot pool := boot_start 0xffff800000007e00 ∅ (replicate 110 0) (mkPool ∅ ∅ ∅).

(** The boot processor passes [global_i++] before processor 1 loads its task register, processor 2
    after: processor 2 loads the one of processor 1, whose stack an interrupt will then use. *)
Definition demo_schedule : list (option Z) :=
  replicate 6 None ++ [Some 1; Some 1; Some 1] ++ replicate 4 None ++ [Some 2; Some 2; Some 2] ++ replicate 2 None ++
  replicate 6 None ++ [Some 3; Some 3; Some 3; None].

Definition task_registers (s : option (boot pool)) : option (list (option Z)) :=
  s ← s; Some ((fun j => match s.(aps) !! j with Some (Running _ tr) => Some tr | _ => None end) <$> [1; 2; 3]).

Example load_TR_races : task_registers (run_boot demo_tss demo_schedule demo_boot) = Some [Some 12; Some 12; Some 16].
Proof. vm_compute. reflexivity. Qed.





