(* ===== verification/Asm.v ===== *)
(** * The string instructions of the processor

    lib.h writes its string functions in assembly.  This is the part of the processor they use:
    five registers, the flags, and the instructions, with the repeat prefixes one iteration at a
    time, as an interrupt sees them.  [Cstr] holds the functions.  Memory is a finite map of bytes,
    an access elsewhere faults. *)

From S2P Require Import Prelude Bytes.
From stdpp Require Import relations.

Local Open Scope Z_scope.
Local Open Scope cint_scope.

Inductive reg := RAX | RCX | RDX | RSI | RDI.

Record cpu := mkCpu {
  rax : Z; rcx : Z; rdx : Z; rsi : Z; rdi : Z;
  zf : bool; sf : bool; ovf : bool; df : bool;
  ram : mem
}.

Definition get_reg (r : reg) (c : cpu) : Z :=
  match r with RAX => c.(rax) | RCX => c.(rcx) | RDX => c.(rdx) | RSI => c.(rsi) | RDI => c.(rdi) end.
Definition set_reg (r : reg) (v : Z) (c : cpu) : cpu :=
  match c with mkCpu a cx d s i z sg o df m =>
    match r with
    | RAX => mkCpu v cx d s i z sg o df m
    | RCX => mkCpu a v d s i z sg o df m
    | RDX => mkCpu a cx v s i z sg o df m
    | RSI => mkCpu a cx d v i z sg o df m
    | RDI => mkCpu a cx d s v z sg o df m
    end
  end.
Definition set_flags (z sg o : bool) (c : cpu) : cpu :=
  mkCpu c.(rax) c.(rcx) c.(rdx) c.(rsi) c.(rdi) z sg o c.(df) c.(ram).
Definition set_df (b : bool) (c : cpu) : cpu :=
  mkCpu c.(rax) c.(rcx) c.(rdx) c.(rsi) c.(rdi) c.(zf) c.(sf) c.(ovf) b c.(ram).
Definition set_ram (m : mem) (c : cpu) : cpu :=
  mkCpu c.(rax) c.(rcx) c.(rdx) c.(rsi) c.(rdi) c.(zf) c.(sf) c.(ovf) c.(df) m.

(** [1f] and [1b]: the next, the last label with the number. *)
Inductive target := F (n : nat) | B (n : nat).

(** The string instructions carry their width in bytes. *)
Inductive string_op := movs (w : nat) | stos (w : nat) | lodsb | scasb | cmpsb.

Inductive instr :=
  | Label (n : nat)
  | cld
  | str (o : string_op)
  | rep (o : string_op) | repe (o : string_op) | repne (o : string_op)
  | testb (k : Z) (r : reg)
  | testb_al
  | je (t : target) | jne (t : target) | js (t : target) | jl (t : target) | jmp (t : target)
  | movl (k : Z) (r : reg) | movq (r r' : reg) | xorl (r : reg)
  | negl (r : reg) | notl (r : reg) | decl (r : reg) | decq (r : reg).

Definition store_bytes (a : Z) (bs : list Z) (m : mem) : option mem :=
  _ ← mem_read a (length bs) m; Some (mem_write a bs m).

(** [x - y] of two bytes. *)
Definition compare_flags (x y : Z) (c : cpu) : cpu :=
  set_flags (x =? y) (128 <=? u8 (x - y)) (negb (i8 (i8 x - i8 y) =? i8 x - i8 y)) c.

Definition string_step (o : string_op) (c : cpu) : option cpu :=
  let by_ (w : nat) := if c.(df) then - Z.of_nat w else Z.of_nat w in
  match o with
  | movs w =>
      bs ← mem_read c.(rsi) w c.(ram);
      m ← store_bytes c.(rdi) bs c.(ram);
      Some (set_reg RSI (c.(rsi) .+ by_ w) (set_reg RDI (c.(rdi) .+ by_ w) (set_ram m c)))
  | stos w =>
      m ← store_bytes c.(rdi) (le_bytes w c.(rax)) c.(ram);
      Some (set_reg RDI (c.(rdi) .+ by_ w) (set_ram m c))
  | lodsb =>
      b ← c.(ram) !! c.(rsi);
      Some (set_reg RAX (c.(rax) / 256 * 256 + b) (set_reg RSI (c.(rsi) .+ by_ 1%nat) c))
  | scasb =>
      b ← c.(ram) !! c.(rdi);
      Some (set_reg RDI (c.(rdi) .+ by_ 1%nat) (compare_flags (u8 c.(rax)) b c))
  | cmpsb =>
      a ← c.(ram) !! c.(rsi);
      b ← c.(ram) !! c.(rdi);
      Some (set_reg RSI (c.(rsi) .+ by_ 1%nat) (set_reg RDI (c.(rdi) .+ by_ 1%nat) (compare_flags a b c)))
  end.

Fixpoint find_label (n : nat) (l : list instr) : option nat :=
  match l with
  | [] => None
  | Label k :: l => if decide (k = n) then Some O else S <$> find_label n l
  | _ :: l => S <$> find_label n l
  end.
Definition goto (t : target) (pc : nat) (code : list instr) : option nat :=
  match t with
  | F n => k ← find_label n (drop pc code); Some (pc + k)%nat
  | B n => k ← find_label n (reverse (take pc code)); Some (pc - k - 1)%nat
  end.

(** The next instruction, or the next iteration of a repeated one. *)
Definition step (code : list instr) (x : nat * cpu) : option (nat * cpu) :=
  let '(pc, c) := x in
  let next c := Some (S pc, c) in
  let jump b t := if b : bool then pc' ← goto t pc code; Some (pc', c) else next c in
  let again o go :=
    if c.(rcx) =? 0 then next c
    else c ← string_step o c;
         let c := set_reg RCX (c.(rcx) .- 1) c in
         if go c : bool then Some (pc, c) else next c in
  let arith v z sg o r := next (set_reg r v (set_flags z sg o c)) in
  i ← code !! pc;
  match i with
  | Label _ => next c
  | cld => next (set_df false c)
  | str o => c ← string_step o c; next c
  | rep o => again o (fun _ => true)
  | repe o => again o zf
  | repne o => again o (fun c => negb c.(zf))
  | testb k r => let v := u8 (get_reg r c .& k) in next (set_flags (v =? 0) (128 <=? v) false c)
  | testb_al => let v := u8 c.(rax) in next (set_flags (v =? 0) (128 <=? v) false c)
  | je t => jump c.(zf) t
  | jne t => jump (negb c.(zf)) t
  | js t => jump c.(sf) t
  | jl t => jump (xorb c.(sf) c.(ovf)) t
  | jmp t => jump true t
  | movl k r => next (set_reg r (u32 k) c)
  | movq r r' => next (set_reg r' (get_reg r c) c)
  | xorl r => arith 0 true false false r
  | negl r => let v := u32 (- get_reg r c) in arith v (v =? 0) (2 ^ 31 <=? v) (v =? 2 ^ 31) r
  | notl r => next (set_reg r (u32 (Z.lnot (get_reg r c))) c)
  | decl r => let v := u32 (get_reg r c - 1) in arith v (v =? 0) (2 ^ 31 <=? v) (v =? 2 ^ 31 - 1) r
  | decq r => let v := get_reg r c .- 1 in arith v (v =? 0) (2 ^ 63 <=? v) (v =? 2 ^ 63 - 1) r
  end.

(** To the end of the code; each iteration takes one unit of fuel. *)
Fixpoint run_code (fuel : nat) (code : list instr) (x : nat * cpu) : option cpu :=
  if decide (x.1 = length code) then Some x.2
  else match fuel with
       | O => None
       | S fuel => x ← step code x; run_code fuel code x
       end.

(** ** Running *)

(** At most [k] steps lead from [x] to [y]. *)
Definition reaches (code : list instr) (k : nat) (x y : nat * cpu) : Prop :=
  exists n, (n <= k)%nat /\ nsteps (fun x y => step code x = Some y) n x y.

Lemma reaches_refl code k x : reaches code k x x.
Proof. exists O. split; [lia|constructor]. Qed.

Lemma reaches_step code k x y z : step code x = Some y -> reaches code k y z -> reaches code (S k) x z.
Proof. intros H (n & Hn & Hs). exists (S n). split; [lia|by econstructor]. Qed.

Lemma reaches_trans code k k' x y z : reaches code k x y -> reaches code k' y z -> reaches code (k + k') x z.
Proof. intros (n & Hn & Hs) (n' & Hn' & Hs'). exists (n + n')%nat. split; [lia|by eapply nsteps_trans]. Qed.

Lemma reaches_le code k k' x y : reaches code k x y -> (k <= k')%nat -> reaches code k' x y.
Proof. intros (n & Hn & Hs) Hk. exists n. split; [lia|done]. Qed.

Lemma reaches_run code k x c fuel : reaches code k x (length code, c) -> (k <= fuel)%nat ->
  run_code fuel code x = Some c.
Proof.
  intros (n & Hn & Hs) Hk. assert (n <= fuel)%nat as Hf by lia. clear Hn Hk.
  remember (length code, c) as y eqn:Hy. revert fuel Hf.
  induction Hs as [x|n x y z E Hs IH]; intros fuel Hf; subst.
  - destruct fuel; cbn; by rewrite decide_True.
  - destruct fuel as [|fuel]; [lia|]. cbn. rewrite decide_False.
    + rewrite E. cbn. apply IH; [done|lia].
    + intros Ex. destruct x as [pc c']. cbn in Ex. subst pc. cbn in E.
      rewrite (lookup_ge_None_2 code (length code)) in E by lia. done.
Qed.

(** One instruction whose outcome depends on the state. *)
Lemma step_str code pc o c c' : code !! pc = Some (str o) -> string_step o c = Some c' -> step code (pc, c) = Some (S pc, c').
Proof. intros H E. unfold step. rewrite H. cbn [mbind option_bind]. by rewrite E. Qed.

Lemma step_test_al code pc c b : code !! pc = Some testb_al -> u8 c.(rax) = b ->
  step code (pc, c) = Some (S pc, set_flags (b =? 0) (128 <=? b) false c).
Proof. intros H <-. unfold step. by rewrite H. Qed.

Definition taken (i : instr) (t : target) (c : cpu) (b : bool) : Prop :=
  i = je t /\ b = c.(zf) \/ i = jne t /\ b = negb c.(zf) \/ i = js t /\ b = c.(sf) \/ i = jl t /\ b = xorb c.(sf) c.(ovf) \/
  i = jmp t /\ b = true.

Lemma step_taken code pc i t c p : code !! pc = Some i -> taken i t c true -> goto t pc code = Some p ->
  step code (pc, c) = Some (p, c).
Proof.
  intros H Ht Hg. unfold step. rewrite H. cbn [mbind option_bind].
  destruct Ht as [[-> <-]|[[-> <-]|[[-> <-]|[[-> <-]|[-> _]]]]]; by rewrite Hg.
Qed.

Lemma step_untaken code pc i t c : code !! pc = Some i -> taken i t c false -> step code (pc, c) = Some (S pc, c).
Proof.
  intros H Ht. unfold step. rewrite H. cbn [mbind option_bind].
  by destruct Ht as [[-> <-]|[[-> <-]|[[-> <-]|[[-> <-]|[_ ?]]]]].
Qed.

(** ** Memory *)

Lemma mem_read_in a n m : is_Some (mem_read a n m) <-> forall i, a <= i < a + Z.of_nat n -> is_Some (m !! i).
Proof.
  revert a. induction n as [|n IH]; intros a; cbn; [split; [lia|by eexists]|]. split.
  - intros [bs H] i Hi. inv_fault. destruct (decide (i = a)) as [->|]; [by eexists|].
    apply (proj1 (IH (a + 1))); [by eexists|lia].
  - intros H. destruct (H a) as [b ->]; [lia|]. cbn. destruct (proj2 (IH (a + 1))) as [bs ->]; [|by eexists].
    intros i Hi. apply H. lia.
Qed.

Lemma mem_read_ext a n m m' : (forall i, a <= i < a + Z.of_nat n -> m !! i = m' !! i) -> mem_read a n m = mem_read a n m'.
Proof.
  revert a. induction n as [|n IH]; intros a H; cbn; [done|]. rewrite (H a), (IH (a + 1)); [done| |lia].
  intros i Hi. apply H. lia.
Qed.

Lemma mem_read_app a n k m : mem_read a (n + k) m =
  (l ← mem_read a n m; l' ← mem_read (a + Z.of_nat n) k m; Some (l ++ l')).
Proof.
  revert a. induction n as [|n IH]; intros a; cbn [mem_read Nat.add].
  - cbn. rewrite Z.add_0_r. by destruct (mem_read a k m).
  - destruct (m !! a); cbn; [|done]. rewrite IH. destruct (mem_read (a + 1) n m); cbn; [|done].
    replace (a + 1 + Z.of_nat n) with (a + Z.of_nat (S n)) by lia. by destruct (mem_read _ k m).
Qed.

Lemma mem_read_split a l l' m : mem_read a (length (l ++ l')) m = Some (l ++ l') ->
  mem_read a (length l) m = Some l /\ mem_read (a + Z.of_nat (length l)) (length l') m = Some l'.
Proof.
  rewrite length_app, mem_read_app. intros H. inv_fault.
  pose proof (mem_read_length _ _ _ _ E). pose proof (mem_read_length _ _ _ _ E0).
  destruct (app_inj_1 x l x0 l') as [-> ->]; done.
Qed.

Lemma mem_read_write_ne a n b bs m : a + Z.of_nat n <= b \/ b + Z.of_nat (length bs) <= a ->
  mem_read a n (mem_write b bs m) = mem_read a n m.
Proof. intros H. apply mem_read_ext. intros i Hi. apply mem_write_lookup_ne. lia. Qed.

Lemma store_bytes_mapped a bs m : is_Some (mem_read a (length bs) m) -> store_bytes a bs m = Some (mem_write a bs m).
Proof. unfold store_bytes. by intros [l ->]. Qed.

Lemma mapped_write a n b bs m : is_Some (mem_read a n m) -> is_Some (mem_read a n (mem_write b bs m)).
Proof. rewrite !mem_read_in. intros H i Hi. apply mem_write_some, H, Hi. Qed.

Lemma mapped_sub a n b k m : is_Some (mem_read a n m) -> a <= b -> b + Z.of_nat k <= a + Z.of_nat n -> is_Some (mem_read b k m).
Proof. rewrite !mem_read_in. intros H Hb Hk i Hi. apply H. lia. Qed.

(** [jl] after a comparison of bytes. *)
Lemma compare_less x y : 0 <= x < 256 -> 0 <= y < 256 ->
  xorb (128 <=? u8 (x - y)) (negb (i8 (i8 x - i8 y) =? i8 x - i8 y)) = (i8 x <? i8 y).
Proof.
  intros Hx Hy. assert (forall z, 0 <= z < 256 -> i8 z = if z <? 128 then z else z - 256) as E8.
  { intros z Hz. unfold i8. destruct (Z.ltb_spec z 128).
    - rewrite Z.mod_small; lia.
    - replace (z + 2 ^ 7) with (z - 128 + 1 * 2 ^ 8) by lia. rewrite Z_mod_plus_full, Z.mod_small; lia. }
  rewrite (E8 x), (E8 y) by done. unfold u8, i8. change (2 ^ 8) with 256. change (2 ^ 7) with 128.
  pose proof (Z.div_mod (x - y) 256 ltac:(lia)). pose proof (Z.mod_pos_bound (x - y) 256 ltac:(lia)).
  set (d := (if x <? 128 then x else x - 256) - (if y <? 128 then y else y - 256)) in *.
  pose proof (Z.div_mod (d + 128) 256 ltac:(lia)). pose proof (Z.mod_pos_bound (d + 128) 256 ltac:(lia)).
  subst d. destruct (Z.ltb_spec x 128), (Z.ltb_spec y 128), (Z.leb_spec 128 ((x - y) mod 256));
    repeat match goal with |- context [?a =? ?b] => destruct (Z.eqb_spec a b) end;
    repeat match goal with |- context [?a <? ?b] => destruct (Z.ltb_spec a b) end; cbn; try done; exfalso; lia.
Qed.
