(* ===== verification/Cstr.v ===== *)
(** * Memory and string functions (lib.h)

    The inline assembly of lib.h, instruction by instruction, on the processor of [Asm]; the
    operands are loaded as the constraints say.  The theorems give what each function does to
    memory and returns, for every fuel that is large enough; they justify the list functions other
    files use in their place.  user/userlibs.c holds the same code. *)

From S2P Require Import Prelude Bytes Asm Sys Shell.
From stdpp Require Import relations.

Local Open Scope Z_scope.
Local Open Scope cint_scope.

Definition memcpy_asm : list instr :=
  [cld; rep (movs 8);
   testb 4 RDX; je (F 1); str (movs 4);
   Label 1; testb 2 RDX; je (F 2); str (movs 2);
   Label 2; testb 1 RDX; je (F 3); str (movs 1);
   Label 3].

Definition memcpy (fuel : nat) (From To Num : Z) (c : cpu) : option (Z * cpu) :=
  let c := set_reg RCX (u64 (Z.quot Num 8)) (set_reg RDX (u64 Num) (set_reg RDI To (set_reg RSI From c))) in
  c ← run_code fuel memcpy_asm (O, c); Some (To, c).

Definition memcmp_asm : list instr :=
  [cld; repe cmpsb; je (F 1); movl 1 RAX; jl (F 1); negl RAX; Label 1].

Definition memcmp (fuel : nat) (FirstPart SecondPart Count : Z) (c : cpu) : option (Z * cpu) :=
  let c := set_reg RAX 0 (set_reg RDI FirstPart (set_reg RSI SecondPart (set_reg RCX (u64 Count) c))) in
  c ← run_code fuel memcmp_asm (O, c); Some (i32 c.(rax), c).

Definition memset_asm : list instr :=
  [cld; rep (stos 8);
   testb 4 RDX; je (F 1); str (stos 4);
   Label 1; testb 2 RDX; je (F 2); str (stos 2);
   Label 2; testb 1 RDX; je (F 3); str (stos 1);
   Label 3].

Definition memset (fuel : nat) (Address C Count : Z) (c : cpu) : option (Z * cpu) :=
  let tmp := u8 C .* 0x0101010101010101 in
  let c := set_reg RAX tmp (set_reg RDX (u64 Count) (set_reg RCX (u64 (Z.quot Count 8)) (set_reg RDI Address c))) in
  c ← run_code fuel memset_asm (O, c); Some (Address, c).

Definition strcpy_asm : list instr := [cld; Label 1; str lodsb; str (stos 1); testb_al; jne (B 1)].

Definition strcpy (fuel : nat) (Dest Src : Z) (c : cpu) : option (Z * cpu) :=
  c ← run_code fuel strcpy_asm (O, set_reg RSI Src (set_reg RDI Dest c)); Some (Dest, c).

Definition strncpy_asm : list instr :=
  [cld; Label 1; decq RCX; js (F 2); str lodsb; str (stos 1); testb_al; jne (B 1); rep (stos 1); Label 2].

Definition strncpy (fuel : nat) (Dest Src Count : Z) (c : cpu) : option (Z * cpu) :=
  c ← run_code fuel strncpy_asm (O, set_reg RSI Src (set_reg RDI Dest (set_reg RCX (u64 Count) c))); Some (Dest, c).

Definition strcat_asm : list instr :=
  [cld; repne scasb; decq RDI; Label 1; str lodsb; str (stos 1); testb_al; jne (B 1)].

Definition strcat (fuel : nat) (Dest Src : Z) (c : cpu) : option (Z * cpu) :=
  let c := set_reg RSI Src (set_reg RDI Dest (set_reg RAX 0 (set_reg RCX 0xffffffff c))) in
  c ← run_code fuel strcat_asm (O, c); Some (Dest, c).

Definition strcmp_asm : list instr :=
  [cld; Label 1; str lodsb; str scasb; jne (F 2); testb_al; jne (B 1); xorl RAX; jmp (F 3);
   Label 2; movl 1 RAX; jl (F 3); negl RAX; Label 3].

Definition strcmp (fuel : nat) (FirstPart SecondPart : Z) (c : cpu) : option (Z * cpu) :=
  c ← run_code fuel strcmp_asm (O, set_reg RDI FirstPart (set_reg RSI SecondPart c)); Some (i32 c.(rax), c).

Definition strncmp_asm : list instr :=
  [cld; Label 1; decq RCX; js (F 2); str lodsb; str scasb; jne (F 3); testb_al; jne (B 1);
   Label 2; xorl RAX; jmp (F 4); Label 3; movl 1 RAX; jl (F 4); negl RAX; Label 4].

Definition strncmp (fuel : nat) (FirstPart SecondPart Count : Z) (c : cpu) : option (Z * cpu) :=
  let c := set_reg RDI FirstPart (set_reg RSI SecondPart (set_reg RCX (u64 Count) c)) in
  c ← run_code fuel strncmp_asm (O, c); Some (i32 c.(rax), c).

Definition strlen_asm : list instr := [cld; repne scasb; notl RCX; decl RCX].

Definition strlen (fuel : nat) (String : Z) (c : cpu) : option (Z * cpu) :=
  let c := set_reg RDI String (set_reg RAX 0 (set_reg RCX 0xffffffff c)) in
  c ← run_code fuel strlen_asm (O, c); Some (i32 c.(rcx), c).

(** The two copies to and from user memory have the same code; [rdx] is the operand [size & 7]. *)
Definition copy_asm : list instr := [rep (movs 8); movq RDX RCX; rep (movs 1)].

Definition user_copy (fuel : nat) (from to size : Z) (c : cpu) : option (Z * cpu) :=
  let c := set_reg RDX (size .& 7) (set_reg RCX (size / 8) (set_reg RDI to (set_reg RSI from c))) in
  c ← run_code fuel copy_asm (O, c); Some (c.(rcx), c).

Definition copy_from_user (fuel : nat) (from to size : Z) (c : cpu) : option (Z * cpu) :=
  if verify_area from size =? 0 then Some (0, c) else user_copy fuel from to size c.
Definition copy_to_user (fuel : nat) (from to size : Z) (c : cpu) : option (Z * cpu) :=
  if verify_area to size =? 0 then Some (0, c) else user_copy fuel from to size c.

Definition strncpy_from_user (fuel : nat) (from to size : Z) (c : cpu) : option (Z * cpu) :=
  if verify_area from size =? 0 then Some (0, c)
  else r ← strncpy fuel to from size c; Some (size, r.2).

Definition strnlen_user (fuel : nat) (src maxlen : Z) (c : cpu) : option (Z * cpu) :=
  r ← strlen fuel src c;
  let size := u64 r.1 in
  if verify_area src size =? 0 then Some (0, r.2)
  else Some (if size <=? maxlen then size else maxlen, r.2).

(** What the three tests add to the words. *)
Definition tail_bytes (v k : Z) (w : nat) : nat := if negb (u8 (v .& k) =? 0) then w else O.

Lemma low_bits (n : nat) :
  n = (8 * Z.to_nat (Z.of_nat n / 8) + tail_bytes (Z.of_nat n) 4 4 + tail_bytes (Z.of_nat n) 2 2 + tail_bytes (Z.of_nat n) 1 1)%nat.
Proof.
  assert (forall k, Z.land 7 k = k -> Z.of_nat n .& k = (Z.of_nat n `mod` 8) .& k) as E.
  { intros k Hk. rewrite <- Hk at 1. rewrite Z.land_assoc. f_equal. by rewrite (Z.land_ones _ 3) by lia. }
  unfold tail_bytes. rewrite !E by done. pose proof (Z.mod_pos_bound (Z.of_nat n) 8 ltac:(lia)) as Hr.
  pose proof (Z.div_mod (Z.of_nat n) 8 ltac:(lia)) as Hn. revert Hr Hn. generalize (Z.of_nat n / 8), (Z.of_nat n `mod` 8).
  intros q r Hr Hn.
  assert (r = 0 \/ r = 1 \/ r = 2 \/ r = 3 \/ r = 4 \/ r = 5 \/ r = 6 \/ r = 7) as Hc by lia.
  clear Hr E. repeat destruct Hc as [->|Hc]; try subst r;
    match goal with |- context [if ?b then 4%nat else _] => let v := eval vm_compute in b in change b with v end;
    match goal with |- context [if ?b then 2%nat else _] => let v := eval vm_compute in b in change b with v end;
    match goal with |- context [if ?b then 1%nat else _] => let v := eval vm_compute in b in change b with v end; cbv iota; lia.
Qed.

(** ** Copying forward *)

Section Copy.
Context (from to : Z) (bs : list Z) (m : mem).
Notation n := (length bs).

(** The source and the destination lie in memory and copying upwards does not overwrite what is
    still to be read. *)
Record copyable : Prop := {
  cp_from : 0 <= from < 2 ^ 64 /\ from + Z.of_nat n <= 2 ^ 64;
  cp_to : 0 <= to < 2 ^ 64 /\ to + Z.of_nat n <= 2 ^ 64;
  cp_source : mem_read from n m = Some bs;
  cp_mapped : is_Some (mem_read to n m);
  cp_order : to <= from \/ from + Z.of_nat n <= to
}.

(** The first [o] bytes are copied. *)
Record copied (o : nat) (c : cpu) : Prop := {
  co_df : c.(df) = false;
  co_rsi : c.(rsi) = from .+ Z.of_nat o;
  co_rdi : c.(rdi) = to .+ Z.of_nat o;
  co_ram : c.(ram) = mem_write to (take o bs) m
}.

Context (Hc : copyable).

Lemma copied_start c : c.(df) = false -> c.(rsi) = from -> c.(rdi) = to -> c.(ram) = m -> copied 0 c.
Proof using Hc.
  destruct Hc as [? ? _ _ _]. intros. constructor; rewrite ?Z.add_0_r, ?u64_small by lia; done.
Qed.

Lemma copied_read o w c : copied o c -> (0 < w)%nat -> (o + w <= n)%nat ->
  c.(rsi) = from + Z.of_nat o /\ c.(rdi) = to + Z.of_nat o /\
  mem_read c.(rsi) w c.(ram) = Some (take w (drop o bs)) /\ is_Some (mem_read c.(rdi) w c.(ram)) /\
  mem_write c.(rdi) (take w (drop o bs)) c.(ram) = mem_write to (take (o + w) bs) m.
Proof using Hc.
  destruct Hc as [H1 H2 H3 H4 H5]. intros [_ E1 E2 E3] Hw Ho. rewrite u64_small in E1, E2 by lia.
  rewrite E1, E2, E3. assert (length (take o bs) = o) as El by (rewrite length_take; lia).
  split_and!; [done|done| | |].
  - rewrite mem_read_write_ne by (rewrite El; lia).
    assert (bs = take o bs ++ take w (drop o bs) ++ drop w (drop o bs)) as Eb by (by rewrite !take_drop).
    rewrite Eb in H3 at 1 2. apply mem_read_split in H3 as [_ H3]. apply mem_read_split in H3 as [H3 _].
    rewrite El, length_take, length_drop, Nat.min_l in H3 by lia. exact H3.
  - apply mapped_write. apply (mapped_sub to n); [done|lia|lia].
  - replace (to + Z.of_nat o) with (to + Z.of_nat (length (take o bs))) by (by rewrite El).
    rewrite mem_write_app. f_equal. apply take_take_drop.
Qed.

Lemma movs_copies o w c : copied o c -> (0 < w)%nat -> (o + w <= n)%nat ->
  exists c', string_step (movs w) c = Some c' /\ copied (o + w) c' /\ c'.(rcx) = c.(rcx) /\ c'.(rdx) = c.(rdx).
Proof using Hc.
  intros K Hw Ho. destruct (copied_read o w c K Hw Ho) as (E1 & E2 & E3 & E4 & E5).
  unfold string_step. rewrite E3. cbn [mbind option_bind]. rewrite store_bytes_mapped by
    (rewrite length_take, length_drop, Nat.min_l by lia; exact E4).
  cbn [mbind option_bind]. eexists. split; [reflexivity|]. rewrite (co_df _ _ K). destruct c. cbn in *. subst.
  split; [|done]. constructor; cbn.
  - by apply K.
  - f_equal. lia.
  - f_equal. lia.
  - done.
Qed.

End Copy.

(** ** Blocks of words and the bytes left over

    [memcpy] and [memset] differ in the instruction only: [P o] says that [o] bytes are done. *)
Section Block.
Context (W : nat) (op : nat -> string_op) (n : nat) (P : nat -> cpu -> Prop).
Context (P_flags : forall o c z sg v, P o c -> P o (set_flags z sg v c)).
Context (P_rcx : forall o c v, P o c -> P o (set_reg RCX v c)).
Context (P_op : forall o w c, P o c -> (0 < w <= W)%nat -> (o + w <= n)%nat ->
  exists c', string_step (op w) c = Some c' /\ P (o + w) c' /\ c'.(rcx) = c.(rcx) /\ c'.(rdx) = c.(rdx)).

Lemma rep_block code pc w k o c : code !! pc = Some (rep (op w)) -> (0 < w <= W)%nat -> P o c ->
  c.(rcx) = Z.of_nat k -> Z.of_nat k < 2 ^ 64 -> (o + w * k <= n)%nat ->
  exists c', reaches code (S k) (pc, c) (S pc, c') /\ P (o + w * k) c' /\ c'.(rcx) = 0 /\ c'.(rdx) = c.(rdx).
Proof using P_rcx P_op.
  intros Hpc Hw. revert o c. induction k as [|k IH]; intros o c K Hk Hb Ho.
  - exists c. rewrite Nat.mul_0_r, Nat.add_0_r. split; [|done].
    eapply reaches_step; [|apply reaches_refl]. unfold step. rewrite Hpc. cbn. by rewrite Hk.
  - destruct (P_op o w c K Hw ltac:(lia)) as (c1 & E & K1 & Ec & Ed).
    destruct (IH (o + w)%nat (set_reg RCX (c1.(rcx) .- 1) c1)) as (c' & R & K' & Ec' & Ed').
    + by apply P_rcx.
    + destruct c1. cbn in *. subst. rewrite u64_small; lia.
    + lia.
    + lia.
    + exists c'. replace (o + w * S k)%nat with (o + w + w * k)%nat by lia. split_and!; [|done|done|].
      * eapply reaches_step; [|exact R]. unfold step. rewrite Hpc. cbn [mbind option_bind].
        rewrite (proj2 (Z.eqb_neq _ _)) by lia. by rewrite E.
      * rewrite Ed'. destruct c1. exact Ed.
Qed.

(** A test of a bit of [rdx] and the instruction it guards. *)
Lemma bit_block code pc l w k o c : code !! pc = Some (testb k RDX) -> code !! S pc = Some (je (F l)) ->
  code !! S (S pc) = Some (str (op w)) -> code !! S (S (S pc)) = Some (Label l) ->
  goto (F l) (S pc) code = Some (S (S (S pc))) -> (0 < w <= W)%nat ->
  P o c -> (o + tail_bytes c.(rdx) k w <= n)%nat ->
  exists c', reaches code 4 (pc, c) (S (S (S (S pc))), c') /\ P (o + tail_bytes c.(rdx) k w) c' /\ c'.(rdx) = c.(rdx).
Proof using P_flags P_op.
  intros H1 H2 H3 H4 Hg Hw K. unfold tail_bytes. set (v := u8 (c.(rdx) .& k)).
  set (c1 := set_flags (v =? 0) (128 <=? v) false c). intros Hb.
  assert (P o c1) as K1 by (by apply P_flags).
  assert (step code (pc, c) = Some (S pc, c1)) as E1 by (unfold step; by rewrite H1).
  assert (forall c, step code (S (S (S pc)), c) = Some (S (S (S (S pc))), c)) as E4 by (intros; unfold step; by rewrite H4).
  destruct (v =? 0) eqn:Eb; cbn [negb] in *.
  - exists c1. rewrite Nat.add_0_r. split; [|done].
    eapply reaches_step; [exact E1|]. eapply reaches_step.
    { unfold step. rewrite H2. cbn [mbind option_bind]. cbn [zf c1 set_flags]. rewrite Hg. reflexivity. }
    eapply reaches_step; [apply E4|apply reaches_refl].
  - destruct (P_op o w c1 K1 Hw Hb) as (c2 & E2 & K2 & _ & Ed).
    exists c2. split; [|done]. eapply reaches_step; [exact E1|]. eapply reaches_step.
    { unfold step. rewrite H2. reflexivity. }
    eapply reaches_step; [|eapply reaches_step; [apply E4|apply reaches_refl]].
    unfold step. rewrite H3. cbn [mbind option_bind]. by rewrite E2.
Qed.

Definition block_asm : list instr :=
  [cld; rep (op 8);
   testb 4 RDX; je (F 1); str (op 4);
   Label 1; testb 2 RDX; je (F 2); str (op 2);
   Label 2; testb 1 RDX; je (F 3); str (op 1);
   Label 3].

Lemma block_runs c : W = 8%nat -> P 0 (set_df false c) -> c.(rcx) = Z.of_nat n / 8 -> c.(rdx) = Z.of_nat n -> Z.of_nat n < 2 ^ 64 ->
  exists c', reaches block_asm (n + 14) (0%nat, c) (length block_asm, c') /\ P n c'.
Proof using P_flags P_rcx P_op.
  intros HW K Hcx Hdx Hn. pose proof (low_bits n) as El. pose proof (Z.div_lt_upper_bound (Z.of_nat n) 8 (2 ^ 61) ltac:(lia) ltac:(lia)).
  pose proof (Z.div_pos (Z.of_nat n) 8 ltac:(lia) ltac:(lia)).
  destruct (rep_block block_asm 1 8 (Z.to_nat (Z.of_nat n / 8)) 0 (set_df false c)) as (c1 & R1 & K1 & _ & D1);
    [done|lia|done|destruct c; cbn in *; lia|lia|lia|].
  assert (c1.(rdx) = Z.of_nat n) as D1' by (rewrite D1; by destruct c). clear D1.
  destruct (bit_block block_asm 2 1 4 4 (0 + 8 * Z.to_nat (Z.of_nat n / 8)) c1) as (c2 & R2 & K2 & D2);
    [done..|lia|done|rewrite D1'; lia|]. rewrite D1' in *.
  destruct (bit_block block_asm 6 2 2 2 (0 + 8 * Z.to_nat (Z.of_nat n / 8) + tail_bytes (Z.of_nat n) 4 4) c2) as (c3 & R3 & K3 & D3); [done..|lia|exact K2|rewrite D2; lia|].
  rewrite D2 in *.
  destruct (bit_block block_asm 10 3 1 1 (0 + 8 * Z.to_nat (Z.of_nat n / 8) + tail_bytes (Z.of_nat n) 4 4 +
    tail_bytes (Z.of_nat n) 2 2) c3) as (c4 & R4 & K4 & D4); [done..|lia|exact K3|rewrite D3; lia|].
  rewrite D3 in *. exists c4. split; [|rewrite El at 1; exact K4].
  eapply (reaches_le _ (1 + (S (Z.to_nat (Z.of_nat n / 8)) + (4 + (4 + 4))))); [|lia].
  eapply reaches_trans; [eapply reaches_step; [reflexivity|apply reaches_refl]|].
  eapply reaches_trans; [exact R1|]. eapply reaches_trans; [exact R2|]. eapply reaches_trans; [exact R3|exact R4].
Qed.
End Block.

Lemma copied_flags from to bs m o c z sg v : copied from to bs m o c -> copied from to bs m o (set_flags z sg v c).
Proof. intros [? ? ? ?]. by constructor. Qed.

Lemma copied_rcx from to bs m o c v : copied from to bs m o c -> copied from to bs m o (set_reg RCX v c).
Proof. destruct c. intros [? ? ? ?]. by constructor. Qed.

Lemma u64_quot n : 0 <= n < 2 ^ 63 -> u64 (Z.quot n 8) = n / 8.
Proof.
  intros H. rewrite Z.quot_div_nonneg by lia. apply u64_small. pose proof (Z.div_pos n 8). 
  pose proof (Z.div_lt_upper_bound n 8 (2 ^ 63)). lia.
Qed.

(** [memcpy] copies exactly [Num] bytes, whatever [Num] is modulo 8, and changes no other byte,
    when the ranges do not overlap or the destination is the lower one. *)
Theorem memcpy_spec fuel from to bs c : copyable from to bs c.(ram) -> (length bs + 14 <= fuel)%nat ->
  Z.of_nat (length bs) < 2 ^ 63 ->
  exists c', memcpy fuel from to (Z.of_nat (length bs)) c = Some (to, c') /\ c'.(ram) = mem_write to bs c.(ram).
Proof.
  intros Hc Hf Hn. unfold memcpy. change memcpy_asm with (block_asm movs).
  destruct (block_runs 8 movs (length bs) (copied from to bs c.(ram))) with
    (c := set_reg RCX (u64 (Z.quot (Z.of_nat (length bs)) 8)) (set_reg RDX (u64 (Z.of_nat (length bs)))
      (set_reg RDI to (set_reg RSI from c)))) as (c' & R & K).
  - apply copied_flags.
  - apply copied_rcx.
  - intros o w c1 K Hw Ho. apply movs_copies; [done|done|lia|done].
  - done.
  - apply copied_start; by destruct c.
  - destruct c. cbn. apply u64_quot. lia.
  - destruct c. cbn. apply u64_small. lia.
  - lia.
  - erewrite reaches_run by (exact R || lia). exists c'. split; [done|]. rewrite (co_ram _ _ _ _ _ _ K). by rewrite firstn_all.
Qed.

(** ** Filling *)

Fixpoint bytes_of_word (k : nat) (b : Z) : Z := match k with O => 0 | S k => b + 256 * bytes_of_word k b end.

Lemma le_bytes_fill w k b : 0 <= b < 256 -> (w <= k)%nat -> le_bytes w (bytes_of_word k b) = replicate w b.
Proof.
  intros Hb. revert k. induction w as [|w IH]; intros k Hk; [done|]. destruct k as [|k]; [lia|].
  cbn [le_bytes bytes_of_word replicate]. rewrite Z.mul_comm, Z_mod_plus_full, Z.mod_small by lia.
  rewrite Z_div_plus_full, Z.div_small by lia. f_equal. apply IH. lia.
Qed.

Record filled (W : nat) (a b : Z) (m : mem) (o : nat) (c : cpu) : Prop := {
  fi_df : c.(df) = false;
  fi_rdi : c.(rdi) = a .+ Z.of_nat o;
  fi_rax w : (w <= W)%nat -> le_bytes w c.(rax) = replicate w b;
  fi_ram : c.(ram) = mem_write a (replicate o b) m
}.

Lemma stos_fills W a b m n o w c : 0 <= a < 2 ^ 64 -> a + Z.of_nat n <= 2 ^ 64 -> is_Some (mem_read a n m) ->
  filled W a b m o c -> (0 < w <= W)%nat -> (o + w <= n)%nat ->
  exists c', string_step (stos w) c = Some c' /\ filled W a b m (o + w) c' /\ c'.(rcx) = c.(rcx) /\ c'.(rdx) = c.(rdx).
Proof.
  intros Ha Hn Hm [E1 E2 E3 E4] Hw Ho. rewrite u64_small in E2 by lia.
  unfold string_step. rewrite E1, E2, E4, E3 by lia.
  rewrite store_bytes_mapped by (rewrite length_replicate; apply mapped_write, (mapped_sub a n); done || lia).
  cbn [mbind option_bind]. eexists. split; [reflexivity|]. destruct c. cbn [Asm.rax Asm.rdi Asm.ram Asm.df] in *. subst. split; [|done].
  constructor; cbn [Asm.rax Asm.rdi Asm.ram Asm.df set_reg set_ram]; [done|f_equal; lia|done|].
  pose proof (mem_write_app a (replicate o b) (replicate w b) m) as Ea. rewrite length_replicate in Ea. rewrite Ea.
  by rewrite <- replicate_add.
Qed.

Lemma filled_flags W a b m o c z sg v : filled W a b m o c -> filled W a b m o (set_flags z sg v c).
Proof. intros [? ? ? ?]. by constructor. Qed.

Lemma filled_rcx W a b m o c v : filled W a b m o c -> filled W a b m o (set_reg RCX v c).
Proof. intros [? ? ? ?]. destruct c. by constructor. Qed.

(** [memset] sets exactly [Count] bytes to the byte [C], whatever [Count] is modulo 8. *)
Lemma memset_spec fuel a C n c : 0 <= a < 2 ^ 64 -> a + Z.of_nat n <= 2 ^ 64 -> is_Some (mem_read a n c.(ram)) ->
  (n + 14 <= fuel)%nat -> Z.of_nat n < 2 ^ 63 ->
  exists c', memset fuel a C (Z.of_nat n) c = Some (a, c') /\ c'.(ram) = mem_write a (replicate n (u8 C)) c.(ram).
Proof.
  intros Ha Hb Hm Hf Hn. unfold memset. change memset_asm with (block_asm stos). pose proof (u8_range C) as HC.
  destruct (block_runs 8 stos n (filled 8 a (u8 C) c.(ram))) with
    (c := set_reg RAX (u8 C .* 0x0101010101010101) (set_reg RDX (u64 (Z.of_nat n))
      (set_reg RCX (u64 (Z.quot (Z.of_nat n) 8)) (set_reg RDI a c)))) as (c' & R & K).
  - intros. by apply filled_flags.
  - intros. by apply filled_rcx.
  - intros o w c1 K Hw Ho. by eapply stos_fills.
  - done.
  - assert (u8 C .* 0x0101010101010101 = bytes_of_word 8 (u8 C)) as -> by (rewrite u64_small; cbn; lia).
    constructor; destruct c; [done| | |done].
    + cbn. rewrite Z.add_0_r, u64_small; lia.
    + intros w Hw. by apply le_bytes_fill.
  - destruct c. cbn. apply u64_quot. lia.
  - destruct c. cbn. apply u64_small. lia.
  - lia.
  - erewrite reaches_run by (exact R || lia). exists c'. split; [done|]. by rewrite (fi_ram _ _ _ _ _ _ K).
Qed.

(** ** The copies to and from user memory *)

Lemma user_copy_runs fuel from to bs c : copyable from to bs c.(ram) -> c.(df) = false ->
  (length bs + 14 <= fuel)%nat -> Z.of_nat (length bs) < 2 ^ 63 ->
  exists c', user_copy fuel from to (Z.of_nat (length bs)) c = Some (0, c') /\ c'.(ram) = mem_write to bs c.(ram).
Proof.
  intros Hc Hdf Hf Hn. unfold user_copy. set (n := length bs) in *.
  pose proof (Z.div_pos (Z.of_nat n) 8 ltac:(lia) ltac:(lia)). pose proof (Z.div_lt_upper_bound (Z.of_nat n) 8 (2 ^ 63) ltac:(lia) ltac:(lia)).
  pose proof (Z.div_mod (Z.of_nat n) 8 ltac:(lia)). pose proof (Z.mod_pos_bound (Z.of_nat n) 8 ltac:(lia)).
  assert (Z.of_nat n .& 7 = Z.of_nat n `mod` 8) as E7 by (by apply (Z.land_ones _ 3)).
  set (c0 := set_reg RDX _ _).
  assert (forall o w c1, copied from to bs c.(ram) o c1 -> (0 < w <= 8)%nat -> (o + w <= n)%nat ->
    exists c', string_step (movs w) c1 = Some c' /\ copied from to bs c.(ram) (o + w) c' /\ c'.(rcx) = c1.(rcx) /\ c'.(rdx) = c1.(rdx)) as Hop
    by (intros o w c1 K Hw Ho; apply movs_copies; [done|done|lia|done]).
  destruct (rep_block 8 movs n (copied from to bs c.(ram)) (copied_rcx from to bs c.(ram)) Hop copy_asm 0 8
    (Z.to_nat (Z.of_nat n / 8)) 0 c0) as (c1 & R1 & K1 & _ & D1); [done|lia|apply copied_start; by destruct c| |lia|lia|].
  { destruct c. cbn. lia. }
  set (c2 := set_reg RCX c1.(rdx) c1).
  destruct (rep_block 8 movs n (copied from to bs c.(ram)) (copied_rcx from to bs c.(ram)) Hop copy_asm 2 1
    (Z.to_nat (Z.of_nat n mod 8)) (0 + 8 * Z.to_nat (Z.of_nat n / 8)) c2) as (c3 & R3 & K3 & E3 & _);
    [done|lia|by apply copied_rcx| |lia|lia|].
  { assert (c2.(rcx) = c1.(rdx)) as -> by (subst c2; by destruct c1). rewrite D1. subst c0. destruct c. cbn. rewrite E7. lia. }
  assert (reaches copy_asm (n + 14) (0%nat, c0) (3%nat, c3)) as R.
  { eapply (reaches_le _ (S (Z.to_nat (Z.of_nat n / 8)) + (1 + S (Z.to_nat (Z.of_nat n mod 8))))); [|lia].
    eapply reaches_trans; [exact R1|]. eapply reaches_trans; [eapply reaches_step; [reflexivity|apply reaches_refl]|exact R3]. }
  erewrite reaches_run by (exact R || lia). cbn [mbind option_bind]. exists c3. rewrite E3. split; [done|].
  rewrite (co_ram _ _ _ _ _ _ K3), take_ge; [done|]. fold n. lia.
Qed.

(** [copy_to_user] is the checked copy of [Bytes]: a range that does not end in user space is
    refused and nothing is copied, otherwise exactly [size] bytes are; the value returned is the
    counter of the string instruction, 0 in both cases. *)
Theorem copy_to_user_spec fuel from to bs c : c.(df) = false -> (length bs + 14 <= fuel)%nat -> Z.of_nat (length bs) < 2 ^ 63 ->
  (verify_area to (Z.of_nat (length bs)) = 1 -> copyable from to bs c.(ram)) ->
  exists c', copy_to_user fuel from to (Z.of_nat (length bs)) c = Some (snd (Bytes.copy_to_user bs to c.(ram)), c') /\
    c'.(ram) = fst (Bytes.copy_to_user bs to c.(ram)).
Proof.
  intros Hdf Hf Hn Hc. unfold copy_to_user, Bytes.copy_to_user. unfold verify_area in *.
  destruct (_ <=? TASK_SIZE); cbn [Z.eqb]; [|by exists c]. apply user_copy_runs; [by apply Hc|done..].
Qed.

(** [copy_from_user]: what [Bytes.copy_from_user] reads arrives at [to]. *)
Lemma copy_from_user_spec fuel from to bs c : c.(df) = false -> (length bs + 14 <= fuel)%nat -> Z.of_nat (length bs) < 2 ^ 63 ->
  (verify_area from (Z.of_nat (length bs)) = 1 -> copyable from to bs c.(ram)) ->
  exists r c', Bytes.copy_from_user from (Z.of_nat (length bs)) c.(ram) = Some (r, 0) /\
    copy_from_user fuel from to (Z.of_nat (length bs)) c = Some (0, c') /\
    c'.(ram) = match r with Some bs => mem_write to bs c.(ram) | None => c.(ram) end.
Proof.
  intros Hdf Hf Hn Hc. unfold copy_from_user, Bytes.copy_from_user. unfold verify_area in *.
  destruct (_ <=? TASK_SIZE); cbn [Z.eqb]; [|by exists None, c]. specialize (Hc eq_refl).
  rewrite Nat2Z.id, (cp_source _ _ _ _ Hc). cbn [mbind option_bind]. 
  destruct (user_copy_runs fuel from to bs c Hc Hdf Hf Hn) as (c' & E & Er). by exists (Some bs), c'.
Qed.

(** ** Copying strings *)

Lemma al_load a b : 0 <= b < 256 -> u8 (a / 256 * 256 + b) = b /\ le_bytes 1 (a / 256 * 256 + b) = [b].
Proof.
  intros Hb. unfold u8. change (2 ^ 8) with 256. cbn [le_bytes].
  rewrite Z.add_comm, Z_mod_plus_full, Z.mod_small by lia. done.
Qed.

(** [lodsb; stosb] moves one byte and leaves it in [al]. *)
Lemma char_copies from to bs m o c b : copyable from to bs m -> byte_list bs -> copied from to bs m o c -> bs !! o = Some b ->
  exists c1 c2, string_step lodsb c = Some c1 /\ string_step (stos 1) c1 = Some c2 /\ copied from to bs m (S o) c2 /\
    u8 c2.(rax) = b /\ le_bytes 1 c2.(rax) = [b] /\ c2.(rcx) = c.(rcx) /\ c2.(rdx) = c.(rdx).
Proof.
  intros Hc Hby K Hb. pose proof (lookup_lt_Some _ _ _ Hb) as Hl.
  destruct (copied_read from to bs m Hc o 1 c K ltac:(lia) ltac:(lia)) as (E1 & E2 & E3 & E4 & E5).
  rewrite (drop_S _ _ _ Hb) in E3, E5. cbn in E3. rewrite bind_Some in E3. destruct E3 as (x & Ex & E3). cbn in E3. simplify_eq.
  assert (0 <= b < 256) as Hx by (by eapply (Forall_lookup_1 _ _ _ _ Hby)).
  destruct (al_load c.(rax) b Hx) as [Ea El].
  destruct c as [ax cx d si di z sg o' df0 m0]. destruct K as [K1 K2 K3 K4].
  unfold string_step. cbn [set_reg set_ram rax rcx rdx rsi rdi zf sf ovf df ram] in *. rewrite Ex. cbn [mbind option_bind].
  eexists _, _. split; [reflexivity|]. cbn [set_reg set_ram rax rcx rdx rsi rdi zf sf ovf df ram]. rewrite El.
  rewrite store_bytes_mapped by exact E4. cbn [mbind option_bind]. split; [reflexivity|].
  cbn [set_reg set_ram rax rcx rdx rsi rdi zf sf ovf df ram]. split_and!; try done. subst.
  constructor; cbn [set_reg set_ram rax rcx rdx rsi rdi zf sf ovf df ram]; [done|f_equal; lia|f_equal; lia|].
  rewrite <- Nat.add_1_r. exact E5.
Qed.

(** The loop of [strcpy] and [strcat], at its label. *)
Lemma copy_loop code pc l from to s m o c : copyable from to (s ++ [0]) m -> byte_list s -> no_nul s ->
  code !! pc = Some (Label l) -> code !! S pc = Some (str lodsb) -> code !! S (S pc) = Some (str (stos 1)) ->
  code !! S (S (S pc)) = Some testb_al -> code !! S (S (S (S pc))) = Some (jne (B l)) ->
  goto (B l) (S (S (S (S pc)))) code = Some pc ->
  copied from to (s ++ [0]) m o c -> (o <= length s)%nat ->
  exists c', reaches code (5 * (length s + 1 - o)) (pc, c) ((5 + pc)%nat, c') /\ copied from to (s ++ [0]) m (length s + 1) c'.
Proof.
  intros Hc Hby Hnn H0 H1 H2 H3 H4 Hg K Ho. remember (length s - o)%nat as k eqn:Hk. revert o c K Ho Hk.
  assert (byte_list (s ++ [0])) as Hby' by (apply Forall_app; split; [done|by constructor]).
  induction k as [|k IH]; intros o c K Ho Hk.
  - assert ((s ++ [0]) !! o = Some 0) as Hb by (replace o with (length s) by lia; by apply list_lookup_middle).
    destruct (char_copies _ _ _ _ _ _ _ Hc Hby' K Hb) as (c1 & c2 & E1 & E2 & K2 & Ea & _).
    exists (set_flags true false false c2). replace (length s + 1)%nat with (S o) by lia. split; [|by apply copied_flags].
    replace (5 * (S o - o))%nat with 5%nat by lia.
    eapply reaches_step; [unfold step; by rewrite H0|]. eapply reaches_step; [unfold step; rewrite H1; cbn [mbind option_bind]; by rewrite E1|].
    eapply reaches_step; [unfold step; rewrite H2; cbn [mbind option_bind]; by rewrite E2|].
    eapply reaches_step; [unfold step; rewrite H3; cbn [mbind option_bind]; rewrite Ea; reflexivity|].
    eapply reaches_step; [unfold step; rewrite H4; reflexivity|apply reaches_refl].
  - destruct (lookup_lt_is_Some_2 s o ltac:(lia)) as [b Hb0].
    assert ((s ++ [0]) !! o = Some b) as Hb by (rewrite lookup_app_l by lia; done).
    assert (b <> 0) as Hbn by (by eapply (Forall_lookup_1 _ _ _ _ Hnn)).
    destruct (char_copies _ _ _ _ _ _ _ Hc Hby' K Hb) as (c1 & c2 & E1 & E2 & K2 & Ea & _).
    set (c3 := set_flags false (128 <=? b) false c2).
    destruct (IH (S o) c3) as (c' & R & K'); [by apply copied_flags|lia|lia|].
    exists c'. split; [|done]. replace (5 * (length s + 1 - o))%nat with (5 + (5 * (length s + 1 - S o)))%nat by lia.
    eapply reaches_step; [unfold step; by rewrite H0|]. eapply reaches_step; [unfold step; rewrite H1; cbn [mbind option_bind]; by rewrite E1|].
    eapply reaches_step; [unfold step; rewrite H2; cbn [mbind option_bind]; by rewrite E2|].
    eapply reaches_step; [unfold step; rewrite H3; cbn [mbind option_bind]; rewrite Ea; rewrite (proj2 (Z.eqb_neq b 0) Hbn); reflexivity|].
    eapply reaches_step; [unfold step; rewrite H4; cbn [mbind option_bind zf set_flags negb]; rewrite Hg; reflexivity|].
    exact R.
Qed.

(** A C string in memory. *)
Definition string_at (a : Z) (s : list Z) (m : mem) : Prop :=
  mem_read a (length s + 1) m = Some (s ++ [0]) /\ byte_list s /\ no_nul s.

(** [strcpy]: the string with its terminator. *)
Lemma strcpy_spec fuel dest src s c : copyable src dest (s ++ [0]) c.(ram) -> byte_list s -> no_nul s ->
  (5 * length s + 6 <= fuel)%nat ->
  exists c', strcpy fuel dest src c = Some (dest, c') /\ c'.(ram) = mem_write dest (s ++ [0]) c.(ram).
Proof.
  intros Hc Hby Hnn Hf. unfold strcpy. set (c0 := set_reg RSI src (set_reg RDI dest c)).
  destruct (copy_loop strcpy_asm 1 1 src dest s c.(ram) 0 (set_df false c0)) as (c' & R & K); try done; [|lia|].
  { apply copied_start; by destruct c. }
  erewrite (reaches_run strcpy_asm (1 + 5 * (length s + 1 - 0))) by
    ((eapply reaches_trans; [eapply reaches_step; [reflexivity|apply reaches_refl]|exact R]) || lia).
  exists c'. split; [done|]. rewrite (co_ram _ _ _ _ _ _ K), take_ge; [done|]. rewrite length_app. cbn. lia.
Qed.

Lemma mem_read_lookup a n m bs i : mem_read a n m = Some bs -> (i < n)%nat -> m !! (a + Z.of_nat i) = bs !! i.
Proof.
  revert a bs i. induction n as [|n IH]; intros a bs i H Hi; [lia|]. cbn in H. inv_fault.
  destruct i as [|i]; [by rewrite Z.add_0_r|]. replace (a + Z.of_nat (S i)) with (a + 1 + Z.of_nat i) by lia.
  change ((x :: x0) !! S i) with (x0 !! i). apply IH; [done|lia].
Qed.

Lemma string_at_char a s m o : string_at a s m -> (o <= length s)%nat ->
  exists b, m !! (a + Z.of_nat o) = Some b /\ 0 <= b < 256 /\ (s ++ [0]) !! o = Some b /\ (b = 0 <-> o = length s).
Proof.
  intros (Hm & Hb & Hn) Ho. rewrite (mem_read_lookup _ _ _ _ o Hm) by lia.
  destruct (decide (o = length s)) as [->|Hne].
  - exists 0. rewrite list_lookup_middle by done. split_and!; done || lia.
  - destruct (lookup_lt_is_Some_2 s o ltac:(lia)) as [b E]. exists b. rewrite lookup_app_l, E by lia.
    pose proof (Forall_lookup_1 _ _ _ _ Hb E) as H1. pose proof (Forall_lookup_1 _ _ _ _ Hn E) as H2. cbn in H1, H2.
    split_and!; done || lia.
Qed.

(** [repne scasb] with [al] = 0 finds the end of the string; [R] is the counter before it. *)
Lemma scan_end code pc a s R o c : string_at a s c.(ram) -> 0 <= a -> a + Z.of_nat (length s) + 1 <= 2 ^ 64 ->
  code !! pc = Some (repne scasb) -> c.(df) = false -> u8 c.(rax) = 0 -> (o <= length s)%nat ->
  c.(rdi) = a + Z.of_nat o -> c.(rcx) = R - Z.of_nat o -> Z.of_nat (length s) < R < 2 ^ 64 ->
  exists c', reaches code (length s + 1 - o) (pc, c) (S pc, c') /\ c'.(ram) = c.(ram) /\ c'.(df) = false /\
    c'.(rax) = c.(rax) /\ c'.(rdx) = c.(rdx) /\ c'.(rsi) = c.(rsi) /\
    c'.(rdi) = u64 (a + Z.of_nat (length s) + 1) /\ c'.(rcx) = R - Z.of_nat (length s) - 1.
Proof.
  intros Hs Ha Hb Hpc Hdf Hal. remember (length s - o)%nat as k eqn:Hk. revert o c Hs Hdf Hal Hk.
  induction k as [|k IH]; intros o c Hs Hdf Hal Hk Ho Hdi Hcx HR;
    destruct (string_at_char a s _ o Hs Ho) as (b & Eb & Hbb & _ & Hb0).
  - assert (b = 0) as -> by (apply Hb0; lia). eexists. split.
    + replace (length s + 1 - o)%nat with 1%nat by lia. eapply reaches_step; [|apply reaches_refl].
      unfold step. rewrite Hpc. cbn [mbind option_bind]. rewrite (proj2 (Z.eqb_neq _ _)) by lia.
      unfold string_step. rewrite Hdi, Eb, Hal, Hdf. cbn [mbind option_bind]. cbn. reflexivity.
    + destruct c. cbn in *. subst. split_and!; try done.
      * f_equal. lia.
      * rewrite u64_small; lia.
  - assert (b <> 0) as Hbn by (intros ->; assert (o = length s) by (by apply Hb0); lia).
    set (c1 := set_reg RCX (c.(rcx) .- 1) (set_reg RDI (c.(rdi) .+ 1) (compare_flags 0 b c))).
    destruct (IH (S o) c1) as (c' & R' & E1 & E2 & E3 & E4 & E5 & E6 & E7); subst c1; destruct c; cbn in *; subst; try done.
    + lia.
    + lia.
    + rewrite u64_small; lia.
    + rewrite u64_small; lia.
    + exists c'. split; [|done]. replace (length s + 1 - o)%nat with (S (length s + 1 - S o)) by lia.
      eapply reaches_step; [|exact R']. unfold step. rewrite Hpc. cbn [mbind option_bind Asm.rcx].
      rewrite (proj2 (Z.eqb_neq _ _)) by lia. unfold string_step. cbn [Asm.rdi Asm.ram]. rewrite Eb. cbn [mbind option_bind].
      cbn. rewrite Hal. cbn. destruct b; done.
Qed.

(** [strlen] counts the bytes before the terminator of every string shorter than 2^31. *)
Lemma strlen_spec fuel a s c : string_at a s c.(ram) -> 0 <= a -> a + Z.of_nat (length s) + 1 <= 2 ^ 64 ->
  Z.of_nat (length s) < 2 ^ 31 -> (length s + 5 <= fuel)%nat ->
  exists c', strlen fuel a c = Some (Z.of_nat (length s), c') /\ c'.(ram) = c.(ram).
Proof.
  intros Hs Ha Hb Hl Hf. unfold strlen. set (c0 := set_reg RDI a _).
  destruct (scan_end strlen_asm 1 a s 0xffffffff 0 (set_df false c0)) as (c1 & R & E1 & E2 & E3 & E4 & E5 & E6 & E7);
    try (subst c0; destruct c; done); try (subst c0; destruct c; cbn; lia).
  assert (u32 (u32 (Z.lnot c1.(rcx)) - 1) = Z.of_nat (length s)) as Ec.
  { rewrite E7. assert (u32 (Z.lnot (0xffffffff - Z.of_nat (length s) - 1)) = Z.of_nat (length s) + 1) as ->.
    { unfold u32, Z.lnot. replace (Z.pred _) with (Z.of_nat (length s) + 1 + (-1) * 2 ^ 32) by lia.
      rewrite Z_mod_plus_full, Z.mod_small; lia. }
    rewrite u32_small; lia. }
  erewrite (reaches_run strlen_asm (1 + ((length s + 1 - 0) + 2))) by
    ((eapply reaches_trans; [eapply reaches_step; [reflexivity|apply reaches_refl]|eapply reaches_trans; [exact R|]];
      eapply reaches_step; [reflexivity|]; eapply reaches_step; [reflexivity|apply reaches_refl]) || lia).
  eexists. split.
  - cbn [mbind option_bind]. f_equal. f_equal.
    replace (rcx _) with (u32 (u32 (Z.lnot c1.(rcx)) - 1)) by (by destruct c1). rewrite Ec. apply i32_small. lia.
  - destruct c1. cbn in *. rewrite E1. subst c0. by destruct c.
Qed.

(** [strcat]: the string with its terminator, behind the string at [Dest]. *)
Lemma strcat_spec fuel dest src d s c : string_at dest d c.(ram) -> 0 <= dest ->
  copyable src (dest + Z.of_nat (length d)) (s ++ [0]) c.(ram) -> byte_list s -> no_nul s ->
  Z.of_nat (length d) < 0xffffffff -> (length d + 5 * length s + 9 <= fuel)%nat ->
  exists c', strcat fuel dest src c = Some (dest, c') /\
    c'.(ram) = mem_write (dest + Z.of_nat (length d)) (s ++ [0]) c.(ram).
Proof.
  intros Hd Hd0 Hc Hby Hnn Hl Hf. unfold strcat. set (c0 := set_reg RSI src _).
  pose proof (cp_to _ _ _ _ Hc) as [Ht1 Ht2]. rewrite length_app in Ht2. cbn in Ht2.
  destruct (scan_end strcat_asm 1 dest d 0xffffffff 0 (set_df false c0)) as (c1 & R & E1 & E2 & E3 & E4 & E5 & E6 & E7);
    try (subst c0; destruct c; done); try (subst c0; destruct c; cbn; lia).
  set (v := c1.(rdi) .- 1).
  set (c2 := set_reg RDI v (set_flags (v =? 0) (2 ^ 63 <=? v) (v =? 2 ^ 63 - 1) c1)).
  destruct (copy_loop strcat_asm 3 1 src (dest + Z.of_nat (length d)) s c.(ram) 0 c2) as (c' & R' & K); try done; [|lia|].
  { apply copied_start; [done|subst c2; by destruct c1| | |]; subst c2; destruct c1; cbn in *.
    - rewrite E5. subst c0. by destruct c.
    - subst v. cbn. rewrite E6, u64_sub_l, u64_small; lia.
    - rewrite E1. subst c0. by destruct c. }
  erewrite (reaches_run strcat_asm (1 + ((length d + 1 - 0) + (1 + 5 * (length s + 1 - 0))))) by
    ((eapply reaches_trans; [eapply reaches_step; [reflexivity|apply reaches_refl]|eapply reaches_trans; [exact R|]];
      eapply reaches_trans; [eapply reaches_step; [reflexivity|apply reaches_refl]|exact R']) || lia).
  exists c'. split; [done|]. rewrite (co_ram _ _ _ _ _ _ K), take_ge; [done|]. rewrite length_app. cbn. lia.
Qed.

(** ** Comparing strings *)

Definition first_char (s : list Z) : Z := default 0 (head s).

Lemma string_at_head a s m : string_at a s m -> m !! a = Some (first_char s) /\ 0 <= first_char s < 256 /\
  (first_char s = 0 -> s = []) /\ (s <> [] -> string_at (a + 1) (tail s) m).
Proof.
  intros H. destruct (string_at_char a s m 0 H ltac:(lia)) as (b & E & Hb & El & H0). rewrite Z.add_0_r in E.
  assert (b = first_char s) as -> by (destruct s; cbn in El; by simplify_eq).
  split_and!; [done|lia|lia| |].
  - intros E0. apply H0 in E0. by destruct s.
  - intros Hs. destruct s as [|x s]; [done|]. destruct H as (H1 & H2 & H3).
    apply Forall_cons in H2 as [_ H2]. apply Forall_cons in H3 as [_ H3]. cbn in H1. inv_fault. by split_and!.
Qed.

(** [lodsb; scasb]. *)
Lemma chars_compared c x y : c.(ram) !! c.(rdi) = Some x -> c.(ram) !! c.(rsi) = Some y -> 0 <= x < 256 -> 0 <= y < 256 ->
  c.(df) = false -> exists c1 c2, string_step lodsb c = Some c1 /\ string_step scasb c1 = Some c2 /\
    c2.(rdi) = c.(rdi) .+ 1 /\ c2.(rsi) = c.(rsi) .+ 1 /\ u8 c2.(rax) = y /\ c2.(ram) = c.(ram) /\ c2.(df) = false /\
    c2.(zf) = (y =? x) /\ xorb c2.(sf) c2.(ovf) = (i8 y <? i8 x) /\ c2.(rcx) = c.(rcx).
Proof.
  intros Hx Hy Rx Ry Hdf. destruct (al_load c.(rax) y Ry) as [Ea _]. destruct c as [ax cx d si di z sg o' df0 m0].
  unfold string_step. cbn [set_reg rax rcx rdx rsi rdi zf sf ovf df ram] in *. rewrite Hy. cbn [mbind option_bind].
  eexists _, _. split; [reflexivity|]. cbn [rdi ram rax df set_reg]. rewrite Hx. cbn [mbind option_bind]. split; [reflexivity|].
  rewrite Ea. subst df0. cbn [compare_flags set_flags set_reg rax rcx rdx rsi rdi zf sf ovf df ram].
  split_and!; try done. by apply compare_less.
Qed.

(** The end of [strcmp], [strncmp] and [memcmp]: the value from the flags. *)
Lemma sign_of_flags code pc l c b : code !! pc = Some (movl 1 RAX) -> code !! S pc = Some (jl (F l)) ->
  code !! S (S pc) = Some (negl RAX) -> code !! S (S (S pc)) = Some (Label l) -> goto (F l) (S pc) code = Some (3 + pc)%nat ->
  xorb c.(sf) c.(ovf) = b ->
  exists c', reaches code 4 (pc, c) ((4 + pc)%nat, c') /\ i32 c'.(rax) = (if b then 1 else -1) /\ c'.(ram) = c.(ram).
Proof.
  intros H0 H1 H2 H3 Hg Hb. set (c1 := set_reg RAX 1 c).
  assert (step code (pc, c) = Some (S pc, c1)) as E0 by (unfold step; by rewrite H0).
  assert (c1.(sf) = c.(sf) /\ c1.(ovf) = c.(ovf) /\ c1.(rax) = 1 /\ c1.(ram) = c.(ram)) as (Es & Eo & Ea & Er) by (by destruct c).
  assert (forall c, step code ((3 + pc)%nat, c) = Some ((4 + pc)%nat, c)) as E3 by (intros; unfold step; cbn [Nat.add] in *; by rewrite H3).
  destruct b.
  - exists c1. split; [|by rewrite Ea]. eapply reaches_step; [exact E0|]. eapply reaches_step.
    { unfold step. rewrite H1. cbn [mbind option_bind]. rewrite Es, Eo, Hb, Hg. reflexivity. }
    eapply reaches_step; [apply E3|apply reaches_refl].
  - exists (set_reg RAX (2 ^ 32 - 1) (set_flags false true false c1)).
    split; [|split; [by destruct c1|rewrite <- Er; by destruct c1]].
    eapply reaches_step; [exact E0|]. eapply reaches_step; [unfold step; rewrite H1; cbn [mbind option_bind]; rewrite Es, Eo, Hb; reflexivity|].
    eapply reaches_step; [unfold step; rewrite H2; cbn [mbind option_bind get_reg]; rewrite Ea; reflexivity|].
    eapply reaches_step; [apply E3|apply reaches_refl].
Qed.

(** One step of concrete code; what the step depends on is among the hypotheses. *)
Ltac flag_by := cbn [zf sf ovf set_flags negb];
  first [reflexivity|match goal with H : ?x = ?v |- context [?x] => rewrite H; reflexivity end].
Ltac taken_by := unfold taken;
  first [left; split; [reflexivity|flag_by]
        |right; left; split; [reflexivity|flag_by]
        |right; right; left; split; [reflexivity|flag_by]
        |right; right; right; left; split; [reflexivity|flag_by]
        |right; right; right; right; split; reflexivity].
Ltac run_step :=
  eapply reaches_step;
  [first [eapply step_str; [reflexivity|eassumption]
         |eapply step_test_al; [reflexivity|eassumption]
         |eapply step_untaken; [reflexivity|taken_by]
         |eapply step_taken; [reflexivity|taken_by|reflexivity]
         |reflexivity]|].

Lemma strcmp_head f g : Shell.strcmp f g =
  if negb (i8 (first_char g) =? i8 (first_char f)) then if i8 (first_char g) <? i8 (first_char f) then 1 else -1
  else match f, g with _ :: f, _ :: g => Shell.strcmp f g | _, _ => 0 end.
Proof. by destruct f, g. Qed.

Lemma i8_eq x y : 0 <= x < 256 -> 0 <= y < 256 -> (i8 x =? i8 y) = (x =? y).
Proof.
  intros Hx Hy. destruct (Z.eqb_spec x y) as [->|Hne]; [apply Z.eqb_refl|]. apply Z.eqb_neq. intros E. apply Hne. by apply i8_inj.
Qed.

Lemma strcmp_loop f : forall a b g c, string_at a f c.(ram) -> string_at b g c.(ram) -> 0 <= a -> 0 <= b ->
  a + Z.of_nat (length f) + 1 <= 2 ^ 64 -> b + Z.of_nat (length g) + 1 <= 2 ^ 64 -> c.(df) = false -> c.(rdi) = a -> c.(rsi) = b ->
  exists c', reaches strcmp_asm (6 * length f + 12) (1%nat, c) (length strcmp_asm, c') /\
    i32 c'.(rax) = Shell.strcmp f g /\ c'.(ram) = c.(ram).
Proof.
  induction f as [|x0 f IH]; intros a b g c Hf Hg Ha Hb Ea Eb Hdf Hdi Hsi;
    destruct (string_at_head _ _ _ Hf) as (Hx & Rx & Nx & Tx), (string_at_head _ _ _ Hg) as (Hy & Ry & Ny & Ty);
    rewrite <- Hdi in Hx; rewrite <- Hsi in Hy;
    destruct (chars_compared c _ _ Hx Hy Rx Ry Hdf) as (c1 & c2 & E1 & E2 & F1 & F2 & F3 & F4 & F5 & F6 & F7 & F8);
    rewrite strcmp_head, i8_eq by done.
  all: destruct (first_char g =? _) eqn:Exy in F6 |- *; cbn [negb].
  2,4: destruct (sign_of_flags strcmp_asm 10 3 c2 _ eq_refl eq_refl eq_refl eq_refl eq_refl F7) as (c3 & R & Ex & Er);
    exists c3; split; [|by rewrite Ex, Er]; eapply (reaches_le _ (1 + (1 + (1 + (1 + (1 + 4)))))); [|lia];
    cbn [Nat.add]; run_step; run_step; run_step; run_step; run_step; exact R.
  - apply Z.eqb_eq in Exy. change (first_char []) with 0 in *. rewrite Exy in *.
    eexists. split; [eapply (reaches_le _ 9); [|lia]; do 9 run_step; apply reaches_refl|]. rewrite <- F4. by destruct c2.
  - apply Z.eqb_eq in Exy. change (first_char (x0 :: f)) with x0 in *.
    assert (x0 <> 0) as Hne by (intros H0; specialize (Nx H0); done). rewrite Exy in *.
    destruct g as [|y0 g]; [by change (first_char []) with 0 in Exy|]. change (first_char (y0 :: g)) with y0 in Exy. subst y0.
    specialize (Tx ltac:(done)). specialize (Ty ltac:(done)). cbn [tail length] in *.
    apply Z.eqb_neq in Hne. set (c3 := set_flags (x0 =? 0) (128 <=? x0) false c2).
    assert (c3.(ram) = c.(ram)) as Er by exact F4.
    destruct (IH (a + 1) (b + 1) g c3) as (c' & R & E & Er'); rewrite ?Er; try done; try lia.
    { cbn. rewrite F1, Hdi. apply u64_small. lia. }
    { cbn. rewrite F2, Hsi. apply u64_small. lia. }
    exists c'. rewrite Er', Er in *. split; [|done]. eapply (reaches_le _ (6 + (6 * length f + 12))); [|lia].
    cbn [Nat.add]. do 6 run_step. exact R.
Qed.

(** C20. [strcmp] is the comparison of strings of signed characters that the shell is verified with:
    0 for equal strings, 1 when the first is greater, -1 when it is less. *)
Theorem strcmp_spec fuel a b f g c : string_at a f c.(ram) -> string_at b g c.(ram) -> 0 <= a -> 0 <= b ->
  a + Z.of_nat (length f) + 1 <= 2 ^ 64 -> b + Z.of_nat (length g) + 1 <= 2 ^ 64 -> (6 * length f + 13 <= fuel)%nat ->
  exists c', strcmp fuel a b c = Some (Shell.strcmp f g, c') /\ c'.(ram) = c.(ram).
Proof.
  intros Hf Hg Ha Hb Ea Eb Hfuel. unfold strcmp. set (c0 := set_reg RDI a (set_reg RSI b c)).
  assert ((set_df false c0).(ram) = c.(ram)) as E0 by (by destruct c).
  destruct (strcmp_loop f a b g (set_df false c0)) as (c' & R & E & Er); rewrite ?E0; try done; [by destruct c..|].
  exists c'. erewrite (reaches_run strcmp_asm (1 + (6 * length f + 12))) by
    ((eapply reaches_trans; [eapply reaches_step; [reflexivity|apply reaches_refl]|exact R]) || lia).
  cbn [mbind option_bind]. by rewrite E, Er, E0.
Qed.

(** [decq] of the counter and the test of [js]. *)
Lemma count_down code pc c k : code !! pc = Some (decq RCX) -> c.(rcx) = Z.of_nat k -> Z.of_nat k < 2 ^ 63 ->
  exists z o, step code (pc, c) =
    Some (S pc, set_reg RCX (Z.of_nat k .- 1) (set_flags z (bool_decide (k = O)) o c)).
Proof.
  intros H E Hk. unfold step. rewrite H. cbn [mbind option_bind get_reg]. rewrite E.
  assert ((2 ^ 63 <=? Z.of_nat k .- 1) = bool_decide (k = O)) as ->; [|by eexists _, _].
  destruct k as [|k]; [done|]. rewrite bool_decide_false by done. apply Z.leb_gt. rewrite u64_small; lia.
Qed.

Lemma strncmp_loop n : forall f g a b c, string_at a f c.(ram) -> string_at b g c.(ram) -> 0 <= a -> 0 <= b ->
  a + Z.of_nat (length f) + 1 <= 2 ^ 64 -> b + Z.of_nat (length g) + 1 <= 2 ^ 64 -> c.(df) = false -> c.(rdi) = a -> c.(rsi) = b ->
  c.(rcx) = Z.of_nat n -> Z.of_nat n < 2 ^ 63 ->
  exists c', reaches strncmp_asm (8 * length f + 14) (1%nat, c) (length strncmp_asm, c') /\
    i32 c'.(rax) = Shell.strcmp (take n f) (take n g) /\ c'.(ram) = c.(ram).
Proof.
  induction n as [|n IH]; intros f g a b c Hf Hg Ha Hb Ea Eb Hdf Hdi Hsi Hcx Hn;
    destruct (count_down strncmp_asm 2 c _ eq_refl Hcx Hn) as (z & o & Ed).
  - set (c1 := set_reg RCX _ _) in Ed. assert (c1.(sf) = true) as Hs by (by destruct c).
    eexists. split; [eapply (reaches_le _ 8); [|lia]; run_step; eapply reaches_step; [exact Ed|]; do 5 run_step; apply reaches_refl|].
    subst c1. by destruct c.
  - set (c1 := set_reg RCX _ _) in Ed. assert (c1.(sf) = false) as Hs by (by destruct c).
    assert (c1.(ram) = c.(ram) /\ c1.(df) = false /\ c1.(rdi) = a /\ c1.(rsi) = b /\ c1.(rcx) = Z.of_nat n) as (Er & Hdf1 & Hdi1 & Hsi1 & Hcx1).
    { subst c1. destruct c. cbn in *. split_and!; try done. rewrite u64_small; lia. }
    clearbody c1. rewrite <- Er in Hf, Hg |- *.
    destruct (string_at_head _ _ _ Hf) as (Hx & Rx & Nx & Tx), (string_at_head _ _ _ Hg) as (Hy & Ry & Ny & Ty).
    rewrite <- Hdi1 in Hx. rewrite <- Hsi1 in Hy.
    destruct (chars_compared c1 _ _ Hx Hy Rx Ry Hdf1) as (c2 & c3 & E1 & E2 & F1 & F2 & F3 & F4 & F5 & F6 & F7 & F8).
    rewrite strcmp_head. assert (forall l, first_char (take (S n) l) = first_char l) as Et by (by intros []).
    rewrite !Et, i8_eq by done. destruct (first_char g =? first_char f) eqn:Exy; cbn [negb].
    + apply Z.eqb_eq in Exy. destruct f as [|x f].
      * change (first_char []) with 0 in *. rewrite Exy in *.
        eexists. split; [eapply (reaches_le _ 12); [|lia]; run_step; eapply reaches_step; [exact Ed|]; do 10 run_step; apply reaches_refl|].
        rewrite <- F4. by destruct c3.
      * assert (first_char (x :: f) <> 0) as Hne by (intros H0; specialize (Nx H0); done).
        destruct g as [|y g]; [by change (first_char []) with 0 in *|]. change (first_char (y :: g)) with y in *.
        change (first_char (x :: f)) with x in *. subst y.
        specialize (Tx ltac:(done)). specialize (Ty ltac:(done)). cbn [tail length take] in *.
        apply Z.eqb_neq in Hne. set (c4 := set_flags (x =? 0) (128 <=? x) false c3).
        assert (c4.(ram) = c1.(ram)) as Er4 by exact F4.
        destruct (IH f g (a + 1) (b + 1) c4) as (c' & R & E & Er'); rewrite ?Er4; try done; try lia.
        { cbn. rewrite F1, Hdi1. apply u64_small. lia. }
        { cbn. rewrite F2, Hsi1. apply u64_small. lia. }
        { cbn. by rewrite F8. }
        exists c'. rewrite Er', Er4. split; [|done]. eapply (reaches_le _ (8 + (8 * length f + 14))); [|lia].
        cbn [Nat.add]. run_step. eapply reaches_step; [exact Ed|]. do 6 run_step. exact R.
    + destruct (sign_of_flags strncmp_asm 13 4 c3 _ eq_refl eq_refl eq_refl eq_refl eq_refl F7) as (c4 & R & Ex & Er4).
      exists c4. split; [|by rewrite Ex, Er4]. eapply (reaches_le _ (1 + (1 + (1 + (1 + (1 + (1 + (1 + 4)))))))); [|lia].
      cbn [Nat.add]. run_step. eapply reaches_step; [exact Ed|]. do 5 run_step. exact R.
Qed.

(** [strncmp] compares the first [Count] characters. *)
Lemma strncmp_spec fuel a b f g n c : string_at a f c.(ram) -> string_at b g c.(ram) -> 0 <= a -> 0 <= b ->
  a + Z.of_nat (length f) + 1 <= 2 ^ 64 -> b + Z.of_nat (length g) + 1 <= 2 ^ 64 -> Z.of_nat n < 2 ^ 63 ->
  (8 * length f + 15 <= fuel)%nat ->
  exists c', strncmp fuel a b (Z.of_nat n) c = Some (Shell.strcmp (take n f) (take n g), c') /\ c'.(ram) = c.(ram).
Proof.
  intros Hf Hg Ha Hb Ea Eb Hn Hfuel. unfold strncmp. set (c0 := set_reg RDI a _).
  assert ((set_df false c0).(ram) = c.(ram)) as E0 by (by destruct c).
  destruct (strncmp_loop n f g a b (set_df false c0)) as (c' & R & E & Er); rewrite ?E0; try done; try (by destruct c).
  { destruct c. cbn. apply u64_small. lia. }
  exists c'. erewrite (reaches_run strncmp_asm (1 + (8 * length f + 14))) by
    ((eapply reaches_trans; [eapply reaches_step; [reflexivity|apply reaches_refl]|exact R]) || lia).
  cbn [mbind option_bind]. by rewrite E, Er, E0.
Qed.

(** ** [strncpy] *)

(** What of the source is read: up to the terminator, and no more than [n] bytes. *)
Definition strncpy_source (n : nat) (s : list Z) : list Z := take n (s ++ [0]).

Lemma strncpy_loop from to s n m o c : copyable from to (strncpy_source n s) m -> byte_list s -> no_nul s ->
  is_Some (mem_read to n m) -> to + Z.of_nat n <= 2 ^ 64 -> Z.of_nat n < 2 ^ 63 ->
  copied from to (strncpy_source n s) m o c -> (o <= n)%nat -> (o <= length s)%nat -> c.(rcx) = Z.of_nat (n - o) ->
  exists c', reaches strncpy_asm (7 * (length s - o) + (n - o) + 12) (1%nat, c) (length strncpy_asm, c') /\
    c'.(ram) = mem_write to (take n (s ++ replicate n 0)) m.
Proof.
  intros Hc Hby Hnn Hm Hn Hn3 K Hon. remember (length s - o)%nat as k eqn:Hk. revert o c K Hon Hk.
  assert (byte_list (strncpy_source n s)) as Hby' by (apply Forall_take, Forall_app; split; [done|by constructor]).
  induction k as [|k IH]; intros o c K Hon Hk Ho Hcx;
    destruct (count_down strncpy_asm 2 c (n - o) eq_refl Hcx ltac:(lia)) as (z & v & Ed); set (c1 := set_reg RCX _ _) in Ed;
    assert (copied from to (strncpy_source n s) m o c1) as K1 by (by apply copied_rcx, copied_flags);
    assert (c1.(rcx) = Z.of_nat (n - o) .- 1 /\ c1.(sf) = bool_decide ((n - o)%nat = O)) as [Hcx1 Hs] by (by destruct c);
    clearbody c1; (destruct (decide (n = o)) as [Heq|Hne];
      [rewrite bool_decide_true in Hs by lia|rewrite bool_decide_false in Hs by lia; rewrite u64_small in Hcx1 by lia]).
  1,3: exists c1; split; [eapply (reaches_le _ 4); [|lia]; run_step; eapply reaches_step; [exact Ed|]; do 2 run_step; apply reaches_refl|];
    rewrite (co_ram _ _ _ _ _ _ K1); subst o; unfold strncpy_source; rewrite take_take, Nat.min_id, !take_app_le by lia; done.
  - assert (strncpy_source n s !! o = Some 0) as Hb.
    { unfold strncpy_source. rewrite lookup_take_lt by lia. replace o with (length s) by lia. by apply list_lookup_middle. }
    destruct (char_copies _ _ _ _ _ _ _ Hc Hby' K1 Hb) as (c2 & c3 & E1 & E2 & K3 & Ea & El & Ec & _).
    set (c4 := set_flags true false false c3).
    assert (strncpy_source n s = s ++ [0]) as Es by (apply take_ge; rewrite length_app; cbn; lia).
    pose proof (cp_to _ _ _ _ Hc) as [Ht _].
    destruct (rep_block 1 stos (n - S o) (filled 1 (to + Z.of_nat (S o)) 0 c4.(ram))) with (code := strncpy_asm)
      (pc := 8%nat) (w := 1%nat) (k := (n - S o)%nat) (o := O) (c := c4) as (c5 & R & K5 & _).
    + intros. by apply filled_rcx.
    + intros o' w c' K' Hw Ho'. eapply (stos_fills 1 _ _ _ (n - S o)); try done; [|lia|].
      * destruct (decide (to + Z.of_nat (S o) < 2 ^ 64)); [lia|]. exfalso. lia.
      * change (ram c4) with (ram c3). rewrite (co_ram _ _ _ _ _ _ K3). apply mapped_write, (mapped_sub to n); [done|lia|lia].
    + done.
    + lia.
    + constructor; [by apply K3| | |done].
      * rewrite Z.add_0_r. apply K3.
      * intros w Hw. destruct w as [|[|w]]; [done|exact El|lia].
    + cbn. rewrite Ec. lia.
    + lia.
    + lia.
    + exists c5. split.
      * eapply (reaches_le _ (7 + (S (n - S o) + 1))); [|lia].
        eapply reaches_trans; [|eapply reaches_trans; [exact R|run_step; apply reaches_refl]].
        run_step. eapply reaches_step; [exact Ed|]. do 5 run_step. apply reaches_refl.
      * rewrite (fi_ram _ _ _ _ _ _ K5). change (ram c4) with (ram c3). rewrite (co_ram _ _ _ _ _ _ K3), Es.
        rewrite take_ge by (rewrite length_app; cbn; lia). replace (S o) with (length (s ++ [0])) by (rewrite length_app; cbn; lia).
        rewrite mem_write_app. f_equal. rewrite take_app_ge by lia. rewrite <- app_assoc. f_equal.
        rewrite take_replicate, Nat.min_l by lia. cbn. rewrite length_app. cbn.
        replace (n - length s)%nat with (S (n - (length s + 1))) by lia. cbn. do 2 f_equal. lia.
  - destruct (lookup_lt_is_Some_2 s o ltac:(lia)) as [b Hb0].
    assert (strncpy_source n s !! o = Some b) as Hb.
    { unfold strncpy_source. rewrite lookup_take_lt by lia. rewrite lookup_app_l by lia. done. }
    assert (b <> 0) as Hbn%Z.eqb_neq by (by eapply (Forall_lookup_1 _ _ _ _ Hnn)).
    destruct (char_copies _ _ _ _ _ _ _ Hc Hby' K1 Hb) as (c2 & c3 & E1 & E2 & K3 & Ea & _ & Ec & _).
    destruct (IH (S o) (set_flags (b =? 0) (128 <=? b) false c3)) as (c' & R & Er); [by apply copied_flags|lia|lia|lia|cbn; lia|].
    exists c'. split; [|done]. eapply (reaches_le _ (7 + (7 * k + (n - S o) + 12))); [|lia]. cbn [Nat.add].
    run_step. eapply reaches_step; [exact Ed|]. do 5 run_step. exact R.
Qed.

(** [strncpy] writes exactly [Count] bytes: the characters of the string and zeros behind them,
    or its first [Count] characters and no terminator; of the source no byte behind the terminator is read. *)
Lemma strncpy_spec fuel dest src s n c : copyable src dest (strncpy_source n s) c.(ram) -> byte_list s -> no_nul s ->
  is_Some (mem_read dest n c.(ram)) -> dest + Z.of_nat n <= 2 ^ 64 -> Z.of_nat n < 2 ^ 63 ->
  (7 * length s + n + 13 <= fuel)%nat ->
  exists c', strncpy fuel dest src (Z.of_nat n) c = Some (dest, c') /\
    c'.(ram) = mem_write dest (take n (s ++ replicate n 0)) c.(ram).
Proof.
  intros Hc Hby Hnn Hm Hn Hn3 Hf. unfold strncpy. set (c0 := set_reg RSI src _).
  destruct (strncpy_loop src dest s n c.(ram) 0 (set_df false c0)) as (c' & R & Er); try done; [|lia|lia| |].
  - apply copied_start; by destruct c.
  - destruct c. cbn. rewrite u64_small; lia.
  - exists c'. erewrite (reaches_run strncpy_asm (1 + (7 * (length s - 0) + (n - 0) + 12))) by
      ((eapply reaches_trans; [eapply reaches_step; [reflexivity|apply reaches_refl]|exact R]) || lia). done.
Qed.

(** ** [memcmp] *)

(** The first two bytes that differ decide, as signed numbers. *)
Fixpoint cmp_bytes (f g : list Z) : Z :=
  match f, g with
  | x :: f, y :: g => if x =? y then cmp_bytes f g else if i8 y <? i8 x then 1 else -1
  | _, _ => 0
  end.

(** What the code behind the comparison makes of the flags. *)
Definition flags_sign (c : cpu) : Z := if c.(zf) then 0 else if xorb c.(sf) c.(ovf) then 1 else -1.

Lemma repe_cmpsb f : forall g a b c, length f = length g -> mem_read a (length f) c.(ram) = Some f ->
  mem_read b (length g) c.(ram) = Some g -> byte_list f -> byte_list g -> 0 <= a -> 0 <= b ->
  a + Z.of_nat (length f) <= 2 ^ 64 -> b + Z.of_nat (length g) <= 2 ^ 64 -> c.(df) = false ->
  (f <> [] -> c.(rdi) = a) -> (f <> [] -> c.(rsi) = b) -> c.(rcx) = Z.of_nat (length f) -> Z.of_nat (length f) < 2 ^ 64 ->
  exists c', reaches memcmp_asm (length f + 1) (1%nat, c) (2%nat, c') /\ c'.(ram) = c.(ram) /\ c'.(rax) = c.(rax) /\
    flags_sign c' = match f with [] => flags_sign c | _ => cmp_bytes f g end.
Proof.
  induction f as [|x f IH]; intros [|y g] a b c Hl Hf Hg Bf Bg Ha Hb Ea Eb Hdf Hdi Hsi Hcx Hn; try done.
  - exists c. split_and!; try done. eapply reaches_step; [|apply reaches_refl]. unfold step. cbn [memcmp_asm lookup list_lookup].
    cbn. by rewrite Hcx.
  - specialize (Hdi ltac:(done)). specialize (Hsi ltac:(done)).
    apply Forall_cons in Bf as [Bx Bf]. apply Forall_cons in Bg as [By Bg].
    cbn [length mem_read] in Hf, Hg. apply bind_Some in Hf as (x' & Ex & Hf). apply bind_Some in Hf as (f' & Hf & E); simplify_eq.
    apply bind_Some in Hg as (y' & Ey & Hg). apply bind_Some in Hg as (g' & Hg & E); simplify_eq.
    set (c1 := set_reg RCX (c.(rcx) .- 1) (set_reg RSI (c.(rsi) .+ 1) (set_reg RDI (c.(rdi) .+ 1) (compare_flags y x c)))).
    assert (step memcmp_asm (1%nat, c) = Some ((if y =? x then 1%nat else 2%nat), c1)) as E1.
    { unfold step. change (memcmp_asm !! 1%nat) with (Some (repe cmpsb)). cbn [mbind option_bind].
      rewrite (proj2 (Z.eqb_neq _ _)) by (rewrite Hcx; cbn; lia). unfold string_step. rewrite Ex, Ey, Hdf. cbn [mbind option_bind].
      change (Z.of_nat 1) with 1. destruct c. subst c1. cbn [set_reg compare_flags set_flags Asm.rcx Asm.rsi Asm.rdi Asm.zf].
      by destruct (y =? x). }
    assert (c1.(ram) = c.(ram) /\ c1.(rax) = c.(rax) /\ c1.(df) = false /\ c1.(zf) = (y =? x) /\
      xorb c1.(sf) c1.(ovf) = (i8 y <? i8 x)) as (Er & Eax & Edf & Ez & Elt).
    { subst c1. destruct c. cbn in Hdf |- *. split_and!; try done. by apply compare_less. }
    cbn [cmp_bytes]. destruct (Z.eqb_spec y x) as [->|Hne].
    + rewrite Z.eqb_refl. rewrite <- Er in Hf, Hg.
      destruct (IH g (c.(rdi) + 1) (c.(rsi) + 1) c1) as (c' & R & R1 & R2 & R3); try done; try lia; cbn in Hl, Ea, Eb, Hcx, Hn; try lia.
      { intros Hne. subst c1. destruct c. cbn in *. apply u64_small. destruct f; [done|]. cbn in *. lia. }
      { intros Hne. subst c1. destruct c. cbn in *. apply u64_small. destruct f; [done|]. cbn in *. lia. }
      { subst c1. destruct c. cbn in *. rewrite Hcx, u64_small; lia. }
      exists c'. rewrite R1, R2, R3. split_and!; [|done|done|].
      * eapply reaches_step; [exact E1|exact R].
      * destruct f; [|done]. unfold flags_sign. rewrite Ez. done.
    + rewrite (proj2 (Z.eqb_neq x y)) by congruence. exists c1. split_and!; [|done|done|].
      * eapply reaches_step; [exact E1|apply reaches_refl].
      * unfold flags_sign. by rewrite Ez, Elt.
Qed.

(** [memcmp] of a positive number of bytes compares them as signed characters.  For no bytes at
    all no comparison is made, and the result is made of the flags the caller happened to have. *)
Lemma memcmp_spec fuel a b f g c : length f = length g -> mem_read a (length f) c.(ram) = Some f ->
  mem_read b (length g) c.(ram) = Some g -> byte_list f -> byte_list g -> 0 <= a -> 0 <= b ->
  a + Z.of_nat (length f) <= 2 ^ 64 -> b + Z.of_nat (length g) <= 2 ^ 64 -> Z.of_nat (length f) < 2 ^ 63 ->
  (length f + 7 <= fuel)%nat ->
  exists c', memcmp fuel a b (Z.of_nat (length f)) c = Some (match f with [] => flags_sign c | _ => cmp_bytes f g end, c') /\
    c'.(ram) = c.(ram).
Proof.
  intros Hl Hf Hg Bf Bg Ha Hb Ea Eb Hn Hfuel. unfold memcmp. set (c0 := set_reg RAX 0 _).
  assert ((set_df false c0).(ram) = c.(ram)) as E0 by (by destruct c).
  destruct (repe_cmpsb f g a b (set_df false c0)) as (c1 & R & R1 & R2 & R3); rewrite ?E0; try done; try (by destruct c); try lia.
  { destruct c. cbn. apply u64_small. lia. }
  assert (flags_sign (set_df false c0) = flags_sign c) as E1 by (by destruct c). rewrite E1 in R3.
  assert (c1.(rax) = 0) as Eax by (rewrite R2; by destruct c). rewrite E0 in R1.
  assert (exists c', reaches memcmp_asm 5 (2%nat, c1) (length memcmp_asm, c') /\ i32 c'.(rax) = flags_sign c1 /\ c'.(ram) = c1.(ram))
    as (c' & R' & E' & Er').
  { unfold flags_sign. destruct (zf c1) eqn:Ez.
    - exists c1. split; [|by rewrite Eax]. eapply (reaches_le _ 2); [|lia]. do 2 run_step. apply reaches_refl.
    - destruct (sign_of_flags memcmp_asm 3 1 c1 _ eq_refl eq_refl eq_refl eq_refl eq_refl eq_refl) as (c' & R' & Ex & Er).
      exists c'. split; [|done]. run_step. exact R'. }
  exists c'. erewrite (reaches_run memcmp_asm (1 + ((length f + 1) + 5))) by
    ((eapply reaches_trans; [eapply reaches_step; [reflexivity|apply reaches_refl]|eapply reaches_trans; [exact R|exact R']]) || lia).
  cbn [mbind option_bind]. by rewrite E', R3, Er', R1.
Qed.

(** ** The string functions for user memory *)

(** [strnlen_user] is the function [Sys] uses. *)
Lemma strnlen_user_spec fuel a s maxlen c : string_at a s c.(ram) -> 0 <= a -> a + Z.of_nat (length s) + 1 <= 2 ^ 64 ->
  Z.of_nat (length s) < 2 ^ 31 -> (length s + 5 <= fuel)%nat ->
  exists c', strnlen_user fuel a maxlen c = Some (Sys.strnlen_user a s maxlen, c') /\ c'.(ram) = c.(ram).
Proof.
  intros Hs Ha Hb Hl Hf. unfold strnlen_user, Sys.strnlen_user.
  destruct (strlen_spec fuel a s c Hs Ha Hb Hl Hf) as (c' & -> & Er). cbn [mbind option_bind fst snd].
  rewrite u64_small by lia. exists c'. by destruct (_ =? 0).
Qed.

Lemma string_at_ram a s m m' : (forall i, a <= i < a + Z.of_nat (length s + 1) -> m !! i = m' !! i) -> string_at a s m -> string_at a s m'.
Proof. intros H (H1 & H2 & H3). split_and!; [|done|done]. rewrite <- H1. symmetry. by apply mem_read_ext. Qed.

(** How the kernel takes a string from user memory: the length [strnlen_user] gives and the copy
    [strncpy_from_user] makes with it put the characters of the string at [to], as many as [maxlen]
    allows and without a terminator, which is what [Sys] assumes; a string outside of user memory
    has length 0. *)
Theorem user_string_copied fuel a to s maxlen c : string_at a s c.(ram) -> 0 <= a -> a + Z.of_nat (length s) + 1 <= 2 ^ 64 ->
  Z.of_nat (length s) < 2 ^ 31 -> 0 <= maxlen < 2 ^ 31 -> 0 <= to ->
  to + Z.of_nat (length s) <= 2 ^ 64 - 1 -> is_Some (mem_read to (length s) c.(ram)) ->
  to <= a \/ a + Z.of_nat (length s) <= to -> (8 * length s + 13 <= fuel)%nat ->
  exists c1 c2, let len := Sys.strnlen_user a s maxlen in
    strnlen_user fuel a maxlen c = Some (len, c1) /\
    strncpy_from_user fuel a to len c1 = Some (if verify_area a len =? 0 then 0 else len, c2) /\
    c2.(ram) = mem_write to (take (Z.to_nat len) s) c.(ram) /\
    (verify_area a (Z.of_nat (length s)) = 0 -> len = 0).
Proof.
  intros Hs Ha Hb Hl Hmax Ht Ht2 Hm Ho Hf.
  destruct (strnlen_user_spec fuel a s maxlen c Hs Ha Hb Hl ltac:(lia)) as (c1 & E1 & Er). set (len := Sys.strnlen_user a s maxlen) in *.
  assert (0 <= len <= Z.of_nat (length s) /\ (verify_area a (Z.of_nat (length s)) = 0 -> len = 0)) as [Hlen Hlen0].
  { subst len. unfold Sys.strnlen_user. destruct (Z.eqb_spec (verify_area a (Z.of_nat (length s))) 0); [lia|].
    destruct (Z.leb_spec (Z.of_nat (length s)) maxlen); lia. }
  destruct (Z.eqb_spec (verify_area a len) 0) as [E0|E0].
  - exists c1, c1. cbn zeta. unfold strncpy_from_user. rewrite E0. cbn [Z.eqb]. split_and!; [done|done| |done].
    assert (len = 0) as ->; [|done]. destruct (decide (len = 0)) as [|Hne]; [done|exfalso]. revert E0.
    assert (verify_area a (Z.of_nat (length s)) <> 0) as Hv by (intros H0%Hlen0; lia). unfold verify_area in *.
    rewrite !u64_small in * by lia. destruct (Z.leb_spec (a + Z.of_nat (length s)) TASK_SIZE); [|done].
    by rewrite (proj2 (Z.leb_le _ _)) by lia.
  - destruct Hs as (H1 & H2 & H3). set (n := Z.to_nat len). rewrite <- Er in H1, Hm |- *.
    assert (strncpy_source n s = take n s) as Es by (unfold strncpy_source; rewrite take_app_le; [done|lia]).
    assert (length (take n s) = n) as Ln by (rewrite length_take; lia).
    destruct (strncpy_spec fuel to a s n c1) as (c2 & E2 & Er2); try done; try lia.
    + rewrite Es. constructor; rewrite ?Ln; [lia|lia| | |].
      * pose proof H1 as H1'. replace (length s + 1)%nat with (length (take n s ++ (drop n s ++ [0]))) in H1' by
          (rewrite app_assoc, take_drop, length_app; done).
        rewrite <- (take_drop n s) in H1' at 3. rewrite <- app_assoc in H1'. apply mem_read_split in H1' as [H1' _].
        by rewrite Ln in H1'.
      * apply (mapped_sub to (length s)); [done|lia|lia].
      * lia.
    + apply (mapped_sub to (length s)); [done|lia|lia].
    + exists c1, c2. cbn zeta. split_and!; [done| | |done].
      * unfold strncpy_from_user. rewrite (proj2 (Z.eqb_neq _ _) E0). replace len with (Z.of_nat n) at 1 by lia. by rewrite E2.
      * rewrite Er2. by rewrite take_app_le by lia.
Qed.

(** ** The functions run *)

Definition text (l : list Z) (a : Z) (m : mem) : mem := mem_write a (l ++ [0]) m.
(** "abc" and "abd", and room at 0x3000. *)
Definition ram0 : mem := text [97; 98; 99] 0x1000 (text [97; 98; 100] 0x2000 (mem_write 0x3000 (repeat 7 16) ∅)).
Definition cpu0 : cpu := mkCpu 0 0 0 0 0 false true false true ram0.

Example memcpy_runs : exists c, memcpy 30 0x1000 0x3000 7 cpu0 = None /\ memcpy 30 0x1000 0x3000 4 cpu0 = Some (0x3000, c) /\
  mem_read 0x3000 5 c.(ram) = Some [97; 98; 99; 0; 7].
Proof. eexists. split; [vm_compute; reflexivity|]. split; vm_compute; reflexivity. Qed.

(** With no bytes to compare the result depends on the flags: the same address is greater, or less, than itself. *)
Example memcmp_of_nothing : fst <$> memcmp 30 0x1000 0x1000 0 cpu0 = Some 1 /\
  fst <$> memcmp 30 0x1000 0x1000 0 (set_flags false false false cpu0) = Some (-1).
Proof. split; vm_compute; reflexivity. Qed.

Lemma memcpy_spec_witness : exists c', memcpy 30 0x1000 0x3000 3 cpu0 = Some (0x3000, c') /\
  c'.(ram) = mem_write 0x3000 [97; 98; 99] ram0.
Proof.
  apply (memcpy_spec 30 0x1000 0x3000 [97; 98; 99] cpu0); [|cbn; lia|cbn; lia].
  constructor; [cbn; lia|cbn; lia|vm_compute; reflexivity|vm_compute; eexists; reflexivity|cbn; lia].
Defined.

Lemma string0 : string_at 0x1000 [97; 98; 99] ram0 /\ string_at 0x2000 [97; 98; 100] ram0.
Proof. split; (split_and!; [vm_compute; reflexivity|apply (bool_decide_unpack _); by vm_compute|repeat constructor; done]). Qed.

Lemma strcmp_spec_witness : exists c', strcmp 40 0x1000 0x2000 cpu0 = Some (-1, c') /\ c'.(ram) = ram0.
Proof.
  destruct string0 as [H1 H2]. apply (strcmp_spec 40 0x1000 0x2000 [97; 98; 99] [97; 98; 100] cpu0 H1 H2); cbn; lia.
Defined.

Lemma copy_to_user_spec_witness : exists c', copy_to_user 30 0x1000 0x3000 3 (set_df false cpu0) = Some (0, c') /\
  c'.(ram) = mem_write 0x3000 [97; 98; 99] ram0.
Proof.
  apply (copy_to_user_spec 30 0x1000 0x3000 [97; 98; 99] (set_df false cpu0)); [done|cbn; lia|cbn; lia|]. intros _.
  constructor; [cbn; lia|cbn; lia|vm_compute; reflexivity|vm_compute; eexists; reflexivity|cbn; lia].
Defined.

Lemma user_string_copied_witness : exists c1 c2, strnlen_user 50 0x1000 2 cpu0 = Some (2, c1) /\
  strncpy_from_user 50 0x1000 0x3000 2 c1 = Some (2, c2) /\ c2.(ram) = mem_write 0x3000 [97; 98] ram0.
Proof.
  destruct string0 as [H1 _].
  destruct (user_string_copied 50 0x1000 0x3000 [97; 98; 99] 2 cpu0 H1) as (c1 & c2 & E1 & E2 & E3 & _);
    [cbn; lia..|vm_compute; eexists; reflexivity|cbn; lia|cbn; lia|].
  exists c1, c2. split_and!; [exact E1|exact E2|exact E3].
Defined.
