(* ===== verification/Ulib.v ===== *)
(** * The heap of a program (user/userlibs.c)

    [malloc] takes memory from the end of the data segment, which it moves with the system call
    [brk]; the kernel's side of that call is [sys_brk] of [Paging].  [free] does nothing.  [wait] and
    [waitpid] are the wrappers of [sys_wait4] of [Task]. *)

From S2P Require Import Prelude Klist PageAlloc Sched Alloc Bytes Errno Paging Mm Pool Task.

Local Open Scope Z_scope.
Local Open Scope cint_scope.

Definition SIZE_ALIGN : Z := 64.
Definition PAGE_SIZE : Z := 1 .<< 21.

(** The three static variables. *)
Record uheap := mkHeap { brk_start_address : Z; brk_used_address : Z; brk_end_address : Z }.

Section Ulib.
Context {M : Type} `{Frames M} (fuel : nat).
Implicit Types (h : uheap) (s : vm M).

(** user/syscall.c: what the caller of a system call gets, which is -1 when the kernel returned an
    error code ([errno] is left out). *)
Definition LABEL_SYSCALL (rax : Z) : Z := if rax <? u64 (- 0x1000) then rax else all_ones.

(** [brk] and [wait4] are called without a declaration: the compiler takes them for functions that
    return an [int]. *)
Definition int_result (rax : Z) : Z := i32 (LABEL_SYSCALL rax).

Definition brk (end_data_segment : Z) s : option (Z * vm M) :=
  r ← sys_brk fuel end_data_segment s; Some (u64 (int_result (fst r)), snd r).

(** The two calls of [brk] in [malloc]: at the first use, and when the end is reached. *)
Definition first_brk h s : option (uheap * vm M) :=
  if h.(brk_start_address) =? 0 then
    r ← brk 0 s; let '(b, s) := r in Some (mkHeap b b b, s)
  else Some (h, s).
Definition more_brk (size : Z) h s : option (uheap * vm M) :=
  if h.(brk_end_address) <=? h.(brk_used_address) .+ SIZE_ALIGN .+ size then
    r ← brk (h.(brk_end_address) .+ ((size .+ SIZE_ALIGN .+ PAGE_SIZE .- 1) .& .~ (PAGE_SIZE .- 1))) s;
    let '(b, s) := r in Some (mkHeap h.(brk_start_address) h.(brk_used_address) b, s)
  else Some (h, s).

Definition malloc (size : Z) h s : option (Z * uheap * vm M) :=
  if size <=? 0 then Some (0, h, s)
  else
    r ← first_brk h s;
    let '(h, s) := r in
    r ← more_brk size h s;
    let '(h, s) := r in
    let address := h.(brk_used_address) in
    Some (address, mkHeap h.(brk_start_address) (h.(brk_used_address) .+ (size .+ SIZE_ALIGN)) h.(brk_end_address), s).

Definition free (address : Z) h s : uheap * vm M := (h, s).
End Ulib.

(** ** What [malloc] hands out *)

Section Heap.
Context {M : Type} `{HF : Frames M} `{HL : !AllocatorLaws M} `{HP : !PagingLaws M}.
Implicit Types (h : uheap) (s : vm M) (L : gmap (list Z) Z) (bl : list (Z * Z)).

(** The blocks lie in the segment below the used address, apart from each other; every address of
    the segment is mapped.  Before the first call the variables are 0 and the segment is empty. *)
Record heap_ok s (mm : mm_struct) L h bl : Prop := {
  ho_user : user_ok s mm L;
  ho_start : 0 < mm.(start_brk) <= mm.(end_brk);
  ho_end : mm.(end_brk) mod 2 ^ 21 = 0 /\ mm.(end_brk) < 2 ^ 31;
  ho_mapped va : mm.(start_brk) <= va < mm.(end_brk) -> walk s.(words) mm.(pgd) va <> 0;
  ho_vars : h.(brk_start_address) = 0 /\ mm.(start_brk) = mm.(end_brk) /\ bl = [] \/
    h.(brk_start_address) = mm.(start_brk) /\ h.(brk_end_address) = mm.(end_brk) /\
    mm.(start_brk) <= h.(brk_used_address) <= mm.(end_brk);
  ho_blocks a n : (a, n) ∈ bl -> 0 < n /\ mm.(start_brk) <= a /\ a + n + SIZE_ALIGN <= h.(brk_used_address);
  ho_apart : ForallOrdPairs (fun x y => snd y + fst y + SIZE_ALIGN <= fst x) bl
}.

(** The heap of a program that has called [brk] at least once. *)
Definition started h (mm : mm_struct) : Prop :=
  h.(brk_start_address) = mm.(start_brk) /\ h.(brk_end_address) = mm.(end_brk) /\
  mm.(start_brk) <= h.(brk_used_address) <= mm.(end_brk).

Lemma int_result_value x : 0 <= x < 2 ^ 31 -> u64 (int_result x) = x.
Proof using Type.
  intros Hx. unfold int_result, LABEL_SYSCALL. rewrite (proj2 (Z.ltb_lt _ _)) by (change (u64 (- 0x1000)) with (2 ^ 64 - 4096); lia).
  rewrite i32_small by lia. apply u64_small. lia.
Qed.

Lemma first_brk_ok fuel s mm L h bl : heap_ok s mm L h bl ->
  exists h', first_brk fuel h s = Some (h', s) /\ heap_ok s mm L h' bl /\ started h' mm /\
    h'.(brk_used_address) = if h.(brk_start_address) =? 0 then mm.(start_brk) else h.(brk_used_address).
Proof using Type.
  intros K. pose proof K as [K1 K2 K3 K4 K5 K6 K7]. unfold first_brk.
  destruct K5 as [(E & Es & ->)|(E & Ee & Eu)].
  - rewrite E. cbn [Z.eqb]. unfold brk, sys_brk. rewrite (uo_mm _ _ _ K1). cbn [mbind option_bind].
    rewrite PAGE_2M_ALIGN_spec by lia. change (2 ^ 21 * ((0 + 2 ^ 21 - 1) / 2 ^ 21) =? 0) with true.
    cbn [fst snd mbind option_bind]. rewrite int_result_value by lia.
    eexists. split; [reflexivity|]. split; [|split; [unfold started; cbn; lia|done]].
    constructor; try done; [right; cbn; lia|]. intros a n Hin. by apply not_elem_of_nil in Hin.
  - rewrite (proj2 (Z.eqb_neq _ _)) by lia. exists h. split_and!; done.
Qed.

(** The number of pages a request may need. *)
Definition pages_for (size : Z) : nat := Z.to_nat ((size + SIZE_ALIGN + 2 ^ 21 - 1) / 2 ^ 21).

Lemma more_brk_ok fuel s mm L h bl size : heap_ok s mm L h bl -> started h mm -> 0 < size ->
  let k := pages_for size in mm.(end_brk) + 2 ^ 21 * (Z.of_nat k + 1) <= 2 ^ 31 -> (k < fuel)%nat ->
  capacity s.(vheap) (2 * k) k ->
  exists h' s' mm' L', more_brk fuel size h s = Some (h', s') /\ heap_ok s' mm' L' h' bl /\ started h' mm' /\
    h'.(brk_used_address) = h.(brk_used_address) /\ h.(brk_used_address) + size + SIZE_ALIGN <= mm'.(end_brk) /\
    mm'.(start_brk) = mm.(start_brk) /\ mm'.(pgd) = mm.(pgd) /\
    (forall va, user va -> walk s.(words) mm.(pgd) va <> 0 -> walk s'.(words) mm.(pgd) va = walk s.(words) mm.(pgd) va) /\
    (forall x, (forall t, t ∈ tables s'.(vheap) -> ~ t <= x < t + 2 ^ 12) -> s'.(words) x = s.(words) x).
Proof using Type.
  intros K St Hsize k Hend Hfuel Hcap. pose proof K as [K1 K2 [K3 K3'] K4 K5 K6 K7]. destruct St as (E1 & E2 & E3).
  assert (0 < Z.of_nat k /\ size + SIZE_ALIGN <= 2 ^ 21 * Z.of_nat k) as [Hk0 Hk].
  { subst k. unfold pages_for, SIZE_ALIGN. pose proof (Z.div_mod (size + 64 + 2 ^ 21 - 1) (2 ^ 21) ltac:(lia)).
    pose proof (Z.mod_pos_bound (size + 64 + 2 ^ 21 - 1) (2 ^ 21) ltac:(lia)). lia. }
  unfold SIZE_ALIGN in *. unfold more_brk, SIZE_ALIGN.
  assert (h.(brk_used_address) .+ 64 .+ size = h.(brk_used_address) + 64 + size) as -> by (rewrite (u64_small (_ + 64)), u64_small; lia).
  destruct (Z.leb_spec (brk_end_address h) (brk_used_address h + 64 + size)).
  - assert ((size .+ 64 .+ PAGE_SIZE .- 1) .& .~ (PAGE_SIZE .- 1) = 2 ^ 21 * Z.of_nat k) as ->.
    { change ((size .+ 64 .+ PAGE_SIZE .- 1) .& .~ (PAGE_SIZE .- 1)) with (PAGE_2M_ALIGN (size .+ 64)).
      rewrite (u64_small (size + 64)), PAGE_2M_ALIGN_spec by lia. subst k. unfold pages_for, SIZE_ALIGN.
      rewrite Z2Nat.id; [done|]. apply Z.div_pos; lia. }
    rewrite E2, u64_small by lia. set (b := mm.(end_brk) + 2 ^ 21 * Z.of_nat k).
    assert (2 ^ 21 * ((b + 2 ^ 21 - 1) / 2 ^ 21) = b) as Eb.
    { subst b. pose proof (Z.div_mod mm.(end_brk) (2 ^ 21) ltac:(lia)) as Hd. rewrite K3 in Hd.
      replace (end_brk mm + 2 ^ 21 * Z.of_nat k + 2 ^ 21 - 1) with (2 ^ 21 - 1 + (end_brk mm / 2 ^ 21 + Z.of_nat k) * 2 ^ 21) by lia.
      rewrite Z_div_plus_full, Z.div_small by lia. lia. }
    assert (Z.to_nat ((b - mm.(end_brk)) / 2 ^ 21) = k) as Ek.
    { subst b. replace (_ - _) with (Z.of_nat k * 2 ^ 21) by lia. rewrite Z.div_mul by lia. lia. }
    destruct (sys_brk_grows s mm L fuel b K1) as (s1 & s' & L' & E & U' & D & Ew & Eh & _);
      [subst b; lia|subst b; lia|lia|done|rewrite Eb; subst b; lia|by rewrite Eb, Ek|by rewrite Eb, Ek|].
    rewrite Eb in E, U', D. unfold brk. rewrite E. cbn [fst snd mbind option_bind]. rewrite int_result_value by (subst b; lia).
    assert (forall va, 0 <= va < 2 ^ 47 -> mm.(end_brk) <= va < b -> walk s'.(words) mm.(pgd) va <> 0) as Hnew.
    { intros va Hva Hin. rewrite Ew. destruct (md_new _ _ _ _ D va Hva) as (f & Hf & -> & _); [by eapply page_between|].
      by apply (frame_entry s1). }
    assert (forall va, user va -> walk s.(words) mm.(pgd) va <> 0 -> walk s'.(words) mm.(pgd) va = walk s.(words) mm.(pgd) va) as Hkeep.
    { intros va Hva Hw. rewrite Ew. apply D; [done|by left]. }
    eexists _, s', (set_end_brk b mm), L'. split; [reflexivity|]. split_and!; cbn; try done; try lia.
    + constructor; cbn; try done; [lia| | |right; lia].
      * split; [|lia]. subst b. rewrite <- Zplus_mod_idemp_l, K3. by rewrite Z.mul_comm, Z_mod_plus_full.
      * intros va Hva. destruct (decide (va < mm.(end_brk))); [|apply Hnew; lia].
        rewrite Hkeep; [apply K4; lia|unfold user; lia|apply K4; lia].
    + unfold started. cbn. lia.
    + intros x. rewrite Eh, Ew. apply D.
  - exists h, s, mm, L. split_and!; try done; lia.
Qed.

(** C25. [malloc]: no memory for sizes that are not positive; otherwise a block behind all the earlier
    ones, apart from them, every byte of which is mapped.  The pages that were mapped, and what they
    hold, stay as they are.  The hypotheses say that there is memory for the pages [brk] is asked
    for, and that the segment stays below 2 GB, of which [malloc] itself does not make sure. *)
Theorem malloc_spec fuel s mm L h bl size : heap_ok s mm L h bl ->
  (size <= 0 -> malloc fuel size h s = Some (0, h, s)) /\
  let k := pages_for size in
  (0 < size -> mm.(end_brk) + 2 ^ 21 * (Z.of_nat k + 1) <= 2 ^ 31 -> (k < fuel)%nat -> capacity s.(vheap) (2 * k) k ->
  exists addr h' s' mm' L', malloc fuel size h s = Some (addr, h', s') /\ heap_ok s' mm' L' h' ((addr, size) :: bl) /\
    addr <> 0 /\ mm'.(start_brk) = mm.(start_brk) /\ mm'.(pgd) = mm.(pgd) /\
    (forall va, addr <= va < addr + size -> exists f, f ∈ frames s'.(vheap) /\
      translate s'.(words) mm'.(pgd) va = Some (f + va mod 2 ^ 21)) /\
    (forall va, user va -> walk s.(words) mm.(pgd) va <> 0 -> walk s'.(words) mm.(pgd) va = walk s.(words) mm.(pgd) va) /\
    (forall x, (forall t, t ∈ tables s'.(vheap) -> ~ t <= x < t + 2 ^ 12) -> s'.(words) x = s.(words) x)).
Proof using Type.
  intros K. split.
  - intros Hs. unfold malloc. by rewrite (proj2 (Z.leb_le _ _)).
  - intros k Hs Hend Hfuel Hcap. unfold malloc. rewrite (proj2 (Z.leb_gt _ _)) by done.
    destruct (first_brk_ok fuel s mm L h bl K) as (h1 & -> & K1 & St1 & _). cbn [mbind option_bind].
    destruct (more_brk_ok fuel s mm L h1 bl size K1 St1 Hs Hend Hfuel Hcap)
      as (h2 & s2 & mm2 & L2 & -> & K2 & St2 & Eu & Hle & Es & Ep & Hk & Hx); cbn [mbind option_bind].
    rewrite <- Eu in Hle. pose proof K2 as [A1 A2 A3 A4 A5 A6 A7]. destruct St2 as (B1 & B2 & B3 & B4).
    assert (brk_used_address h2 .+ (size .+ SIZE_ALIGN) = brk_used_address h2 + size + SIZE_ALIGN) as ->.
    { unfold SIZE_ALIGN in *. rewrite (u64_small (size + 64)), u64_small; lia. }
    unfold SIZE_ALIGN in *. eexists _, _, s2, mm2, L2. split; [reflexivity|].
    split_and!; cbn [fst snd brk_used_address]; try done; try lia.
    + constructor; try done; cbn [brk_start_address brk_end_address brk_used_address].
      * right. lia.
      * intros a n [[= -> ->]|Hin]%elem_of_cons; [unfold SIZE_ALIGN; lia|]. specialize (A6 a n Hin). unfold SIZE_ALIGN in *. lia.
      * constructor; [|done]. apply Forall_forall. intros [a n] Hin. apply A6 in Hin. cbn. unfold SIZE_ALIGN in *. lia.
    + intros va Hva. destruct (uo_pages _ _ _ A1 va) as [H0|(f & Hf & Ef)]; [unfold user; lia| |].
      * exfalso. apply (A4 va); [lia|done].
      * exists f. split; [done|]. apply (translate_frame _ _ _ _ PAGE_USER_Page); [by eapply frame_valid|by left|done].
Qed.
End Heap.

(** ** Waiting *)

Section Wait.
Context {M : Type} `{HF : Frames M} (queue init_task init_union : Z).

(** The third argument of every system call is replaced on the way into the kernel (entry.S loads
    [rdx] with its data segment; [syscall_roundtrip] of [Entry]). *)
Definition third_argument : Z := 0x10.

(** The [int] arguments are moved with [movl], which clears the upper half of the register. *)
Definition int_returned (r : wait4_result) : wait4_result :=
  match r with returned retval => returned (int_result retval) | waiting tsk child => waiting tsk child end.
Definition waitpid (fuel : nat) (pid status options wait : Z) (s : kstate M) : option (wait4_result * kstate M) :=
  r ← sys_wait4 queue init_task init_union fuel (u32 pid) status third_argument wait s; Some (int_returned (fst r), snd r).
Definition wait (fuel : nat) (status wait : Z) (s : kstate M) : option (wait4_result * kstate M) :=
  waitpid fuel (-1) status 0 wait s.

(** Since the options are never 0, the kernel refuses every call: no child is waited for. *)
Lemma waitpid_refused fuel pid status options entry s r s' : waitpid fuel pid status options entry s = Some (r, s') ->
  r = returned (-1) /\ s' = s.
Proof using Type.
  unfold waitpid, sys_wait4, third_argument. intros E. apply bind_Some in E as ([r0 s0] & E0 & E).
  apply bind_Some in E0 as ([tsk child] & _ & E0). destruct (child =? 0); cbn in E0; simplify_eq; by split.
Qed.
End Wait.

(** [wait] asks for the process -1, which arrives in the kernel as 2^32 - 1 and is taken for a pid:
    it never finds a child, even if there are children that have ended. *)
Lemma wait_never_finds {M} `{HF : Frames M} `{!AllocatorLaws M} `{!PagingLaws M} `{!TaskLaws M}
    queue init_union (s : kstate M) l q fuel status entry : tasks_ok queue init_union s l q -> (length l < fuel)%nat ->
  s.(global_pid) < 2 ^ 32 ->
  wait queue (list_at init_union) init_union fuel status entry s = Some (returned (-1), s).
Proof.
  intros K Hf Hg. unfold wait, waitpid, sys_wait4.
  destruct (find_child_none init_union fuel (u32 (-1)) s l init_union) as (prev & E).
  - apply K.
  - done.
  - by destruct (proj1 (NoDup_cons _ _) (tk_nodup _ _ _ _ _ K)).
  - intros c p Hc Hp. pose proof (tk_pid _ _ _ _ _ K c p Hc Hp). rewrite u64_small by lia.
    change (u32 (-1)) with (2 ^ 32 - 1). lia.
  - by rewrite E.
Qed.

(** ** A program *)

Definition heap0 : uheap := mkHeap 0 0 0.

Lemma heap0_ok : heap_ok (vm_demo ∅) mm_demo {[ [] := object_at 1 ]} heap0 [].
Proof.
  constructor; cbn; try done; try lia.
  - apply vm_demo_ok.
  - by left.
  - intros a n Hin. by apply not_elem_of_nil in Hin.
  - constructor.
Qed.

Lemma malloc_spec_witness : exists h' s', malloc 3 0x200000 heap0 (vm_demo ∅) = Some (0xc00000, h', s') /\
  is_Some (translate s'.(words) mm_demo.(pgd) 0xdfffff).
Proof.
  destruct (malloc_spec 3 (vm_demo ∅) mm_demo _ heap0 [] 0x200000 heap0_ok) as (_ & H).
  destruct H as (a & h' & s' & mm' & L' & E & K & _ & _ & Ep & Ht & _).
  - lia.
  - vm_compute. congruence.
  - vm_compute. lia.
  - split; vm_compute; reflexivity.
  - assert (a = 0xc00000) as ->.
    { assert (option_map (fun x => fst (fst x)) (malloc 3 0x200000 heap0 (vm_demo ∅)) = Some 0xc00000) as E' by (vm_compute; reflexivity).
      rewrite E in E'. cbn in E'. congruence. }
    exists h', s'. split; [exact E|]. destruct (Ht 0xdfffff) as (f & _ & Ef); [lia|]. rewrite Ep in Ef. rewrite Ef. eexists. reflexivity.
Defined.

(** Without memory for the page [malloc] returns an address all the same, and from then on
    every request is granted: the end it has been told is -1. *)
Example malloc_no_memory :
  (r ← malloc 3 0x100 heap0 (vm_demo {[ 511%N ]}); Some (fst r)) = Some (0xc00000, mkHeap 0xc00000 0xc00140 all_ones).
Proof. vm_compute. reflexivity. Qed.

(** The end of a segment of more than 2 GB is lost on the way. *)
Example brk_above_2GB : u64 (int_result 0x80000000) = 0xffffffff80000000.
Proof. reflexivity. Qed.
