(* ===== verification/Exec.v ===== *)
(** * Running a program (task.c 249-400, sys.c 266-295)

    [do_execve] on the address spaces of [Mm], the files of [Sys] and user memory: the page for the
    code, the file, the arguments, which are copied below the top of the stack with the machine
    code of [Cstr], the contents, and the registers with which the program starts. *)

From S2P Require Import Prelude Klist PageAlloc Slab Sched Bytes Errno Fat32 Vfs Alloc Sys Paging Mm Pool Task Asm Shell Cstr.

Local Open Scope Z_scope.
Local Open Scope cint_scope.

Definition USER_CS : Z := 0x28.
Definition USER_DS : Z := 0x30.

(** [regs->rdi], [regs->rsi]. *)
Definition set_args (argc argv : Z) (r : pt_regs) : pt_regs :=
  mkRegs r.(r15) r.(r14) r.(r13) r.(r12) r.(r11) r.(r10) r.(r9) r.(r8) r.(rbx) r.(Task.rcx) r.(Task.rdx)
    argv argc r.(rbp) r.(ds) r.(es) r.(Task.rax) r.(func) r.(errcode) r.(rip) r.(cs) r.(rflags) r.(rsp) r.(ss).
(** The registers with which the program starts: [r10] is its entry, [r11] its stack. *)
Definition start_regs (entry stack : Z) (r : pt_regs) : pt_regs :=
  mkRegs r.(r15) r.(r14) r.(r13) r.(r12) stack entry r.(r9) r.(r8) r.(rbx) r.(Task.rcx) r.(Task.rdx)
    r.(Task.rsi) r.(Task.rdi) r.(rbp) USER_DS USER_DS 1 r.(func) r.(errcode) r.(rip) USER_CS r.(rflags) r.(rsp) USER_DS.

Definition load64 (a : Z) (m : mem) : option Z := of_le <$> mem_read a 8 m.
Definition store64 (a v : Z) (m : mem) : option mem := store_bytes a (le_bytes 8 v) m.

(** The loop over [argv], [k] rounds before [i] is 10; the value is [i] and [pos] behind it. *)
Fixpoint args_loop (fuel k : nat) (i argv dargv pos : Z) (c : cpu) : option (Z * Z * cpu) :=
  match k with
  | O => Some (i, pos, c)
  | S k =>
      arg ← load64 (argv + 8 * i) c.(ram);
      if arg =? 0 then Some (i, pos, c)
      else
        r ← Cstr.strnlen_user fuel arg 1024 c;
        let len := i32 (fst r + 1) in
        r ← Cstr.strcpy fuel (pos .- len) arg (snd r);
        let c := snd r in
        m ← store64 (dargv + 8 * i) (pos .- len) c.(ram);
        args_loop fuel k (i + 1) argv dargv (pos .- len) (set_ram m c)
  end.

Definition exec_args (fuel : nat) (argv : Z) (regs : pt_regs) (c : cpu) : option (Z * pt_regs * cpu) :=
  if argv =? 0 then Some (stack_start_addr, regs, c)
  else
    let dargv := stack_start_addr - 80 in
    r ← args_loop fuel 10 0 argv dargv dargv c;
    let '(i, pos, c) := r in
    Some (pos .- 10, set_args i dargv regs, c).

Section Exec.
Context {D M : Type} `{HF : Frames M} `{HI : InodeOps index_node}.
(** The root of the dentries; the operations of files and of the keyboard; what user addresses hold
    once the page table of an address space is loaded; the registers the copying code starts with. *)
Context (root : Z) (inode_fops keyboard_fops : file_operations (D * mem)) (view : vm M -> mem -> mem) (junk : cpu).
Context (init_pgd : Z).
Implicit Types (s : sysstate (D * mem) M) (v : vm M).

Definition open_exec_file (path : list Z) s : option (Z * sysstate (D * mem) M) :=
  r ← Sys.walk root path s;
  let '(dentry, s) := r in
  if dentry =? 0 then Some (u64 (- ENOENT), s)
  else
    i ← inode_of dentry s;
    if i.(attribute) =? FS_ATTR_DIR then Some (u64 (- ENOTDIR), s)
    else
      r ← sys_alloc sizeof_file s;
      let '(filp, s) := r in
      if filp =? 0 then Some (u64 (- ENOMEM), s)
      else Some (filp, set_files (<[filp := mkFile 0 O_RDONLY dentry false]> s.(files)) s).

Definition set_user_memory (m : mem) s : sysstate (D * mem) M := set_system (fst s.(system), m) s.
Definition set_heap (h : M) s : sysstate (D * mem) M :=
  set_tree (mkVfs s.(tree).(dentries) s.(tree).(vnodes) h) s.

(** [current->flags] and [current->addr_limit]. *)
Record exec_task := mkExec { e_flags : Z; e_addr_limit : Z }.

(** [do_execve]; the [name] is the kernel's copy.  The two heaps are one; [exit_files] does nothing. *)
Definition do_execve (fuel : nat) (regs : pt_regs) (name : list Z) (argv : Z) (t : exec_task) v s
    : option (Z * pt_regs * exec_task * vm M * sysstate (D * mem) M) :=
  v ← exec_mm init_pgd t.(e_flags) (set_vheap s.(tree).(heap) v);
  let s := set_heap v.(vheap) (set_user_memory (view v (snd s.(system))) s) in
  r ← open_exec_file name s;
  let '(filp, s) := r in
  let v := set_vheap s.(tree).(heap) v in
  if u64 (- 0x1000) <? filp then Some (filp, regs, t, v, s)
  else
    f ← s.(files) !! filp;
    i ← inode_of f.(f_dentry) s;
    v ← exec_layout i.(file_size) v;
    let limit := if t.(e_flags) .& PF_KTHREAD =? 0 then TASK_SIZE else t.(e_addr_limit) in
    let t := mkExec (t.(e_flags) .& .~ PF_VFORK) limit in
    r ← exec_args fuel argv regs (set_ram (snd s.(system)) junk);
    let '(stack, regs, c) := r in
    r ← Cstr.memset fuel code_start_addr 0 (stack .- code_start_addr) (snd r);
    let s := set_user_memory (ram (snd r)) s in
    op ← fop_read (f_ops inode_fops keyboard_fops f);
    r ← op i code_start_addr i.(file_size) 0 s.(system);
    let '(retval, _, x) := r in
    Some (u64 retval, start_regs code_start_addr stack regs, t, v, set_system x s).

(** [sys_execve]; [regs] is the frame at the top of the kernel stack, [read_string] as for
    [sys_open]. *)
Definition sys_execve (read_string : Z -> D * mem -> option (list Z)) (fuel : nat) (regs : pt_regs) (t : exec_task) v s
    : option (Z * pt_regs * exec_task * vm M * sysstate (D * mem) M) :=
  r ← get_path read_string regs.(Task.rdi) s;
  match r with
  | (inl e, s) => Some (e, regs, t, v, s)
  | (inr (path, name), s) =>
      r ← do_execve fuel regs name regs.(Task.rsi) t v s;
      let '(error, regs, t, v, s) := r in
      s ← sys_release path s;
      Some (error, regs, t, v, s)
  end.
End Exec.

(** ** The arguments *)

Fixpoint lowest (pos : Z) (l : list (Z * list Z)) : Z :=
  match l with [] => pos | (_, s) :: l => lowest (pos - Z.of_nat (length s) - 1) l end.

Lemma lowest_le pos l : lowest pos l <= pos.
Proof. revert pos. induction l as [|[p s] l IH]; intros pos; cbn; [lia|]. specialize (IH (pos - Z.of_nat (length s) - 1)). lia. Qed.

Section Args.
Context (fuel : nat) (argv dargv lo : Z).
Notation top := (dargv + 80).

(** A string at [p] that the kernel takes completely, outside of the area that is written. *)
Definition argument_ok (m : mem) (x : Z * list Z) : Prop :=
  let '(p, s) := x in
  string_at p s m /\ 0 < p /\ p + Z.of_nat (length s) + 1 <= TASK_SIZE /\ Z.of_nat (length s) <= 1024 /\
  (p + Z.of_nat (length s) + 1 <= lo \/ top <= p) /\ (5 * length s + 6 <= fuel)%nat.

(** The pointers of [l] from slot [i] on, with NULL behind them when there are fewer than 10. *)
Record argv_ok (m : mem) (i : Z) (l : list (Z * list Z)) : Prop := {
  av_slot j p s : l !! j = Some (p, s) -> mem_read (argv + 8 * (i + Z.of_nat j)) 8 m = Some (le_bytes 8 p);
  av_null : i + Z.of_nat (length l) < 10 -> mem_read (argv + 8 * (i + Z.of_nat (length l))) 8 m = Some (le_bytes 8 0);
  av_args : Forall (argument_ok m) l;
  av_apart : argv + 80 <= lo \/ top <= argv
}.

Lemma argument_same m m' x : (forall y, y < lo \/ top <= y -> m' !! y = m !! y) -> argument_ok m x -> argument_ok m' x.
Proof using Type.
  destruct x as [p s]. intros H (H1 & H2 & H3 & H4 & H5 & H6). split_and!; try done.
  eapply string_at_ram; [|exact H1]. intros i Hi. symmetry. apply H. lia.
Qed.

Lemma argv_next m m' i x l : 0 <= i -> (forall y, y < lo \/ top <= y -> m' !! y = m !! y) -> i + Z.of_nat (length (x :: l)) <= 10 ->
  argv_ok m i (x :: l) -> argv_ok m' (i + 1) l.
Proof using Type.
  intros Hi Hm Hl [H1 H2 H3 H4]. cbn [length] in *.
  assert (forall j, 0 <= j < 10 -> mem_read (argv + 8 * j) 8 m' = mem_read (argv + 8 * j) 8 m) as E.
  { intros j Hj. apply mem_read_ext. intros y Hy. apply Hm. lia. }
  constructor; [| | |done].
  - intros j p s Hj. pose proof (lookup_lt_Some _ _ _ Hj). rewrite E by lia. rewrite <- (H1 (S j) p s) by done. f_equal. lia.
  - intros Hn. rewrite E by lia. rewrite <- H2 by lia. f_equal. lia.
  - apply Forall_cons in H3 as [_ H3]. eapply Forall_impl; [exact H3|]. intros y. by apply argument_same.
Qed.

Lemma args_loop_spec l : forall k i pos c, Z.of_nat k = 10 - i -> 0 <= i -> i + Z.of_nat (length l) <= 10 ->
  lo = lowest pos l -> 0 <= lo -> pos <= dargv -> top <= TASK_SIZE ->
  (forall x, lo <= x < top -> is_Some (c.(ram) !! x)) -> argv_ok c.(ram) i l ->
  exists c', args_loop fuel k i argv dargv pos c = Some (i + Z.of_nat (length l), lo, c') /\
    (forall x, x < lo \/ top <= x -> c'.(ram) !! x = c.(ram) !! x) /\
    (forall x, pos <= x < dargv + 8 * i -> c'.(ram) !! x = c.(ram) !! x) /\
    (forall x, is_Some (c.(ram) !! x) -> is_Some (c'.(ram) !! x)) /\
    forall j p s, l !! j = Some (p, s) -> exists q, mem_read (dargv + 8 * (i + Z.of_nat j)) 8 c'.(ram) = Some (le_bytes 8 q) /\
      string_at q s c'.(ram) /\ lo <= q /\ q + Z.of_nat (length s) + 1 <= pos.
Proof using Type.
  induction l as [|[p s] l IH]; intros k i pos c Hk Hi Hl Hlo Hlo0 Hpos Htop Hmap Hav.
  - cbn in Hlo. subst pos. exists c. cbn [length] in *. split_and!; try done.
    destruct k as [|k]; cbn [args_loop]; [do 3 f_equal; lia|]. unfold load64.
    pose proof (av_null _ _ _ Hav) as Hn. cbn [length] in Hn. rewrite Z.add_0_r in Hn. rewrite Hn by lia.
    cbn [fmap option_fmap option_map mbind option_bind]. change (of_le (le_bytes 8 0) =? 0) with true. cbn. do 3 f_equal. lia.
  - destruct k as [|k]; [cbn [length] in Hl; lia|]. cbn [args_loop lowest length] in *.
    pose proof (Forall_cons_1 _ _ _ (av_args _ _ _ Hav)) as [(Hs & Hp0 & Hp1 & Hlen & Hap & Hfuel) _].
    pose proof (lowest_le (pos - Z.of_nat (length s) - 1) l) as Hle. unfold TASK_SIZE in *.
    unfold load64. pose proof (av_slot _ _ _ Hav 0%nat p s eq_refl) as Hslot. rewrite Z.add_0_r in Hslot. rewrite Hslot.
    cbn [fmap option_fmap option_map mbind option_bind]. rewrite of_le_bytes. change (256 ^ Z.of_nat 8) with (2 ^ 64).
    rewrite Z.mod_small, (proj2 (Z.eqb_neq p 0)) by lia.
    destruct (strnlen_user_spec fuel p s 1024 c Hs) as (c1 & E1 & Er1); [lia|lia|lia|lia|]. rewrite E1. cbn [mbind option_bind fst snd].
    assert (Sys.strnlen_user p s 1024 = Z.of_nat (length s)) as ->.
    { unfold Sys.strnlen_user, verify_area, TASK_SIZE. rewrite u64_small, (proj2 (Z.leb_le (p + _) _)) by lia. cbn [Z.eqb].
      by rewrite (proj2 (Z.leb_le _ _)) by lia. }
    rewrite i32_small, u64_small by lia. set (q := pos - (Z.of_nat (length s) + 1)).
    assert (length (s ++ [0]) = (length s + 1)%nat) as Ls by (by rewrite length_app).
    destruct (strcpy_spec fuel q p s c1) as (c2 & E2 & Er2).
    { rewrite Er1. constructor; rewrite ?Ls; [lia|subst q; lia|apply Hs| |subst q; lia].
      apply mem_read_in. intros x Hx. apply Hmap. subst q. lia. }
    { apply Hs. }
    { apply Hs. }
    { lia. }
    rewrite E2. cbn [mbind option_bind snd].
    assert (forall x, is_Some (c.(ram) !! x) -> is_Some (c2.(ram) !! x)) as Hm2 by (intros x; rewrite Er2, Er1; apply mem_write_some).
    unfold store64. rewrite store_bytes_mapped by
      (rewrite le_bytes_length; apply mem_read_in; intros x Hx; apply Hm2, Hmap; lia).
    cbn [mbind option_bind]. set (m' := mem_write (dargv + 8 * i) (le_bytes 8 q) c2.(ram)).
    assert (forall x, x < q \/ pos <= x < dargv + 8 * i \/ dargv + 8 * i + 8 <= x -> m' !! x = c.(ram) !! x) as Hout.
    { intros x Hx. subst m'. rewrite mem_write_lookup_ne by (rewrite le_bytes_length; lia).
      rewrite Er2, Er1. apply mem_write_lookup_ne. rewrite Ls. subst q. lia. }
    destruct (IH k (i + 1) q (set_ram m' c2)) as (c' & E & O1 & O2 & O3 & O4); cbn [ram set_ram]; try lia.
    { subst q. replace (pos - (Z.of_nat (length s) + 1)) with (pos - Z.of_nat (length s) - 1) by lia. done. }
    { intros x Hx. subst m'. apply mem_write_some, Hm2, Hmap. lia. }
    { apply (argv_next c.(ram) m' i (p, s) l); [done| |cbn [length]; lia|done]. intros y Hy. apply Hout. subst q. lia. }
    cbn [ram set_ram] in *. exists c'. split_and!.
    + rewrite E. do 3 f_equal. lia.
    + intros x Hx. rewrite O1 by lia. apply Hout. subst q. lia.
    + intros x Hx. rewrite O2 by (subst q; lia). apply Hout. lia.
    + intros x Hx. apply O3. subst m'. by apply mem_write_some, Hm2.
    + intros [|j] p' s' Hj.
      * cbn in Hj. simplify_eq. exists q. rewrite Z.add_0_r. split_and!; [| |subst q; lia|subst q; lia].
        -- rewrite (mem_read_ext _ _ _ m') by (intros x Hx; apply O2; subst q; lia). apply mem_read_write_eq, le_bytes_length.
        -- apply (string_at_ram _ _ m'); [intros x Hx; symmetry; apply O2; subst q; lia|].
           destruct Hs as (_ & Hs2 & Hs3). split_and!; [|done|done]. subst m'.
           rewrite mem_read_write_ne by (rewrite ?le_bytes_length; subst q; lia). rewrite Er2, <- Ls. apply mem_read_write.
      * destruct (O4 j p' s' Hj) as (q' & Q1 & Q2 & Q3 & Q4). exists q'. split_and!; [|done|done|subst q; lia].
        rewrite <- Q1. f_equal. lia.
Qed.
End Args.

(** ** The program starts *)

Section Start.
Context {D M : Type} `{HF : Frames M} `{HI : InodeOps index_node}.
Context (root : Z) (inode_fops keyboard_fops : file_operations (D * mem)) (view : vm M -> mem -> mem) (junk : cpu).
Context (init_pgd : Z).
Implicit Types (s : sysstate (D * mem) M) (v : vm M).

Lemma walk_system path s r s' : Sys.walk root path s = Some (r, s') -> s'.(system) = s.(system).
Proof using Type. unfold Sys.walk. intros E0. inv_fault. done. Qed.

(** The file at [name] as seen by [do_execve] in state [s], with memory for its [struct file]. *)
Record found (name : list Z) s (dentry filp : Z) (i : index_node) s2 : Prop := {
  fo_walk : exists s1 h, Sys.walk root name s = Some (dentry, s1) /\ inode_of dentry s1 = Some i /\
    alloc sizeof_file s1.(tree).(heap) = Some (filp, h) /\
    s2 = set_files (<[filp := mkFile 0 O_RDONLY dentry false]> s1.(files)) (set_heap h s1);
  fo_dentry : dentry <> 0;
  fo_file : i.(attribute) <> FS_ATTR_DIR;
  fo_filp : 0 < filp <= u64 (- 0x1000)
}.

Lemma open_exec_file_found name s dentry filp i s2 : found name s dentry filp i s2 ->
  open_exec_file root name s = Some (filp, s2) /\ s2.(files) !! filp = Some (mkFile 0 O_RDONLY dentry false) /\
  inode_of dentry s2 = Some i /\ s2.(system) = s.(system).
Proof using Type.
  intros [(s1 & h & E1 & Ei & Ea & ->) Hd Hf Hfilp]. unfold open_exec_file. rewrite E1. cbn [mbind option_bind].
  rewrite (proj2 (Z.eqb_neq _ _) Hd), Ei. cbn [mbind option_bind]. rewrite (proj2 (Z.eqb_neq _ _) Hf).
  unfold sys_alloc. rewrite Ea. cbn [mbind option_bind fst snd]. rewrite (proj2 (Z.eqb_neq filp 0)) by lia.
  split_and!; [done|apply lookup_insert_eq|exact Ei|]. apply walk_system in E1. exact E1.
Qed.

(** What reading the whole file does; [FAT32_file_ops] does it. *)
Definition loads (i : index_node) (data : list Z) (d : D) : Prop := exists op, fop_read inode_fops = Some op /\
  Z.of_nat (length data) = i.(file_size) /\
  forall m, op i code_start_addr i.(file_size) 0 (d, m) = Some (i.(file_size), i.(file_size), (d, mem_write code_start_addr data m)).

(** C19. [do_execve] of a file that is found starts the program as its first instructions expect it:
    the contents of the file from the entry address on, zeros between them and the stack pointer,
    above it the arguments and the array of pointers to them, whose number and address are in [rdi]
    and [rsi]; it runs in user mode with the entry in [r10] and the stack in [r11].  User memory
    outside of the page of the code is left alone, and the task no longer shares its address space. *)
Theorem do_execve_spec fuel regs name argv t v s v1 mm dentry filp i s2 l data :
  exec_mm init_pgd t.(e_flags) (set_vheap s.(tree).(heap) v) = Some v1 -> v1.(mms) !! v1.(cmm) = Some mm ->
  let m := view v1 (snd s.(system)) in
  found name (set_heap v1.(vheap) (set_user_memory m s)) dentry filp i s2 ->
  (forall x, code_start_addr <= x < stack_start_addr -> is_Some (m !! x)) ->
  let dargv := stack_start_addr - 80 in let lo := lowest dargv l in
  argv <> 0 -> (length l <= 10)%nat -> argv_ok fuel argv dargv lo m 0 l ->
  code_start_addr + i.(file_size) <= lo - 10 -> 0 <= i.(file_size) -> loads i data (fst s.(system)) -> 2 ^ 21 + 14 <= Z.of_nat fuel ->
  exists v' s', do_execve root inode_fops keyboard_fops view junk init_pgd fuel regs name argv t v s =
      Some (i.(file_size), start_regs code_start_addr (lo - 10) (set_args (Z.of_nat (length l)) dargv regs),
        mkExec (t.(e_flags) .& .~ PF_VFORK) (if t.(e_flags) .& PF_KTHREAD =? 0 then TASK_SIZE else t.(e_addr_limit)), v', s') /\
    let m' := snd s'.(system) in
    mem_read code_start_addr (length data) m' = Some data /\
    (forall x, code_start_addr + i.(file_size) <= x < lo - 10 -> m' !! x = Some 0) /\
    (forall j p a, l !! j = Some (p, a) -> exists q, mem_read (dargv + 8 * Z.of_nat j) 8 m' = Some (le_bytes 8 q) /\
      string_at q a m' /\ lo <= q < dargv) /\
    (forall x, x < code_start_addr \/ stack_start_addr <= x -> m' !! x = m !! x) /\
    v'.(mms) !! v'.(cmm) = Some (exec_fields i.(file_size) mm).
Proof using Type.
  intros Ev Hmm m Hfo Hmap dargv lo Hargv Hl Hav Hsize Hsize0 (op & Hop & Hdata & Hload) Hfuel.
  destruct (open_exec_file_found _ _ _ _ _ _ Hfo) as (Eo & Ef & Ei & Es). cbn [system set_heap set_tree set_user_memory set_system] in Es.
  unfold do_execve. rewrite Ev. cbn [mbind option_bind]. fold m. rewrite Eo. cbn [mbind option_bind].
  pose proof (fo_filp _ _ _ _ _ _ Hfo) as Hfilp. rewrite (proj2 (Z.ltb_ge _ filp)), Ef by lia. cbn [mbind option_bind f_dentry].
  rewrite Ei. cbn [mbind option_bind]. unfold exec_layout. cbn [mms cmm set_vheap]. rewrite Hmm. cbn [mbind option_bind].
  unfold exec_args. rewrite (proj2 (Z.eqb_neq _ _) Hargv), Es. cbn [snd]. fold dargv.
  unfold code_start_addr, stack_start_addr in *. 
  destruct (args_loop_spec fuel argv dargv lo l 10 0 dargv (set_ram m junk)) as (c1 & E1 & O1 & O2 & O3 & O4); cbn [ram set_ram] in *;
    try done; try (unfold TASK_SIZE; lia).
  { intros x Hx. apply Hmap. subst dargv. lia. }
  rewrite E1. cbn [mbind option_bind snd]. pose proof (lowest_le dargv l) as Hle. fold lo in Hle.
  assert (lo .- 10 = lo - 10) as -> by (apply u64_small; subst dargv; lia).
  assert (lo - 10 .- 0x800000 = Z.of_nat (Z.to_nat (lo - 10 - 0x800000))) as -> by (rewrite u64_small; subst dargv; lia).
  destruct (memset_spec fuel 0x800000 0 (Z.to_nat (lo - 10 - 0x800000)) c1) as (c2 & E2 & Er2); try (subst dargv; lia).
  { apply mem_read_in. intros x Hx. apply O3, Hmap. subst dargv. lia. }
  rewrite E2. cbn [mbind option_bind snd]. unfold f_ops. cbn [f_keyboard]. rewrite Hop. cbn [mbind option_bind].
  cbn [system set_user_memory set_system]. rewrite Es. cbn [fst]. rewrite Hload. cbn [mbind option_bind].
  rewrite (u64_small i.(file_size)) by (subst dargv; lia).
  eexists _, _. split; [rewrite Z.add_0_l; reflexivity|]. cbn [system set_system snd mms cmm set_mms set_vheap].
  rewrite Er2. change (u8 0) with 0. set (n := Z.to_nat (lo - 10 - 0x800000)).
  assert (forall x, x < 0x800000 \/ lo - 10 <= x -> mem_write 0x800000 data (mem_write 0x800000 (replicate n 0) c1.(ram)) !! x = c1.(ram) !! x) as Hout.
  { intros x Hx. rewrite !mem_write_lookup_ne by (rewrite ?length_replicate; subst n; lia). done. }
  split_and!.
  - apply mem_read_write.
  - intros x Hx. rewrite mem_write_lookup_ne by lia.
    assert (mem_read 0x800000 n (mem_write 0x800000 (replicate n 0) c1.(ram)) = Some (replicate n 0)) as Hz by
      (apply mem_read_write_eq, length_replicate).
    replace x with (0x800000 + Z.of_nat (Z.to_nat (x - 0x800000))) by lia.
    rewrite (mem_read_lookup _ _ _ _ _ Hz) by (subst n; lia). apply lookup_replicate. subst n. lia.
  - intros j p a Hj. destruct (O4 j p a Hj) as (q & Q1 & Q2 & Q3 & Q4). exists q. rewrite Z.add_0_l in Q1.
    split_and!; [|apply (string_at_ram _ _ c1.(ram)); [|done]|done|lia].
    + rewrite <- Q1. apply mem_read_ext. intros x Hx. apply Hout. subst dargv. lia.
    + intros x Hx. symmetry. apply Hout. lia.
  - intros x Hx. rewrite Hout by (subst dargv; lia). apply O1. subst dargv. lia.
  - apply lookup_insert_eq.
Qed.

(** When the file is not found nothing is started, but the address space has been changed already:
    after [vfork] it is a new one, and user memory is what its fresh page holds. *)
Lemma do_execve_not_found fuel regs name argv t v s v1 s1 :
  exec_mm init_pgd t.(e_flags) (set_vheap s.(tree).(heap) v) = Some v1 ->
  Sys.walk root name (set_heap v1.(vheap) (set_user_memory (view v1 (snd s.(system))) s)) = Some (0, s1) ->
  exists v', do_execve root inode_fops keyboard_fops view junk init_pgd fuel regs name argv t v s =
    Some (u64 (- ENOENT), regs, t, v', s1) /\ v'.(cmm) = v1.(cmm) /\ v'.(Paging.words) = v1.(Paging.words) /\
    snd s1.(system) = view v1 (snd s.(system)).
Proof using Type.
  intros Ev Ew. unfold do_execve, open_exec_file. rewrite Ev. cbn [mbind option_bind]. rewrite Ew. cbn [mbind option_bind].
  eexists. split; [reflexivity|]. split_and!; [done|done|]. apply walk_system in Ew. by rewrite Ew.
Qed.
End Start.

(** Reading a FAT32 file whose clusters are linked loads it. *)
Lemma FAT32_loads {D} `{BlockDeviceLaws D} fuel fsbi junk before i d cs data :
  cluster_ok fsbi -> i.(private_index_info).(first_cluster) <> 0 ->
  linked_clusters fsbi d (i.(private_index_info).(first_cluster) :: cs) ->
  file_content fsbi d (i.(private_index_info).(first_cluster) :: cs) = Some data ->
  0 < i.(file_size) <= Z.of_nat (length data) -> Z.of_nat (length data) < 2 ^ 31 ->
  buf_ok code_start_addr i.(file_size) ->
  loads (FAT32_file_ops fuel fsbi junk before) i (take (Z.to_nat i.(file_size)) data) d.
Proof.
  intros Hok Hc Hl Hd Hs Hmax Hb. eexists. split; [reflexivity|]. split; [rewrite length_take; lia|]. intros m.
  cbn [fst snd]. rewrite (FAT32_read_correct fsbi i code_start_addr i.(file_size) 0 d m cs data) by (done || lia).
  rewrite Z.sub_0_r, Z.min_id. cbn [mbind option_bind]. done.
Qed.

(** ** The program "/D/ABC.TXT" of [Vfs] with the arguments "a" and "b" *)

#[local] Existing Instance tree_ops.

(** A file whose bytes are all 144; the page of the code; the caller's strings and [argv]. *)
Definition nop_fops : file_operations (ramdisk * mem) :=
  mkFops None None (Some (fun i buf count pos x =>
    Some (i.(file_size), i.(file_size), (fst x, mem_write buf (replicate (Z.to_nat i.(file_size)) 144) (snd x))))) None None None.
Definition caller_ram : mem :=
  mem_write 0xc00000 [97; 0; 98; 0] (mem_write 0xc01000 (le_bytes 8 0xc00000 ++ le_bytes 8 0xc00002 ++ le_bytes 8 0) ∅).
Definition page_bytes : nat := Z.to_nat 0x200000.
Definition exec_fuel : nat := Z.to_nat 0x400000.
Definition code_page : list Z := replicate page_bytes 7.
Definition exec_ram : mem := mem_write code_start_addr code_page caller_ram.
Local Notation exec_sys :=
  (mkSys (mkVfs vfs_demo.(dentries) vfs_demo.(vnodes) vm_run.(vheap)) ∅ (repeat 0 10) (tree_disk, exec_ram)).
Definition exec_regs : pt_regs := mkRegs 0 0 0 0 0 0 0 0 0 0 0 0 0 0 48 48 7 0 0 0 40 512 0x9ff000 48.
Definition exec_args_demo : list (Z * list Z) := [(0xc00000, [97]); (0xc00002, [98])].

Lemma page_bytes_size : Z.of_nat page_bytes = 0x200000 /\ Z.of_nat exec_fuel = 0x400000.
Proof. unfold page_bytes, exec_fuel. rewrite !Z2Nat.id; done. Qed.

#[local] Opaque page_bytes exec_fuel.

Lemma exec_ram_outside a n : 0xa00000 <= a -> mem_read a n exec_ram = mem_read a n caller_ram.
Proof.
  intros Ha. unfold exec_ram. apply mem_read_write_ne. right. unfold code_page. rewrite length_replicate.
  unfold code_start_addr. pose proof page_bytes_size. lia.
Qed.

Lemma exec_ram_mapped x : code_start_addr <= x < stack_start_addr -> is_Some (exec_ram !! x).
Proof.
  intros Hx. unfold exec_ram. apply mem_write_inside. unfold code_page. rewrite length_replicate, (proj1 page_bytes_size).
  unfold code_start_addr, stack_start_addr in *. lia.
Qed.

#[local] Opaque code_page exec_ram.

Lemma exec_string_ok lo fuel p b : (100 <= fuel)%nat -> 0xa00000 <= p < 0xc00003 -> 0 < b < 256 -> mem_read p 2 caller_ram = Some [b; 0] ->
  argument_ok fuel (stack_start_addr - 80) lo exec_ram (p, [b]).
Proof.
  intros Hf Hp Hb Hr. unfold argument_ok. cbn [length]. unfold TASK_SIZE, stack_start_addr. split_and!; try lia.
  split_and!; [|constructor; [lia|constructor]|constructor; [lia|constructor]].
  cbn [length Nat.add app]. rewrite exec_ram_outside by lia. exact Hr.
Qed.

Lemma exec_args_demo_ok lo fuel : (100 <= fuel)%nat -> argv_ok fuel 0xc01000 (stack_start_addr - 80) lo exec_ram 0 exec_args_demo.
Proof.
  intros Hf. constructor.
  - intros [|[|j]] p s Hj; [| |discriminate Hj]; injection Hj as <- <-; rewrite exec_ram_outside by lia; vm_compute; reflexivity.
  - intros _. cbn [length exec_args_demo]. rewrite exec_ram_outside by lia. vm_compute. reflexivity.
  - unfold exec_args_demo. constructor; [|constructor; [|constructor]]; apply exec_string_ok; try lia; vm_compute; reflexivity.
  - right. unfold stack_start_addr. lia.
Qed.

(** What the address space and the file are like, whatever user memory holds. *)
Definition exec_start (v : vm pool) (m : mem) : option (Z * Z * Z * Z) :=
  _ ← v.(mms) !! v.(cmm);
  r ← Sys.walk 1000 demo_path (mkSys (mkVfs vfs_demo.(dentries) vfs_demo.(vnodes) v.(vheap)) ∅ (repeat 0 10) (tree_disk, m));
  i ← inode_of (fst r) (snd r);
  a ← alloc sizeof_file (snd r).(tree).(heap);
  Some (fst r, fst a, i.(file_size), i.(attribute)).

Lemma exec_start_memory v m : exec_start v m = exec_start v ∅.
Proof. unfold exec_start, Sys.walk. destruct (_ !! _); [|reflexivity]. cbn [tree mbind option_bind]. by destruct (path_walk _ _ _ _) as [[a t]|]. Qed.

Lemma exec_starts : exists v1, exec_mm (Virt_To_Phy (object_at 1)) 0 (set_vheap vm_run.(vheap) vm_run) = Some v1 /\
  exec_start v1 ∅ = Some (0xffff800040038000, 0xffff800040048000, 600, 1).
Proof.
  assert ((v ← exec_mm (Virt_To_Phy (object_at 1)) 0 (set_vheap vm_run.(vheap) vm_run); exec_start v ∅) =
    Some (0xffff800040038000, 0xffff800040048000, 600, 1)) as E by (vm_compute; reflexivity).
  apply bind_Some in E as (v1 & E1 & E2). exists v1. split; [exact E1|exact E2].
Qed.

Lemma exec_start_found v m n : exec_start v m = Some n -> exists mm i s2, v.(mms) !! v.(cmm) = Some mm /\
  n = (n.1.1.1, n.1.1.2, i.(file_size), i.(attribute)) /\
  (n.1.1.1 <> 0 -> i.(attribute) <> FS_ATTR_DIR -> 0 < n.1.1.2 <= u64 (- 0x1000) ->
  found 1000 demo_path (mkSys (mkVfs vfs_demo.(dentries) vfs_demo.(vnodes) v.(vheap)) ∅ (repeat 0 10) (tree_disk, m)) n.1.1.1 n.1.1.2 i s2).
Proof.
  unfold exec_start. intros E. apply bind_Some in E as (mm & Em & E). apply bind_Some in E as ([dentry s1] & Ew & E).
  apply bind_Some in E as (i & Ei & E). apply bind_Some in E as ([filp h] & Ea & E). injection E as <-.
  exists mm, i. eexists. split; [exact Em|]. split; [reflexivity|]. cbn [fst snd]. intros H1 H2 H3.
  constructor; [|exact H1|exact H2|exact H3]. exists s1, h. split; [exact Ew|]. split; [exact Ei|]. split; [exact Ea|reflexivity].
Qed.

(** The inputs under names that nothing unfolds: their page has two million bytes. *)
Lemma exec_inputs : exists v m fuel, vm_run = v /\ exec_ram = m /\ exec_fuel = fuel /\
  (exists v1, exec_mm (Virt_To_Phy (object_at 1)) 0 (set_vheap v.(vheap) v) = Some v1 /\
    exec_start v1 m = Some (0xffff800040038000, 0xffff800040048000, 600, 1)) /\
  (forall x, code_start_addr <= x < stack_start_addr -> is_Some (m !! x)) /\
  (forall lo, argv_ok fuel 0xc01000 (stack_start_addr - 80) lo m 0 exec_args_demo) /\ 2 ^ 21 + 14 <= Z.of_nat fuel.
Proof.
  pose proof (proj2 page_bytes_size). exists vm_run, exec_ram, exec_fuel.
  refine (conj eq_refl (conj eq_refl (conj eq_refl (conj _ (conj exec_ram_mapped (conj _ _)))))).
  - destruct exec_starts as (v1 & E1 & E2). exists v1. split; [exact E1|]. rewrite exec_start_memory. exact E2.
  - intros lo. apply exec_args_demo_ok. lia.
  - lia.
Qed.

Lemma do_execve_spec_witness : exists v' s',
  do_execve 1000 nop_fops nop_fops (fun _ m => m) cpu0 (Virt_To_Phy (object_at 1)) exec_fuel exec_regs demo_path 0xc01000
    (mkExec 0 0) vm_run exec_sys =
    Some (600, start_regs code_start_addr 0x9fffa2 (set_args 2 0x9fffb0 exec_regs), mkExec 0 TASK_SIZE, v', s') /\
  exists q, mem_read 0x9fffb8 8 (snd s'.(system)) = Some (le_bytes 8 q) /\ string_at q [98] (snd s'.(system)).
Proof.
  destruct exec_inputs as (v & m & fuel & -> & -> & -> & (v1 & Ev & Es) & Hmap & Hav & Hfuel).
  destruct (exec_start_found _ _ _ Es) as (mm & i & s2 & Emm & Ei & Hfo). cbn [fst snd] in Ei, Hfo. injection Ei as Esz Eat.
  destruct (do_execve_spec 1000 nop_fops nop_fops (fun _ m => m) cpu0 (Virt_To_Phy (object_at 1)) fuel exec_regs demo_path
    0xc01000 (mkExec 0 0) v (mkSys (mkVfs vfs_demo.(dentries) vfs_demo.(vnodes) v.(vheap)) ∅ (repeat 0 10) (tree_disk, m))
    v1 mm 0xffff800040038000 0xffff800040048000 i s2 exec_args_demo (replicate (Z.to_nat 600) 144)) as (v' & s' & E & _ & _ & Hargs & _).
  - exact Ev.
  - exact Emm.
  - apply Hfo; [discriminate|rewrite <- Eat; discriminate|split; [reflexivity|discriminate]].
  - exact Hmap.
  - discriminate.
  - cbn. lia.
  - apply Hav.
  - rewrite <- Esz. vm_compute. discriminate.
  - rewrite <- Esz. discriminate.
  - eexists. split; [reflexivity|]. split; [rewrite <- Esz; reflexivity|]. intros x. rewrite <- Esz. reflexivity.
  - exact Hfuel.
  - exists v', s'. rewrite <- Esz in E. split; [exact E|].
    destruct (Hargs 1%nat 0xc00002 [98] eq_refl) as (q & Q1 & Q2 & _). exists q. split; [exact Q1|exact Q2].
Defined.
