(* ===== verification/Kmap.v ===== *)
(** * The kernel's half of the address space (APIC.c, printk.c, task.c)

    The start-up maps the registers of the I/O APIC and the frame buffer uncached, and [task_init]
    fills the kernel's half of the top table, so that every address space made later shares it.  The
    first two use tables that [kmalloc] gave them without clearing them. *)

From S2P Require Import Prelude Klist PageAlloc Alloc Paging Mm Pool.

Local Open Scope Z_scope.
Local Open Scope cint_scope.

Definition PAGE_PWT : Z := 0x8.
Definition PAGE_PCD : Z := 0x10.

(** The attributes of both mappings. *)
Definition PAGE_DEVICE : Z := PAGE_KERNEL_Page .| PAGE_PWT .| PAGE_PCD.

Record IOAPIC_map := mkIoMap {
  physical_address : Z; virtual_index_address : Z; virtual_data_address : Z; virtual_EOI_address : Z
}.

Section Kmap.
Context {M : Type} `{Frames M}.
Implicit Type s : vm M.

(** [virtual = kmalloc ...; set_pdpt(tmp, ...)] if [*tmp == 0]: the new table is not cleared, and
    [virtual] not compared with NULL. *)
Definition raw_table (attr tmp : Z) s : option (vm M) :=
  if s.(words) tmp =? 0 then
    r ← alloc PAGE_4K_SIZE s.(vheap);
    let '(virtual, h) := r in
    Some (set_words (store tmp (mk_pdpt (Virt_To_Phy virtual) attr) s.(words)) (set_vheap h s))
  else Some s.

(** [gdt] is what [Get_gdt] reads from [cr3]. *)
Definition IOAPIC_pagetable_remap (gdt : Z) s : option (IOAPIC_map * vm M) :=
  let IOAPIC_addr := Phy_To_Virt 0xfec00000 in
  let ioapic_map := mkIoMap 0xfec00000 IOAPIC_addr (IOAPIC_addr .+ 0x10) (IOAPIC_addr .+ 0x40) in
  let tmp := Phy_To_Virt (gdt .+ 8 * ((IOAPIC_addr .>> PAGE_GDT_SHIFT) .& 0x1ff)) in
  s ← raw_table PAGE_KERNEL_GDT tmp s;
  let tmp := entry (s.(words) tmp) PAGE_1G_SHIFT IOAPIC_addr in
  s ← raw_table PAGE_KERNEL_Dir tmp s;
  let tmp := entry (s.(words) tmp) PAGE_2M_SHIFT IOAPIC_addr in
  Some (ioapic_map, set_words (store tmp (mk_pdt ioapic_map.(physical_address) PAGE_DEVICE) s.(words)) s).

(** The loop of [frame_buffer_init]; [tmp] is the slot of the table of the pages. *)
Fixpoint frame_buffer_loop (fuel : nat) (i FB_length tmp : Z) s : option (vm M) :=
  match fuel with
  | O => None
  | S fuel =>
      if i <? FB_length then
        let tmp1 := entry (s.(words) tmp) PAGE_2M_SHIFT (Phy_To_Virt 0xe0000000 .+ i) in
        let phy := 0xe0000000 .+ i in
        let s := set_words (store tmp1 (mk_pdt phy PAGE_DEVICE) s.(words)) s in
        frame_buffer_loop fuel (i .+ PAGE_2M_SIZE) FB_length tmp s
      else Some s
  end.

(** The value is the new [Pos.FB_addr]. *)
Definition frame_buffer_init (fuel : nat) (gdt FB_length : Z) s : option (Z * vm M) :=
  let FB_addr := Phy_To_Virt 0xe0000000 in
  let tmp := entry gdt PAGE_GDT_SHIFT FB_addr in
  s ← raw_table PAGE_KERNEL_GDT tmp s;
  let tmp := entry (s.(words) tmp) PAGE_1G_SHIFT FB_addr in
  s ← raw_table PAGE_KERNEL_Dir tmp s;
  s ← frame_buffer_loop fuel 0 FB_length tmp s;
  Some (Phy_To_Virt 0xe0000000, s).

(** The page tables of [task_init]: the first slot of the top table is emptied, and each slot of the
    kernel's half gets a table. *)
Definition task_init_tables (gdt : Z) s : option (vm M) :=
  let vaddr := Phy_To_Virt (gdt .& .~ 0xfff) in
  let s := set_words (store vaddr 0 s.(words)) s in
  for_each (fun i => ensure_table PAGE_KERNEL_GDT (vaddr .+ 8 * i)) (range 256 512) s.
End Kmap.

(** ** What the mappings do *)

Section Maps.
Context {M : Type} `{HF : Frames M} `{HL : !AllocatorLaws M} `{HP : !PagingLaws M}.
Implicit Type s : vm M.
Implicit Type L : gmap (list Z) Z.
Context (gdt : Z).
Notation root := (table_of gdt).
Notation kernel_ok s L := (pt_ok s.(words) (tables s.(vheap)) root 256 512 L).

(** A slot that leads to a table is left alone. *)
Lemma raw_table_there s L k i t t' attr : kernel_ok s L -> L !! k = Some t -> L !! (i :: k) = Some t' ->
  raw_table attr (t + 8 * i) s = Some s.
Proof using Type.
  intros K Hk Hik. destruct (pk_path _ _ _ _ _ _ K _ _ _ Hik) as (_ & Hl & Hs).
  pose proof (pk_link _ _ _ _ _ _ K _ _ _ Hk Hl Hs) as Hlink. rewrite Hik in Hlink.
  destruct (pk_table _ _ _ _ _ _ K _ _ Hik) as [Ht' _].
  destruct (leads_to_table _ _ Ht' Hlink) as (_ & _ & Hne). unfold raw_table. by rewrite (proj2 (Z.eqb_neq _ _) Hne).
Qed.

(** The slots for an address whose tables are there. *)
Lemma slots_there s L va t : kernel_ok s L -> slot 256 512 [] (index PAGE_GDT_SHIFT va) ->
  L !! [index PAGE_1G_SHIFT va; index PAGE_GDT_SHIFT va] = Some t ->
  exists t1, L !! [index PAGE_GDT_SHIFT va] = Some t1 /\ L !! [] = Some root /\
    entry gdt PAGE_GDT_SHIFT va = root + 8 * index PAGE_GDT_SHIFT va /\
    entry (s.(words) (root + 8 * index PAGE_GDT_SHIFT va)) PAGE_1G_SHIFT va = t1 + 8 * index PAGE_1G_SHIFT va /\
    entry (s.(words) (t1 + 8 * index PAGE_1G_SHIFT va)) PAGE_2M_SHIFT va = t + 8 * index PAGE_2M_SHIFT va.
Proof using Type.
  intros K Hs Ht. pose proof (pk_root _ _ _ _ _ _ K) as Hr.
  destruct (pk_path _ _ _ _ _ _ K _ _ _ Ht) as ([t1 Ht1] & _ & _). exists t1.
  destruct (pk_table _ _ _ _ _ _ K _ _ Hr) as [Vr _]. destruct (pk_table _ _ _ _ _ _ K _ _ Ht1) as [V1 _].
  destruct (pk_table _ _ _ _ _ _ K _ _ Ht) as [V2 _].
  pose proof (pk_link _ _ _ _ _ _ K [] root _ Hr ltac:(cbn; lia) Hs) as L1. rewrite Ht1 in L1.
  pose proof (pk_link _ _ _ _ _ _ K [_] t1 (index PAGE_1G_SHIFT va) Ht1 ltac:(cbn; lia) (index_range _ _)) as L2.
  rewrite Ht in L2. destruct (leads_to_table _ _ V1 L1) as (E1 & _). destruct (leads_to_table _ _ V2 L2) as (E2 & _).
  split_and!; try done; rewrite entry_slot; rewrite ?E1, ?E2; done.
Qed.

(** The entry of a page of the direct map is set. *)
Lemma set_page s L t p e : kernel_ok s L -> 0 <= p < 2 ^ 47 ->
  L !! [index PAGE_1G_SHIFT (Phy_To_Virt p); index PAGE_GDT_SHIFT (Phy_To_Virt p)] = Some t ->
  let s' := set_words (store (t + 8 * index PAGE_2M_SHIFT (Phy_To_Virt p)) e s.(words)) s in
  kernel_ok s' L /\ (forall q, 0 <= q < 2 ^ 47 -> walk s'.(words) gdt (Phy_To_Virt q) =
    if decide (q / 2 ^ 21 = p / 2 ^ 21) then e else walk s.(words) gdt (Phy_To_Virt q)).
Proof using Type.
  intros K Hp Ht s'. destruct (set_leaf gdt 256 512 s.(words) _ L _ _ (index PAGE_2M_SHIFT (Phy_To_Virt p)) t e K Ht
    (index_range _ _)) as [K' Hleaf]. split; [done|]. intros q Hq.
  assert (kernel_ok s' L) as K2 by done. erewrite !walk_leaf by (done || by apply direct_slot).
  unfold leaf_at, s'. cbn [words set_words]. rewrite Hleaf by apply index_range.
  destruct (direct_index p Hp) as (_ & I1 & I2 & I3). destruct (direct_index q Hq) as (_ & J1 & J2 & J3).
  rewrite I1, I2, I3, J1, J2, J3. pose proof (same_page q p Hq Hp) as Hsame. destruct (decide (q / _ = _)) as [E|E].
  - apply Hsame in E as [= -> -> ->]. by rewrite decide_True.
  - rewrite decide_False; [done|]. intros [= H1 H2 H3]. apply E, Hsame. f_equal; [f_equal|]; lia.
Qed.

(** The translation through such an entry; [p] is the page, [q] an address in it. *)
Lemma device_page w p q : valid_frame p -> 0 <= q < 2 ^ 47 -> q / 2 ^ 21 = p / 2 ^ 21 ->
  walk w gdt (Phy_To_Virt q) = mk_pdt p PAGE_DEVICE -> translate w gdt (Phy_To_Virt q) = Some q.
Proof using Type.
  intros (F1 & F2 & F3) Hq E Hw. unfold translate. rewrite Hw.
  assert (mk_pdt p PAGE_DEVICE = p + 0x9b) as ->.
  { unfold mk_pdt. change PAGE_DEVICE with 0x9b. apply (lor_low _ _ 21); lia. }
  assert (p = 2 ^ 21 * (q / 2 ^ 21)) as -> by (rewrite E; pose proof (Z.div_mod p (2 ^ 21)); lia).
  assert (present (2 ^ 21 * (q / 2 ^ 21) + 0x9b) = true) as ->.
  { unfold present. change PAGE_Present with (Z.ones 1). rewrite Z.land_ones by lia.
    replace (2 ^ 21 * (q / 2 ^ 21) + 0x9b) with (0x9b + (2 ^ 20 * (q / 2 ^ 21)) * 2 ^ 1) by lia.
    by rewrite Z_mod_plus_full. }
  replace (2 ^ 21 * (q / 2 ^ 21) + 0x9b) with (0x9b + q / 2 ^ 21 * 2 ^ 21) by lia.
  rewrite Z_div_plus_full, (Z.div_small 0x9b) by lia. destruct (direct_index q Hq) as (-> & _).
  change PAGE_OFFSET with (33554176 * 512 * 512 * 2 ^ 21).
  rewrite (Z.add_comm (33554176 * 512 * 512 * 2 ^ 21)), Z_mod_plus_full. f_equal. pose proof (Z.div_mod q (2 ^ 21)). lia.
Qed.

(** A missing table of pages: the new one holds what its memory held. *)
Lemma raw_leaf_table s L i4 i3 t1 n c : kernel_ok s L -> L !! [i4] = Some t1 -> L !! [i3; i4] = None ->
  0 <= i3 < 512 -> capacity s.(vheap) (S n) c ->
  exists v s', raw_table PAGE_KERNEL_Dir (t1 + 8 * i3) s = Some s' /\ v ∉ live s.(vheap) /\
    kernel_ok s' (<[ [i3; i4] := v ]> L) /\ capacity s'.(vheap) n c /\
    (forall j4 j3 j2, 0 <= j2 < 512 -> leaf s'.(words) (<[ [i3; i4] := v ]> L) j4 j3 j2 =
      if decide ((j4, j3) = (i4, i3)) then s.(words) (v + 8 * j2) else leaf s.(words) L j4 j3 j2).
Proof using Type.
  intros K Ht1 Hn Hi Hc. destruct (alloc_capacity PAGE_4K_SIZE _ _ _ ltac:(done) Hc) as (v & h & E & Hv0 & Hc').
  destruct (alloc_table _ _ _ E Hv0) as [Hv HT]. destruct (alloc_live _ _ _ _ E) as [[? _]|(_ & Hl & _)]; [done|].
  assert (v ∉ tables s.(vheap)) as HvT by (intros Hx; by apply Hl, tables_live).
  destruct (pk_table _ _ _ _ _ _ K _ _ Ht1) as [V1 T1].
  pose proof (pk_link _ _ _ _ _ _ K [i4] t1 i3 Ht1 ltac:(cbn; lia) Hi) as Hlink. rewrite Hn in Hlink.
  assert (forall x i, valid_table x -> x ∈ tables s.(vheap) -> 0 <= i < 512 -> ~ v <= x + 8 * i < v + PAGE_4K_SIZE) as Hout.
  { intros x i (_ & _ & M1) Hx Hi' Hr. assert (x <> v) as Hne by congruence. destruct Hv as (_ & _ & M2).
    change PAGE_4K_SIZE with (2 ^ 12) in Hr.
    pose proof (Z.div_mod x (2 ^ 12) ltac:(lia)). pose proof (Z.div_mod v (2 ^ 12) ltac:(lia)). lia. }
  assert (t1 <> v) as Hne1 by congruence.
  unfold raw_table. rewrite Hlink, Z.eqb_refl, E. eexists v, _. split; [reflexivity|]. split; [exact Hl|].
  cbn [words vheap set_words set_vheap]. rewrite HT. set (w' := store _ _ _). split; [|split; [exact Hc'|]].
  - eapply pt_ok_frame; [eapply (grow_ok s.(words) _ root 256 512 L [i4] t1 i3 v PAGE_KERNEL_Dir); try done; [cbn; lia|by left]|done|].
    intros k t i Hk Hlen Hs. apply (slot_range 256 512 _ _ ltac:(lia) ltac:(lia)) in Hs.
    apply lookup_insert_Some in Hk as [[<- _]|[_ Hk]]; [cbn in Hlen; lia|].
    destruct (pk_table _ _ _ _ _ _ K _ _ Hk) as [Vt Tt]. unfold w', grow, store.
    by rewrite memset0_out by (by apply Hout).
  - intros j4 j3 j2 Hj. unfold leaf. destruct (decide _) as [[= -> ->]|Hne].
    + rewrite lookup_insert_eq. apply store_ne. intros Ex. by apply slots_apart in Ex as [? _].
    + rewrite lookup_insert_ne by congruence. destruct (L !! [j3; j4]) as [t|] eqn:Et; [|done].
      apply store_ne. intros Ex. destruct (pk_table _ _ _ _ _ _ K _ _ Et) as [Vt _].
      apply slots_apart in Ex as [-> _]; try done. pose proof (pk_inj _ _ _ _ _ _ K _ _ _ Et Ht1) as Hk. discriminate.
Qed.

(** ** The registers of the I/O APIC *)

Hypothesis gdt_page : gdt .& .~ 0xfff = gdt.

Notation io_page := 0xfec00000.

Lemma io_slots : index PAGE_GDT_SHIFT (Phy_To_Virt io_page) = 256 /\ index PAGE_1G_SHIFT (Phy_To_Virt io_page) = 3 /\
  index PAGE_2M_SHIFT (Phy_To_Virt io_page) = 502.
Proof using Type. by vm_compute. Qed.

(** [IOAPIC_pagetable_remap] with the tables there: the three registers are reached, uncached, at the
    addresses that are returned, every other page of the direct map is as before. *)
Theorem ioapic_mapped s L : kernel_ok s L -> is_Some (L !! [3; 256]) ->
  exists m s', IOAPIC_pagetable_remap gdt s = Some (m, s') /\ kernel_ok s' L /\ s'.(vheap) = s.(vheap) /\
    translate s'.(words) gdt m.(virtual_index_address) = Some 0xfec00000 /\
    translate s'.(words) gdt m.(virtual_data_address) = Some 0xfec00010 /\
    translate s'.(words) gdt m.(virtual_EOI_address) = Some 0xfec00040 /\
    (forall q, 0 <= q < 2 ^ 47 -> walk s'.(words) gdt (Phy_To_Virt q) =
      if decide (q / 2 ^ 21 = io_page / 2 ^ 21) then io_page + 0x9b else walk s.(words) gdt (Phy_To_Virt q)).
Proof using gdt_page.
  intros K [t Ht]. destruct io_slots as (I4 & I3 & I2).
  destruct (slots_there s L (Phy_To_Virt io_page) t K) as (t1 & Ht1 & Hr & E4 & E3 & E2);
    [apply direct_slot; lia|rewrite I3, I4; exact Ht|].
  destruct (set_page s L t io_page (mk_pdt io_page PAGE_DEVICE) K) as [K' W]; [lia|rewrite I3, I4; exact Ht|].
  set (s' := set_words _ _) in *. eexists _, s'. split.
  { unfold IOAPIC_pagetable_remap. rewrite <- gdt_page. change (Phy_To_Virt (_ .+ _)) with
      (entry gdt PAGE_GDT_SHIFT (Phy_To_Virt io_page)). rewrite E4, (raw_table_there s L [] _ _ t1) by (done || by rewrite I4).
    cbn [mbind option_bind]. rewrite E3, (raw_table_there s L [_] _ _ t) by (done || by rewrite I4, ?I3).
    cbn [mbind option_bind]. by rewrite E2. }
  assert (valid_frame io_page) as F by (split_and!; [lia|lia|reflexivity]).
  assert (forall q, q / 2 ^ 21 = io_page / 2 ^ 21 -> 0 <= q < 2 ^ 47 ->
    translate s'.(words) gdt (Phy_To_Virt q) = Some q) as T.
  { intros q Eq Hq. apply (device_page _ io_page); [exact F|exact Hq|exact Eq|].
    rewrite W, decide_True by assumption. reflexivity. }
  split; [exact K'|]. split; [reflexivity|]. split; [|split; [|split; [|exact W]]].
  - apply (T 0xfec00000); [reflexivity|lia].
  - apply (T 0xfec00010); [reflexivity|lia].
  - apply (T 0xfec00040); [reflexivity|lia].
Qed.

(** ** The frame buffer *)

Notation fb := 0xe0000000.

Lemma fb_index i : 0 <= i < 2 ^ 29 -> Phy_To_Virt fb .+ i = Phy_To_Virt (fb + i) /\
  index PAGE_GDT_SHIFT (Phy_To_Virt (fb + i)) = 256 /\ index PAGE_1G_SHIFT (Phy_To_Virt (fb + i)) = 3.
Proof using Type.
  intros Hi. split.
  { unfold Phy_To_Virt. rewrite u64_add_l. f_equal. lia. }
  destruct (direct_index (fb + i) ltac:(lia)) as (_ & -> & -> & _). unfold index, PAGE_GDT_SHIFT, PAGE_1G_SHIFT.
  split; [rewrite Z.div_small by lia; reflexivity|].
  assert ((fb + i) / 2 ^ 30 = 3) as -> by (symmetry; apply (Z.div_unique _ _ _ (fb + i - 3 * 2 ^ 30)); lia). reflexivity.
Qed.

(** The entry of the page of [q]. *)
Definition fb_entry (q : Z) : Z := mk_pdt (2 ^ 21 * (q / 2 ^ 21)) PAGE_DEVICE.

Lemma fb_loop_spec L t1 t len n : L !! [256] = Some t1 -> L !! [3; 256] = Some t -> forall fuel i s,
  kernel_ok s L -> (n < fuel)%nat -> 0 <= i -> i mod 2 ^ 21 = 0 -> len <= i + 2 ^ 21 * Z.of_nat n <= 2 ^ 29 ->
  (n <> 0%nat -> i + 2 ^ 21 * (Z.of_nat n - 1) < len) ->
  exists s', frame_buffer_loop fuel i len (t1 + 8 * 3) s = Some s' /\ kernel_ok s' L /\ s'.(vheap) = s.(vheap) /\
    (forall q, 0 <= q < 2 ^ 47 -> walk s'.(words) gdt (Phy_To_Virt q) =
      if decide (fb + i <= q < fb + i + 2 ^ 21 * Z.of_nat n) then fb_entry q else walk s.(words) gdt (Phy_To_Virt q)).
Proof using Type.
  intros Ht1 Ht. induction n as [|n IH]; intros fuel i s K Hf Hi Hm Hlen Hlast; (destruct fuel as [|fuel]; [lia|]);
    cbn [frame_buffer_loop].
  - rewrite (proj2 (Z.ltb_ge _ _)) by lia. exists s. split_and!; try done. intros q Hq.
    by rewrite decide_False by lia.
  - rewrite (proj2 (Z.ltb_lt _ _)) by lia. destruct (fb_index i ltac:(lia)) as (Ev & I4 & I3).
    destruct (slots_there s L (Phy_To_Virt (fb + i)) t K) as (t1' & Ht1' & _ & _ & _ & E2);
      [apply direct_slot; lia|by rewrite I3, I4|].
    rewrite I4, Ht1 in Ht1'. injection Ht1' as <-. rewrite I3 in E2. rewrite Ev, E2.
    destruct (set_page s L t (fb + i) (mk_pdt (fb .+ i) PAGE_DEVICE) K) as [K' W]; [lia|by rewrite I3, I4|].
    set (s1 := set_words _ s) in *. change PAGE_2M_SIZE with (2 ^ 21). rewrite (u64_small (i + 2 ^ 21)) by lia.
    destruct (IH fuel (i + 2 ^ 21) s1 K') as (s' & E & K2 & Eh & W2); [lia|lia| |lia|lia|].
    { rewrite <- Zplus_mod_idemp_l, Hm. done. }
    exists s'. split_and!; [done|done|done|]. intros q Hq. rewrite W2, W by done.
    assert (q / 2 ^ 21 = (fb + i) / 2 ^ 21 <-> fb + i <= q < fb + i + 2 ^ 21) as Hpage.
    { pose proof (Z.div_mod (fb + i) (2 ^ 21)). pose proof (Z.div_mod q (2 ^ 21)). pose proof (Z.mod_pos_bound q (2 ^ 21)).
      assert ((fb + i) mod 2 ^ 21 = 0) by (rewrite <- Zplus_mod_idemp_r, Hm; done). lia. }
    destruct (decide (fb + (i + 2 ^ 21) <= q < _)); [by rewrite decide_True by lia|].
    destruct (decide (q / _ = _)) as [Eq|Ne].
    + rewrite decide_True by lia. unfold fb_entry. rewrite Eq, (u64_small (fb + i)) by lia. f_equal.
      assert ((fb + i) mod 2 ^ 21 = 0) by (rewrite <- Zplus_mod_idemp_r, Hm; done).
      pose proof (Z.div_mod (fb + i) (2 ^ 21)). lia.
    + by rewrite decide_False by lia.
Qed.

(** The pages of a frame buffer of [len] bytes. *)
Definition fb_pages (len : Z) : Z := (len + 2 ^ 21 - 1) / 2 ^ 21.

Lemma fb_mapped s L t1 t len fuel : kernel_ok s L -> L !! [256] = Some t1 -> L !! [3; 256] = Some t ->
  0 <= len <= 2 ^ 29 -> (Z.to_nat (fb_pages len) < fuel)%nat ->
  exists s', frame_buffer_loop fuel 0 len (t1 + 8 * 3) s = Some s' /\ kernel_ok s' L /\ s'.(vheap) = s.(vheap) /\
    (forall o, 0 <= o < len -> translate s'.(words) gdt (Phy_To_Virt fb .+ o) = Some (fb + o)) /\
    (forall q, 0 <= q < 2 ^ 47 -> ~ fb <= q < fb + 2 ^ 21 * fb_pages len ->
      walk s'.(words) gdt (Phy_To_Virt q) = walk s.(words) gdt (Phy_To_Virt q)).
Proof using Type.
  intros K Ht1 Ht Hlen Hf. assert (2 ^ 21 * fb_pages len - 2 ^ 21 < len <= 2 ^ 21 * fb_pages len /\
    0 <= fb_pages len <= 2 ^ 8) as [Hn Hn'].
  { unfold fb_pages. pose proof (Z.div_mod (len + 2 ^ 21 - 1) (2 ^ 21) ltac:(lia)).
    pose proof (Z.mod_pos_bound (len + 2 ^ 21 - 1) (2 ^ 21) ltac:(lia)). lia. }
  destruct (fb_loop_spec L t1 t len (Z.to_nat (fb_pages len)) Ht1 Ht fuel 0 s K Hf) as (s' & E & K' & Eh & W);
    [lia|done|lia|lia|]. rewrite Z2Nat.id in W by lia. exists s'. split_and!; [done|done|done| |].
  - intros o Ho. destruct (fb_index o ltac:(lia)) as [-> _]. set (q := fb + o).
    assert (valid_frame (2 ^ 21 * (q / 2 ^ 21))) as F.
    { pose proof (Z.div_mod q (2 ^ 21) ltac:(lia)). pose proof (Z.mod_pos_bound q (2 ^ 21) ltac:(lia)).
      split_and!; [lia..|]. rewrite Z.mul_comm. by apply Z.mod_mul. }
    apply (device_page _ _ _ F); [lia| |].
    + rewrite (Z.mul_comm (2 ^ 21)), Z.div_mul by lia. done.
    + rewrite W by lia. by rewrite decide_True by lia.
  - intros q Hq Hout. rewrite W by done. by rewrite decide_False by lia.
Qed.

(** [frame_buffer_init]: every byte of the frame buffer is reached, uncached, at its address plus
    [PAGE_OFFSET].  Other addresses translate as before, except that when the table of the fourth
    gigabyte was missing, the rest of this gigabyte translates to whatever the memory of the new
    table held. *)
Theorem frame_buffer_init_spec s L t1 len fuel n c : kernel_ok s L -> L !! [256] = Some t1 ->
  capacity s.(vheap) (S n) c -> 0 <= len <= 2 ^ 29 -> (Z.to_nat (fb_pages len) < fuel)%nat ->
  exists s' L', frame_buffer_init fuel gdt len s = Some (Phy_To_Virt fb, s') /\ kernel_ok s' L' /\
    (forall o, 0 <= o < len -> translate s'.(words) gdt (Phy_To_Virt fb .+ o) = Some (fb + o)) /\
    match L !! [3; 256] with
    | Some _ => L' = L /\ s'.(vheap) = s.(vheap) /\ forall q, 0 <= q < 2 ^ 47 ->
        ~ fb <= q < fb + 2 ^ 21 * fb_pages len -> walk s'.(words) gdt (Phy_To_Virt q) = walk s.(words) gdt (Phy_To_Virt q)
    | None => exists v, v ∉ live s.(vheap) /\ forall q, 0 <= q < 2 ^ 47 ->
        ~ fb <= q < fb + 2 ^ 21 * fb_pages len -> walk s'.(words) gdt (Phy_To_Virt q) =
          if decide (3 * 2 ^ 30 <= q < 2 ^ 32) then s.(words) (v + 8 * index PAGE_2M_SHIFT q)
          else walk s.(words) gdt (Phy_To_Virt q)
    end.
Proof using Type.
  intros K Ht1 Hc Hlen Hf. destruct (fb_index 0 ltac:(lia)) as (_ & I4 & I3). rewrite Z.add_0_r in I4, I3.
  pose proof (pk_root _ _ _ _ _ _ K) as Hr. destruct (pk_table _ _ _ _ _ _ K _ _ Hr) as [Vr _].
  destruct (pk_table _ _ _ _ _ _ K _ _ Ht1) as [V1 _].
  pose proof (pk_link _ _ _ _ _ _ K [] root 256 Hr ltac:(cbn; lia) ltac:(cbn; lia)) as L1. rewrite Ht1 in L1.
  destruct (leads_to_table _ _ V1 L1) as (E1 & _).
  unfold frame_buffer_init. rewrite entry_slot, I4, (raw_table_there s L [] _ _ t1) by done. cbn [mbind option_bind].
  rewrite (entry_slot (s.(words) (root + 8 * 256))); [rewrite E1, I3|unfold PAGE_1G_SHIFT; lia|by rewrite E1].
  destruct (L !! [3; 256]) as [t|] eqn:Ht.
  - rewrite (raw_table_there s L [256] _ _ t) by done. cbn [mbind option_bind].
    destruct (fb_mapped s L t1 t len fuel K Ht1 Ht Hlen Hf) as (s' & -> & K' & Eh & W1 & W2).
    exists s', L. by split_and!.
  - destruct (raw_leaf_table s L 256 3 t1 n c K Ht1 Ht ltac:(lia) Hc) as (v & s1 & -> & Hv & K1 & _ & Hleaf).
    cbn [mbind option_bind]. set (L' := <[_ := v]> L) in *.
    assert (L' !! [256] = Some t1) as Ht1' by (by unfold L'; rewrite lookup_insert_ne).
    assert (L' !! [3; 256] = Some v) as Ht' by apply lookup_insert_eq.
    destruct (fb_mapped s1 L' t1 v len fuel K1 Ht1' Ht' Hlen Hf) as (s' & -> & K' & Eh & W1 & W2).
    exists s', L'. split_and!; [done|done|done|]. exists v. split; [done|]. intros q Hq Hout.
    rewrite W2 by done. rewrite (walk_leaf gdt 256 512 s1.(words) _ L' _ K1), (walk_leaf gdt 256 512 s.(words) _ L _ K)
      by (by apply direct_slot). unfold leaf_at. rewrite Hleaf by apply index_range. destruct (direct_index q Hq) as (_ & -> & -> & ->).
    assert ((256 + index PAGE_GDT_SHIFT q, index PAGE_1G_SHIFT q) = (256, 3) <-> 3 * 2 ^ 30 <= q < 2 ^ 32) as Hiff.
    { unfold index, PAGE_GDT_SHIFT, PAGE_1G_SHIFT. pose proof (Z.div_mod q (2 ^ 30)). pose proof (Z.mod_pos_bound q (2 ^ 30)).
      pose proof (Z.div_mod (q / 2 ^ 30) 512). pose proof (Z.mod_pos_bound (q / 2 ^ 30) 512).
      change (2 ^ 39) with (2 ^ 30 * 512). rewrite <- Z.div_div by lia.
      rewrite (Z.mod_small (q / 2 ^ 30 / 512)) by (split; [repeat apply Z.div_pos; lia|repeat (apply Z.div_lt_upper_bound; [lia|]); lia]).
      split; [intros [= Hd1 Hd2]; lia|]. intros Hq3. assert (q / 2 ^ 30 = 3) as -> by lia. done. }
    destruct (decide (3 * 2 ^ 30 <= q < 2 ^ 32)) as [Hin|Hn3].
    + by rewrite decide_True by (by apply Hiff).
    + rewrite decide_False by (by rewrite Hiff). done.
Qed.

(** ** The kernel's half is filled *)

(** Every slot of the kernel's half leads to a table. *)
Definition full L : Prop := forall i, 256 <= i < 512 -> is_Some (L !! [i]).

Lemma fill_spec l n c : forall s L, kernel_ok s L -> Forall (fun i => 256 <= i < 512) l ->
  capacity s.(vheap) (length l + n) c ->
  exists s' L', for_each (fun i => ensure_table PAGE_KERNEL_GDT (root .+ 8 * i)) l s = Some s' /\ kernel_ok s' L' /\
    grown s L s' L' /\ (forall i, i ∈ l -> is_Some (L' !! [i])) /\ capacity s'.(vheap) n c.
Proof using Type.
  induction l as [|i l IH]; intros s L K Hl Hc; cbn [for_each].
  - exists s, L. split_and!; [done|done|apply grown_refl|intros i Hi; by apply not_elem_of_nil in Hi|done].
  - apply Forall_cons in Hl as [Hi Hl]. pose proof (pk_root _ _ _ _ _ _ K) as Hr.
    destruct (pk_table _ _ _ _ _ _ K _ _ Hr) as [Vr _]. set (va := i * 2 ^ 39).
    assert (index PAGE_GDT_SHIFT va = i) as Ei.
    { unfold index, va, PAGE_GDT_SHIFT. rewrite Z.div_mul by lia. apply Z.mod_small. lia. }
    assert (root .+ 8 * i = entry gdt PAGE_GDT_SHIFT va) as ->.
    { rewrite entry_slot, Ei by done. destruct Vr as (V1 & V2 & _). unfold PAGE_OFFSET in V1. apply u64_small. lia. }
    destruct (ensure_table_spec gdt 256 512 s L [] root gdt PAGE_GDT_SHIFT va PAGE_KERNEL_GDT (length l + n) c K Hr)
      as (s1 & L1 & t1 & E1 & K1 & Ht1 & _ & G1 & R1 & _); [cbn; lia|done|done|cbn; lia|by left|done|].
    destruct (IH s1 L1 K1 Hl R1) as (s' & L' & E' & K' & G' & F' & R'). exists s', L'. rewrite E1.
    split_and!; [done|done|by eapply grown_trans| |done]. intros j Hj. apply elem_of_cons in Hj as [->|Hj]; [|by apply F'].
    exists t1. rewrite <- Ei. eapply lookup_weaken; [exact Ht1|apply (gr_sub _ _ _ _ G')].
Qed.

(** The tables of [task_init]: all slots of the kernel's half lead to tables, what they translated is
    kept, and the first 512 GB are unmapped. *)
Lemma task_init_tables_spec s L n c : kernel_ok s L -> capacity s.(vheap) (256 + n) c ->
  exists s' L', task_init_tables gdt s = Some s' /\ kernel_ok s' L' /\ full L' /\ capacity s'.(vheap) n c /\
    (forall va, 0 <= va < 2 ^ 39 -> walk s'.(words) gdt va = 0) /\
    (forall q, 0 <= q < 2 ^ 47 -> walk s'.(words) gdt (Phy_To_Virt q) = walk s.(words) gdt (Phy_To_Virt q)) /\
    s'.(mms) = s.(mms) /\ s'.(cmm) = s.(cmm) /\ frames s'.(vheap) = frames s.(vheap) /\
    tables s.(vheap) ⊆ tables s'.(vheap).
Proof using Type.
  intros K Hc. pose proof (pk_root _ _ _ _ _ _ K) as Hr. destruct (pk_table _ _ _ _ _ _ K _ _ Hr) as [Vr Tr].
  set (s0 := set_words (store root 0 s.(words)) s).
  assert (forall k t i, L !! k = Some t -> 0 <= i < 512 -> (k = [] -> 256 <= i) ->
    s0.(words) (t + 8 * i) = s.(words) (t + 8 * i)) as Hsame.
  { intros k t i Hk Hi Hroot. cbn [words s0 set_words]. apply store_ne. intros E.
    destruct (pk_table _ _ _ _ _ _ K _ _ Hk) as [Vt _]. rewrite <- (Z.add_0_r root) in E.
    change 0 with (8 * 0) in E. apply slots_apart in E as [-> ->]; [|done..|lia].
    apply (pk_inj _ _ _ _ _ _ K _ _ _ Hk) in Hr. apply Hroot in Hr. lia. }
  assert (kernel_ok s0 L) as K0.
  { apply (pt_ok_frame s.(words) _ (tables s.(vheap))); [done|done|]. intros k t i Hk _ Hs.
    apply (Hsame k); [done|by apply (slot_range 256 512 k); [lia..|]|]. intros ->. cbn in Hs. lia. }
  destruct (fill_spec (range 256 512) n c s0 L K0) as (s' & L' & E & K' & G & F & R).
  { apply Forall_forall. intros i. by rewrite in_range. }
  { unfold range. rewrite length_seqZ. exact Hc. }
  exists s', L'. split_and!; [exact E|done| |done| | |apply G|apply G|apply G|apply G].
  - intros i Hi. apply F. by rewrite in_range.
  - intros va Hva. unfold walk. rewrite entry_slot by done.
    assert (index PAGE_GDT_SHIFT va = 0) as -> by (unfold index, PAGE_GDT_SHIFT; by rewrite Z.div_small by lia).
    rewrite (gr_other _ _ _ _ G); [cbn [words s0 set_words]; by rewrite Z.add_0_r, store_eq|done|done|lia|].
    intros k Hk. pose proof (pk_inj _ _ _ _ _ _ K _ _ _ Hk Hr) as ->.
    destruct (L !! [0]) as [x|] eqn:E0; [apply (pk_path _ _ _ _ _ _ K) in E0 as (_ & _ & E0); cbn in E0; lia|].
    destruct (L' !! [0]) as [x|] eqn:E1; [apply (pk_path _ _ _ _ _ _ K') in E1 as (_ & _ & E1); cbn in E1; lia|done].
  - intros q Hq. rewrite (walk_leaf gdt 256 512 s'.(words) _ L' _ K'), (walk_leaf gdt 256 512 s.(words) _ L _ K)
      by (by apply direct_slot). unfold leaf_at. rewrite (gr_leaf _ _ _ _ G) by apply index_range.
    unfold leaf. destruct (L !! [_; _]) as [t|] eqn:Et; [|done].
    apply (Hsame _ _ _ Et); [apply index_range|done].
Qed.

(** Another top table with the same kernel's half translates the kernel's addresses the same. *)
Definition shares (a : Z) (w : memory_words) : Prop := forall i, 256 <= i < 512 -> w (a + 8 * i) = w (root + 8 * i).

Lemma walk_shares w p va : valid_table root -> valid_table (table_of p) -> shares (table_of p) w ->
  slot 256 512 [] (index PAGE_GDT_SHIFT va) -> walk w p va = walk w gdt va.
Proof using Type. intros Vr Vp Hsh Hs. unfold walk. rewrite (entry_slot p), (entry_slot gdt) by done. rewrite !Hsh by exact Hs. done. Qed.

(** A page mapped by the kernel changes no slot of a full top table, nor of another top table. *)
Lemma map_phys_slots s L a f n : kernel_ok s L -> full L -> valid_frame f -> a ∈ tables s.(vheap) -> valid_table a ->
  (forall k, L !! k <> Some a) -> capacity s.(vheap) (S (S n)) 0 ->
  exists s', map_phys gdt f s = Some s' /\
    (forall i, 256 <= i < 512 -> s'.(words) (root + 8 * i) = s.(words) (root + 8 * i)) /\
    (forall i, 0 <= i < 512 -> s'.(words) (a + 8 * i) = s.(words) (a + 8 * i)).
Proof using Type.
  intros K Hfull Hf Ha Va Hna Hc. pose proof Hf as (F1 & F2 & F3).
  destruct (two_levels gdt 256 512 s L (Phy_To_Virt f) PAGE_KERNEL_GDT PAGE_KERNEL_Dir n 0)
    as (s1 & s2 & L2 & t & E1 & E2 & Ht & Et & K2 & G & _); [done|apply direct_slot; lia|by left..|done|].
  pose proof (pk_root _ _ _ _ _ _ K) as Hr. destruct (pk_table _ _ _ _ _ _ K _ _ Hr) as [Vr Tr].
  destruct (pk_table _ _ _ _ _ _ K2 _ _ Ht) as [Vt _].
  unfold map_phys. rewrite E1. cbn [mbind option_bind]. rewrite E2. cbn [mbind option_bind]. rewrite Et.
  eexists. split; [reflexivity|]. cbn [words set_words]. split; intros i Hi; rewrite store_ne.
  - apply (gr_other _ _ _ _ G); [done|done|lia|]. intros k Hk. pose proof (pk_inj _ _ _ _ _ _ K _ _ _ Hk Hr) as ->.
    destruct (Hfull i Hi) as [x Hx]. rewrite Hx. eapply lookup_weaken; [exact Hx|apply (gr_sub _ _ _ _ G)].
  - intros E. apply slots_apart in E as [<- _]; [|done|done|lia|apply index_range].
    pose proof (pk_inj _ _ _ _ _ _ K2 _ _ _ Ht (pk_root _ _ _ _ _ _ K2)) as Hk. discriminate.
  - apply (gr_other _ _ _ _ G); [done|done|lia|]. intros k Hk. by apply Hna in Hk.
  - intros E. apply slots_apart in E as [<- _]; [|done|done|lia|apply index_range].
    by apply (gr_new _ _ _ _ G) in Ht as Ht%Hna.
Qed.

(** C22. After [task_init] the kernel's half is one for all: an address space made from the kernel's table
    sees every page the kernel maps later, at the same address, and nothing in the user's half. *)
Theorem kernel_half_shared s L f n : kernel_ok s L -> valid_frame f -> capacity s.(vheap) (256 + S (S (S n))) 0 ->
  exists s1 p s2 s3, task_init_tables gdt s = Some s1 /\ new_pgd gdt s1 = Some (p, s2) /\ map_phys gdt f s2 = Some s3 /\
    (forall q, 0 <= q < 2 ^ 47 -> translate s3.(words) p (Phy_To_Virt q) = translate s3.(words) gdt (Phy_To_Virt q)) /\
    (forall o, 0 <= o < 2 ^ 21 -> translate s3.(words) p (Phy_To_Virt (f + o)) = Some (f + o)) /\
    (forall va, 0 <= va < 2 ^ 47 -> translate s3.(words) p va = None).
Proof using gdt_page.
  intros K Hf Hc. destruct (task_init_tables_spec s L (S (S (S n))) 0 K Hc) as (s1 & L1 & E1 & K1 & Hfull & Hc1 & _).
  pose proof (pk_root _ _ _ _ _ _ K1) as Hr. destruct (pk_table _ _ _ _ _ _ K1 _ _ Hr) as [Vr Tr].
  assert (Phy_To_Virt gdt = root) as Eroot by (unfold table_of; by rewrite gdt_page).
  destruct (new_pgd_spec gdt s1 _ 0 Hc1) as (a & s2 & E2 & P & Hc2); [by rewrite Eroot|].
  destruct P as [Va Fa (HT & _ & _) _ Zu Zk Out]. rewrite Eroot in Zk.
  assert (forall k, L1 !! k <> Some a) as Hna.
  { intros k Hk. apply Fa, tables_live. by apply (pk_table _ _ _ _ _ _ K1 _ _ Hk). }
  assert (forall x i, x ∈ tables s1.(vheap) -> valid_table x -> 0 <= i < 512 -> s2.(words) (x + 8 * i) = s1.(words) (x + 8 * i)) as Hsame.
  { intros x i Hx (_ & _ & M1) Hi. apply Out. intros Hin. apply Fa, tables_live.
    replace a with x; [done|]. destruct Va as (_ & _ & M2).
    pose proof (Z.div_mod x (2 ^ 12) ltac:(lia)). pose proof (Z.div_mod a (2 ^ 12) ltac:(lia)). lia. }
  assert (kernel_ok s2 L1) as K2.
  { apply (pt_ok_frame s1.(words) _ (tables s1.(vheap))); [done|rewrite HT; set_solver|]. intros k t i Hk _ Hs.
    destruct (pk_table _ _ _ _ _ _ K1 _ _ Hk). apply Hsame; [done|done|]. by apply (slot_range 256 512 k); [lia..|]. }
  assert (a ∈ tables s2.(vheap)) as Ta by (rewrite HT; set_solver).
  destruct (map_phys_slots s2 L1 a f n K2 Hfull Hf Ta Va Hna Hc2) as (s3 & E3 & Sr & Sa).
  destruct (map_phys_spec gdt s2 L1 f n K2 Hf Hc2) as (s3' & L3 & E3' & _ & _ & W & _).
  rewrite E3 in E3'. injection E3' as <-.
  exists s1, (Virt_To_Phy a), s2, s3. split; [done|]. split; [done|]. split; [done|].
  pose proof (table_of_phys a Va) as Ea.
  assert (forall q, 0 <= q < 2 ^ 47 -> walk s3.(words) (Virt_To_Phy a) (Phy_To_Virt q) = walk s3.(words) gdt (Phy_To_Virt q)) as Hw.
  { intros q Hq. apply walk_shares; [done|by rewrite Ea| |by apply direct_slot]. rewrite Ea. intros i Hi.
    rewrite Sa, Sr, Zk, Hsame by (done || lia). done. }
  destruct Hf as (F1 & F2 & F3). split_and!.
  - intros q Hq. unfold translate. by rewrite Hw.
  - intros o Ho. unfold translate at 1. rewrite Hw by lia. fold (translate s3.(words) gdt (Phy_To_Virt (f + o))).
    assert (f = f / 2 ^ 21 * 2 ^ 21) as Ef by (pose proof (Z.div_mod f (2 ^ 21)); lia).
    assert ((f + o) / 2 ^ 21 = f / 2 ^ 21) as Ep by (rewrite Ef at 1; rewrite Z.div_add_l, (Z.div_small o) by lia; lia).
    rewrite (translate_frame _ _ _ f PAGE_KERNEL_Page); [|done|by right|by rewrite W, decide_True by (done || lia)].
    do 2 f_equal. destruct (direct_index (f + o) ltac:(lia)) as (-> & _).
    replace (PAGE_OFFSET + (f + o)) with (o + (f / 2 ^ 21 + 33554176 * 512 * 512) * 2 ^ 21) by (unfold PAGE_OFFSET; lia).
    rewrite Z_mod_plus_full. by apply Z.mod_small.
  - intros va Hva. unfold translate, walk. rewrite entry_slot, Ea by (done || by rewrite Ea).
    pose proof (user_slot va Hva) as Hs. cbn in Hs. by rewrite Sa, Zu by lia.
Qed.
End Maps.

(** ** Concrete tables

    A kernel whose top table (object 1) has a table for the first 512 GB (object 3) and no table of
    pages yet; all other memory holds the word 0x1e3, which reads as the entry of a page. *)
Definition boot_words : memory_words :=
  grow (object_at 1) 256 (object_at 3) PAGE_KERNEL_GDT (memset0 (object_at 1) PAGE_4K_SIZE (fun _ => 0x1e3)).
Definition boot_vm : vm pool := mkVm boot_words ∅ 0 (mkPool {[ 1%N; 3%N ]} {[ 1%N; 3%N ]} ∅).
Definition boot_gdt : Z := Virt_To_Phy (object_at 1).
Definition boot_L : gmap (list Z) Z := <[ [256] := object_at 3 ]> {[ [] := object_at 1 ]}.

Lemma boot_gdt_root : table_of boot_gdt = object_at 1.
Proof. by vm_compute. Qed.

Lemma boot_vm_ok : pt_ok boot_vm.(words) (tables boot_vm.(vheap)) (table_of boot_gdt) 256 512 boot_L.
Proof.
  rewrite boot_gdt_root. assert (tables boot_vm.(vheap) = {[ object_at 3 ]} ∪ {[ object_at 1 ]}) as ->.
  { apply (bool_decide_unpack _). by vm_compute. }
  apply (grow_ok _ _ _ _ _ {[ [] := object_at 1 ]}); [|done|cbn; lia|cbn; lia|done|by apply object_at_table| |by left].
  - apply empty_tables; [by apply object_at_table|set_solver|lia|lia|].
    intros i Hi. apply memset0_in. change PAGE_4K_SIZE with (2 ^ 12). lia.
  - rewrite elem_of_singleton. by vm_compute.
Qed.

Lemma frame_buffer_init_spec_witness : exists s', frame_buffer_init 4 boot_gdt 5184000 boot_vm = Some (0xffff8000e0000000, s') /\
  translate s'.(words) boot_gdt (Phy_To_Virt 0xe0000000 .+ 5183999) = Some 0xe04f19ff /\
  translate s'.(words) boot_gdt (Phy_To_Virt 0xc0001234) = Some 0x1234.
Proof.
  destruct (frame_buffer_init_spec boot_gdt boot_vm boot_L (object_at 3) 5184000 4 0 0 boot_vm_ok)
    as (s' & L' & E & _ & Hin & Hout); [reflexivity|split; vm_compute; reflexivity|lia|vm_compute; lia|].
  exists s'. split; [exact E|]. split; [apply Hin; lia|].
  assert ((fun r => translate (snd r).(words) boot_gdt (Phy_To_Virt 0xc0001234)) <$> frame_buffer_init 4 boot_gdt 5184000 boot_vm
    = Some (Some 0x1234)) as G by (vm_compute; reflexivity).
  rewrite E in G. injection G as G. exact G.
Defined.

Lemma kernel_half_shared_witness : exists s1 p s2 s3, task_init_tables boot_gdt boot_vm = Some s1 /\
  new_pgd boot_gdt s1 = Some (p, s2) /\ map_phys boot_gdt 0x600000 s2 = Some s3 /\
  translate s3.(words) p (Phy_To_Virt 0x600123) = Some 0x600123.
Proof.
  destruct (kernel_half_shared boot_gdt eq_refl boot_vm boot_L 0x600000 0 boot_vm_ok) as (s1 & p & s2 & s3 & E1 & E2 & E3 & _ & H & _).
  - split; [lia|]. split; [lia|reflexivity].
  - split; vm_compute; reflexivity.
  - exists s1, p, s2, s3. split; [exact E1|]. split; [exact E2|]. split; [exact E3|]. apply (H 0x123). lia.
Defined.

(** The same with a table for the fourth gigabyte (object 4). *)
Definition boot_vm4 : vm pool :=
  mkVm (grow (object_at 3) 3 (object_at 4) PAGE_KERNEL_Dir boot_words) ∅ 0 (mkPool {[ 1%N; 3%N; 4%N ]} {[ 1%N; 3%N; 4%N ]} ∅).

Lemma ioapic_mapped_witness : exists m s', IOAPIC_pagetable_remap boot_gdt boot_vm4 = Some (m, s') /\
  translate s'.(words) boot_gdt m.(virtual_data_address) = Some 0xfec00010.
Proof.
  destruct (ioapic_mapped boot_gdt eq_refl boot_vm4 (<[ [3; 256] := object_at 4 ]> boot_L)) as (m & s' & E & _ & _ & _ & H & _).
  - assert (tables boot_vm4.(vheap) = {[ object_at 4 ]} ∪ tables boot_vm.(vheap)) as ->.
    { apply (bool_decide_unpack _). by vm_compute. }
    apply (grow_ok _ _ _ _ _ _ [256]); [apply boot_vm_ok|reflexivity|cbn; lia|cbn; lia|reflexivity|by apply object_at_table| |by left].
    apply (bool_decide_unpack _). by vm_compute.
  - exists (object_at 4). reflexivity.
  - exists m, s'. split; [exact E|exact H].
Defined.
