(* ===== verification/Boot.v ===== *)
(** * The first tasks (task.c, main.c)

    [task_init] turns the boot processor's code into the idle task and starts the first kernel
    thread.  It establishes what the theorems of [Task] suppose of the tasks. *)

From S2P Require Import Prelude Klist PageAlloc Sched Alloc Bytes Errno Paging Mm Pool Kmap Task TaskDemo.

Local Open Scope Z_scope.
Local Open Scope cint_scope.

(** Addresses the linker gives; main.c copies some of them to [memory_management_struct]. *)
Record image := mkImage {
  _text : Z; _etext : Z; _data : Z; _edata : Z; _rodata : Z; _erodata : Z; _bss : Z; _ebss : Z; _end : Z;
  _stack_start : Z
}.

(** [init_mm], [init_tss[SMP_cpu_id()].rsp0] and the model specific registers beside the state of the
    tasks. *)
Record boot (M : Type) := mkBoot { kern : kstate M; init_mm : mm_struct; tss_rsp0 : Z; msr : gmap Z Z }.
Arguments mkBoot {M}.
Arguments kern {M}.
Arguments init_mm {M}.
Arguments tss_rsp0 {M}.
Arguments msr {M}.

Section Boot.
Context {M : Type} `{Frames M}.
(** [queue] and [init_union] are as in [Task]; [init_mm_at] and [init_thread_at] the addresses of the
    two static structures; [gdt] is in [cr3]; then the addresses of functions. *)
Context (queue init_union init_mm_at init_thread_at gdt SMP_cpu_id : Z).
Context (ret_system_call kernel_thread_func system_call init : Z).
Notation init_task := (list_at init_union).

(** The initialisers of [init_task_union], [init_thread] and [init_mm]. *)
Definition INIT_TASK : task := mkTask TASK_UNINTERRUPTIBLE PF_KTHREAD 2 0.
Definition INIT_PROC : proc :=
  mkProc 0 0 0 init_mm_at init_thread_at all_ones 0 (replicate 10 0) 0 init_union init_union.
Definition init_thread : thread_struct :=
  mkThread (init_union .+ STACK_SIZE) 0 (init_union .+ STACK_SIZE) KERNEL_DS KERNEL_DS 0 0 0.

(** The last assignments to the members of [init_task_union.task]. *)
Definition idle_proc (p : proc) : proc :=
  mkProc 0 p.(signal) SMP_cpu_id p.(mm) p.(thread) p.(addr_limit) p.(pid) p.(file_struct) p.(exit_code)
    p.(next) p.(parent).

Definition init_mm_of (im : image) (addr_limit : Z) : mm_struct :=
  mkMm gdt im.(_text) im.(_etext) im.(_data) im.(_edata) im.(_rodata) im.(_erodata) im.(_bss) im.(_ebss)
    im.(_end) addr_limit im.(_stack_start).

(** The value is [task_ret]. *)
Definition task_init (im : image) (b : boot M) : option (Z * boot M) :=
  v ← task_init_tables gdt b.(kern).(space);
  let s := set_space v b.(kern) in
  p ← s.(procs) !! cur s;
  t ← s.(threads) !! p.(thread);
  let msr := <[0x176 := system_call]> (<[0x175 := t.(rsp0)]> (<[0x174 := KERNEL_CS]> b.(msr))) in
  i ← s.(threads) !! init_thread_at;
  let s := set_cpu (set_nodes (list_init init_task s.(cpu).(nodes)) s.(cpu)) s in
  r ← kernel_thread queue init_task init_union gdt SMP_cpu_id ret_system_call kernel_thread_func
        init 10 (CLONE_FS .| CLONE_SIGNAL) s;
  let '(task_ret, s) := r in
  s ← upd_proc init_union idle_proc s;
  s ← upd_cpu (upd_task init_task (set_state TASK_RUNNING)) s;
  Some (task_ret, mkBoot s (init_mm_of im p.(addr_limit)) i.(rsp0) msr).
End Boot.

(** ** The state [task_init] leaves *)

Section Start.
Context {M : Type} `{HF : Frames M} `{HL : !AllocatorLaws M} `{HP : !PagingLaws M} `{HT : !TaskLaws M}.
Context (queue init_union init_mm_at init_thread_at gdt SMP_cpu_id : Z).
Context (ret_system_call kernel_thread_func system_call init : Z).
Notation init_task := (list_at init_union).
Notation tasks_ok := (tasks_ok queue init_union).
Notation kernel_ok v L := (pt_ok v.(words) (tables v.(vheap)) (table_of gdt) 256 512 L).
Implicit Types (s : kstate M) (b : boot M).




End Start.

(** ** A start *)

Definition boot_image : image := mkImage 0x100000 0x110000 0x110000 0x118000 0x118000 0x11a000 0x11a000 0x120000 0x120000 0x128000.
Definition boot_demo : boot pool := mkBoot (mkK
  (schedule_init 100 (mkSched ∅ {[ list_at task0 := INIT_TASK ]} ∅ ∅ 0 0 (list_at task0)))
  boot_vm {[ task0 := INIT_PROC task0 0x500 0x600 ]} {[ 0x600 := init_thread task0 ]} ∅ ∅ 0) mm_demo 0 ∅.
Definition boot_run : option (Z * boot pool) :=
  task_init 100 task0 0x600 boot_gdt 0 0x7000 0x7100 0x7200 0x7300 boot_image boot_demo.


(** The next scheduling decision starts the first kernel thread. *)
Example first_thread_runs : (r ← boot_run; c ← schedule 100 (list_at task0) (snd r).(kern).(cpu);
    th ← (snd r).(kern).(threads) !! (task_at c.(current) .+ sizeof_task_struct); Some th.(t_rip)) = Some 0x7100.
Proof. vm_compute. reflexivity. Qed.
