(* ===== verification/Cmos.v ===== *)
(** * The real time clock (main.c, lib.h)

    [get_cmos_time] reads the registers of the clock one after the other while the clock goes on,
    and reads the seconds twice.  The clock is a device that may advance between any two reads. *)

From S2P Require Import Prelude Bytes.

Local Open Scope Z_scope.
Local Open Scope cint_scope.

Record time := mkTime { second : Z; minute : Z; hour : Z; day : Z; month : Z; year : Z }.

Section Cmos.
Context {P : Type} `{Ports P}.

Definition CMOS_READ (addr : Z) (p : P) : Z * P :=
  let '(v, p) := io_in8 0x71 (io_out8 0x70 (0x80 .| addr) p) in (u8 v, p).

(** The loop, with fuel; the operands of the addition are read from left to right. *)
Fixpoint get_cmos_time (fuel : nat) (p : P) : option (time * P) :=
  match fuel with
  | O => None
  | S fuel =>
      let '(y, p) := CMOS_READ 0x09 p in
      let '(c, p) := CMOS_READ 0x32 p in
      let '(mo, p) := CMOS_READ 0x08 p in
      let '(d, p) := CMOS_READ 0x07 p in
      let '(h, p) := CMOS_READ 0x04 p in
      let '(mi, p) := CMOS_READ 0x02 p in
      let '(s, p) := CMOS_READ 0x00 p in
      let '(s', p) := CMOS_READ 0x00 p in
      if s =? s' then Some (mkTime s mi h d mo (i32 (y + c * 0x100)), io_out8 0x70 0x00 p)
      else get_cmos_time fuel p
  end.
End Cmos.

(** ** A clock

    The selected register, the number of reads so far, and what the registers hold at each read. *)
Record rtc := mkRtc { selected : Z; reads : nat; registers : nat -> Z -> Z }.

#[export] Instance rtc_ports : Ports rtc := {|
  io_out8 port v c := if port =? 0x70 then mkRtc (v .& 0x7f) c.(reads) c.(registers) else c;
  io_in8 port c :=
    if port =? 0x71 then (c.(registers) c.(reads) c.(selected), mkRtc c.(selected) (S c.(reads)) c.(registers)) else (0, c);
  port_outsw _ _ c := c;
  port_insw _ n c := (replicate n 0, c)
|}.

(** Each register holds a byte. *)
Definition rtc_ok (c : rtc) : Prop := forall n r, 0 <= c.(registers) n r < 256.

Lemma CMOS_READ_rtc addr c : 0 <= addr < 128 -> rtc_ok c ->
  CMOS_READ addr c = (c.(registers) c.(reads) addr, mkRtc addr (S c.(reads)) c.(registers)).
Proof.
  intros Ha Hc. unfold CMOS_READ. cbn. assert ((0x80 .| addr) .& 0x7f = addr) as ->.
  { apply Z.bits_inj'. intros n Hn. rewrite Z.land_spec, Z.lor_spec. change 0x7f with (Z.ones 7). change 0x80 with (2 ^ 7).
    rewrite Z.testbit_ones_nonneg, Z.pow2_bits_eqb by lia. destruct (Z.ltb_spec n 7).
    - rewrite (proj2 (Z.eqb_neq 7 n)) by lia. by rewrite andb_true_r.
    - rewrite andb_false_r, (Z.bits_above_log2 addr n); [done|lia|].
      destruct (decide (addr = 0)) as [->|]; [cbn; lia|]. apply Z.log2_lt_pow2; [lia|].
      apply Z.lt_le_trans with (2 ^ 7); [lia|]. apply Z.pow_le_mono_r; lia. }
  unfold u8. by rewrite Z.mod_small by apply Hc.
Qed.

(** What one round reads when the reads are numbered from [k]. *)
Definition sample (r : nat -> Z -> Z) (k : nat) : time :=
  mkTime (r (k + 6)%nat 0) (r (k + 5)%nat 2) (r (k + 4)%nat 4) (r (k + 3)%nat 7) (r (k + 2)%nat 8)
    (r k 9 + r (k + 1)%nat 0x32 * 0x100).

Lemma get_cmos_time_round fuel c : rtc_ok c -> let k := c.(reads) in
  get_cmos_time (S fuel) c =
    if c.(registers) (k + 6)%nat 0 =? c.(registers) (k + 7)%nat 0
    then Some (sample c.(registers) k, mkRtc 0 (k + 8) c.(registers))
    else get_cmos_time fuel (mkRtc 0 (k + 8) c.(registers)).
Proof.
  intros Hc k. cbn [get_cmos_time]. destruct c as [sel n r]. cbn [reads registers] in *. subst k.
  do 8 (rewrite CMOS_READ_rtc; [cbn [reads registers]|lia|done]).
  unfold sample. rewrite !Nat.add_succ_r, Nat.add_0_r.
  destruct (_ =? _); [|done]. do 3 f_equal. apply i32_small.
  pose proof (Hc n 9). pose proof (Hc (S n) 0x32). cbn in *. lia.
Qed.

(** What the time is when every register is read at once. *)
Definition time_of (r : Z -> Z) : time := mkTime (r 0) (r 2) (r 4) (r 7) (r 8) (r 9 + r 0x32 * 0x100).

(** C40. [get_cmos_time] when the clock advances once, from [r0] to [r1], before the read [j] of a
    round: the time is [r1] or [r0] when this is before the first or after the last read.  Between the
    two reads of the seconds it is noticed, if the seconds differ, and the next round gets [r1].  In
    between it is not: the fields read before keep the old values. *)
Theorem get_cmos_time_advance fuel c r0 r1 j : rtc_ok c ->
  (forall n, c.(registers) n = if (n <? c.(reads) + j)%nat then r0 else r1) -> r0 0 <> r1 0 ->
  exists t c', get_cmos_time (S (S fuel)) c = Some (t, c') /\ selected c' = 0 /\
    (j = 0%nat \/ (7 <= j <= 8)%nat -> t = if (j =? 8)%nat then time_of r0 else time_of r1) /\
    ((1 <= j <= 6)%nat -> t = mkTime (r1 0) (if (6 <=? j)%nat then r0 2 else r1 2) (if (5 <=? j)%nat then r0 4 else r1 4)
      (if (4 <=? j)%nat then r0 7 else r1 7) (if (3 <=? j)%nat then r0 8 else r1 8)
      (r0 9 + (if (2 <=? j)%nat then r0 0x32 else r1 0x32) * 0x100)).
Proof.
  intros Hc Hn Hs. assert (forall i, c.(registers) (c.(reads) + i)%nat = if (i <? j)%nat then r0 else r1) as Hi.
  { intros i. rewrite Hn. destruct (Nat.ltb_spec (reads c + i) (reads c + j)), (Nat.ltb_spec i j); done || lia. }
  assert (c.(registers) c.(reads) = if (0 <? j)%nat then r0 else r1) as H0 by (rewrite <- Hi; by rewrite Nat.add_0_r).
  rewrite get_cmos_time_round by done. unfold sample. rewrite !Hi, H0.
  destruct (decide (j = 7)%nat) as [->|H7].
  - cbn [Nat.ltb Nat.leb]. rewrite (proj2 (Z.eqb_neq _ _) Hs). set (c2 := mkRtc _ _ _).
    assert (forall i, c2.(registers) (c2.(reads) + i)%nat = r1) as Hi2.
    { intros i. cbn [c2 registers reads]. rewrite <- Nat.add_assoc, Hi. by destruct (Nat.ltb_spec (8 + i) 7); [lia|]. }
    assert (c2.(registers) c2.(reads) = r1) as H02 by (rewrite <- (Hi2 0%nat); by rewrite Nat.add_0_r).
    rewrite get_cmos_time_round by done. unfold sample. rewrite !Hi2, H02, Z.eqb_refl.
    eexists _, _. split; [reflexivity|]. split; [reflexivity|]. split; [done|lia].
  - assert ((6 <? j)%nat = (7 <? j)%nat) as -> by (destruct (Nat.ltb_spec 6 j), (Nat.ltb_spec 7 j); done || lia).
    rewrite Z.eqb_refl. eexists _, _. split; [reflexivity|]. split; [reflexivity|].
    split; intros Hj; do 9 (destruct j as [|j]; [cbn in *; first [reflexivity | lia]|]); lia.
Qed.

(** Shortly before midnight on the last day of the year; the clock advances after the minutes have
    been read, and a minute that is over is put together with the seconds of the next. *)
Definition before (r : Z) : Z :=
  if r =? 0 then 0x59 else if r =? 2 then 0x59 else if r =? 4 then 0x23 else if r =? 7 then 0x31 else
  if r =? 8 then 0x12 else if r =? 9 then 0x24 else 0x20.
Definition after (r : Z) : Z :=
  if r =? 7 then 0x01 else if r =? 8 then 0x01 else if r =? 9 then 0x25 else if r =? 0x32 then 0x20 else 0.
Definition rtc_demo (j : nat) : rtc := mkRtc 0 0 (fun n => if (n <? j)%nat then before else after).

Lemma rtc_demo_ok j : rtc_ok (rtc_demo j).
Proof.
  intros n r. cbn [rtc_demo registers]. unfold before, after. destruct (n <? j)%nat; cbv beta;
    repeat match goal with |- context [r =? ?x] => destruct (r =? x) end; lia.
Qed.

Lemma get_cmos_time_advance_witness : exists c', get_cmos_time 2 (rtc_demo 6) = Some (mkTime 0 0x59 0x23 0x31 0x12 0x2024, c').
Proof.
  destruct (get_cmos_time_advance 0 (rtc_demo 6) before after 6 (rtc_demo_ok 6)) as (t & c' & E & _ & _ & Ht).
  - intros n. reflexivity.
  - discriminate.
  - exists c'. rewrite E, Ht by lia. reflexivity.
Defined.
