(* ===== verification/Drivers.v ===== *)
(** * The drivers together (keyboard.c, mouse.c, disk.c, HPET.c, main.c)

    Each driver is modelled with its own view of the machine ([Keyboard], [Mouse], [Disk], [Timer]).
    Here they share one machine: the chips with the I/O APIC, the ports, the heap, the scheduler and
    the memory, and register their handlers with the interrupt dispatch of [Irq] in the order of
    [Start_Kernel]. *)

From S2P Require Import Prelude Bits Klist Sched Bytes Alloc Timer Keyboard Disk Apic Irq Mouse Cmos.

Local Open Scope Z_scope.
Local Open Scope cint_scope.

(** What the drivers keep beside the mouse; [hpet] are the registers at [HPET_addr]. *)
Record devices (W : Type) := mkDevices {
  dcpu : sched; dmem : mem;
  kb_at : Z; kb : keyboard_inputbuffer;
  drequests : gmap Z block_buffer_node; din_using : Z; dcount : Z;
  clock : ktime W; hpet : gmap Z Z; now : time
}.
Arguments mkDevices {W}.
Arguments dcpu {W}.
Arguments dmem {W}.
Arguments kb_at {W}.
Arguments kb {W}.
Arguments drequests {W}.
Arguments din_using {W}.
Arguments dcount {W}.
Arguments clock {W}.
Arguments hpet {W}.
Arguments now {W}.

Section Drivers.
Context {C P M W : Type} `{Machine C} `{Ports P} `{Allocator M}.
(** The run queue and the idle task, the wait queue of the keyboard, [disk_request], the list of
    timers; the number of times a status register may be read. *)
Context (queue init_task keyboard_wait_queue disk_request timer_list_head : Z) (polls : nat).
Notation system := (board C P M (devices W)).
Implicit Types (b : system) (s : irqs system).

Definition set_rest (d : devices W) b : system := mkBoard b.(chips) b.(kports) b.(bheap) b.(driver) d.

(** The views of the drivers, and storing them. *)
Definition kbd_of b : kbd := mkKbd b.(rest).(kb) b.(rest).(dcpu) b.(rest).(dmem).
Definition put_kbd (k : kbd) b : system :=
  let d := b.(rest) in
  set_rest (mkDevices k.(kcpu) k.(umem) d.(kb_at) k.(p_kb) d.(drequests) d.(din_using) d.(dcount) d.(clock) d.(hpet) d.(now)) b.
Definition disk_of b : Disk.machine P M :=
  let d := b.(rest) in Disk.mkMachine d.(dcpu) d.(drequests) d.(din_using) d.(dcount) b.(kports) d.(dmem) b.(bheap).
Definition put_disk (m : Disk.machine P M) b : system :=
  let d := b.(rest) in
  mkBoard b.(chips) m.(ports) m.(kheap) b.(driver)
    (mkDevices m.(mcpu) m.(memory) d.(kb_at) d.(kb) m.(requests) m.(in_using) m.(block_request_count) d.(clock) d.(hpet) d.(now)).
Definition put_clock (t : ktime W) (c : sched) b : system :=
  let d := b.(rest) in
  set_rest (mkDevices c d.(dmem) d.(kb_at) d.(kb) d.(drequests) d.(din_using) d.(dcount) t d.(hpet) d.(now)) b.
Definition set_kb_at (a : Z) b : system :=
  let d := b.(rest) in
  set_rest (mkDevices d.(dcpu) d.(dmem) a d.(kb) d.(drequests) d.(din_using) d.(dcount) d.(clock) d.(hpet) d.(now)) b.
Definition set_hpet (h : gmap Z Z) b : system :=
  let d := b.(rest) in
  set_rest (mkDevices d.(dcpu) d.(dmem) d.(kb_at) d.(kb) d.(drequests) d.(din_using) d.(dcount) d.(clock) h d.(now)) b.
Definition set_now (t : time) b : system :=
  let d := b.(rest) in
  set_rest (mkDevices d.(dcpu) d.(dmem) d.(kb_at) d.(kb) d.(drequests) d.(din_using) d.(dcount) d.(clock) d.(hpet) t) b.

(** ** Handlers *)

Definition keyboard_irq : irq_handler system := fun nr parameter regs b =>
  let '(x, p) := io_in8 PORT_KB_DATA b.(kports) in
  k ← keyboard_handler queue init_task keyboard_wait_queue (u8 x) (kbd_of b);
  Some (put_kbd k (set_kports p b)).
Definition disk_irq : irq_handler system := fun nr parameter regs b =>
  m ← disk_handler queue init_task disk_request polls (disk_of b); Some (put_disk m b).
Definition HPET_irq : irq_handler system := fun nr parameter regs b =>
  r ← HPET_handler timer_list_head (b.(rest).(clock), b.(rest).(dcpu)); Some (put_clock (fst r) (snd r) b).

(** ** Setting up *)

(** A driver's [register_irq], with the entry of the table they all fill in. *)
Definition register_driver (v : Z) (h : irq_handler system) (param name : Z) s : option (irqs system) :=
  r ← register_irq v (rte_word (driver_entry v)) (Some h) param (Some ioapic_controller) name s; Some (snd r).

Definition keyboard_init (name : Z) s : option (irqs system) :=
  let b := s.(machine) in
  let k := set_kcpu (wait_queue_init keyboard_wait_queue 0 b.(rest).(dcpu)) (kbd_of b) in
  r ← alloc sizeof_keyboard_inputbuffer b.(bheap);
  let '(p_kb, h) := r in
  guard_fault (negb (p_kb =? 0));;
  let b := set_kb_at p_kb (put_kbd (set_kb reset_buffer k) (set_bheap h b)) in
  q ← send polls [(PORT_KB_CMD, KBCMD_WRITE_CMD); (PORT_KB_DATA, KB_INIT_MODE)] b.(kports);
  register_driver 0x21 keyboard_irq p_kb name (set_machine (set_kports q b) s).

Definition keyboard_exit s : option (irqs system) :=
  r ← unregister_irq 0x21 s;
  let s := snd r in
  r ← release s.(machine).(rest).(kb_at) s.(machine).(bheap);
  Some (set_machine (set_bheap (snd r) s.(machine)) s).

Definition disk_init (name : Z) s : option (irqs system) :=
  s ← register_driver 0x2f disk_irq disk_request name s;
  Some (set_machine (put_disk (Disk.disk_init disk_request (disk_of s.(machine))) s.(machine)) s).

Definition disk_exit s : option (irqs system) := r ← unregister_irq 0x2f s; Some (snd r).

(** As it is compiled for Bochs, which is what the Makefile chooses. *)
Definition HPET_init (fuel : nat) (name : Z) s : option (irqs system) :=
  s ← register_driver 34 HPET_irq 0 name s;
  let b := s.(machine) in
  let h := <[0x108 := 14318179]> (<[0x100 := 0x004c]> (<[0x10 := 3]> b.(rest).(hpet))) in
  r ← get_cmos_time fuel b.(kports);
  let '(t, p) := r in
  Some (set_machine (set_hpet (<[0xf0 := 0]> h) (set_now t (set_kports p b))) s).

(** The drivers in the order of [Start_Kernel]; the strings name them. *)
Definition start_drivers (ps2_keyboard ps2_mouse disk1 : Z) s : option (irqs system) :=
  s ← keyboard_init ps2_keyboard s;
  s ← mouse_init polls ps2_mouse s;
  disk_init disk1 s.
End Drivers.

(** ** All drivers at work *)

Section Started.
Context {C P M W : Type} `{HC : MachineLaws C} `{HPorts : Ports P} `{HM : AllocatorLaws M}.
Context (queue init_task keyboard_wait_queue disk_request timer_list_head : Z) (polls : nat).
Notation system := (board C P M (devices W)).
Implicit Types (b : system) (s : irqs system).
Notation keyboard_irq := (keyboard_irq queue init_task keyboard_wait_queue).
Notation disk_irq := (disk_irq queue init_task disk_request polls).
Notation HPET_irq := (HPET_irq timer_list_head).
Notation start_drivers := (start_drivers queue init_task keyboard_wait_queue disk_request polls).

(** What [register_driver] registers. *)
Definition registered (v : Z) (h : irq_handler system) (param name : Z) (r : registry) : registry :=
  spec_call (call_register v (rte_word (driver_entry v)) (Some h) param name) r.

Lemma register_driver_rep v h param name s r : irq_rep s r -> 32 <= v < 56 ->
  exists s', register_driver v h param name s = Some s' /\ irq_rep s' (registered v h param name r) /\
    let b := s.(machine) in let b' := s'.(machine) in
    b'.(kports) = b.(kports) /\ b'.(bheap) = b.(bheap) /\ b'.(driver) = b.(driver) /\ b'.(rest) = b.(rest).
Proof using Type.
  intros R Hv. destruct (run_call_rep (call_register v (rte_word (driver_entry v)) (Some h) param name) s r R)
    as (s' & E & R'); [rewrite driver_entry_word by lia; split; [lia|unfold word64; lia]|].
  cbn [run_call] in E. apply fmap_Some in E as ([x s2] & E & ->). cbn [snd] in R'.
  exists s2. split; [unfold register_driver; by rewrite E|]. split; [exact R'|].
  unfold register_irq in E. rewrite put_desc_small in E by (rewrite ?(ir_len _ _ R); auto; lia).
  cbn [mbind option_bind] in E. injection E as _ <-. split_and!; reflexivity.
Qed.

(** The commands [keyboard_init] sends. *)
Definition keyboard_commands : list (Z * Z) := [(PORT_KB_CMD, KBCMD_WRITE_CMD); (PORT_KB_DATA, KB_INIT_MODE)].

Lemma keyboard_init_rep name s r q n : irq_rep s r -> room s.(machine).(bheap) (S n) ->
  send polls keyboard_commands s.(machine).(kports) = Some q ->
  exists s' a, keyboard_init queue init_task keyboard_wait_queue polls name s = Some s' /\ a <> 0 /\
    irq_rep s' (registered 0x21 keyboard_irq a name r) /\ room s'.(machine).(bheap) n /\
    let b := s.(machine) in let b' := s'.(machine) in
    b'.(kports) = q /\ b'.(driver) = b.(driver) /\ b'.(rest).(kb) = reset_buffer /\ b'.(rest).(kb_at) = a /\
    b'.(rest).(dcpu) = wait_queue_init keyboard_wait_queue 0 b.(rest).(dcpu) /\
    b'.(rest).(dmem) = b.(rest).(dmem) /\ b'.(rest).(drequests) = b.(rest).(drequests) /\
    b'.(rest).(clock) = b.(rest).(clock) /\ b'.(rest).(hpet) = b.(rest).(hpet).
Proof using Type.
  intros R Hroom Hq. destruct (alloc_room sizeof_keyboard_inputbuffer _ n ltac:(done) Hroom) as (a & h & Ea & Ha & Hr).
  unfold keyboard_init. rewrite Ea. cbn [mbind option_bind]. rewrite (proj2 (Z.eqb_neq _ _) Ha).
  cbn [negb guard_fault mbind option_bind]. set (b1 := set_kb_at _ _). change (kports b1) with s.(machine).(kports).
  fold keyboard_commands. rewrite Hq. cbn [mbind option_bind]. set (s1 := set_machine _ s).
  assert (irq_rep s1 r) as R1 by (by apply irq_rep_machine).
  destruct (register_driver_rep 0x21 keyboard_irq a name s1 r R1 ltac:(lia)) as (s' & -> & R' & Ek & Eh & Ed & Er).
  exists s', a. split; [done|]. split; [done|]. split; [done|]. rewrite Eh, Ek, Ed, Er. by split_and!.
Qed.

Lemma disk_init_rep name s r : irq_rep s r ->
  exists s', disk_init queue init_task disk_request polls name s = Some s' /\
    irq_rep s' (registered 0x2f disk_irq disk_request name r) /\
    let b := s.(machine) in let b' := s'.(machine) in
    b'.(kports) = io_out8 PORT_DISK1_ALT_STA_CTL 0 b.(kports) /\ b'.(driver) = b.(driver) /\
    b'.(rest).(kb) = b.(rest).(kb) /\ b'.(rest).(din_using) = 0 /\ b'.(rest).(dcount) = 0 /\
    b'.(rest).(dcpu) = wait_queue_init disk_request 0 b.(rest).(dcpu) /\
    b'.(rest).(clock) = b.(rest).(clock) /\ b'.(rest).(hpet) = b.(rest).(hpet).
Proof using Type.
  intros R. destruct (register_driver_rep 0x2f disk_irq disk_request name s r R ltac:(lia)) as (s1 & E & R1 & Ek & Eh & Ed & Er).
  unfold disk_init. rewrite E. cbn [mbind option_bind]. eexists. split; [reflexivity|].
  split; [by apply irq_rep_machine|]. cbn. rewrite Ek, Ed, Er. by split_and!.
Qed.

Lemma HPET_init_rep fuel name s r t q : irq_rep s r -> get_cmos_time fuel s.(machine).(kports) = Some (t, q) ->
  exists s', HPET_init timer_list_head fuel name s = Some s' /\ irq_rep s' (registered 34 HPET_irq 0 name r) /\
    let b := s.(machine) in let b' := s'.(machine) in
    b'.(kports) = q /\ b'.(driver) = b.(driver) /\ b'.(rest).(now) = t /\
    b'.(rest).(hpet) = <[0xf0 := 0]> (<[0x108 := 14318179]> (<[0x100 := 0x4c]> (<[0x10 := 3]> b.(rest).(hpet)))) /\
    b'.(rest).(kb) = b.(rest).(kb) /\ b'.(rest).(dcpu) = b.(rest).(dcpu) /\ b'.(rest).(clock) = b.(rest).(clock) /\
    b'.(rest).(din_using) = b.(rest).(din_using) /\ b'.(rest).(dcount) = b.(rest).(dcount).
Proof using Type.
  intros R Ht. destruct (register_driver_rep 34 HPET_irq 0 name s r R ltac:(lia)) as (s1 & E & R1 & Ek & Eh & Ed & Er).
  unfold HPET_init. rewrite E. cbn [mbind option_bind]. rewrite Ek, Ht. cbn [mbind option_bind].
  eexists. split; [reflexivity|]. split; [by apply irq_rep_machine|]. cbn. rewrite Ed, Er. by split_and!.
Qed.

(** The driver of a vector, with its parameter; [a] and [m] are the buffers of keyboard and mouse. *)
Definition driver_of (a m nr : Z) : option (irq_handler system * Z) :=
  if nr =? 0x21 then Some (keyboard_irq, a) else if nr =? 34 then Some (HPET_irq, 0)
  else if nr =? 0x2c then Some (mouse_handler, m) else if nr =? 0x2f then Some (disk_irq, disk_request) else None.

(** C23. The start of the drivers: with memory for two buffers, a controller that takes the commands and
    a clock that can be read, all four drivers are at work.  An interrupt runs the handler of its
    device, on the part of the machine that is this driver's, and is acknowledged; the other lines
    are only acknowledged.  Exactly the four lines are unmasked, each with its vector. *)
Theorem drivers_started fuel ps2_keyboard ps2_mouse disk1 HPET s r q1 q2 q3 t : irq_rep s r -> r.(lines) = ∅ ->
  room s.(machine).(bheap) 2 -> send polls keyboard_commands s.(machine).(kports) = Some q1 ->
  send polls mouse_commands q1 = Some q2 ->
  get_cmos_time fuel (io_out8 PORT_DISK1_ALT_STA_CTL 0 q2) = Some (t, q3) ->
  exists s1 s' a m, start_drivers ps2_keyboard ps2_mouse disk1 s = Some s1 /\
    HPET_init timer_list_head fuel HPET s1 = Some s' /\
    let b := s'.(machine) in
    (forall nr regs, 32 <= nr < 56 -> do_IRQ regs nr s' =
      match driver_of a m nr with
      | Some (h, param) => d ← h nr param regs b; Some (set_machine (wrmsr 0x80b 0 (wrmsr 0x80b 0 d)) s')
      | None => Some (set_machine (wrmsr 0x80b 0 b) s')
      end) /\
    (forall n, 0 <= n < 24 -> rte n b = if (n =? 1) || (n =? 2) || (n =? 12) || (n =? 15) then 32 + n else r.(table) n) /\
    b.(kports) = q3 /\ b.(rest).(kb) = reset_buffer /\ b.(driver).(ring) = reset_buffer /\
    b.(rest).(din_using) = 0 /\ b.(rest).(dcount) = 0 /\ b.(rest).(now) = t /\ b.(rest).(clock) = s.(machine).(rest).(clock) /\
    b.(rest).(dcpu) = wait_queue_init disk_request 0 (wait_queue_init keyboard_wait_queue 0 s.(machine).(rest).(dcpu)) /\
    b.(rest).(hpet) !! 0x10 = Some 3 /\ b.(rest).(hpet) !! 0x100 = Some 0x4c /\ b.(rest).(hpet) !! 0x108 = Some 14318179.
Proof using Type.
  intros R Hl Hroom H1 H2 H3.
  destruct (keyboard_init_rep ps2_keyboard s r q1 1 R Hroom H1)
    as (s1 & a & E1 & _ & R1 & Hr1 & K1 & D1 & B1 & _ & U1 & _ & _ & T1 & _).
  destruct (mouse_init_rep polls ps2_mouse s1 _ q2 R1 Hr1) as (s2 & m & E2 & _ & _ & D2 & K2 & X2 & R2); [by rewrite K1|].
  destruct (disk_init_rep disk1 s2 _ R2) as (s3 & E3 & R3 & K3 & D3 & B3 & I3 & N3 & U3 & T3 & _).
  destruct (HPET_init_rep fuel HPET s3 _ t q3 R3) as (s4 & E4 & R4 & K4 & D4 & W4 & P4 & B4 & U4 & T4 & I4 & N4);
    [by rewrite K3, K2|].
  exists s3, s4, a, m. split; [unfold start_drivers; rewrite E1; cbn [mbind option_bind]; by rewrite E2|]. split; [done|].
  cbn zeta. split; [|split].
  - intros nr regs Hnr. rewrite (do_IRQ_line s4 _ nr regs R4 Hnr). unfold registered. cbn [spec_call lines]. rewrite Hl.
    unfold driver_of. destruct (Z.eqb_spec nr 0x21) as [->|]; [reflexivity|].
    destruct (Z.eqb_spec nr 34) as [->|]; [reflexivity|].
    destruct (Z.eqb_spec nr 0x2c) as [->|]; [reflexivity|]. destruct (Z.eqb_spec nr 0x2f) as [->|]; [reflexivity|].
    rewrite !lookup_insert_ne, lookup_empty by congruence. reflexivity.
  - intros n Hn. rewrite (ir_table _ _ R4) by done. unfold registered. cbn [spec_call table].
    rewrite !driver_entry_word by lia. unfold set_entry.
    destruct (Z.eqb_spec n 1) as [->|]; [reflexivity|]. destruct (Z.eqb_spec n 2) as [->|]; [reflexivity|].
    destruct (Z.eqb_spec n 12) as [->|]; [reflexivity|]. destruct (Z.eqb_spec n 15) as [->|]; [reflexivity|].
    by rewrite !(proj2 (Z.eqb_neq _ _)) by lia.
  - rewrite P4. split_and!; [done|by rewrite B4, B3, X2|by rewrite D4, D3, D2|by rewrite I4|by rewrite N4|done
      |by rewrite T4, T3, X2|by rewrite U4, U3, X2, U1|
      by rewrite ?lookup_insert_ne, lookup_insert_eq by done..].
Qed.
End Started.

(** ** A start *)

(** The controller is always ready and the clock stands still; what is sent is noted. *)
#[export] Instance steady_ports : Ports (list (Z * Z)) := ready_ports.

Definition system_demo : board chip (list (Z * Z)) arena (devices unit) :=
  mkBoard reset_chip [] {[ 5000 ]} (mkMouse 0 reset_buffer 0 (mkPacket 0 0 0) [])
    (mkDevices (mkSched ∅ {[ 400 := mkTask 1 0 2 0 ]} ∅ ∅ 1 4 400) ∅ 0 reset_buffer ∅ 0 0
      (mkKtime ({[ 700 := mkList 700 700 ]}) {[ 700 := mkTimer all_ones 0 0 ]} 0 0 [] tt) ∅ (mkTime 0 0 0 0 0 0)).

Lemma drivers_started_witness : exists s1 s', let s := mkIrqs system_demo (replicate 24 no_desc) (replicate 10 no_desc) in
  start_drivers 100 400 500 600 3 1 2 3 s = Some s1 /\ HPET_init 700 1 4 s1 = Some s' /\
  (fun b => b.(driver).(ring).(Keyboard.count)) <$> (machine <$> do_IRQ 0 0x2c s') = Some 1 /\
  (fun b => b.(rest).(clock).(jiffies)) <$> (machine <$> do_IRQ 0 34 s') = Some 1.
Proof.
  destruct (drivers_started 100 400 500 600 700 3 1 1 2 3 4 (mkIrqs system_demo (replicate 24 no_desc) (replicate 10 no_desc))
    (mkRegistry ∅ ∅ (fun n => rte n system_demo)) keyboard_commands (keyboard_commands ++ mouse_commands)
    (snd (default (mkTime 0 0 0 0 0 0, []) (get_cmos_time 1 (io_out8 PORT_DISK1_ALT_STA_CTL 0 (keyboard_commands ++ mouse_commands)))))
    (mkTime 0 0 0 0 0 0)) as (s1 & s' & a & m & E1 & E2 & Hirq & _ & Hk & _ & Hm & _ & _ & _ & Hc & Hu & _).
  - apply irq_rep_start.
  - reflexivity.
  - exact I.
  - reflexivity.
  - reflexivity.
  - reflexivity.
  - exists s1, s'. split; [exact E1|]. split; [exact E2|]. split.
    + rewrite Hirq by lia. cbn [driver_of Z.eqb Pos.eqb]. unfold mouse_handler, mouse_put. rewrite Hm. reflexivity.
    + rewrite Hirq by lia. cbn [driver_of Z.eqb Pos.eqb]. unfold HPET_irq. rewrite Hc, Hu. reflexivity.
Defined.
