(* ===== verification/Entry.v ===== *)
(** * Entering and leaving the kernel (entry.S, APIC.c, task.c, task.h, user/syscall.c)

    The code that saves and restores registers: interrupts, exceptions, system calls, the first
    instructions of a task and the switch between tasks.  The instructions work on registers and a
    memory of 64-bit words, in which a stack is seen as the list of its words; the frame they build
    is the [struct pt_regs] of [Task].  The C functions that are called are parameters. *)

From S2P Require Import Prelude Gate Sched Task Exec Ulib.

Local Open Scope Z_scope.
Local Open Scope cint_scope.

(** ** The processor *)

Inductive gpr :=
  | RAX | RBX | RCX | RDX | RSI | RDI | RBP | RSP | R8 | R9 | R10 | R11 | R12 | R13 | R14 | R15
  | RIP | RFLAGS | CS | SS | DS | ES | FS | GS.

#[global] Instance gpr_eq_dec : EqDecision gpr.
Proof. solve_decision. Defined.

Definition is_segment (r : gpr) : bool :=
  match r with CS | SS | DS | ES | FS | GS => true | _ => false end.

(** Words at addresses; all accesses to one stack are at distances of eight.  Of the flags only
    IF and DF are followed. *)
Record machine := mkM { regs : gpr -> Z; mem : Z -> Z }.

(** A segment register takes the low 16 bits. *)
Definition upd (r : gpr) (v : Z) (f : gpr -> Z) : gpr -> Z :=
  fun x => if decide (x = r) then (if is_segment r then u16 v else v) else f x.
Definition put (r : gpr) (v : Z) (c : machine) : machine := mkM (upd r v c.(regs)) c.(mem).
Definition poke (a v : Z) (c : machine) : machine := mkM c.(regs) (fun x => if x =? a then v else c.(mem) x).

(** [load], [store]: the operand [8k(%rsp)]; [addsp] and [subsp] count words; [xchg_top]: the
    operand [(%rsp)]; the address of a symbol is a constant. *)
Inductive op :=
  | pushq (r : gpr) | pushi (k : Z) | popq (r : gpr)
  | movq (r r' : gpr) | movi (k : Z) (r : gpr) | xorq (r : gpr) | xchgq (r r' : gpr) | xchg_top (r : gpr)
  | load (k : nat) (r : gpr) | store (r : gpr) (k : nat)
  | addsp (k : nat) | subsp (k : nat) | cld | sti.

Definition push (v : Z) (c : machine) : machine :=
  let sp := c.(regs) RSP .- 8 in poke sp v (put RSP sp c).

Definition exec (o : op) (c : machine) : machine :=
  let sp := c.(regs) RSP in
  match o with
  | pushq r => push (c.(regs) r) c
  | pushi k => push k c
  | popq r => put r (c.(mem) sp) (put RSP (sp .+ 8) c)
  | movq r r' => put r' (c.(regs) r) c
  | movi k r => put r k c
  | xorq r => put r 0 c
  | xchgq r r' => put r (c.(regs) r') (put r' (c.(regs) r) c)
  | xchg_top r => poke sp (c.(regs) r) (put r (c.(mem) sp) c)
  | load k r => put r (c.(mem) (sp .+ 8 * Z.of_nat k)) c
  | store r k => poke (sp .+ 8 * Z.of_nat k) (c.(regs) r) c
  | addsp k => put RSP (sp .+ 8 * Z.of_nat k) c
  | subsp k => put RSP (sp .- 8 * Z.of_nat k) c
  | cld => put RFLAGS (c.(regs) RFLAGS .& .~ 0x400) c
  | sti => put RFLAGS (c.(regs) RFLAGS .| 0x200) c
  end.

Definition run (code : list op) (c : machine) : machine := fold_left (fun c o => exec o c) code c.

(** What the processor does by itself (Intel's manual): the delivery of an interrupt through the
    gate [g] on the stack that ends at [top] (what it does to [ss] is left out), [iretq], [sysenter] and
    [sysexit] with the registers 0x174 to 0x176.  TF, NT and RF are cleared by every delivery, IF by an
    interrupt gate, of type 14, and not by a trap gate, of type 15. *)
Definition deliver (g : gate_struct) (top : Z) (c : machine) : machine :=
  let r := c.(regs) in
  let d := read_gate g in
  let flags := r RFLAGS .& .~ 0x14100 in
  run [pushi (r SS); pushi (r RSP); pushi (r RFLAGS); pushi (r CS); pushi (r RIP);
       movi (if d.(gate_type) =? 14 then flags .& .~ 0x200 else flags) RFLAGS; movi d.(selector) CS; movi d.(offset) RIP] (put RSP top c).
Definition iretq (c : machine) : machine :=
  put RSP (c.(mem) (c.(regs) RSP .+ 8 * Z.of_nat 3)) (run [popq RIP; popq CS; popq RFLAGS; addsp 1; popq SS] c).
Definition sysenter (msr_cs msr_esp msr_eip : Z) (c : machine) : machine :=
  run [movi (c.(regs) RFLAGS .& .~ 0x200) RFLAGS; movi msr_cs CS; movi (msr_cs + 8) SS; movi msr_eip RIP] (put RSP msr_esp c).
Definition sysexit (msr_cs : Z) (c : machine) : machine :=
  put RSP (c.(regs) RCX) (run [movi (msr_cs + 32 .| 3) CS; movi (msr_cs + 40 .| 3) SS; movq RDX RIP] c).
Definition retq : list op := [popq RIP].

(** ** The code *)

(** Common to all: from [rbp] on the registers are pushed and popped in one order. *)
Definition pushed : list gpr := [RBP; RDI; RSI; RDX; RCX; RBX; R8; R9; R10; R11; R12; R13; R14; R15].
Definition save_segments : list op := [movq ES RAX; pushq RAX; movq DS RAX; pushq RAX; xorq RAX].
Definition restore_segments : list op := [popq RAX; movq RAX DS; popq RAX; movq RAX ES; popq RAX].
Definition pops : list op := map popq (reverse pushed).
Definition kernel_data (r : gpr) : list op := [movi 0x10 r; movq r DS; movq r ES].

(** APIC.c, 8259A.c *)
Definition SAVE_ALL : list op :=
  [cld; pushq RAX; pushq RAX] ++ save_segments ++ map pushq pushed ++ kernel_data RDX.
Definition Build_IRQ (nr ret_from_intr : Z) : list op :=
  [pushi 0] ++ SAVE_ALL ++ [movq RSP RDI; movi ret_from_intr RAX; pushq RAX; movi nr RSI].

(** entry.S: an exception without, with an error code, up to the call of the handler in [rdx]. *)
Definition error_code_asm : list op :=
  [pushq RAX] ++ save_segments ++ map pushq pushed ++
  [cld; load 18 RSI; load 17 RDX] ++ kernel_data RDI ++ [movq RSP RDI].
Definition exception_code (handler : Z) : list op := [pushq RAX; movi handler RAX; xchg_top RAX] ++ error_code_asm.
Definition exception (handler : Z) : list op := pushi 0 :: exception_code handler.
Definition nmi : list op := [pushq RAX] ++ SAVE_ALL ++ [movi 0 RSI; movq RSP RDI].
Definition RESTORE_ALL : list op := pops ++ restore_segments ++ [addsp 2].

(** entry.S: a system call, up to the call through the table in [rbx], and from there on. *)
Definition system_call (system_call_table : Z) : list op :=
  [subsp 7; cld; pushq RAX] ++ save_segments ++ map pushq pushed ++ kernel_data RDX ++
  [load 16 RAX; movi system_call_table RBX].
Definition ret_system_call : list op :=
  pops ++ restore_segments ++ [addsp 7; xchgq RDX R10; xchgq RCX R11; sti].

(** user/syscall.c: up to [sysenter], and from [sysexit_return_address] on. *)
Definition stub_enter (sysexit_return_address : Z) : list op :=
  [pushq R10; pushq R11; movi sysexit_return_address R10; movq RSP R11].
Definition stub_leave : list op := [xchgq RDX R10; xchgq RCX R11; popq R11; popq R10].

(** task.c: the first instructions of a kernel thread, up to the call of its function. *)
Definition kernel_thread_start : list op := pops ++ restore_segments ++ [addsp 7; movq RDX RDI].

(** ** A stack as a list *)

Definition gprs : list gpr :=
  [RAX; RBX; RCX; RDX; RSI; RDI; RBP; RSP; R8; R9; R10; R11; R12; R13; R14; R15; RIP; RFLAGS; CS; SS; DS; ES; FS; GS].
Definition index (r : gpr) : nat :=
  match r with
  | RAX => 0 | RBX => 1 | RCX => 2 | RDX => 3 | RSI => 4 | RDI => 5 | RBP => 6 | RSP => 7
  | R8 => 8 | R9 => 9 | R10 => 10 | R11 => 11 | R12 => 12 | R13 => 13 | R14 => 14 | R15 => 15
  | RIP => 16 | RFLAGS => 17 | CS => 18 | SS => 19 | DS => 20 | ES => 21 | FS => 22 | GS => 23
  end.

Lemma gprs_index r : gprs !! index r = Some r.
Proof. by destruct r. Qed.

Lemma index_lt r : (index r < 24)%nat.
Proof. destruct r; cbn; lia. Qed.

(** The values of the registers, of which that of [rsp] is not used, and the words from the stack
    pointer up to [top]. *)
Record view := mkView { vregs : list Z; stk : list Z }.

Definition values (f : gpr -> Z) : list Z := map f gprs.
Definition depth (top : Z) (l : list Z) : Z := top - 8 * Z.of_nat (length l).
Definition is_rsp (r : gpr) : bool := match r with RSP => true | _ => false end.
Definition vget (top : Z) (r : gpr) (v : view) : Z := if is_rsp r then depth top v.(stk) else nth (index r) v.(vregs) 0.
Definition vput (r : gpr) (x : Z) (v : view) : option view :=
  if is_rsp r then None
  else Some (mkView (<[index r := if is_segment r then u16 x else x]> v.(vregs)) v.(stk)).
Definition vpush (x : Z) (v : view) : option view :=
  if (length v.(stk) <? 64)%nat then Some (mkView v.(vregs) (x :: v.(stk))) else None.

(** The instructions on lists; [None] for what the code here does not do. *)
Definition vexec (top : Z) (o : op) (v : view) : option view :=
  match o with
  | pushq r => vpush (vget top r v) v
  | pushi k => vpush k v
  | popq r => match v.(stk) with x :: l => vput r x (mkView v.(vregs) l) | [] => None end
  | movq r r' => vput r' (vget top r v) v
  | movi k r => vput r k v
  | xorq r => vput r 0 v
  | xchgq r r' => v' ← vput r' (vget top r v) v; vput r (vget top r' v) v'
  | xchg_top r => match v.(stk) with x :: l => vput r x (mkView v.(vregs) (vget top r v :: l)) | [] => None end
  | load k r => x ← v.(stk) !! k; vput r x v
  | store r k => _ ← v.(stk) !! k; Some (mkView v.(vregs) (<[k := vget top r v]> v.(stk)))
  | addsp k => if (k <=? length v.(stk))%nat then Some (mkView v.(vregs) (drop k v.(stk))) else None
  | subsp k => None
  | cld => vput RFLAGS (vget top RFLAGS v .& .~ 0x400) v
  | sti => vput RFLAGS (vget top RFLAGS v .| 0x200) v
  end.
Definition vrun (top : Z) (code : list op) (v : view) : option view :=
  fold_left (fun v o => v ← v; vexec top o v) code (Some v).

(** [c] has the registers of [v] and a stack that ends at [top] and holds its words. *)
Record shows (top : Z) (v : view) (c : machine) : Prop := {
  sh_len : length v.(vregs) = 24%nat;
  sh_regs r : r <> RSP -> c.(regs) r = nth (index r) v.(vregs) 0;
  sh_sp : c.(regs) RSP = depth top v.(stk);
  sh_words i x : v.(stk) !! i = Some x -> c.(mem) (depth top v.(stk) + 8 * Z.of_nat i) = x;
  sh_room : (length v.(stk) <= 64)%nat
}.

(** Nothing but the 64 words below [top] was written. *)
Definition outside (top : Z) (c c' : machine) : Prop := forall x, x < top - 512 \/ top <= x -> c'.(mem) x = c.(mem) x.

Section Stack.
Context (top : Z) (Htop : 512 <= top < 2 ^ 64).
Implicit Types (v : view) (c : machine).

Lemma outside_refl c : outside top c c.
Proof using Type. by intros x _. Qed.

Lemma outside_trans c1 c2 c3 : outside top c1 c2 -> outside top c2 c3 -> outside top c1 c3.
Proof using Type. intros H1 H2 x Hx. by rewrite H2, H1. Qed.

Lemma upd_eq r x f : is_segment r = false -> upd r x f r = x.
Proof using Type. intros H. unfold upd. by rewrite decide_True, H. Qed.
Lemma upd_ne r r' x f : r' <> r -> upd r x f r' = f r'.
Proof using Type. intros H. unfold upd. by rewrite decide_False. Qed.
Lemma index_inj r r' : index r = index r' -> r = r'.
Proof using Type. intros E. pose proof (gprs_index r) as H. rewrite E, gprs_index in H. congruence. Qed.

Lemma is_rsp_spec r : is_rsp r = true <-> r = RSP.
Proof using Type. by destruct r. Qed.

Lemma shows_get r v c : shows top v c -> c.(regs) r = vget top r v.
Proof using Type.
  intros K. unfold vget. destruct (is_rsp r) eqn:Er.
  - apply is_rsp_spec in Er as ->. apply K.
  - apply K. intros ->. done.
Qed.

Lemma shows_put r x v v' c : shows top v c -> vput r x v = Some v' -> shows top v' (put r x c) /\ outside top c (put r x c).
Proof using Type.
  intros K E. unfold vput in E. destruct (is_rsp r) eqn:Er; [done|]. simplify_eq. split; [|by intros y _].
  assert (r <> RSP) as Hr by (intros ->; done).
  constructor; cbn; [rewrite length_insert; apply K| |rewrite upd_ne by done; apply K|apply K|apply K].
  intros y Hy. rewrite <- !(nth_lookup _ _ 0) || rewrite !nth_lookup. unfold upd. case_decide as Hyr.
  - subst y. rewrite list_lookup_insert_eq by (rewrite (sh_len _ _ _ K); apply index_lt). done.
  - rewrite list_lookup_insert_ne by (intros E; by apply Hyr, index_inj). rewrite <- nth_lookup. by apply K.
Qed.

Lemma shows_push x v v' c : shows top v c -> vpush x v = Some v' -> shows top v' (push x c) /\ outside top c (push x c).
Proof using Htop.
  intros K E. unfold vpush in E. destruct (Nat.ltb_spec (length v.(stk)) 64) as [Hl|]; [|done]. simplify_eq. unfold push.
  pose proof (sh_sp _ _ _ K) as Hsp. unfold depth in *. rewrite Hsp, u64_small by lia. split.
  - constructor; unfold depth; cbn [regs mem poke put vregs stk length]; [apply K| | | |lia].
    + intros r Hr. rewrite upd_ne by done. by apply K.
    + rewrite upd_eq by done. lia.
    + intros [|i] y Hy; cbn in Hy.
      * simplify_eq. by rewrite (proj2 (Z.eqb_eq _ _)) by lia.
      * rewrite (proj2 (Z.eqb_neq _ _)) by lia. rewrite <- (sh_words _ _ _ K i y Hy). f_equal. unfold depth. lia.
  - intros y Hy. cbn. by rewrite (proj2 (Z.eqb_neq _ _)) by lia.
Qed.

(** [k] words are taken off the stack. *)
Lemma shows_drop k v c : shows top v c -> (k <= length v.(stk))%nat ->
  shows top (mkView v.(vregs) (drop k v.(stk))) (put RSP (c.(regs) RSP .+ 8 * Z.of_nat k) c).
Proof using Htop.
  intros K Hk. pose proof (sh_room _ _ _ K). rewrite (sh_sp _ _ _ K). unfold depth. rewrite u64_small by lia.
  constructor; unfold depth; cbn [regs mem put vregs stk]; rewrite ?length_drop; [apply K| |rewrite upd_eq by done; lia| |lia].
  - intros r Hr. rewrite upd_ne by done. by apply K.
  - intros i x Hi. rewrite lookup_drop in Hi. rewrite <- (sh_words _ _ _ K _ _ Hi). f_equal. unfold depth. lia.
Qed.

Lemma shows_poke i x v c : shows top v c -> (i < length v.(stk))%nat -> let c' := poke (c.(regs) RSP .+ 8 * Z.of_nat i) x c in
  shows top (mkView v.(vregs) (<[i := x]> v.(stk))) c' /\ outside top c c'.
Proof using Htop.
  intros K Hi c'. subst c'. pose proof (sh_room _ _ _ K). rewrite (sh_sp _ _ _ K). unfold depth. rewrite u64_small by lia. split.
  - constructor; unfold depth; cbn [regs mem poke vregs stk]; rewrite ?length_insert; [apply K|apply K|apply K| |done].
    intros j y Hj. destruct (decide (j = i)) as [->|Hne].
    + rewrite list_lookup_insert_eq in Hj by done. rewrite Z.eqb_refl. congruence.
    + rewrite list_lookup_insert_ne in Hj by done. rewrite (proj2 (Z.eqb_neq _ _)) by lia. by apply (sh_words _ _ _ K).
  - intros y Hy. cbn. by rewrite (proj2 (Z.eqb_neq _ _)) by lia.
Qed.

Lemma shows_load i x v c : shows top v c -> v.(stk) !! i = Some x -> c.(mem) (c.(regs) RSP .+ 8 * Z.of_nat i) = x.
Proof using Htop.
  intros K Hx. pose proof (lookup_lt_Some _ _ _ Hx). pose proof (sh_room _ _ _ K). rewrite (sh_sp _ _ _ K). unfold depth.
  rewrite u64_small by lia. by apply (sh_words _ _ _ K).
Qed.

Lemma shows_top x l v c : shows top v c -> v.(stk) = x :: l -> c.(mem) (c.(regs) RSP) = x.
Proof using Htop.
  intros K E. rewrite (sh_sp _ _ _ K). rewrite <- (sh_words _ _ _ K 0 x) by (by rewrite E). f_equal. lia.
Qed.

(** The lists are what the instructions do. *)
Lemma exec_shows o v v' c : shows top v c -> vexec top o v = Some v' -> shows top v' (exec o c) /\ outside top c (exec o c).
Proof using Htop.
  intros K E. destruct o; cbn [vexec exec] in *; rewrite ?(shows_get _ _ _ K).
  - by apply (shows_push _ v).
  - by apply (shows_push _ v).
  - destruct v as [f [|x l]]; cbn [stk vregs] in *; [done|]. rewrite <- (shows_get RSP _ _ K), (shows_top x l _ _ K eq_refl).
    pose proof (shows_drop 1 _ _ K ltac:(cbn; lia)) as K1. split; [by apply (shows_put r x _ _ _ K1)|by intros y _].
  - by apply (shows_put _ _ v).
  - by apply (shows_put _ _ v).
  - by apply (shows_put _ _ v).
  - apply bind_Some in E as (v1 & E1 & E). destruct (shows_put _ _ _ _ _ K E1) as [K1 _].
    split; [by apply (shows_put _ _ _ _ _ K1)|by intros y _].
  - destruct v as [f [|x l]]; cbn [stk vregs] in *; [done|].
    pose proof (shows_top x l _ _ K eq_refl) as Hx. rewrite (shows_get RSP _ _ K) in Hx. rewrite Hx.
    destruct (shows_poke 0 (vget top r (mkView f (x :: l))) _ _ K ltac:(cbn; lia)) as [K1 O1]. cbn [vregs stk] in K1.
    assert (regs c RSP .+ 8 * Z.of_nat 0 = vget top RSP (mkView f (x :: l))) as Ea.
    { rewrite Z.mul_0_r, Z.add_0_r, (shows_get RSP _ _ K). apply u64_small. pose proof (sh_room _ _ _ K).
      unfold vget. cbn [is_rsp]. unfold depth. lia. }
    rewrite Ea in K1, O1. destruct (shows_put _ x _ _ _ K1 E) as [K2 _]. split; [exact K2|exact O1].
  - apply bind_Some in E as (x & Ex & E).
    rewrite <- (shows_get RSP _ _ K), (shows_load _ _ _ _ K Ex). by apply (shows_put _ _ v).
  - apply bind_Some in E as (x & Ex & E). simplify_eq.
    rewrite <- (shows_get RSP _ _ K). apply (shows_poke _ _ _ _ K), (lookup_lt_Some _ _ _ Ex).
  - destruct (Nat.leb_spec k (length v.(stk))); [|done]. simplify_eq. rewrite <- (shows_get RSP _ _ K). split; [by apply shows_drop|by intros y _].
  - done.
  - by apply (shows_put _ _ v).
  - by apply (shows_put _ _ v).
Qed.

Lemma run_shows code v v' c : shows top v c -> vrun top code v = Some v' -> shows top v' (run code c) /\ outside top c (run code c).
Proof using Htop.
  revert v c. unfold vrun, run. induction code as [|o code IH]; intros v c K E; cbn in E |- *.
  - simplify_eq. split; [done|apply outside_refl].
  - destruct (vexec top o v) as [v1|] eqn:E1.
    + destruct (exec_shows _ _ _ _ K E1) as [K1 O1]. destruct (IH _ _ K1 E) as [K2 O2]. split; [done|by eapply outside_trans].
    + exfalso. clear IH. induction code as [|o' code IH]; cbn in E; [done|by apply IH].
Qed.
End Stack.

(** ** Frames *)

(** The words of a [struct pt_regs], in the order of lib.h and of the offsets of entry.S. *)
Definition frame (r : pt_regs) : list Z :=
  [r.(r15); r.(r14); r.(r13); r.(r12); r.(r11); r.(r10); r.(r9); r.(r8); r.(rbx); r.(rcx); r.(rdx); r.(rsi); r.(rdi);
   r.(rbp); r.(ds); r.(es); r.(rax); r.(func); r.(errcode); r.(rip); r.(cs); r.(rflags); r.(rsp); r.(ss)].

(** The registers [f] with what is above them on the stack. *)
Definition saved (f : gpr -> Z) (func errcode rip cs rflags rsp ss : Z) : pt_regs :=
  mkRegs (f R15) (f R14) (f R13) (f R12) (f R11) (f R10) (f R9) (f R8) (f RBX) (f RCX) (f RDX) (f RSI) (f RDI) (f RBP)
    (f DS) (f ES) (f RAX) func errcode rip cs rflags rsp ss.
Definition interrupted (f : gpr -> Z) (func errcode : Z) : pt_regs :=
  saved f func errcode (f RIP) (f CS) (f RFLAGS) (f RSP) (f SS).

Definition segments_ok (f : gpr -> Z) : Prop := forall r, is_segment r = true -> 0 <= f r < 2 ^ 16.

Lemma u16_small x : 0 <= x < 2 ^ 16 -> u16 x = x.
Proof. unfold u16. apply Z.mod_small. Qed.

Section Frames.
Context (top : Z) (Htop : 512 <= top < 2 ^ 64).

Lemma shows_start f c : c.(regs) RSP = top -> (forall r, r <> RSP -> c.(regs) r = f r) -> shows top (mkView (values f) []) c.
Proof using Htop.
  intros Hs Hr. constructor; [done| |unfold depth; cbn; lia|done|cbn; lia].
  intros r Hne. rewrite (Hr r Hne). by destruct r.
Qed.

Lemma shows_put_rsp c : shows top (mkView (values c.(regs)) []) (put RSP top c).
Proof using Htop. apply shows_start; [apply upd_eq; reflexivity|]. intros r Hr. by apply upd_ne. Qed.

(** [subq] on an empty stack: the words are whatever memory holds. *)
Lemma shows_sub f c k : shows top (mkView f []) c -> (k <= 64)%nat ->
  exists l, length l = k /\ shows top (mkView f l) (exec (subsp k) c).
Proof using Htop.
  intros K Hk. exists (map (fun i => c.(mem) (top - 8 * Z.of_nat k + 8 * Z.of_nat i)) (seq 0 k)).
  assert (length (map (fun i => c.(mem) (top - 8 * Z.of_nat k + 8 * Z.of_nat i)) (seq 0 k)) = k) as L by (by rewrite length_map, length_seq).
  split; [done|]. pose proof (sh_sp _ _ _ K) as Hs. unfold depth in Hs. cbn [stk length] in Hs.
  constructor; unfold depth; cbn [vregs stk exec put regs mem]; rewrite ?L; [apply (sh_len _ _ _ K)| | | |lia].
  - intros r Hr. rewrite upd_ne by done. by apply (sh_regs _ _ _ K).
  - rewrite upd_eq by done. rewrite u64_small; lia.
  - intros i x Hi. apply list_lookup_fmap_Some in Hi as (j & -> & Hj). apply lookup_seq in Hj as [-> _]. done.
Qed.

End Frames.

(** The stack pointer and the words from there up to [top]. *)
Definition on_stack (top : Z) (l : list Z) (c : machine) : Prop := shows top (mkView (values c.(regs)) l) c.

Lemma on_stack_intro top l c : c.(regs) RSP = depth top l -> (length l <= 64)%nat ->
  (forall i x, l !! i = Some x -> c.(mem) (depth top l + 8 * Z.of_nat i) = x) -> on_stack top l c.
Proof. intros H1 H2 H3. constructor; try done. intros r _. by destruct r. Qed.

Lemma shows_on_stack top v c : shows top v c -> on_stack top v.(stk) c.
Proof. intros K. apply on_stack_intro; apply K. Qed.

(** Runs code on what [K] says about the stack and the registers. *)
Ltac run_on Htop K code :=
  match type of K with
  | shows ?top ?v ?c =>
      let v' := eval cbv -[regs u16 u64 Z.land Z.lor Z.lnot depth] in (vrun top code v) in
      match v' with
      | Some ?v' =>
          let E := fresh "E" in
          assert (vrun top code v = Some v') as E by (cbv -[regs u16 u64 Z.land Z.lor Z.lnot depth]; reflexivity);
          apply (run_shows top Htop code v v' c K) in E as [? ?]
      end
  end.

Lemma run_app a b c : run (a ++ b) c = run b (run a c).
Proof. unfold run. apply fold_left_app. Qed.

(** ** Interrupts and exceptions *)

(** The entries of the kernel: the attribute byte of the gate, the code with what the processor has
    pushed, what it pushes above the frame, the two words of the frame that are not registers, and [rsi]
    and [rdx] for the handler.  Interrupts and nmi have interrupt gates ([set_intr_gate]), int3, overflow
    and bounds system gates, the other exceptions trap gates. *)
Inductive entry (f : gpr -> Z) : Z -> list op -> list Z -> Z -> Z -> Z -> Z -> Prop :=
  | entry_irq nr ret : entry f 0x8E (Build_IRQ nr ret) [ret] (f RAX) 0 nr 0x10
  | entry_exception h : entry f 0x8F (exception h) [] h 0 0 h
  | entry_system h : entry f 0xEF (exception h) [] h 0 0 h
  | entry_error h e : entry f 0x8F (pushi e :: exception_code h) [] h e e h
  | entry_nmi : entry f 0x8E nmi [] (f RAX) (f RAX) 0 0x10.

Lemma restore_frame top (Htop : 512 <= top < 2 ^ 64) r c : on_stack top (frame r) c ->
  let c' := iretq (run RESTORE_ALL c) in
  forall x, c'.(regs) x = match x with
    | RAX => r.(rax) | RBX => r.(rbx) | RCX => r.(rcx) | RDX => r.(rdx) | RSI => r.(rsi) | RDI => r.(rdi) | RBP => r.(rbp)
    | R8 => r.(r8) | R9 => r.(r9) | R10 => r.(r10) | R11 => r.(r11) | R12 => r.(r12) | R13 => r.(r13) | R14 => r.(r14) | R15 => r.(r15)
    | RSP => r.(rsp) | RIP => r.(rip) | RFLAGS => r.(rflags) | CS => u16 r.(cs) | SS => u16 r.(ss) | DS => u16 r.(ds) | ES => u16 r.(es)
    | FS => c.(regs) FS | GS => c.(regs) GS
    end.
Proof.
  intros K c' x. destruct r. unfold on_stack in K. subst c'. unfold iretq.
  run_on Htop K RESTORE_ALL. pose proof (shows_load top Htop 3 _ _ _ H eq_refl) as Hsp. rewrite Hsp.
  clear K H0 Hsp. revert H. generalize (run RESTORE_ALL c) as c1. intros c1 H.
  run_on Htop H [popq RIP; popq CS; popq RFLAGS; addsp 1; popq SS].
  destruct (decide (x = RSP)) as [->|Hx]; [apply upd_eq; reflexivity|]. cbn [put regs].
  rewrite upd_ne, (sh_regs _ _ _ H0) by done. destruct x; try reflexivity. done.
Qed.

Lemma frame_slots r i x : frame r !! i = Some x -> (i < 24)%nat.
Proof. intros H. by apply lookup_lt_Some in H. Qed.

(** C14. Interrupts and exceptions are transparent.  On every entry, through the gate the kernel installs
    for it, the C function finds a complete frame of the interrupted registers at [rdi], its second
    argument in [rsi], the kernel's segments, DF clear, and only the stack was written.  Interrupts are
    disabled for an interrupt and for nmi; an exception leaves the flag as it was, since its gate is a
    trap gate.  When the function comes back with the frame as it was, whatever it did to the registers,
    all of them but [fs] and [gs], which are not saved, are as they were, the instruction pointer, the
    flags and the stack pointer too. *)
Theorem interrupt_transparent top handler c attr code extra func err arg third : 512 <= top < 2 ^ 64 -> word64 handler ->
  segments_ok c.(regs) -> entry c.(regs) attr code extra func err arg third ->
  let r := interrupted c.(regs) func err in
  let c0 := deliver (set_gate attr 0 handler) top c in let c1 := run code c0 in
  (c0.(regs) RIP = handler /\ on_stack top (extra ++ frame r) c1 /\ outside top c c1 /\
   c1.(regs) RDI = top - sizeof_pt_regs /\ c1.(regs) RSI = arg /\ c1.(regs) RDX = third /\
   c1.(regs) DS = KERNEL_DS /\ c1.(regs) ES = KERNEL_DS /\ c1.(regs) CS = KERNEL_CS /\
   Z.testbit (c1.(regs) RFLAGS) 9 = (if attr =? 0x8E then false else Z.testbit (c.(regs) RFLAGS) 9) /\
   Z.testbit (c1.(regs) RFLAGS) 10 = false) /\
  forall c2, on_stack top (frame r) c2 ->
    forall x, x <> FS -> x <> GS -> (iretq (run RESTORE_ALL c2)).(regs) x = c.(regs) x.
Proof.
  intros Htop Hh Hseg He r c0 c1. split.
  - pose proof (shows_put_rsp top Htop c) as K.
    assert (outside top c (put RSP top c)) as O0 by (by intros y _).
    assert (c0.(regs) RIP = handler) as Hrip.
    { subst c0. unfold deliver. rewrite read_set_gate by (try done; by destruct He). reflexivity. }
    split; [exact Hrip|]. clear Hrip. subst c1 c0 r. unfold deliver.
    rewrite read_set_gate by (try done; by destruct He). rewrite <- run_app. destruct He; cbn [app].
    all: match goal with |- context [run ?code _] => run_on Htop K code end.
    all: split; [by apply shows_on_stack in H|]; split; [by eapply outside_trans|].
    all: rewrite !(sh_regs _ _ _ H) by done; cbn [index vregs nth]; split_and!; try done.
    all: rewrite !Z.land_spec; cbn; by rewrite ?andb_true_r, ?andb_false_r.
  - intros c2 K2 x Hf Hg. rewrite (restore_frame top Htop _ _ K2). subst r.
    destruct x; cbn; try done; apply u16_small, Hseg; done.
Qed.

(** ** System calls *)

(** Another stack. *)
Lemma shows_move top top' v c l : shows top v c -> (length l <= 64)%nat ->
  (forall i x, l !! i = Some x -> c.(mem) (depth top' l + 8 * Z.of_nat i) = x) ->
  shows top' (mkView v.(vregs) l) (put RSP (depth top' l) c).
Proof.
  intros K Hl Hw. constructor; cbn [regs put vregs stk]; [apply K| |by apply upd_eq|done|done].
  intros r Hr. rewrite upd_ne by done. by apply (sh_regs _ _ _ K).
Qed.

Lemma depth_nil top : depth top [] = top.
Proof. unfold depth. cbn. lia. Qed.

Section Syscall.
(** The addresses of [sysexit_return_address], [system_call], the table and [errno]. *)
Context (ret_addr eip table errno_at : Z).

(** [init_tss.rsp0], which register 0x175 holds, is the [top]. *)
Definition enter (top : Z) (c : machine) : machine :=
  run (system_call table) (sysenter KERNEL_CS top eip (run (stub_enter ret_addr) c)).
(** [callq *(%rbx,%rax,8)] *)
Definition call_target (c : machine) : Z := c.(mem) (c.(regs) RBX .+ 8 * c.(regs) RAX).
Definition leave (c : machine) : machine := sysexit KERNEL_CS (run ret_system_call c).
(** From [sysexit_return_address] on, with [errno]. *)
Definition stub_return (c : machine) : machine :=
  let c := run stub_leave c in
  run retq (if c.(regs) RAX <? u64 (- 0x1000) then c else put RAX all_ones (poke errno_at (c.(regs) RAX) c)).

(** The frame of a system call of the registers [f]. *)
Definition syscall_frame (f : gpr -> Z) (func errcode rip cs rflags rsp ss : Z) : pt_regs :=
  mkRegs (f R15) (f R14) (f R13) (f R12) (f RSP - 16) ret_addr (f R9) (f R8) (f RBX) (f RCX) (f RDX) (f RSI) (f RDI) (f RBP)
    (f DS) (f ES) (f RAX) func errcode rip cs rflags rsp ss.
Definition set_rax (x : Z) (r : pt_regs) : pt_regs :=
  mkRegs r.(r15) r.(r14) r.(r13) r.(r12) r.(r11) r.(r10) r.(r9) r.(r8) r.(rbx) r.(rcx) r.(rdx) r.(rsi) r.(rdi) r.(rbp)
    r.(ds) r.(es) x r.(func) r.(errcode) r.(rip) r.(cs) r.(rflags) r.(rsp) r.(ss).

Lemma system_call_spec top c : 512 <= top < 2 ^ 64 ->
  let c1 := run (system_call table) (sysenter KERNEL_CS top eip c) in let f := c.(regs) in
  outside top c c1 /\ (exists w1 w2 w3 w4 w5 w6 w7, on_stack top (frame (saved f w1 w2 w3 w4 w5 w6 w7)) c1) /\
  c1.(regs) RDI = f RDI /\ c1.(regs) RSI = f RSI /\ c1.(regs) RDX = 0x10 /\ c1.(regs) DS = KERNEL_DS /\ c1.(regs) ES = KERNEL_DS /\
  c1.(regs) RAX = f RAX /\ c1.(regs) RBX = table.
Proof using Type.
  intros Htop c1 f. subst c1. unfold sysenter. set (fl := c.(regs) RFLAGS .& .~ 0x200). clearbody fl.
  pose proof (shows_put_rsp top Htop c) as K. fold f in K. assert (outside top c (put RSP top c)) as O0 by (by intros y _).
  revert K O0. generalize (put RSP top c) as c0. clearbody f. intros c0 K O0.
  run_on Htop K [movi fl RFLAGS; movi KERNEL_CS CS; movi (KERNEL_CS + 8) SS; movi eip RIP].
  pose proof (outside_trans _ _ _ _ O0 H0) as O1. clear O0 H0 K. revert H O1.
  generalize (run [movi fl RFLAGS; movi KERNEL_CS CS; movi (KERNEL_CS + 8) SS; movi eip RIP] c0) as c2. intros c2 K O1.
  destruct (shows_sub top Htop _ _ 7 K ltac:(lia)) as ([|w1 [|w2 [|w3 [|w4 [|w5 [|w6 [|w7 [|]]]]]]]] & L & K4); try discriminate L.
  change (run (system_call table) c2) with (run (drop 1 (system_call table)) (exec (subsp 7) c2)).
  assert (outside top c (exec (subsp 7) c2)) as O2 by exact O1. clear O1 K L. revert K4 O2. generalize (exec (subsp 7) c2) as c3. intros c3 K O3.
  run_on Htop K (drop 1 (system_call table)).
  split; [by eapply outside_trans|]. split; [exists w1, w2, w3, w4, w5, w6, w7; by apply shows_on_stack in H|].
  rewrite !(sh_regs _ _ _ H) by done. cbn [index vregs nth]. split_and!; done.
Qed.

Lemma stub_enter_spec c : let usp := c.(regs) RSP in let c1 := run (stub_enter ret_addr) c in 512 <= usp < 2 ^ 64 ->
  outside usp c c1 /\ on_stack usp [c.(regs) R11; c.(regs) R10] c1 /\
  forall x, c1.(regs) x = match x with R10 => ret_addr | R11 | RSP => usp - 16 | _ => c.(regs) x end.
Proof using Type.
  intros usp c1 Hu. assert (shows usp (mkView (values c.(regs)) []) c) as K by by apply shows_start.
  subst c1. clearbody usp. run_on Hu K (stub_enter ret_addr).
  split; [done|]. split; [by apply shows_on_stack in H|]. intros x. destruct (decide (x = RSP)) as [->|Hx].
  - rewrite (sh_sp _ _ _ H). unfold depth. cbn [stk length]. lia.
  - rewrite (sh_regs _ _ _ H) by done. by destruct x.
Qed.

Lemma leave_spec top r c : 512 <= top < 2 ^ 64 -> on_stack top (frame r) c -> let c' := leave c in
  outside top c c' /\
  forall x, c'.(regs) x = match x with
    | RAX => r.(rax) | RBX => r.(rbx) | RCX | RSP => r.(r11) | RDX | RIP => r.(r10) | RSI => r.(rsi) | RDI => r.(rdi) | RBP => r.(rbp)
    | R8 => r.(r8) | R9 => r.(r9) | R10 => r.(rdx) | R11 => r.(rcx) | R12 => r.(r12) | R13 => r.(r13) | R14 => r.(r14) | R15 => r.(r15)
    | RFLAGS => c.(regs) RFLAGS .| 0x200 | CS => 0x2b | SS => 0x33 | DS => u16 r.(ds) | ES => u16 r.(es)
    | FS => c.(regs) FS | GS => c.(regs) GS
    end.
Proof using Type.
  intros Htop K c'. subst c'. unfold leave, sysexit. destruct r. unfold on_stack in K. run_on Htop K ret_system_call.
  assert (regs (run ret_system_call c) RCX = r11) as Hsp by (rewrite (sh_regs _ _ _ H) by done; reflexivity).
  cbn [Task.r11] in Hsp |- *. rewrite Hsp. clear Hsp K. revert H H0. generalize (run ret_system_call c) as c1. intros c1 K O1.
  run_on Htop K [movi (KERNEL_CS + 32 .| 3) CS; movi (KERNEL_CS + 40 .| 3) SS; movq RDX RIP].
  split; [by eapply outside_trans|]. intros x. destruct (decide (x = RSP)) as [->|Hx]; [apply upd_eq; reflexivity|].
  cbn [put regs]. rewrite upd_ne, (sh_regs _ _ _ H) by done. destruct x; try reflexivity. done.
Qed.

(** The stub after [sysexit], on the user's stack. *)
Lemma stub_return_spec top w11 w10 w0 c : 512 <= top < 2 ^ 64 -> on_stack top [w11; w10; w0] c -> errno_at <> top - 8 ->
  let c' := stub_return c in
  forall x, c'.(regs) x = match x with
    | RAX => LABEL_SYSCALL (c.(regs) RAX) | RCX => c.(regs) R11 | RDX => c.(regs) R10 | RSP => top | R10 => w10 | R11 => w11 | RIP => w0
    | _ => c.(regs) x
    end.
Proof using Type.
  intros Htop K He c' x. subst c'. unfold stub_return, LABEL_SYSCALL. unfold on_stack in K. run_on Htop K stub_leave.
  assert (regs (run stub_leave c) RAX = regs c RAX) as Ea by by rewrite (sh_regs _ _ _ H).
  rewrite Ea. clear K H0 Ea. revert H. generalize (run stub_leave c) as c1. intros c1 K. destruct (_ <? _).
  - run_on Htop K retq. destruct (decide (x = RSP)) as [->|Hx]; [rewrite (sh_sp _ _ _ H); apply depth_nil|].
    rewrite (sh_regs _ _ _ H) by done. by destruct x.
  - assert (shows top (mkView [all_ones; regs c RBX; regs c R11; regs c R10; regs c RSI; regs c RDI; regs c RBP; regs c RSP;
      regs c R8; regs c R9; w10; w11; regs c R12; regs c R13; regs c R14; regs c R15; regs c RIP; regs c RFLAGS; regs c CS;
      regs c SS; regs c DS; regs c ES; regs c FS; regs c GS] [w0]) (put RAX all_ones (poke errno_at (regs c RAX) c1))) as K2.
    { constructor; try done.
      - intros y Hy. cbn [put regs poke]. destruct (decide (y = RAX)) as [->|Hy']; [by apply upd_eq|].
        rewrite upd_ne, (sh_regs _ _ _ K) by done. by destruct y.
      - cbn [put regs poke]. rewrite upd_ne, (sh_sp _ _ _ K) by done. done.
      - intros [|i] y Hi; [|done]. cbn [put mem poke stk length] in *. rewrite (proj2 (Z.eqb_neq _ _)).
        + by apply (sh_words _ _ _ K 0).
        + unfold depth. cbn [length]. lia.
      - cbn. lia. }
    clear K. revert K2. generalize (put RAX all_ones (poke errno_at (regs c RAX) c1)) as c2. intros c2 K.
    run_on Htop K retq. destruct (decide (x = RSP)) as [->|Hx]; [rewrite (sh_sp _ _ _ H); apply depth_nil|].
    rewrite (sh_regs _ _ _ H) by done. by destruct x.
Qed.

(** What the stub pushed, and the return address of its caller, are at [usp - 16]. *)
Definition user_words (usp : Z) (f : gpr -> Z) (back : Z) (c : machine) : Prop :=
  c.(mem) (usp - 16) = f R11 /\ c.(mem) (usp - 8) = f R10 /\ c.(mem) usp = back.

(** Back in the program that made the call. *)
Lemma resume_spec top r f back c : 512 <= top < 2 ^ 64 -> 512 <= f RSP -> f RSP + 8 <= top - 512 -> errno_at <> f RSP ->
  on_stack top (frame r) c -> r.(r10) = ret_addr -> r.(r11) = f RSP - 16 -> user_words (f RSP) f back c ->
  let c' := stub_return (leave c) in
  forall x, c'.(regs) x = match x with
    | RAX => LABEL_SYSCALL r.(rax) | RBX => r.(rbx) | RCX => r.(rcx) | RDX => r.(rdx) | RSI => r.(rsi) | RDI => r.(rdi) | RBP => r.(rbp)
    | RSP => f RSP + 8 | R8 => r.(r8) | R9 => r.(r9) | R10 => f R10 | R11 => f R11
    | R12 => r.(r12) | R13 => r.(r13) | R14 => r.(r14) | R15 => r.(r15) | RIP => back
    | RFLAGS => c.(regs) RFLAGS .| 0x200 | CS => 0x2b | SS => 0x33 | DS => u16 r.(ds) | ES => u16 r.(es)
    | FS => c.(regs) FS | GS => c.(regs) GS
    end.
Proof using Type.
  intros Htop Hu Hb He K E10 E11 (W1 & W2 & W3) c' x. destruct (leave_spec top r c Htop K) as [O Hr].
  assert (on_stack (f RSP + 8) [f R11; f R10; back] (leave c)) as K1.
  { apply on_stack_intro; [|cbn; lia|].
    - rewrite Hr, E11. unfold depth. cbn [length]. lia.
    - unfold depth. cbn [length]. intros [|[|[|]]] y Hy; [..|done]; cbn in Hy; simplify_eq; rewrite O by lia.
      + rewrite <- W1. f_equal. lia.
      + rewrite <- W2. f_equal. lia.
      + f_equal. lia. }
  subst c'. rewrite (stub_return_spec (f RSP + 8) _ _ _ _ ltac:(lia) K1) by lia. destruct x; rewrite ?Hr; done.
Qed.

(** On the way in: the arguments, the frame, the user's words, and what is not written. *)
Lemma system_call_entered top c : 512 <= top < 2 ^ 64 -> let usp := c.(regs) RSP in 512 <= usp -> usp + 8 <= top - 512 ->
  let c1 := enter top c in
  (forall x, ~ usp - 512 <= x < usp -> ~ top - 512 <= x < top -> c1.(mem) x = c.(mem) x) /\
  c1.(regs) RDI = c.(regs) RDI /\ c1.(regs) RSI = c.(regs) RSI /\ c1.(regs) RDX = third_argument /\
  call_target c1 = c1.(mem) (table .+ 8 * c.(regs) RAX).
Proof using Type.
  intros Htop usp Hu Hb c1. subst usp. destruct (stub_enter_spec c ltac:(lia)) as (O1 & K1 & R1).
  destruct (system_call_spec top (run (stub_enter ret_addr) c) Htop) as (O2 & _ & A1 & A2 & A3 & _ & _ & A6 & A7).
  fold (enter top c) in *. fold c1 in O2, A1, A2, A3, A6, A7. split_and!.
  - intros x Hx1 Hx2. rewrite O2, O1 by lia. done.
  - by rewrite A1, R1.
  - by rewrite A2, R1.
  - done.
  - unfold call_target. by rewrite A7, A6, R1.
Qed.

Lemma frame_entered top c : 512 <= top < 2 ^ 64 -> let usp := c.(regs) RSP in 512 <= usp -> usp + 8 <= top - 512 ->
  let c1 := enter top c in
  (exists w1 w2 w3 w4 w5 w6 w7, on_stack top (frame (syscall_frame c.(regs) w1 w2 w3 w4 w5 w6 w7)) c1) /\
  user_words usp c.(regs) (c.(mem) usp) c1.
Proof using Type.
  intros Htop usp Hu Hb c1. subst usp. destruct (stub_enter_spec c ltac:(lia)) as (O1 & K1 & R1).
  destruct (system_call_spec top (run (stub_enter ret_addr) c) Htop) as (O2 & (w1 & w2 & w3 & w4 & w5 & w6 & w7 & K2) & _).
  fold (enter top c) in *. fold c1 in O2, K2. split.
  - exists w1, w2, w3, w4, w5, w6, w7. unfold saved in K2. rewrite !R1 in K2. exact K2.
  - pose proof (sh_words _ _ _ K1 0 _ eq_refl) as W0. pose proof (sh_words _ _ _ K1 1 _ eq_refl) as W1.
    unfold depth in W0, W1. cbn [stk length] in W0, W1.
    split_and!; rewrite O2 by lia; [rewrite <- W0; f_equal; lia|rewrite <- W1; f_equal; lia|apply O1; lia].
Qed.

(** The registers a system call leaves alone: not the result, those of the call itself, the flags,
    and the segments that are fixed or belong to the task. *)
Definition restored (x : gpr) : bool :=
  match x with RAX | RIP | RSP | RFLAGS | CS | SS | FS | GS => false | _ => true end.

(** C13. A system call is a function call.  The kernel's function gets the first two arguments of the
    program, and a complete frame of its registers at the top of the kernel stack; the third argument
    is always 0x10, whatever the program passed.  When the function returns, with the frame and the
    top of the user stack as they were, the program goes on behind its call with the result in [rax],
    -1 for an error, and with all its other registers, and only its stack below the call was written
    on the way into the kernel. *)
Theorem syscall_roundtrip top c : 512 <= top < 2 ^ 64 -> let usp := c.(regs) RSP in 512 <= usp -> usp + 8 <= top - 512 ->
  errno_at <> usp -> segments_ok c.(regs) ->
  let c1 := enter top c in
  (forall x, ~ usp - 512 <= x < usp -> ~ top - 512 <= x < top -> c1.(mem) x = c.(mem) x) /\
  c1.(regs) RDI = c.(regs) RDI /\ c1.(regs) RSI = c.(regs) RSI /\ c1.(regs) RDX = third_argument /\
  call_target c1 = c1.(mem) (table .+ 8 * c.(regs) RAX) /\
  exists w1 w2 w3 w4 w5 w6 w7, let r := syscall_frame c.(regs) w1 w2 w3 w4 w5 w6 w7 in
  on_stack top (frame r) c1 /\
  forall c2, on_stack top (frame r) c2 -> (forall x, usp - 16 <= x <= usp -> c2.(mem) x = c1.(mem) x) ->
    let c3 := stub_return (leave (exec (store RAX 16) c2)) in
    c3.(regs) RAX = LABEL_SYSCALL (c2.(regs) RAX) /\ c3.(regs) RIP = c.(mem) usp /\ c3.(regs) RSP = usp + 8 /\
    forall x, restored x = true -> c3.(regs) x = c.(regs) x.
Proof using Type.
  intros Htop usp Hu Hb He Hseg c1. subst usp. destruct (system_call_entered top c Htop Hu Hb) as (Hm & A1 & A2 & A3 & A4).
  destruct (frame_entered top c Htop Hu Hb) as [(w1 & w2 & w3 & w4 & w5 & w6 & w7 & K2) (V1 & V2 & V3)].
  fold c1 in Hm, A1, A2, A3, A4, K2, V1, V2, V3. do 5 (split; [done|]).
  exists w1, w2, w3, w4, w5, w6, w7. intros r. split; [exact K2|]. intros c2 K Hw c3.
  assert (on_stack top (frame (set_rax (c2.(regs) RAX) r)) (exec (store RAX 16) c2) /\
    outside top c2 (exec (store RAX 16) c2)) as [K3 O3].
  { unfold on_stack in K. run_on Htop K [store RAX 16]. split; [|exact H0]. apply shows_on_stack in H. exact H. }
  assert (user_words (c.(regs) RSP) c.(regs) (c.(mem) (c.(regs) RSP)) (exec (store RAX 16) c2)) as W.
  { unfold user_words. by rewrite !O3, !Hw by lia. }
  assert (r10 (set_rax (c2.(regs) RAX) r) = ret_addr /\ r11 (set_rax (c2.(regs) RAX) r) = c.(regs) RSP - 16) as [E10 E11] by done.
  subst c3. revert K3 W E10 E11. generalize (exec (store RAX 16) c2) as c4. intros c4 K3 W E10 E11.
  pose proof (resume_spec top _ c.(regs) (c.(mem) (c.(regs) RSP)) c4 Htop Hu Hb He K3 E10 E11 W) as Hr. cbv zeta in Hr.
  split_and!; [by rewrite Hr..|]. intros x Hx. rewrite Hr.
  destruct x; try discriminate Hx; first [exact (u16_small _ (Hseg DS eq_refl))|exact (u16_small _ (Hseg ES eq_refl))|reflexivity].
Qed.
End Syscall.

(** ** The first instructions of a task *)

(** A forked child returns from the system call of its parent, with 0 in [rax]. *)
Lemma child_resumes ret_addr errno_at top f w1 w2 w3 w4 w5 w6 w7 sp back c : 512 <= top < 2 ^ 64 -> 512 <= f RSP ->
  f RSP + 8 <= top - 512 -> errno_at <> f RSP -> segments_ok f ->
  on_stack top (frame (child_regs sp (syscall_frame ret_addr f w1 w2 w3 w4 w5 w6 w7))) c -> user_words (f RSP) f back c ->
  let c' := stub_return errno_at (leave c) in
  c'.(regs) RAX = 0 /\ c'.(regs) RIP = back /\ c'.(regs) RSP = f RSP + 8 /\ forall x, restored x = true -> c'.(regs) x = f x.
Proof.
  intros Htop Hu Hb He Hseg K W c'.
  pose proof (resume_spec ret_addr errno_at top _ f back c Htop Hu Hb He K eq_refl eq_refl W) as Hr. fold c' in Hr. cbv zeta in Hr.
  split_and!; [by rewrite Hr..|]. intros x Hx. rewrite Hr.
  destruct x; try discriminate Hx; first [exact (u16_small _ (Hseg DS eq_refl))|exact (u16_small _ (Hseg ES eq_refl))|reflexivity].
Qed.

(** The program [do_execve] prepared starts at its entry in user mode, with its arguments. *)
Lemma program_starts top r entry stack a c : 512 <= top < 2 ^ 64 -> on_stack top (frame (set_rax a (start_regs entry stack r))) c ->
  let c' := leave c in
  c'.(regs) RIP = entry /\ c'.(regs) RSP = stack /\ c'.(regs) RDI = r.(rdi) /\ c'.(regs) RSI = r.(rsi) /\
  c'.(regs) CS = USER_CS .| 3 /\ c'.(regs) SS = USER_DS .| 3 /\ c'.(regs) DS = USER_DS /\ Z.testbit (c'.(regs) RFLAGS) 9 = true.
Proof.
  intros Htop K c'. destruct (leave_spec top _ c Htop K) as [_ Hr]. fold c' in Hr.
  split_and!; rewrite Hr; try reflexivity. rewrite Z.lor_spec. apply orb_true_r.
Qed.

(** A kernel thread calls its function, which is in [rbx], with its argument, on an empty stack. *)
Lemma kernel_thread_starts top fn arg ip sp c : 512 <= top < 2 ^ 64 ->
  on_stack top (frame (child_regs sp (mkRegs 0 0 0 0 0 0 0 0 fn 0 arg 0 0 0 KERNEL_DS KERNEL_DS 0 0 0 ip
    KERNEL_CS (1 .<< 9) 0 KERNEL_DS))) c ->
  let c' := run kernel_thread_start c in
  c'.(regs) RBX = fn /\ c'.(regs) RDI = arg /\ c'.(regs) RSP = top /\ c'.(regs) DS = KERNEL_DS.
Proof.
  intros Htop K c'. subst c'. unfold on_stack in K. run_on Htop K kernel_thread_start.
  rewrite (sh_sp _ _ _ H), !(sh_regs _ _ _ H) by done. split_and!; try done. apply depth_nil.
Qed.

(** ** The switch between tasks *)

(** The processor, the [thread_struct] of the tasks by address, and what the processor takes the
    kernel stack from: [init_tss.rsp0] and register 0x175. *)
Record switching := mkSw { sm : machine; threads : gmap Z thread_struct; tss_rsp0 : Z; msr_175 : Z }.

Definition set_t_rsp (x : Z) (t : thread_struct) : thread_struct :=
  mkThread t.(rsp0) t.(t_rip) x t.(fs) t.(gs) t.(cr2) t.(trap_nr) t.(error_code).
Definition set_t_rip (x : Z) (t : thread_struct) : thread_struct :=
  mkThread t.(rsp0) x t.(t_rsp) t.(fs) t.(gs) t.(cr2) t.(trap_nr) t.(error_code).
Definition set_fs (x : Z) (t : thread_struct) : thread_struct :=
  mkThread t.(rsp0) t.(t_rip) t.(t_rsp) x t.(gs) t.(cr2) t.(trap_nr) t.(error_code).
Definition set_gs (x : Z) (t : thread_struct) : thread_struct :=
  mkThread t.(rsp0) t.(t_rip) t.(t_rsp) t.(fs) x t.(cr2) t.(trap_nr) t.(error_code).

Definition caller_saved (r : gpr) : bool :=
  match r with RAX | RCX | RDX | RSI | RDI | R8 | R9 | R10 | R11 | RFLAGS | RIP => true | _ => false end.

Section Switch.
(** The label 1 of [switch_to]; what the compiled code of [__switch_to] does besides its statements. *)
Context (label : Z) (compiled : machine -> machine).
Hypothesis compiled_regs : forall c r, caller_saved r = false -> (compiled c).(regs) r = c.(regs) r.
Hypothesis compiled_mem : forall c x, x < c.(regs) RSP - 512 \/ c.(regs) RSP <= x -> (compiled c).(mem) x = c.(mem) x.

Definition change (a : Z) (g : thread_struct -> thread_struct) (t : gmap Z thread_struct) : option (gmap Z thread_struct) :=
  p ← t !! a; Some (<[a := g p]> t).

(** [prev->thread] and [next->thread] are the addresses. *)
Definition __switch_to (prev next : Z) (s : switching) : option switching :=
  n ← s.(threads) !! next;
  let esp0 := n.(rsp0) in
  t ← change prev (set_fs (s.(sm).(regs) FS)) s.(threads);
  t ← change prev (set_gs (s.(sm).(regs) GS)) t;
  n ← t !! next;
  let c := compiled (put GS n.(gs) (put FS n.(fs) s.(sm))) in
  Some (mkSw c t esp0 n.(rsp0)).

(** Up to where the next task goes on. *)
Definition switch_to (prev next : Z) (s : switching) : option switching :=
  let c := run [pushq RBP; pushq RAX] s.(sm) in
  t ← change prev (set_t_rsp (c.(regs) RSP)) s.(threads);
  n ← t !! next;
  let c := put RAX label (put RSP n.(t_rsp) c) in
  t ← change prev (set_t_rip label) t;
  n ← t !! next;
  s ← __switch_to prev next (mkSw (push n.(t_rip) c) t s.(tss_rsp0) s.(msr_175));
  Some (mkSw (run retq s.(sm)) s.(threads) s.(tss_rsp0) s.(msr_175)).
(** From the label on. *)
Definition switched (s : switching) : machine := run [popq RAX; popq RBP] s.(sm).

Lemma put_eq r v c : is_segment r = false -> (put r v c).(regs) r = v.
Proof using Type. apply upd_eq. Qed.
Lemma put_segment r v c : is_segment r = true -> (put r v c).(regs) r = u16 v.
Proof using Type. intros H. cbn. unfold upd. by rewrite decide_True, H. Qed.
Lemma put_ne r r' v c : r' <> r -> (put r v c).(regs) r' = c.(regs) r'.
Proof using Type. apply upd_ne. Qed.
Lemma push_sp v c : (push v c).(regs) RSP = c.(regs) RSP .- 8.
Proof using Type. unfold push. cbn [poke regs]. by apply put_eq. Qed.
Lemma push_ne r v c : r <> RSP -> (push v c).(regs) r = c.(regs) r.
Proof using Type. unfold push. cbn [poke regs]. apply put_ne. Qed.
Lemma push_mem v c x : (push v c).(mem) x = if x =? c.(regs) RSP .- 8 then v else c.(mem) x.
Proof using Type. done. Qed.

Definition far (a b : Z) : Prop := a + 1024 <= b \/ b + 1024 <= a.

(** The next task goes on where it was left; the words and the thread of the previous one are in place. *)
Lemma switch_to_spec prev next s p n : let sp := s.(sm).(regs) RSP in 1024 <= sp < 2 ^ 64 -> 1024 <= n.(t_rsp) < 2 ^ 64 ->
  prev <> next -> s.(threads) !! prev = Some p -> s.(threads) !! next = Some n -> far sp n.(t_rsp) ->
  exists s', switch_to prev next s = Some s' /\
    s'.(sm).(regs) RIP = n.(t_rip) /\ s'.(sm).(regs) RSP = n.(t_rsp) /\
    s'.(sm).(regs) FS = u16 n.(fs) /\ s'.(sm).(regs) GS = u16 n.(gs) /\
    s'.(tss_rsp0) = n.(rsp0) /\ s'.(msr_175) = n.(rsp0) /\
    s'.(threads) = <[prev := mkThread p.(rsp0) label (sp - 16) (s.(sm).(regs) FS) (s.(sm).(regs) GS)
      p.(cr2) p.(trap_nr) p.(error_code)]> s.(threads) /\
    s'.(sm).(mem) (sp - 16) = s.(sm).(regs) RAX /\ s'.(sm).(mem) (sp - 8) = s.(sm).(regs) RBP /\
    (forall x, (x < sp - 512 \/ sp <= x) -> (x < n.(t_rsp) - 520 \/ n.(t_rsp) <= x) -> s'.(sm).(mem) x = s.(sm).(mem) x) /\
    forall r, caller_saved r = false -> r <> RSP -> r <> FS -> r <> GS -> s'.(sm).(regs) r = s.(sm).(regs) r.
Proof using compiled_regs compiled_mem.
  destruct s as [c th t0 m0]. intros sp Hsp Hn Hne Hp Hnx Hfar. cbn [sm threads] in sp, Hp, Hnx |- *. assert (512 <= sp < 2 ^ 64) as Hsp' by lia.
  assert (shows sp (mkView (values c.(regs)) []) c) as K by by apply shows_start.
  run_on Hsp' K [pushq RBP; pushq RAX]. unfold switch_to, __switch_to, change. cbn [sm threads tss_rsp0 msr_175].
  assert (forall r, r <> RSP -> (run [pushq RBP; pushq RAX] c).(regs) r = c.(regs) r) as R1.
  { intros r Hr. rewrite (sh_regs _ _ _ H) by done. by destruct r. }
  pose proof (sh_words _ _ _ H 0 _ eq_refl) as W0. pose proof (sh_words _ _ _ H 1 _ eq_refl) as W1.
  pose proof (sh_sp _ _ _ H) as E1. clear H K. revert R1 W0 W1 E1 H0. generalize (run [pushq RBP; pushq RAX] c) as c1.
  unfold depth. cbn [stk length]. intros c1 R1 W0 W1 E1 O1. replace (sp - 8 * Z.of_nat 2) with (sp - 16) in * by lia.
  rewrite E1, Hp. repeat first [rewrite lookup_insert_eq|rewrite insert_insert_eq|rewrite (lookup_insert_ne _ prev next) by exact Hne|
    rewrite Hnx|progress cbn [mbind option_bind threads sm tss_rsp0 msr_175]].
  set (m := put GS _ _). set (c0 := put RAX label (put RSP n.(t_rsp) c1)) in *.
  assert (c0.(regs) RSP = n.(t_rsp)) as E0 by (subst c0; by rewrite put_ne, put_eq).
  assert (forall r, r <> RAX -> r <> RSP -> c0.(regs) r = c.(regs) r) as R0.
  { intros r Ha Hr. subst c0. by rewrite !put_ne, R1. }
  assert (c0.(mem) = c1.(mem)) as M0 by done. clearbody c0.
  assert (m.(regs) RSP = n.(t_rsp) - 8) as Em by (subst m; rewrite !put_ne, push_sp, E0, u64_small by (done || lia); done).
  assert (forall x, m.(mem) x = if x =? n.(t_rsp) - 8 then n.(t_rip) else c1.(mem) x) as Mm.
  { intros x. subst m. cbn [put mem]. by rewrite push_mem, E0, u64_small, M0 by lia. }
  assert (forall r, caller_saved r = false -> (run retq (compiled m)).(regs) r = if decide (r = RSP) then n.(t_rsp) else m.(regs) r) as Rr.
  { intros r Hr. cbn [run retq fold_left exec]. rewrite put_ne by (intros ->; done). case_decide as Hd.
    - subst r. rewrite put_eq, compiled_regs, Em, u64_small by (done || lia). lia.
    - by rewrite put_ne, compiled_regs by done. }
  assert (forall x, x < n.(t_rsp) - 520 \/ n.(t_rsp) <= x -> (run retq (compiled m)).(mem) x = c1.(mem) x) as Mr.
  { intros x Hx. change ((compiled m).(mem) x = c1.(mem) x). rewrite compiled_mem by lia. rewrite Mm. by rewrite (proj2 (Z.eqb_neq _ _)) by lia. }
  eexists. split; [reflexivity|]. cbn [sm threads tss_rsp0 msr_175]. unfold far in Hfar. split_and!.
  - cbn [run retq fold_left exec]. rewrite put_eq, compiled_regs, Em, compiled_mem, Mm by (done || lia). by rewrite Z.eqb_refl.
  - by rewrite Rr.
  - rewrite Rr by done. subst m. cbn [decide]. rewrite decide_False, put_ne, put_segment by done. done.
  - rewrite Rr by done. subst m. by rewrite decide_False, put_segment by done.
  - done.
  - done.
  - f_equal. unfold set_gs, set_fs, set_t_rip, set_t_rsp. cbn [rsp0 t_rip t_rsp fs gs cr2 trap_nr Task.error_code].
    rewrite !push_ne by done. rewrite !R0 by done. done.
  - rewrite Mr by lia. rewrite <- W0. f_equal. lia.
  - rewrite Mr by lia. rewrite <- W1. f_equal. lia.
  - intros x H1 H2. rewrite Mr by done. by apply O1.
  - intros r Hc H1 H2 H3. rewrite Rr, decide_False by done. subst m. rewrite !put_ne, push_ne by done. apply R0; [intros ->; done|done].
Qed.

(** C15. A task that is switched away from comes back as it was: when another task switches to it and
    its stack and thread are as they were left, it goes on behind its switch with its stack pointer,
    [rax], [rbp], [fs] and [gs], and the processor takes its kernel stack for interrupts and system
    calls.  The other registers that C functions preserve hold what they held in the task before. *)
Theorem switch_and_back prev next other s s1 s2 p n q : let sp := s.(sm).(regs) RSP in let sp2 := s2.(sm).(regs) RSP in
  2048 <= sp < 2 ^ 63 -> 1024 <= n.(t_rsp) < 2 ^ 63 -> 2048 <= sp2 < 2 ^ 63 -> prev <> next -> other <> prev -> segments_ok s.(sm).(regs) ->
  s.(threads) !! prev = Some p -> s.(threads) !! next = Some n -> far sp n.(t_rsp) -> switch_to prev next s = Some s1 ->
  s2.(threads) !! prev = s1.(threads) !! prev -> s2.(threads) !! other = Some q -> far sp2 (sp - 16) ->
  (forall x, sp - 16 <= x < sp -> s2.(sm).(mem) x = s1.(sm).(mem) x) ->
  s1.(sm).(regs) RIP = n.(t_rip) /\ s1.(sm).(regs) RSP = n.(t_rsp) /\ s1.(tss_rsp0) = n.(rsp0) /\ s1.(msr_175) = n.(rsp0) /\
  exists s3, switch_to other prev s2 = Some s3 /\ s3.(sm).(regs) RIP = label /\
    s3.(tss_rsp0) = p.(rsp0) /\ s3.(msr_175) = p.(rsp0) /\
    let c := switched s3 in c.(regs) RSP = sp /\
    (forall r, r ∈ [RAX; RBP; FS; GS] -> c.(regs) r = s.(sm).(regs) r) /\
    forall r, r ∈ [RBX; R12; R13; R14; R15] -> c.(regs) r = s2.(sm).(regs) r.
Proof using compiled_regs compiled_mem.
  intros sp sp2 Hsp Hn Hsp2 Hne Hne2 Hseg Hp Hnx Hfar E1 Ep Hq Hfar2 Hw.
  destruct (switch_to_spec prev next s p n) as (s1' & E1' & A1 & A2 & A3 & A4 & A5 & A6 & A7 & A8 & A9 & A10 & A11); try done; try lia.
  rewrite E1 in E1'. injection E1' as <-. split_and!; [done..|].
  rewrite A7, lookup_insert_eq in Ep. fold sp in Ep, A8, A9. unfold far in *.
  match type of Ep with _ = Some ?t => pose proof (switch_to_spec other prev s2 q t) as Hs end. cbv zeta in Hs. fold sp2 in Hs.
  cbn [t_rsp t_rip fs gs rsp0] in Hs. unfold far in Hs.
  destruct Hs as (s3 & E3 & B1 & B2 & B3 & B4 & B5 & B6 & B7 & B8 & B9 & B10 & B11); [lia|lia|done|done|done|lia|].
  exists s3. do 4 (split; [done|]).
  assert (s3.(sm).(mem) (sp - 16) = s.(sm).(regs) RAX) as W0 by (rewrite B10, Hw by lia; done).
  assert (s3.(sm).(mem) (sp - 8) = s.(sm).(regs) RBP) as W1 by (rewrite B10, Hw by lia; done).
  assert (shows sp (mkView (values s3.(sm).(regs)) [s.(sm).(regs) RAX; s.(sm).(regs) RBP]) s3.(sm)) as K.
  { apply on_stack_intro; unfold depth; cbn [length]; [rewrite B2; lia|lia|]. intros [|[|]] x Hx; [..|done]; cbn in Hx; simplify_eq.
    - rewrite <- W0. f_equal. lia.
    - rewrite <- W1. f_equal. lia. }
  unfold switched. clearbody sp sp2. clear - K Hsp Hseg B3 B4 B11 A11. destruct s as [c0 th0 t0 m0], s3 as [c3 th3 t3 m3].
  cbn [sm] in *. assert (512 <= sp < 2 ^ 64) as Hs by lia. run_on Hs K [popq RAX; popq RBP].
  split; [rewrite (sh_sp _ _ _ H); apply depth_nil|]. clear H0.
  assert (forall r, r <> RSP -> r <> RAX -> r <> RBP -> regs (run [popq RAX; popq RBP] c3) r = regs c3 r) as Hr.
  { intros r H1 H2 H3. rewrite (sh_regs _ _ _ H) by done. by destruct r. }
  split; intros r Hin.
  - repeat (apply elem_of_cons in Hin as [->|Hin]); [..|by apply elem_of_nil in Hin]; try (rewrite (sh_regs _ _ _ H) by done; reflexivity).
    + rewrite Hr, B3 by done. by apply u16_small, Hseg.
    + rewrite Hr, B4 by done. by apply u16_small, Hseg.
  - repeat (apply elem_of_cons in Hin as [->|Hin]); [..|by apply elem_of_nil in Hin]; rewrite Hr by done; by apply B11.
Qed.
End Switch.

(** ** A processor in user mode *)

Definition demo_cpu : machine :=
  mkM (fun r => match r with RSP => 0x9f000 | RIP => 0x800100 | RFLAGS => 0x202 | CS => 0x2b | SS | DS | ES => 0x33
                | RAX => 6 | RDX => 7 | R10 => 10 | R11 => 11 | RBP => 5 | RBX => 3 | _ => 0 end)
    (fun a => if a =? 0x9f000 then 0x800200 else 0).

Lemma demo_segments : segments_ok demo_cpu.(regs).
Proof. intros r Hr. destruct r; try discriminate Hr; cbn; lia. Qed.

(** int3 in a user program: interrupts stay enabled. *)
Lemma interrupt_transparent_witness :
  let c := run (exception 0x7000) (deliver (set_gate 0xEF 0 0x6000) 0x100000 demo_cpu) in
  c.(regs) RDI = 0x100000 - sizeof_pt_regs /\ c.(regs) RDX = 0x7000 /\ Z.testbit (c.(regs) RFLAGS) 9 = true /\
  (iretq (run RESTORE_ALL c)).(regs) RDX = 7 /\ (iretq (run RESTORE_ALL c)).(regs) RIP = 0x800100.
Proof.
  destruct (interrupt_transparent 0x100000 0x6000 demo_cpu 0xEF (exception 0x7000) [] 0x7000 0 0 0x7000 ltac:(lia) ltac:(unfold word64; lia)
    demo_segments (entry_system _ _)) as [(_ & K & _ & R1 & _ & R2 & _ & _ & _ & R3 & _) H].
  split; [exact R1|]. split; [exact R2|]. split; [exact R3|].
  split; [exact (H _ K RDX ltac:(discriminate) ltac:(discriminate))|].
  exact (H _ K RIP ltac:(discriminate) ltac:(discriminate)).
Defined.

Lemma syscall_roundtrip_witness :
  let c1 := enter 0x1000 0x2000 0x3000 0x100000 demo_cpu in let c3 := stub_return 0x4000 (leave (exec (store RAX 16) c1)) in
  c1.(regs) RDX = 0x10 /\ c3.(regs) RDX = 7 /\ c3.(regs) RIP = 0x800200 /\ c3.(regs) R11 = 11.
Proof.
  destruct (syscall_roundtrip 0x1000 0x2000 0x3000 0x4000 0x100000 demo_cpu ltac:(lia) ltac:(cbn; lia) ltac:(cbn; lia) ltac:(discriminate) demo_segments)
    as (_ & _ & _ & R & _ & w1 & w2 & w3 & w4 & w5 & w6 & w7 & K & H).
  destruct (H _ K ltac:(reflexivity)) as (_ & R1 & _ & R2). split; [exact R|].
  split; [exact (R2 RDX eq_refl)|]. split; [exact R1|exact (R2 R11 eq_refl)].
Defined.

(** Two tasks; the second one switches back at once. *)
Definition demo_switch : switching :=
  mkSw demo_cpu (<[1 := mkThread 0xa0000 0 0 0x30 0x30 0 0 0]> (<[2 := mkThread 0xc0000 0x5000 0xbff00 0x10 0x10 0 0 0]> ∅)) 0xa0000 0xa0000.

Lemma switch_and_back_witness : exists s1 s3, switch_to 0x9000 (fun c => c) 1 2 demo_switch = Some s1 /\ s1.(sm).(regs) RIP = 0x5000 /\
  switch_to 0x9000 (fun c => c) 2 1 s1 = Some s3 /\ s3.(sm).(regs) RIP = 0x9000 /\ (switched s3).(regs) RBP = 5.
Proof.
  destruct (switch_to_spec 0x9000 (fun c => c) (fun _ _ _ => eq_refl) (fun _ _ _ => eq_refl) 1 2 demo_switch
    (mkThread 0xa0000 0 0 0x30 0x30 0 0 0) (mkThread 0xc0000 0x5000 0xbff00 0x10 0x10 0 0 0))
    as (s1 & E1 & _ & Hsp & _ & _ & _ & _ & Ht & _); [cbn; lia|cbn; lia|discriminate|reflexivity|reflexivity|cbn; unfold far; lia|].
  destruct (switch_and_back 0x9000 (fun c => c) (fun _ _ _ => eq_refl) (fun _ _ _ => eq_refl) 1 2 2 demo_switch s1 s1
    (mkThread 0xa0000 0 0 0x30 0x30 0 0 0) (mkThread 0xc0000 0x5000 0xbff00 0x10 0x10 0 0 0)
    (mkThread 0xc0000 0x5000 0xbff00 0x10 0x10 0 0 0)) as (R1 & _ & _ & _ & s3 & E3 & R3 & _ & _ & _ & Hr & _);
    [cbn; lia|cbn; lia|rewrite Hsp; cbn; lia|discriminate|discriminate|exact demo_segments|reflexivity|reflexivity|cbn; unfold far; lia|
     exact E1|reflexivity|rewrite Ht; reflexivity|rewrite Hsp; cbn; unfold far; lia|reflexivity|].
  exists s1, s3. split; [exact E1|]. split; [exact R1|]. split; [exact E3|]. split; [exact R3|].
  exact (Hr RBP ltac:(right; left)).
Defined.
