(* ===== verification/Syscall.v ===== *)
(** * The table of system calls (syscalls.c, syscalls.h, sys.c, user/syscall.h)

    Which function a number reaches, together with the way into the kernel of [Entry]; the calls of
    sys.c that no other file models. *)

From S2P Require Import Prelude Bytes Errno Alloc Sched Printk Paging Vfs Sys Mm Pool Task TaskDemo Ulib Entry.

Local Open Scope Z_scope.
Local Open Scope cint_scope.

(** The functions of the table. *)
Inductive handler :=
  | h_no_system_call | h_putstring | h_open | h_close | h_read | h_write | h_lseek | h_fork | h_vfork
  | h_execve | h_exit | h_wait4 | h_brk | h_reboot | h_chdir | h_getdents.

#[global] Instance handler_eq_dec : EqDecision handler.
Proof. solve_decision. Defined.

Definition MAX_SYSTEM_CALL_NR : nat := 128.

(** syscalls.h with the numbers of sys.h. *)
Definition SYSCALL_COMMON : list (nat * handler) :=
  [(1, h_putstring); (2, h_open); (3, h_close); (4, h_read); (5, h_write); (6, h_lseek); (7, h_fork); (8, h_vfork);
   (9, h_execve); (10, h_exit); (11, h_wait4); (12, h_brk); (13, h_reboot); (14, h_chdir); (15, h_getdents)]%nat.
Definition system_call_table : list handler :=
  foldl (fun t x => <[fst x := snd x]> t) (replicate MAX_SYSTEM_CALL_NR h_no_system_call) SYSCALL_COMMON.

(** user/syscall.c with the numbers of user/syscall.h: each stub with the function it is meant for. *)
Definition SYSFUNC_DEF : list (nat * handler) :=
  [(1, h_putstring); (2, h_open); (3, h_close); (4, h_read); (5, h_write); (6, h_lseek); (7, h_fork); (8, h_vfork);
   (9, h_execve); (10, h_exit); (11, h_wait4); (12, h_brk); (13, h_reboot); (14, h_chdir); (15, h_getdents)]%nat.

(** The table in memory; [code] gives the addresses of the functions. *)
Definition table_at (table : Z) (code : handler -> Z) (c : machine) : Prop :=
  forall i h, system_call_table !! i = Some h -> c.(Entry.mem) (table + 8 * Z.of_nat i) = code h.

(** ** Calls *)

Definition no_system_call : Z := u64 (- ENOSYS).

Definition ORANGE : Z := 0xff8000.
Definition WHITE : Z := 0xffffff.

(** The string of the program is the format; [args] is what the registers and the stack hold. *)
Definition sys_putstring (args : nat -> Z) (str_at : Z -> list Z) (string : list Z) (st : Printk.position * pixels)
    : option (Z * (Printk.position * pixels)) :=
  r ← color_printk args str_at ORANGE WHITE string st; Some (0, snd r).

Definition SYSTEM_REBOOT : Z := 1.
Definition SYSTEM_POWEROFF : Z := 2.
Definition sys_reboot {P} `{Ports P} (cmd : Z) (p : P) : Z * P :=
  if cmd =? SYSTEM_REBOOT then (0, io_out8 0x64 0xfe p) else (0, p).

(** ** What a program reaches *)

Lemma table_length : length system_call_table = MAX_SYSTEM_CALL_NR.
Proof. reflexivity. Qed.

Lemma stub_in_table i h : (i, h) ∈ SYSFUNC_DEF -> system_call_table !! i = Some h.
Proof.
  intros H. unfold SYSFUNC_DEF in H. repeat (apply elem_of_cons in H as [[= -> ->]|H]; [reflexivity|]). by apply elem_of_nil in H.
Qed.

Lemma other_in_table i : (i < MAX_SYSTEM_CALL_NR)%nat -> i ∉ map fst SYSFUNC_DEF -> system_call_table !! i = Some h_no_system_call.
Proof.
  intros Hi Hn. assert (forallb (fun i => bool_decide (i ∈ map fst SYSFUNC_DEF) ||
    bool_decide (system_call_table !! i = Some h_no_system_call)) (seq 0 MAX_SYSTEM_CALL_NR) = true) as E by (vm_compute; reflexivity).
  rewrite forallb_forall in E. specialize (E i). rewrite in_seq in E. specialize (E ltac:(lia)).
  apply orb_true_iff in E as [E|E]; by apply bool_decide_eq_true in E.
Qed.

Section Dispatch.
Context (ret_addr eip table : Z) (code : handler -> Z).

(** C24. Each stub of the library reaches the kernel function it is meant for; the numbers below 128
    that no stub uses reach [no_system_call], whose result the program sees as -1; from 128 on the
    word behind the table is called, since the number is not checked. *)
Theorem system_call_dispatch top c i : 512 <= top < 2 ^ 64 -> let usp := c.(regs) RSP in 512 <= usp -> usp + 8 <= top - 512 ->
  segments_ok c.(regs) -> usp <= table -> table + 2 ^ 20 <= top - 512 -> table_at table code c -> c.(regs) RAX = Z.of_nat i ->
  let target := call_target (enter ret_addr eip table top c) in
  (forall h, (i, h) ∈ SYSFUNC_DEF -> target = code h) /\
  ((i < MAX_SYSTEM_CALL_NR)%nat -> i ∉ map fst SYSFUNC_DEF -> target = code h_no_system_call) /\
  (Z.of_nat i < 2 ^ 16 -> target = c.(Entry.mem) (table + 8 * Z.of_nat i)) /\
  LABEL_SYSCALL no_system_call = all_ones.
Proof using Type.
  intros Htop usp Hu Hb Hseg Ht1 Ht2 Htab Hi target.
  assert (Z.of_nat i < 2 ^ 16 -> target = c.(Entry.mem) (table + 8 * Z.of_nat i)) as Hm.
  { intros Hlt. destruct (system_call_entered ret_addr eip table top c Htop Hu Hb) as (Hmem & _ & _ & _ & Et).
    subst target. rewrite Et, Hi, u64_small by lia. apply Hmem; fold usp; lia. }
  split_and!; [| |done|reflexivity].
  - intros h Hh. apply stub_in_table in Hh. pose proof (lookup_lt_Some _ _ _ Hh) as Hl. rewrite table_length in Hl.
    unfold MAX_SYSTEM_CALL_NR in Hl. rewrite Hm by lia. by apply Htab.
  - intros Hl Hn. unfold MAX_SYSTEM_CALL_NR in Hl. rewrite Hm by lia. by apply Htab, other_in_table.
Qed.
End Dispatch.

(** ** The third argument *)

Section Third.
Context {X M : Type} `{InodeOps index_node} `{HA : Allocator M}.
Context {M' : Type} `{HF : Frames M'} `{HL : !AllocatorLaws M'} `{HP : !PagingLaws M'} `{HT : !TaskLaws M'}.
Context (ret_addr eip table : Z) (inode_fops keyboard_fops : file_operations X) (queue init_union : Z).

Definition has_pid (s : kstate M') (id t : Z) : bool :=
  match s.(procs) !! t with Some p => p.(pid) =? id | None => false end.

(** Whatever a program passes, [lseek] never moves a position and [wait4] never waits for or frees a
    child: the kernel replaces the third argument, their origin and options, by 0x10, which both
    refuse without changing anything.  [wait4] returns at once: EINVAL when a task has the pid, also when
    that task has ended, and ECHILD otherwise. *)
Theorem third_argument_refused top c : 512 <= top < 2 ^ 64 -> 512 <= c.(regs) RSP -> c.(regs) RSP + 8 <= top - 512 ->
  let r := (enter ret_addr eip table top c).(regs) in
  (forall s : sysstate X M, sys_lseek inode_fops keyboard_fops (i32 (r RDI)) (i64 (r RSI)) (i32 (r RDX)) s =
    Some (u64 (- (if bad_fd (i32 (r RDI)) then EBADF else EINVAL)), s)) /\
  forall (s : kstate M') l q fuel entry, tasks_ok queue init_union s l q -> (length l < fuel)%nat -> s.(global_pid) < 2 ^ 63 ->
    sys_wait4 queue (list_at init_union) init_union fuel (r RDI) (r RSI) (i32 (r RDX)) entry s =
      Some (returned (u64 (- (if existsb (has_pid s (r RDI)) l then EINVAL else ECHILD))), s).
Proof using HP HT HL.
  intros Htop Hu Hb r. destruct (system_call_entered ret_addr eip table top c Htop Hu Hb) as (_ & _ & _ & E & _).
  subst r. rewrite E. split.
  - intros s. unfold sys_lseek. destruct (bad_fd _); reflexivity.
  - intros s l q fuel entry K Hf Hg. generalize ((enter ret_addr eip table top c).(regs) RDI). intros id. unfold sys_wait4.
    destruct (existsb (has_pid s id) l) eqn:Eb.
    + apply existsb_exists in Eb as (t & Ht & Hp). apply list_elem_of_In in Ht. unfold has_pid in Hp.
      destruct (s.(procs) !! t) as [p|] eqn:Ep; [|done]. apply Z.eqb_eq in Hp as <-.
      destruct (wait_finds queue init_union fuel s l q t p K Ht Ep Hg Hf) as (l1 & l2 & _ & ->). cbn [mbind option_bind].
      destruct (tk_obj _ _ _ _ _ K t Ht) as [(Ht0 & _)%task_aligned _]. by rewrite (proj2 (Z.eqb_neq _ _)) by lia.
    + destruct (find_child_none init_union fuel id s l init_union) as [prev ->]; [apply K|done| | |done].
      * pose proof (tk_nodup _ _ _ _ _ K) as Hnd. by apply NoDup_cons in Hnd as [? _].
      * intros t p Ht Ep. pose proof (tk_pid _ _ _ _ _ K t p Ht Ep). rewrite u64_small by lia. intros <-.
        assert (existsb (has_pid s p.(pid)) l = true) as Hx; [|congruence].
        apply existsb_exists. exists t. split; [by apply list_elem_of_In|]. unfold has_pid. rewrite Ep. apply Z.eqb_refl.
Qed.
End Third.

(** ** A call *)

(** The table at 0x40000 of [demo_cpu], the function of number [i] at 0x100000 + i. *)
Definition demo_code (h : handler) : Z :=
  match list_find (fun x => x = h) system_call_table with Some (i, _) => 0x100000 + Z.of_nat i | None => 0 end.
Definition call_cpu : machine :=
  mkM demo_cpu.(regs) (fun a => if (0xa0000 <=? a) && (a <? 0xa0400)
    then default 0 (demo_code <$> system_call_table !! Z.to_nat ((a - 0xa0000) / 8)) else demo_cpu.(Entry.mem) a).

Lemma call_cpu_table : table_at 0xa0000 demo_code call_cpu.
Proof.
  intros i h Hi. pose proof (lookup_lt_Some _ _ _ Hi) as Hl. rewrite table_length in Hl. unfold MAX_SYSTEM_CALL_NR in Hl.
  cbn [Entry.mem call_cpu]. rewrite (proj2 (Z.leb_le _ _)), (proj2 (Z.ltb_lt _ _)) by lia. cbn [andb].
  replace ((0xa0000 + 8 * Z.of_nat i - 0xa0000) / 8) with (Z.of_nat i).
  - by rewrite Nat2Z.id, Hi.
  - replace (_ - _) with (Z.of_nat i * 8) by lia. by rewrite Z.div_mul.
Qed.

Lemma system_call_dispatch_witness : call_target (enter 0x1000 0x2000 0xa0000 0x1000000 call_cpu) = 0x100006.
Proof.
  destruct (system_call_dispatch 0x1000 0x2000 0xa0000 demo_code 0x1000000 call_cpu 6%nat ltac:(lia) ltac:(cbn; lia) ltac:(cbn; lia)
    demo_segments ltac:(cbn; lia) ltac:(lia) call_cpu_table eq_refl) as (H & _).
  rewrite (H h_lseek); [vm_compute; reflexivity|]. apply (bool_decide_unpack _). vm_compute. exact I.
Defined.

(** A program with 2 in [rdi]: [lseek] of file 2, or [wait4] for process 2, which has ended. *)
Definition waiting_cpu : machine := put RDI 2 call_cpu.

Lemma third_argument_refused_witness :
  let r := (enter 0x1000 0x2000 0xa0000 0x1000000 waiting_cpu).(regs) in
  sys_lseek (M := arena) demo_fops demo_fops (i32 (r RDI)) (i64 (r RSI)) (i32 (r RDX)) sys_reading = Some (u64 (- EINVAL), sys_reading) /\
  sys_wait4 100 (list_at task0) task0 3 (r RDI) (r RSI) (i32 (r RDX)) entry_w (family child_ended) =
    Some (returned (u64 (- EINVAL)), family child_ended).
Proof.
  destruct (third_argument_refused (M := arena) 0x1000 0x2000 0xa0000 demo_fops demo_fops 100 task0 0x1000000 waiting_cpu ltac:(lia)
    ltac:(vm_compute; intuition discriminate) ltac:(vm_compute; intuition discriminate)) as [H1 H2]. split; [exact (H1 sys_reading)|].
  exact (H2 (family child_ended) [child; father] [] 3%nat entry_w child_ended_ok ltac:(cbn; lia) ltac:(cbn; lia)).
Defined.

(** The text a program prints is a format: here it reads an argument nobody passed. *)
Example putstring_formats : (fun r => fst r) <$> vsprintf (fun _ => 42) (fun _ => []) [37; 100] = Some [52; 50].
Proof. vm_compute. reflexivity. Qed.
