(* ===== verification/Mount.v ===== *)
(** * Mounting the disk (fat32.c, VFS.c)

    [DISK1_FAT32_FS_init], which the first thread calls: it registers FAT32, reads the partition
    table and the boot sector, and mounts the first partition.  The super block, its root directory
    entry and the rest are objects of the heap.  What it leaves is what [Fat32] and [Vfs] suppose. *)

From S2P Require Import Prelude Klist Slab Bytes Errno Fat32 Alloc Vfs.

Local Open Scope Z_scope.
Local Open Scope cint_scope.

(** The addresses of the objects [fat32_read_superblock] allocates, with what they hold; [root_at]
    is [root], the others are [sb], [private_sb_info], [fat_fsinfo], [root->name], [root->dir_inode]
    and its [private_index_info]. *)
Record mounted := mkMounted {
  sb_at : Z; private_sb_info_at : Z; fat_fsinfo_at : Z; root_at : Z; name_at : Z; dir_inode_at : Z;
  private_index_info_at : Z; sb : super_block
}.

Definition sizeof_super_block : Z := 24.
Definition sizeof_FAT32_sb_info : Z := 96.
Definition sizeof_FAT32_FSInfo : Z := 512.
Definition sizeof_index_node : Z := 56.
Definition sizeof_FAT32_inode_info : Z := 32.

(** ["FAT32"] *)
Definition FAT32_name : list Z := [70; 65; 84; 51; 50].

Section Mount.
Context {D M : Type} `{BlockDevice D} `{Allocator M}.

(** [kmalloc], whose result is written to without a test. *)
Definition object (n : Z) (h : M) : option (Z * M) :=
  r ← alloc n h; _ ← guard_fault (negb (fst r =? 0)); Some r.

Definition read_superblock_of (DPTE : Disk_Partition_Table_Entry) (buf : list Z) (d : D) (t : vfs index_node M)
    : option (mounted * vfs index_node M) :=
  r ← object sizeof_super_block t.(heap); let '(sbp, h) := r in
  r ← object sizeof_FAT32_sb_info h; let '(fsbi, h) := r in
  r ← object sizeof_FAT32_FSInfo h; let '(fsinfo, h) := r in
  r ← object sizeof_dir_entry h; let '(root, h) := r in
  let σ := list_init (subdirs_list root) (list_init (child_node root) t.(vnodes)) in
  r ← object 2 h; let '(name, h) := r in
  r ← object sizeof_index_node h; let '(inode, h) := r in
  sb ← fat32_read_superblock DPTE buf d;
  r ← object sizeof_FAT32_inode_info h; let '(finode, h) := r in
  Some (mkMounted sbp fsbi fsinfo root name inode finode sb,
    mkVfs (<[root := mkDentry name [47] 1 (Some sb.(root_inode)) root]> t.(dentries)) σ h).

(** Five of the seven objects are given back. *)
Definition fat32_put_superblock (m : mounted) (t : vfs index_node M) : option (vfs index_node M) :=
  r ← release m.(private_sb_info_at) t.(heap);
  r ← release m.(private_index_info_at) (snd r);
  r ← release m.(dir_inode_at) (snd r);
  r ← release m.(root_at) (snd r);
  r ← release m.(sb_at) (snd r);
  Some (mkVfs (delete m.(root_at) t.(dentries)) t.(vnodes) (snd r)).

(** The disk, the directory entries, the file system types and [root_sb]. *)
Record mstate := mkMs { disk : D; mtree : vfs index_node M; types : gmap Z file_system_type; root_sb : option mounted }.

(** [filesystem] and [FAT32_fs_type] are the addresses of the two types; what [mount_fs] calls is
    [fat32_read_superblock], or code that is not modelled. *)
Definition DISK1_FAT32_FS_init (filesystem FAT32_fs_type fat32_read_superblock_at : Z) (s : mstate) : option mstate :=
  r ← register_filesystem filesystem FAT32_fs_type s.(types);
  let types := snd r in
  let buf := fetch 0 1 512 s.(disk) in
  DPTE ← DPTE_at 0 buf;
  let buf := fetch DPTE.(start_LBA) 1 512 s.(disk) in
  f ← mount_fs filesystem FAT32_name types;
  match f with
  | None => Some (mkMs s.(disk) s.(mtree) types None)
  | Some f =>
      _ ← guard_fault (f =? fat32_read_superblock_at);
      r ← read_superblock_of DPTE buf s.(disk) s.(mtree);
      let '(m, t) := r in
      Some (mkMs s.(disk) t types (Some m))
  end.
End Mount.
Arguments mstate : clear implicits.

(** ** What is mounted *)

(** The geometry a boot sector states. *)
Record geometry (boot : list Z) (start spc rsvd nfats fatsz rootclus : Z) : Prop := {
  ge_bps : get_le 2 11 boot = Some 512;
  ge_spc : get_le 1 13 boot = Some spc;
  ge_rsvd : get_le 2 14 boot = Some rsvd;
  ge_nfats : get_le 1 16 boot = Some nfats;
  ge_fatsz : get_le 4 36 boot = Some fatsz;
  ge_root : get_le 4 44 boot = Some rootclus;
  ge_fits : 0 < spc /\ 0 <= start /\ 0 <= rsvd /\ 1 <= nfats /\ 0 < fatsz < 2 ^ 24 /\ start + rsvd + fatsz * nfats < 2 ^ 32
}.

Section MountSpec.
Context {D M : Type} `{HD : BlockDeviceLaws D} `{HM : AllocatorLaws M}.
Implicit Type t : vfs index_node M.

Lemma object_run n (h : M) k : n <= 1048576 -> room h (S k) -> exists a h', object n h = Some (a, h') /\ a <> 0 /\ a ∉ live h /\
  live h' = {[ a ]} ∪ live h /\ room h' k.
Proof using Type.
  intros Hn R. destruct (alloc_room n h k Hn R) as (a & h' & E & Hz & R'). exists a, h'. unfold object. rewrite E.
  cbn [mbind option_bind fst]. rewrite (proj2 (Z.eqb_neq _ _) Hz). split; [reflexivity|].
  destruct (alloc_live _ _ _ _ E) as [[? _]|(_ & ? & ?)]; [contradiction|]. by split_and!.
Qed.

Definition objects_of (m : mounted) : list Z :=
  [m.(sb_at); m.(private_sb_info_at); m.(fat_fsinfo_at); m.(root_at); m.(name_at); m.(dir_inode_at); m.(private_index_info_at)].

Lemma read_superblock_run DPTE buf (d : D) t sb k : vfs_ok t -> fat32_read_superblock DPTE buf d = Some sb ->
  room t.(heap) (7 + k) ->
  exists m t', read_superblock_of DPTE buf d t = Some (m, t') /\ m.(Mount.sb) = sb /\ vfs_ok t' /\
    t'.(dentries) = <[m.(root_at) := mkDentry m.(name_at) [47] 1 (Some sb.(root_inode)) m.(root_at)]> t.(dentries) /\
    t.(dentries) !! m.(root_at) = None /\ NoDup (objects_of m) /\ (forall a, a ∈ objects_of m -> a ∉ live t.(heap)) /\
    live t'.(heap) = list_to_set (objects_of m) ∪ live t.(heap) /\ room t'.(heap) k.
Proof using Type.
  intros V Esb R. unfold read_superblock_of.
  destruct (object_run sizeof_super_block _ _ ltac:(done) R) as (a1 & h1 & -> & N1 & F1 & L1 & R1).
  cbn [mbind option_bind]. destruct (object_run sizeof_FAT32_sb_info _ _ ltac:(done) R1) as (a2 & h2 & -> & N2 & F2 & L2 & R2).
  cbn [mbind option_bind]. destruct (object_run sizeof_FAT32_FSInfo _ _ ltac:(done) R2) as (a3 & h3 & -> & N3 & F3 & L3 & R3).
  cbn [mbind option_bind]. destruct (object_run sizeof_dir_entry _ _ ltac:(done) R3) as (a4 & h4 & -> & N4 & F4 & L4 & R4).
  cbn [mbind option_bind]. destruct (object_run 2 _ _ ltac:(done) R4) as (a5 & h5 & -> & N5 & F5 & L5 & R5).
  cbn [mbind option_bind]. destruct (object_run sizeof_index_node _ _ ltac:(done) R5) as (a6 & h6 & -> & N6 & F6 & L6 & R6).
  cbn [mbind option_bind]. rewrite Esb. cbn [mbind option_bind].
  destruct (object_run sizeof_FAT32_inode_info _ _ ltac:(done) R6) as (a7 & h7 & -> & N7 & F7 & L7 & R7).
  cbn [mbind option_bind].
  assert (forall a, a ∈ live h7 <-> a ∈ [a1; a2; a3; a4; a5; a6; a7] \/ a ∈ live t.(heap)) as HL.
  { intros a. rewrite L7, L6, L5, L4, L3, L2, L1, !elem_of_union, !elem_of_singleton, !elem_of_cons.
    pose proof (not_elem_of_nil a). tauto. }
  rewrite L6, L5, L4, L3, L2, L1, ?not_elem_of_union, ?not_elem_of_singleton in F7.
  rewrite L5, L4, L3, L2, L1, ?not_elem_of_union, ?not_elem_of_singleton in F6.
  rewrite L4, L3, L2, L1, ?not_elem_of_union, ?not_elem_of_singleton in F5.
  rewrite L3, L2, L1, ?not_elem_of_union, ?not_elem_of_singleton in F4.
  rewrite L2, L1, ?not_elem_of_union, ?not_elem_of_singleton in F3.
  rewrite L1, ?not_elem_of_union, ?not_elem_of_singleton in F2. clear L1 L2 L3 L4 L5 L6 L7.
  assert (t.(dentries) !! a4 = None) as Hnew.
  { destruct (t.(dentries) !! a4) eqn:E; [|done]. destruct (vo_live _ V a4) as [Hl _]; [by eexists|]. tauto. }
  eexists _, _. split; [reflexivity|]. cbn [Mount.sb root_at name_at dentries heap]. unfold objects_of.
  cbn [sb_at private_sb_info_at fat_fsinfo_at root_at name_at dir_inode_at private_index_info_at]. split_and!; try done.
  - destruct V as [V1 V2 V3]. constructor; cbn [vnodes dentries heap].
    + by do 2 apply closed_init.
    + intros a Ha. rewrite HL. apply lookup_insert_is_Some in Ha as [<-|[_ Ha]].
      * split; [left; rewrite !elem_of_cons; tauto|]. unfold list_init at 1. rewrite lookup_insert_eq. by eexists.
      * destruct (V2 a Ha) as [Hl Hs]. split; [by right|]. by do 2 apply list_init_keeps.
    + by rewrite lookup_insert_ne.
  - rewrite !NoDup_cons, !elem_of_cons, !elem_of_nil. split_and!; try (apply NoDup_nil_2); intuition congruence.
  - intros a. rewrite !elem_of_cons, elem_of_nil. intuition congruence.
  - apply leibniz_equiv. intros a. rewrite HL, elem_of_union, elem_of_list_to_set. done.
Qed.

(** What the super block says about a sane boot sector. *)
Lemma superblock_geometry (d : D) DPTE boot spc rsvd nfats fatsz rootclus : length boot = 512%nat -> byte_list boot ->
  geometry boot DPTE.(start_LBA) spc rsvd nfats fatsz rootclus ->
  exists sb, fat32_read_superblock DPTE boot d = Some sb /\
    let fsbi := sb.(private_sb_info) in
    fat_ok fsbi /\ cluster_ok fsbi /\ fsbi.(FAT1_firstsector) = DPTE.(start_LBA) + rsvd /\
    fsbi.(Data_firstsector) = DPTE.(start_LBA) + rsvd + fatsz * nfats /\ fsbi.(sector_per_cluster) = spc /\
    sb.(root_inode).(attribute) = FS_ATTR_DIR /\ sb.(root_inode).(private_index_info).(first_cluster) = rootclus.
Proof using Type.
  intros Hl Hb [G1 G2 G3 G4 G5 G6 (F1 & F2 & F3 & F4 & F5 & F6)].
  destruct (get_le_some 2 48 boot) as (fsinfo & E1 & _); [lia|lia|done|].
  destruct (get_le_some 2 50 boot) as (bkboot & E2 & _); [lia|lia|done|].
  unfold fat32_read_superblock. rewrite G1, G2, G3, G4, G5, G6, E1, E2. cbn [mbind option_bind].
  eexists. split; [reflexivity|]. cbn [private_sb_info root_inode FAT1_firstsector Data_firstsector sector_per_cluster
    attribute private_index_info first_cluster].
  rewrite (u32_small (start_LBA DPTE + rsvd)), (u32_small (fatsz * nfats)) by nia.
  rewrite u32_small by nia.
  split_and!; try done.
  - constructor; cbn [FAT1_firstsector sector_per_FAT NumFATs]; lia.
  - constructor; cbn [sector_per_cluster bytes_per_cluster]; lia.
Qed.

Lemma bind_none {A B} (o : option A) (f : A -> option B) : (forall x, f x = None) -> o ≫= f = None.
Proof using Type. intros Hf. by destruct o; [apply Hf|]. Qed.

Section Init.
Context (filesystem FAT32_fs_type rs : Z) (l : list Z) (s : mstate D M).
Context (Hlist : fs_list s.(types) filesystem (filesystem :: l)) (Hnd : NoDup (filesystem :: l)).
Context (Htype : s.(types) !! FAT32_fs_type = Some (mkFs FAT32_name rs 0)) (Hrs : rs <> 0).
Context (Hnew : FAT32_fs_type <> 0 /\ FAT32_fs_type ∉ filesystem :: l).
Context (Hfind : List.find (has_name s.(types) FAT32_name) (filesystem :: l) = None).
Notation FS_init := (DISK1_FAT32_FS_init filesystem FAT32_fs_type rs s).

Lemma init_registers : exists σ, register_filesystem filesystem FAT32_fs_type s.(types) = Some (1, σ) /\
  fs_list σ filesystem (filesystem :: FAT32_fs_type :: l) /\ mount_fs filesystem FAT32_name σ = Some (Some rs).
Proof using All.
  pose proof (register_filesystem_spec filesystem s.(types) l FAT32_fs_type _ Hlist Hnd Htype (proj1 Hnew) (proj2 Hnew) Hrs) as R.
  cbn [fs_name read_superblock] in R. rewrite Hfind in R. destruct R as (σ & E & Hl & Hm & _). by exists σ.
Qed.

(** C30. Mounting establishes what reading and path resolution rely on.  When the first partition's
    boot sector states a geometry that fits, FAT32 is registered, the super block describes it, the
    preconditions of the theorems on the allocation table and on file contents hold, the directory
    entries are well formed, and every path of less than 1 MB resolves from the new root as it does on the disk. *)
Theorem DISK1_FAT32_FS_init_spec DPTE spc rsvd nfats fatsz rootclus k :
  DPTE_at 0 (fetch 0 1 512 s.(disk)) = Some DPTE ->
  geometry (fetch DPTE.(start_LBA) 1 512 s.(disk)) DPTE.(start_LBA) spc rsvd nfats fatsz rootclus ->
  vfs_ok s.(mtree) -> room s.(mtree).(heap) (7 + k) ->
  exists s' m, FS_init = Some s' /\ s'.(Mount.root_sb) = Some m /\ s'.(disk) = s.(disk) /\
    fs_list s'.(types) filesystem (filesystem :: FAT32_fs_type :: l) /\
    vfs_ok s'.(mtree) /\ s.(mtree).(dentries) ⊆ s'.(mtree).(dentries) /\
    fat32_read_superblock DPTE (fetch DPTE.(start_LBA) 1 512 s.(disk)) s.(disk) = Some m.(sb) /\
    let fsbi := m.(sb).(private_sb_info) in let root := m.(sb).(root_inode) in
    fat_ok fsbi /\ cluster_ok fsbi /\ fsbi.(FAT1_firstsector) = DPTE.(start_LBA) + rsvd /\
    fsbi.(Data_firstsector) = DPTE.(start_LBA) + rsvd + fatsz * nfats /\ fsbi.(sector_per_cluster) = spc /\
    root.(attribute) = FS_ATTR_DIR /\ root.(private_index_info).(first_cluster) = rootclus /\
    forall fuel before name flags r, let ops := fat32_inode_ops fuel fsbi before s.(disk) in
      Z.of_nat (length name) < 1048576 -> resolve root (components name) = Some r -> (2 * length (components name) <= k)%nat ->
      exists a t, path_walk m.(root_at) name flags s'.(mtree) = Some (a, t) /\
        match r with
        | None => a = 0
        | Some _ => exists e, t.(dentries) !! a = Some e /\
            resolve root (result_names flags (components name)) = Some e.(dir_inode) /\
            chain_up t m.(root_at) a (rev (result_names flags (components name)))
        end.
Proof using All.
  intros ED G V R. destruct init_registers as (σ & Er & Hl & Em).
  assert (0 <= DPTE.(start_LBA)) by (destruct G as [_ _ _ _ _ _ (_ & ? & _)]; done).
  destruct (superblock_geometry s.(disk) DPTE _ spc rsvd nfats fatsz rootclus
    (fetch_length DPTE.(start_LBA) 1 s.(disk) 512 ltac:(lia) ltac:(lia)) (fetch_bytes _ _ _ _) G) as (sb & Esb & Hsb).
  destruct (read_superblock_run DPTE _ s.(disk) s.(mtree) sb k V Esb R)
    as (m & t & Et & Hm & V' & Ed & En & _ & _ & _ & R').
  exists (mkMs s.(disk) t σ (Some m)), m. split.
  { unfold DISK1_FAT32_FS_init. rewrite Er. cbn [mbind option_bind snd]. rewrite ED. cbn [mbind option_bind].
    rewrite Em. cbn [mbind option_bind]. rewrite Z.eqb_refl. cbn [guard_fault mbind option_bind]. rewrite Et. reflexivity. }
  cbn [Mount.root_sb disk types mtree]. subst sb. destruct Hsb as (B1 & B2 & B3 & B4 & B5 & B6 & B7).
  split_and!; try done; [rewrite Ed; by apply insert_subseteq|].
  intros fuel before name flags r Hlen Hr Hk.
  pose (ops := fat32_inode_ops fuel m.(Mount.sb).(private_sb_info) before s.(disk)).
  destruct (path_walk_run m.(root_at) name flags t m.(Mount.sb).(root_inode) r (k - 2 * length (components name)) V' Hlen)
    as (a & t' & E & _ & _ & Ha); [|done| |by exists a, t'].
  - eexists. split; [by rewrite Ed, lookup_insert_eq|done].
  - by replace (_ + _)%nat with k by lia.
Qed.

(** A boot sector that states 0 bytes for a sector, as that of a disk that is not formatted or was
    not read does, is not refused: the kernel divides by it. *)
Theorem FS_init_unformatted DPTE : DPTE_at 0 (fetch 0 1 512 s.(disk)) = Some DPTE ->
  dev_read DPTE.(start_LBA) 1 s.(disk) = None \/ get_le 2 11 (fetch DPTE.(start_LBA) 1 512 s.(disk)) = Some 0 ->
  FS_init = None.
Proof using All.
  intros ED Hb. destruct init_registers as (σ & Er & _ & Em).
  assert (get_le 2 11 (fetch DPTE.(start_LBA) 1 512 s.(disk)) = Some 0) as Ez.
  { destruct Hb as [Hb|Hb]; [|done]. unfold fetch. rewrite Hb. reflexivity. }
  unfold DISK1_FAT32_FS_init. rewrite Er. cbn [mbind option_bind snd]. rewrite ED. cbn [mbind option_bind].
  rewrite Em. cbn [mbind option_bind]. rewrite Z.eqb_refl. cbn [guard_fault mbind option_bind].
  assert (fat32_read_superblock DPTE (fetch DPTE.(start_LBA) 1 512 s.(disk)) s.(disk) = None) as Es.
  { unfold fat32_read_superblock. rewrite Ez. cbn [mbind option_bind].
    repeat first [reflexivity|apply bind_none; intros ?]. }
  assert (read_superblock_of DPTE (fetch DPTE.(start_LBA) 1 512 s.(disk)) s.(disk) s.(mtree) = None) as ->; [|done].
  unfold read_superblock_of. rewrite Es. repeat first [reflexivity|apply bind_none; intros [? ?]; cbn [fst snd]].
Qed.
End Init.

(** [fat32_put_superblock] gives back what mounting allocated but for two objects, the copy of
    the information sector and the name of the root. *)
Theorem put_superblock_leaks DPTE buf (d : D) t sb k : vfs_ok t -> fat32_read_superblock DPTE buf d = Some sb ->
  room t.(heap) (7 + k) ->
  exists m t' t'', read_superblock_of DPTE buf d t = Some (m, t') /\ fat32_put_superblock m t' = Some t'' /\
    t''.(dentries) = t.(dentries) /\ room t''.(heap) k /\
    live t''.(heap) = {[ m.(fat_fsinfo_at); m.(name_at) ]} ∪ live t.(heap) /\
    m.(fat_fsinfo_at) <> m.(name_at) /\ m.(fat_fsinfo_at) ∉ live t.(heap) /\ m.(name_at) ∉ live t.(heap).
Proof using Type.
  intros V E R. destruct (read_superblock_run DPTE buf d t sb k V E R) as (m & t' & Er & _ & _ & Ed & En & Hnd & Hf & Hl & R').
  destruct m as [a1 a2 a3 a4 a5 a6 a7 sb']. unfold objects_of in *.
  cbn [sb_at private_sb_info_at fat_fsinfo_at root_at name_at dir_inode_at private_index_info_at Mount.sb] in *.
  assert (forall a, a ∈ live t'.(heap) <-> a ∈ [a1; a2; a3; a4; a5; a6; a7] \/ a ∈ live t.(heap)) as HL.
  { intros a. by rewrite Hl, elem_of_union, elem_of_list_to_set. }
  rewrite !NoDup_cons, !elem_of_cons, !elem_of_nil in Hnd.
  setoid_rewrite elem_of_cons in Hf. setoid_rewrite elem_of_cons in HL.
  do 6 (setoid_rewrite elem_of_cons in Hf; setoid_rewrite elem_of_cons in HL).
  setoid_rewrite elem_of_nil in HL.
  exists (mkMounted a1 a2 a3 a4 a5 a6 a7 sb'), t'. unfold fat32_put_superblock.
  cbn [sb_at private_sb_info_at fat_fsinfo_at root_at name_at dir_inode_at private_index_info_at].
  destruct (release_live a2 t'.(heap)) as (r1 & h1 & -> & L1 & K1); [rewrite HL; tauto|]. cbn [mbind option_bind snd].
  destruct (release_live a7 h1) as (r2 & h2 & -> & L2 & K2).
  { rewrite L1, !elem_of_difference, !elem_of_singleton, HL. intuition congruence. }
  cbn [mbind option_bind snd]. destruct (release_live a6 h2) as (r3 & h3 & -> & L3 & K3).
  { rewrite L2, L1, !elem_of_difference, !elem_of_singleton, HL. intuition congruence. }
  cbn [mbind option_bind snd]. destruct (release_live a4 h3) as (r4 & h4 & -> & L4 & K4).
  { rewrite L3, L2, L1, !elem_of_difference, !elem_of_singleton, HL. intuition congruence. }
  cbn [mbind option_bind snd]. destruct (release_live a1 h4) as (r5 & h5 & -> & L5 & K5).
  { rewrite L4, L3, L2, L1, !elem_of_difference, !elem_of_singleton, HL. intuition congruence. }
  cbn [mbind option_bind snd]. eexists. split; [done|]. split; [reflexivity|]. cbn [dentries heap].
  split_and!; [by rewrite Ed, delete_insert_id|auto 10| |intuition congruence|apply Hf; tauto|apply Hf; tauto].
  apply leibniz_equiv. intros a.
  rewrite L5, L4, L3, L2, L1, !elem_of_difference, !elem_of_union, !elem_of_singleton, HL.
  assert (forall x, x = a1 \/ x = a2 \/ x = a3 \/ x = a4 \/ x = a5 \/ x = a6 \/ x = a7 -> x ∉ live t.(heap)) as Hf'
    by (intros x Hx; apply Hf; tauto).
  specialize (Hf' a). split; [intuition congruence|].
  intros [[E1|E1]|Ha]; [intuition congruence..|]. split_and!; [by right|intros E1; apply Hf'; [tauto|done]..].
Qed.
End MountSpec.

(** ** A disk that is mounted

    The disk of [Vfs] with a partition table, whose first partition starts at sector 1. *)

Definition part_disk : ramdisk :=
  mem_write 454 (le_bytes 4 1) (mem_write 458 (le_bytes 4 99)
    (mem_write (512 + 11) (le_bytes 2 512 ++ [1] ++ le_bytes 2 1 ++ [2])
      (mem_write (512 + 36) (le_bytes 4 1) (mem_write (512 + 44) (le_bytes 4 2) tree_disk)))).

Definition mount_demo (d : ramdisk) : mstate ramdisk arena :=
  mkMs d (mkVfs ∅ ∅ ∅) (list_to_map [(10, mkFs [113; 50] 0 0); (20, mkFs FAT32_name 77 0)]) None.

Lemma mount_demo_list d : fs_list (mount_demo d).(types) 10 [10].
Proof. split_and!; [done..|]. eexists. split; [reflexivity|]. reflexivity. Qed.

Lemma mount_demo_ok d : vfs_ok (mount_demo d).(mtree).
Proof.
  constructor; cbn.
  - intros a n Ha. by rewrite lookup_empty in Ha.
  - intros a [x Ha]. by rewrite lookup_empty in Ha.
  - done.
Qed.

(** The file ["/D/ABC.TXT"] is found after mounting. *)
Lemma DISK1_FAT32_FS_init_spec_witness : exists s' m a t e,
  DISK1_FAT32_FS_init 10 20 77 (mount_demo part_disk) = Some s' /\ s'.(root_sb) = Some m /\
  fat_ok m.(sb).(private_sb_info) /\
  @path_walk _ _ (fat32_inode_ops 5 m.(sb).(private_sb_info) (repeat 0 32) part_disk) _ m.(root_at) demo_path 0 s'.(mtree) = Some (a, t) /\
  t.(dentries) !! a = Some e /\ (fun i => i.(file_size)) <$> e.(dir_inode) = Some 600.
Proof.
  destruct (DISK1_FAT32_FS_init_spec 10 20 77 [] (mount_demo part_disk) (mount_demo_list _) ltac:(apply NoDup_singleton)
    eq_refl ltac:(lia) ltac:(split; [lia|set_solver]) eq_refl (mkDPTE 0 0 1 99) 1 1 2 1 2 4)
    as (s' & m & E & Em & _ & _ & _ & _ & Esb & Hf & _ & _ & _ & _ & _ & _ & Hw).
  - vm_compute. reflexivity.
  - constructor; [vm_compute; reflexivity..|cbn; lia].
  - apply mount_demo_ok.
  - exact Logic.I.
  - assert (m.(sb) = mkSuper (mkSbInfo 1 99 1 512 512 4 2 1 2 0 0 (fetch 1 1 512 part_disk)) (mkInode 0 0 FS_ATTR_DIR (mkInodeInfo 2 0 0 0 0 0 0))) as Es.
    { assert (forall x y : super_block, Some x = Some y -> y = x) as Hinj by (intros ? ? [=]; done).
      symmetry. apply Hinj. rewrite <- Esb. vm_compute. reflexivity. }
    destruct (Hw 5%nat (repeat 0 32) demo_path 0 (Some (mkInode 600 2 FS_ATTR_FILE (mkInodeInfo 3 5 0 0 0 0 0))))
      as (a & t & Ew & e & Ee & Er & _).
    + cbn. lia.
    + rewrite Es. vm_compute. reflexivity.
    + vm_compute. lia.
    + exists s', m, a, t, e. split_and!; [exact E|exact Em|exact Hf|exact Ew|exact Ee|].
      assert (forall x y : option index_node, Some x = Some y -> y = x) as Hinj by (intros ? ? [=]; done).
      rewrite (Hinj (Some (mkInode 600 2 FS_ATTR_FILE (mkInodeInfo 3 5 0 0 0 0 0))) e.(dir_inode)); [reflexivity|].
      rewrite <- Er, Es. vm_compute. reflexivity.
Defined.

Lemma FS_init_unformatted_witness : DISK1_FAT32_FS_init 10 20 77 (mount_demo ∅) = None.
Proof.
  apply (FS_init_unformatted 10 20 77 [] (mount_demo ∅) (mount_demo_list _) ltac:(apply NoDup_singleton)
    eq_refl ltac:(lia) ltac:(split; [lia|set_solver]) eq_refl (mkDPTE 0 0 0 0)).
  - vm_compute. reflexivity.
  - right. vm_compute. reflexivity.
Defined.

Lemma put_superblock_leaks_witness : exists m t' t'', 
  read_superblock_of (mkDPTE 0 0 1 99) (fetch 1 1 512 part_disk) part_disk (mkVfs ∅ ∅ (∅ : arena)) = Some (m, t') /\
  fat32_put_superblock m t' = Some t'' /\ t''.(heap) = {[ m.(fat_fsinfo_at); m.(name_at) ]}.
Proof.
  edestruct (put_superblock_leaks (mkDPTE 0 0 1 99) (fetch 1 1 512 part_disk) part_disk (mkVfs ∅ ∅ (∅ : arena)))
    as (m & t' & t'' & E1 & E2 & _ & _ & Hl & _).
  - apply (mount_demo_ok ∅).
  - vm_compute. reflexivity.
  - exact Logic.I.
  - exists m, t', t''. split_and!; [exact E1|exact E2|].
    etransitivity; [exact Hl|]. apply (union_empty_r_L (C := gset Z)).
Unshelve. exact 0%nat.
Defined.
