(* ===== verification/Kheap.v ===== *)
(** * The whole object allocator (memory.c)

    [Slab] proves [kmalloc] when a cache has a free object.  Here is the invariant of the allocator as
    a whole, with the pages and the structures it keeps in its own objects, and the proof that
    [kmalloc], when it has to make a new slab, and [kfree], when it gives one back, keep it.  It
    discharges the interface [AllocatorLaws] that the other files rely on. *)

From S2P Require Import Prelude Bitmap Klist PageAlloc OnePage Slab Alloc.

(** ** The invariant *)

Definition cache_sizes : list Z := (fun k => 2 ^ (5 + k)) <$> range 0 16.

(** The kernel address of page [pg]. *)
Definition page_va (pg : Z) : Z := PAGE_OFFSET + 2 ^ 21 * pg.
Definition in_page (pg x : Z) : Prop := page_va pg <= x < page_va pg + 2 ^ 21.

(** Slab [a], with descriptor [b], belongs to cache [i], described by [c]. *)
Definition slab_of (s : kmem) (rings : nat -> list Z) (i : nat) (c : Slab_cache) (a : Z) (b : Slab) : Prop :=
  s.(kmalloc_cache_size) !! i = Some c /\ a ∈ c.(cache_pool) :: rings i /\ s.(slabs) !! a = Some b.

(** The two structures of a slab: its descriptor and its colour map. *)
Definition slot (k : bool) (a : Z) (b : Slab) : Z := if k then a else b.(color_map).

(** [x] is an object of cache [i] that is in use. *)
Definition used_at (s : kmem) (rings : nat -> list Z) (i : nat) (x : Z) : Prop :=
  exists c a b m j, slab_of s rings i c a b /\ s.(maps) !! b.(color_map) = Some m /\
    0 <= j < b.(color_count) /\ bm_get m j = true /\ x = b.(Vaddress) + c.(size) * j.

(** [x] holds a structure of a slab. *)
Definition internal (s : kmem) (rings : nat -> list Z) (x : Z) : Prop :=
  exists i c a b k, slab_of s rings i c a b /\ (5 <= i)%nat /\ a ∈ rings i /\ x = slot k a b.

(** [x] is in use by somebody else. *)
Definition live_at (s : kmem) (rings : nat -> list Z) (i : nat) (x : Z) : Prop :=
  used_at s rings i x /\ ~ internal s rings x.

Definition sum_of (f : Slab -> Z) (s : kmem) (l : list Z) : Z :=
  foldr (fun a n => from_option f 0 (s.(slabs) !! a) + n) 0 l.

(** Where the structures of a slab are: those of a pool in pages of the kernel, [res]; those of a small
    cache behind the objects of the page; those of a large cache in objects of small caches. *)
Definition slot_kind (s : kmem) (rings : nat -> list Z) (res : Z -> Prop) (i : nat) (c : Slab_cache) (a : Z) (b : Slab) (x : Z) : Prop :=
  (a = c.(cache_pool) /\ exists pg, res pg /\ in_page pg x) \/
  (a ∈ rings i /\ (i < 5)%nat /\ b.(Vaddress) + c.(size) * b.(color_count) <= x < b.(Vaddress) + 2 ^ 21) \/
  (a ∈ rings i /\ (5 <= i)%nat /\ exists i', (i' < 5)%nat /\ used_at s rings i' x).

(** What is true of one slab. *)
Record slab_good (s : kmem) (res : Z -> Prop) (c : Slab_cache) (a : Z) (b : Slab) : Prop := {
  sg_inv : exists m, slab_inv s a b m;
  sg_count : 0 < b.(color_count) <= 65536 /\ c.(size) * b.(color_count) <= 2 ^ 21;
  sg_page : exists pg, b.(page) = Some pg /\ held s.(pm) pg /\ ~ res pg /\ b.(Vaddress) = page_va pg
}.

Record kinv (res : Z -> Prop) (s : kmem) (rings : nat -> list Z) : Prop := {
  ki_pm : pmm_ok s.(pm);
  ki_sizes : size <$> s.(kmalloc_cache_size) = cache_sizes;
  ki_ring : forall i c, s.(kmalloc_cache_size) !! i = Some c -> ring s.(snodes) c.(cache_pool) (rings i);
  ki_some : forall i c a, s.(kmalloc_cache_size) !! i = Some c -> a ∈ c.(cache_pool) :: rings i -> is_Some (s.(slabs) !! a);
  ki_slab : forall i c a b, slab_of s rings i c a b -> slab_good s res c a b;
  ki_pages : forall i c a b i' c' a' b', slab_of s rings i c a b -> slab_of s rings i' c' a' b' ->
    b.(page) = b'.(page) -> i = i' /\ a = a';
  ki_slots : forall i c a b k i' c' a' b' k', slab_of s rings i c a b -> slab_of s rings i' c' a' b' ->
    slot k a b = slot k' a' b' -> i = i' /\ a = a' /\ k = k';
  ki_kind : forall i c a b k, slab_of s rings i c a b -> slot_kind s rings res i c a b (slot k a b);
  ki_totals : forall i c, s.(kmalloc_cache_size) !! i = Some c ->
    c.(total_free) = sum_of free_count s (c.(cache_pool) :: rings i) /\
    c.(total_using) = sum_of using_count s (c.(cache_pool) :: rings i);
  ki_res : forall pg, res pg -> inuse s.(pm) pg
}.

(** A page in use that neither the allocator nor the static structures hold. *)
Definition lent (res : Z -> Prop) (s : kmem) (rings : nat -> list Z) (pg : Z) : Prop :=
  held s.(pm) pg /\ ~ res pg /\ forall i c a b, slab_of s rings i c a b -> b.(page) <> Some pg.

Lemma slab_of_fun s rings i c a b c' b' : slab_of s rings i c a b -> slab_of s rings i c' a b' -> c = c' /\ b = b'.
Proof. intros (? & _ & ?) (? & _ & ?). split; congruence. Qed.

Lemma in_page_unique pg pg' x : in_page pg x -> in_page pg' x -> pg = pg'.
Proof. unfold in_page, page_va. lia. Qed.

Lemma cache_size_at s rings res i c : kinv res s rings -> s.(kmalloc_cache_size) !! i = Some c ->
  (i < 16)%nat /\ c.(size) = 2 ^ (5 + Z.of_nat i).
Proof.
  intros K Hc. pose proof (ki_sizes _ _ _ K) as E.
  assert (cache_sizes !! i = Some c.(size)) as Hs by (rewrite <- E, list_lookup_fmap, Hc; done).
  unfold cache_sizes in Hs. rewrite list_lookup_fmap in Hs. unfold range in Hs.
  apply fmap_Some in Hs as (k & Hk & ->). apply lookup_seqZ in Hk as [-> Hk]. split; [lia|]. by f_equal.
Qed.

Lemma NoDup_range l n : 0 <= n -> NoDup l -> (forall x, x ∈ l -> 0 <= x < n) -> Z.of_nat (length l) <= n.
Proof.
  intros Hn Hd Hl. assert (length l <= length (range 0 n))%nat as Hle.
  { apply NoDup_incl_length; [by apply NoDup_ListNoDup|]. intros x Hx. apply list_elem_of_In in Hx.
    apply list_elem_of_In, in_range. by apply Hl. }
  unfold range in Hle. rewrite length_seqZ in Hle. lia.
Qed.

Section Facts.
Context (res : Z -> Prop) (s : kmem) (rings : nat -> list Z) (K : kinv res s rings).

Lemma kinv_slab i c a : s.(kmalloc_cache_size) !! i = Some c -> a ∈ c.(cache_pool) :: rings i ->
  exists b, slab_of s rings i c a b /\ slab_good s res c a b.
Proof using K.
  intros Hc Ha. destruct (ki_some _ _ _ K i c a Hc Ha) as [b Hb]. exists b.
  assert (slab_of s rings i c a b) as H by done. split; [done|by apply (ki_slab _ _ _ K i)].
Qed.

Lemma slab_va i c a b : slab_of s rings i c a b -> exists pg, b.(page) = Some pg /\ b.(Vaddress) = page_va pg /\
  0 <= pg < 2 ^ 26 - 1 /\ held s.(pm) pg /\ ~ res pg.
Proof using K.
  intros H. destruct (sg_page _ _ _ _ _ (ki_slab _ _ _ K _ _ _ _ H)) as (pg & E & Hh & Hr & Ev).
  exists pg. pose proof (po_bits _ (ki_pm _ _ _ K)). destruct Hh as (Hb & Hh). split_and!; try done; lia.
Qed.

(** No two slabs share addresses. *)
Lemma page_same i c a b i' c' a' b' : slab_of s rings i c a b -> slab_of s rings i' c' a' b' ->
  b.(Vaddress) = b'.(Vaddress) -> i = i' /\ a = a'.
Proof using K.
  intros H H' E. apply (ki_pages _ _ _ K i c a b i' c' a' b' H H').
  destruct (slab_va _ _ _ _ H) as (pg & -> & E1 & _), (slab_va _ _ _ _ H') as (pg' & -> & E2 & _).
  f_equal. unfold page_va in *. lia.
Qed.

(** An object in use determines its slab and its index. *)
Lemma object_unique i c a b j i' c' a' b' j' : slab_of s rings i c a b -> slab_of s rings i' c' a' b' ->
  0 <= j < b.(color_count) -> 0 <= j' < b'.(color_count) ->
  b.(Vaddress) + c.(size) * j = b'.(Vaddress) + c'.(size) * j' -> i = i' /\ a = a' /\ j = j'.
Proof using K.
  intros H H' Hj Hj' E.
  destruct (cache_size_at _ _ _ _ _ K (proj1 H)) as [_ Hs], (cache_size_at _ _ _ _ _ K (proj1 H')) as [_ Hs'].
  assert (0 < c.(size) /\ 0 < c'.(size)) as [? ?] by (rewrite Hs, Hs'; split; apply Z.pow_pos_nonneg; lia).
  destruct (sg_count _ _ _ _ _ (ki_slab _ _ _ K _ _ _ _ H)) as [_ Hc], (sg_count _ _ _ _ _ (ki_slab _ _ _ K _ _ _ _ H')) as [_ Hc'].
  destruct (slab_va _ _ _ _ H) as (pg & Ep & E1 & _), (slab_va _ _ _ _ H') as (pg' & Ep' & E2 & _).
  assert (pg = pg') as <-.
  { apply (in_page_unique pg pg' (Vaddress b + size c * j)); unfold in_page; [rewrite E1|rewrite E, E2]; nia. }
  destruct (ki_pages _ _ _ K _ _ _ _ _ _ _ _ H H') as [<- <-]; [congruence|].
  destruct (slab_of_fun _ _ _ _ _ _ _ _ H H') as [<- <-]. split_and!; [done|done|nia].
Qed.

Lemma used_object i c a b m j : slab_of s rings i c a b -> s.(maps) !! b.(color_map) = Some m ->
  0 <= j < b.(color_count) -> (forall i', used_at s rings i' (b.(Vaddress) + c.(size) * j) <-> i' = i /\ bm_get m j = true).
Proof using K.
  intros H Hm Hj i'. split.
  - intros (c' & a' & b' & m' & j' & H' & Hm' & Hj' & Hb & E).
    destruct (object_unique _ _ _ _ _ _ _ _ _ _ H H' Hj Hj' E) as (<- & <- & <-).
    destruct (slab_of_fun _ _ _ _ _ _ _ _ H H') as [<- <-]. split; [done|congruence].
  - intros [-> Hb]. by exists c, a, b, m, j.
Qed.

Lemma used_page i x : used_at s rings i x -> exists c a b pg, slab_of s rings i c a b /\ b.(page) = Some pg /\ in_page pg x.
Proof using K.
  intros (c & a & b & m & j & H & Hm & Hj & Hb & ->). destruct (slab_va _ _ _ _ H) as (pg & Ep & E1 & _).
  exists c, a, b, pg. split_and!; [done|done|]. unfold in_page. rewrite E1.
  destruct (cache_size_at _ _ _ _ _ K (proj1 H)) as [_ Hs].
  assert (0 < c.(size)) by (rewrite Hs; apply Z.pow_pos_nonneg; lia).
  destruct (sg_count _ _ _ _ _ (ki_slab _ _ _ K _ _ _ _ H)) as [_ Hc]. nia.
Qed.

Lemma slot_nonzero i c a b k : slab_of s rings i c a b -> slot k a b <> 0.
Proof using K.
  intros H. destruct (ki_kind _ _ _ K i c a b k H) as [(_ & pg & Hr & Hp)|[(_ & _ & Hp)|(_ & _ & i' & _ & Hu)]].
  - destruct (ki_res _ _ _ K pg Hr) as [[Hb _] _]. unfold in_page, page_va, PAGE_OFFSET in Hp. lia.
  - destruct (slab_va _ _ _ _ H) as (pg & _ & E & Hpg & _). rewrite E in Hp. unfold page_va, PAGE_OFFSET in Hp.
    destruct (cache_size_at _ _ _ _ _ K (proj1 H)) as [_ Hs].
    assert (0 < c.(size)) by (rewrite Hs; apply Z.pow_pos_nonneg; lia).
    destruct (sg_count _ _ _ _ _ (ki_slab _ _ _ K _ _ _ _ H)) as [? _]. nia.
  - destruct (used_page i' _ Hu) as (c' & a' & b' & pg & H' & Ep & Hp).
    destruct (slab_va _ _ _ _ H') as (pg' & Ep' & _ & Hpg' & _). rewrite Ep in Ep'. injection Ep' as <-.
    unfold in_page, page_va, PAGE_OFFSET in Hp. lia.
Qed.

(** ** The invariant of [Slab] *)

Definition page_of (a : Z) : Z := from_option (fun b => default 0 b.(page)) 0 (s.(slabs) !! a).

Lemma ring_length i c : s.(kmalloc_cache_size) !! i = Some c -> Z.of_nat (length (c.(cache_pool) :: rings i)) <= 2 ^ 26.
Proof using K.
  intros Hc. pose proof (proj1 (ki_ring _ _ _ K i c Hc)) as Hnd. set (l := c.(cache_pool) :: rings i) in *.
  assert (forall a, a ∈ l -> exists b pg, slab_of s rings i c a b /\ b.(page) = Some pg /\ 0 <= pg < 2 ^ 26 - 1) as Hl.
  { intros a Ha. destruct (kinv_slab i c a Hc Ha) as (b & H & _). destruct (slab_va _ _ _ _ H) as (pg & ? & _ & ? & _).
    by exists b, pg. }
  assert (NoDup (page_of <$> l)) as Hn.
  { apply NoDup_fmap_2_strong; [|done]. intros a a' Ha Ha' E.
    destruct (Hl a Ha) as (b & pg & H & Ep & _), (Hl a' Ha') as (b' & pg' & H' & Ep' & _).
    unfold page_of in E. rewrite (proj2 (proj2 H)), (proj2 (proj2 H')) in E. cbn in E. rewrite Ep, Ep' in E. cbn in E.
    by destruct (ki_pages _ _ _ K _ _ _ _ _ _ _ _ H H') as [_ ->]; [congruence|]. }
  rewrite <- (length_fmap page_of). apply NoDup_range; [lia|done|].
  intros x Hx. apply list_elem_of_fmap in Hx as (a & -> & Ha). destruct (Hl a Ha) as (b & pg & H & Ep & Hpg).
  unfold page_of. rewrite (proj2 (proj2 H)). cbn. rewrite Ep. cbn. lia.
Qed.

Lemma totals_bound i c l : s.(kmalloc_cache_size) !! i = Some c -> (forall a, a ∈ l -> a ∈ c.(cache_pool) :: rings i) ->
  0 <= sum_of free_count s l /\ 0 <= sum_of using_count s l /\
  sum_of free_count s l + sum_of using_count s l <= 65536 * Z.of_nat (length l).
Proof using K.
  intros Hc. induction l as [|a l IH]; intros Hl; [cbn; lia|].
  destruct IH as (I1 & I2 & I3). { intros x Hx. by apply Hl, list_elem_of_further. }
  destruct (kinv_slab i c a Hc (Hl a (list_elem_of_here _ _))) as (b & H & G).
  destruct (sg_inv _ _ _ _ _ G) as [m Hm]. destruct (slab_inv_free _ _ _ _ Hm) as [Hf Hu].
  destruct (sg_count _ _ _ _ _ G) as [Hcnt _].
  change (sum_of free_count s (a :: l)) with (from_option free_count 0 (s.(slabs) !! a) + sum_of free_count s l).
  change (sum_of using_count s (a :: l)) with (from_option using_count 0 (s.(slabs) !! a) + sum_of using_count s l).
  rewrite (proj2 (proj2 H)). cbn [from_option length]. lia.
Qed.

Lemma kinv_cache_ok i c : s.(kmalloc_cache_size) !! i = Some c -> cache_ok s i c (rings i).
Proof using K.
  intros Hc. destruct (cache_size_at _ _ _ _ _ K Hc) as [_ Hs].
  assert (0 < c.(size)) by (rewrite Hs; apply Z.pow_pos_nonneg; lia).
  destruct (ki_totals _ _ _ K i c Hc) as [Tf Tu].
  constructor.
  - done.
  - by apply (ki_ring _ _ _ K).
  - intros H0. destruct (kinv_slab i c 0 Hc H0) as (b & Hb & _). by apply (slot_nonzero i c 0 b true Hb).
  - intros a Ha. destruct (kinv_slab i c a Hc Ha) as (b & H' & G). destruct (sg_inv _ _ _ _ _ G) as [m Hm].
    exists b, m. destruct (slab_va _ _ _ _ H') as (pg & _ & Ev & Hpg & _). rewrite Ev. unfold page_va, PAGE_OFFSET.
    split_and!; [done|done|apply G| |lia|lia]. exists (0x7fffc000000 + pg). lia.
  - intros a a' b b' Ha Ha' Hb Hb' E.
    by destruct (ki_slots _ _ _ K i c a b false i c a' b' false) as (_ & -> & _).
  - done.
  - destruct (totals_bound i c (c.(cache_pool) :: rings i) Hc (fun _ H => H)) as (B1 & B2 & B3).
    pose proof (ring_length i c Hc). rewrite Tf, Tu. lia.
Qed.

Lemma kinv_kmem_ok : kmem_ok s rings.
Proof using K.
  constructor; [apply kinv_cache_ok|].
  intros i i' c c' a a' Hc Hc' Ha Ha' E.
  destruct (kinv_slab i c a Hc Ha) as (b & H & _), (kinv_slab i' c' a' Hc' Ha') as (b' & H' & _).
  apply (page_same _ _ _ _ _ _ _ _ H H'). unfold vaddr in E.
  by rewrite (proj2 (proj2 H)), (proj2 (proj2 H')) in E.
Qed.
End Facts.

(** ** States with the same slabs

    Taking an object and taking a page leave the slabs where they are. *)

Definition alike (c : Slab_cache) (b : Slab) (c' : Slab_cache) (b' : Slab) : Prop :=
  c'.(size) = c.(size) /\ c'.(cache_pool) = c.(cache_pool) /\ b'.(page) = b.(page) /\ b'.(Vaddress) = b.(Vaddress) /\
  b'.(color_count) = b.(color_count) /\ b'.(color_map) = b.(color_map).

Definition sim (s s' : kmem) (rings : nat -> list Z) : Prop := forall i c a b, slab_of s rings i c a b ->
  exists c' b', slab_of s' rings i c' a b' /\ alike c b c' b'.

Lemma alike_slot k a c b c' b' : alike c b c' b' -> slot k a b' = slot k a b.
Proof. intros (_ & _ & _ & _ & _ & E). by destruct k. Qed.

Section Layout.
Context (res : Z -> Prop) (s s' : kmem) (rings : nat -> list Z) (S1 : sim s s' rings) (S2 : sim s' s rings).

Lemma sim_internal x : internal s rings x <-> internal s' rings x.
Proof using S1 S2.
  split; intros (i & c & a & b & k & H & Hi & Ha & ->).
  - destruct (S1 _ _ _ _ H) as (c' & b' & H' & E). exists i, c', a, b', k. by rewrite (alike_slot k a _ _ _ _ E).
  - destruct (S2 _ _ _ _ H) as (c' & b' & H' & E). exists i, c', a, b', k. by rewrite (alike_slot k a _ _ _ _ E).
Qed.

Lemma sim_lent pg : held s'.(pm) pg -> lent res s rings pg -> lent res s' rings pg.
Proof using S2.
  intros Hh (_ & Hr & Hp). split_and!; [done|done|]. intros i c a b H E.
  destruct (S2 _ _ _ _ H) as (c' & b' & H' & (_ & _ & E' & _)). apply (Hp _ _ _ _ H'). congruence.
Qed.

Lemma sim_kind i c a b c' b' x : alike c b c' b' ->
  (forall i' y, y = x -> (i' < 5)%nat -> used_at s rings i' y -> used_at s' rings i' y) ->
  slot_kind s rings res i c a b x -> slot_kind s' rings res i c' a b' x.
Proof using Type.
  intros (E1 & E2 & _ & E4 & E5 & _) Hu [(-> & H)|[H|(H & Hi & i' & Hi' & H')]].
  - left. by rewrite E2.
  - right; left. by rewrite E1, E4, E5.
  - right; right. split_and!; [done|done|]. exists i'. split; [done|by apply (Hu i' x)].
Qed.

(** What is left to show for the invariant. *)
Lemma sim_kinv : kinv res s rings -> pmm_ok s'.(pm) -> size <$> s'.(kmalloc_cache_size) = size <$> s.(kmalloc_cache_size) ->
  s'.(snodes) = s.(snodes) ->
  (forall i c', s'.(kmalloc_cache_size) !! i = Some c' -> exists c, s.(kmalloc_cache_size) !! i = Some c /\ c'.(cache_pool) = c.(cache_pool)) ->
  (forall i c a b, slab_of s' rings i c a b -> exists m, slab_inv s' a b m) ->
  (forall pg, held s.(pm) pg -> held s'.(pm) pg) -> (forall pg, inuse s.(pm) pg -> inuse s'.(pm) pg) ->
  (forall i x, (i < 5)%nat -> internal s rings x -> used_at s rings i x -> used_at s' rings i x) ->
  (forall i c, s'.(kmalloc_cache_size) !! i = Some c ->
    c.(total_free) = sum_of free_count s' (c.(cache_pool) :: rings i) /\
    c.(total_using) = sum_of using_count s' (c.(cache_pool) :: rings i)) -> kinv res s' rings.
Proof using S1 S2.
  intros K Hpm Hsz Hn Hpool Hinv Hheld Hin Hu Ht. constructor.
  - done.
  - rewrite Hsz. apply (ki_sizes _ _ _ K).
  - intros i c' Hc'. destruct (Hpool i c' Hc') as (c & Hc & ->). rewrite Hn. by apply (ki_ring _ _ _ K).
  - intros i c' a Hc' Ha. destruct (Hpool i c' Hc') as (c & Hc & E). rewrite E in Ha.
    destruct (kinv_slab _ _ _ K i c a Hc Ha) as (b & H & _). destruct (S1 _ _ _ _ H) as (? & ? & H' & _). by eexists; apply H'.
  - intros i c' a b' H'. destruct (S2 _ _ _ _ H') as (c & b & H & (E1 & E2 & E3 & E4 & E5 & E6)).
    destruct (ki_slab _ _ _ K _ _ _ _ H) as [_ G2 (pg & G3 & G4 & G5 & G6)].
    constructor; [by eapply Hinv|by rewrite <- E1, <- E5|]. exists pg. split_and!; [congruence|by apply Hheld|done|congruence].
  - intros i c a b i' c' a' b' H H' E. destruct (S2 _ _ _ _ H) as (? & ? & X & (_ & _ & E1 & _)).
    destruct (S2 _ _ _ _ H') as (? & ? & X' & (_ & _ & E1' & _)). apply (ki_pages _ _ _ K _ _ _ _ _ _ _ _ X X'). congruence.
  - intros i c a b k i' c' a' b' k' H H' E. destruct (S2 _ _ _ _ H) as (? & ? & X & A). destruct (S2 _ _ _ _ H') as (? & ? & X' & A').
    apply (ki_slots _ _ _ K _ _ _ _ _ _ _ _ _ _ X X'). by rewrite (alike_slot k a _ _ _ _ A), (alike_slot k' a' _ _ _ _ A').
  - intros i c' a b' k H'. destruct (S2 _ _ _ _ H') as (c & b & H & A). pose proof (ki_kind _ _ _ K _ _ _ _ k H) as Hk.
    rewrite <- (alike_slot k a _ _ _ _ A).
    assert (alike c b c' b') as A' by (destruct A as (?&?&?&?&?&?); unfold alike; split_and!; congruence).
    destruct Hk as [Hk|[Hk|Hk]].
    + apply (sim_kind i c a b c' b' _ A'); [|by left]. intros i' y -> Hi' Huse. destruct Hk as (_ & pg & Hr & Hp).
      destruct (used_page _ _ _ K i' _ Huse) as (c1 & a1 & b1 & pg1 & H1 & Ep1 & Hp1).
      rewrite (in_page_unique _ _ _ Hp Hp1) in Hr. destruct (slab_va _ _ _ K _ _ _ _ H1) as (pg2 & Ep2 & _ & _ & _ & Hn2).
      rewrite Ep1 in Ep2. injection Ep2 as <-. done.
    + right; left. destruct A' as (E1 & _ & _ & E4 & E5 & _). by rewrite E1, E4, E5.
    + apply (sim_kind i c a b c' b' _ A'); [|by right; right]. intros i' y -> Hi' Huse. apply Hu; [done| |done].
      destruct Hk as (Ha & Hi & _). by exists i, c, a, b, k.
  - done.
  - intros pg Hpg. by apply Hin, (ki_res _ _ _ K).
Qed.
End Layout.

(** Pages other than [pg] keep their state. *)
Lemma shift_held b pg s t pg' : shift b pg s t -> pg' <> pg -> held s pg' -> held t pg'.
Proof.
  intros H Hne (Hb & Hbit & d & Hd). split; [by rewrite (shift_bits _ _ _ _ H)|]. split.
  - rewrite (sh_bits _ _ _ _ H), decide_False by lia. done.
  - destruct (shift_paged _ _ _ _ _ _ H Hd) as (d' & Hd' & _). by exists d'.
Qed.

Lemma shift_inuse b pg s t pg' : shift b pg s t -> (b = true \/ pg' <> pg) -> inuse s pg' -> inuse t pg'.
Proof.
  intros H Hor (Hb & Hbit). split; [by rewrite (shift_bits _ _ _ _ H)|]. rewrite (sh_bits _ _ _ _ H) by lia.
  destruct (decide (pg' = pg)) as [->|]; [by destruct Hor|done].
Qed.

(** Another state of the pages in which those of the allocator are still held. *)
Lemma set_pm_kinv res s rings p : kinv res s rings -> pmm_ok p ->
  (forall pg, held s.(pm) pg -> ~ lent res s rings pg -> held p pg) ->
  (forall pg, inuse s.(pm) pg -> ~ lent res s rings pg -> inuse p pg) -> kinv res (set_pm p s) rings.
Proof.
  intros K Hp Hh Hi.
  assert (forall pg, res pg -> inuse p pg) as Hres.
  { intros pg Hr. apply Hi; [by apply (ki_res _ _ _ K)|]. intros (_ & Hn & _). done. }
  destruct K as [K1 K2 K3 K4 K5 K6 K7 K8 K9 K10]. constructor; try done.
  intros i c a b H. destruct (K5 i c a b H) as [G1 G2 (pg & G3 & G4 & G5 & G6)]. constructor; [|done|].
  - destruct G1 as [m [M1 M2 M3 M4 M5 M6]]. exists m. by constructor.
  - exists pg. split_and!; try done. apply Hh; [done|]. intros (_ & _ & Hn). by apply (Hn i c a b).
Qed.

Lemma sum_of_ext f s t l : (forall x, x ∈ l -> from_option f 0 (t.(slabs) !! x) = from_option f 0 (s.(slabs) !! x)) ->
  sum_of f t l = sum_of f s l.
Proof.
  intros E. induction l as [|x l IH]; [done|]. cbn. rewrite (E x) by apply list_elem_of_here. f_equal.
  apply IH. intros y Hy. by apply E, list_elem_of_further.
Qed.

Lemma sum_of_update f s t a d l : NoDup l -> a ∈ l ->
  from_option f 0 (t.(slabs) !! a) = from_option f 0 (s.(slabs) !! a) + d ->
  (forall x, x <> a -> x ∈ l -> from_option f 0 (t.(slabs) !! x) = from_option f 0 (s.(slabs) !! x)) ->
  sum_of f t l = sum_of f s l + d.
Proof.
  induction l as [|x l IH]; intros Hd Ha He Hne; [by apply not_elem_of_nil in Ha|].
  apply NoDup_cons in Hd as [Hx Hd]. unfold sum_of; cbn [foldr]; fold (sum_of f s l); fold (sum_of f t l).
  destruct (decide (x = a)) as [->|Hxa].
  - rewrite He, (sum_of_ext f s t l); [lia|]. intros y Hy. apply Hne; [congruence|by apply list_elem_of_further].
  - apply elem_of_cons in Ha as [->|Ha]; [done|]. rewrite (Hne x) by (done || apply list_elem_of_here).
    rewrite IH; [lia|done|done|done|]. intros y Hy Hl. by apply Hne, list_elem_of_further.
Qed.

(** ** Taking an object, and giving one back *)

Section Used.
Context (res : Z -> Prop) (s : kmem) (rings : nat -> list Z) (K : kinv res s rings).
Context (i : nat) (c : Slab_cache) (a : Z) (b : Slab) (m m' : list Z) (d k : Z).
Context (H : slab_of s rings i c a b) (Hm : s.(maps) !! b.(color_map) = Some m).
Context (Hd : d = 1 \/ d = -1) (Hk : 0 <= k < b.(color_count)) (Hold : bm_get m k = bool_decide (d = -1)).
Context (Hlen : length m' = length m) (Hok : bm_ok m').
Context (Hget : forall j, 0 <= j -> bm_get m' j = if decide (k = j) then bool_decide (d = 1) else bm_get m j).
Notation obj := (b.(Vaddress) + c.(size) * k).
Notation t := (used d i a b m' c s).

Lemma used_slab_of i' c' a' b' : slab_of t rings i' c' a' b' <-> exists c0 b0, slab_of s rings i' c0 a' b0 /\
  c' = (if decide (i' = i) then cache_use d c0 else c0) /\ b' = (if decide (a' = a) then slab_use d b0 else b0).
Proof using H.
  destruct H as (Hc & Ha & Hb). unfold slab_of, used; cbn [kmalloc_cache_size set_kcaches set_slabs set_maps slabs].
  split.
  - intros (Hc' & Ha' & Hb').
    assert (exists c0, s.(kmalloc_cache_size) !! i' = Some c0 /\ c' = (if decide (i' = i) then cache_use d c0 else c0)) as (c0 & Hc0 & ->).
    { destruct (decide (i' = i)) as [E|E]; [subst i'; rewrite list_lookup_insert_eq in Hc' by (by eapply lookup_lt_Some); injection Hc' as <-; by exists c|].
      rewrite list_lookup_insert_ne in Hc' by done. by exists c'. }
    assert (exists b0, s.(slabs) !! a' = Some b0 /\ b' = (if decide (a' = a) then slab_use d b0 else b0)) as (b0 & Hb0 & ->).
    { destruct (decide (a' = a)) as [E|E]; [subst a'; rewrite lookup_insert_eq in Hb'; injection Hb' as <-; by exists b|].
      rewrite lookup_insert_ne in Hb' by done. by exists b'. }
    exists c0, b0. split; [|done]. split_and!; [done| |done]. by destruct (decide (i' = i)).
  - intros (c0 & b0 & (Hc0 & Ha0 & Hb0) & -> & ->). split_and!.
    + destruct (decide (i' = i)) as [E|E]; [subst i'; rewrite list_lookup_insert_eq by (by eapply lookup_lt_Some); congruence|].
      by rewrite list_lookup_insert_ne.
    + by destruct (decide (i' = i)).
    + destruct (decide (a' = a)) as [E|E]; [subst a'; rewrite lookup_insert_eq; congruence|by rewrite lookup_insert_ne].
Qed.

Lemma used_sim : sim s t rings /\ sim t s rings.
Proof using H.
  split; intros i' c' a' b' H'.
  - eexists _, _. split; [apply used_slab_of; eexists _, _; split; [exact H'|done]|].
    unfold alike. by destruct (decide (i' = i)), (decide (a' = a)).
  - apply used_slab_of in H' as (c0 & b0 & H' & -> & ->). exists c0, b0. split; [done|].
    unfold alike. by destruct (decide (i' = i)), (decide (a' = a)).
Qed.

(** The maps of the other slabs. *)
Lemma used_map i' c' a' b' : slab_of s rings i' c' a' b' ->
  t.(maps) !! b'.(color_map) = if decide (a' = a) then Some m' else s.(maps) !! b'.(color_map).
Proof using K H.
  intros H'. cbn [used set_kcaches set_slabs set_maps maps]. destruct (decide (a' = a)) as [E|E].
  - subst a'. destruct (ki_slots _ _ _ K _ _ _ _ true _ _ _ _ true H H' eq_refl) as (<- & _ & _).
    destruct (slab_of_fun _ _ _ _ _ _ _ _ H H') as [<- <-]. by rewrite lookup_insert_eq.
  - rewrite lookup_insert_ne; [done|]. intros Ecm. apply E.
    destruct (ki_slots _ _ _ K _ _ _ _ false _ _ _ _ false H H' Ecm) as (_ & <- & _). done.
Qed.

Lemma used_used_at i' x : used_at t rings i' x <->
  if decide (i' = i /\ x = obj) then d = 1 else used_at s rings i' x.
Proof using All.
  assert (used_at t rings i' x <-> exists c' a' b' j, slab_of s rings i' c' a' b' /\ 0 <= j < b'.(color_count) /\
    (if decide (a' = a /\ j = k) then d = 1 else exists m0, s.(maps) !! b'.(color_map) = Some m0 /\ bm_get m0 j = true) /\
    x = b'.(Vaddress) + c'.(size) * j) as ->.
  { split.
    - intros (c' & a' & b' & m0 & j & H' & Hm0 & Hj & Hb & ->). apply used_slab_of in H' as (c0 & b0 & H' & -> & ->).
      assert (0 <= j < color_count b0) as Hj' by (by destruct (decide (a' = a))).
      assert (maps t !! color_map b0 = Some m0) as Hm0' by (by destruct (decide (a' = a))).
      rewrite (used_map _ _ _ _ H') in Hm0'. exists c0, a', b0, j. split; [done|]. split; [done|]. split.
      + destruct (decide (a' = a)) as [->|Hne].
        * injection Hm0' as <-. rewrite Hget in Hb by lia. destruct (decide (k = j)) as [->|Hkj].
          -- rewrite decide_True by done. by apply bool_decide_eq_true in Hb.
          -- rewrite decide_False by (by intros [_ ?]).
             destruct (ki_slots _ _ _ K _ _ _ _ true _ _ _ _ true H H' eq_refl) as (<- & _ & _).
             destruct (slab_of_fun _ _ _ _ _ _ _ _ H H') as [<- <-]. by exists m.
        * rewrite decide_False by (by intros [? _]). by exists m0.
      + by destruct (decide (i' = i)), (decide (a' = a)).
    - intros (c0 & a' & b0 & j & H' & Hj & Hcase & ->).
      destruct (decide (a' = a)) as [->|Hne].
      + destruct (ki_slots _ _ _ K _ _ _ _ true _ _ _ _ true H H' eq_refl) as (<- & _ & _).
        destruct (slab_of_fun _ _ _ _ _ _ _ _ H H') as [<- <-].
        exists (cache_use d c), a, (slab_use d b), m', j. split_and!; try done.
        * apply used_slab_of. exists c, b. by rewrite !decide_True.
        * change (color_map (slab_use d b)) with (color_map b). by rewrite (used_map _ _ _ _ H), decide_True.
        * apply Hj.
        * apply Hj.
        * rewrite Hget by lia. destruct (decide (k = j)) as [<-|Hkj].
          -- rewrite decide_True in Hcase by done. by apply bool_decide_eq_true.
          -- rewrite decide_False in Hcase by (intros [_ ?]; congruence). destruct Hcase as (m0 & Hm0 & Hb). congruence.
      + rewrite decide_False in Hcase by (by intros [? _]). destruct Hcase as (m0 & Hm0 & Hb).
        exists (if decide (i' = i) then cache_use d c0 else c0), a', b0, m0, j. split_and!; try done; try lia.
        * apply used_slab_of. exists c0, b0. by rewrite (decide_False (P := a' = a)).
        * by rewrite (used_map _ _ _ _ H'), decide_False.
        * by destruct (decide (i' = i)). }
  assert (forall c' b', slab_of s rings i' c' a b' -> i' = i /\ c' = c /\ b' = b) as Hsame.
  { intros c' b' H'. destruct (ki_slots _ _ _ K _ _ _ _ true _ _ _ _ true H H' eq_refl) as (<- & _ & _).
    by destruct (slab_of_fun _ _ _ _ _ _ _ _ H H') as [<- <-]. }
  destruct (decide (i' = i /\ x = obj)) as [[-> ->]|E].
  - split.
    + intros (c' & a' & b' & j & H' & Hj & Hcase & E).
      destruct (object_unique _ _ _ K _ _ _ _ _ _ _ _ _ _ H H' Hk Hj E) as (_ & <- & <-).
      by rewrite decide_True in Hcase.
    + intros Ed. exists c, a, b, k. split_and!; try done; try lia. by rewrite decide_True.
  - split.
    + intros (c' & a' & b' & j & H' & Hj & Hcase & ->). rewrite decide_False in Hcase.
      * destruct Hcase as (m0 & Hm0 & Hb). by exists c', a', b', m0, j.
      * intros [-> ->]. apply E. by destruct (Hsame _ _ H') as (-> & -> & ->).
    + intros (c' & a' & b' & m0 & j & H' & Hm0 & Hj & Hb & ->). exists c', a', b', j. split_and!; try done; try lia.
      rewrite decide_False; [by exists m0|]. intros [-> ->]. apply E. by destruct (Hsame _ _ H') as (-> & -> & ->).
Qed.

Lemma used_ok : (d = -1 -> ~ internal s rings obj) -> kinv res t rings.
Proof using All.
  intros Hint. destruct used_sim as [S1 S2]. pose proof H as (Hc & Ha & Hb).
  assert (slab_inv s a b m) as Hi.
  { destruct (sg_inv _ _ _ _ _ (ki_slab _ _ _ K _ _ _ _ H)) as [m0 M]. destruct (sl_map _ _ _ _ M). pose proof (sl_map _ _ _ _ M). congruence. }
  pose proof (kinv_cache_ok _ _ _ K i c Hc) as C. destruct (slab_inv_free _ _ _ _ Hi) as [Hfr Hus].
  assert (d = -1 -> 0 < b.(using_count)) as Hpos1.
  { intros ->. rewrite (sl_using _ _ _ _ Hi), (bm_count_split true _ _ k), (bm_count_split true _ k (k + 1)), bm_count_one, Hold by lia.
    rewrite (bool_decide_eq_true_2 (-1 = -1)) by done. change (Z.b2z (eqb true true)) with 1. pose proof (bm_count_nonneg true m 0 k).
    pose proof (bm_count_nonneg true m (k + 1) (color_count b)). lia. }
  assert (forall f l, a ∈ l -> (forall x, x ∈ l -> 0 <= from_option f 0 (s.(slabs) !! x)) -> f b <= sum_of f s l) as Hle.
  { intros f l Hin Hnn. induction l as [|x l IH]; [by apply not_elem_of_nil in Hin|]. unfold sum_of; cbn [foldr]; fold (sum_of f s l).
    assert (0 <= sum_of f s l).
    { clear -Hnn. induction l as [|y l IH]; [done|]. unfold sum_of; cbn [foldr]; fold (sum_of f s l).
      pose proof (Hnn y ltac:(by apply list_elem_of_further, list_elem_of_here)).
      assert (0 <= sum_of f s l); [|lia]. apply IH. intros z Hz. apply Hnn.
      apply elem_of_cons in Hz as [->|Hz]; [apply list_elem_of_here|by do 2 apply list_elem_of_further]. }
    apply elem_of_cons in Hin as [<-|Hin]; [rewrite Hb; cbn; lia|].
    pose proof (Hnn x (list_elem_of_here _ _)). specialize (IH Hin ltac:(intros y Hy; by apply Hnn, list_elem_of_further)). lia. }
  destruct (ki_totals _ _ _ K i c Hc) as [Tf Tu].
  assert (d = -1 -> 0 < c.(total_using)) as Hpos.
  { intros E. specialize (Hpos1 E). rewrite Tu. enough (using_count b <= sum_of using_count s (cache_pool c :: rings i)) by lia.
    apply Hle; [done|]. intros x Hx. destruct (kinv_slab _ _ _ K i c x Hc Hx) as (bx & (_ & _ & ->) & G).
    destruct (sg_inv _ _ _ _ _ G) as [mx Mx]. destruct (slab_inv_free _ _ _ _ Mx). cbn. lia. }
  destruct (used_cache_ok s i c (rings i) a b m m' d k C Ha Hi Hd Hk Hold Hlen Hok Hget Hpos) as [Hi' C'].
  apply (sim_kinv res s t rings S1 S2 K); try done.
  - apply (ki_pm _ _ _ K).
  - cbn. rewrite list_fmap_insert. apply list_insert_id. rewrite list_lookup_fmap, Hc. done.
  - intros i' c' Hc'. cbn in Hc'. destruct (decide (i = i')) as [<-|Hne].
    + rewrite list_lookup_insert_eq in Hc' by (by eapply lookup_lt_Some). injection Hc' as <-. by exists c.
    + rewrite list_lookup_insert_ne in Hc' by done. by exists c'.
  - intros i' c' a' b' H'. apply used_slab_of in H' as (c0 & b0 & H' & -> & ->). destruct (decide (a' = a)) as [->|Hne].
    + destruct (ki_slots _ _ _ K _ _ _ _ true _ _ _ _ true H H' eq_refl) as (<- & _ & _).
      destruct (slab_of_fun _ _ _ _ _ _ _ _ H H') as [<- <-]. by exists m'.
    + destruct (sg_inv _ _ _ _ _ (ki_slab _ _ _ K _ _ _ _ H')) as [m0 []]. exists m0. constructor; try done.
      * cbn. by rewrite lookup_insert_ne.
      * by rewrite (used_map _ _ _ _ H'), decide_False.
  - intros i' x Hi5 Hx Hu. apply used_used_at. destruct (decide (i' = i /\ x = obj)) as [[-> ->]|]; [|done].
    destruct Hd as [E|E]; [done|]. by destruct (Hint E).
  - intros i' c' Hc'. cbn in Hc'. destruct (decide (i = i')) as [<-|Hne].
    + rewrite list_lookup_insert_eq in Hc' by (by eapply lookup_lt_Some). injection Hc' as <-.
      pose proof (proj1 (ck_ring _ _ _ _ C)) as Hnd. pose proof (sl_slab _ _ _ _ Hi') as Hb'. cbn in Hb'. rewrite lookup_insert_eq in Hb'.
      split; [apply (ck_free _ _ _ _ C')|].
      destruct (ck_using _ _ _ _ C) as [Hu1 Hu2]. pose proof (ck_using _ _ _ _ C') as Hu'.
      destruct (slab_inv_free _ _ _ _ Hi') as [Hfr' Hus'].
      assert (0 <= c.(total_free)) as Hf0.
      { rewrite (ck_free _ _ _ _ C). eapply sum_free_nonneg; [exact C|auto]. }
      change (cache_pool (cache_use d c)) with (cache_pool c).
      rewrite (sum_of_update using_count s t a d); [|done|done| |].
      * rewrite <- Tu. cbn. apply u64_small. destruct Hd as [-> | ->]; [lia|specialize (Hpos eq_refl); lia].
      * cbn. rewrite lookup_insert_eq, Hb. cbn. apply u64_small. destruct (sg_count _ _ _ _ _ (ki_slab _ _ _ K _ _ _ _ H)) as [? _].
        destruct Hd as [-> | ->]; [lia|specialize (Hpos1 eq_refl); lia].
      * intros x Hx _. cbn. by rewrite lookup_insert_ne.
    + rewrite list_lookup_insert_ne in Hc' by done. destruct (ki_totals _ _ _ K i' c' Hc') as [-> ->].
      split; (symmetry; apply sum_of_ext; intros x Hx; cbn; rewrite lookup_insert_ne; [done|]; intros <-;
        destruct (kinv_slab _ _ _ K i' c' a Hc' Hx) as (b' & H' & _);
        destruct (ki_slots _ _ _ K _ _ _ _ true _ _ _ _ true H H' eq_refl) as (? & _ & _); congruence).
Qed.
End Used.

(** ** A slab more *)

Lemma internal_used res s rings x : kinv res s rings -> internal s rings x -> exists i, (i < 5)%nat /\ used_at s rings i x.
Proof.
  intros K (i & c & a & b & k & H & Hi & Ha & ->).
  destruct (ki_kind _ _ _ K _ _ _ _ k H) as [(-> & _)|[(_ & ? & _)|(_ & _ & Hx)]]; [|lia|done].
  destruct (ki_ring _ _ _ K i c (proj1 H)) as [Hnd _]. by apply NoDup_cons in Hnd as [Hnd _].
Qed.

Lemma used_fun res s rings i i' x : kinv res s rings -> used_at s rings i x -> used_at s rings i' x -> i = i'.
Proof.
  intros K (c & a & b & m & j & H & _ & Hj & _ & ->) (c' & a' & b' & m' & j' & H' & _ & Hj' & _ & E).
  by destruct (object_unique _ _ _ K _ _ _ _ _ _ _ _ _ _ H H' Hj Hj' E) as (-> & _).
Qed.

Lemma sum_of_perm f s l l' : l ≡ₚ l' -> sum_of f s l = sum_of f s l'.
Proof. induction 1; cbn; unfold sum_of in *; lia. Qed.

(** The states [s] and [t] differ in slab [a] of cache [i], which [t] has; none of its objects is in
    use. *)
Section Extend.
Context (s t : kmem) (rs rt : nat -> list Z) (i : nat) (c c' : Slab_cache) (a : Z) (b : Slab) (m : list Z).
Context (Hc : s.(kmalloc_cache_size) !! i = Some c).
Context (Hct : forall i', t.(kmalloc_cache_size) !! i' = if decide (i' = i) then Some c' else s.(kmalloc_cache_size) !! i').
Context (Hsize : c'.(size) = c.(size)) (Hpool : c'.(cache_pool) = c.(cache_pool)).
Context (Hrt : rt i ≡ₚ a :: rs i) (Hro : forall i', i' <> i -> rt i' = rs i').
Context (Hslabs : forall x, x <> a -> t.(slabs) !! x = s.(slabs) !! x) (Hb : t.(slabs) !! a = Some b).
Context (Hfresh : forall i' c0, s.(kmalloc_cache_size) !! i' = Some c0 -> a ∉ c0.(cache_pool) :: rs i').
Context (Hmaps : forall i' c0 a' b', slab_of s rs i' c0 a' b' -> t.(maps) !! b'.(color_map) = s.(maps) !! b'.(color_map)).
Context (Hm : t.(maps) !! b.(color_map) = Some m) (Hempty : forall j, 0 <= j < b.(color_count) -> bm_get m j = false).

Lemma ext_in i' a' : a' ∈ rt i' <-> a' ∈ rs i' \/ (i' = i /\ a' = a).
Proof using Hrt Hro.
  destruct (decide (i' = i)) as [->|Hne]; [rewrite Hrt, elem_of_cons; tauto|]. rewrite Hro by done. tauto.
Qed.

Lemma ext_slab i' c1 a' b' : slab_of t rt i' c1 a' b' <->
  (exists c0, slab_of s rs i' c0 a' b' /\ c1 = if decide (i' = i) then c' else c0) \/ (i' = i /\ c1 = c' /\ a' = a /\ b' = b).
Proof using Hc Hct Hpool Hrt Hro Hslabs Hb Hfresh.
  unfold slab_of. rewrite Hct. setoid_rewrite elem_of_cons. rewrite ext_in. split.
  - intros (Hc1 & Ha & Hb1). destruct (decide (i' = i)) as [->|Hne].
    + injection Hc1 as <-. rewrite Hpool in Ha. destruct (decide (a' = a)) as [->|Hna]; [right; split_and!; congruence|].
      left. exists c. rewrite Hslabs in Hb1 by done. split; [|done]. split_and!; [done| |done]. tauto.
    + assert (a' ∈ cache_pool c1 :: rs i') as Hin by (rewrite elem_of_cons; tauto).
      left. exists c1. split; [|done]. split_and!; [done|tauto|]. rewrite <- Hslabs; [done|]. intros ->. by apply (Hfresh _ _ Hc1).
  - intros [(c0 & (Hc0 & Ha & Hb0) & ->)|(-> & -> & -> & ->)].
    + assert (a' <> a). { intros ->. apply (Hfresh _ _ Hc0). by rewrite elem_of_cons. }
      destruct (decide (i' = i)) as [->|Hne].
      * assert (c0 = c) as -> by congruence. rewrite Hpool, Hslabs by done. tauto.
      * rewrite Hslabs by done. tauto.
    + rewrite decide_True by done. tauto.
Qed.

Lemma ext_cache i' c0 : s.(kmalloc_cache_size) !! i' = Some c0 ->
  size (if decide (i' = i) then c' else c0) = size c0 /\ cache_pool (if decide (i' = i) then c' else c0) = cache_pool c0.
Proof using Hc Hsize Hpool. intros Hc0. destruct (decide (i' = i)) as [->|]; [|done]. by assert (c0 = c) as -> by congruence. Qed.

Lemma ext_used i' x : used_at t rt i' x <-> used_at s rs i' x.
Proof using All.
  split.
  - intros (c1 & a1 & b1 & m1 & j & H & Hm1 & Hj & Hbit & ->). apply ext_slab in H as [(c0 & H & ->)|(-> & -> & -> & ->)].
    + rewrite (Hmaps _ _ _ _ H) in Hm1. destruct (ext_cache _ _ (proj1 H)) as [-> _]. by exists c0, a1, b1, m1, j.
    + assert (m1 = m) as -> by congruence. by rewrite Hempty in Hbit.
  - intros (c0 & a1 & b1 & m1 & j & H & Hm1 & Hj & Hbit & ->). eexists _, a1, b1, m1, j.
    split; [apply ext_slab; left; by exists c0|]. rewrite (Hmaps _ _ _ _ H). by destruct (ext_cache _ _ (proj1 H)) as [-> _].
Qed.

Lemma ext_internal x : internal t rt x <-> internal s rs x \/ ((5 <= i)%nat /\ exists k, x = slot k a b).
Proof using Hc Hct Hpool Hrt Hro Hslabs Hb Hfresh.
  split.
  - intros (i' & c1 & a1 & b1 & k & H & Hi & Ha & ->). apply ext_slab in H as [(c0 & H & ->)|(-> & -> & -> & ->)].
    + left. exists i', c0, a1, b1, k. split_and!; try done. apply ext_in in Ha as [?|[-> ->]]; [done|].
      exfalso. apply (Hfresh _ _ (proj1 H)), H.
    + right. split; [done|by exists k].
  - intros [(i' & c0 & a1 & b1 & k & H & Hi & Ha & ->)|(Hi & k & ->)].
    + eexists i', _, a1, b1, k. split; [apply ext_slab; left; by exists c0|]. split_and!; [done|apply ext_in; by left|done].
    + exists i, c', a, b, k. split; [apply ext_slab; by right|]. split_and!; [done|apply ext_in; by right|done].
Qed.

Lemma ext_live i' x : live_at t rt i' x <-> live_at s rs i' x /\ ~ ((5 <= i)%nat /\ exists k, x = slot k a b).
Proof using All. unfold live_at. rewrite ext_used, ext_internal. tauto. Qed.

Context (res : Z -> Prop).

Lemma ext_kind i' c0 a' b' x : slab_of s rs i' c0 a' b' ->
  slot_kind t rt res i' (if decide (i' = i) then c' else c0) a' b' x <-> slot_kind s rs res i' c0 a' b' x.
Proof using All.
  intros H. unfold slot_kind. destruct (ext_cache _ _ (proj1 H)) as [-> ->]. rewrite ext_in. setoid_rewrite ext_used.
  assert (a' <> a) as Hne. { intros ->. apply (Hfresh _ _ (proj1 H)), H. }
  assert (a' ∈ rs i' \/ i' = i /\ a' = a <-> a' ∈ rs i') as -> by tauto. done.
Qed.

(** [s] is as it should be when [t] is. *)
Lemma shrink_kinv : kinv res t rt -> s.(pm) = t.(pm) ->
  (forall i' c0, s.(kmalloc_cache_size) !! i' = Some c0 -> ring s.(snodes) c0.(cache_pool) (rs i')) ->
  b.(using_count) = 0 -> b.(free_count) = b.(color_count) ->
  c'.(total_free) = c.(total_free) + b.(color_count) -> c'.(total_using) = c.(total_using) -> kinv res s rs.
Proof using All.
  intros K Hpm Hrings Hu0 Hf0 Hf Hu.
  assert (forall i' c0 a' b', slab_of s rs i' c0 a' b' -> slab_of t rt i' (if decide (i' = i) then c' else c0) a' b') as L.
  { intros i' c0 a' b' H. apply ext_slab. left. by exists c0. }
  assert (size <$> s.(kmalloc_cache_size) = size <$> t.(kmalloc_cache_size)) as Esz.
  { apply list_eq. intros n. rewrite !list_lookup_fmap, Hct. destruct (decide (n = i)) as [->|]; [|done]. rewrite Hc. cbn. by rewrite Hsize. }
  constructor.
  - rewrite Hpm. apply (ki_pm _ _ _ K).
  - rewrite Esz. apply (ki_sizes _ _ _ K).
  - done.
  - intros i' c0 a' Hc0 Ha. destruct (ext_cache _ _ Hc0) as [_ E].
    destruct (ki_some _ _ _ K i' (if decide (i' = i) then c' else c0) a') as [b' Hb'].
    + rewrite Hct. by destruct (decide (i' = i)).
    + rewrite E. rewrite elem_of_cons in Ha |- *. rewrite ext_in. tauto.
    + exists b'. rewrite <- Hslabs; [done|]. intros ->. by apply (Hfresh _ _ Hc0).
  - intros i' c0 a' b' H. destruct (ki_slab _ _ _ K _ _ _ _ (L _ _ _ _ H)) as [[m' M] G1 G2].
    rewrite (proj1 (ext_cache _ _ (proj1 H))) in G1. constructor; [|done|by rewrite Hpm].
    exists m'. destruct M. constructor; try done; [by apply H|by rewrite <- (Hmaps _ _ _ _ H)].
  - intros i1 c1 a1 b1 i2 c2 a2 b2 H1 H2. apply (ki_pages _ _ _ K _ _ _ _ _ _ _ _ (L _ _ _ _ H1) (L _ _ _ _ H2)).
  - intros i1 c1 a1 b1 k1 i2 c2 a2 b2 k2 H1 H2. apply (ki_slots _ _ _ K _ _ _ _ _ _ _ _ _ _ (L _ _ _ _ H1) (L _ _ _ _ H2)).
  - intros i' c0 a' b' k H. apply ext_kind; [done|]. by apply (ki_kind _ _ _ K), L.
  - intros i' c0 Hc0. destruct (ki_totals _ _ _ K i' (if decide (i' = i) then c' else c0)) as [T1 T2].
    { rewrite Hct. by destruct (decide (i' = i)). }
    rewrite (proj2 (ext_cache _ _ Hc0)) in T1, T2.
    assert (forall f, sum_of f t (cache_pool c0 :: rs i') = sum_of f s (cache_pool c0 :: rs i')) as Es.
    { intros f. apply sum_of_ext. intros x Hx. rewrite Hslabs; [done|]. intros ->. by apply (Hfresh _ _ Hc0). }
    destruct (decide (i' = i)) as [->|Hne].
    + assert (c0 = c) as -> by congruence.
      assert (cache_pool c :: rt i ≡ₚ a :: cache_pool c :: rs i) as Hp by (rewrite Hrt; apply Permutation_swap).
      rewrite (sum_of_perm _ _ _ _ Hp) in T1. rewrite (sum_of_perm _ _ _ _ Hp) in T2. unfold sum_of in T1, T2; cbn [foldr] in T1, T2.
      rewrite Hb in T1, T2. cbn [from_option] in T1, T2.
      pose proof (Es free_count) as E1. pose proof (Es using_count) as E2. unfold sum_of in E1, E2 |- *. cbn [foldr] in E1, E2 |- *. lia.
    + rewrite Hro in T1, T2 by done. by rewrite <- !Es.
  - intros pg Hpg. rewrite Hpm. by apply (ki_res _ _ _ K).
Qed.

(** And the other way round, when the new slab is well placed. *)
Definition placed (pg x : Z) : Prop :=
  (i < 5)%nat /\ b.(Vaddress) + c.(size) * b.(color_count) <= x < b.(Vaddress) + 2 ^ 21 \/
  (5 <= i)%nat /\ exists i', (i' < 5)%nat /\ live_at s rs i' x.

Lemma placed_apart pg x i' c0 a' b' k : kinv res s rs -> lent res s rs pg -> b.(Vaddress) = page_va pg ->
  0 < b.(color_count) -> 0 < c.(size) -> placed pg x -> slab_of s rs i' c0 a' b' -> slot k a' b' <> x.
Proof using Type.
  intros K (Hh & Hr & Hl) Ev Hpos Hsz P H <-.
  assert (forall i1, used_at s rs i1 (slot k a' b') -> ~ in_page pg (slot k a' b')) as U.
  { intros i1 Hu Hin. destruct (used_page _ _ _ K _ _ Hu) as (c1 & a1 & b1 & pg1 & H1 & Ep & Hp).
    rewrite (in_page_unique _ _ _ Hp Hin) in Ep. by apply (Hl _ _ _ _ H1). }
  destruct P as [[Hi P]|[Hi (i1 & _ & Hu & Hn)]].
  - assert (in_page pg (slot k a' b')) as Hin by (unfold in_page; rewrite <- Ev; nia).
    destruct (ki_kind _ _ _ K _ _ _ _ k H) as [(_ & pg' & Hr' & Hp)|[(_ & _ & Hp)|(_ & _ & i2 & _ & Hu)]].
    + by rewrite (in_page_unique _ _ _ Hp Hin) in Hr'.
    + destruct (slab_va _ _ _ K _ _ _ _ H) as (pg' & Ep & Ev' & _).
      destruct (cache_size_at _ _ _ _ _ K (proj1 H)) as [_ Es].
      assert (0 < c0.(size)) as Hs0 by (rewrite Es; apply Z.pow_pos_nonneg; lia).
      destruct (sg_count _ _ _ _ _ (ki_slab _ _ _ K _ _ _ _ H)) as [Hcnt _].
      assert (in_page pg' (slot k a' b')) as Hin' by (unfold in_page; rewrite <- Ev'; nia).
      rewrite (in_page_unique _ _ _ Hin' Hin) in Ep. by apply (Hl _ _ _ _ H).
    + by apply (U i2).
  - destruct (ki_kind _ _ _ K _ _ _ _ k H) as [(_ & pg' & Hr' & Hp)|[(_ & Hi' & Hp)|(Ha & Hi' & _)]].
    + destruct (used_page _ _ _ K _ _ Hu) as (c1 & a1 & b1 & pg1 & H1 & Ep & Hp1).
      rewrite (in_page_unique _ _ _ Hp Hp1) in Hr'. destruct (slab_va _ _ _ K _ _ _ _ H1) as (pg2 & Ep2 & _ & _ & _ & Hn2).
      rewrite Ep in Ep2. injection Ep2 as <-. done.
    + destruct (used_page _ _ _ K _ _ Hu) as (c1 & a1 & b1 & pg1 & H1 & Ep & Hp1).
      destruct (slab_va _ _ _ K _ _ _ _ H) as (pg' & Ep' & Ev' & _).
      destruct (cache_size_at _ _ _ _ _ K (proj1 H)) as [_ Es].
      assert (0 < c0.(size)) as Hs0 by (rewrite Es; apply Z.pow_pos_nonneg; lia).
      destruct (sg_count _ _ _ _ _ (ki_slab _ _ _ K _ _ _ _ H)) as [Hcnt Hfit].
      assert (in_page pg' (slot k a' b')) as Hin' by (unfold in_page; rewrite <- Ev'; nia).
      rewrite (in_page_unique _ _ _ Hp1 Hin') in Ep.
      destruct (ki_pages _ _ _ K _ _ _ _ _ _ _ _ H1 H) as [-> ->]; [congruence|].
      destruct (slab_of_fun _ _ _ _ _ _ _ _ H1 H) as [-> ->].
      destruct Hu as (c2 & a2 & b2 & m2 & j & H2 & _ & Hj & _ & E).
      destruct (slab_va _ _ _ K _ _ _ _ H2) as (pg2 & Ep2 & Ev2 & _).
      destruct (cache_size_at _ _ _ _ _ K (proj1 H2)) as [_ Es2].
      assert (0 < c2.(size)) as Hs2 by (rewrite Es2; apply Z.pow_pos_nonneg; lia).
      destruct (sg_count _ _ _ _ _ (ki_slab _ _ _ K _ _ _ _ H2)) as [Hcnt2 Hfit2].
      assert (in_page pg2 (slot k a' b')) as Hin2 by (unfold in_page; rewrite <- Ev2, E; nia).
      rewrite (in_page_unique _ _ _ Hin2 Hin') in Ep2.
      destruct (ki_pages _ _ _ K _ _ _ _ _ _ _ _ H2 H) as [_ ->]; [congruence|].
      destruct (slab_of_fun _ _ _ _ _ _ _ _ H2 H) as [-> ->]. nia.
    + apply Hn. by exists i', c0, a', b', k.
Qed.

Lemma grow_kinv pg : kinv res s rs -> t.(pm) = s.(pm) -> lent res s rs pg -> b.(page) = Some pg -> b.(Vaddress) = page_va pg ->
  (forall i' c1, t.(kmalloc_cache_size) !! i' = Some c1 -> ring t.(snodes) c1.(cache_pool) (rt i')) ->
  placed pg a -> placed pg b.(color_map) -> a <> b.(color_map) ->
  bm_ok m -> 0 < b.(color_count) <= 65536 /\ b.(color_count) <= bm_bits m -> c.(size) * b.(color_count) <= 2 ^ 21 ->
  b.(using_count) = 0 -> b.(free_count) = b.(color_count) ->
  c'.(total_free) = c.(total_free) + b.(color_count) -> c'.(total_using) = c.(total_using) -> kinv res t rt.
Proof using All.
  intros K Hpm Hlent Ep Ev Hrings Pa Pm Hne Hok [Hcnt Hbits] Hfit Hu0 Hf0 Hf Hu.
  assert (0 < c.(size)) as Hsz.
  { destruct (cache_size_at _ _ _ _ _ K Hc) as [_ ->]. apply Z.pow_pos_nonneg; lia. }
  assert (forall k, placed pg (slot k a b)) as P by (by intros []).
  assert (size <$> t.(kmalloc_cache_size) = size <$> s.(kmalloc_cache_size)) as Esz.
  { apply list_eq. intros n. rewrite !list_lookup_fmap, Hct. destruct (decide (n = i)) as [->|]; [|done]. rewrite Hc. cbn. by rewrite Hsize. }
  assert (forall i' c0 a' b' k k', slab_of s rs i' c0 a' b' -> slot k a' b' <> slot k' a b) as Hap.
  { intros i' c0 a' b' k k' H. apply (placed_apart pg _ i' c0 a' b' k K Hlent Ev); [lia|done|done|done]. }
  destruct Hlent as (Hh & Hr & Hl). constructor.
  - rewrite Hpm. apply (ki_pm _ _ _ K).
  - rewrite Esz. apply (ki_sizes _ _ _ K).
  - done.
  - intros i' c1 a' Hc1 Ha. destruct (decide (a' = a)) as [->|Hna]; [by eexists|]. rewrite Hslabs by done.
    rewrite Hct in Hc1. rewrite elem_of_cons, ext_in in Ha. destruct (decide (i' = i)) as [->|Hni].
    + injection Hc1 as <-. apply (ki_some _ _ _ K i c a' Hc). rewrite elem_of_cons, <- Hpool. tauto.
    + apply (ki_some _ _ _ K i' c1 a' Hc1). rewrite elem_of_cons. tauto.
  - intros i' c1 a' b' H. apply ext_slab in H as [(c0 & H & ->)|(-> & -> & -> & ->)].
    + destruct (ki_slab _ _ _ K _ _ _ _ H) as [[m' M] G1 G2]. rewrite <- (proj1 (ext_cache _ _ (proj1 H))) in G1.
      constructor; [|done|by rewrite Hpm]. exists m'. destruct M. constructor; try done; [|by rewrite (Hmaps _ _ _ _ H)].
      rewrite Hslabs; [done|]. intros ->. apply (Hfresh _ _ (proj1 H)), H.
    + constructor; [|by rewrite Hsize|by exists pg; rewrite Hpm]. exists m.
      assert (bm_count false m 0 b.(color_count) = b.(color_count)) as Hcf.
      { rewrite bm_count_all; [lia|lia|]. intros j Hj. by apply Hempty. }
      pose proof (bm_count_compl false m 0 b.(color_count) ltac:(lia)) as Hcm. cbn [negb] in Hcm.
      constructor; try done; lia.
  - intros i1 c1 a1 b1 i2 c2 a2 b2 H1 H2 E.
    apply ext_slab in H1 as [(d1 & H1 & ->)|(-> & -> & -> & ->)], H2 as [(d2 & H2 & ->)|(-> & -> & -> & ->)].
    + by apply (ki_pages _ _ _ K _ _ _ _ _ _ _ _ H1 H2).
    + exfalso. apply (Hl _ _ _ _ H1). congruence.
    + exfalso. apply (Hl _ _ _ _ H2). congruence.
    + done.
  - intros i1 c1 a1 b1 k1 i2 c2 a2 b2 k2 H1 H2 E.
    apply ext_slab in H1 as [(d1 & H1 & ->)|(-> & -> & -> & ->)], H2 as [(d2 & H2 & ->)|(-> & -> & -> & ->)].
    + by apply (ki_slots _ _ _ K _ _ _ _ _ _ _ _ _ _ H1 H2).
    + by destruct (Hap _ _ _ _ k1 k2 H1).
    + by destruct (Hap _ _ _ _ k2 k1 H2).
    + split_and!; [done|done|]. destruct k1, k2; try done; cbn in E; congruence.
  - intros i' c1 a' b' k H. apply ext_slab in H as [(c0 & H & ->)|(-> & -> & -> & ->)].
    + apply ext_kind; [done|]. by apply (ki_kind _ _ _ K).
    + right. specialize (P k). unfold placed in P. rewrite Hsize. destruct P as [[Hi P]|[Hi (i' & Hi' & P & _)]].
      * left. split_and!; try done; try lia. apply ext_in. by right.
      * right. split_and!; [apply ext_in; by right|done|]. exists i'. split; [done|by apply ext_used].
  - intros i' c1 Hc1. rewrite Hct in Hc1.
    assert (forall f i' c0, s.(kmalloc_cache_size) !! i' = Some c0 ->
      sum_of f t (cache_pool c0 :: rs i') = sum_of f s (cache_pool c0 :: rs i')) as Es.
    { intros f i1 c0 Hc0. apply sum_of_ext. intros x Hx. rewrite Hslabs; [done|]. intros ->. by apply (Hfresh _ _ Hc0). }
    destruct (decide (i' = i)) as [->|Hne'].
    + injection Hc1 as <-. rewrite Hpool. destruct (ki_totals _ _ _ K i c Hc) as [T1 T2].
      assert (cache_pool c :: rt i ≡ₚ a :: cache_pool c :: rs i) as Hp by (rewrite Hrt; apply Permutation_swap).
      rewrite !(sum_of_perm _ _ _ _ Hp). pose proof (Es free_count i c Hc) as E1. pose proof (Es using_count i c Hc) as E2.
      unfold sum_of in E1, E2, T1, T2 |- *. cbn [foldr] in E1, E2, T1, T2 |- *. rewrite Hb. cbn [from_option]. lia.
    + rewrite Hro by done. rewrite !(Es _ _ _ Hc1). by apply (ki_totals _ _ _ K).
  - intros pg' Hpg. rewrite Hpm. by apply (ki_res _ _ _ K).
Qed.

(** The pages nobody holds. *)
Lemma ext_lent pg : t.(pm) = s.(pm) -> lent res t rt pg <-> lent res s rs pg /\ b.(page) <> Some pg.
Proof using All.
  intros Hpm. unfold lent. rewrite Hpm. split.
  - intros (H1 & H2 & H3). split_and!; [done|done| |].
    + intros i' c0 a' b' H. apply (H3 i' (if decide (i' = i) then c' else c0) a' b'). apply ext_slab. left. by exists c0.
    + apply (H3 i c' a b). apply ext_slab. by right.
  - intros ((H1 & H2 & H3) & H4). split_and!; [done|done|]. intros i' c1 a' b' H.
    apply ext_slab in H as [(c0 & H & ->)|(-> & -> & -> & ->)]; [by apply (H3 _ _ _ _ H)|done].
Qed.
End Extend.

(** ** Making a slab, and taking one away *)

(** The rings of two caches have no node in common. *)
Lemma rings_apart res s rings i i' c c' x : kinv res s rings -> s.(kmalloc_cache_size) !! i = Some c ->
  s.(kmalloc_cache_size) !! i' = Some c' -> x ∈ c.(cache_pool) :: rings i -> x ∈ c'.(cache_pool) :: rings i' -> i = i'.
Proof.
  intros K Hc Hc' Hx Hx'. destruct (kinv_slab _ _ _ K i c x Hc Hx) as (b & H & _), (kinv_slab _ _ _ K i' c' x Hc' Hx') as (b' & H' & _).
  by destruct (ki_slots _ _ _ K _ _ _ _ true _ _ _ _ true H H' eq_refl) as (-> & _ & _).
Qed.

Definition with_ring (i : nat) (l : list Z) (rings : nat -> list Z) (j : nat) : list Z := if decide (j = i) then l else rings j.

Lemma attach_ok res s rings i c pg a cm count m : kinv res s rings -> s.(kmalloc_cache_size) !! i = Some c ->
  lent res s rings pg -> 0 < count <= 65536 -> c.(size) * count <= 2 ^ 21 -> fresh_map count = Some m ->
  let b := mkSlab (Some pg) 0 count (page_va pg) (color_bytes count) count cm in
  placed s rings i c b pg a -> placed s rings i c b pg cm -> a <> cm ->
  let s1 := set_kcaches (<[i := cache_grow count c]> s.(kmalloc_cache_size)) (put_slab a b m s) in
  exists n, list_add_to_before c.(cache_pool) a s1.(snodes) = Some n /\
    let t := set_snodes n s1 in let rt := with_ring i (rings i ++ [a]) rings in
    kinv res t rt /\ slab_of t rt i (cache_grow count c) a b /\
    (forall pg', lent res t rt pg' <-> lent res s rings pg' /\ pg' <> pg) /\
    (forall j x, used_at t rt j x <-> used_at s rings j x) /\
    (forall j x, live_at t rt j x <-> live_at s rings j x /\ ~ ((5 <= i)%nat /\ (x = a \/ x = cm))).
Proof.
  intros K Hc Hl Hcnt Hfit Hm b Pa Pm Hne s1.
  destruct (cache_size_at _ _ _ _ _ K Hc) as [_ Es].
  assert (0 < c.(size)) as Hsz by (rewrite Es; apply Z.pow_pos_nonneg; lia).
  assert (forall i' c0 a' b' k k', slab_of s rings i' c0 a' b' -> slot k a' b' <> slot k' a b) as Hap.
  { intros i' c0 a' b' k k' H. apply (placed_apart s rings i c b res pg _ i' c0 a' b' k K Hl eq_refl); [apply Hcnt|done| |done].
    by destruct k'. }
  assert (forall i' c0, s.(kmalloc_cache_size) !! i' = Some c0 -> a ∉ c0.(cache_pool) :: rings i') as Hfresh.
  { intros i' c0 Hc0 Ha. destruct (kinv_slab _ _ _ K i' c0 a Hc0 Ha) as (b' & H & _). by apply (Hap _ _ _ _ true true H). }
  assert (ring (list_init a s.(snodes)) c.(cache_pool) (rings i)) as Hr.
  { apply (ring_frame s.(snodes)); [|by apply (ki_ring _ _ _ K)]. intros x Hx. unfold list_init. rewrite lookup_insert_ne; [done|].
    intros ->. by apply (Hfresh i c). }
  destruct (list_add_to_before_ring (list_init a s.(snodes)) c.(cache_pool) a (rings i) Hr (list_init_some _ _) (Hfresh i c Hc))
    as (n & En & Hrn & Hfr & _).
  exists n. split; [exact En|]. intros t rt.
  assert (forall i', t.(kmalloc_cache_size) !! i' = if decide (i' = i) then Some (cache_grow count c) else s.(kmalloc_cache_size) !! i') as Hct.
  { intros i'. cbn. destruct (decide (i' = i)) as [->|Hni]; [by rewrite list_lookup_insert_eq by (by eapply lookup_lt_Some)|].
    by rewrite list_lookup_insert_ne. }
  assert (rt i ≡ₚ a :: rings i) as Hrt.
  { unfold rt, with_ring. rewrite decide_True by done. by rewrite Permutation_app_comm. }
  assert (forall i', i' <> i -> rt i' = rings i') as Hro by (intros i' Hni; unfold rt, with_ring; by rewrite decide_False).
  assert (forall x, x <> a -> t.(slabs) !! x = s.(slabs) !! x) as Hslabs by (intros x Hx; cbn; by rewrite lookup_insert_ne).
  assert (t.(slabs) !! a = Some b) as Hb by (cbn; by rewrite lookup_insert_eq).
  assert (forall i' c0 a' b', slab_of s rings i' c0 a' b' -> t.(maps) !! b'.(color_map) = s.(maps) !! b'.(color_map)) as Hmaps.
  { intros i' c0 a' b' H. cbn. rewrite lookup_insert_ne; [done|]. intros E. by apply (Hap _ _ _ _ false false H). }
  assert (t.(maps) !! b.(color_map) = Some m) as Hmt by (cbn; by rewrite lookup_insert_eq).
  destruct (fresh_map_spec count ltac:(lia)) as (m0 & Em0 & Hok & Hlen & Hget & _). rewrite Hm in Em0. injection Em0 as <-.
  assert (forall j, 0 <= j < b.(color_count) -> bm_get m j = false) as Hempty.
  { intros j Hj. cbn in Hj. rewrite Hget by lia. rewrite (proj2 (Z.leb_gt _ _)) by lia. done. }
  split_and!.
  - apply (grow_kinv s t rings rt i c (cache_grow count c) a b m Hc Hct eq_refl eq_refl Hrt Hro Hslabs Hb Hfresh Hmaps Hmt Hempty res pg K);
      try done.
    + intros i' c1 Hc1. rewrite Hct in Hc1. destruct (decide (i' = i)) as [->|Hni].
      * injection Hc1 as <-. unfold rt, with_ring. rewrite decide_True by done. exact Hrn.
      * rewrite Hro by done. apply (ring_frame s.(snodes)); [|by apply (ki_ring _ _ _ K)]. intros x Hx. cbn. rewrite Hfr.
        -- unfold list_init. rewrite lookup_insert_ne; [done|]. intros ->. by apply (Hfresh i' c1).
        -- intros Hin. rewrite !elem_of_cons in Hin. destruct (decide (x = a)) as [->|Hxa]; [by apply (Hfresh i' c1)|].
           apply Hni. apply (rings_apart _ _ _ i' i c1 c x K Hc1 Hc Hx). rewrite elem_of_cons. tauto.
    + split; [exact Hcnt|]. unfold bm_bits. rewrite Hlen. destruct (color_bytes_spec count ltac:(lia)) as [_ Hb2]. cbn. lia.
    + cbn. destruct (totals_bound _ _ _ K i c _ Hc (fun _ H => H)) as (B1 & B2 & B3). pose proof (ring_length _ _ _ K i c Hc).
      destruct (ki_totals _ _ _ K i c Hc) as [-> _]. apply u64_small. lia.
  - split_and!; [by rewrite Hct, decide_True| |done]. apply elem_of_cons. right. rewrite Hrt. apply list_elem_of_here.
  - intros pg'. rewrite (ext_lent s t rings rt i c (cache_grow count c) a b m Hc Hct eq_refl eq_refl Hrt Hro Hslabs Hb Hfresh Hmaps Hmt Hempty res pg' eq_refl).
    cbn. split; intros [H1 H2]; (split; [done|congruence]).
  - apply (ext_used s t rings rt i c (cache_grow count c) a b m Hc Hct eq_refl eq_refl Hrt Hro Hslabs Hb Hfresh Hmaps Hmt Hempty).
  - intros j x. rewrite (ext_live s t rings rt i c (cache_grow count c) a b m Hc Hct eq_refl eq_refl Hrt Hro Hslabs Hb Hfresh Hmaps Hmt Hempty).
    assert ((exists k, x = slot k a b) <-> x = a \/ x = cm) as ->; [|done].
    split; [intros [[] ->]; auto|intros [->| ->]; [by exists true|by exists false]].
Qed.

(** Slab [a] of cache [i], none of whose objects is in use, is taken out of the ring. *)
Lemma detach_ok res s rings i c a b : kinv res s rings -> slab_of s rings i c a b -> a ∈ rings i -> b.(using_count) = 0 ->
  exists n pg, list_del a s.(snodes) = Some n /\ b.(page) = Some pg /\ b.(Vaddress) = page_va pg /\
    let s1 := set_snodes n s in
    let t := set_kcaches (<[i := cache_grow (- b.(color_count)) c]> s1.(kmalloc_cache_size)) s1 in
    exists rt, (forall j, j <> i -> rt j = rings j) /\ kinv res t rt /\
    (forall pg', lent res t rt pg' <-> lent res s rings pg' \/ pg' = pg) /\
    (forall j x, used_at t rt j x <-> used_at s rings j x) /\
    (forall j x, live_at t rt j x <-> live_at s rings j x \/ (used_at s rings j x /\ (5 <= i)%nat /\ (x = a \/ x = b.(color_map)))).
Proof.
  intros K H Ha Hu0. pose proof H as (Hc & _ & Hb). pose proof (ki_ring _ _ _ K i c Hc) as Hr.
  apply list_elem_of_split in Ha as (l1 & l2 & El). rewrite El in Hr.
  destruct (list_del_ring s.(snodes) c.(cache_pool) a l1 l2 Hr) as (n & En & Hrn & Hfr & _).
  destruct (slab_va _ _ _ K _ _ _ _ H) as (pg & Ep & Ev & _ & Hheld & Hnres).
  exists n, pg. split_and!; [done..|]. intros s1 t. exists (with_ring i (l1 ++ l2) rings). set (rt := with_ring i (l1 ++ l2) rings).
  destruct (sg_inv _ _ _ _ _ (ki_slab _ _ _ K _ _ _ _ H)) as [m M]. destruct (slab_inv_free _ _ _ _ M) as [Hf1 Hf2].
  destruct (sg_count _ _ _ _ _ (ki_slab _ _ _ K _ _ _ _ H)) as [Hcnt _].
  assert (forall j, 0 <= j < b.(color_count) -> bm_get m j = false) as Hempty.
  { intros j Hj. destruct (bm_get m j) eqn:E; [exfalso|done]. pose proof (sl_using _ _ _ _ M) as Hu.
    rewrite (bm_count_split true _ _ j), (bm_count_split true _ j (j + 1)), bm_count_one, E in Hu by lia.
    pose proof (bm_count_nonneg true m 0 j). pose proof (bm_count_nonneg true m (j + 1) (color_count b)). cbn in Hu. lia. }
  set (c0 := cache_grow (- b.(color_count)) c) in *.
  assert (t.(kmalloc_cache_size) !! i = Some c0) as Hc0 by (cbn; by rewrite list_lookup_insert_eq by (by eapply lookup_lt_Some)).
  assert (forall i', s.(kmalloc_cache_size) !! i' = if decide (i' = i) then Some c else t.(kmalloc_cache_size) !! i') as Hct.
  { intros i'. cbn. destruct (decide (i' = i)) as [->|Hni]; [done|]. by rewrite list_lookup_insert_ne. }
  assert (rings i ≡ₚ a :: rt i) as Hrt.
  { unfold rt, with_ring. rewrite decide_True, El by done. by rewrite <- Permutation_middle. }
  assert (forall i', i' <> i -> rings i' = rt i') as Hro by (intros i' Hni; unfold rt, with_ring; by rewrite decide_False).
  assert (forall x, x <> a -> s.(slabs) !! x = t.(slabs) !! x) as Hslabs by done.
  assert (forall i' c1, t.(kmalloc_cache_size) !! i' = Some c1 -> a ∉ c1.(cache_pool) :: rt i') as Hfresh.
  { intros i' c1 Hc1 Hin. destruct (decide (i' = i)) as [->|Hni].
    - rewrite Hc0 in Hc1. injection Hc1 as <-. unfold rt, with_ring in Hin. rewrite decide_True in Hin by done.
      destruct Hr as [Hnd _]. rewrite NoDup_cons, NoDup_app, NoDup_cons, elem_of_app, elem_of_cons in Hnd.
      change (cache_pool c0) with (cache_pool c) in Hin. rewrite elem_of_cons, elem_of_app in Hin.
      destruct Hnd as (N1 & N2 & N3 & N4 & N5). destruct Hin as [->|[Hin|Hin]]; [tauto| |done].
      apply (N3 a Hin). apply list_elem_of_here.
    - apply Hni. rewrite <- Hro in Hin by done. pose proof (Hct i') as Hc1'. rewrite decide_False, Hc1 in Hc1' by done.
      apply (rings_apart _ _ _ i' i c1 c a K Hc1' Hc Hin). apply list_elem_of_further. rewrite El, elem_of_app. right. apply list_elem_of_here. }
  assert (forall i' d0 a' b', slab_of t rt i' d0 a' b' -> s.(maps) !! b'.(color_map) = t.(maps) !! b'.(color_map)) as Hmaps by done.
  pose proof (fun P Q => ext_used t s rt rings i c0 c a b m Hc0 Hct eq_refl eq_refl Hrt Hro Hslabs Hb Hfresh P (sl_map _ _ _ _ M) Q) as Xused.
  specialize (Xused Hmaps Hempty).
  assert (kinv res t rt) as Kt.
  { apply (shrink_kinv t s rt rings i c0 c a b m Hc0 Hct eq_refl eq_refl Hrt Hro Hslabs Hb Hfresh Hmaps (sl_map _ _ _ _ M) Hempty res K); try done; [|lia|].
    - intros i' c1 Hc1. destruct (decide (i' = i)) as [->|Hni].
      + rewrite Hc0 in Hc1. injection Hc1 as <-. unfold rt, with_ring. rewrite decide_True by done. exact Hrn.
      + rewrite <- Hro by done. pose proof (Hct i') as Hc1'. rewrite decide_False, Hc1 in Hc1' by done.
        apply (ring_frame s.(snodes)); [|by apply (ki_ring _ _ _ K)]. intros x Hx. cbn. apply Hfr. intros Hin. apply Hni.
        apply (rings_apart _ _ _ i' i c1 c x K Hc1' Hc Hx). by rewrite El.
    - cbn. destruct (totals_bound _ _ _ K i c _ Hc (fun _ H => H)) as (B1 & B2 & B3). pose proof (ring_length _ _ _ K i c Hc) as Hlen.
      destruct (ki_totals _ _ _ K i c Hc) as [T1 _]. rewrite u64_small; [lia|].
      assert (color_count b <= total_free c); [|lia]. rewrite T1.
      assert (cache_pool c :: rings i ≡ₚ a :: cache_pool c :: rt i) as Hp by (rewrite Hrt; apply Permutation_swap).
      rewrite (sum_of_perm _ _ _ _ Hp). unfold sum_of; cbn [foldr]; fold (sum_of free_count s (cache_pool c :: rt i)).
      destruct (totals_bound _ _ _ K i c (cache_pool c :: rt i) Hc) as (B4 & _).
      { intros x Hx. rewrite Hp. by apply list_elem_of_further. }
      change (foldr _ 0 (rt i)) with (sum_of free_count s (rt i)).
      change (from_option free_count 0 (slabs s !! cache_pool c) + sum_of free_count s (rt i)) with (sum_of free_count s (cache_pool c :: rt i)).
      rewrite Hb. cbn [from_option]. lia. }
  split_and!.
  - intros j Hj. by rewrite Hro.
  - done.
  - intros pg'. rewrite (ext_lent t s rt rings i c0 c a b m Hc0 Hct eq_refl eq_refl Hrt Hro Hslabs Hb Hfresh Hmaps (sl_map _ _ _ _ M) Hempty res pg' eq_refl).
    rewrite Ep. destruct (decide (pg' = pg)) as [->|Hne]; [|split; [intros Hl; left; split; [done|congruence]|tauto]].
    split; [by right|]. intros _. split_and!; [done|done|]. intros i' d0 a' b' H' E.
    assert (slab_of s rings i' (if decide (i' = i) then c else d0) a' b') as H''.
    { apply (ext_slab t s rt rings i c0 c a b Hc0 Hct eq_refl Hrt Hro Hslabs Hb Hfresh). left. by exists d0. }
    destruct (ki_pages _ _ _ K _ _ _ _ _ _ _ _ H'' H) as [-> ->]; [congruence|]. apply (Hfresh _ _ (proj1 H')), H'.
  - intros j x. symmetry. apply Xused.
  - intros j x. rewrite (ext_live t s rt rings i c0 c a b m Hc0 Hct eq_refl eq_refl Hrt Hro Hslabs Hb Hfresh Hmaps (sl_map _ _ _ _ M) Hempty).
    assert ((exists k, x = slot k a b) <-> x = a \/ x = b.(color_map)) as ->.
    { split; [intros [[] ->]; auto|intros [->| ->]; [by exists true|by exists false]]. }
    rewrite Xused. unfold live_at. split.
    + intros [Hu Hn]. destruct (decide ((5 <= i)%nat /\ (x = a \/ x = color_map b))) as [D|D]; [right; tauto|left; tauto].
    + intros [[[Hu Hn] _]|(Hu & Hi & Hx)]; [tauto|]. split; [done|]. intros (i' & d0 & a' & b' & k & H' & _ & _ & E).
      assert (slab_of s rings i' (if decide (i' = i) then c else d0) a' b') as H''.
      { apply (ext_slab t s rt rings i c0 c a b Hc0 Hct eq_refl Hrt Hro Hslabs Hb Hfresh). left. by exists d0. }
      assert (exists k', x = slot k' a b) as [k' Ek'] by (destruct Hx as [->| ->]; [by exists true|by exists false]).
      destruct (ki_slots _ _ _ K _ _ _ _ k _ _ _ _ k' H'' H) as (-> & -> & _); [congruence|]. apply (Hfresh _ _ (proj1 H')), H'.
Qed.

(** ** kmalloc *)

Lemma set_pm_id s : set_pm s.(pm) s = s.
Proof. by destruct s. Qed.

(** A page is taken: nobody holds it but the taker; and given back. *)
Lemma page_taken res s rings pg p : kinv res s rings -> free s.(pm) pg -> shift true pg s.(pm) p -> pmm_ok p -> held p pg ->
  kinv res (set_pm p s) rings /\ lent res (set_pm p s) rings pg /\
  forall pg', lent res s rings pg' -> lent res (set_pm p s) rings pg' /\ pg' <> pg.
Proof.
  intros K Hf S Kp Hh.
  assert (forall pg', held s.(pm) pg' -> pg' <> pg) as Hne by (intros pg' (_ & Hb & _) ->; destruct Hf; congruence).
  split; [|split].
  - apply set_pm_kinv; [done|done| |].
    + intros pg' Hh' _. apply (shift_held _ _ _ _ _ S); auto.
    + intros pg' Hh' _. apply (shift_inuse _ _ _ _ _ S); auto.
  - split_and!; [done| |].
    + intros Hr. destruct (ki_res _ _ _ K pg Hr) as [_ Hb]. destruct Hf. congruence.
    + intros i c a b H E. destruct (slab_va _ _ _ K _ _ _ _ H) as (pg' & Ep & _ & _ & Hh' & _). rewrite E in Ep. injection Ep as <-.
      by apply (Hne pg).
  - intros pg' (H1 & H2 & H3). split; [|by apply Hne]. split_and!; [|done|done]. apply (shift_held _ _ _ _ _ S); auto.
Qed.

Lemma page_given res s rings pg p : kinv res s rings -> lent res s rings pg -> shift false pg s.(pm) p -> pmm_ok p ->
  kinv res (set_pm p s) rings /\ forall pg', lent res s rings pg' -> pg' <> pg -> lent res (set_pm p s) rings pg'.
Proof.
  intros K Hl S Kp. split.
  - apply set_pm_kinv; [done|done| |].
    + intros pg' Hh Hn. apply (shift_held _ _ _ _ _ S); [|done]. by intros ->.
    + intros pg' Hh Hn. apply (shift_inuse _ _ _ _ _ S); [|done]. right. by intros ->.
  - intros pg' (H1 & H2 & H3) Hne. split_and!; [|done|done]. by apply (shift_held _ _ _ _ _ S).
Qed.

Lemma shift_held_true pg s t d : shift true pg s t -> free s pg -> paged t pg d -> held t pg.
Proof.
  intros S Hf Hd. split; [rewrite (shift_bits _ _ _ _ S); apply Hf|]. split; [|by exists d].
  rewrite (sh_bits _ _ _ _ S), decide_True by (done || apply Hf). done.
Qed.

(** [kmalloc_create] gets a page, or the state is as before. *)
Lemma create_page_ok res s rings : kinv res s rings ->
  create_page s = Some (None, s) /\ (forall n, ~ has_pages s.(pm) (S n)) \/
  exists pg p, create_page s = Some (Some (pg, page_va pg), set_pm p s) /\ kinv res (set_pm p s) rings /\
    lent res (set_pm p s) rings pg /\ (forall pg', lent res s rings pg' -> lent res (set_pm p s) rings pg' /\ pg' <> pg) /\
    (forall n, has_pages s.(pm) (S n) -> has_pages p n).
Proof.
  intros K. unfold create_page. destruct (take_page_ok s.(pm) PG_Kernel (ki_pm _ _ _ K))
    as [[-> Hn]|(pg & p & p' & d & -> & Ei & Hf & S & Kp & Hd)]; cbn [mbind option_bind].
  - left. split; [by rewrite set_pm_id|done].
  - right. rewrite Ei. cbn [mbind option_bind snd]. pose proof Hd as (Hp & Hphy & _). rewrite Hp. cbn [mbind option_bind].
    pose proof (shift_held_true _ _ _ _ S Hf Hd) as Hh. destruct (paged_kernel p' pg d Kp Hd (proj1 Hh)) as [-> _].
    destruct (page_taken res s rings pg p' K Hf S Kp Hh) as (K' & Hl & Hlo).
    exists pg, p'. split_and!; try done. intros n. by apply (has_pages_take pg).
Qed.

(** What a call changes: only cache [i], when it is one of the small ones; pages lent to others stay. *)
Record effect (res : Z -> Prop) (n : nat) (s : kmem) (rings : nat -> list Z) (s' : kmem) (rings' : nat -> list Z) : Prop := {
  ef_kinv : kinv res s' rings';
  ef_others : forall j, (n <= j)%nat -> s'.(kmalloc_cache_size) !! j = s.(kmalloc_cache_size) !! j /\ rings' j = rings j;
  ef_lent : forall pg, lent res s rings pg -> lent res s' rings' pg
}.

Lemma effect_trans res n s1 r1 s2 r2 s3 r3 : effect res n s1 r1 s2 r2 -> effect res n s2 r2 s3 r3 -> effect res n s1 r1 s3 r3.
Proof.
  intros [A1 A2 A3] [B1 B2 B3]. constructor; [done| |auto]. intros j Hj. destruct (A2 j Hj), (B2 j Hj). split; congruence.
Qed.

(** [x] of cache [i] is taken: it was not in use and now is. *)
Definition taken (s : kmem) (rings : nat -> list Z) (s' : kmem) (rings' : nat -> list Z) (i : nat) (x : Z) : Prop :=
  x <> 0 /\ (forall j, ~ live_at s rings j x) /\
  forall j y, live_at s' rings' j y <-> live_at s rings j y \/ (j = i /\ y = x).

Lemma take_ok res s rings i c a : kinv res s rings -> s.(kmalloc_cache_size) !! i = Some c ->
  a ∈ c.(cache_pool) :: rings i -> free_of s a <> 0 ->
  exists x s', kmalloc_take i a s = Some (x, s') /\ effect res (S i) s rings s' rings /\ taken s rings s' rings i x /\
    s'.(pm) = s.(pm) /\ forall j, ~ used_at s rings j x.
Proof.
  intros K Hc Ha Hf.
  destruct (kmalloc_take_spec s i c (rings i) a (kinv_cache_ok _ _ _ K i c Hc) Ha Hf)
    as (b & m & m' & k & Hb & Hk & Hbit & _ & Hm & E & _ & _).
  assert (slab_of s rings i c a b) as H by (split_and!; [done|done|apply Hb]).
  assert (0 <= k < bm_bits m) as Hkb by (destruct (sl_size _ _ _ _ Hb) as [Hz _]; lia).
  assert (forall j, 0 <= j -> bm_get m' j = if decide (k = j) then bool_decide (1 = 1) else bm_get m j) as Hget.
  { intros j Hj. rewrite (bm_or_get _ _ _ j Hm) by lia. rewrite (bool_decide_eq_true_2 (1 = 1)) by done.
    destruct (decide (k = j)) as [->|Hne]; [rewrite bool_decide_eq_true_2 by done; apply orb_true_r|].
    rewrite bool_decide_eq_false_2 by congruence. apply orb_false_r. }
  assert (length m' = length m) as Hlen by (by rewrite (bm_or_length _ _ _ Hm)).
  assert (bm_ok m') as Hok by (eapply bm_or_ok; [exact Hm|apply Hb]).
  set (t := used 1 i a b m' c s) in *. set (x := Vaddress b + size c * k) in *.
  pose proof (used_ok res s rings K i c a b m m' 1 k H (sl_map _ _ _ _ Hb) (or_introl eq_refl) Hk Hbit Hlen Hok Hget ltac:(lia)) as K'.
  pose proof (used_used_at res s rings K i c a b m m' 1 k H (sl_map _ _ _ _ Hb) (or_introl eq_refl) Hk Hbit Hlen Hok Hget) as Hu.
  destruct (used_sim s rings i c a b m' 1 H) as [S1 S2]. fold t in K', Hu, S1, S2. fold x in Hu.
  assert (forall j, ~ used_at s rings j x) as Hfree.
  { intros j Hj. apply (used_object _ _ _ K i c a b m k H (sl_map _ _ _ _ Hb) Hk) in Hj as [_ Hj]. congruence. }
  assert (used_at t rings i x) as Hux by (apply Hu; by rewrite decide_True).
  exists x, t. split; [exact E|]. split; [constructor|split; [split_and!|by split]].
  - done.
  - intros j Hj. split; [|done]. cbn. rewrite list_lookup_insert_ne by lia. done.
  - intros pg Hl. apply (sim_lent res s t rings S2); [apply Hl|done].
  - destruct (used_page _ _ _ K' i x Hux) as (c1 & a1 & b1 & pg & H1 & Ep & Hp).
    destruct (slab_va _ _ _ K' _ _ _ _ H1) as (pg' & Ep' & _ & Hpg & _). rewrite Ep in Ep'. injection Ep' as <-.
    unfold in_page, page_va, PAGE_OFFSET in Hp. lia.
  - intros j [Hj _]. by apply (Hfree j).
  - intros j y. unfold live_at. rewrite Hu, <- (sim_internal s t rings S1 S2). destruct (decide (j = i /\ y = x)) as [[-> ->]|Hne].
    + split; [auto|]. intros _. split; [done|]. intros Hint. destruct (internal_used _ _ _ _ K Hint) as (j & _ & Hj). by apply (Hfree j).
    + tauto.
Qed.

(** The sizes of the caches, and what [kmalloc_create] makes of them. *)
Lemma small_cache i : (i < 5)%nat -> small_size (2 ^ (5 + Z.of_nat i)) = true.
Proof. intros Hi. do 5 (destruct i as [|i]; [reflexivity|]). lia. Qed.

Lemma large_cache i : (5 <= i < 16)%nat -> small_size (2 ^ (5 + Z.of_nat i)) = false /\ large_size (2 ^ (5 + Z.of_nat i)) = true.
Proof. intros Hi. do 16 (destruct i as [|i]; [try lia; split; reflexivity|]). lia. Qed.

(** The layout of a page of small objects: the objects, the descriptor, the map. *)
Lemma small_layout i va : (i < 5)%nat -> 0 <= va -> va + 2 ^ 21 < 2 ^ 64 ->
  let sz := 2 ^ (5 + Z.of_nat i) in
  let slab := va .+ PAGE_2M_SIZE .- (sizeof_Slab .+ (PAGE_2M_SIZE / sz / 8)) in
  let count := (PAGE_2M_SIZE .- (PAGE_2M_SIZE / sz / 8) .- sizeof_Slab) / sz in
  0 < count <= 65536 /\ va + sz * count <= slab /\ slab .+ sizeof_Slab = slab + 72 /\ slab + 72 < va + 2 ^ 21.
Proof.
  intros Hi Hva Hv sz slab count.
  assert (exists k n, PAGE_2M_SIZE / sz / 8 = k /\ count = n /\ 0 < n <= 65536 /\ 0 < k /\ 72 + k < 2 ^ 21 /\ sz * n + 72 + k <= 2 ^ 21)
    as (k & n & Ek & En & Hn & Hk & Hk' & Hfit).
  { unfold count, sz. clear -Hi. do 5 (destruct i as [|i]; [eexists _, _; split; [reflexivity|]; split; [reflexivity|]; vm_compute; intuition congruence|]). lia. }
  rewrite En. unfold slab. rewrite Ek. unfold sizeof_Slab. change PAGE_2M_SIZE with (2 ^ 21).
  rewrite (u64_small (72 + k)), (u64_small (va + 2 ^ 21)) by lia.
  rewrite (u64_small (va + 2 ^ 21 - _)) by lia. rewrite u64_small by lia. lia.
Qed.

Lemma large_layout i : (5 <= i < 16)%nat ->
  let sz := 2 ^ (5 + Z.of_nat i) in let count := PAGE_2M_SIZE / sz in 0 < count <= 2048 /\ sz * count = 2 ^ 21 /\ color_bytes count <= 256.
Proof.
  intros Hi sz count. unfold count, sz. clear -Hi.
  do 16 (destruct i as [|i]; [try lia; vm_compute; intuition congruence|]). lia.
Qed.

(** The first cache that is large enough. *)
Lemma cache_index_of cs sz k0 n : (n < length cs)%nat -> (forall k c, cs !! k = Some c -> c.(size) = 2 ^ (5 + Z.of_nat (k0 + k))) ->
  sz <= 2 ^ (5 + Z.of_nat (k0 + n)) -> exists i, cache_index cs sz k0 = Some i /\ (k0 <= i <= k0 + n)%nat.
Proof.
  revert k0 n. induction cs as [|c cs IH]; intros k0 n Hn Hs Hsz; cbn in Hn; [lia|]. cbn [cache_index].
  destruct (Z.leb_spec sz c.(size)) as [Hle|Hgt]; [exists k0; split; [done|lia]|].
  destruct n as [|n]; [pose proof (Hs 0%nat c eq_refl) as E; rewrite E in Hgt; lia|].
  destruct (IH (S k0) n) as (i & Ei & Hi); [lia| | |exists i; split; [done|lia]].
  - intros k c' Hk. rewrite (Hs (S k) c' Hk). f_equal. lia.
  - replace (S k0 + n)%nat with (k0 + S n)%nat by lia. done.
Qed.

Lemma cache_for res s rings sz n : kinv res s rings -> sz <= 2 ^ (5 + Z.of_nat n) -> (n < 16)%nat ->
  exists i c, cache_index s.(kmalloc_cache_size) sz 0 = Some i /\ (i <= n)%nat /\ s.(kmalloc_cache_size) !! i = Some c.
Proof.
  intros K Hsz Hn. assert (length s.(kmalloc_cache_size) = 16%nat) as Hl.
  { rewrite <- (length_fmap size), (ki_sizes _ _ _ K). reflexivity. }
  destruct (cache_index_of s.(kmalloc_cache_size) sz 0 n) as (i & Ei & Hi); [lia| |done|].
  - intros k c Hk. cbn. by apply (cache_size_at _ _ _ _ _ K Hk).
  - destruct (lookup_lt_is_Some_2 s.(kmalloc_cache_size) i) as [c Hc]; [lia|]. exists i, c. split_and!; [done|lia|done].
Qed.

(** A cache with a free object: the search finds its slab. *)
Lemma kmalloc_free_ok res s rings i c sz gfp fuel : kinv res s rings -> sz <= 2 ^ 20 ->
  cache_index s.(kmalloc_cache_size) sz 0 = Some i -> s.(kmalloc_cache_size) !! i = Some c -> c.(total_free) <> 0 ->
  exists x s', kmalloc (S fuel) sz gfp s = Some (x, s') /\ effect res (S i) s rings s' rings /\ taken s rings s' rings i x /\ s'.(pm) = s.(pm).
Proof.
  intros K Hsz Hi Hc Hf. pose proof (kinv_cache_ok _ _ _ K i c Hc) as C.
  destruct (find_slab_spec s i c _ C (rings i) (S (base.size s.(snodes))) [] c.(cache_pool)) as (a & Hfs & Ha & Hfree);
    [done|by rewrite <- (ck_free _ _ _ _ C)| |].
  { pose proof (ring_size _ _ _ (ck_ring _ _ _ _ C)). lia. }
  destruct (take_ok res s rings i c a K Hc Ha Hfree) as (x & s' & E & He & Ht & Hp & _). exists x, s'. split; [|done].
  cbn [kmalloc]. rewrite (proj2 (Z.ltb_ge _ _)) by lia. rewrite Hi. cbn [mbind option_bind]. rewrite Hc. cbn [mbind option_bind].
  rewrite (proj2 (Z.eqb_neq _ _) Hf). cbn [negb]. rewrite Hfs. done.
Qed.

(** After the slab is made: it enters the ring, and its first object is taken. *)
Lemma attach_take res s rings i c pg a cm count m : kinv res s rings -> s.(kmalloc_cache_size) !! i = Some c ->
  lent res s rings pg -> 0 < count <= 65536 -> c.(size) * count <= 2 ^ 21 -> fresh_map count = Some m ->
  let b := mkSlab (Some pg) 0 count (page_va pg) (color_bytes count) count cm in
  placed s rings i c b pg a -> placed s rings i c b pg cm -> a <> cm ->
  exists x s' rt, (s0 ← upd_kcache i (cache_grow count) (put_slab a b m s); n ← list_add_to_before c.(cache_pool) a s0.(snodes);
      kmalloc_take i a (set_snodes n s0)) = Some (x, s') /\
    kinv res s' rt /\ (forall j, (S i <= j)%nat -> s'.(kmalloc_cache_size) !! j = s.(kmalloc_cache_size) !! j /\ rt j = rings j) /\
    (forall pg', lent res s rings pg' -> pg' <> pg -> lent res s' rt pg') /\ s'.(pm) = s.(pm) /\
    x <> 0 /\ (forall j, ~ used_at s rings j x) /\
    forall j y, live_at s' rt j y <-> live_at s rings j y /\ ~ ((5 <= i)%nat /\ (y = a \/ y = cm)) \/ (j = i /\ y = x).
Proof.
  intros K Hc Hl Hcnt Hfit Hm b Pa Pm Hne.
  destruct (attach_ok res s rings i c pg a cm count m K Hc Hl Hcnt Hfit Hm Pa Pm Hne) as (n & En & Kt & Ht & Hlt & Hut & Hvt).
  fold b in En, Kt, Ht, Hlt, Hut, Hvt.
  destruct (take_ok res _ _ i (cache_grow count c) a Kt (proj1 Ht) (proj1 (proj2 Ht))) as (x & s' & E & [K' Ho' Hl'] & (Hx1 & _ & Hx3) & Hp & Hx2).
  { unfold free_of. rewrite (proj2 (proj2 Ht)). cbn. lia. }
  exists x, s', (with_ring i (rings i ++ [a]) rings). split.
  { unfold upd_kcache. change (kmalloc_cache_size (put_slab a b m s)) with (kmalloc_cache_size s). rewrite Hc. cbn [mbind option_bind].
    rewrite En. cbn [mbind option_bind]. exact E. }
  split_and!; try done.
  - intros j Hj. destruct (Ho' j Hj) as [-> _]. split; [|unfold with_ring; by rewrite decide_False by lia].
    cbn. by rewrite list_lookup_insert_ne by lia.
  - intros pg' H1 H2. by apply Hl', Hlt.
  - intros j Hj. by apply (Hx2 j), Hut.
  - intros j y. by rewrite Hx3, Hvt.
Qed.

(** [kmalloc] when the cache is full. *)
Lemma kmalloc_full fuel s sz gfp i c : sz <= 2 ^ 20 -> cache_index s.(kmalloc_cache_size) sz 0 = Some i ->
  s.(kmalloc_cache_size) !! i = Some c -> c.(total_free) = 0 ->
  kmalloc (S fuel) sz gfp s =
    (r ← kmalloc_create_with (kmalloc fuel) c.(size) s;
     let '(slab, s) := r in
     if slab =? 0 then Some (0, s)
     else
       b ← s.(slabs) !! slab;
       s ← upd_kcache i (cache_grow b.(color_count)) s;
       n ← list_add_to_before c.(cache_pool) slab s.(snodes);
       kmalloc_take i slab (set_snodes n s)).
Proof.
  intros Hsz Hi Hc Hf. cbn [kmalloc]. rewrite (proj2 (Z.ltb_ge _ _)) by lia. rewrite Hi. cbn [mbind option_bind].
  rewrite Hc. cbn [mbind option_bind]. rewrite Hf. reflexivity.
Qed.

(** What [kmalloc] does when it makes a slab whose descriptor and map are at [a] and [cm]. *)
Lemma kmalloc_attach fuel res s i c sz gfp s0 rings0 pg a cm count m :
  sz <= 2 ^ 20 -> cache_index s.(kmalloc_cache_size) sz 0 = Some i -> s.(kmalloc_cache_size) !! i = Some c -> c.(total_free) = 0 ->
  let b := mkSlab (Some pg) 0 count (page_va pg) (color_bytes count) count cm in
  kmalloc_create_with (kmalloc fuel) c.(size) s = Some (a, put_slab a b m s0) ->
  kinv res s0 rings0 -> s0.(kmalloc_cache_size) !! i = Some c -> a <> 0 ->
  lent res s0 rings0 pg -> 0 < count <= 65536 -> c.(size) * count <= 2 ^ 21 -> fresh_map count = Some m ->
  placed s0 rings0 i c b pg a -> placed s0 rings0 i c b pg cm -> a <> cm ->
  exists x s' rt, kmalloc (S fuel) sz gfp s = Some (x, s') /\
    kinv res s' rt /\ (forall j, (S i <= j)%nat -> s'.(kmalloc_cache_size) !! j = s0.(kmalloc_cache_size) !! j /\ rt j = rings0 j) /\
    (forall pg', lent res s0 rings0 pg' -> pg' <> pg -> lent res s' rt pg') /\ s'.(pm) = s0.(pm) /\
    x <> 0 /\ (forall j, ~ used_at s0 rings0 j x) /\
    forall j y, live_at s' rt j y <-> live_at s0 rings0 j y /\ ~ ((5 <= i)%nat /\ (y = a \/ y = cm)) \/ (j = i /\ y = x).
Proof.
  intros Hsz Hi Hc Hf b Ec K Hc0 Ha Hl Hcnt Hfit Hm Pa Pm Hne.
  destruct (attach_take res s0 rings0 i c pg a cm count m K Hc0 Hl Hcnt Hfit Hm Pa Pm Hne) as (x & s' & rt & E & Hrest).
  exists x, s', rt. split; [|exact Hrest].
  rewrite (kmalloc_full fuel s sz gfp i c Hsz Hi Hc Hf), Ec. cbn [mbind option_bind]. rewrite (proj2 (Z.eqb_neq _ _) Ha).
  assert (slabs (put_slab a b m s0) !! a = Some b) as -> by (cbn; by rewrite lookup_insert_eq).
  cbn [mbind option_bind]. exact E.
Qed.

(** [kmalloc] of a small object: it succeeds when there is a page. *)
Lemma kmalloc_small res s rings sz gfp i fuel : kinv res s rings -> sz <= 2 ^ 20 ->
  cache_index s.(kmalloc_cache_size) sz 0 = Some i -> (i < 5)%nat ->
  kmalloc (S fuel) sz gfp s = Some (0, s) /\ (forall n, ~ has_pages s.(pm) (S n)) \/
  exists x s' rings', kmalloc (S fuel) sz gfp s = Some (x, s') /\ effect res (S i) s rings s' rings' /\ taken s rings s' rings' i x /\
    forall n, has_pages s.(pm) (S n) -> has_pages s'.(pm) n.
Proof.
  intros K Hsz Hi Hi5. destruct (cache_index_spec _ _ _ _ Hi) as (_ & c & Hc & _). rewrite Nat.sub_0_r in Hc.
  destruct (decide (c.(total_free) = 0)) as [Hf|Hf].
  - destruct (cache_size_at _ _ _ _ _ K Hc) as [_ Es].
    destruct (create_page_ok res s rings K) as [[Ep Hn]|(pg & p & Ep & Kp & Hl & Hlo & Hpages)].
    + left. split; [|done]. rewrite (kmalloc_full fuel s sz gfp i c Hsz Hi Hc Hf). unfold kmalloc_create_with. by rewrite Ep.
    + right. assert (0 <= page_va pg /\ page_va pg + 2 ^ 21 < 2 ^ 64) as [V1 V2].
      { destruct Hl as ((Hb & _) & _). pose proof (po_bits _ (ki_pm _ _ _ Kp)). unfold page_va, PAGE_OFFSET. lia. }
      destruct (small_layout i (page_va pg) Hi5 V1 V2) as (L1 & L2 & L3 & L4). rewrite <- Es in L1, L2, L3, L4.
      set (count := (PAGE_2M_SIZE .- (PAGE_2M_SIZE / c.(size) / 8) .- sizeof_Slab) / c.(size)) in *.
      set (a := page_va pg .+ PAGE_2M_SIZE .- (sizeof_Slab .+ (PAGE_2M_SIZE / c.(size) / 8))) in *.
      destruct (fresh_map_spec count ltac:(lia)) as (m & Em & _).
      assert (0 < c.(size)) as Hpos by (rewrite Es; apply Z.pow_pos_nonneg; lia).
      destruct (kmalloc_attach fuel res s i c sz gfp (set_pm p s) rings pg a (a .+ sizeof_Slab) count m Hsz Hi Hc Hf)
        as (x & s' & rt & E & Kr & Ho & Hlr & Hpm & Hx & Hu & Hv); try done.
      * unfold kmalloc_create_with. rewrite Ep. cbn [mbind option_bind]. rewrite Es, (small_cache i Hi5), <- Es.
        fold count a. rewrite Em. reflexivity.
      * unfold page_va, PAGE_OFFSET in *. nia.
      * lia.
      * left. split; [done|]. cbn. lia.
      * left. split; [done|]. cbn. lia.
      * lia.
      * exists x, s', rt. split; [exact E|]. split; [constructor|split; [split_and!|]].
        -- done.
        -- done.
        -- intros pg' Hpg'. destruct (Hlo pg' Hpg'). by apply Hlr.
        -- done.
        -- intros j [Hj _]. by apply (Hu j).
        -- intros j y. rewrite Hv. split; [intros [[? _]|?]; [by left|by right]|]. intros [Hy|?]; [left|by right].
           split; [exact Hy|]. lia.
        -- intros n Hn. rewrite Hpm. by apply Hpages.
  - right. destruct (kmalloc_free_ok res s rings i c sz gfp fuel K Hsz Hi Hc Hf) as (x & s' & E & He & Ht & Hp).
    exists x, s', rings. split_and!; try done; try apply Ht. intros n Hn. rewrite Hp. by apply (has_pages_less _ n (S n)); [lia|].
Qed.

Lemma effect_less res n n' s r s' r' : (n <= n')%nat -> effect res n s r s' r' -> effect res n' s r s' r'.
Proof. intros Hn [E1 E2 E3]. constructor; [done| |done]. intros j Hj. apply E2. lia. Qed.

(** [kmalloc_create] for a large cache, after it has its page. *)
Lemma create_large km sz s pg va s1 : create_page s = Some (Some (pg, va), s1) -> small_size sz = false -> large_size sz = true ->
  kmalloc_create_with km sz s =
    (r ← km sizeof_Slab 0 s1;
     let '(slab, s) := r in
     _ ← guard_fault (negb (slab =? 0));
     r ← km (color_bytes (PAGE_2M_SIZE / sz)) 0 s;
     let '(map, s) := r in
     _ ← guard_fault (negb (map =? 0));
     m ← fresh_map (PAGE_2M_SIZE / sz);
     Some (slab, put_slab slab (mkSlab (Some pg) 0 (PAGE_2M_SIZE / sz) va (color_bytes (PAGE_2M_SIZE / sz))
       (PAGE_2M_SIZE / sz) map) m s)).
Proof. intros E E1 E2. unfold kmalloc_create_with. by rewrite E, E1, E2. Qed.

(** [kmalloc] of any object. *)
Lemma kmalloc_any res s rings sz gfp fuel : kinv res s rings ->
  match kmalloc (S (S fuel)) sz gfp s with
  | None => sz <= 2 ^ 20 /\ ~ has_pages s.(pm) 3
  | Some (x, s') => x = 0 /\ s' = s /\ (sz <= 2 ^ 20 -> ~ has_pages s.(pm) 3) \/
      exists i rings', sz <= 2 ^ 20 /\ cache_index s.(kmalloc_cache_size) sz 0 = Some i /\ kinv res s' rings' /\ taken s rings s' rings' i x /\
        (forall pg, lent res s rings pg -> lent res s' rings' pg) /\
        forall n, has_pages s.(pm) (3 + n) -> has_pages s'.(pm) n
  end.
Proof.
  intros K. destruct (decide (sz <= 2 ^ 20)) as [Hsz|Hsz].
  2:{ cbn [kmalloc]. rewrite (proj2 (Z.ltb_lt _ _)) by lia. left. split_and!; [done|done|lia]. }
  destruct (cache_for res s rings sz 15 K Hsz ltac:(lia)) as (i & c & Hi & Hi15 & Hc).
  destruct (decide (i < 5)%nat) as [Hi5|Hi5].
  { destruct (kmalloc_small res s rings sz gfp i (S fuel) K Hsz Hi Hi5) as [[-> Hn]|(x & s' & rings' & -> & He & Ht & Hp)].
    - left. split_and!; [done|done|]. intros _. apply Hn.
    - right. exists i, rings'. split_and!; try done; try apply He; try apply Ht.
      intros n Hn. apply Hp. apply (has_pages_less _ _ (3 + n)); [lia|done]. }
  destruct (decide (c.(total_free) = 0)) as [Hf|Hf].
  2:{ destruct (kmalloc_free_ok res s rings i c sz gfp (S fuel) K Hsz Hi Hc Hf) as (x & s' & -> & He & Ht & Hp).
      right. exists i, rings. split_and!; try done; try apply He; try apply Ht.
      intros n Hn. rewrite Hp. by apply (has_pages_less _ n (3 + n)); [lia|]. }
  destruct (cache_size_at _ _ _ _ _ K Hc) as [Hi16 Es].
  destruct (large_cache i ltac:(lia)) as [Lc1 Lc2]. destruct (large_layout i ltac:(lia)) as (L1 & L2 & L3). rewrite <- Es in Lc1, Lc2, L1, L2, L3.
  set (count := PAGE_2M_SIZE / c.(size)) in *.
  pose proof (kmalloc_full (S fuel) s sz gfp i c Hsz Hi Hc Hf) as Ek.
  destruct (create_page_ok res s rings K) as [[Ep Hn]|(pg & p & Ep & Kp & Hl & Hlo & Hpages)].
  { assert (kmalloc_create_with (kmalloc (S fuel)) c.(size) s = Some (0, s)) as Ec by (unfold kmalloc_create_with; by rewrite Ep).
    rewrite Ek, Ec. left. split_and!; [done|done|intros _; apply Hn]. }
  pose proof (create_large (kmalloc (S fuel)) _ _ _ _ _ Ep Lc1 Lc2) as Ec. set (s1 := set_pm p s) in *. fold count in Ec.
  (* the descriptor *)
  destruct (cache_for res s1 rings sizeof_Slab 4 Kp) as (i1 & c1 & Hi1 & Hi14 & _); [vm_compute; congruence|lia|].
  destruct (kmalloc_small res s1 rings sizeof_Slab 0 i1 fuel Kp ltac:(vm_compute; congruence) Hi1 ltac:(lia))
    as [[E1 Hn]|(a & s2 & r2 & E1 & He1 & (Ha0 & Hau & Hav) & Hp1)].
  { rewrite E1 in Ec. cbn [mbind option_bind Z.eqb negb guard_fault] in Ec. rewrite Ek, Ec. split; [done|].
    intros H3. apply (Hn 1%nat). by apply Hpages. }
  rewrite E1 in Ec. cbn [mbind option_bind] in Ec. rewrite (proj2 (Z.eqb_neq _ _) Ha0) in Ec. cbn [negb guard_fault mbind option_bind] in Ec.
  (* the map *)
  pose proof (ef_kinv _ _ _ _ _ _ He1) as K2.
  destruct (cache_for res s2 r2 (color_bytes count) 4 K2) as (i2 & c2 & Hi2 & Hi24 & _); [cbn; lia|lia|].
  destruct (kmalloc_small res s2 r2 (color_bytes count) 0 i2 fuel K2 ltac:(lia) Hi2 ltac:(lia))
    as [[E2 Hn]|(cm & s3 & r3 & E2 & He2 & (Hm0 & Hmu & Hmv) & Hp2)].
  { rewrite E2 in Ec. cbn [mbind option_bind Z.eqb negb guard_fault] in Ec. rewrite Ek, Ec. split; [done|].
    intros H3. apply (Hn 0%nat), Hp1. by apply Hpages. }
  rewrite E2 in Ec. cbn [mbind option_bind] in Ec. rewrite (proj2 (Z.eqb_neq _ _) Hm0) in Ec. cbn [negb guard_fault mbind option_bind] in Ec.
  destruct (fresh_map_spec count ltac:(lia)) as (m & Em & _). rewrite Em in Ec. cbn [mbind option_bind] in Ec.
  assert (S i1 <= 5 /\ S i2 <= 5)%nat as [I1 I2] by lia.
  destruct (effect_trans _ _ _ _ _ _ _ _ (effect_less _ _ _ _ _ _ _ I1 He1) (effect_less _ _ _ _ _ _ _ I2 He2)) as [K3 Ho3 Hl3].
  assert (live_at s2 r2 i1 a) as Hla by (apply Hav; by right).
  assert (cm <> a) as Hne. { intros ->. by apply (Hmu i1), Hla. }
  (* the new slab *)
  destruct (kmalloc_attach (S fuel) res s i c sz gfp s3 r3 pg a cm count m Hsz Hi Hc Hf Ec K3)
    as (x & s' & rt & E & Kr & Ho & Hlr & Hpm & Hx & Hu & Hv); try done; try lia.
  - destruct (Ho3 i ltac:(lia)) as [-> _]. done.
  - by apply Hl3.
  - right. split; [lia|]. exists i1. split; [lia|]. apply Hmv. by left.
  - right. split; [lia|]. exists i2. split; [lia|]. apply Hmv. by right.
  - rewrite E. right. exists i, rt. split; [done|]. split; [done|]. split; [done|]. split; [split; [done|]; split|split].
    + intros j Hj. assert (live_at s3 r3 j x) as [Hj' _] by (apply Hmv; left; apply Hav; by left). by apply (Hu j).
    + intros j y. rewrite Hv, Hmv, Hav. change (live_at s1 rings j y) with (live_at s rings j y).
      assert (forall j, live_at s rings j a -> False) as Na by (intros j' Hj'; by apply (Hau j')).
      assert (forall j, live_at s rings j cm -> False) as Nm by (intros j' Hj'; apply (Hmu j'), Hav; by left).
      split; [intros [[[[Hy|[-> ->]]|[-> ->]] Hn]|Hy]; [by left|exfalso; apply Hn; split; [lia|by left]|exfalso; apply Hn; split; [lia|by right]|by right]|].
      intros [Hy|Hy]; [left|by right]. split; [by do 2 left|]. intros [_ [-> | ->]]; [by apply (Na j)|by apply (Nm j)].
    + intros pg' Hpg'. destruct (Hlo pg' Hpg') as [H1 H2]. apply Hlr; [by apply Hl3|done].
    + intros n Hn. rewrite Hpm. apply Hp2, Hp1. by apply Hpages.
Qed.

(** ** kfree *)

(** [x] is no longer in use. *)
Definition freed (s : kmem) (rings : nat -> list Z) (s' : kmem) (rings' : nat -> list Z) (x : Z) : Prop :=
  forall j y, live_at s' rings' j y <-> live_at s rings j y /\ y <> x.

(** [kfree] finds the object and marks it free. *)
Lemma mark_ok res s rings i x o : kinv res s rings -> live_at s rings i x -> 0 <= o < 2 ^ (5 + Z.of_nat i) ->
  exists a b c k s1, find_caches s s.(kmalloc_cache_size) 0 ((x + o) .& PAGE_2M_MASK) = Some (Some (i, a)) /\
    slab_of s rings i c a b /\ i32 (((x + o) .- b.(Vaddress)) / c.(size)) = k /\ kfree_mark i a k s = Some s1 /\
    slab_of s1 rings i (cache_use (-1) c) a (slab_use (-1) b) /\
    effect res (S i) s rings s1 rings /\ freed s rings s1 rings x /\ s1.(pm) = s.(pm).
Proof.
  intros K [(c & a & b & m & k & H & Hm & Hk & Hbit & ->) Hint] Ho. pose proof H as (Hc & Ha & Hb).
  destruct (cache_size_at _ _ _ _ _ K Hc) as [Hi16 Es].
  assert (0 < c.(size)) as Hpos by (rewrite Es; apply Z.pow_pos_nonneg; lia).
  destruct (sg_count _ _ _ _ _ (ki_slab _ _ _ K _ _ _ _ H)) as [Hcnt Hfit].
  destruct (slab_va _ _ _ K _ _ _ _ H) as (pg & Ep & Ev & Hpg & _).
  rewrite <- Es in Ho. assert (0 <= size c * k + o < 2 ^ 21) as Hoff by nia.
  assert (Vaddress b = 2 ^ 21 * (0x7fffc000000 + pg) /\ 0 <= Vaddress b /\ Vaddress b + 2 ^ 21 < 2 ^ 64) as (V1 & V2 & V3).
  { rewrite Ev. unfold page_va, PAGE_OFFSET. lia. }
  assert (slab_inv s a b m) as Hi.
  { destruct (sg_inv _ _ _ _ _ (ki_slab _ _ _ K _ _ _ _ H)) as [m0 M]. pose proof (sl_map _ _ _ _ M). congruence. }
  assert (0 <= k < bm_bits m) as Hkb by (destruct (sl_size _ _ _ _ Hi) as [Hz _]; lia).
  destruct (bm_xor_some m k Hkb) as [m' Hm'].
  assert (forall j, 0 <= j -> bm_get m' j = if decide (k = j) then bool_decide (-1 = 1) else bm_get m j) as Hget.
  { intros j Hj. rewrite (bm_xor_get _ _ _ j Hm') by lia. rewrite (bool_decide_eq_false_2 (-1 = 1)) by lia.
    destruct (decide (k = j)) as [<-|Hne]; [rewrite bool_decide_eq_true_2, Hbit by done; done|].
    rewrite bool_decide_eq_false_2 by congruence. apply xorb_false_r. }
  assert (length m' = length m) as Hlen by (by rewrite (bm_xor_length _ _ _ Hm')).
  assert (bm_ok m') as Hok by (eapply bm_xor_ok; [exact Hm'|apply Hi]).
  assert (bm_get m k = bool_decide (-1 = -1)) as Hold by (by rewrite bool_decide_eq_true_2).
  set (x := Vaddress b + size c * k) in *. set (t := used (-1) i a b m' c s).
  pose proof (used_ok res s rings K i c a b m m' (-1) k H Hm (or_intror eq_refl) Hk Hold Hlen Hok Hget (fun _ => Hint)) as K'.
  pose proof (used_used_at res s rings K i c a b m m' (-1) k H Hm (or_intror eq_refl) Hk Hold Hlen Hok Hget) as Hu.
  destruct (used_sim s rings i c a b m' (-1) H) as [S1 S2]. fold t in K', Hu, S1, S2. fold x in Hu.
  exists a, b, c, k, t. split; [|split; [exact H|split; [|split; [|split; [|split; [|split; [|done]]]]]]].
  - unfold x. rewrite <- Z.add_assoc. rewrite (object_page (0x7fffc000000 + pg)) by done.
    replace (Vaddress b) with (vaddr s a) by (unfold vaddr; by rewrite Hb).
    apply (find_caches_spec s s rings i c a (kinv_kmem_ok _ _ _ K) Hc Ha); try done.
    + intros n c' Hn. by exists c'.
    + apply lookup_lt_Some in Hc. lia.
  - unfold x. replace (Vaddress b + size c * k + o - Vaddress b) with (size c * k + o) by lia. rewrite u64_small by lia.
    rewrite (Z.mul_comm (size c)), Z.div_add_l, Z.div_small by lia. rewrite Z.add_0_r. apply i32_small. lia.
  - unfold kfree_mark, upd_slab, upd_kcache. rewrite Hb. cbn [mbind option_bind]. rewrite Hm. cbn [mbind option_bind].
    rewrite Hm'. cbn [mbind option_bind]. change (slabs (set_maps _ s)) with (slabs s). rewrite Hb. cbn [mbind option_bind].
    change (kmalloc_cache_size (set_slabs _ _)) with (kmalloc_cache_size s). rewrite Hc. done.
  - apply (used_slab_of s rings i c a b m' (-1) H). exists c, b. by rewrite !decide_True.
  - constructor; [done| |].
    + intros j Hj. split; [|done]. cbn. rewrite list_lookup_insert_ne by lia. done.
    + intros pg' Hl. apply (sim_lent res s t rings S2); [apply Hl|done].
  - intros j y. unfold live_at. rewrite Hu, <- (sim_internal s t rings S1 S2).
    destruct (decide (j = i /\ y = x)) as [[-> ->]|Hne].
    + split; [intros [? _]; lia|intros [_ Hy]; by destruct Hy].
    + split; [|tauto]. intros [Hy Hy']. split; [done|]. intros ->. apply Hne. split; [|done].
      assert (used_at s rings i x) as Hx by (by exists c, a, b, m, k). by apply (used_fun _ _ _ _ _ _ K Hy Hx).
Qed.

(** A page nobody holds is given back. *)
Lemma drop_ok res s rings pg : kinv res s rings -> lent res s rings pg ->
  exists p, drop_page (Some pg) s = Some (set_pm p s) /\ kinv res (set_pm p s) rings /\
    (forall pg', lent res s rings pg' -> pg' <> pg -> lent res (set_pm p s) rings pg') /\
    (forall n, has_pages s.(pm) n -> has_pages p n).
Proof.
  intros K Hl. destruct (drop_page_ok s.(pm) pg (ki_pm _ _ _ K) (proj1 Hl)) as (p & p' & Ec & Ef & S & Kp & _).
  exists p'. unfold drop_page. cbn [mbind option_bind]. rewrite Ec. cbn [mbind option_bind snd]. rewrite Ef. cbn [mbind option_bind].
  destruct (page_given res s rings pg p' K Hl S Kp) as [K' Hlo]. split_and!; [done|done|done|].
  intros n. by apply (has_pages_give pg).
Qed.

(** [kfree] after the object was marked: the slab is kept, or it is taken out of the ring. *)
Lemma kfree_marked fuel s i a b c k s1 x c1 b1 : find_caches s s.(kmalloc_cache_size) 0 (x .& PAGE_2M_MASK) = Some (Some (i, a)) ->
  s.(slabs) !! a = Some b -> s.(kmalloc_cache_size) !! i = Some c -> i32 ((x .- b.(Vaddress)) / c.(size)) = k ->
  kfree_mark i a k s = Some s1 -> s1.(slabs) !! a = Some b1 -> s1.(kmalloc_cache_size) !! i = Some c1 ->
  kfree (S fuel) x s =
    if (b1.(using_count) =? 0) && ((b1.(color_count) .* 3) / 2 <=? c1.(total_free)) && negb (c1.(cache_pool) =? a) then
      n ← list_del a s1.(snodes);
      s ← upd_kcache i (cache_grow (- b1.(color_count))) (set_snodes n s1);
      if small_size c1.(size) then
        s ← drop_page b1.(page) s; Some (1, s)
      else
        r ← kfree fuel b1.(color_map) s;
        s ← drop_page b1.(page) (snd r);
        r ← kfree fuel a s;
        Some (1, snd r)
    else Some (1, s1).
Proof.
  intros E1 E2 E3 E4 E5 E6 E7. cbn [kfree]. rewrite E1. cbn [mbind option_bind]. rewrite E2. cbn [mbind option_bind].
  rewrite E3. cbn [mbind option_bind]. rewrite E4, E5. cbn [mbind option_bind]. rewrite E6. cbn [mbind option_bind].
  rewrite E7. reflexivity.
Qed.

Lemma kfree_small res s rings i x o fuel : kinv res s rings -> live_at s rings i x -> 0 <= o < 2 ^ (5 + Z.of_nat i) -> (i < 5)%nat ->
  exists s' rings', kfree (S fuel) (x + o) s = Some (1, s') /\ effect res (S i) s rings s' rings' /\ freed s rings s' rings' x /\
    forall n, has_pages s.(pm) n -> has_pages s'.(pm) n.
Proof.
  intros K Hx Ho Hi. destruct (mark_ok res s rings i x o K Hx Ho) as (a & b & c & k & s1 & E1 & H & E2 & E3 & H1 & [K1 Ho1 Hl1] & Hf1 & Hp1).
  rewrite (kfree_marked fuel s i a b c k s1 (x + o) _ _ E1 (proj2 (proj2 H)) (proj1 H) E2 E3 (proj2 (proj2 H1)) (proj1 H1)).
  set (b1 := slab_use (-1) b) in *. set (c1 := cache_use (-1) c) in *.
  destruct (_ && _) eqn:Eb; [|exists s1, rings; split_and!; try done; by rewrite Hp1].
  apply andb_true_iff in Eb as [Eb Hpool]. apply andb_true_iff in Eb as [Hu0 _]. apply Z.eqb_eq in Hu0.
  apply negb_true_iff, Z.eqb_neq in Hpool.
  assert (a ∈ rings i) as Ha by (destruct H1 as (_ & Ha & _); apply elem_of_cons in Ha as [->|]; done).
  destruct (detach_ok res s1 rings i c1 a b1 K1 H1 Ha Hu0) as (n & pg & En & Epg & _ & rt & Hro & Kt & Hlt & _ & Hvt).
  rewrite En. cbn [mbind option_bind]. unfold upd_kcache at 1. change (kmalloc_cache_size (set_snodes n s1)) with (kmalloc_cache_size s1).
  rewrite (proj1 H1). cbn [mbind option_bind]. set (t := set_kcaches _ _) in *.
  destruct (cache_size_at _ _ _ _ _ K1 (proj1 H1)) as [_ ->]. rewrite (small_cache i Hi), Epg.
  destruct (drop_ok res t rt pg Kt) as (p & Ed & Kp & Hlp & Hpages); [apply Hlt; by right|].
  rewrite Ed. cbn [mbind option_bind]. exists (set_pm p t), rt. split; [done|]. split; [constructor|split].
  - done.
  - intros j Hj. destruct (Ho1 j Hj) as [<- _]. split; [|apply Hro; lia]. cbn. by rewrite list_lookup_insert_ne by lia.
  - intros pg' Hpg'. apply Hl1 in Hpg'. apply Hlp; [apply Hlt; by left|]. intros ->.
    destruct Hpg' as (_ & _ & Hno). by apply (Hno _ _ _ _ H1).
  - intros j y. change (live_at (set_pm p t) rt j y) with (live_at t rt j y). rewrite Hvt, (Hf1 j y).
    split; [intros [Hy|(_ & ? & _)]; [done|lia]|by left].
  - intros m Hm. apply Hpages. change (pm t) with (pm s1). by rewrite Hp1.
Qed.

(** [kfree] of any object. *)
Lemma kfree_any res s rings i x o fuel : kinv res s rings -> live_at s rings i x -> 0 <= o < 2 ^ (5 + Z.of_nat i) ->
  exists s' rings', kfree (S (S fuel)) (x + o) s = Some (1, s') /\ kinv res s' rings' /\ freed s rings s' rings' x /\
    (forall pg, lent res s rings pg -> lent res s' rings' pg) /\ forall n, has_pages s.(pm) n -> has_pages s'.(pm) n.
Proof.
  intros K Hx Ho. destruct (decide (i < 5)%nat) as [Hi|Hi].
  { destruct (kfree_small res s rings i x o (S fuel) K Hx Ho Hi) as (s' & rings' & E & [E1 _ E2] & Hf & Hp). by exists s', rings'. }
  destruct (mark_ok res s rings i x o K Hx Ho) as (a & b & c & k & s1 & E1 & H & E2 & E3 & H1 & [K1 Ho1 Hl1] & Hf1 & Hp1).
  rewrite (kfree_marked (S fuel) s i a b c k s1 (x + o) _ _ E1 (proj2 (proj2 H)) (proj1 H) E2 E3 (proj2 (proj2 H1)) (proj1 H1)).
  set (b1 := slab_use (-1) b) in *. set (c1 := cache_use (-1) c) in *.
  destruct (_ && _) eqn:Eb; [|exists s1, rings; split_and!; try done; by rewrite Hp1].
  apply andb_true_iff in Eb as [Eb Hpool]. apply andb_true_iff in Eb as [Hu0 _]. apply Z.eqb_eq in Hu0.
  apply negb_true_iff, Z.eqb_neq in Hpool.
  assert (a ∈ rings i) as Ha by (destruct H1 as (_ & Ha & _); apply elem_of_cons in Ha as [->|]; done).
  destruct (detach_ok res s1 rings i c1 a b1 K1 H1 Ha Hu0) as (n & pg & En & Epg & _ & rt & Hro & Kt & Hlt & _ & Hvt).
  rewrite En. cbn [mbind option_bind]. unfold upd_kcache at 1. change (kmalloc_cache_size (set_snodes n s1)) with (kmalloc_cache_size s1).
  rewrite (proj1 H1). cbn [mbind option_bind]. set (t := set_kcaches _ _) in *.
  destruct (cache_size_at _ _ _ _ _ K1 (proj1 H1)) as [Hi16 ->].
  destruct (large_cache i ltac:(lia)) as [-> _]. rewrite Epg.
  assert (forall q, exists i', (i' < 5)%nat /\ used_at s1 rings i' (slot q a b1)) as Hslot.
  { intros q. destruct (ki_kind _ _ _ K1 _ _ _ _ q H1) as [(-> & _)|[(_ & ? & _)|(_ & _ & Hq)]]; [done|lia|done]. }
  assert (forall q j, ~ live_at s1 rings j (slot q a b1)) as Hdead.
  { intros q j [_ Hn]. apply Hn. exists i, c1, a, b1, q. split_and!; [apply H1..|lia|done|done]. }
  assert (a <> b1.(color_map)) as Hne.
  { intros E. by destruct (ki_slots _ _ _ K1 _ _ _ _ true _ _ _ _ false H1 H1 E) as (_ & _ & ?). }
  destruct (Hslot false) as (i1 & Hi1 & Hu1), (Hslot true) as (i2 & Hi2 & Hu2). cbn [slot] in Hu1, Hu2.
  destruct (kfree_small res t rt i1 b1.(color_map) 0 fuel Kt) as (t2 & r2 & E4 & [K2 _ Hl2] & Hf2 & Hp2); [|lia|done|].
  { apply Hvt. right. split_and!; [done|lia|by right]. }
  rewrite Z.add_0_r in E4. rewrite E4. cbn [mbind option_bind snd].
  destruct (drop_ok res t2 r2 pg K2) as (p & -> & K3 & Hl3 & Hp3); [apply Hl2, Hlt; by right|]. cbn [mbind option_bind].
  destruct (kfree_small res (set_pm p t2) r2 i2 a 0 fuel K3) as (t4 & r4 & E5 & [K4 _ Hl4] & Hf4 & Hp4); [|lia|done|].
  { change (live_at t2 r2 i2 a). apply Hf2. split; [|done]. apply Hvt. right. split_and!; [done|lia|by left]. }
  rewrite Z.add_0_r in E5. rewrite E5. cbn [mbind option_bind snd]. exists t4, r4. split_and!; try done.
  - intros j y. rewrite (Hf4 j y). change (live_at (set_pm p t2) r2 j y) with (live_at t2 r2 j y). rewrite (Hf2 j y), Hvt. split.
    + intros [[[Hy|(Hy & _ & [->| ->])] ?] ?]; [by apply Hf1|done|done].
    + intros Hy. apply Hf1 in Hy. split_and!; [by left| |]; intros ->; [by apply (Hdead false j)|by apply (Hdead true j)].
  - intros pg' Hpg'. apply Hl1 in Hpg'. apply Hl4, Hl3; [apply Hl2, Hlt; by left|]. intros ->.
    destruct Hpg' as (_ & _ & Hno). by apply (Hno _ _ _ _ H1).
  - intros m Hm. apply Hp4, Hp3, Hp2. change (pm t) with (pm s1). by rewrite Hp1.
Qed.

(** ** Addresses outside of the slabs *)

Lemma find_caches_none res s rings base : kinv res s rings ->
  (forall i c a b, slab_of s rings i c a b -> b.(Vaddress) <> base) ->
  forall cs k, (forall n c, cs !! n = Some c -> s.(kmalloc_cache_size) !! (k + n)%nat = Some c) -> find_caches s cs k base = Some None.
Proof.
  intros K Hno. induction cs as [|c cs IH]; intros k Hcs; [done|]. cbn [find_caches].
  pose proof (Hcs 0%nat c eq_refl) as Hc. rewrite Nat.add_0_r in Hc. pose proof (kinv_cache_ok _ _ _ K k c Hc) as C.
  rewrite (find_owner_spec s c.(cache_pool) (rings k) (ck_ring _ _ _ _ C) (ck_null _ _ _ _ C)) with (rest := rings k) (pre := []).
  - cbn [mbind option_bind]. rewrite (proj2 (find_none_iff _ _)).
    + apply IH. intros n d Hd. replace (S k + n)%nat with (k + S n)%nat by lia. by apply Hcs.
    + intros a Ha. destruct (kinv_slab res s rings K k c a Hc Ha) as (b & H & _). apply Z.eqb_neq. unfold vaddr.
      rewrite (proj2 (proj2 H)). by apply (Hno _ _ _ _ H).
  - intros a Ha. destruct (kinv_slab res s rings K k c a Hc Ha) as (b & H & _). exists b. apply H.
  - done.
  - pose proof (ring_size _ _ _ (ck_ring _ _ _ _ C)). lia.
Qed.

(** [kfree] of an address in the kernel's own pages changes nothing and reports so. *)
Lemma kfree_outside res s rings x pg fuel : kinv res s rings -> res pg -> in_page pg x -> kfree (S fuel) x s = Some (0, s).
Proof.
  intros K Hr Hx. destruct (ki_res _ _ _ K pg Hr) as [Hb _]. pose proof (po_bits _ (ki_pm _ _ _ K)) as Hm. unfold in_page in Hx.
  assert (x .& PAGE_2M_MASK = page_va pg) as E.
  { replace x with (page_va pg + (x - page_va pg)) by lia. apply (object_page (0x7fffc000000 + pg)); unfold page_va, PAGE_OFFSET in *; lia. }
  cbn [kfree]. rewrite E, (find_caches_none res s rings); [done|done| |done].
  intros i c a b H Ev. destruct (slab_va _ _ _ K _ _ _ _ H) as (p & _ & Ep & _ & _ & Hn). apply Hn.
  replace p with pg; [done|]. unfold page_va in *. lia.
Qed.
