(* ===== verification/Kinit.v ===== *)
(** * The allocator after the start (memory.c)

    [slab_init] builds the sixteen caches with a pool each.  It establishes the invariant of [Kheap]
    when the structures it carves fit in the page where they begin and the sixteen pages behind that
    page are free. *)

From S2P Require Import Prelude Bitmap Klist PageAlloc OnePage Slab Alloc Kheap.

(** ** One page is reserved *)

Lemma touched_paged pg s t i d : touched pg s t -> paged s i d -> exists d', paged t i d'.
Proof.
  intros T (Hp & Ha & k & z & Hk & Hz & Hin). destruct (to_pages _ _ _ T i d Hp) as (d' & Hp' & Ez & Ea & _).
  destruct (to_zones _ _ _ T k z Hz) as (z' & Hz' & E1 & E2 & _). exists d'. split_and!; [done|by rewrite Ea|].
  exists k, z'. split_and!; [by rewrite Ez|done|]. unfold zin, zstart, zstop in *. by rewrite E1, E2.
Qed.

(** The body of the page loops of [slab_init], on a free page. *)
Lemma reserve_ok s pg : pmm_ok s -> free s pg ->
  exists t, slab_reserve pg s = Some t /\ shift true pg s t /\ pmm_ok t /\ held t pg.
Proof.
  intros K Hf. destruct (po_page s K pg Hf) as (d & Hpd). pose proof Hpd as (Hd & Hphy & k & z & Hk & Hz & Hin). destruct Hf as [Hpg Hbit].
  destruct (paged_kernel s pg d K Hpd Hpg) as [_ Hpb].
  destruct (bm_or_some s.(bits_map) pg Hpg) as [m Hm].
  set (s1 := with_zones (<[k := zone_account 1 (-1) z]> s.(zones_struct)) (with_bits m s)).
  assert (shift true pg s s1) as S1.
  { constructor; try done.
    - cbn. by rewrite (bm_or_length _ _ _ Hm).
    - by apply (bm_or_ok _ _ _ Hm).
    - intros i Hi. cbn. rewrite (bm_or_get _ _ _ i Hm) by lia. destruct (decide (i = pg)) as [->|Hne].
      + rewrite bool_decide_eq_true_2 by done. apply orb_true_r.
      + rewrite bool_decide_eq_false_2 by congruence. apply orb_false_r.
    - split_and!; try done. cbn. by rewrite length_insert.
    - intros j y Hy. cbn. destruct (decide (k = j)) as [<-|Hne].
      + assert (y = z) as -> by congruence. rewrite list_lookup_insert_eq by (by eapply lookup_lt_Some).
        eexists. split; [reflexivity|]. rewrite Hin. split_and!; try done. intros _. apply word64_u64.
      + rewrite list_lookup_insert_ne by done. exists y. split_and!; try done.
        destruct (zin y pg) eqn:E; [|done]. by destruct (Hne (po_apart s K k j z y pg Hz Hy Hin E)).
    - intros i y Hy. by exists y. }
  destruct (sh_zones _ _ _ _ S1 k z Hz) as (z1 & Hz1 & _).
  destruct (page_init_touched s1 pg d k z1 (PG_PTable_Maped .| PG_Kernel_Init .| PG_Kernel) Hd Hk Hz1) as (t & Ei & T).
  assert (shift true pg s t) as S by (by eapply shift_touched).
  assert (pmm_ok t) as Kt by (eapply shift_pmm_ok; [exact S|done|done|done|by exists d]).
  exists t. split.
  { unfold slab_reserve. rewrite Hd. cbn [mbind option_bind]. rewrite Hpb, Hm. cbn [mbind option_bind].
    unfold upd_zone. rewrite Hk. cbn [mbind option_bind]. change (zones_struct (with_bits m s)) with (zones_struct s).
    rewrite Hz. cbn [mbind option_bind]. fold s1. rewrite Ei. done. }
  split_and!; [done|done|]. split; [by rewrite (shift_bits _ _ _ _ S)|]. split.
  - rewrite (sh_bits _ _ _ _ S) by lia. by rewrite decide_True.
  - destruct (shift_paged _ _ _ _ _ _ S Hpd) as (d' & Hd' & _). by exists d'.
Qed.

(** ** The layout of the static structures *)

Definition pool_count (k : nat) : Z := PAGE_2M_SIZE / 2 ^ (5 + Z.of_nat k).

(** The descriptor of the pool of cache [n]; its map is 152 bytes further on. *)
Fixpoint pool_at (tmp : Z) (n : nat) : Z :=
  match n with
  | O => tmp
  | S n => (pool_at tmp n .+ sizeof_Slab .+ 8 * 10 .+ color_bytes (pool_count n) .+ 8 * 10) .& .~ (8 .- 1)
  end.

Lemma pool_count_ok k : (k < 16)%nat -> 0 < pool_count k <= 65536 /\ 2 ^ (5 + Z.of_nat k) * pool_count k = 2 ^ 21 /\
  8 <= color_bytes (pool_count k) <= 2 ^ (14 - Z.of_nat k) - 2 ^ (13 - Z.of_nat k) + 8.
Proof. intros Hk. do 16 (destruct k as [|k]; [vm_compute; intuition congruence|]). lia. Qed.

Section Layout.
Context (tmp q : Z) (Hq : 0 <= q < 2 ^ 26 - 32) (Hlo : page_va q < tmp) (Hhi : tmp + 2 ^ 15 < page_va q + 2 ^ 21).

Lemma pool_at_spec n : (n < 16)%nat -> tmp <= pool_at tmp n -> pool_at tmp n < tmp + 2 ^ 15 ->
  pool_at tmp n .+ sizeof_Slab .+ 8 * 10 = pool_at tmp n + 152 /\
  pool_at tmp n + 152 + 73 < pool_at tmp (S n) <= pool_at tmp n + 232 + color_bytes (pool_count n).
Proof using Hq Hlo Hhi.
  intros Hn H1 H2. destruct (pool_count_ok n Hn) as (_ & _ & Hc).
  assert (color_bytes (pool_count n) <= 8200) as Hc'.
  { clear -Hn. do 16 (destruct n as [|n]; [vm_compute; congruence|]). lia. }
  cbn [pool_at]. unfold page_va, PAGE_OFFSET, sizeof_Slab in *.
  rewrite (u64_small (pool_at tmp n + 72)) by lia. rewrite (u64_small (pool_at tmp n + 72 + 8 * 10)) by lia. split; [lia|].
  rewrite (u64_small (pool_at tmp n + 72 + 8 * 10 + _)) by lia. rewrite u64_small by lia.
  change (8 .- 1) with ((1 .<< 3) .- 1). rewrite mask_round by (unfold word64; lia). change (2 ^ 3) with 8.
  pose proof (Z_div_mod_eq_full (pool_at tmp n + 72 + 8 * 10 + color_bytes (pool_count n) + 8 * 10) 8).
  pose proof (Z.mod_pos_bound (pool_at tmp n + 72 + 8 * 10 + color_bytes (pool_count n) + 8 * 10) 8). lia.
Qed.

Lemma pool_at_bounds n : (n <= 16)%nat -> tmp <= pool_at tmp n <= tmp + 240 * Z.of_nat n + (16384 - 2 ^ (14 - Z.of_nat n)).
Proof using Hq Hlo Hhi.
  induction n as [|n IH]; intros Hn; [cbn; lia|].
  specialize (IH ltac:(lia)). assert (0 <= 2 ^ (14 - Z.of_nat n)) by (apply Z.pow_nonneg; lia).
  destruct (pool_at_spec n) as [_ Hs]; [lia|lia|lia|]. destruct (pool_count_ok n ltac:(lia)) as (_ & _ & Hc).
  replace (14 - Z.of_nat (S n)) with (13 - Z.of_nat n) by lia. lia.
Qed.

Lemma pool_at_near n : (n <= 16)%nat -> tmp <= pool_at tmp n < tmp + 2 ^ 15 - 2 ^ 10.
Proof using Hq Hlo Hhi.
  intros Hn. pose proof (pool_at_bounds n Hn). assert (0 <= 2 ^ (14 - Z.of_nat n)) by (apply Z.pow_nonneg; lia). lia.
Qed.

Lemma pool_at_rising k n : (k < n <= 16)%nat -> pool_at tmp k + 152 < pool_at tmp n.
Proof using Hq Hlo Hhi.
  induction n as [|n IH]; intros Hk; [lia|]. pose proof (pool_at_near n ltac:(lia)).
  destruct (pool_at_spec n) as [_ Hs]; [lia|lia|lia|]. destruct (decide (k = n)) as [->|]; [lia|]. specialize (IH ltac:(lia)). lia.
Qed.

Lemma pool_at_inj k n x y : (k < 16)%nat -> (n < 16)%nat -> (x = 0 \/ x = 152) -> (y = 0 \/ y = 152) ->
  pool_at tmp k + x = pool_at tmp n + y -> k = n /\ x = y.
Proof using Hq Hlo Hhi.
  intros Hk Hn Hx Hy E. destruct (lt_eq_lt_dec k n) as [[Hlt| ->]|Hgt].
  - pose proof (pool_at_rising k n ltac:(lia)). lia.
  - split; [done|lia].
  - pose proof (pool_at_rising n k ltac:(lia)). lia.
Qed.
End Layout.

(** ** The loops *)

(** The pool of cache [k]; [pg] and [va] are set by the last loop. *)
Record pool_ok (tmp : Z) (s : kmem) (k : nat) (pg : option Z) (va : Z) : Prop := {
  pk_cache : s.(kmalloc_cache_size) !! k = Some (mkCache (2 ^ (5 + Z.of_nat k)) 0 (pool_count k) (pool_at tmp k) None None);
  pk_slab : s.(slabs) !! pool_at tmp k =
    Some (mkSlab pg 0 (pool_count k) va (color_bytes (pool_count k)) (pool_count k) (pool_at tmp k + 152));
  pk_node : s.(snodes) !! pool_at tmp k = Some (mkList (pool_at tmp k) (pool_at tmp k));
  pk_map : exists m, fresh_map (pool_count k) = Some m /\ s.(maps) !! (pool_at tmp k + 152) = Some m
}.

Section Init.
Context (tmp q : Z) (Hq : 0 <= q < 2 ^ 26 - 32) (Hlo : page_va q < tmp) (Hhi : tmp + 2 ^ 15 < page_va q + 2 ^ 21).

Lemma init_caches_ok s : s.(kmalloc_cache_size) = kmalloc_cache_size_init ->
  exists s', for_each slab_init_cache (range 0 16) (s, tmp) = Some (s', pool_at tmp 16) /\ s'.(pm) = s.(pm) /\
    length s'.(kmalloc_cache_size) = 16%nat /\ forall k, (k < 16)%nat -> pool_ok tmp s' k None 0.
Proof using Hq Hlo Hhi.
  intros Hc. destruct (for_each_total slab_init_cache
    (fun d st => snd st = pool_at tmp (length d) /\ (fst st).(pm) = s.(pm) /\ length (fst st).(kmalloc_cache_size) = 16%nat /\
      (forall k, (k < length d)%nat -> pool_ok tmp (fst st) k None 0) /\
      (forall k, (length d <= k < 16)%nat -> (fst st).(kmalloc_cache_size) !! k = Some (mkCache (2 ^ (5 + Z.of_nat k)) 0 0 0 None None)))
    (range 0 16) (s, tmp)) as ([s' e] & E & P1 & P2 & P3 & P4 & _).
  - cbn [fst snd length]. rewrite Hc. split_and!; [done|done|done|lia|]. intros k Hk. clear -Hk.
    do 16 (destruct k as [|k]; [reflexivity|]). lia.
  - intros d j r [s1 e] Hd (P1 & P2 & P3 & P4 & P5). cbn [fst snd] in *. apply range_split_inv in Hd as [Ed Hj].
    assert (length d = Z.to_nat j) as Hl by (rewrite Ed; unfold range; rewrite length_seqZ; lia).
    rewrite length_app. cbn [length]. rewrite Hl in *. set (n := Z.to_nat j) in *. assert (n < 16)%nat as Hn by lia.
    pose proof (pool_at_near tmp q Hq Hlo Hhi n ltac:(lia)) as Hnear.
    destruct (pool_at_spec tmp q Hq Hlo Hhi n Hn ltac:(lia) ltac:(lia)) as [Emap Hnext].
    destruct (pool_count_ok n Hn) as (Hcnt & Hfit & _). destruct (fresh_map_spec (pool_count n) ltac:(lia)) as (m & Em & _).
    eexists. split.
    { unfold slab_init_cache. fold n. rewrite (P5 n ltac:(lia)). cbn [mbind option_bind size].
      assert ((2 ^ (5 + Z.of_nat n) =? 0) = false) as -> by (apply Z.eqb_neq; apply Z.pow_nonzero; lia).
      cbn [negb guard_fault mbind option_bind size]. fold (pool_count n). rewrite Em. cbn [mbind option_bind constructor destructor].
      rewrite P1, Emap. reflexivity. }
    cbn [fst snd]. rewrite Nat.add_1_r. split; [|split; [done|split; [|split]]].
    + cbn [pool_at]. by rewrite Emap.
    + cbn. rewrite length_insert. done.
    + intros k Hk. destruct (decide (k = n)) as [->|Hne].
      * constructor; cbn; [by rewrite list_lookup_insert_eq by lia|by rewrite lookup_insert_eq|unfold list_init; by rewrite lookup_insert_eq|].
        exists m. split; [done|by rewrite lookup_insert_eq].
      * destruct (P4 k ltac:(lia)) as [Q1 Q2 Q3 (m0 & Q4 & Q5)].
        assert (pool_at tmp n <> pool_at tmp k) as N.
        { intros E. destruct (pool_at_inj tmp q Hq Hlo Hhi n k 0 0) as [-> _]; [lia|lia|lia|lia|lia|done]. }
        constructor; cbn; [by rewrite list_lookup_insert_ne by lia|by rewrite lookup_insert_ne|unfold list_init; by rewrite lookup_insert_ne|].
        exists m0. split; [done|]. rewrite lookup_insert_ne by lia. done.
    + intros k Hk. cbn. rewrite list_lookup_insert_ne by lia. apply P5. lia.
  - exists s'. cbn [fst snd] in *. assert (length (range 0 16) = 16%nat) as El by reflexivity. rewrite El in *. rewrite <- P1. by split_and!.
Qed.

Lemma init_pages_ok s : pmm_ok s.(pm) -> length s.(kmalloc_cache_size) = 16%nat -> (forall k, (k < 16)%nat -> pool_ok tmp s k None 0) ->
  (forall k, (k < 16)%nat -> free s.(pm) (q + 1 + Z.of_nat k)) ->
  exists s', for_each (slab_init_page (pool_at tmp 16)) (range 0 16) s = Some s' /\ pmm_ok s'.(pm) /\
    (forall pg, inuse s.(pm) pg -> inuse s'.(pm) pg) /\
    (forall n, has_pages s.(pm) (16 + n) -> has_pages s'.(pm) n) /\
    length s'.(kmalloc_cache_size) = 16%nat /\
    forall k, (k < 16)%nat -> held s'.(pm) (q + 1 + Z.of_nat k) /\
      pool_ok tmp s' k (Some (q + 1 + Z.of_nat k)) (page_va (q + 1 + Z.of_nat k)).
Proof using Hq Hlo Hhi.
  intros K Hlen Hp Hf.
  destruct (for_each_total (slab_init_page (pool_at tmp 16))
    (fun d s1 => pmm_ok s1.(pm) /\ (forall pg, inuse s.(pm) pg -> inuse s1.(pm) pg) /\
      (forall n, has_pages s.(pm) (length d + n) -> has_pages s1.(pm) n) /\ length s1.(kmalloc_cache_size) = 16%nat /\
      (forall k, (k < length d)%nat -> held s1.(pm) (q + 1 + Z.of_nat k) /\
         pool_ok tmp s1 k (Some (q + 1 + Z.of_nat k)) (page_va (q + 1 + Z.of_nat k))) /\
      (forall k, (length d <= k < 16)%nat -> free s1.(pm) (q + 1 + Z.of_nat k) /\ pool_ok tmp s1 k None 0))
    (range 0 16) s) as (s' & E & P1 & P2 & P6 & P3 & P4 & _).
  - split_and!; [done|done|done|done|cbn; lia|]. intros k Hk. split; [apply Hf; lia|apply Hp; lia].
  - intros d j r s1 Hd (P1 & P2 & P6 & P3 & P4 & P5). apply range_split_inv in Hd as [Ed Hj].
    assert (length d = Z.to_nat j) as Hl by (rewrite Ed; unfold range; rewrite length_seqZ; lia).
    rewrite length_app. cbn [length].
    assert (exists n, j = Z.of_nat n /\ (n < 16)%nat) as (n & -> & Hn) by (exists (Z.to_nat j); lia). rewrite Nat2Z.id in Hl. rewrite Hl in *.
    pose proof (pool_at_near tmp q Hq Hlo Hhi 16 ltac:(lia)) as Hnear. set (e := pool_at tmp 16) in *.
    assert ((e .+ (PAGE_2M_SIZE .* Z.of_nat n) .+ PAGE_2M_SIZE .- 1) .& PAGE_2M_MASK = page_va (q + 1 + Z.of_nat n)) as Ev.
    { unfold page_va, PAGE_OFFSET in *. change PAGE_2M_SIZE with (2 ^ 21).
      rewrite (u64_small (2 ^ 21 * Z.of_nat n)), (u64_small (e + _)), (u64_small (e + 2 ^ 21 * Z.of_nat n + 2 ^ 21)) by lia. rewrite u64_small by lia.
      unfold PAGE_2M_MASK. change PAGE_2M_SIZE with (1 .<< 21). rewrite mask_round by (unfold word64; lia).
      assert ((e + 2 ^ 21 * Z.of_nat n + 2 ^ 21 - 1) / 2 ^ 21 = 0x7fffc000000 + q + 1 + Z.of_nat n) as ->; [|lia].
      symmetry. apply (Z.div_unique_pos _ _ _ (e + 2 ^ 21 * Z.of_nat n + 2 ^ 21 - 1 - 2 ^ 21 * (0x7fffc000000 + q + 1 + Z.of_nat n))); lia. }
    assert (Virt_To_Phy (page_va (q + 1 + Z.of_nat n)) .>> PAGE_2M_SHIFT = q + 1 + Z.of_nat n) as Epg.
    { unfold Virt_To_Phy, page_va, PAGE_OFFSET. rewrite u64_small by lia. unfold PAGE_2M_SHIFT. rewrite Z.shiftr_div_pow2 by lia.
      replace (_ - _) with ((q + 1 + Z.of_nat n) * 2 ^ 21) by lia. apply Z.div_mul. lia. }
    destruct (P5 n ltac:(lia)) as [Hfn [Q1 Q2 Q3 Q4]].
    destruct (reserve_ok s1.(pm) _ P1 Hfn) as (p & Er & S & Kp & Hhp).
    eexists. split.
    { unfold slab_init_page. rewrite Ev, Epg, Er. cbn [mbind option_bind]. rewrite Nat2Z.id, Q1. cbn [mbind option_bind cache_pool].
      unfold upd_slab. change (slabs (set_pm p s1)) with (slabs s1). rewrite Q2. reflexivity. }
    assert (forall k pg va, (k < 16)%nat -> k <> n -> pool_ok tmp s1 k pg va ->
      pool_ok tmp (set_slabs (<[pool_at tmp n := mkSlab (Some (q + 1 + Z.of_nat n)) 0 (pool_count n) (page_va (q + 1 + Z.of_nat n))
        (color_bytes (pool_count n)) (pool_count n) (pool_at tmp n + 152)]> s1.(slabs)) (set_pm p s1)) k pg va) as Hkeep.
    { intros k pg va Hk Hne [R1 R2 R3 R4]. constructor; try done. cbn. rewrite lookup_insert_ne; [done|].
      intros E. destruct (pool_at_inj tmp q Hq Hlo Hhi n k 0 0) as [-> _]; [lia|lia|lia|lia|lia|done]. }
    rewrite Nat.add_1_r. split_and!; [done| | |done| |].
    + intros pg Hpg. apply (shift_inuse _ _ _ _ _ S); [by left|by apply P2].
    + intros m Hm. apply (has_pages_take _ _ _ _ S), P6. by rewrite Nat.add_succ_r.
    + intros k Hk. destruct (decide (k = n)) as [->|Hne].
      * split; [exact Hhp|]. constructor; try done. cbn. by rewrite lookup_insert_eq.
      * destruct (P4 k ltac:(lia)) as [H1 H2]. split; [|by apply Hkeep; [lia| |]]. apply (shift_held _ _ _ _ _ S); [lia|done].
    + intros k Hk. destruct (P5 k ltac:(lia)) as [H1 H2]. split; [|by apply Hkeep; [lia|lia|]]. apply (shift_free _ _ _ _ _ S); [lia|done].
  - exists s'. assert (length (range 0 16) = 16%nat) as El by reflexivity. rewrite El in *. by split_and!.
Qed.
End Init.

(** ** The invariant *)

Definition no_rings (i : nat) : list Z := [].

Section Established.
Context (tmp q : Z) (Hq : 0 <= q < 2 ^ 26 - 32) (Hlo : page_va q < tmp) (Hhi : tmp + 2 ^ 15 < page_va q + 2 ^ 21).

Lemma pools_kinv (res : Z -> Prop) s : pmm_ok s.(pm) -> res q -> (forall pg, res pg -> inuse s.(pm) pg) ->
  (forall k, (k < 16)%nat -> ~ res (q + 1 + Z.of_nat k)) -> length s.(kmalloc_cache_size) = 16%nat ->
  (forall k, (k < 16)%nat -> held s.(pm) (q + 1 + Z.of_nat k) /\
      pool_ok tmp s k (Some (q + 1 + Z.of_nat k)) (page_va (q + 1 + Z.of_nat k))) ->
  kinv res s no_rings.
Proof using Hq Hlo Hhi.
  intros K Hrq Hres Hnres Hlen Hp.
  assert (forall i c, s.(kmalloc_cache_size) !! i = Some c -> (i < 16)%nat /\ c = mkCache (2 ^ (5 + Z.of_nat i)) 0 (pool_count i) (pool_at tmp i) None None) as Lc.
  { intros i c Hc. assert (i < 16)%nat as Hi by (rewrite <- Hlen; by eapply lookup_lt_Some). split; [done|].
    destruct (Hp i Hi) as [_ [Q1 _ _ _]]. congruence. }
  assert (forall i c a b, slab_of s no_rings i c a b -> (i < 16)%nat /\ c = mkCache (2 ^ (5 + Z.of_nat i)) 0 (pool_count i) (pool_at tmp i) None None /\
    a = pool_at tmp i /\ b = mkSlab (Some (q + 1 + Z.of_nat i)) 0 (pool_count i) (page_va (q + 1 + Z.of_nat i)) (color_bytes (pool_count i))
      (pool_count i) (pool_at tmp i + 152)) as Ls.
  { intros i c a b (Hc & Ha & Hb). destruct (Lc i c Hc) as [Hi ->]. apply list_elem_of_singleton in Ha. cbn in Ha. subst a.
    destruct (Hp i Hi) as [_ [_ Q2 _ _]]. split_and!; congruence. }
  assert (forall i c a b k, slab_of s no_rings i c a b -> slot k a b = pool_at tmp i + if k then 0 else 152) as Lslot.
  { intros i c a b k H. destruct (Ls _ _ _ _ H) as (_ & _ & -> & ->). destruct k; cbn; lia. }
  constructor.
  - done.
  - apply list_eq. intros n. rewrite list_lookup_fmap. destruct (decide (n < 16)%nat) as [Hn|Hn].
    + destruct (Hp n Hn) as [_ [Q1 _ _ _]]. rewrite Q1. clear -Hn. do 16 (destruct n as [|n]; [reflexivity|]). lia.
    + rewrite !lookup_ge_None_2; [done|change (length cache_sizes) with 16%nat; lia|lia].
  - intros i c Hc. destruct (Lc i c Hc) as [Hi ->]. destruct (Hp i Hi) as [_ [_ _ Q3 _]]. by apply ring_empty_self.
  - intros i c a Hc Ha. destruct (Lc i c Hc) as [Hi ->]. apply list_elem_of_singleton in Ha. cbn in Ha. subst a.
    destruct (Hp i Hi) as [_ [_ Q2 _ _]]. by eexists.
  - intros i c a b H. destruct (Ls _ _ _ _ H) as (Hi & -> & -> & ->). destruct (Hp i Hi) as [Hhi' [_ Q2 _ (m & Em & Hm)]].
    destruct (pool_count_ok i Hi) as (Hcnt & Hfit & _). destruct (fresh_map_spec (pool_count i) ltac:(lia)) as (m0 & Em0 & Hok & Hml & Hget & Hcf).
    rewrite Em in Em0. injection Em0 as <-. pose proof (bm_count_compl false m 0 (pool_count i) ltac:(lia)) as Hcm. cbn [negb] in Hcm.
    destruct (color_bytes_spec (pool_count i) ltac:(lia)) as [_ Hb2].
    constructor; cbn [page Vaddress color_count size].
    + exists m. constructor; try done; cbn [color_count free_count using_count]; [unfold bm_bits; rewrite Hml; lia|lia].
    + split; [done|]. rewrite Hfit. lia.
    + exists (q + 1 + Z.of_nat i). split_and!; [done|done|by apply Hnres|done].
  - intros i1 c1 a1 b1 i2 c2 a2 b2 H1 H2 E. destruct (Ls _ _ _ _ H1) as (_ & _ & -> & ->), (Ls _ _ _ _ H2) as (_ & _ & -> & ->).
    cbn in E. injection E as E. assert (i1 = i2) as -> by lia. done.
  - intros i1 c1 a1 b1 k1 i2 c2 a2 b2 k2 H1 H2 E. rewrite (Lslot _ _ _ _ k1 H1), (Lslot _ _ _ _ k2 H2) in E.
    destruct (Ls _ _ _ _ H1) as (Hi1 & _ & -> & _), (Ls _ _ _ _ H2) as (Hi2 & _ & -> & _).
    assert (forall k : bool, (if k then 0 else 152) = 0 \/ (if k then 0 else 152) = 152) as Hk by (intros []; auto).
    destruct (pool_at_inj tmp q Hq Hlo Hhi i1 i2 _ _ Hi1 Hi2 (Hk k1) (Hk k2) E) as [-> E'].
    split_and!; [done|done|]. by destruct k1, k2.
  - intros i c a b k H. rewrite (Lslot _ _ _ _ k H). destruct (Ls _ _ _ _ H) as (Hi & -> & -> & _). left. split; [done|].
    exists q. split; [done|]. pose proof (pool_at_near tmp q Hq Hlo Hhi i ltac:(lia)). unfold in_page. destruct k; lia.
  - intros i c Hc. destruct (Lc i c Hc) as [Hi ->]. destruct (Hp i Hi) as [_ [_ Q2 _ _]]. unfold sum_of. cbn. rewrite Q2. cbn. lia.
  - done.
Qed.

(** Starting the object allocator: when its structures fit in the page where they begin, which is
    in use, and the sixteen pages behind it are free, [slab_init] establishes the invariant that
    [kmalloc] and [kfree] rely on and keep, for any pages that were in use; no object is in use, the
    pages of the caches are reserved and the other free pages stay free. *)
Lemma slab_init_ok s : s.(kmalloc_cache_size) = kmalloc_cache_size_init -> pmm_ok s.(pm) -> inuse s.(pm) q ->
  (forall k, (k < 16)%nat -> free s.(pm) (q + 1 + Z.of_nat k)) ->
  exists s' e, slab_init tmp s = Some (s', e) /\ tmp < e < page_va (q + 1) /\
    kinv (inuse s.(pm)) s' no_rings /\ (forall i x, ~ used_at s' no_rings i x) /\
    (forall n, has_pages s.(pm) (16 + n) -> has_pages s'.(pm) n) /\
    forall k, (k < 16)%nat -> held s'.(pm) (q + 1 + Z.of_nat k).
Proof using Hq Hlo Hhi.
  intros Hc K Hh Hf.
  destruct (init_caches_ok tmp q Hq Hlo Hhi s Hc) as (s1 & E1 & Ep & Hl & Hp). rewrite <- Ep in K, Hf.
  destruct (init_pages_ok tmp q Hq Hlo Hhi s1 K Hl Hp Hf) as (s2 & E2 & K2 & Hh2 & Hn2 & Hl2 & Hp2). rewrite Ep in Hf, Hh2, Hn2.
  pose proof (pool_at_near tmp q Hq Hlo Hhi 16 ltac:(lia)) as Hn. pose proof (pool_at_rising tmp q Hq Hlo Hhi 0 16 ltac:(lia)) as Hr. change (pool_at tmp 0) with tmp in Hr.
  revert E1 E2 Hn Hr. generalize (pool_at tmp 16). intros e E1 E2 Hn Hr. exists s2, e. split.
  { unfold slab_init. rewrite E1. cbn [mbind option_bind].
    assert (range (PAGE_2M_ALIGN (Virt_To_Phy tmp) .>> PAGE_2M_SHIFT) ((Virt_To_Phy (e) .>> PAGE_2M_SHIFT) + 1) = []) as ->.
    { unfold Virt_To_Phy, page_va, PAGE_OFFSET in *. rewrite (u64_small (tmp - _)), (u64_small (e - _)) by lia.
      rewrite PAGE_2M_ALIGN_spec by lia. unfold PAGE_2M_SHIFT. rewrite !Z.shiftr_div_pow2 by lia. rewrite (Z.mul_comm (2 ^ 21)), Z.div_mul by lia.
      apply range_nil.
      assert (q + 1 = (tmp - 18446603336221196288 + 2 ^ 21 - 1) / 2 ^ 21) as <-.
      { apply (Z.div_unique_pos _ _ _ (tmp - 18446603336221196288 + 2 ^ 21 - 1 - 2 ^ 21 * (q + 1))); lia. }
      assert (q = (e - 18446603336221196288) / 2 ^ 21) as <-; [|lia].
      apply (Z.div_unique_pos _ _ _ (e - 18446603336221196288 - 2 ^ 21 * q)); lia. }
    cbn [for_each mbind option_bind]. rewrite set_pm_id, E2. reflexivity. }
  assert (forall k, (k < 16)%nat -> ~ inuse s.(pm) (q + 1 + Z.of_nat k)) as Hnu.
  { intros k Hk [_ Hb]. destruct (Hf k Hk). congruence. }
  pose proof (pools_kinv (inuse s.(pm)) s2 K2 Hh Hh2 Hnu Hl2 Hp2) as Kv. split_and!; [lia|unfold page_va in *; lia|done| |done|].
  - intros i x (c & a & b & m & j & (Hc1 & Ha & Hb) & Hm & Hj & Hbit & _).
    assert (i < 16)%nat as Hi by (rewrite <- Hl2; by eapply lookup_lt_Some). destruct (Hp2 i Hi) as [_ [Q1 Q2 _ (m0 & Em & Hm0)]].
    rewrite Q1 in Hc1. injection Hc1 as <-. apply list_elem_of_singleton in Ha. cbn in Ha. subst a.
    rewrite Q2 in Hb. injection Hb as <-. cbn [color_map color_count] in Hm, Hj. rewrite Hm0 in Hm. injection Hm as <-.
    destruct (pool_count_ok i Hi) as (Hcnt & _). destruct (fresh_map_spec (pool_count i) ltac:(lia)) as (m1 & Em1 & _ & _ & Hget & _).
    rewrite Em in Em1. injection Em1 as <-. rewrite Hget in Hbit by lia. rewrite (proj2 (Z.leb_gt _ _)) in Hbit by lia. done.
  - intros k Hk. by apply Hp2.
Qed.
End Established.

(** ** A machine with 2 GB, as in deploy/ *)

(** [pmm_ok] as a program, for concrete states. *)
Definition pmm_okb (s : pmm) : bool :=
  pmm_wfb s &&
  forallb (fun z => z.(page_free_count) =? bm_count false s.(bits_map) (zstart z) (zstop z)) s.(zones_struct) &&
  forallb (fun '(k, z) => forallb (fun '(k', z') => bool_decide (k = k') || (zstop z <=? zstart z') || (zstop z' <=? zstart z))
    (imap pair s.(zones_struct))) (imap pair s.(zones_struct)) &&
  forallb (fun i => bm_get s.(bits_map) i ||
    match page_at s i with
    | Some d => d.(PHY_address) =? 2 ^ 21 * i
    | None => false
    end) (range 0 (bm_bits s.(bits_map))) &&
  (bm_bits s.(bits_map) <=? 2 ^ 26 - 1).

Lemma pmm_okb_sound s : pmm_okb s = true -> pmm_ok s.
Proof.
  unfold pmm_okb. rewrite !andb_true_iff, !List.forallb_forall, Z.leb_le. intros ((((Hw & Hc) & Ha) & Hp) & Hb).
  apply pmm_wfb_sound in Hw. constructor; [done| | | |done].
  - intros k z Hz. apply Z.eqb_eq, Hc. apply list_elem_of_In. by eapply list_elem_of_lookup_2.
  - intros k k' z z' i Hz Hz' Hi Hi'. apply zin_spec in Hi, Hi'.
    assert (forall k z, s.(zones_struct) !! k = Some z -> In (k, z) (imap pair s.(zones_struct))) as Hin.
    { intros j y Hj. apply list_elem_of_In. apply (list_elem_of_lookup_2 _ j). by rewrite list_lookup_imap, Hj. }
    specialize (Ha _ (Hin _ _ Hz)). cbn in Ha. rewrite List.forallb_forall in Ha. specialize (Ha _ (Hin _ _ Hz')). cbn in Ha.
    rewrite !orb_true_iff, bool_decide_eq_true, !Z.leb_le in Ha. destruct Ha as [[Ha|Ha]|Ha]; [done|lia|lia].
  - intros i [Hi Hf]. destruct (wf_free s Hw i Hi Hf) as (d & k & z & Hd & _ & Hk & Hz & Hin).
    assert (In i (range 0 (bm_bits s.(bits_map)))) as Hr by by apply list_elem_of_In, in_range.
    specialize (Hp i Hr). rewrite Hf, Hd in Hp. apply Z.eqb_eq in Hp. exists d. split_and!; [done|done|].
    exists k, z. split_and!; [done..|]. by apply zin_spec.
Qed.

Definition boot_2G (i : nat) : E820 :=
  match i with
  | 2%nat => mkE820 0x100000 0x7fef0000 1
  | i => boot_16M i
  end.

(** The state [init_memory] leaves for a kernel that ends at 3 MB, the end of the structures of
    [init_memory], and the allocator before [slab_init]. *)
Definition booted_2G : Z * pmm :=
  match init_memory boot_2G (Phy_To_Virt 0x300000) all_ones with
  | Some (l, s) => (l.(end_of_struct), s)
  | None => (0, mkPmm [] 0 [] [] 0 0 0)
  end.

Definition kmem_2G : kmem := mkKmem (snd booted_2G) ∅ ∅ ∅ kmalloc_cache_size_init ∅.

Lemma kmem_2G_ok : kmem_2G.(kmalloc_cache_size) = kmalloc_cache_size_init /\ pmm_ok kmem_2G.(pm) /\ inuse kmem_2G.(pm) 1 /\
  (forall k, (k < 16)%nat -> free kmem_2G.(pm) (1 + 1 + Z.of_nat k)) /\ has_pages kmem_2G.(pm) (16 + 1005).
Proof.
  assert (forall i, 2 <= i < 1023 -> free kmem_2G.(pm) i) as Hf.
  { intros i Hi. assert (forallb (fun i => negb (bm_get kmem_2G.(pm).(bits_map) i)) (range 2 1023) = true) as E by (vm_compute; reflexivity).
    rewrite List.forallb_forall in E. assert (In i (range 2 1023)) as Hin by (by apply list_elem_of_In, in_range).
    apply E in Hin. apply negb_true_iff in Hin. split; [|done].
    assert (bm_bits kmem_2G.(pm).(bits_map) = 2048) as -> by (vm_compute; reflexivity). lia. }
  split_and!.
  - reflexivity.
  - apply pmm_okb_sound. vm_compute. reflexivity.
  - split; vm_compute; [split; [discriminate|reflexivity]|reflexivity].
  - intros k Hk. apply Hf. lia.
  - exists (range 2 1023). split_and!; [apply NoDup_seqZ|reflexivity|]. intros i Hi. apply in_range in Hi. split; [apply Hf; lia|].
    exists 0%nat. assert (exists z, kmem_2G.(pm).(zones_struct) !! 0%nat = Some z /\ zstart z = 1 /\ zstop z = 1023) as (z & Hz & E1 & E2)
      by (vm_compute; eexists; split_and!; reflexivity).
    exists z. split_and!; [vm_compute; discriminate|vm_compute; discriminate|done|]. apply zin_spec. lia.
Qed.
