(* ===== verification/Kalloc.v ===== *)
(** * The kernel's heap satisfies the laws (memory.c)

    [Alloc] and [Paging] state what the rest of the kernel relies on as laws of a heap.  Here the heap
    is the allocator itself, with [kmalloc], [kfree], [alloc_pages] and [free_pages] as operations, on
    the states that satisfy the invariant of [Kheap], and the laws are proved. *)

From S2P Require Import Prelude Bitmap Klist PageAlloc OnePage Slab Alloc Kheap Kinit Paging Task.

(** ** The objects in use, computed *)

(** The nodes behind [x] in the ring of [pool]. *)
Fixpoint walk_ring (fuel : nat) (σ : lists) (pool x : Z) : list Z :=
  match fuel with
  | O => []
  | S fuel =>
      match list_next x σ with
      | Some n => if n =? pool then [] else n :: walk_ring fuel σ pool n
      | None => []
      end
  end.

Lemma walk_ring_spec σ pool l : ring σ pool l -> 0 ∉ pool :: l ->
  forall rest fuel pre x, pool :: l = pre ++ x :: rest -> (length rest < fuel)%nat -> walk_ring fuel σ pool x = rest.
Proof.
  intros Hr H0. induction rest as [|y rest IH]; intros [|fuel] pre x E Hf; cbn [length] in Hf; try lia; cbn [walk_ring];
    (erewrite ring_next_list; [|exact H0|exact Hr|exact E]); cbn [head].
  - change (default pool None) with pool. by rewrite Z.eqb_refl.
  - change (default pool (Some y)) with y. destruct (Z.eqb_spec y pool) as [->|Hne].
    + exfalso. destruct Hr as [Hd _]. rewrite E in Hd. destruct pre as [|p pre]; cbn in E; simplify_eq;
        cbn in Hd; rewrite !NoDup_cons, ?elem_of_app, !elem_of_cons in Hd; tauto.
    + f_equal. apply (IH fuel (pre ++ [x])); [|lia]. rewrite E. by rewrite <- app_assoc.
Qed.

(** The slabs of cache [i]; all slabs, with the cache they belong to. *)
Definition slabs_of (s : kmem) (i : nat) : list (nat * Slab_cache * Z * Slab) :=
  match s.(kmalloc_cache_size) !! i with
  | Some c => omap (fun a => (fun b => (i, c, a, b)) <$> s.(slabs) !! a)
      (c.(cache_pool) :: walk_ring (S (base.size s.(snodes))) s.(snodes) c.(cache_pool) c.(cache_pool))
  | None => []
  end.
Definition all_slabs (s : kmem) : list (nat * Slab_cache * Z * Slab) := seq 0 16 ≫= slabs_of s.

Definition used_objects (s : kmem) (x : nat * Slab_cache * Z * Slab) : list Z :=
  let '(_, c, _, b) := x in
  match s.(maps) !! b.(color_map) with
  | Some m => (fun j => b.(Vaddress) + c.(size) * j) <$> filter (fun j => bm_get m j = true) (range 0 b.(color_count))
  | None => []
  end.

Definition structures (x : nat * Slab_cache * Z * Slab) : list Z :=
  let '(i, c, a, b) := x in if decide ((5 <= i)%nat /\ a <> c.(cache_pool)) then [a; b.(color_map)] else [].

(** The objects in use, without those that hold the structures of slabs. *)
Definition live_set (s : kmem) : gset Z :=
  list_to_set (all_slabs s ≫= used_objects s) ∖ list_to_set (all_slabs s ≫= structures).

Section Live.
Context (res : Z -> Prop) (s : kmem) (rings : nat -> list Z) (K : kinv res s rings).

Lemma slabs_of_spec i i' c a b : (i', c, a, b) ∈ slabs_of s i <-> i' = i /\ slab_of s rings i c a b.
Proof using K.
  unfold slabs_of, slab_of. destruct (s.(kmalloc_cache_size) !! i) as [c0|] eqn:Hc.
  - pose proof (kinv_cache_ok _ _ _ K i c0 Hc) as C.
    rewrite (walk_ring_spec _ _ _ (ck_ring _ _ _ _ C) (ck_null _ _ _ _ C) (rings i) _ []); [|done|].
    2:{ pose proof (ring_size _ _ _ (ck_ring _ _ _ _ C)). lia. }
    rewrite list_elem_of_omap. split.
    + intros (a0 & Ha & E). apply fmap_Some in E as (b0 & Hb & E). simplify_eq. done.
    + intros (-> & E & Ha & Hb). injection E as ->. exists a. split; [done|]. by rewrite Hb.
  - rewrite elem_of_nil. split; [done|]. by intros (_ & ? & _).
Qed.

Lemma all_slabs_spec i c a b : (i, c, a, b) ∈ all_slabs s <-> slab_of s rings i c a b.
Proof using K.
  unfold all_slabs. rewrite list_elem_of_bind. setoid_rewrite slabs_of_spec. split.
  - by intros (i' & (-> & H) & _).
  - intros H. exists i. split; [done|]. destruct (cache_size_at _ _ _ _ _ K (proj1 H)) as [Hi _]. apply elem_of_seq. lia.
Qed.

Lemma used_objects_spec x : x ∈ all_slabs s ≫= used_objects s <-> exists i, used_at s rings i x.
Proof using K.
  rewrite list_elem_of_bind. split.
  - intros ([[[i c] a] b] & Hx & H). apply all_slabs_spec in H. exists i. cbn in Hx.
    destruct (s.(maps) !! b.(color_map)) as [m|] eqn:Hm; [|by apply not_elem_of_nil in Hx].
    apply list_elem_of_fmap in Hx as (j & -> & Hj). apply list_elem_of_filter in Hj as [Hb Hj].
    exists c, a, b, m, j. split_and!; try done; apply in_range in Hj; lia.
  - intros (i & c & a & b & m & j & H & Hm & Hj & Hb & ->). exists (i, c, a, b). split; [|by apply all_slabs_spec].
    cbn. rewrite Hm. apply list_elem_of_fmap. exists j. split; [done|]. apply list_elem_of_filter. split; [done|].
    by apply in_range.
Qed.

Lemma structures_spec x : x ∈ all_slabs s ≫= structures <-> internal s rings x.
Proof using K.
  rewrite list_elem_of_bind. split.
  - intros ([[[i c] a] b] & Hx & H). apply all_slabs_spec in H. cbn in Hx.
    destruct (decide ((5 <= i)%nat /\ a <> c.(cache_pool))) as [[Hi Ha]|]; [|by apply not_elem_of_nil in Hx].
    assert (a ∈ rings i) as Hin by (destruct H as (_ & Hin & _); apply elem_of_cons in Hin as [->|]; done).
    rewrite !elem_of_cons, elem_of_nil in Hx. destruct Hx as [->|[->|[]]];
      [by exists i, c, a, b, true|by exists i, c, a, b, false].
  - intros (i & c & a & b & k & H & Hi & Ha & ->). exists (i, c, a, b). split; [|by apply all_slabs_spec].
    cbn. rewrite decide_True; [rewrite !elem_of_cons; destruct k; tauto|]. split; [done|]. intros ->.
    destruct (ki_ring _ _ _ K i c (proj1 H)) as [Hnd _]. by apply NoDup_cons in Hnd as [Hnd _].
Qed.

Lemma live_set_spec x : x ∈ live_set s <-> exists i, live_at s rings i x.
Proof using K.
  unfold live_set. rewrite elem_of_difference, !elem_of_list_to_set, used_objects_spec, structures_spec.
  unfold live_at. split; [intros [[i ?] ?]; by exists i|intros (i & ? & ?); split; [by exists i|done]].
Qed.
End Live.

(** ** The heap *)

(** Two kinds of objects, of which one gives away or takes in an object. *)
Lemma union_taken (a : Z) (A B : gset Z) : a ∉ A -> a ∉ B -> a ∉ A ∪ B /\ {[ a ]} ∪ A ∪ B = {[ a ]} ∪ (A ∪ B).
Proof. intros. split; set_solver. Qed.
Lemma union_freed_l (a : Z) (A B : gset Z) : a ∉ B -> A ∖ {[ a ]} ∪ B = (A ∪ B) ∖ {[ a ]}.
Proof. intros. set_solver. Qed.
Lemma union_freed (a : Z) (A B : gset Z) : A ∖ {[ a ]} ∪ B ∖ {[ a ]} = (A ∪ B) ∖ {[ a ]}.
Proof. set_solver. Qed.

(** [tables_of] and [frames_of] say which objects of 4096 bytes were asked for as tables, and which pages are
    in use outside of the allocator, [statics] the page tables in the image of the kernel; the code keeps
    no such record. *)
Record heap_state := mkHeap { mem : kmem; tables_of : gset Z; frames_of : gset Z; statics : gset Z }.

Section Heap.
Context (res : Z -> Prop).

(** [t] is a table in a page of the kernel. *)
Definition static_ok (t : Z) : Prop := t mod 2 ^ 12 = 0 /\
  exists pg, res pg /\ page_va pg <= t /\ t + 2 ^ 12 <= page_va pg + 2 ^ 21.

Definition heap_ok (h : heap_state) : Prop := exists rings, kinv res h.(mem) rings /\
  (forall t, t ∈ h.(tables_of) -> live_at h.(mem) rings 7 t) /\
  (forall f, f ∈ h.(frames_of) -> exists pg, f = 2 ^ 21 * pg /\ lent res h.(mem) rings pg) /\
  (forall t, t ∈ h.(statics) -> static_ok t).

Definition heap_kmalloc (n : Z) (h : heap_state) : option (Z * heap_state) :=
  r ← kmalloc FUEL n 0 h.(mem);
  Some (fst r, mkHeap (snd r) (if (n =? PAGE_4K_SIZE) && negb (fst r =? 0) then {[ fst r ]} ∪ h.(tables_of) else h.(tables_of)) h.(frames_of) h.(statics)).

(** The table an address lies in. *)
Definition table_with (a : Z) (h : heap_state) : option Z :=
  List.find (fun t => (t <=? a) && (a <? t + PAGE_4K_SIZE)) (elements (h.(tables_of) ∪ h.(statics))).

(** [kfree] of an object in use, or of an address inside a table. *)
Definition heap_kfree (a : Z) (h : heap_state) : option (Z * heap_state) :=
  if decide (a ∈ live_set h.(mem)) then r ← kfree FUEL a h.(mem); Some (fst r, mkHeap (snd r) (h.(tables_of) ∖ {[ a ]}) h.(frames_of) h.(statics))
  else t ← table_with a h; r ← kfree FUEL a h.(mem);
    Some (fst r, mkHeap (snd r) (h.(tables_of) ∖ {[ t ]}) h.(frames_of) (h.(statics) ∖ {[ t ]})).

Definition heap_take_frame (h : heap_state) : option (option Z * heap_state) :=
  r ← take_frame h.(mem);
  Some (fst r, mkHeap (snd r) h.(tables_of) (match fst r with Some f => {[ f ]} ∪ h.(frames_of) | None => h.(frames_of) end)
    h.(statics)).

(** [free_pages] of the page a page table entry points to. *)
Definition heap_give_frame (e : Z) (h : heap_state) : option (unit * heap_state) :=
  let f := 2 ^ 21 * (e .>> PAGE_2M_SHIFT) in
  _ ← guard_fault (bool_decide (f ∈ h.(frames_of)));
  s ← give_frame e h.(mem); Some (tt, mkHeap s h.(tables_of) (h.(frames_of) ∖ {[ f ]}) h.(statics)).

(** What [kmalloc] and [kfree] do, on the sets. *)
Lemma live_taken s rings s' rings' i x : kinv res s rings -> kinv res s' rings' -> taken s rings s' rings' i x ->
  x ∉ live_set s /\ live_set s' = {[ x ]} ∪ live_set s.
Proof.
  intros K K' (_ & Hn & Hx). split.
  - rewrite (live_set_spec _ _ _ K). intros [j Hj]. by apply (Hn j).
  - apply leibniz_equiv. intros y. rewrite elem_of_union, elem_of_singleton, (live_set_spec _ _ _ K), (live_set_spec _ _ _ K').
    setoid_rewrite Hx. split; [intros (j & [Hy|[_ ->]]); [right; by exists j|by left]|].
    intros [->|(j & Hy)]; [exists i; by right|exists j; by left].
Qed.

Lemma live_freed s rings s' rings' x : kinv res s rings -> kinv res s' rings' -> freed s rings s' rings' x ->
  live_set s' = live_set s ∖ {[ x ]}.
Proof.
  intros K K' Hx. apply leibniz_equiv. intros y.
  rewrite elem_of_difference, elem_of_singleton, (live_set_spec _ _ _ K), (live_set_spec _ _ _ K').
  setoid_rewrite (Hx _ y). split; [intros (j & Hy & Hn); split; [by exists j|done]|intros [[j Hy] Hn]; by exists j].
Qed.

(** An address determines the object it lies in. *)
Lemma live_apart s rings i i' x y o p : kinv res s rings -> live_at s rings i x -> live_at s rings i' y ->
  0 <= o < 2 ^ (5 + Z.of_nat i) -> 0 <= p < 2 ^ (5 + Z.of_nat i') -> x + o = y + p -> x = y.
Proof.
  intros K [(c & a & b & m & j & H & _ & Hj & _ & ->) _] [(c' & a' & b' & m' & j' & H' & _ & Hj' & _ & ->) _] Ho Hp E.
  destruct (cache_size_at _ _ _ _ _ K (proj1 H)) as [_ Es], (cache_size_at _ _ _ _ _ K (proj1 H')) as [_ Es'].
  rewrite <- Es in Ho. rewrite <- Es' in Hp.
  destruct (sg_count _ _ _ _ _ (ki_slab _ _ _ K _ _ _ _ H)) as [_ Hc], (sg_count _ _ _ _ _ (ki_slab _ _ _ K _ _ _ _ H')) as [_ Hc'].
  destruct (slab_va _ _ _ K _ _ _ _ H) as (pg & Ep & E1 & _), (slab_va _ _ _ K _ _ _ _ H') as (pg' & Ep' & E2 & _).
  assert (pg = pg') as <-.
  { apply (in_page_unique pg pg' (b.(Vaddress) + c.(size) * j + o)); unfold in_page; [rewrite E1|rewrite E, E2]; nia. }
  destruct (ki_pages _ _ _ K _ _ _ _ _ _ _ _ H H') as [<- <-]; [congruence|].
  destruct (slab_of_fun _ _ _ _ _ _ _ _ H H') as [<- <-]. assert (j = j') as -> by nia. done.
Qed.

(** ** The operations keep the invariant *)

Lemma cache_index_sizes cs cs' sz k : size <$> cs = size <$> cs' -> cache_index cs sz k = cache_index cs' sz k.
Proof.
  revert cs' k. induction cs as [|c cs IH]; intros [|c' cs'] k E; try done. cbn in E. injection E as E1 E2. cbn.
  by rewrite E1, (IH cs').
Qed.

Lemma cache_index_kinv s rings sz : kinv res s rings -> cache_index s.(kmalloc_cache_size) sz 0 = cache_index kmalloc_cache_size_init sz 0.
Proof. intros K. apply cache_index_sizes. rewrite (ki_sizes _ _ _ K). reflexivity. Qed.

Lemma heap_kmalloc_ok n h a h' : heap_ok h -> heap_kmalloc n h = Some (a, h') -> heap_ok h' /\
  (a = 0 /\ h' = h \/
   a <> 0 /\ (exists i, cache_index kmalloc_cache_size_init n 0 = Some i /\ exists rings', kinv res h'.(mem) rings' /\ live_at h'.(mem) rings' i a) /\
   a ∉ live_set h.(mem) /\ live_set h'.(mem) = {[ a ]} ∪ live_set h.(mem) /\
   h'.(tables_of) = (if n =? PAGE_4K_SIZE then {[ a ]} ∪ h.(tables_of) else h.(tables_of)) /\ h'.(frames_of) = h.(frames_of) /\
   h'.(statics) = h.(statics)).
Proof.
  intros (rings & K & Ht & Hf & Hs) E. unfold heap_kmalloc in E. apply bind_Some in E as ([x s'] & Ek & E). cbn [fst snd] in E.
  pose proof (kmalloc_any res h.(mem) rings n 0 1 K) as Hk. change FUEL with 3%nat in Ek. rewrite Ek in Hk.
  destruct Hk as [(-> & -> & _)|(i & rings' & _ & Hi & K' & Htk & Hl & _)].
  - rewrite andb_false_r in E. injection E as <- <-. split; [by exists rings|]. left. split; [done|]. by destruct h.
  - pose proof Htk as (Hx & Hn & Hv). rewrite (proj2 (Z.eqb_neq _ _) Hx), andb_true_r in E.
    pose proof (live_taken _ _ _ _ i x K K' Htk) as [L1 L2]. rewrite (cache_index_kinv _ _ _ K) in Hi.
    injection E as <- <-. split.
    + exists rings'. cbn [mem tables_of frames_of statics]. split_and!; [done| | |done].
      * intros t Hin. destruct (Z.eqb_spec n PAGE_4K_SIZE) as [->|_]; [|apply Hv; left; by apply Ht].
        apply elem_of_union in Hin as [Hin|Hin]; [|apply Hv; left; by apply Ht].
        apply elem_of_singleton in Hin as ->. apply Hv. right. split; [|done]. vm_compute in Hi. congruence.
      * intros f Hin. destruct (Hf f Hin) as (pg & -> & Hpg). exists pg. split; [done|]. by apply Hl.
    + right. cbn [mem tables_of frames_of statics]. split_and!; try done. exists i. split; [done|]. exists rings'. split; [done|]. apply Hv. by right.
Qed.

Lemma heap_kmalloc_some n h k : heap_ok h -> n <= 1048576 -> has_pages h.(mem).(pm) (3 + k) ->
  exists a h', heap_kmalloc n h = Some (a, h') /\ a <> 0 /\ has_pages h'.(mem).(pm) k.
Proof.
  intros (rings & K & _) Hn Hp. pose proof (kmalloc_any res h.(mem) rings n 0 1 K) as Hk. unfold heap_kmalloc.
  change FUEL with 3%nat. destruct (kmalloc 3 n 0 h.(mem)) as [[x s']|].
  - destruct Hk as [(_ & _ & Hno)|(i & rings' & _ & _ & _ & (Hx & _) & _ & Hpg)].
    + exfalso. apply Hno; [lia|]. by apply (has_pages_less _ 3 (3 + k)); [lia|].
    + cbn [mbind option_bind fst snd]. eexists _, _. split; [reflexivity|]. split; [done|]. by apply Hpg.
  - exfalso. destruct Hk as [_ Hk]. apply Hk. by apply (has_pages_less _ 3 (3 + k)); [lia|].
Qed.

(** Giving back the object [x] by an address in it. *)
Lemma kfree_in s rings i x o T F Σ : kinv res s rings -> live_at s rings i x -> 0 <= o < 2 ^ (5 + Z.of_nat i) ->
  heap_ok (mkHeap s T F Σ) -> exists s', kfree FUEL (x + o) s = Some (1, s') /\ heap_ok (mkHeap s' (T ∖ {[ x ]}) F Σ) /\
    live_set s' = live_set s ∖ {[ x ]} /\ forall n, has_pages s.(pm) n -> has_pages s'.(pm) n.
Proof.
  intros K Hx Ho (r & Kr & Ht & Hf & Hs). cbn [mem tables_of frames_of statics] in *.
  assert (exists j, live_at s r j x) as [j Hj] by (apply (live_set_spec _ _ _ Kr), (live_set_spec _ _ _ K); by exists i).
  assert (j = i) as ->.
  { destruct Hx as [(c & a & b & m & k & H & Hm & Hk & Hb & E) _], Hj as [(c' & a' & b' & m' & k' & H' & Hm' & Hk' & Hb' & E') _].
    assert (slab_of s rings j c' a' b') as H2.
    { apply (all_slabs_spec _ _ _ K), (all_slabs_spec _ _ _ Kr). done. }
    symmetry. apply (used_fun _ _ _ _ _ x K); [by exists c, a, b, m, k|by exists c', a', b', m', k']. }
  destruct (kfree_any res s r i x o 1 Kr Hj Ho) as (s' & r' & E & K' & Hfr & Hl & Hp).
  exists s'. split; [exact E|]. split; [|split; [by apply (live_freed _ _ _ _ _ Kr K')|done]].
  exists r'. cbn [mem tables_of frames_of statics]. split_and!; [done| | |done].
  - intros t Hin. apply elem_of_difference in Hin as [Hin Hne]. rewrite elem_of_singleton in Hne. apply Hfr. split; [by apply Ht|done].
  - intros f Hin. destruct (Hf f Hin) as (pg & -> & Hpg). exists pg. split; [done|]. by apply Hl.
Qed.

(** Objects in use are not in pages of the kernel, and a table has its addresses for itself. *)
Lemma live_static s rings i x t o : kinv res s rings -> live_at s rings i x -> static_ok t ->
  0 <= o < 2 ^ (5 + Z.of_nat i) -> ~ t <= x + o < t + 2 ^ 12.
Proof.
  intros K [(c & a & b & m & j & H & _ & Hj & _ & ->) _] (_ & pg & Hr & H1 & H2) Ho Hx.
  destruct (cache_size_at _ _ _ _ _ K (proj1 H)) as [_ Es]. rewrite <- Es in Ho.
  destruct (sg_count _ _ _ _ _ (ki_slab _ _ _ K _ _ _ _ H)) as [_ Hc].
  destruct (slab_va _ _ _ K _ _ _ _ H) as (p & _ & E1 & _ & _ & Hn). apply Hn. replace p with pg; [done|].
  apply (in_page_unique pg p (b.(Vaddress) + c.(size) * j + o)); unfold in_page; [lia|rewrite E1; nia].
Qed.

Lemma table_with_spec h rings t o : kinv res h.(mem) rings -> (forall t, t ∈ h.(tables_of) -> live_at h.(mem) rings 7 t) ->
  (forall t, t ∈ h.(statics) -> static_ok t) ->
  t ∈ h.(tables_of) ∪ h.(statics) -> 0 <= o < 2 ^ 12 -> table_with (t + o) h = Some t.
Proof.
  intros K Hts Hss Ht Ho. unfold table_with. apply find_unique.
  - by apply elem_of_elements.
  - apply andb_true_iff. rewrite Z.leb_le, Z.ltb_lt. change PAGE_4K_SIZE with (2 ^ 12). lia.
  - intros y Hy Hb. apply elem_of_elements in Hy. apply andb_true_iff in Hb. rewrite Z.leb_le, Z.ltb_lt in Hb.
    change PAGE_4K_SIZE with (2 ^ 12) in Hb. change (2 ^ 12) with (2 ^ (5 + Z.of_nat 7)) in Hb, Ho.
    apply elem_of_union in Hy as [Hy|Hy], Ht as [Ht|Ht].
    + by apply (live_apart _ rings 7 7 y t (t + o - y) o K (Hts y Hy) (Hts t Ht)); lia.
    + exfalso. apply (live_static _ rings 7 y t (t + o - y) K (Hts y Hy) (Hss t Ht)); change (2 ^ 12) with (2 ^ (5 + Z.of_nat 7)); lia.
    + exfalso. apply (live_static _ rings 7 t y o K (Hts t Ht) (Hss y Hy)); change (2 ^ 12) with (2 ^ (5 + Z.of_nat 7)); lia.
    + destruct (Hss y Hy) as [M1 _], (Hss t Ht) as [M2 _]. change (2 ^ (5 + Z.of_nat 7)) with (2 ^ 12) in *.
      apply Z.mod_divide in M1 as [p ->], M2 as [q ->]; lia.
Qed.

(** Giving back a table, by an address in it. *)
Lemma heap_kfree_table t o h : heap_ok h -> t ∈ h.(tables_of) ∪ h.(statics) -> 0 <= o < 2 ^ 12 -> t + o ∉ live_set h.(mem) ->
  exists r s', heap_kfree (t + o) h = Some (r, mkHeap s' (h.(tables_of) ∖ {[ t ]}) h.(frames_of) (h.(statics) ∖ {[ t ]})) /\
    heap_ok (mkHeap s' (h.(tables_of) ∖ {[ t ]}) h.(frames_of) (h.(statics) ∖ {[ t ]})) /\
    live_set s' = live_set h.(mem) ∖ {[ t ]} /\ forall n, has_pages h.(mem).(pm) n -> has_pages s'.(pm) n.
Proof.
  intros H Hin Ho Hnl. pose proof H as (rings & K & Ht & Hf & Hs). unfold heap_kfree. rewrite decide_False by done.
  rewrite (table_with_spec h rings t o K Ht Hs Hin Ho). cbn [mbind option_bind]. destruct (decide (t ∈ h.(tables_of))) as [Hin'|Hni].
  - destruct (kfree_in h.(mem) rings 7 t o h.(tables_of) h.(frames_of) h.(statics) K (Ht t Hin')) as (s' & Ek & (r & K' & H1 & H2 & H3) & Hl & Hp);
      [by change (2 ^ (5 + Z.of_nat 7)) with (2 ^ 12)|by destruct h|].
    exists 1, s'. rewrite Ek. split_and!; [done| |done|done]. exists r. split_and!; [done..|].
    intros u Hu. apply H3. by apply elem_of_difference in Hu as [Hu _].
  - assert (t ∈ h.(statics)) as His by set_solver. destruct (Hs t His) as (_ & pg & Hr & U1 & U2).
    change FUEL with 3%nat. rewrite (kfree_outside res h.(mem) rings (t + o) pg 2 K Hr) by (unfold in_page; lia). exists 0, h.(mem). split; [done|]. split.
    + exists rings. cbn [mem tables_of frames_of statics]. split_and!; [done| |done|];
        intros u Hu; apply elem_of_difference in Hu as [Hu _]; auto.
    + split; [|done]. apply leibniz_equiv. intros x. rewrite elem_of_difference, elem_of_singleton. split; [|by intros [? _]].
      intros Hx. split; [done|]. intros ->. apply (live_set_spec _ _ _ K) in Hx as [i Hi].
      apply (live_static _ rings i t t 0 K Hi (Hs t His)); [split; [lia|apply Z.pow_pos_nonneg; lia]|lia].
Qed.

Lemma heap_kfree_ok a h r h' : heap_ok h -> heap_kfree a h = Some (r, h') -> heap_ok h'.
Proof.
  intros H E. pose proof H as (rings & K & Ht & _ & Hs). destruct (decide (a ∈ live_set h.(mem))) as [Ha|Ha].
  - unfold heap_kfree in E. rewrite decide_True in E by done. apply (live_set_spec _ _ _ K) in Ha as [i Hi].
    destruct (kfree_in h.(mem) rings i a 0 h.(tables_of) h.(frames_of) h.(statics) K Hi) as (s' & Ek & H' & _).
    + split; [lia|]. apply Z.pow_pos_nonneg; lia.
    + by destruct h.
    + rewrite Z.add_0_r in Ek. rewrite Ek in E. cbn [mbind option_bind fst snd] in E. by injection E as <- <-.
  - assert (exists t, table_with a h = Some t) as [t Et].
    { unfold heap_kfree in E. rewrite decide_False in E by done. apply bind_Some in E as (t & Et & _). by exists t. }
    unfold table_with in Et. apply List.find_some in Et as [Hin Hb]. apply list_elem_of_In, elem_of_elements in Hin.
    apply andb_true_iff in Hb. rewrite Z.leb_le, Z.ltb_lt in Hb. change PAGE_4K_SIZE with (2 ^ 12) in Hb.
    destruct (heap_kfree_table t (a - t) h H Hin) as (r' & s' & E' & H' & _); [lia|by replace (t + (a - t)) with a by lia|].
    replace (t + (a - t)) with a in E' by lia. rewrite E in E'. by injection E' as -> ->.
Qed.

Lemma live_not_static h x : heap_ok h -> x ∈ live_set h.(mem) -> x ∉ h.(statics).
Proof.
  intros (rings & K & _ & _ & Hs) Hx Hst. apply (live_set_spec _ _ _ K) in Hx as [i Hi].
  apply (live_static _ rings i x x 0 K Hi (Hs x Hst)); [split; [lia|apply Z.pow_pos_nonneg; lia]|lia].
Qed.

(** Giving back an object by its address. *)
Lemma heap_kfree_live a h : heap_ok h -> a ∈ live_set h.(mem) ->
  exists s', heap_kfree a h = Some (1, mkHeap s' (h.(tables_of) ∖ {[ a ]}) h.(frames_of) h.(statics)) /\
    live_set s' = live_set h.(mem) ∖ {[ a ]} /\ forall n, has_pages h.(mem).(pm) n -> has_pages s'.(pm) n.
Proof.
  intros H Ha. pose proof H as (rings & K & _). pose proof Ha as Ha'. apply (live_set_spec _ _ _ K) in Ha' as [i Hi].
  destruct (kfree_in h.(mem) rings i a 0 h.(tables_of) h.(frames_of) h.(statics) K Hi) as (s' & Ek & _ & Hl & Hp).
  { split; [lia|]. apply Z.pow_pos_nonneg; lia. }
  { by destruct h. }
  rewrite Z.add_0_r in Ek. exists s'. split; [|done]. unfold heap_kfree. by rewrite decide_True, Ek by done.
Qed.

(** A page for a process: there is one, or none is free. *)
Lemma heap_take_frame_run h : heap_ok h ->
  heap_take_frame h = Some (None, h) /\ (forall n, ~ has_pages h.(mem).(pm) (S n)) \/
  exists f h', heap_take_frame h = Some (Some f, h') /\ heap_ok h' /\ f ∉ h.(frames_of) /\
    h'.(tables_of) = h.(tables_of) /\ h'.(frames_of) = {[ f ]} ∪ h.(frames_of) /\ live_set h'.(mem) = live_set h.(mem) /\
    h'.(statics) = h.(statics) /\ forall n, has_pages h.(mem).(pm) (S n) -> has_pages h'.(mem).(pm) n.
Proof.
  intros (rings & K & Ht & Hf & Hs). unfold heap_take_frame. cbn [take_frame kmem_frames].
  destruct (alloc_page_ok h.(mem).(pm) PG_PTable_Maped (ki_pm _ _ _ K)) as [[-> Hn]|(pg & p & d & -> & Hfr & S & Kp & Hd)];
    cbn [mbind option_bind fst snd].
  - left. split; [|done]. rewrite set_pm_id. by destruct h.
  - right. pose proof Hd as (-> & Hphy & _). cbn [mbind option_bind fst snd]. rewrite Hphy.
    pose proof (shift_held_true _ _ _ _ S Hfr Hd) as Hh.
    destruct (page_taken res h.(mem) rings pg p K Hfr S Kp Hh) as (K' & Hl & Hlo).
    eexists _, _. split; [reflexivity|]. cbn [mem tables_of frames_of statics]. split_and!; try done.
    + exists rings. cbn [mem tables_of frames_of statics]. split_and!; [done|done| |done]. intros f Hin. apply elem_of_union in Hin as [Hin|Hin].
      * apply elem_of_singleton in Hin as ->. by exists pg.
      * destruct (Hf f Hin) as (pg' & -> & Hpg). exists pg'. split; [done|]. by apply Hlo.
    + intros Hin. destruct (Hf _ Hin) as (pg' & E & Hpg). assert (pg' = pg) as -> by lia. by destruct (Hlo pg Hpg).
    + intros n. by apply (has_pages_take pg).
Qed.

Lemma heap_take_frame_ok h a h' : heap_ok h -> heap_take_frame h = Some (a, h') -> heap_ok h'.
Proof.
  intros H E. destruct (heap_take_frame_run h H) as [[E' _]|(f & h1 & E' & H1 & _)]; rewrite E in E'; by injection E' as -> ->.
Qed.

Lemma heap_give_frame_run e f a h : heap_ok h -> f ∈ h.(frames_of) -> 0 <= a < 2 ^ 21 -> e = f + a ->
  exists h', heap_give_frame e h = Some (tt, h') /\ heap_ok h' /\ h'.(frames_of) = h.(frames_of) ∖ {[ f ]} /\
    h'.(tables_of) = h.(tables_of) /\ live_set h'.(mem) = live_set h.(mem) /\ h'.(statics) = h.(statics).
Proof.
  intros (rings & K & Ht & Hf & Hs) Hin Ha ->. destruct (Hf f Hin) as (pg & -> & Hl).
  assert ((2 ^ 21 * pg + a) .>> PAGE_2M_SHIFT = pg) as Epg.
  { unfold PAGE_2M_SHIFT. rewrite Z.shiftr_div_pow2 by lia. rewrite (Z.mul_comm (2 ^ 21)), Z.div_add_l, Z.div_small by lia. lia. }
  destruct (free_page_ok h.(mem).(pm) h.(mem).(pm) pg (ki_pm _ _ _ K) (proj1 Hl) (touched_refl _ _)) as (p & Ep & S & Kp & _).
  unfold heap_give_frame. rewrite Epg. rewrite bool_decide_eq_true_2 by done. cbn [guard_fault mbind option_bind].
  cbn [give_frame kmem_frames]. rewrite Epg, Ep. cbn [mbind option_bind].
  destruct (page_given res h.(mem) rings pg p K Hl S Kp) as [K' Hlo].
  eexists. split; [reflexivity|]. cbn [mem tables_of frames_of statics]. split_and!; try done.
  exists rings. cbn [mem tables_of frames_of statics]. split_and!; [done|done| |done]. intros f' Hin'. apply elem_of_difference in Hin' as [Hin' Hne].
  rewrite elem_of_singleton in Hne. destruct (Hf f' Hin') as (pg' & -> & Hpg). exists pg'. split; [done|]. apply Hlo; [done|congruence].
Qed.

Lemma heap_give_frame_ok e h r h' : heap_ok h -> heap_give_frame e h = Some (r, h') -> heap_ok h'.
Proof.
  intros H E. pose proof E as E'. unfold heap_give_frame in E'. apply bind_Some in E' as ([] & G & _).
  assert (2 ^ 21 * (e .>> PAGE_2M_SHIFT) ∈ h.(frames_of)) as Hin.
  { destruct (bool_decide _) eqn:Eb; [|done]. by apply bool_decide_eq_true in Eb. }
  destruct (heap_give_frame_run e _ (e mod 2 ^ 21) h H Hin) as (h2 & E2 & H2 & _).
  - apply Z.mod_pos_bound. lia.
  - unfold PAGE_2M_SHIFT. rewrite Z.shiftr_div_pow2 by lia. apply Z_div_mod_eq_full.
  - rewrite E in E2. by injection E2 as _ ->.
Qed.
End Heap.

(** ** The instances *)

(** The result of an operation, with the proof that the state is as it should be. *)
Definition certify {S A : Type} {P : S -> Prop} (r : option (A * S)) : (forall a s, r = Some (a, s) -> P s) -> option (A * sig P) :=
  match r as r return (forall a s, r = Some (a, s) -> P s) -> option (A * sig P) with
  | Some (a, s) => fun H => Some (a, s ↾ H a s eq_refl)
  | None => fun _ => None
  end.

Section Certify.
Context {S A : Type} {P : S -> Prop} (r : option (A * S)) (H : forall a s, r = Some (a, s) -> P s).

Lemma certify_some a s : r = Some (a, s) -> exists h, certify r H = Some (a, h) /\ `h = s.
Proof using Type. destruct r as [[a' s']|]; [|done]. intros E. injection E as <- <-. by eexists. Qed.

Lemma certify_inv a h : certify r H = Some (a, h) -> r = Some (a, `h).
Proof using Type. destruct r as [[a' s']|]; [|done]. cbn. intros E. by injection E as <- <-. Qed.
End Certify.

(** The heap of the kernel; [res] are the pages of its static structures. *)
Definition kheap (res : Z -> Prop) : Type := sig (heap_ok res).

Section Instances.
Context (res : Z -> Prop).

#[export] Instance kheap_allocator : Allocator (kheap res) := {|
  alloc n h := certify (heap_kmalloc n (`h)) (fun a h' E => proj1 (heap_kmalloc_ok res n (`h) a h' (proj2_sig h) E));
  release a h := certify (heap_kfree a (`h)) (fun r h' E => heap_kfree_ok res a (`h) r h' (proj2_sig h) E)
|}.

(** One object takes three pages at most: one for its slab, and one for a slab of each small cache that
    holds the structures of the slab. *)
#[export] Program Instance kheap_laws : AllocatorLaws (kheap res) := {|
  room h k := has_pages (`h).(mem).(pm) (3 * k);
  live h := live_set (`h).(mem) ∪ (`h).(statics)
|}.
Next Obligation.
  cbn. intros n h a h' E. apply certify_inv in E. destruct (heap_kmalloc_ok res n (`h) a (`h') (proj2_sig h) E)
    as [H' [(-> & E')|(Ha & _ & Hn & Hl & _ & _ & Hs)]]; [left; split; [done|by rewrite E']|right].
  assert (a ∉ (`h').(statics)) as Hns.
  { apply (live_not_static res _ _ H'). rewrite Hl. apply elem_of_union_l, elem_of_singleton. reflexivity. }
  rewrite Hs in Hns. destruct (union_taken _ _ _ Hn Hns) as [U1 U2]. rewrite Hl, Hs. split; [exact Ha|]. by split.
Qed.
Next Obligation.
  cbn. intros n h k Hn Hr. destruct (heap_kmalloc_some res n (`h) (3 * k) (proj2_sig h) Hn) as (a & h1 & E & Ha & Hp).
  { by replace (3 + 3 * k)%nat with (S k + (S k + (S k + 0)))%nat by lia. }
  destruct (certify_some _ (fun a h' E => proj1 (heap_kmalloc_ok res n (`h) a h' (proj2_sig h) E)) a h1 E) as (h' & E' & <-).
  by exists a, h'.
Qed.
Next Obligation.
  cbn. intros a h Ha. pose proof (proj2_sig h) as H. pose proof H as (rings & K & _).
  destruct (decide (a ∈ live_set (`h).(mem))) as [Hin|Hni].
  - pose proof (live_not_static res _ _ H Hin) as Hns. destruct (heap_kfree_live res _ _ H Hin) as (s' & E & Hl & Hp).
    destruct (certify_some _ (fun r h' E => heap_kfree_ok res a (`h) r h' (proj2_sig h) E) 1 _ E) as (h' & E' & Eh).
    exists 1, h'. rewrite Eh. cbn [mem statics]. rewrite Hl. split_and!; [done|by apply union_freed_l|]. intros k. apply Hp.
  - assert (a ∈ (`h).(tables_of) ∪ (`h).(statics)) as Hst by set_solver.
    destruct (heap_kfree_table res a 0 (`h) H Hst) as (r & s' & E & _ & Hl & Hp); [lia|by rewrite Z.add_0_r|]. rewrite Z.add_0_r in E.
    destruct (certify_some _ (fun r h' E => heap_kfree_ok res a (`h) r h' (proj2_sig h) E) r _ E) as (h' & E' & Eh).
    exists r, h'. rewrite Eh. cbn [mem statics]. rewrite Hl. split_and!; [done|apply union_freed|]. intros k. apply Hp.
Qed.
Next Obligation. cbn. intros h k. apply has_pages_less. lia. Qed.

End Instances.

(** The first page is the kernel's. *)
Class Kernel_pages (res : Z -> Prop) := page_zero : res 0.

Section Pages.
Context (res : Z -> Prop) `{!Kernel_pages res}.

(** Objects are aligned to their size, and lie in the page of their slab. *)
Lemma live_place s rings i x : kinv res s rings -> live_at s rings i x ->
  PAGE_OFFSET < x /\ x + 2 ^ (5 + Z.of_nat i) <= 2 ^ 64 /\ x mod 2 ^ (5 + Z.of_nat i) = 0 /\
  exists c a b pg, slab_of s rings i c a b /\ b.(page) = Some pg /\ ~ res pg /\ page_va pg <= x /\ x + 2 ^ (5 + Z.of_nat i) <= page_va pg + 2 ^ 21.
Proof using All.
  intros K [(c & a & b & m & j & H & _ & Hj & _ & ->) _]. destruct (cache_size_at _ _ _ _ _ K (proj1 H)) as [Hi Es].
  destruct (sg_count _ _ _ _ _ (ki_slab _ _ _ K _ _ _ _ H)) as [_ Hc].
  destruct (slab_va _ _ _ K _ _ _ _ H) as (pg & Ep & E1 & Hpg & _ & Hn).
  assert (pg <> 0) as Hpos by (intros ->; by apply Hn).
  assert (2 ^ (5 + Z.of_nat i) * 2 ^ (16 - Z.of_nat i) = 2 ^ 21) as Ed by (rewrite <- Z.pow_add_r by lia; f_equal; lia).
  rewrite Es in *. set (z := 2 ^ (5 + Z.of_nat i)) in *. assert (0 < z) as Hz by (apply Z.pow_pos_nonneg; lia).
  set (w := 2 ^ (16 - Z.of_nat i)) in *.
  assert (b.(Vaddress) + z * j + z <= page_va pg + 2 ^ 21 /\ page_va pg <= b.(Vaddress) + z * j) as [U1 U2] by (rewrite E1; nia).
  split; [unfold page_va in U2; nia|]. split; [unfold page_va, PAGE_OFFSET in U1; lia|]. split.
  - rewrite E1. unfold page_va, PAGE_OFFSET. change 0xffff800000000000 with (2 ^ 21 * 0x7fffc000000). rewrite <- Ed.
    replace (z * w * 0x7fffc000000 + z * w * pg + z * j) with ((w * 0x7fffc000000 + w * pg + j) * z) by lia. apply Z_mod_mult.
  - by exists c, a, b, pg.
Qed.

#[export] Instance kheap_frames : Frames (kheap res) := {|
  take_frame h := certify (heap_take_frame (`h)) (fun a h' E => heap_take_frame_ok res (`h) a h' (proj2_sig h) E);
  give_frame e h := snd <$> certify (heap_give_frame e (`h)) (fun a h' E => heap_give_frame_ok res e (`h) a h' (proj2_sig h) E)
|}.

Lemma alloc_cases n (h : kheap res) a h' : alloc n h = Some (a, h') ->
  a = 0 /\ `h' = `h \/
  a <> 0 /\ (exists i, cache_index kmalloc_cache_size_init n 0 = Some i /\ exists rings', kinv res (`h').(mem) rings' /\ live_at (`h').(mem) rings' i a) /\
  a ∉ live_set (`h).(mem) /\ live_set (`h').(mem) = {[ a ]} ∪ live_set (`h).(mem) /\
  (`h').(tables_of) = (if n =? PAGE_4K_SIZE then {[ a ]} ∪ (`h).(tables_of) else (`h).(tables_of)) /\ (`h').(frames_of) = (`h).(frames_of) /\
  (`h').(statics) = (`h).(statics).
Proof using Type. intros E. apply certify_inv in E. apply (heap_kmalloc_ok res n _ _ _ (proj2_sig h) E). Qed.

Lemma take_cases (h : kheap res) : 
  (exists h', take_frame h = Some (None, h') /\ `h' = `h /\ forall n, ~ has_pages (`h).(mem).(pm) (S n)) \/
  exists f h', take_frame h = Some (Some f, h') /\ f ∉ (`h).(frames_of) /\
    (`h').(tables_of) = (`h).(tables_of) /\ (`h').(frames_of) = {[ f ]} ∪ (`h).(frames_of) /\ live_set (`h').(mem) = live_set (`h).(mem) /\
    (`h').(statics) = (`h).(statics) /\ forall n, has_pages (`h).(mem).(pm) (S n) -> has_pages (`h').(mem).(pm) n.
Proof using Type.
  pose proof (certify_some (heap_take_frame (`h)) (fun a h' E => heap_take_frame_ok res (`h) a h' (proj2_sig h) E)) as C.
  destruct (heap_take_frame_run res (`h) (proj2_sig h)) as [[E Hn]|(f & h1 & E & _ & H)].
  - left. destruct (C _ _ E) as (h' & E' & Eh). by exists h'.
  - right. destruct (C _ _ E) as (h' & E' & <-). by exists f, h'.
Qed.

#[export] Program Instance kheap_paging : PagingLaws (kheap res) := {|
  tables h := (`h).(tables_of) ∪ (`h).(statics);
  frames h := (`h).(frames_of);
  capacity h j k := has_pages (`h).(mem).(pm) (3 * j + k)
|}.
Next Obligation.
  cbn. intros [h H] f Hin. cbn in Hin. destruct H as (rings & K & _ & Hf & _). destruct (Hf f Hin) as (pg & -> & (Hb & _) & _).
  pose proof (po_bits _ (ki_pm _ _ _ K)). unfold valid_frame. split_and!; [lia|lia|]. rewrite Z.mul_comm. apply Z_mod_mult.
Qed.
Next Obligation.
  cbn. intros [h H]. cbn in *. destruct H as (rings & K & Ht & _).
  assert (h.(tables_of) ⊆ live_set h.(mem)); [|set_solver]. intros t Hin. apply (live_set_spec _ _ _ K). exists 7%nat. by apply Ht.
Qed.
Next Obligation.
  cbn. intros [h H] t f Hin Hfin. cbn in *. destruct H as (rings & K & Ht & Hf & Hs). destruct (Hf f Hfin) as (pg & -> & Hl).
  assert (exists pg', pg' <> pg /\ page_va pg' <= t /\ t + 2 ^ 12 <= page_va pg' + 2 ^ 21) as (pg' & Hne & U1 & U2).
  { apply elem_of_union in Hin as [Hin|Hin].
    - destruct (live_place _ _ _ _ K (Ht t Hin)) as (_ & _ & _ & c & a & b & pg' & H & Ep & _ & U1 & U2).
      exists pg'. split_and!; [intros ->; by apply (proj2 (proj2 Hl) _ _ _ _ H)|done|done].
    - destruct (Hs t Hin) as (_ & pg' & Hr & U1 & U2). exists pg'. split_and!; [intros ->; by apply Hl|done|done]. }
  destruct Hl as ((Hb & _) & _). pose proof (po_bits _ (ki_pm _ _ _ K)).
  unfold Phy_To_Virt, page_va, PAGE_OFFSET in *. rewrite u64_small by lia. lia.
Qed.
Next Obligation.
  cbn. intros h a h' E Ha. destruct (alloc_cases _ _ _ _ E) as [[-> _]|(_ & (i & Hi & rings & K & Hl) & _ & _ & -> & _ & ->)]; [done|].
  rewrite Z.eqb_refl. split; [|by rewrite (assoc_L (∪))]. assert (i = 7%nat) as -> by (vm_compute in Hi; congruence).
  destruct (live_place _ _ _ _ K Hl) as (U1 & U2 & U3 & _). change (2 ^ (5 + Z.of_nat 7)) with (2 ^ 12) in *. by split_and!.
Qed.
Next Obligation.
  cbn. intros n h a h' E Hn. destruct (alloc_cases _ _ _ _ E) as [[_ ->]|(_ & _ & _ & _ & -> & _ & ->)]; [done|].
  by rewrite (proj2 (Z.eqb_neq _ _) Hn).
Qed.
Next Obligation. cbn. intros n h a h' E. destruct (alloc_cases _ _ _ _ E) as [[_ ->]|(_ & _ & _ & _ & _ & -> & _)]; done. Qed.
Next Obligation.
  cbn. intros n h j k Hn Hr. destruct (heap_kmalloc_some res n (`h) (3 * j + k) (proj2_sig h) Hn) as (a & h1 & E & Ha & Hp).
  { by replace (3 + (3 * j + k))%nat with (S j + (S j + (S j + 0)) + k)%nat by lia. }
  destruct (certify_some _ (fun a h' E => proj1 (heap_kmalloc_ok res n (`h) a h' (proj2_sig h) E)) a h1 E) as (h' & E' & <-).
  by exists a, h'.
Qed.
Next Obligation. cbn. intros h. destruct (take_cases h) as [(h' & E & _)|(f & h' & E & _)]; by eexists. Qed.
Next Obligation.
  cbn. intros h p h' E. destruct (take_cases h) as [(h1 & E1 & Eh & _)|(f & h1 & E1 & H1 & H2 & H3 & H4 & H5 & _)].
  - assert (Some (p, h') = Some (None, h1)) as [= -> ->] by (by rewrite <- E, <- E1). by rewrite Eh.
  - assert (Some (p, h') = Some (Some f, h1)) as [= -> ->] by (by rewrite <- E, <- E1). rewrite H2, H4, H5. by split_and!.
Qed.
Next Obligation. cbn. intros h j k. apply has_pages_less. lia. Qed.
Next Obligation. cbn. intros h j k. apply has_pages_less. lia. Qed.
Next Obligation.
  cbn. intros h j k Hp. destruct (take_cases h) as [(h1 & _ & _ & Hn)|(f & h1 & E & _ & _ & _ & _ & _ & Hp1)].
  - exfalso. apply (Hn (j + (j + (j + 0)) + k)%nat). by replace (S (j + (j + (j + 0)) + k)) with (j + (j + (j + 0)) + S k)%nat by lia.
  - exists f, h1. split; [done|]. apply Hp1. by replace (S (j + (j + (j + 0)) + k)) with (j + (j + (j + 0)) + S k)%nat by lia.
Qed.
Next Obligation.
  cbn. intros h f a Hf Ha. destruct (heap_give_frame_run res (f + a) f a (`h) (proj2_sig h) Hf Ha eq_refl) as (h1 & E & _ & H1 & H2 & H3 & H4).
  destruct (certify_some _ (fun r h' E => heap_give_frame_ok res (f + a) (`h) r h' (proj2_sig h) E) tt h1 E) as (h' & E' & Eh).
  exists h'. rewrite E', Eh, H2, H3, H4. by split_and!.
Qed.
Next Obligation.
  cbn. intros h t a Ht Ha. pose proof (proj2_sig h) as H. pose proof H as (rings & K & Hts & _ & Hs).
  destruct (decide (t + a ∈ live_set (`h).(mem))) as [Hin|Hin].
  - pose proof Hin as Hin'. apply (live_set_spec _ _ _ K) in Hin' as [i Hi].
    assert (t = t + a /\ t ∉ (`h).(statics)) as [Et Hns].
    { destruct (decide (t ∈ (`h).(statics))) as [Hst|Hns].
      - exfalso. apply (live_static _ _ rings i (t + a) t 0 K Hi (Hs t Hst)); [split; [lia|apply Z.pow_pos_nonneg; lia]|lia].
      - split; [|done]. apply elem_of_union in Ht as [Ht|Ht]; [|done].
        apply (live_apart res _ rings 7 i t (t + a) a 0 K (Hts t Ht) Hi); [by change (2 ^ (5 + Z.of_nat 7)) with (2 ^ 12)| |lia].
        split; [lia|]. apply Z.pow_pos_nonneg; lia. }
    rewrite <- Et in *. destruct (heap_kfree_live res _ _ H Hin) as (s' & E & Hl & _).
    destruct (certify_some _ (fun r h' E => heap_kfree_ok res t (`h) r h' (proj2_sig h) E) 1 _ E) as (h' & E' & Eh).
    exists 1, h'. rewrite Eh. cbn [mem tables_of frames_of statics]. rewrite Hl. split_and!; [done|by apply union_freed_l..|done].
  - destruct (heap_kfree_table res t a (`h) H Ht) as (r & s' & E & _ & Hl & _); [done|done|].
    destruct (certify_some _ (fun r h' E => heap_kfree_ok res (t + a) (`h) r h' (proj2_sig h) E) r _ E) as (h' & E' & Eh).
    exists r, h'. rewrite Eh. cbn [mem tables_of frames_of statics]. rewrite Hl. split_and!; [done|apply union_freed..|done].
Qed.
Next Obligation.
  cbn. intros h a r h' E Ha. apply certify_inv in E. pose proof (proj2_sig h) as H.
  assert (a ∈ live_set (`h).(mem) /\ a ∉ (`h).(tables_of)) as [Hin Hn] by set_solver.
  destruct (heap_kfree_live res _ _ H Hin) as (s' & E' & _). rewrite E' in E. injection E as _ Eh.
  rewrite <- Eh. cbn [tables_of frames_of statics]. split; [|done]. set_solver.
Qed.

(** The memory of a task lies in a page of its own cache, apart from the kernel's static structures. *)
#[export] Program Instance kheap_tasks : TaskLaws (kheap res) := {|
  task_range a := 0 < a /\ a + STACK_SIZE <= 2 ^ 64 /\ a mod STACK_SIZE = 0 /\
    exists pg, ~ res pg /\ page_va pg <= a /\ a + STACK_SIZE <= page_va pg + 2 ^ 21
|}.
Next Obligation. intros a (H1 & H2 & H3 & _). by split_and!. Qed.
Next Obligation.
  intros h a h' E Ha. destruct (alloc_cases _ _ _ _ E) as [[-> _]|(_ & (i & Hi & rings & K & Hl) & _)]; [done|].
  assert (i = 10%nat) as -> by (vm_compute in Hi; congruence).
  destruct (live_place _ _ _ _ K Hl) as (U1 & U2 & U3 & _ & _ & _ & pg & _ & _ & Hn & U4 & U5).
  change (2 ^ (5 + Z.of_nat 10)) with STACK_SIZE in *.
  split_and!; [unfold PAGE_OFFSET in U1; lia|done|done|]. by exists pg.
Qed.

(** The static task and the run queue, in pages of the kernel, are apart from the memory of every task. *)
Lemma kernel_boot_ok queue init_union pg pg' : res pg -> page_va pg <= init_union ->
  init_union + sizeof_task_struct <= page_va pg + 2 ^ 21 -> 0 <= pg < 2 ^ 26 -> res pg' -> in_page pg' queue ->
  boot_ok (M := kheap res) queue init_union.
Proof using Type.
  intros Hr H1 H2 Hpg Hr' Hq. constructor.
  - unfold in_memory, page_va, PAGE_OFFSET in *. lia.
  - intros a (_ & _ & _ & p & Hp & H3 & H4). assert (p <> pg) as Hne by (by intros ->). unfold page_va in *. lia.
  - intros a (_ & _ & _ & p & Hp & H3 & H4) Ha. apply Hp. replace p with pg'; [done|].
    apply (in_page_unique pg' p queue); [done|]. unfold in_page. lia.
Qed.
End Pages.

(** ** What the kernel can rely on *)

Lemma cache_index_least cs sz : forall k i, cache_index cs sz k = Some i ->
  (k <= i)%nat /\ (exists c, cs !! (i - k)%nat = Some c /\ sz <= c.(size)) /\
  forall j c, (j < i - k)%nat -> cs !! j = Some c -> c.(size) < sz.
Proof.
  induction cs as [|c cs IH]; intros k i E; [done|]. cbn in E. destruct (Z.leb_spec sz c.(size)) as [Hc|Hc].
  - injection E as ->. split_and!; [lia|exists c; by rewrite Nat.sub_diag|intros j d Hj; lia].
  - destruct (IH _ _ E) as (Hk & (d & Hd & Hs) & Hl). replace (i - k)%nat with (S (i - S k)) by lia. split_and!; [lia|by exists d|].
    intros [|j] e Hj He; [by injection He as <-|]. apply (Hl j); [lia|done].
Qed.

(** Size [sz] is served from the cache of the least sufficient power of two. *)
Lemma cache_index_class s res rings sz i : kinv res s rings -> cache_index s.(kmalloc_cache_size) sz 0 = Some i ->
  sz <= 2 ^ (5 + Z.of_nat i) /\ (i = 0%nat \/ 2 ^ (4 + Z.of_nat i) < sz).
Proof.
  intros K E. destruct (cache_index_least _ _ _ _ E) as (_ & (c & Hc & Hs) & Hl). rewrite Nat.sub_0_r in *.
  destruct (cache_size_at _ _ _ _ _ K Hc) as [_ Es]. split; [by rewrite <- Es|].
  destruct i as [|i]; [by left|right]. destruct (lookup_lt_is_Some_2 s.(kmalloc_cache_size) i) as [d Hd].
  { apply lookup_lt_Some in Hc. lia. }
  destruct (cache_size_at _ _ _ _ _ K Hd) as [_ Ed]. specialize (Hl i d ltac:(lia) Hd). rewrite Ed in Hl.
  by replace (4 + Z.of_nat (S i)) with (5 + Z.of_nat i) by lia.
Qed.

Section Kernel.
Context (res : Z -> Prop) `{!Kernel_pages res} (s : kmem) (rings : nat -> list Z) (K : kinv res s rings).

(** C4. [kmalloc] in every state of the allocator, also when a new slab has to be made, which takes a
    page and two smaller objects: a request above 1 MB is refused and nothing changes; any other one is
    served while three pages are free.  The object has the least power of two that is enough, at least
    32 bytes, is aligned to its size and lies apart from every object in use; it is in use afterwards,
    and so are the others, and no page that is lent to a process is touched. *)
Theorem kmalloc_fresh sz gfp :
  (2 ^ 20 < sz -> kmalloc FUEL sz gfp s = Some (0, s)) /\
  (sz <= 2 ^ 20 -> has_pages s.(pm) 3 -> exists x s' rings' i, kmalloc FUEL sz gfp s = Some (x, s') /\ kinv res s' rings' /\
    sz <= 2 ^ (5 + Z.of_nat i) /\ (i = 0%nat \/ 2 ^ (4 + Z.of_nat i) < sz) /\
    PAGE_OFFSET < x /\ x + 2 ^ (5 + Z.of_nat i) <= 2 ^ 64 /\ x mod 2 ^ (5 + Z.of_nat i) = 0 /\
    (forall j y, live_at s rings j y -> x + 2 ^ (5 + Z.of_nat i) <= y \/ y + 2 ^ (5 + Z.of_nat j) <= x) /\
    live_at s' rings' i x /\ live_set s' = {[ x ]} ∪ live_set s /\
    (forall pg, lent res s rings pg -> lent res s' rings' pg) /\ (forall n, has_pages s.(pm) (3 + n) -> has_pages s'.(pm) n)).
Proof using All.
  pose proof (kmalloc_any res s rings sz gfp 1 K) as H. change FUEL with 3%nat. split.
  - intros Hsz. cbn [kmalloc]. by rewrite (proj2 (Z.ltb_lt _ _)) by lia.
  - intros Hsz Hp. destruct (kmalloc 3 sz gfp s) as [[x s']|]; [|by exfalso; apply H].
    destruct H as [(_ & _ & Hno)|(i & rings' & _ & Hi & K' & Ht & Hl & Hpg)]; [by destruct (Hno Hsz)|].
    destruct (cache_index_class _ _ _ _ _ K Hi) as [C1 C2]. pose proof Ht as (_ & Hn & Hv).
    assert (live_at s' rings' i x) as Hx by (apply Hv; by right).
    destruct (live_place res s' rings' i x K' Hx) as (P1 & P2 & P3 & _). destruct (live_taken _ _ _ _ _ _ _ K K' Ht) as [_ L2].
    exists x, s', rings', i. split_and!; try done. intros j y Hy.
    assert (live_at s' rings' j y) as Hy' by (apply Hv; by left).
    destruct (decide (x + 2 ^ (5 + Z.of_nat i) <= y)); [by left|]. destruct (decide (y + 2 ^ (5 + Z.of_nat j) <= x)); [by right|].
    exfalso. apply (Hn j). replace x with y; [done|].
    destruct (Z.le_ge_cases x y).
    + apply (live_apart res s' rings' j i y x 0 (y - x) K' Hy' Hx); lia.
    + apply (live_apart res s' rings' j i y x (x - y) 0 K' Hy' Hx); lia.
Qed.

(** C5. [kfree] of an object in use, by any address in it, also when the slab becomes empty and is given
    back with its two structures: it reports success, the object and no other leaves the set of objects
    in use, the invariant holds, and the free and the lent pages stay so. *)
Theorem kfree_returns i x o : live_at s rings i x -> 0 <= o < 2 ^ (5 + Z.of_nat i) ->
  exists s' rings', kfree FUEL (x + o) s = Some (1, s') /\ kinv res s' rings' /\ live_set s' = live_set s ∖ {[ x ]} /\
    (forall j y, live_at s' rings' j y <-> live_at s rings j y /\ y <> x) /\
    (forall pg, lent res s rings pg -> lent res s' rings' pg) /\ forall n, has_pages s.(pm) n -> has_pages s'.(pm) n.
Proof using K.
  intros Hx Ho. destruct (kfree_any res s rings i x o 1 K Hx Ho) as (s' & rings' & E & K' & Hf & Hl & Hp).
  exists s', rings'. split_and!; [exact E|done|by apply (live_freed _ _ _ _ _ _ K K')|exact Hf|done|done].
Qed.
End Kernel.

(** ** The heap after the start *)


(** C6. Starting the kernel's heap.  When the structures [slab_init] builds fit in the page where they
    begin, which is in use, and the sixteen pages behind it are free, [slab_init] succeeds and leaves a
    heap that satisfies the laws the rest of the kernel relies on: only the page tables [boot] of the
    kernel's image are in use, no page is lent to a process, there is room for an object for every three
    of the other free pages, and for [j] tables or other objects together with [k] pages of 2 MB when
    there are three pages for each of the first and one for each of the second. *)
Theorem kernel_heap_start tmp q s boot : 0 <= q < 2 ^ 26 - 32 -> page_va q < tmp -> tmp + 2 ^ 15 < page_va q + 2 ^ 21 ->
  s.(kmalloc_cache_size) = kmalloc_cache_size_init -> pmm_ok s.(pm) -> inuse s.(pm) q ->
  (forall k, (k < 16)%nat -> free s.(pm) (q + 1 + Z.of_nat k)) ->
  (forall t, t ∈ boot -> static_ok (inuse s.(pm)) t) ->
  forall H0 : Kernel_pages (inuse s.(pm)),
  exists (s' : kmem) (e : Z) (h : kheap (inuse s.(pm))), slab_init tmp s = Some (s', e) /\ `h = mkHeap s' ∅ ∅ boot /\
    live h = boot /\ tables h = boot /\ frames h = (∅ : gset Z) /\
    (forall k, has_pages s.(pm) (16 + 3 * k) -> room h k) /\
    (forall j k, has_pages s.(pm) (16 + (3 * j + k)) -> capacity h j k).
Proof.
  intros Hq Hlo Hhi Hc Hk Hu Hf Hb H0. destruct (slab_init_ok tmp q Hq Hlo Hhi s Hc Hk Hu Hf) as (s' & e & E & _ & K & Hno & Hn & _).
  assert (heap_ok (inuse s.(pm)) (mkHeap s' ∅ ∅ boot)) as Hh.
  { exists no_rings. split_and!; [done|cbn; by intros ? ?%elem_of_empty..|done]. }
  assert (live_set s' = ∅) as Hl.
  { apply leibniz_equiv. intros x. rewrite (live_set_spec _ _ _ K), elem_of_empty. split; [|done]. intros [i [Hx _]]. by apply (Hno i x). }
  exists s', e, (mkHeap s' ∅ ∅ boot ↾ Hh). split_and!; [exact E|done|cbn; rewrite Hl; set_solver|cbn; set_solver|done|intros k; apply Hn|intros j k; apply Hn].
Qed.

(** ** A machine with 2 GB, as in deploy/ *)

#[export] Instance kernel_pages_2G : Kernel_pages (inuse kmem_2G.(pm)).
Proof. split; vm_compute; [split; [discriminate|reflexivity]|reflexivity]. Qed.

(** With the boot page tables at 0x101000, 0x102000 and 0x103000 (kernel_header.S), there is room for a heap
    that serves processes: 261 tables or other objects and two pages, as [task_init] asks for. *)
Definition boot_tables : gset Z := {[ Phy_To_Virt 0x101000; Phy_To_Virt 0x102000; Phy_To_Virt 0x103000 ]}.

Lemma boot_tables_ok t : t ∈ boot_tables -> static_ok (inuse kmem_2G.(pm)) t.
Proof.
  unfold boot_tables. rewrite !elem_of_union, !elem_of_singleton. intros [[-> | ->]| ->];
    (split; [vm_compute; reflexivity|exists 0; split; [exact kernel_pages_2G|split; vm_compute; discriminate]]).
Qed.

Lemma kernel_heap_start_witness : exists h : kheap (inuse kmem_2G.(pm)), tables h = boot_tables /\ room h 261 /\ capacity h 261 222.
Proof.
  destruct kmem_2G_ok as (H1 & H2 & H3 & H4 & H5).
  assert (page_va 1 < fst booted_2G /\ fst booted_2G + 2 ^ 15 < page_va 1 + 2 ^ 21) as [U1 U2] by (split; vm_compute; reflexivity).
  destruct (kernel_heap_start (fst booted_2G) 1 kmem_2G boot_tables ltac:(lia) U1 U2 H1 H2 H3 H4 boot_tables_ok _)
    as (s' & e & h & _ & _ & _ & Ht & _ & Hr & Hcap).
  exists h. split; [exact Ht|]. split.
  - apply Hr. exact (has_pages_less _ (16 + 3 * 261) (16 + 1005) ltac:(lia) H5).
  - apply Hcap. exact H5.
Defined.

(** The allocator of this machine, and its first object. *)
Lemma started_2G : exists s, kinv (inuse kmem_2G.(pm)) s no_rings /\ has_pages s.(pm) 3.
Proof.
  destruct kmem_2G_ok as (H1 & H2 & H3 & H4 & H5).
  assert (page_va 1 < fst booted_2G /\ fst booted_2G + 2 ^ 15 < page_va 1 + 2 ^ 21) as [U1 U2] by (split; vm_compute; reflexivity).
  destruct (slab_init_ok (fst booted_2G) 1 ltac:(lia) U1 U2 kmem_2G H1 H2 H3 H4) as (s & e & _ & _ & K & _ & Hn & _).
  exists s. split; [exact K|]. exact (has_pages_less _ 3 1005 ltac:(lia) (Hn 1005%nat H5)).
Qed.

Lemma kmalloc_live res s rings sz : kinv res s rings -> sz <= 2 ^ 20 -> has_pages s.(pm) 3 ->
  exists x s' rings' i, kmalloc FUEL sz 0 s = Some (x, s') /\ kinv res s' rings' /\ live_at s' rings' i x.
Proof.
  intros K Hsz Hp. pose proof (kmalloc_any res s rings sz 0 1 K) as H. change FUEL with 3%nat.
  destruct (kmalloc 3 sz 0 s) as [[x s']|]; [|by exfalso; apply H].
  destruct H as [(_ & _ & Hno)|(i & rings' & _ & _ & K' & Ht & _)]; [by destruct (Hno Hsz)|].
  exists x, s', rings', i. split_and!; [done|done|]. apply Ht. by right.
Qed.

Lemma kmalloc_fresh_witness : exists s rings x s' rings', kinv (inuse kmem_2G.(pm)) s rings /\
  kmalloc FUEL 4096 0 s = Some (x, s') /\ kinv (inuse kmem_2G.(pm)) s' rings' /\ x mod 32 = 0 /\ live_set s' = {[ x ]} ∪ live_set s.
Proof.
  destruct started_2G as (s & K & Hp).
  destruct (proj2 (kmalloc_fresh (inuse kmem_2G.(pm)) s no_rings K 4096 0) ltac:(lia) Hp) as
    (x & s' & rings' & i & E & K' & _ & _ & _ & _ & Ha & _ & _ & Hl & _).
  exists s, no_rings, x, s', rings'. split; [exact K|]. split; [exact E|]. split; [exact K'|]. split; [|exact Hl].
  rewrite Z.pow_add_r in Ha by lia. apply Z.mod_divide in Ha; [|nia]. destruct Ha as [z ->].
  rewrite Z.mul_assoc, (Z.mul_comm z), <- Z.mul_assoc, Z.mul_comm. change (2 ^ 5) with 32. apply Z_mod_mult.
Defined.

Lemma kfree_returns_witness : exists s x s', kfree FUEL (x + 5) s = Some (1, s') /\ x ∈ live_set s /\ live_set s' = live_set s ∖ {[ x ]}.
Proof.
  destruct started_2G as (s0 & K0 & Hp).
  destruct (kmalloc_live _ s0 no_rings 4096 K0 ltac:(lia) Hp) as (x & s & rings & i & _ & K & Hx).
  assert (0 <= 5 < 2 ^ (5 + Z.of_nat i)) as Ho.
  { assert (2 ^ 5 <= 2 ^ (5 + Z.of_nat i)) by (apply Z.pow_le_mono_r; lia). lia. }
  destruct (kfree_returns _ s rings K i x 5 Hx Ho) as (s' & rings' & E & _ & Hl & _).
  exists s, x, s'. split; [exact E|]. split; [|exact Hl]. apply (live_set_spec _ _ _ K). by exists i.
Defined.
